(* ===== verification/_CoqProject ===== *)
-Q . S2P
Prelude.v
RustStd.v
Foreign.v
Types.v
GmpTypes.v
Instances.v
CellCodec.v
Messages.v
OpCodes.v
MessageProofs.v
QueryId.v
QueryIdStore.v
WalletContract.v
TraceStore.v
Client.v
Subscriber.v
Cursor.v
RetryProofs.v
RetryQueue.v
Observer.v
Gas.v
Parsers.v
TraceParser.v
TraceProofs.v
EventIds.v
EventsComplete.v
Pairing.v
Forged.v
Wallet.v
TonFormat.v
FormatLaws.v
RecordedTraces.v
TestKit.v
CodecTests.v
TraceTests.v
Locks.v
Pool.v
Clients.v
Broadcaster.v
BroadcasterProofs.v
Posting.v
Wire.v
BroadcastDemo.v
World.v
Ingestor.v
UnitTests.v
BroadcastTests.v
WireDemo.v
Relay.v
Binaries.v
