(* ===== verification/Prelude.v ===== *)
(** * The Axelar relayer for TON: a verification library

    The repository is the TON side of a cross-chain relayer.  It watches
    contracts of a TON deployment (gateway, gas service, ITS), turns what they
    logged into events for the GMP API of Axelar, and carries out the tasks it
    gets back (approve, execute, refund) by sending messages from high-load
    wallets.  This library models the crate [src/src] in Rocq and proves what
    its parts promise.  Paths below are relative to [src/src/].

    ** The parts of the program and where they are modelled

    - [Prelude]: the outcome of a Rust function ([res]: [Ok], [Err] or a
      panic), functions over mutable state ([st]), the notations [let?] (the
      [?] operator), [let!] and [do!], the classes [ResSafe] and [StSafe] that
      find absence of panics from the shape of a function, the class [Moves]
      that finds along which steps a function takes its state, and shared
      lemmas.
    - [RustStd]: the parts of the Rust standard library the crate uses:
      integer widths, [parse], [from_str_radix], string searches, UTF-8.
    - [Foreign]: third-party crates as classes ([tonlib-core], [num-bigint],
      [hex], [base64], [tiny-keccak]) with their documented laws in separate
      classes; [Instances] has small executable instances that satisfy them.
    - [TonFormat], [FormatLaws]: the real formats behind those classes,
      executable (Base64, Keccak-256, addresses with their checksum, bags of
      cells, [HashmapE], the messages of [block.tlb]), and the proof that they
      keep the laws and read back what they write.
    - [Types], [GmpTypes]: [types.rs], [error.rs], [ton_constants.rs],
      [config.rs], and the types of [relayer_core] the crate fills in.
    - [CellCodec], [Messages], [MessageProofs]: [boc/], the byte chains
      ([buffer_to_cell], [cell_to]) and the decoders and encoders of messages.
    - [OpCodes]: the reader of op codes in [types.rs].
    - [QueryId], [QueryIdStore], [WalletContract]: [high_load_query_id.rs],
      [high_load_query_id_db_wrapper.rs], [models/ton_wallet_query_id.rs];
      [WalletContract] is the memory of the wallet's contract, whose code the
      module comment of the wrapper gives.
    - [TraceStore], [Client], [Subscriber], [Cursor], [RetryProofs],
      [RetryQueue], [Observer]: [models/ton_trace.rs], [client.rs],
      [subscriber.rs], [retry_subscriber.rs]: traces are polled from the RPC,
      stored, and handed on once; the cursor over many polls; the retries, of
      one trace and of the whole queue; the two subscribers interleaved, as a
      step relation on their shared table.
    - [Gas]: [gas_calculator.rs], [gas_estimator.rs].
    - [Parsers] (a Module per parser), [TraceParser], [TraceProofs],
      [EventsComplete], [EventIds], [Pairing], [Forged]: [transaction_parser/]:
      from a trace to events; [Pairing] states them from the transactions of the
      trace, one by one.
    - [Ingestor]: [ingestor.rs], which runs the trace parser and records the
      events, and [check_accounts.rs].
    - [Wallet], [Locks], [Pool], [Clients]: [ton_wallet_high_load_v3.rs],
      [out_action.rs], [lock_manager.rs], [wallet_manager.rs]; [Locks] runs
      clients over Redis, [Pool] counts the wallets in use, and [Clients]
      interleaves the processes request by request, their [SET]s and [DEL]s on
      Redis with the two queries of each call for a query id.
    - [Broadcaster], [BroadcasterProofs], [Posting], [Wire], [BroadcastDemo],
      [WireDemo]: [broadcaster.rs], with [includer.rs] (the broadcaster it
      builds) and [refund_manager.rs]; the retries and the locks, what is posted
      and reported, what the chain reads from it, and runs at concrete tasks.
    - [World]: the includer put together, the broadcaster over the Redis locks,
      the table of query ids and the client, for any sequence of tasks.
    - [Relay]: the watching half put together, a step relation over the traces
      table, the subscribers, the retries, the queue and the ingestor.
    - [Binaries]: [bin/] and [includer.rs]: each [main] as the log of what it
      does, on a host that decides what fails and when signals come.
    - [RecordedTraces], [TestKit], [CodecTests], [TraceTests], [UnitTests],
      [BroadcastTests]: the traces of [tests/data/v3_traces.json] and the unit
      tests of the crate, a definition per test, run on the models.

    Components meet at classes: the subscriber is proved against [RestClient],
    [AtomicUpsert] and [Database], the broadcaster against [LockManager],
    [HighLoadQueryIdWrapper], [RestClient] and [GasEstimator], with the laws of
    its world in two classes: [CallLaws] (which calls are made) and [LockLaws]
    (which locks are held); [World], for the Redis lock while no key expires,
    and [BroadcastDemo] discharge them.
    [TraceStore]
    discharges the laws of [AtomicUpsert] for the Postgres model, [Wallet]
    gives the Redis lock as a [LockManager], [Client] the RPC client as a
    [RestClient], and [Ingestor] takes the trace parser as its
    [TraceParserTrait].

    ** What the theorems show

    - From trace to events ([TraceProofs], [EventsComplete], [EventIds],
      [Pairing]): authenticity of every event, no transaction of the gateway and
      no log of the token service missed, which payment each call is credited
      with and that no payment for a call is dropped, the message id of each log,
      event ids distinct, gas shared among approvals, the amounts of credits in
      the native token, absence of panics; and where the program falls short: a
      duplicate payment is lost, and a trace of foreign transactions reports
      whatever message it names as not executable ([Forged]).
    - From task to message ([BroadcasterProofs], [Posting], [World],
      [MessageProofs], [CellCodec], [Wallet], [Locks]): what is posted for a
      prover, an execute or a refund task, down to the message that a reader of
      the real formats finds in the text ([Wire]), what is reported of it, the number
      of posts, that over any sequence of tasks the query ids posted for a
      wallet increase, the release of the wallet on every path, the layout and
      the round trips of the cells, mutual exclusion of the wallets and their
      recovery after a crash, that a free wallet is found ([Pool]); and the two
      ways in which a release or a refund goes wrong.
    - Query ids ([QueryId], [QueryIdStore], [WalletContract], [Clients],
      [World]): the ids are a counter, the database wrapper refines it, no id is
      used twice while the row lives; the contract of a wallet refuses an id
      surely up to [timeout] and never after [3 * timeout] since it took it, both
      bounds sharp, so that it executes every message of the includer exactly
      once if the ids restart late; the wrapper's own expiry is too early for
      that; several processes get from the wrapper what one would get, as long
      as each is done with a wallet within the 60 seconds of its lock, and not one
      second later.
    - Polling and recording ([Subscriber], [Cursor], [RetryProofs],
      [TraceStore], [Ingestor], [Client]): what a poll returns and stores, that
      a trace is handed on once, that the cursor goes forward, that retrying
      ends, and that a trace that becomes complete in time is handed on, that
      the events recorded are those returned, what the client's errors mean; how
      a failed store loses traces, for each of the two subscribers; that the
      retry queue drains when the client answers for all it is asked about
      ([RetryQueue]), and that traces it does not answer for block the others;
      and that the polls of the two subscribers, interleaved at will, refine an
      observer of the traces, lose only what failed polls had ready, and hand a
      content on at most once ([Observer]).
    - End to end ([Relay]): the rows of the traces table keep their form under
      any queries; whatever the parts do, in any order and with any failures,
      an event that is published comes from a complete trace of the chain and
      names it or a transaction of it; and a new complete trace can always be
      polled, parsed and published when nothing fails.
    - The processes ([Binaries]): with one configuration the four processes
      mean the same contracts and wallets; the includer stops in order on a
      signal; and it panics when it stops by itself.
    - Gas ([Gas]): the computation over the hash map is a sum that does not
      depend on orders; what is sent covers the estimate.
    - Agreement with the program: 130 of the 133 unit tests hold of the models,
      on the recorded cells, messages and traces ([CodecTests], [TraceTests],
      [BroadcastTests]).  Left out are the two on retries and timeouts of the
      HTTP transport, and one that asserts nothing.  A signature is taken from
      the recorded text, and a log line that a test looks for is the value the
      code logs.

    ** Choices of the model

    - Integers are [Z] at the width of their Rust type: additions and
      multiplications wrap ([wrap_u], [wrap_s]), as in a release build.
    - A panic is a value ([Panic]); the theorems on panics say when one is
      reached.  A panic of a body unwinds past the code after it.
    - A third-party or database call may fail: its failure is an input (the
      [fault] of a query, the result of a class's operation), and the theorems
      hold for every choice of failures unless they say otherwise.
    - The clock is an argument; one parse of a trace uses one time stamp for
      all its events, where the program reads the clock for each.
    - A Rust [HashMap] is a [gmap]; where its order matters (the wallets
      tried by [acquire]) the theorems hold for the order of the [gmap] and use
      nothing of it but that it lists the entries.
    - Logging, tracing spans and sleeps have no result and are left out.
    - In [TonFormat] the hash of a cell is a stand-in (the signature, its only
      use, is a parameter), the checksum of a bag of cells is not verified, and
      one holds fewer than 65536 cells: hence the bound on sizes in [Wire].
    - Fuel: [cell_to_buffer] walks a chain of references with the depth of the
      cell plus one as fuel, and [cell_to_buffer_go_total] shows that it is
      enough; [buffer_to_cell] has one level per byte, and
      [build_cell_chain_stores] shows the same; the string functions of
      [RustStd] use the length of the string.  [send_to_chain] needs none: it
      recurses on the number of retries left.  The endless loop of
      [check_accounts] is followed for a given number of rounds; the loops that
      [relayer_core] runs (polls, queues, tasks) are sequences of any length.

    ** What is not modelled

    The code of [relayer_core] that the binaries start (it is third-party: the
    loops of subscribers, ingestor, includer and distributor, the queues and
    the GMP API); signatures, decimals, HTTP, JSON, SQL and Redis, known by
    their interfaces; the derived readers of [serde], except
    [deserialize_hex_u32], so that the recorded traces are written out as
    values; the SQL migrations, whose defaults [TraceStore] and [QueryIdStore]
    write out; and module lists. *)

From Stdlib Require Import ZArith Lia.
From stdpp Require Import base strings gmap list relations.

(** ** Outcome of a Rust computation

    A Rust function returning [Result<A, E>] ends in one of three ways: [Ok],
    [Err], or a panic (an out-of-range index, [unimplemented!()], a failed
    [unwrap]). *)
Inductive res (E A : Type) : Type :=
| Ok (a : A)
| Err (e : E)
| Panic.
Arguments Ok {E A} a.
Arguments Err {E A} e.
Arguments Panic {E A}.

Declare Scope rust_scope.
Delimit Scope rust_scope with rust.
#[global] Open Scope rust_scope.

Section Outcome.
Context {E F A B C : Type}.

(** The [?] operator. *)
Definition res_bind (m : res E A) (f : A -> res E B) : res E B :=
  match m with
  | Ok a => f a
  | Err e => Err e
  | Panic => Panic
  end.

(** [Result::map]. *)
Definition res_map (f : A -> B) (m : res E A) : res E B :=
  match m with
  | Ok a => Ok (f a)
  | Err e => Err e
  | Panic => Panic
  end.

(** [Result::map_err]. *)
Definition map_err (g : E -> F) (m : res E A) : res F A :=
  match m with
  | Ok a => Ok a
  | Err e => Err (g e)
  | Panic => Panic
  end.

(** [Option::ok_or]. *)
Definition ok_or (e : E) (o : option A) : res E A :=
  match o with
  | Some a => Ok a
  | None => Err e
  end.

(** [Result::ok], on a result that did not panic. *)
Definition res_ok (m : res E A) : option A :=
  match m with
  | Ok a => Some a
  | _ => None
  end.

(** [v[i]] on a [Vec]: panics out of range. *)
Definition index (l : list A) (i : nat) : res E A :=
  match l !! i with
  | Some a => Ok a
  | None => Panic
  end.

Definition is_ok (m : res E A) : bool :=
  match m with Ok _ => true | _ => false end.

Definition panics (m : res E A) : bool :=
  match m with Panic => true | _ => false end.
End Outcome.

Notation "'let?' p := c 'in' k" := (res_bind c (fun p => k))
  (at level 10, p pattern, c at level 200, k at level 200,
   format "'[v' 'let?'  p  :=  c  'in' '/' k ']'") : rust_scope.

(** [iter.map(f).collect::<Result<Vec<_>, _>>()]: stops at the first error. *)
Fixpoint res_mapM {E A B} (f : A -> res E B) (l : list A) : res E (list B) :=
  match l with
  | [] => Ok []
  | a :: l' => let? b := f a in let? bs := res_mapM f l' in Ok (b :: bs)
  end.

(** [for a in l { acc = f(acc, a)? }]. *)
Fixpoint res_foldM {E A B} (f : B -> A -> res E B) (l : list A) (acc : B) : res E B :=
  match l with
  | [] => Ok acc
  | a :: l' => let? acc' := f acc a in res_foldM f l' acc'
  end.

(** ** Stateful computations

    [st S E A]: a Rust function with access to mutable state [S]; the state
    is kept when the function returns an error or panics. *)
Definition st (S E A : Type) : Type := S -> res E A * S.

Section Stateful.
Context {S E F A B : Type}.

Definition st_ret (a : A) : st S E A := fun s => (Ok a, s).

Definition st_err (e : E) : st S E A := fun s => (Err e, s).

Definition st_bind (m : st S E A) (f : A -> st S E B) : st S E B :=
  fun s =>
      match m s with
      | (Ok a, s') => f a s'
      | (Err e, s') => (Err e, s')
      | (Panic, s') => (Panic, s')
      end.

Definition st_lift (m : res E A) : st S E A := fun s => (m, s).

Definition st_get : st S E S := fun s => (Ok s, s).

Definition st_map_err (g : E -> F) (m : st S E A) : st S F A :=
  fun s => let '(r, s') := m s in (map_err g r, s').

(** The computation as a value: [match m.await { Ok(..) => .., Err(..) => .. }]. *)
Definition st_try (m : st S E A) : st S F (res E A) :=
  fun s => let '(r, s') := m s in
      match r with
      | Panic => (Panic, s')
      | _ => (Ok r, s')
      end.

(** Run on a state that is dropped afterwards. *)
Definition st_eval (m : st S E A) (s : S) : res E A := fst (m s).
End Stateful.

Notation "'let!' p := c 'in' k" := (st_bind c (fun p => k))
  (at level 10, p pattern, c at level 200, k at level 200,
   format "'[v' 'let!'  p  :=  c  'in' '/' k ']'") : rust_scope.

Notation "'do!' c 'in' k" := (st_bind c (fun _ => k))
  (at level 10, c at level 200, k at level 200,
   format "'[v' 'do!'  c  'in' '/' k ']'") : rust_scope.

(** ** Laws of the two monads *)

Create HintDb relayer discriminated.
Create Rewrite HintDb relayer.

Section ResLaws.
Context {E F A B C : Type}.

Lemma res_bind_assoc (m : res E A) (f : A -> res E B) (g : B -> res E C) :
  res_bind (res_bind m f) g = res_bind m (fun a => res_bind (f a) g).
Proof. by destruct m. Qed.

Lemma res_bind_ret (m : res E A) : res_bind m Ok = m.
Proof. by destruct m. Qed.

Lemma res_bind_Ok (m : res E A) (f : A -> res E B) b :
  res_bind m f = Ok b <-> exists a, m = Ok a /\ f a = Ok b.
Proof. destruct m; naive_solver. Qed.

Lemma res_bind_Err (m : res E A) (f : A -> res E B) e :
  res_bind m f = Err e <-> m = Err e \/ exists a, m = Ok a /\ f a = Err e.
Proof. destruct m; naive_solver. Qed.

Lemma res_bind_Panic (m : res E A) (f : A -> res E B) :
  res_bind m f = Panic <-> m = Panic \/ exists a, m = Ok a /\ f a = Panic.
Proof. destruct m; naive_solver. Qed.

Lemma map_err_Ok (g : E -> F) (m : res E A) a : map_err g m = Ok a <-> m = Ok a.
Proof. destruct m; naive_solver. Qed.

Lemma map_err_Panic (g : E -> F) (m : res E A) : map_err g m = Panic <-> m = Panic.
Proof. by destruct m. Qed.

Lemma map_err_Err (g : E -> F) (m : res E A) f :
  map_err g m = Err f <-> exists e, m = Err e /\ f = g e.
Proof. destruct m; naive_solver. Qed.

Lemma ok_or_Ok (e : E) (o : option A) a : ok_or e o = Ok a <-> o = Some a.
Proof. destruct o; naive_solver. Qed.

Lemma ok_or_Panic (e : E) (o : option A) : ok_or e o <> Panic.
Proof. by destruct o. Qed.

Lemma is_ok_true (m : res E A) : is_ok m = true <-> exists a, m = Ok a.
Proof. destruct m; naive_solver. Qed.

Lemma is_ok_map_err (g : E -> F) (m : res E A) : is_ok (map_err g m) = is_ok m.
Proof. by destruct m. Qed.

Lemma index_Ok (l : list A) i a : index (E:=E) l i = Ok a <-> l !! i = Some a.
Proof. unfold index. destruct (l !! i); naive_solver. Qed.

Lemma index_Panic (l : list A) i : index (E:=E) l i = Panic <-> l !! i = None.
Proof. unfold index. destruct (l !! i); naive_solver. Qed.
End ResLaws.

#[export] Hint Rewrite @res_bind_Ok @res_bind_Err @res_bind_Panic @map_err_Ok
  @map_err_Panic @map_err_Err @ok_or_Ok @index_Ok @index_Panic @is_ok_true
  @is_ok_map_err : relayer.
#[export] Hint Resolve ok_or_Panic : relayer.

(** Analyse every hypothesis that a chain of [?] ended in [Ok]. *)
Ltac res_inv :=
  repeat match goal with
  | H : res_bind _ _ = Ok _ |- _ =>
      apply res_bind_Ok in H; let a := fresh "a" in let H1 := fresh H in
      destruct H as (a & H1 & H)
  | H : map_err _ _ = Ok _ |- _ => apply map_err_Ok in H
  | H : ok_or _ _ = Ok _ |- _ => apply ok_or_Ok in H
  | H : index _ _ = Ok _ |- _ => apply index_Ok in H
  | H : Ok _ = Ok _ |- _ => injection H as H
  | H : Err _ = Ok _ |- _ => discriminate H
  | H : Panic = Ok _ |- _ => discriminate H
  end.

Section Lists.
Context {E A B : Type}.

Lemma res_mapM_Ok (f : A -> res E B) l bs :
  res_mapM f l = Ok bs <-> Forall2 (fun a b => f a = Ok b) l bs.
Proof.
  revert bs; induction l as [|a l IH]; intros bs; simpl.
  { split; [intros [= <-]; constructor | by inversion 1]. }
  rewrite res_bind_Ok. split.
  - intros (b & Hb & H). apply res_bind_Ok in H as (bs' & Hbs & [= <-]).
    constructor; [done | by apply IH].
  - inversion 1 as [|? b ? bs' Hb Hbs]; subst. exists b. split; [done|].
    apply IH in Hbs. by rewrite Hbs.
Qed.

Lemma res_mapM_no_panic (f : A -> res E B) l :
  (forall a, a ∈ l -> f a <> Panic) -> res_mapM f l <> Panic.
Proof.
  induction l as [|a l IH]; simpl; [done|]. intros Hf H.
  apply res_bind_Panic in H as [H|(b & Hb & H)].
  - by apply (Hf a); [left|].
  - apply res_bind_Panic in H as [H|(bs & _ & H)]; [|done].
    apply IH; [|done]. intros x Hx. apply Hf. by right.
Qed.

Lemma res_foldM_inv (P : B -> Prop) (f : B -> A -> res E B) l acc acc' :
  (forall b a b', P b -> f b a = Ok b' -> P b') ->
  P acc -> res_foldM f l acc = Ok acc' -> P acc'.
Proof.
  intros Hf. revert acc; induction l as [|a l IH]; intros acc HP H; simpl in H.
  - by injection H as <-.
  - apply res_bind_Ok in H as (b & Hb & H). eauto.
Qed.

Lemma res_foldM_inv_in (P : B -> Prop) (f : B -> A -> res E B) l acc acc' :
  (forall b a b', a ∈ l -> P b -> f b a = Ok b' -> P b') ->
  P acc -> res_foldM f l acc = Ok acc' -> P acc'.
Proof.
  revert acc; induction l as [|a l IH]; intros acc Hf HP H; simpl in H.
  - by injection H as <-.
  - apply res_bind_Ok in H as (b & Hb & H). apply (IH b); [|by eapply Hf; [left|..]|done].
    intros b1 a1 b2 Ha1. apply Hf. by right.
Qed.

Lemma res_foldM_no_panic (P : B -> Prop) (f : B -> A -> res E B) l acc :
  (forall b a, a ∈ l -> P b -> f b a <> Panic) ->
  (forall b a b', a ∈ l -> P b -> f b a = Ok b' -> P b') ->
  P acc -> res_foldM f l acc <> Panic.
Proof.
  revert acc; induction l as [|a l IH]; intros acc Hs Hf HP H; simpl in H; [done|].
  apply res_bind_Panic in H as [H|(b & Hb & H)].
  - by apply (Hs acc a); [left|..].
  - apply (IH b); [| |by eapply Hf; [left|..]|done].
    + intros b1 a1 Ha1. apply Hs. by right.
    + intros b1 a1 b2 Ha1. apply Hf. by right.
Qed.

End Lists.

Section StateLaws.
Context {S E F A B : Type}.

Lemma st_bind_run (m : st S E A) (f : A -> st S E B) s :
  st_bind m f s =
    match m s with (Ok a, s') => f a s' | (Err e, s') => (Err e, s') | (Panic, s') => (Panic, s') end.
Proof. done. Qed.

Lemma st_map_err_run (g : E -> F) (m : st S E A) s :
  st_map_err g m s = let '(r, s') := m s in (map_err g r, s').
Proof. done. Qed.

Lemma st_bind_Ok (m : st S E A) (f : A -> st S E B) s b s' :
  st_bind m f s = (Ok b, s') <-> exists a s1, m s = (Ok a, s1) /\ f a s1 = (Ok b, s').
Proof. unfold st_bind. destruct (m s) as [[]]; naive_solver. Qed.

Lemma st_eval_bind_panics (m : st S E A) (f : A -> st S E B) s :
  (forall s0, fst (m s0) <> Panic) -> (forall a s0, fst (f a s0) <> Panic) ->
  fst (st_bind m f s) <> Panic.
Proof.
  intros Hm Hf. unfold st_bind. specialize (Hm s).
  destruct (m s) as [[] s1]; simpl in *; naive_solver.
Qed.
End StateLaws.

Lemma bool_eq_iff (b1 b2 : bool) : (b1 = true <-> b2 = true) -> b1 = b2.
Proof. destruct b1, b2; naive_solver. Qed.

(** Sum of a list of integers. *)
Definition sumZ (l : list Z) : Z := foldr Z.add 0%Z l.

Lemma sumZ_app l1 l2 : sumZ (l1 ++ l2) = (sumZ l1 + sumZ l2)%Z.
Proof. induction l1; simpl; lia. Qed.

Lemma sumZ_permutation l1 l2 : l1 ≡ₚ l2 -> sumZ l1 = sumZ l2.
Proof. induction 1; simpl; lia. Qed.

#[export] Hint Rewrite @sumZ_app : relayer.

(** ** Absence of panics

    [ResSafe m]: the outcome is not a panic; [StSafe m]: no run of [m]
    panics.  Both are found by instance search from the shape of [m]. *)
Class ResSafe {E A} (m : res E A) : Prop := res_safe : m <> Panic.
Class StSafe {S E A} (m : st S E A) : Prop := st_safe : forall s, fst (m s) <> Panic.
#[export] Hint Mode ResSafe - - ! : typeclass_instances.
#[export] Hint Mode StSafe - - - ! : typeclass_instances.

Section Safe.
Context {S E F A B : Type}.

#[global] Instance ok_safe (a : A) : ResSafe (E:=E) (Ok a).
Proof. done. Qed.
#[global] Instance err_safe (e : E) : ResSafe (A:=A) (Err e).
Proof. done. Qed.
#[global] Instance ok_or_safe (e : E) (o : option A) : ResSafe (ok_or e o).
Proof. by destruct o. Qed.
#[global] Instance map_err_safe (g : E -> F) (m : res E A) : ResSafe m -> ResSafe (map_err g m).
Proof. unfold ResSafe. by destruct m. Qed.
#[global] Instance res_map_safe (g : A -> B) (m : res E A) : ResSafe m -> ResSafe (res_map g m).
Proof. unfold ResSafe. by destruct m. Qed.
#[global] Instance res_bind_safe (m : res E A) (f : A -> res E B) :
  ResSafe m -> (forall a, ResSafe (f a)) -> ResSafe (res_bind m f).
Proof. unfold ResSafe. destruct m; simpl; auto. Qed.
#[global] Instance res_if_safe (b : bool) (m1 m2 : res E A) :
  ResSafe m1 -> ResSafe m2 -> ResSafe (if b then m1 else m2).
Proof. by destruct b. Qed.
#[global] Instance res_decide_safe (P : Prop) (d : Decision P) (m1 m2 : res E A) :
  ResSafe m1 -> ResSafe m2 -> ResSafe (if decide P then m1 else m2).
Proof. unfold decide. by destruct d. Qed.
#[global] Instance res_option_safe (o : option A) (f : A -> res E B) (m : res E B) :
  (forall a, ResSafe (f a)) -> ResSafe m ->
  ResSafe (match o with Some a => f a | None => m end).
Proof. by destruct o. Qed.
#[global] Instance res_mapM_safe (f : A -> res E B) l :
  (forall a, ResSafe (f a)) -> ResSafe (res_mapM f l).
Proof. intros Hf. apply res_mapM_no_panic. intros a _. apply Hf. Qed.

#[global] Instance st_ret_safe (a : A) : StSafe (S:=S) (E:=E) (st_ret a).
Proof. by intros s. Qed.
#[global] Instance st_err_safe (e : E) : StSafe (S:=S) (A:=A) (st_err e).
Proof. by intros s. Qed.
#[global] Instance st_lift_safe (m : res E A) : ResSafe m -> StSafe (S:=S) (st_lift m).
Proof. by intros H s. Qed.
#[global] Instance st_bind_safe (m : st S E A) (f : A -> st S E B) :
  StSafe m -> (forall a, StSafe (f a)) -> StSafe (st_bind m f).
Proof. intros Hm Hf s. apply st_eval_bind_panics; [apply Hm|intros a s'; apply Hf]. Qed.
#[global] Instance st_if_safe (b : bool) (m1 m2 : st S E A) :
  StSafe m1 -> StSafe m2 -> StSafe (if b then m1 else m2).
Proof. by destruct b. Qed.
#[global] Instance st_decide_safe (P : Prop) (d : Decision P) (m1 m2 : st S E A) :
  StSafe m1 -> StSafe m2 -> StSafe (if decide P then m1 else m2).
Proof. unfold decide. by destruct d. Qed.
#[global] Instance st_map_err_safe (g : E -> F) (m : st S E A) :
  StSafe m -> StSafe (st_map_err g m).
Proof.
  intros Hm s. specialize (Hm s). unfold st_map_err.
  destruct (m s) as [[] s']; simpl in *; done.
Qed.
#[global] Instance st_eval_safe (m : st S E A) s : StSafe m -> ResSafe (st_eval m s).
Proof. intros Hm. apply Hm. Qed.
End Safe.

(** ** Moving the state

    [Moves R m]: every run of [m] takes the state along steps of [R], whatever
    its outcome.  Found by instance search from the shape of [m], once the
    primitive operations of a component are declared. *)
Class Moves {S E A} (R : relation S) (m : st S E A) : Prop :=
  moves s : rtc R s (snd (m s)).
#[export] Hint Mode Moves - - - ! ! : typeclass_instances.

Section Moves.
Context {S E F A B C : Type} (R : relation S).

#[global] Instance st_ret_moves (a : A) : Moves (E:=E) R (st_ret a).
Proof. by intros s. Qed.
#[global] Instance st_err_moves (e : E) : Moves (A:=A) R (st_err e).
Proof. by intros s. Qed.
#[global] Instance st_lift_moves (m : res E A) : Moves R (st_lift m).
Proof. by intros s. Qed.
#[global] Instance st_get_moves : Moves (E:=E) R st_get.
Proof. by intros s. Qed.
#[global] Instance st_bind_moves (m : st S E A) (f : A -> st S E B) :
  Moves R m -> (forall a, Moves R (f a)) -> Moves R (st_bind m f).
Proof.
  intros Hm Hf s. rewrite st_bind_run. specialize (Hm s).
  destruct (m s) as [[a|e|] s1]; cbn [snd] in *; [|done..].
  etransitivity; [exact Hm|apply Hf].
Qed.
(** A value computed on the way is known to what follows. *)
Lemma st_lift_bind_moves (m : res E A) (f : A -> st S E B) :
  (forall a, m = Ok a -> Moves R (f a)) -> Moves R (st_bind (st_lift m) f).
Proof. intros Hf s. rewrite st_bind_run. unfold st_lift. destruct m; cbn [snd]; [by apply Hf|done..]. Qed.
#[global] Instance st_map_err_moves (g : E -> F) (m : st S E A) :
  Moves R m -> Moves R (st_map_err g m).
Proof. intros Hm s. rewrite st_map_err_run. specialize (Hm s). by destruct (m s). Qed.
#[global] Instance st_try_moves (m : st S E A) : Moves R m -> Moves (E:=F) R (st_try m).
Proof. intros Hm s. unfold st_try. specialize (Hm s). by destruct (m s) as [[]]. Qed.
#[global] Instance st_decide_moves (P : Prop) (d : Decision P) (m1 m2 : st S E A) :
  Moves R m1 -> Moves R m2 -> Moves R (if decide P then m1 else m2).
Proof. unfold decide. by destruct d. Qed.
#[global] Instance st_if_moves (b : bool) (m1 m2 : st S E A) :
  Moves R m1 -> Moves R m2 -> Moves R (if b then m1 else m2).
Proof. by destruct b. Qed.
#[global] Instance st_pair_moves (x : A * B) (f : A -> B -> st S E C) :
  (forall a b, Moves R (f a b)) -> Moves R (let '(a, b) := x in f a b).
Proof. by destruct x. Qed.
End Moves.

(** What every step preserves, a run preserves. *)
Lemma rtc_invariant {S} (R : relation S) (I : S -> Prop) s s' :
  (forall s s', R s s' -> I s -> I s') -> rtc R s s' -> I s -> I s'.
Proof. intros HR. induction 1; eauto. Qed.

(** What every step leaves alone, a run leaves alone. *)
Lemma rtc_observe {S T} (R : relation S) (f : S -> T) s s' :
  (forall s s', R s s' -> f s' = f s) -> rtc R s s' -> f s' = f s.
Proof. intros HR. induction 1 as [|s s1 s2 H1 _ IH]; [done|]. rewrite IH. by apply HR. Qed.
