(* ===== verification/RustStd.v ===== *)
(** * The parts of the Rust language and standard library the relayer uses

    Machine integers at their width, [str::parse] for the integer types,
    [u32::from_str_radix], string slices and UTF-8.  A Rust [String] is a
    [string], the sequence of its UTF-8 bytes. *)

From Stdlib Require Import ZArith Lia Strings.Byte Strings.Ascii.
From stdpp Require Import base strings pretty countable list.
From S2P Require Import Prelude.

Open Scope Z_scope.

(** ** Machine integers *)

Definition wrap_u (w z : Z) : Z := z mod 2 ^ w.

Definition wrap_s (w z : Z) : Z := (z + 2 ^ (w - 1)) mod 2 ^ w - 2 ^ (w - 1).

Definition in_u (w z : Z) : Prop := 0 <= z < 2 ^ w.

Definition in_s (w z : Z) : Prop := - 2 ^ (w - 1) <= z < 2 ^ (w - 1).

Lemma wrap_u_range w z : 0 <= w -> in_u w (wrap_u w z).
Proof. intros. apply Z.mod_pos_bound. lia. Qed.

Lemma wrap_u_id w z : in_u w z -> wrap_u w z = z.
Proof. intros. by apply Z.mod_small. Qed.

Lemma wrap_s_range w z : 0 < w -> in_s w (wrap_s w z).
Proof.
  intros Hw. unfold in_s, wrap_s.
  pose proof (Z.mod_pos_bound (z + 2 ^ (w - 1)) (2 ^ w) ltac:(lia)).
  assert (2 ^ w = 2 * 2 ^ (w - 1)) by (rewrite <- Z.pow_succ_r by lia; f_equal; lia).
  lia.
Qed.

Lemma wrap_s_id w z : 0 < w -> in_s w z -> wrap_s w z = z.
Proof.
  intros Hw [H1 H2]. unfold wrap_s.
  assert (2 ^ w = 2 * 2 ^ (w - 1)) by (rewrite <- Z.pow_succ_r by lia; f_equal; lia).
  rewrite Z.mod_small; lia.
Qed.

Lemma wrap_u_wrap_u w z : 0 <= w -> wrap_u w (wrap_u w z) = wrap_u w z.
Proof. intros. apply wrap_u_id, wrap_u_range. done. Qed.

(** Signed wrap-around is a ring morphism modulo [2^w]. *)
Lemma wrap_s_mod w z : 0 < w -> wrap_s w z mod 2 ^ w = z mod 2 ^ w.
Proof.
  intros. unfold wrap_s. rewrite Zminus_mod, Z.mod_mod, <- Zminus_mod by lia.
  f_equal. lia.
Qed.

Lemma wrap_s_congr w a b : a mod 2 ^ w = b mod 2 ^ w -> wrap_s w a = wrap_s w b.
Proof.
  intros H. unfold wrap_s.
  by rewrite (Zplus_mod a), (Zplus_mod b), H.
Qed.

Lemma wrap_s_add_l w a b : 0 < w -> wrap_s w (wrap_s w a + b) = wrap_s w (a + b).
Proof.
  intros. apply wrap_s_congr.
  by rewrite Zplus_mod, wrap_s_mod, <- Zplus_mod by lia.
Qed.

Lemma wrap_s_add_r w a b : 0 < w -> wrap_s w (a + wrap_s w b) = wrap_s w (a + b).
Proof. intros. by rewrite Z.add_comm, wrap_s_add_l, Z.add_comm. Qed.

Definition u64_max : Z := 2 ^ 64 - 1.

(** ** Parsing integers *)

Definition char_code (c : ascii) : Z := Z.of_N (Ascii.N_of_ascii c).

(** [char::to_digit]. *)
Definition to_digit (radix : Z) (c : ascii) : option Z :=
  let n := char_code c in
  let d :=
    if decide (48 <= n <= 57) then Some (n - 48)
    else if decide (97 <= n <= 122) then Some (n - 97 + 10)
    else if decide (65 <= n <= 90) then Some (n - 65 + 10)
    else None in
  match d with
  | Some v => if decide (v < radix) then Some v else None
  | None => None
  end.

(** The digits of [s], most significant first, after the value [acc]. *)
Fixpoint parse_digits (radix : Z) (s : string) (acc : Z) : option Z :=
  match s with
  | EmptyString => Some acc
  | String c s' =>
      match to_digit radix c with
      | Some d => parse_digits radix s' (acc * radix + d)
      | None => None
      end
  end.

Inductive int_error : Set :=
| IntEmpty
| InvalidDigit
| PosOverflow
| NegOverflow.

(** [impl Display for ParseIntError]. *)
Definition int_error_to_string (e : int_error) : string :=
  match e with
  | IntEmpty => "cannot parse integer from empty string"
  | InvalidDigit => "invalid digit found in string"
  | PosOverflow => "number too large to fit in target type"
  | NegOverflow => "number too small to fit in target type"
  end.

(** [from_str_radix] of an integer type with values [lo .. hi]: an optional
    sign ([-] only when the type is signed), then at least one digit. *)
Definition int_from_str_radix (radix lo hi : Z) (s : string) : res int_error Z :=
  let finish (neg : bool) (body : string) : res int_error Z :=
    match body with
    | EmptyString => Err InvalidDigit
    | _ =>
        match parse_digits radix body 0 with
        | None => Err InvalidDigit
        | Some v =>
            let v' := if neg then - v else v in
            if decide (v' > hi) then Err PosOverflow
            else if decide (v' < lo) then Err NegOverflow
            else Ok v'
        end
    end in
  match s with
  | EmptyString => Err IntEmpty
  | String c s' =>
      if decide (c = "+"%char) then finish false s'
      else if decide (c = "-"%char) then
        (if decide (lo < 0) then finish true s' else Err InvalidDigit)
      else finish false s
  end.

Definition u32_from_str_radix16 : string -> res int_error Z :=
  int_from_str_radix 16 0 (2 ^ 32 - 1).

Definition u64_from_str : string -> res int_error Z :=
  int_from_str_radix 10 0 (2 ^ 64 - 1).

Definition i64_from_str : string -> res int_error Z :=
  int_from_str_radix 10 (- 2 ^ 63) (2 ^ 63 - 1).

Definition i128_from_str : string -> res int_error Z :=
  int_from_str_radix 10 (- 2 ^ 127) (2 ^ 127 - 1).

(** [Result::unwrap_or]. *)
Definition unwrap_or {E A} (d : A) (m : res E A) : A :=
  match m with Ok a => a | _ => d end.

Lemma int_from_str_radix_range radix lo hi s v :
  int_from_str_radix radix lo hi s = Ok v -> lo <= v <= hi.
Proof.
  unfold int_from_str_radix. intros H.
  repeat (case_match; try discriminate); simplify_eq; lia.
Qed.

Lemma int_from_str_radix_no_panic radix lo hi s :
  int_from_str_radix radix lo hi s <> Panic.
Proof. unfold int_from_str_radix. repeat case_match; done. Qed.

Lemma i128_unwrap_range s : in_s 128 (unwrap_or 0 (i128_from_str s)).
Proof.
  unfold in_s. change (128 - 1) with 127.
  destruct (i128_from_str s) as [v| |] eqn:H; simpl; [|lia..].
  apply int_from_str_radix_range in H. lia.
Qed.

Lemma u64_from_str_range s v : u64_from_str s = Ok v -> in_u 64 v.
Proof. intros H%int_from_str_radix_range. unfold in_u. lia. Qed.

(** ** Decimal rendering ([to_string] on integers) *)

Definition z_to_string (z : Z) : string := pretty z.

Lemma parse_digits_app radix s1 s2 acc :
  parse_digits radix (s1 +:+ s2) acc =
  match parse_digits radix s1 acc with
  | Some v => parse_digits radix s2 v
  | None => None
  end.
Proof.
  revert acc; induction s1 as [|c s1 IH]; intros acc; simpl; [done|].
  destruct (to_digit radix c); [apply IH | done].
Qed.

Example u64_from_str_ok : u64_from_str "18446744073709551615" = Ok (2 ^ 64 - 1).
Proof. reflexivity. Qed.

Example u64_from_str_over : u64_from_str "18446744073709551616" = Err PosOverflow.
Proof. reflexivity. Qed.

Example u64_from_str_sign :
  u64_from_str "+7" = Ok 7 /\ u64_from_str "-0" = Err InvalidDigit /\
  i128_from_str "-5" = Ok (-5) /\ u64_from_str "" = Err IntEmpty.
Proof. repeat split. Qed.

(** *** [to_string] then [parse] gives the number back *)

Lemma to_digit_pretty x :
  (x < 10)%N -> to_digit 10 (pretty_N_char x) = Some (Z.of_N x).
Proof.
  intros. assert (x = 0 \/ x = 1 \/ x = 2 \/ x = 3 \/ x = 4 \/ x = 5 \/ x = 6 \/
    x = 7 \/ x = 8 \/ x = 9)%N by lia.
  destruct_or!; subst; reflexivity.
Qed.

Lemma parse_digits_pretty_go x s :
  (0 < x)%N -> parse_digits 10 (pretty_N_go x s) 0 = parse_digits 10 s (Z.of_N x).
Proof.
  revert s; induction (N.lt_wf_0 x) as [x _ IH]; intros s Hx.
  rewrite pretty_N_go_step by done.
  destruct (decide (x / 10 = 0)%N) as [Hz|Hz].
  - rewrite Hz. assert (x < 10)%N by (apply N.div_small_iff in Hz; lia).
    rewrite pretty_N_go_0. cbn [parse_digits].
    rewrite N.mod_small, to_digit_pretty by done. done.
  - rewrite IH; [|apply N.div_lt; lia|by apply N.neq_0_lt_0]. cbn [parse_digits].
    rewrite to_digit_pretty by (apply N.mod_upper_bound; lia).
    f_equal. rewrite (N.div_mod' x 10) at 3. lia.
Qed.

Lemma parse_digits_pretty (x : N) : parse_digits 10 (pretty x) 0 = Some (Z.of_N x).
Proof.
  unfold pretty, pretty_N. case_decide; subst; [done|].
  rewrite parse_digits_pretty_go by lia. done.
Qed.

(** The first character of a rendered number is a digit. *)
Lemma pretty_N_go_head x s c s' :
  pretty_N_go x s = String c s' ->
  (exists y, (y < 10)%N /\ c = pretty_N_char y) \/ s = String c s'.
Proof.
  revert s; induction (N.lt_wf_0 x) as [x _ IH]; intros s.
  destruct (decide (x = 0)%N) as [->|Hx]; [rewrite pretty_N_go_0; by right|].
  rewrite pretty_N_go_step by lia. intros H.
  apply IH in H as [H|H]; [by left| |apply N.div_lt; lia].
  injection H as <- <-. left. exists (x mod 10)%N. split; [apply N.mod_upper_bound; lia|done].
Qed.

Lemma pretty_N_head (x : N) :
  exists y s, (y < 10)%N /\ (pretty x : string) = String (pretty_N_char y) s.
Proof.
  unfold pretty, pretty_N. case_decide as Hx; [by exists 0%N, ""|].
  destruct (pretty_N_go x "") as [|c s] eqn:E.
  - assert (H : parse_digits 10 (pretty_N_go x "") 0 = Some (Z.of_N x))
      by (rewrite parse_digits_pretty_go by lia; done).
    rewrite E in H. simpl in H. injection H. lia.
  - apply pretty_N_go_head in E as [(y & Hy & ->)|E]; [eauto|done].
Qed.

Lemma int_from_to_string lo hi z :
  0 <= z <= hi -> lo <= 0 -> int_from_str_radix 10 lo hi (z_to_string z) = Ok z.
Proof.
  intros Hz Hlo. unfold z_to_string, pretty, pretty_Z.
  assert (exists x : N, (match z with Z0 => "0" | Zpos x => pretty x
    | Zneg x => "-" +:+ pretty x end : string) = pretty x /\ z = Z.of_N x) as (x & -> & ->).
  { destruct z as [|p|p]; [by exists 0%N|by exists (Npos p)|lia]. }
  pose proof (parse_digits_pretty x) as Hp.
  destruct (pretty_N_head x) as (y & s & Hy & Hs). rewrite Hs in Hp |- *.
  unfold int_from_str_radix.
  assert (pretty_N_char y <> "+"%char /\ pretty_N_char y <> "-"%char) as [Hplus Hminus].
  { assert (y = 0 \/ y = 1 \/ y = 2 \/ y = 3 \/ y = 4 \/ y = 5 \/ y = 6 \/
      y = 7 \/ y = 8 \/ y = 9)%N by lia. destruct_or!; subst; done. }
  rewrite !decide_False by done. rewrite Hp.
  rewrite !decide_False by lia. done.
Qed.

Lemma u64_to_string_from_str z : in_u 64 z -> u64_from_str (z_to_string z) = Ok z.
Proof. unfold in_u, u64_from_str. intros. apply int_from_to_string; lia. Qed.

(** ** String slices *)

(** [str::strip_prefix]. *)
Fixpoint strip_prefix (p s : string) : option string :=
  match p, s with
  | EmptyString, _ => Some s
  | String a p', String b s' => if decide (a = b) then strip_prefix p' s' else None
  | String _ _, EmptyString => None
  end.

(** [str::starts_with]. *)
Definition starts_with (p s : string) : bool :=
  match strip_prefix p s with Some _ => true | None => false end.

(** [str::trim_start_matches(p)] for a non-empty [p]: the prefix is removed
    as long as it is there, at most [String.length s] times. *)
Fixpoint trim_start_matches_go (fuel : nat) (p s : string) : string :=
  match fuel with
  | O => s
  | S fuel' =>
      match strip_prefix p s with
      | Some s' => trim_start_matches_go fuel' p s'
      | None => s
      end
  end.

Definition trim_start_matches (p s : string) : string :=
  trim_start_matches_go (String.length s) p s.

(** [str::trim_end_matches(c)] for a character. *)
Fixpoint trim_end_matches (c : ascii) (s : string) : string :=
  match s with
  | EmptyString => EmptyString
  | String a s' =>
      match trim_end_matches c s' with
      | EmptyString => if decide (a = c) then EmptyString else String a EmptyString
      | t => String a t
      end
  end.

(** [str::contains]. *)
Fixpoint str_contains (p s : string) : bool :=
  starts_with p s ||
  match s with
  | EmptyString => false
  | String _ s' => str_contains p s'
  end.

(** [str::replace(p, to)] for a non-empty [p]: every non-overlapping match,
    left to right. *)
Fixpoint str_replace_go (fuel : nat) (p to s : string) : string :=
  match fuel with
  | O => s
  | S fuel' =>
      match strip_prefix p s with
      | Some s' => to +:+ str_replace_go fuel' p to s'
      | None =>
          match s with
          | EmptyString => EmptyString
          | String c s' => String c (str_replace_go fuel' p to s')
          end
      end
  end.

Definition str_replace (p to s : string) : string :=
  str_replace_go (S (String.length s)) p to s.

(** [str::repeat]. *)
Fixpoint str_repeat (s : string) (n : nat) : string :=
  match n with
  | O => EmptyString
  | S n' => s +:+ str_repeat s n'
  end.

Lemma strip_prefix_Some p s s' : strip_prefix p s = Some s' <-> s = p +:+ s'.
Proof.
  revert s; induction p as [|a p IH]; intros s; simpl.
  { split; [by intros [= ->] | by intros ->]. }
  destruct s as [|b s]; [done|]. case_decide as Hab.
  - rewrite IH, Hab. split; [by intros -> | by intros [= ->]].
  - split; [done|]. intros [= ->]. done.
Qed.

Lemma starts_with_true p s : starts_with p s = true <-> exists t, s = p +:+ t.
Proof.
  unfold starts_with. destruct (strip_prefix p s) as [t|] eqn:E.
  - apply strip_prefix_Some in E. split; [by exists t|done].
  - split; [done|]. intros (t & H%strip_prefix_Some). congruence.
Qed.

Lemma str_contains_spec p s :
  str_contains p s = true <-> exists s1 s2, s = s1 +:+ (p +:+ s2).
Proof.
  induction s as [|c s IH]; cbn [str_contains]; rewrite orb_true_iff, starts_with_true.
  - split.
    + intros [(t & ->)|[=]]. by exists "", t.
    + intros (s1 & s2 & H). left. exists s2. by destruct s1.
  - rewrite IH. split.
    + intros [(t & ->)|(s1 & s2 & ->)]; [by exists "", t | by exists (String c s1), s2].
    + intros (s1 & s2 & H). destruct s1 as [|c' s1].
      * left. by exists s2.
      * right. injection H as -> ->. by exists s1, s2.
Qed.

(** ** Bytes and UTF-8 *)

#[export] Instance byte_eq_dec : EqDecision byte := Byte.byte_eq_dec.

#[export, program] Instance byte_countable : Countable byte :=
  inj_countable Byte.to_N Byte.of_N _.
Next Obligation. apply Byte.of_to_N. Qed.

Definition byte_val (b : byte) : Z := Z.of_N (Byte.to_N b).

(** [z as u8]. *)
Definition byte_of (z : Z) : byte :=
  match Byte.of_N (Z.to_N (z mod 256)) with
  | Some b => b
  | None => "000"%byte
  end.

Lemma byte_val_range b : 0 <= byte_val b < 256.
Proof. unfold byte_val. pose proof (Byte.to_N_bounded b). lia. Qed.

Lemma byte_of_val b : byte_of (byte_val b) = b.
Proof.
  unfold byte_of. rewrite Z.mod_small by apply byte_val_range.
  unfold byte_val. by rewrite N2Z.id, Byte.of_to_N.
Qed.

Lemma byte_val_of z : byte_val (byte_of z) = z mod 256.
Proof.
  unfold byte_of. pose proof (Z.mod_pos_bound z 256 ltac:(lia)) as Hz.
  destruct (Byte.of_N (Z.to_N (z mod 256))) as [b|] eqn:E.
  - apply Byte.to_of_N in E. unfold byte_val. rewrite E. lia.
  - apply Byte.of_N_None_iff in E. lia.
Qed.

#[export] Instance byte_val_inj : Inj (=) (=) byte_val.
Proof. intros a b H. by rewrite <- (byte_of_val a), H, byte_of_val. Qed.

(** [String::as_bytes] and the bytes as a string. *)
Definition as_bytes (s : string) : list byte := String.list_byte_of_string s.

Definition string_of_bytes (l : list byte) : string := String.string_of_list_byte l.

Lemma string_of_as_bytes s : string_of_bytes (as_bytes s) = s.
Proof. apply String.string_of_list_byte_of_string. Qed.

Lemma as_bytes_of_string l : as_bytes (string_of_bytes l) = l.
Proof. apply String.list_byte_of_string_of_list_byte. Qed.

(** [u32::from_be_bytes] and [BigUint::from_bytes_be]: big-endian value. *)
Definition from_be_bytes (l : list byte) : Z :=
  foldl (fun acc b => acc * 256 + byte_val b) 0 l.

Lemma from_be_bytes_snoc l b : from_be_bytes (l ++ [b]) = from_be_bytes l * 256 + byte_val b.
Proof. unfold from_be_bytes. by rewrite foldl_app. Qed.

Lemma from_be_bytes_bound l : 0 <= from_be_bytes l < 256 ^ Z.of_nat (length l).
Proof.
  induction l as [|b l IH] using rev_ind; [done|].
  rewrite from_be_bytes_snoc, length_app. simpl.
  pose proof (byte_val_range b).
  replace (Z.of_nat (length l + 1)) with (Z.succ (Z.of_nat (length l))) by lia.
  rewrite Z.pow_succ_r by lia. nia.
Qed.

Definition in_range (lo hi b : Z) : bool := (lo <=? b) && (b <=? hi).

(** The lead byte fixes the range of the second byte and the number of
    continuation bytes. *)
Definition utf8_lead (b : Z) : option (Z * Z * nat) :=
  if in_range 0xC2 0xDF b then Some (0x80, 0xBF, 1%nat)
  else if b =? 0xE0 then Some (0xA0, 0xBF, 2%nat)
  else if b =? 0xED then Some (0x80, 0x9F, 2%nat)
  else if in_range 0xE1 0xEF b then Some (0x80, 0xBF, 2%nat)
  else if b =? 0xF0 then Some (0x90, 0xBF, 3%nat)
  else if in_range 0xF1 0xF3 b then Some (0x80, 0xBF, 3%nat)
  else if b =? 0xF4 then Some (0x80, 0x8F, 3%nat)
  else None.

(** Number of continuation bytes at the front of [l], at most [k]. *)
Fixpoint cont_run (k : nat) (l : list byte) : nat :=
  match k, l with
  | S k', b :: l' => if in_range 0x80 0xBF (byte_val b) then S (cont_run k' l') else O
  | _, _ => O
  end.

(** The first character of [b :: l] (valid or not) and its length in bytes;
    an invalid one is the longest prefix of a valid sequence, or one byte. *)
Definition utf8_first (b : byte) (l : list byte) : bool * nat :=
  if byte_val b <? 0x80 then (true, 1%nat)
  else
    match utf8_lead (byte_val b) with
    | None => (false, 1%nat)
    | Some (lo, hi, k) =>
        match l with
        | [] => (false, 1%nat)
        | b1 :: l1 =>
            if in_range lo hi (byte_val b1) then
              let n := cont_run (k - 1) l1 in
              ((n =? k - 1)%nat, (2 + n)%nat)
            else (false, 1%nat)
        end
    end.

(** [Utf8Chunks]: the characters of a byte string, each with its validity. *)
Fixpoint utf8_chars_go (fuel : nat) (l : list byte) : list (bool * list byte) :=
  match fuel, l with
  | S fuel', b :: l' =>
      let '(ok, n) := utf8_first b l' in
      (ok, take n l) :: utf8_chars_go fuel' (drop n l)
  | _, _ => []
  end.

Definition utf8_chars (l : list byte) : list (bool * list byte) :=
  utf8_chars_go (length l) l.

Definition utf8_valid (l : list byte) : bool := forallb fst (utf8_chars l).

(** [String::from_utf8]; the error carries its message. *)
Definition string_from_utf8 (l : list byte) : res string string :=
  if utf8_valid l then Ok (string_of_bytes l) else Err "invalid utf-8 sequence".

(** [String::from_utf8_lossy]: U+FFFD for every invalid sequence. *)
Definition replacement : list byte := [byte_of 0xEF; byte_of 0xBF; byte_of 0xBD].

Definition from_utf8_lossy (l : list byte) : list byte :=
  concat (map (fun '(ok, c) => if (ok : bool) then c else replacement) (utf8_chars l)).

(** [char::is_control]: U+0000..U+001F, U+007F..U+009F. *)
Definition char_is_control (c : list byte) : bool :=
  match c with
  | [b] => (byte_val b <? 0x20) || (byte_val b =? 0x7F)
  | [b0; b1] => (byte_val b0 =? 0xC2) && in_range 0x80 0x9F (byte_val b1)
  | _ => false
  end.
