(* ===== verification/Foreign.v ===== *)
(** * Interfaces of the third-party crates

    The relayer calls [tonlib-core] (addresses, cells, bag-of-cells parsing),
    [num-bigint], [hex], [base64], [tiny-keccak], [nacl] and [rust_decimal].
    Their code is not part of the repository, so every operation the relayer
    uses is a field of a class here, and the development is parametric in the
    classes.  What the relayer relies on is a separate class of laws
    ([...Laws]), used only by the theorems that name it.

    A third-party [Result] is an [fres]: a value, or an error known by its
    two renderings ([to_string()] and [{:?}]).  A [BigUint] is an [N], the
    number it denotes. *)

From Stdlib Require Import ZArith Lia Strings.Byte Strings.Ascii.
From stdpp Require Import base strings countable list.
From S2P Require Import Prelude RustStd.

Record ferr := FErr { fe_display : string; fe_debug : string }.

Definition fres (A : Type) : Type := (ferr + A)%type.

(** A third-party result inside the outcome monad; it never panics. *)
Definition fr {A} (m : fres A) : res ferr A :=
  match m with inl e => Err e | inr a => Ok a end.

Lemma fr_no_panic {A} (m : fres A) : fr m <> Panic.
Proof. by destruct m. Qed.

Lemma fr_Ok {A} (m : fres A) a : fr m = Ok a <-> m = inr a.
Proof. destruct m; simpl; split; congruence. Qed.

#[export] Hint Resolve fr_no_panic : relayer.
#[export] Hint Rewrite @fr_Ok : relayer.

(** ** Bits *)

(** The [n] low bits of [v], most significant first. *)
Fixpoint bits_of_N (n : nat) (v : N) : list bool :=
  match n with
  | O => []
  | S n' => bits_of_N n' (N.div2 v) ++ [N.odd v]
  end.

Definition N_of_bits (l : list bool) : N :=
  foldl (fun acc b => 2 * acc + (if b : bool then 1 else 0))%N 0%N l.

Definition byte_bits (b : byte) : list bool := bits_of_N 8 (Byte.to_N b).

Definition bytes_bits (l : list byte) : list bool := concat (map byte_bits l).

Lemma length_bits_of_N n v : length (bits_of_N n v) = n.
Proof. revert v; induction n; intros v; simpl; [done|]. rewrite length_app, IHn. simpl. lia. Qed.

Lemma N_of_bits_snoc l b : N_of_bits (l ++ [b]) = (2 * N_of_bits l + if b then 1 else 0)%N.
Proof. unfold N_of_bits. by rewrite foldl_app. Qed.

Lemma N_of_bits_of_N n v : (v < 2 ^ N.of_nat n)%N -> N_of_bits (bits_of_N n v) = v.
Proof.
  revert v; induction n as [|n IH]; intros v Hv; simpl.
  - change (2 ^ N.of_nat 0)%N with 1%N in Hv. unfold N_of_bits. simpl. lia.
  - rewrite N_of_bits_snoc, IH.
    + symmetry. apply N.div2_odd.
    + rewrite Nat2N.inj_succ, N.pow_succ_r' in Hv.
      rewrite N.div2_div. apply N.Div0.div_lt_upper_bound. lia.
Qed.

Lemma length_bytes_bits l : length (bytes_bits l) = (8 * length l)%nat.
Proof.
  induction l as [|b l IH]; [done|]. unfold bytes_bits in *. cbn [map concat].
  rewrite length_app, IH. unfold byte_bits. rewrite length_bits_of_N. simpl. lia.
Qed.

(** ** [num-bigint] *)

Class BigUintLib := {
  BigUint_from_str : string -> fres N;
  BigUint_to_string : N -> string;
  BigUint_to_str_radix16 : N -> string;
  BigUint_to_bytes_be : N -> list byte;
}.

(** Documented: [to_string] and [FromStr] are inverse, [to_bytes_be] is the
    non-empty big-endian representation, [to_str_radix] has no leading zero. *)
Class BigUintLaws `{BigUintLib} : Prop := {
  BigUint_from_to_string n : BigUint_from_str (BigUint_to_string n) = inr n;
  BigUint_bytes_be_nonempty n : BigUint_to_bytes_be n <> [];
  BigUint_bytes_be_value n : from_be_bytes (BigUint_to_bytes_be n) = Z.of_N n;
}.

(** ** [hex], [base64], [tiny-keccak] *)

Class CodecLib := {
  hex_encode : list byte -> string;
  hex_decode : string -> fres (list byte);
  base64_encode : list byte -> string;
  base64_decode : string -> fres (list byte);
  keccak256 : list byte -> list byte;
}.

Definition hex_digit (n : N) : ascii :=
  if (n <? 10)%N then Ascii.ascii_of_N (48 + n) else Ascii.ascii_of_N (87 + n).

(** Two lower-case digits per byte, high nibble first. *)
Fixpoint hex_lower (l : list byte) : string :=
  match l with
  | [] => ""
  | b :: l' =>
      String (hex_digit (Byte.to_N b / 16))
        (String (hex_digit (Byte.to_N b mod 16)) (hex_lower l'))
  end.

(** Documented: [hex::encode] is lower-case hex; decoding inverts encoding;
    Keccak-256 has 32 bytes of output. *)
Class CodecLaws `{CodecLib} : Prop := {
  hex_encode_spec l : hex_encode l = hex_lower l;
  hex_decode_encode l : hex_decode (hex_encode l) = inr l;
  base64_decode_encode l : base64_decode (base64_encode l) = inr l;
  keccak256_length l : length (keccak256 l) = 32%nat;
}.

(** ** [tonlib-core]: addresses and hashes *)

Class TonAddressLib := {
  TonHash : Type;
  TonHash_eq_dec :: EqDecision TonHash;
  TonHash_from_bytes : list byte -> TonHash; (* From<[u8; 32]> *)
  TonHash_to_bytes : TonHash -> list byte; (* to_vec, as_slice *)
  TonHash_try_from_vec : list byte -> option TonHash;
  TonHash_from_hex : string -> fres TonHash;
  TonHash_to_string : TonHash -> string;
  TonAddress : Type;
  TonAddress_eq_dec :: EqDecision TonAddress;
  TonAddress_countable :: Countable TonAddress;
  TonAddress_new : Z -> TonHash -> TonAddress;
  TonAddress_NULL : TonAddress;
  TonAddress_hash_part : TonAddress -> TonHash;
  TonAddress_to_string : TonAddress -> string;
  TonAddress_to_hex : TonAddress -> string;
  TonAddress_from_str : string -> fres TonAddress;
  TonAddress_from_hex_str : string -> fres TonAddress;
  TonAddress_from_base64_url : string -> fres TonAddress;
}.

(** ** [tonlib-core]: cells *)

(** The data of an internal message, with the fields the relayer fills. *)
Record InternalMessage `{TonAddressLib} := {
  im_ihr_disabled : bool;
  im_bounce : bool;
  im_bounced : bool;
  im_src : TonAddress;
  im_dest : TonAddress;
  im_value : N;
  im_ihr_fee : N;
  im_fwd_fee : N;
  im_created_lt : Z;
  im_created_at : Z;
}.

Class CellLib `{TonAddressLib} := {
  Cell : Type;
  CellParser : Type;
  CellBuilder : Type;
  Cell_from_boc_b64 : string -> fres Cell;
  Cell_from_boc_hex : string -> fres Cell;
  Cell_to_boc_hex : Cell -> fres string; (* to_boc_hex(true) *)
  Cell_data : Cell -> list byte;
  Cell_hash : Cell -> TonHash;
  Cell_depth : Cell -> nat; (* height of the tree of references *)
  Cell_parser : Cell -> CellParser;
  Arc_from_cell : Cell -> fres Cell;
  load_bits : nat -> CellParser -> fres (list byte) * CellParser;
  load_uint : nat -> CellParser -> fres N * CellParser;
  load_u8 : nat -> CellParser -> fres Z * CellParser;
  load_i16 : nat -> CellParser -> fres Z * CellParser;
  load_address : CellParser -> fres TonAddress * CellParser;
  load_coins : CellParser -> fres N * CellParser;
  load_tonhash : CellParser -> fres TonHash * CellParser;
  next_reference : CellParser -> fres Cell * CellParser;
  (* load_dict(16, key_reader_u8, val_reader_ref_cell), in iteration order *)
  load_dict_u8_ref : nat -> CellParser -> fres (list (Z * Cell)) * CellParser;
  CellBuilder_new : CellBuilder;
  store_uint : nat -> N -> CellBuilder -> fres CellBuilder;
  store_u32 : nat -> Z -> CellBuilder -> fres CellBuilder;
  store_u64 : nat -> Z -> CellBuilder -> fres CellBuilder;
  store_u8 : nat -> Z -> CellBuilder -> fres CellBuilder;
  store_int : nat -> Z -> CellBuilder -> fres CellBuilder;
  store_number : nat -> Z -> CellBuilder -> fres CellBuilder;
  store_slice : list byte -> CellBuilder -> fres CellBuilder;
  store_address : TonAddress -> CellBuilder -> fres CellBuilder;
  store_coins : N -> CellBuilder -> fres CellBuilder;
  store_tonhash : TonHash -> CellBuilder -> fres CellBuilder;
  store_reference : Cell -> CellBuilder -> fres CellBuilder;
  build : CellBuilder -> fres Cell;
}.

(** What a parser still has to read and what a builder holds: data bits and
    references.  A cell has at most 1023 bits and 4 references. *)
Class CellView `{CellLib} := {
  cell_bits : Cell -> list bool;
  cell_refs : Cell -> list Cell;
  parser_bits : CellParser -> list bool;
  parser_refs : CellParser -> list Cell;
  builder_bits : CellBuilder -> list bool;
  builder_refs : CellBuilder -> list Cell;
  address_bits : TonAddress -> list bool;
  coins_bits : N -> list bool;
}.

(** A successful read: the value, and the parser without the bits read. *)
Definition reads `{CellView} {A} (m : CellParser -> fres A * CellParser)
    (p : CellParser) (a : A) (bits : list bool) (refs : list Cell) : Prop :=
  exists p', m p = (inr a, p') /\ parser_bits p' = bits /\ parser_refs p' = refs.

(** A successful write: the builder with more bits and references. *)
Definition writes `{CellView} (m : CellBuilder -> fres CellBuilder)
    (b : CellBuilder) (bits : list bool) (refs : list Cell) : Prop :=
  exists b', m b = inr b' /\ builder_bits b' = bits /\ builder_refs b' = refs.

(** Documented behaviour of the parser: big-endian unsigned numbers, bytes of
    eight bits, references in the order they were stored; a read past the end
    is an error that leaves the references alone.  Cells are finite trees. *)
Class CellParserLaws `{CellView} : Prop := {
  parser_new_bits c : parser_bits (Cell_parser c) = cell_bits c;
  parser_new_refs c : parser_refs (Cell_parser c) = cell_refs c;
  load_uint_ok n p bits rest :
    parser_bits p = bits ++ rest -> length bits = n ->
    reads (load_uint n) p (N_of_bits bits) rest (parser_refs p);
  load_uint_short n p :
    (length (parser_bits p) < n)%nat ->
    exists e p', load_uint n p = (inl e, p') /\ parser_refs p' = parser_refs p;
  load_bits_ok p l rest :
    parser_bits p = bytes_bits l ++ rest ->
    reads (load_bits (8 * length l)) p l rest (parser_refs p);
  load_address_ok p a rest :
    parser_bits p = address_bits a ++ rest ->
    reads load_address p a rest (parser_refs p);
  load_coins_ok p v rest :
    (v < 2 ^ 120)%N -> parser_bits p = coins_bits v ++ rest ->
    reads load_coins p v rest (parser_refs p);
  load_tonhash_ok p h rest :
    parser_bits p = bytes_bits (TonHash_to_bytes h) ++ rest ->
    reads load_tonhash p h rest (parser_refs p);
  next_reference_ok p c refs :
    parser_refs p = c :: refs ->
    reads next_reference p c (parser_bits p) refs;
  next_reference_none p :
    parser_refs p = [] -> exists e p', next_reference p = (inl e, p');
  next_reference_some p c p' : next_reference p = (inr c, p') -> c ∈ parser_refs p;
  cell_refs_depth c c' : c' ∈ cell_refs c -> (Cell_depth c' < Cell_depth c)%nat;
  load_uint_refs n p r p' : load_uint n p = (r, p') -> parser_refs p' = parser_refs p;
}.

(** Documented behaviour of the builder: a store appends, and succeeds when
    the value and the cell's capacity allow it. *)
Class CellBuilderLaws `{CellView} : Prop := {
  builder_new_bits : builder_bits CellBuilder_new = [];
  builder_new_refs : builder_refs CellBuilder_new = [];
  store_uint_ok n v b :
    (v < 2 ^ N.of_nat n)%N -> (length (builder_bits b) + n <= 1023)%nat ->
    writes (store_uint n v) b (builder_bits b ++ bits_of_N n v) (builder_refs b);
  store_address_ok a b :
    (length (builder_bits b) + 267 <= 1023)%nat ->
    writes (store_address a) b (builder_bits b ++ address_bits a) (builder_refs b);
  store_coins_ok v b :
    (v < 2 ^ 120)%N -> (length (builder_bits b) + 124 <= 1023)%nat ->
    writes (store_coins v) b (builder_bits b ++ coins_bits v) (builder_refs b);
  store_tonhash_ok h b :
    (length (builder_bits b) + 256 <= 1023)%nat ->
    writes (store_tonhash h) b
      (builder_bits b ++ bytes_bits (TonHash_to_bytes h)) (builder_refs b);
  store_reference_ok c b :
    (length (builder_refs b) < 4)%nat ->
    writes (store_reference c) b (builder_bits b) (builder_refs b ++ [c]);
  build_ok b :
    (length (builder_bits b) <= 1023)%nat -> (length (builder_refs b) <= 4)%nat ->
    exists c, build b = inr c /\ cell_bits c = builder_bits b /\ cell_refs c = builder_refs b;
  address_bits_length a : (length (address_bits a) <= 267)%nat;
  coins_bits_length v : (v < 2 ^ 120)%N -> (length (coins_bits v) <= 124)%nat;
  TonHash_to_bytes_length h : length (TonHash_to_bytes h) = 32%nat;
}.
