(* ===== verification/Types.v ===== *)
(** * Data: [error.rs], [ton_constants.rs], [config.rs], [types.rs]

    The records of the relayer with the fields and the names of the source
    ([type] is [tx_type]).  [serde_json::Value] is third-party: only the three
    cases [deserialize_hex_u32] distinguishes are visible ([JsonView]). *)

From Stdlib Require Import ZArith Lia Strings.Byte Strings.Ascii.
From stdpp Require Import base strings countable gmap list.
From S2P Require Import Prelude RustStd Foreign.

(** ** [error.rs] *)

Inductive BocError : Set :=
| BocEncodingError (s : string)
| BocParsingError (s : string)
| InvalidOpCode (s : string).

Definition BocError_to_string (e : BocError) : string :=
  match e with
  | BocEncodingError s => "BocEncodingError: " +:+ s
  | BocParsingError s => "BocParsingError: " +:+ s
  | InvalidOpCode s => "Invalid Op Code: " +:+ s
  end.

Inductive TONRpcError : Set := DataError (s : string).

Definition TONRpcError_to_string (e : TONRpcError) : string :=
  match e with DataError s => "DataError: " +:+ s end.

Inductive GasError : Set :=
| ConversionError (s : string)
| GasCalculationError (s : string).

Definition GasError_to_string (e : GasError) : string :=
  match e with
  | ConversionError s => "ConversionError: " +:+ s
  | GasCalculationError s => "GasCalculationError: " +:+ s
  end.

Inductive TransactionParsingError : Set :=
| BocParsing (s : string)
| Message (s : string)
| Gas (s : string)
| ITSWithoutPair (s : string)
| Generic (s : string).

Definition TransactionParsingError_to_string (e : TransactionParsingError) : string :=
  match e with
  | BocParsing s => "BocParsingError: " +:+ s
  | Message s => "MessageParsingError: " +:+ s
  | Gas s => "GasError: " +:+ s
  | ITSWithoutPair s => "ITSWithoutPair: " +:+ s
  | Generic s => "GeneralError: " +:+ s
  end.

(** ** [ton_constants.rs] *)

Definition OP_APPROVE_MESSAGES : Z := 0x00000028.
Definition OP_MESSAGE_APPROVED : Z := 0x0000000D.
Definition OP_NULLIFIED_SUCCESSFULLY : Z := 0x00000005.
Definition OP_MESSAGE_APPROVE : Z := 0x00000007.
Definition OP_NULLIFY_IF_APPROVED : Z := 0x00000004.
Definition OP_RELAYER_EXECUTE : Z := 0x00000008.
Definition OP_GATEWAY_EXECUTE : Z := 0x0000000C.
Definition OP_CALL_CONTRACT : Z := 0x00000009.
Definition OP_PAY_GAS : Z := 0x00000045.
Definition OP_PAY_NATIVE_GAS_FOR_CONTRACT_CALL : Z := 0x0000001F.
Definition OP_ADD_NATIVE_GAS : Z := 0x00000036.
Definition OP_NATIVE_REFUND : Z := 0x00000046.
Definition OP_REFUND : Z := 0x00000018.
Definition OP_TRANSFER_NOTIFICATION : Z := 0x7362d09c.
Definition OP_TOKEN_METADATA_REGISTERED_LOG : Z := 0x00000104.
Definition OP_REGISTER_TOKEN_METADATA : Z := 0x00000101.
Definition OP_LINK_TOKEN_STARTED_LOG : Z := 0x00000105.
Definition OP_INTERCHAIN_TRANSFER_RECEIVED_LOG : Z := 0x00000106.
Definition OP_INTERCHAIN_TOKEN_DEPLOYMENT_STARTED_LOG : Z := 0x00000107.
Definition OP_INTERCHAIN_TRANSFER_LOG : Z := 0x00000110.
Definition OP_SIGNERS_ROTATED_LOG : Z := 0x0000002A.

Definition EXIT_CODE_INSUFFICIENT_GAS : Z := 106.

Definition SEND_MODE_ORDINARY_MESSAGE : Z := 0.
Definition SEND_MODE_CARRY_VALUE : Z := 64.
Definition SEND_MODE_CARRY_BALANCE : Z := 128.
Definition SEND_MODE_PAY_TRANSFER_FEES_SEPARATELY : Z := 1.
Definition SEND_MODE_IGNORE_ERRORS : Z := 2.
Definition SEND_MODE_BOUNCE_ON_ACTION_FAILURE : Z := 16.
Definition SEND_MODE_DESTROY_ACCOUNT_ON_ZERO_BALANCE : Z := 32.

Definition REFUND_DUST : Z := 10000000.

Definition WORKCHAIN : Z := 0.

(** ** [config.rs] *)

Record WalletConfig := {
  wc_public_key : string;
  wc_secret_key : string;
  wc_subwallet_id : Z; (* u32 *)
  wc_timeout : Z; (* u64 *)
  wc_address : string;
}.

(** All fields are [u64]. *)
Record GasEstimates := {
  native_gas_refund : Z;
  native_gas_refund_storage_slippage : Z;
  execute_send_min : Z;
  execute_base : Z;
  execute_payload : Z;
  execute_storage_slippage : Z;
  cfg_approve_send : Z;
  cfg_highload_wallet_send : Z;
  its_execute_minimum : Z;
}.

(** [relayer_core::config::Config], the fields the program reads. *)
Record Config := {
  config_chain_name : string;
  queue_address : string;
  num_workers : Z; (* u16 *)
  postgres_url : string;
  redis_server : string;
  refunds_enabled : bool;
}.

Record TONConfig := {
  common_config : Config;
  config_wallets : list WalletConfig;
  ton_gateway : string;
  ton_gas_service : string;
  ton_its : string;
  ton_rpc : string;
  ton_api_key : string;
  gas_estimates : GasEstimates;
}.

(** ** [serde_json::Value] *)

Inductive JsonView : Set :=
| JString (s : string)
| JNumber (as_u64 : option Z)
| JOther.

Class JsonLib := {
  Value : Type;
  Value_eq_dec :: EqDecision Value;
  Value_view : Value -> JsonView;
}.

(** ** [types.rs] *)

Section Types.
Context `{TAL : TonAddressLib} `{JL : JsonLib}.

Record ExtraCurrencies := { ec_map : gmap string Value }.

Record StoragePhase := {
  storage_fees_collected : string;
  storage_status_change : string;
}.

Record CreditPhase := { credit : string }.

Record ComputePhase := {
  skipped : bool;
  compute_success : option bool;
  msg_state_used : option bool;
  account_activated : option bool;
  gas_fees : option string;
  gas_used_str : option string;
  gas_limit : option string;
  mode : option Z;
  exit_code : option Z; (* i32 *)
  vm_steps : option Z;
  vm_init_state_hash : option string;
  vm_final_state_hash : option string;
}.

Record MessageSize := { cells : string; bits : string }.

Record Action := {
  action_success : option bool;
  valid : bool;
  no_funds : bool;
  action_status_change : string;
  total_fwd_fees : option string;
  total_action_fees : option string;
  result_code : Z; (* i32 *)
  tot_actions : Z;
  spec_actions : Z;
  skipped_actions : Z;
  msgs_created : Z;
  action_list_hash : string;
  tot_msg_size : MessageSize;
}.

Record TransactionDescription := {
  tx_type : string;
  aborted : bool;
  destroyed : bool;
  credit_first : bool;
  storage_ph : StoragePhase;
  credit_ph : option CreditPhase;
  compute_ph : option ComputePhase;
  action : option Action;
}.

Record BlockRef := { workchain : Z; shard : string; seqno : Z }.

Record MessageContent := {
  mc_hash : string;
  body : string;
  decoded : option Value;
}.

Record TransactionMessage := {
  msg_hash : string;
  source : option string;
  destination : option TonAddress;
  value : option string;
  value_extra_currencies : option ExtraCurrencies;
  fwd_fee : option string;
  ihr_fee : option string;
  created_lt : option string;
  created_at : option string;
  opcode : option Z; (* u32 *)
  ihr_disabled : option bool;
  bounce : option bool;
  bounced : option bool;
  import_fee : option string;
  message_content : MessageContent;
  init_state : option Value;
}.

Record AccountStateBalance := {
  asb_hash : string;
  asb_balance : option string;
  asb_extra_currencies : option ExtraCurrencies;
  account_status : option string;
  frozen_hash : option string;
  data_hash : option string;
  code_hash : option string;
}.

Record Transaction := {
  account : TonAddress;
  hash : string;
  lt : Z; (* i64 *)
  tx_now : Z; (* u64 *)
  mc_block_seqno : Z;
  tx_trace_id : string;
  prev_trans_hash : string;
  prev_trans_lt : string;
  orig_status : string;
  end_status : string;
  total_fees : Z; (* u64 *)
  total_fees_extra_currencies : ExtraCurrencies;
  description : TransactionDescription;
  block_ref : BlockRef;
  in_msg : option TransactionMessage;
  out_msgs : list TransactionMessage;
  account_state_before : AccountStateBalance;
  account_state_after : AccountStateBalance;
  emulated : bool;
}.

Record Trace := {
  is_incomplete : bool;
  start_lt : Z; (* i64 *)
  end_lt : Z; (* i64 *)
  trace_id : string;
  transactions : list Transaction;
}.

Record TraceRest := {
  rest_is_incomplete : bool;
  rest_start_lt : Z;
  rest_end_lt : Z;
  rest_trace_id : string;
  rest_transactions : gmap string Transaction;
  transactions_order : list string;
}.

Record AccountState := {
  as_address : TonAddress;
  account_state_hash : string;
  balance : string;
  status : string;
}.

(** [impl Display for Trace]. *)
Definition Trace_to_string (t : Trace) : string := trace_id t.

(** The closure of [From<TracesResponseRest> for TracesResponse]: the
    transactions in the given order, those not in the map left out. *)
Definition trace_from_rest (r : TraceRest) : Trace := {|
  is_incomplete := rest_is_incomplete r;
  start_lt := rest_start_lt r;
  end_lt := rest_end_lt r;
  trace_id := rest_trace_id r;
  transactions := omap (fun key => rest_transactions r !! key) (transactions_order r);
|}.

(** [From<TracesResponseRest> for TracesResponse], on the list of traces. *)
Definition traces_from_rest (rest : list TraceRest) : list Trace :=
  map trace_from_rest rest.

(** [deserialize_hex_u32], after [Option::<Value>::deserialize]. *)
Definition deserialize_hex_u32 (val : option Value) : res string (option Z) :=
  match val with
  | Some v =>
      match Value_view v with
      | JString s =>
          map_err int_error_to_string
            (res_map Some (u32_from_str_radix16 (trim_start_matches "0x" s)))
      | JNumber (Some n) => Ok (Some (wrap_u 32 n))
      | JNumber None => Err "Expected u64 number"
      | JOther => Err "Expected string or number for opcode"
      end
  | None => Ok None
  end.
End Types.

#[export] Instance ExtraCurrencies_eq_dec `{JsonLib} : EqDecision ExtraCurrencies.
Proof. solve_decision. Defined.
#[export] Instance StoragePhase_eq_dec : EqDecision StoragePhase.
Proof. solve_decision. Defined.
#[export] Instance CreditPhase_eq_dec : EqDecision CreditPhase.
Proof. solve_decision. Defined.
#[export] Instance ComputePhase_eq_dec : EqDecision ComputePhase.
Proof. solve_decision. Defined.
#[export] Instance MessageSize_eq_dec : EqDecision MessageSize.
Proof. solve_decision. Defined.
#[export] Instance Action_eq_dec : EqDecision Action.
Proof. solve_decision. Defined.
#[export] Instance TransactionDescription_eq_dec : EqDecision TransactionDescription.
Proof. solve_decision. Defined.
#[export] Instance BlockRef_eq_dec : EqDecision BlockRef.
Proof. solve_decision. Defined.
#[export] Instance MessageContent_eq_dec `{JsonLib} : EqDecision MessageContent.
Proof. solve_decision. Defined.
#[export] Instance TransactionMessage_eq_dec `{TonAddressLib, JsonLib} :
  EqDecision TransactionMessage.
Proof. solve_decision. Defined.
#[export] Instance AccountStateBalance_eq_dec `{JsonLib} : EqDecision AccountStateBalance.
Proof. solve_decision. Defined.
#[export] Instance Transaction_eq_dec `{TonAddressLib, JsonLib} : EqDecision Transaction.
Proof. solve_decision. Defined.
