(* ===== verification/GmpTypes.v ===== *)
(** * The GMP API types the relayer builds

    [relayer_core::gmp_api::gmp_types] is third-party; the records below have
    the fields this crate fills when it builds an event, and the enums the
    constructors it uses. *)

From Stdlib Require Import ZArith Lia Strings.Byte Strings.Ascii.
From stdpp Require Import base strings countable gmap list.
From S2P Require Import Prelude RustStd.

Record Amount := { token_id : option string; amount : string }.

Record EventMetadata := {
  tx_id : option string;
  from_address : option string;
  finalized : option bool;
  source_context : option (gmap string string);
  timestamp : string;
}.

Record CommonEventFields (T : Type) := {
  event_type : string;
  event_id : string;
  meta : option T;
}.
Arguments event_type {T} _.
Arguments event_id {T} _.
Arguments meta {T} _.

Record MessageApprovedEventMetadata := {
  ma_common_meta : EventMetadata;
  ma_command_id : option string;
}.

Record MessageExecutedEventMetadata := {
  me_common_meta : EventMetadata;
  me_command_id : option string;
  child_message_ids : option (list string);
  revert_reason : option string;
}.

Record SignersRotatedEventMetadata := {
  sr_common_meta : EventMetadata;
  sr_signers_hash : option string;
  sr_epoch : option Z;
}.

Record GatewayV2Message := {
  gm_message_id : string;
  gm_source_chain : string;
  gm_source_address : string;
  gm_destination_address : string;
  gm_payload_hash : string;
}.

Record InterchainTokenDefinition := {
  itd_id : string;
  itd_name : string;
  itd_symbol : string;
  itd_decimals : Z;
}.

Inductive TokenManagerType : Set :=
| NativeInterchainToken
| MintBurnFrom
| LockUnlock
| LockUnlockFee
| MintBurn.

Inductive MessageExecutionStatus : Set := SUCCESSFUL.

Inductive CannotExecuteMessageReason : Set := InsufficientGasReason.

Inductive Event : Type :=
| Call (common : CommonEventFields EventMetadata) (message : GatewayV2Message)
    (destination_chain payload : string)
| MessageApproved (common : CommonEventFields MessageApprovedEventMetadata)
    (message : GatewayV2Message) (cost : Amount)
| MessageExecuted (common : CommonEventFields MessageExecutedEventMetadata)
    (message_id source_chain : string) (status : MessageExecutionStatus) (cost : Amount)
| GasCredit (common : CommonEventFields EventMetadata)
    (message_id refund_address : string) (payment : Amount)
| GasRefunded (common : CommonEventFields EventMetadata)
    (message_id recipient_address : string) (refunded_amount cost : Amount)
| CannotExecuteMessageV2 (common : CommonEventFields EventMetadata)
    (message_id source_chain : string) (reason : CannotExecuteMessageReason)
    (details : string)
| SignersRotated (common : CommonEventFields SignersRotatedEventMetadata)
    (message_id : string)
| ITSInterchainTransfer (common : CommonEventFields EventMetadata)
    (message_id destination_chain : string) (token_spent : Amount)
    (source_address destination_address data_hash : string)
| ITSInterchainTokenDeploymentStarted (common : CommonEventFields EventMetadata)
    (message_id destination_chain : string) (token : InterchainTokenDefinition)
| ITSLinkTokenStarted (common : CommonEventFields EventMetadata)
    (message_id token_id destination_chain source_token_address
     destination_token_address : string) (token_manager_type : TokenManagerType)
| ITSTokenMetadataRegistered (common : CommonEventFields EventMetadata)
    (message_id address : string) (decimals : Z).

(** ** Tasks *)

Record ExecuteTaskFields := {
  et_message : GatewayV2Message;
  et_payload : string;
  et_available_gas_balance : Amount;
}.

Record RefundTaskFields := {
  rt_message : GatewayV2Message;
  rt_refund_recipient_address : string;
  rt_remaining_gas_balance : Amount;
}.
