(* ===== verification/Instances.v ===== *)
(** * Executable instances of the third-party interfaces

    Small implementations of the interfaces of [Foreign] that satisfy their
    laws: the laws are consistent, and the theorems can be applied at concrete
    inputs.  They are not the crates' algorithms (a bag of cells is written as
    a bracketed bit string, Base64 as hex, the hash is a projection). *)

From Stdlib Require Import ZArith Lia Strings.Byte Strings.Ascii.
From stdpp Require Import base strings pretty countable vector gmap list.
From S2P Require Import Prelude RustStd Foreign Types.

Definition ferr0 (s : string) : ferr := FErr s s.

(** ** Big integers *)

Definition n_from_str (s : string) : fres N :=
  match s with
  | EmptyString => inl (ferr0 "empty")
  | _ => match parse_digits 10 s 0 with
         | Some v => inr (Z.to_N v)
         | None => inl (ferr0 "invalid digit")
         end
  end.

Fixpoint n_digits (fuel : nat) (base n : N) (acc : list N) : list N :=
  match fuel with
  | O => acc
  | S fuel' =>
      if (n =? 0)%N then acc else n_digits fuel' base (n / base) (n mod base :: acc)%N
  end.

Definition log2_fuel (n : N) : nat := S (N.to_nat (N.log2 n)).

Definition n_bytes_be (n : N) : list byte :=
  match n_digits (log2_fuel n) 256 n [] with
  | [] => [byte_of 0]
  | l => map (fun d => byte_of (Z.of_N d)) l
  end.

Definition n_hex (n : N) : string :=
  match n_digits (log2_fuel n) 16 n [] with
  | [] => "0"
  | l => foldr (fun d s => String (hex_digit d) s) "" l
  end.

#[export] Instance ref_biguint : BigUintLib := {|
  BigUint_from_str := n_from_str;
  BigUint_to_string n := pretty n;
  BigUint_to_str_radix16 := n_hex;
  BigUint_to_bytes_be := n_bytes_be;
|}.

Definition digits_val (base : Z) (l : list N) : Z :=
  foldl (fun acc d => acc * base + Z.of_N d) 0 l.

Lemma digits_val_cons_acc base l acc :
  foldl (fun acc d => acc * base + Z.of_N d) acc l =
  acc * base ^ Z.of_nat (length l) + digits_val base l.
Proof.
  revert acc; induction l as [|d l IH]; intros acc.
  { unfold digits_val. simpl. lia. }
  unfold digits_val. cbn [foldl length]. rewrite !IH, Nat2Z.inj_succ, Z.pow_succ_r by lia.
  unfold digits_val. ring.
Qed.

Lemma n_digits_val fuel n acc :
  (n < 2 ^ N.of_nat fuel)%N ->
  digits_val 256 (n_digits fuel 256 n acc) =
  Z.of_N n * 256 ^ Z.of_nat (length acc) + digits_val 256 acc.
Proof.
  revert n acc; induction fuel as [|fuel IH]; intros n acc Hn.
  { change (2 ^ N.of_nat 0)%N with 1%N in Hn. assert (n = 0)%N as -> by lia. simpl. lia. }
  cbn [n_digits]. destruct (N.eqb_spec n 0) as [->|Hz]; [simpl; lia|].
  rewrite IH.
  - cbn [length]. unfold digits_val at 1. cbn [foldl]. rewrite digits_val_cons_acc.
    rewrite Nat2Z.inj_succ, Z.pow_succ_r by lia.
    rewrite (N.div_mod' n 256) at 3. rewrite N2Z.inj_add, N2Z.inj_mul. simpl (Z.of_N 256). ring.
  - rewrite Nat2N.inj_succ, N.pow_succ_r' in Hn. apply N.Div0.div_lt_upper_bound. lia.
Qed.

Lemma n_digits_small fuel n acc :
  Forall (fun d => d < 256)%N acc -> Forall (fun d => d < 256)%N (n_digits fuel 256 n acc).
Proof.
  revert n acc; induction fuel as [|fuel IH]; intros n acc H; simpl; [done|].
  destruct (n =? 0)%N; [done|]. apply IH. constructor; [apply N.mod_upper_bound; lia|done].
Qed.

Lemma from_be_bytes_digits l :
  Forall (fun d => d < 256)%N l ->
  from_be_bytes (map (fun d => byte_of (Z.of_N d)) l) = digits_val 256 l.
Proof.
  unfold from_be_bytes, digits_val. generalize 0. induction l as [|d l IH]; intros acc H.
  { done. }
  apply Forall_cons in H as [Hd H]. simpl. rewrite IH by done.
  rewrite byte_val_of, Z.mod_small by lia. done.
Qed.

#[export] Instance ref_biguint_laws : BigUintLaws.
Proof.
  split.
  - intros n. simpl. unfold n_from_str.
    destruct (pretty_N_head n) as (y & s & _ & Hs).
    pose proof (parse_digits_pretty n) as Hp. rewrite Hs in Hp |- *. rewrite Hp.
    by rewrite N2Z.id.
  - intros n. simpl. unfold n_bytes_be. by destruct (n_digits _ _ _ _).
  - intros n. simpl. unfold n_bytes_be.
    assert (Hn : (n < 2 ^ N.of_nat (log2_fuel n))%N).
    { unfold log2_fuel. rewrite Nat2N.inj_succ, N2Nat.id.
      destruct (decide (n = 0)%N) as [->|]; [done|]. apply N.log2_spec. lia. }
    pose proof (n_digits_val (log2_fuel n) n [] Hn) as Hv.
    pose proof (n_digits_small (log2_fuel n) n [] ltac:(constructor)) as Hs.
    destruct (n_digits _ _ _ _) as [|d l] eqn:E.
    + unfold digits_val in Hv. simpl in Hv. change (from_be_bytes [byte_of 0]) with 0. lia.
    + rewrite from_be_bytes_digits by done. rewrite Hv. unfold digits_val. simpl. lia.
Qed.

(** ** Codecs *)

Fixpoint hex_read (s : string) : option (list byte) :=
  match s with
  | EmptyString => Some []
  | String a (String b s') =>
      match to_digit 16 a, to_digit 16 b, hex_read s' with
      | Some x, Some y, Some l => Some (byte_of (16 * x + y) :: l)
      | _, _, _ => None
      end
  | _ => None
  end.

Definition hex_read_res (s : string) : fres (list byte) :=
  match hex_read s with
  | Some l => inr l
  | None => inl (ferr0 "Invalid character")
  end.

Lemma hex_read_lower l : hex_read (hex_lower l) = Some l.
Proof.
  induction l as [|b l IH]; [done|]. cbn [hex_lower hex_read]. rewrite IH.
  by destruct b; vm_compute.
Qed.

Definition pad32 (l : list byte) : list byte :=
  take 32 (l ++ replicate 32 (byte_of 0)).

#[export] Instance ref_codec : CodecLib := {|
  hex_encode := hex_lower;
  hex_decode := hex_read_res;
  base64_encode := hex_lower;
  base64_decode := hex_read_res;
  keccak256 := pad32;
|}.

#[export] Instance ref_codec_laws : CodecLaws.
Proof.
  split; simpl.
  - done.
  - intros l. unfold hex_read_res. by rewrite hex_read_lower.
  - intros l. unfold hex_read_res. by rewrite hex_read_lower.
  - intros l. unfold pad32. rewrite length_take, length_app, length_replicate. lia.
Qed.

(** ** Hashes and addresses *)

Fixpoint vec_of (n : nat) (l : list byte) : vec byte n :=
  match n with
  | O => vnil
  | S n' =>
      match l with
      | [] => vcons (byte_of 0) (vec_of n' [])
      | b :: l' => vcons b (vec_of n' l')
      end
  end.

Lemma vec_of_to_list n (v : vec byte n) : vec_of n (vec_to_list v) = v.
Proof. induction v as [|b n v IH]; simpl; [done|]. by rewrite IH. Qed.

Definition ref_hash : Type := vec byte 32.
Definition ref_address : Type := byte * vec byte 32.

#[export] Instance ref_hash_countable : Countable (vec byte 32) :=
  inj_countable' vec_to_list (vec_of 32) (vec_of_to_list 32).

Definition ref_to_hex (a : ref_address) : string :=
  pretty (byte_val (fst a)) +:+ ":" +:+ hex_lower (vec_to_list (snd a)).

Definition ref_address_read (s : string) : fres ref_address :=
  match strip_prefix "0:" s with
  | Some h =>
      match hex_read h with
      | Some l => if decide (length l = 32%nat) then inr (byte_of 0, vec_of 32 l)
                  else inl (ferr0 "Invalid address length")
      | None => inl (ferr0 "Invalid address")
      end
  | None => inl (ferr0 "Invalid workchain")
  end.

Definition ref_hash_read (s : string) : fres ref_hash :=
  match hex_read s with
  | Some l => if decide (length l = 32%nat) then inr (vec_of 32 l)
              else inl (ferr0 "Invalid hash length")
  | None => inl (ferr0 "Invalid hash")
  end.

#[export] Instance ref_address_lib : TonAddressLib := {|
  TonHash := ref_hash;
  TonHash_from_bytes l := vec_of 32 l;
  TonHash_to_bytes h := vec_to_list h;
  TonHash_try_from_vec l :=
    if decide (length l = 32%nat) then Some (vec_of 32 l) else None;
  TonHash_from_hex := ref_hash_read;
  TonHash_to_string h := hex_lower (vec_to_list h);
  TonAddress := ref_address;
  TonAddress_countable := prod_countable;
  TonAddress_new w h := (byte_of w, h);
  TonAddress_NULL := (byte_of 0, vec_of 32 []);
  TonAddress_hash_part a := snd a;
  TonAddress_to_string := ref_to_hex;
  TonAddress_to_hex := ref_to_hex;
  TonAddress_from_str := ref_address_read;
  TonAddress_from_hex_str := ref_address_read;
  TonAddress_from_base64_url := ref_address_read;
|}.

(** ** Cells: trees of bits, written [(bits child ... child)] *)

Inductive tcell : Type := TCell (tbits : list bool) (trefs : list tcell).

Definition tcell_bits (c : tcell) : list bool := let 'TCell b _ := c in b.
Definition tcell_refs (c : tcell) : list tcell := let 'TCell _ r := c in r.

Fixpoint tcell_depth (c : tcell) : nat :=
  let 'TCell _ refs := c in
  S (foldr (fun r acc => Nat.max (tcell_depth r) acc) O refs).

Lemma tcell_depth_ref c r : r ∈ tcell_refs c -> (tcell_depth r < tcell_depth c)%nat.
Proof.
  destruct c as [b refs]. simpl. intros H. apply Nat.lt_succ_r.
  induction H as [|r x refs H IH]; simpl; lia.
Qed.

Definition show_bits (l : list bool) : string :=
  foldr (fun b s => String (if (b : bool) then "1" else "0")%char s) "" l.

Fixpoint show_cell (c : tcell) : string :=
  let 'TCell b refs := c in
  "(" +:+ show_bits b +:+ foldr (fun r s => show_cell r +:+ s) ")" refs.

(** One character of the bracketed text; the stack holds the open cells. *)
Definition read_step (stack : list tcell) (c : ascii) : option (list tcell) :=
  match stack with
  | [] => if decide (c = "("%char) then Some [TCell [] []] else None
  | TCell b r :: rest =>
      if decide (c = "0"%char) then Some (TCell (b ++ [false]) r :: rest)
      else if decide (c = "1"%char) then Some (TCell (b ++ [true]) r :: rest)
      else if decide (c = "("%char) then Some (TCell [] [] :: stack)
      else if decide (c = ")"%char) then
        match rest with
        | TCell b' r' :: rest' => Some (TCell b' (r' ++ [TCell b r]) :: rest')
        | [] => Some stack
        end
      else None
  end.

Fixpoint read_cell (s : string) (stack : list tcell) : option tcell :=
  match s with
  | EmptyString => match stack with [c] => Some c | _ => None end
  | String c s' =>
      match read_step stack c with
      | Some stack' => read_cell s' stack'
      | None => None
      end
  end.

Definition read_boc (s : string) : fres tcell :=
  match read_cell s [] with
  | Some c => inr c
  | None => inl (ferr0 "Invalid boc")
  end.

Definition tparser : Type := list bool * list tcell.

Definition short {A} (p : tparser) : fres A * tparser := (inl (ferr0 "Not enough bits"), p).

(** Read [n] bits. *)
Definition take_bits {A} (n : nat) (f : list bool -> A) (p : tparser) : fres A * tparser :=
  if decide (n <= length (fst p))%nat
  then (inr (f (take n (fst p))), (drop n (fst p), snd p))
  else short p.

Fixpoint bytes_of_bits (k : nat) (l : list bool) : list byte :=
  match k with
  | O => []
  | S k' => byte_of (Z.of_N (N_of_bits (take 8 l))) :: bytes_of_bits k' (drop 8 l)
  end.

Definition to_signed (w z : Z) : Z := wrap_s w z.

Definition append_bits (l : list bool) (b : tparser) : fres tparser :=
  inr (fst b ++ l, snd b).

Definition store_fits (ok : bool) (l : list bool) (b : tparser) : fres tparser :=
  if ok then append_bits l b else inl (ferr0 "Value does not fit").

Definition z_bits (n : nat) (z : Z) : list bool :=
  bits_of_N n (Z.to_N (z mod 2 ^ Z.of_nat n)).

Definition z_fits_u (n : nat) (z : Z) : bool :=
  (0 <=? z) && (z <? 2 ^ Z.of_nat n).

Definition z_fits_s (n : nat) (z : Z) : bool :=
  (- 2 ^ (Z.of_nat n - 1) <=? z) && (z <? 2 ^ (Z.of_nat n - 1)).

(** A value that fits is stored as its low bits. *)
Lemma store_fits_u n v b :
  0 <= v < 2 ^ Z.of_nat n ->
  store_fits (z_fits_u n v) (z_bits n v) b = inr (fst b ++ bits_of_N n (Z.to_N v), snd b).
Proof.
  intros Hv. unfold store_fits, z_fits_u, z_bits. rewrite Z.mod_small by done.
  by rewrite (proj2 (Z.leb_le _ _)), (proj2 (Z.ltb_lt _ _)) by lia.
Qed.

Lemma store_fits_s n v b :
  0 <= v < 2 ^ (Z.of_nat n - 1) ->
  store_fits (z_fits_s n v) (z_bits n v) b = inr (fst b ++ bits_of_N n (Z.to_N v), snd b).
Proof.
  intros Hv. assert (0 < Z.of_nat n).
  { destruct (decide (n = 0%nat)) as [->|]; [|lia]. change (2 ^ (Z.of_nat 0 - 1)) with 0 in Hv. lia. }
  assert (2 ^ Z.of_nat n = 2 * 2 ^ (Z.of_nat n - 1)).
  { rewrite <- Z.pow_succ_r by lia. f_equal. lia. }
  unfold store_fits, z_fits_s, z_bits. rewrite Z.mod_small by lia.
  by rewrite (proj2 (Z.leb_le _ _)), (proj2 (Z.ltb_lt _ _)) by lia.
Qed.

Definition ref_address_bits (a : ref_address) : list bool :=
  [true; false; false] ++ byte_bits (fst a) ++ bytes_bits (vec_to_list (snd a)).

Definition ref_coins_bits (v : N) : list bool := bits_of_N 4 15 ++ bits_of_N 120 v.

Definition bits_address (l : list bool) : ref_address :=
  (byte_of (Z.of_N (N_of_bits (take 8 (drop 3 l)))),
   vec_of 32 (bytes_of_bits 32 (drop 11 l))).

#[export] Instance ref_cell_lib : CellLib := {|
  Cell := tcell;
  CellParser := tparser;
  CellBuilder := tparser;
  Cell_from_boc_b64 := read_boc;
  Cell_from_boc_hex := read_boc;
  Cell_to_boc_hex c := inr (show_cell c);
  Cell_data c := bytes_of_bits (length (tcell_bits c) / 8) (tcell_bits c);
  Cell_hash c := vec_of 32 (bytes_of_bits (length (tcell_bits c) / 8) (tcell_bits c));
  Cell_depth := tcell_depth;
  Cell_parser c := (tcell_bits c, tcell_refs c);
  Arc_from_cell c := inr c;
  load_bits n p := take_bits n (fun l => bytes_of_bits (n / 8) l) p;
  load_uint n p := take_bits n N_of_bits p;
  load_u8 n p := take_bits n (fun l => Z.of_N (N_of_bits l)) p;
  load_i16 n p := take_bits n (fun l => to_signed (Z.of_nat n) (Z.of_N (N_of_bits l))) p;
  load_address p := take_bits 267 bits_address p;
  load_coins p := take_bits 124 (fun l => N_of_bits (drop 4 l)) p;
  load_tonhash p := take_bits 256 (fun l => vec_of 32 (bytes_of_bits 32 l)) p;
  next_reference p :=
    match snd p with
    | c :: refs => (inr c, (fst p, refs))
    | [] => (inl (ferr0 "Invalid index"), p)
    end;
  load_dict_u8_ref n p :=
    (inr (imap (fun i c => (Z.of_nat i, c)) (snd p)), (fst p, []));
  CellBuilder_new := ([], []);
  store_uint n v b := store_fits (v <? 2 ^ N.of_nat n)%N (bits_of_N n v) b;
  store_u32 n v b := store_fits (z_fits_u n v) (z_bits n v) b;
  store_u64 n v b := store_fits (z_fits_u n v) (z_bits n v) b;
  store_u8 n v b := store_fits (z_fits_u n v) (z_bits n v) b;
  store_int n v b := store_fits (z_fits_s n v) (z_bits n v) b;
  store_number n v b := store_fits (z_fits_u n v) (z_bits n v) b;
  store_slice l b := append_bits (bytes_bits l) b;
  store_address a b := append_bits (ref_address_bits a) b;
  store_coins v b := store_fits (v <? 2 ^ 120)%N (ref_coins_bits v) b;
  store_tonhash h b := append_bits (bytes_bits (vec_to_list h)) b;
  store_reference c b := inr (fst b, snd b ++ [c]);
  build b :=
    if decide (length (fst b) <= 1023 /\ length (snd b) <= 4)%nat
    then inr (TCell (fst b) (snd b)) else inl (ferr0 "Invalid cell");
|}.

#[export] Instance ref_cell_view : CellView := {|
  cell_bits := tcell_bits;
  cell_refs := tcell_refs;
  parser_bits p := fst p;
  parser_refs p := snd p;
  builder_bits b := fst b;
  builder_refs b := snd b;
  address_bits := ref_address_bits;
  coins_bits := ref_coins_bits;
|}.

Lemma N_byte_roundtrip b : byte_of (Z.of_N (N_of_bits (byte_bits b))) = b.
Proof.
  unfold byte_bits. rewrite N_of_bits_of_N; [apply byte_of_val|].
  pose proof (Byte.to_N_bounded b). change (2 ^ N.of_nat 8)%N with 256%N. lia.
Qed.

Lemma length_byte_bits b : length (byte_bits b) = 8%nat.
Proof. apply length_bits_of_N. Qed.

Lemma bytes_of_bytes_bits l rest :
  bytes_of_bits (length l) (bytes_bits l ++ rest) = l.
Proof.
  induction l as [|b l IH]; [done|].
  unfold bytes_bits. cbn [map concat length bytes_of_bits]. rewrite <- app_assoc.
  rewrite take_app_length', drop_app_length' by (by rewrite length_byte_bits).
  rewrite N_byte_roundtrip. f_equal. apply IH.
Qed.

Lemma take_bits_reads {A} n (f : list bool -> A) (p : tparser) bits rest :
  fst p = bits ++ rest -> length bits = n ->
  exists p', take_bits n f p = (inr (f bits), p') /\ fst p' = rest /\ snd p' = snd p.
Proof.
  intros Hp <-. unfold take_bits. rewrite Hp, length_app.
  rewrite decide_True by lia. exists (rest, snd p).
  by rewrite take_app_length, drop_app_length.
Qed.

Lemma length_vec_bits (h : ref_hash) : length (bytes_bits (vec_to_list h)) = 256%nat.
Proof. rewrite length_bytes_bits, length_vec_to_list. done. Qed.

Lemma bits_hash (h : ref_hash) rest :
  vec_of 32 (bytes_of_bits 32 (bytes_bits (vec_to_list h) ++ rest)) = h.
Proof.
  pose proof (bytes_of_bytes_bits (vec_to_list h) rest) as H.
  rewrite length_vec_to_list in H. rewrite H. apply vec_of_to_list.
Qed.

Lemma bits_address_of (a : ref_address) : bits_address (ref_address_bits a) = a.
Proof.
  destruct a as [w h]. unfold bits_address, ref_address_bits.
  assert (H3 : forall l, drop 3 ([true; false; false] ++ l) = l) by done.
  assert (H11 : forall l, drop 11 ([true; false; false] ++ l) = drop 8 l) by done.
  rewrite H3, H11. cbn [fst snd].
  rewrite take_app_length', drop_app_length' by (by rewrite length_byte_bits).
  rewrite N_byte_roundtrip. f_equal.
  rewrite <- (app_nil_r (bytes_bits _)). apply bits_hash.
Qed.

Lemma length_ref_address_bits a : length (ref_address_bits a) = 267%nat.
Proof.
  unfold ref_address_bits. rewrite !length_app, length_byte_bits.
  rewrite length_bytes_bits, length_vec_to_list. done.
Qed.

#[export] Instance ref_parser_laws : CellParserLaws.
Proof.
  split; unfold reads; cbn [parser_bits parser_refs cell_bits cell_refs builder_bits builder_refs
    address_bits coins_bits ref_cell_view load_uint load_bits load_address load_coins
    load_tonhash next_reference Cell_parser Cell_depth CellBuilder_new store_uint
    store_address store_coins store_tonhash store_reference build ref_cell_lib
    TonHash_to_bytes ref_address_lib].
  - done.
  - done.
  - intros n p bits rest Hp Hn. by apply take_bits_reads.
  - intros n p Hp. unfold take_bits, short. rewrite decide_False by lia. eauto.
  - intros p l rest Hp.
    destruct (take_bits_reads (8 * length l) (fun b => bytes_of_bits (8 * length l / 8) b)
      p (bytes_bits l) rest Hp (length_bytes_bits l)) as (p' & H & ?).
    exists p'. split; [|done]. rewrite H. do 2 f_equal.
    rewrite Nat.mul_comm, Nat.div_mul by lia.
    rewrite <- (app_nil_r (bytes_bits l)). apply bytes_of_bytes_bits.
  - intros p a rest Hp.
    destruct (take_bits_reads 267 bits_address p _ rest Hp (length_ref_address_bits a))
      as (p' & H & ?). exists p'. by rewrite H, bits_address_of.
  - intros p v rest Hv Hp.
    destruct (take_bits_reads 124 (fun l => N_of_bits (drop 4 l)) p (ref_coins_bits v) rest Hp)
      as (p' & H & ?).
    { unfold ref_coins_bits. by rewrite length_app, !length_bits_of_N. }
    exists p'. split; [|done]. rewrite H. do 2 f_equal. unfold ref_coins_bits.
    rewrite drop_app_length' by (by rewrite length_bits_of_N). by apply N_of_bits_of_N.
  - intros p h rest Hp.
    destruct (take_bits_reads 256 (fun l => vec_of 32 (bytes_of_bits 32 l)) p _ rest Hp
      (length_vec_bits h)) as (p' & H & ?).
    exists p'. split; [|done]. rewrite H. do 2 f_equal.
    rewrite <- (app_nil_r (bytes_bits _)). apply bits_hash.
  - intros p c refs Hp. rewrite Hp. eauto.
  - intros p Hp. rewrite Hp. eauto.
  - intros p c p' H. destruct (snd p); simplify_eq. by left.
  - apply tcell_depth_ref.
  - intros n p r p' H. unfold take_bits, short in H. case_decide; by simplify_eq.
Qed.

#[export] Instance ref_builder_laws : CellBuilderLaws.
Proof.
  split; unfold writes; cbn [parser_bits parser_refs cell_bits cell_refs builder_bits builder_refs
    address_bits coins_bits ref_cell_view load_uint load_bits load_address load_coins
    load_tonhash next_reference Cell_parser Cell_depth CellBuilder_new store_uint
    store_address store_coins store_tonhash store_reference build ref_cell_lib
    TonHash_to_bytes ref_address_lib].
  - done.
  - done.
  - intros n v b Hv _. unfold store_fits.
    rewrite (proj2 (N.ltb_lt _ _)) by done. by eexists.
  - intros a b _. by eexists.
  - intros v b Hv _. unfold store_fits. rewrite (proj2 (N.ltb_lt _ _)) by done. by eexists.
  - intros h b _. by eexists.
  - intros c b _. by eexists.
  - intros b H1 H2. rewrite decide_True by done. by eexists.
  - intros a. rewrite length_ref_address_bits. done.
  - intros v _. unfold ref_coins_bits. by rewrite length_app, !length_bits_of_N.
  - intros h. apply length_vec_to_list.
Qed.

(** ** JSON values: what is visible of them *)

#[export] Instance JsonView_eq_dec : EqDecision JsonView.
Proof. solve_decision. Defined.

#[export] Instance ref_json : JsonLib := {| Value := JsonView; Value_view v := v |}.

(** ** Transactions for the examples *)

Definition ex_address (n : Z) : TonAddress := TonAddress_new 0 (TonHash_from_bytes [byte_of n]).

Definition ex_msg (src : option string) (dst : option TonAddress) (val fee : option string)
    (op : option Z) (body_boc : string) : TransactionMessage := {|
  msg_hash := "m"; source := src; destination := dst; value := val;
  value_extra_currencies := None; fwd_fee := fee; ihr_fee := None; created_lt := None;
  created_at := None; opcode := op; ihr_disabled := None; bounce := None; bounced := None;
  import_fee := None;
  message_content := {| mc_hash := ""; body := body_boc; decoded := None |};
  init_state := None |}.

Definition ex_compute (code : option Z) : ComputePhase := {|
  skipped := false; compute_success := None; msg_state_used := None; account_activated := None;
  gas_fees := None; gas_used_str := None; gas_limit := None; mode := None; exit_code := code;
  vm_steps := None; vm_init_state_hash := None; vm_final_state_hash := None |}.

Definition ex_action (code : Z) : Action := {|
  action_success := None; valid := true; no_funds := false; action_status_change := "";
  total_fwd_fees := None; total_action_fees := None; result_code := code; tot_actions := 0;
  spec_actions := 0; skipped_actions := 0; msgs_created := 0; action_list_hash := "";
  tot_msg_size := {| cells := ""; bits := "" |} |}.

Definition ex_balance : AccountStateBalance := {|
  asb_hash := ""; asb_balance := None; asb_extra_currencies := None; account_status := None;
  frozen_hash := None; data_hash := None; code_hash := None |}.

Definition ex_tx_with (acct : TonAddress) (h : string) (fees : Z)
    (compute : option ComputePhase) (act : option Action)
    (inm : option TransactionMessage) (outs : list TransactionMessage) : Transaction := {|
  account := acct; hash := h; lt := 0; tx_now := 0; mc_block_seqno := 0; tx_trace_id := "";
  prev_trans_hash := ""; prev_trans_lt := ""; orig_status := ""; end_status := "";
  total_fees := fees; total_fees_extra_currencies := {| ec_map := ∅ |};
  description := {| tx_type := "ord"; aborted := false; destroyed := false; credit_first := false;
    storage_ph := {| storage_fees_collected := ""; storage_status_change := "" |};
    credit_ph := None; compute_ph := compute; action := act |};
  block_ref := {| workchain := 0; shard := ""; seqno := 0 |};
  in_msg := inm; out_msgs := outs; account_state_before := ex_balance;
  account_state_after := ex_balance; emulated := false |}.

Definition ex_tx (acct : TonAddress) (h : string) (fees : Z)
    (inm : option TransactionMessage) (outs : list TransactionMessage) : Transaction :=
  ex_tx_with acct h fees None None inm outs.
