(* ===== verification/CellCodec.v ===== *)
(** * Buffers in cells: [boc/cell_to.rs], [boc/buffer_to_cell.rs], [boc/op_code.rs]

    A byte buffer is stored 96 bytes per cell, each cell referring to the
    next.  [buffer_to_cell] writes it, [cell_to_buffer] reads it back. *)

From Stdlib Require Import ZArith Lia Strings.Byte Strings.Ascii.
From stdpp Require Import base strings countable list.
From S2P Require Import Prelude RustStd Foreign Types.

Definition BYTES_PER_CELL : nat := 96.

(** [compare_op_code]. *)
Definition compare_op_code (expected_op_code : Z) (op_code : list byte) : bool :=
  if decide (length op_code = 4%nat) then
    if decide (from_be_bytes op_code <> expected_op_code) then false else true
  else false.

Section CellCodec.
Context {BU : BigUintLib} {TAL : TonAddressLib} {CL : CellLib}.

(** [parser.load_...().map_err(|err| BocParsingError(err.to_string()))]. *)
Definition parsing {A} (m : CellParser -> fres A * CellParser) : st CellParser BocError A :=
  fun p => let '(r, p') := m p in
    (map_err (fun err => BocParsingError (fe_display err)) (fr r), p').

(** Read a cell with a fresh parser. *)
Definition run_parser {A} (c : Cell) (m : st CellParser BocError A) : res BocError A :=
  st_eval m (Cell_parser c).

(** The loop [for _ in 0..BYTES_PER_CELL] of [cell_to_buffer]. *)
Fixpoint read_bytes (n : nat) (p : CellParser) : list byte * CellParser :=
  match n with
  | O => ([], p)
  | S n' =>
      match load_uint 8 p with
      | (inr val, p') =>
          let '(bs, p'') := read_bytes n' p' in
          (match last (BigUint_to_bytes_be val) with
           | Some byte => byte :: bs
           | None => bs
           end, p'')
      | (inl _, p') => ([], p')
      end
  end.

(** The loop [while let Some(cell) = current_cell]; [None] when the fuel ends
    before the chain. *)
Fixpoint cell_to_buffer_go (fuel : nat) (current_cell : option Cell) : option (list byte) :=
  match current_cell with
  | None => Some []
  | Some cell =>
      match fuel with
      | O => None
      | S fuel' =>
          let '(bs, parser) := read_bytes BYTES_PER_CELL (Cell_parser cell) in
          let next := match fst (next_reference parser) with
                      | inr c => Some c
                      | inl _ => None
                      end in
          rest ← cell_to_buffer_go fuel' next; Some (bs ++ rest)
      end
  end.

(** [CellTo::cell_to_buffer]; the chain of references is no longer than the
    depth of the cell, so the fuel is enough ([cell_to_buffer_go_total]). *)
Definition cell_to_buffer (c : Cell) : res BocError (list byte) :=
  Ok (default [] (cell_to_buffer_go (S (Cell_depth c)) (Some c))).

(** [CellTo::cell_to_string]. *)
Definition cell_to_string (c : Cell) : res BocError string :=
  let? bytes := cell_to_buffer c in
  map_err BocParsingError (string_from_utf8 bytes).

(** The loop over the bytes of one cell in [build_cell_chain]. *)
Fixpoint store_bytes (l : list byte) (b : CellBuilder) : res BocError CellBuilder :=
  match l with
  | [] => Ok b
  | byte :: l' =>
      let? b' := map_err (fun e => BocParsingError (fe_display e))
                   (fr (store_uint 8 (Byte.to_N byte) b)) in
      store_bytes l' b'
  end.

(** [build_cell_chain(start_index, buffer)] as a recursion on the bytes of
    [buffer] from [start_index] on. *)
Fixpoint build_cell_chain (fuel : nat) (rest : list byte) : res BocError Cell :=
  let? builder := store_bytes (take BYTES_PER_CELL rest) CellBuilder_new in
  let tail := drop BYTES_PER_CELL rest in
  let? builder' :=
    match tail, fuel with
    | _ :: _, S fuel' =>
        let? next_cell := build_cell_chain fuel' tail in
        map_err (fun e => BocParsingError (fe_display e))
          (fr (store_reference next_cell builder))
    | _, _ => Ok builder
    end in
  map_err (fun e => BocParsingError (fe_display e)) (fr (build builder')).

(** [buffer_to_cell]: one level of recursion per byte is more than enough. *)
Definition buffer_to_cell (buffer : list byte) : res BocError Cell :=
  build_cell_chain (length buffer) buffer.
End CellCodec.

(** ** Reading cells *)

Section BigUint.
Context {BU : BigUintLib} {BUL : BigUintLaws}.

Lemma BigUint_bytes_be_last v :
  last (BigUint_to_bytes_be v) = Some (byte_of (Z.of_N v)).
Proof.
  pose proof (BigUint_bytes_be_value v) as Hv.
  pose proof (BigUint_bytes_be_nonempty v) as Hne.
  destruct (BigUint_to_bytes_be v) as [|b l _] using rev_ind; [done|].
  rewrite last_snoc. f_equal. rewrite from_be_bytes_snoc in Hv.
  apply (inj byte_val). rewrite byte_val_of.
  pose proof (byte_val_range b). rewrite <- Hv.
  rewrite Z.add_comm, Z.mod_add, Z.mod_small; lia.
Qed.

Lemma BigUint_byte_last b : last (BigUint_to_bytes_be (N_of_bits (byte_bits b))) = Some b.
Proof.
  rewrite BigUint_bytes_be_last. f_equal. unfold byte_bits.
  rewrite N_of_bits_of_N; [apply byte_of_val|].
  pose proof (Byte.to_N_bounded b). change (2 ^ N.of_nat 8)%N with 256%N. lia.
Qed.
End BigUint.

Section Reading.
Context {BU : BigUintLib} {BUL : BigUintLaws} {TAL : TonAddressLib} {CL : CellLib}.
Context {CV : CellView} {CPL : CellParserLaws}.

Lemma read_bytes_ok n l p :
  parser_bits p = bytes_bits l -> (length l <= n)%nat ->
  exists p', read_bytes n p = (l, p') /\ parser_refs p' = parser_refs p.
Proof.
  revert l p; induction n as [|n IH]; intros l p Hp Hl.
  { destruct l; simpl in Hl; [|lia]. by exists p. }
  cbn [read_bytes]. destruct l as [|b l].
  - destruct (load_uint_short 8 p) as (e & p' & H1 & H2).
    { rewrite Hp. cbn. lia. }
    rewrite H1. by exists p'.
  - destruct (load_uint_ok 8 p (byte_bits b) (bytes_bits l)) as (p' & H1 & H2 & H3).
    { done. } { apply length_bits_of_N. }
    rewrite H1, BigUint_byte_last. destruct (IH l p') as (p'' & H4 & H5); [done|simpl in Hl; lia|].
    rewrite H4. exists p''. by rewrite H5.
Qed.

Lemma read_bytes_refs n p l p' : read_bytes n p = (l, p') -> parser_refs p' = parser_refs p.
Proof.
  revert l p p'; induction n as [|n IH]; intros l p p' H; cbn [read_bytes] in H.
  { congruence. }
  destruct (load_uint 8 p) as [r p1] eqn:E. apply load_uint_refs in E.
  destruct r as [e|v]; [congruence|].
  destruct (read_bytes n p1) as [bs p2] eqn:E2. apply IH in E2. simplify_eq. congruence.
Qed.

(** The loop over the cells ends within [depth + 1] turns. *)
Lemma cell_to_buffer_go_total fuel c :
  (Cell_depth c < fuel)%nat -> exists l, cell_to_buffer_go fuel (Some c) = Some l.
Proof.
  revert c; induction fuel as [|fuel IH]; intros c Hc; [lia|].
  cbn [cell_to_buffer_go].
  destruct (read_bytes BYTES_PER_CELL (Cell_parser c)) as [bs p] eqn:E.
  apply read_bytes_refs in E. rewrite parser_new_refs in E.
  destruct (next_reference p) as [[e|c'] p'] eqn:En; cbn [fst].
  - eexists. by destruct fuel.
  - apply next_reference_some in En. rewrite E in En. apply cell_refs_depth in En.
    destruct (IH c') as (l & Hl); [lia|]. rewrite Hl. by eexists.
Qed.

Lemma cell_to_buffer_go_mono fuel fuel' o l :
  cell_to_buffer_go fuel o = Some l -> (fuel <= fuel')%nat ->
  cell_to_buffer_go fuel' o = Some l.
Proof.
  revert fuel' o l; induction fuel as [|fuel IH]; intros fuel' o l H Hle.
  { destruct o; [done|]. by destruct fuel'. }
  destruct fuel' as [|fuel']; [lia|]. destruct o as [c|]; [|done].
  cbn [cell_to_buffer_go] in H |- *.
  destruct (read_bytes BYTES_PER_CELL (Cell_parser c)) as [bs p].
  apply bind_Some in H as (r & H & Heq). erewrite IH; [done|done|lia].
Qed.

(** [stores c l]: the chain of cells from [c] holds the buffer [l], 96 bytes
    per cell. *)
Inductive stores : Cell -> list byte -> Prop :=
| stores_last c l :
    (length l <= BYTES_PER_CELL)%nat -> cell_bits c = bytes_bits l -> cell_refs c = [] ->
    stores c l
| stores_next c l c' l' :
    length l = BYTES_PER_CELL -> cell_bits c = bytes_bits l -> cell_refs c = [c'] ->
    stores c' l' -> stores c (l ++ l').

Lemma stores_go c l :
  stores c l -> exists fuel, cell_to_buffer_go fuel (Some c) = Some l.
Proof.
  induction 1 as [c l Hl Hb Hr|c l c' l' Hl Hb Hr Hs [fuel IH]].
  - exists 1%nat. cbn [cell_to_buffer_go].
    destruct (read_bytes_ok BYTES_PER_CELL l (Cell_parser c)) as (p & Hp & Hpr).
    { by rewrite parser_new_bits. } { done. }
    rewrite Hp. rewrite parser_new_refs, Hr in Hpr.
    destruct (next_reference_none p Hpr) as (e & p' & Hn). rewrite Hn. simpl.
    by rewrite app_nil_r.
  - exists (S fuel). cbn [cell_to_buffer_go].
    destruct (read_bytes_ok BYTES_PER_CELL l (Cell_parser c)) as (p & Hp & Hpr).
    { by rewrite parser_new_bits. } { lia. }
    rewrite Hp. rewrite parser_new_refs, Hr in Hpr.
    destruct (next_reference_ok p c' [] Hpr) as (p' & Hn & _). rewrite Hn. cbn [fst].
    by rewrite IH.
Qed.

Lemma cell_to_buffer_stores c l : stores c l -> cell_to_buffer c = Ok l.
Proof.
  intros (fuel & H)%stores_go. unfold cell_to_buffer.
  destruct (cell_to_buffer_go_total (S (Cell_depth c)) c) as (l' & Hl'); [lia|].
  pose proof (cell_to_buffer_go_mono _ (fuel + S (Cell_depth c)) _ _ H ltac:(lia)) as H1.
  pose proof (cell_to_buffer_go_mono _ (fuel + S (Cell_depth c)) _ _ Hl' ltac:(lia)) as H2.
  rewrite Hl'. simpl. congruence.
Qed.

Lemma cell_to_string_stores c s :
  utf8_valid (as_bytes s) = true -> stores c (as_bytes s) -> cell_to_string c = Ok s.
Proof.
  intros Hu Hs. unfold cell_to_string. rewrite (cell_to_buffer_stores _ _ Hs). simpl.
  unfold string_from_utf8. rewrite Hu. simpl. by rewrite string_of_as_bytes.
Qed.
End Reading.

(** ** Writing cells *)

Section Writing.
Context {TAL : TonAddressLib} {CL : CellLib} {CV : CellView} {CBL : CellBuilderLaws}.

Lemma store_bytes_ok l b :
  (length (builder_bits b) + 8 * length l <= 1023)%nat ->
  exists b', store_bytes l b = Ok b' /\
    builder_bits b' = builder_bits b ++ bytes_bits l /\ builder_refs b' = builder_refs b.
Proof.
  revert b; induction l as [|x l IH]; intros b Hlen; cbn [store_bytes].
  { exists b. by rewrite app_nil_r. }
  simpl length in Hlen.
  destruct (store_uint_ok 8 (Byte.to_N x) b) as (b1 & H1 & H2 & H3).
  { pose proof (Byte.to_N_bounded x). change (2 ^ N.of_nat 8)%N with 256%N. lia. }
  { lia. }
  rewrite H1. cbn [fr map_err res_bind].
  destruct (IH b1) as (b' & H4 & H5 & H6).
  { rewrite H2, length_app, length_bits_of_N. lia. }
  exists b'. split; [done|]. split; [|congruence].
  rewrite H5, H2. unfold bytes_bits. cbn [map concat]. by rewrite <- app_assoc.
Qed.

Lemma build_cell_chain_stores fuel l :
  (length l <= fuel)%nat -> exists c, build_cell_chain fuel l = Ok c /\ stores c l.
Proof.
  revert l; induction fuel as [fuel IH] using lt_wf_ind; intros l Hl.
  assert (Htake : (length (take BYTES_PER_CELL l) <= BYTES_PER_CELL)%nat)
    by (rewrite length_take; lia).
  destruct (store_bytes_ok (take BYTES_PER_CELL l) CellBuilder_new) as (b & Hb & Hbits & Hrefs).
  { rewrite builder_new_bits. unfold BYTES_PER_CELL in *. simpl length. lia. }
  rewrite builder_new_bits in Hbits. rewrite builder_new_refs in Hrefs. simpl in Hbits.
  assert (Hcap : (length (builder_bits b) <= 1023)%nat).
  { rewrite Hbits, length_bytes_bits. unfold BYTES_PER_CELL in *. lia. }
  destruct (drop BYTES_PER_CELL l) as [|x tail] eqn:Ed.
  - destruct (build_ok b) as (c & Hc & Hcb & Hcr); [done|rewrite Hrefs; simpl; lia|].
    exists c. split.
    + destruct fuel; cbn [build_cell_chain]; rewrite Hb, Ed; cbn; by rewrite Hc.
    + rewrite <- (take_drop BYTES_PER_CELL l), Ed, app_nil_r.
      apply stores_last; congruence.
  - assert (Hlen : length (drop BYTES_PER_CELL l) = S (length tail)) by by rewrite Ed.
    rewrite length_drop in Hlen. unfold BYTES_PER_CELL in Hlen.
    destruct fuel as [|fuel]; [lia|].
    destruct (IH fuel ltac:(lia) (x :: tail)) as (c' & Hc' & Hs').
    { simpl. lia. }
    destruct (store_reference_ok c' b) as (b2 & H1 & H2 & H3).
    { rewrite Hrefs. simpl. lia. }
    rewrite Hrefs in H3. simpl in H3.
    destruct (build_ok b2) as (c & Hc & Hcb & Hcr).
    { by rewrite H2. } { rewrite H3. simpl. lia. }
    exists c. split.
    + cbn [build_cell_chain]. rewrite Hb, Ed. cbn [res_bind].
      rewrite Hc'. cbn [res_bind]. rewrite H1. cbn. by rewrite Hc.
    + rewrite <- (take_drop BYTES_PER_CELL l), Ed.
      apply stores_next with c'; [|congruence|congruence|done].
      rewrite length_take. unfold BYTES_PER_CELL. lia.
Qed.

Lemma buffer_to_cell_stores l : exists c, buffer_to_cell l = Ok c /\ stores c l.
Proof. by apply build_cell_chain_stores. Qed.
End Writing.

Section RoundTrip.
Context {BU : BigUintLib} {BUL : BigUintLaws} {TAL : TonAddressLib} {CL : CellLib}.
Context {CV : CellView} {CPL : CellParserLaws} {CBL : CellBuilderLaws}.

(** C30. Writing any byte buffer into a chain of cells and reading it back
    gives the same buffer: [buffer_to_cell] never fails, and
    [cell_to_buffer] inverts it. *)
Theorem buffer_cell_roundtrip (l : list byte) :
  exists c, buffer_to_cell l = Ok c /\ cell_to_buffer c = Ok l.
Proof.
  destruct (buffer_to_cell_stores l) as (c & Hc & Hs).
  exists c. split; [done|]. by apply cell_to_buffer_stores.
Qed.
End RoundTrip.

(** ** Applications at concrete inputs *)

From S2P Require Import Instances.

Lemma buffer_cell_roundtrip_witness :
  exists c, buffer_to_cell (replicate 100 (byte_of 7)) = Ok c /\
    cell_to_buffer c = Ok (replicate 100 (byte_of 7)).
Proof. exact (buffer_cell_roundtrip (replicate 100 (byte_of 7))). Defined.
