(* ===== verification/Messages.v ===== *)
(** * Bag-of-cells messages: the decoders and encoders of [boc/]

    One record per message and one function [T_from_boc_b64] (or [T_to_cell])
    for the method of the Rust type [T].  A decoder is a sequence of
    reads in the parser monad; the order of the reads is the source's. *)

From Stdlib Require Import ZArith Lia Strings.Byte Strings.Ascii.
From stdpp Require Import base strings pretty countable list.
From S2P Require Import Prelude RustStd Foreign Types GmpTypes CellCodec.

(** ** Formatting of op codes *)

(** [{:08X}] of a [u32]. *)
Fixpoint hex_upper_go (n : nat) (v : Z) : string :=
  match n with
  | O => ""
  | S n' =>
      let d := (v / 16 ^ Z.of_nat n') mod 16 in
      String (Ascii.ascii_of_N (Z.to_N (if d <? 10 then 48 + d else 55 + d)))
        (hex_upper_go n' v)
  end.

Definition fmt_08X (v : Z) : string := hex_upper_go 8 v.

(** [{:?}] of a string without characters to escape. *)
Definition quote : string := String (Ascii.ascii_of_nat 34) EmptyString.
Definition fmt_debug_plain (s : string) : string := quote +:+ s +:+ quote.

(** [x.as_slice().try_into()] into [[u8; 32]]. *)
Definition try_into_32 (e : BocError) (l : list byte) : res BocError (list byte) :=
  if decide (length l = 32%nat) then Ok l else Err e.

Section Messages.
Context {BU : BigUintLib} {TAL : TonAddressLib} {CL : CellLib} {CO : CodecLib}.

(** [Cell::from_boc_b64(boc).map_err(|err| BocParsingError(err.to_string()))]. *)
Definition cell_of_b64 (boc : string) : res BocError Cell :=
  map_err (fun err => BocParsingError (fe_display err)) (fr (Cell_from_boc_b64 boc)).

(** [parser.next_reference().map_err(..)?.cell_to_string()?]. *)
Definition ref_string : st CellParser BocError string :=
  let! c := parsing next_reference in st_lift (cell_to_string c).

(** [parser.next_reference().map_err(..)?.cell_to_buffer()?]. *)
Definition ref_buffer : st CellParser BocError (list byte) :=
  let! c := parsing next_reference in st_lift (cell_to_buffer c).

(** The op-code test at the start of a log. *)
Definition expect_op_code (expected : Z) : st CellParser BocError unit :=
  let! op_code := parsing (load_bits 32) in
  if negb (compare_op_code expected op_code) then
    st_err (InvalidOpCode ("Expected " +:+ fmt_08X expected +:+ ", got " +:+ hex_encode op_code))
  else st_ret tt.

(** ** [call_contract.rs] *)
Record CallContractMessage := {
  cc_destination_chain : string;
  cc_destination_address : string;
  cc_payload : string;
  cc_source_address : TonAddress;
  cc_payload_hash : list byte;
}.

Definition CallContractMessage_from_boc_b64 (boc : string) : res BocError CallContractMessage :=
  let? cell := cell_of_b64 boc in
  run_parser cell (
    let! destination_chain := ref_string in
    let! destination_address := ref_string in
    let! payload := ref_buffer in
    let! source_address := parsing load_address in
    let! hash_bits := parsing (load_bits 256) in
    let! payload_hash :=
      st_lift (try_into_32 (BocParsingError "Invalid payload hash length") hash_bits) in
    st_ret {|
      cc_destination_chain := destination_chain;
      cc_destination_address := destination_address;
      cc_payload := hex_encode payload;
      cc_source_address := source_address;
      cc_payload_hash := payload_hash;
    |}).

(** ** [cc_message.rs] *)
Record TonCCMessage := {
  ccm_message_id : string;
  ccm_destination_address : string;
  ccm_destination_chain : string;
  ccm_source_address : string;
  ccm_source_chain : string;
  ccm_log_event : string;
  ccm_payload_hash : list byte;
}.

Definition TonCCMessage_from_boc_b64 (boc_b64 : string) : res BocError TonCCMessage :=
  let? cell := cell_of_b64 boc_b64 in
  run_parser cell (
    let! message_id := ref_string in
    let! source_chain := ref_string in
    let! source_address := ref_string in
    let! inner_cell := parsing next_reference in
    st_lift (run_parser inner_cell (
      let! hash_bits := parsing (load_bits 256) in
      let! payload_hash :=
        st_lift (try_into_32 (BocParsingError "Invalid payload hash length") hash_bits) in
      let! destination_address := ref_buffer in
      let! hash_part :=
        st_lift (ok_or (BocParsingError "Invalid hash length")
                   (TonHash_try_from_vec destination_address)) in
      let ton_address := TonAddress_new WORKCHAIN hash_part in
      let! destination_chain := ref_string in
      st_ret {|
        ccm_message_id := message_id;
        ccm_destination_address := TonAddress_to_hex ton_address;
        ccm_destination_chain := destination_chain;
        ccm_source_address := source_address;
        ccm_source_chain := source_chain;
        ccm_log_event := "";
        ccm_payload_hash := payload_hash;
      |}))).

(** ** [nullified_message.rs] *)
Record NullifiedSuccessfullyMessage := {
  nm_message_id : string;
  nm_source_chain : string;
  nm_source_address : string;
  nm_destination_chain : string;
  nm_destination_address : list byte;
  nm_payload : string;
}.

Definition NullifiedSuccessfullyMessage_from_boc_b64 (boc : string)
    : res BocError NullifiedSuccessfullyMessage :=
  let? cell := cell_of_b64 boc in
  run_parser cell (
    let! op_code := parsing (load_bits 32) in
    if decide (hex_encode op_code <> fmt_08X OP_NULLIFIED_SUCCESSFULLY) then
      st_err (InvalidOpCode ("Expected " +:+ z_to_string OP_NULLIFIED_SUCCESSFULLY +:+
        ", got " +:+ fmt_debug_plain (hex_encode op_code)))
    else
    let! message_id := ref_string in
    let! source_chain := ref_string in
    let! source_address := ref_string in
    let! inner_cell := parsing next_reference in
    st_lift (run_parser inner_cell (
      let! payload := ref_buffer in
      let! destination_address := ref_buffer in
      let! destination_chain := ref_string in
      st_ret {|
        nm_message_id := message_id;
        nm_source_chain := source_chain;
        nm_source_address := source_address;
        nm_destination_chain := destination_chain;
        nm_destination_address := destination_address;
        nm_payload := hex_encode payload;
      |}))).

(** ** [relayer_execute_wrapped.rs] *)
Record RelayerExecuteWrappedMessage := {
  rew_message_id : string;
  rew_source_chain : string;
}.

(** [.map_err(|err| BocParsingError(err.to_string()))] on a [BocError]. *)
Definition reparse_err {A} (m : res BocError A) : res BocError A :=
  map_err (fun err => BocParsingError (BocError_to_string err)) m.

Definition RelayerExecuteWrappedMessage_from_boc_b64 (boc : string)
    : res BocError RelayerExecuteWrappedMessage :=
  let? cell := cell_of_b64 boc in
  let? cell := run_parser cell (parsing next_reference) in
  let? cell := run_parser cell (
    do! parsing next_reference in
    parsing next_reference) in
  let? cell := run_parser cell (parsing next_reference) in
  let? cell := run_parser cell (parsing next_reference) in
  run_parser cell (
    let! c := parsing next_reference in
    let! message_id := st_lift (reparse_err (cell_to_string c)) in
    let! c := parsing next_reference in
    let! source_chain := st_lift (reparse_err (cell_to_string c)) in
    st_ret {| rew_message_id := message_id; rew_source_chain := source_chain |}).

(** ** [signers_rotated.rs] *)
Record LogSignersRotatedMessage := {
  srm_signers_hash : string;
  srm_epoch : Z; (* u64 *)
}.

(** [u64::try_from(BigUint)]. *)
Definition u64_try_from (v : N) : res BocError Z :=
  if decide (Z.of_N v < 2 ^ 64) then Ok (Z.of_N v)
  else Err (BocParsingError "out of range conversion regarding big integer attempted").

Definition LogSignersRotatedMessage_from_boc_b64 (boc_b64 : string)
    : res BocError LogSignersRotatedMessage :=
  let? cell := cell_of_b64 boc_b64 in
  run_parser cell (
    do! expect_op_code OP_SIGNERS_ROTATED_LOG in
    do! parsing next_reference in
    let! signers_hash := parsing (load_uint 256) in
    let! epoch := parsing (load_uint 256) in
    let! epoch := st_lift (u64_try_from epoch) in
    st_ret {|
      srm_signers_hash := "0x" +:+ hex_encode (BigUint_to_bytes_be signers_hash);
      srm_epoch := epoch;
    |}).

(** ** [native_gas_paid.rs] *)
Record NativeGasPaidMessage := {
  ngp_sender : TonAddress;
  ngp_payload_hash : list byte;
  ngp_msg_value : N;
  ngp_refund_address : TonAddress;
  ngp_destination_chain : string;
  ngp_destination_address : string;
}.

(** [BigUint::from_bytes_be] of 32 bytes. *)
Definition biguint_of_be (l : list byte) : N := Z.to_N (from_be_bytes l).

Definition NativeGasPaidMessage_from_boc_b64 (boc_b64 : string)
    : res BocError NativeGasPaidMessage :=
  let? cell := cell_of_b64 boc_b64 in
  run_parser cell (
    let! sender := parsing load_address in
    let! hash_bits := parsing (load_bits 256) in
    let! payload_hash :=
      st_lift (try_into_32 (BocParsingError "Invalid payload hash length") hash_bits) in
    let! value_bits := parsing (load_bits 256) in
    let! msg_value :=
      st_lift (try_into_32 (BocParsingError "Invalid msg_value hash length") value_bits) in
    let! refund_cell := parsing next_reference in
    let! refund_address := st_lift (run_parser refund_cell (parsing load_address)) in
    let! destination_chain := ref_string in
    let! destination_address := ref_string in
    st_ret {|
      ngp_sender := sender;
      ngp_payload_hash := payload_hash;
      ngp_msg_value := biguint_of_be msg_value;
      ngp_refund_address := refund_address;
      ngp_destination_chain := destination_chain;
      ngp_destination_address := destination_address;
    |}).

(** ** [native_gas_added.rs] *)
Record NativeGasAddedMessage := {
  nga_tx_hash : TonHash;
  nga_refund_address : TonAddress;
  nga_msg_value : N;
}.

Definition NativeGasAddedMessage_from_boc_b64 (boc : string)
    : res BocError NativeGasAddedMessage :=
  let? cell := cell_of_b64 boc in
  run_parser cell (
    let! hash_bits := parsing (load_bits 256) in
    let! tx_hash :=
      st_lift (try_into_32 (BocParsingError "Invalid tx_hash hash length") hash_bits) in
    let! refund_address := parsing load_address in
    let! value_bits := parsing (load_bits 256) in
    let! msg_value :=
      st_lift (try_into_32 (BocParsingError "Invalid msg_value hash length") value_bits) in
    st_ret {|
      nga_tx_hash := TonHash_from_bytes tx_hash;
      nga_refund_address := refund_address;
      nga_msg_value := biguint_of_be msg_value;
    |}).

(** ** [native_gas_refunded.rs] *)
Record NativeGasRefundedMessage := {
  ngr_tx_hash : TonHash;
  ngr_address : TonAddress;
  ngr_amount : N;
}.

(** The reads of [NativeGasRefundedMessage::from_boc_b64]. *)
Definition NativeGasRefundedMessage_parse : st CellParser BocError NativeGasRefundedMessage :=
  let! tx_hash := parsing load_tonhash in
  let! address := parsing load_address in
  let! amount := parsing load_coins in
  st_ret {| ngr_tx_hash := tx_hash; ngr_address := address; ngr_amount := amount |}.

Definition NativeGasRefundedMessage_from_boc_b64 (boc_b64 : string)
    : res BocError NativeGasRefundedMessage :=
  let? cell := cell_of_b64 boc_b64 in
  run_parser cell NativeGasRefundedMessage_parse.

(** ** [jetton_gas_paid.rs] *)
Record JettonGasPaidMessage := {
  jgp_minter : TonAddress;
  jgp_payload_hash : list byte;
  jgp_amount : N;
  jgp_refund_address : TonAddress;
  jgp_destination_chain : string;
  jgp_destination_address : string;
}.

Definition JettonGasPaidMessage_from_boc_b64 (boc_b64 : string)
    : res BocError JettonGasPaidMessage :=
  let? cell := cell_of_b64 boc_b64 in
  run_parser cell (
    let! minter := parsing load_address in
    let! amount := parsing load_coins in
    let! hash_bits := parsing (load_bits 256) in
    let! payload_hash :=
      st_lift (try_into_32 (BocParsingError "Invalid payload hash length") hash_bits) in
    let! refund_cell := parsing next_reference in
    let! refund_address := st_lift (run_parser refund_cell (parsing load_address)) in
    let! destination_chain := ref_string in
    let! destination_address := ref_string in
    st_ret {|
      jgp_minter := minter;
      jgp_payload_hash := payload_hash;
      jgp_amount := amount;
      jgp_refund_address := refund_address;
      jgp_destination_chain := destination_chain;
      jgp_destination_address := destination_address;
    |}).

(** ** [jetton_gas_added.rs] *)
Record JettonGasAddedMessage := {
  jga_minter : TonAddress;
  jga_sender : TonAddress;
  jga_tx_hash : TonHash;
  jga_amount : N;
  jga_refund_address : TonAddress;
}.

Definition JettonGasAddedMessage_from_boc_b64 (boc_b64 : string)
    : res BocError JettonGasAddedMessage :=
  let? cell := cell_of_b64 boc_b64 in
  run_parser cell (
    let! minter := parsing load_address in
    let! sender := parsing load_address in
    let! amount := parsing load_coins in
    let! hash_bits := parsing (load_bits 256) in
    let! tx_hash :=
      st_lift (try_into_32 (BocParsingError "Invalid tx_hash hash length") hash_bits) in
    let! refund_cell := parsing next_reference in
    let! refund_address := st_lift (run_parser refund_cell (parsing load_address)) in
    st_ret {|
      jga_minter := minter;
      jga_sender := sender;
      jga_tx_hash := TonHash_from_bytes tx_hash;
      jga_amount := amount;
      jga_refund_address := refund_address;
    |}).

(** ** [its_token_metadata_registered.rs] *)
Record LogTokenMetadataRegisteredMessage := {
  tmr_address : TonAddress;
  tmr_decimals : Z; (* u8 *)
}.

Definition LogTokenMetadataRegisteredMessage_from_boc_b64 (boc_b64 : string)
    : res BocError LogTokenMetadataRegisteredMessage :=
  let? cell := cell_of_b64 boc_b64 in
  run_parser cell (
    do! expect_op_code OP_TOKEN_METADATA_REGISTERED_LOG in
    let! address := parsing load_address in
    let! decimals := parsing (load_i16 8) in
    st_ret {| tmr_address := address; tmr_decimals := wrap_u 8 decimals |}).

(** ** [its_interchain_token_deployment_started.rs] *)
Record LogITSInterchainTokenDeploymentStartedMessage := {
  tds_destination_chain : string;
  tds_token_id : N;
  tds_token_name : string;
  tds_token_symbol : string;
  tds_decimals : Z; (* u8 *)
}.

(** The minter is parsed and its result dropped, errors included. *)
Definition LogITSInterchainTokenDeploymentStartedMessage_from_boc_b64 (boc_b64 : string)
    : res BocError LogITSInterchainTokenDeploymentStartedMessage :=
  let? cell := cell_of_b64 boc_b64 in
  run_parser cell (
    do! expect_op_code OP_INTERCHAIN_TOKEN_DEPLOYMENT_STARTED_LOG in
    let! token_id := parsing (load_uint 256) in
    let! token_name := ref_string in
    let! token_symbol := ref_string in
    let! decimals := parsing (load_u8 8) in
    do! parsing next_reference in
    let! destination_chain := ref_string in
    st_ret {|
      tds_destination_chain := destination_chain;
      tds_token_id := token_id;
      tds_token_name := token_name;
      tds_token_symbol := token_symbol;
      tds_decimals := decimals;
    |}).

(** ** [its_interchain_transfer.rs] *)
Record LogITSInterchainTransferMessage := {
  itm_token_id : N;
  itm_sender_address : TonAddress;
  itm_destination_chain : string;
  itm_destination_address : string;
  itm_jetton_amount : N;
  itm_data : list byte;
}.

(** [TonAddress::from_str(&format!("0:{}", n.to_str_radix(16)))]. *)
Definition address_of_uint (n : N) : res BocError TonAddress :=
  map_err (fun err => BocParsingError (fe_display err))
    (fr (TonAddress_from_str ("0:" +:+ BigUint_to_str_radix16 n))).

Definition LogITSInterchainTransferMessage_from_boc_b64 (boc_b64 : string)
    : res BocError LogITSInterchainTransferMessage :=
  let? cell := cell_of_b64 boc_b64 in
  run_parser cell (
    do! expect_op_code OP_INTERCHAIN_TRANSFER_LOG in
    let! token_id := parsing (load_uint 256) in
    let! sender_cell := parsing next_reference in
    let! sender_address := st_lift (run_parser sender_cell (parsing (load_uint 256))) in
    let! sender_address := st_lift (address_of_uint sender_address) in
    let! destination_chain := ref_string in
    let! destination_address := ref_buffer in
    let destination_address := "0x" +:+ hex_encode destination_address in
    let! jetton_amount := parsing (load_uint 256) in
    let! data_cell := parsing next_reference in
    st_ret {|
      itm_token_id := token_id;
      itm_sender_address := sender_address;
      itm_destination_chain := destination_chain;
      itm_destination_address := destination_address;
      itm_jetton_amount := jetton_amount;
      itm_data := Cell_data data_cell;
    |}).

(** ** [its_link_token_started.rs] *)
Record LogITSLinkTokenStartedMessage := {
  lts_token_id : N;
  lts_destination_chain : string;
  lts_source_token_address : TonAddress;
  lts_destination_token_address : string;
  lts_token_manager_type : TokenManagerType;
}.

Definition token_manager_of (n : Z) : res BocError TokenManagerType :=
  if n =? 0 then Ok NativeInterchainToken
  else if n =? 1 then Ok MintBurnFrom
  else if n =? 2 then Ok LockUnlock
  else if n =? 3 then Ok LockUnlockFee
  else if n =? 4 then Ok MintBurn
  else Err (BocParsingError ("Invalid token manager type " +:+ z_to_string n)).

Definition LogITSLinkTokenStartedMessage_from_boc_b64 (boc_b64 : string)
    : res BocError LogITSLinkTokenStartedMessage :=
  let? cell := cell_of_b64 boc_b64 in
  run_parser cell (
    do! expect_op_code OP_LINK_TOKEN_STARTED_LOG in
    let! token_id := parsing (load_uint 256) in
    let! destination_chain := ref_string in
    let! source_cell := parsing next_reference in
    let! source_token := st_lift (run_parser source_cell (parsing (load_uint 256))) in
    let! source_token_address := st_lift (address_of_uint source_token) in
    let! destination_token := ref_buffer in
    let destination_token_address := "0x" +:+ hex_encode destination_token in
    let! manager := parsing (load_u8 8) in
    let! token_manager_type := st_lift (token_manager_of manager) in
    st_ret {|
      lts_token_id := token_id;
      lts_destination_chain := destination_chain;
      lts_source_token_address := source_token_address;
      lts_destination_token_address := destination_token_address;
      lts_token_manager_type := token_manager_type;
    |}).

(** ** [approve_message.rs] *)
Record ApproveMessage := {
  am_message_id : string;
  am_source_chain : string;
  am_source_address : string;
  am_destination_chain : string;
  am_destination_address : list byte;
  am_payload_hash : N;
}.

Record ApproveMessages := {
  approve_messages : list ApproveMessage;
  am_proof : Cell;
}.

Definition parse_approve_messages (cell : Cell) : res BocError ApproveMessage :=
  run_parser cell (
    let! payload_hash := parsing (load_uint 256) in
    let! message_id := ref_string in
    let! source_chain := ref_string in
    let! source_address := ref_string in
    let! inner_cell := parsing next_reference in
    st_lift (run_parser inner_cell (
      let! destination_address := ref_buffer in
      let! destination_chain := ref_string in
      st_ret {|
        am_message_id := message_id;
        am_source_chain := source_chain;
        am_source_address := source_address;
        am_destination_chain := destination_chain;
        am_destination_address := destination_address;
        am_payload_hash := payload_hash;
      |}))).

Definition ApproveMessages_from_boc_hex (boc : string) : res BocError ApproveMessages :=
  let? cell := map_err (fun err => BocParsingError (fe_display err)) (fr (Cell_from_boc_hex boc)) in
  run_parser cell (
    do! expect_op_code OP_APPROVE_MESSAGES in
    let! proof := parsing next_reference in
    let! messages := parsing next_reference in
    let! data := st_lift (run_parser messages (parsing (load_dict_u8_ref 16))) in
    let! approve_messages :=
      st_lift (res_mapM (fun '(_, cell) =>
        let? arc_cell := map_err (fun err => BocParsingError (fe_display err))
                           (fr (Arc_from_cell cell)) in
        parse_approve_messages arc_cell) data) in
    st_ret {| approve_messages := approve_messages; am_proof := proof |}).

(** ** Encoders *)

(** [builder.store_...().map_err(|e| BocEncodingError(e.to_string()))]. *)
Definition enc {A} (m : fres A) : res BocError A :=
  map_err (fun e => BocEncodingError (fe_display e)) (fr m).

(** [native_refund.rs] *)
Record NativeRefundMessage := {
  nr_tx_hash : TonHash;
  nr_address : TonAddress;
  nr_amount : N;
}.

Definition NativeRefundMessage_new (tx_hash : TonHash) (address : TonAddress) (amount : N)
    : NativeRefundMessage :=
  {| nr_tx_hash := tx_hash; nr_address := address; nr_amount := amount |}.

Definition NativeRefundMessage_to_cell (m : NativeRefundMessage) : res BocError Cell :=
  let? builder := enc (store_uint 32 (Z.to_N OP_NATIVE_REFUND) CellBuilder_new) in
  let? builder := enc (store_tonhash (nr_tx_hash m) builder) in
  let? builder := enc (store_address (nr_address m) builder) in
  let? builder := enc (store_coins (nr_amount m) builder) in
  enc (build builder).

(** [hashing.rs] *)
Definition payload_hash (payload : list byte) : N := biguint_of_be (keccak256 payload).

(** [relayer_execute_message.rs] *)
Record RelayerExecuteMessage := {
  rem_message_id : string;
  rem_source_chain : string;
  rem_source_address : string;
  rem_destination_chain : string;
  rem_destination_address : TonAddress;
  rem_payload : string;
  rem_relayer_address : TonAddress;
}.

Definition RelayerExecuteMessage_new (message_id source_chain source_address destination_chain : string)
    (destination_address : TonAddress) (payload : string) (relayer_address : TonAddress)
    : RelayerExecuteMessage := {|
  rem_message_id := message_id;
  rem_source_chain := source_chain;
  rem_source_address := source_address;
  rem_destination_chain := destination_chain;
  rem_destination_address := destination_address;
  rem_payload := payload;
  rem_relayer_address := relayer_address;
|}.

Definition RelayerExecuteMessage_to_cell (self : RelayerExecuteMessage) : res BocError Cell :=
  let? message_id := buffer_to_cell (as_bytes (rem_message_id self)) in
  let? source_chain := buffer_to_cell (as_bytes (rem_source_chain self)) in
  let? source_address := buffer_to_cell (as_bytes (rem_source_address self)) in
  let? destination_chain := buffer_to_cell (as_bytes (rem_destination_chain self)) in
  let? destination_address :=
    buffer_to_cell
      (TonHash_to_bytes (TonAddress_hash_part (rem_destination_address self))) in
  let? payload_bytes :=
    map_err (fun e => BocParsingError ("Invalid hex payload: " +:+ fe_display e))
      (fr (hex_decode (rem_payload self))) in
  let hash := payload_hash payload_bytes in
  let? payload := buffer_to_cell payload_bytes in

  let? inner := enc (store_reference payload CellBuilder_new) in
  let? inner := enc (store_reference destination_address inner) in
  let? inner := enc (store_reference destination_chain inner) in
  let? inner := enc (store_uint 256 hash inner) in
  let? inner := map_err (fun e => BocParsingError (fe_display e)) (fr (build inner)) in

  let? message := enc (store_reference message_id CellBuilder_new) in
  let? message := enc (store_reference source_chain message) in
  let? message := enc (store_reference source_address message) in
  let? message := enc (store_reference inner message) in
  let? message := enc (build message) in

  let? outer := enc (store_uint 32 (Z.to_N OP_RELAYER_EXECUTE) CellBuilder_new) in
  let? outer := enc (store_reference message outer) in
  let? outer := enc (store_address (rem_relayer_address self) outer) in
  enc (build outer).
End Messages.

(** ** No decoder panics *)

#[export] Instance fr_safe {A} (m : fres A) : ResSafe (fr m).
Proof. unfold ResSafe. auto with relayer. Qed.
#[export] Instance try_into_32_safe e l : ResSafe (try_into_32 e l).
Proof. unfold try_into_32. apply _. Qed.
#[export] Instance token_manager_of_safe n : ResSafe (token_manager_of n).
Proof. unfold token_manager_of. apply _. Qed.
#[export] Instance u64_try_from_safe n : ResSafe (u64_try_from n).
Proof. unfold u64_try_from. apply _. Qed.
#[export] Instance string_from_utf8_safe l : ResSafe (string_from_utf8 l).
Proof. unfold string_from_utf8. apply _. Qed.

Section DecodersSafe.
Context {BU : BigUintLib} {TAL : TonAddressLib} {CL : CellLib} {CO : CodecLib}.

#[global] Instance parsing_safe {A} (m : CellParser -> fres A * CellParser) :
  StSafe (parsing m).
Proof. intros p. unfold parsing. destruct (m p) as [[] p']; done. Qed.
#[global] Instance run_parser_safe {A} c (m : st CellParser BocError A) :
  StSafe m -> ResSafe (run_parser c m).
Proof. unfold run_parser. apply _. Qed.
#[global] Instance cell_to_buffer_safe c : ResSafe (cell_to_buffer c).
Proof. unfold cell_to_buffer. apply _. Qed.
#[global] Instance cell_to_string_safe c : ResSafe (cell_to_string c).
Proof. unfold cell_to_string. apply _. Qed.
#[global] Instance reparse_err_safe {A} (m : res BocError A) :
  ResSafe m -> ResSafe (reparse_err m).
Proof. unfold reparse_err. apply _. Qed.
#[global] Instance cell_of_b64_safe boc : ResSafe (cell_of_b64 boc).
Proof. unfold cell_of_b64. apply _. Qed.
#[global] Instance ref_string_safe : StSafe ref_string.
Proof. unfold ref_string. apply _. Qed.
#[global] Instance ref_buffer_safe : StSafe ref_buffer.
Proof. unfold ref_buffer. apply _. Qed.
#[global] Instance expect_op_code_safe op : StSafe (expect_op_code op).
Proof. unfold expect_op_code. apply _. Qed.
#[global] Instance address_of_uint_safe n : ResSafe (address_of_uint n).
Proof. unfold address_of_uint. apply _. Qed.

#[global] Instance CallContractMessage_safe boc : ResSafe (CallContractMessage_from_boc_b64 boc).
Proof. unfold CallContractMessage_from_boc_b64. apply _. Qed.
#[global] Instance TonCCMessage_safe boc : ResSafe (TonCCMessage_from_boc_b64 boc).
Proof. unfold TonCCMessage_from_boc_b64. apply _. Qed.
#[global] Instance NullifiedSuccessfullyMessage_safe boc :
  ResSafe (NullifiedSuccessfullyMessage_from_boc_b64 boc).
Proof. unfold NullifiedSuccessfullyMessage_from_boc_b64. apply _. Qed.
#[global] Instance RelayerExecuteWrappedMessage_safe boc :
  ResSafe (RelayerExecuteWrappedMessage_from_boc_b64 boc).
Proof. unfold RelayerExecuteWrappedMessage_from_boc_b64. apply _. Qed.
#[global] Instance LogSignersRotatedMessage_safe boc :
  ResSafe (LogSignersRotatedMessage_from_boc_b64 boc).
Proof. unfold LogSignersRotatedMessage_from_boc_b64. apply _. Qed.
#[global] Instance NativeGasPaidMessage_safe boc :
  ResSafe (NativeGasPaidMessage_from_boc_b64 boc).
Proof. unfold NativeGasPaidMessage_from_boc_b64. apply _. Qed.
#[global] Instance NativeGasAddedMessage_safe boc :
  ResSafe (NativeGasAddedMessage_from_boc_b64 boc).
Proof. unfold NativeGasAddedMessage_from_boc_b64. apply _. Qed.
#[global] Instance NativeGasRefundedMessage_safe boc :
  ResSafe (NativeGasRefundedMessage_from_boc_b64 boc).
Proof.
  unfold NativeGasRefundedMessage_from_boc_b64, NativeGasRefundedMessage_parse. apply _.
Qed.
#[global] Instance JettonGasPaidMessage_safe boc :
  ResSafe (JettonGasPaidMessage_from_boc_b64 boc).
Proof. unfold JettonGasPaidMessage_from_boc_b64. apply _. Qed.
#[global] Instance JettonGasAddedMessage_safe boc :
  ResSafe (JettonGasAddedMessage_from_boc_b64 boc).
Proof. unfold JettonGasAddedMessage_from_boc_b64. apply _. Qed.
#[global] Instance LogTokenMetadataRegisteredMessage_safe boc :
  ResSafe (LogTokenMetadataRegisteredMessage_from_boc_b64 boc).
Proof. unfold LogTokenMetadataRegisteredMessage_from_boc_b64. apply _. Qed.
#[global] Instance LogITSInterchainTokenDeploymentStartedMessage_safe boc :
  ResSafe (LogITSInterchainTokenDeploymentStartedMessage_from_boc_b64 boc).
Proof. unfold LogITSInterchainTokenDeploymentStartedMessage_from_boc_b64. apply _. Qed.
#[global] Instance LogITSInterchainTransferMessage_safe boc :
  ResSafe (LogITSInterchainTransferMessage_from_boc_b64 boc).
Proof. unfold LogITSInterchainTransferMessage_from_boc_b64. apply _. Qed.
#[global] Instance LogITSLinkTokenStartedMessage_safe boc :
  ResSafe (LogITSLinkTokenStartedMessage_from_boc_b64 boc).
Proof. unfold LogITSLinkTokenStartedMessage_from_boc_b64. apply _. Qed.
#[global] Instance ApproveMessages_safe boc : ResSafe (ApproveMessages_from_boc_hex boc).
Proof.
  unfold ApproveMessages_from_boc_hex, parse_approve_messages.
  assert (Hd : forall data : list (Z * Cell), ResSafe (res_mapM (fun '(_, cell) =>
    let? arc_cell := map_err (fun err => BocParsingError (fe_display err))
      (fr (Arc_from_cell cell)) in parse_approve_messages arc_cell) data)).
  { intros data. apply res_mapM_safe. intros [k c]. unfold parse_approve_messages. apply _. }
  apply _.
Qed.
(** Nor does an encoder. *)
#[global] Instance enc_safe {A} (m : fres A) : ResSafe (enc m).
Proof. unfold enc. apply _. Qed.
#[global] Instance store_bytes_safe l b : ResSafe (store_bytes l b).
Proof. revert b; induction l; intros b; cbn [store_bytes]; apply _. Qed.
#[global] Instance build_cell_chain_safe fuel l : ResSafe (build_cell_chain fuel l).
Proof.
  revert l; induction fuel; intros l; cbn [build_cell_chain];
  (apply res_bind_safe; [apply _|intros b]; cbv zeta; destruct (drop BYTES_PER_CELL l); apply _).
Qed.
#[global] Instance buffer_to_cell_safe l : ResSafe (buffer_to_cell l).
Proof. unfold buffer_to_cell. apply _. Qed.
#[global] Instance NativeRefundMessage_to_cell_safe m : ResSafe (NativeRefundMessage_to_cell m).
Proof. unfold NativeRefundMessage_to_cell. apply _. Qed.
#[global] Instance RelayerExecuteMessage_to_cell_safe m : ResSafe (RelayerExecuteMessage_to_cell m).
Proof. unfold RelayerExecuteMessage_to_cell. apply _. Qed.

End DecodersSafe.

(** ** Reasoning about sequences of stores and of reads *)

Section Steps.
Context {BU : BigUintLib} {TAL : TonAddressLib} {CL : CellLib} {CO : CodecLib}.
Context {CV : CellView}.

Lemma enc_bind m b bits refs (k : CellBuilder -> res BocError Cell) (Q : Cell -> Prop) :
  writes m b bits refs ->
  (forall b', builder_bits b' = bits -> builder_refs b' = refs ->
    exists c, k b' = Ok c /\ Q c) ->
  exists c, (let? b' := enc (m b) in k b') = Ok c /\ Q c.
Proof. intros (b' & Hm & H1 & H2) Hk. unfold enc. rewrite Hm. simpl. auto. Qed.

Lemma parse_bind {A B} (m : CellParser -> fres A * CellParser) p a bits refs
    (k : A -> st CellParser BocError B) r :
  reads m p a bits refs ->
  (forall p', parser_bits p' = bits -> parser_refs p' = refs -> fst (k a p') = r) ->
  fst (st_bind (parsing m) k p) = r.
Proof. intros (p' & Hm & H1 & H2) Hk. unfold st_bind, parsing. rewrite Hm. simpl. auto. Qed.

Lemma lift_bind {S A B} (m : res BocError A) a (k : A -> st S BocError B) s r :
  m = Ok a -> fst (k a s) = r -> fst (st_bind (st_lift m) k s) = r.
Proof. intros -> H. done. Qed.

Context {BUL : BigUintLaws} {CPL : CellParserLaws}.

Lemma ref_string_bind {B} p c refs s (k : string -> st CellParser BocError B) r :
  parser_refs p = c :: refs -> stores c (as_bytes s) -> utf8_valid (as_bytes s) = true ->
  (forall p', parser_bits p' = parser_bits p -> parser_refs p' = refs -> fst (k s p') = r) ->
  fst (st_bind ref_string k p) = r.
Proof.
  intros Hp Hs Hu Hk.
  destruct (next_reference_ok p c refs Hp) as (p' & Hn & H1 & H2).
  unfold ref_string, parsing. unfold st_bind. rewrite Hn. cbn [fr map_err].
  unfold st_lift. rewrite (cell_to_string_stores c s) by done. auto.
Qed.

Lemma ref_buffer_bind {B} p c refs l (k : list byte -> st CellParser BocError B) r :
  parser_refs p = c :: refs -> stores c l ->
  (forall p', parser_bits p' = parser_bits p -> parser_refs p' = refs -> fst (k l p') = r) ->
  fst (st_bind ref_buffer k p) = r.
Proof.
  intros Hp Hs Hk.
  destruct (next_reference_ok p c refs Hp) as (p' & Hn & H1 & H2).
  unfold ref_buffer, parsing. unfold st_bind. rewrite Hn. cbn [fr map_err].
  unfold st_lift. rewrite (cell_to_buffer_stores c l) by done. auto.
Qed.

(** A parser that only follows one reference. *)
Lemma run_next_reference c c' refs :
  cell_refs c = c' :: refs -> run_parser c (parsing next_reference) = Ok c'.
Proof.
  intros H. destruct (next_reference_ok (Cell_parser c) c' refs) as (p' & Hn & _).
  { by rewrite parser_new_refs. }
  unfold run_parser, st_eval, parsing. rewrite Hn. done.
Qed.
End Steps.
