(* ===== verification/OpCodes.v ===== *)
(** * Op codes in the traces of the API: [types.rs]

    [deserialize_hex_u32] reads the [opcode] of a message, on which the parsers
    decide what a transaction is.  It is total, gives values of 32 bits only,
    reads back what is written in hexadecimal, and cuts a JSON number to its
    lowest 32 bits where it refuses a string that is too long. *)

From Stdlib Require Import ZArith Lia Strings.Byte Strings.Ascii.
From stdpp Require Import base strings list.
From S2P Require Import Prelude RustStd Foreign Types Messages Instances.

(** The digit of [fmt_08X]. *)
Definition upper_digit (d : Z) : ascii :=
  Ascii.ascii_of_N (Z.to_N (if d <? 10 then 48 + d else 55 + d)).

Lemma upper_digit_ok d :
  0 <= d < 16 -> to_digit 16 (upper_digit d) = Some d /\ upper_digit d <> "x"%char /\
    upper_digit d <> "+"%char /\ upper_digit d <> "-"%char.
Proof.
  intros Hd.
  assert (Hall : forallb (fun d =>
    bool_decide (to_digit 16 (upper_digit d) = Some d /\ upper_digit d <> "x"%char /\
      upper_digit d <> "+"%char /\ upper_digit d <> "-"%char)) (seqZ 0 16) = true) by (by vm_compute).
  rewrite forallb_forall in Hall. specialize (Hall d). rewrite <- list_elem_of_In, elem_of_seqZ in Hall.
  specialize (Hall ltac:(lia)). by apply bool_decide_eq_true_1 in Hall.
Qed.

Lemma nibble_range v n : 0 <= (v / 16 ^ Z.of_nat n) mod 16 < 16.
Proof. by apply Z.mod_pos_bound. Qed.

Lemma hex_upper_step n v :
  hex_upper_go (S n) v = String (upper_digit ((v / 16 ^ Z.of_nat n) mod 16)) (hex_upper_go n v).
Proof. done. Qed.

(** [n] digits hold [v] modulo [16 ^ n]. *)
Lemma parse_hex_upper n v acc :
  0 <= v -> parse_digits 16 (hex_upper_go n v) acc = Some (acc * 16 ^ Z.of_nat n + v mod 16 ^ Z.of_nat n).
Proof.
  intros Hv. revert acc. induction n as [|n IH]; intros acc.
  { cbn. f_equal. rewrite Z.mod_1_r. lia. }
  rewrite hex_upper_step. cbn [parse_digits].
  rewrite (proj1 (upper_digit_ok _ (nibble_range v n))), IH. f_equal.
  rewrite Nat2Z.inj_succ, Z.pow_succ_r by lia.
  set (p := 16 ^ Z.of_nat n). assert (0 < p) by (subst p; lia).
  rewrite (Z.mul_comm 16 p), (Z.rem_mul_r v p 16) by lia. lia.
Qed.

Lemma read_fmt_08X v : in_u 32 v -> u32_from_str_radix16 (fmt_08X v) = Ok v.
Proof.
  intros Hv. pose proof (parse_hex_upper 8 v 0 (proj1 Hv)) as Hp. unfold fmt_08X in *.
  rewrite hex_upper_step in *.
  pose proof (upper_digit_ok _ (nibble_range v 7)) as (_ & _ & H1 & H2).
  unfold u32_from_str_radix16, int_from_str_radix. rewrite !decide_False by done. rewrite Hp.
  change (16 ^ Z.of_nat 8) with (2 ^ 32). unfold in_u in Hv. rewrite Z.mod_small by lia.
  rewrite !decide_False by lia. done.
Qed.

(** The digits do not begin with ["0x"]. *)
Lemma trim_fmt_08X_go fuel v : trim_start_matches_go fuel "0x" (fmt_08X v) = fmt_08X v.
Proof.
  destruct fuel as [|fuel]; [done|]. unfold fmt_08X. rewrite !hex_upper_step.
  pose proof (upper_digit_ok _ (nibble_range v 6)) as (_ & Hx & _).
  cbn [trim_start_matches_go strip_prefix]. repeat case_decide; congruence.
Qed.

Lemma trim_fmt_08X v : trim_start_matches "0x" (fmt_08X v) = fmt_08X v.
Proof. apply trim_fmt_08X_go. Qed.

Lemma trim_0x_fmt_08X v : trim_start_matches "0x" ("0x" +:+ fmt_08X v) = fmt_08X v.
Proof. exact (trim_fmt_08X_go (S (String.length (fmt_08X v))) v). Qed.

Section OpCodes.
Context {JL : JsonLib}.

(** The reader of op codes: it ends without a panic, and what it reads fits 32
    bits; a hexadecimal string with the digits of a value, with or without
    ["0x"], reads as the value; a number reads as its lowest 32 bits. *)
Theorem hex_u32_reads (val : Value) :
  match deserialize_hex_u32 (Some val) with
  | Ok (Some v) => in_u 32 v
  | Ok None | Panic => False
  | Err _ => forall n, Value_view val <> JNumber (Some n)
  end /\
  (forall v, in_u 32 v ->
     Value_view val = JString ("0x" +:+ fmt_08X v) \/ Value_view val = JString (fmt_08X v) ->
     deserialize_hex_u32 (Some val) = Ok (Some v)) /\
  (forall n, Value_view val = JNumber (Some n) ->
     deserialize_hex_u32 (Some val) = Ok (Some (n mod 2 ^ 32))).
Proof.
  unfold deserialize_hex_u32. split_and!.
  - destruct (Value_view val) as [s|[n|]|] eqn:E; [|by apply wrap_u_range|done..].
    destruct (u32_from_str_radix16 _) as [v|e|] eqn:Ev; cbn [map_err res_map]; [|done|].
    + apply int_from_str_radix_range in Ev. unfold in_u. lia.
    + by apply int_from_str_radix_no_panic in Ev.
  - intros v Hv Hs.
    enough (Ht : forall s, s = fmt_08X v \/ s = "0x" +:+ fmt_08X v ->
      trim_start_matches "0x" s = fmt_08X v).
    { destruct Hs as [-> | ->]; rewrite Ht by auto; by rewrite read_fmt_08X. }
    intros s [-> | ->]; [by apply trim_fmt_08X|]. by apply trim_0x_fmt_08X.
  - by intros n ->.
Qed.
End OpCodes.
