(* ===== verification/MessageProofs.v ===== *)
(** * The messages of [boc/]: encoders and decoders are correct

    What the relayer's encoders write, that the decoders read back what the
    encoders (or the contracts, with the same layout) wrote, and an address
    the ITS decoders cannot rebuild. *)

From Stdlib Require Import ZArith Lia Strings.Byte Strings.Ascii.
From stdpp Require Import base strings pretty countable list.
From S2P Require Import Prelude RustStd Foreign Types GmpTypes CellCodec Messages.

(** A field of a message that fits the wire: a Rust [String] is valid UTF-8. *)
Definition valid_string (s : string) : Prop := utf8_valid (as_bytes s) = true.

(** ** What [RelayerExecuteMessage::to_cell] writes *)

Section RelayerExecute.
Context {BU : BigUintLib} {TAL : TonAddressLib} {CL : CellLib} {CO : CodecLib}.
Context {CV : CellView} {CBL : CellBuilderLaws} {COL : CodecLaws}.

(** The tree of cells of the outgoing message; [payload] is the decoded payload. *)
Inductive relayer_layout (m : RelayerExecuteMessage) (payload : list byte) (outer : Cell) : Prop :=
| RelayerLayout (message inner mid sc sa pl da dc : Cell) :
    cell_bits outer =
      bits_of_N 32 (Z.to_N OP_RELAYER_EXECUTE) ++ address_bits (rem_relayer_address m) ->
    cell_refs outer = [message] ->
    cell_bits message = [] -> cell_refs message = [mid; sc; sa; inner] ->
    cell_bits inner = bits_of_N 256 (payload_hash payload) -> cell_refs inner = [pl; da; dc] ->
    stores mid (as_bytes (rem_message_id m)) ->
    stores sc (as_bytes (rem_source_chain m)) ->
    stores sa (as_bytes (rem_source_address m)) ->
    stores pl payload ->
    stores da (TonHash_to_bytes (TonAddress_hash_part (rem_destination_address m))) ->
    stores dc (as_bytes (rem_destination_chain m)) ->
    relayer_layout m payload outer.

Lemma buffer_to_cell_bind l (k : Cell -> res BocError Cell) (Q : Cell -> Prop) :
  (forall c, stores c l -> exists c', k c = Ok c' /\ Q c') ->
  exists c', (let? c := buffer_to_cell l in k c) = Ok c' /\ Q c'.
Proof. intros Hk. destruct (buffer_to_cell_stores l) as (c & -> & Hs). simpl. auto. Qed.

Lemma build_enc_bind b (g : ferr -> BocError) (k : Cell -> res BocError Cell) (Q : Cell -> Prop) :
  (length (builder_bits b) <= 1023)%nat -> (length (builder_refs b) <= 4)%nat ->
  (forall c, cell_bits c = builder_bits b -> cell_refs c = builder_refs b ->
    exists c', k c = Ok c' /\ Q c') ->
  exists c', (let? c := map_err g (fr (build b)) in k c) = Ok c' /\ Q c'.
Proof.
  intros H1 H2 Hk. destruct (build_ok b) as (c & Hc & ? & ?); [done..|].
  rewrite Hc. simpl. auto.
Qed.

Lemma build_enc b :
  (length (builder_bits b) <= 1023)%nat -> (length (builder_refs b) <= 4)%nat ->
  exists c, enc (build b) = Ok c /\ cell_bits c = builder_bits b /\ cell_refs c = builder_refs b.
Proof.
  intros H1 H2. destruct (build_ok b) as (c & Hc & ? & ?); [done..|].
  exists c. unfold enc. rewrite Hc. done.
Qed.

Lemma payload_hash_bound l : (payload_hash l < 2 ^ N.of_nat 256)%N.
Proof.
  unfold payload_hash, biguint_of_be. pose proof (from_be_bytes_bound (keccak256 l)) as H.
  rewrite keccak256_length in H. change (256 ^ Z.of_nat 32) with (2 ^ 256) in H.
  apply N2Z.inj_lt. rewrite Z2N.id by lia. rewrite N2Z.inj_pow. apply H.
Qed.

Definition holds (b : CellBuilder) (bits : list bool) (refs : list Cell) : Prop :=
  builder_bits b = bits /\ builder_refs b = refs.

Lemma holds_new : holds CellBuilder_new [] [].
Proof. split; [apply builder_new_bits | apply builder_new_refs]. Qed.

Lemma store_ref_bind b bits refs c (k : CellBuilder -> res BocError Cell) (Q : Cell -> Prop) :
  holds b bits refs -> (length refs < 4)%nat ->
  (forall b', holds b' bits (refs ++ [c]) -> exists c', k b' = Ok c' /\ Q c') ->
  exists c', (let? b' := enc (store_reference c b) in k b') = Ok c' /\ Q c'.
Proof.
  intros [H1 H2] Hl Hk. eapply enc_bind; [apply store_reference_ok; by rewrite H2|].
  intros b' H3 H4. apply Hk. split; congruence.
Qed.

Lemma store_uint_bind b bits refs n v (k : CellBuilder -> res BocError Cell) (Q : Cell -> Prop) :
  holds b bits refs -> (v < 2 ^ N.of_nat n)%N -> (length bits + n <= 1023)%nat ->
  (forall b', holds b' (bits ++ bits_of_N n v) refs -> exists c', k b' = Ok c' /\ Q c') ->
  exists c', (let? b' := enc (store_uint n v b) in k b') = Ok c' /\ Q c'.
Proof.
  intros [H1 H2] Hv Hl Hk. eapply enc_bind; [apply store_uint_ok; [done|by rewrite H1]|].
  intros b' H3 H4. apply Hk. split; congruence.
Qed.

Lemma store_address_bind b bits refs a (k : CellBuilder -> res BocError Cell) (Q : Cell -> Prop) :
  holds b bits refs -> (length bits + 267 <= 1023)%nat ->
  (forall b', holds b' (bits ++ address_bits a) refs -> exists c', k b' = Ok c' /\ Q c') ->
  exists c', (let? b' := enc (store_address a b) in k b') = Ok c' /\ Q c'.
Proof.
  intros [H1 H2] Hl Hk. eapply enc_bind; [apply store_address_ok; by rewrite H1|].
  intros b' H3 H4. apply Hk. split; congruence.
Qed.

Lemma build_bind b bits refs (g : ferr -> BocError) (k : Cell -> res BocError Cell)
    (Q : Cell -> Prop) :
  holds b bits refs -> (length bits <= 1023)%nat -> (length refs <= 4)%nat ->
  (forall c, cell_bits c = bits -> cell_refs c = refs -> exists c', k c = Ok c' /\ Q c') ->
  exists c', (let? c := map_err g (fr (build b)) in k c) = Ok c' /\ Q c'.
Proof.
  intros [H1 H2] Hb Hr Hk. apply build_enc_bind; [by rewrite H1|by rewrite H2|].
  intros c H3 H4. apply Hk; congruence.
Qed.

Lemma build_holds b bits refs :
  holds b bits refs -> (length bits <= 1023)%nat -> (length refs <= 4)%nat ->
  exists c, enc (build b) = Ok c /\ cell_bits c = bits /\ cell_refs c = refs.
Proof. intros [<- <-]. apply build_enc. Qed.

Ltac store_refs :=
  eapply store_ref_bind; [apply holds_new | cbn; lia |]; intros ? ?;
  repeat (eapply store_ref_bind; [eassumption | cbn; lia |]; intros ? ?).

Lemma relayer_execute_built m payload :
  hex_decode (rem_payload m) = inr payload ->
  exists outer, RelayerExecuteMessage_to_cell m = Ok outer /\ relayer_layout m payload outer.
Proof.
  intros Hp. unfold RelayerExecuteMessage_to_cell.
  do 5 (apply buffer_to_cell_bind; intros ? ?). rewrite Hp. cbn [fr map_err res_bind].
  apply buffer_to_cell_bind; intros pl Hpl.
  store_refs. eapply store_uint_bind; [eassumption|apply payload_hash_bound|cbn; lia|].
  intros ? ?. eapply build_bind; [eassumption|..]; rewrite ?length_app, ?length_bits_of_N; [cbn; lia..|].
  intros inner Hib Hir. store_refs.
  eapply build_bind; [eassumption|cbn; lia..|]. intros message Hmb Hmr.
  eapply store_uint_bind; [apply holds_new|done|cbn; lia|]. intros ? ?.
  eapply store_ref_bind; [eassumption|cbn; lia|]. intros ? ?.
  eapply store_address_bind; [eassumption|rewrite length_app, length_bits_of_N; cbn; lia|].
  intros b Hb. destruct (build_holds _ _ _ Hb) as (outer & -> & Hob & Hor).
  { rewrite !length_app, length_bits_of_N. pose proof (address_bits_length (rem_relayer_address m)).
    cbn. lia. }
  { cbn. lia. }
  exists outer. split; [done|]. econstructor; [exact Hob|exact Hor|exact Hmb|exact Hmr
    |exact Hib|exact Hir|assumption..].
Qed.
End RelayerExecute.

(** ** Correctness of the encoders and decoders *)

Section Correctness.
Context {BU : BigUintLib} {TAL : TonAddressLib} {CL : CellLib} {CO : CodecLib}.
Context {CV : CellView} {BUL : BigUintLaws} {CPL : CellParserLaws} {CBL : CellBuilderLaws}.
Context {COL : CodecLaws}.

Lemma relayer_execute_layout_of m outer :
  RelayerExecuteMessage_to_cell m = Ok outer ->
  exists payload, hex_decode (rem_payload m) = inr payload /\ relayer_layout m payload outer.
Proof.
  intros H. destruct (hex_decode (rem_payload m)) as [e|payload] eqn:Hp.
  - exfalso. unfold RelayerExecuteMessage_to_cell in H. rewrite Hp in H.
    do 5 (apply res_bind_Ok in H as (? & _ & H)). done.
  - exists payload. split; [done|].
    destruct (relayer_execute_built m payload Hp) as (outer' & Ho & Hl). congruence.
Qed.

(** [RelayerExecuteMessage::to_cell] succeeds exactly when the payload is
    hex, and then writes the op code and the relayer's address over one
    message cell whose references are the message id, the source chain, the
    source address and the inner cell with the Keccak hash of the payload,
    the payload, the destination address and the destination chain. *)
Theorem relayer_execute_layout (m : RelayerExecuteMessage) :
  match hex_decode (rem_payload m) with
  | inr payload =>
      exists outer, RelayerExecuteMessage_to_cell m = Ok outer /\ relayer_layout m payload outer
  | inl e =>
      RelayerExecuteMessage_to_cell m =
        Err (BocParsingError ("Invalid hex payload: " +:+ fe_display e))
  end.
Proof.
  destruct (hex_decode (rem_payload m)) as [e|payload] eqn:Hp; [|by apply relayer_execute_built].
  unfold RelayerExecuteMessage_to_cell. rewrite Hp.
  repeat match goal with |- context [buffer_to_cell ?l] =>
    destruct (buffer_to_cell_stores l) as (? & -> & _); cbn [res_bind] end. done.
Qed.

(** The message id and the source chain the relayer puts in a
    relayer-execute message are those [RelayerExecuteWrappedMessage] reads
    back, when the message is the first reference of the body of the first
    outgoing action of the wallet's external message. *)
Theorem relayer_execute_roundtrip m boc root msg_inner x body outer rs1 rs2 rs3 :
  valid_string (rem_message_id m) -> valid_string (rem_source_chain m) ->
  Cell_from_boc_b64 boc = inr root ->
  cell_refs root = msg_inner :: rs1 -> cell_refs msg_inner = x :: body :: rs2 ->
  cell_refs body = outer :: rs3 ->
  RelayerExecuteMessage_to_cell m = Ok outer ->
  RelayerExecuteWrappedMessage_from_boc_b64 boc =
    Ok {| rew_message_id := rem_message_id m; rew_source_chain := rem_source_chain m |}.
Proof.
  intros Hv1 Hv2 Hb H1 H2 H3 Ho.
  apply relayer_execute_layout_of in Ho as
    (payload & _ & [message inner mid sc sa pl da dc _ Hor _ Hmr _ _ Hmid Hsc _ _ _ _]).
  unfold RelayerExecuteWrappedMessage_from_boc_b64, cell_of_b64.
  rewrite Hb. cbn [fr map_err res_bind].
  rewrite (run_next_reference root _ _ H1). cbn [res_bind].
  assert (run_parser msg_inner (do! parsing next_reference in parsing next_reference) = Ok body)
    as ->.
  { unfold run_parser, st_eval.
    eapply parse_bind; [eapply next_reference_ok; rewrite parser_new_refs; exact H2|].
    intros p' _ Hp'. destruct (next_reference_ok p' _ _ Hp') as (p2 & Hn & _).
    unfold parsing. by rewrite Hn. }
  cbn [res_bind]. rewrite (run_next_reference body _ _ H3). cbn [res_bind].
  rewrite (run_next_reference outer _ _ Hor). cbn [res_bind].
  unfold run_parser, st_eval.
  eapply parse_bind; [eapply next_reference_ok; rewrite parser_new_refs; exact Hmr|].
  intros p1 _ Hp1. eapply lift_bind.
  { unfold reparse_err. rewrite (cell_to_string_stores _ _ Hv1 Hmid). done. }
  eapply parse_bind; [eapply next_reference_ok; exact Hp1|].
  intros p2 _ Hp2. eapply lift_bind.
  { unfold reparse_err. rewrite (cell_to_string_stores _ _ Hv2 Hsc). done. }
  done.
Qed.

Definition nullified_op : list byte := [byte_of 0; byte_of 0; byte_of 0; byte_of 5].

Lemma hex_nullified_op : hex_encode nullified_op = fmt_08X OP_NULLIFIED_SUCCESSFULLY.
Proof. rewrite hex_encode_spec. by vm_compute. Qed.

(** C29. The log of an executed message decodes to the message the relayer
    sent: a log cell with the op code of [OP_NULLIFIED_SUCCESSFULLY] and the
    references of the message cell gives back the message id, the source
    chain and address, the destination and the payload (in lower-case hex). *)
Theorem nullified_message_decodes m boc log outer message rest :
  valid_string (rem_message_id m) -> valid_string (rem_source_chain m) ->
  valid_string (rem_source_address m) -> valid_string (rem_destination_chain m) ->
  RelayerExecuteMessage_to_cell m = Ok outer -> cell_refs outer = [message] ->
  Cell_from_boc_b64 boc = inr log ->
  cell_bits log = bytes_bits nullified_op ++ rest -> cell_refs log = cell_refs message ->
  exists payload, hex_decode (rem_payload m) = inr payload /\
  NullifiedSuccessfullyMessage_from_boc_b64 boc = Ok {|
    nm_message_id := rem_message_id m;
    nm_source_chain := rem_source_chain m;
    nm_source_address := rem_source_address m;
    nm_destination_chain := rem_destination_chain m;
    nm_destination_address :=
      TonHash_to_bytes (TonAddress_hash_part (rem_destination_address m));
    nm_payload := hex_encode payload;
  |}.
Proof.
  intros Hv1 Hv2 Hv3 Hv4 Ho Hom Hb Hbits Hrefs.
  apply relayer_execute_layout_of in Ho as
    (payload & Hp & [message' inner mid sc sa pl da dc _ Hor _ Hmr _ Hir Hmid Hsc Hsa Hpl Hda Hdc]).
  exists payload. split; [done|]. assert (message' = message) as -> by congruence.
  unfold NullifiedSuccessfullyMessage_from_boc_b64, cell_of_b64. rewrite Hb.
  cbn [fr map_err res_bind]. unfold run_parser at 1, st_eval.
  eapply parse_bind; [apply (load_bits_ok _ nullified_op rest); by rewrite parser_new_bits|].
  intros p0 _ Hp0. rewrite parser_new_refs, Hrefs, Hmr in Hp0.
  rewrite decide_False by (rewrite hex_nullified_op; auto).
  eapply ref_string_bind; [exact Hp0|done|done|]. intros p1 _ Hp1.
  eapply ref_string_bind; [exact Hp1|done|done|]. intros p2 _ Hp2.
  eapply ref_string_bind; [exact Hp2|done|done|]. intros p3 _ Hp3.
  eapply parse_bind; [apply next_reference_ok; exact Hp3|]. intros p4 _ _.
  unfold st_lift. cbn [fst]. unfold run_parser, st_eval.
  eapply ref_buffer_bind; [rewrite parser_new_refs; exact Hir|done|]. intros q1 _ Hq1.
  eapply ref_buffer_bind; [exact Hq1|done|]. intros q2 _ Hq2.
  eapply ref_string_bind; [exact Hq2|done|done|]. done.
Qed.

Lemma native_refund_reads (m : NativeRefundMessage) :
  (nr_amount m < 2 ^ 120)%N ->
  exists c, NativeRefundMessage_to_cell m = Ok c /\ cell_refs c = [] /\
    exists p op, load_uint 32 (Cell_parser c) = (inr op, p) /\
      op = Z.to_N OP_NATIVE_REFUND /\
      fst (NativeGasRefundedMessage_parse p) = Ok {|
        ngr_tx_hash := nr_tx_hash m;
        ngr_address := nr_address m;
        ngr_amount := nr_amount m;
      |}.
Proof.
  intros Hv.
  assert (exists c, NativeRefundMessage_to_cell m = Ok c /\ cell_refs c = [] /\
    cell_bits c = bits_of_N 32 (Z.to_N OP_NATIVE_REFUND) ++
      bytes_bits (TonHash_to_bytes (nr_tx_hash m)) ++ address_bits (nr_address m) ++
      coins_bits (nr_amount m)) as (c & Hc & Hr & Hbits).
  { pose proof (address_bits_length (nr_address m)). pose proof (coins_bits_length (nr_amount m) Hv).
    pose proof (length_bytes_bits (TonHash_to_bytes (nr_tx_hash m))) as Hh.
    rewrite TonHash_to_bytes_length in Hh.
    unfold NativeRefundMessage_to_cell.
    eapply store_uint_bind; [apply holds_new|done|cbn; lia|]. intros b1 [Hb1 Hr1].
    eapply enc_bind; [apply store_tonhash_ok; rewrite Hb1; cbn; lia|]. intros b2 Hb2 Hr2.
    eapply store_address_bind; [split; [exact Hb2|exact Hr2]
      |rewrite Hb1, !length_app, length_bits_of_N, Hh; cbn; lia|].
    intros b3 [Hb3 Hr3]. rewrite Hb1 in Hb3. rewrite Hr1 in Hr3.
    eapply enc_bind; [apply store_coins_ok; [done|]
      ; rewrite Hb3, !length_app, length_bits_of_N, Hh; cbn; lia|]. intros b4 Hb4 Hr4.
    rewrite Hb3 in Hb4. rewrite Hr3 in Hr4.
    destruct (build_enc b4) as (c & Hc & Hcb & Hcr).
    { rewrite Hb4, !length_app, length_bits_of_N, Hh. cbn. lia. }
    { rewrite Hr4. cbn. lia. }
    exists c. split; [done|]. rewrite Hcb, Hcr, Hb4, Hr4. split; [done|].
    simpl app. by rewrite <- !app_assoc. }
  exists c. split; [done|]. split; [done|].
  destruct (load_uint_ok 32 (Cell_parser c) (bits_of_N 32 (Z.to_N OP_NATIVE_REFUND))
    (bytes_bits (TonHash_to_bytes (nr_tx_hash m)) ++ address_bits (nr_address m) ++
      coins_bits (nr_amount m))) as (p & Hp & Hpb & _).
  { rewrite parser_new_bits. done. } { apply length_bits_of_N. }
  exists p, (Z.to_N OP_NATIVE_REFUND). rewrite N_of_bits_of_N in Hp by done.
  split; [done|]. split; [done|]. unfold NativeGasRefundedMessage_parse.
  eapply parse_bind; [apply load_tonhash_ok; exact Hpb|]. intros p1 Hp1 _.
  eapply parse_bind; [apply load_address_ok; exact Hp1|]. intros p2 Hp2 _.
  eapply parse_bind; [apply load_coins_ok; [done|]; rewrite app_nil_r; exact Hp2|]. done.
Qed.

(** [NativeRefundMessage::to_cell]: for an amount below [2^120] the cell
    holds the op code, the transaction hash, the address and the amount, and
    [NativeGasRefundedMessage] reads the last three back in this order. *)
Theorem native_refund_roundtrip (m : NativeRefundMessage) :
  (nr_amount m < 2 ^ 120)%N ->
  exists c, NativeRefundMessage_to_cell m = Ok c /\ cell_refs c = [] /\
    exists p op, load_uint 32 (Cell_parser c) = (inr op, p) /\
      op = Z.to_N OP_NATIVE_REFUND /\
      fst (NativeGasRefundedMessage_parse p) = Ok {|
        ngr_tx_hash := nr_tx_hash m;
        ngr_address := nr_address m;
        ngr_amount := nr_amount m;
      |}.
Proof. apply native_refund_reads. Qed.
End Correctness.

(** ** Addresses rebuilt from a 256-bit number *)

Section AddressOfUint.
Context {BU : BigUintLib} {TAL : TonAddressLib}.

(** Documented: [to_str_radix] writes no leading zero. *)
Variable to_str_radix16_short :
  forall n k, (n < 16 ^ N.of_nat k)%N -> (0 < k)%nat ->
  (String.length (BigUint_to_str_radix16 n) <= k)%nat.

(** Documented: the hexadecimal part of a raw address is its 32 bytes. *)
Variable address_hex_length :
  forall s a, TonAddress_from_str ("0:" +:+ s) = inr a -> String.length s = 64%nat.

(** The ITS decoders rebuild an address from its 256-bit number without
    padding the hexadecimal digits, so an address whose hash starts with a
    zero digit cannot be decoded: the log is rejected. *)
Theorem address_of_uint_leading_zero (n : N) :
  (n < 16 ^ 63)%N ->
  exists e, address_of_uint n = Err (BocParsingError e).
Proof.
  intros Hn. unfold address_of_uint.
  destruct (TonAddress_from_str _) as [e|a] eqn:E; [by eexists|].
  apply address_hex_length in E.
  pose proof (to_str_radix16_short n 63 ltac:(done) ltac:(lia)). lia.
Qed.
End AddressOfUint.

(** ** Applications at concrete inputs *)

From S2P Require Import Instances.

Definition example_message : RelayerExecuteMessage := {|
  rem_message_id := "0xabc-1";
  rem_source_chain := "avalanche";
  rem_source_address := "0x01";
  rem_destination_chain := "ton2";
  rem_destination_address := (byte_of 0, vec_of 32 [byte_of 1; byte_of 2]);
  rem_payload := "0a0b";
  rem_relayer_address := (byte_of 0, vec_of 32 [byte_of 9]);
|}.

Definition example_outer : tcell :=
  match RelayerExecuteMessage_to_cell example_message with
  | Ok c => c
  | _ => TCell [] []
  end.

Lemma example_outer_ok : RelayerExecuteMessage_to_cell example_message = Ok example_outer.
Proof. by vm_compute. Qed.

Lemma relayer_execute_layout_witness :
  exists outer, RelayerExecuteMessage_to_cell example_message = Ok outer /\
    relayer_layout example_message [byte_of 10; byte_of 11] outer.
Proof. exact (relayer_execute_layout example_message). Defined.

Definition example_wrapped : tcell :=
  TCell [] [TCell [] [TCell [] []; TCell [] [example_outer]]].

Lemma read_show_wrapped : read_boc (show_cell example_wrapped) = inr example_wrapped.
Proof. by vm_compute. Qed.

Lemma relayer_execute_roundtrip_witness :
  RelayerExecuteWrappedMessage_from_boc_b64 (show_cell example_wrapped) =
    Ok {| rew_message_id := "0xabc-1"; rew_source_chain := "avalanche" |}.
Proof.
  exact (relayer_execute_roundtrip example_message (show_cell example_wrapped) example_wrapped
    _ (TCell [] []) (TCell [] [example_outer]) example_outer [] [] []
    ltac:(by vm_compute) ltac:(by vm_compute) read_show_wrapped
    eq_refl eq_refl eq_refl example_outer_ok).
Defined.

Definition example_log : tcell :=
  match tcell_refs example_outer with
  | m :: _ => TCell (bytes_bits nullified_op) (tcell_refs m)
  | [] => TCell [] []
  end.

Definition example_message_cell : tcell :=
  match tcell_refs example_outer with m :: _ => m | [] => TCell [] [] end.

Lemma read_show_log : read_boc (show_cell example_log) = inr example_log.
Proof. by vm_compute. Qed.

Lemma nullified_message_decodes_witness :
  exists payload, hex_read_res "0a0b" = inr payload /\
  NullifiedSuccessfullyMessage_from_boc_b64 (show_cell example_log) = Ok {|
    nm_message_id := "0xabc-1";
    nm_source_chain := "avalanche";
    nm_source_address := "0x01";
    nm_destination_chain := "ton2";
    nm_destination_address := TonHash_to_bytes (vec_of 32 [byte_of 1; byte_of 2] : TonHash);
    nm_payload := hex_lower payload;
  |}.
Proof.
  exact (nullified_message_decodes example_message (show_cell example_log) example_log
    example_outer example_message_cell []
    ltac:(by vm_compute) ltac:(by vm_compute) ltac:(by vm_compute) ltac:(by vm_compute)
    example_outer_ok ltac:(by vm_compute) read_show_log ltac:(by vm_compute)
    ltac:(by vm_compute)).
Defined.

Lemma native_refund_roundtrip_witness :
  exists c, NativeRefundMessage_to_cell {| nr_tx_hash := vec_of 32 [byte_of 3];
      nr_address := (byte_of 0, vec_of 32 [byte_of 1]); nr_amount := 5000 |} = Ok c /\
    tcell_refs c = [] /\
    exists p op, load_uint 32 (Cell_parser c) = (inr op, p) /\
      op = Z.to_N OP_NATIVE_REFUND /\
      fst (NativeGasRefundedMessage_parse p) = Ok {|
        ngr_tx_hash := vec_of 32 [byte_of 3];
        ngr_address := (byte_of 0, vec_of 32 [byte_of 1]);
        ngr_amount := 5000;
      |}.
Proof.
  exact (native_refund_roundtrip {| nr_tx_hash := vec_of 32 [byte_of 3];
    nr_address := (byte_of 0, vec_of 32 [byte_of 1]); nr_amount := 5000 |} ltac:(done)).
Defined.

(** The reference instances have the two documented behaviours. *)
Lemma n_digits_16_length fuel n k acc :
  (n < 16 ^ N.of_nat k)%N -> (length (n_digits fuel 16 n acc) <= k + length acc)%nat.
Proof.
  revert n k acc; induction fuel as [|fuel IH]; intros n k acc Hn; cbn [n_digits]; [lia|].
  destruct (N.eqb_spec n 0); [lia|].
  destruct k as [|k]; [change (16 ^ N.of_nat 0)%N with 1%N in Hn; lia|].
  rewrite Nat2N.inj_succ, N.pow_succ_r' in Hn.
  pose proof (IH (n / 16)%N k (n mod 16 :: acc)%N ltac:(apply N.Div0.div_lt_upper_bound; lia)) as H.
  simpl in H. lia.
Qed.

Lemma n_hex_short n k :
  (n < 16 ^ N.of_nat k)%N -> (0 < k)%nat -> (String.length (n_hex n) <= k)%nat.
Proof.
  intros Hn Hk. unfold n_hex.
  pose proof (n_digits_16_length (log2_fuel n) n k [] Hn) as H.
  assert (Hs : forall l, String.length (foldr (fun d s => String (hex_digit d) s) "" l) = length l).
  { induction l; simpl; auto. }
  destruct (n_digits _ _ _ _) as [|d l]; [simpl; lia|]. rewrite Hs. simpl in H |- *. lia.
Qed.

Lemma hex_read_length s l : hex_read s = Some l -> String.length s = (2 * length l)%nat.
Proof.
  revert l. induction s as [s IH] using (well_founded_induction
    (Wf_nat.well_founded_ltof _ String.length)). unfold Wf_nat.ltof in IH.
  intros l H. destruct s as [|a [|b s]]; cbn [hex_read] in H; [by simplify_eq|done|].
  destruct (to_digit 16 a), (to_digit 16 b), (hex_read s) as [l'|] eqn:E; try done.
  apply IH in E; [|simpl; lia]. simplify_eq. simpl in *. lia.
Qed.

Lemma ref_address_hex_length s a :
  ref_address_read ("0:" +:+ s) = inr a -> String.length s = 64%nat.
Proof.
  unfold ref_address_read. rewrite (proj2 (strip_prefix_Some "0:" _ s) eq_refl). intros H.
  destruct (hex_read s) as [l|] eqn:E; [|done]. apply hex_read_length in E.
  case_decide; [lia|done].
Qed.

Lemma address_of_uint_leading_zero_witness :
  exists e, address_of_uint 255 = Err (BocParsingError e).
Proof.
  exact (address_of_uint_leading_zero n_hex_short ref_address_hex_length 255 eq_refl).
Defined.
