(* ===== verification/QueryId.v ===== *)
(** * Query ids of the high-load wallet: [high_load_query_id.rs]

    A query id is a shift of 13 bits and a bit number below 1023; the wallet
    uses them in increasing order. *)

From Stdlib Require Import ZArith Lia Strings.Byte Strings.Ascii.
From stdpp Require Import base strings list.
From S2P Require Import Prelude RustStd.

Inductive HighLoadQueryIdError : Set :=
| InvalidShift (max : Z)
| InvalidBitnumber (max : Z)
| EmergencyOverload
| ShiftOverflow.

Module HighLoadQueryId.

Record t := mk {
  shift : Z; (* u32 *)
  bitnumber : Z; (* u32 *)
}.

Definition MAX_SHIFT : Z := 8191.
Definition MAX_BITNUMBER : Z := 1022.
Definition BITNUMBER_SIZE : Z := 10.

#[export] Instance t_eq_dec : EqDecision t.
Proof. solve_decision. Defined.

Definition from_shift_and_bitnumber (s b : Z) : res HighLoadQueryIdError t :=
  if decide (s > MAX_SHIFT) then Err (InvalidShift MAX_SHIFT)
  else if decide (b > MAX_BITNUMBER) then Err (InvalidBitnumber MAX_BITNUMBER)
  else Ok (mk s b).

(** [u32] additions wrap. *)
Definition next (self : t) : res HighLoadQueryIdError t :=
  let new_bitnumber := wrap_u 32 (bitnumber self + 1) in
  let new_shift := shift self in
  if decide (new_shift = MAX_SHIFT /\ new_bitnumber = MAX_BITNUMBER - 1) then
    Err EmergencyOverload
  else if decide (new_bitnumber > MAX_BITNUMBER) then
    let new_bitnumber := 0 in
    let new_shift := wrap_u 32 (new_shift + 1) in
    if decide (new_shift > MAX_SHIFT) then Err ShiftOverflow
    else from_shift_and_bitnumber new_shift new_bitnumber
  else from_shift_and_bitnumber new_shift new_bitnumber.

Definition has_next (self : t) : bool :=
  negb (bool_decide (bitnumber self >= MAX_BITNUMBER - 1 /\ shift self = MAX_SHIFT)).

(** [u64]: shift into place and add. *)
Definition query_id (self : t) : Z :=
  wrap_u 64 (wrap_u 64 (Z.shiftl (shift self) BITNUMBER_SIZE) + bitnumber self).

(** The ids the constructor accepts. *)
Definition valid (q : t) : Prop :=
  0 <= shift q <= MAX_SHIFT /\ 0 <= bitnumber q <= MAX_BITNUMBER.

#[export] Instance valid_dec q : Decision (valid q).
Proof. unfold valid. apply _. Defined.

(** The position of a valid id in the order in which the ids are used. *)
Definition rank (q : t) : Z := shift q * (MAX_BITNUMBER + 1) + bitnumber q.

Definition of_rank (n : Z) : t := mk (n / (MAX_BITNUMBER + 1)) (n mod (MAX_BITNUMBER + 1)).

Definition MAX_RANK : Z := MAX_SHIFT * (MAX_BITNUMBER + 1) + MAX_BITNUMBER.

(** ** Lemmas *)

Lemma valid_fields q : valid q -> 0 <= shift q <= 8191 /\ 0 <= bitnumber q <= 1022.
Proof. done. Qed.

Lemma from_shift_ok s b :
  0 <= s <= 8191 -> 0 <= b <= 1022 -> from_shift_and_bitnumber s b = Ok (mk s b).
Proof.
  intros. unfold from_shift_and_bitnumber, MAX_SHIFT, MAX_BITNUMBER.
  by rewrite !decide_False by lia.
Qed.

Lemma query_id_value q : valid q -> query_id q = shift q * 1024 + bitnumber q.
Proof.
  intros [H1 H2]%valid_fields. unfold query_id, BITNUMBER_SIZE.
  rewrite Z.shiftl_mul_pow2 by lia. change (2 ^ 10) with 1024.
  rewrite (wrap_u_id 64 (shift q * 1024)) by (unfold in_u; lia).
  apply wrap_u_id. unfold in_u. lia.
Qed.

Lemma rank_of_rank n : rank (of_rank n) = n.
Proof.
  unfold rank, of_rank. simpl. pose proof (Z.div_mod n (MAX_BITNUMBER + 1) ltac:(done)). lia.
Qed.

Lemma of_rank_rank q : valid q -> of_rank (rank q) = q.
Proof.
  destruct q as [s b]. intros [H1 H2]%valid_fields. unfold rank, of_rank, MAX_BITNUMBER. simpl in *.
  f_equal.
  - rewrite Z.div_add_l, Z.div_small; lia.
  - rewrite Z.add_comm, Z.mod_add, Z.mod_small; lia.
Qed.

Lemma rank_bounds q : valid q -> 0 <= rank q <= MAX_RANK.
Proof.
  intros [H1 H2]%valid_fields. unfold rank, MAX_RANK, MAX_SHIFT, MAX_BITNUMBER. lia.
Qed.

Lemma of_rank_valid n : 0 <= n <= MAX_RANK -> valid (of_rank n).
Proof.
  unfold MAX_RANK, valid, of_rank, MAX_SHIFT, MAX_BITNUMBER. simpl.
  change (1022 + 1) with 1023. intros H.
  pose proof (Z.mod_pos_bound n 1023 ltac:(lia)).
  assert (n / 1023 < 8192) by (apply Z.div_lt_upper_bound; lia).
  pose proof (Z.div_pos n 1023 ltac:(lia) ltac:(lia)). lia.
Qed.

(** The order of the ranks is the order of the query ids. *)
Lemma rank_lt q1 q2 : valid q1 -> valid q2 -> rank q1 < rank q2 <-> query_id q1 < query_id q2.
Proof.
  intros H1 H2. rewrite !query_id_value by done.
  apply valid_fields in H1, H2. unfold rank, MAX_BITNUMBER. split; intros; nia.
Qed.

Lemma rank_inj q1 q2 : valid q1 -> valid q2 -> rank q1 = rank q2 -> q1 = q2.
Proof. intros H1 H2 H. by rewrite <- (of_rank_rank q1), <- (of_rank_rank q2), H by done. Qed.

(** [next] in terms of ranks. *)
Lemma next_rank q :
  valid q ->
  next q =
    if decide (rank q = MAX_RANK - 2) then Err EmergencyOverload
    else if decide (rank q = MAX_RANK) then Err ShiftOverflow
    else Ok (of_rank (rank q + 1)).
Proof.
  intros Hv. pose proof Hv as Hv'. destruct q as [s b]. apply valid_fields in Hv as [H1 H2].
  unfold next, rank, MAX_RANK, MAX_SHIFT, MAX_BITNUMBER. simpl in *.
  rewrite wrap_u_id by (unfold in_u; lia).
  destruct (decide (s = 8191 /\ b + 1 = 1022 - 1)).
  { rewrite decide_True by lia. done. }
  rewrite (decide_False (P := s * (1022 + 1) + b = _)) by lia.
  destruct (decide (b + 1 > 1022)).
  - rewrite wrap_u_id by (unfold in_u; lia). destruct (decide (s + 1 > 8191)).
    { rewrite decide_True by lia. done. }
    rewrite (decide_False (P := s * (1022 + 1) + b = _)) by lia. rewrite from_shift_ok by lia. f_equal.
    rewrite <- (of_rank_rank (mk (s + 1) 0)).
    2:{ unfold valid, MAX_SHIFT, MAX_BITNUMBER. simpl. lia. }
    f_equal. unfold rank, MAX_BITNUMBER. simpl. lia.
  - rewrite (decide_False (P := s * (1022 + 1) + b = _)) by lia. rewrite from_shift_ok by lia. f_equal.
    rewrite <- (of_rank_rank (mk s (b + 1))).
    2:{ unfold valid, MAX_SHIFT, MAX_BITNUMBER. simpl. lia. }
    f_equal. unfold rank, MAX_BITNUMBER. simpl. lia.
Qed.

Lemma next_ok q q' :
  valid q -> next q = Ok q' -> valid q' /\ rank q' = rank q + 1.
Proof.
  intros Hv. rewrite next_rank by done. pose proof (rank_bounds q Hv).
  destruct (decide _); [done|]. destruct (decide _); [done|]. intros [= <-].
  rewrite rank_of_rank. split; [apply of_rank_valid|]; lia.
Qed.

Lemma has_next_rank q : valid q -> has_next q = bool_decide (rank q < MAX_RANK - 1).
Proof.
  intros [H1 H2]%valid_fields. unfold has_next. rewrite <- bool_decide_not.
  apply bool_decide_ext. unfold rank, MAX_RANK, MAX_SHIFT, MAX_BITNUMBER. lia.
Qed.

End HighLoadQueryId.

(** ** Properties *)

(** [next] on a valid id fails only on the last and on the third-last id
    of the wallet; otherwise the new id is the least valid id whose [query_id]
    is greater. *)
Theorem next_is_successor (q : HighLoadQueryId.t) :
  HighLoadQueryId.valid q ->
  match HighLoadQueryId.next q with
  | Ok q' =>
      HighLoadQueryId.valid q' /\
      HighLoadQueryId.query_id q < HighLoadQueryId.query_id q' /\
      forall q2, HighLoadQueryId.valid q2 ->
        HighLoadQueryId.query_id q < HighLoadQueryId.query_id q2 ->
        HighLoadQueryId.query_id q' <= HighLoadQueryId.query_id q2
  | Err EmergencyOverload => q = HighLoadQueryId.mk 8191 1020
  | Err ShiftOverflow => q = HighLoadQueryId.mk 8191 1022
  | _ => False
  end.
Proof.
  intros Hv. destruct (HighLoadQueryId.next q) as [q'|e|] eqn:E.
  - apply HighLoadQueryId.next_ok in E as [Hv' Hr]; [|done].
    split; [done|]. split; [apply HighLoadQueryId.rank_lt; [done..|lia]|].
    intros q2 Hv2 Hlt%HighLoadQueryId.rank_lt; [|done..].
    apply Z.nlt_ge. intros Hlt2%HighLoadQueryId.rank_lt; [lia|done..].
  - rewrite HighLoadQueryId.next_rank in E by done.
    repeat case_decide; simplify_eq; apply HighLoadQueryId.rank_inj; done.
  - rewrite HighLoadQueryId.next_rank in E by done. by repeat case_decide.
Qed.

(** Two valid ids with the same [query_id] are equal, and every
    [query_id] fits in the 23 bits of the wallet's field. *)
Theorem query_id_injective (q1 q2 : HighLoadQueryId.t) :
  HighLoadQueryId.valid q1 -> HighLoadQueryId.valid q2 ->
  HighLoadQueryId.query_id q1 = HighLoadQueryId.query_id q2 ->
  q1 = q2 /\ 0 <= HighLoadQueryId.query_id q1 < 2 ^ 23.
Proof.
  intros H1 H2 Heq. split.
  - apply HighLoadQueryId.rank_inj; [done..|].
    pose proof (HighLoadQueryId.rank_lt q1 q2 H1 H2).
    pose proof (HighLoadQueryId.rank_lt q2 q1 H2 H1). lia.
  - rewrite HighLoadQueryId.query_id_value by done.
    apply HighLoadQueryId.valid_fields in H1. lia.
Qed.

(** [has_next] and [next] disagree at the end of the range: [has_next]
    promises a successor of every valid id before the last two, and [next]
    keeps the promise for all of them but the id of shift 8191 and bit number
    1020. *)
Theorem has_next_exception (q : HighLoadQueryId.t) :
  HighLoadQueryId.valid q ->
  (HighLoadQueryId.has_next q = true /\ is_ok (HighLoadQueryId.next q) = false) <->
  q = HighLoadQueryId.mk 8191 1020.
Proof.
  intros Hv. rewrite HighLoadQueryId.has_next_rank, bool_decide_eq_true by done.
  rewrite HighLoadQueryId.next_rank by done. split.
  - intros [H1 H2]. repeat case_decide; try done; [|lia].
    by apply HighLoadQueryId.rank_inj.
  - intros ->. by vm_compute.
Qed.

Lemma next_is_successor_witness :
  HighLoadQueryId.next (HighLoadQueryId.mk 10 1022) = Ok (HighLoadQueryId.mk 11 0) /\
  HighLoadQueryId.valid (HighLoadQueryId.mk 11 0).
Proof.
  split; [by vm_compute|].
  exact (proj1 (next_is_successor (HighLoadQueryId.mk 10 1022)
    ltac:(apply (bool_decide_unpack _); exact I))).
Defined.

Lemma query_id_injective_witness :
  HighLoadQueryId.mk 2 3 = HighLoadQueryId.mk 2 3 /\
  0 <= HighLoadQueryId.query_id (HighLoadQueryId.mk 2 3) < 2 ^ 23.
Proof.
  exact (query_id_injective (HighLoadQueryId.mk 2 3) (HighLoadQueryId.mk 2 3)
    ltac:(apply (bool_decide_unpack _); exact I) ltac:(apply (bool_decide_unpack _); exact I)
    eq_refl).
Defined.

Lemma has_next_exception_witness :
  HighLoadQueryId.has_next (HighLoadQueryId.mk 8191 1020) = true /\
  is_ok (HighLoadQueryId.next (HighLoadQueryId.mk 8191 1020)) = false.
Proof.
  exact (proj2 (has_next_exception (HighLoadQueryId.mk 8191 1020)
    ltac:(apply (bool_decide_unpack _); exact I)) eq_refl).
Defined.
