(* ===== verification/QueryIdStore.v ===== *)
(** * The query-id table and its wrapper:
    [models/ton_wallet_query_id.rs], [high_load_query_id_db_wrapper.rs]

    The Postgres table is a map from the primary key to the row; every query
    is a state step that takes the value of [CURRENT_TIMESTAMP] (in
    microseconds) and may fail, leaving the table as it was.  Machine
    integers wrap, as in a release build. *)

From Stdlib Require Import ZArith Lia Sorted Strings.Byte Strings.Ascii.
From stdpp Require Import base strings gmap sorting list.
From S2P Require Import Prelude RustStd Foreign QueryId.

Definition SECOND : Z := 1000000.

(** A row of [ton_wallet_query_id]. *)
Record QueryIdRow := {
  row_shift : Z; (* INTEGER *)
  row_bitnumber : Z; (* INTEGER *)
  expires_at : Z; (* TIMESTAMPTZ *)
  updated_at : option Z;
}.

Notation query_table := (gmap string QueryIdRow).

Inductive db_op : Set := GetQueryId | UpdateQueryId | UpsertQueryId.

Inductive HighLoadQueryIdWrapperError : Set :=
| ConstructionError
| NoNextQueryId
| DatabaseError.

Definition TIMEOUT_BUFFER_MULTIPLIER : Z := 3.

Section Queries.
(** The failure of a query, if it fails. *)
Context (fault : db_op -> option ferr).

(** Run [q], or fail and keep the table. *)
Definition db_query {A} (op : db_op) (q : query_table -> A * query_table)
    : st query_table ferr A :=
  fun tbl =>
    match fault op with
    | Some e => (Err e, tbl)
    | None => let '(a, tbl') := q tbl in (Ok a, tbl')
    end.

Definition get_query_id (now : Z) (address : string) : st query_table ferr (Z * Z) :=
  db_query GetQueryId (fun tbl =>
    (match tbl !! address with
     | Some row =>
         if decide (expires_at row >= now) then (row_shift row, row_bitnumber row) else (-1, -1)
     | None => (-1, -1)
     end, tbl)).

Definition update_query_id (now : Z) (address : string) (shift bitnumber : Z)
    : st query_table ferr unit :=
  db_query UpdateQueryId (fun tbl =>
    (tt, match tbl !! address with
         | Some row => <[address := {|
             row_shift := shift; row_bitnumber := bitnumber;
             expires_at := expires_at row; updated_at := Some now |}]> tbl
         | None => tbl
         end)).

Definition upsert_query_id (now : Z) (address : string) (shift bitnumber timeout : Z)
    : st query_table ferr unit :=
  db_query UpsertQueryId (fun tbl =>
    (tt, <[address := {|
             row_shift := shift; row_bitnumber := bitnumber;
             expires_at := now + timeout * SECOND;
             updated_at := match tbl !! address with
                           | Some row => updated_at row
                           | None => None
                           end |}]> tbl)).

(** The shift after [force_shift_increase]. *)
Definition forced_shift (force_shift_increase : bool) (shift : Z) : Z :=
  if force_shift_increase then
    let shift := if decide (shift < 0) then 1 else shift in
    if decide (wrap_s 32 (shift + 1) < HighLoadQueryId.MAX_SHIFT) then wrap_s 32 (shift + 1)
    else shift
  else shift.

(** The id chosen from what the table holds. *)
Definition choose_query_id (shift bitnumber : Z)
    : res HighLoadQueryIdWrapperError HighLoadQueryId.t :=
  if decide (shift < 0 \/ bitnumber < 0) then
    map_err (fun _ => ConstructionError) (HighLoadQueryId.from_shift_and_bitnumber 0 0)
  else
    let? query_id := map_err (fun _ => ConstructionError)
      (HighLoadQueryId.from_shift_and_bitnumber (wrap_u 32 shift) (wrap_u 32 bitnumber)) in
    if HighLoadQueryId.has_next query_id then
      map_err (fun _ => ConstructionError) (HighLoadQueryId.next query_id)
    else Err NoNextQueryId.

(** [HighLoadQueryIdDbWrapper::next]; [t_get] and [t_put] are the times of its
    two queries. *)
Definition wrapper_next (t_get t_put : Z) (address : string) (timeout : Z)
    (force_shift_increase : bool)
    : st query_table HighLoadQueryIdWrapperError HighLoadQueryId.t :=
  let! (shift, bitnumber) := st_map_err (fun _ => DatabaseError) (get_query_id t_get address) in
  let shift := forced_shift force_shift_increase shift in
  let! query_id := st_lift (choose_query_id shift bitnumber) in
  do! st_map_err (fun _ => DatabaseError)
    (if decide (HighLoadQueryId.query_id query_id = 0) then
       upsert_query_id t_put address
         (wrap_s 32 (HighLoadQueryId.shift query_id))
         (wrap_s 32 (HighLoadQueryId.bitnumber query_id))
         (wrap_s 32 (wrap_s 32 timeout * TIMEOUT_BUFFER_MULTIPLIER))
     else
       update_query_id t_put address
         (wrap_s 32 (HighLoadQueryId.shift query_id))
         (wrap_s 32 (HighLoadQueryId.bitnumber query_id))) in
  st_ret query_id.
End Queries.

Lemma wrapper_next_no_panic fault t_get t_put address timeout force tbl :
  fst (wrapper_next fault t_get t_put address timeout force tbl) <> Panic.
Proof.
  revert tbl.
  change (StSafe (wrapper_next fault t_get t_put address timeout force)).
  assert (Hq : forall A op q, StSafe (db_query fault (A:=A) op q)).
  { intros A op q tbl. unfold db_query. destruct (fault op); [done|]. by destruct (q tbl). }
  assert (Hf : forall s b, ResSafe (HighLoadQueryId.from_shift_and_bitnumber s b)).
  { intros s b. unfold HighLoadQueryId.from_shift_and_bitnumber. apply _. }
  unfold wrapper_next, get_query_id, update_query_id, upsert_query_id, choose_query_id.
  unfold HighLoadQueryId.next. apply st_bind_safe; [apply _|]. intros [shift bitnumber]. apply _.
Qed.

(** ** The counter the wrapper promises *)

Definition row_id (row : QueryIdRow) : HighLoadQueryId.t :=
  HighLoadQueryId.mk (row_shift row) (row_bitnumber row).

(** The last id handed out for an address, as a rank; none when the row is
    absent or expired. *)
Definition counter (now : Z) (tbl : query_table) (address : string) : option Z :=
  match tbl !! address with
  | Some row =>
      if decide (expires_at row >= now) then Some (HighLoadQueryId.rank (row_id row)) else None
  | None => None
  end.

(** One call, on ranks: count from zero; forcing skips a whole shift, except
    in the last two. *)
Definition counter_next (c : option Z) (force : bool) : res HighLoadQueryIdWrapperError Z :=
  match c with
  | None => Ok 0
  | Some n =>
      let n := if force && bool_decide (n < 8190 * 1023) then n + 1023 else n in
      if decide (n >= HighLoadQueryId.MAX_RANK - 1) then Err NoNextQueryId
      else if decide (n = HighLoadQueryId.MAX_RANK - 2) then Err ConstructionError
      else Ok (n + 1)
  end.

(** The table after a successful call that returns the rank [n]. *)
Definition counter_put (t_put timeout : Z) (address : string) (n : Z) (tbl : query_table)
    : query_table :=
  let q := HighLoadQueryId.of_rank n in
  let fresh row := {|
    row_shift := HighLoadQueryId.shift q;
    row_bitnumber := HighLoadQueryId.bitnumber q;
    expires_at := if decide (n = 0) then t_put + wrap_s 32 (wrap_s 32 timeout * 3) * SECOND
                  else from_option expires_at 0 row;
    updated_at := if decide (n = 0) then row ≫= updated_at else Some t_put;
  |} in
  <[address := fresh (tbl !! address)]> tbl.

Definition table_valid (tbl : query_table) : Prop :=
  map_Forall (fun _ row => HighLoadQueryId.valid (row_id row)) tbl.

(** ** Lemmas *)

Lemma valid_s32 q :
  HighLoadQueryId.valid q ->
  wrap_s 32 (HighLoadQueryId.shift q) = HighLoadQueryId.shift q /\
  wrap_s 32 (HighLoadQueryId.bitnumber q) = HighLoadQueryId.bitnumber q.
Proof.
  intros [H1 H2]%HighLoadQueryId.valid_fields.
  split; apply wrap_s_id; [lia|unfold in_s; lia|lia|unfold in_s; lia].
Qed.

Lemma choose_valid s b :
  HighLoadQueryId.valid (HighLoadQueryId.mk s b) ->
  choose_query_id s b =
  res_map HighLoadQueryId.of_rank
    (counter_next (Some (HighLoadQueryId.rank (HighLoadQueryId.mk s b))) false).
Proof.
  set (q := HighLoadQueryId.mk s b). change s with (HighLoadQueryId.shift q).
  change b with (HighLoadQueryId.bitnumber q).
  intros Hv. pose proof (HighLoadQueryId.valid_fields q Hv) as [H1 H2].
  unfold choose_query_id. rewrite decide_False by lia.
  rewrite !wrap_u_id by (unfold in_u; lia).
  rewrite HighLoadQueryId.from_shift_ok by done. cbn [map_err res_bind].
  replace (HighLoadQueryId.mk _ _) with q by (by destruct q).
  rewrite HighLoadQueryId.has_next_rank, HighLoadQueryId.next_rank by done.
  unfold counter_next. cbn [andb].
  destruct (decide (_ >= _)).
  - rewrite bool_decide_eq_false_2 by lia. done.
  - rewrite bool_decide_eq_true_2 by lia.
    destruct (decide (_ = HighLoadQueryId.MAX_RANK - 2)); [done|].
    rewrite decide_False by lia. done.
Qed.

Lemma forced_rank q :
  HighLoadQueryId.valid q ->
  let q' := HighLoadQueryId.mk (forced_shift true (HighLoadQueryId.shift q))
    (HighLoadQueryId.bitnumber q) in
  HighLoadQueryId.valid q' /\
  HighLoadQueryId.rank q' =
    if bool_decide (HighLoadQueryId.rank q < 8190 * 1023)
    then HighLoadQueryId.rank q + 1023 else HighLoadQueryId.rank q.
Proof.
  destruct q as [s b]. intros [H1 H2]%HighLoadQueryId.valid_fields. simpl in *.
  unfold forced_shift, HighLoadQueryId.valid, HighLoadQueryId.rank, HighLoadQueryId.MAX_SHIFT,
    HighLoadQueryId.MAX_BITNUMBER. simpl.
  rewrite (decide_False (P := s < 0)) by lia. rewrite wrap_s_id by (unfold in_s; lia).
  destruct (decide (s + 1 < 8191)).
  - rewrite bool_decide_eq_true_2 by lia. lia.
  - rewrite bool_decide_eq_false_2 by lia. lia.
Qed.

(** What the wrapper reads, forces and chooses, in terms of the counter. *)
Lemma choose_counter tbl now address force :
  table_valid tbl ->
  (let '(s, b) := match tbl !! address with
     | Some row =>
         if decide (expires_at row >= now) then (row_shift row, row_bitnumber row) else (-1, -1)
     | None => (-1, -1)
     end in choose_query_id (forced_shift force s) b) =
  res_map HighLoadQueryId.of_rank (counter_next (counter now tbl address) force).
Proof.
  intros Hv. unfold counter.
  assert (Hnone : choose_query_id (forced_shift force (-1)) (-1) =
    res_map HighLoadQueryId.of_rank (Ok 0)) by (by destruct force).
  destruct (tbl !! address) as [row|] eqn:E; [|done]. case_decide; [|done].
  pose proof (Hv _ _ E) as Hrow. simpl in Hrow. destruct force.
  - destruct (forced_rank _ Hrow) as [H1 H2]. pose proof (choose_valid _ _ H1) as H3.
    unfold row_id in H3 at 1 2. cbn [HighLoadQueryId.shift HighLoadQueryId.bitnumber] in H3.
    rewrite H3. unfold counter_next. cbn [andb]. by rewrite H2.
  - apply (choose_valid _ _ Hrow).
Qed.

Lemma counter_next_ok c force n :
  match c with Some m => 0 <= m | None => True end ->
  counter_next c force = Ok n ->
  0 <= n <= HighLoadQueryId.MAX_RANK /\
  match c with Some m => m < n | None => n = 0 end.
Proof.
  unfold counter_next. intros Hc H. destruct c as [m|]; [|injection H as <-].
  - destruct (force && _) eqn:Ef; repeat case_decide; simplify_eq; lia.
  - split; [|done]. by vm_compute.
Qed.

Lemma counter_nonneg now tbl a :
  table_valid tbl -> match counter now tbl a with Some m => 0 <= m | None => True end.
Proof.
  intros Hv. unfold counter. destruct (tbl !! a) as [row|] eqn:E; [|done].
  case_decide; [|done]. apply HighLoadQueryId.rank_bounds. exact (Hv _ _ E).
Qed.

Lemma query_id_zero n :
  0 <= n <= HighLoadQueryId.MAX_RANK ->
  HighLoadQueryId.query_id (HighLoadQueryId.of_rank n) = 0 <-> n = 0.
Proof.
  intros Hn. pose proof (HighLoadQueryId.of_rank_valid n Hn) as Hv.
  rewrite HighLoadQueryId.query_id_value by done.
  pose proof (HighLoadQueryId.valid_fields _ Hv). pose proof (HighLoadQueryId.rank_of_rank n) as Hr.
  unfold HighLoadQueryId.rank, HighLoadQueryId.MAX_BITNUMBER in Hr. lia.
Qed.

Lemma counter_put_valid t_put timeout a n tbl :
  table_valid tbl -> 0 <= n <= HighLoadQueryId.MAX_RANK ->
  table_valid (counter_put t_put timeout a n tbl).
Proof.
  intros Hv Hn. unfold counter_put. apply map_Forall_insert_2; [|done].
  pose proof (HighLoadQueryId.of_rank_valid n Hn).
  unfold row_id. cbn [row_shift row_bitnumber]. by destruct (HighLoadQueryId.of_rank n).
Qed.

(** The outcome of a call whatever queries fail. *)
Lemma wrapper_next_cases fault t_get t_put a timeout force tbl :
  table_valid tbl ->
  wrapper_next fault t_get t_put a timeout force tbl =
  match fault GetQueryId with
  | Some _ => (Err DatabaseError, tbl)
  | None =>
      match counter_next (counter t_get tbl a) force with
      | Ok n =>
          match fault (if decide (n = 0) then UpsertQueryId else UpdateQueryId) with
          | Some _ => (Err DatabaseError, tbl)
          | None => (Ok (HighLoadQueryId.of_rank n), counter_put t_put timeout a n tbl)
          end
      | Err e => (Err e, tbl)
      | Panic => (Panic, tbl)
      end
  end.
Proof.
  intros Hv. pose proof (choose_counter tbl t_get a force Hv) as Hc.
  pose proof (counter_nonneg t_get tbl a Hv) as Hnn.
  unfold wrapper_next, get_query_id, db_query, st_map_err, st_bind, st_lift.
  destruct (fault GetQueryId) as [e|]; [done|]. cbn [map_err].
  destruct (match tbl !! a with Some _ => _ | None => _ end) as [s b] eqn:Erow.
  rewrite Hc. destruct (counter_next _ force) as [n|e|] eqn:En; [|done..]. cbn [res_map].
  pose proof (counter_next_ok _ _ _ Hnn En) as [Hn Hlt].
  destruct (valid_s32 _ (HighLoadQueryId.of_rank_valid n Hn)) as [-> ->].
  destruct (decide (n = 0)) as [Hz|Hz].
  - rewrite decide_True by (by apply query_id_zero).
    unfold upsert_query_id, db_query. destruct (fault UpsertQueryId); [done|].
    cbn. unfold st_ret, counter_put. rewrite !decide_True by done.
    by destruct (tbl !! a).
  - rewrite decide_False by (by rewrite query_id_zero).
    unfold update_query_id, db_query. destruct (fault UpdateQueryId); [done|].
    cbn. unfold st_ret, counter_put. rewrite !decide_False by done.
    destruct (tbl !! a) as [row|] eqn:Ea; [done|].
    exfalso. unfold counter in Hlt. rewrite Ea in Hlt. done.
Qed.

(** ** Sequences of calls *)

Record wrapper_call := {
  c_fault : db_op -> option ferr;
  c_get : Z;
  c_put : Z;
  c_address : string;
  c_timeout : Z;
  c_force : bool;
}.

Definition run_call (c : wrapper_call) : st query_table HighLoadQueryIdWrapperError HighLoadQueryId.t :=
  wrapper_next (c_fault c) (c_get c) (c_put c) (c_address c) (c_timeout c) (c_force c).

(** The calls one after the other, as under the wallet's lock. *)
Fixpoint run_calls (calls : list wrapper_call) (tbl : query_table)
    : list (wrapper_call * res HighLoadQueryIdWrapperError HighLoadQueryId.t) * query_table :=
  match calls with
  | [] => ([], tbl)
  | c :: calls' =>
      let '(r, tbl') := run_call c tbl in
      let '(out, tbl'') := run_calls calls' tbl' in
      ((c, r) :: out, tbl'')
  end.

Lemma run_calls_app cs1 cs2 tbl out1 tbl1 out2 tbl2 :
  run_calls cs1 tbl = (out1, tbl1) -> run_calls cs2 tbl1 = (out2, tbl2) ->
  run_calls (cs1 ++ cs2) tbl = (out1 ++ out2, tbl2).
Proof.
  revert tbl out1. induction cs1 as [|c cs1 IH]; intros tbl out1 H1 H2; cbn [run_calls app] in *.
  { by injection H1 as <- <-. }
  destruct (run_call c tbl) as [r tbl']. destruct (run_calls cs1 tbl') as [out tbl''] eqn:E.
  injection H1 as <- <-. by rewrite (IH _ _ E H2).
Qed.

(** The query ids handed out for one address, in order. *)
Definition ids_of (a : string)
    (out : list (wrapper_call * res HighLoadQueryIdWrapperError HighLoadQueryId.t)) : list Z :=
  omap (fun '(c, r) =>
    if decide (c_address c = a) then HighLoadQueryId.query_id <$> res_ok r else None) out.

(** One call keeps the validity of the table and every other row. *)
Lemma run_call_frame c tbl r tbl' :
  table_valid tbl -> run_call c tbl = (r, tbl') ->
  table_valid tbl' /\ forall a, a <> c_address c -> tbl' !! a = tbl !! a.
Proof.
  intros Hv. unfold run_call. rewrite wrapper_next_cases by done.
  pose proof (counter_nonneg (c_get c) tbl (c_address c) Hv) as Hnn.
  destruct (c_fault c GetQueryId); [by intros [= <- <-]|].
  destruct (counter_next _ _) as [n|e|] eqn:En; [|by intros [= <- <-]..].
  destruct (c_fault c (if decide _ then _ else _)); [by intros [= <- <-]|]. intros [= <- <-].
  apply counter_next_ok in En as [Hn _]; [|done]. split; [by apply counter_put_valid|].
  intros a Ha. unfold counter_put. cbv zeta. by rewrite lookup_insert_ne by done.
Qed.

(** One call on a row that has not expired: the expiry stays, the id grows. *)
Lemma run_call_live c tbl r tbl' row :
  table_valid tbl -> run_call c tbl = (r, tbl') -> tbl !! c_address c = Some row ->
  c_get c <= expires_at row ->
  exists row', tbl' !! c_address c = Some row' /\ expires_at row' = expires_at row /\
    match r with
    | Ok q => q = row_id row' /\
        HighLoadQueryId.rank (row_id row) < HighLoadQueryId.rank (row_id row')
    | _ => row' = row
    end.
Proof.
  intros Hv. unfold run_call. rewrite wrapper_next_cases by done. intros Hr Hrow Hlive.
  pose proof (counter_nonneg (c_get c) tbl (c_address c) Hv) as Hnn.
  destruct (c_fault c GetQueryId); [simplify_eq; eauto|].
  destruct (counter_next _ _) as [n|e|] eqn:En; [|simplify_eq; eauto..].
  destruct (c_fault c (if decide _ then _ else _)); [simplify_eq; eauto|]. simplify_eq.
  apply counter_next_ok in En as [Hn Hlt]; [|done].
  unfold counter in Hnn, Hlt. rewrite Hrow in Hnn, Hlt.
  rewrite decide_True in Hnn, Hlt by lia.
  unfold counter_put. cbv zeta beta. rewrite lookup_insert_eq, Hrow. eexists. split; [done|].
  cbn [expires_at]. rewrite decide_False by lia. split; [done|].
  unfold row_id at 1 3. cbn [row_shift row_bitnumber].
  replace (HighLoadQueryId.mk _ _) with (HighLoadQueryId.of_rank n)
    by (by destruct (HighLoadQueryId.of_rank n)).
  rewrite HighLoadQueryId.rank_of_rank. done.
Qed.

(** ** Properties *)

Definition no_fault (op : db_op) : option ferr := None.

(** C13. Refinement: on a table of valid rows, a call of the wrapper returns
    the successor (or the forced successor) of the counter of its address,
    starting again at zero when the row is absent or expired; it touches no
    other row, and afterwards the counter is the id returned until the row's
    expiry, which only a restart moves. *)
Theorem wrapper_next_refines t_get t_put a timeout force tbl r tbl' :
  table_valid tbl ->
  wrapper_next no_fault t_get t_put a timeout force tbl = (r, tbl') ->
  r = res_map HighLoadQueryId.of_rank (counter_next (counter t_get tbl a) force) /\
  table_valid tbl' /\
  (forall b, b <> a -> tbl' !! b = tbl !! b) /\
  match counter_next (counter t_get tbl a) force with
  | Ok n =>
      forall now, counter now tbl' a =
        if decide (n = 0) then
          if decide (now <= t_put + wrap_s 32 (wrap_s 32 timeout * 3) * SECOND) then Some 0 else None
        else counter now tbl a ≫= (fun _ => Some n)
  | _ => tbl' = tbl
  end.
Proof.
  intros Hv Hr.
  pose proof (run_call_frame {| c_fault := no_fault; c_get := t_get; c_put := t_put;
    c_address := a; c_timeout := timeout; c_force := force |} tbl r tbl' Hv Hr) as [Hv' Hf].
  pose proof (counter_nonneg t_get tbl a Hv) as Hnn.
  rewrite wrapper_next_cases in Hr by done. cbn [no_fault] in Hr.
  destruct (counter_next _ _) as [n|e|] eqn:En; simplify_eq; [|done..].
  apply counter_next_ok in En as [Hn Hlt]; [|done].
  split; [done|]. split; [done|]. split; [done|]. intros now.
  unfold counter at 1, counter_put. cbv zeta beta. rewrite lookup_insert_eq. cbn [expires_at].
  unfold row_id. cbn [row_shift row_bitnumber].
  replace (HighLoadQueryId.mk _ _) with (HighLoadQueryId.of_rank n)
    by (by destruct (HighLoadQueryId.of_rank n)).
  rewrite HighLoadQueryId.rank_of_rank. destruct (decide (n = 0)) as [->|Hz].
  - repeat case_decide; done || lia.
  - unfold counter in Hlt |- *. destruct (tbl !! a) as [row|]; [|done].
    cbn [from_option]. by destruct (decide (expires_at row >= now)), (decide _).
Qed.

Lemma run_calls_increasing a calls tbl out tbl' row :
  table_valid tbl -> tbl !! a = Some row ->
  Forall (fun c => c_address c = a -> c_get c <= expires_at row) calls ->
  run_calls calls tbl = (out, tbl') ->
  StronglySorted Z.lt (HighLoadQueryId.query_id (row_id row) :: ids_of a out).
Proof.
  revert tbl out row. induction calls as [|c calls IH]; intros tbl out row Hv Hrow Hall H.
  { simpl in H. simplify_eq. repeat constructor. }
  apply Forall_cons in Hall as [Hc Hall]. cbn [run_calls] in H.
  destruct (run_call c tbl) as [r tbl1] eqn:Er.
  destruct (run_calls calls tbl1) as [out1 tbl2] eqn:E. simplify_eq.
  destruct (run_call_frame _ _ _ _ Hv Er) as [Hv1 Hframe].
  unfold ids_of. cbn [omap list_omap]. fold (ids_of a out1).
  destruct (decide (c_address c = a)) as [Ha|Ha].
  - subst a. destruct (run_call_live _ _ _ _ _ Hv Er Hrow (Hc eq_refl)) as (row' & Hrow' & He & Hr).
    rewrite <- He in Hall. pose proof (IH tbl1 out1 row' Hv1 Hrow' Hall E) as Hs.
    destruct r as [q|e|]; cbn [res_ok fmap option_fmap option_map];
      [|by subst row'..].
    destruct Hr as [-> Hlt]. constructor; [done|].
    apply HighLoadQueryId.rank_lt in Hlt; [|exact (Hv _ _ Hrow)|exact (Hv1 _ _ Hrow')].
    constructor; [done|]. apply StronglySorted_inv in Hs as [_ Hs].
    eapply Forall_impl; [exact Hs|]. intros x Hx. simpl in Hx. lia.
  - apply (IH tbl1); [done| |done..]. rewrite Hframe by auto. done.
Qed.

(** No query id is handed out twice while the row lives: over any
    sequence of calls, for any addresses and with any queries failing, the ids
    returned for an address whose row never expires strictly increase, above
    the id in the row. *)
Theorem live_ids_increase a calls tbl out tbl' row :
  table_valid tbl -> tbl !! a = Some row ->
  (forall c, c ∈ calls -> c_address c = a -> c_get c <= expires_at row) ->
  run_calls calls tbl = (out, tbl') ->
  StronglySorted Z.lt (HighLoadQueryId.query_id (row_id row) :: ids_of a out).
Proof.
  intros Hv Hrow Hc. apply run_calls_increasing; [done..|]. by apply Forall_forall.
Qed.

(** A restart from zero is at least [3 * timeout] seconds after the
    previous one: after a call that returned the id zero at [c_put], every
    later id of the address is greater until a call made more than
    [3 * timeout] seconds later. *)
Theorem restart_gap c tbl q tbl1 calls out tbl2 :
  table_valid tbl -> 0 <= c_timeout c -> c_timeout c * 3 < 2 ^ 31 ->
  run_call c tbl = (Ok q, tbl1) -> HighLoadQueryId.query_id q = 0 ->
  (forall c', c' ∈ calls -> c_address c' = c_address c ->
    c_get c' <= c_put c + 3 * c_timeout c * SECOND) ->
  run_calls calls tbl1 = (out, tbl2) ->
  Forall (fun i => 0 < i) (ids_of (c_address c) out).
Proof.
  intros Hv Ht1 Ht2 Hr Hq Hall Hrun.
  destruct (run_call_frame _ _ _ _ Hv Hr) as [Hv1 _].
  unfold run_call in Hr. rewrite wrapper_next_cases in Hr by done.
  pose proof (counter_nonneg (c_get c) tbl (c_address c) Hv) as Hnn.
  destruct (c_fault c GetQueryId); [done|].
  destruct (counter_next _ _) as [n|e|] eqn:En; [|done..].
  apply counter_next_ok in En as [Hn _]; [|done].
  destruct (c_fault c (if decide _ then _ else _)); [done|]. injection Hr as <- <-.
  apply (query_id_zero n Hn) in Hq. subst n.
  unfold counter_put in Hv1, Hrun. cbv zeta beta in Hv1, Hrun. rewrite !decide_True in Hv1, Hrun by done.
  eassert (Hs : StronglySorted Z.lt (0 :: ids_of (c_address c) out)).
  { apply (run_calls_increasing (c_address c) calls _ out tbl2 _ Hv1 (lookup_insert_eq _ _ _));
      [|exact Hrun].
    apply Forall_forall. intros c' Hc' Ha. cbn [expires_at].
    rewrite (wrap_s_id 32 (c_timeout c)), wrap_s_id by (done || unfold in_s; lia).
    specialize (Hall c' Hc' Ha). lia. }
  by apply StronglySorted_inv in Hs as [_ Hs].
Qed.

Definition example_call (t : Z) (force : bool) : wrapper_call := {|
  c_fault := no_fault; c_get := t * SECOND; c_put := t * SECOND; c_address := "wallet1";
  c_timeout := 60; c_force := force |}.

(** An id other than zero can be reused at once: the row's expiry counts
    from the restart and not from the last use, so with a timeout of 60 s the
    id used at 180 s is handed out again at 182 s, although the wallet's
    contract may still hold it for 60 s or more. *)
Theorem id_reused_within_timeout :
  ids_of "wallet1" (fst (run_calls
    [example_call 0 false; example_call 180 false; example_call 181 false;
     example_call 182 false] ∅)) = [0; 1; 0; 1].
Proof. by vm_compute. Qed.

(** Forcing the shift on a fresh row has no effect. *)
Example forced_fresh :
  ids_of "wallet1" (fst (run_calls [example_call 0 true; example_call 1 true;
    example_call 2 false] ∅)) = [0; 1025; 1026].
Proof. by vm_compute. Qed.

(** ** Applications at concrete inputs *)

Definition example_row : QueryIdRow :=
  {| row_shift := 0; row_bitnumber := 1022; expires_at := 180 * SECOND; updated_at := None |}.

Lemma example_table_valid : table_valid {["wallet1" := example_row]}.
Proof. apply map_Forall_singleton. by vm_compute. Qed.

Lemma wrapper_next_refines_witness :
  fst (wrapper_next no_fault 5 6 "wallet1" 60 false {["wallet1" := example_row]}) =
    res_map HighLoadQueryId.of_rank (Ok 1023).
Proof.
  exact (proj1 (wrapper_next_refines 5 6 "wallet1" 60 false {["wallet1" := example_row]} _ _
    example_table_valid (surjective_pairing _))).
Defined.

Lemma live_ids_increase_witness :
  StronglySorted Z.lt [1022; 1024; 2049].
Proof.
  exact (live_ids_increase "wallet1" [example_call 1 false; example_call 2 true]
    {["wallet1" := example_row]} _ _ example_row example_table_valid
    ltac:(by vm_compute)
    ltac:(intros c Hc _; apply list_elem_of_In in Hc; destruct Hc as [<-|[<-|[]]]; by vm_compute)
    (surjective_pairing _)).
Defined.

Lemma restart_gap_witness :
  Forall (fun i => 0 < i) (ids_of "wallet1" (fst (run_calls [example_call 180 false]
    (snd (run_call (example_call 0 false) ∅))))).
Proof.
  exact (restart_gap (example_call 0 false) ∅ (HighLoadQueryId.mk 0 0) _ [example_call 180 false]
    _ _ (map_Forall_empty _) ltac:(by vm_compute) ltac:(by vm_compute) 
    ltac:(by vm_compute) eq_refl
    ltac:(intros c Hc _; apply list_elem_of_In in Hc; destruct Hc as [<-|[]]; by vm_compute)
    (surjective_pairing _)).
Defined.
