(* ===== verification/WalletContract.v ===== *)
(** * The wallet's contract and the restart of the query ids:
    [high_load_query_id_db_wrapper.rs]

    The module comment gives the code by which the contract of the high-load
    wallet forgets the query ids it has seen, in two generations, and derives
    from it that an id may be used again [3 * timeout] after it was sent.  Here
    that code is a state machine.  An id is refused exactly while it is
    remembered: surely up to [timeout], never after [3 * timeout], both bounds
    sharp.  Put behind the wrapper, every message it hands out an id for is
    executed exactly once, however often it is delivered, as long as the ids
    restart late enough; and the wrapper's own expiry is not late enough. *)

From Stdlib Require Import ZArith Lia Sorted Strings.Byte Strings.Ascii.
From stdpp Require Import base strings gmap sorting list.
From S2P Require Import Prelude RustStd Foreign QueryId QueryIdStore.

(** The contract's memory; times are in seconds.  The source has the cleaning
    only ([clean]); that the contract refuses the ids it remembers and remembers
    those it takes ([receive]) is what the comment says of it. *)
Record wallet_contract := {
  last_clean_time : Z;
  queries : gset Z;
  old_queries : gset Z;
}.

Definition deployed : wallet_contract :=
  {| last_clean_time := 0; queries := ∅; old_queries := ∅ |}.

Section Contract.
Context (timeout : Z).

(** The code of the comment. *)
Definition clean (now : Z) (c : wallet_contract) : wallet_contract :=
  if decide (last_clean_time c < now - timeout) then {|
    last_clean_time := now;
    queries := ∅;
    old_queries :=
      if decide (last_clean_time c < now - timeout * 2) then ∅ else queries c;
  |}
  else c.

Definition remembers (q : Z) (c : wallet_contract) : Prop := q ∈ queries c \/ q ∈ old_queries c.

#[global] Instance remembers_dec q c : Decision (remembers q c).
Proof. unfold remembers. apply _. Defined.

Definition remember (q : Z) (c : wallet_contract) : wallet_contract := {|
  last_clean_time := last_clean_time c;
  queries := {[q]} ∪ queries c;
  old_queries := old_queries c;
|}.

(** The comment does not say whether the cleaning survives a message that is
    refused; the theorems hold for both. *)
Context (cleaning_survives : bool).

Definition receive (now q : Z) (c : wallet_contract) : bool * wallet_contract :=
  let c' := clean now c in
  if decide (remembers q c') then (false, if cleaning_survives then c' else c)
  else (true, remember q c').

(** Messages in the order in which they reach the contract, with their times. *)
Fixpoint receive_all (ds : list (Z * Z)) (c : wallet_contract) : list bool * wallet_contract :=
  match ds with
  | [] => ([], c)
  | (now, q) :: ds' =>
      let '(b, c') := receive now q c in
      let '(bs, c'') := receive_all ds' c' in
      (b :: bs, c'')
  end.

(** ** What the contract remembers

    [h] lists what was accepted so far, with the times. *)
Record mem_inv (now : Z) (h : list (Z * Z)) (c : wallet_contract) : Prop := {
  mi_past : Forall (fun x => fst x <= now) h;
  mi_clean : last_clean_time c <= now;
  mi_queries q : q ∈ queries c -> exists t, (t, q) ∈ h /\ last_clean_time c <= t;
  mi_old q : q ∈ old_queries c -> exists t, (t, q) ∈ h /\ last_clean_time c - 2 * timeout <= t;
  mi_seen t q : (t, q) ∈ h ->
    (q ∈ queries c /\ t <= last_clean_time c + timeout) \/
    (q ∈ old_queries c /\ t < last_clean_time c) \/
    t + timeout < last_clean_time c;
}.

Hypothesis timeout_pos : 0 <= timeout.

Lemma mem_inv_start now : 0 <= now -> mem_inv now [] deployed.
Proof. intros. split; cbn; [constructor|lia|set_solver..]. Qed.

Lemma mem_inv_later now now' h c : now <= now' -> mem_inv now h c -> mem_inv now' h c.
Proof.
  intros Hle [H1 H2 H3 H4 H5]. split; [|lia|done..].
  eapply Forall_impl; [exact H1|]. intros x Hx. cbn in Hx. lia.
Qed.

Lemma mem_inv_clean now h c : mem_inv now h c -> mem_inv now h (clean now c).
Proof.
  intros Hi. pose proof Hi as [H1 H2 H3 H4 H5]. unfold clean.
  destruct (decide (last_clean_time c < now - timeout)) as [Hold|Hold]; [|done].
  split; cbn [last_clean_time queries old_queries]; [done|lia|set_solver| |].
  - intros q Hq. case_decide; [set_solver|]. destruct (H3 q Hq) as (t & Ht & Hl).
    exists t. split; [done|lia].
  - intros t q Ht. right. destruct (H5 t q Ht) as [[Hq Hl]|[[Hq Hl]|Hl]]; [|right; lia..].
    case_decide; [right; lia|left; split; [done|lia]].
Qed.

Lemma clean_recent now c : last_clean_time c <= now -> now - timeout <= last_clean_time (clean now c).
Proof. intros. unfold clean. case_decide; cbn; lia. Qed.

(** A refused id was accepted at most [3 * timeout] ago. *)
Lemma remembered_recent now h c q :
  mem_inv now h c -> remembers q (clean now c) ->
  exists t, (t, q) ∈ h /\ now - 3 * timeout <= t.
Proof.
  intros Hi Hr. pose proof (clean_recent now c (mi_clean _ _ _ Hi)) as Hrec.
  apply mem_inv_clean in Hi. destruct Hr as [Hq|Hq].
  - destruct (mi_queries _ _ _ Hi q Hq) as (t & Ht & Hl). exists t. split; [done|lia].
  - destruct (mi_old _ _ _ Hi q Hq) as (t & Ht & Hl). exists t. split; [done|lia].
Qed.

(** An id accepted at most [timeout] ago is remembered. *)
Lemma recent_remembered now h c q t :
  mem_inv now h c -> (t, q) ∈ h -> now - timeout <= t -> remembers q (clean now c).
Proof.
  intros Hi%mem_inv_clean Ht Hrec. unfold remembers.
  destruct (mi_seen _ _ _ Hi t q Ht) as [[Hq _]|[[Hq _]|Hl]]; [by left|by right|].
  pose proof (mi_clean _ _ _ Hi). lia.
Qed.

Lemma mem_inv_receive now h c q b c' :
  mem_inv now h c -> receive now q c = (b, c') ->
  mem_inv now (if b then (now, q) :: h else h) c'.
Proof.
  intros Hi. unfold receive. case_decide as Hr; intros [= <- <-].
  { destruct cleaning_survives; [by apply mem_inv_clean|done]. }
  pose proof (clean_recent now c (mi_clean _ _ _ Hi)) as Hrec.
  destruct (mem_inv_clean _ _ _ Hi) as [H1 H2 H3 H4 H5].
  split; cbn [last_clean_time queries old_queries remember].
  - constructor; [done|exact H1].
  - done.
  - intros q' [->%elem_of_singleton|Hq]%elem_of_union.
    + exists now. split; [by left|done].
    + destruct (H3 q' Hq) as (t & Ht & Hl). exists t. split; [by right|done].
  - intros q' Hq. destruct (H4 q' Hq) as (t & Ht & Hl). exists t. split; [by right|done].
  - intros t q' [[= -> ->]|Ht]%elem_of_cons; [left; split; [set_solver|lia]|].
    destruct (H5 t q' Ht) as [[Hq Hl]|H]; [left; split; [set_solver|done]|by right].
Qed.

(** ** Runs of the contract *)

Lemma clean_keeps now c : now - timeout <= last_clean_time c -> clean now c = c.
Proof. intros. unfold clean. by rewrite decide_False by lia. Qed.

Lemma clean_drops now c :
  last_clean_time c < now - timeout * 2 ->
  clean now c = {| last_clean_time := now; queries := ∅; old_queries := ∅ |}.
Proof. intros. unfold clean. by rewrite !decide_True by lia. Qed.

Lemma receive_verdict now q c : fst (receive now q c) = negb (bool_decide (remembers q (clean now c))).
Proof. unfold receive. by case_decide; case_bool_decide. Qed.

(** What was accepted in a run, the last first, on top of [h]. *)
Fixpoint accepted (ds : list (Z * Z)) (bs : list bool) (h : list (Z * Z)) : list (Z * Z) :=
  match ds, bs with
  | d :: ds', b :: bs' => accepted ds' bs' (if b then d :: h else h)
  | _, _ => h
  end.

Lemma receive_all_app ds1 ds2 c :
  receive_all (ds1 ++ ds2) c =
  let '(bs1, c1) := receive_all ds1 c in
  let '(bs2, c2) := receive_all ds2 c1 in
  (bs1 ++ bs2, c2).
Proof.
  revert c. induction ds1 as [|[now q] ds1 IH]; intros c; cbn [app receive_all].
  { by destruct (receive_all ds2 c). }
  destruct (receive now q c) as [b c']. rewrite IH.
  destruct (receive_all ds1 c') as [bs1 c1]. by destruct (receive_all ds2 c1).
Qed.

Lemma mem_inv_receive_all ds : forall now h c bs c',
  mem_inv now h c -> Forall (fun d => now <= fst d) ds -> StronglySorted Z.le (map fst ds) ->
  receive_all ds c = (bs, c') ->
  forall later, now <= later -> Forall (fun d => fst d <= later) ds ->
  mem_inv later (accepted ds bs h) c'.
Proof.
  induction ds as [|[t q] ds IH]; intros now h c bs c' Hi Hge Hs Hr later Hl Hle;
    cbn [receive_all map] in *.
  { simplify_eq. by eapply mem_inv_later. }
  apply Forall_cons in Hge as [Ht Hge], Hle as [Ht' Hle]. apply StronglySorted_inv in Hs as [Hs Hf].
  destruct (receive t q c) as [b c1] eqn:E1. destruct (receive_all ds c1) as [bs1 c2] eqn:E2.
  simplify_eq. cbn [accepted].
  eapply IH; [eapply mem_inv_receive; [by eapply mem_inv_later|exact E1]| |done|exact E2|done..].
  by rewrite Forall_map in Hf.
Qed.

(** The window of the contract, over any run from its deployment: a message
    refused at [now] has an id accepted at most [3 * timeout] ago, and a message
    accepted has an id that was not accepted in the last [timeout] seconds. *)
Theorem contract_window ds now q b bs c' :
  StronglySorted Z.le (map fst (ds ++ [(now, q)])) -> Forall (fun d => 0 <= fst d) (ds ++ [(now, q)]) ->
  receive_all (ds ++ [(now, q)]) deployed = (bs ++ [b], c') ->
  if b then forall t, (t, q) ∈ accepted ds bs [] -> t < now - timeout
  else exists t, (t, q) ∈ accepted ds bs [] /\ now - 3 * timeout <= t.
Proof.
  intros Hs Hge Hr. apply Forall_app in Hge as [Hge Hnow]. apply Forall_cons in Hnow as [Hnow _].
  rewrite map_app in Hs. rewrite receive_all_app in Hr.
  destruct (receive_all ds deployed) as [bs1 c1] eqn:E1. cbn [receive_all] in Hr.
  pose proof (receive_verdict now q c1) as Hv. destruct (receive now q c1) as [b1 c2].
  cbn [fst] in Hv. injection Hr as Hbs _. apply app_inj_tail in Hbs as [-> ->].
  assert (Hle : Forall (fun d => fst d <= now) ds).
  { apply Forall_forall. intros d Hd.
    eapply StronglySorted_app_1_elem_of; [exact Hs|exact (list_elem_of_fmap_2 fst ds d Hd)|constructor]. }
  assert (Hi : mem_inv now (accepted ds bs []) c1).
  { apply StronglySorted_app_1_l in Hs.
    by apply (mem_inv_receive_all ds 0 [] deployed bs c1); [apply mem_inv_start; lia|..]. }
  subst b. case_bool_decide as Hq; cbn [negb].
  - by eapply remembered_recent.
  - intros t Ht. apply Z.nle_gt. intros Hrec. apply Hq. eapply recent_remembered; [done..|].
    lia.
Qed.
End Contract.

(** ** The ids the wrapper hands out *)

(** A message: the time (in microseconds) at which its id was written to the
    table, and the id. *)
Notation message := (Z * Z)%type.

(** The messages of the wallet named [a], in the order of the calls. *)
Definition handed_out (a : string)
    (out : list (wrapper_call * res HighLoadQueryIdWrapperError HighLoadQueryId.t))
    : list message :=
  omap (fun '(c, r) =>
    if decide (c_address c = a) then (fun q => (c_put c, HighLoadQueryId.query_id q)) <$> res_ok r
    else None) out.

Lemma handed_out_ids a out : map snd (handed_out a out) = ids_of a out.
Proof.
  induction out as [|[c r] out IH]; [done|]. unfold handed_out, ids_of in *. cbn [omap list_omap].
  case_decide; [|exact IH]. destruct r as [q|e|]; cbn [res_ok fmap option_fmap option_map map];
    [|exact IH..]. by rewrite IH.
Qed.

(** The last id handed out, alive or not; zero at the start. *)
Definition last_id (tbl : query_table) (a : string) : Z :=
  from_option (fun row => HighLoadQueryId.query_id (row_id row)) 0 (tbl !! a).

Lemma run_call_last c tbl r tbl' :
  table_valid tbl -> run_call c tbl = (r, tbl') ->
  match r with
  | Ok q => last_id tbl' (c_address c) = HighLoadQueryId.query_id q /\
      (HighLoadQueryId.query_id q = 0 \/ last_id tbl (c_address c) < HighLoadQueryId.query_id q)
  | _ => tbl' = tbl
  end.
Proof.
  intros Hv. unfold run_call. rewrite wrapper_next_cases by done.
  pose proof (counter_nonneg (c_get c) tbl (c_address c) Hv) as Hnn.
  destruct (c_fault c GetQueryId); [by intros [= <- <-]|].
  destruct (counter_next _ _) as [n|e|] eqn:En; [|by intros [= <- <-]..].
  destruct (c_fault c (if decide _ then _ else _)); intros [= <- <-]; [done|].
  apply counter_next_ok in En as [Hn Hlt]; [|done].
  pose proof (HighLoadQueryId.of_rank_valid n Hn) as Hq. unfold last_id, counter_put. split.
  { rewrite lookup_insert_eq. cbn [from_option]. unfold row_id. cbn [row_shift row_bitnumber].
    by destruct (HighLoadQueryId.of_rank n). }
  unfold counter in Hlt. destruct (tbl !! c_address c) as [row|] eqn:Erow.
  2:{ left. by apply query_id_zero. }
  cbn [from_option]. case_decide; [|left; by apply query_id_zero].
  right. apply HighLoadQueryId.rank_lt; [exact (Hv _ _ Erow)|done|].
  by rewrite HighLoadQueryId.rank_of_rank.
Qed.

(** Each id handed out for a wallet is zero or greater than the one before. *)
Definition next_or_restart (x y : Z) : Prop := y = 0 \/ x < y.

Lemma ids_next_or_restart a calls tbl out tbl' :
  table_valid tbl -> run_calls calls tbl = (out, tbl') ->
  Sorted next_or_restart (last_id tbl a :: ids_of a out).
Proof.
  revert tbl out. induction calls as [|c calls IH]; intros tbl out Hv H; cbn [run_calls] in H.
  { simplify_eq. repeat constructor. }
  destruct (run_call c tbl) as [r tbl1] eqn:Er.
  destruct (run_calls calls tbl1) as [out1 tbl2] eqn:E. simplify_eq.
  destruct (run_call_frame _ _ _ _ Hv Er) as [Hv1 Hframe].
  pose proof (run_call_last _ _ _ _ Hv Er) as Hl. specialize (IH _ _ Hv1 E).
  unfold ids_of. cbn [omap list_omap]. fold (ids_of a out1). case_decide as Ha.
  - subst a. destruct r as [q|e|]; cbn [res_ok fmap option_fmap option_map]; [|by subst tbl1..].
    destruct Hl as [Hl1 Hl2]. rewrite Hl1 in IH. constructor; [done|]. by constructor.
  - unfold last_id in *. by rewrite <- Hframe.
Qed.

(** ** Exactly once *)

Section ExactlyOnce.
Context (timeout delay : Z) (cleaning_survives : bool).

(** A message reaches the contract, any number of times, between the second
    in which its id was written and [delay] seconds later. *)
Definition on_time (d : Z * message) : Prop :=
  let '(now, (put, _)) := d in put / SECOND <= now <= put / SECOND + delay.

(** All deliveries of [m1] are over, for longer than the contract remembers,
    when [m2] is sent. *)
Definition long_before (m1 m2 : message) : Prop :=
  fst m1 / SECOND + delay + 3 * timeout < fst m2 / SECOND.

(** The ids start from zero only long after all that was sent before. *)
Definition restarts_late (ms : list message) : Prop :=
  StronglySorted (fun m1 m2 => snd m2 = 0 -> long_before m1 m2) ms.

(** Two messages with the same id are far apart. *)
Definition far_apart (ms : list message) : Prop :=
  StronglySorted (fun m1 m2 => snd m1 = snd m2 -> long_before m1 m2) ms.

(** The verdicts promised: a message is executed when it comes first. *)
Fixpoint first_only (seen : list message) (ds : list (Z * message)) : list bool :=
  match ds with
  | [] => []
  | (_, m) :: ds' => bool_decide (m ∉ seen) :: first_only (m :: seen) ds'
  end.

(** What the contract sees of a delivery. *)
Definition arrival (d : Z * message) : Z * Z := (fst d, snd (snd d)).

Lemma long_before_mono m m1 m2 :
  fst m1 <= fst m2 -> long_before m m1 -> long_before m m2.
Proof.
  unfold long_before. intros Hle H.
  pose proof (Z.div_le_mono (fst m1) (fst m2) SECOND ltac:(done) Hle). lia.
Qed.

Lemma after_far x z ms :
  Sorted next_or_restart (snd z :: map snd ms) -> StronglySorted Z.le (fst z :: map fst ms) ->
  Forall (fun y => snd y = 0 -> long_before x y) ms ->
  snd x <= snd z \/ long_before x z ->
  Forall (fun y => snd x = snd y -> long_before x y) ms.
Proof.
  revert z. induction ms as [|y ms IH]; intros z Hn Ht Hz Hx; [constructor|]. cbn [map] in *.
  apply Sorted_inv in Hn as [Hn Hzy%HdRel_inv]. apply StronglySorted_inv in Ht as [Ht Hle].
  apply Forall_cons in Hz as [Hy Hz], Hle as [Hle _].
  assert (Hxy : snd x < snd y \/ long_before x y).
  { destruct Hzy as [H0|Hlt]; [right; by apply Hy|].
    destruct Hx as [Hx|Hx]; [left; lia|right; by eapply long_before_mono]. }
  constructor; [by intros; destruct Hxy; [lia|]|].
  apply (IH y); [done..|]. destruct Hxy; [left; lia|by right].
Qed.

Lemma restarts_far ms :
  Sorted next_or_restart (map snd ms) -> StronglySorted Z.le (map fst ms) ->
  restarts_late ms -> far_apart ms.
Proof.
  induction ms as [|x ms IH]; intros Hn Ht Hr; [constructor|].
  apply StronglySorted_inv in Hr as [Hr Hx]. constructor.
  - apply Sorted_inv in Hn as [Hn _]. apply StronglySorted_inv in Ht as [Ht _]. by apply IH.
  - apply (after_far x x); [done..|by left].
Qed.

Lemma far_apart_or ms m1 m2 :
  far_apart ms -> m1 ∈ ms -> m2 ∈ ms -> snd m1 = snd m2 -> m1 <> m2 ->
  long_before m1 m2 \/ long_before m2 m1.
Proof.
  induction 1 as [|x ms _ IH Hx]; intros H1 H2 Heq Hne; [by apply elem_of_nil in H1|].
  rewrite Forall_forall in Hx. apply elem_of_cons in H1 as [->|H1], H2 as [->|H2].
  - done.
  - left. by apply Hx.
  - right. by apply Hx.
  - by apply IH.
Qed.

Hypothesis delay_range : 0 <= delay <= timeout.

(** What the contract accepted and what was delivered, side by side. *)
Record same_messages (h : list (Z * Z)) (seen : list message) : Prop := {
  sm_accepted t q : (t, q) ∈ h -> exists p, (p, q) ∈ seen /\ on_time (t, (p, q));
  sm_seen p q : (p, q) ∈ seen -> exists t, (t, q) ∈ h /\ on_time (t, (p, q));
}.

Lemma first_received ms now h c seen p q :
  far_apart ms -> mem_inv timeout now h c -> same_messages h seen ->
  seen ⊆ ms -> (p, q) ∈ ms -> on_time (now, (p, q)) ->
  remembers q (clean timeout now c) <-> (p, q) ∈ seen.
Proof.
  intros Hfar Hi [Hacc Hseen] Hsub Hm Hnow. cbn in Hnow. split.
  - intros Hr. destruct (remembered_recent timeout ltac:(lia) _ _ _ _ Hi Hr) as (t & Ht & Hrec).
    destruct (Hacc t q Ht) as (p' & Hp' & Hw). cbn in Hw.
    destruct (decide ((p', q) = (p, q))) as [<-|Hne]; [done|]. exfalso.
    pose proof (mi_past _ _ _ _ Hi) as Hpast. rewrite Forall_forall in Hpast.
    pose proof (Hpast _ Ht) as Hle. cbn in Hle.
    destruct (far_apart_or _ _ _ Hfar (Hsub _ Hp') Hm eq_refl Hne) as [H|H];
      unfold long_before in H; cbn in H; lia.
  - intros Hs. destruct (Hseen p q Hs) as (t & Ht & Hw). cbn in Hw.
    apply (recent_remembered timeout ltac:(lia) now h c q t); [done|done|lia].
Qed.

Lemma receive_first_only ms ds : forall now h c seen,
  far_apart ms -> mem_inv timeout now h c -> same_messages h seen -> seen ⊆ ms ->
  Forall (fun d => now <= fst d) ds -> StronglySorted Z.le (map fst ds) ->
  Forall (fun d => snd d ∈ ms /\ on_time d) ds ->
  fst (receive_all timeout cleaning_survives (map arrival ds) c) = first_only seen ds.
Proof.
  induction ds as [|[t [p q]] ds IH]; intros now h c seen Hfar Hi Hsm Hsub Hge Hs Hms; [done|].
  apply Forall_cons in Hge as [Ht _], Hms as [[Hm Hot] Hms].
  cbn [map fst snd] in *. apply StronglySorted_inv in Hs as [Hs Hge]. rewrite Forall_map in Hge.
  apply (mem_inv_later _ _ t) in Hi; [|done].
  pose proof (first_received _ _ _ _ _ _ _ Hfar Hi Hsm Hsub Hm Hot) as Hiff.
  cbn [map arrival receive_all first_only fst snd].
  pose proof (receive_verdict timeout cleaning_survives t q c) as Hv.
  destruct (receive _ _ t q c) as [b c1] eqn:E1. cbn [fst] in Hv.
  pose proof (mem_inv_receive timeout cleaning_survives ltac:(lia) _ _ _ _ _ _ Hi E1) as Hi1.
  assert (Hb : b = bool_decide ((p, q) ∉ seen)).
  { rewrite Hv, <- bool_decide_not. by apply bool_decide_ext, not_iff_compat. }
  assert (Hsm1 : same_messages (if b then (t, q) :: h else h) ((p, q) :: seen)).
  { destruct Hsm as [Hacc Hseen]. clear Hv Hiff. split.
    - intros t' q' Ht'.
      assert (Hor : (t', q') = (t, q) \/ (t', q') ∈ h) by (destruct b; [by apply elem_of_cons|by right]).
      destruct Hor as [[= -> ->]|Hh]; [exists p; split; [by left|done]|].
      destruct (Hacc t' q' Hh) as (p' & Hp' & Hw). exists p'. split; [by right|done].
    - intros p' q' [Heq|Hp']%elem_of_cons.
      + destruct b; [simplify_eq; exists t; split; [by left|done]|].
        symmetry in Hb. apply bool_decide_eq_false in Hb. apply dec_stable in Hb.
        simplify_eq. by apply Hseen.
      + destruct (Hseen p' q' Hp') as (t' & Ht' & Hw). exists t'. split; [|done].
        destruct b; [by right|done]. }
  specialize (IH t _ c1 _ Hfar Hi1 Hsm1). 
  destruct (receive_all _ _ (map arrival ds) c1) as [bs c2]. cbn [fst] in *. f_equal; [done|].
  apply IH; [|done..]. intros m [->|Hin]%elem_of_cons; [done|by apply Hsub].
Qed.
End ExactlyOnce.

(** Exactly once: over any sequence of calls of the wrapper with any queries
    failing, and any deliveries of the messages sent under the ids it handed
    out for a wallet, repeated and reordered at will within the [delay] that
    the contract allows, the contract executes each message when it is first
    delivered and refuses it every other time, if the ids restart only long
    after the last message. *)
Theorem executed_once timeout delay survives a calls tbl out tbl' ds :
  table_valid tbl -> run_calls calls tbl = (out, tbl') ->
  StronglySorted Z.le (map fst (handed_out a out)) ->
  restarts_late timeout delay (handed_out a out) ->
  0 <= delay <= timeout ->
  StronglySorted Z.le (map fst ds) -> Forall (fun d => 0 <= fst d) ds ->
  Forall (fun d => snd d ∈ handed_out a out /\ on_time delay d) ds ->
  fst (receive_all timeout survives (map arrival ds) deployed) = first_only [] ds.
Proof.
  intros Hv Hrun Ht Hr Hd Hs Hge Hms.
  pose proof (ids_next_or_restart a _ _ _ _ Hv Hrun) as Hn. apply Sorted_inv in Hn as [Hn _].
  rewrite <- handed_out_ids in Hn.
  apply (receive_first_only timeout delay survives Hd (handed_out a out) ds 0 [] deployed []);
    [by apply restarts_far|apply mem_inv_start; lia| |set_solver|done..].
  split; [intros t q H0|intros p q H0]; by apply elem_of_nil in H0.
Qed.

(** ** The restart of the wrapper *)

(** A call for the wallet ["wallet1"] at the second [t]. *)
Definition call_at (timeout t : Z) : wrapper_call := {|
  c_fault := no_fault; c_get := t * SECOND; c_put := t * SECOND; c_address := "wallet1";
  c_timeout := timeout; c_force := false |}.

Lemma call_at_run timeout t tbl n :
  table_valid tbl -> counter_next (counter (t * SECOND) tbl "wallet1") false = Ok n ->
  run_call (call_at timeout t) tbl =
    (Ok (HighLoadQueryId.of_rank n), counter_put (t * SECOND) timeout "wallet1" n tbl).
Proof.
  intros Hv Hn. unfold run_call. rewrite wrapper_next_cases by done. cbn [call_at c_fault c_get no_fault c_address c_force c_put c_timeout].
  by rewrite Hn.
Qed.

Lemma counter_put_counter now t_put timeout a n tbl :
  0 <= timeout < 2 ^ 29 -> 0 <= n ->
  counter now (counter_put t_put timeout a n tbl) a =
  if decide (now <= (if decide (n = 0) then t_put + 3 * timeout * SECOND
                     else from_option expires_at 0 (tbl !! a))) then Some n else None.
Proof.
  intros Ht Hn. unfold counter, counter_put. cbv zeta beta. rewrite lookup_insert_eq.
  cbn [expires_at]. rewrite (wrap_s_id 32 timeout), wrap_s_id by (done || unfold in_s; lia).
  replace (HighLoadQueryId.rank (row_id _)) with n.
  2:{ unfold row_id. cbn [row_shift row_bitnumber].
      destruct (HighLoadQueryId.of_rank n) as [s b] eqn:E. cbn [HighLoadQueryId.shift HighLoadQueryId.bitnumber].
      by rewrite <- E, HighLoadQueryId.rank_of_rank. }
  destruct (decide (n = 0)); repeat case_decide; done || lia.
Qed.

(** The calls that make the ids restart right after a message. *)
Definition restart_calls (timeout : Z) : list wrapper_call :=
  [call_at timeout 0; call_at timeout (3 * timeout); call_at timeout (3 * timeout + 1);
   call_at timeout (3 * timeout + 2)].

Lemma restart_calls_run timeout :
  2 <= timeout < 2 ^ 29 ->
  handed_out "wallet1" (fst (run_calls (restart_calls timeout) ∅)) =
    [(0, 0); (3 * timeout * SECOND, 1); ((3 * timeout + 1) * SECOND, 0);
     ((3 * timeout + 2) * SECOND, 1)].
Proof.
  intros Ht. unfold restart_calls. cbn [run_calls]. unfold SECOND.
  assert (H0 : table_valid ∅) by apply map_Forall_empty.
  rewrite (call_at_run timeout 0 ∅ 0 H0) by done.
  set (tbl1 := counter_put _ _ _ 0 ∅).
  assert (H1 : table_valid tbl1) by (by apply counter_put_valid).
  rewrite (call_at_run timeout (3 * timeout) tbl1 1 H1).
  2:{ unfold tbl1. rewrite counter_put_counter by lia. rewrite decide_True; [done|].
      rewrite decide_True by done. unfold SECOND. lia. }
  set (tbl2 := counter_put _ _ _ 1 tbl1).
  assert (H2 : table_valid tbl2) by (by apply counter_put_valid).
  assert (Hexp : from_option expires_at 0 (tbl1 !! "wallet1") = 3 * timeout * SECOND).
  { unfold tbl1, counter_put. cbv zeta beta. rewrite lookup_insert_eq. cbn [from_option expires_at].
    rewrite decide_True, (wrap_s_id 32 timeout), wrap_s_id by (done || unfold in_s; lia). lia. }
  rewrite (call_at_run timeout (3 * timeout + 1) tbl2 0 H2).
  2:{ unfold tbl2. rewrite counter_put_counter by lia. rewrite decide_False; [done|].
      rewrite decide_False, Hexp by done. unfold SECOND. lia. }
  set (tbl3 := counter_put _ _ _ 0 tbl2).
  assert (H3 : table_valid tbl3) by (by apply counter_put_valid).
  rewrite (call_at_run timeout (3 * timeout + 2) tbl3 1 H3).
  2:{ unfold tbl3. rewrite counter_put_counter by lia. rewrite decide_True; [done|].
      rewrite decide_True by done. unfold SECOND. lia. }
  done.
Qed.

(** C38. The wrapper's expiry, [3 * timeout] after the ids started from zero, is not
    late enough: for any timeout from two seconds to [2 ^ 29], an id used in the last moment is handed out
    again two seconds later, and the contract, which executed the three messages
    before, refuses this one, new as it is. *)
Theorem restart_refused timeout survives :
  2 <= timeout < 2 ^ 29 ->
  let ms := handed_out "wallet1" (fst (run_calls (restart_calls timeout) ∅)) in
  let ds := map (fun m => (fst m / SECOND, m)) ms in
  Forall (on_time 0) ds /\ NoDup ms /\
  fst (receive_all timeout survives (map arrival ds) deployed) = [true; true; true; false].
Proof.
  intros Ht. cbv zeta. rewrite restart_calls_run by done. cbn [map fst].
  rewrite !Z.div_mul by done. split_and!.
  - rewrite !Forall_cons, Forall_nil. unfold on_time. rewrite !Z.div_mul by done.
    change (0 / SECOND) with 0. lia.
  - apply (NoDup_fmap_1 fst). unfold SECOND. cbn [fmap list_fmap fst].
    rewrite !NoDup_cons, !elem_of_cons, !elem_of_nil. split_and!; [lia..|constructor].
  - cbn [arrival fst snd receive_all]. unfold receive.
    rewrite (clean_keeps _ 0 deployed) by (cbn; lia).
    rewrite decide_False by (unfold remembers; cbn; set_solver).
    rewrite (clean_drops timeout ltac:(lia) (3 * timeout)) by (cbn [remember deployed last_clean_time]; lia).
    rewrite decide_False by (unfold remembers; cbn; set_solver).
    rewrite (clean_keeps _ (3 * timeout + 1)) by (cbn [remember last_clean_time]; lia).
    rewrite decide_False by (unfold remembers; cbn [remember queries old_queries]; set_solver by lia).
    rewrite (clean_keeps _ (3 * timeout + 2)) by (cbn [remember last_clean_time]; lia).
    rewrite decide_True by (left; cbn [remember queries]; set_solver).
    done.
Qed.

(** ** The table of the comment *)

(** With a second more than each of its steps, since the test of the cleaning
    is strict: which of the ids [1] and [2] the contract would take, at the time
    [now], after [1] was sent at [1000] and [2] at [1000 + timeout]. *)
Definition can_send (timeout now : Z) : bool * bool :=
  let c := snd (receive_all timeout true [(1000, 1); (1000 + timeout + 1, 2)] deployed) in
  (fst (receive timeout true now 1 c), fst (receive timeout true now 2 c)).

Example replay_table :
  map (fun k => can_send 60 (1000 + k * 61)) [1; 2; 3] = [(false, false); (true, false); (true, true)].
Proof. by vm_compute. Qed.

(** Both bounds of the window are sharp. *)
Example window_sharp :
  fst (receive_all 60 true [(60, 7); (121, 7)] deployed) = [true; true] /\
  fst (receive_all 60 true [(0, 7); (120, 8); (180, 7)] deployed) = [true; true; false].
Proof. by vm_compute. Qed.

(** ** Applications at concrete inputs *)

Lemma contract_window_witness : exists t, (t, 7) ∈ [(120, 8); (0, 7)] /\ 180 - 3 * 60 <= t.
Proof.
  exact (contract_window 60 true ltac:(done) [(0, 7); (120, 8)] 180 7 false [true; true]
    (snd (receive_all 60 true [(0, 7); (120, 8); (180, 7)] deployed))
    ltac:(repeat constructor; done) ltac:(repeat constructor; done) ltac:(by vm_compute)).
Defined.

Definition example_calls : list wrapper_call :=
  [call_at 60 0; call_at 60 1; call_at 60 1000].

Definition example_messages : list (Z * Z) := [(0, 0); (1 * SECOND, 1); (1000 * SECOND, 0)].

Lemma example_handed_out : handed_out "wallet1" (fst (run_calls example_calls ∅)) = example_messages.
Proof. by vm_compute. Qed.

Lemma executed_once_witness :
  [true; false; true; true; false] =
  first_only [] [(5, (0, 0)); (6, (0, 0)); (31, (1 * SECOND, 1)); (1000, (1000 * SECOND, 0));
    (1005, (1000 * SECOND, 0))].
Proof.
  rewrite <- (executed_once 60 30 true "wallet1" example_calls ∅ _ _
    [(5, (0, 0)); (6, (0, 0)); (31, (1 * SECOND, 1)); (1000, (1000 * SECOND, 0));
     (1005, (1000 * SECOND, 0))] (map_Forall_empty _) (surjective_pairing _)).
  - by vm_compute.
  - rewrite example_handed_out. by repeat constructor.
  - rewrite example_handed_out. by repeat constructor.
  - done.
  - by repeat constructor.
  - by repeat constructor.
  - rewrite example_handed_out. rewrite !Forall_cons, Forall_nil. unfold example_messages, on_time.
    rewrite !elem_of_cons. split_and!; auto; by vm_compute.
Defined.

Lemma restart_refused_witness :
  fst (receive_all 60 false (map arrival (map (fun m => (fst m / SECOND, m))
    (handed_out "wallet1" (fst (run_calls (restart_calls 60) ∅))))) deployed) =
  [true; true; true; false].
Proof. exact (proj2 (proj2 (restart_refused 60 false ltac:(done)))). Defined.
