(* ===== verification/TraceStore.v ===== *)
(** * The traces table: [models/ton_trace.rs]

    The Postgres table [ton_traces] is a map from the primary key to the row.
    Every query is a state step that takes the time [now] and may fail,
    leaving the table as it was.  The traits [AtomicUpsert] and [Retriable] are
    classes with what they promise to the subscribers; the Postgres model is
    their instance.  Two [JSONB] columns are distinct when the transactions
    differ. *)

From Stdlib Require Import ZArith Lia Strings.Byte Strings.Ascii.
From stdpp Require Import base strings gmap sorting list.
From S2P Require Import Prelude RustStd Foreign Types.

Record EventSummary := {
  es_event_id : string;
  es_message_id : option string;
  es_event_type : string;
}.

Section Model.
Context {TAL : TonAddressLib} {JL : JsonLib}.

Record TONTrace := {
  tt_trace_id : string;
  tt_is_incomplete : bool;
  tt_start_lt : Z; (* i64 *)
  tt_end_lt : Z; (* i64 *)
  tt_retries : Z; (* i32 *)
  tt_transactions : list Transaction;
  tt_events : option (list EventSummary);
  tt_created_at : Z;
  tt_updated_at : option Z;
}.

Definition TONTrace_from (now : Z) (trace : Trace) : TONTrace := {|
  tt_trace_id := trace_id trace;
  tt_is_incomplete := is_incomplete trace;
  tt_start_lt := start_lt trace;
  tt_end_lt := end_lt trace;
  tt_transactions := transactions trace;
  tt_events := None;
  tt_created_at := now;
  tt_updated_at := None;
  tt_retries := 5;
|}.

(** What the upsert writes and compares. *)
Definition content : Type := bool * Z * Z * list Transaction.

Definition content_of (tx : TONTrace) : content :=
  (tt_is_incomplete tx, tt_start_lt tx, tt_end_lt tx, tt_transactions tx).

(** ** The traits *)

Class AtomicUpsert (S : Type) := {
  upsert_and_return_if_changed : Z -> TONTrace -> st S ferr (option TONTrace);
  stored : S -> string -> option content;
}.

(** The contract of [upsert_and_return_if_changed]: it stores the trace,
    touches no other, and returns a row exactly when what was stored is new or
    different. *)
Class AtomicUpsertLaws (S : Type) `{AtomicUpsert S} : Prop := {
  upsert_ok now tx s r s' :
    upsert_and_return_if_changed now tx s = (Ok r, s') ->
    stored s' (tt_trace_id tx) = Some (content_of tx) /\
    (forall i, i <> tt_trace_id tx -> stored s' i = stored s i) /\
    (is_Some r <-> stored s (tt_trace_id tx) <> Some (content_of tx)) /\
    (forall row, r = Some row -> tt_trace_id row = tt_trace_id tx /\ content_of row = content_of tx);
  upsert_err now tx s e s' :
    upsert_and_return_if_changed now tx s = (Err e, s') -> s' = s;
  upsert_no_panic now tx :: StSafe (upsert_and_return_if_changed now tx);
}.

Class Retriable (S : Type) := {
  fetch_retry : Z -> st S ferr (list TONTrace);
  decrease_retry : TONTrace -> st S ferr unit;
}.

(** ** The Postgres model *)

Definition trace_table : Type := gmap string TONTrace.

Inductive trace_op : Set :=
| OpUpsert (id : string)
| OpFetchRetry
| OpDecreaseRetry (id : string)
| OpUpdateEvents (id : string)
| OpFind (id : string)
| OpDelete (id : string).

Section Pg.
(** The failure of a query, if it fails. *)
Context (fault : trace_op -> option ferr).

Definition pg_query {A} (op : trace_op) (q : gmap string TONTrace -> A * gmap string TONTrace)
    : st trace_table ferr A :=
  fun tbl =>
    match fault op with
    | Some e => (Err e, tbl)
    | None => let '(a, tbl') := q tbl in (Ok a, tbl')
    end.

(** [INSERT .. ON CONFLICT (trace_id) DO UPDATE .. WHERE .. RETURNING *]; the
    column [retries] takes the default of the schema. *)
Definition pg_upsert (now : Z) (tx : TONTrace) : st trace_table ferr (option TONTrace) :=
  pg_query (OpUpsert (tt_trace_id tx)) (fun tbl =>
    match tbl !! tt_trace_id tx with
    | None =>
        let row := {|
          tt_trace_id := tt_trace_id tx;
          tt_is_incomplete := tt_is_incomplete tx;
          tt_start_lt := tt_start_lt tx;
          tt_end_lt := tt_end_lt tx;
          tt_retries := 10;
          tt_transactions := tt_transactions tx;
          tt_events := None;
          tt_created_at := now;
          tt_updated_at := None;
        |} in
        (Some row, <[tt_trace_id tx := row]> tbl)
    | Some old =>
        if decide (tt_is_incomplete old <> tt_is_incomplete tx \/
                   tt_start_lt old <> tt_start_lt tx \/
                   tt_end_lt old <> tt_end_lt tx \/
                   tt_transactions old <> tt_transactions tx) then
          let row := {|
            tt_trace_id := tt_trace_id tx;
            tt_is_incomplete := tt_is_incomplete tx;
            tt_start_lt := tt_start_lt tx;
            tt_end_lt := tt_end_lt tx;
            tt_retries := tt_retries old;
            tt_transactions := tt_transactions tx;
            tt_events := tt_events old;
            tt_created_at := tt_created_at old;
            tt_updated_at := Some now;
          |} in
          (Some row, <[tt_trace_id tx := row]> tbl)
        else (None, tbl)
    end).

(** [ORDER BY updated_at NULLS FIRST]. *)
Definition updated_le (a b : TONTrace) : Prop :=
  match tt_updated_at a, tt_updated_at b with
  | None, _ => True
  | Some _, None => False
  | Some x, Some y => x <= y
  end.

#[global] Instance updated_le_dec a b : Decision (updated_le a b).
Proof. unfold updated_le. repeat case_match; apply _. Defined.

(** [WHERE retries > 0 AND is_incomplete = true]. *)
Definition retriable (row : TONTrace) : Prop :=
  tt_retries row > 0 /\ tt_is_incomplete row = true.

#[global] Instance retriable_dec row : Decision (retriable row).
Proof. unfold retriable. apply _. Defined.

Definition pg_fetch_retry (limit : Z) : st trace_table ferr (list TONTrace) :=
  pg_query OpFetchRetry (fun tbl =>
    (take (Z.to_nat limit) (merge_sort updated_le (filter retriable (map snd (map_to_list tbl)))),
     tbl)).

Definition pg_update (id : string) (f : TONTrace -> TONTrace) (tbl : gmap string TONTrace)
    : gmap string TONTrace :=
  alter f id tbl.

(** The column is an [INT]; it starts at ten and goes down by one per failed
    retry, so that its lower bound is not reached and the number is a [Z]. *)
Definition pg_decrease_retry (tx : TONTrace) : st trace_table ferr unit :=
  pg_query (OpDecreaseRetry (tt_trace_id tx)) (fun tbl =>
    (tt, pg_update (tt_trace_id tx) (fun old => {|
      tt_trace_id := tt_trace_id old;
      tt_is_incomplete := tt_is_incomplete old;
      tt_start_lt := tt_start_lt old;
      tt_end_lt := tt_end_lt old;
      tt_retries := tt_retries old - 1;
      tt_transactions := tt_transactions old;
      tt_events := tt_events old;
      tt_created_at := tt_created_at old;
      tt_updated_at := tt_updated_at old;
    |}) tbl)).

Definition update_events (now : Z) (id : string) (events : list EventSummary)
    : st trace_table ferr unit :=
  pg_query (OpUpdateEvents id) (fun tbl =>
    (tt, pg_update id (fun old => {|
      tt_trace_id := tt_trace_id old;
      tt_is_incomplete := tt_is_incomplete old;
      tt_start_lt := tt_start_lt old;
      tt_end_lt := tt_end_lt old;
      tt_retries := tt_retries old;
      tt_transactions := tt_transactions old;
      tt_events := Some events;
      tt_created_at := tt_created_at old;
      tt_updated_at := Some now;
    |}) tbl)).

(** [Model::upsert], [find] and [delete]. *)
Definition model_upsert (now : Z) (tx : TONTrace) : st trace_table ferr unit :=
  do! pg_upsert now tx in st_ret tt.

Definition model_find (id : string) : st trace_table ferr (option TONTrace) :=
  pg_query (OpFind id) (fun tbl => (tbl !! id, tbl)).

Definition model_delete (tx : TONTrace) : st trace_table ferr unit :=
  pg_query (OpDelete (tt_trace_id tx)) (fun tbl => (tt, delete (tt_trace_id tx) tbl)).

#[global] Instance pg_atomic_upsert : AtomicUpsert trace_table := {|
  upsert_and_return_if_changed := pg_upsert;
  stored (tbl : gmap string TONTrace) i := content_of <$> tbl !! i;
|}.

#[global] Instance pg_retriable : Retriable trace_table := {|
  fetch_retry := pg_fetch_retry;
  decrease_retry := pg_decrease_retry;
|}.

(** ** Lemmas *)

Lemma changed_content old tx :
  (tt_is_incomplete old <> tt_is_incomplete tx \/ tt_start_lt old <> tt_start_lt tx \/
   tt_end_lt old <> tt_end_lt tx \/ tt_transactions old <> tt_transactions tx) <->
  content_of old <> content_of tx.
Proof.
  unfold content_of. split.
  - intros H [= ? ? ? ?]. tauto.
  - intros H. destruct (decide (tt_is_incomplete old = tt_is_incomplete tx)); [|tauto].
    destruct (decide (tt_start_lt old = tt_start_lt tx)); [|tauto].
    destruct (decide (tt_end_lt old = tt_end_lt tx)); [|tauto].
    do 3 right. congruence.
Qed.

Lemma pg_query_cases {A} op (q : gmap string TONTrace -> A * gmap string TONTrace) tbl :
  pg_query op q tbl =
    match fault op with
    | Some e => (Err e, tbl)
    | None => (Ok (fst (q tbl)), snd (q tbl))
    end.
Proof. unfold pg_query. destruct (fault op); [done|]. by destruct (q tbl). Qed.

#[global] Instance pg_query_safe {A} op (q : gmap string TONTrace -> A * gmap string TONTrace) :
  StSafe (pg_query op q).
Proof. intros tbl. rewrite pg_query_cases. by destruct (fault op). Qed.

#[global] Instance pg_atomic_upsert_laws : AtomicUpsertLaws trace_table.
Proof.
  split.
  - intros now tx s r s'. cbn [upsert_and_return_if_changed pg_atomic_upsert stored].
    unfold pg_upsert. rewrite pg_query_cases. destruct (fault _); [done|]. intros [= Hr Hs].
    destruct ((s : gmap string TONTrace) !! tt_trace_id tx) as [old|] eqn:E.
    + case_decide as Hd; simpl in Hr, Hs; subst r s'.
      * apply changed_content in Hd. rewrite lookup_insert_eq. split; [done|].
        split; [intros i Hi; by rewrite lookup_insert_ne|].
        split; [|intros row ?; simplify_eq; split; reflexivity].
        split; [intros _; rewrite ?E; intros Heq; by apply (inj Some) in Heq|by eexists].
      * rewrite changed_content in Hd. apply dec_stable in Hd. rewrite E. simpl.
        split; [by rewrite Hd|]. split; [done|]. split; [|done].
        rewrite Hd. split; [by intros [? ?]|done].
    + simpl in Hr, Hs; subst r s'. rewrite lookup_insert_eq. split; [done|].
      split; [intros i Hi; by rewrite lookup_insert_ne|].
      split; [|intros row ?; simplify_eq; split; reflexivity]. split; [done|by eexists].
  - intros now tx s e s'. cbn [upsert_and_return_if_changed pg_atomic_upsert].
    unfold pg_upsert. rewrite pg_query_cases. destruct (fault _); by intros [= _ <-].
  - intros now tx. apply pg_query_safe.
Qed.

(** What [fetch_retry] selects. *)
Lemma pg_fetch_retry_spec limit tbl rows tbl' :
  pg_fetch_retry limit tbl = (Ok rows, tbl') ->
  tbl' = tbl /\ (length rows <= Z.to_nat limit)%nat /\
  forall row, row ∈ rows -> retriable row /\ exists i, (tbl : gmap string TONTrace) !! i = Some row.
Proof.
  unfold pg_fetch_retry. rewrite pg_query_cases. destruct (fault _); [done|].
  intros [= <- <-]. split; [done|]. split; [rewrite length_take; lia|].
  intros row Hrow. apply elem_of_take in Hrow as (k & Hk & _).
  apply list_elem_of_lookup_2 in Hk. rewrite merge_sort_Permutation in Hk.
  apply list_elem_of_filter in Hk as [Hr Hk]. split; [done|].
  apply list_elem_of_fmap in Hk as ([i row'] & -> & Hk).
  exists i. by apply elem_of_map_to_list.
Qed.
(** ** Properties *)

(** Storing the same trace again changes nothing and returns no row. *)
Lemma upsert_twice now1 now2 tx1 tx2 tbl r tbl1 :
  pg_upsert now1 tx1 tbl = (Ok r, tbl1) ->
  tt_trace_id tx2 = tt_trace_id tx1 -> content_of tx2 = content_of tx1 ->
  pg_upsert now2 tx2 tbl1 = (Ok None, tbl1).
Proof.
  intros H Hid Hc.
  pose proof (upsert_ok now1 tx1 tbl r tbl1 H) as (H1 & _).
  cbn [stored pg_atomic_upsert] in H1. unfold pg_upsert in H |- *.
  rewrite pg_query_cases in H. rewrite pg_query_cases, Hid.
  destruct (fault _) as [e|]; [done|]. clear H.
  destruct ((tbl1 : gmap string TONTrace) !! tt_trace_id tx1) as [row|] eqn:E; [|done].
  simpl in H1. injection H1 as H1. rewrite decide_False; [done|].
  rewrite changed_content. rewrite Hc. intros Hn. apply Hn. unfold content_of. congruence.
Qed.

(** A trace met for the first time is stored with the ten retries of the
    schema's default and not with the five of [TONTrace::from]; a trace met
    again keeps its retries and its events. *)
Theorem upsert_retries now trace tbl r tbl1 :
  pg_upsert now (TONTrace_from now trace) tbl = (Ok r, tbl1) ->
  exists row, (tbl1 : gmap string TONTrace) !! trace_id trace = Some row /\
    match (tbl : gmap string TONTrace) !! trace_id trace with
    | Some old => tt_retries row = tt_retries old /\ tt_events row = tt_events old
    | None => tt_retries row = 10 /\ tt_retries (TONTrace_from now trace) = 5 /\
              tt_events row = None
    end.
Proof.
  unfold pg_upsert. rewrite pg_query_cases. destruct (fault _) as [e|]; [done|].
  cbn [tt_trace_id TONTrace_from]. intros [= _ <-].
  destruct ((tbl : gmap string TONTrace) !! trace_id trace) as [old|] eqn:E.
  - case_decide; cbn [snd]; [rewrite lookup_insert_eq|]; eauto.
  - cbn [snd]. rewrite lookup_insert_eq. eauto.
Qed.
End Pg.
End Model.

(** ** Applications at concrete inputs *)

From S2P Require Import Instances.

Definition pg_no_fault (op : trace_op) : option ferr := None.

Definition example_trace (id : string) (incomplete : bool) (s e : Z) : Trace := {|
  is_incomplete := incomplete; start_lt := s; end_lt := e; trace_id := id; transactions := [] |}.

Lemma upsert_retries_witness :
  exists row, (snd (pg_upsert pg_no_fault 5 (TONTrace_from 5 (example_trace "t" false 1 2)) ∅)
      : gmap string TONTrace) !! "t" = Some row /\
    tt_retries row = 10 /\
    tt_retries (TONTrace_from 5 (example_trace "t" false 1 2)) = 5 /\ tt_events row = None.
Proof.
  exact (upsert_retries pg_no_fault 5 (example_trace "t" false 1 2) ∅ _ _ (surjective_pairing _)).
Defined.
