(* ===== verification/Client.v ===== *)
(** * The toncenter client: [client.rs]

    The HTTP transport ([reqwest] with its retry middleware) and [serde_json]
    are third-party: the transport is a class over the state [N] of the
    network, the JSON readers are functions from text.  The trait [RestClient]
    is a class; [TONRpcClient] is its instance. *)

From Stdlib Require Import ZArith Lia Strings.Byte Strings.Ascii.
From stdpp Require Import base strings gmap list.
From S2P Require Import Prelude RustStd Foreign Types.

(** [relayer_core::error::ClientError], the constructors used here. *)
Inductive ClientError : Set :=
| BadRequest (s : string)
| BadResponse (s : string)
| ConnectionFailed (s : string).

Record V3MessageResponse := {
  message_hash : string;
  message_hash_norm : string;
}.

Record V3ErrorResponse := {
  v3_code : Z; (* i32 *)
  v3_error : string;
}.

(** A response: the status code, and the body as text and as bytes. *)
Record Response := {
  r_status : Z;
  r_text : fres string;
  r_bytes : fres (list byte);
}.

Section Client.
Context {TAL : TonAddressLib} {JL : JsonLib}.

Class HttpLib (N : Type) := {
  (* url, X-API-Key, the [boc] of the JSON body *)
  http_post : string -> string -> string -> N -> fres Response * N;
  (* url, X-API-Key, query parameters *)
  http_get : string -> string -> list (string * string) -> N -> fres Response * N;
  StatusCode_to_string : Z -> string;
  json_V3MessageResponse : string -> fres V3MessageResponse;
  json_V3ErrorResponse : string -> fres V3ErrorResponse;
  json_TracesResponseRest : string -> fres (list TraceRest);
  json_AccountStatesResponse : string -> fres (list AccountState);
}.

(** ** The trait *)

Class RestClient (N : Type) := {
  post_v3_message : string -> st N ClientError V3MessageResponse;
  get_traces_for_account :
    option TonAddress -> option (list string) -> option Z -> st N ClientError (list Trace);
  get_account_states : list TonAddress -> st N ClientError (list AccountState);
}.

(** ** [clean_json_string_full] *)

Definition NEWLINE : list byte := [byte_of 10].
Definition TAB : list byte := [byte_of 9].

(** The escaped null, six characters. *)
Definition escaped_null : string := "\u0000".

Definition clean_keeps (c : list byte) : bool :=
  negb (char_is_control c) || bool_decide (c = NEWLINE) || bool_decide (c = TAB).

(** [String::chars] of valid UTF-8. *)
Definition chars (l : list byte) : list (list byte) := map snd (utf8_chars l).

Definition clean_json_string_full (input : list byte) : string :=
  let json_str := string_of_bytes (from_utf8_lossy input) in
  let replaced := str_replace escaped_null "" json_str in
  string_of_bytes (concat (filter (fun c => Is_true (clean_keeps c)) (chars (as_bytes replaced)))).

(** ** [TONRpcClient] *)

Record TONRpcClient := {
  client_url : string;
  client_api_key : string;
}.

(** [TONRpcClient::new]; [build] is the builder of the HTTP transport, with the
    retries and the two timeouts in seconds. *)
Definition TONRpcClient_new (build : Z -> Z -> Z -> fres unit) (url api_key : string)
    (max_retries connect_timeout timeout : Z) : res ClientError TONRpcClient :=
  let? _ := map_err (fun e => ConnectionFailed (fe_display e))
    (fr (build max_retries connect_timeout timeout)) in
  Ok {| client_url := url; client_api_key := api_key |}.

Section TONRpcClient.
Context {N : Type} {HL : HttpLib N}.
Context (url api_key : string).

Definition is_success (status : Z) : bool := (200 <=? status) && (status <? 300).

Definition handle_non_success_response (status : Z) (text : string) : ClientError :=
  if status =? 400 then
    match json_V3ErrorResponse text with
    | inr err_body => BadRequest (v3_error err_body)
    | inl err => BadResponse ("Invalid 400 body: " +:+ fe_display err)
    end
  else BadResponse ("Unexpected status " +:+ StatusCode_to_string status +:+ ": " +:+ text).

(** [.send().await.map_err(|err| ConnectionFailed(err.to_string()))]. *)
Definition send (m : N -> fres Response * N) : st N ClientError Response :=
  fun n => let '(r, n') := m n in
    (map_err (fun err => ConnectionFailed (fe_display err)) (fr r), n').

(** [.text().await] and [.bytes().await]. *)
Definition body_of {A} (b : fres A) : res ClientError A :=
  map_err (fun err => BadResponse (fe_display err)) (fr b).

Definition endpoint (path : string) : string := trim_end_matches "/" url +:+ path.

Definition rpc_post_v3_message (boc : string) : st N ClientError V3MessageResponse :=
  let! response := send (http_post (endpoint "/api/v3/message") api_key boc) in
  let status := r_status response in
  let! text := st_lift (body_of (r_text response)) in
  if is_success status then
    st_lift (map_err (fun err =>
        BadResponse ("Failed to parse success response: " +:+ fe_display err))
      (fr (json_V3MessageResponse text)))
  else st_err (handle_non_success_response status text).

Definition traces_query (account : option TonAddress) (trace_ids : option (list string))
    (start_lt : option Z) : list (string * string) :=
  [("limit", "100")] ++
  (match account with Some a => [("account", TonAddress_to_string a)] | None => [] end) ++
  (match trace_ids with Some ids => map (fun t => ("trace_id", t)) ids | None => [] end) ++
  (match start_lt with
   | Some lt_min_val => [("start_lt", z_to_string (wrap_s 64 (lt_min_val + 1)))]
   | None => []
   end).

Definition rpc_get_traces_for_account (account : option TonAddress)
    (trace_ids : option (list string)) (start_lt : option Z) : st N ClientError (list Trace) :=
  let! response :=
    send (http_get (endpoint "/api/v3/traces") api_key (traces_query account trace_ids start_lt)) in
  let status := r_status response in
  let! raw_bytes := st_lift (body_of (r_bytes response)) in
  let clean_text := clean_json_string_full raw_bytes in
  if is_success status then
    st_lift (map_err (fun err => BadResponse ("Failed to parse traces list: " +:+ fe_display err))
      (res_map traces_from_rest (fr (json_TracesResponseRest clean_text))))
  else st_err (handle_non_success_response status clean_text).

Definition rpc_get_account_states (addresses : list TonAddress)
    : st N ClientError (list AccountState) :=
  let query_params :=
    ("include_boc", "false") :: map (fun a => ("address", TonAddress_to_string a)) addresses in
  let! response := send (http_get (endpoint "/api/v3/accountStates") api_key query_params) in
  let status := r_status response in
  let! text := st_lift (body_of (r_text response)) in
  if is_success status then
    st_lift (map_err (fun err => BadResponse ("Failed to parse account states: " +:+ fe_display err))
      (fr (json_AccountStatesResponse text)))
  else st_err (handle_non_success_response status text).

#[global] Instance rpc_client : RestClient N := {|
  post_v3_message := rpc_post_v3_message;
  get_traces_for_account := rpc_get_traces_for_account;
  get_account_states := rpc_get_account_states;
|}.

(** ** What the three requests answer *)

(** The verdict on a reply: the outcome is [Ok] only on a success status,
    [BadRequest] exactly with the error of a well-formed 400 body, and
    [ConnectionFailed] exactly when the transport failed. *)
Definition verdict {A} (reply : fres Response) (text_of : Response -> fres string)
    (r : res ClientError A) : Prop :=
  r <> Panic /\
  (forall a, r = Ok a -> exists response text,
     reply = inr response /\ text_of response = inr text /\ 200 <= r_status response < 300) /\
  (forall s, r = Err (BadRequest s) <-> exists response text b,
     reply = inr response /\ text_of response = inr text /\ r_status response = 400 /\
     json_V3ErrorResponse text = inr b /\ s = v3_error b) /\
  (forall s, r = Err (ConnectionFailed s) <-> exists e, reply = inl e /\ s = fe_display e).

(** Decides each claim of a verdict by what is known of the reply. *)
Ltac rule_out :=
  try discriminate; intros; try split; intros;
  repeat match goal with
  | H : exists _, _ |- _ => destruct H
  | H : _ /\ _ |- _ => destruct H
  end; simplify_eq; try lia; try congruence; eauto 10.

Lemma verdict_of {A} (request : N -> fres Response * N) (text_of : Response -> fres string)
    (parse : string -> fres A) (what : string) n :
  verdict (fst (request n)) text_of
    (fst ((let! response := send request in
           let! text := st_lift (body_of (text_of response)) in
           if is_success (r_status response) then
             st_lift (map_err (fun err => BadResponse (what +:+ fe_display err)) (fr (parse text)))
           else st_err (handle_non_success_response (r_status response) text)) n)).
Proof.
  rewrite st_bind_run. unfold send. destruct (request n) as [reply n']. cbn [fst].
  destruct reply as [e|response]; cbn [fr map_err fst]; [split_and!; rule_out|].
  rewrite st_bind_run. unfold st_lift, body_of.
  destruct (text_of response) as [e|text] eqn:Et; cbn [fr map_err fst]; [split_and!; rule_out|].
  unfold is_success, st_err, handle_non_success_response. destruct (_ && _) eqn:Es.
  { apply andb_true_iff in Es as [H1%Z.leb_le H2%Z.ltb_lt].
    destruct (parse text) as [e|a]; cbn [fr map_err fst]; split_and!; rule_out. }
  destruct (r_status response =? 400) eqn:E4; cbn [fst].
  - apply Z.eqb_eq in E4. destruct (json_V3ErrorResponse text) as [e|b] eqn:Ej; split_and!; rule_out.
  - apply Z.eqb_neq in E4. split_and!; rule_out.
Qed.

(** The text of a response with traces, cleaned. *)
Definition clean_text (response : Response) : fres string :=
  match r_bytes response with inl e => inl e | inr b => inr (clean_json_string_full b) end.

Lemma verdict_traces account ids lt n :
  verdict (fst (http_get (endpoint "/api/v3/traces") api_key (traces_query account ids lt) n))
    clean_text (fst (rpc_get_traces_for_account account ids lt n)).
Proof.
  pose proof (verdict_of (http_get (endpoint "/api/v3/traces") api_key (traces_query account ids lt))
    clean_text (fun text => match json_TracesResponseRest text with
                            | inl e => inl e | inr l => inr (traces_from_rest l) end)
    "Failed to parse traces list: " n) as Hv.
  unfold rpc_get_traces_for_account, clean_text, st_bind, send, st_lift, body_of in *.
  destruct (http_get _ _ _ n) as [[e|response] n']; [exact Hv|]. cbn [fr map_err fst] in *.
  destruct (r_bytes response) as [e|b]; [exact Hv|]. cbn [fr map_err fst] in *.
  destruct (is_success _); [|exact Hv]. by destruct (json_TracesResponseRest _).
Qed.

(** C36. The errors of the client: each of the three requests ends without a
    panic; it succeeds only on a status from 200 to 299, fails with
    [BadRequest] exactly with the message of a well-formed 400 answer, and with
    [ConnectionFailed] exactly when the request did not go through. *)
Theorem rpc_verdicts n :
  (forall boc, verdict (fst (http_post (endpoint "/api/v3/message") api_key boc n)) r_text
     (fst (rpc_post_v3_message boc n))) /\
  (forall account ids lt, verdict
     (fst (http_get (endpoint "/api/v3/traces") api_key (traces_query account ids lt) n))
     clean_text
     (fst (rpc_get_traces_for_account account ids lt n))) /\
  (forall addresses, verdict
     (fst (http_get (endpoint "/api/v3/accountStates") api_key
        (("include_boc", "false") :: map (fun a => ("address", TonAddress_to_string a)) addresses) n)) r_text
     (fst (rpc_get_account_states addresses n))).
Proof.
  split_and!; intros.
  - apply (verdict_of (http_post _ _ _) r_text json_V3MessageResponse).
  - apply verdict_traces.
  - apply (verdict_of (http_get _ _ _) r_text json_AccountStatesResponse).
Qed.
End TONRpcClient.
End Client.

(** ** UTF-8: characters are self-delimiting *)

(** A complete, valid character. *)
Definition good_char (c : list byte) : Prop :=
  match c with
  | b :: l => utf8_first b l = (true, length c)
  | [] => False
  end.

Lemma cont_run_le k l : (cont_run k l <= k)%nat /\ (cont_run k l <= length l)%nat.
Proof.
  revert l; induction k as [|k IH]; intros [|b l]; simpl; try lia.
  destruct (in_range _ _ _); [|lia]. specialize (IH l). lia.
Qed.

Lemma cont_run_take k l : cont_run k (take (cont_run k l) l) = cont_run k l.
Proof.
  revert l; induction k as [|k IH]; intros [|b l]; simpl; try done.
  destruct (in_range _ _ _) eqn:E; [|done]. simpl. by rewrite E, IH.
Qed.

Lemma cont_run_app k l rest : cont_run k l = k -> cont_run k (l ++ rest) = k.
Proof.
  revert l; induction k as [|k IH]; intros [|b l]; simpl; try done.
  destruct (in_range _ _ _); [|done]. intros [= H]. by rewrite IH.
Qed.

Lemma utf8_first_take b l n :
  utf8_first b l = (true, n) -> good_char (take n (b :: l)) /\ (0 < n)%nat.
Proof.
  unfold utf8_first, good_char. intros H.
  destruct (byte_val b <? 0x80) eqn:E1.
  { injection H as <-. cbn [take]. unfold utf8_first. rewrite E1. split; [done|lia]. }
  destruct (utf8_lead (byte_val b)) as [[[lo hi] k]|] eqn:E2; [|done].
  destruct l as [|b1 l1]; [done|]. destruct (in_range lo hi (byte_val b1)) eqn:E3; [|done].
  apply pair_equal_spec in H as [Hk%Nat.eqb_eq <-]. split; [|lia]. cbn [take Nat.add].
  unfold utf8_first. rewrite E1, E2, E3, cont_run_take.
  pose proof (cont_run_le (k - 1) l1).
  f_equal; [by apply Nat.eqb_eq|]. cbn [length]. rewrite length_take. lia.
Qed.

Lemma good_char_app b l rest :
  good_char (b :: l) -> utf8_first b (l ++ rest) = (true, S (length l)).
Proof.
  unfold good_char, utf8_first. cbn [length].
  destruct (byte_val b <? 0x80); [done|].
  destruct (utf8_lead (byte_val b)) as [[[lo hi] k]|]; [|done].
  destruct l as [|b1 l1]; [done|]. cbn [app].
  destruct (in_range lo hi (byte_val b1)); [|done].
  intros H. apply pair_equal_spec in H as [Hk%Nat.eqb_eq Hl].
  rewrite cont_run_app by done. f_equal; [by apply Nat.eqb_eq|]. rewrite <- Hl. lia.
Qed.

Lemma utf8_chars_go_good fuel cs :
  Forall good_char cs -> (length (concat cs) <= fuel)%nat ->
  utf8_chars_go fuel (concat cs) = map (pair true) cs.
Proof.
  revert fuel; induction cs as [|c cs IH]; intros fuel Hc Hf; [by destruct fuel|].
  apply Forall_cons in Hc as [Hc Hcs]. destruct c as [|b l]; [done|].
  cbn [concat app] in *. destruct fuel as [|fuel]; [simpl in Hf; lia|].
  cbn [utf8_chars_go]. rewrite good_char_app by done. cbn [take drop map].
  rewrite take_app_length, drop_app_length. f_equal.
  apply IH; [done|]. cbn [length] in Hf. rewrite length_app in Hf. lia.
Qed.

Lemma utf8_chars_good cs : Forall good_char cs -> utf8_chars (concat cs) = map (pair true) cs.
Proof. intros H. by apply utf8_chars_go_good. Qed.

Lemma utf8_chars_go_chunks fuel l : Forall (fun '(ok, c) => ok = true -> good_char c) (utf8_chars_go fuel l).
Proof.
  revert l; induction fuel as [|fuel IH]; intros [|b l]; cbn [utf8_chars_go]; try done.
  destruct (utf8_first b l) as [ok n] eqn:E. constructor; [|apply IH].
  intros ->. by apply utf8_first_take in E as [? _].
Qed.

Lemma lossy_good l : exists cs, Forall good_char cs /\ from_utf8_lossy l = concat cs.
Proof.
  unfold from_utf8_lossy, utf8_chars. eexists. split; [|done].
  apply Forall_map. eapply Forall_impl; [apply utf8_chars_go_chunks|].
  intros [[] c] H; simpl in *; [by apply H|by vm_compute].
Qed.

Lemma good_chars_valid cs : Forall good_char cs -> utf8_valid (concat cs) = true.
Proof.
  intros H. unfold utf8_valid. rewrite utf8_chars_good by done. clear H. by induction cs.
Qed.

(** ** Removing an ASCII pattern keeps the characters whole *)

Definition ascii_byte (b : byte) : bool := byte_val b <? 0x80.

(** [str_replace] on bytes, with an empty replacement. *)
Fixpoint remove_go (fuel : nat) (p l : list byte) : list byte :=
  match fuel with
  | O => l
  | S fuel' =>
      if decide (take (length p) l = p) then remove_go fuel' p (drop (length p) l)
      else match l with [] => [] | b :: l' => b :: remove_go fuel' p l' end
  end.

Lemma as_bytes_app s1 s2 : as_bytes (s1 +:+ s2) = as_bytes s1 ++ as_bytes s2.
Proof. unfold as_bytes. induction s1 as [|c s1 IH]; [done|].
  exact (f_equal (cons _) IH). Qed.

Lemma as_bytes_inj s1 s2 : as_bytes s1 = as_bytes s2 -> s1 = s2.
Proof. intros H. by rewrite <- (string_of_as_bytes s1), H, string_of_as_bytes. Qed.

Lemma remove_go_replace fuel p s :
  as_bytes (str_replace_go fuel p "" s) = remove_go fuel (as_bytes p) (as_bytes s).
Proof.
  revert s; induction fuel as [|fuel IH]; intros s; [done|].
  cbn [str_replace_go remove_go].
  destruct (strip_prefix p s) as [s'|] eqn:E.
  - apply strip_prefix_Some in E as ->. rewrite (as_bytes_app p s'), take_app_length.
    rewrite decide_True by done. rewrite drop_app_length, <- IH. done.
  - rewrite decide_False.
    { destruct s as [|c s]; [done|]. exact (f_equal (cons _) (IH s)). }
    intros H. enough (strip_prefix p s = Some (string_of_bytes (drop (length (as_bytes p)) (as_bytes s))))
      by congruence.
    apply strip_prefix_Some, as_bytes_inj. rewrite as_bytes_app, as_bytes_of_string.
    rewrite <- H at 1. by rewrite take_drop.
Qed.

Lemma good_char_ascii b l : good_char (b :: l) -> ascii_byte b = true -> l = [].
Proof.
  unfold good_char, utf8_first, ascii_byte. intros H Hb. rewrite Hb in H. by destruct l.
Qed.

Lemma cont_run_tail k l : cont_run k l = length l -> Forall (fun b => ascii_byte b = false) l.
Proof.
  revert l; induction k as [|k IH]; intros [|b l]; simpl; try done.
  unfold in_range, ascii_byte. destruct (_ && _) eqn:E; [|done]. intros [= H].
  constructor; [lia|]. by apply IH.
Qed.

Lemma good_char_tail b l : good_char (b :: l) -> Forall (fun b => ascii_byte b = false) l.
Proof.
  unfold good_char, utf8_first. cbn [length]. destruct (byte_val b <? 0x80); [by destruct l|].
  destruct (utf8_lead (byte_val b)) as [[[lo hi] k]|] eqn:El; [|by destruct l].
  destruct l as [|b1 l1]; [done|]. destruct (in_range lo hi (byte_val b1)) eqn:E; [|done].
  cbn [length]. intros H. apply pair_equal_spec in H as [_ H]. constructor.
  - unfold in_range, ascii_byte in *. unfold utf8_lead in El.
    repeat case_match; simplify_eq; lia.
  - apply (cont_run_tail (k - 1)). lia.
Qed.

Lemma ascii_prefix_good p cs l :
  Forall (fun b => ascii_byte b = true) p -> Forall good_char cs -> concat cs = p ++ l ->
  exists cs', Forall good_char cs' /\ l = concat cs'.
Proof.
  revert cs; induction p as [|b p IH]; intros cs Hp Hcs H; [by exists cs|].
  apply Forall_cons in Hp as [Hb Hp]. destruct cs as [|[|b' c] cs]; [done| |].
  { apply Forall_cons in Hcs as [[] _]. }
  apply Forall_cons in Hcs as [Hc Hcs]. cbn in H. injection H as -> H.
  apply good_char_ascii in Hc; [|done]. subst c. by apply (IH cs).
Qed.

(** Bytes that are not ASCII are copied. *)
Lemma remove_go_skip fuel p b l :
  ascii_byte b = false -> (exists b' p', p = b' :: p' /\ ascii_byte b' = true) ->
  remove_go (S fuel) p (b :: l) = b :: remove_go fuel p l.
Proof.
  intros Hb (b' & p' & -> & Hb'). cbn [remove_go length take].
  rewrite decide_False; [done|]. intros [= -> _]. congruence.
Qed.

Lemma remove_go_skip_all fuel p c l :
  Forall (fun b => ascii_byte b = false) c -> (exists b' p', p = b' :: p' /\ ascii_byte b' = true) ->
  (length c <= fuel)%nat ->
  remove_go fuel p (c ++ l) = c ++ remove_go (fuel - length c) p l.
Proof.
  intros Hc Hp. revert fuel; induction c as [|b c IH]; intros fuel Hf.
  { simpl. by rewrite Nat.sub_0_r. }
  apply Forall_cons in Hc as [Hb Hc]. destruct fuel as [|fuel]; [simpl in Hf; lia|].
  cbn [app length]. rewrite remove_go_skip by done. rewrite IH by (done || simpl in Hf; lia).
  done.
Qed.

Lemma remove_go_good fuel p cs :
  Forall (fun b => ascii_byte b = true) p -> p <> [] -> Forall good_char cs ->
  (length (concat cs) < fuel)%nat ->
  exists cs', Forall good_char cs' /\ remove_go fuel p (concat cs) = concat cs'.
Proof.
  intros Hp Hne. destruct p as [|bp p]; [done|]. clear Hne.
  revert cs; induction fuel as [fuel IH] using lt_wf_ind; intros cs Hcs Hf.
  destruct fuel as [|fuel]; [lia|]. cbn [remove_go].
  case_decide as Hd.
  - destruct (ascii_prefix_good (bp :: p) cs (drop (length (bp :: p)) (concat cs)))
      as (cs' & Hcs' & Heq); [done..| |].
    { rewrite <- Hd at 1. by rewrite take_drop. }
    rewrite Heq. apply IH; [lia|done|]. rewrite <- Heq, length_drop. simpl length.
    assert (length (concat cs) <> 0)%nat.
    { destruct (concat cs); [done|]. simpl. lia. }
    lia.
  - destruct cs as [|[|b c] cs]; [by exists []| |].
    { apply Forall_cons in Hcs as [[] _]. }
    apply Forall_cons in Hcs as [Hc Hcs]. cbn [concat app].
    cbn [concat app length] in Hf. rewrite length_app in Hf.
    rewrite remove_go_skip_all; [|by eapply good_char_tail| |lia].
    2:{ exists bp, p. split; [done|]. by apply Forall_cons in Hp as [? _]. }
    destruct (IH (fuel - length c)%nat ltac:(lia) cs Hcs ltac:(lia)) as (cs' & Hcs' & ->).
    exists ((b :: c) :: cs'). split; [by constructor|done].
Qed.

Lemma length_string_of_bytes l : String.length (string_of_bytes l) = length l.
Proof. induction l as [|b l IH]; [done|]. exact (f_equal S IH). Qed.

(** [clean_json_string_full] returns valid UTF-8 whatever the bytes
    received, and none of its characters is a control character other than
    the newline and the tabulation. *)
Theorem clean_json_no_control (input : list byte) :
  utf8_valid (as_bytes (clean_json_string_full input)) = true /\
  forall c, c ∈ chars (as_bytes (clean_json_string_full input)) ->
    char_is_control c = true -> c = NEWLINE \/ c = TAB.
Proof.
  unfold clean_json_string_full, str_replace. rewrite remove_go_replace, !as_bytes_of_string.
  destruct (lossy_good input) as (cs & Hcs & ->).
  destruct (remove_go_good (S (String.length (string_of_bytes (concat cs))))
    (as_bytes escaped_null) cs) as (cs' & Hcs' & ->).
  { by repeat constructor. } { done. } { done. }
  { rewrite length_string_of_bytes. lia. }
  unfold chars. rewrite (utf8_chars_good cs') by done.
  replace (map snd (map (pair true) cs')) with cs' by (rewrite map_map; symmetry; apply map_id).
  assert (Hf : Forall good_char (filter (fun c => Is_true (clean_keeps c)) cs')).
  { apply Forall_forall. intros c Hc. apply list_elem_of_filter in Hc as [_ Hc].
    by eapply Forall_forall in Hcs'. }
  rewrite (utf8_chars_good _ Hf). split; [by apply good_chars_valid|].
  intros c Hc Hcontrol. rewrite map_map in Hc. simpl in Hc. rewrite map_id in Hc.
  apply list_elem_of_filter in Hc as [Hk _]. unfold clean_keeps in Hk.
  rewrite Hcontrol in Hk. cbn [negb orb] in Hk.
  apply Is_true_true, orb_true_iff in Hk as [H|H]; apply bool_decide_eq_true in H; auto.
Qed.

(** Removing the escaped nulls can make a new one: the replacement does
    not look again at the text it has joined. *)
Theorem clean_json_leaves_null :
  str_contains escaped_null (clean_json_string_full (as_bytes "\u00\u000000")) = true.
Proof. by vm_compute. Qed.
