(* ===== verification/Subscriber.v ===== *)
(** * The subscribers: [subscriber.rs], [retry_subscriber.rs]

    A poll asks the client for traces, moves the cursor, stores each trace and
    returns the complete traces that were new or changed.  The subscribers are
    generic in the client, the cursor database and the traces model, as in the
    source; the theorems use the contract [AtomicUpsertLaws] of the model. *)

From Stdlib Require Import ZArith Lia Strings.Byte Strings.Ascii.
From stdpp Require Import base strings gmap list.
From S2P Require Import Prelude RustStd Foreign Types Client TraceStore.

(** [relayer_core::database::Database], third-party: the cursor of a chain and
    a context. *)
Class Database (D : Type) := {
  get_latest_height : string -> string -> D -> fres (option Z);
  store_latest_height : string -> string -> Z -> D -> fres unit * D;
}.

(** Errors under [anyhow::Error]. *)
Inductive PollError : Set :=
| PollClient (e : ClientError)
| PollModel (e : ferr)
| PollJson (e : ferr).

Inductive SubscriberError : Set := GenericError (s : string).

(** [max] of the last logical times. *)
Definition max_end_lt {TAL : TonAddressLib} {JL : JsonLib} (traces : list Trace) : option Z :=
  match map end_lt traces with
  | [] => None
  | x :: l => Some (foldl Z.max x l)
  end.

Section Subscriber.
Context {TAL : TonAddressLib} {JL : JsonLib}.
Context {N D S : Type} {RC : RestClient N} {DB : Database D} {AU : AtomicUpsert S}.

Record TONSubscriber := {
  client : N;
  latest_lt : Z; (* i64 *)
  db : D;
  context : string;
  chain_name : string;
  ton_trace_model : S;
}.

Definition TONSubscriber_new (client : N) (db : D) (context chain_name : string)
    (ton_trace_model : S) : res SubscriberError TONSubscriber :=
  let? latest := map_err (fun e => GenericError (fe_display e))
    (fr (get_latest_height chain_name context db)) in
  Ok {|
    client := client;
    latest_lt := default (-1) latest;
    db := db;
    context := context;
    chain_name := chain_name;
    ton_trace_model := ton_trace_model;
  |}.

Definition set_client (n : N) (s : TONSubscriber) : TONSubscriber := {|
  client := n; latest_lt := latest_lt s; db := db s; context := context s;
  chain_name := chain_name s; ton_trace_model := ton_trace_model s |}.

Definition set_latest_lt (lt : Z) (s : TONSubscriber) : TONSubscriber := {|
  client := client s; latest_lt := lt; db := db s; context := context s;
  chain_name := chain_name s; ton_trace_model := ton_trace_model s |}.

Definition set_db (d : D) (s : TONSubscriber) : TONSubscriber := {|
  client := client s; latest_lt := latest_lt s; db := d; context := context s;
  chain_name := chain_name s; ton_trace_model := ton_trace_model s |}.

Definition set_model (m : S) (s : TONSubscriber) : TONSubscriber := {|
  client := client s; latest_lt := latest_lt s; db := db s; context := context s;
  chain_name := chain_name s; ton_trace_model := m |}.

(** [store_latest_height]: the in-memory cursor goes to the database. *)
Definition sub_store_latest_height : st TONSubscriber SubscriberError unit :=
  fun s =>
    let '(r, d) := store_latest_height (chain_name s) (context s) (latest_lt s) (db s) in
    (map_err (fun e => GenericError (fe_display e)) (fr r), set_db d s).

Definition sub_client {A} (m : st N ClientError A) : st TONSubscriber PollError A :=
  fun s => let '(r, n) := m (client s) in (map_err PollClient r, set_client n s).

Definition sub_model {A} (m : st S ferr A) : st TONSubscriber PollError A :=
  fun s => let '(r, m') := m (ton_trace_model s) in (map_err PollModel r, set_model m' s).

(** The loop over the traces: the ones to hand on. *)
Fixpoint store_traces (now : Z) (traces : list Trace) : st S ferr (list Trace) :=
  match traces with
  | [] => st_ret []
  | trace :: traces' =>
      let! changed := upsert_and_return_if_changed now (TONTrace_from now trace) in
      let! unseen := store_traces now traces' in
      st_ret (if bool_decide (is_Some changed) && negb (is_incomplete trace)
              then trace :: unseen else unseen)
  end.

Definition make_queue_item (json_of_trace : Trace -> fres string) (tx : Trace)
    : res PollError string :=
  map_err PollJson (fr (json_of_trace tx)).

Definition transaction_id (tx : Trace) : option string := Some (trace_id tx).

Definition account_id (account : TonAddress) : option string := Some (TonAddress_to_hex account).

(** [poll_account]; a failure to store the cursor is only logged. *)
Definition poll_account (now : Z) (account : TonAddress) : st TONSubscriber PollError (list Trace) :=
  let! self := st_get in
  let start_lt := if decide (latest_lt self = -1) then None else Some (latest_lt self) in
  let! traces := sub_client (get_traces_for_account (Some account) None start_lt) in
  do! (match max_end_lt traces with
       | Some max_lt =>
           fun s =>
             let s := set_latest_lt max_lt s in
             let '(r, s) := sub_store_latest_height s in
             (match r with Panic => Panic | _ => Ok tt end, s)
       | None => st_ret tt
       end) in
  sub_model (store_traces now traces).

(** [poll_tx] is [unimplemented!()]. *)
Definition poll_tx (tx_hash : string) : st TONSubscriber PollError Trace :=
  fun s => (Panic, s).
End Subscriber.
Arguments TONSubscriber : clear implicits.

(** ** [RetryTONSubscriber] *)

Section Retry.
Context {TAL : TonAddressLib} {JL : JsonLib}.
Context {N S : Type} {RC : RestClient N} {AU : AtomicUpsert S} {RT : Retriable S}.

Record RetryTONSubscriber := {
  retry_client : N;
  retry_model : S;
}.

Definition RetryTONSubscriber_new (client : N) (ton_trace_model : S)
    : res SubscriberError RetryTONSubscriber :=
  Ok {| retry_client := client; retry_model := ton_trace_model |}.

(** The loop over the traces of a retry: an incomplete one costs a retry, a
    complete one is stored, and handed on when it changed. *)
Fixpoint retry_traces (now : Z) (traces : list Trace) : st S ferr (list Trace) :=
  match traces with
  | [] => st_ret []
  | trace :: traces' =>
      let trace_model := TONTrace_from now trace in
      if tt_is_incomplete trace_model then
        do! decrease_retry trace_model in
        retry_traces now traces'
      else
        let! changed := upsert_and_return_if_changed now trace_model in
        let! unseen := retry_traces now traces' in
        st_ret (if bool_decide (is_Some changed) && negb (is_incomplete trace)
                then trace :: unseen else unseen)
  end.

Definition retry_make_queue_item (json_of_trace : Trace -> fres string) (tx : Trace)
    : res PollError string :=
  map_err PollJson (fr (json_of_trace tx)).

Definition retry_transaction_id (tx : Trace) : option string := Some (trace_id tx).

Definition retry_account_id (account : TonAddress) : option string :=
  Some (TonAddress_to_hex account).

(** [poll_tx] is [unimplemented!()]. *)
Definition retry_poll_tx (tx_hash : string) : st RetryTONSubscriber PollError Trace :=
  fun s => (Panic, s).

Definition retry_poll_account (now : Z) (account : TonAddress)
    : st RetryTONSubscriber PollError (list Trace) :=
  fun self =>
    match fetch_retry 100 (retry_model self) with
    | (Ok [], m) => (Ok [], {| retry_client := retry_client self; retry_model := m |})
    | (Ok rows, m) =>
        match get_traces_for_account None (Some (map tt_trace_id rows)) None (retry_client self) with
        | (Ok traces, n) =>
            let '(r, m') := retry_traces now traces m in
            (map_err PollModel r, {| retry_client := n; retry_model := m' |})
        | (Err e, n) => (Err (PollClient e), {| retry_client := n; retry_model := m |})
        | (Panic, n) => (Panic, {| retry_client := n; retry_model := m |})
        end
    | (Err e, m) => (Err (PollModel e), {| retry_client := retry_client self; retry_model := m |})
    | (Panic, m) => (Panic, {| retry_client := retry_client self; retry_model := m |})
    end.
End Retry.
Arguments RetryTONSubscriber : clear implicits.

(** ** Properties of the poll, against the contract of the model *)

Section PollProofs.
Context {TAL : TonAddressLib} {JL : JsonLib}.
Context {N D S : Type} {RC : RestClient N} {DB : Database D}.
Context {AU : AtomicUpsert S} {AUL : AtomicUpsertLaws S}.

Definition trace_content (t : Trace) : content :=
  (is_incomplete t, start_lt t, end_lt t, transactions t).

Lemma content_from now t : content_of (TONTrace_from now t) = trace_content t.
Proof. done. Qed.

(** The traces a successful loop hands on: complete, and new or changed with
    respect to what was stored. *)
Definition fresh (s : S) (t : Trace) : Prop :=
  stored s (trace_id t) <> Some (trace_content t) /\ is_incomplete t = false.

#[global] Instance fresh_dec s t : Decision (fresh s t).
Proof. unfold fresh, content. apply _. Defined.

Lemma store_traces_ok now traces s out s' :
  NoDup (map trace_id traces) -> store_traces now traces s = (Ok out, s') ->
  out = filter (fresh s) traces /\
  (forall t, t ∈ traces -> stored s' (trace_id t) = Some (trace_content t)) /\
  (forall i, i ∉ map trace_id traces -> stored s' i = stored s i).
Proof.
  revert s out s'. induction traces as [|t traces IH]; intros s out s' Hnd H.
  { injection H as <- <-. split; [done|]. split; [|done]. intros t Ht. by apply not_elem_of_nil in Ht. }
  cbn [store_traces] in H. apply st_bind_Ok in H as (changed & s1 & Hu & H).
  apply st_bind_Ok in H as (unseen & s2 & Hs & H). injection H as <- <-.
  apply NoDup_cons in Hnd as [Hni Hnd].
  destruct (upsert_ok _ _ _ _ _ Hu) as (H1 & H2 & H3 & _).
  cbn [tt_trace_id TONTrace_from] in H1, H2, H3. rewrite content_from in H1, H3.
  destruct (IH s1 unseen s2 Hnd Hs) as (Hout & Hst & Hfr).
  assert (Hfresh : filter (fresh s1) traces = filter (fresh s) traces).
  { clear -Hni H2. induction traces as [|u traces IH]; [done|].
    apply not_elem_of_cons in Hni as [Hne Hni]. specialize (IH Hni).
    assert (fresh s1 u <-> fresh s u) as Hiff by (unfold fresh; by rewrite H2 by congruence).
    rewrite !filter_cons, IH. destruct (decide (fresh s1 u)), (decide (fresh s u)); tauto. }
  split; [|split].
  - assert (Hb : bool_decide (is_Some changed) && negb (is_incomplete t) = bool_decide (fresh s t)).
    { apply bool_eq_iff. rewrite andb_true_iff, !bool_decide_eq_true, negb_true_iff, H3. done. }
    rewrite Hb, filter_cons, Hout, Hfresh. destruct (decide (fresh s t)) as [Hf|Hf].
    + by rewrite bool_decide_eq_true_2.
    + by rewrite bool_decide_eq_false_2.
  - intros u [->|Hu']%elem_of_cons; [|by apply Hst]. by rewrite Hfr.
  - intros i Hi. apply not_elem_of_cons in Hi as [Hne Hi]. rewrite Hfr, H2; done.
Qed.

(** The cursor after a poll that got traces. *)
Lemma poll_account_step now account self traces n max_lt :
  get_traces_for_account (Some account) None
    (if decide (latest_lt self = -1) then None else Some (latest_lt self)) (client self)
    = (Ok traces, n) ->
  max_end_lt traces = Some max_lt ->
  exists d, poll_account now account self =
    (let '(r, m) := store_traces now traces (ton_trace_model self) in
     (map_err PollModel r, {| client := n; latest_lt := max_lt; db := d;
        context := context self; chain_name := chain_name self; ton_trace_model := m |})).
Proof.
  intros Hc Hm. unfold poll_account, st_get, st_bind, sub_client. rewrite Hc. cbn [map_err].
  rewrite Hm. unfold sub_store_latest_height.
  cbn [set_latest_lt set_client chain_name context latest_lt db client ton_trace_model].
  destruct (store_latest_height _ _ _ _) as [[e|u] d]; exists d; cbn [fr map_err];
    unfold sub_model, set_model, set_db, set_latest_lt, set_client; cbn; by destruct (store_traces _ _ _).
Qed.

Lemma max_end_lt_spec traces m :
  max_end_lt traces = Some m -> forall t, t ∈ traces -> end_lt t <= m.
Proof.
  unfold max_end_lt. destruct traces as [|t0 l]; [done|]. cbn [map]. intros [= <-].
  assert (forall l x, x <= foldl Z.max x (map end_lt l) /\
    forall t, t ∈ l -> end_lt t <= foldl Z.max x (map end_lt l)) as Hf.
  { clear. induction l as [|u l IH]; intros x; simpl.
    - split; [lia|]. intros t Ht. by apply not_elem_of_nil in Ht.
    - destruct (IH (Z.max x (end_lt u))) as [H1 H2]. split; [lia|].
      intros t [->|Ht]%elem_of_cons; [lia|auto]. }
  destruct (Hf l (end_lt t0)) as [H1 H2]. intros t [->|Ht]%elem_of_cons; auto.
Qed.

(** C19. A successful poll, whose response has no trace twice, hands on exactly
    the traces of the response that are complete and new or changed, in their
    order, and stores every trace of the response; it leaves the other traces
    alone, and moves the cursor to the largest end. *)
Theorem poll_account_ok now account self traces n out self' :
  get_traces_for_account (Some account) None
    (if decide (latest_lt self = -1) then None else Some (latest_lt self)) (client self)
    = (Ok traces, n) ->
  NoDup (map trace_id traces) ->
  poll_account now account self = (Ok out, self') ->
  out = filter (fresh (ton_trace_model self)) traces /\
  (forall t, t ∈ traces -> stored (ton_trace_model self') (trace_id t) = Some (trace_content t)) /\
  (forall i, i ∉ map trace_id traces ->
    stored (ton_trace_model self') i = stored (ton_trace_model self) i) /\
  latest_lt self' = default (latest_lt self) (max_end_lt traces).
Proof.
  intros Hc Hnd H. destruct (max_end_lt traces) as [m|] eqn:Em.
  - destruct (poll_account_step now account self traces n m Hc Em) as (d & Heq).
    rewrite Heq in H. destruct (store_traces _ _ _) as [r m'] eqn:Es.
    injection H as Hr <-. apply map_err_Ok in Hr as ->.
    destruct (store_traces_ok _ _ _ _ _ Hnd Es) as (? & ? & ?). done.
  - destruct traces as [|t l]; [|done].
    unfold poll_account, st_get, st_bind, sub_client in H. rewrite Hc in H. cbn in H.
    injection H as <- <-. split; [done|]. split; [|done].
    intros t Ht. by apply not_elem_of_nil in Ht.
Qed.

(** A trace is handed on once: when the client answers a later poll with
    the same traces, that poll returns none of them. *)
Theorem poll_twice now1 now2 account self traces n out1 self1 n2 out2 self2 :
  NoDup (map trace_id traces) ->
  get_traces_for_account (Some account) None
    (if decide (latest_lt self = -1) then None else Some (latest_lt self)) (client self)
    = (Ok traces, n) ->
  poll_account now1 account self = (Ok out1, self1) ->
  get_traces_for_account (Some account) None
    (if decide (latest_lt self1 = -1) then None else Some (latest_lt self1)) (client self1)
    = (Ok traces, n2) ->
  poll_account now2 account self1 = (Ok out2, self2) ->
  out2 = [].
Proof.
  intros Hnd Hc1 H1 Hc2 H2.
  assert (Hst : forall t, t ∈ traces ->
    stored (ton_trace_model self1) (trace_id t) = Some (trace_content t) /\ traces <> []).
  { intros t Ht. destruct (max_end_lt traces) as [m|] eqn:Em.
    - destruct (poll_account_step now1 account self traces n m Hc1 Em) as (d & Heq).
      rewrite Heq in H1. destruct (store_traces _ _ _) as [r m'] eqn:Es.
      injection H1 as Hr <-. apply map_err_Ok in Hr as ->.
      destruct (store_traces_ok _ _ _ _ _ Hnd Es) as (_ & Hst & _).
      split; [by apply Hst|]. intros ->. by apply not_elem_of_nil in Ht.
    - destruct traces; [by apply not_elem_of_nil in Ht|done]. }
  destruct (max_end_lt traces) as [m|] eqn:Em.
  - destruct (poll_account_step now2 account self1 traces n2 m Hc2 Em) as (d & Heq).
    rewrite Heq in H2. destruct (store_traces _ _ _) as [r m'] eqn:Es.
    injection H2 as Hr _. apply map_err_Ok in Hr as ->.
    destruct (store_traces_ok _ _ _ _ _ Hnd Es) as (-> & _).
    destruct (filter _ traces) as [|t l] eqn:Ef; [done|]. exfalso.
    assert (Ht : t ∈ filter (fresh (ton_trace_model self1)) traces) by (rewrite Ef; left).
    apply list_elem_of_filter in Ht as [[Hne _] Ht]. by destruct (Hst t Ht).
  - destruct traces as [|t l]; [|done].
    unfold poll_account, st_get, st_bind, sub_client in H2. rewrite Hc2 in H2. cbn in H2. congruence.
Qed.

(** The cursor moves before the traces are stored: when the first store
    of a poll fails, the poll is an error that hands on nothing and stores
    nothing, and yet the next poll asks only for traces that start after the
    end of every trace of this response. *)
Theorem poll_loses_traces now account self t traces n e :
  get_traces_for_account (Some account) None
    (if decide (latest_lt self = -1) then None else Some (latest_lt self)) (client self)
    = (Ok (t :: traces), n) ->
  fst (upsert_and_return_if_changed now (TONTrace_from now t) (ton_trace_model self)) = Err e ->
  exists self', poll_account now account self = (Err (PollModel e), self') /\
    ton_trace_model self' = ton_trace_model self /\
    forall u, u ∈ t :: traces -> end_lt u < latest_lt self' + 1.
Proof.
  intros Hc Hu. destruct (max_end_lt (t :: traces)) as [m|] eqn:Em; [|done].
  destruct (poll_account_step now account self _ n m Hc Em) as (d & ->).
  cbn [store_traces]. unfold st_bind.
  destruct (upsert_and_return_if_changed _ _ _) as [r m'] eqn:E. cbn [fst] in Hu. subst r.
  apply upsert_err in E as ->. eexists. split; [done|]. split; [done|].
  intros u Hin. cbn [latest_lt]. pose proof (max_end_lt_spec _ _ Em u Hin). lia.
Qed.
End PollProofs.

(** ** Applications at concrete inputs *)

From S2P Require Import Instances.

(** A client that answers with a script, and a cursor in memory. *)
#[export] Instance script_client : RestClient (list (list Trace)) := {|
  post_v3_message boc := st_err (BadResponse "no message");
  get_traces_for_account account ids start n :=
    match n with
    | [] => (Ok [], [])
    | r :: n' => (Ok r, n')
    end;
  get_account_states l := st_err (BadResponse "no states");
|}.

#[export] Instance memory_database : Database (option Z) := {|
  get_latest_height chain ctx d := inr d;
  store_latest_height chain ctx lt d := (inr tt, Some lt);
|}.

Definition example_subscriber (responses : list (list Trace))
    : TONSubscriber (list (list Trace)) (option Z) trace_table := {|
  client := responses; latest_lt := -1; db := None; context := "c"; chain_name := "ton2";
  ton_trace_model := ∅ : gmap string TONTrace |}.

Definition example_traces : list Trace :=
  [example_trace "a" false 1 2; example_trace "b" true 3 9; example_trace "c" false 4 5].

Definition ton_zero : ref_address := (byte_of 0, vec_of 32 []).

Definition example_poll (responses : list (list Trace)) :=
  @poll_account _ _ _ _ _ script_client memory_database (pg_atomic_upsert pg_no_fault)
    5 ton_zero (example_subscriber responses).

Lemma example_nodup : NoDup (map trace_id example_traces).
Proof. apply (bool_decide_unpack _). by vm_compute. Qed.

Definition example_after (responses : list (list Trace)) := snd (example_poll responses).

Lemma poll_account_ok_witness :
  [example_trace "a" false 1 2; example_trace "c" false 4 5] =
    filter (@fresh _ _ _ (pg_atomic_upsert pg_no_fault) (∅ : gmap string TONTrace)) example_traces /\
  latest_lt (example_after [example_traces]) = 9.
Proof.
  pose proof (@poll_account_ok _ _ _ _ _ script_client memory_database
    (pg_atomic_upsert pg_no_fault) (pg_atomic_upsert_laws pg_no_fault) 5 ton_zero
    (example_subscriber [example_traces]) example_traces []
    [example_trace "a" false 1 2; example_trace "c" false 4 5]
    (example_after [example_traces]) eq_refl example_nodup
    eq_refl) as (H1 & _ & _ & H2).
  split; [exact H1|etransitivity; [exact H2|by vm_compute]].
Defined.

Lemma poll_twice_witness :
  fst (@poll_account _ _ _ _ _ script_client memory_database (pg_atomic_upsert pg_no_fault)
    6 ton_zero (snd (example_poll [example_traces; example_traces]))) = Ok [].
Proof.
  apply (f_equal Ok (@poll_twice _ _ _ _ _ script_client memory_database
    (pg_atomic_upsert pg_no_fault) (pg_atomic_upsert_laws pg_no_fault) 5 6 ton_zero
    (example_subscriber [example_traces; example_traces]) example_traces [example_traces]
    [example_trace "a" false 1 2; example_trace "c" false 4 5]
    (example_after [example_traces; example_traces]) [] [] _
    example_nodup eq_refl eq_refl eq_refl
    eq_refl)).
Defined.

Definition upsert_fault (op : trace_op) : option ferr :=
  match op with OpUpsert _ => Some (ferr0 "connection lost") | _ => None end.

Lemma poll_loses_traces_witness :
  exists self', @poll_account _ _ _ _ _ script_client memory_database
      (pg_atomic_upsert upsert_fault) 5 ton_zero (example_subscriber [example_traces]) =
      (Err (PollModel (ferr0 "connection lost")), self') /\
    ton_trace_model self' = (∅ : gmap string TONTrace) /\
    forall u, u ∈ example_traces -> end_lt u < latest_lt self' + 1.
Proof.
  exact (@poll_loses_traces _ _ _ _ _ script_client memory_database
    (pg_atomic_upsert upsert_fault) (pg_atomic_upsert_laws upsert_fault) 5 ton_zero
    (example_subscriber [example_traces]) (example_trace "a" false 1 2)
    [example_trace "b" true 3 9; example_trace "c" false 4 5] [] _ eq_refl eq_refl).
Defined.
