(* ===== verification/Cursor.v ===== *)
(** * The cursor of a subscriber

    A poll asks for the traces after the cursor and moves the cursor to the end
    of the last trace it got.  Over any sequence of polls, failing ones too,
    the cursor goes forward, and what a poll got is not handed on again. *)

From Stdlib Require Import ZArith Lia Strings.Byte Strings.Ascii.
From stdpp Require Import base strings gmap list relations.
From S2P Require Import Prelude RustStd Foreign Types Client TraceStore Subscriber.

(** The API answers a request for an account with traces that end after the
    logical time of the request. *)
Class HonoursCursor {TAL : TonAddressLib} {JL : JsonLib} (N : Type) `{RestClient N} : Prop :=
  honours_cursor account lt n traces n' :
    get_traces_for_account (Some account) None (Some lt) n = (Ok traces, n') ->
    Forall (fun t => lt < end_lt t) traces.

Section Cursor.
Context {TAL : TonAddressLib} {JL : JsonLib}.
Context {N D S : Type} {RC : RestClient N} {DB : Database D} {AU : AtomicUpsert S}.
Context {HC : HonoursCursor N}.

Lemma store_traces_subset now traces s out s' :
  store_traces now traces s = (Ok out, s') -> out ⊆ traces.
Proof.
  revert s out s'. induction traces as [|t traces IH]; intros s out s' H; cbn [store_traces] in H.
  { by injection H as <- _. }
  apply st_bind_Ok in H as (c & s1 & _ & H). apply st_bind_Ok in H as (unseen & s2 & H & Heq).
  injection Heq as <- _. apply IH in H. destruct (_ && _); set_solver.
Qed.

(** One poll, whatever comes of it, keeps the cursor past [m] and hands on
    only traces that end after [m]. *)
Lemma poll_past m now account (self : TONSubscriber N D S) :
  0 <= m -> m <= latest_lt self ->
  m <= latest_lt (snd (poll_account now account self)) /\
  forall out t, fst (poll_account now account self) = Ok out -> t ∈ out -> m < end_lt t.
Proof.
  intros Hm Hlt.
  destruct (get_traces_for_account (Some account) None
    (if decide (latest_lt self = -1) then None else Some (latest_lt self)) (client self))
    as [[traces|e|] n] eqn:Hg.
  - assert (Ht : Forall (fun t => latest_lt self < end_lt t) traces).
    { rewrite decide_False in Hg by lia. by eapply honours_cursor. }
    destruct (max_end_lt traces) as [k|] eqn:Ek.
    + destruct (poll_account_step now account self traces n k Hg Ek) as (d & ->).
      assert (Hk : m <= k).
      { destruct traces as [|t traces]; [done|]. pose proof (max_end_lt_spec _ _ Ek t) as He.
        apply Forall_cons in Ht as [Ht _]. specialize (He ltac:(by left)). lia. }
      destruct (store_traces now traces (ton_trace_model self)) as [r s'] eqn:Es.
      cbn [fst snd latest_lt]. split; [done|]. intros out t Hr Hin. apply map_err_Ok in Hr as ->.
      apply store_traces_subset in Es. apply Es in Hin.
      eapply Forall_forall in Ht; [|exact Hin]. cbn beta in Ht. lia.
    + destruct traces; [|done]. unfold poll_account, st_get, st_bind, sub_client. rewrite Hg. cbn.
      split; [done|]. intros out t [= <-] Hin. by apply not_elem_of_nil in Hin.
  - unfold poll_account, st_get, st_bind, sub_client. by rewrite Hg.
  - unfold poll_account, st_get, st_bind, sub_client. by rewrite Hg.
Qed.

(** A poll of the subscriber, of any account, with any outcome. *)
Definition polled : relation (TONSubscriber N D S) :=
  fun s s' => exists now account, s' = snd (poll_account now account s).

(** C28. The cursor goes forward: over any sequence of polls, with any
    failures, it never goes back; and after a poll that got a trace [u], in
    whatever state of completion, every trace that a later poll hands on ends
    after [u] ended, so none is handed on again. *)
Theorem cursor_advances now account (self self1 self2 : TONSubscriber N D S) traces n u :
  get_traces_for_account (Some account) None
    (if decide (latest_lt self = -1) then None else Some (latest_lt self)) (client self) =
    (Ok traces, n) ->
  u ∈ traces -> 0 <= end_lt u ->
  snd (poll_account now account self) = self1 -> rtc polled self1 self2 ->
  latest_lt self1 <= latest_lt self2 /\
  forall now' account' out t, fst (poll_account now' account' self2) = Ok out -> t ∈ out ->
    end_lt u < end_lt t.
Proof.
  intros Hg Hu H0 H1 Hrun.
  assert (Hm : end_lt u <= latest_lt self1).
  { destruct (max_end_lt traces) as [k|] eqn:Ek; [|by destruct traces; [apply not_elem_of_nil in Hu|]].
    destruct (poll_account_step now account self traces n k Hg Ek) as (d & Hp). rewrite Hp in H1.
    destruct (store_traces _ _ _). subst self1. cbn [snd latest_lt]. by eapply max_end_lt_spec. }
  assert (Hm2 : latest_lt self1 <= latest_lt self2).
  { apply (rtc_invariant polled (fun s => latest_lt self1 <= latest_lt s) self1); [|done..].
    intros s s' (w & a & ->) Hs. apply poll_past; lia. }
  split; [done|]. intros now' account' out t. apply poll_past; lia.
Qed.
End Cursor.

(** ** An application at a concrete input *)

From S2P Require Import Instances.

(** A client that knows three traces. *)
Inductive three_traces : Set := ThreeTraces.

#[export] Instance three_client : RestClient three_traces := {|
  post_v3_message boc := st_err (BadResponse "no message");
  get_traces_for_account account ids lt n :=
    (Ok (filter (fun t => default (-1) lt < end_lt t) example_traces), n);
  get_account_states l := st_err (BadResponse "no states");
|}.

#[export] Instance three_honours : HonoursCursor three_traces.
Proof. intros account lt n traces n' [= <- _]. apply list.Forall_forall. intros t Ht. by apply list_elem_of_filter in Ht as [? _]. Qed.

Definition example_three : TONSubscriber three_traces (option Z) trace_table := {|
  client := ThreeTraces; latest_lt := -1; db := None; context := "c"; chain_name := "ton2";
  ton_trace_model := ∅ : gmap string TONTrace |}.

Definition example_polled := snd (poll_account (AU := pg_atomic_upsert pg_no_fault) 5 ton_zero example_three).

Lemma cursor_advances_witness :
  latest_lt example_polled <= latest_lt example_polled /\
  forall now' account' out t,
    fst (poll_account (AU := pg_atomic_upsert pg_no_fault) now' account' example_polled) = Ok out ->
    t ∈ out -> 9 < end_lt t.
Proof.
  exact (cursor_advances (AU := pg_atomic_upsert pg_no_fault) 5 ton_zero example_three example_polled
    example_polled example_traces ThreeTraces (example_trace "b" true 3 9) eq_refl
    ltac:(right; by left) ltac:(done) eq_refl (rtc_refl _ _)).
Defined.
