(* ===== verification/RetryProofs.v ===== *)
(** * Retrying incomplete traces: proofs about [RetryTONSubscriber]

    On the Postgres model: what a retry does to the rows, that retrying ends,
    that a trace which becomes complete in time is handed on, and how a failed
    query loses one. *)

From Stdlib Require Import ZArith Lia Strings.Byte Strings.Ascii.
From stdpp Require Import base strings gmap sorting list.
From S2P Require Import Prelude RustStd Foreign Types Client TraceStore Subscriber.

Section RetryProofs.
Context {TAL : TonAddressLib} {JL : JsonLib}.
Context (fault : trace_op -> option ferr).

#[local] Existing Instance pg_atomic_upsert.
#[local] Existing Instance pg_retriable.

Definition pg_retry_traces (now : Z) (traces : list Trace) : st trace_table ferr (list Trace) :=
  @retry_traces _ _ _ (pg_atomic_upsert fault) (pg_retriable fault) now traces.

(** The traces of a response that cost the trace [i] a retry. *)
Definition costs (i : string) (traces : list Trace) : list Trace :=
  filter (fun t => trace_id t = i /\ is_incomplete t = true) traces.

Lemma pg_decrease_ok tx tbl u tbl' :
  pg_decrease_retry fault tx tbl = (Ok u, tbl') ->
  forall i row, (tbl : gmap string TONTrace) !! i = Some row ->
  exists row', (tbl' : gmap string TONTrace) !! i = Some row' /\
    tt_retries row' = tt_retries row - (if decide (tt_trace_id tx = i) then 1 else 0).
Proof.
  unfold pg_decrease_retry. rewrite pg_query_cases. destruct (fault _); [done|].
  intros [= _ <-] i row Hi. cbn [snd]. unfold pg_update. case_decide as Hd.
  - subst i. eexists. rewrite lookup_alter_eq, Hi. done.
  - exists row. rewrite lookup_alter_ne by done. split; [done|lia].
Qed.

Lemma pg_upsert_retries now tx tbl r tbl' :
  pg_upsert fault now tx tbl = (Ok r, tbl') ->
  forall i row, (tbl : gmap string TONTrace) !! i = Some row ->
  exists row', (tbl' : gmap string TONTrace) !! i = Some row' /\ tt_retries row' = tt_retries row.
Proof.
  unfold pg_upsert. rewrite pg_query_cases. destruct (fault _); [done|].
  intros [= _ <-] i row Hi.
  destruct (decide (tt_trace_id tx = i)) as [<-|Hne].
  - rewrite Hi. case_decide; cbn [snd]; [rewrite lookup_insert_eq|]; eauto.
  - repeat case_match; cbn [snd]; try rewrite lookup_insert_ne by done; eauto.
Qed.

Lemma pg_retry_traces_retries now traces tbl out tbl' :
  pg_retry_traces now traces tbl = (Ok out, tbl') ->
  forall i row, (tbl : gmap string TONTrace) !! i = Some row ->
  exists row', (tbl' : gmap string TONTrace) !! i = Some row' /\
    tt_retries row' = tt_retries row - Z.of_nat (length (costs i traces)).
Proof.
  unfold pg_retry_traces. revert tbl out.
  induction traces as [|t traces IH]; intros tbl out H i row Hi.
  { injection H as _ <-. exists row. split; [done|]. simpl. lia. }
  cbn [retry_traces] in H. unfold costs. rewrite filter_cons. fold (costs i traces).
  cbn [tt_is_incomplete TONTrace_from] in H. destruct (is_incomplete t) eqn:Et.
  - apply st_bind_Ok in H as (u & tbl1 & Hd & H).
    destruct (pg_decrease_ok _ _ _ _ Hd i row Hi) as (row1 & Hi1 & Hr1).
    destruct (IH _ _ H i row1 Hi1) as (row' & Hi' & Hr'). exists row'. split; [done|].
    cbn [tt_trace_id TONTrace_from] in Hr1. rewrite Hr', Hr1.
    destruct (decide (trace_id t = i)).
    + rewrite decide_True by done. cbn [length]. lia.
    + rewrite decide_False by tauto. lia.
  - apply st_bind_Ok in H as (changed & tbl1 & Hu & H).
    apply st_bind_Ok in H as (unseen & tbl2 & H & Heq). injection Heq as _ <-.
    destruct (pg_upsert_retries _ _ _ _ _ Hu i row Hi) as (row1 & Hi1 & Hr1).
    destruct (IH _ _ H i row1 Hi1) as (row' & Hi' & Hr'). exists row'. split; [done|].
    rewrite Hr', Hr1. rewrite decide_False; [done|]. intros [_ ?]. congruence.
Qed.

(** The rows are keyed by their trace. *)
Definition keyed (tbl : gmap string TONTrace) : Prop :=
  forall i row, tbl !! i = Some row -> tt_trace_id row = i.

Lemma pg_decrease_keyed tx tbl u tbl' :
  pg_decrease_retry fault tx tbl = (Ok u, tbl') -> keyed tbl -> keyed tbl'.
Proof.
  unfold pg_decrease_retry. rewrite pg_query_cases. destruct (fault _); [done|].
  intros [= _ <-] Hk i row. cbn [snd]. unfold pg_update.
  destruct (decide (tt_trace_id tx = i)) as [->|Hne]; [|rewrite lookup_alter_ne by done; apply Hk].
  rewrite lookup_alter_eq. destruct ((tbl : gmap string TONTrace) !! i) as [old|] eqn:E; [|done].
  intros [= <-]. exact (Hk _ _ E).
Qed.

Lemma pg_upsert_keyed now tx tbl r tbl' :
  pg_upsert fault now tx tbl = (Ok r, tbl') -> keyed tbl -> keyed tbl'.
Proof.
  unfold pg_upsert. rewrite pg_query_cases. destruct (fault _); [done|].
  intros [= _ <-] Hk i row.
  destruct ((tbl : gmap string TONTrace) !! tt_trace_id tx); [case_decide|]; cbn [snd];
    [|by apply Hk|]; (destruct (decide (tt_trace_id tx = i)) as [<-|Hne];
      [rewrite lookup_insert_eq; by intros [= <-]|rewrite lookup_insert_ne by done; apply Hk]).
Qed.

Lemma pg_retry_traces_keyed now traces tbl out tbl' :
  pg_retry_traces now traces tbl = (Ok out, tbl') -> keyed tbl -> keyed tbl'.
Proof.
  unfold pg_retry_traces. revert tbl out.
  induction traces as [|t traces IH]; intros tbl out H Hk.
  { injection H as _ <-. exact Hk. }
  cbn [retry_traces] in H. destruct (tt_is_incomplete _).
  - apply st_bind_Ok in H as (u & tbl1 & Hd & H). exact (IH _ _ H (pg_decrease_keyed _ _ _ _ Hd Hk)).
  - apply st_bind_Ok in H as (changed & tbl1 & Hu & H).
    apply st_bind_Ok in H as (unseen & tbl2 & H & Heq). injection Heq as _ <-.
    exact (IH _ _ H (pg_upsert_keyed _ _ _ _ _ Hu Hk)).
Qed.

(** ** The trace that becomes complete *)

(** What a response says about the trace [i]. *)
Definition about (i : string) (traces : list Trace) : list Trace :=
  filter (fun t => trace_id t = i) traces.

Lemma pg_upsert_ok now tx tbl r tbl' :
  pg_upsert fault now tx tbl = (Ok r, tbl') ->
  (exists row', (tbl' : gmap string TONTrace) !! tt_trace_id tx = Some row' /\
     content_of row' = content_of tx) /\
  (forall i, i <> tt_trace_id tx -> (tbl' : gmap string TONTrace) !! i = (tbl : gmap string TONTrace) !! i) /\
  (is_Some r <-> content_of <$> (tbl : gmap string TONTrace) !! tt_trace_id tx <> Some (content_of tx)).
Proof.
  unfold pg_upsert. rewrite pg_query_cases. destruct (fault _); [done|].
  intros [= <- <-]. destruct ((tbl : gmap string TONTrace) !! tt_trace_id tx) as [old|] eqn:E.
  - case_decide as Hd; rewrite changed_content in Hd; cbn [fst snd fmap option_fmap option_map].
    + rewrite lookup_insert_eq. split; [by eexists|].
      split; [intros i Hi; by rewrite lookup_insert_ne|]. split; [intros _ Heq; by apply (inj Some) in Heq|by eexists].
    + apply dec_stable in Hd. split; [exists old; split; [exact E|done]|]. split; [done|].
      rewrite Hd. split; [by intros []|done].
  - cbn [fst snd]. rewrite lookup_insert_eq. split; [by eexists|].
    split; [intros i Hi; by rewrite lookup_insert_ne|]. done.
Qed.

Lemma pg_decrease_frame tx tbl u tbl' i :
  pg_decrease_retry fault tx tbl = (Ok u, tbl') -> i <> tt_trace_id tx ->
  (tbl' : gmap string TONTrace) !! i = (tbl : gmap string TONTrace) !! i.
Proof.
  unfold pg_decrease_retry. rewrite pg_query_cases. destruct (fault _); [done|].
  intros [= _ <-] Hi. cbn [snd]. by apply lookup_alter_ne.
Qed.

(** The cases of the loop. *)
Lemma pg_retry_traces_cons now t traces tbl out tbl' :
  pg_retry_traces now (t :: traces) tbl = (Ok out, tbl') ->
  (is_incomplete t = true /\ exists u tbl1,
     pg_decrease_retry fault (TONTrace_from now t) tbl = (Ok u, tbl1) /\
     pg_retry_traces now traces tbl1 = (Ok out, tbl')) \/
  (is_incomplete t = false /\ exists changed tbl1 unseen,
     pg_upsert fault now (TONTrace_from now t) tbl = (Ok changed, tbl1) /\
     pg_retry_traces now traces tbl1 = (Ok unseen, tbl') /\
     out = if bool_decide (is_Some changed) then t :: unseen else unseen).
Proof.
  unfold pg_retry_traces. cbn [retry_traces]. cbn [tt_is_incomplete TONTrace_from].
  destruct (is_incomplete t) eqn:Et; intros H.
  - left. split; [done|]. apply st_bind_Ok in H as (u & tbl1 & Hd & H). by exists u, tbl1.
  - right. split; [done|]. apply st_bind_Ok in H as (changed & tbl1 & Hu & H).
    apply st_bind_Ok in H as (unseen & tbl2 & H & Heq). injection Heq as <- <-.
    exists changed, tbl1, unseen. split; [done|]. split; [done|].
    cbn [negb]. by rewrite andb_true_r.
Qed.

(** A response that says nothing of [i] leaves its row alone. *)
Lemma pg_retry_traces_frame now i traces tbl out tbl' :
  pg_retry_traces now traces tbl = (Ok out, tbl') -> about i traces = [] ->
  (tbl' : gmap string TONTrace) !! i = (tbl : gmap string TONTrace) !! i.
Proof.
  revert tbl out. induction traces as [|t traces IH]; intros tbl out H Ha.
  { by injection H as _ <-. }
  unfold about in Ha. rewrite filter_cons in Ha. case_decide as Hi; [done|].
  apply pg_retry_traces_cons in H as [(_ & u & tbl1 & Hd & H)|(_ & c & tbl1 & un & Hu & H & _)];
    rewrite (IH _ _ H Ha).
  - by eapply pg_decrease_frame.
  - by apply (pg_upsert_ok _ _ _ _ _ Hu).
Qed.

(** A response that says one thing of [i], whose row is incomplete: an
    incomplete trace costs a retry, a complete one is handed on. *)
Lemma pg_retry_traces_about now i t traces tbl out tbl' row :
  pg_retry_traces now traces tbl = (Ok out, tbl') -> about i traces = [t] ->
  (tbl : gmap string TONTrace) !! i = Some row -> tt_is_incomplete row = true ->
  if is_incomplete t
  then exists row', (tbl' : gmap string TONTrace) !! i = Some row' /\
    tt_is_incomplete row' = true /\ tt_retries row' = tt_retries row - 1
  else t ∈ out.
Proof.
  intros H Ha Hrow Hinc. revert tbl out H Ha Hrow.
  induction traces as [|t0 traces IH]; intros tbl out H Ha Hrow; [done|].
  unfold about in Ha. rewrite filter_cons in Ha.
  apply pg_retry_traces_cons in H as [(Ht & u & tbl1 & Hd & H)|(Ht & c & tbl1 & un & Hu & H & ->)];
    case_decide as Hi.
  - injection Ha as -> Ha. rewrite Ht.
    rewrite (pg_retry_traces_frame _ _ _ _ _ _ H Ha). unfold pg_decrease_retry in Hd.
    rewrite pg_query_cases in Hd. destruct (fault _); [done|]. injection Hd as _ <-.
    cbn [snd tt_trace_id TONTrace_from]. unfold pg_update. subst i.
    rewrite lookup_alter_eq, Hrow. by eexists.
  - eapply IH; [exact H|exact Ha|]. erewrite pg_decrease_frame; [exact Hrow|exact Hd|]. done.
  - injection Ha as -> Ha. rewrite Ht. apply pg_upsert_ok in Hu as (_ & _ & Hc).
    cbn [tt_trace_id TONTrace_from] in Hc. rewrite Hi, Hrow in Hc.
    rewrite bool_decide_eq_true_2; [by left|]. apply Hc.
    intros [= Heq _ _ _]. cbn in Heq. congruence.
  - destruct (pg_upsert_ok _ _ _ _ _ Hu) as (_ & Hf & _).
    specialize (IH tbl1 un H Ha). rewrite Hf in IH by done. specialize (IH Hrow).
    destruct (is_incomplete t); [done|]. case_bool_decide; [by right|done].
Qed.

(** ** Who is fetched *)

(** The rows that can be retried. *)
Definition retriables (tbl : gmap string TONTrace) : gset string :=
  dom (filter (fun kv => retriable kv.2) tbl).

Lemma elem_of_retriables i tbl :
  i ∈ retriables tbl <-> exists row, tbl !! i = Some row /\ retriable row.
Proof.
  unfold retriables. rewrite elem_of_dom. split.
  - intros [row Hr]. apply map_lookup_filter_Some in Hr as [H1 H2]. by exists row.
  - intros (row & H1 & H2). exists row. by apply map_lookup_filter_Some.
Qed.

Lemma retriables_size tbl : (size (retriables tbl) <= size tbl)%nat.
Proof.
  rewrite <- (size_dom tbl). apply subseteq_size. intros i (row & Hi & _)%elem_of_retriables.
  by eapply elem_of_dom_2.
Qed.

Lemma pg_fetched limit tbl rows row :
  fst (pg_fetch_retry fault limit tbl) = Ok rows -> row ∈ rows ->
  retriable row /\ exists i, (tbl : gmap string TONTrace) !! i = Some row.
Proof.
  intros Hf Hin. destruct (pg_fetch_retry fault limit tbl) as [r tbl'] eqn:E. cbn [fst] in Hf. subst r.
  destruct (pg_fetch_retry_spec _ _ _ _ _ E) as (_ & _ & Hspec). by apply Hspec.
Qed.

Lemma NoDup_fst_filter {K A} (P : K * A -> Prop) `{forall x, Decision (P x)} (l : list (K * A)) :
  NoDup (fst <$> l) -> NoDup (fst <$> filter P l).
Proof.
  induction l as [|[k a] l IH]; [done|]. rewrite fmap_cons, NoDup_cons. intros [Hk Hl].
  rewrite filter_cons. case_decide; [|by apply IH]. rewrite fmap_cons, NoDup_cons.
  split; [|by apply IH]. intros Hin. apply Hk.
  apply list_elem_of_fmap in Hin as ([k' a'] & Heq & Hin). apply list_elem_of_filter in Hin as [_ Hin].
  apply list_elem_of_fmap. by exists (k', a').
Qed.

(** With at most [limit] of them, each is fetched. *)
Lemma pg_fetch_retry_all limit tbl rows tbl' i row :
  pg_fetch_retry fault limit tbl = (Ok rows, tbl') -> Z.of_nat (size (retriables tbl)) <= limit ->
  (tbl : gmap string TONTrace) !! i = Some row -> retriable row -> row ∈ rows.
Proof.
  unfold pg_fetch_retry. rewrite pg_query_cases. destruct (fault _); [done|].
  intros [= <- _] Hsize Hi Hr. rewrite take_ge.
  - rewrite merge_sort_Permutation. apply list_elem_of_filter. split; [done|].
    apply list_elem_of_fmap. exists (i, row). split; [done|]. by apply elem_of_map_to_list.
  - rewrite merge_sort_Permutation. unfold retriables in Hsize. rewrite size_dom in Hsize.
    unfold trace_table in *.
    enough (length (filter retriable (map snd (map_to_list tbl))) =
      size (filter (fun kv => retriable kv.2) tbl)) as -> by lia.
    rewrite <- length_map_to_list, map_filter_alt, map_to_list_to_map.
    + generalize (map_to_list tbl). clear. induction l as [|[k row] l IH]; [done|].
      cbn [map]. rewrite !filter_cons. cbn [snd].
      destruct (decide (retriable row)), (decide (retriable (k, row).2)); cbn [length]; try done.
      by rewrite IH.
    + apply NoDup_fst_filter, NoDup_fst_map_to_list.
Qed.

(** A retry makes no row retriable. *)
Lemma pg_retry_traces_retriables now traces tbl out tbl' :
  pg_retry_traces now traces tbl = (Ok out, tbl') -> retriables tbl' ⊆ retriables tbl.
Proof.
  revert tbl out. induction traces as [|t traces IH]; intros tbl out H.
  { by injection H as _ <-. }
  apply pg_retry_traces_cons in H as [(_ & u & tbl1 & Hd & H)|(Ht & c & tbl1 & un & Hu & H & _)];
    (etransitivity; [by eapply IH|]); intros i; rewrite !elem_of_retriables; intros (row & Hi & Hr).
  - destruct (decide (i = trace_id t)) as [->|Hne].
    + unfold pg_decrease_retry in Hd. rewrite pg_query_cases in Hd. destruct (fault _); [done|].
      injection Hd as _ <-. cbn [snd tt_trace_id TONTrace_from] in Hi. unfold pg_update in Hi.
      rewrite lookup_alter_eq in Hi. apply fmap_Some in Hi as (old & -> & ->). exists old.
      split; [done|]. destruct Hr as [Hr1 Hr2]. split; [cbn in Hr1; lia|done].
    + rewrite (pg_decrease_frame _ _ _ _ _ Hd) in Hi by done. by exists row.
  - destruct (pg_upsert_ok _ _ _ _ _ Hu) as ((row' & Hrow' & Hc) & Hf & _).
    destruct (decide (i = trace_id t)) as [->|Hne]; [|rewrite Hf in Hi by done; by exists row].
    cbn [tt_trace_id TONTrace_from] in Hrow'. rewrite Hrow' in Hi. injection Hi as ->.
    destruct Hr as [_ Hr]. injection Hc as Hc _ _ _. cbn in Hc. congruence.
Qed.

(** ** Polls of the retrying subscriber *)

Context {N : Type} {RC : RestClient N}.

Definition pg_retry_poll (now : Z) (account : TonAddress)
    : st (RetryTONSubscriber N trace_table) PollError (list Trace) :=
  @retry_poll_account _ _ _ _ _ (pg_atomic_upsert fault) (pg_retriable fault) now account.

(** A successful poll, in its parts. *)
Lemma pg_retry_poll_Ok now account (self self' : RetryTONSubscriber N trace_table) out :
  pg_retry_poll now account self = (Ok out, self') ->
  exists rows, fst (pg_fetch_retry fault 100 (retry_model self)) = Ok rows /\
    ((rows = [] /\ out = [] /\ self' = self) \/
     exists traces, 
       get_traces_for_account None (Some (map tt_trace_id rows)) None (retry_client self) =
         (Ok traces, retry_client self') /\
       pg_retry_traces now traces (retry_model self) = (Ok out, retry_model self')).
Proof.
  unfold pg_retry_poll, retry_poll_account. cbn [fetch_retry pg_retriable].
  destruct (pg_fetch_retry fault 100 (retry_model self)) as [[rows|e|] m] eqn:Hf; [|done..].
  destruct (pg_fetch_retry_spec _ _ _ _ _ Hf) as (-> & _). intros H. exists rows. split; [done|].
  destruct rows as [|r rows'] eqn:Er.
  { left. injection H as <- <-. split_and!; [done..|]. by destruct self. }
  right. rewrite <- Er in *. clear Er.
  destruct (get_traces_for_account _ _ _ _) as [[traces|e|] n] eqn:Hg; [|done..].
  change (retry_traces now traces (retry_model self)) with (pg_retry_traces now traces (retry_model self)) in H.
  destruct (pg_retry_traces now traces (retry_model self)) as [[o|e|] m'] eqn:Ht; [|done..].
  injection H as <- <-. by exists traces.
Qed.

(** The next poll fetches the trace [i] for a retry. *)
Definition fetched (i : string) (m : gmap string TONTrace) : bool :=
  match fst (pg_fetch_retry fault 100 m) with
  | Ok rows => bool_decide (i ∈ map tt_trace_id rows)
  | _ => false
  end.

(** A run of successful polls, at given times, and how often it fetched [i]. *)
Fixpoint retry_polls (i : string) (rounds : list (Z * TonAddress))
    : st (RetryTONSubscriber N trace_table) PollError nat :=
  match rounds with
  | [] => st_ret 0%nat
  | (now, account) :: rounds' =>
      let! self := st_get in
      do! pg_retry_poll now account in
      let! n := retry_polls i rounds' in
      st_ret ((if fetched i (retry_model self) then 1 else 0) + n)%nat
  end.

(** One successful poll: the trace [i] loses a retry when it was fetched and
    the client, whenever it is asked for it, answers that it is incomplete. *)
Lemma retry_poll_step now account i (self self' : RetryTONSubscriber N trace_table) out row :
  (forall n ids traces n', i ∈ ids ->
     get_traces_for_account None (Some ids) None n = (Ok traces, n') -> costs i traces <> []) ->
  keyed (retry_model self) -> (retry_model self : gmap string TONTrace) !! i = Some row ->
  pg_retry_poll now account self = (Ok out, self') ->
  keyed (retry_model self') /\
  exists row', (retry_model self' : gmap string TONTrace) !! i = Some row' /\
    (if fetched i (retry_model self)
     then 0 < tt_retries row /\ tt_retries row' <= tt_retries row - 1
     else tt_retries row' <= tt_retries row).
Proof.
  intros Hclient Hk Hi Hp. unfold fetched.
  destruct (pg_retry_poll_Ok _ _ _ _ _ Hp) as (rows & Hf & Hcase). rewrite Hf.
  destruct Hcase as [(-> & _ & ->)|(traces & Hg & Ht)].
  { split; [done|]. exists row. split; [done|]. rewrite bool_decide_eq_false_2; [lia|apply not_elem_of_nil]. }
  split; [by eapply pg_retry_traces_keyed|].
  destruct (pg_retry_traces_retries _ _ _ _ _ Ht i row Hi) as (row' & Hi' & Hr').
  exists row'. split; [done|]. case_bool_decide as Hin; [|lia].
  pose proof (Hclient _ _ _ _ Hin Hg) as Hcosts. split.
  - apply list_elem_of_fmap in Hin as (r & -> & Hr).
    destruct (pg_fetched _ _ _ _ Hf Hr) as ([Hpos _] & k & Hkr). pose proof (Hk _ _ Hkr). subst k.
    unfold trace_table in *. rewrite Hi in Hkr. injection Hkr as ->. lia.
  - destruct (costs i traces); [done|]. cbn [length] in Hr'. lia.
Qed.

(** Retrying ends: over any run of successful polls, a trace that the
    client reports incomplete whenever it is asked for it is fetched for a
    retry at most as often as it has retries left. *)
Theorem retries_end i rounds (self self' : RetryTONSubscriber N trace_table) n row :
  (forall n ids traces n', i ∈ ids ->
     get_traces_for_account None (Some ids) None n = (Ok traces, n') -> costs i traces <> []) ->
  keyed (retry_model self) -> (retry_model self : gmap string TONTrace) !! i = Some row ->
  retry_polls i rounds self = (Ok n, self') ->
  Z.of_nat n <= Z.max 0 (tt_retries row).
Proof.
  intros Hclient. revert self n row.
  induction rounds as [|[now account] rounds IH]; intros self n row Hk Hi H.
  { injection H as <- _. lia. }
  cbn [retry_polls] in H. rewrite st_bind_run in H. cbv [st_get] in H.
  apply st_bind_Ok in H as (out & self1 & Hp & H). apply st_bind_Ok in H as (k & self2 & H & Heq).
  injection Heq as <- <-.
  destruct (retry_poll_step _ _ _ _ _ _ _ Hclient Hk Hi Hp) as (Hk1 & row1 & Hi1 & Hr).
  specialize (IH _ _ _ Hk1 Hi1 H). unfold trace_table in *. destruct (fetched i (retry_model self)); lia.
Qed.

(** ** A trace that becomes complete in time is handed on *)

(** All that a run of successful polls hands on. *)
Fixpoint retry_outs (rounds : list (Z * TonAddress))
    : st (RetryTONSubscriber N trace_table) PollError (list Trace) :=
  match rounds with
  | [] => st_ret []
  | (now, account) :: rounds' =>
      let! out := pg_retry_poll now account in
      let! outs := retry_outs rounds' in
      st_ret (out ++ outs)
  end.

(** The client will answer [pending n] more times that [i] is incomplete, and
    then that it is complete. *)
Definition completes (i : string) (pending : N -> nat) : Prop :=
  forall n ids traces n', i ∈ ids ->
    get_traces_for_account None (Some ids) None n = (Ok traces, n') ->
    exists t, about i traces = [t] /\ pending n' = pred (pending n) /\
      (is_incomplete t = true <-> (0 < pending n)%nat).

(** Liveness of the retries: with at most a hundred rows to retry, an
    incomplete trace that becomes complete before its retries run out is
    handed on by the polls, as soon as [pending] of them and one more have
    succeeded. *)
Theorem retried_trace_handed_on i pending rounds (self self' : RetryTONSubscriber N trace_table)
    outs row :
  completes i pending -> keyed (retry_model self) ->
  (retry_model self : gmap string TONTrace) !! i = Some row -> tt_is_incomplete row = true ->
  Z.of_nat (pending (retry_client self)) < tt_retries row ->
  Z.of_nat (size (retriables (retry_model self))) <= 100 ->
  (pending (retry_client self) < length rounds)%nat ->
  retry_outs rounds self = (Ok outs, self') ->
  exists t, t ∈ outs /\ trace_id t = i /\ is_incomplete t = false.
Proof.
  intros Hcl. revert self outs row.
  induction rounds as [|[now account] rounds IH]; intros self outs row Hk Hi Hinc Hret Hsize Hlen H.
  { cbn in Hlen. lia. }
  cbn [retry_outs] in H. apply st_bind_Ok in H as (out & self1 & Hp & H).
  apply st_bind_Ok in H as (outs' & self2 & H & Heq). injection Heq as <- <-.
  destruct (pg_retry_poll_Ok _ _ _ _ _ Hp) as (rows & Hf & Hcase).
  assert (Hin : row ∈ rows).
  { eapply pg_fetch_retry_all; [|exact Hsize|exact Hi|split; [lia|done]].
    rewrite <- Hf. apply surjective_pairing. }
  destruct Hcase as [(-> & _)|(traces & Hg & Ht)]; [by apply not_elem_of_nil in Hin|].
  destruct (Hcl _ _ _ _ (list_elem_of_fmap_2' tt_trace_id _ _ _ Hin (eq_sym (Hk _ _ Hi))) Hg)
    as (t & Ha & Hpend & Ht').
  pose proof (pg_retry_traces_about _ _ _ _ _ _ _ _ Ht Ha Hi Hinc) as Hone.
  destruct (is_incomplete t) eqn:Et.
  - destruct Hone as (row' & Hi' & Hinc' & Hret'). apply proj1 in Ht'. specialize (Ht' eq_refl).
    destruct (IH self1 outs' row') as (u & Hu & Hu'); try done.
    + by eapply pg_retry_traces_keyed.
    + lia.
    + pose proof (subseteq_size _ _ (pg_retry_traces_retriables _ _ _ _ _ Ht)). lia.
    + cbn [length] in Hlen. lia.
    + exists u. split; [|done]. apply elem_of_app. by right.
  - exists t. split; [apply elem_of_app; by left|]. split; [|done].
    assert (Hint : t ∈ about i traces) by (rewrite Ha; by left).
    by apply list_elem_of_filter in Hint as [? _].
Qed.

(** A failed query loses a trace for good: when storing the first trace of
    a response succeeds and storing the second fails, the poll is an error that
    hands on nothing; but the first trace is stored as complete, so it is not
    fetched for a retry again. *)
Theorem retry_loses_trace now account (self : RetryTONSubscriber N trace_table) rows t u traces n e :
  keyed (retry_model self) -> pg_fetch_retry fault 100 (retry_model self) = (Ok rows, retry_model self) ->
  rows <> [] ->
  get_traces_for_account None (Some (map tt_trace_id rows)) None (retry_client self) =
    (Ok (t :: u :: traces), n) ->
  is_incomplete t = false -> is_incomplete u = false ->
  fault (OpUpsert (trace_id t)) = None -> fault (OpUpsert (trace_id u)) = Some e ->
  exists self', pg_retry_poll now account self = (Err (PollModel e), self') /\
    stored (AtomicUpsert := pg_atomic_upsert fault) (retry_model self') (trace_id t) =
      Some (trace_content t) /\
    forall limit rows', fst (pg_fetch_retry fault limit (retry_model self')) = Ok rows' ->
      trace_id t ∉ map tt_trace_id rows'.
Proof.
  intros Hk Hf Hne Hg Ht Hu Hft Hfu. unfold pg_retry_poll, retry_poll_account.
  cbn [fetch_retry pg_retriable]. rewrite Hf. destruct rows as [|r rows]; [done|]. rewrite Hg.
  cbn [retry_traces tt_is_incomplete TONTrace_from]. rewrite Ht, Hu. unfold st_bind.
  cbn [upsert_and_return_if_changed pg_atomic_upsert].
  destruct (pg_upsert fault now (TONTrace_from now t) (retry_model self)) as [[c|e'|] tbl1] eqn:Eu;
    [|unfold pg_upsert in Eu; rewrite pg_query_cases in Eu; cbn [tt_trace_id TONTrace_from] in Eu;
      rewrite Hft in Eu; done..].
  unfold pg_upsert at 1. rewrite pg_query_cases. cbn [tt_trace_id TONTrace_from]. rewrite Hfu.
  eexists. split; [done|]. cbn [retry_model map_err].
  destruct (pg_upsert_ok _ _ _ _ _ Eu) as ((row & Hrow & Hc) & _ & _).
  cbn [tt_trace_id TONTrace_from] in Hrow. split.
  { cbn [stored pg_atomic_upsert]. rewrite Hrow.
    cbn [fmap option_fmap option_map]. by rewrite Hc. }
  intros limit rows' Hf' Hin. apply list_elem_of_fmap in Hin as (row' & Hid & Hin).
  destruct (pg_fetched _ _ _ _ Hf' Hin) as ([_ Hinc] & k & Hk').
  pose proof (pg_upsert_keyed _ _ _ _ _ Eu Hk _ _ Hk') as Hkk.
  unfold trace_table in *. rewrite Hid, Hkk, Hk' in Hrow. injection Hrow as ->.
  injection Hc as Hc _ _ _. cbn in Hc. congruence.
Qed.
End RetryProofs.

(** ** Applications at concrete inputs *)

From S2P Require Import Instances.

Definition example_row_b : TONTrace := {|
  tt_trace_id := "b"; tt_is_incomplete := true; tt_start_lt := 3; tt_end_lt := 9;
  tt_retries := 2; tt_transactions := []; tt_events := None; tt_created_at := 0;
  tt_updated_at := None |}.

Definition example_table : gmap string TONTrace := {["b" := example_row_b]}.

(** A client that knows one trace, incomplete. *)
#[export] Instance stuck_client : RestClient unit := {|
  post_v3_message boc := st_err (BadResponse "no message");
  get_traces_for_account account ids start := st_ret [example_trace "b" true 3 9];
  get_account_states l := st_err (BadResponse "no states");
|}.

Definition example_retry : RetryTONSubscriber unit trace_table :=
  {| retry_client := tt; retry_model := example_table |}.

Definition example_retry_run : res PollError nat * RetryTONSubscriber unit trace_table :=
  retry_polls pg_no_fault "b" [(1, ton_zero); (2, ton_zero); (3, ton_zero)] example_retry.

Lemma example_retry_ok : fst example_retry_run = Ok 2%nat.
Proof. by vm_compute. Qed.

Lemma example_keyed : keyed example_table.
Proof. intros i row Hi. unfold example_table in Hi. by apply lookup_singleton_Some in Hi as [<- <-]. Qed.

Lemma retries_end_witness : Z.of_nat 2 <= Z.max 0 2.
Proof.
  refine (retries_end pg_no_fault "b" [(1, ton_zero); (2, ton_zero); (3, ton_zero)] example_retry
    (snd example_retry_run) 2 _ _ example_keyed eq_refl _).
  - intros n ids traces n' _ [= <- _]. discriminate.
  - rewrite <- example_retry_ok. apply surjective_pairing.
Defined.

(** A client that knows one trace, incomplete [n] more times. *)
#[export] Instance countdown_client : RestClient nat := {|
  post_v3_message boc := st_err (BadResponse "no message");
  get_traces_for_account account ids start n :=
    (Ok [example_trace "b" (negb (Nat.eqb n 0)) 3 9], pred n);
  get_account_states l := st_err (BadResponse "no states");
|}.

Definition example_countdown : RetryTONSubscriber nat trace_table :=
  {| retry_client := 1%nat; retry_model := example_table |}.

Definition example_countdown_run : res PollError (list Trace) * RetryTONSubscriber nat trace_table :=
  retry_outs pg_no_fault [(1, ton_zero); (2, ton_zero)] example_countdown.

Lemma example_countdown_ok : fst example_countdown_run = Ok [example_trace "b" false 3 9].
Proof. reflexivity. Qed.

Lemma countdown_completes : completes (N := nat) "b" (fun n => n).
Proof.
  intros n ids traces n' _ [= <- <-]. eexists. split; [done|]. split; [done|].
  destruct n; cbn; split; (lia || done).
Qed.

Lemma retried_trace_handed_on_witness :
  exists t, t ∈ [example_trace "b" false 3 9] /\ trace_id t = "b" /\ is_incomplete t = false.
Proof.
  refine (retried_trace_handed_on pg_no_fault "b" (fun n => n) [(1, ton_zero); (2, ton_zero)]
    example_countdown (snd example_countdown_run) _ _ countdown_completes example_keyed
    (lookup_singleton_eq _ _) eq_refl ltac:(done) _ ltac:(cbn; lia) _).
  - pose proof (retriables_size example_table) as Hs.
    unfold example_table in Hs at 2. rewrite map_size_singleton in Hs. cbn [retry_model example_countdown]. lia.
  - rewrite <- example_countdown_ok. apply surjective_pairing.
Defined.

Definition fault_on_u (op : trace_op) : option ferr :=
  match op with
  | OpUpsert id => if String.eqb id "u" then Some (ferr0 "connection lost") else None
  | _ => None
  end.

Definition example_two : RetryTONSubscriber (list (list Trace)) trace_table :=
  {| retry_client := [[example_trace "b" false 3 9; example_trace "u" false 4 5]];
     retry_model := example_table |}.

Lemma example_fetch :
  pg_fetch_retry fault_on_u 100 example_table = (Ok [example_row_b], example_table).
Proof. reflexivity. Qed.

Lemma retry_loses_trace_witness :
  exists self', pg_retry_poll (N := list (list Trace)) fault_on_u 5 ton_zero example_two =
      (Err (PollModel (ferr0 "connection lost")), self') /\
    stored (AtomicUpsert := pg_atomic_upsert fault_on_u) (retry_model self') "b" =
      Some (trace_content (example_trace "b" false 3 9)) /\
    forall limit rows', fst (pg_fetch_retry fault_on_u limit (retry_model self')) = Ok rows' ->
      "b" ∉ map tt_trace_id rows'.
Proof.
  exact (retry_loses_trace (N := list (list Trace)) fault_on_u 5 ton_zero example_two [example_row_b]
    (example_trace "b" false 3 9) (example_trace "u" false 4 5) [] [] (ferr0 "connection lost")
    example_keyed example_fetch ltac:(discriminate) eq_refl eq_refl eq_refl eq_refl eq_refl).
Defined.
