(* ===== verification/RetryQueue.v ===== *)
(** * The retry queue as a whole

    [fetch_retry] takes a hundred rows at a time.  When the client answers for
    every trace it is asked about, the queue drains whatever its length: each
    trace is handed on or uses up its retries.  A trace the client does not
    answer for costs nothing, stays in front, and holds up the others. *)

From Stdlib Require Import ZArith Lia Strings.Byte Strings.Ascii.
From stdpp Require Import base strings gmap sorting list.
From S2P Require Import Prelude RustStd Foreign Types Client TraceStore Subscriber RetryProofs.

Section RetryQueue.
Context {TAL : TonAddressLib} {JL : JsonLib} {N : Type} {RC : RestClient N}.
Context (fault : trace_op -> option ferr).

(** The client answers a request for ids with one trace for each of them, and
    no other. *)
Definition answers_all : Prop := forall ids n traces n',
  get_traces_for_account (N := N) None (Some ids) None n = (Ok traces, n') ->
  forall i, if decide (i ∈ ids) then exists t, about i traces = [t] else about i traces = [].

(** The retries the row of [i] still has, when it can be retried. *)
Definition left (tbl : gmap string TONTrace) (i : string) : Z :=
  match tbl !! i with
  | Some row => if decide (retriable row) then tt_retries row else 0
  | None => 0
  end.

(** All the retries that are left. *)
Definition total_left (tbl : gmap string TONTrace) : Z :=
  sumZ (map (left tbl) (elements (retriables tbl))).

Lemma left_nonneg tbl i : 0 <= left tbl i.
Proof. unfold left. case_match; [|done]. case_decide as Hr; [|done]. destruct Hr. lia. Qed.

Lemma left_retriable tbl i : 0 < left tbl i <-> i ∈ retriables tbl.
Proof.
  rewrite elem_of_retriables. unfold left. split.
  - case_match eqn:E; [|lia]. case_decide as Hr; [|lia]. by eexists.
  - intros (row & -> & Hr). rewrite decide_True by done. destruct Hr. lia.
Qed.

(** ** One poll *)

Lemma pg_retry_left now traces tbl out tbl' i :
  pg_retry_traces fault now traces tbl = (Ok out, tbl') -> left tbl' i <= left tbl i.
Proof.
  intros H. destruct (decide (i ∈ retriables tbl')) as [Hi|Hi].
  2:{ rewrite <- left_retriable in Hi. pose proof (left_nonneg tbl i). lia. }
  pose proof (pg_retry_traces_retriables _ _ _ _ _ _ H i Hi) as Hi0.
  apply elem_of_retriables in Hi0 as (row & Hrow & Hr).
  destruct (pg_retry_traces_retries _ _ _ _ _ _ H i row Hrow) as (row' & Hrow' & Hret).
  unfold left. unfold trace_table in *. rewrite Hrow, Hrow', (decide_True (P := retriable row)) by done.
  destruct Hr. case_decide; lia.
Qed.

(** A response with a complete trace leaves its row complete. *)
Lemma pg_retry_complete now i t traces tbl out tbl' :
  pg_retry_traces fault now traces tbl = (Ok out, tbl') -> about i traces = [t] ->
  is_incomplete t = false ->
  exists row, (tbl' : gmap string TONTrace) !! i = Some row /\ tt_is_incomplete row = false.
Proof.
  intros H Ha Ht. revert tbl out H Ha. induction traces as [|t0 traces IH]; intros tbl out H Ha; [done|].
  unfold about in Ha. rewrite filter_cons in Ha.
  apply pg_retry_traces_cons in H as [(Ht0 & u & tbl1 & Hd & H)|(Ht0 & c & tbl1 & un & Hu & H & _)];
    case_decide as Hi; [injection Ha as -> Ha; congruence|by eapply IH| |by eapply IH].
  injection Ha as -> Ha. rewrite (pg_retry_traces_frame _ _ _ _ _ _ _ H Ha).
  destruct (pg_upsert_ok _ _ _ _ _ _ Hu) as ((row & Hrow & Hc) & _). subst i.
  exists row. split; [done|]. injection Hc as Hc _ _ _. by rewrite Hc.
Qed.

(** A trace that was asked for has fewer retries left after the poll. *)
Lemma pg_retry_left_asked now i t traces tbl out tbl' :
  pg_retry_traces fault now traces tbl = (Ok out, tbl') -> about i traces = [t] ->
  i ∈ retriables tbl -> left tbl' i < left tbl i.
Proof.
  intros H Ha Hi. pose proof (proj2 (left_retriable tbl i) Hi) as Hpos.
  apply elem_of_retriables in Hi as (row & Hrow & Hr). destruct (is_incomplete t) eqn:Et.
  - pose proof (pg_retry_traces_about _ _ _ _ _ _ _ _ _ H Ha Hrow (proj2 Hr)) as Hone.
    rewrite Et in Hone. destruct Hone as (row' & Hrow' & _ & Hret). unfold left.
    unfold trace_table in *. rewrite Hrow, Hrow', (decide_True (P := retriable row)) by done.
    destruct Hr. case_decide; lia.
  - destruct (pg_retry_complete _ _ _ _ _ _ _ H Ha Et) as (row' & Hrow' & Hc).
    unfold left at 1. unfold trace_table in *. rewrite Hrow', decide_False; [done|].
    intros [_ ?]. congruence.
Qed.

(** Some row is fetched as long as one can be. *)
Lemma pg_fetch_some tbl rows :
  fst (pg_fetch_retry fault 100 tbl) = Ok rows -> retriables tbl <> ∅ -> rows <> [].
Proof.
  unfold pg_fetch_retry. rewrite pg_query_cases. destruct (fault _); [done|].
  intros [= <-] Hne Hnil. apply Hne. apply elem_of_equiv_empty_L. intros i Hi.
  apply elem_of_retriables in Hi as (row & Hrow & Hr).
  assert (Hin : row ∈ merge_sort updated_le (filter retriable (map snd (map_to_list tbl)))).
  { rewrite merge_sort_Permutation. apply list_elem_of_filter. split; [done|].
    apply list_elem_of_fmap. exists (i, row). split; [done|].
    by apply (elem_of_map_to_list (M := gmap string)). }
  destruct (merge_sort _ _); [by apply not_elem_of_nil in Hin|done].
Qed.

(** Sums over a list that go down in one place. *)
Lemma sumZ_lt (f g : string -> Z) (l : list string) i :
  (forall j, f j <= g j) -> i ∈ l -> f i < g i -> sumZ (map f l) < sumZ (map g l).
Proof.
  intros Hle Hi Hlt. assert (Hall : forall l, sumZ (map f l) <= sumZ (map g l)).
  { induction l0 as [|j l0 IH]; [done|]. cbn. specialize (Hle j). unfold sumZ in IH. lia. }
  induction l as [|j l IH]; [by apply not_elem_of_nil in Hi|]. cbn. fold (sumZ (map f l)) (sumZ (map g l)).
  apply elem_of_cons in Hi as [<-|Hi]; [specialize (Hall l); lia|].
  specialize (IH Hi). specialize (Hle j). lia.
Qed.

(** What a successful poll does to the trace [i]: it is handed on, or it stays
    incomplete. *)
Lemma retry_poll_either now account i row (self self' : RetryTONSubscriber N trace_table) out :
  answers_all -> keyed (retry_model self) ->
  pg_retry_poll fault now account self = (Ok out, self') ->
  (retry_model self : gmap string TONTrace) !! i = Some row -> tt_is_incomplete row = true ->
  (exists t, t ∈ out /\ trace_id t = i /\ is_incomplete t = false) \/
  (exists row', (retry_model self' : gmap string TONTrace) !! i = Some row' /\
     tt_is_incomplete row' = true).
Proof.
  intros Hcl Hk Hp Hrow Hinc.
  destruct (pg_retry_poll_Ok _ _ _ _ _ _ Hp) as (rows & Hf & [(-> & _ & ->)|(traces & Hg & Ht)]);
    [right; by exists row|].
  specialize (Hcl _ _ _ _ Hg i). case_decide as Hin.
  - destruct Hcl as [t Ha].
    pose proof (pg_retry_traces_about _ _ _ _ _ _ _ _ _ Ht Ha Hrow Hinc) as Hone.
    destruct (is_incomplete t) eqn:Et.
    + right. destruct Hone as (row' & Hrow' & Hinc' & _). by exists row'.
    + left. exists t. split; [done|]. split; [|done].
      assert (Hint : t ∈ about i traces) by (rewrite Ha; by left).
      by apply list_elem_of_filter in Hint as [? _].
  - right. exists row. rewrite (pg_retry_traces_frame _ _ _ _ _ _ _ Ht Hcl). done.
Qed.

(** A successful poll uses up a retry, if there is one left. *)
Lemma retry_poll_left now account D (self self' : RetryTONSubscriber N trace_table) out :
  answers_all -> keyed (retry_model self) ->
  pg_retry_poll fault now account self = (Ok out, self') ->
  retriables (retry_model self) ⊆ list_to_set D ->
  keyed (retry_model self') /\ retriables (retry_model self') ⊆ list_to_set D /\
  (retriables (retry_model self) = ∅ /\ retriables (retry_model self') = ∅ \/
   sumZ (map (left (retry_model self')) D) < sumZ (map (left (retry_model self)) D)).
Proof.
  intros Hcl Hk Hp HD.
  destruct (pg_retry_poll_Ok _ _ _ _ _ _ Hp) as (rows & Hf & [(-> & _ & ->)|(traces & Hg & Ht)]).
  { split_and!; [done..|]. left. destruct (decide (retriables (retry_model self) = ∅)); [done|].
    by destruct (pg_fetch_some _ _ Hf). }
  pose proof (pg_retry_traces_retriables _ _ _ _ _ _ Ht) as Hsub.
  split; [by eapply pg_retry_traces_keyed|]. split; [set_solver|].
  destruct (decide (retriables (retry_model self) = ∅)) as [He|He]; [left; set_solver|right].
  pose proof (pg_fetch_some _ _ Hf He) as Hne. destruct rows as [|r rows]; [done|].
  destruct (pg_fetched _ _ _ _ r Hf) as (Hr & k & Hrow); [by left|].
  pose proof (Hk _ _ Hrow) as Hid. specialize (Hcl _ _ _ _ Hg k).
  rewrite decide_True in Hcl by (rewrite <- Hid; apply list_elem_of_fmap_2; by left).
  destruct Hcl as [t Ha].
  assert (Hin : k ∈ retriables (retry_model self)) by (apply elem_of_retriables; by exists r).
  apply (sumZ_lt _ _ _ k); [intros j; by eapply pg_retry_left| |by eapply pg_retry_left_asked].
  apply HD in Hin. by apply elem_of_list_to_set in Hin.
Qed.

(** ** The queue drains *)

Lemma retry_outs_drain D rounds (self self' : RetryTONSubscriber N trace_table) outs :
  answers_all -> keyed (retry_model self) -> retriables (retry_model self) ⊆ list_to_set D ->
  sumZ (map (left (retry_model self)) D) <= Z.of_nat (length rounds) ->
  retry_outs fault rounds self = (Ok outs, self') ->
  retriables (retry_model self') = ∅ /\
  forall i row, (retry_model self : gmap string TONTrace) !! i = Some row -> tt_is_incomplete row = true ->
    (exists t, t ∈ outs /\ trace_id t = i /\ is_incomplete t = false) \/
    (exists row', (retry_model self' : gmap string TONTrace) !! i = Some row' /\
       tt_is_incomplete row' = true).
Proof.
  intros Hcl. revert self outs.
  induction rounds as [|[now account] rounds IH]; intros self outs Hk HD Hlen H.
  - injection H as <- <-. split; [|intros i row Hi Hinc; right; by exists row].
    apply elem_of_equiv_empty_L. intros i Hi. pose proof (HD i Hi) as Hin.
    apply elem_of_list_to_set in Hin. apply left_retriable in Hi. cbn in Hlen.
    pose proof (sumZ_lt (fun _ => 0) (left (retry_model self)) D i (left_nonneg _) Hin Hi) as Hlt.
    assert (Hz : forall l : list string, sumZ (map (fun _ => 0) l) = 0) by (induction l; done).
    rewrite Hz in Hlt. lia.
  - cbn [retry_outs] in H. apply st_bind_Ok in H as (out & self1 & Hp & H).
    apply st_bind_Ok in H as (outs' & self2 & H & Heq). injection Heq as <- <-.
    destruct (retry_poll_left _ _ D _ _ _ Hcl Hk Hp HD) as (Hk1 & HD1 & Hleft).
    cbn [length] in Hlen. destruct (IH self1 outs' Hk1 HD1) as [Hempty Heither]; [|done|].
    + destruct Hleft as [[_ He]|Hlt]; [|lia].
      assert (Hz : forall l, (forall j, j ∈ l -> left (retry_model self1) j = 0) ->
        sumZ (map (left (retry_model self1)) l) = 0).
      { induction l as [|j l IHl]; [done|]. intros Hj. cbn. fold (sumZ (map (left (retry_model self1)) l)).
        rewrite IHl, (Hj j); [done|by left|]. intros k Hk'. apply Hj. by right. }
      rewrite Hz; [lia|]. intros j _. pose proof (left_nonneg (retry_model self1) j).
      destruct (decide (0 < left (retry_model self1) j)) as [Hj|]; [|lia].
      apply left_retriable in Hj. set_solver.
    + split; [done|]. intros i row Hi Hinc.
      destruct (retry_poll_either _ _ i row _ _ _ Hcl Hk Hp Hi Hinc) as [(t & Ht & Hid)|(row1 & Hi1 & Hinc1)].
      { left. exists t. split; [apply elem_of_app; by left|done]. }
      destruct (Heither i row1 Hi1 Hinc1) as [(t & Ht & Hid)|Hr]; [|by right].
      left. exists t. split; [apply elem_of_app; by right|done].
Qed.

(** C21. The retry queue drains, whatever its length: when the client answers
    for every trace it is asked about, then after as many successful polls as
    there are retries left in all the rows, each incomplete trace was handed on,
    or is still incomplete and has no retries left. *)
Theorem retry_queue_drains rounds (self self' : RetryTONSubscriber N trace_table) outs i row :
  answers_all -> keyed (retry_model self) ->
  total_left (retry_model self) <= Z.of_nat (length rounds) ->
  retry_outs fault rounds self = (Ok outs, self') ->
  (retry_model self : gmap string TONTrace) !! i = Some row -> tt_is_incomplete row = true ->
  (exists t, t ∈ outs /\ trace_id t = i /\ is_incomplete t = false) \/
  (exists row', (retry_model self' : gmap string TONTrace) !! i = Some row' /\
     tt_is_incomplete row' = true /\ tt_retries row' <= 0).
Proof.
  intros Hcl Hk Hlen H Hi Hinc.
  destruct (retry_outs_drain (elements (retriables (retry_model self))) rounds self self' outs Hcl Hk)
    as [Hempty Heither]; [set_solver|done|done|].
  destruct (Heither i row Hi Hinc) as [Ht|(row' & Hi' & Hinc')]; [by left|right].
  exists row'. split_and!; [done..|]. destruct (decide (tt_retries row' <= 0)); [done|].
  assert (i ∈ retriables (retry_model self')); [|set_solver].
  apply elem_of_retriables. exists row'. split; [done|]. split; [lia|done].
Qed.

(** ** The queue blocks *)

(** Traces the client does not answer for cost no retry and stay in front:
    when the fetched rows are such, every later poll fetches the same rows,
    changes nothing and hands on nothing; a row behind them, however many
    retries it has and whatever became of its trace, is never retried.  Rows
    that the query leaves equal in its order are taken in the same order by
    every poll. *)
Theorem unanswered_traces_block rounds rows (self self' : RetryTONSubscriber N trace_table) outs :
  (forall n n' traces, get_traces_for_account None (Some (map tt_trace_id rows)) None n = (Ok traces, n') ->
     traces = []) ->
  rows <> [] -> fst (pg_fetch_retry fault 100 (retry_model self)) = Ok rows ->
  retry_outs fault rounds self = (Ok outs, self') ->
  outs = [] /\ retry_model self' = retry_model self.
Proof.
  intros Hcl Hne. revert self outs.
  induction rounds as [|[now account] rounds IH]; intros self outs Hf H.
  { by injection H as <- <-. }
  cbn [retry_outs] in H. apply st_bind_Ok in H as (out & self1 & Hp & H).
  apply st_bind_Ok in H as (outs' & self2 & H & Heq). injection Heq as <- <-.
  destruct (pg_retry_poll_Ok _ _ _ _ _ _ Hp) as (rows' & Hf' & Hcase).
  rewrite Hf in Hf'. injection Hf' as <-. destruct Hcase as [(? & _)|(traces & Hg & Ht)]; [done|].
  apply Hcl in Hg as ->. injection Ht as <- Hm. rewrite Hm in Hf.
  destruct (IH self1 outs' Hf H) as [-> ->]. split; [done|]. congruence.
Qed.
End RetryQueue.

(** ** Applications at concrete inputs *)

From S2P Require Import Instances.

(** A client that knows every trace; the trace ["c"] is never complete. *)
#[local] Instance knowing_client : RestClient bool := {|
  post_v3_message boc := st_err (BadResponse "no message");
  get_traces_for_account account ids start := st_ret match ids with
    | Some ids => map (fun i => example_trace i (bool_decide (i = "c")) 3 9) (remove_dups ids)
    | None => []
    end;
  get_account_states l := st_err (BadResponse "no states");
|}.

Definition example_row_c : TONTrace := {|
  tt_trace_id := "c"; tt_is_incomplete := true; tt_start_lt := 3; tt_end_lt := 9;
  tt_retries := 1; tt_transactions := []; tt_events := None; tt_created_at := 0;
  tt_updated_at := None |}.

Definition example_queue : RetryTONSubscriber bool trace_table :=
  {| retry_client := true; retry_model := <["c" := example_row_c]> example_table |}.

Definition example_queue_rounds : list (Z * TonAddress) := [(1, ton_zero); (2, ton_zero); (3, ton_zero)].

Definition example_queue_run : res PollError (list Trace) * RetryTONSubscriber bool trace_table :=
  retry_outs pg_no_fault example_queue_rounds example_queue.

Lemma example_queue_ok : fst example_queue_run = Ok [example_trace "b" false 3 9].
Proof. reflexivity. Qed.

Lemma knowing_answers : answers_all (N := bool).
Proof.
  intros ids n traces n' [= <- _] i.
  assert (Ha : about i (map (fun i => example_trace i (bool_decide (i = "c")) 3 9) (remove_dups ids)) =
    map (fun i => example_trace i (bool_decide (i = "c")) 3 9) (filter (.= i) (remove_dups ids))).
  { induction (remove_dups ids) as [|j l IH]; [done|]. cbn [map]. unfold about. rewrite !filter_cons.
    cbn [trace_id example_trace]. case_decide; [|exact IH]. cbn [map]. f_equal. exact IH. }
  rewrite Ha. clear Ha. pose proof (NoDup_remove_dups ids) as Hnd. case_decide as Hi.
  - apply elem_of_remove_dups in Hi. revert Hnd Hi. induction (remove_dups ids) as [|j l IH].
    { by intros _ ?%not_elem_of_nil. }
    intros [Hj Hl]%NoDup_cons Hi. rewrite filter_cons. case_decide as Hd.
    + subst j. exists (example_trace i (bool_decide (i = "c")) 3 9). cbn [map]. f_equal.
      destruct (filter (.= i) l) as [|k l'] eqn:E; [done|]. exfalso. apply Hj.
      assert (Hk : k ∈ filter (.= i) l) by (rewrite E; by left).
      by apply list_elem_of_filter in Hk as [-> Hk].
    + apply IH; [done|]. apply elem_of_cons in Hi as [<-|Hi]; done.
  - destruct (filter (.= i) (remove_dups ids)) as [|k l'] eqn:E; [done|]. exfalso. apply Hi.
    assert (Hk : k ∈ filter (.= i) (remove_dups ids)) by (rewrite E; by left).
    apply list_elem_of_filter in Hk as [-> Hk]. by apply elem_of_remove_dups.
Qed.

Lemma example_queue_keyed : keyed (<["c" := example_row_c]> example_table).
Proof.
  intros i row. rewrite lookup_insert_Some. intros [[<- <-]|[_ Hi]]; [done|]. by apply example_keyed.
Qed.

Lemma retry_queue_drains_witness :
  (exists t, t ∈ [example_trace "b" false 3 9] /\ trace_id t = "c" /\ is_incomplete t = false) \/
  (exists row', (retry_model (snd example_queue_run) : gmap string TONTrace) !! "c" = Some row' /\
     tt_is_incomplete row' = true /\ tt_retries row' <= 0).
Proof.
  refine (retry_queue_drains pg_no_fault example_queue_rounds example_queue (snd example_queue_run)
    _ "c" example_row_c knowing_answers example_queue_keyed _ _ eq_refl eq_refl).
  - vm_compute. discriminate.
  - rewrite <- example_queue_ok. apply surjective_pairing.
Defined.

(** A client that has forgotten every trace. *)
#[local] Instance forgetful_client : RestClient Z := {|
  post_v3_message boc := st_err (BadResponse "no message");
  get_traces_for_account account ids start := st_ret [];
  get_account_states l := st_err (BadResponse "no states");
|}.

Definition example_blocked : RetryTONSubscriber Z trace_table :=
  {| retry_client := 0; retry_model := example_table |}.

Lemma unanswered_traces_block_witness :
  ([] : list Trace) = [] /\
  retry_model (snd (retry_outs (N := Z) pg_no_fault example_queue_rounds example_blocked)) = example_table.
Proof.
  refine (unanswered_traces_block pg_no_fault example_queue_rounds [example_row_b] example_blocked
    _ [] _ _ _ _).
  - by intros n n' traces [= <- _].
  - discriminate.
  - reflexivity.
  - reflexivity.
Defined.
