(* ===== verification/Observer.v ===== *)
(** * What the subscribers observe

    [TONSubscriber] and [RetryTONSubscriber] run as two processes over one
    table, and each await of their loops lets the other go on.  Here the loops
    run interleaved, trace by trace, with any query failing and any process
    stopping; the specification is an observer that remembers the last content
    of each trace and emits a trace when its content is new and complete. *)

From Stdlib Require Import ZArith Lia Strings.Byte Strings.Ascii.
From stdpp Require Import base strings gmap list relations sorting.
From S2P Require Import Prelude RustStd Foreign Types Client TraceStore Subscriber RetryProofs.

(** What [fetch_retry] and [decrease_retry] promise to the subscribers: they
    leave the contents of the traces alone. *)
Class RetriableLaws {TAL : TonAddressLib} {JL : JsonLib} (S : Type)
    `{!AtomicUpsert S, !Retriable S} : Prop := {
  fetch_stored limit (s : S) i : stored (snd (fetch_retry limit s)) i = stored s i;
  decrease_stored tx (s : S) i : stored (snd (decrease_retry tx s)) i = stored s i;
  decrease_no_panic tx :: StSafe (S := S) (decrease_retry tx);
}.

Section Observer.
Context {TAL : TonAddressLib} {JL : JsonLib}.
Context {S : Type} {AU : AtomicUpsert S} {AUL : AtomicUpsertLaws S} {RT : Retriable S} {RTL : RetriableLaws S}.

(** ** The specification *)

#[local] Notation observations := (gmap string content).

#[global] Instance content_eq_dec : EqDecision content.
Proof. unfold content. apply _. Defined.

(** The observer sees a trace. *)
Definition observe (o : observations) (t : Trace) : observations * list Trace :=
  if decide (o !! trace_id t = Some (trace_content t)) then (o, [])
  else (<[trace_id t := trace_content t]> o, if is_incomplete t then [] else [t]).

Fixpoint observe_all (o : observations) (ts : list Trace) : observations * list Trace :=
  match ts with
  | [] => (o, [])
  | t :: ts' =>
      let '(o1, out1) := observe o t in
      let '(o2, out2) := observe_all o1 ts' in
      (o2, out1 ++ out2)
  end.

Lemma observe_all_app o l1 l2 :
  observe_all o (l1 ++ l2) =
    (fst (observe_all (fst (observe_all o l1)) l2),
     snd (observe_all o l1) ++ snd (observe_all (fst (observe_all o l1)) l2)).
Proof.
  revert o. induction l1 as [|t l1 IH]; intros o; cbn [app observe_all fst snd].
  { apply surjective_pairing. }
  destruct (observe o t) as [o1 out1]. rewrite IH. destruct (observe_all o1 l1) as [o2 out2].
  cbn [fst snd]. by rewrite app_assoc.
Qed.

(** The table holds what the observer remembers. *)
Definition sees (s : S) (o : observations) : Prop := forall i, stored s i = o !! i.

(** An upsert is an observation. *)
Lemma upsert_observes now t s c s' o :
  upsert_and_return_if_changed now (TONTrace_from now t) s = (Ok c, s') -> sees s o ->
  sees s' (fst (observe o t)) /\
  snd (observe o t) = if bool_decide (is_Some c) && negb (is_incomplete t) then [t] else [].
Proof.
  intros Hu Hs. destruct (upsert_ok _ _ _ _ _ Hu) as (H1 & H2 & H3 & _).
  cbn [tt_trace_id TONTrace_from] in H1, H2, H3. rewrite content_from in H1, H3. rewrite Hs in H3.
  unfold observe. case_decide as Hd; cbn [fst snd].
  - split; [|by rewrite bool_decide_eq_false_2 by tauto].
    intros i. destruct (decide (i = trace_id t)) as [->|Hne]; [by rewrite H1|by rewrite H2].
  - split; [|rewrite bool_decide_eq_true_2 by tauto; by destruct (is_incomplete t)].
    intros i. destruct (decide (i = trace_id t)) as [->|Hne].
    + by rewrite H1, lookup_insert_eq.
    + by rewrite H2, lookup_insert_ne.
Qed.

(** ** The loops, interleaved *)

(** A poll in its loop: of which subscriber, the traces still to go over, and
    [unseen_traces] so far. *)
Record task := Task { retrying : bool; todo : list Trace; unseen : list Trace }.

(** The shared model, the polls that run, what the finished ones handed on, and
    what the failed and stopped ones had ready, which is lost. *)
Definition system : Type := S * list task * list Trace * list Trace.

Section System.
(** The traces the clients may answer with. *)
Context (has : Trace -> Prop).

(** A query that fails ends its poll, and so does a process that stops: what
    the poll had pushed is lost.  The other steps lose nothing. *)
Inductive sys_step : system -> system -> Prop :=
| sys_start s l e d b ts :
    Forall has ts -> sys_step (s, l, e, d) (s, Task b ts [] :: l, e, d)
| sys_upsert s s' l1 l2 e d b now t ts u c :
    (b = true -> is_incomplete t = false) ->
    upsert_and_return_if_changed now (TONTrace_from now t) s = (Ok c, s') ->
    sys_step (s, l1 ++ Task b (t :: ts) u :: l2, e, d)
      (s', l1 ++ Task b ts (u ++ if bool_decide (is_Some c) && negb (is_incomplete t) then [t] else []) :: l2, e, d)
| sys_upsert_fails s s' l1 l2 e d b now t ts u err :
    (b = true -> is_incomplete t = false) ->
    upsert_and_return_if_changed now (TONTrace_from now t) s = (Err err, s') ->
    sys_step (s, l1 ++ Task b (t :: ts) u :: l2, e, d) (s', l1 ++ l2, e, d ++ u)
| sys_decrease s s' l1 l2 e d now t ts u r :
    is_incomplete t = true ->
    decrease_retry (TONTrace_from now t) s = (Ok r, s') ->
    sys_step (s, l1 ++ Task true (t :: ts) u :: l2, e, d) (s', l1 ++ Task true ts u :: l2, e, d)
| sys_decrease_fails s s' l1 l2 e d now t ts u err :
    is_incomplete t = true ->
    decrease_retry (TONTrace_from now t) s = (Err err, s') ->
    sys_step (s, l1 ++ Task true (t :: ts) u :: l2, e, d) (s', l1 ++ l2, e, d ++ u)
| sys_finish s l1 l2 e d b u :
    sys_step (s, l1 ++ Task b [] u :: l2, e, d) (s, l1 ++ l2, e ++ u, d)
| sys_stop s l1 l2 e d k :
    sys_step (s, l1 ++ k :: l2, e, d) (s, l1 ++ l2, e, d ++ unseen k)
| sys_query s s' l e d :
    (forall i, stored s' i = stored s i) -> sys_step (s, l, e, d) (s', l, e, d).

(** The state that a loop which answers [r] reaches, having handed on its
    answer, or having lost [u'] with its failure. *)
Definition ended {E} (r : res E (list Trace)) (s : S) (l : list task) (e u d u' : list Trace)
    : system :=
  match r with
  | Ok out => (s, l, e ++ u ++ out, d)
  | _ => (s, l, e, d ++ u')
  end.

(** The loops of the code are runs of the system: the loop of [poll_account]. *)
Lemma store_traces_steps now ts s r s' l1 l2 e d u :
  store_traces now ts s = (r, s') ->
  exists u', rtc sys_step (s, l1 ++ Task false ts u :: l2, e, d) (ended r s' (l1 ++ l2) e u d u').
Proof.
  revert s r s' u. induction ts as [|t ts IH]; intros s r s' u H.
  { injection H as <- <-. exists []. unfold ended. rewrite app_nil_r. apply rtc_once, sys_finish. }
  cbn [store_traces] in H. unfold st_bind in H.
  pose proof (upsert_no_panic now (TONTrace_from now t) s) as Hsafe.
  destruct (upsert_and_return_if_changed _ _ s) as [[c|err|] s1] eqn:Hu; cbn [fst] in *; [| |done].
  2:{ injection H as <- <-. exists u. eapply rtc_once, sys_upsert_fails; [done|exact Hu]. }
  destruct (store_traces now ts s1) as [r1 s2] eqn:Hs.
  destruct (IH _ _ _ (u ++ if bool_decide (is_Some c) && negb (is_incomplete t) then [t] else []) Hs)
    as (u' & Hrun).
  exists u'. eapply rtc_l; [by eapply sys_upsert; [|exact Hu]|].
  destruct r1 as [out|err|]; injection H as <- <-; [|exact Hrun..].
  unfold ended in *. rewrite <- app_assoc in Hrun.
  destruct (bool_decide (is_Some c) && negb (is_incomplete t)); exact Hrun.
Qed.

(** The loop of the retry poller. *)
Lemma retry_traces_steps now ts s r s' l1 l2 e d u :
  retry_traces now ts s = (r, s') ->
  exists u', rtc sys_step (s, l1 ++ Task true ts u :: l2, e, d) (ended r s' (l1 ++ l2) e u d u').
Proof.
  revert s r s' u. induction ts as [|t ts IH]; intros s r s' u H.
  { injection H as <- <-. exists []. unfold ended. rewrite app_nil_r. apply rtc_once, sys_finish. }
  cbn [retry_traces tt_is_incomplete TONTrace_from] in H. unfold st_bind in H.
  destruct (is_incomplete t) eqn:Et.
  - pose proof (decrease_no_panic (TONTrace_from now t) s) as Hsafe.
    destruct (decrease_retry _ s) as [[x|err|] s1] eqn:Hd; cbn [fst] in *; [| |done].
    + destruct (IH _ _ _ u H) as (u' & Hrun). exists u'.
      eapply rtc_l; [by eapply sys_decrease; [|exact Hd]|exact Hrun].
    + injection H as <- <-. exists u. eapply rtc_once, sys_decrease_fails; [done|exact Hd].
  - pose proof (upsert_no_panic now (TONTrace_from now t) s) as Hsafe.
    destruct (upsert_and_return_if_changed _ _ s) as [[c|err|] s1] eqn:Hu; cbn [fst] in *; [| |done].
    2:{ injection H as <- <-. exists u. eapply rtc_once, sys_upsert_fails; [done|exact Hu]. }
    destruct (retry_traces now ts s1) as [r1 s2] eqn:Hs.
    destruct (IH _ _ _ (u ++ if bool_decide (is_Some c) && true then [t] else []) Hs) as (u' & Hrun).
    exists u'. eapply rtc_l; [by eapply sys_upsert; [|exact Hu]|]. rewrite Et. cbn [negb].
    destruct r1 as [out|err|]; injection H as <- <-; [|exact Hrun..].
    unfold ended in *. rewrite <- app_assoc in Hrun.
    destruct (bool_decide (is_Some c) && true); exact Hrun.
Qed.

(** ** Refinement *)

Definition pending (l : list task) : list Trace := l ≫= unseen.

(** What the observer has seen explains a state of the system: the table holds
    what it remembers, and what it emitted was handed on, is in [unseen_traces]
    of a poll, or was lost with one that failed. *)
Definition explains (o0 : observations) (log : list Trace) (y : system) : Prop :=
  let '(s, l, e, d) := y in
  Forall has log /\ Forall (fun k => Forall has (todo k)) l /\
  sees s (fst (observe_all o0 log)) /\
  e ++ pending l ++ d ≡ₚ snd (observe_all o0 log).

Lemma pending_app l1 k l2 : pending (l1 ++ k :: l2) ≡ₚ unseen k ++ pending (l1 ++ l2).
Proof. unfold pending. rewrite !bind_app. cbn [mbind list_bind]. rewrite !app_assoc. f_equiv. apply Permutation_app_comm. Qed.

Lemma explains_stop o0 log s s' l1 k l2 e d :
  (forall i, stored s' i = stored s i) -> explains o0 log (s, l1 ++ k :: l2, e, d) ->
  explains o0 log (s', l1 ++ l2, e, d ++ unseen k).
Proof.
  intros Hst (Hlog & Hl & Hs & He). split; [done|]. apply Forall_app in Hl as [Hl1 Hl2].
  apply Forall_cons in Hl2 as [_ Hl2]. split; [by apply Forall_app|].
  split; [intros i; by rewrite Hst|]. rewrite <- He, pending_app, <- app_assoc.
  f_equiv. rewrite app_assoc. apply Permutation_app_comm.
Qed.

Lemma step_explains o0 log y y' :
  sys_step y y' -> explains o0 log y -> exists log', explains o0 (log ++ log') y'.
Proof.
  intros Hstep Hx.
  destruct Hstep as [s l e d b ts Hts|s s' l1 l2 e d b now t ts u c Hb Hu
    |s s' l1 l2 e d b now t ts u err Hb Hu|s s' l1 l2 e d now t ts u r Ht Hd
    |s s' l1 l2 e d now t ts u err Ht Hd|s l1 l2 e d b u|s l1 l2 e d k|s s' l e d Hst].
  2:{ destruct Hx as (Hlog & Hl & Hs & He). exists [t].
    apply Forall_app in Hl as [Hl1 Hl2]. apply Forall_cons in Hl2 as [Hk Hl2].
    apply Forall_cons in Hk as [Ht Hk]. destruct (upsert_observes _ _ _ _ _ _ Hu Hs) as [Hs' Hout].
    unfold explains. rewrite observe_all_app. cbn [observe_all fst snd].
    destruct (observe (fst (observe_all o0 log)) t) as [o1 out1]. cbn [fst snd] in *.
    split; [by apply Forall_app; split; [|by apply Forall_singleton]|].
    split; [apply Forall_app; split; [done|by apply Forall_cons]|]. split; [done|].
    rewrite app_nil_r, <- He, <- Hout, !pending_app. cbn [unseen].
    rewrite <- !app_assoc. f_equiv. f_equiv. rewrite Permutation_app_comm, !app_assoc. done. }
  all: exists []; rewrite app_nil_r.
  - destruct Hx as (Hlog & Hl & Hs & He). split_and!; [done| |done|done]. by apply Forall_cons.
  - eapply (explains_stop _ _ s _ _ (Task b (t :: ts) u)); [|done].
    intros i. apply upsert_err in Hu. by subst.
  - destruct Hx as (Hlog & Hl & Hs & He). split; [done|].
    apply Forall_app in Hl as [Hl1 Hl2]. apply Forall_cons in Hl2 as [Hk Hl2].
    apply Forall_cons in Hk as [_ Hk]. split; [apply Forall_app; split; [done|by apply Forall_cons]|].
    split; [intros i; pose proof (decrease_stored (TONTrace_from now t) s i) as H; rewrite Hd in H;
      cbn [snd] in H; by rewrite H|]. rewrite <- He, !pending_app. done.
  - eapply (explains_stop _ _ s _ _ (Task true (t :: ts) u)); [|done].
    intros i. pose proof (decrease_stored (TONTrace_from now t) s i) as H. by rewrite Hd in H.
  - destruct Hx as (Hlog & Hl & Hs & He). split; [done|].
    apply Forall_app in Hl as [Hl1 Hl2]. apply Forall_cons in Hl2 as [_ Hl2].
    split; [by apply Forall_app|]. split; [done|]. rewrite <- He, pending_app. cbn [unseen].
    by rewrite !app_assoc.
  - by apply (explains_stop _ _ s).
  - destruct Hx as (Hlog & Hl & Hs & He). split_and!; [done..| |done].
    intros i. by rewrite Hst.
Qed.

Lemma run_explains o0 s0 y :
  rtc sys_step (s0, [], [], []) y -> sees s0 o0 -> exists log, explains o0 log y.
Proof.
  intros Hr Hs. assert (Hx : exists log, explains o0 log (s0, [], [], [])).
  { exists []. by split_and!. }
  clear Hs. induction Hr as [y|y y1 y2 Hstep _ IH]; [done|]. apply IH.
  destruct Hx as (log & Hx). destruct (step_explains _ _ _ _ Hstep Hx) as (log' & Hx').
  by exists (log ++ log').
Qed.

(** What a step adds to what is lost is what a poll that ends there without
    handing on had ready. *)
Lemma step_loses s1 l1 e1 d1 s2 l2 e2 d2 :
  sys_step (s1, l1, e1, d1) (s2, l2, e2, d2) ->
  d2 = d1 \/
  exists la k lb, l1 = la ++ k :: lb /\ l2 = la ++ lb /\ e2 = e1 /\ d2 = d1 ++ unseen k.
Proof.
  intros H. inversion H; subst; try (by left); right; do 3 eexists; split_and!; done.
Qed.

(** C10. The subscribers refine the observer: however their polls interleave,
    trace by trace, with queries failing and processes stopping, there is a
    sequence of traces the clients answered with such that the table holds what
    an observer of that sequence remembers, and what it emitted is, up to the
    order and with every trace counted, what the polls handed on, what the
    running ones have ready, and what was lost; and a step loses nothing unless
    a poll ends there without handing on, and then what that poll had ready.
    Where no poll ended so and none runs, what was handed on is what the
    observer emitted. *)
Theorem polls_refine_observer o0 s0 s l e d :
  sees s0 o0 -> rtc sys_step (s0, [], [], []) (s, l, e, d) ->
  (exists log, Forall has log /\ sees s (fst (observe_all o0 log)) /\
    e ++ pending l ++ d ≡ₚ snd (observe_all o0 log)) /\
  (forall s1 l1 e1 d1 s2 l2 e2 d2, sys_step (s1, l1, e1, d1) (s2, l2, e2, d2) ->
    d2 = d1 \/
    exists la k lb, l1 = la ++ k :: lb /\ l2 = la ++ lb /\ e2 = e1 /\ d2 = d1 ++ unseen k).
Proof.
  intros Hs Hr. split; [|exact step_loses].
  destruct (run_explains o0 s0 _ Hr Hs) as (log & H1 & _ & H2 & H3). by exists log.
Qed.

(** ** At most once *)

(** An observer that always sees the trace [i] with the same content emits it
    at most once, and never when it already knew that content. *)
Lemma observe_all_once i c o log :
  (forall t, t ∈ log -> trace_id t = i -> trace_content t = c) ->
  (length (about i (snd (observe_all o log))) <= if decide (o !! i = Some c) then 0 else 1)%nat.
Proof.
  revert o. induction log as [|t log IH]; intros o Hc; cbn [observe_all].
  { cbn. lia. }
  destruct (observe o t) as [o1 out1] eqn:Eo.
  specialize (IH o1 (fun u Hu => Hc u (list_elem_of_further _ _ _ Hu))).
  destruct (observe_all o1 log) as [o2 out2]. cbn [fst snd] in *.
  unfold about in *. rewrite filter_app, length_app.
  unfold observe in Eo. case_decide as Hd; injection Eo as <- <-; [cbn; lia|].
  destruct (decide (trace_id t = i)) as [Hi|Hi].
  - specialize (Hc t ltac:(by left) Hi). subst i c.
    rewrite lookup_insert_eq, decide_True in IH by done.
    rewrite (decide_False (P := o !! _ = _)) by done.
    assert (length (filter (fun u => trace_id u = trace_id t) (if is_incomplete t then [] else [t])) <= 1)%nat.
    { destruct (is_incomplete t); [cbn; lia|]. rewrite filter_cons. case_decide; cbn; lia. }
    lia.
  - rewrite lookup_insert_ne in IH by done.
    replace (filter (fun u => trace_id u = i) (if is_incomplete t then [] else [t])) with (@nil Trace); [exact IH|].
    destruct (is_incomplete t); [done|]. rewrite filter_cons, decide_False by done. done.
Qed.

(** C18. At most once: when the clients always answer with the same content
    for the trace [i], it is handed on at most once, by whichever of the
    polls that run concurrently, and not at all when the table held that
    content before. *)
Theorem handed_on_at_most_once i c o0 s0 s l e d :
  (forall t, has t -> trace_id t = i -> trace_content t = c) ->
  sees s0 o0 -> rtc sys_step (s0, [], [], []) (s, l, e, d) ->
  (length (about i e) <= if decide (stored s0 i = Some c) then 0 else 1)%nat.
Proof.
  intros Hc Hs Hr. destruct (run_explains o0 s0 _ Hr Hs) as (log & H1 & _ & H2 & H3).
  assert (Hle : (length (about i e) <= length (about i (snd (observe_all o0 log))))%nat).
  { unfold about. rewrite <- H3, filter_app, length_app. lia. }
  etransitivity; [exact Hle|]. etransitivity.
  - apply (observe_all_once i c). intros t Ht. apply Hc.
    by apply (proj1 (Forall_forall _ _) H1).
  - rewrite Hs. done.
Qed.
End System.
End Observer.

(** ** The polls of the subscribers are runs of the system *)

Section Polls.
Context {TAL : TonAddressLib} {JL : JsonLib}.
Context {N D S : Type} {RC : RestClient N} {DB : Database D}.
Context {AU : AtomicUpsert S} {AUL : AtomicUpsertLaws S} {RT : Retriable S} {RTL : RetriableLaws S}.

(** The traces the client may answer with. *)
Definition client_has (t : Trace) : Prop := exists account ids start n traces n',
  get_traces_for_account (N := N) account ids start n = (Ok traces, n') /\ t ∈ traces.

Lemma client_has_all account ids start n traces n' :
  get_traces_for_account account ids start n = (Ok traces, n') -> Forall client_has traces.
Proof. intros H. apply Forall_forall. intros t Ht. by exists account, ids, start, n, traces, n'. Qed.

Lemma poll_account_run now account (self self' : TONSubscriber N D S) r l e d :
  poll_account now account self = (r, self') ->
  exists u', rtc (sys_step client_has) (ton_trace_model self, l, e, d)
    (ended r (ton_trace_model self') l e [] d u').
Proof.
  intros H. destruct (get_traces_for_account (Some account) None
    (if decide (latest_lt self = -1) then None else Some (latest_lt self)) (client self))
    as [[traces|err|] n] eqn:Hg.
  2,3: exists []; unfold poll_account, st_get, st_bind, sub_client in H; rewrite Hg in H; cbn in H;
    injection H as <- <-; unfold ended; by rewrite app_nil_r.
  destruct (max_end_lt traces) as [m|] eqn:Em.
  - destruct (poll_account_step now account self traces n m Hg Em) as (d0 & Heq).
    rewrite Heq in H. destruct (store_traces now traces (ton_trace_model self)) as [r' m'] eqn:Es.
    destruct (store_traces_steps client_has _ _ _ _ _ [] l e d [] Es) as (u' & Hrun).
    exists u'. eapply rtc_l; [apply (sys_start _ _ _ _ _ false), (client_has_all _ _ _ _ _ _ Hg)|].
    injection H as <- <-. by destruct r'.
  - destruct traces as [|t ts]; [|done]. exists [].
    unfold poll_account, st_get, st_bind, sub_client in H. rewrite Hg in H. cbn in H.
    injection H as <- <-. eapply rtc_l; [by apply (sys_start _ _ _ _ _ false [])|].
    apply rtc_once, (sys_finish _ _ [] l e d false []).
Qed.

Lemma retry_poll_account_run now account (self self' : RetryTONSubscriber N S) r l e d :
  retry_poll_account now account self = (r, self') ->
  exists u', rtc (sys_step client_has) (retry_model self, l, e, d)
    (ended r (retry_model self') l e [] d u').
Proof.
  unfold retry_poll_account. intros H.
  pose proof (fetch_stored 100 (retry_model self)) as Hst.
  destruct (fetch_retry 100 (retry_model self)) as [fetched m] eqn:Hf. cbn [snd] in Hst.
  assert (Hend : forall r0 : res PollError (list Trace), (r0 = Ok [] \/ forall out, r0 <> Ok out) -> exists u',
    rtc (sys_step client_has) (retry_model self, l, e, d) (ended r0 m l e [] d u')).
  { intros r0 Hr0. exists []. apply rtc_once. destruct r0 as [out| |]; unfold ended; [|rewrite app_nil_r; by apply sys_query..].
    destruct Hr0 as [[= ->]|Hne]; [cbn [app]; rewrite app_nil_r; by apply sys_query|by destruct (Hne out)]. }
  destruct fetched as [[|row rows]|err|]; [injection H as <- <-; apply Hend; by left| |
    injection H as <- <-; apply Hend; by right..].
  destruct (get_traces_for_account _ _ _ _) as [[traces|err|] n] eqn:Hg;
    [|injection H as <- <-; apply Hend; by right..].
  destruct (retry_traces now traces m) as [r' m'] eqn:Es.
  destruct (retry_traces_steps client_has _ _ _ _ _ [] l e d [] Es) as (u' & Hrun). exists u'.
  eapply rtc_l; [by apply (sys_query _ _ m)|].
  eapply rtc_l; [apply (sys_start _ _ _ _ _ true), (client_has_all _ _ _ _ _ _ Hg)|].
  injection H as <- <-. by destruct r'.
Qed.

(** C32. The polls of the code are runs of that system, in whatever state the
    other polls are: a poll of either subscriber that succeeds hands on exactly
    the traces it returns and loses none; one that fails hands on nothing, and
    only what it had ready is lost. *)
Theorem polls_are_runs now account (self : TONSubscriber N D S) (rself : RetryTONSubscriber N S) l e d :
  (let '(r, self') := poll_account now account self in
   exists u', rtc (sys_step client_has) (ton_trace_model self, l, e, d)
     match r with
     | Ok out => (ton_trace_model self', l, e ++ out, d)
     | _ => (ton_trace_model self', l, e, d ++ u')
     end) /\
  (let '(r, self') := retry_poll_account now account rself in
   exists u', rtc (sys_step client_has) (retry_model rself, l, e, d)
     match r with
     | Ok out => (retry_model self', l, e ++ out, d)
     | _ => (retry_model self', l, e, d ++ u')
     end).
Proof.
  split.
  - destruct (poll_account now account self) as [r self'] eqn:H.
    exact (poll_account_run _ _ _ _ _ l e d H).
  - destruct (retry_poll_account now account rself) as [r self'] eqn:H.
    exact (retry_poll_account_run _ _ _ _ _ l e d H).
Qed.
End Polls.

(** ** The Postgres model *)

#[global] Instance pg_retriable_laws {TAL : TonAddressLib} {JL : JsonLib} fault :
  @RetriableLaws _ _ trace_table (pg_atomic_upsert fault) (pg_retriable fault).
Proof.
  split; cbn [fetch_retry decrease_retry pg_retriable stored pg_atomic_upsert].
  - intros limit s i. unfold pg_fetch_retry. rewrite pg_query_cases. by destruct (fault _).
  - intros tx s i. unfold pg_decrease_retry. rewrite pg_query_cases. destruct (fault _); [done|].
    cbn [snd]. unfold pg_update. destruct (decide (tt_trace_id tx = i)) as [<-|Hne].
    + rewrite lookup_alter_eq. by destruct ((s : gmap string TONTrace) !! tt_trace_id tx).
    + by rewrite lookup_alter_ne.
  - intros tx. apply pg_query_safe.
Qed.

(** ** Applications at concrete inputs *)

From S2P Require Import Instances.

(** Both subscribers get the trace ["a"] at the same time; one of them hands
    it on. *)
Definition example_has (t : Trace) : Prop := t = example_trace "a" false 1 2.

#[local] Notation example_step :=
  (@sys_step _ _ trace_table (pg_atomic_upsert pg_no_fault) (pg_retriable pg_no_fault) example_has).

Definition example_raced : trace_table :=
  snd (pg_upsert pg_no_fault 5 (TONTrace_from 5 (example_trace "a" false 1 2)) ∅).

Lemma example_race : rtc example_step (∅ : gmap string TONTrace, [], [], [])
  (example_raced, [], [example_trace "a" false 1 2], []).
Proof.
  assert (Hh : Forall example_has [example_trace "a" false 1 2]) by (by apply Forall_singleton).
  eapply rtc_l; [by apply (sys_start _ _ _ _ _ false)|]. eapply rtc_l; [by apply (sys_start _ _ _ _ _ true)|].
  eapply rtc_l. { eapply (sys_upsert _ _ example_raced [Task true _ []] [] _ _ _ 5); [done|reflexivity]. }
  eapply rtc_l. { eapply (sys_upsert _ _ example_raced [] _ _ _ _ 6); [done|reflexivity]. }
  eapply rtc_l. { apply (sys_finish _ _ []). }
  eapply rtc_l. { apply (sys_finish _ _ [] []). }
  apply rtc_refl.
Qed.

Lemma example_sees_nothing :
  @sees _ _ trace_table (pg_atomic_upsert pg_no_fault) (∅ : gmap string TONTrace) ∅.
Proof. intros i. cbn. by rewrite !lookup_empty. Qed.

Lemma polls_refine_observer_witness : exists log,
  Forall example_has log /\
  @sees _ _ trace_table (pg_atomic_upsert pg_no_fault) example_raced (fst (observe_all ∅ log)) /\
  [example_trace "a" false 1 2] ++ pending [] ++ [] ≡ₚ snd (observe_all ∅ log).
Proof.
  exact (proj1 (@polls_refine_observer _ _ trace_table (pg_atomic_upsert pg_no_fault)
    (pg_atomic_upsert_laws pg_no_fault) (pg_retriable pg_no_fault) (pg_retriable_laws pg_no_fault)
    example_has ∅ ∅ example_raced [] [example_trace "a" false 1 2] [] example_sees_nothing example_race)).
Defined.

Lemma handed_on_at_most_once_witness :
  (length (about "a" [example_trace "a" false 1 2]) <= 1)%nat.
Proof.
  refine (@handed_on_at_most_once _ _ trace_table (pg_atomic_upsert pg_no_fault)
    (pg_atomic_upsert_laws pg_no_fault) (pg_retriable pg_no_fault) (pg_retriable_laws pg_no_fault)
    example_has "a" (trace_content (example_trace "a" false 1 2)) ∅ ∅ example_raced []
    [example_trace "a" false 1 2] [] _ example_sees_nothing example_race).
  intros t -> _. reflexivity.
Defined.

(** The poll of [example_traces] hands on the traces ["a"] and ["c"], while
    another poll is under way. *)
Definition example_retrier : RetryTONSubscriber (list (list Trace)) trace_table :=
  {| retry_client := []; retry_model := ∅ : gmap string TONTrace |}.

Definition example_under_way : list task := [Task true [example_trace "b" true 3 9] []].

Lemma polls_are_runs_witness :
  exists u', rtc (@sys_step _ _ trace_table (pg_atomic_upsert pg_no_fault) (pg_retriable pg_no_fault)
      (client_has (N := list (list Trace))))
    (∅ : gmap string TONTrace, example_under_way, [], [])
    match fst (example_poll [example_traces]) with
    | Ok out => (ton_trace_model (example_after [example_traces]), example_under_way, out, [])
    | _ => (ton_trace_model (example_after [example_traces]), example_under_way, [], u')
    end.
Proof.
  pose proof (@polls_are_runs _ _ _ _ _ script_client memory_database
    (pg_atomic_upsert pg_no_fault) (pg_atomic_upsert_laws pg_no_fault) (pg_retriable pg_no_fault)
    (pg_retriable_laws pg_no_fault) 5 ton_zero (example_subscriber [example_traces]) example_retrier
    example_under_way [] []) as [H _].
  unfold example_after, example_poll. destruct (poll_account _ _ _) as [r self']. exact H.
Defined.
