(* ===== verification/Gas.v ===== *)
(** * Gas: [gas_calculator.rs], [gas_estimator.rs]

    The calculator computes what a trace cost the relayer's addresses from the
    fees and the messages of its transactions; the estimator computes, from
    the configuration, what a message will cost.  Arithmetic wraps at the width
    of the type, as in a release build. *)

From Stdlib Require Import ZArith Lia Permutation Strings.Byte Strings.Ascii.
From stdpp Require Import base strings countable gmap list.
From S2P Require Import Prelude RustStd Foreign Types.

(** ** [gas_calculator.rs] *)

Section GasCalculator.
Context {TAL : TonAddressLib} {JL : JsonLib}.

Record GasCalculator := { our_addresses : list TonAddress }.

Definition GasCalculator_new (our_addresses : list TonAddress) : GasCalculator :=
  {| our_addresses := our_addresses |}.

Definition extract_fwd_fee (msg : TransactionMessage) : Z :=
  unwrap_or 0 (i128_from_str (default "0" (fwd_fee msg))).

Definition extract_msg_value (msg : TransactionMessage) : Z :=
  unwrap_or 0 (i128_from_str (default "0" (value msg))).

Notation balances_map := (gmap TonAddress Z).

(** [balances.entry(account).or_insert(0).add_assign(cost)]. *)
Definition add_cost (balances : balances_map) (acct : TonAddress) (cost : Z) : balances_map :=
  <[acct := wrap_s 128 (default 0 (balances !! acct) + cost)]> balances.

Definition is_our_transaction (balances : balances_map) (tx : Transaction) : bool :=
  bool_decide (is_Some (balances !! account tx)).

Definition us_receiving (balances : balances_map) (tx : Transaction) (dest : TonAddress) : bool :=
  negb (bool_decide (is_Some (balances !! account tx))) &&
  bool_decide (is_Some (balances !! dest)).

Definition us_sending (balances : balances_map) (tx : Transaction) (dest : TonAddress) : bool :=
  bool_decide (is_Some (balances !! account tx)) &&
  negb (bool_decide (is_Some (balances !! dest))).

(** The body of the loop over the out messages of [tx]. *)
Definition cost_msg (tx : Transaction) (balances : balances_map) (msg : TransactionMessage)
    : balances_map :=
  let balances :=
    if is_our_transaction balances tx
    then add_cost balances (account tx) (extract_fwd_fee msg) else balances in
  match destination msg with
  | Some dest =>
      let value := extract_msg_value msg in
      let balances :=
        if us_sending balances tx dest then add_cost balances (account tx) value else balances in
      if us_receiving balances tx dest
      then add_cost balances dest (wrap_s 128 (0 - value)) else balances
  | None => balances
  end.

(** The body of the loop over the transactions. *)
Definition cost_tx (balances : balances_map) (tx : Transaction) : balances_map :=
  let balances :=
    if is_our_transaction balances tx
    then add_cost balances (account tx) (total_fees tx) else balances in
  foldl (cost_msg tx) balances (out_msgs tx).

(** [iter().sum()] of [i128]. *)
Definition sum_i128 (l : list Z) : Z := foldl (fun acc v => wrap_s 128 (acc + v)) 0 l.

Definition cost (self : GasCalculator) (transactions : list Transaction) : res GasError Z :=
  let balances : balances_map := list_to_map (map (fun addr => (addr, 0)) (our_addresses self)) in
  let balances := foldl cost_tx balances transactions in
  Ok (sum_i128 (map snd (map_to_list balances))).

(** [Ok(if total > 0 { total as u64 } else { 0 })]. *)
Definition positive_u64 (total : Z) : Z := if decide (total > 0) then wrap_u 64 total else 0.

Definition calc_message_gas (self : GasCalculator) (transactions : list Transaction)
    : res GasError Z :=
  let? total := cost self transactions in Ok (positive_u64 total).

Definition calc_message_gas_native_gas_refunded (self : GasCalculator)
    (transactions : list Transaction) : res GasError Z :=
  match transactions !! 2%nat with
  | None => Ok 0
  | Some tx2 =>
      match out_msgs tx2 !! 0%nat with
      | None => Ok 0
      | Some out_msg =>
          let refund := match value out_msg with
                        | Some val_str => unwrap_or 0 (i128_from_str val_str)
                        | None => 0
                        end in
          let? balance_diff := cost self transactions in
          let total := wrap_s 128 (balance_diff - refund) in
          Ok (positive_u64 total)
      end
  end.

(** ** The cost, as a sum *)

Definition ours (self : GasCalculator) (a : TonAddress) : Prop := a ∈ our_addresses self.

#[global] Instance ours_dec self a : Decision (ours self a).
Proof. unfold ours. apply _. Defined.

(** What one message adds: its fee and its value when it leaves us, minus its
    value when it comes to us. *)
Definition msg_cost (self : GasCalculator) (tx : Transaction) (msg : TransactionMessage) : Z :=
  if decide (ours self (account tx)) then
    extract_fwd_fee msg +
    match destination msg with
    | Some dest => if decide (ours self dest) then 0 else extract_msg_value msg
    | None => 0
    end
  else
    match destination msg with
    | Some dest => if decide (ours self dest) then - extract_msg_value msg else 0
    | None => 0
    end.

Definition tx_cost (self : GasCalculator) (tx : Transaction) : Z :=
  (if decide (ours self (account tx)) then total_fees tx else 0) +
  sumZ (map (msg_cost self tx) (out_msgs tx)).

Definition trace_cost (self : GasCalculator) (transactions : list Transaction) : Z :=
  sumZ (map (tx_cost self) transactions).

(** *** The balances during the loops *)

(** The keys are our addresses, and the values add up to [total]. *)
Definition balanced (self : GasCalculator) (m : balances_map) (total : Z) : Prop :=
  (forall a, is_Some (m !! a) <-> ours self a) /\
  sumZ (map snd (map_to_list m)) mod 2 ^ 128 = total mod 2 ^ 128.

Lemma sum_insert (m : balances_map) a v :
  sumZ (map snd (map_to_list (<[a := v]> m))) =
  sumZ (map snd (map_to_list m)) - default 0 (m !! a) + v.
Proof.
  destruct (m !! a) as [old|] eqn:E.
  - rewrite <- insert_delete_eq.
    rewrite (sumZ_permutation _ _ (Permutation_map snd
      (map_to_list_insert _ _ v (lookup_delete_eq m a)))).
    rewrite <- (sumZ_permutation _ _ (Permutation_map snd (map_to_list_delete m a old E))).
    simpl. lia.
  - rewrite (sumZ_permutation _ _ (Permutation_map snd (map_to_list_insert _ _ v E))).
    simpl. lia.
Qed.

Lemma mod_add_congr a b c : a mod 2 ^ 128 = b mod 2 ^ 128 -> (a + c) mod 2 ^ 128 = (b + c) mod 2 ^ 128.
Proof. intros H. by rewrite (Zplus_mod a), (Zplus_mod b), H. Qed.

Lemma add_cost_balanced self m total a c :
  balanced self m total -> ours self a -> balanced self (add_cost m a c) (total + c).
Proof.
  intros [Hk Hs] Ha. unfold add_cost. split.
  - intros b. destruct (decide (a = b)) as [<-|Hne].
    + rewrite lookup_insert_eq. split; [done|by eexists].
    + by rewrite lookup_insert_ne.
  - rewrite sum_insert. set (d := default 0 (m !! a)).
    rewrite Zplus_mod, wrap_s_mod, <- Zplus_mod by lia.
    replace (sumZ (map snd (map_to_list m)) - d + (d + c))
      with (sumZ (map snd (map_to_list m)) + c) by lia.
    by apply mod_add_congr.
Qed.

Lemma balanced_congr self m t1 t2 :
  t1 mod 2 ^ 128 = t2 mod 2 ^ 128 -> balanced self m t1 -> balanced self m t2.
Proof. intros H [Hk Hs]. split; [done|congruence]. Qed.

Lemma is_our_balanced self m total tx :
  balanced self m total -> is_our_transaction m tx = bool_decide (ours self (account tx)).
Proof. intros [Hk _]. apply bool_decide_ext, Hk. Qed.

Lemma us_sending_balanced self m total tx d :
  balanced self m total ->
  us_sending m tx d = bool_decide (ours self (account tx)) && negb (bool_decide (ours self d)).
Proof. intros [Hk _]. unfold us_sending. by rewrite !(bool_decide_ext _ _ (Hk _)). Qed.

Lemma us_receiving_balanced self m total tx d :
  balanced self m total ->
  us_receiving m tx d = negb (bool_decide (ours self (account tx))) && bool_decide (ours self d).
Proof. intros [Hk _]. unfold us_receiving. by rewrite !(bool_decide_ext _ _ (Hk _)). Qed.

Lemma cost_msg_balanced self tx m total msg :
  balanced self m total -> balanced self (cost_msg tx m msg) (total + msg_cost self tx msg).
Proof.
  intros Hb. unfold cost_msg, msg_cost. cbv zeta. rewrite (is_our_balanced _ _ _ _ Hb).
  destruct (decide (ours self (account tx))) as [Ha|Ha].
  - rewrite bool_decide_eq_true_2 by done.
    pose proof (add_cost_balanced _ _ _ _ (extract_fwd_fee msg) Hb Ha) as Hb1.
    destruct (destination msg) as [dest|]; [|by rewrite Z.add_0_r].
    rewrite (us_sending_balanced _ _ _ _ _ Hb1), bool_decide_eq_true_2 by done. cbn [andb].
    destruct (decide (ours self dest)) as [Hd|Hd].
    + rewrite (bool_decide_eq_true_2 (ours self dest)) by done. cbn [negb].
      rewrite (us_receiving_balanced _ _ _ _ _ Hb1), bool_decide_eq_true_2 by done.
      cbn [negb andb]. by rewrite Z.add_0_r.
    + rewrite (bool_decide_eq_false_2 (ours self dest)) by done. cbn [negb].
      pose proof (add_cost_balanced _ _ _ _ (extract_msg_value msg) Hb1 Ha) as Hb2.
      rewrite (us_receiving_balanced _ _ _ _ _ Hb2), bool_decide_eq_true_2 by done.
      cbn [negb andb]. by rewrite Z.add_assoc.
  - rewrite bool_decide_eq_false_2 by done.
    destruct (destination msg) as [dest|]; [|by rewrite Z.add_0_r].
    rewrite (us_sending_balanced _ _ _ _ _ Hb), bool_decide_eq_false_2 by done. cbn [andb].
    rewrite (us_receiving_balanced _ _ _ _ _ Hb), bool_decide_eq_false_2 by done.
    cbn [negb andb]. destruct (decide (ours self dest)) as [Hd|Hd].
    + rewrite bool_decide_eq_true_2 by done.
      eapply balanced_congr; [|by apply add_cost_balanced].
      rewrite Zplus_mod, wrap_s_mod, <- Zplus_mod by lia. f_equal.
    + rewrite bool_decide_eq_false_2 by done. by rewrite Z.add_0_r.
Qed.

Lemma cost_msgs_balanced self tx msgs m total :
  balanced self m total ->
  balanced self (foldl (cost_msg tx) m msgs) (total + sumZ (map (msg_cost self tx) msgs)).
Proof.
  revert m total; induction msgs as [|msg msgs IH]; intros m total Hb; simpl.
  { by rewrite Z.add_0_r. }
  rewrite Z.add_assoc. by apply IH, cost_msg_balanced.
Qed.

Lemma cost_tx_balanced self tx m total :
  balanced self m total -> balanced self (cost_tx m tx) (total + tx_cost self tx).
Proof.
  intros Hb. unfold cost_tx, tx_cost. cbv zeta. rewrite (is_our_balanced _ _ _ _ Hb).
  rewrite Z.add_assoc. apply cost_msgs_balanced.
  destruct (decide (ours self (account tx))) as [Ha|Ha].
  - rewrite bool_decide_eq_true_2 by done. by apply add_cost_balanced.
  - rewrite bool_decide_eq_false_2 by done. by rewrite Z.add_0_r.
Qed.

Lemma cost_txs_balanced self txs m total :
  balanced self m total -> balanced self (foldl cost_tx m txs) (total + trace_cost self txs).
Proof.
  revert m total; induction txs as [|tx txs IH]; intros m total Hb; simpl.
  { unfold trace_cost. simpl. by rewrite Z.add_0_r. }
  unfold trace_cost. simpl. rewrite Z.add_assoc. by apply IH, cost_tx_balanced.
Qed.

Lemma initial_balanced self :
  balanced self (list_to_map (map (fun addr => (addr, 0)) (our_addresses self))) 0.
Proof.
  unfold balanced, ours. induction (our_addresses self) as [|a l [IH1 IH2]].
  { split; [|done]. intros a. simpl. rewrite lookup_empty.
    split; [by intros [? ?]|intros H; by apply not_elem_of_nil in H]. }
  cbn [map list_to_map foldr]. split.
  - intros b. cbn. rewrite elem_of_cons, <- IH1. destruct (decide (a = b)) as [<-|Hne].
    + rewrite lookup_insert_eq. split; [by left|by eexists].
    + rewrite lookup_insert_ne by done. split; [by right|]. intros [->|H]; done.
  - cbn. rewrite sum_insert.
    assert (Hz : forall l b, default 0 (list_to_map (M := balances_map)
      (map (fun addr => (addr, 0)) l) !! b) = 0).
    { clear. intros l b. induction l as [|a l IH]; [done|]. cbn.
      destruct (decide (a = b)) as [<-|Hne]; [by rewrite lookup_insert_eq|].
      by rewrite lookup_insert_ne. }
    rewrite Hz. rewrite Z.sub_0_r, Z.add_0_r. exact IH2.
Qed.

Lemma sum_i128_wrap l acc :
  in_s 128 acc -> foldl (fun acc v => wrap_s 128 (acc + v)) acc l = wrap_s 128 (acc + sumZ l).
Proof.
  revert acc; induction l as [|v l IH]; intros acc Ha; simpl.
  { rewrite Z.add_0_r. symmetry. by apply wrap_s_id. }
  rewrite IH by (apply wrap_s_range; lia). rewrite wrap_s_add_l by lia. f_equal. lia.
Qed.

Lemma cost_value self txs : cost self txs = Ok (wrap_s 128 (trace_cost self txs)).
Proof.
  unfold cost. cbv zeta. f_equal. unfold sum_i128. rewrite sum_i128_wrap by (by vm_compute).
  apply wrap_s_congr.
  destruct (cost_txs_balanced self txs _ _ (initial_balanced self)) as [_ Hs].
  rewrite Z.add_0_l in Hs |- *. exact Hs.
Qed.

(** ** Properties of the calculator *)

(** C35. The balances computed through the hash map add up to the sum over
    the transactions of our fees, plus the values we send out, minus the
    values sent to us, modulo the width of [i128]. *)
Theorem cost_is_sum self txs : cost self txs = Ok (wrap_s 128 (trace_cost self txs)).
Proof. apply cost_value. Qed.

(** The gas charged for a trace does not depend on the order of its
    transactions nor on the order or the repetition of our addresses. *)
Theorem calc_message_gas_order self self' txs txs' :
  (forall a, ours self a <-> ours self' a) -> txs ≡ₚ txs' ->
  calc_message_gas self txs = calc_message_gas self' txs'.
Proof.
  intros Ho Hp. unfold calc_message_gas. rewrite !cost_value. cbn [res_bind].
  replace (trace_cost self' txs') with (trace_cost self txs); [done|].
  unfold trace_cost. rewrite (sumZ_permutation _ _ (Permutation_map _ Hp)).
  f_equal. apply map_ext. intros tx. unfold tx_cost.
  assert (Hd : forall (a : TonAddress) (x y : Z),
    (if decide (ours self a) then x else y) = if decide (ours self' a) then x else y).
  { intros a x y. destruct (decide (ours self a)), (decide (ours self' a)); naive_solver. }
  f_equal; [apply Hd|]. f_equal. apply map_ext. intros msg. unfold msg_cost.
  rewrite !Hd. destruct (destination msg) as [d|]; [|done]. by rewrite !Hd.
Qed.

Definition fees (txs : list Transaction) : Z :=
  sumZ (map (fun tx => total_fees tx + sumZ (map extract_fwd_fee (out_msgs tx))) txs).

(** A trace whose transactions and destinations are all ours costs its
    fees: transfers among our addresses cancel. *)
Theorem internal_trace_costs_fees self txs :
  Forall (fun tx => ours self (account tx) /\
    Forall (fun msg => forall d, destination msg = Some d -> ours self d) (out_msgs tx)) txs ->
  0 <= fees txs < 2 ^ 64 ->
  calc_message_gas self txs = Ok (fees txs).
Proof.
  intros Hall Hf. unfold calc_message_gas. rewrite cost_value. cbn [res_bind].
  assert (trace_cost self txs = fees txs) as ->.
  { unfold trace_cost, fees. f_equal. clear Hf. induction Hall as [|tx txs [Ha Hm] Hall IH]; [done|].
    simpl. f_equal; [|done]. unfold tx_cost. rewrite decide_True by done. f_equal. f_equal.
    induction Hm as [|msg msgs Hd Hm IHm]; [done|]. simpl. f_equal; [|done].
    unfold msg_cost. rewrite decide_True by done. destruct (destination msg) as [d|]; [|lia].
    rewrite decide_True by auto. lia. }
  rewrite wrap_s_id; [|lia|unfold in_s; lia]. unfold positive_u64.
  case_decide; [|f_equal; lia]. by rewrite wrap_u_id.
Qed.
End GasCalculator.

(** ** [gas_estimator.rs] *)

Class GasEstimator (E : Type) := {
  native_gas_refund_estimate : E -> Z;
  execute_send : E -> Z -> Z;
  execute_estimate : E -> Z -> Z;
  approve_send : E -> Z -> Z;
  highload_wallet_send : E -> Z -> Z;
}.

Record TONGasEstimator := { est_config : GasEstimates }.

Definition TONGasEstimator_new (config : GasEstimates) : TONGasEstimator :=
  {| est_config := config |}.

Definition ton_execute_estimate (self : TONGasEstimator) (payload : Z) : Z :=
  let c := est_config self in
  Z.max
    (wrap_u 64 (wrap_u 64 (execute_base c + wrap_u 64 (execute_payload c * payload)) +
      execute_storage_slippage c))
    (its_execute_minimum c).

#[export] Instance ton_gas_estimator : GasEstimator TONGasEstimator := {|
  native_gas_refund_estimate self :=
    wrap_u 64 (native_gas_refund (est_config self) +
      native_gas_refund_storage_slippage (est_config self));
  execute_estimate := ton_execute_estimate;
  execute_send self payload :=
    Z.max (execute_send_min (est_config self)) (ton_execute_estimate self payload);
  highload_wallet_send self num_actions :=
    wrap_u 64 (cfg_highload_wallet_send (est_config self) * num_actions);
  approve_send self _num_messages := cfg_approve_send (est_config self);
|}.

(** As long as the sum fits [u64], what is sent with an execute message
    covers its estimate, the base and per-byte cost and both configured
    minimums, and grows with the payload. *)
Theorem execute_send_covers (self : TONGasEstimator) (p1 p2 : Z) :
  let c := est_config self in
  0 <= p1 <= p2 -> 0 <= execute_base c -> 0 <= execute_payload c ->
  0 <= execute_storage_slippage c ->
  execute_base c + execute_payload c * p2 + execute_storage_slippage c < 2 ^ 64 ->
  execute_base c + execute_payload c * p1 + execute_storage_slippage c <= execute_estimate self p1 /\
  its_execute_minimum c <= execute_estimate self p1 /\
  execute_estimate self p1 <= execute_send self p1 /\
  execute_send_min c <= execute_send self p1 /\
  execute_send self p1 <= execute_send self p2.
Proof.
  intros c Hp Hb Hpl Hs Hmax. cbn [execute_estimate execute_send ton_gas_estimator].
  unfold ton_execute_estimate. fold c.
  assert (0 <= execute_payload c * p1) by nia.
  assert (execute_payload c * p1 <= execute_payload c * p2) by nia.
  rewrite (wrap_u_id 64 (execute_payload c * p1)) by (unfold in_u; lia).
  rewrite (wrap_u_id 64 (execute_payload c * p2)) by (unfold in_u; lia).
  rewrite (wrap_u_id 64 (execute_base c + execute_payload c * p1)) by (unfold in_u; lia).
  rewrite (wrap_u_id 64 (execute_base c + execute_payload c * p2)) by (unfold in_u; lia).
  rewrite !wrap_u_id by (unfold in_u; lia). lia.
Qed.

(** ** Applications at concrete inputs *)

From S2P Require Import Instances.

Definition ex_txs : list Transaction :=
  [ex_tx (ex_address 1) "a" 100 None
     [ex_msg None (Some (ex_address 2)) (Some "5000") (Some "7") None "";
      ex_msg None (Some (ex_address 9)) (Some "300") None None ""];
   ex_tx (ex_address 9) "b" 40 None
     [ex_msg None (Some (ex_address 1)) (Some "50") None None ""]].

Definition ex_calculator : GasCalculator := {| our_addresses := [ex_address 1; ex_address 2] |}.

Example ex_cost : calc_message_gas ex_calculator ex_txs = Ok 357.
Proof. by vm_compute. Qed.

Lemma calc_message_gas_order_witness :
  calc_message_gas ex_calculator ex_txs =
  calc_message_gas {| our_addresses := [ex_address 2; ex_address 1; ex_address 2] |} (reverse ex_txs).
Proof.
  exact (calc_message_gas_order ex_calculator
    {| our_addresses := [ex_address 2; ex_address 1; ex_address 2] |} ex_txs (reverse ex_txs)
    ltac:(intros a; unfold ours; cbn [our_addresses ex_calculator]; set_solver)
    (symmetry (reverse_Permutation ex_txs))).
Defined.

Definition ex_internal : list Transaction :=
  [ex_tx (ex_address 1) "a" 100 None
     [ex_msg None (Some (ex_address 2)) (Some "5000") (Some "7") None ""]].

Lemma internal_trace_costs_fees_witness : calc_message_gas ex_calculator ex_internal = Ok 107.
Proof.
  refine (internal_trace_costs_fees ex_calculator ex_internal _ ltac:(by vm_compute)).
  constructor; [|constructor]. split; [left|]. constructor; [|constructor].
  intros d [= <-]. right. left.
Defined.

Definition ex_estimator : TONGasEstimator := {| est_config := {|
  native_gas_refund := 1; native_gas_refund_storage_slippage := 1; execute_send_min := 310;
  execute_base := 40; execute_payload := 21; execute_storage_slippage := 5;
  cfg_approve_send := 500; cfg_highload_wallet_send := 1; its_execute_minimum := 100 |} |}.

Lemma execute_send_covers_witness :
  40 + 21 * 10 + 5 <= execute_estimate ex_estimator 10 /\
  100 <= execute_estimate ex_estimator 10 /\
  execute_estimate ex_estimator 10 <= execute_send ex_estimator 10 /\
  310 <= execute_send ex_estimator 10 /\
  execute_send ex_estimator 10 <= execute_send ex_estimator 1000.
Proof.
  exact (execute_send_covers ex_estimator 10 1000 ltac:(done) ltac:(done) ltac:(done)
    ltac:(done) ltac:(done)).
Defined.
