(* ===== verification/Parsers.v ===== *)
(** * The transaction parsers: [transaction_parser/common.rs],
    [message_matching_key.rs] and the fourteen [parser_*.rs]

    Each parser is a module named after its Rust type, with its state and the
    five methods of the trait [Parser].  [now_rfc3339] is the time stamp put in
    the events. *)

From Stdlib Require Import ZArith Lia Strings.Byte Strings.Ascii.
From stdpp Require Import base strings pretty countable gmap list.
From S2P Require Import Prelude RustStd Foreign Types GmpTypes CellCodec Messages.

(** ** [common.rs] *)

Definition opt_eqb (o : option Z) (v : Z) : bool := bool_decide (o = Some v).

(** [str::to_lowercase] on ASCII. *)
Definition ascii_lower (c : ascii) : ascii :=
  let n := char_code c in
  if decide (65 <= n <= 90) then Ascii.ascii_of_N (Z.to_N (n + 32)) else c.

Fixpoint to_lowercase (s : string) : string :=
  match s with
  | EmptyString => EmptyString
  | String c s' => String (ascii_lower c) (to_lowercase s')
  end.

Section Common.
Context {TAL : TonAddressLib} {JL : JsonLib} {CO : CodecLib}.

Definition is_log_emmitted_in_opcode (tx : Transaction) (op_code : Z) (out_msg_log_index : nat)
    : res TransactionParsingError bool :=
  Ok (match in_msg tx with
      | Some in_msg =>
          match opcode in_msg with
          | Some opcode =>
              if decide (opcode = op_code) then
                match out_msgs tx !! out_msg_log_index with
                | Some msg => bool_decide (destination msg = None)
                | None => false
                end
              else false
          | None => false
          end
      | None => false
      end).

(** The loop of [is_log_emitted] from position [i]. *)
Fixpoint is_log_emitted_from (i : Z) (msgs : list TransactionMessage) (op_code : Z) : Z :=
  match msgs with
  | [] => -1
  | msg :: msgs' =>
      if bool_decide (destination msg = None) && opt_eqb (opcode msg) op_code then i
      else is_log_emitted_from (i + 1) msgs' op_code
  end.

Definition is_log_emitted (tx : Transaction) (op_code : Z) : res TransactionParsingError Z :=
  Ok (is_log_emitted_from 0 (out_msgs tx) op_code).

Definition hash_to_message_id (hash : string) : res TONRpcError string :=
  let? hash := map_err (fun e => DataError (fe_display e)) (fr (base64_decode hash)) in
  Ok ("0x" +:+ to_lowercase (hex_encode hash)).
End Common.

(** [rust_decimal] and [relayer_core::price_view], third-party: a product or a
    quotient that does not exist panics. *)
Class PriceLib := {
  Decimal : Type;
  Decimal_from_str : string -> fres Decimal;
  Decimal_mul : Decimal -> Decimal -> option Decimal;
  Decimal_div : Decimal -> Decimal -> option Decimal;
  Decimal_round : Decimal -> Decimal;
  Decimal_to_string : Decimal -> string;
  get_price : string -> fres Decimal;
}.

Definition or_panic {E A} (o : option A) : res E A :=
  match o with Some a => Ok a | None => Panic end.

Definition convert_jetton_to_native {BU : BigUintLib} {PL : PriceLib} (minter : string) (amount : N)
    : res GasError N :=
  let coin_pair := minter +:+ "/USD" in
  let? coin_to_usd := map_err (fun err => ConversionError (fe_display err)) (fr (get_price coin_pair)) in
  let? ton_to_usd := map_err (fun err => ConversionError (fe_display err)) (fr (get_price "TON/USD")) in
  let? amount := map_err (fun e => ConversionError ("Invalid amount: " +:+ fe_display e))
    (fr (Decimal_from_str (BigUint_to_string amount))) in
  let? product := or_panic (Decimal_mul amount coin_to_usd) in
  let? result := or_panic (Decimal_div product ton_to_usd) in
  let result := Decimal_round result in
  map_err (fun err => ConversionError (fe_display err))
    (fr (BigUint_from_str (Decimal_to_string result))).

(** ** [message_matching_key.rs] *)

Record MessageMatchingKey := {
  mk_destination_chain : string;
  mk_destination_address : string;
  mk_payload_hash : list byte;
}.

#[export] Instance MessageMatchingKey_eq_dec : EqDecision MessageMatchingKey.
Proof. solve_decision. Defined.

#[export] Instance MessageMatchingKey_countable : Countable MessageMatchingKey.
Proof.
  refine (inj_countable'
    (fun k => (mk_destination_chain k, mk_destination_address k, mk_payload_hash k))
    (fun '(c, a, h) => {| mk_destination_chain := c; mk_destination_address := a;
                          mk_payload_hash := h |}) _).
  by intros [].
Defined.

(** ** The trait *)

Notation perror := TransactionParsingError.

Class Parser (P : Type) := {
  parse : st P perror bool;
  check_match : st P perror bool;
  key : P -> res perror MessageMatchingKey;
  event : P -> option string -> res perror Event;
  message_id : P -> res perror (option string);
}.

(** [unimplemented!()]. *)
Definition unimplemented {E A} : res E A := Panic.

Definition missing_log : perror := Message "Missing log".
Definition missing_message_id : perror := Message "Missing message_id".

(** [match self.message_id().await? { Some(id) => id, None => .. }]. *)
Definition require_message_id (m : res perror (option string)) : res perror string :=
  let? id := m in ok_or (Message "Missing message id") id.

(** [EventMetadata] with nothing but the transaction and the time. *)
Definition metadata (now_rfc3339 tx_hash : string) : EventMetadata := {|
  tx_id := Some tx_hash;
  from_address := None;
  finalized := None;
  source_context := None;
  timestamp := now_rfc3339;
|}.

Definition zero_amount : Amount := {| token_id := None; amount := "0" |}.

Section Parsers.
Context {BU : BigUintLib} {TAL : TonAddressLib} {CL : CellLib} {CO : CodecLib} {JL : JsonLib}.
Context (now_rfc3339 : string).

(** [struct { log, tx, allowed_address }], with the type of the log. *)
Record TxParser (L : Type) := {
  tp_log : option L;
  tp_tx : Transaction;
  tp_allowed_address : TonAddress;
}.

(** The same with [log_position]. *)
Record PosParser (L : Type) := {
  pp_log : option L;
  pp_tx : Transaction;
  pp_allowed_address : TonAddress;
  pp_log_position : Z; (* isize *)
}.
End Parsers.
Arguments tp_log {_ _ _} _.
Arguments tp_tx {_ _ _} _.
Arguments tp_allowed_address {_ _ _} _.
Arguments pp_log {_ _ _} _.
Arguments pp_tx {_ _ _} _.
Arguments pp_allowed_address {_ _ _} _.
Arguments pp_log_position {_ _ _} _.

Section ParserSteps.
Context {TAL : TonAddressLib} {JL : JsonLib}.

Definition TxParser_new {L} (tx : Transaction) (allowed_address : TonAddress)
    : res perror (TxParser L) :=
  Ok {| tp_log := None; tp_tx := tx; tp_allowed_address := allowed_address |}.

Definition PosParser_new {L} (tx : Transaction) (allowed_address : TonAddress)
    : res perror (PosParser L) :=
  Ok {| pp_log := None; pp_tx := tx; pp_allowed_address := allowed_address;
        pp_log_position := -1 |}.

Definition set_tp_log {L} (log : option L) (p : TxParser L) : TxParser L :=
  {| tp_log := log; tp_tx := tp_tx p; tp_allowed_address := tp_allowed_address p |}.

Definition set_pp_log {L} (log : option L) (p : PosParser L) : PosParser L :=
  {| pp_log := log; pp_tx := pp_tx p; pp_allowed_address := pp_allowed_address p;
     pp_log_position := pp_log_position p |}.

Definition set_pp_position {L} (pos : Z) (p : PosParser L) : PosParser L :=
  {| pp_log := pp_log p; pp_tx := pp_tx p; pp_allowed_address := pp_allowed_address p;
     pp_log_position := pos |}.

(** [.map_err(|e| TransactionParsingError::BocParsing(e.to_string()))]. *)
Definition boc_parsing {A} (m : res BocError A) : res perror A :=
  map_err (fun e => BocParsing (BocError_to_string e)) m.

(** [X::from_boc_b64(&self.tx.out_msgs[i].message_content.body)]. *)
Definition decode_out_msg {L} (from_boc_b64 : string -> res BocError L) (tx : Transaction) (i : nat)
    : res perror L :=
  let? msg := index (out_msgs tx) i in
  boc_parsing (from_boc_b64 (body (message_content msg))).

(** [if self.log.is_none() { self.log = Some(decode?); } Ok(true)]. *)
Definition parse_log {L} (decode : Transaction -> res perror L) : st (TxParser L) perror bool :=
  fun self =>
    match tp_log self with
    | Some _ => (Ok true, self)
    | None =>
        match decode (tp_tx self) with
        | Ok log => (Ok true, set_tp_log (Some log) self)
        | Err e => (Err e, self)
        | Panic => (Panic, self)
        end
    end.

(** The [parse] of the parsers with a log position; [unset] is the test for
    no position.  A negative position cast to [usize] is out of range. *)
Definition parse_log_at {L} (unset : Z -> bool) (from_boc_b64 : string -> res BocError L)
    : st (PosParser L) perror bool :=
  fun self =>
    if unset (pp_log_position self) then (Ok false, self)
    else
      match pp_log self with
      | Some _ => (Ok true, self)
      | None =>
          match (if decide (pp_log_position self < 0) then Panic
                 else decode_out_msg from_boc_b64 (pp_tx self) (Z.to_nat (pp_log_position self)))
          with
          | Ok log => (Ok true, set_pp_log (Some log) self)
          | Err e => (Err e, self)
          | Panic => (Panic, self)
          end
      end.

(** [check_match] on the account, then on the transaction. *)
Definition check_account {L} (check : Transaction -> res perror bool) : st (TxParser L) perror bool :=
  fun self =>
    if decide (account (tp_tx self) <> tp_allowed_address self) then (Ok false, self)
    else (check (tp_tx self), self).

(** The [check_match] of the parsers with a log position. *)
Definition check_position {L} (op_code : Z) : st (PosParser L) perror bool :=
  fun self =>
    if decide (account (pp_tx self) <> pp_allowed_address self) then (Ok false, self)
    else
      match is_log_emitted (pp_tx self) op_code with
      | Ok pos => if decide (pos >= 0) then (Ok true, set_pp_position pos self) else (Ok false, self)
      | Err e => (Err e, self)
      | Panic => (Panic, self)
      end.

(** [match self.log.clone() { Some(log) => log, None => return Err(..) }]. *)
Definition tp_require_log {L} (self : TxParser L) : res perror L := ok_or missing_log (tp_log self).
Definition pp_require_log {L} (self : PosParser L) : res perror L := ok_or missing_log (pp_log self).

(** [if let Some(rest) = s.strip_prefix("0:") { "0x" + rest } else { s }]. *)
Definition hex_without_workchain (s : string) : string :=
  match strip_prefix "0:" s with
  | Some rest => "0x" +:+ rest
  | None => s
  end.
End ParserSteps.

(** ** [parser_call_contract.rs] *)
Module ParserCallContract.
Section Defs.
Context {BU : BigUintLib} {TAL : TonAddressLib} {CL : CellLib} {CO : CodecLib} {JL : JsonLib}.
Context (now_rfc3339 : string).

Record t := {
  base : TxParser CallContractMessage;
  chain_name : string;
}.

Definition new (tx : Transaction) (allowed_address : TonAddress) (chain_name : string)
    : res perror t :=
  let? base := TxParser_new tx allowed_address in
  Ok {| base := base; chain_name := chain_name |}.

(** A step on the shared fields. *)
Definition on_base {A} (m : st (TxParser CallContractMessage) perror A) : st t perror A :=
  fun self =>
    let '(r, b) := m (base self) in (r, {| base := b; chain_name := chain_name self |}).

Definition parse : st t perror bool :=
  on_base (parse_log (fun tx => decode_out_msg CallContractMessage_from_boc_b64 tx 0)).

Definition check_match : st t perror bool :=
  on_base (check_account (fun tx => is_log_emmitted_in_opcode tx OP_CALL_CONTRACT 0)).

Definition key (self : t) : res perror MessageMatchingKey :=
  let? log := tp_require_log (base self) in
  Ok {|
    mk_destination_chain := cc_destination_chain log;
    mk_destination_address := cc_destination_address log;
    mk_payload_hash := cc_payload_hash log;
  |}.

Definition message_id (self : t) : res perror (option string) :=
  res_map Some (map_err (fun e => Message (TONRpcError_to_string e))
    (hash_to_message_id (hash (tp_tx (base self))))).

Definition event (self : t) (_ : option string) : res perror Event :=
  let tx := tp_tx (base self) in
  let? log := tp_require_log (base self) in
  let? message_id := require_message_id (message_id self) in
  let source_context : gmap string string := list_to_map [
    ("source_address", TonAddress_to_hex (cc_source_address log));
    ("destination_address", cc_destination_address log);
    ("destination_chain", cc_destination_chain log)] in
  let? decoded := map_err (fun e => BocParsing ("Failed to decode payload: " +:+ fe_display e))
    (fr (hex_decode (cc_payload log))) in
  let b64_payload := base64_encode decoded in
  Ok (Call
    {| event_type := "CALL";
       event_id := hash tx;
       meta := Some {|
         tx_id := Some (hash tx);
         from_address := None;
         finalized := None;
         source_context := Some source_context;
         timestamp := now_rfc3339 |} |}
    {| gm_message_id := message_id;
       gm_source_chain := chain_name self;
       gm_source_address := TonAddress_to_hex (cc_source_address log);
       gm_destination_address := cc_destination_address log;
       gm_payload_hash := base64_encode (cc_payload_hash log) |}
    (cc_destination_chain log) b64_payload).

#[global] Instance parser : Parser t := {|
  Parsers.parse := parse;
  Parsers.check_match := check_match;
  Parsers.key := key;
  Parsers.event := event;
  Parsers.message_id := message_id;
|}.
End Defs.
End ParserCallContract.

(** ** [parser_message_approved.rs] *)
Module ParserMessageApproved.
Section Defs.
Context {BU : BigUintLib} {TAL : TonAddressLib} {CL : CellLib} {CO : CodecLib} {JL : JsonLib}.
Context (now_rfc3339 : string).

Definition t : Type := TxParser TonCCMessage.

Definition new : Transaction -> TonAddress -> res perror t := TxParser_new.

Definition parse : st t perror bool := parse_log (fun tx => decode_out_msg TonCCMessage_from_boc_b64 tx 0).

Definition check_match : st t perror bool :=
  check_account (fun tx => is_log_emmitted_in_opcode tx OP_MESSAGE_APPROVED 0).

Definition key (self : t) : res perror MessageMatchingKey :=
  let? log := tp_require_log self in
  Ok {|
    mk_destination_chain := ccm_destination_chain log;
    mk_destination_address := ccm_destination_address log;
    mk_payload_hash := ccm_payload_hash log;
  |}.

Definition event (self : t) (_ : option string) : res perror Event :=
  let tx := tp_tx self in
  let? log := tp_require_log self in
  Ok (MessageApproved
    {| event_type := "MESSAGE_APPROVED";
       event_id := hash tx;
       meta := Some {| ma_common_meta := metadata now_rfc3339 (hash tx); ma_command_id := None |} |}
    {| gm_message_id := ccm_message_id log;
       gm_source_chain := ccm_source_chain log;
       gm_source_address := ccm_source_address log;
       gm_destination_address := ccm_destination_address log;
       gm_payload_hash := hex_encode (ccm_payload_hash log) |}
    zero_amount).

Definition message_id (self : t) : res perror (option string) := Ok None.

#[global] Instance parser : Parser t := {|
  Parsers.parse := parse;
  Parsers.check_match := check_match;
  Parsers.key := key;
  Parsers.event := event;
  Parsers.message_id := message_id;
|}.
End Defs.
End ParserMessageApproved.

(** ** [parser_message_executed.rs] *)
Module ParserMessageExecuted.
Section Defs.
Context {BU : BigUintLib} {TAL : TonAddressLib} {CL : CellLib} {CO : CodecLib} {JL : JsonLib}.
Context (now_rfc3339 : string).

Definition t : Type := TxParser NullifiedSuccessfullyMessage.

Definition new : Transaction -> TonAddress -> res perror t := TxParser_new.

Definition parse : st t perror bool :=
  parse_log (fun tx =>
    let? in_msg := ok_or (Message "Transaction has no in_msg") (in_msg tx) in
    boc_parsing (NullifiedSuccessfullyMessage_from_boc_b64 (body (message_content in_msg)))).

Definition check_match : st t perror bool :=
  check_account (fun tx =>
    let? first_log := is_log_emmitted_in_opcode tx OP_NULLIFIED_SUCCESSFULLY 0 in
    let? (second_log, msg_idx) :=
      (if negb first_log then
         let? second_log := is_log_emmitted_in_opcode tx OP_NULLIFIED_SUCCESSFULLY 1 in
         Ok (second_log, 0%nat)
       else Ok (false, 1%nat)) in
    if negb second_log && negb first_log then Ok false
    else
      Ok (match out_msgs tx !! msg_idx with
          | Some out_msg => opt_eqb (opcode out_msg) OP_GATEWAY_EXECUTE
          | None => false
          end)).

Definition key (self : t) : res perror MessageMatchingKey := unimplemented.

Definition event (self : t) (_ : option string) : res perror Event :=
  let tx := tp_tx self in
  let? log := tp_require_log self in
  Ok (MessageExecuted
    {| event_type := "MESSAGE_EXECUTED";
       event_id := hash tx;
       meta := Some {| me_common_meta := metadata now_rfc3339 (hash tx); me_command_id := None;
                       child_message_ids := None; revert_reason := None |} |}
    (nm_message_id log) (nm_source_chain log) SUCCESSFUL zero_amount).

Definition message_id (self : t) : res perror (option string) := Ok None.

#[global] Instance parser : Parser t := {|
  Parsers.parse := parse;
  Parsers.check_match := check_match;
  Parsers.key := key;
  Parsers.event := event;
  Parsers.message_id := message_id;
|}.
End Defs.
End ParserMessageExecuted.

(** ** [parser_native_gas_paid.rs] *)
Module ParserNativeGasPaid.
Section Defs.
Context {BU : BigUintLib} {TAL : TonAddressLib} {CL : CellLib} {CO : CodecLib} {JL : JsonLib}.
Context (now_rfc3339 : string).

Definition t : Type := TxParser NativeGasPaidMessage.

Definition new : Transaction -> TonAddress -> res perror t := TxParser_new.

Definition parse : st t perror bool := parse_log (fun tx => decode_out_msg NativeGasPaidMessage_from_boc_b64 tx 0).

Definition check_match : st t perror bool :=
  check_account (fun tx =>
    let? paid := is_log_emmitted_in_opcode tx OP_PAY_NATIVE_GAS_FOR_CONTRACT_CALL 0 in
    if (paid : bool) then Ok true else is_log_emmitted_in_opcode tx OP_PAY_GAS 0).

Definition key (self : t) : res perror MessageMatchingKey :=
  let? log := tp_require_log self in
  Ok {|
    mk_destination_chain := ngp_destination_chain log;
    mk_destination_address := ngp_destination_address log;
    mk_payload_hash := ngp_payload_hash log;
  |}.

Definition event (self : t) (message_id : option string) : res perror Event :=
  let tx := tp_tx self in
  let? message_id := ok_or missing_message_id message_id in
  let? log := tp_require_log self in
  Ok (GasCredit
    {| event_type := "GAS_CREDIT";
       event_id := hash tx +:+ "-gas";
       meta := Some (metadata now_rfc3339 (hash tx)) |}
    message_id (TonAddress_to_hex (ngp_refund_address log))
    {| token_id := None; amount := BigUint_to_string (ngp_msg_value log) |}).

Definition message_id (self : t) : res perror (option string) := Ok None.

#[global] Instance parser : Parser t := {|
  Parsers.parse := parse;
  Parsers.check_match := check_match;
  Parsers.key := key;
  Parsers.event := event;
  Parsers.message_id := message_id;
|}.
End Defs.
End ParserNativeGasPaid.

(** ** [parser_native_gas_added.rs] *)
Module ParserNativeGasAdded.
Section Defs.
Context {BU : BigUintLib} {TAL : TonAddressLib} {CL : CellLib} {CO : CodecLib} {JL : JsonLib}.
Context (now_rfc3339 : string).

Definition t : Type := TxParser NativeGasAddedMessage.

Definition new : Transaction -> TonAddress -> res perror t := TxParser_new.

Definition parse : st t perror bool := parse_log (fun tx => decode_out_msg NativeGasAddedMessage_from_boc_b64 tx 0).

Definition check_match : st t perror bool :=
  check_account (fun tx => is_log_emmitted_in_opcode tx OP_ADD_NATIVE_GAS 0).

Definition key (self : t) : res perror MessageMatchingKey := unimplemented.

Definition message_id (self : t) : res perror (option string) :=
  let? log := tp_require_log self in
  Ok (Some ("0x" +:+ TonHash_to_string (nga_tx_hash log))).

Definition event (self : t) (_ : option string) : res perror Event :=
  let tx := tp_tx self in
  let? log := tp_require_log self in
  let? message_id := require_message_id (message_id self) in
  Ok (GasCredit
    {| event_type := "GAS_CREDIT";
       event_id := hash tx +:+ "-gas";
       meta := Some (metadata now_rfc3339 (hash tx)) |}
    message_id (TonAddress_to_hex (nga_refund_address log))
    {| token_id := None; amount := BigUint_to_string (nga_msg_value log) |}).

#[global] Instance parser : Parser t := {|
  Parsers.parse := parse;
  Parsers.check_match := check_match;
  Parsers.key := key;
  Parsers.event := event;
  Parsers.message_id := message_id;
|}.
End Defs.
End ParserNativeGasAdded.

(** ** [parser_native_gas_refunded.rs] *)
Module ParserNativeGasRefunded.
Section Defs.
Context {BU : BigUintLib} {TAL : TonAddressLib} {CL : CellLib} {CO : CodecLib} {JL : JsonLib}.
Context (now_rfc3339 : string).

Definition t : Type := TxParser NativeGasRefundedMessage.

Definition new : Transaction -> TonAddress -> res perror t := TxParser_new.

Definition parse : st t perror bool := parse_log (fun tx => decode_out_msg NativeGasRefundedMessage_from_boc_b64 tx 1).

Definition check_match : st t perror bool :=
  check_account (fun tx => is_log_emmitted_in_opcode tx OP_NATIVE_REFUND 1).

Definition key (self : t) : res perror MessageMatchingKey := unimplemented.

Definition message_id (self : t) : res perror (option string) :=
  match tp_log self with
  | Some log => Ok (Some ("0x" +:+ TonHash_to_string (ngr_tx_hash log)))
  | None => Ok None
  end.

Definition event (self : t) (_ : option string) : res perror Event :=
  let tx := tp_tx self in
  let? log := tp_require_log self in
  let? message_id := require_message_id (message_id self) in
  Ok (GasRefunded
    {| event_type := "GAS_REFUNDED"; event_id := hash tx; meta := None |}
    message_id (TonAddress_to_hex (ngr_address log))
    {| token_id := None; amount := BigUint_to_string (ngr_amount log) |} zero_amount).

#[global] Instance parser : Parser t := {|
  Parsers.parse := parse;
  Parsers.check_match := check_match;
  Parsers.key := key;
  Parsers.event := event;
  Parsers.message_id := message_id;
|}.
End Defs.
End ParserNativeGasRefunded.

(** ** [parser_jetton_gas_paid.rs] *)
Module ParserJettonGasPaid.
Section Defs.
Context {BU : BigUintLib} {TAL : TonAddressLib} {CL : CellLib} {CO : CodecLib} {JL : JsonLib}.
Context (now_rfc3339 : string).

Definition t : Type := TxParser JettonGasPaidMessage.

Definition new : Transaction -> TonAddress -> res perror t := TxParser_new.

Definition parse : st t perror bool := parse_log (fun tx => decode_out_msg JettonGasPaidMessage_from_boc_b64 tx 0).

Definition check_match : st t perror bool :=
  check_account (fun tx =>
    let? candidate := is_log_emmitted_in_opcode tx OP_TRANSFER_NOTIFICATION 0 in
    if negb candidate then Ok false
    else
      let? msg := index (out_msgs tx) 0 in
      Ok (is_ok (JettonGasPaidMessage_from_boc_b64 (body (message_content msg))))).

Definition key (self : t) : res perror MessageMatchingKey :=
  let? log := tp_require_log self in
  Ok {|
    mk_destination_chain := jgp_destination_chain log;
    mk_destination_address := jgp_destination_address log;
    mk_payload_hash := jgp_payload_hash log;
  |}.

Definition event (self : t) (message_id : option string) : res perror Event :=
  let tx := tp_tx self in
  let? message_id := ok_or missing_message_id message_id in
  let? log := tp_require_log self in
  Ok (GasCredit
    {| event_type := "GAS_CREDIT";
       event_id := hash tx +:+ "-gas";
       meta := Some (metadata now_rfc3339 (hash tx)) |}
    message_id (TonAddress_to_hex (jgp_refund_address log))
    {| token_id := Some (TonAddress_to_hex (jgp_minter log)); amount := BigUint_to_string (jgp_amount log) |}).

Definition message_id (self : t) : res perror (option string) := Ok None.

#[global] Instance parser : Parser t := {|
  Parsers.parse := parse;
  Parsers.check_match := check_match;
  Parsers.key := key;
  Parsers.event := event;
  Parsers.message_id := message_id;
|}.
End Defs.
End ParserJettonGasPaid.

(** ** [parser_jetton_gas_added.rs] *)
Module ParserJettonGasAdded.
Section Defs.
Context {BU : BigUintLib} {TAL : TonAddressLib} {CL : CellLib} {CO : CodecLib} {JL : JsonLib}.
Context (now_rfc3339 : string).

Definition t : Type := TxParser JettonGasAddedMessage.

Definition new : Transaction -> TonAddress -> res perror t := TxParser_new.

Definition parse : st t perror bool := parse_log (fun tx => decode_out_msg JettonGasAddedMessage_from_boc_b64 tx 0).

Definition check_match : st t perror bool :=
  check_account (fun tx =>
    let? candidate := is_log_emmitted_in_opcode tx OP_TRANSFER_NOTIFICATION 0 in
    if negb candidate then Ok false
    else
      let? msg := index (out_msgs tx) 0 in
      Ok (is_ok (JettonGasAddedMessage_from_boc_b64 (body (message_content msg))))).

Definition key (self : t) : res perror MessageMatchingKey := unimplemented.

Definition message_id (self : t) : res perror (option string) :=
  let? log := tp_require_log self in
  Ok (Some ("0x" +:+ TonHash_to_string (jga_tx_hash log))).

Definition event (self : t) (_ : option string) : res perror Event :=
  let tx := tp_tx self in
  let? log := tp_require_log self in
  let? message_id := require_message_id (message_id self) in
  Ok (GasCredit
    {| event_type := "GAS_CREDIT";
       event_id := hash tx +:+ "-gas";
       meta := Some (metadata now_rfc3339 (hash tx)) |}
    message_id (TonAddress_to_hex (jga_refund_address log))
    {| token_id := Some (TonAddress_to_hex (jga_minter log)); amount := BigUint_to_string (jga_amount log) |}).

#[global] Instance parser : Parser t := {|
  Parsers.parse := parse;
  Parsers.check_match := check_match;
  Parsers.key := key;
  Parsers.event := event;
  Parsers.message_id := message_id;
|}.
End Defs.
End ParserJettonGasAdded.

(** ** [parser_signers_rotated.rs] *)
Module ParserSignersRotated.
Section Defs.
Context {BU : BigUintLib} {TAL : TonAddressLib} {CL : CellLib} {CO : CodecLib} {JL : JsonLib}.
Context (now_rfc3339 : string).

Definition t : Type := PosParser LogSignersRotatedMessage.

Definition new : Transaction -> TonAddress -> res perror t := PosParser_new.

Definition parse : st t perror bool :=
  parse_log_at (fun pos => pos =? -1) LogSignersRotatedMessage_from_boc_b64.

Definition check_match : st t perror bool := check_position OP_SIGNERS_ROTATED_LOG.

Definition key (self : t) : res perror MessageMatchingKey := unimplemented.

Definition message_id (self : t) : res perror (option string) :=
  res_map Some (map_err (fun e => Message (TONRpcError_to_string e))
    (hash_to_message_id (hash (pp_tx self)))).

Definition event (self : t) (_ : option string) : res perror Event :=
  let tx := pp_tx self in
  let? message_id := require_message_id (message_id self) in
  let? log := pp_require_log self in
  Ok (SignersRotated
    {| event_type := "SIGNERS_ROTATED";
       event_id := hash tx +:+ "-signers-rotated";
       meta := Some {| sr_common_meta := metadata now_rfc3339 (hash tx);
                       sr_signers_hash := Some (srm_signers_hash log);
                       sr_epoch := Some (srm_epoch log) |} |}
    message_id).

#[global] Instance parser : Parser t := {|
  Parsers.parse := parse;
  Parsers.check_match := check_match;
  Parsers.key := key;
  Parsers.event := event;
  Parsers.message_id := message_id;
|}.
End Defs.
End ParserSignersRotated.

(** ** [parser_its_interchain_transfer.rs] *)
Module ParserITSInterchainTransfer.
Section Defs.
Context {BU : BigUintLib} {TAL : TonAddressLib} {CL : CellLib} {CO : CodecLib} {JL : JsonLib}.
Context (now_rfc3339 : string).

Definition t : Type := PosParser LogITSInterchainTransferMessage.

Definition new : Transaction -> TonAddress -> res perror t := PosParser_new.

Definition parse : st t perror bool :=
  parse_log_at (fun pos => pos <? 0) LogITSInterchainTransferMessage_from_boc_b64.

Definition check_match : st t perror bool := check_position OP_INTERCHAIN_TRANSFER_LOG.

Definition key (self : t) : res perror MessageMatchingKey := unimplemented.

Definition event (self : t) (message_id : option string) : res perror Event :=
  let tx := pp_tx self in
  let? message_id := ok_or missing_message_id message_id in
  let? log := pp_require_log self in
  let data_hash :=
    match itm_data log with
    | [] => str_repeat "0" 32
    | data => BigUint_to_string (payload_hash data)
    end in
  Ok (ITSInterchainTransfer
    {| event_type := "ITS/INTERCHAIN_TRANSFER";
       event_id := hash tx +:+ "-its-interchain-transfer";
       meta := Some (metadata now_rfc3339 (hash tx)) |}
    message_id (itm_destination_chain log)
    {| token_id := Some ("0x" +:+ BigUint_to_str_radix16 (itm_token_id log));
       amount := BigUint_to_string (itm_jetton_amount log) |}
    (TonAddress_to_hex (itm_sender_address log)) (itm_destination_address log) data_hash).

Definition message_id (self : t) : res perror (option string) := Ok None.

#[global] Instance parser : Parser t := {|
  Parsers.parse := parse;
  Parsers.check_match := check_match;
  Parsers.key := key;
  Parsers.event := event;
  Parsers.message_id := message_id;
|}.
End Defs.
End ParserITSInterchainTransfer.

(** ** [parser_its_interchain_token_deployment_started.rs] *)
Module ParserITSInterchainTokenDeploymentStarted.
Section Defs.
Context {BU : BigUintLib} {TAL : TonAddressLib} {CL : CellLib} {CO : CodecLib} {JL : JsonLib}.
Context (now_rfc3339 : string).

Definition t : Type := PosParser LogITSInterchainTokenDeploymentStartedMessage.

Definition new : Transaction -> TonAddress -> res perror t := PosParser_new.

Definition parse : st t perror bool :=
  parse_log_at (fun pos => pos =? -1) LogITSInterchainTokenDeploymentStartedMessage_from_boc_b64.

Definition check_match : st t perror bool := check_position OP_INTERCHAIN_TOKEN_DEPLOYMENT_STARTED_LOG.

Definition key (self : t) : res perror MessageMatchingKey := unimplemented.

Definition event (self : t) (message_id : option string) : res perror Event :=
  let tx := pp_tx self in
  let? message_id := ok_or missing_message_id message_id in
  let? log := pp_require_log self in
  Ok (ITSInterchainTokenDeploymentStarted
    {| event_type := "ITS/INTERCHAIN_TOKEN_DEPLOYMENT_STARTED";
       event_id := hash tx +:+ "-its-interchain-token-deployment-started";
       meta := Some (metadata now_rfc3339 (hash tx)) |}
    message_id (tds_destination_chain log)
    {| itd_id := "0x" +:+ BigUint_to_str_radix16 (tds_token_id log);
       itd_name := tds_token_name log;
       itd_symbol := tds_token_symbol log;
       itd_decimals := tds_decimals log |}).

Definition message_id (self : t) : res perror (option string) := Ok None.

#[global] Instance parser : Parser t := {|
  Parsers.parse := parse;
  Parsers.check_match := check_match;
  Parsers.key := key;
  Parsers.event := event;
  Parsers.message_id := message_id;
|}.
End Defs.
End ParserITSInterchainTokenDeploymentStarted.

(** ** [parser_its_link_token_started.rs] *)
Module ParserITSLinkTokenStarted.
Section Defs.
Context {BU : BigUintLib} {TAL : TonAddressLib} {CL : CellLib} {CO : CodecLib} {JL : JsonLib}.
Context (now_rfc3339 : string).

Definition t : Type := PosParser LogITSLinkTokenStartedMessage.

Definition new : Transaction -> TonAddress -> res perror t := PosParser_new.

Definition parse : st t perror bool :=
  parse_log_at (fun pos => pos <? 0) LogITSLinkTokenStartedMessage_from_boc_b64.

Definition check_match : st t perror bool := check_position OP_LINK_TOKEN_STARTED_LOG.

Definition key (self : t) : res perror MessageMatchingKey := unimplemented.

Definition event (self : t) (message_id : option string) : res perror Event :=
  let tx := pp_tx self in
  let? message_id := ok_or missing_message_id message_id in
  let? log := pp_require_log self in
  Ok (ITSLinkTokenStarted
    {| event_type := "ITS/LINK_TOKEN_STARTED";
       event_id := hash tx +:+ "-its-link-token-started";
       meta := Some (metadata now_rfc3339 (hash tx)) |}
    message_id ("0x" +:+ BigUint_to_str_radix16 (lts_token_id log)) (lts_destination_chain log)
    (hex_without_workchain (TonAddress_to_hex (lts_source_token_address log)))
    (lts_destination_token_address log) (lts_token_manager_type log)).

Definition message_id (self : t) : res perror (option string) := Ok None.

#[global] Instance parser : Parser t := {|
  Parsers.parse := parse;
  Parsers.check_match := check_match;
  Parsers.key := key;
  Parsers.event := event;
  Parsers.message_id := message_id;
|}.
End Defs.
End ParserITSLinkTokenStarted.

(** ** [parser_its_token_metadata_registered.rs] *)
Module ParserITSTokenMetadataRegistered.
Section Defs.
Context {BU : BigUintLib} {TAL : TonAddressLib} {CL : CellLib} {CO : CodecLib} {JL : JsonLib}.
Context (now_rfc3339 : string).

Definition t : Type := TxParser LogTokenMetadataRegisteredMessage.

Definition new : Transaction -> TonAddress -> res perror t := TxParser_new.

Definition parse : st t perror bool := parse_log (fun tx => decode_out_msg LogTokenMetadataRegisteredMessage_from_boc_b64 tx 0).

Definition check_match : st t perror bool :=
  check_account (fun tx => is_log_emmitted_in_opcode tx OP_REGISTER_TOKEN_METADATA 0).

Definition key (self : t) : res perror MessageMatchingKey := unimplemented.

Definition event (self : t) (message_id : option string) : res perror Event :=
  let tx := tp_tx self in
  let? message_id := ok_or missing_message_id message_id in
  let? log := tp_require_log self in
  Ok (ITSTokenMetadataRegistered
    {| event_type := "ITS/TOKEN_METADATA_REGISTERED";
       event_id := hash tx +:+ "-its-metadata";
       meta := Some (metadata now_rfc3339 (hash tx)) |}
    message_id (hex_without_workchain (TonAddress_to_hex (tmr_address log))) (tmr_decimals log)).

Definition message_id (self : t) : res perror (option string) := Ok None.

#[global] Instance parser : Parser t := {|
  Parsers.parse := parse;
  Parsers.check_match := check_match;
  Parsers.key := key;
  Parsers.event := event;
  Parsers.message_id := message_id;
|}.
End Defs.
End ParserITSTokenMetadataRegistered.

(** ** [parser_execute_insufficient_gas.rs] *)
Module ParserExecuteInsufficientGas.
Section Defs.
Context {BU : BigUintLib} {TAL : TonAddressLib} {CL : CellLib} {CO : CodecLib} {JL : JsonLib}.
Context (now_rfc3339 : string).

Record t := {
  log : option RelayerExecuteWrappedMessage;
  trace : Trace;
  allowed_address : TonAddress;
  chain_name_ : string;
}.

Definition new (trace : Trace) (allowed_address : TonAddress) (chain_name : string) : res perror t :=
  Ok {| log := None; trace := trace; allowed_address := allowed_address;
        chain_name_ := chain_name |}.

Definition set_log (l : option RelayerExecuteWrappedMessage) (self : t) : t :=
  {| log := l; trace := trace self; allowed_address := allowed_address self;
     chain_name_ := chain_name_ self |}.

Definition parse : st t perror bool :=
  fun self =>
    match log self with
    | Some _ => (Ok true, self)
    | None =>
        match
          (let? tx := index (transactions (trace self)) 0 in
           let? msg := index (out_msgs tx) 0 in
           boc_parsing (RelayerExecuteWrappedMessage_from_boc_b64 (body (message_content msg))))
        with
        | Ok l => (Ok true, set_log (Some l) self)
        | Err e => (Err e, self)
        | Panic => (Panic, self)
        end
    end.

(** The second transaction sends one relayer-execute message, and the third,
    of the gateway, ends with the insufficient-gas exit code (an [i32] cast to
    [u32]). *)
Definition insufficient_gas_exit (txs : list Transaction) (allowed_address : TonAddress) : bool :=
  match txs !! 1%nat, txs !! 2%nat with
  | Some tx1, Some tx2 =>
      bool_decide (account tx2 = allowed_address) &&
      (let opcode := default 0 (match out_msgs tx1 with [] => None | msg :: _ => opcode msg end) in
       bool_decide (length (out_msgs tx1) = 1%nat) && (opcode =? OP_RELAYER_EXECUTE) &&
       (let code := default 0 (match compute_ph (description tx2) with
                               | Some ph => exit_code ph
                               | None => None
                               end) in
        wrap_u 32 code =? EXIT_CODE_INSUFFICIENT_GAS))
  | _, _ => false
  end.

(** Five transactions, the last one nullified and its action failed. *)
Definition insufficient_gas_action (txs : list Transaction) : bool :=
  match txs !! 3%nat, txs !! 4%nat with
  | Some tx3, Some tx4 =>
      bool_decide (length txs = 5%nat) && bool_decide (is_Some (in_msg tx3)) &&
      match in_msg tx4 with
      | Some in_msg4 =>
          opt_eqb (opcode in_msg4) OP_NULLIFIED_SUCCESSFULLY &&
          match action (description tx4) with
          | Some action => result_code action =? 37
          | None => false
          end
      | None => false
      end
  | _, _ => false
  end.

Definition check_match : st t perror bool :=
  fun self =>
    let txs := transactions (trace self) in
    (if insufficient_gas_exit txs (allowed_address self) then Ok true
     else if insufficient_gas_action txs then Ok true
     else Ok false, self).

Definition key (self : t) : res perror MessageMatchingKey := unimplemented.

Definition message_id (self : t) : res perror (option string) := unimplemented.

Definition event (self : t) (_ : option string) : res perror Event :=
  let? log := ok_or missing_log (log self) in
  Ok (CannotExecuteMessageV2
    {| event_type := "CANNOT_EXECUTE_MESSAGE/V2";
       event_id := "cannot-execute-task-v2-" +:+ z_to_string (end_lt (trace self));
       meta := None |}
    (rew_message_id log) (rew_source_chain log) InsufficientGasReason
    (trace_id (trace self))).

#[global] Instance parser : Parser t := {|
  Parsers.parse := parse;
  Parsers.check_match := check_match;
  Parsers.key := key;
  Parsers.event := event;
  Parsers.message_id := message_id;
|}.
End Defs.
End ParserExecuteInsufficientGas.
