(* ===== verification/TraceParser.v ===== *)
(** * From a trace to events: [transaction_parser/parser.rs]

    [create_parsers] offers every transaction to the parsers in order;
    [parse_trace] asks the parsers that matched for their events, pairs the gas
    payments and the ITS logs with the calls, and fills in the gas used. *)

From Stdlib Require Import ZArith Lia Strings.Byte Strings.Ascii.
From stdpp Require Import base strings pretty countable gmap list.
From S2P Require Import Prelude RustStd Foreign Types GmpTypes CellCodec Messages Gas Parsers.

Section TraceParser.
Context {BU : BigUintLib} {TAL : TonAddressLib} {CL : CellLib} {CO : CodecLib} {JL : JsonLib}.
Context {PL : PriceLib}.
Context (now_rfc3339 : string).

(** [Box<dyn Parser>]. *)
Inductive ParserObj : Type :=
| OCallContract (p : ParserCallContract.t)
| OMessageExecuted (p : ParserMessageExecuted.t)
| OMessageApproved (p : ParserMessageApproved.t)
| ONativeGasPaid (p : ParserNativeGasPaid.t)
| ONativeGasAdded (p : ParserNativeGasAdded.t)
| OJettonGasAdded (p : ParserJettonGasAdded.t)
| OJettonGasPaid (p : ParserJettonGasPaid.t)
| ONativeGasRefunded (p : ParserNativeGasRefunded.t)
| OITSTokenMetadataRegistered (p : ParserITSTokenMetadataRegistered.t)
| OITSInterchainTokenDeploymentStarted (p : ParserITSInterchainTokenDeploymentStarted.t)
| OITSInterchainTransfer (p : ParserITSInterchainTransfer.t)
| OITSLinkTokenStarted (p : ParserITSLinkTokenStarted.t)
| OSignersRotated (p : ParserSignersRotated.t)
| OExecuteInsufficientGas (p : ParserExecuteInsufficientGas.t).

(** Dynamic dispatch of the three methods called on boxes. *)
Definition obj_event (o : ParserObj) (id : option string) : res perror Event :=
  match o with
  | OCallContract p => ParserCallContract.event now_rfc3339 p id
  | OMessageExecuted p => ParserMessageExecuted.event now_rfc3339 p id
  | OMessageApproved p => ParserMessageApproved.event now_rfc3339 p id
  | ONativeGasPaid p => ParserNativeGasPaid.event now_rfc3339 p id
  | ONativeGasAdded p => ParserNativeGasAdded.event now_rfc3339 p id
  | OJettonGasAdded p => ParserJettonGasAdded.event now_rfc3339 p id
  | OJettonGasPaid p => ParserJettonGasPaid.event now_rfc3339 p id
  | ONativeGasRefunded p => ParserNativeGasRefunded.event p id
  | OITSTokenMetadataRegistered p => ParserITSTokenMetadataRegistered.event now_rfc3339 p id
  | OITSInterchainTokenDeploymentStarted p =>
      ParserITSInterchainTokenDeploymentStarted.event now_rfc3339 p id
  | OITSInterchainTransfer p => ParserITSInterchainTransfer.event now_rfc3339 p id
  | OITSLinkTokenStarted p => ParserITSLinkTokenStarted.event now_rfc3339 p id
  | OSignersRotated p => ParserSignersRotated.event now_rfc3339 p id
  | OExecuteInsufficientGas p => ParserExecuteInsufficientGas.event p id
  end.

Definition obj_key (o : ParserObj) : res perror MessageMatchingKey :=
  match o with
  | OCallContract p => ParserCallContract.key p
  | OMessageApproved p => ParserMessageApproved.key p
  | ONativeGasPaid p => ParserNativeGasPaid.key p
  | OJettonGasPaid p => ParserJettonGasPaid.key p
  | _ => unimplemented
  end.

Definition obj_message_id (o : ParserObj) : res perror (option string) :=
  match o with
  | OCallContract p => ParserCallContract.message_id p
  | ONativeGasAdded p => ParserNativeGasAdded.message_id p
  | OJettonGasAdded p => ParserJettonGasAdded.message_id p
  | ONativeGasRefunded p => ParserNativeGasRefunded.message_id p
  | OSignersRotated p => ParserSignersRotated.message_id p
  | OExecuteInsufficientGas p => unimplemented
  | _ => Ok None
  end.

Record TraceParser := {
  gateway_address : TonAddress;
  gas_service_address : TonAddress;
  its_address : TonAddress;
  gas_calculator : GasCalculator;
  chain_name : string;
}.

Definition TraceParser_new (gateway_address gas_service_address its_address : TonAddress)
    (gas_calculator : GasCalculator) (chain_name : string) : TraceParser := {|
  gateway_address := gateway_address;
  gas_service_address := gas_service_address;
  its_address := its_address;
  gas_calculator := gas_calculator;
  chain_name := chain_name;
|}.

(** The vectors and the map [parse_trace] passes to [create_parsers], and the
    count it returns. *)
Record Parsed := {
  ps_parsers : list ParserObj;
  ps_call_contract : list ParserObj;
  ps_gas_credit_map : gmap MessageMatchingKey ParserObj;
  ps_its : list ParserObj;
  ps_message_approved_count : Z; (* u64 *)
}.

Definition no_parsers : Parsed := {|
  ps_parsers := []; ps_call_contract := []; ps_gas_credit_map := ∅; ps_its := [];
  ps_message_approved_count := 0 |}.

Definition push_parser (o : ParserObj) (s : Parsed) : Parsed := {|
  ps_parsers := ps_parsers s ++ [o]; ps_call_contract := ps_call_contract s;
  ps_gas_credit_map := ps_gas_credit_map s; ps_its := ps_its s;
  ps_message_approved_count := ps_message_approved_count s |}.

Definition push_call (o : ParserObj) (s : Parsed) : Parsed := {|
  ps_parsers := ps_parsers s; ps_call_contract := ps_call_contract s ++ [o];
  ps_gas_credit_map := ps_gas_credit_map s; ps_its := ps_its s;
  ps_message_approved_count := ps_message_approved_count s |}.

Definition push_its (o : ParserObj) (s : Parsed) : Parsed := {|
  ps_parsers := ps_parsers s; ps_call_contract := ps_call_contract s;
  ps_gas_credit_map := ps_gas_credit_map s; ps_its := ps_its s ++ [o];
  ps_message_approved_count := ps_message_approved_count s |}.

Definition insert_credit (k : MessageMatchingKey) (o : ParserObj) (s : Parsed) : Parsed := {|
  ps_parsers := ps_parsers s; ps_call_contract := ps_call_contract s;
  ps_gas_credit_map := <[k := o]> (ps_gas_credit_map s); ps_its := ps_its s;
  ps_message_approved_count := ps_message_approved_count s |}.

Definition count_approved (s : Parsed) : Parsed := {|
  ps_parsers := ps_parsers s; ps_call_contract := ps_call_contract s;
  ps_gas_credit_map := ps_gas_credit_map s; ps_its := ps_its s;
  ps_message_approved_count := wrap_u 64 (ps_message_approved_count s + 1) |}.

(** One [let mut parser = X::new(..)?; if parser.check_match()? {
    parser.parse()?; ..; continue; }]. *)
Definition try_parser {P} {PP : Parser P} (new : res perror P)
    (matched : P -> res perror Parsed) (otherwise : res perror Parsed) : res perror Parsed :=
  let? parser := new in
  let '(r, parser) := check_match parser in
  let? b := r in
  if (b : bool) then
    let '(r, parser) := parse parser in
    let? _ := r in
    matched parser
  else otherwise.

(** The body of the loop over the transactions. *)
Definition create_parsers_tx (self : TraceParser) (s : Parsed) (tx : Transaction)
    : res perror Parsed :=
  try_parser (PP := ParserCallContract.parser now_rfc3339)
    (ParserCallContract.new tx (gateway_address self) (chain_name self))
    (fun p => Ok (push_call (OCallContract p) s)) (
  try_parser (PP := ParserMessageExecuted.parser now_rfc3339)
    (ParserMessageExecuted.new tx (gateway_address self))
    (fun p => Ok (push_parser (OMessageExecuted p) s)) (
  try_parser (PP := ParserMessageApproved.parser now_rfc3339)
    (ParserMessageApproved.new tx (gateway_address self))
    (fun p => Ok (count_approved (push_parser (OMessageApproved p) s))) (
  try_parser (PP := ParserNativeGasPaid.parser now_rfc3339)
    (ParserNativeGasPaid.new tx (gas_service_address self))
    (fun p => let? k := ParserNativeGasPaid.key p in Ok (insert_credit k (ONativeGasPaid p) s)) (
  try_parser (PP := ParserNativeGasAdded.parser now_rfc3339)
    (ParserNativeGasAdded.new tx (gas_service_address self))
    (fun p => Ok (push_parser (ONativeGasAdded p) s)) (
  try_parser (PP := ParserJettonGasAdded.parser now_rfc3339)
    (ParserJettonGasAdded.new tx (gas_service_address self))
    (fun p => Ok (push_parser (OJettonGasAdded p) s)) (
  try_parser (PP := ParserJettonGasPaid.parser now_rfc3339)
    (ParserJettonGasPaid.new tx (gas_service_address self))
    (fun p => let? k := ParserJettonGasPaid.key p in Ok (insert_credit k (OJettonGasPaid p) s)) (
  try_parser (PP := ParserNativeGasRefunded.parser)
    (ParserNativeGasRefunded.new tx (gas_service_address self))
    (fun p => Ok (push_parser (ONativeGasRefunded p) s)) (
  try_parser (PP := ParserITSTokenMetadataRegistered.parser now_rfc3339)
    (ParserITSTokenMetadataRegistered.new tx (its_address self))
    (fun p => Ok (push_its (OITSTokenMetadataRegistered p) s)) (
  try_parser (PP := ParserITSInterchainTokenDeploymentStarted.parser now_rfc3339)
    (ParserITSInterchainTokenDeploymentStarted.new tx (its_address self))
    (fun p => Ok (push_its (OITSInterchainTokenDeploymentStarted p) s)) (
  try_parser (PP := ParserITSInterchainTransfer.parser now_rfc3339)
    (ParserITSInterchainTransfer.new tx (its_address self))
    (fun p => Ok (push_its (OITSInterchainTransfer p) s)) (
  try_parser (PP := ParserITSLinkTokenStarted.parser now_rfc3339)
    (ParserITSLinkTokenStarted.new tx (its_address self))
    (fun p => Ok (push_its (OITSLinkTokenStarted p) s)) (
  try_parser (PP := ParserSignersRotated.parser now_rfc3339)
    (ParserSignersRotated.new tx (gateway_address self))
    (fun p => Ok (push_parser (OSignersRotated p) s))
  (Ok s))))))))))))).

Definition create_parsers (self : TraceParser) (trace : Trace) : res perror Parsed :=
  let? s :=
    try_parser (PP := ParserExecuteInsufficientGas.parser)
      (ParserExecuteInsufficientGas.new trace (gateway_address self) (chain_name self))
      (fun p => Ok (push_parser (OExecuteInsufficientGas p) no_parsers)) (Ok no_parsers) in
  res_foldM (create_parsers_tx self) (transactions trace) s.

Definition gas_used (self : TraceParser) (trace : Trace) : res perror (Z * Z) :=
  let? total_gas_used := map_err (fun e => Gas (GasError_to_string e))
    (calc_message_gas (gas_calculator self) (transactions trace)) in
  let? refund_gas_used := map_err (fun e => Gas (GasError_to_string e))
    (calc_message_gas_native_gas_refunded (gas_calculator self) (transactions trace)) in
  Ok (total_gas_used, refund_gas_used).

(** The match of [add_gas_used_and_convert] on one event. *)
Definition convert_event (total_gas_used refund_gas_used message_approved_count : Z) (e : Event)
    : res perror Event :=
  match e with
  | GasCredit common id refund payment =>
      match token_id payment with
      | Some minter =>
          let? amount := map_err (fun e => Generic (fe_display e))
            (fr (BigUint_from_str (amount payment))) in
          let? native := map_err (fun e => Generic (GasError_to_string e))
            (convert_jetton_to_native minter amount) in
          Ok (GasCredit common id refund
            {| token_id := None; amount := BigUint_to_string native |})
      | None => Ok e
      end
  | MessageApproved common message cost =>
      let per := if decide (message_approved_count = 0) then 0
                 else total_gas_used / message_approved_count in
      Ok (MessageApproved common message
        {| token_id := token_id cost; amount := z_to_string per |})
  | MessageExecuted common id source_chain status cost =>
      Ok (MessageExecuted common id source_chain status
        {| token_id := token_id cost; amount := z_to_string total_gas_used |})
  | GasRefunded common id recipient refunded cost =>
      Ok (GasRefunded common id recipient refunded
        {| token_id := token_id cost; amount := z_to_string refund_gas_used |})
  | _ => Ok e
  end.

Definition add_gas_used_and_convert (events : list Event)
    (total_gas_used refund_gas_used message_approved_count : Z) : res perror (list Event) :=
  res_mapM (convert_event total_gas_used refund_gas_used message_approved_count) events.

(** The body of the loop over the calls. *)
Definition call_events (acc : list Event * gmap MessageMatchingKey ParserObj) (cc : ParserObj)
    : res perror (list Event * gmap MessageMatchingKey ParserObj) :=
  let '(events, gas_credit_map) := acc in
  let? cc_key := obj_key cc in
  let? e := obj_event cc None in
  let events := events ++ [e] in
  match gas_credit_map !! cc_key with
  | Some parser =>
      let? id := obj_message_id cc in
      let? message_id := ok_or (Message "Missing message_id") id in
      let? event := obj_event parser (Some message_id) in
      Ok (events ++ [event], delete cc_key gas_credit_map)
  | None => Ok (events, gas_credit_map)
  end.

(** The loop over the ITS parsers, from index [i]. *)
Fixpoint its_events (call_contract : list ParserObj) (i : nat) (its : list ParserObj)
    : res perror (list Event) :=
  match its with
  | [] => Ok []
  | its_parser :: its' =>
      match call_contract !! i with
      | Some contract_parser =>
          let? message_id := obj_message_id contract_parser in
          let? e := obj_event its_parser message_id in
          let? es := its_events call_contract (S i) its' in
          Ok (e :: es)
      | None =>
          Err (ITSWithoutPair ("No matching call_contract for ITS index " +:+
                                 z_to_string (Z.of_nat i)))
      end
  end.

(** The events before the gas is filled in. *)
Definition raw_events (s : Parsed) : res perror (list Event) :=
  let? (calls, _) := res_foldM call_events (ps_call_contract s) ([], ps_gas_credit_map s) in
  let? its := its_events (ps_call_contract s) 0 (ps_its s) in
  let? others := res_mapM (fun parser => obj_event parser None) (ps_parsers s) in
  Ok (calls ++ its ++ others).

Definition parse_trace (self : TraceParser) (trace : Trace) : res perror (list Event) :=
  let? (total_gas_used, refund_gas_used) := gas_used self trace in
  let? s := create_parsers self trace in
  let? events := raw_events s in
  add_gas_used_and_convert events total_gas_used refund_gas_used (ps_message_approved_count s).
End TraceParser.
