(* ===== verification/TraceProofs.v ===== *)
(** * The trace parser is correct: proofs about [TraceParser]

    Which transactions an event can come from, that parsing does not panic, and
    how the gas is shared. *)

From Stdlib Require Import ZArith Lia Permutation Strings.Byte Strings.Ascii.
From stdpp Require Import base strings pretty countable gmap list.
From S2P Require Import Prelude RustStd Foreign Types GmpTypes CellCodec Messages Gas Parsers.
From S2P Require Import TraceParser.

(** The definitions of the events, for [autounfold]. *)
Create HintDb parser_events.
#[export] Hint Unfold
  ParserCallContract.event ParserMessageExecuted.event ParserMessageApproved.event
  ParserNativeGasPaid.event ParserNativeGasAdded.event ParserJettonGasAdded.event
  ParserJettonGasPaid.event ParserNativeGasRefunded.event
  ParserITSTokenMetadataRegistered.event ParserITSInterchainTokenDeploymentStarted.event
  ParserITSInterchainTransfer.event ParserITSLinkTokenStarted.event
  ParserSignersRotated.event ParserExecuteInsufficientGas.event
  require_message_id tp_require_log pp_require_log : parser_events.

Section TraceProofs.
Context {BU : BigUintLib} {TAL : TonAddressLib} {CL : CellLib} {CO : CodecLib} {JL : JsonLib}.
Context {PL : PriceLib}.
Context (now_rfc3339 : string).

(** ** The parsers of one transaction *)

Lemma log_in_opcode_true tx op i :
  is_log_emmitted_in_opcode tx op i = Ok true ->
  exists im msg, in_msg tx = Some im /\ opcode im = Some op /\ out_msgs tx !! i = Some msg /\
    destination msg = None.
Proof.
  unfold is_log_emmitted_in_opcode. intros [= H].
  destruct (in_msg tx) as [im|] eqn:Ei; [|done]. destruct (opcode im) as [o|] eqn:Eo; [|done].
  case_decide; [|done]. destruct (out_msgs tx !! i) as [msg|] eqn:Em; [|done].
  apply bool_decide_eq_true in H. subst. eauto 10.
Qed.

Lemma is_log_emitted_from_range i msgs op pos :
  0 <= i -> is_log_emitted_from i msgs op = pos ->
  pos = -1 \/
  (i <= pos < i + Z.of_nat (length msgs) /\
   exists msg, msgs !! Z.to_nat (pos - i) = Some msg /\ destination msg = None /\ opcode msg = Some op).
Proof.
  revert i. induction msgs as [|msg msgs IH]; intros i Hi H; cbn [is_log_emitted_from] in H.
  { by left. }
  destruct (bool_decide (destination msg = None) && opt_eqb (opcode msg) op) eqn:E.
  - right. subst pos. split; [simpl; lia|]. exists msg. rewrite Z.sub_diag. split; [done|].
    apply andb_true_iff in E as [E1 E2]. unfold opt_eqb in E2.
    apply bool_decide_eq_true in E1, E2. done.
  - destruct (IH (i + 1) ltac:(lia) H) as [->|(Hr & m & Hm & Hd)]; [by left|]. right.
    split; [simpl; lia|]. exists m. split; [|done].
    replace (Z.to_nat (pos - i)) with (S (Z.to_nat (pos - (i + 1)))) by lia. done.
Qed.

(** [check_match], then [parse], of a fresh parser without a log position. *)
Lemma tx_parser_ok {L} (check : Transaction -> res perror bool) (decode : Transaction -> res perror L)
    tx a p1 b p2 :
  check_account check {| tp_log := None; tp_tx := tx; tp_allowed_address := a |} = (Ok true, p1) ->
  parse_log decode p1 = (Ok b, p2) ->
  account tx = a /\ tp_tx p2 = tx /\ check tx = Ok true /\
  exists l, tp_log p2 = Some l /\ decode tx = Ok l.
Proof.
  unfold check_account. cbn [tp_tx tp_allowed_address]. case_decide as Ha; [done|].
  intros [= Hc <-]. unfold parse_log. cbn [tp_log tp_tx].
  destruct (decode tx) as [l|e|] eqn:Ed; [|done..]. intros [= _ <-]. cbn. eauto 10.
Qed.

Lemma pos_parser_ok {L} (unset : Z -> bool) op (from_boc : string -> res BocError L) tx a p1 b p2 :
  (forall pos, 0 <= pos -> unset pos = false) ->
  check_position op {| pp_log := None; pp_tx := tx; pp_allowed_address := a;
    pp_log_position := -1 |} = (Ok true, p1) ->
  parse_log_at unset from_boc p1 = (Ok b, p2) ->
  account tx = a /\ pp_tx p2 = tx /\ exists l, pp_log p2 = Some l.
Proof.
  intros Hunset. unfold check_position. cbn [pp_tx pp_allowed_address]. case_decide as Ha; [done|].
  cbn [is_log_emitted]. unfold is_log_emitted.
  case_decide as Hp; [|done]. intros [= <-]. unfold parse_log_at.
  cbn [pp_log_position pp_log pp_tx set_pp_position]. rewrite Hunset by lia.
  rewrite decide_False by lia.
  destruct (decode_out_msg _ _ _) as [l|e|]; [|done..]. intros [= _ <-]. cbn. eauto.
Qed.

Lemma try_parser_Ok {P} {PP : Parser P} new matched otherwise r :
  try_parser (P := P) new matched otherwise = Ok r ->
  (exists p0 p1 b p2, new = Ok p0 /\ check_match p0 = (Ok true, p1) /\ parse p1 = (Ok b, p2) /\
     matched p2 = Ok r) \/ otherwise = Ok r.
Proof.
  unfold try_parser. destruct new as [p0| |]; [|done..]. cbn [res_bind].
  destruct (check_match p0) as [[b| |] p1] eqn:Ec; [|done..]. cbn [res_bind].
  destruct b; [|by right]. destruct (parse p1) as [[b2| |] p2] eqn:Ep; [|done..]. cbn [res_bind].
  intros H. left. exists p0, p1, b2, p2. done.
Qed.

(** ** The kinds of parsers *)

Inductive obj_kind : Set := KCall | KApproved | KCredit | KIts | KOther.

Definition kind_of (o : ParserObj) : obj_kind :=
  match o with
  | OCallContract _ => KCall
  | OMessageApproved _ => KApproved
  | ONativeGasPaid _ | OJettonGasPaid _ => KCredit
  | OITSTokenMetadataRegistered _ | OITSInterchainTokenDeploymentStarted _
  | OITSInterchainTransfer _ | OITSLinkTokenStarted _ => KIts
  | _ => KOther
  end.

(** The transaction of a parser, and whether it has read its log. *)
Definition obj_tx (o : ParserObj) : option Transaction :=
  match o with
  | OCallContract p => Some (tp_tx (ParserCallContract.base p))
  | OMessageExecuted p => Some (tp_tx p)
  | OMessageApproved p => Some (tp_tx p)
  | ONativeGasPaid p => Some (tp_tx p)
  | ONativeGasAdded p => Some (tp_tx p)
  | OJettonGasAdded p => Some (tp_tx p)
  | OJettonGasPaid p => Some (tp_tx p)
  | ONativeGasRefunded p => Some (tp_tx p)
  | OITSTokenMetadataRegistered p => Some (tp_tx p)
  | OITSInterchainTokenDeploymentStarted p => Some (pp_tx p)
  | OITSInterchainTransfer p => Some (pp_tx p)
  | OITSLinkTokenStarted p => Some (pp_tx p)
  | OSignersRotated p => Some (pp_tx p)
  | OExecuteInsufficientGas p => None
  end.

(** The contract whose transactions a parser may read. *)
Definition obj_address (self : TraceParser) (o : ParserObj) : TonAddress :=
  match o with
  | OCallContract _ | OMessageExecuted _ | OMessageApproved _ | OSignersRotated _
  | OExecuteInsufficientGas _ => gateway_address self
  | ONativeGasPaid _ | ONativeGasAdded _ | OJettonGasAdded _ | OJettonGasPaid _
  | ONativeGasRefunded _ => gas_service_address self
  | _ => its_address self
  end.

Definition obj_of_tx (self : TraceParser) (tx : Transaction) (o : ParserObj) : Prop :=
  obj_tx o = Some tx /\ account tx = obj_address self o.

(** What one turn of the loop adds. *)
Inductive added (self : TraceParser) (tx : Transaction) (s : Parsed) : Parsed -> Prop :=
| added_none : added self tx s s
| added_call o : obj_of_tx self tx o -> kind_of o = KCall -> added self tx s (push_call o s)
| added_parser o : obj_of_tx self tx o -> kind_of o = KOther -> added self tx s (push_parser o s)
| added_approved o :
    obj_of_tx self tx o -> kind_of o = KApproved ->
    added self tx s (count_approved (push_parser o s))
| added_credit k o :
    obj_of_tx self tx o -> kind_of o = KCredit -> added self tx s (insert_credit k o s)
| added_its o : obj_of_tx self tx o -> kind_of o = KIts -> added self tx s (push_its o s).

Ltac tx_case H :=
  apply try_parser_Ok in H as [(p0 & p1 & b & p2 & Hn & Hc & Hp & Hm)|H];
  [injection Hn as <-;
   first [ destruct (tx_parser_ok _ _ _ _ _ _ _ Hc Hp) as (? & ? & _)
         | eapply pos_parser_ok in Hc as (? & ? & _); [|idtac|exact Hp];
           [|let pos := fresh in let Hpos := fresh in intros pos Hpos;
             first [apply Z.eqb_neq; lia | apply Z.ltb_ge; lia]] ] |].

Ltac placed :=
  res_inv; subst;
  first [ apply added_call | apply added_approved | apply added_parser
        | apply added_credit | apply added_its ]; [split; cbn; congruence | done].

Lemma create_parsers_tx_added self s tx s' :
  create_parsers_tx now_rfc3339 self s tx = Ok s' -> added self tx s s'.
Proof.
  unfold create_parsers_tx. intros H.
  apply try_parser_Ok in H as [(p0 & p1 & b & p2 & Hn & Hc & Hp & Hm)|H].
  { cbn in Hn. injection Hn as <-. injection Hm as <-.
    unfold check_match, parse, ParserCallContract.parser, ParserCallContract.check_match,
      ParserCallContract.parse, ParserCallContract.on_base in Hc, Hp.
    destruct (check_account _ _) as [r1 b1] eqn:E1. injection Hc as -> <-.
    cbn [ParserCallContract.base] in Hp.
    destruct (parse_log _ b1) as [r2 b2] eqn:E2. injection Hp as -> <-.
    destruct (tx_parser_ok _ _ _ _ _ _ _ E1 E2) as (? & ? & _). placed. }
  do 12 (tx_case H; [placed|]).
  injection H as <-. constructor.
Qed.

(** ** The invariant of the vectors and the map *)

Definition obj_in (self : TraceParser) (txs : list Transaction) (o : ParserObj) : Prop :=
  match obj_tx o with
  | Some tx => tx ∈ txs /\ account tx = obj_address self o
  | None => True
  end.

Definition is_approved (o : ParserObj) : bool :=
  match o with OMessageApproved _ => true | _ => false end.

Definition approved_count (l : list ParserObj) : nat := length (filter (fun o => is_approved o = true) l).

#[local] Arguments approved_count : simpl never.

Record parsed_ok (self : TraceParser) (txs : list Transaction) (s : Parsed) : Prop := {
  ok_parsers : Forall (fun o => obj_in self txs o /\ (kind_of o = KOther \/ kind_of o = KApproved))
    (ps_parsers s);
  ok_calls : Forall (fun o => obj_in self txs o /\ kind_of o = KCall) (ps_call_contract s);
  ok_credits : map_Forall (fun _ o => obj_in self txs o /\ kind_of o = KCredit) (ps_gas_credit_map s);
  ok_its : Forall (fun o => obj_in self txs o /\ kind_of o = KIts) (ps_its s);
  ok_count : ps_message_approved_count s = wrap_u 64 (Z.of_nat (approved_count (ps_parsers s)));
}.

Lemma approved_count_snoc l o :
  approved_count (l ++ [o]) = (approved_count l + if is_approved o then 1 else 0)%nat.
Proof.
  unfold approved_count. rewrite filter_app, length_app, filter_cons, filter_nil.
  destruct (is_approved o); [rewrite decide_True by done|rewrite decide_False by done]; done.
Qed.

Lemma obj_of_tx_in self tx txs o : obj_of_tx self tx o -> tx ∈ txs -> obj_in self txs o.
Proof. intros [H1 H2] H. unfold obj_in. by rewrite H1. Qed.

Lemma added_ok self txs tx s s' :
  tx ∈ txs -> parsed_ok self txs s -> added self tx s s' -> parsed_ok self txs s'.
Proof.
  intros Hin [H1 H2 H3 H4 H5] Ha.
  destruct Ha as [|o Ho Hk|o Ho Hk|o Ho Hk|k o Ho Hk|o Ho Hk]; [by split|..];
    pose proof (obj_of_tx_in _ _ _ _ Ho Hin) as Hoi; split; cbn; try done;
    try (apply Forall_app_2; [done|]; apply Forall_singleton; auto).
  - rewrite approved_count_snoc. replace (is_approved o) with false by (by destruct o).
    by rewrite Nat.add_0_r.
  - rewrite approved_count_snoc. replace (is_approved o) with true by (by destruct o).
    rewrite H5. unfold wrap_u. rewrite Zplus_mod_idemp_l. f_equal. lia.
  - by apply map_Forall_insert_2.
Qed.

Lemma create_parsers_ok self trace s :
  create_parsers now_rfc3339 self trace = Ok s -> parsed_ok self (transactions trace) s.
Proof.
  unfold create_parsers. intros H. apply res_bind_Ok in H as (s0 & H0 & H).
  assert (parsed_ok self (transactions trace) s0) as Hs0.
  { apply try_parser_Ok in H0 as [(p0 & p1 & b & p2 & _ & _ & _ & [= <-])|[= <-]].
    - split; cbn; try done. apply Forall_singleton. split; [done|by left].
    - by split. }
  clear H0. revert s0 Hs0 H.
  assert (Hin : forall tx, tx ∈ transactions trace -> tx ∈ transactions trace) by done.
  revert Hin. generalize (transactions trace) at 1 4. intros l.
  induction l as [|tx l IH]; intros Hin s0 Hs0 H; simpl in H; [by injection H as <-|].
  apply res_bind_Ok in H as (s1 & H1 & H).
  apply IH in H; [done|intros tx' ?; apply Hin; by right|].
  eapply added_ok; [apply Hin; by left|exact Hs0|by apply create_parsers_tx_added].
Qed.

(** ** What a successful run went through *)

Lemma parse_trace_Ok self trace events :
  parse_trace now_rfc3339 self trace = Ok events ->
  exists total refund s evs,
    gas_used self trace = Ok (total, refund) /\
    create_parsers now_rfc3339 self trace = Ok s /\
    raw_events now_rfc3339 s = Ok evs /\
    Forall2 (fun e e' => convert_event total refund (ps_message_approved_count s) e = Ok e')
      evs events.
Proof.
  unfold parse_trace. autorewrite with relayer. intros ([total refund] & Hg & H).
  res_inv. apply res_mapM_Ok in H. eauto 10.
Qed.

Lemma raw_events_Ok s evs :
  raw_events now_rfc3339 s = Ok evs ->
  exists calls m its others,
    res_foldM (call_events now_rfc3339) (ps_call_contract s) ([], ps_gas_credit_map s) =
      Ok (calls, m) /\
    its_events now_rfc3339 (ps_call_contract s) 0 (ps_its s) = Ok its /\
    Forall2 (fun o e => obj_event now_rfc3339 o None = Ok e) (ps_parsers s) others /\
    evs = calls ++ its ++ others.
Proof.
  unfold raw_events. autorewrite with relayer. intros ([calls m] & Hc & H).
  res_inv. do 4 eexists. repeat split; [done|done| |done]. by apply res_mapM_Ok.
Qed.

(** A call adds its event, and the one of the payment under its key. *)
Lemma call_events_Ok evs m cc evs' m' :
  call_events now_rfc3339 (evs, m) cc = Ok (evs', m') ->
  exists e, obj_event now_rfc3339 cc None = Ok e /\
    ((evs' = evs ++ [e] /\ m' = m) \/
     exists k o id e2, m !! k = Some o /\ obj_message_id cc = Ok (Some id) /\
       obj_event now_rfc3339 o (Some id) = Ok e2 /\
       evs' = evs ++ [e; e2] /\ m' = delete k m).
Proof.
  unfold call_events. intros H. res_inv. destruct (m !! a) as [o|] eqn:Eo; res_inv; simplify_eq;
    eexists; (split; [done|]); [right|by left].
  do 4 eexists. rewrite <- app_assoc. eauto 10.
Qed.

Lemma its_events_cons_Ok calls i o its evs :
  its_events now_rfc3339 calls i (o :: its) = Ok evs ->
  exists c id e es, calls !! i = Some c /\ obj_message_id c = Ok id /\
    obj_event now_rfc3339 o id = Ok e /\
    its_events now_rfc3339 calls (S i) its = Ok es /\ evs = e :: es.
Proof.
  cbn [its_events]. destruct (calls !! i) as [c|]; [|done]. intros H. res_inv. eauto 10.
Qed.

(** Every element of a list related to another has its source there. *)
Lemma Forall2_source {A B} (R : A -> B -> Prop) l k y :
  Forall2 R l k -> y ∈ k -> exists x, x ∈ l /\ R x y.
Proof.
  intros H Hy. apply list_elem_of_lookup_1 in Hy as (i & Hi).
  destruct (Forall2_lookup_r _ _ _ _ _ H Hi) as (x & Hx & HR).
  exists x. split; [by eapply list_elem_of_lookup_2|done].
Qed.

(** ** Where an event comes from *)

(** Some transaction of [txs] on the account [a] has the hash [h]. *)
Definition tx_on (txs : list Transaction) (a : TonAddress) (h : string) : Prop :=
  exists tx, tx ∈ txs /\ account tx = a /\ h = hash tx.

(** An event other than [CannotExecuteMessageV2] has the hash of a transaction
    on the contract it reports about, in its id. *)
Definition event_from (self : TraceParser) (txs : list Transaction) (e : Event) : Prop :=
  match e with
  | Call c _ _ _ => tx_on txs (gateway_address self) (event_id c)
  | MessageApproved c _ _ => tx_on txs (gateway_address self) (event_id c)
  | MessageExecuted c _ _ _ _ => tx_on txs (gateway_address self) (event_id c)
  | SignersRotated c _ =>
      exists h, tx_on txs (gateway_address self) h /\ event_id c = h +:+ "-signers-rotated"
  | GasCredit c _ _ _ => exists h, tx_on txs (gas_service_address self) h /\ event_id c = h +:+ "-gas"
  | GasRefunded c _ _ _ _ => tx_on txs (gas_service_address self) (event_id c)
  | ITSInterchainTransfer c _ _ _ _ _ _ =>
      exists h, tx_on txs (its_address self) h /\ event_id c = h +:+ "-its-interchain-transfer"
  | ITSInterchainTokenDeploymentStarted c _ _ _ =>
      exists h, tx_on txs (its_address self) h /\
        event_id c = h +:+ "-its-interchain-token-deployment-started"
  | ITSLinkTokenStarted c _ _ _ _ _ _ =>
      exists h, tx_on txs (its_address self) h /\ event_id c = h +:+ "-its-link-token-started"
  | ITSTokenMetadataRegistered c _ _ _ =>
      exists h, tx_on txs (its_address self) h /\ event_id c = h +:+ "-its-metadata"
  | CannotExecuteMessageV2 _ _ _ _ _ => True
  end.

Lemma obj_event_from self txs o id e :
  obj_in self txs o -> obj_event now_rfc3339 o id = Ok e -> event_from self txs e.
Proof.
  intros Ho He.
  assert (Hon : forall tx, obj_tx o = Some tx -> tx_on txs (obj_address self o) (hash tx)).
  { intros tx Ht. unfold obj_in in Ho. rewrite Ht in Ho. destruct Ho. by exists tx. }
  destruct o as [p|p|p|p|p|p|p|p|p|p|p|p|p|p]; cbn [obj_event] in He;
    (eassert (Hp := Hon _ eq_refl) || clear Hon);
    autounfold with parser_events in He; res_inv; subst e; cbn; eauto.
Qed.
(** The events before the gas is filled in. *)
Lemma call_events_from self txs evs m cc evs' m' :
  obj_in self txs cc -> map_Forall (fun _ o => obj_in self txs o) m ->
  Forall (event_from self txs) evs ->
  call_events now_rfc3339 (evs, m) cc = Ok (evs', m') ->
  map_Forall (fun _ o => obj_in self txs o) m' /\ Forall (event_from self txs) evs'.
Proof.
  intros Hcc Hm Hevs H.
  destruct (call_events_Ok _ _ _ _ _ H) as (e & He & [[-> ->]|(k & o & id & e2 & Hk & _ & He2 & -> & ->)]).
  - split; [done|]. apply Forall_app_2; [done|]. apply Forall_singleton. by eapply obj_event_from.
  - split; [by apply map_Forall_delete|]. apply Forall_app_2; [done|].
    repeat constructor; [by eapply obj_event_from|].
    by eapply obj_event_from; [exact (Hm _ _ Hk)|].
Qed.

Lemma its_events_from self txs calls i its evs :
  Forall (obj_in self txs) its -> its_events now_rfc3339 calls i its = Ok evs ->
  Forall (event_from self txs) evs.
Proof.
  revert i evs. induction its as [|o its IH]; intros i evs Ho H; [by injection H as <-|].
  apply Forall_cons in Ho as [Ho Hits].
  apply its_events_cons_Ok in H as (c & id & e & es & _ & _ & He & Hes & ->).
  constructor; [by eapply obj_event_from|by eapply IH].
Qed.

Lemma raw_events_from self txs s evs :
  parsed_ok self txs s -> raw_events now_rfc3339 s = Ok evs -> Forall (event_from self txs) evs.
Proof.
  intros [H1 H2 H3 H4 _] H.
  apply raw_events_Ok in H as (calls & m & its & others & Hc & Hi & Ho & ->).
  apply Forall_app_2; [|apply Forall_app_2].
  - eapply (res_foldM_inv_in (fun '(evs, m) =>
      map_Forall (fun _ o => obj_in self txs o) m /\ Forall (event_from self txs) evs)) in Hc.
    + by destruct Hc.
    + intros [evs1 m1] cc [evs2 m2] Hcc [Hm1 Hevs1] Hcall.
      eapply call_events_from; [|exact Hm1|exact Hevs1|exact Hcall].
      by eapply Forall_forall in H2 as [? _].
    + split; [|done]. eapply map_Forall_impl; [exact H3|]. by intros ? ? [? _].
  - eapply its_events_from; [|exact Hi]. eapply Forall_impl; [exact H4|]. by intros ? [? _].
  - eapply Forall_forall. intros e He. destruct (Forall2_source _ _ _ _ Ho He) as (o & Hok & Heo).
    eapply obj_event_from; [|exact Heo]. by eapply Forall_forall in H1 as [? _].
Qed.

Lemma convert_event_from self txs t r n e e' :
  event_from self txs e -> convert_event t r n e = Ok e' -> event_from self txs e'.
Proof.
  intros Hf H. destruct e; cbn [convert_event] in H; try (by injection H as <-).
  destruct (token_id payment); [|by injection H as <-]. res_inv. by subst e'.
Qed.

Lemma parse_trace_event_from self trace events e :
  parse_trace now_rfc3339 self trace = Ok events -> e ∈ events ->
  event_from self (transactions trace) e.
Proof.
  intros H He. destruct (parse_trace_Ok _ _ _ H) as (t & r & s & evs & _ & Hs & Hevs & Hconv).
  apply create_parsers_ok in Hs. pose proof (raw_events_from _ _ _ _ Hs Hevs) as Hfrom.
  destruct (Forall2_source _ _ _ _ Hconv He) as (e0 & He0 & Hc).
  eapply convert_event_from; [|exact Hc]. by eapply Forall_forall in Hfrom.
Qed.

(** C1. Authenticity: every event of a trace, except the report that a
    message cannot be executed, carries the hash of a transaction of the trace
    on the contract the event is about (the gateway, the gas service or the
    token service); transactions of other accounts produce no event. *)
Theorem events_authentic self trace events :
  parse_trace now_rfc3339 self trace = Ok events ->
  Forall (event_from self (transactions trace)) events.
Proof. intros H. apply Forall_forall. intros e. by apply parse_trace_event_from. Qed.

(** ** Parsing does not panic *)

Lemma try_parser_no_panic {P} {PP : Parser P} new matched otherwise :
  new <> Panic ->
  (forall p, new = Ok p -> fst (check_match p) <> Panic) ->
  (forall p p1, new = Ok p -> check_match p = (Ok true, p1) -> fst (parse p1) <> Panic) ->
  (forall p, matched p <> Panic) -> otherwise <> Panic ->
  try_parser (P := P) new matched otherwise <> Panic.
Proof.
  intros H1 H2 H3 H4 H5. unfold try_parser. destruct new as [p| |]; [|done..]. cbn [res_bind].
  specialize (H2 p eq_refl). specialize (H3 p).
  destruct (check_match p) as [[b| |] p1]; [|done..]. cbn [res_bind].
  destruct b; [|done]. specialize (H3 p1 eq_refl eq_refl).
  destruct (parse p1) as [[b2| |] p2]; [|done..]. cbn [res_bind]. apply H4.
Qed.

Lemma check_account_no_panic {L} (check : Transaction -> res perror bool) (p : TxParser L) :
  check (tp_tx p) <> Panic -> fst (check_account check p) <> Panic.
Proof. intros H. unfold check_account. by case_decide. Qed.

Lemma parse_log_no_panic {L} (check : Transaction -> res perror bool)
    (decode : Transaction -> res perror L) (p p1 : TxParser L) :
  (check (tp_tx p) = Ok true -> decode (tp_tx p) <> Panic) ->
  check_account check p = (Ok true, p1) -> fst (parse_log decode p1) <> Panic.
Proof.
  intros H. unfold check_account. case_decide; [done|]. intros [= Hc <-]. specialize (H Hc).
  unfold parse_log. destruct (tp_log p); [done|]. by destruct (decode (tp_tx p)).
Qed.

Lemma check_position_no_panic {L} op (p : PosParser L) : fst (check_position op p) <> Panic.
Proof. unfold check_position, is_log_emitted. case_decide; [done|]. by case_decide. Qed.

Lemma decode_out_msg_no_panic {L} (from_boc : string -> res BocError L) tx i :
  (forall boc, ResSafe (from_boc boc)) -> is_Some (out_msgs tx !! i) ->
  decode_out_msg from_boc tx i <> Panic.
Proof.
  intros Hb [msg Hmsg]. unfold decode_out_msg, index. rewrite Hmsg. cbn [res_bind].
  unfold boc_parsing. rewrite map_err_Panic. apply Hb.
Qed.

Lemma log_in_opcode_some tx op i :
  is_log_emmitted_in_opcode tx op i = Ok true -> is_Some (out_msgs tx !! i).
Proof. intros (im & msg & _ & _ & H & _)%log_in_opcode_true. by eexists. Qed.

Lemma parse_log_at_no_panic {L} (unset : Z -> bool) op (from_boc : string -> res BocError L)
    (p p1 : PosParser L) :
  (forall boc, ResSafe (from_boc boc)) ->
  check_position op p = (Ok true, p1) -> fst (parse_log_at unset from_boc p1) <> Panic.
Proof.
  intros Hb. unfold check_position. case_decide; [done|]. unfold is_log_emitted.
  case_decide as Hp; [|done]. intros [= <-]. unfold parse_log_at.
  cbn [set_pp_position pp_log_position pp_log pp_tx]. destruct (unset _); [done|].
  destruct (pp_log p); [done|]. rewrite decide_False by lia.
  destruct (is_log_emitted_from_range 0 (out_msgs (pp_tx p)) op _ ltac:(done) eq_refl)
    as [Heq|(_ & msg & Hmsg & _)]; [lia|]. rewrite Z.sub_0_r in Hmsg.
  pose proof (decode_out_msg_no_panic from_boc (pp_tx p)
    (Z.to_nat (is_log_emitted_from 0 (out_msgs (pp_tx p)) op)) Hb ltac:(by eexists)) as Hd.
  by destruct (decode_out_msg _ _ _).
Qed.

Ltac log_some :=
  match goal with
  | H : _ = Ok true |- _ => exact (log_in_opcode_some _ _ _ H)
  end.

Lemma is_log_ok tx op i : exists b, is_log_emmitted_in_opcode tx op i = Ok b.
Proof. by eexists. Qed.

(** The three obligations of a parser without a position. *)
Ltac tx_safe :=
  apply try_parser_no_panic;
  [ done
  | intros p [= <-]; apply check_account_no_panic
  | intros p p1 [= <-] Hc; eapply parse_log_no_panic; [|exact Hc];
    cbn [tp_tx]; intros Hcheck
  | intros p | ].

Ltac pos_safe :=
  apply try_parser_no_panic;
  [ done
  | intros p _; apply check_position_no_panic
  | intros p p1 _ Hc; eapply parse_log_at_no_panic; [apply _|exact Hc]
  | done | ].

Lemma jetton_check_no_panic {A} (f : string -> res BocError A) tx op :
  (let? candidate := is_log_emmitted_in_opcode tx op 0 in
   if negb candidate then Ok false
   else let? msg := index (out_msgs tx) 0 in Ok (is_ok (f (body (message_content msg)))))
  <> Panic.
Proof.
  destruct (is_log_emmitted_in_opcode tx op 0) as [b|e|] eqn:E; [|done..]. cbn [res_bind].
  destruct b; [|done]. apply log_in_opcode_some in E as [msg Hmsg].
  unfold index. by rewrite Hmsg.
Qed.

Lemma jetton_check_some {A} (f : string -> res BocError A) tx op :
  (let? candidate := is_log_emmitted_in_opcode tx op 0 in
   if negb candidate then Ok false
   else let? msg := index (out_msgs tx) 0 in Ok (is_ok (f (body (message_content msg)))))
  = Ok true -> is_Some (out_msgs tx !! 0%nat).
Proof.
  destruct (is_log_emmitted_in_opcode tx op 0) as [b|e|] eqn:E; [|done..]. cbn [res_bind].
  destruct b; [|done]. by apply log_in_opcode_some in E.
Qed.

(** The call parser has a state of its own around the common one. *)
Lemma call_new_no_panic self tx chain p :
  ParserCallContract.new tx (gateway_address self) chain = Ok p ->
  fst (ParserCallContract.check_match p) <> Panic /\
  forall p1, ParserCallContract.check_match p = (Ok true, p1) ->
    fst (ParserCallContract.parse p1) <> Panic.
Proof.
  intros [= <-]. unfold ParserCallContract.check_match, ParserCallContract.parse,
    ParserCallContract.on_base. cbn [ParserCallContract.base]. split.
  - pose proof (check_account_no_panic (fun tx => is_log_emmitted_in_opcode tx OP_CALL_CONTRACT 0)
      {| tp_log := None (A := CallContractMessage); tp_tx := tx;
         tp_allowed_address := gateway_address self |} ltac:(done)) as H.
    by destruct (check_account _ _).
  - intros p1. destruct (check_account _ _) as [r b] eqn:E. intros [= -> <-].
    cbn [ParserCallContract.base].
    assert (Hd : fst (parse_log (fun tx => decode_out_msg CallContractMessage_from_boc_b64 tx 0) b)
      <> Panic).
    { eapply parse_log_no_panic; [|exact E]. intros Hc.
      apply decode_out_msg_no_panic; [apply _|log_some]. }
    by destruct (parse_log _ b).
Qed.

Lemma create_parsers_tx_no_panic self s tx : create_parsers_tx now_rfc3339 self s tx <> Panic.
Proof.
  unfold create_parsers_tx.
  apply try_parser_no_panic; [done|..|done|].
  { intros p Hp. by apply (call_new_no_panic self tx (chain_name self)). }
  { intros p p1 Hp. by apply (call_new_no_panic self tx (chain_name self)). }
  tx_safe; [| |done|].
  { destruct (is_log_ok tx OP_NULLIFIED_SUCCESSFULLY 0) as [b0 Hb0].
    destruct (is_log_ok tx OP_NULLIFIED_SUCCESSFULLY 1) as [b1 Hb1]. cbn [tp_tx].
    rewrite Hb0, Hb1. by destruct b0, b1. }
  { apply (res_safe (m := _ : res perror NullifiedSuccessfullyMessage)). }
  tx_safe; [done| |done|].
  { apply decode_out_msg_no_panic; [apply _|log_some]. }
  tx_safe; [| | |].
  { destruct (is_log_ok tx OP_PAY_NATIVE_GAS_FOR_CONTRACT_CALL 0) as [b0 Hb0]. cbn [tp_tx].
    rewrite Hb0. by destruct b0. }
  { apply decode_out_msg_no_panic; [apply _|].
    destruct (is_log_emmitted_in_opcode tx OP_PAY_NATIVE_GAS_FOR_CONTRACT_CALL 0) as [[]| |] eqn:E;
      [by eapply log_in_opcode_some|by eapply log_in_opcode_some|done..]. }
  { unfold ParserNativeGasPaid.key, tp_require_log. by destruct (tp_log p). }
  tx_safe; [done| |done|].
  { apply decode_out_msg_no_panic; [apply _|log_some]. }
  tx_safe; [apply jetton_check_no_panic| |done|].
  { apply decode_out_msg_no_panic; [apply _|by eapply jetton_check_some]. }
  tx_safe; [apply jetton_check_no_panic| | |].
  { apply decode_out_msg_no_panic; [apply _|by eapply jetton_check_some]. }
  { unfold ParserJettonGasPaid.key, tp_require_log. by destruct (tp_log p). }
  tx_safe; [done| |done|].
  { apply decode_out_msg_no_panic; [apply _|log_some]. }
  tx_safe; [done| |done|].
  { apply decode_out_msg_no_panic; [apply _|log_some]. }
  do 4 pos_safe. done.
Qed.
Lemma obj_event_no_panic o id : obj_event now_rfc3339 o id <> Panic.
Proof.
  destruct o; cbn [obj_event]; autounfold with parser_events;
    apply (res_safe (m := _ : res perror Event)).
Qed.

Lemma call_key_no_panic o : kind_of o = KCall -> obj_key o <> Panic /\ obj_message_id o <> Panic.
Proof.
  intros Hk. destruct o; try done. cbn [obj_key obj_message_id]. split.
  - unfold ParserCallContract.key, tp_require_log. by destruct (tp_log _).
  - unfold ParserCallContract.message_id, hash_to_message_id.
    apply (res_safe (m := _ : res perror (option string))).
Qed.

Lemma raw_events_no_panic self txs s : parsed_ok self txs s -> raw_events now_rfc3339 s <> Panic.
Proof.
  intros [_ H2 _ _ _] H. rewrite Forall_forall in H2. unfold raw_events in H.
  apply res_bind_Panic in H as [H|([calls m] & _ & H)].
  { revert H. apply (res_foldM_no_panic (fun _ => True)); [|done..].
    intros [evs m] cc Hcc _ Hp. destruct (call_key_no_panic cc) as [Hk Hi].
    { by destruct (H2 cc Hcc). }
    unfold call_events in Hp. apply res_bind_Panic in Hp as [Hp|(k & _ & Hp)]; [done|].
    apply res_bind_Panic in Hp as [Hp|(e & _ & Hp)]; [by apply obj_event_no_panic in Hp|].
    destruct (m !! k); [|done]. apply res_bind_Panic in Hp as [Hp|(i & _ & Hp)]; [done|].
    apply res_bind_Panic in Hp as [Hp|(j & _ & Hp)]; [by destruct i|].
    by apply res_bind_Panic in Hp as [Hp%obj_event_no_panic|(? & _ & Hp)]. }
  apply res_bind_Panic in H as [H|(its & _ & H)].
  { revert H. generalize 0%nat. induction (ps_its s) as [|o l IH]; intros i H; [done|].
    cbn [its_events] in H. destruct (ps_call_contract s !! i) as [c|] eqn:Ec; [|done].
    apply list_elem_of_lookup_2 in Ec. destruct (call_key_no_panic c) as [_ Hi].
    { by destruct (H2 c Ec). }
    apply res_bind_Panic in H as [H|(id & _ & H)]; [done|].
    apply res_bind_Panic in H as [H%obj_event_no_panic|(e & _ & H)]; [done|].
    apply res_bind_Panic in H as [H|(es & _ & H)]; [by eapply IH|done]. }
  apply res_bind_Panic in H as [H|(o & _ & H)]; [|done].
  revert H. apply res_mapM_no_panic. intros o _. apply obj_event_no_panic.
Qed.

Lemma convert_event_no_panic t r n e :
  (forall minter a, convert_jetton_to_native minter a <> Panic) -> convert_event t r n e <> Panic.
Proof.
  intros Hc H. destruct e; try done. cbn [convert_event] in H.
  destruct (token_id payment) as [minter|]; [|done].
  apply res_bind_Panic in H as [H|(a & _ & H)].
  { apply map_err_Panic, fr_no_panic in H. done. }
  apply res_bind_Panic in H as [H|(b & _ & H)]; [|done].
  apply map_err_Panic in H. by apply Hc in H.
Qed.

(** C16. Parsing a trace never panics when its first transaction sends a
    message and the price conversions are defined: every other transaction,
    message and body, malformed or missing, gives an error or no event. *)
Theorem parse_trace_no_panic self trace :
  (forall tx, transactions trace !! 0%nat = Some tx -> out_msgs tx <> []) ->
  (forall minter a, convert_jetton_to_native minter a <> Panic) ->
  parse_trace now_rfc3339 self trace <> Panic.
Proof.
  intros H0 Hconv H. unfold parse_trace in H.
  apply res_bind_Panic in H as [H|([total refund] & _ & H)].
  { unfold gas_used in H. apply res_bind_Panic in H as [H|(t & _ & H)].
    { apply map_err_Panic in H. unfold calc_message_gas, cost in H. discriminate H. }
    apply res_bind_Panic in H as [H|(r & _ & H)]; [|done].
    apply map_err_Panic in H. unfold calc_message_gas_native_gas_refunded, cost in H.
    by repeat case_match. }
  apply res_bind_Panic in H as [H|(s & Hs & H)].
  { unfold create_parsers in H. apply res_bind_Panic in H as [H|(s & _ & H)].
    - revert H. apply try_parser_no_panic; [done| | |done|done].
      { intros p _. unfold check_match, ParserExecuteInsufficientGas.parser,
          ParserExecuteInsufficientGas.check_match. cbn [fst].
        destruct (ParserExecuteInsufficientGas.insufficient_gas_exit _ _); [done|].
        by destruct (ParserExecuteInsufficientGas.insufficient_gas_action _). }
      intros p p1 [= <-] Hc. unfold check_match, ParserExecuteInsufficientGas.parser,
        ParserExecuteInsufficientGas.check_match in Hc. injection Hc as Hc <-.
      unfold parse, ParserExecuteInsufficientGas.parser, ParserExecuteInsufficientGas.parse.
      cbn [ParserExecuteInsufficientGas.log ParserExecuteInsufficientGas.trace
           ParserExecuteInsufficientGas.allowed_address] in Hc |- *.
      destruct (transactions trace) as [|tx txs] eqn:Et; [done|].
      unfold index at 1. cbn [lookup list_lookup res_bind].
      specialize (H0 tx eq_refl). destruct (out_msgs tx) as [|msg msgs] eqn:Em; [done|].
      unfold index. cbn [lookup list_lookup res_bind].
      unfold boc_parsing. pose proof (RelayerExecuteWrappedMessage_safe (body (message_content msg))) as Hsafe.
      by destruct (RelayerExecuteWrappedMessage_from_boc_b64 _).
    - revert H. apply (res_foldM_no_panic (fun _ => True)); [|done..].
      intros s1 tx _ _. apply create_parsers_tx_no_panic. }
  apply res_bind_Panic in H as [H|(evs & _ & H)].
  { apply create_parsers_ok in Hs. by apply (raw_events_no_panic _ _ _ Hs) in H. }
  revert H. apply res_mapM_no_panic. intros e _. by apply convert_event_no_panic.
Qed.

(** ** Shapes of the events *)

Definition ev_approved (e : Event) : bool :=
  match e with MessageApproved _ _ _ => true | _ => false end.

Definition approved_events (l : list Event) : nat := length (filter (fun e => ev_approved e = true) l).

#[local] Arguments approved_events : simpl never.

Lemma approved_events_app l1 l2 :
  approved_events (l1 ++ l2) = (approved_events l1 + approved_events l2)%nat.
Proof. unfold approved_events. by rewrite filter_app, length_app. Qed.

Lemma obj_event_approved o id e :
  obj_event now_rfc3339 o id = Ok e -> ev_approved e = is_approved o.
Proof.
  intros He. destruct o as [p|p|p|p|p|p|p|p|p|p|p|p|p|p]; cbn [obj_event] in He;
    autounfold with parser_events in He; res_inv; by subst e.
Qed.

Lemma convert_event_approved t r n e e' : convert_event t r n e = Ok e' -> ev_approved e' = ev_approved e.
Proof.
  intros H. destruct e; cbn [convert_event] in H; try (by injection H as <-).
  destruct (token_id payment); [|by injection H as <-]. res_inv. by subst e'.
Qed.

Lemma approved_events_singleton e :
  approved_events [e] = (if ev_approved e then 1 else 0)%nat.
Proof. unfold approved_events. rewrite filter_cons, filter_nil. by destruct (ev_approved e). Qed.

Lemma kind_not_approved o : kind_of o <> KApproved -> is_approved o = false.
Proof. by destruct o. Qed.

Lemma call_events_approved calls evs m evs' m' :
  Forall (fun o => kind_of o = KCall) calls ->
  map_Forall (fun _ o => kind_of o = KCredit) m ->
  res_foldM (call_events now_rfc3339) calls (evs, m) = Ok (evs', m') ->
  approved_events evs' = approved_events evs.
Proof.
  revert evs m. induction calls as [|cc calls IH]; intros evs m Hc Hm H; cbn [res_foldM] in H.
  { by injection H as <- _. }
  apply Forall_cons in Hc as [Hcc Hc]. apply res_bind_Ok in H as ([evs1 m1] & H1 & H).
  destruct (call_events_Ok _ _ _ _ _ H1) as (e & He & [[-> ->]|(k & o & id & e2 & Hk & _ & He2 & -> & ->)]);
    apply obj_event_approved in He; rewrite kind_not_approved in He by congruence.
  - apply IH in H; [|done..]. rewrite H, approved_events_app, approved_events_singleton, He. lia.
  - apply obj_event_approved in He2. rewrite kind_not_approved in He2 by (rewrite (Hm _ _ Hk); done).
    apply IH in H; [|done|by apply map_Forall_delete]. change [e; e2] with ([e] ++ [e2]) in H.
    rewrite H, !approved_events_app, !approved_events_singleton, He, He2. lia.
Qed.

Lemma its_events_approved calls i its evs :
  Forall (fun o => kind_of o = KIts) its -> its_events now_rfc3339 calls i its = Ok evs ->
  approved_events evs = 0%nat.
Proof.
  revert i evs. induction its as [|o its IH]; intros i evs Ho H; [by injection H as <-|].
  apply Forall_cons in Ho as [Ho Hits].
  apply its_events_cons_Ok in H as (c & id & e & es & _ & _ & He & Hes & ->).
  change (e :: es) with ([e] ++ es). rewrite approved_events_app, (IH _ _ Hits Hes).
  apply obj_event_approved in He. rewrite kind_not_approved in He by congruence.
  by rewrite approved_events_singleton, He.
Qed.

Lemma events_of_approved l evs :
  Forall2 (fun o e => obj_event now_rfc3339 o None = Ok e) l evs ->
  approved_events evs = approved_count l.
Proof.
  intros H. induction H as [|o e l evs He H IH]; [done|].
  change (e :: evs) with ([e] ++ evs). rewrite approved_events_app, approved_events_singleton, IH.
  unfold approved_count. rewrite filter_cons. apply obj_event_approved in He. rewrite He.
  destruct (is_approved o); [rewrite decide_True by done|rewrite decide_False by done]; done.
Qed.

Lemma raw_events_approved self txs s evs :
  parsed_ok self txs s -> raw_events now_rfc3339 s = Ok evs ->
  approved_events evs = approved_count (ps_parsers s).
Proof.
  intros [_ H2 H3 H4 _] H.
  apply raw_events_Ok in H as (calls & m & its & others & Hc & Hi & Ho & ->).
  rewrite !approved_events_app, (events_of_approved _ _ Ho).
  rewrite (its_events_approved _ _ _ _ (Forall_impl _ _ _ H4 (fun _ H => proj2 H)) Hi).
  rewrite (call_events_approved _ _ _ _ _ (Forall_impl _ _ _ H2 (fun _ H => proj2 H))
    (map_Forall_impl _ _ _ H3 (fun _ _ H => proj2 H)) Hc). done.
Qed.

Lemma convert_approved t r n evs evs' :
  Forall2 (fun e e' => convert_event t r n e = Ok e') evs evs' ->
  approved_events evs' = approved_events evs /\
  forall c m a, MessageApproved c m a ∈ evs' ->
    amount a = z_to_string (if decide (n = 0) then 0 else t / n).
Proof.
  intros H. split.
  - induction H as [|e e' l l' He H IH]; [done|].
    change (e :: l) with ([e] ++ l). change (e' :: l') with ([e'] ++ l').
    rewrite !approved_events_app, IH, !approved_events_singleton.
    by rewrite (convert_event_approved _ _ _ _ _ He).
  - intros c m a Hin. destruct (Forall2_source _ _ _ _ H Hin) as (e & _ & He).
    destruct e; cbn [convert_event] in He; try (by injection He as ?; simplify_eq).
    destruct (token_id payment); [|by injection He]. by res_inv.
Qed.

Lemma approved_count_le self trace s :
  create_parsers now_rfc3339 self trace = Ok s ->
  (approved_count (ps_parsers s) <= length (transactions trace))%nat.
Proof.
  unfold create_parsers. intros H. apply res_bind_Ok in H as (s0 & H0 & H).
  assert (approved_count (ps_parsers s0) = 0%nat) as Hs0.
  { by apply try_parser_Ok in H0 as [(p0 & p1 & b & p2 & _ & _ & _ & [= <-])|[= <-]]. }
  assert (forall l s1, res_foldM (create_parsers_tx now_rfc3339 self) l s1 = Ok s ->
    (approved_count (ps_parsers s) <= approved_count (ps_parsers s1) + length l)%nat) as Hl.
  { clear. induction l as [|tx l IH]; intros s1 H; cbn [res_foldM] in H; [injection H as ->; lia|].
    apply res_bind_Ok in H as (s2 & H2%create_parsers_tx_added & H). apply IH in H.
    enough (approved_count (ps_parsers s2) <= approved_count (ps_parsers s1) + 1)%nat by (simpl; lia).
    destruct H2; cbn [ps_parsers push_parser push_call push_its insert_credit count_approved];
      rewrite ?approved_count_snoc; try destruct (is_approved o); lia. }
  apply Hl in H. lia.
Qed.

Lemma positive_u64_nonneg z : 0 <= positive_u64 z.
Proof. unfold positive_u64. case_decide; [|lia]. apply wrap_u_range. lia. Qed.

Lemma gas_used_nonneg self trace t r : gas_used self trace = Ok (t, r) -> 0 <= t.
Proof.
  unfold gas_used, calc_message_gas. intros H. res_inv. subst. apply positive_u64_nonneg.
Qed.

(** C24. The gas of a trace is shared equally among its approvals: the events
    [MessageApproved] all report the same cost, and together no more than the
    gas used, short of it by less than one unit per event. *)
Theorem approved_cost_shared self trace events total refund :
  Z.of_nat (length (transactions trace)) < 2 ^ 64 ->
  gas_used self trace = Ok (total, refund) ->
  parse_trace now_rfc3339 self trace = Ok events ->
  let k := Z.of_nat (approved_events events) in
  exists per, 0 <= per /\ per * k <= total /\ (0 < k -> total < (per + 1) * k) /\
    forall c m a, MessageApproved c m a ∈ events -> amount a = z_to_string per.
Proof.
  intros Hlen Hg H. apply parse_trace_Ok in H as (t & r & s & evs & Hg' & Hs & Hevs & H).
  rewrite Hg in Hg'. injection Hg' as <- <-.
  pose proof (approved_count_le _ _ _ Hs) as Hle. apply create_parsers_ok in Hs.
  pose proof (raw_events_approved _ _ _ _ Hs Hevs) as Hn.
  apply convert_approved in H as [Hn' Ha]. destruct Hs as [_ _ _ _ Hcount].
  rewrite wrap_u_id in Hcount by (unfold in_u; lia).
  rewrite Hn', Hn, <- Hcount in *. set (n := ps_message_approved_count s) in *.
  assert (0 <= n) by lia. apply gas_used_nonneg in Hg.
  exists (if decide (n = 0) then 0 else total / n). case_decide as Hz.
  - split; [lia|]. split; [lia|]. split; [lia|]. exact Ha.
  - pose proof (Z.div_mod total n Hz). pose proof (Z.mod_pos_bound total n ltac:(lia)).
    split; [apply Z.div_pos; lia|]. split; [lia|]. split; [lia|]. exact Ha.
Qed.

(** ** Calls, payments and ITS logs *)

(** The message id an ITS event is tied to. *)
Definition ev_its_id (e : Event) : option string :=
  match e with
  | ITSInterchainTransfer _ id _ _ _ _ _ => Some id
  | ITSInterchainTokenDeploymentStarted _ id _ _ => Some id
  | ITSLinkTokenStarted _ id _ _ _ _ _ => Some id
  | ITSTokenMetadataRegistered _ id _ _ => Some id
  | _ => None
  end.

Definition ev_call (e : Event) : option GatewayV2Message :=
  match e with Call _ m _ _ => Some m | _ => None end.

Lemma call_event_shape o e :
  kind_of o = KCall -> obj_event now_rfc3339 o None = Ok e ->
  exists c m d p, e = Call c m d p /\ obj_message_id o = Ok (Some (gm_message_id m)).
Proof.
  intros Hk He. destruct o; try done. cbn [obj_event obj_message_id] in *.
  autounfold with parser_events in He. res_inv. subst e. do 4 eexists. split; [done|].
  cbn [gm_message_id]. congruence.
Qed.

Lemma credit_event_shape o id e :
  kind_of o = KCredit -> obj_event now_rfc3339 o (Some id) = Ok e ->
  exists c refund payment, e = GasCredit c id refund payment.
Proof.
  intros Hk He. destruct o; try done; cbn [obj_event] in He;
    autounfold with parser_events in He; res_inv; subst e; simplify_eq; eauto.
Qed.

Lemma its_event_shape o id e :
  kind_of o = KIts -> obj_event now_rfc3339 o id = Ok e ->
  exists i, id = Some i /\ ev_its_id e = Some i /\ ev_call e = None.
Proof.
  intros Hk He. destruct o; try done; cbn [obj_event] in He;
    autounfold with parser_events in He; res_inv; subst e; simplify_eq; eauto.
Qed.

Lemma other_event_shape o id e :
  kind_of o = KOther \/ kind_of o = KApproved -> obj_event now_rfc3339 o id = Ok e ->
  ev_its_id e = None /\ ev_call e = None.
Proof.
  intros Hk He. destruct o; cbn [kind_of] in Hk; try (by destruct Hk); cbn [obj_event] in He;
    autounfold with parser_events in He; res_inv; by subst e.
Qed.

(** Conversion keeps the shape of the events. *)
Definition same_shape (e e' : Event) : Prop :=
  ev_its_id e' = ev_its_id e /\ (ev_call e' = None <-> ev_call e = None) /\
  match e with
  | Call _ _ _ _ => e' = e
  | GasCredit c id refund _ => exists payment, e' = GasCredit c id refund payment
  | _ => True
  end.

Lemma convert_same_shape t r n e e' : convert_event t r n e = Ok e' -> same_shape e e'.
Proof.
  intros H. destruct e; cbn [convert_event] in H; try (injection H as <-; done).
  destruct (token_id payment); [|injection H as <-; split; [done|]; split; [done|]; by eexists].
  res_inv. subst e'. split; [done|]. split; [done|]. by eexists.
Qed.
End TraceProofs.

(** ** Concrete traces *)

From S2P Require Import Instances.

(** Prices: every jetton is worth two TON; decimals are integers. *)
#[export] Instance ref_price_lib : PriceLib := {|
  Decimal := Z;
  Decimal_from_str s := match n_from_str s with inl e => inl e | inr n => inr (Z.of_N n) end;
  Decimal_mul a b := Some (a * b);
  Decimal_div a b := Some (a / b);
  Decimal_round a := a;
  Decimal_to_string := z_to_string;
  get_price pair := inr (if decide (pair = "TON/USD") then 1 else 2);
|}.

Definition ex_parser : TraceParser := {|
  gateway_address := ex_address 1; gas_service_address := ex_address 2;
  its_address := ex_address 3;
  gas_calculator := {| our_addresses := [ex_address 1; ex_address 2; ex_address 3] |};
  chain_name := "ton2" |}.

Definition str_cell (s : string) : tcell := TCell (bytes_bits (as_bytes s)) [].

Definition ex_hash_bits (n : Z) : list bool := bytes_bits (TonHash_to_bytes (TonHash_from_bytes [byte_of n])).

(** The body of a call to a contract on another chain. *)
Definition ex_call_body : string :=
  show_cell (TCell (address_bits (ex_address 7) ++ ex_hash_bits 5)
    [str_cell "avalanche"; str_cell "0x01"; str_cell "payload"]).

(** The body of the log of a gas payment of [v] for that call. *)
Definition ex_paid_body (v : N) : string :=
  show_cell (TCell (address_bits (ex_address 7) ++ ex_hash_bits 5 ++ bits_of_N 256 v)
    [TCell (address_bits (ex_address 8)) []; str_cell "avalanche"; str_cell "0x01"]).

Definition ex_op (op : Z) : option TransactionMessage :=
  Some (ex_msg None (Some (ex_address 1)) None None (Some op) "").

Definition ex_log (body : string) : TransactionMessage := ex_msg None None None None None body.

Definition ex_call (h : string) : Transaction :=
  ex_tx (ex_address 1) h 10 (ex_op OP_CALL_CONTRACT) [ex_log ex_call_body].

Definition ex_paid (h : string) (v : N) : Transaction :=
  ex_tx (ex_address 2) h 10 (ex_op OP_PAY_GAS) [ex_log (ex_paid_body v)].

Definition ex_trace (txs : list Transaction) : Trace := {|
  is_incomplete := false; start_lt := 1; end_lt := 77; trace_id := "trace"; transactions := txs |}.

(** What the examples show of an event. *)
Definition ev_summary (e : Event) : string * string :=
  match e with
  | Call _ m _ _ => ("CALL", gm_message_id m)
  | GasCredit _ id _ payment => (id, amount payment)
  | MessageApproved _ m cost => ("APPROVED", amount cost)
  | CannotExecuteMessageV2 _ id source_chain _ _ => ("CANNOT_EXECUTE " +:+ id, source_chain)
  | _ => ("", "")
  end.

Definition ex_summary (txs : list Transaction) : res perror (list (string * string)) :=
  res_map (map ev_summary) (parse_trace "now" ex_parser (ex_trace txs)).

Example one_payment :
  ex_summary [ex_call "aa"; ex_paid "bb" 500] =
  Ok [("CALL", "0xaa"); ("0xaa", "500")].
Proof. by vm_compute. Qed.

(** Two gas payments with the same key are one entry of the map: of two
    identical calls, each paid for in the trace, the first is credited with
    the last payment and the other payment is lost. *)
Theorem duplicate_payment_lost :
  ex_summary [ex_call "aa"; ex_paid "bb" 500; ex_call "cc"; ex_paid "dd" 700] =
  Ok [("CALL", "0xaa"); ("0xaa", "700"); ("CALL", "0xcc")].
Proof. by vm_compute. Qed.

(** ** Applications at concrete inputs *)

Definition ex_two : Trace := ex_trace [ex_call "aa"; ex_paid "bb" 500].

Definition ex_events (t : Trace) : list Event :=
  match parse_trace "now" ex_parser t with Ok l => l | _ => [] end.

Lemma ex_two_ok : parse_trace "now" ex_parser ex_two = Ok (ex_events ex_two).
Proof. vm_compute. reflexivity. Qed.

Lemma events_authentic_witness : Forall (event_from ex_parser (transactions ex_two)) (ex_events ex_two).
Proof. exact (events_authentic "now" ex_parser ex_two (ex_events ex_two) ex_two_ok). Defined.

Lemma ref_convert_no_panic minter a : convert_jetton_to_native minter a <> Panic.
Proof.
  unfold convert_jetton_to_native. cbn [get_price ref_price_lib fr map_err res_bind].
  destruct (Decimal_from_str _) as [e|d]; [done|]. cbn [fr map_err res_bind].
  cbn [Decimal_mul Decimal_div ref_price_lib or_panic res_bind]. rewrite map_err_Panic.
  apply fr_no_panic.
Qed.

Lemma parse_trace_no_panic_witness : parse_trace "now" ex_parser ex_two <> Panic.
Proof.
  exact (parse_trace_no_panic "now" ex_parser ex_two
    ltac:(intros tx Htx; injection Htx as <-; done) ref_convert_no_panic).
Defined.

(** The body of the log of an approval. *)
Definition ex_approved_body : string :=
  show_cell (TCell [] [str_cell "m1"; str_cell "avalanche"; str_cell "0x02";
    TCell (ex_hash_bits 5)
      [TCell (ex_hash_bits 6) []; str_cell "ton2"]]).

Definition ex_approved (h : string) : Transaction :=
  ex_tx (ex_address 1) h 101 (ex_op OP_MESSAGE_APPROVED) [ex_log ex_approved_body].

Definition ex_approvals : Trace := ex_trace [ex_approved "aa"; ex_approved "bb"; ex_approved "cc"].

Example approvals_share :
  map ev_summary (ex_events ex_approvals) = [("APPROVED", "101"); ("APPROVED", "101"); ("APPROVED", "101")].
Proof. by vm_compute. Qed.

Lemma ex_approvals_ok : parse_trace "now" ex_parser ex_approvals = Ok (ex_events ex_approvals).
Proof. vm_compute. reflexivity. Qed.

Lemma approved_cost_shared_witness :
  let k := Z.of_nat (approved_events (ex_events ex_approvals)) in
  exists per, 0 <= per /\ per * k <= 303 /\ (0 < k -> 303 < (per + 1) * k) /\
    forall c m a, MessageApproved c m a ∈ ex_events ex_approvals -> amount a = z_to_string per.
Proof.
  exact (approved_cost_shared "now" ex_parser ex_approvals (ex_events ex_approvals) 303 303
    ltac:(done) ltac:(vm_compute; reflexivity) ex_approvals_ok).
Defined.
