(* ===== verification/EventIds.v ===== *)
(** * The ids of the events of a trace: [transaction_parser/]

    The GMP API knows an event by its id, so two events of one trace must not
    share one.  The parsers make the ids from the hash of their transaction,
    some with a suffix; no transaction is given to two parsers and no parser is
    asked twice, so the ids are distinct. *)

From Stdlib Require Import ZArith Lia Permutation Strings.Byte Strings.Ascii.
From stdpp Require Import base strings pretty countable gmap list.
From S2P Require Import Prelude RustStd Foreign Types GmpTypes CellCodec Messages Gas Parsers.
From S2P Require Import TraceParser TraceProofs Instances.

(** An id up to its first dash. *)
Fixpoint stem (s : string) : string :=
  match s with
  | EmptyString => EmptyString
  | String c s' => if decide (c = "-"%char) then EmptyString else String c (stem s')
  end.

Lemma stem_suffix h r : stem h = h -> stem (h +:+ String "-" r) = h.
Proof.
  induction h as [|c h IH]; intros Hh; [done|].
  change (stem (String c (h +:+ String "-" r)) = String c h). cbn [stem] in *.
  case_decide; [done|]. injection Hh as Hh. f_equal. by apply IH.
Qed.

Lemma NoDup_sub {A} (l k : list A) : l ⊆+ k -> NoDup k -> NoDup l.
Proof. intros (k' & ->)%submseteq_Permutation. by intros [? _]%NoDup_app. Qed.

Section EventIds.
Context {BU : BigUintLib} {TAL : TonAddressLib} {CL : CellLib} {CO : CodecLib} {JL : JsonLib}.
Context {PL : PriceLib}.
Context (now_rfc3339 : string).

Definition event_id_of (e : Event) : string :=
  match e with
  | Call c _ _ _ => event_id c
  | MessageApproved c _ _ => event_id c
  | MessageExecuted c _ _ _ _ => event_id c
  | SignersRotated c _ => event_id c
  | GasCredit c _ _ _ => event_id c
  | GasRefunded c _ _ _ _ => event_id c
  | ITSInterchainTransfer c _ _ _ _ _ _ => event_id c
  | ITSInterchainTokenDeploymentStarted c _ _ _ => event_id c
  | ITSLinkTokenStarted c _ _ _ _ _ _ => event_id c
  | ITSTokenMetadataRegistered c _ _ _ => event_id c
  | CannotExecuteMessageV2 c _ _ _ _ => event_id c
  end.

Definition event_stem (e : Event) : string := stem (event_id_of e).

(** The hashes of the API are Base64: they have no dash, and are longer than the
    word that begins the id of a message that cannot be executed. *)
Definition plain_hash (tx : Transaction) : Prop := stem (hash tx) = hash tx /\ hash tx <> "cannot".

Definition obj_stem (o : ParserObj) : string :=
  match obj_tx o with Some tx => hash tx | None => "cannot" end.

Definition obj_plain (o : ParserObj) : Prop :=
  match obj_tx o with Some tx => stem (hash tx) = hash tx | None => True end.

Lemma obj_event_stem o id e :
  obj_plain o -> obj_event now_rfc3339 o id = Ok e -> event_stem e = obj_stem o.
Proof.
  intros Ho He. unfold obj_plain, event_stem, obj_stem in *.
  destruct o as [p|p|p|p|p|p|p|p|p|p|p|p|p|p]; cbn [obj_event obj_tx] in *;
    autounfold with parser_events in He; res_inv; subst e; cbn [event_id_of event_id];
    first [done | by apply stem_suffix | done].
Qed.

(** ** One parser for a transaction *)

(** The parsers a trace produced. *)
Definition objs (s : Parsed) : list ParserObj :=
  ps_call_contract s ++ (snd <$> map_to_list (ps_gas_credit_map s)) ++ ps_its s ++ ps_parsers s.

Lemma values_insert (k : MessageMatchingKey) (o : ParserObj) (m : gmap MessageMatchingKey ParserObj) :
  snd <$> map_to_list (<[k := o]> m) ⊆+ o :: (snd <$> map_to_list m).
Proof.
  rewrite <- insert_delete_eq.
  rewrite (map_to_list_insert (delete k m)) by apply lookup_delete_eq. cbn [fmap list_fmap snd].
  apply submseteq_skip, fmap_submseteq.
  apply map_to_list_submseteq, delete_subseteq.
Qed.

Lemma values_delete (k : MessageMatchingKey) (o : ParserObj) (m : gmap MessageMatchingKey ParserObj) :
  m !! k = Some o ->
  snd <$> map_to_list m ≡ₚ o :: (snd <$> map_to_list (delete k m)).
Proof. intros Hk. by rewrite <- (map_to_list_delete m k o Hk). Qed.

(** One turn of the loop adds at most one parser, of its transaction. *)
Lemma added_objs self tx s s' :
  added self tx s s' ->
  objs s' = objs s \/ exists o, obj_tx o = Some tx /\ objs s' ⊆+ o :: objs s.
Proof.
  intros Ha. destruct Ha as [|o [Ho _] _|o [Ho _] _|o [Ho _] _|k o [Ho _] _|o [Ho _] _];
    [by left|right; exists o; split; [done|]..];
    unfold objs; cbn [push_call push_parser push_its insert_credit count_approved ps_call_contract
      ps_gas_credit_map ps_its ps_parsers].
  - rewrite <- app_assoc. cbn [app]. by rewrite <- Permutation_middle.
  - rewrite !app_assoc, <- Permutation_cons_append. done.
  - rewrite !app_assoc, <- Permutation_cons_append. done.
  - rewrite Permutation_middle, app_comm_cons.
    apply submseteq_app; [done|]. apply submseteq_app; [apply values_insert|done].
  - rewrite <- !app_assoc. cbn [app]. rewrite !(app_assoc _ (ps_its s)).
    by rewrite !app_assoc, <- Permutation_middle.
Qed.

Definition stems (s : Parsed) : list string := obj_stem <$> objs s.

Lemma create_parsers_stems self trace s :
  create_parsers now_rfc3339 self trace = Ok s ->
  stems s ⊆+ "cannot" :: (hash <$> transactions trace).
Proof.
  unfold create_parsers. intros H. apply res_bind_Ok in H as (s0 & H0 & H).
  assert (Hs0 : stems s0 ⊆+ ["cannot"]).
  { apply try_parser_Ok in H0 as [(p0 & p1 & b & p2 & _ & _ & _ & [= <-])|[= <-]]; [done|].
    apply submseteq_nil_l. }
  clear H0. change ("cannot" :: (hash <$> transactions trace)) with
    (["cannot"] ++ (hash <$> transactions trace)).
  revert Hs0. generalize ["cannot"]. revert s0 H.
  induction (transactions trace) as [|tx l IH]; intros s0 H k Hk; simpl in H.
  { injection H as <-. by rewrite app_nil_r. }
  apply res_bind_Ok in H as (s1 & H1 & H). apply create_parsers_tx_added in H1.
  specialize (IH s1 H (k ++ [hash tx])). rewrite <- app_assoc in IH. apply IH.
  unfold stems in *. destruct (added_objs _ _ _ _ H1) as [-> |(o & Ho & Hsub)].
  - by apply submseteq_inserts_r.
  - etrans; [exact (fmap_submseteq obj_stem _ _ Hsub)|]. cbn [fmap list_fmap].
    unfold obj_stem at 1. rewrite Ho, <- Permutation_cons_append. by apply submseteq_skip.
Qed.

(** ** One event for a parser *)

Lemma call_events_stems calls : forall evs m evs' m',
  Forall obj_plain calls -> map_Forall (fun _ o => obj_plain o) m ->
  res_foldM (call_events now_rfc3339) calls (evs, m) = Ok (evs', m') ->
  (event_stem <$> evs') ++ (obj_stem <$> (snd <$> map_to_list m')) ⊆+
    (event_stem <$> evs) ++ (obj_stem <$> calls) ++ (obj_stem <$> (snd <$> map_to_list m)).
Proof.
  induction calls as [|cc calls IH]; intros evs m evs' m' Hc Hm H; simpl in H.
  { by injection H as <- <-. }
  apply res_bind_Ok in H as ([evs1 m1] & H1 & H). apply Forall_cons in Hc as [Hcc Hc].
  destruct (call_events_Ok _ _ _ _ _ _ H1)
    as (e & He & [[-> ->]|(k & o & id & e2 & Hk & _ & He2 & -> & ->)]).
  - etrans; [exact (IH _ _ _ _ Hc Hm H)|]. rewrite fmap_app, <- app_assoc. cbn [fmap list_fmap app].
    by rewrite (obj_event_stem _ _ _ Hcc He).
  - etrans; [exact (IH _ _ _ _ Hc (map_Forall_delete _ _ _ Hm) H)|].
    rewrite (values_delete k o m Hk). rewrite fmap_app, <- app_assoc. cbn [fmap list_fmap app].
    rewrite (obj_event_stem _ _ _ Hcc He), (obj_event_stem _ _ _ (Hm _ _ Hk) He2).
    apply submseteq_app; [done|]. apply submseteq_skip.
    by rewrite Permutation_middle.
Qed.

Lemma its_events_stems calls i its evs :
  Forall obj_plain its -> its_events now_rfc3339 calls i its = Ok evs ->
  event_stem <$> evs = obj_stem <$> its.
Proof.
  revert i evs. induction its as [|o its IH]; intros i evs Ho H; [by injection H as <-|].
  apply Forall_cons in Ho as [Ho Hits].
  apply its_events_cons_Ok in H as (c & id & e & es & _ & _ & He & Hes & ->).
  cbn [fmap list_fmap]. f_equal; [by eapply obj_event_stem|by eapply IH].
Qed.

Lemma other_events_stems l evs :
  Forall obj_plain l -> Forall2 (fun o e => obj_event now_rfc3339 o None = Ok e) l evs ->
  event_stem <$> evs = obj_stem <$> l.
Proof.
  intros Hl H. induction H as [|o e l evs He _ IH]; [done|]. apply Forall_cons in Hl as [Ho Hl].
  cbn [fmap list_fmap]. f_equal; [by eapply obj_event_stem|by apply IH].
Qed.

Lemma raw_events_stems s evs :
  Forall obj_plain (objs s) -> raw_events now_rfc3339 s = Ok evs -> event_stem <$> evs ⊆+ stems s.
Proof.
  unfold objs, stems. rewrite !Forall_app, Forall_fmap. intros (Hc & Hm & Hi & Hp) H.
  apply raw_events_Ok in H as (calls & m & its & others & Hcalls & Hits & Hothers & ->).
  unfold objs. rewrite !fmap_app.
  rewrite (its_events_stems _ _ _ _ Hi Hits), (other_events_stems _ _ Hp Hothers).
  assert (Hm' : map_Forall (fun _ o => obj_plain o) (ps_gas_credit_map s)).
  { intros k o Hk%elem_of_map_to_list. rewrite Forall_forall in Hm. exact (Hm _ Hk). }
  pose proof (call_events_stems _ _ _ _ _ Hc Hm' Hcalls) as Hsub. cbn [fmap list_fmap app] in Hsub.
  rewrite !app_assoc. do 2 (apply submseteq_app; [|done]).
  etrans; [|exact Hsub]. by apply submseteq_inserts_r.
Qed.

Lemma convert_event_stem t r n e e' : convert_event t r n e = Ok e' -> event_stem e' = event_stem e.
Proof.
  intros H. destruct e; cbn [convert_event] in H; try (by injection H as <-).
  destruct (token_id payment); [|by injection H as <-]. res_inv. by subst e'.
Qed.

(** C4. No two events of a trace have the same id, when its transactions have
    different hashes, as the API gives them. *)
Theorem event_ids_distinct self trace events :
  parse_trace now_rfc3339 self trace = Ok events ->
  NoDup (map hash (transactions trace)) -> Forall plain_hash (transactions trace) ->
  NoDup (map event_id_of events).
Proof.
  intros H Hnd Hplain.
  destruct (parse_trace_Ok _ _ _ _ H) as (t & r & s & evs & _ & Hs & Hevs & Hconv).
  assert (Hst : event_stem <$> events = event_stem <$> evs).
  { clear -Hconv. induction Hconv as [|e e' evs events He _ IH]; [done|].
    cbn [fmap list_fmap]. f_equal; [by eapply convert_event_stem|done]. }
  assert (Hobj : Forall obj_plain (objs s)).
  { pose proof (create_parsers_ok _ _ _ _ Hs) as [H1 H2 H3 H4 _].
    assert (Hin : forall o, obj_in self (transactions trace) o -> obj_plain o).
    { intros o. unfold obj_in, obj_plain. destruct (obj_tx o) as [tx|]; [|done]. intros [Htx _].
      by rewrite Forall_forall in Hplain; apply Hplain in Htx as [? _]. }
    unfold objs. rewrite !Forall_app, Forall_fmap. split_and!.
    - eapply Forall_impl; [exact H2|]. intros o [Ho _]. by apply Hin.
    - apply map_Forall_to_list in H3. eapply Forall_impl; [exact H3|]. intros [k o] [Ho _]. by apply Hin.
    - eapply Forall_impl; [exact H4|]. intros o [Ho _]. by apply Hin.
    - eapply Forall_impl; [exact H1|]. intros o [Ho _]. by apply Hin. }
  apply (NoDup_fmap_1 stem). change (NoDup (stem <$> (event_id_of <$> events))).
  rewrite <- list_fmap_compose. change (NoDup (event_stem <$> events)). rewrite Hst.
  eapply NoDup_sub; [etrans; [by apply raw_events_stems|by eapply create_parsers_stems]|].
  constructor; [|done]. intros Hin. apply list_elem_of_fmap in Hin as (tx & Heq & Htx).
  rewrite Forall_forall in Hplain. by apply Hplain in Htx as [_ Hne].
Qed.
End EventIds.

(** ** Application at a concrete trace *)

Lemma event_ids_distinct_witness : NoDup ["aa"; "bb-gas"].
Proof.
  exact (event_ids_distinct "now" ex_parser ex_two (ex_events ex_two) ex_two_ok
    ltac:(apply (bool_decide_unpack _); by vm_compute)
    ltac:(repeat constructor; by vm_compute)).
Defined.
