(* ===== verification/EventsComplete.v ===== *)
(** * No event of a trace is missed: [transaction_parser/]

    The other half of authenticity: a transaction that the check of a parser
    accepts gets its event, whatever else is in the trace.  For the calls,
    approvals and executions of the gateway and the gas added or refunded by the
    gas service, each known by the op code of the incoming message, so that no
    parser earlier in the order takes the transaction; [Pairing] goes on with
    the payments and the logs of the token service, for which the parser that
    takes them is found here, and [Forged] with transactions elsewhere, which
    add nothing. *)

From Stdlib Require Import ZArith Lia Strings.Byte Strings.Ascii.
From stdpp Require Import base strings pretty countable gmap list.
From S2P Require Import Prelude RustStd Foreign Types GmpTypes CellCodec Messages Gas Parsers.
From S2P Require Import TraceParser TraceProofs EventIds Instances.

Inductive event_kind : Set :=
| EKCall | EKApproved | EKExecuted | EKCredit | EKRefunded | EKOther.

Section Complete.
Context {BU : BigUintLib} {TAL : TonAddressLib} {CL : CellLib} {CO : CodecLib} {JL : JsonLib}.
Context {PL : PriceLib}.
Context (now_rfc3339 : string).

Definition kind_of_event (e : Event) : event_kind :=
  match e with
  | Call _ _ _ _ => EKCall
  | MessageApproved _ _ _ => EKApproved
  | MessageExecuted _ _ _ _ _ => EKExecuted
  | GasCredit _ _ _ _ => EKCredit
  | GasRefunded _ _ _ _ _ => EKRefunded
  | _ => EKOther
  end.

(** What an event is and for which transaction. *)
Definition event_head (e : Event) : event_kind * string := (kind_of_event e, event_id_of e).

(** The check of the parser that [new] builds accepts its transaction. *)
Definition accepts {P} {PP : Parser P} (new : res perror P) : Prop :=
  exists p, new = Ok p /\ fst (check_match p) = Ok true.

(** ** Which parser gets a transaction *)

Lemma try_parser_skip {P} {PP : Parser P} new matched otherwise p :
  new = Ok p -> fst (check_match p) = Ok false ->
  try_parser (P := P) new matched otherwise = otherwise.
Proof.
  intros -> Hc. unfold try_parser. cbn [res_bind]. destruct (check_match p) as [r p1].
  cbn [fst] in Hc. by subst r.
Qed.

Lemma try_parser_take {P} {PP : Parser P} new matched otherwise r :
  accepts new -> try_parser (P := P) new matched otherwise = Ok r ->
  exists p0 p1 b p2, new = Ok p0 /\ check_match p0 = (Ok true, p1) /\ parse p1 = (Ok b, p2) /\
    matched p2 = Ok r.
Proof.
  intros (p & Hn & Hc) H. unfold try_parser in H. rewrite Hn in H. cbn [res_bind] in H.
  destruct (check_match p) as [c p1] eqn:Ec. cbn [fst] in Hc. subst c. cbn [res_bind] in H.
  destruct (parse p1) as [[b| |] p2] eqn:Ep; [|done..]. by exists p, p1, b, p2.
Qed.

Lemma try_parser_cases {P} {PP : Parser P} new matched otherwise r :
  try_parser (P := P) new matched otherwise = Ok r ->
  (~ accepts new /\ otherwise = Ok r) \/
  (accepts new /\ exists p0 p1 b p2, new = Ok p0 /\ check_match p0 = (Ok true, p1) /\
     parse p1 = (Ok b, p2) /\ matched p2 = Ok r).
Proof.
  unfold try_parser, accepts. destruct new as [p| |]; [|done..]. cbn [res_bind].
  destruct (check_match p) as [[[]| |] p1] eqn:Ec; [| |done..]; cbn [res_bind]; intros H.
  - right. split; [exists p; by rewrite Ec|].
    destruct (parse p1) as [[b| |] p2] eqn:Ep; [|done..]. by exists p, p1, b, p2.
  - left. split; [|done]. intros (q & [= <-] & Hq). by rewrite Ec in Hq.
Qed.

(** The op code of the message that came in. *)
Definition op_in (tx : Transaction) : option Z := in_msg tx ≫= opcode.

Lemma log_other_op tx op op' i :
  op_in tx = Some op' -> op <> op' -> is_log_emmitted_in_opcode tx op i = Ok false.
Proof.
  unfold op_in, is_log_emmitted_in_opcode. intros Hop Hne.
  destruct (in_msg tx) as [im|]; [|done]. cbn in Hop. rewrite Hop. by rewrite decide_False.
Qed.

Lemma log_op tx op i : is_log_emmitted_in_opcode tx op i = Ok true -> op_in tx = Some op.
Proof. intros (im & msg & Hi & Ho & _)%log_in_opcode_true. unfold op_in. by rewrite Hi. Qed.

Lemma check_account_skip {L} (check : Transaction -> res perror bool) (p : TxParser L) :
  check (tp_tx p) = Ok false -> fst (check_account check p) = Ok false.
Proof. intros Hc. unfold check_account. by case_decide. Qed.

Lemma check_account_true {L} (check : Transaction -> res perror bool) (p : TxParser L) :
  fst (check_account check p) = Ok true -> check (tp_tx p) = Ok true.
Proof. unfold check_account. by case_decide. Qed.

(** The parser of [tx] is kept in [l], and gives an event with the head [h]. *)
Definition has_obj (l : list ParserObj) (h : event_kind * string) : Prop :=
  exists o, o ∈ l /\ forall id e, obj_event now_rfc3339 o id = Ok e -> event_head e = h.

Lemma executed_op tx p :
  tp_tx p = tx -> fst (ParserMessageExecuted.check_match p) = Ok true ->
  op_in tx = Some OP_NULLIFIED_SUCCESSFULLY.
Proof.
  intros <-. unfold ParserMessageExecuted.check_match. intros H%check_account_true.
  destruct (is_log_emmitted_in_opcode _ _ 0) as [b0| |] eqn:E0; [|done..]. cbn [res_bind] in H.
  destruct b0; [by eapply log_op|]. cbn [negb] in H.
  destruct (is_log_emmitted_in_opcode _ _ 1) as [b1| |] eqn:E1; [|done..]. cbn [res_bind] in H.
  destruct b1; [by eapply log_op|done].
Qed.

Lemma jetton_op {A} (f : string -> res BocError A) tx op :
  (let? candidate := is_log_emmitted_in_opcode tx op 0 in
   if negb candidate then Ok false
   else let? msg := index (out_msgs tx) 0 in Ok (is_ok (f (body (message_content msg)))))
  = (Ok true : res perror bool) -> op_in tx = Some op.
Proof.
  destruct (is_log_emmitted_in_opcode tx op 0) as [b| |] eqn:E; [|done..]. cbn [res_bind].
  destruct b; [intros _; by eapply log_op|done].
Qed.

Lemma call_skip self tx op :
  op_in tx = Some op -> op <> OP_CALL_CONTRACT -> forall p,
  ParserCallContract.new tx (gateway_address self) (chain_name self) = Ok p ->
  fst (ParserCallContract.check_match p) = Ok false.
Proof.
  intros Hop Hne p [= <-]. unfold ParserCallContract.check_match, ParserCallContract.on_base.
  cbn [ParserCallContract.base].
  pose proof (check_account_skip (fun tx => is_log_emmitted_in_opcode tx OP_CALL_CONTRACT 0)
    {| tp_log := None (A := CallContractMessage); tp_tx := tx;
       tp_allowed_address := gateway_address self |}) as Hs.
  cbn [tp_tx] in Hs. rewrite (log_other_op _ _ _ _ Hop (not_eq_sym Hne)) in Hs. specialize (Hs eq_refl).
  by destruct (check_account _ _).
Qed.

Lemma call_taken self s tx s' :
  accepts (PP := ParserCallContract.parser now_rfc3339)
    (ParserCallContract.new tx (gateway_address self) (chain_name self)) ->
  create_parsers_tx now_rfc3339 self s tx = Ok s' ->
  has_obj (ps_call_contract s') (EKCall, hash tx).
Proof.
  intros Ha H. apply (try_parser_take _ _ _ _ Ha) in H as (p0 & p1 & b & p2 & [= <-] & Hc & Hp & [= <-]).
  unfold check_match, parse, ParserCallContract.parser, ParserCallContract.check_match,
    ParserCallContract.parse, ParserCallContract.on_base in Hc, Hp.
  destruct (check_account _ _) as [r1 b1] eqn:E1. injection Hc as -> <-.
  cbn [ParserCallContract.base] in Hp.
  destruct (parse_log _ b1) as [r2 b2] eqn:E2. injection Hp as -> <-.
  destruct (tx_parser_ok _ _ _ _ _ _ _ E1 E2) as (_ & Htx & _).
  eexists. split; [apply elem_of_app; right; by apply list_elem_of_singleton|].
  intros id e He. cbn [obj_event] in He. autounfold with parser_events in He.
  cbn [ParserCallContract.base] in He. res_inv. subst e. unfold event_head.
  cbn [kind_of_event event_id_of event_id]. by rewrite Htx.
Qed.

(** A parser whose check looks for another op code is passed by. *)
Ltac pass_one H Hop :=
  erewrite try_parser_skip in H;
  [|reflexivity
   |first
     [ by eapply call_skip
     | apply check_account_skip; cbn [tp_tx];
       repeat (rewrite (log_other_op _ _ _ _ Hop) by done; cbn [res_bind negb andb]); done ]].

(** The parser that takes the transaction, its event, and where it is kept. *)
Ltac taken H Ha :=
  apply (try_parser_take _ _ _ _ Ha) in H as (p0 & p1 & b & p2 & [= <-] & Hc & Hp & [= <-]);
  destruct (tx_parser_ok _ _ _ _ _ _ _ Hc Hp) as (_ & Htx & _);
  eexists; split; [apply elem_of_app; right; by apply list_elem_of_singleton|];
  let id := fresh "id" in let e := fresh "e" in let He := fresh "He" in
  intros id e He; cbn [obj_event] in He; autounfold with parser_events in He; res_inv; subst e;
  unfold event_head; cbn [kind_of_event event_id_of event_id]; by rewrite Htx.

Lemma executed_taken self s tx s' :
  accepts (PP := ParserMessageExecuted.parser now_rfc3339)
    (ParserMessageExecuted.new tx (gateway_address self)) ->
  create_parsers_tx now_rfc3339 self s tx = Ok s' ->
  has_obj (ps_parsers s') (EKExecuted, hash tx).
Proof.
  intros Ha H. pose proof Ha as (p & [= <-] & Hop). apply (executed_op tx) in Hop; [|done].
  unfold create_parsers_tx in H. do 1 pass_one H Hop. taken H Ha.
Qed.

Lemma approved_taken self s tx s' :
  accepts (PP := ParserMessageApproved.parser now_rfc3339)
    (ParserMessageApproved.new tx (gateway_address self)) ->
  create_parsers_tx now_rfc3339 self s tx = Ok s' ->
  has_obj (ps_parsers s') (EKApproved, hash tx).
Proof.
  intros Ha H. pose proof Ha as (p & [= <-] & Hop%check_account_true%log_op).
  unfold create_parsers_tx in H. do 2 pass_one H Hop. taken H Ha.
Qed.

Lemma native_added_taken self s tx s' :
  accepts (PP := ParserNativeGasAdded.parser now_rfc3339)
    (ParserNativeGasAdded.new tx (gas_service_address self)) ->
  create_parsers_tx now_rfc3339 self s tx = Ok s' ->
  has_obj (ps_parsers s') (EKCredit, hash tx +:+ "-gas").
Proof.
  intros Ha H. pose proof Ha as (p & [= <-] & Hop%check_account_true%log_op).
  unfold create_parsers_tx in H. do 4 pass_one H Hop. taken H Ha.
Qed.

Lemma jetton_added_taken self s tx s' :
  accepts (PP := ParserJettonGasAdded.parser now_rfc3339)
    (ParserJettonGasAdded.new tx (gas_service_address self)) ->
  create_parsers_tx now_rfc3339 self s tx = Ok s' ->
  has_obj (ps_parsers s') (EKCredit, hash tx +:+ "-gas").
Proof.
  intros Ha H. pose proof Ha as (p & [= <-] & Hop%check_account_true%jetton_op).
  unfold create_parsers_tx in H. do 5 pass_one H Hop. taken H Ha.
Qed.

Lemma refunded_taken self s tx s' :
  accepts (PP := ParserNativeGasRefunded.parser)
    (ParserNativeGasRefunded.new tx (gas_service_address self)) ->
  create_parsers_tx now_rfc3339 self s tx = Ok s' ->
  has_obj (ps_parsers s') (EKRefunded, hash tx).
Proof.
  intros Ha H. pose proof Ha as (p & [= <-] & Hop%check_account_true%log_op).
  unfold create_parsers_tx in H. do 7 pass_one H Hop. taken H Ha.
Qed.

Lemma native_paid_taken self s tx s' :
  accepts (PP := ParserNativeGasPaid.parser now_rfc3339)
    (ParserNativeGasPaid.new tx (gas_service_address self)) ->
  create_parsers_tx now_rfc3339 self s tx = Ok s' ->
  exists k o, s' = insert_credit k o s.
Proof.
  intros Ha H. pose proof Ha as (p & [= <-] & Hop%check_account_true). cbn [tp_tx] in Hop.
  assert (Hop' : op_in tx = Some OP_PAY_NATIVE_GAS_FOR_CONTRACT_CALL \/ op_in tx = Some OP_PAY_GAS).
  { destruct (is_log_emmitted_in_opcode tx OP_PAY_NATIVE_GAS_FOR_CONTRACT_CALL 0) as [[]| |] eqn:E;
      [left|right|done..]; by eapply log_op. }
  clear Hop. destruct Hop' as [Hop|Hop]; unfold create_parsers_tx in H; do 3 pass_one H Hop;
    apply (try_parser_take _ _ _ _ Ha) in H as (p0 & p1 & b & p2 & _ & _ & _ & Hm);
    apply res_bind_Ok in Hm as (k & _ & [= <-]); eauto.
Qed.

Lemma jetton_paid_taken self s tx s' :
  accepts (PP := ParserJettonGasPaid.parser now_rfc3339)
    (ParserJettonGasPaid.new tx (gas_service_address self)) ->
  ~ accepts (PP := ParserJettonGasAdded.parser now_rfc3339)
    (ParserJettonGasAdded.new tx (gas_service_address self)) ->
  create_parsers_tx now_rfc3339 self s tx = Ok s' ->
  exists k o, s' = insert_credit k o s.
Proof.
  intros Ha Hna H. pose proof Ha as (p & [= <-] & Hop%check_account_true%jetton_op).
  unfold create_parsers_tx in H. do 5 pass_one H Hop.
  apply try_parser_Ok in H as [(p0 & p1 & b & p2 & Hn & Hc & _)|H].
  { destruct Hna. exists p0. split; [done|]. by rewrite Hc. }
  apply (try_parser_take _ _ _ _ Ha) in H as (p0 & p1 & b & p2 & _ & _ & _ & Hm).
  apply res_bind_Ok in Hm as (k & _ & [= <-]). eauto.
Qed.

(** *** The token service *)

Lemma check_account_other {L} (check : Transaction -> res perror bool) (p : TxParser L) :
  account (tp_tx p) <> tp_allowed_address p -> fst (check_account check p) = Ok false.
Proof. intros Hne. unfold check_account. by rewrite decide_True. Qed.

Lemma check_account_allowed {L} (check : Transaction -> res perror bool) (p : TxParser L) :
  fst (check_account check p) = Ok true -> account (tp_tx p) = tp_allowed_address p.
Proof.
  intros H. destruct (decide (account (tp_tx p) = tp_allowed_address p)); [done|].
  by rewrite check_account_other in H.
Qed.

Lemma check_position_allowed {L} op (p : PosParser L) :
  fst (check_position op p) = Ok true -> account (pp_tx p) = pp_allowed_address p.
Proof.
  unfold check_position. destruct (decide (account (pp_tx p) = pp_allowed_address p)); [done|].
  by rewrite decide_True by done.
Qed.

(** Some parser of the token service accepts the transaction. *)
Definition its_accepts (self : TraceParser) (tx : Transaction) : Prop :=
  accepts (PP := ParserITSTokenMetadataRegistered.parser now_rfc3339)
    (ParserITSTokenMetadataRegistered.new tx (its_address self)) \/
  accepts (PP := ParserITSInterchainTokenDeploymentStarted.parser now_rfc3339)
    (ParserITSInterchainTokenDeploymentStarted.new tx (its_address self)) \/
  accepts (PP := ParserITSInterchainTransfer.parser now_rfc3339)
    (ParserITSInterchainTransfer.new tx (its_address self)) \/
  accepts (PP := ParserITSLinkTokenStarted.parser now_rfc3339)
    (ParserITSLinkTokenStarted.new tx (its_address self)).

Lemma its_accepts_account self tx : its_accepts self tx -> account tx = its_address self.
Proof.
  intros [(p & [= <-] & H)|[(p & [= <-] & H)|[(p & [= <-] & H)|(p & [= <-] & H)]]];
    first [exact (check_account_allowed _ _ H) | exact (check_position_allowed _ _ H)].
Qed.

(** The contracts of the other parsers are not the token service. *)
Ltac pass_other H Hacc :=
  erewrite try_parser_skip in H;
  [|reflexivity
   |first
     [ apply check_account_other; cbn [tp_tx tp_allowed_address]; congruence
     | unfold check_match, ParserCallContract.parser, ParserCallContract.check_match,
         ParserCallContract.on_base; cbn [ParserCallContract.base];
       unfold check_account; cbn [tp_tx tp_allowed_address]; by rewrite decide_True by congruence ]].

Lemma its_taken self s tx s' :
  its_address self <> gateway_address self -> its_address self <> gas_service_address self ->
  its_accepts self tx -> create_parsers_tx now_rfc3339 self s tx = Ok s' ->
  exists o, s' = push_its o s.
Proof.
  intros Hgw Hgs Ha H. pose proof (its_accepts_account _ _ Ha) as Hacc.
  unfold create_parsers_tx in H. do 8 pass_other H Hacc.
  apply try_parser_cases in H as [(Hn1 & H)|(_ & ? & ? & ? & p1 & _ & _ & _ & [= <-])]; [|by eexists].
  apply try_parser_cases in H as [(Hn2 & H)|(_ & ? & ? & ? & p2 & _ & _ & _ & [= <-])]; [|by eexists].
  apply try_parser_cases in H as [(Hn3 & H)|(_ & ? & ? & ? & p3 & _ & _ & _ & [= <-])]; [|by eexists].
  apply try_parser_cases in H as [(Hn4 & H)|(_ & ? & ? & ? & p4 & _ & _ & _ & [= <-])]; [|by eexists].
  by destruct Ha as [?|[?|[?|?]]].
Qed.

(** *** Other accounts *)

Lemma check_position_other {L} op (p : PosParser L) :
  account (pp_tx p) <> pp_allowed_address p -> fst (check_position op p) = Ok false.
Proof. intros Hne. unfold check_position. by rewrite decide_True. Qed.

(** A transaction on none of the contracts adds nothing. *)
Lemma foreign_adds_nothing self s tx :
  account tx <> gateway_address self -> account tx <> gas_service_address self ->
  account tx <> its_address self -> create_parsers_tx now_rfc3339 self s tx = Ok s.
Proof.
  intros Hgw Hgs Hits. unfold create_parsers_tx.
  erewrite try_parser_skip; [|reflexivity|].
  2:{ unfold check_match, ParserCallContract.parser, ParserCallContract.check_match,
        ParserCallContract.on_base. cbn [ParserCallContract.base]. unfold check_account.
      cbn [tp_tx tp_allowed_address]. by rewrite decide_True. }
  do 12 (erewrite try_parser_skip;
    [|reflexivity|first [by apply check_account_other|by apply check_position_other]]).
  done.
Qed.

(** ** From the parsers to the events *)

Lemma added_grows self tx s s' :
  added self tx s s' ->
  ps_call_contract s ⊆ ps_call_contract s' /\ ps_parsers s ⊆ ps_parsers s'.
Proof.
  intros Ha. destruct Ha; cbn [push_call push_parser push_its insert_credit count_approved
    ps_call_contract ps_parsers]; set_solver.
Qed.

Lemma create_parsers_visits self trace s tx :
  create_parsers now_rfc3339 self trace = Ok s -> tx ∈ transactions trace ->
  exists s0 s1, create_parsers_tx now_rfc3339 self s0 tx = Ok s1 /\
    ps_call_contract s1 ⊆ ps_call_contract s /\ ps_parsers s1 ⊆ ps_parsers s.
Proof.
  unfold create_parsers. intros H. apply res_bind_Ok in H as (s0 & _ & H). revert s0 H.
  induction (transactions trace) as [|tx' l IH]; intros s0 H Htx; [by apply elem_of_nil in Htx|].
  simpl in H. apply res_bind_Ok in H as (s1 & H1 & H).
  apply elem_of_cons in Htx as [<-|Htx]; [|by apply (IH s1)].
  exists s0, s1. split; [done|]. clear IH H1. revert s1 H.
  induction l as [|tx' l IH]; intros s1 H; simpl in H; [by injection H as <-|].
  apply res_bind_Ok in H as (s2 & H2 & H). apply create_parsers_tx_added, added_grows in H2.
  destruct (IH s2 H) as [? ?]. set_solver.
Qed.

Lemma call_events_give calls evs m evs' m' cc :
  res_foldM (call_events now_rfc3339) calls (evs, m) = Ok (evs', m') ->
  evs ⊆ evs' /\ (cc ∈ calls -> exists e, e ∈ evs' /\ obj_event now_rfc3339 cc None = Ok e).
Proof.
  revert evs m. induction calls as [|o calls IH]; intros evs m H; simpl in H.
  { injection H as <- <-. split; [done|]. by intros ?%elem_of_nil. }
  apply res_bind_Ok in H as ([evs1 m1] & H1 & H). destruct (IH _ _ H) as [Hsub Hin].
  destruct (call_events_Ok _ _ _ _ _ _ H1) as (e & He & Hcase).
  assert (He1 : e ∈ evs1 /\ evs ⊆ evs1).
  { destruct Hcase as [[-> _]|(k & x & id & e2 & _ & _ & _ & -> & _)]; set_solver. }
  split; [set_solver|]. intros [->|Hcc]%elem_of_cons; [|by apply Hin].
  exists e. split; [set_solver|done].
Qed.

Lemma raw_events_give s evs h :
  raw_events now_rfc3339 s = Ok evs ->
  has_obj (ps_call_contract s) h \/ has_obj (ps_parsers s) h -> h ∈ event_head <$> evs.
Proof.
  intros H Ho. apply raw_events_Ok in H as (calls & m & its & others & Hc & _ & Hoth & ->).
  apply list_elem_of_fmap. destruct Ho as [(o & Ho & Hh)|(o & Ho & Hh)].
  - destruct (call_events_give _ _ _ _ _ o Hc) as [_ Hin]. destruct (Hin Ho) as (e & He & Heo).
    exists e. split; [by rewrite (Hh _ _ Heo)|set_solver].
  - apply list_elem_of_lookup_1 in Ho as (i & Hi).
    destruct (Forall2_lookup_l _ _ _ _ _ Hoth Hi) as (e & He & Heo).
    exists e. split; [by rewrite (Hh _ _ Heo)|]. apply list_elem_of_lookup_2 in He. set_solver.
Qed.

Lemma convert_event_head t r n e e' : convert_event t r n e = Ok e' -> event_head e' = event_head e.
Proof.
  intros H. destruct e; cbn [convert_event] in H; try (by injection H as <-).
  destruct (token_id payment); [|by injection H as <-]. res_inv. by subst e'.
Qed.

Lemma parsed_gives self trace events tx h :
  parse_trace now_rfc3339 self trace = Ok events -> tx ∈ transactions trace ->
  (forall s s', create_parsers_tx now_rfc3339 self s tx = Ok s' ->
     has_obj (ps_call_contract s') h \/ has_obj (ps_parsers s') h) ->
  h ∈ map event_head events.
Proof.
  intros H Htx Hh. destruct (parse_trace_Ok _ _ _ _ H) as (t & r & s & evs & _ & Hs & Hevs & Hconv).
  assert (Hst : map event_head events = event_head <$> evs).
  { clear -Hconv. induction Hconv as [|e e' evs events He _ IH]; [done|].
    cbn [map fmap list_fmap]. f_equal; [by eapply convert_event_head|done]. }
  rewrite Hst. eapply raw_events_give; [done|].
  destruct (create_parsers_visits _ _ _ _ Hs Htx) as (s0 & s1 & H1 & Hsub1 & Hsub2).
  destruct (Hh _ _ H1) as [(o & Ho & Hoh)|(o & Ho & Hoh)]; [left|right]; exists o; auto.
Qed.

(** C2. Completeness: in the events of a trace, every transaction that a parser
    of the gateway or of added or refunded gas accepts has its event, with the
    hash of the transaction in its id: a call, an approval, an execution, a gas
    credit or a refund. *)
Theorem events_complete self trace events tx :
  parse_trace now_rfc3339 self trace = Ok events -> tx ∈ transactions trace ->
  (accepts (PP := ParserCallContract.parser now_rfc3339)
     (ParserCallContract.new tx (gateway_address self) (chain_name self)) ->
   (EKCall, hash tx) ∈ map event_head events) /\
  (accepts (PP := ParserMessageApproved.parser now_rfc3339)
     (ParserMessageApproved.new tx (gateway_address self)) ->
   (EKApproved, hash tx) ∈ map event_head events) /\
  (accepts (PP := ParserMessageExecuted.parser now_rfc3339)
     (ParserMessageExecuted.new tx (gateway_address self)) ->
   (EKExecuted, hash tx) ∈ map event_head events) /\
  (accepts (PP := ParserNativeGasAdded.parser now_rfc3339)
     (ParserNativeGasAdded.new tx (gas_service_address self)) \/
   accepts (PP := ParserJettonGasAdded.parser now_rfc3339)
     (ParserJettonGasAdded.new tx (gas_service_address self)) ->
   (EKCredit, hash tx +:+ "-gas") ∈ map event_head events) /\
  (accepts (PP := ParserNativeGasRefunded.parser)
     (ParserNativeGasRefunded.new tx (gas_service_address self)) ->
   (EKRefunded, hash tx) ∈ map event_head events).
Proof.
  intros H Htx. split_and!; intros Ha; apply (parsed_gives _ _ _ _ _ H Htx); intros s s' Hs.
  - left. by eapply call_taken.
  - right. by eapply approved_taken.
  - right. by eapply executed_taken.
  - right. destruct Ha as [Ha|Ha]; [by eapply native_added_taken|by eapply jetton_added_taken].
  - right. by eapply refunded_taken.
Qed.
End Complete.

(** ** Application at a concrete trace *)

Lemma events_complete_witness :
  (EKCall, "aa") ∈ map event_head (ex_events ex_two).
Proof.
  apply (events_complete "now" ex_parser ex_two (ex_events ex_two) (ex_call "aa") ex_two_ok);
    [by left|]. eexists. by split.
Defined.
