(* ===== verification/Pairing.v ===== *)
(** * Payments, calls and logs: [transaction_parser/parser.rs]

    Which event each transaction of a trace gets, exactly: a call with the gas
    payment made under its key, a log of the token service with the call at its
    place, a jetton payment with its amount in the native token.  The events
    are stated from the transactions, each seen by itself. *)

From Stdlib Require Import ZArith Lia Strings.Byte Strings.Ascii.
From stdpp Require Import base strings pretty countable gmap list.
From S2P Require Import Prelude RustStd Foreign Types GmpTypes CellCodec Messages Gas Parsers.
From S2P Require Import TraceParser TraceProofs EventIds EventsComplete Instances.

Section Pairing.
Context {BU : BigUintLib} {TAL : TonAddressLib} {CL : CellLib} {CO : CodecLib} {JL : JsonLib}.
Context {PL : PriceLib}.
Context (now_rfc3339 : string).

(** ** The transactions, one by one *)

(** What the loop makes of one transaction by itself. *)
Definition turn (self : TraceParser) (tx : Transaction) : res perror Parsed :=
  create_parsers_tx now_rfc3339 self no_parsers tx.

(** The payments of the transactions: the last one under each key. *)
Definition payments (turns : list Parsed) : gmap MessageMatchingKey ParserObj :=
  foldl (fun m t => ps_gas_credit_map t ∪ m) ∅ turns.

(** [s'] is [s] and what a turn gave. *)
Definition extends (s s' t : Parsed) : Prop :=
  ps_call_contract s' = ps_call_contract s ++ ps_call_contract t /\
  ps_its s' = ps_its s ++ ps_its t /\
  ps_parsers s' = ps_parsers s ++ ps_parsers t /\
  ps_gas_credit_map s' = ps_gas_credit_map t ∪ ps_gas_credit_map s.

Lemma try_parser_sim {P} {PP : Parser P} new m1 m2 o1 o2 (R : Parsed -> Parsed -> Prop) s' :
  try_parser (P := P) new m1 o1 = Ok s' ->
  (forall p, m1 p = Ok s' -> exists t, m2 p = Ok t /\ R s' t) ->
  (o1 = Ok s' -> exists t, o2 = Ok t /\ R s' t) ->
  exists t, try_parser new m2 o2 = Ok t /\ R s' t.
Proof.
  unfold try_parser. destruct new as [p| |]; [|done..]. cbn [res_bind].
  destruct (check_match p) as [[b| |] p1]; [|done..]. cbn [res_bind].
  destruct b; [|by auto]. destruct (parse p1) as [[b2| |] p2]; [|done..]. cbn [res_bind]. auto.
Qed.

(** The parser that took the transaction is put at the end of its vector, or in
    the map. *)
Ltac same_turn :=
  let p := fresh "p" in let Hm := fresh "Hm" in let k := fresh "k" in
  intros p Hm;
  first [injection Hm as <- | apply res_bind_Ok in Hm as (k & -> & [= <-])];
  cbn [res_bind]; eexists; (split; [reflexivity|]);
  unfold extends; cbn; rewrite ?app_nil_r, ?(left_id_L ∅ (∪)); split_and!; try done;
  by rewrite insert_empty, <- insert_union_singleton_l.

(** A turn does the same whatever came before. *)
Lemma create_parsers_tx_turn self s tx s' :
  create_parsers_tx now_rfc3339 self s tx = Ok s' ->
  exists t, turn self tx = Ok t /\ extends s s' t.
Proof.
  unfold turn, create_parsers_tx. intros H.
  do 13 (apply (try_parser_sim _ _ _ _ _ (extends s) _ H); clear H; [same_turn|intros H]).
  injection H as <-. exists no_parsers. unfold extends; cbn.
  rewrite !app_nil_r, (left_id_L ∅ (∪)). by split_and!.
Qed.

Lemma payments_snoc turns t : payments (turns ++ [t]) = ps_gas_credit_map t ∪ payments turns.
Proof. unfold payments. by rewrite foldl_app. Qed.

(** The parser that reports a trace as a message that cannot be executed. *)
Definition report_of (trace : Trace) (o : ParserObj) : Prop :=
  exists p, o = OExecuteInsufficientGas p /\ ParserExecuteInsufficientGas.trace p = trace.

Lemma insufficient_gas_trace p0 p1 b p2 :
  ParserExecuteInsufficientGas.check_match p0 = (Ok true, p1) ->
  ParserExecuteInsufficientGas.parse p1 = (Ok b, p2) ->
  ParserExecuteInsufficientGas.trace p2 = ParserExecuteInsufficientGas.trace p0.
Proof.
  unfold ParserExecuteInsufficientGas.check_match, ParserExecuteInsufficientGas.parse.
  intros [= _ <-]. destruct (ParserExecuteInsufficientGas.log p0); [by intros [= _ <-]|].
  case_match; [by intros [= _ <-]|done..].
Qed.

(** The parser of the report accepts the trace. *)
Definition report_accepted (self : TraceParser) (trace : Trace) : Prop :=
  accepts (PP := ParserExecuteInsufficientGas.parser)
    (ParserExecuteInsufficientGas.new trace (gateway_address self) (chain_name self)).

(** The one report of an accepted trace, and none of another. *)
Definition reports (self : TraceParser) (trace : Trace) (report : list ParserObj) : Prop :=
  (report_accepted self trace /\ exists o, report = [o] /\ report_of trace o) \/
  (~ report_accepted self trace /\ report = []).

(** The vectors and the map of a trace, from its turns. *)
Lemma create_parsers_turns self trace s :
  create_parsers now_rfc3339 self trace = Ok s ->
  exists report turns,
    Forall2 (fun tx t => turn self tx = Ok t) (transactions trace) turns /\
    reports self trace report /\
    ps_call_contract s = turns ≫= ps_call_contract /\ ps_its s = turns ≫= ps_its /\
    ps_parsers s = report ++ (turns ≫= ps_parsers) /\ ps_gas_credit_map s = payments turns.
Proof.
  unfold create_parsers. intros H. apply res_bind_Ok in H as (s0 & H0 & H).
  assert (Hs0 : ps_call_contract s0 = [] /\ ps_its s0 = [] /\ ps_gas_credit_map s0 = ∅ /\
    reports self trace (ps_parsers s0)).
  { apply try_parser_cases in H0 as [(Hn & [= <-])|(Ha & p0 & p1 & b & p2 & [= <-] & Hc & Hp & [= <-])];
      cbn [push_parser no_parsers ps_call_contract ps_its ps_gas_credit_map ps_parsers app];
      (split_and!; [done..|]); [by right|].
    left. split; [done|]. eexists. split; [done|]. exists p2. split; [done|].
    by rewrite (insufficient_gas_trace _ _ _ _ Hc Hp). }
  clear H0. exists (ps_parsers s0). destruct Hs0 as (Hc & Hi & Hm & Hr).
  enough (Hen : forall txs s1, res_foldM (create_parsers_tx now_rfc3339 self) txs s1 = Ok s ->
    exists turns, Forall2 (fun tx t => turn self tx = Ok t) txs turns /\
      ps_call_contract s = ps_call_contract s1 ++ (turns ≫= ps_call_contract) /\
      ps_its s = ps_its s1 ++ (turns ≫= ps_its) /\
      ps_parsers s = ps_parsers s1 ++ (turns ≫= ps_parsers) /\
      ps_gas_credit_map s = foldl (fun m t => ps_gas_credit_map t ∪ m) (ps_gas_credit_map s1) turns).
  { destruct (Hen _ _ H) as (turns & Ht & H1 & H2 & H3 & H4). exists turns.
    rewrite Hc in H1. rewrite Hi in H2. rewrite Hm in H4. by split_and!. }
  clear. induction txs as [|tx txs IH]; intros s1 H; cbn [res_foldM] in H.
  { injection H as <-. exists []. cbn. rewrite !app_nil_r. by split_and!. }
  apply res_bind_Ok in H as (s2 & H2 & H).
  apply create_parsers_tx_turn in H2 as (t & Ht & E1 & E2 & E3 & E4).
  destruct (IH _ H) as (turns & Hts & H3 & H4 & H5 & H6). exists (t :: turns).
  split; [by constructor|]. cbn [mbind list_bind foldl].
  rewrite H3, H4, H5, H6, E1, E2, E3, E4, !app_assoc. by split_and!.
Qed.

(** ** Calls and payments *)

(** An event of a trace: what a parser gives, with the gas filled in and the
    payment converted. *)
Definition gives (gas : Z * Z * Z) (o : ParserObj) (id : option string) (e : Event) : Prop :=
  exists raw, obj_event now_rfc3339 o id = Ok raw /\
    convert_event gas.1.1 gas.1.2 gas.2 raw = Ok e.

Definition call_key (cc : ParserObj) : option MessageMatchingKey := res_ok (obj_key cc).

(** The payment credited to the [i]-th call: the one under its key, if no
    earlier call has that key. *)
Definition payment_for (paid : gmap MessageMatchingKey ParserObj) (calls : list ParserObj) (i : nat)
    : option ParserObj :=
  k ← calls !! i ≫= call_key;
  if decide (Some k ∈ map call_key (take i calls)) then None else paid !! k.

Section Segments.
Context (R : ParserObj -> option string -> Event -> Prop).

(** The events of one call: alone when there is no payment for it, and
    followed by the credit of that payment, under the call's message id, when
    there is one. *)
Inductive call_segment (cc : ParserObj) : option ParserObj -> list Event -> Prop :=
| segment_unpaid c m d p :
    R cc None (Call c m d p) -> call_segment cc None [Call c m d p]
| segment_paid o c m d p c' refund payment :
    R cc None (Call c m d p) ->
    R o (Some (gm_message_id m)) (GasCredit c' (gm_message_id m) refund payment) ->
    call_segment cc (Some o)
      [Call c m d p; GasCredit c' (gm_message_id m) refund payment].

Definition calls_paired (calls : list ParserObj) (paid : gmap MessageMatchingKey ParserObj)
    (segs : list (list Event)) : Prop :=
  length segs = length calls /\
  forall i cc, calls !! i = Some cc ->
    exists seg, segs !! i = Some seg /\ call_segment cc (payment_for paid calls i) seg.

(** The logs of the token service, each under the message id of the call at
    its place. *)
Definition its_paired (calls logs : list ParserObj) (its : list Event) : Prop :=
  length its = length logs /\
  forall i o, logs !! i = Some o ->
    exists cc id e, calls !! i = Some cc /\ obj_message_id cc = Ok (Some id) /\
      its !! i = Some e /\ R o (Some id) e /\ ev_its_id e = Some id.
End Segments.

Lemma payment_for_S paid cc calls i k :
  call_key cc = Some k ->
  payment_for paid (cc :: calls) (S i) = payment_for (delete k paid) calls i.
Proof.
  intros Hk. unfold payment_for. cbn [lookup list_lookup take map]. rewrite Hk.
  destruct (calls !! i ≫= call_key) as [k'|]; [|done]. cbn [mbind option_bind].
  destruct (decide (k' = k)) as [->|Hne].
  - rewrite decide_True by (by left). rewrite lookup_delete_eq. by case_decide.
  - rewrite lookup_delete_ne by done.
    case_decide as H1; case_decide as H2; [done| |by destruct H1; right|done].
    apply elem_of_cons in H1 as [[= H1]|H1]; done.
Qed.

Lemma call_events_cases evs m cc evs' m' :
  call_events now_rfc3339 (evs, m) cc = Ok (evs', m') ->
  exists k e, call_key cc = Some k /\ obj_event now_rfc3339 cc None = Ok e /\ m' = delete k m /\
    match m !! k with
    | None => evs' = evs ++ [e]
    | Some o => exists id e2, obj_message_id cc = Ok (Some id) /\
        obj_event now_rfc3339 o (Some id) = Ok e2 /\ evs' = evs ++ [e; e2]
    end.
Proof.
  unfold call_events, call_key. intros H. apply res_bind_Ok in H as (k & -> & H).
  apply res_bind_Ok in H as (e & He & H). exists k, e. split; [done|]. split; [done|].
  destruct (m !! k) as [o|] eqn:Eo; res_inv; simplify_eq.
  - split; [done|]. do 2 eexists. rewrite <- app_assoc. by split_and!.
  - split; [|done]. by rewrite delete_id.
Qed.

Notation raw := (fun o id e => obj_event now_rfc3339 o id = Ok e).

Lemma call_events_paired calls : forall evs m evs' m',
  Forall (fun o => kind_of o = KCall) calls ->
  map_Forall (fun _ o => kind_of o = KCredit) m ->
  res_foldM (call_events now_rfc3339) calls (evs, m) = Ok (evs', m') ->
  exists segs, evs' = evs ++ concat segs /\ calls_paired raw calls m segs.
Proof.
  induction calls as [|cc calls IH]; intros evs m evs' m' Hc Hm H; cbn [res_foldM] in H.
  { injection H as <- _. exists []. rewrite app_nil_r. by split_and!. }
  apply Forall_cons in Hc as [Hcc Hc]. apply res_bind_Ok in H as ([evs1 m1] & H1 & H).
  destruct (call_events_cases _ _ _ _ _ H1) as (k & e & Hk & He & -> & Hcase).
  destruct (IH _ _ _ _ Hc (map_Forall_delete _ _ _ Hm) H) as (segs & -> & Hlen & Hsegs).
  destruct (call_event_shape _ _ _ Hcc He) as (c & gm & d & p & -> & Hid).
  assert (Hseg : exists seg, evs1 = evs ++ seg /\ call_segment raw cc (m !! k) seg).
  { destruct (m !! k) as [o|] eqn:Eo; [|eexists; split; [done|by constructor]].
    destruct Hcase as (id & e2 & Hid2 & He2 & ->). rewrite Hid in Hid2. injection Hid2 as <-.
    destruct (credit_event_shape _ _ _ _ (Hm _ _ Eo) He2) as (c' & r & pay & ->).
    eexists. split; [done|by constructor]. }
  destruct Hseg as (seg & -> & Hseg). exists (seg :: segs). split; [by rewrite <- app_assoc|].
  split; [by cbn; rewrite Hlen|]. intros [|i] cc' Hi.
  - injection Hi as <-. exists seg. split; [done|]. unfold payment_for.
    cbn [lookup list_lookup mbind option_bind take map]. rewrite Hk. cbn [mbind option_bind].
    by rewrite decide_False by (by apply not_elem_of_nil).
  - destruct (Hsegs i cc' Hi) as (seg' & Hs & Hseg'). exists seg'. split; [done|].
    by rewrite (payment_for_S _ _ _ _ _ Hk).
Qed.

Lemma its_events_paired calls its : forall i evs,
  Forall (fun o => kind_of o = KIts) its -> its_events now_rfc3339 calls i its = Ok evs ->
  its_paired raw (drop i calls) its evs.
Proof.
  induction its as [|o its IH]; intros i evs Ho H; [by injection H as <-|].
  apply Forall_cons in Ho as [Ho Hits].
  apply its_events_cons_Ok in H as (c & id & e & es & Ec & Hid & He & Hes & ->).
  destruct (its_event_shape _ _ _ _ Ho He) as (id' & -> & Hev & _).
  destruct (IH _ _ Hits Hes) as [Hlen Hl]. split; [by cbn; rewrite Hlen|]. intros [|j] o' Hj.
  - injection Hj as <-. exists c, id', e. rewrite lookup_drop, Nat.add_0_r. by split_and!.
  - destruct (Hl j o' Hj) as (cc & id & e' & Hcc & H). exists cc, id, e'.
    rewrite lookup_drop in Hcc |- *. by rewrite Nat.add_succ_r.
Qed.

(** *** Conversion *)

Lemma Forall2_concat_inv {A B} (Q : A -> B -> Prop) segs l :
  Forall2 Q (concat segs) l -> exists segs', l = concat segs' /\ Forall2 (Forall2 Q) segs segs'.
Proof.
  revert l. induction segs as [|seg segs IH]; intros l H; cbn [concat] in H.
  { apply Forall2_nil_inv_l in H as ->. by exists []. }
  apply Forall2_app_inv_l in H as (l1 & l2 & H1 & H2 & ->).
  destruct (IH l2 H2) as (segs' & -> & Hs). exists (l1 :: segs'). split; [done|by constructor].
Qed.

Section Convert.
Context (gas : Z * Z * Z).

Notation converted := (fun e e' => convert_event gas.1.1 gas.1.2 gas.2 e = Ok e').

Lemma segment_converted cc o seg seg' :
  call_segment raw cc o seg -> Forall2 converted seg seg' -> call_segment (gives gas) cc o seg'.
Proof.
  intros Hseg H. destruct Hseg as [c m d p Hc|o c m d p c' refund payment Hc Ho].
  - apply Forall2_cons_inv_l in H as (e & l & He & Hl & ->). apply Forall2_nil_inv_l in Hl as ->.
    injection He as <-. constructor. by exists (Call c m d p).
  - apply Forall2_cons_inv_l in H as (e & l & He & Hl & ->). injection He as <-.
    apply Forall2_cons_inv_l in Hl as (e2 & l2 & He2 & Hl2 & ->).
    apply Forall2_nil_inv_l in Hl2 as ->.
    destruct (convert_same_shape _ _ _ _ _ He2) as (_ & _ & (pay & ->)).
    constructor; [by exists (Call c m d p)|by eexists].
Qed.

Lemma calls_converted calls paid segs segs' :
  calls_paired raw calls paid segs -> Forall2 (Forall2 converted) segs segs' ->
  calls_paired (gives gas) calls paid segs'.
Proof.
  intros [Hlen Hs] H. split; [by rewrite <- (Forall2_length _ _ _ H)|]. intros i cc Hi.
  destruct (Hs i cc Hi) as (seg & Hseg & Hcs).
  destruct (Forall2_lookup_l _ _ _ _ _ H Hseg) as (seg' & Hseg' & Hconv).
  exists seg'. split; [done|]. by eapply segment_converted.
Qed.

Lemma its_converted calls logs its its' :
  its_paired raw calls logs its -> Forall2 converted its its' -> its_paired (gives gas) calls logs its'.
Proof.
  intros [Hlen Hs] H. split; [by rewrite <- (Forall2_length _ _ _ H)|]. intros i o Hi.
  destruct (Hs i o Hi) as (cc & id & e & Hcc & Hid & He & Ho & Hev).
  destruct (Forall2_lookup_l _ _ _ _ _ H He) as (e' & He' & Hconv).
  exists cc, id, e'. split_and!; [done..| |]; [by exists e|].
  by destruct (convert_same_shape _ _ _ _ _ Hconv) as [-> _].
Qed.

Lemma others_converted objs evs others :
  Forall (fun o => kind_of o = KOther \/ kind_of o = KApproved) objs ->
  Forall2 (fun o e => obj_event now_rfc3339 o None = Ok e) objs evs -> Forall2 converted evs others ->
  Forall2 (fun o e => gives gas o None e /\ ev_call e = None /\ ev_its_id e = None) objs others.
Proof.
  intros Hk H. revert others. induction H as [|o e objs evs He _ IH]; intros others Ho.
  { apply Forall2_nil_inv_l in Ho as ->. constructor. }
  apply Forall_cons in Hk as [Hko Hk].
  apply Forall2_cons_inv_l in Ho as (e' & l & Hc & Hl & ->). constructor; [|by apply IH].
  destruct (other_event_shape _ _ _ _ Hko He) as [H1 H2].
  destruct (convert_same_shape _ _ _ _ _ Hc) as (E1 & E2 & _).
  split; [by exists e|]. split; [by apply E2|congruence].
Qed.
End Convert.

(** The events of a trace, part by part. *)
Record pairing (gas : Z * Z * Z) (report : list ParserObj) (turns : list Parsed)
    (segs : list (list Event)) (its others : list Event) : Prop := {
  pairing_calls :
    calls_paired (gives gas) (turns ≫= ps_call_contract) (payments turns) segs;
  pairing_its :
    its_paired (gives gas) (turns ≫= ps_call_contract) (turns ≫= ps_its) its;
  pairing_others :
    Forall2 (fun o e => gives gas o None e /\ ev_call e = None /\ ev_its_id e = None)
      (report ++ (turns ≫= ps_parsers)) others;
}.

Lemma parse_trace_pairing self trace events :
  parse_trace now_rfc3339 self trace = Ok events ->
  exists total refund approvals report turns segs its others,
    gas_used self trace = Ok (total, refund) /\
    Forall2 (fun tx t => turn self tx = Ok t) (transactions trace) turns /\
    reports self trace report /\
    events = concat segs ++ its ++ others /\
    pairing (total, refund, approvals) report turns segs its others.
Proof.
  intros H. apply parse_trace_Ok in H as (t & r & s & evs & Hg & Hs & Hevs & H).
  destruct (create_parsers_turns _ _ _ Hs) as (report & turns & Ht & Hr & E1 & E2 & E3 & E4).
  apply create_parsers_ok in Hs as [H1 H2 H3 H4 _].
  apply raw_events_Ok in Hevs as (calls & m & its & others & Hc & Hi & Ho & ->).
  destruct (call_events_paired _ _ _ _ _ (Forall_impl _ _ _ H2 (fun _ H => proj2 H))
    (map_Forall_impl _ _ _ H3 (fun _ _ H => proj2 H)) Hc) as (segs & -> & Hsegs).
  pose proof (its_events_paired _ _ _ _ (Forall_impl _ _ _ H4 (fun _ H => proj2 H)) Hi) as Hits.
  rewrite drop_0 in Hits.
  apply Forall2_app_inv_l in H as (l1 & l23 & Hl1 & Hl23 & ->).
  apply Forall2_app_inv_l in Hl23 as (l2 & l3 & Hl2 & Hl3 & ->).
  cbn [app] in Hl1. apply Forall2_concat_inv in Hl1 as (segs' & -> & Hsegs').
  rewrite E1, E4 in Hsegs. rewrite E1, E2 in Hits. rewrite E3 in Ho, H1.
  exists t, r, (ps_message_approved_count s), report, turns, segs', l2, l3.
  split_and!; try done. split.
  - by eapply calls_converted.
  - by eapply its_converted.
  - eapply others_converted; [|exact Ho|exact Hl3]. exact (Forall_impl _ _ _ H1 (fun _ H => proj2 H)).
Qed.

(** C3. The events of a trace are, in this order: for every call, in the order
    of the transactions, its event and, exactly when the trace has a gas
    payment under its key and no earlier call has that key, the credit of the
    last such payment under the call's message id; for every log of the token
    service, the i-th one under the message id of the i-th call, which exists;
    then, if the trace is accepted as one of a message that cannot be executed,
    the report of it, and the events of all other parsers, in the order of the
    transactions. *)
Theorem events_paired self trace events :
  parse_trace now_rfc3339 self trace = Ok events ->
  exists total refund approvals report turns segs its others,
    let gas := (total, refund, approvals) in
    let calls := turns ≫= ps_call_contract in
    gas_used self trace = Ok (total, refund) /\
    Forall2 (fun tx t => turn self tx = Ok t) (transactions trace) turns /\
    events = concat segs ++ its ++ others /\
    calls_paired (gives gas) calls (payments turns) segs /\
    its_paired (gives gas) calls (turns ≫= ps_its) its /\
    reports self trace report /\
    Forall2 (fun o e => gives gas o None e /\ ev_call e = None /\ ev_its_id e = None)
      (report ++ (turns ≫= ps_parsers)) others.
Proof.
  intros H. destruct (parse_trace_pairing _ _ _ H)
    as (t & r & n & report & turns & segs & its & others & Hg & Ht & Hr & He & [H1 H2 H3]).
  by exists t, r, n, report, turns, segs, its, others.
Qed.

(** ** Payments are credited *)

(** The transaction is a gas payment under the key, or a call with it. *)
Definition pays (self : TraceParser) (tx : Transaction) (k : MessageMatchingKey) : Prop :=
  exists t o, turn self tx = Ok t /\ ps_gas_credit_map t !! k = Some o.

Definition calls_with (self : TraceParser) (tx : Transaction) (k : MessageMatchingKey) : Prop :=
  exists t cc, turn self tx = Ok t /\ cc ∈ ps_call_contract t /\ call_key cc = Some k.

Lemma turns_at self txs tx turns :
  Forall2 (fun tx t => turn self tx = Ok t) txs turns -> tx ∈ txs ->
  exists t, t ∈ turns /\ turn self tx = Ok t.
Proof.
  intros H Hin. apply list_elem_of_lookup_1 in Hin as (i & Hi).
  destruct (Forall2_lookup_l _ _ _ _ _ H Hi) as (t & Hti & Ht). exists t.
  split; [by eapply list_elem_of_lookup_2|done].
Qed.

Lemma payments_last turns1 t turns2 k o :
  ps_gas_credit_map t !! k = Some o ->
  Forall (fun u => ps_gas_credit_map u !! k = None) turns2 ->
  payments (turns1 ++ t :: turns2) !! k = Some o.
Proof.
  intros Ho. induction turns2 as [|u turns2 IH] using rev_ind; intros H.
  - rewrite payments_snoc. by apply lookup_union_Some_l.
  - apply Forall_app in H as [H Hu]. apply Forall_cons in Hu as [Hu _].
    rewrite app_comm_cons, app_assoc, payments_snoc, lookup_union_r by exact Hu. by apply IH.
Qed.

(** The first call with a key. *)
Lemma first_call (calls : list ParserObj) k cc :
  cc ∈ calls -> call_key cc = Some k ->
  exists i cc', calls !! i = Some cc' /\ call_key cc' = Some k /\
    Some k ∉ map call_key (take i calls).
Proof.
  induction calls as [|c calls IH]; [by intros ?%elem_of_nil|]. intros Hin Hk.
  destruct (decide (call_key c = Some k)) as [Hc|Hc].
  - exists 0%nat, c. split; [done|]. split; [done|]. apply not_elem_of_nil.
  - apply elem_of_cons in Hin as [->|Hin]; [done|]. destruct (IH Hin Hk) as (i & cc' & Hi & Hk' & Hn).
    exists (S i), cc'. split; [done|]. split; [done|]. cbn [take map]. rewrite elem_of_cons. by intros [?|?].
Qed.

Lemma segment_in {R} calls paid segs i cc o :
  calls_paired R calls paid segs -> calls !! i = Some cc -> payment_for paid calls i = Some o ->
  exists c m d p c' refund payment,
    Call c m d p ∈ concat segs /\ GasCredit c' (gm_message_id m) refund payment ∈ concat segs /\
    R cc None (Call c m d p) /\
    R o (Some (gm_message_id m)) (GasCredit c' (gm_message_id m) refund payment).
Proof.
  intros [_ Hs] Hi Ho. destruct (Hs i cc Hi) as (seg & Hseg & Hcs). rewrite Ho in Hcs.
  inversion Hcs as [|o' c m d p c' refund payment Hc Hcr]; subst.
  assert (Hsub : forall e, e ∈ [Call c m d p; GasCredit c' (gm_message_id m) refund payment] ->
    e ∈ concat segs).
  { intros e He. apply list_elem_of_In, in_concat. eexists. split; [|by apply list_elem_of_In].
    apply list_elem_of_In. by eapply list_elem_of_lookup_2. }
  exists c, m, d, p, c', refund, payment. split_and!; [apply Hsub; by left|apply Hsub; right; by left|done|done].
Qed.

(** A turn keeps parsers of its transaction only. *)
Lemma turn_added self tx t : turn self tx = Ok t -> added self tx no_parsers t.
Proof. apply create_parsers_tx_added. Qed.

Lemma turn_credit self tx t k o :
  turn self tx = Ok t -> ps_gas_credit_map t !! k = Some o -> obj_tx o = Some tx /\ kind_of o = KCredit.
Proof.
  intros Ht%turn_added Hk. destruct Ht as [|x [Hx _] ?|x [Hx _] ?|x [Hx _] ?|k' x [Hx _] ?|x [Hx _] ?];
    cbn in Hk; try (by rewrite lookup_empty in Hk).
  apply lookup_insert_Some in Hk as [[_ <-]|[_ Hk]]; [done|by rewrite lookup_empty in Hk].
Qed.

Lemma credit_event_id gas o id c i refund payment tx :
  kind_of o = KCredit -> obj_tx o = Some tx -> gives gas o id (GasCredit c i refund payment) ->
  event_id c = hash tx +:+ "-gas".
Proof.
  intros Hk Htx (e & He & Hc). apply convert_event_head in Hc.
  destruct o; try done; cbn [obj_event obj_tx] in *; autounfold with parser_events in He;
    res_inv; subst e; injection Htx as <-; by injection Hc as ->.
Qed.

(** The transaction is one of a gas payment: its log is accepted by the parser
    of native or of jetton payments, and not by that of added jettons, which
    comes before the latter. *)
Definition pays_accepted (self : TraceParser) (tx : Transaction) : Prop :=
  accepts (PP := ParserNativeGasPaid.parser now_rfc3339)
    (ParserNativeGasPaid.new tx (gas_service_address self)) \/
  (accepts (PP := ParserJettonGasPaid.parser now_rfc3339)
     (ParserJettonGasPaid.new tx (gas_service_address self)) /\
   ~ accepts (PP := ParserJettonGasAdded.parser now_rfc3339)
     (ParserJettonGasAdded.new tx (gas_service_address self))).

Lemma accepted_pays self tx t : pays_accepted self tx -> turn self tx = Ok t -> exists k, pays self tx k.
Proof.
  intros Ha Ht.
  assert (Hk : exists k o, t = insert_credit k o no_parsers).
  { destruct Ha as [Ha|[Ha Hn]]; [by eapply native_paid_taken|by eapply jetton_paid_taken]. }
  destruct Hk as (k & o & ->). exists k, (insert_credit k o no_parsers), o. split; [done|].
  apply lookup_insert_eq.
Qed.

(** C33. Gas payments are credited: a transaction of a trace that is accepted as
    a gas payment pays under some key, and when no later transaction pays under
    that key and some call of the trace, before or after it, has the key, then
    the events have the credit of that transaction, under the message id of a
    call among the events. *)
Theorem payments_credited self trace events l1 tx l2 :
  parse_trace now_rfc3339 self trace = Ok events -> transactions trace = l1 ++ tx :: l2 ->
  pays_accepted self tx ->
  exists k, pays self tx k /\
    (Forall (fun tx' => ~ pays self tx' k) l2 ->
     (exists tx', tx' ∈ transactions trace /\ calls_with self tx' k) ->
     exists c id refund payment, GasCredit c id refund payment ∈ events /\
       event_id c = hash tx +:+ "-gas" /\
       exists c' m d p, Call c' m d p ∈ events /\ gm_message_id m = id).
Proof.
  intros H Htxs Ha. destruct (parse_trace_pairing _ _ _ H)
    as (total & r & n & report & turns & segs & its & others & _ & Hts & _ & -> & [Hp _ _]).
  destruct (turns_at _ _ tx _ Hts) as (t & _ & Ht); [rewrite Htxs; set_solver|].
  destruct (accepted_pays _ _ _ Ha Ht) as (k & t' & o & Ht' & Ho). rewrite Ht in Ht'.
  injection Ht' as <-. exists k. split; [by exists t, o|].
  intros Hl2 (txc & Hin & tc & cc & Htc & Hcc & Hk).
  assert (Hpaid : payments turns !! k = Some o).
  { rewrite Htxs in Hts. apply Forall2_app_inv_l in Hts as (ts1 & ts2 & _ & Hts & ->).
    apply Forall2_cons_inv_l in Hts as (t' & ts3 & Ht' & Hts & ->).
    rewrite Ht in Ht'. injection Ht' as <-. apply payments_last; [done|]. apply Forall_lookup.
    intros i u Hu. destruct (Forall2_lookup_r _ _ _ _ _ Hts Hu) as (tx' & Htx' & Htu).
    apply eq_None_not_Some. intros [o' Ho']. rewrite Forall_lookup in Hl2.
    apply (Hl2 _ _ Htx'). by exists u, o'. }
  assert (Hcalls : cc ∈ turns ≫= ps_call_contract).
  { destruct (turns_at _ _ _ _ Hts Hin) as (t' & Hin' & Ht').
    rewrite Htc in Ht'. injection Ht' as <-. apply list_elem_of_bind. by exists tc. }
  destruct (first_call _ _ _ Hcalls Hk) as (i & cc' & Hi & Hk' & Hn).
  destruct (segment_in _ _ _ i cc' o Hp Hi) as (c & m & d & p & c' & refund & payment & H1 & H2 & _ & H3).
  { unfold payment_for. rewrite Hi. cbn [mbind option_bind]. rewrite Hk'. cbn [mbind option_bind].
    by rewrite decide_False. }
  destruct (turn_credit _ _ _ _ _ Ht Ho) as [Htx Hkind].
  exists c', (gm_message_id m), refund, payment. split; [apply elem_of_app; by left|].
  split; [by eapply credit_event_id|]. exists c, m, d, p. split; [apply elem_of_app; by left|done].
Qed.

(** ** Logs of the token service have their events *)

Lemma turn_call self tx t cc : turn self tx = Ok t -> cc ∈ ps_call_contract t -> kind_of cc = KCall.
Proof.
  intros Ht%turn_added Hcc. destruct Ht; cbn in Hcc; try by apply elem_of_nil in Hcc.
  by apply list_elem_of_singleton in Hcc as ->.
Qed.

Lemma its_event_id gas o id e tx :
  kind_of o = KIts -> obj_tx o = Some tx -> gives gas o id e ->
  exists suffix, event_id_of e = hash tx +:+ suffix.
Proof.
  intros Hk Htx (raw & He & Hc). apply convert_event_head in Hc. injection Hc as _ ->.
  destruct o; try done; cbn [obj_event obj_tx] in *; autounfold with parser_events in He;
    res_inv; subst raw; injection Htx as <-; by eexists.
Qed.

(** Every call has its event, with its message id. *)
Lemma paired_call gas calls paid segs cc id :
  calls_paired (gives gas) calls paid segs -> cc ∈ calls -> kind_of cc = KCall ->
  obj_message_id cc = Ok (Some id) ->
  exists c m d p, Call c m d p ∈ concat segs /\ gm_message_id m = id.
Proof.
  intros [_ Hs] Hcc Hk Hid. apply list_elem_of_lookup_1 in Hcc as (i & Hi).
  destruct (Hs i cc Hi) as (seg & Hseg & Hcs).
  assert (Hcall : exists c m d p, Call c m d p ∈ seg /\ gives gas cc None (Call c m d p)).
  { destruct Hcs as [c m d p Hc|o c m d p c' r pay Hc _]; exists c, m, d, p; (split; [by left|done]). }
  destruct Hcall as (c & m & d & p & Hin & (raw & He & Hc)). exists c, m, d, p. split.
  - apply list_elem_of_In, in_concat. exists seg. split; apply list_elem_of_In; [|done].
    by eapply list_elem_of_lookup_2.
  - destruct (call_event_shape _ _ _ Hk He) as (c1 & m1 & d1 & p1 & -> & Hid1).
    injection Hc as <- <- <- <-. congruence.
Qed.

(** C34. Completeness for the token service: in the events of a trace, every
    transaction that one of its four parsers accepts has its event, with the
    hash of the transaction in its id, under the message id of a call among the
    events, when the service has an account of its own. *)
Theorem its_logs_complete self trace events tx :
  parse_trace now_rfc3339 self trace = Ok events -> tx ∈ transactions trace ->
  its_address self <> gateway_address self -> its_address self <> gas_service_address self ->
  its_accepts now_rfc3339 self tx ->
  exists e id suffix, e ∈ events /\ ev_its_id e = Some id /\ event_id_of e = hash tx +:+ suffix /\
    exists c m d p, Call c m d p ∈ events /\ gm_message_id m = id.
Proof.
  intros H Htx Hgw Hgs Ha. destruct (parse_trace_pairing _ _ _ H)
    as (total & r & n & report & turns & segs & its & others & _ & Hts & _ & -> & [Hp [_ Hi] _]).
  destruct (turns_at _ _ _ _ Hts Htx) as (t & Hin & Ht).
  destruct (its_taken _ _ _ _ _ Hgw Hgs Ha Ht) as (o & ->).
  assert (Ho : obj_tx o = Some tx /\ kind_of o = KIts).
  { apply turn_added in Ht. inversion Ht as [| | | | |o' [? _] ?]; by simplify_eq. }
  assert (Hoi : o ∈ turns ≫= ps_its).
  { apply list_elem_of_bind. exists (push_its o no_parsers). split; [by left|done]. }
  apply list_elem_of_lookup_1 in Hoi as (i & Hoi).
  destruct (Hi i o Hoi) as (cc & id & e & Hcc & Hid & He & Hg & Hev).
  destruct (its_event_id _ _ _ _ _ (proj2 Ho) (proj1 Ho) Hg) as (suffix & Hsuf).
  apply list_elem_of_lookup_2 in Hcc. exists e, id, suffix.
  split; [apply elem_of_app; right; apply elem_of_app; left; by eapply list_elem_of_lookup_2|].
  split; [done|]. split; [done|].
  assert (Hk : kind_of cc = KCall).
  { apply list_elem_of_bind in Hcc as (u & Hccu & Hu). apply list_elem_of_lookup_1 in Hu as (j & Hj).
    destruct (Forall2_lookup_r _ _ _ _ _ Hts Hj) as (txu & _ & Hturn). by eapply turn_call. }
  destruct (paired_call _ _ _ _ _ _ Hp Hcc Hk Hid) as (c & m & d & p & Hm & Hmid).
  exists c, m, d, p. split; [apply elem_of_app; by left|done].
Qed.

(** ** What an event names *)

(** The report that a message cannot be executed names its trace; every other
    event a transaction of it. *)
Definition event_names (self : TraceParser) (trace : Trace) (e : Event) : Prop :=
  match e with
  | CannotExecuteMessageV2 c _ _ _ details =>
      event_id c = "cannot-execute-task-v2-" +:+ z_to_string (end_lt trace) /\
      details = trace_id trace
  | _ => event_from self (transactions trace) e
  end.

Lemma turn_parser self tx t o : turn self tx = Ok t -> o ∈ ps_parsers t -> obj_tx o = Some tx.
Proof.
  intros Ht%turn_added Ho. destruct Ht as [|x [Hx _] ?|x [Hx _] ?|x [Hx _] ?|k' x [Hx _] ?|x [Hx _] ?];
    cbn in Ho; try by apply elem_of_nil in Ho.
  all: by apply list_elem_of_singleton in Ho as ->.
Qed.

Lemma report_event gas o id c m sc reason details :
  gives gas o id (CannotExecuteMessageV2 c m sc reason details) ->
  exists p, o = OExecuteInsufficientGas p /\
    event_id c = "cannot-execute-task-v2-" +:+ z_to_string (end_lt (ParserExecuteInsufficientGas.trace p)) /\
    details = trace_id (ParserExecuteInsufficientGas.trace p).
Proof.
  intros (raw & He & Hc). pose proof (convert_event_head _ _ _ _ _ Hc) as Hh.
  destruct o as [p|p|p|p|p|p|p|p|p|p|p|p|p|p]; cbn [obj_event] in He;
    autounfold with parser_events in He; res_inv; subst raw;
    try discriminate Hh; try discriminate Hc.
  injection Hc as <- <- <- <- <-. by exists p.
Qed.

Lemma parse_trace_event_names self trace events e :
  parse_trace now_rfc3339 self trace = Ok events -> e ∈ events -> event_names self trace e.
Proof.
  intros H He. pose proof (parse_trace_event_from _ _ _ _ _ H He) as Hfrom.
  destruct e as [| | | | |c m sc reason details| | | | |]; try exact Hfrom. clear Hfrom.
  destruct (parse_trace_pairing _ _ _ H)
    as (total & r & n & report & turns & segs & its & others & _ & Hts & Hr & -> & [[Hl Hc] [Hli Hi] Ho]).
  apply elem_of_app in He as [He|He]; [exfalso|apply elem_of_app in He as [He|He]; [exfalso|]].
  - apply list_elem_of_In, in_concat in He as (seg & Hseg%list_elem_of_In & He%list_elem_of_In).
    apply list_elem_of_lookup_1 in Hseg as (i & Hseg).
    destruct (lookup_lt_is_Some_2 (turns ≫= ps_call_contract) i) as [cc Hcc].
    { rewrite <- Hl. by eapply lookup_lt_Some. }
    destruct (Hc i cc Hcc) as (seg' & Hseg' & Hcs). simplify_eq.
    destruct Hcs; set_solver.
  - apply list_elem_of_lookup_1 in He as (i & He).
    destruct (lookup_lt_is_Some_2 (turns ≫= ps_its) i) as [o Hoi].
    { rewrite <- Hli. by eapply lookup_lt_Some. }
    destruct (Hi i o Hoi) as (cc & id & e' & _ & _ & He' & _ & Hev). by simplify_eq.
  - destruct (Forall2_source _ _ _ _ Ho He) as (o & Hin & Hg & _).
    destruct (report_event _ _ _ _ _ _ _ _ Hg) as (p & -> & Hev).
    apply elem_of_app in Hin as [Hin|Hin].
    + destruct Hr as [(_ & o & -> & p' & -> & Hp)|[_ ->]]; [|by apply elem_of_nil in Hin].
      apply list_elem_of_singleton in Hin as [= <-]. by rewrite Hp in Hev.
    + apply list_elem_of_bind in Hin as (t & Hin & Ht). apply list_elem_of_lookup_1 in Ht as (j & Hj).
      destruct (Forall2_lookup_r _ _ _ _ _ Hts Hj) as (tx & _ & Hturn).
      by pose proof (turn_parser _ _ _ _ Hturn Hin).
Qed.

(** ** Payments are in the native token *)

(** Every event before conversion is of a parser of the trace. *)
Lemma raw_events_source s evs e :
  raw_events now_rfc3339 s = Ok evs -> e ∈ evs ->
  exists o id, o ∈ objs s /\ obj_event now_rfc3339 o id = Ok e.
Proof.
  intros H He. apply raw_events_Ok in H as (calls & m & its & others & Hc & Hi & Ho & ->).
  unfold objs. apply elem_of_app in He as [He|He]; [|apply elem_of_app in He as [He|He]].
  - revert e He. apply Forall_forall.
    eapply (res_foldM_inv_in (fun '(evs, m) => m ⊆ ps_gas_credit_map s /\ Forall (fun e =>
      exists o id, o ∈ objs s /\ obj_event now_rfc3339 o id = Ok e) evs)) in Hc; [by destruct Hc| |done].
    intros [evs1 m1] cc [evs2 m2] Hcc [Hm1 Hevs1] Hcall.
    destruct (call_events_cases _ _ _ _ _ Hcall) as (k & e & _ & Hce & -> & Hcase).
    split; [etrans; [apply delete_subseteq|done]|].
    assert (Hco : exists o id, o ∈ objs s /\ obj_event now_rfc3339 o id = Ok e).
    { exists cc, None. split; [|done]. apply elem_of_app. by left. }
    destruct (m1 !! k) as [o|] eqn:Eo.
    + destruct Hcase as (id & e2 & _ & He2 & ->). apply Forall_app_2; [done|].
      constructor; [done|]. constructor; [|done]. exists o, (Some id). split; [|done].
      apply elem_of_app. right. apply elem_of_app. left. apply list_elem_of_fmap.
      exists (k, o). split; [done|]. apply elem_of_map_to_list. by eapply lookup_weaken.
    + rewrite Hcase. apply Forall_app_2; [done|by constructor].
  - clear Hc Ho. revert Hi He. generalize 0%nat. revert its.
    enough (Hen : forall l, l ⊆ ps_its s -> forall its i, its_events now_rfc3339 (ps_call_contract s) i l = Ok its ->
      e ∈ its -> exists o id, o ∈ l /\ obj_event now_rfc3339 o id = Ok e).
    { intros its i Hi He. destruct (Hen _ (reflexivity _) _ _ Hi He) as (o & id & Hoi & Hoe).
      exists o, id. split; [|done]. set_solver. }
    induction l as [|o l IH]; intros Hsub its i Hi He; [injection Hi as <-; by apply elem_of_nil in He|].
    apply its_events_cons_Ok in Hi as (c & id & e1 & es & _ & _ & He1 & Hes & ->).
    apply elem_of_cons in He as [->|He]; [exists o, id; split; [by left|done]|].
    destruct (IH ltac:(set_solver) _ _ Hes He) as (o' & id' & Ho' & He'). exists o', id'.
    split; [by right|done].
  - destruct (Forall2_source _ _ _ _ Ho He) as (o & Hin & Hoe). exists o, None. split; [|done].
    set_solver.
Qed.

(** C25. In the events of a trace every gas payment is in the native token, and
    it is the one a parser of the trace read: with the same event id, message
    id and refund address, and, when it was native, the same amount; when it was
    in a jetton, the amount is the converted one at the prices of that
    jetton. *)
Theorem credits_are_native self trace events :
  parse_trace now_rfc3339 self trace = Ok events ->
  forall c id refund payment, GasCredit c id refund payment ∈ events ->
  token_id payment = None /\
  exists s o msg_id paid,
    create_parsers now_rfc3339 self trace = Ok s /\ o ∈ objs s /\
    obj_event now_rfc3339 o msg_id = Ok (GasCredit c id refund paid) /\
    match token_id paid with
    | None => amount payment = amount paid
    | Some minter => exists value native,
        BigUint_from_str (amount paid) = inr value /\
        convert_jetton_to_native minter value = Ok native /\
        amount payment = BigUint_to_string native
    end.
Proof.
  intros H c id refund payment Hin. apply parse_trace_Ok in H as (t & r & s & evs & _ & Hs & Hevs & H).
  destruct (Forall2_source _ _ _ _ H Hin) as (e & Hraw & He).
  destruct (raw_events_source _ _ _ Hevs Hraw) as (o & msg_id & Ho & Hoe).
  destruct e; cbn [convert_event] in He; try (by injection He as ?; simplify_eq).
  rename payment0 into paid.
  destruct (token_id paid) as [minter|] eqn:Et.
  - apply res_bind_Ok in He as (value & Hv & He). apply map_err_Ok in Hv.
    apply res_bind_Ok in He as (native & Hn & He). apply map_err_Ok in Hn.
    injection He as <- <- <- <-. split; [done|]. exists s, o, msg_id, paid. rewrite Et.
    split_and!; [done..|]. exists value, native. split_and!; [|done..].
    unfold fr in Hv. by destruct (BigUint_from_str (amount paid)); simplify_eq.
  - injection He as <- <- <- <-. split; [done|]. exists s, o, msg_id, paid. by rewrite Et.
Qed.
End Pairing.

(** ** Applications at concrete traces *)

Lemma events_paired_witness :
  exists total refund approvals report turns segs its others,
    let gas := (total, refund, approvals) in
    let calls := turns ≫= ps_call_contract in
    gas_used ex_parser ex_two = Ok (total, refund) /\
    Forall2 (fun tx t => turn "now" ex_parser tx = Ok t) (transactions ex_two) turns /\
    ex_events ex_two = concat segs ++ its ++ others /\
    calls_paired (gives "now" gas) calls (payments turns) segs /\
    its_paired (gives "now" gas) calls (turns ≫= ps_its) its /\
    reports ex_parser ex_two report /\
    Forall2 (fun o e => gives "now" gas o None e /\ ev_call e = None /\ ev_its_id e = None)
      (report ++ (turns ≫= ps_parsers)) others.
Proof. exact (events_paired "now" ex_parser ex_two (ex_events ex_two) ex_two_ok). Defined.

(** A jetton added to the gas of a message: 500 units, worth two TON each. *)
Definition ex_jetton_body : string :=
  show_cell (TCell (address_bits (ex_address 5) ++ address_bits (ex_address 7) ++ coins_bits 500 ++
    ex_hash_bits 6) [TCell (address_bits (ex_address 8)) []]).

Definition ex_jetton : Trace := ex_trace
  [ex_tx (ex_address 2) "ee" 10 (ex_op OP_TRANSFER_NOTIFICATION) [ex_log ex_jetton_body]].

Example jetton_converted : map snd (default [] (res_ok (ex_summary (transactions ex_jetton)))) = ["1000"].
Proof. by vm_compute. Qed.

Lemma ex_jetton_ok : parse_trace "now" ex_parser ex_jetton = Ok (ex_events ex_jetton).
Proof. vm_compute. reflexivity. Qed.

(** A call and a log of the token service. *)
Definition ex_its_body : string :=
  show_cell (TCell (bits_of_N 32 (Z.to_N OP_TOKEN_METADATA_REGISTERED_LOG) ++
    address_bits (ex_address 7) ++ bits_of_N 8 9) []).

Definition ex_its_tx : Transaction :=
  ex_tx (ex_address 3) "ff" 10 (ex_op OP_REGISTER_TOKEN_METADATA) [ex_log ex_its_body].

Definition ex_its : Trace := ex_trace [ex_its_tx; ex_call "aa"].

Lemma ex_its_ok : parse_trace "now" ex_parser ex_its = Ok (ex_events ex_its).
Proof. vm_compute. reflexivity. Qed.

Lemma credits_are_native_witness :
  Forall (fun e => match e with
                   | GasCredit _ _ _ payment => token_id payment = None
                   | _ => True
                   end) (ex_events ex_jetton).
Proof.
  apply Forall_forall. intros e He. destruct e; try exact I.
  exact (proj1 (credits_are_native "now" ex_parser ex_jetton (ex_events ex_jetton) ex_jetton_ok
    _ _ _ _ He)).
Defined.

Lemma its_logs_complete_witness :
  exists e id suffix, e ∈ ex_events ex_its /\ ev_its_id e = Some id /\
    event_id_of e = "ff" +:+ suffix /\
    exists c m d p, Call c m d p ∈ ex_events ex_its /\ gm_message_id m = id.
Proof.
  refine (its_logs_complete "now" ex_parser ex_its (ex_events ex_its) ex_its_tx ex_its_ok
    _ _ _ _); [by left|by apply (bool_decide_unpack _); vm_compute..|].
  left. eexists. by split.
Defined.

(** The payment comes before the call. *)
Definition ex_early : Trace := ex_trace [ex_paid "bb" 500; ex_call "aa"].

Lemma ex_early_ok : parse_trace "now" ex_parser ex_early = Ok (ex_events ex_early).
Proof. vm_compute. reflexivity. Qed.

Definition ex_key : MessageMatchingKey := {|
  mk_destination_chain := "avalanche"; mk_destination_address := "0x01";
  mk_payload_hash := TonHash_to_bytes (TonHash_from_bytes [byte_of 5]) |}.

(** The keys a turn pays under, and those of its calls. *)
Definition ex_keys (tx : Transaction) : list MessageMatchingKey * list (option MessageMatchingKey) :=
  match turn "now" ex_parser tx with
  | Ok t => (fst <$> map_to_list (ps_gas_credit_map t), map call_key (ps_call_contract t))
  | _ => ([], [])
  end.

Lemma ex_pays tx k : pays "now" ex_parser tx k -> k ∈ fst (ex_keys tx).
Proof.
  intros (t & o & Ht & Ho). unfold ex_keys. rewrite Ht. apply list_elem_of_fmap. exists (k, o).
  split; [done|]. by apply elem_of_map_to_list.
Qed.

Lemma ex_calls tx k : Some k ∈ snd (ex_keys tx) -> calls_with "now" ex_parser tx k.
Proof.
  unfold ex_keys. destruct (turn "now" ex_parser tx) as [t| |] eqn:Et; [|by intros ?%elem_of_nil..].
  intros Hk. apply list_elem_of_fmap in Hk as (cc & Hk & Hcc). by exists t, cc.
Qed.

Lemma ex_paid_keys : ex_keys (ex_paid "bb" 500) = ([ex_key], []).
Proof. by vm_compute. Qed.

Lemma ex_call_keys : ex_keys (ex_call "aa") = ([], [Some ex_key]).
Proof. by vm_compute. Qed.

Lemma payments_credited_witness :
  exists c id refund payment, GasCredit c id refund payment ∈ ex_events ex_early /\
    event_id c = "bb-gas" /\
    exists c' m d p, Call c' m d p ∈ ex_events ex_early /\ gm_message_id m = id.
Proof.
  destruct (payments_credited "now" ex_parser ex_early (ex_events ex_early) [] (ex_paid "bb" 500)
    [ex_call "aa"] ex_early_ok eq_refl) as (k & Hk & Hcred); [left; eexists; by split|].
  apply ex_pays in Hk. rewrite ex_paid_keys in Hk. apply list_elem_of_singleton in Hk as ->.
  apply Hcred.
  - apply Forall_cons. split; [|done]. intros Hk%ex_pays. rewrite ex_call_keys in Hk.
    by apply elem_of_nil in Hk.
  - exists (ex_call "aa"). split; [right; by left|]. apply ex_calls. rewrite ex_call_keys. by left.
Defined.
