(* ===== verification/Forged.v ===== *)
(** * A report from foreign transactions: [parser_execute_insufficient_gas.rs]

    The second test of [ParserExecuteInsufficientGas] looks at no account, so a
    trace that touches none of the relayer's contracts passes it.  What the
    relayer then reports is up to the sender of the trace. *)

From Stdlib Require Import ZArith Lia Strings.Byte Strings.Ascii.
From stdpp Require Import base strings pretty countable gmap list.
From S2P Require Import Prelude RustStd Foreign Types GmpTypes CellCodec Messages Gas Parsers.
From S2P Require Import TraceParser TraceProofs EventsComplete Instances.

Section Forged.
Context {BU : BigUintLib} {TAL : TonAddressLib} {CL : CellLib} {CO : CodecLib} {JL : JsonLib}.
Context {PL : PriceLib}.
Context (now_rfc3339 : string).

Definition foreign (self : TraceParser) (tx : Transaction) : Prop :=
  account tx <> gateway_address self /\ account tx <> gas_service_address self /\
  account tx <> its_address self.

(** Five transactions, the fourth with an incoming message, the fifth with one
    of the op code of an execution and a failed action. *)
Definition looks_failed (txs : list Transaction) : Prop :=
  length txs = 5%nat /\
  (exists tx3, txs !! 3%nat = Some tx3 /\ is_Some (in_msg tx3)) /\
  exists tx4 im4 act, txs !! 4%nat = Some tx4 /\ in_msg tx4 = Some im4 /\
    opcode im4 = Some OP_NULLIFIED_SUCCESSFULLY /\
    action (description tx4) = Some act /\ result_code act = 37.

Lemma looks_failed_action txs :
  looks_failed txs -> ParserExecuteInsufficientGas.insufficient_gas_action txs = true.
Proof.
  intros (Hlen & (tx3 & H3 & Hi3) & tx4 & im4 & act & H4 & Hi4 & Hop & Hact & Hcode).
  unfold ParserExecuteInsufficientGas.insufficient_gas_action, opt_eqb.
  rewrite H3, H4, Hi4, Hact, Hcode, Hop. by rewrite !bool_decide_eq_true_2.
Qed.

Lemma gas_used_total self trace : exists total refund, gas_used self trace = Ok (total, refund).
Proof.
  unfold gas_used, calc_message_gas, calc_message_gas_native_gas_refunded, cost.
  cbn [res_bind map_err]. destruct (transactions trace !! 2%nat) as [tx2|]; [|by do 2 eexists].
  destruct (out_msgs tx2 !! 0%nat); by do 2 eexists.
Qed.

Lemma foreign_turns self txs s :
  Forall (foreign self) txs -> res_foldM (create_parsers_tx now_rfc3339 self) txs s = Ok s.
Proof.
  intros H. induction H as [|tx txs (H1 & H2 & H3) _ IH]; [done|]. cbn [res_foldM].
  by rewrite foreign_adds_nothing.
Qed.

(** The report of the log [w]. *)
Definition cannot_execute (trace : Trace) (w : RelayerExecuteWrappedMessage) : Event :=
  CannotExecuteMessageV2
    {| event_type := "CANNOT_EXECUTE_MESSAGE/V2";
       event_id := "cannot-execute-task-v2-" +:+ z_to_string (end_lt trace);
       meta := None |}
    (rew_message_id w) (rew_source_chain w) InsufficientGasReason (trace_id trace).

(** The report is the only parser of the trace, or reading it panics. *)
Lemma forged_parsers self trace tx0 txs :
  transactions trace = tx0 :: txs -> looks_failed (transactions trace) ->
  Forall (foreign self) (transactions trace) ->
  match out_msgs tx0 with
  | [] => create_parsers now_rfc3339 self trace = Panic
  | msg :: _ => forall w, RelayerExecuteWrappedMessage_from_boc_b64 (body (message_content msg)) = Ok w ->
      exists p, create_parsers now_rfc3339 self trace =
        Ok (push_parser (OExecuteInsufficientGas p) no_parsers) /\
        obj_event now_rfc3339 (OExecuteInsufficientGas p) None = Ok (cannot_execute trace w)
  end.
Proof.
  intros Htx Hlooks%looks_failed_action Hf. unfold create_parsers, try_parser.
  cbn [ParserExecuteInsufficientGas.new res_bind check_match parse ParserExecuteInsufficientGas.parser].
  unfold ParserExecuteInsufficientGas.check_match.
  cbn [ParserExecuteInsufficientGas.trace ParserExecuteInsufficientGas.allowed_address].
  rewrite Hlooks.
  replace (if ParserExecuteInsufficientGas.insufficient_gas_exit _ _ then _ else _)
    with (Ok (E := perror) true) by (by destruct (ParserExecuteInsufficientGas.insufficient_gas_exit _ _)).
  cbn [res_bind]. unfold ParserExecuteInsufficientGas.parse.
  cbn [ParserExecuteInsufficientGas.log ParserExecuteInsufficientGas.trace].
  assert (index (transactions trace) 0 = Ok (E := perror) tx0) as -> by (by apply index_Ok; rewrite Htx).
  cbn [res_bind]. destruct (out_msgs tx0) as [|msg msgs]; [done|].
  intros w Hw. cbn [index lookup list_lookup res_bind]. unfold boc_parsing. rewrite Hw.
  cbn [map_err res_bind]. rewrite foreign_turns by done. by eexists.
Qed.

(** C40. The second test of [ParserExecuteInsufficientGas] looks at no account:
    any trace of five transactions, none of them on the contracts of the
    relayer, of which the fifth looks like a failed execution, is reported as a
    message that cannot be executed, with whatever message id and source chain
    the body of its first message names, and that is all the relayer publishes
    of it; and when its first transaction sends no message, parsing panics. *)
Theorem cannot_execute_forged self trace tx0 txs :
  transactions trace = tx0 :: txs -> looks_failed (transactions trace) ->
  Forall (foreign self) (transactions trace) ->
  match out_msgs tx0 with
  | [] => parse_trace now_rfc3339 self trace = Panic
  | msg :: _ => forall w, RelayerExecuteWrappedMessage_from_boc_b64 (body (message_content msg)) = Ok w ->
      parse_trace now_rfc3339 self trace = Ok [cannot_execute trace w]
  end.
Proof.
  intros Htx Hlooks Hf. pose proof (forged_parsers _ _ _ _ Htx Hlooks Hf) as H.
  destruct (gas_used_total self trace) as (total & refund & Hg).
  unfold parse_trace. rewrite Hg. cbn [res_bind].
  destruct (out_msgs tx0) as [|msg msgs]; [by rewrite H|].
  intros w Hw. destruct (H w Hw) as (p & -> & He). cbn [res_bind]. unfold raw_events.
  cbn [push_parser no_parsers ps_call_contract ps_gas_credit_map ps_its ps_parsers
    res_foldM its_events res_bind app res_mapM].
  rewrite He. reflexivity.
Qed.
End Forged.

(** ** Application at a concrete trace *)

(** The body of a message of the sender's, with a message id and a source chain
    of its choice. *)
Definition ex_forged_body : string :=
  show_cell (TCell [] [TCell [] [TCell [] [];
    TCell [] [TCell [] [TCell [] [str_cell "id"; str_cell "chain"]]]]]).

(** A trace of five transactions on an account that is none of ours. *)
Definition ex_forged_txs (outs : list TransactionMessage) : list Transaction :=
  [ex_tx (ex_address 9) "a0" 1 None outs;
   ex_tx (ex_address 9) "a1" 1 None [];
   ex_tx (ex_address 9) "a2" 1 None [];
   ex_tx (ex_address 9) "a3" 1 (ex_op 0) [];
   ex_tx_with (ex_address 9) "a4" 1 None (Some (ex_action 37)) (ex_op OP_NULLIFIED_SUCCESSFULLY) []].

Lemma ex_forged_foreign outs : Forall (foreign ex_parser) (ex_forged_txs outs).
Proof. by repeat constructor. Qed.

Lemma ex_forged_looks outs : looks_failed (ex_forged_txs outs).
Proof.
  split; [done|]. split; [eexists; split; [done|]; by eexists|].
  do 3 eexists. by split_and!.
Qed.

Lemma ex_forged_reads : RelayerExecuteWrappedMessage_from_boc_b64 ex_forged_body =
  Ok {| rew_message_id := "id"; rew_source_chain := "chain" |}.
Proof. by vm_compute. Qed.

Lemma cannot_execute_forged_witness :
  parse_trace "now" ex_parser (ex_trace (ex_forged_txs [ex_log ex_forged_body])) =
    Ok [cannot_execute (ex_trace (ex_forged_txs [ex_log ex_forged_body]))
         {| rew_message_id := "id"; rew_source_chain := "chain" |}] /\
  parse_trace "now" ex_parser (ex_trace (ex_forged_txs [])) = Panic.
Proof.
  split.
  - exact (cannot_execute_forged "now" ex_parser (ex_trace (ex_forged_txs [ex_log ex_forged_body]))
      _ _ eq_refl (ex_forged_looks _) (ex_forged_foreign _) _ ex_forged_reads).
  - exact (cannot_execute_forged "now" ex_parser (ex_trace (ex_forged_txs [])) _ _ eq_refl
      (ex_forged_looks _) (ex_forged_foreign _)).
Defined.
