(* ===== verification/Wallet.v ===== *)
(** * The wallets: [ton_wallet_high_load_v3.rs], [out_action.rs],
    [lock_manager.rs], [wallet_manager.rs]

    The high-load wallet signs a list of actions under a query id; the wallet
    manager lends its wallets under a lock kept in Redis.  Redis and the parts
    of [tonlib-core] that serialize whole messages are third-party classes.
    The proofs about the locks are in [Locks]. *)

From Stdlib Require Import ZArith Lia Strings.Byte Strings.Ascii.
From stdpp Require Import base strings pretty countable gmap list.
From S2P Require Import Prelude RustStd Foreign Types CellCodec QueryId.

(** An action of the wallet: a mode and the message to send. *)
Record OutAction `{CellLib} := {
  oa_mode : Z;
  oa_out_msg : Cell;
}.

(** Serialization of whole messages and bags of cells, and signatures. *)
Class WalletLib `{CellLib} := {
  TransferMessage_build : InternalMessage -> Cell -> fres Cell;
  OutList_new_write : list OutAction -> CellBuilder -> fres CellBuilder;
  ExtInMessage_to_cell : TonAddress -> Cell -> fres Cell;
  nacl_signature : list byte -> list byte -> fres (list byte);
  BagOfCells_serialize : Cell -> fres (list byte); (* serialize(true) of one root *)
}.

(** The builder operations of the wallet: documented, a store appends the
    big-endian bits of a value that fits. *)
Class WalletLaws `{CellView} : Prop := {
  store_u32_ok n v b :
    0 <= v < 2 ^ Z.of_nat n -> (length (builder_bits b) + n <= 1023)%nat ->
    writes (store_u32 n v) b (builder_bits b ++ bits_of_N n (Z.to_N v)) (builder_refs b);
  store_u64_ok n v b :
    0 <= v < 2 ^ Z.of_nat n -> (length (builder_bits b) + n <= 1023)%nat ->
    writes (store_u64 n v) b (builder_bits b ++ bits_of_N n (Z.to_N v)) (builder_refs b);
  store_u8_ok n v b :
    0 <= v < 2 ^ Z.of_nat n -> (length (builder_bits b) + n <= 1023)%nat ->
    writes (store_u8 n v) b (builder_bits b ++ bits_of_N n (Z.to_N v)) (builder_refs b);
  store_int_ok n v b :
    0 <= v < 2 ^ (Z.of_nat n - 1) -> (length (builder_bits b) + n <= 1023)%nat ->
    writes (store_int n v) b (builder_bits b ++ bits_of_N n (Z.to_N v)) (builder_refs b);
  store_number_ok n v b :
    0 <= v < 2 ^ Z.of_nat n -> (length (builder_bits b) + n <= 1023)%nat ->
    writes (store_number n v) b (builder_bits b ++ bits_of_N n (Z.to_N v)) (builder_refs b);
}.

Section Wallet.
Context {TAL : TonAddressLib} {CL : CellLib} {WL : WalletLib}.

(** ** [out_action.rs] *)

Definition internal_message (dest : TonAddress) (value : N) : InternalMessage := {|
  im_ihr_disabled := false;
  im_bounce := true;
  im_bounced := false;
  im_src := TonAddress_NULL;
  im_dest := dest;
  im_value := value;
  im_ihr_fee := 0;
  im_fwd_fee := 0;
  im_created_lt := 0;
  im_created_at := 0;
|}.

Definition out_action (boc_hex : string) (value : N) (destination : TonAddress)
    : res ferr OutAction :=
  let? body := fr (Cell_from_boc_hex boc_hex) in
  let? tm := fr (TransferMessage_build (internal_message destination value) body) in
  Ok {| oa_mode := SEND_MODE_IGNORE_ERRORS; oa_out_msg := tm |}.

(** ** [ton_wallet_high_load_v3.rs] *)

Record KeyPair := { public_key : list byte; secret_key : list byte }.

Record TonWalletHighLoadV3 := {
  wallet_address : TonAddress;
  key_pair : KeyPair;
  subwallet_id : Z; (* u32 *)
  wallet_timeout : Z; (* u64 *)
}.

Definition TonWalletHighLoadV3_new (address : TonAddress) (key_pair : KeyPair)
    (subwallet_id timeout : Z) : TonWalletHighLoadV3 := {|
  wallet_address := address;
  key_pair := key_pair;
  subwallet_id := subwallet_id;
  wallet_timeout := timeout;
|}.

Definition internal_transfer_body (actions : list OutAction) (query_id : Z) : res ferr Cell :=
  if decide (254 < length actions)%nat then Panic
  else
    let? builder := fr (OutList_new_write actions CellBuilder_new) in
    let? actions_cell := fr (build builder) in
    let? b := fr (store_u32 32 0xae42e5a4 CellBuilder_new) in
    let? b := fr (store_u64 64 query_id b) in
    let? b := fr (store_reference actions_cell b) in
    fr (build b).

Definition internal_transfer_message_cell (self : TonWalletHighLoadV3) (body : Cell) (value : N)
    : res ferr Cell :=
  fr (TransferMessage_build (internal_message (wallet_address self) value) body).

Definition message_inner (self : TonWalletHighLoadV3) (message : Cell)
    (mode query_id created_at timeout : Z) : res ferr Cell :=
  let? builder := fr (store_u32 32 (subwallet_id self) CellBuilder_new) in
  let? builder := fr (store_reference message builder) in
  let? builder := fr (store_u8 8 mode builder) in
  let? builder := fr (store_int 23 query_id builder) in
  let? builder := fr (store_u64 64 created_at builder) in
  let? builder := fr (store_number 22 timeout builder) in
  fr (build builder).

Definition sign_external_body (self : TonWalletHighLoadV3) (external_body : Cell) : res ferr Cell :=
  let message_hash := Cell_hash external_body in
  let? sign := fr (nacl_signature (TonHash_to_bytes message_hash) (secret_key (key_pair self))) in
  let? builder := fr (store_slice sign CellBuilder_new) in
  let? builder := fr (store_reference external_body builder) in
  fr (build builder).

Definition wrap_signed_body (self : TonWalletHighLoadV3) (signed_body : Cell) : res ferr Cell :=
  fr (ExtInMessage_to_cell (wallet_address self) signed_body).

(** [u64] subtraction wraps. *)
Definition created_at (self : TonWalletHighLoadV3) (now : Z) : Z :=
  wrap_u 64 (now - wallet_timeout self / 60).

Definition boc_encoding {A} (what : string) (m : res ferr A) : res BocError A :=
  map_err (fun e => BocEncodingError ("Failed " +:+ what +:+ ": " +:+ fe_display e)) m.

(** [outgoing_message]: the root of the bag of cells; [now] is the time the
    provider gives. *)
Definition outgoing_message (self : TonWalletHighLoadV3) (now : Z) (actions : list OutAction)
    (query_id : Z) (internal_message_value : N) : res BocError Cell :=
  let? body := boc_encoding "constructing internal transfer body"
    (internal_transfer_body actions query_id) in
  let? internal_transfer := boc_encoding "constructing internal transfer message"
    (internal_transfer_message_cell self body internal_message_value) in
  let created_at := created_at self now in
  let? message_inner := boc_encoding "constructing inner message"
    (message_inner self internal_transfer SEND_MODE_IGNORE_ERRORS query_id created_at
       (wallet_timeout self)) in
  let? signed_body := boc_encoding "signing external body"
    (sign_external_body self message_inner) in
  boc_encoding "wrapping signed body" (wrap_signed_body self signed_body).

(** ** [lock_manager.rs] *)

(** The trait [LockManager], over a world [W]. *)
Class LockManager (W : Type) := {
  lock : string -> W -> bool * W;
  unlock : string -> W -> W;
}.

(** [SET key true NX EX seconds] and [DEL key]. *)
Class RedisLib (R : Type) := {
  redis_set_nx_ex : string -> Z -> R -> fres bool * R;
  redis_del : string -> R -> fres bool * R;
}.

Definition lock_key (key : string) : string := "wallet_lock_" +:+ key.

#[global] Instance redis_lock_manager {R} {RL : RedisLib R} : LockManager R := {|
  lock key r :=
    let '(res, r') := redis_set_nx_ex (lock_key key) 60 r in
    (match res with inr b => b | inl _ => false end, r');
  unlock key r := snd (redis_del (lock_key key) r);
|}.

(** ** [wallet_manager.rs] *)

Inductive WalletManagerError : Set :=
| NoAvailableWallet
| LockError (s : string).

Record WalletManager := { wallets : gmap TonAddress TonWalletHighLoadV3 }.

Definition unwrap {E A} (m : res E A) : res E A :=
  match m with Ok a => Ok a | _ => Panic end.

Definition load_wallet {CO : CodecLib} (config : WalletConfig) : res ferr TonWalletHighLoadV3 :=
  let? public_key_bytes := unwrap (fr (hex_decode (wc_public_key config))) in
  let? secret_key_bytes := unwrap (fr (hex_decode (wc_secret_key config))) in
  let? address := unwrap (fr (TonAddress_from_base64_url (wc_address config))) in
  Ok (TonWalletHighLoadV3_new address
        {| public_key := public_key_bytes; secret_key := secret_key_bytes |}
        (wc_subwallet_id config) (wc_timeout config)).

Definition WalletManager_new {CO : CodecLib} (config : list WalletConfig) : res ferr WalletManager :=
  let? ws := res_foldM (fun ws c =>
    let? wallet := load_wallet c in
    Ok (<[wallet_address wallet := wallet]> ws)) config (∅ : gmap TonAddress TonWalletHighLoadV3) in
  Ok {| wallets := ws |}.

(** The loop over the wallets, in the order of the map. *)
Fixpoint acquire_from {W} {LM : LockManager W} (l : list (TonAddress * TonWalletHighLoadV3))
    : st W WalletManagerError TonWalletHighLoadV3 :=
  match l with
  | [] => st_err NoAvailableWallet
  | (address, wallet) :: l' =>
      fun w =>
        let '(b, w') := lock (TonAddress_to_string address) w in
        if (b : bool) then (Ok wallet, w') else acquire_from l' w'
  end.

Definition acquire {W} {LM : LockManager W} (self : WalletManager)
    : st W WalletManagerError TonWalletHighLoadV3 :=
  acquire_from (map_to_list (wallets self)).

Definition release {W} {LM : LockManager W} (self : WalletManager) (wallet : TonWalletHighLoadV3)
    (w : W) : W :=
  unlock (TonAddress_to_string (wallet_address wallet)) w.

(** The key of a wallet in the map is its address. *)
Definition manager_wf (self : WalletManager) : Prop :=
  map_Forall (fun a w => wallet_address w = a) (wallets self).

Lemma manager_wf_list m :
  manager_wf m -> Forall (fun '(a, w) => wallet_address w = a) (map_to_list (wallets m)).
Proof. intros Hwf. apply map_Forall_to_list in Hwf. eapply Forall_impl; [exact Hwf|]. by intros []. Qed.

Lemma WalletManager_new_wf {CO : CodecLib} config m : WalletManager_new config = Ok m -> manager_wf m.
Proof.
  unfold WalletManager_new. intros H. apply res_bind_Ok in H as (ws & Hws & H). injection H as <-.
  unfold manager_wf. cbn [wallets].
  refine (res_foldM_inv (map_Forall (fun a w => wallet_address w = a)) _ _ _ _ _ _ Hws);
    [|apply map_Forall_empty].
  intros b a b' Hb Ha. res_inv. subst b'. by apply map_Forall_insert_2.
Qed.

(** Every wallet of the manager is a wallet of the configuration. *)
Lemma WalletManager_new_from {CO : CodecLib} config m a :
  WalletManager_new config = Ok m -> is_Some (wallets m !! a) ->
  exists w : WalletConfig, w ∈ config /\ TonAddress_from_base64_url (wc_address w) = inr a.
Proof.
  unfold WalletManager_new. intros H. apply res_bind_Ok in H as (ws & Hws & H). injection H as <-.
  cbn [wallets].
  assert (Hall : map_Forall (fun a (_ : TonWalletHighLoadV3) =>
      exists w : WalletConfig, w ∈ config /\ TonAddress_from_base64_url (wc_address w) = inr a) ws).
  - refine (res_foldM_inv_in (map_Forall _) _ _ _ _ _ _ Hws); [|apply map_Forall_empty].
    intros b c b' Hc Hb H. apply res_bind_Ok in H as (w & Hw & H). injection H as <-.
    apply map_Forall_insert_2; [|done]. exists c. split; [done|].
    unfold load_wallet, unwrap, fr in Hw. res_inv. subst w. cbn [wallet_address TonWalletHighLoadV3_new].
    destruct (TonAddress_from_base64_url (wc_address c)) as [e|x]; simplify_eq; done.
  - intros [w Hw]. exact (Hall _ _ Hw).
Qed.
End Wallet.

(** ** The message of the wallet *)

Section Message.
Context {TAL : TonAddressLib} {CL : CellLib} {WL : WalletLib}.
Context {CV : CellView} {CBL : CellBuilderLaws} {WLA : WalletLaws}.

Lemma fr_write_bind {A} (m : CellBuilder -> fres CellBuilder) b bits refs
    (k : CellBuilder -> res ferr A) (Q : A -> Prop) :
  writes m b bits refs ->
  (forall b', builder_bits b' = bits -> builder_refs b' = refs -> exists c, k b' = Ok c /\ Q c) ->
  exists c, (let? b' := fr (m b) in k b') = Ok c /\ Q c.
Proof. intros (b' & Hm & H1 & H2) Hk. rewrite Hm. cbn [fr res_bind]. auto. Qed.

(** C31. The inner message of the wallet holds the sub-wallet, the mode, the
    query id, the creation time and the timeout at their widths, over the
    internal transfer; the query id of any shift below 4096 is read back
    unchanged from its 23 bits. *)
Theorem message_inner_layout self message mode q created timeout :
  0 <= subwallet_id self < 2 ^ 32 -> 0 <= mode < 2 ^ 8 ->
  HighLoadQueryId.valid q -> HighLoadQueryId.shift q < 4096 ->
  0 <= created < 2 ^ 64 -> 0 <= timeout < 2 ^ 22 ->
  exists c, message_inner self message mode (HighLoadQueryId.query_id q) created timeout = Ok c /\
    cell_refs c = [message] /\
    cell_bits c = bits_of_N 32 (Z.to_N (subwallet_id self)) ++ bits_of_N 8 (Z.to_N mode) ++
      bits_of_N 23 (Z.to_N (HighLoadQueryId.query_id q)) ++ bits_of_N 64 (Z.to_N created) ++
      bits_of_N 22 (Z.to_N timeout) /\
    Z.of_N (N_of_bits (take 23 (drop 40 (cell_bits c)))) = HighLoadQueryId.query_id q.
Proof.
  intros Hs Hm Hv Hq Hc Ht. rewrite HighLoadQueryId.query_id_value by done.
  apply HighLoadQueryId.valid_fields in Hv.
  set (qid := HighLoadQueryId.shift q * 1024 + HighLoadQueryId.bitnumber q).
  assert (0 <= qid < 2 ^ 22) as Hqid by (subst qid; lia).
  unfold message_inner.
  eapply fr_write_bind; [apply store_u32_ok; [lia|rewrite builder_new_bits; cbn; lia]|].
  rewrite builder_new_bits, builder_new_refs. intros b1 Hb1 Hr1.
  eapply fr_write_bind; [apply store_reference_ok; rewrite Hr1; cbn; lia|].
  rewrite Hb1, Hr1. intros b2 Hb2 Hr2.
  eapply fr_write_bind; [apply store_u8_ok; [lia|rewrite Hb2, !length_app, !length_bits_of_N; cbn; lia]|].
  rewrite Hb2, Hr2. intros b3 Hb3 Hr3.
  eapply fr_write_bind;
    [apply store_int_ok; [change (2 ^ (Z.of_nat 23 - 1)) with (2 ^ 22); exact Hqid
      |rewrite Hb3, !length_app, !length_bits_of_N; cbn; lia]|].
  rewrite Hb3, Hr3. intros b4 Hb4 Hr4.
  eapply fr_write_bind; [apply store_u64_ok; [lia|rewrite Hb4, !length_app, !length_bits_of_N; cbn; lia]|].
  rewrite Hb4, Hr4. intros b5 Hb5 Hr5.
  eapply fr_write_bind; [apply store_number_ok; [lia|rewrite Hb5, !length_app, !length_bits_of_N; cbn; lia]|].
  rewrite Hb5, Hr5. intros b6 Hb6 Hr6.
  destruct (build_ok b6) as (c & -> & Hcb & Hcr).
  { rewrite Hb6, !length_app, !length_bits_of_N. cbn. lia. }
  { rewrite Hr6. cbn. lia. }
  exists c. rewrite Hcb, Hcr, Hb6, Hr6. split; [done|]. split; [done|].
  cbn [app]. rewrite <- !app_assoc. split; [done|].
  rewrite app_assoc, drop_app_length', take_app_length' by (rewrite ?length_app, !length_bits_of_N; done).
  rewrite N_of_bits_of_N; [lia|].
  apply N2Z.inj_lt. rewrite Z2N.id by lia. rewrite N2Z.inj_pow. cbn. lia.
Qed.

#[local] Instance fr_is_safe {A} (m : fres A) : ResSafe (fr m).
Proof. unfold ResSafe. auto with relayer. Qed.
#[local] Instance boc_encoding_safe {A} what (m : res ferr A) : ResSafe m -> ResSafe (boc_encoding what m).
Proof. unfold boc_encoding. apply _. Qed.
#[local] Instance transfer_safe self body value : ResSafe (internal_transfer_message_cell self body value).
Proof. unfold internal_transfer_message_cell. apply _. Qed.
#[local] Instance inner_safe self message mode q c t : ResSafe (message_inner self message mode q c t).
Proof. unfold message_inner. apply _. Qed.
#[local] Instance sign_safe self body : ResSafe (sign_external_body self body).
Proof. unfold sign_external_body. apply _. Qed.
#[local] Instance wrap_safe self body : ResSafe (wrap_signed_body self body).
Proof. unfold wrap_signed_body. apply _. Qed.

Lemma outgoing_message_panic_size self now actions query_id value :
  outgoing_message self now actions query_id value = Panic -> (254 < length actions)%nat.
Proof.
  intros H. destruct (decide (254 < length actions)%nat) as [|Hn]; [done|]. exfalso.
  assert (Hbody : ResSafe (internal_transfer_body actions query_id)).
  { unfold internal_transfer_body. rewrite decide_False by lia. apply _. }
  revert H. change (ResSafe (outgoing_message self now actions query_id value)).
  unfold outgoing_message. apply _.
Qed.

(** Building the external message panics exactly on more than 254 actions. *)
Lemma outgoing_message_panics self now actions query_id value :
  outgoing_message self now actions query_id value = Panic <-> (254 < length actions)%nat.
Proof.
  split; [apply outgoing_message_panic_size|].
  intros Hn. unfold outgoing_message, internal_transfer_body. by rewrite decide_True by lia.
Qed.
End Message.

(** ** Applications at concrete inputs *)

From S2P Require Import Instances.

#[export] Instance ref_wallet_lib : WalletLib := {|
  TransferMessage_build im body := inr (TCell (address_bits (im_dest im)) [body]);
  OutList_new_write actions b := inr (fst b, snd b ++ map oa_out_msg actions);
  ExtInMessage_to_cell a body := inr (TCell (address_bits a) [body]);
  nacl_signature hash key := inr (hash ++ key);
  BagOfCells_serialize c := inr (as_bytes (show_cell c));
|}.

#[export] Instance ref_wallet_laws : WalletLaws.
Proof.
  split; unfold writes; cbn [store_u32 store_u64 store_u8 store_int store_number ref_cell_lib
    builder_bits builder_refs ref_cell_view]; intros n v b Hv _.
  1-3,5: rewrite store_fits_u by done; by eexists.
  rewrite store_fits_s by done. by eexists.
Qed.

Definition ex_wallet (n : Z) : TonWalletHighLoadV3 := {|
  wallet_address := ex_address n;
  key_pair := {| public_key := []; secret_key := [byte_of 1] |};
  subwallet_id := 698983; wallet_timeout := 3600 |}.

Lemma message_inner_layout_witness :
  exists c, message_inner (ex_wallet 1) (TCell [] []) 2
      (HighLoadQueryId.query_id (HighLoadQueryId.mk 4095 1022)) 1700000000 3600 = Ok c /\
    cell_refs c = [TCell [] []] /\
    cell_bits c = bits_of_N 32 698983 ++ bits_of_N 8 2 ++ bits_of_N 23 4194302 ++
      bits_of_N 64 1700000000 ++ bits_of_N 22 3600 /\
    Z.of_N (N_of_bits (take 23 (drop 40 (cell_bits c)))) = 4194302.
Proof.
  exact (message_inner_layout (ex_wallet 1) (TCell [] []) 2 (HighLoadQueryId.mk 4095 1022)
    1700000000 3600 ltac:(done) ltac:(done) ltac:(apply (bool_decide_unpack _); exact I)
    ltac:(done) ltac:(done) ltac:(done)).
Defined.

Definition ex_manager : WalletManager := {| wallets := {[ex_address 1 := ex_wallet 1]} |}.

Lemma ex_manager_wf : manager_wf ex_manager.
Proof. by apply map_Forall_singleton. Qed.

Lemma hex_lower_inj l1 l2 : hex_lower l1 = hex_lower l2 -> l1 = l2.
Proof. intros H. pose proof (hex_read_lower l1) as H1. rewrite H, hex_read_lower in H1. congruence. Qed.
