(* ===== verification/TonFormat.v ===== *)
(** * The formats of the chain, executable

    Instances of the interfaces of [Foreign] that read and write the published
    formats: Base64, Keccak-256, the textual forms of an address, bags of
    cells, [MsgAddress], [VarUInteger 16], [HashmapE] and the message layouts
    of [block.tlb].  They let the models run on recorded data.  What they leave
    out: the hash of a cell is not computed, the CRC of a bag of cells is
    skipped when reading and left out when writing, and equal cells are written
    twice. *)

From Stdlib Require Import ZArith Lia Strings.Byte Strings.Ascii.
From stdpp Require Import base strings pretty countable vector gmap list.
From S2P Require Import Prelude RustStd Foreign Types Instances Wallet.

Module TonFormat.

#[export] Existing Instance ref_biguint.
#[export] Existing Instance ref_json.

(** ** Base64 *)

Definition std_alphabet : string :=
  "ABCDEFGHIJKLMNOPQRSTUVWXYZabcdefghijklmnopqrstuvwxyz0123456789+/".
Definition url_alphabet : string :=
  "ABCDEFGHIJKLMNOPQRSTUVWXYZabcdefghijklmnopqrstuvwxyz0123456789-_".

Fixpoint index_of (c : ascii) (alphabet : string) (i : N) : option N :=
  match alphabet with
  | EmptyString => None
  | String d s => if Ascii.eqb c d then Some i else index_of c s (i + 1)
  end.

Fixpoint sextets (alphabet s : string) : option (list bool) :=
  match s with
  | EmptyString => Some []
  | String c s' =>
      match index_of c alphabet 0, sextets alphabet s' with
      | Some v, Some l => Some (bits_of_N 6 v ++ l)
      | _, _ => None
      end
  end.

(** The text without its padding, and how much there was. *)
Fixpoint unpad (s : string) : string * nat :=
  match s with
  | EmptyString => ("", 0%nat)
  | String c s' =>
      let '(t, n) := unpad s' in
      if Ascii.eqb c "=" && (String.length t =? 0)%nat then ("", Datatypes.S n) else (String c t, n)
  end.

Definition b64_bytes (alphabet s : string) : option (list byte) :=
  match sextets alphabet s with
  | Some bits =>
      let k := (length bits / 8)%nat in
      if bool_decide (drop (8 * k) bits = replicate (length bits - 8 * k) false)
         && (length bits - 8 * k <? 6)%nat
      then Some (bytes_of_bits k bits) else None
  | None => None
  end.

Definition b64_decode (s : string) : fres (list byte) :=
  let '(t, n) := unpad s in
  if decide ((String.length s mod 4 = 0 /\ n <= 2)%nat) then
    match b64_bytes std_alphabet t with
    | Some l => inr l
    | None => inl (ferr0 "Invalid symbol")
    end
  else inl (ferr0 "Invalid padding").

Fixpoint write_sextets (fuel : nat) (alphabet : string) (bits : list bool) : string :=
  match fuel, bits with
  | S fuel', _ :: _ =>
      let six := take 6 (bits ++ replicate 5 false) in
      match String.get (N.to_nat (N_of_bits six)) alphabet with
      | Some c => String c (write_sextets fuel' alphabet (drop 6 bits))
      | None => ""
      end
  | _, _ => ""
  end.

Definition b64_text (alphabet : string) (l : list byte) : string :=
  write_sextets (2 * length l) alphabet (bytes_bits l).

Definition b64_encode (l : list byte) : string :=
  b64_text std_alphabet l +:+
  match (length l mod 3)%nat with 1%nat => "==" | 2%nat => "=" | _ => "" end.

(** ** Keccak-256 *)

Definition rotl64 (x : N) (n : N) : N :=
  N.lor (N.land (N.shiftl x n) (2 ^ 64 - 1)) (N.shiftr x (64 - n)).

(** The 25 lanes, lane [(x, y)] at [x + 5 * y]. *)
Definition lane (a : list N) (x y : nat) : N := nth ((x mod 5) + 5 * (y mod 5))%nat a 0%N.

Definition lanes (f : nat -> nat -> N) : list N :=
  map (fun i => f (i mod 5)%nat (i / 5)%nat) (seq 0 25).

Definition rotations : list N :=
  [0;1;62;28;27; 36;44;6;55;20; 3;10;43;25;39; 41;45;15;21;8; 18;2;61;56;14]%N.

Definition round_constants : list N := [
  0x0000000000000001; 0x0000000000008082; 0x800000000000808A; 0x8000000080008000;
  0x000000000000808B; 0x0000000080000001; 0x8000000080008081; 0x8000000000008009;
  0x000000000000008A; 0x0000000000000088; 0x0000000080008009; 0x000000008000000A;
  0x000000008000808B; 0x800000000000008B; 0x8000000000008089; 0x8000000000008003;
  0x8000000000008002; 0x8000000000000080; 0x000000000000800A; 0x800000008000000A;
  0x8000000080008081; 0x8000000000008080; 0x0000000080000001; 0x8000000080008008]%N.

Definition keccak_round (a : list N) (rc : N) : list N :=
  let c := map (fun x => N.lxor (lane a x 0) (N.lxor (lane a x 1) (N.lxor (lane a x 2)
    (N.lxor (lane a x 3) (lane a x 4))))) (seq 0 5) in
  let d := map (fun x => N.lxor (nth ((x + 4) mod 5)%nat c 0%N)
    (rotl64 (nth ((x + 1) mod 5)%nat c 0%N) 1)) (seq 0 5) in
  let a := lanes (fun x y => N.lxor (lane a x y) (nth x d 0%N)) in
  let r := lanes (fun x y => rotl64 (lane a x y) (nth (x + 5 * y)%nat rotations 0%N)) in
  (* lane (x, y) of the result is lane (x + 3 y, x) before *)
  let b := lanes (fun x y => lane r (x + 3 * y) x) in
  let a := lanes (fun x y => N.lxor (lane b x y)
    (N.land (N.lxor (lane b (x + 1) y) (2 ^ 64 - 1)) (lane b (x + 2) y))) in
  match a with
  | a0 :: rest => N.lxor a0 rc :: rest
  | [] => []
  end.

Definition keccak_f (a : list N) : list N := foldl keccak_round a round_constants.

Definition le_value (l : list byte) : N :=
  foldr (fun b acc => Byte.to_N b + 256 * acc)%N 0%N l.

Fixpoint le_bytes (n : nat) (v : N) : list byte :=
  match n with
  | O => []
  | S n' => byte_of (Z.of_N (v mod 256)) :: le_bytes n' (v / 256)%N
  end.

Fixpoint absorb (fuel : nat) (a : list N) (l : list byte) : list N :=
  match fuel, l with
  | S fuel', _ :: _ =>
      let block := take 136 l in
      let a := imap (fun i x =>
        if (i <? 17)%nat then N.lxor x (le_value (take 8 (drop (8 * i) block))) else x) a in
      absorb fuel' (keccak_f a) (drop 136 l)
  | _, _ => a
  end.

(** Padded with 0x01 .. 0x80 to a multiple of 136 bytes. *)
Definition keccak_pad (l : list byte) : list byte :=
  let q := (136 - length l mod 136)%nat in
  if (q =? 1)%nat then l ++ [byte_of 0x81]
  else l ++ [byte_of 1] ++ replicate (q - 2) (byte_of 0) ++ [byte_of 0x80].

Definition keccak (l : list byte) : list byte :=
  let l := keccak_pad l in
  take 32 (concat (map (le_bytes 8) (absorb (length l) (replicate 25 0%N) l))).

#[export] Instance ton_codec : CodecLib := {|
  hex_encode := hex_lower;
  hex_decode := hex_read_res;
  base64_encode := b64_encode;
  base64_decode := b64_decode;
  keccak256 := keccak;
|}.

(** ** Addresses *)

Fixpoint crc16_byte (n : nat) (crc : N) : N :=
  match n with
  | O => crc
  | S n' =>
      let shifted := N.land (N.shiftl crc 1) 0xffff in
      crc16_byte n' (if N.testbit crc 15 then N.lxor shifted 0x1021 else shifted)
  end.

Definition crc16 (l : list byte) : N :=
  foldl (fun crc b => crc16_byte 8 (N.lxor crc (N.shiftl (Byte.to_N b) 8))) 0%N l.

Definition bytes_be16 (v : N) : list byte :=
  [byte_of (Z.of_N (v / 256)); byte_of (Z.of_N (v mod 256))].

Definition signed_byte (b : byte) : Z := wrap_s 8 (byte_val b).

Definition address_to_hex (a : ref_address) : string :=
  z_to_string (signed_byte (fst a)) +:+ ":" +:+ hex_lower (vec_to_list (snd a)).

(** The user-friendly form: flags, workchain, hash and CRC; bounceable, not
    for a test network. *)
Definition address_to_base64 (a : ref_address) : string :=
  let l := byte_of 0x11 :: fst a :: vec_to_list (snd a) in
  b64_text url_alphabet (l ++ bytes_be16 (crc16 l)).

Definition address_of_base64 (alphabet s : string) : fres ref_address :=
  if decide (String.length s = 48%nat) then
    match b64_bytes alphabet s with
    | Some l =>
        let body := take 34 l in
        if decide (drop 34 l = bytes_be16 (crc16 body)) then
          match body with
          | flags :: wc :: hash => inr (wc, vec_of 32 hash)
          | _ => inl (ferr0 "Invalid address length")
          end
        else inl (ferr0 "CRC mismatch")
    | None => inl (ferr0 "Invalid base64 address")
    end
  else inl (ferr0 "Invalid base64 address length").

Definition address_of_hex (s : string) : fres ref_address :=
  let read h wc :=
    match hex_read h with
    | Some l => if decide (length l = 32%nat) then inr (wc, vec_of 32 l)
                else inl (ferr0 "Invalid address hash length")
    | None => inl (ferr0 "Invalid address hash")
    end in
  match strip_prefix "0:" s, strip_prefix "-1:" s with
  | Some h, _ => read h (byte_of 0)
  | None, Some h => read h (byte_of 255)
  | None, None => inl (ferr0 "Invalid workchain")
  end.

Definition address_of_str (s : string) : fres ref_address :=
  if decide (String.length s = 48%nat) then
    match address_of_base64 url_alphabet s with
    | inr a => inr a
    | inl _ => address_of_base64 std_alphabet s
    end
  else address_of_hex s.

#[export] Instance ton_address_lib : TonAddressLib := {|
  TonHash := ref_hash;
  TonHash_from_bytes l := vec_of 32 l;
  TonHash_to_bytes h := vec_to_list h;
  TonHash_try_from_vec l :=
    if decide (length l = 32%nat) then Some (vec_of 32 l) else None;
  TonHash_from_hex := ref_hash_read;
  TonHash_to_string h := hex_lower (vec_to_list h);
  TonAddress := ref_address;
  TonAddress_countable := prod_countable;
  TonAddress_new w h := (byte_of w, h);
  TonAddress_NULL := (byte_of 0, vec_of 32 []);
  TonAddress_hash_part a := snd a;
  TonAddress_to_string := address_to_base64;
  TonAddress_to_hex := address_to_hex;
  TonAddress_from_str := address_of_str;
  TonAddress_from_hex_str := address_of_hex;
  TonAddress_from_base64_url := address_of_base64 url_alphabet;
|}.

(** ** Bags of cells *)

(** The bits of a cell whose last byte may end in a completion tag. *)
Definition untag (bits : list bool) : list bool :=
  let fix skip l := match l with
    | false :: l' => skip l'
    | true :: l' => l'
    | [] => [] end in
  rev (skip (rev bits)).

Definition be_value (l : list byte) : N := Z.to_N (from_be_bytes l).

(** Reading bytes. *)
Definition take_bytes (n : nat) (l : list byte) : option (list byte * list byte) :=
  if decide (n <= length l)%nat then Some (take n l, drop n l) else None.

Fixpoint read_refs (k size : nat) (l : list byte) : option (list nat * list byte) :=
  match k with
  | O => Some ([], l)
  | S k' =>
      '(r, l) ← take_bytes size l;
      '(rs, l) ← read_refs k' size l;
      Some (N.to_nat (be_value r) :: rs, l)
  end.

(** The cells in the order of the bag: bits, and the numbers of the
    references. *)
Fixpoint read_cells (n size : nat) (l : list byte) : option (list (list bool * list nat)) :=
  match n with
  | O => Some []
  | S n' =>
      '(d, l) ← take_bytes 2 l;
      let d1 := N.to_nat (be_value (take 1 d)) in
      let d2 := N.to_nat (be_value (drop 1 d)) in
      '(data, l) ← take_bytes (Nat.div (d2 + 1) 2) l;
      let bits := if Nat.even d2 then bytes_bits data else untag (bytes_bits data) in
      '(refs, l) ← read_refs (d1 mod 8) size l;
      cells ← read_cells n' size l;
      Some ((bits, refs) :: cells)
  end.

(** The trees of the cells from number [i] on; a reference points forward. *)
Fixpoint link_cells (i : nat) (cells : list (list bool * list nat)) : option (list tcell) :=
  match cells with
  | [] => Some []
  | (bits, refs) :: cells' =>
      trees ← link_cells (Datatypes.S i) cells';
      children ← mapM (fun r => if decide (i < r)%nat then trees !! (r - Datatypes.S i)%nat else None) refs;
      Some (TCell bits children :: trees)
  end.

Definition boc_magic : list byte := map byte_of [0xb5; 0xee; 0x9c; 0x72].

Definition parse_boc (l : list byte) : option tcell :=
  '(magic, l) ← take_bytes 4 l;
  if decide (magic = boc_magic) then
    '(flags, l) ← take_bytes 2 l;
    let f := be_value (take 1 flags) in
    let size := N.to_nat (f mod 8) in
    let off := N.to_nat (be_value (drop 1 flags)) in
    '(n, l) ← take_bytes size l;
    '(roots, l) ← take_bytes size l;
    '(absent, l) ← take_bytes size l;
    '(total, l) ← take_bytes off l;
    '(root, l) ← take_bytes (size * N.to_nat (be_value roots)) l;
    let n := N.to_nat (be_value n) in
    '(index, l) ← take_bytes (if N.testbit f 7 then n * off else 0) l;
    cells ← read_cells n size l;
    trees ← link_cells 0 cells;
    trees !! N.to_nat (be_value (take size root))
  else None.

Definition boc_res (o : option tcell) : fres tcell :=
  match o with
  | Some c => inr c
  | None => inl (ferr0 "BoC deserialization error")
  end.

Definition boc_of_b64 (s : string) : fres tcell :=
  match b64_decode s with
  | inr l => boc_res (parse_boc l)
  | inl e => inl (ferr0 ("BoC deserialization error: " +:+ fe_display e))
  end.

Definition boc_of_hex (s : string) : fres tcell :=
  match hex_read s with
  | Some l => boc_res (parse_boc l)
  | None => inl (ferr0 "BoC deserialization error: Invalid character")
  end.

(** Cells in pre-order, each with the numbers of its references. *)
Fixpoint list_cells (c : tcell) (i : nat) : list (list bool * list nat) :=
  let 'TCell bits refs := c in
  let '(below, nums, _) := foldl (fun '(below, nums, j) below_r =>
      (below ++ below_r j, nums ++ [j], (j + length (below_r j))%nat))
    ([], [], Datatypes.S i) (map list_cells refs) in
  (bits, nums) :: below.

Definition tag_bits (bits : list bool) : list bool :=
  if (length bits mod 8 =? 0)%nat then bits
  else bits ++ [true] ++ replicate (7 - length bits mod 8) false.

Definition write_cell (c : list bool * list nat) : list byte :=
  let '(bits, refs) := c in
  let full := (length bits / 8)%nat in
  let tagged := tag_bits bits in
  let k := (length tagged / 8)%nat in
  [byte_of (Z.of_nat (length refs)); byte_of (Z.of_nat (full + k))] ++ bytes_of_bits k tagged ++
  concat (map (fun r => bytes_be16 (N.of_nat r)) refs).

Definition write_boc (c : tcell) : list byte :=
  let cells := list_cells c 0 in
  let data := concat (map write_cell cells) in
  boc_magic ++ [byte_of 2; byte_of 2] ++ bytes_be16 (N.of_nat (length cells)) ++ bytes_be16 1 ++
  bytes_be16 0 ++ bytes_be16 (N.of_nat (length data)) ++ bytes_be16 0 ++ data.

(** ** [HashmapE 16 ^Cell] *)

(** The number of leading ones, at most [n], and the bits after the zero. *)
Fixpoint unary (n : nat) (l : list bool) : option (nat * list bool) :=
  match l with
  | true :: l' => match n with
                  | S n' => '(k, r) ← unary n' l'; Some (Datatypes.S k, r)
                  | O => None
                  end
  | false :: l' => Some (0%nat, l')
  | [] => None
  end.

(** Bits needed to write a number up to [m]. *)
Definition len_bits (m : nat) : nat := if (m =? 0)%nat then 0 else Datatypes.S (Nat.log2 m).

(** The label of an edge, at most [m] bits. *)
Definition read_label (m : nat) (l : list bool) : option (list bool * list bool) :=
  match l with
  | false :: l => '(n, l) ← unary m l; Some (take n l, drop n l)
  | true :: false :: l =>
      let k := len_bits m in
      let n := N.to_nat (N_of_bits (take k l)) in
      let l := drop k l in
      Some (take n l, drop n l)
  | true :: true :: v :: l =>
      let k := len_bits m in
      let n := N.to_nat (N_of_bits (take k l)) in
      Some (replicate n v, drop k l)
  | _ => None
  end.

Fixpoint read_hashmap (fuel m : nat) (key : list bool) (c : tcell) : option (list (Z * tcell)) :=
  match fuel with
  | O => None
  | S fuel' =>
      '(label, rest) ← read_label m (tcell_bits c);
      let key := key ++ label in
      if decide (length label = m) then
        match tcell_refs c with
        | v :: _ => Some [(Z.of_N (N_of_bits key), v)]
        | [] => None
        end
      else
        match tcell_refs c with
        | l :: r :: _ =>
            let m' := (m - length label - 1)%nat in
            dl ← read_hashmap fuel' m' (key ++ [false]) l;
            dr ← read_hashmap fuel' m' (key ++ [true]) r;
            Some (dl ++ dr)
        | _ => None
        end
  end.

Definition read_dict (n : nat) (p : tparser) : fres (list (Z * tcell)) * tparser :=
  match p with
  | (false :: bits, refs) => (inr [], (bits, refs))
  | (true :: bits, c :: refs) =>
      match read_hashmap (Datatypes.S n) n [] c with
      | Some l => (inr l, (bits, refs))
      | None => (inl (ferr0 "Invalid dictionary"), p)
      end
  | _ => short p
  end.

(** ** Values in cells *)

Definition null_address : ref_address := (byte_of 0, vec_of 32 []).

Definition address_bits_of (a : ref_address) : list bool :=
  if decide (a = null_address) then [false; false] else ref_address_bits a.

Definition read_address (p : tparser) : fres ref_address * tparser :=
  match fst p with
  | false :: false :: bits => (inr null_address, (bits, snd p))
  | true :: false :: _ => take_bits 267 bits_address p
  | _ => (inl (ferr0 "Invalid address type"), p)
  end.

(** The least number of bytes that hold a value. *)
Definition byte_len (v : N) : nat :=
  if (v =? 0)%N then 0 else Datatypes.S (N.to_nat (N.log2 v) / 8).

Definition coins_bits_of (v : N) : list bool :=
  bits_of_N 4 (N.of_nat (byte_len v)) ++ bits_of_N (8 * byte_len v) v.

Definition read_coins (p : tparser) : fres N * tparser :=
  match take_bits 4 N_of_bits p with
  | (inr n, p') => take_bits (8 * N.to_nat n) N_of_bits p'
  | r => r
  end.

#[export] Instance ton_cell_lib : CellLib := {|
  Cell := tcell;
  CellParser := tparser;
  CellBuilder := tparser;
  Cell_from_boc_b64 := boc_of_b64;
  Cell_from_boc_hex := boc_of_hex;
  Cell_to_boc_hex c := inr (hex_lower (write_boc c));
  Cell_data c := bytes_of_bits ((length (tcell_bits c) + 7) / 8) (tcell_bits c ++ replicate 7 false);
  Cell_hash c := vec_of 32 (bytes_of_bits (length (tcell_bits c) / 8) (tcell_bits c));
  Cell_depth := tcell_depth;
  Cell_parser c := (tcell_bits c, tcell_refs c);
  Arc_from_cell c := inr c;
  load_bits n p := take_bits n (fun l => bytes_of_bits (n / 8) l) p;
  load_uint n p := take_bits n N_of_bits p;
  load_u8 n p := take_bits n (fun l => Z.of_N (N_of_bits l)) p;
  load_i16 n p := take_bits n (fun l => to_signed (Z.of_nat n) (Z.of_N (N_of_bits l))) p;
  load_address := read_address;
  load_coins := read_coins;
  load_tonhash p := take_bits 256 (fun l => vec_of 32 (bytes_of_bits 32 l)) p;
  next_reference p :=
    match snd p with
    | c :: refs => (inr c, (fst p, refs))
    | [] => (inl (ferr0 "Invalid index"), p)
    end;
  load_dict_u8_ref := read_dict;
  CellBuilder_new := ([], []);
  store_uint n v b := store_fits (v <? 2 ^ N.of_nat n)%N (bits_of_N n v) b;
  store_u32 n v b := store_fits (z_fits_u n v) (z_bits n v) b;
  store_u64 n v b := store_fits (z_fits_u n v) (z_bits n v) b;
  store_u8 n v b := store_fits (z_fits_u n v) (z_bits n v) b;
  store_int n v b := store_fits (z_fits_s n v) (z_bits n v) b;
  store_number n v b := store_fits (z_fits_u n v) (z_bits n v) b;
  store_slice l b := append_bits (bytes_bits l) b;
  store_address a b := append_bits (address_bits_of a) b;
  store_coins v b := store_fits (v <? 2 ^ 120)%N (coins_bits_of v) b;
  store_tonhash h b := append_bits (bytes_bits (vec_to_list h)) b;
  store_reference c b := inr (fst b, snd b ++ [c]);
  build b :=
    if decide (length (fst b) <= 1023 /\ length (snd b) <= 4)%nat
    then inr (TCell (fst b) (snd b)) else inl (ferr0 "Invalid cell");
|}.

#[export] Instance ton_cell_view : CellView := {|
  cell_bits := tcell_bits;
  cell_refs := tcell_refs;
  parser_bits p := fst p;
  parser_refs p := snd p;
  builder_bits b := fst b;
  builder_refs b := snd b;
  address_bits := address_bits_of;
  coins_bits := coins_bits_of;
|}.

(** ** Messages of [block.tlb] *)

(** [CommonMsgInfo] of an internal message, without extra currencies. *)
Definition internal_info_bits (im : InternalMessage) : list bool :=
  [false; im_ihr_disabled im; im_bounce im; im_bounced im] ++
  address_bits_of (im_src im) ++ address_bits_of (im_dest im) ++ coins_bits_of (im_value im) ++
  [false] ++ coins_bits_of (im_ihr_fee im) ++ coins_bits_of (im_fwd_fee im) ++
  z_bits 64 (im_created_lt im) ++ z_bits 32 (im_created_at im).

Definition cell_of (bits : list bool) (refs : list tcell) : fres tcell :=
  build (CellLib := ton_cell_lib) (bits, refs).

(** No [init], the body in a reference. *)
Definition transfer_message (im : InternalMessage) (body : tcell) : fres tcell :=
  if decide (im_value im < 2 ^ 120)%N
  then cell_of (internal_info_bits im ++ [false; true]) [body]
  else inl (ferr0 "Value does not fit").

(** An external message from nowhere to an address, no import fee, no [init];
    the body inside if it fits. *)
Definition external_message (dest : ref_address) (body : tcell) : fres tcell :=
  let info := [true; false; false; false] ++ ref_address_bits dest ++ coins_bits_of 0 ++ [false] in
  if decide (length info + 1 + length (tcell_bits body) <= 1023)%nat
  then cell_of (info ++ [false] ++ tcell_bits body) (tcell_refs body)
  else cell_of (info ++ [true]) [body].

(** [OutList]: the list before the last action in a reference, then
    [action_send_msg]; the builder is filled with the outermost cell. *)
Fixpoint write_out_list (l : list OutAction) (inner b : tparser) : fres tparser :=
  match l with
  | [] => inr (fst b ++ fst inner, snd b ++ snd inner)
  | a :: l' =>
      match cell_of (fst inner) (snd inner) with
      | inr prev => write_out_list l' (z_bits 32 0x0ec3c86d ++ z_bits 8 (oa_mode a), [prev; oa_out_msg a]) b
      | inl e => inl e
      end
  end.

(** The messages, with the signature a parameter. *)
Definition ton_wallet_lib (signature : list byte -> list byte -> fres (list byte)) : WalletLib := {|
  TransferMessage_build := transfer_message;
  OutList_new_write actions b := write_out_list actions ([], []) b;
  ExtInMessage_to_cell := external_message;
  nacl_signature := signature;
  BagOfCells_serialize c := inr (write_boc c);
|}.
End TonFormat.
