(* ===== verification/FormatLaws.v ===== *)
(** * The formats of the chain keep the laws

    The laws that [Foreign] and [Wallet] state for the third-party code hold
    for the formats of [TonFormat], and a cell that is written as a bag of
    cells, in hexadecimal or Base64, is read back.  So the theorems under those
    laws hold for the bytes the relayer really exchanges with the chain. *)

From Stdlib Require Import ZArith Lia Strings.Byte Strings.Ascii.
From stdpp Require Import base strings pretty countable vector gmap list.
From S2P Require Import Prelude RustStd Foreign Types Instances Wallet TonFormat.
Import TonFormat.

Module FormatLaws.

(** ** Base64 *)

(** Sixty-four characters, none of them the padding, each at its value. *)
Definition alphabet_ok (alphabet : string) : bool :=
  forallb (fun v =>
    match String.get v alphabet with
    | Some c => bool_decide (index_of c alphabet 0 = Some (N.of_nat v))
    | None => false
    end) (seq 0 64) &&
  bool_decide (index_of "="%char alphabet 0 = None).

Lemma alphabet_char alphabet v :
  alphabet_ok alphabet = true -> (v < 64)%N ->
  exists c, String.get (N.to_nat v) alphabet = Some c /\ index_of c alphabet 0 = Some v.
Proof.
  unfold alphabet_ok. intros [H _]%andb_prop Hv. rewrite forallb_forall in H.
  specialize (H (N.to_nat v)). rewrite in_seq in H. specialize (H ltac:(lia)).
  destruct (String.get _ _) as [c|]; [|done]. apply bool_decide_eq_true in H.
  exists c. by rewrite H, N2Nat.id.
Qed.

Lemma std_alphabet_ok : alphabet_ok std_alphabet = true.
Proof. by vm_compute. Qed.
Lemma url_alphabet_ok : alphabet_ok url_alphabet = true.
Proof. by vm_compute. Qed.

Lemma bits_of_N_of_bits l : bits_of_N (length l) (N_of_bits l) = l.
Proof.
  induction l as [|b l IH] using rev_ind; [done|].
  rewrite length_app, Nat.add_1_r. cbn [bits_of_N]. rewrite N_of_bits_snoc.
  assert (N.div2 (2 * N_of_bits l + if b then 1 else 0) = N_of_bits l /\
    N.odd (2 * N_of_bits l + if b then 1 else 0) = b) as [-> ->]
    by (by destruct (N_of_bits l), b).
  by rewrite IH.
Qed.

Lemma N_of_bits_bound l : (N_of_bits l < 2 ^ N.of_nat (length l))%N.
Proof.
  induction l as [|b l IH] using rev_ind; [done|].
  rewrite length_app, Nat.add_1_r, Nat2N.inj_succ, N.pow_succ_r', N_of_bits_snoc.
  destruct b; lia.
Qed.

(** The zeros that fill the last character. *)
Definition fill (n : nat) : nat := ((6 - n mod 6) mod 6)%nat.

Lemma sextets_write alphabet fuel bits :
  alphabet_ok alphabet = true -> (length bits <= 6 * fuel)%nat ->
  sextets alphabet (write_sextets fuel alphabet bits) =
    Some (bits ++ replicate (fill (length bits)) false) /\
  (6 * String.length (write_sextets fuel alphabet bits) = length bits + fill (length bits))%nat.
Proof.
  intros Ha. revert bits. induction fuel as [|fuel IH]; intros bits Hf.
  { destruct bits; [done|cbn in Hf; lia]. }
  destruct bits as [|b bits]; [done|]. cbn [write_sextets].
  set (l := b :: bits) in *.
  set (six := take 6 (l ++ replicate 5 false)).
  assert (Hl : (1 <= length l)%nat) by (subst l; cbn; lia).
  assert (Hsix : length six = 6%nat).
  { subst six. rewrite length_take, length_app, length_replicate. lia. }
  pose proof (N_of_bits_bound six) as Hb. rewrite Hsix in Hb. change (2 ^ N.of_nat 6)%N with 64%N in Hb.
  destruct (alphabet_char _ _ Ha Hb) as (c & -> & Hc). cbn [sextets String.length]. rewrite Hc.
  destruct (IH (drop 6 l)) as [-> Hlen]; [rewrite length_drop; lia|].
  pose proof (bits_of_N_of_bits six) as Hbits. rewrite Hsix in Hbits. rewrite Hbits.
  rewrite length_drop in *. destruct (decide (6 <= length l)%nat) as [H6|H6].
  - assert (Hfill : fill (length l - 6) = fill (length l)).
    { unfold fill. replace (length l) with (length l - 6 + 1 * 6)%nat at 2 by lia.
      by rewrite Nat.Div0.mod_add. }
    rewrite Hfill in *. split; [|lia]. subst six. rewrite take_app_le by done.
    by rewrite app_assoc, take_drop.
  - rewrite (drop_ge l) in * by lia. replace (length l - 6)%nat with 0%nat in * by lia.
    assert (Hfill : fill (length l) = (6 - length l)%nat).
    { unfold fill. rewrite (Nat.mod_small (length l)) by lia. apply Nat.mod_small. lia. }
    rewrite Hfill. change (fill 0) with 0%nat in *. split; [|lia].
    subst six. rewrite take_app_ge by lia. rewrite take_replicate, !app_nil_r.
    do 3 f_equal. lia.
Qed.

Lemma b64_bytes_text alphabet l :
  alphabet_ok alphabet = true -> b64_bytes alphabet (b64_text alphabet l) = Some l.
Proof.
  intros Ha. unfold b64_bytes, b64_text.
  destruct (sextets_write alphabet (2 * length l) (bytes_bits l) Ha) as [-> _].
  { rewrite length_bytes_bits. lia. }
  rewrite length_app, length_replicate, length_bytes_bits.
  assert (Hf : (fill (8 * length l) < 6)%nat) by (apply Nat.mod_upper_bound; lia).
  assert (Hk : ((8 * length l + fill (8 * length l)) / 8 = length l)%nat).
  { symmetry. apply (Nat.div_unique _ 8 _ (fill (8 * length l))); lia. }
  rewrite Hk. replace (8 * length l + fill (8 * length l) - 8 * length l)%nat with (fill (8 * length l)) by lia.
  rewrite drop_app_length' by (by rewrite length_bytes_bits).
  rewrite bool_decide_eq_true_2 by done. rewrite (proj2 (Nat.ltb_lt _ _)) by done. cbn [andb].
  by rewrite bytes_of_bytes_bits.
Qed.

Lemma length_b64_text alphabet l :
  alphabet_ok alphabet = true ->
  (6 * String.length (b64_text alphabet l) = 8 * length l + fill (8 * length l))%nat.
Proof.
  intros Ha. unfold b64_text.
  destruct (sextets_write alphabet (2 * length l) (bytes_bits l) Ha) as [_ H];
    rewrite length_bytes_bits in *; lia.
Qed.

(** Text over the alphabet has no padding of its own. *)
Lemma unpad_app alphabet s bits pads n :
  alphabet_ok alphabet = true -> sextets alphabet s = Some bits -> unpad pads = ("", n) ->
  unpad (s +:+ pads) = (s, n).
Proof.
  intros Ha Hs Hp. revert bits Hs. induction s as [|c s IH]; intros bits Hs; [done|].
  cbn [sextets] in Hs. destruct (index_of c alphabet 0) as [v|] eqn:Hc; [|done].
  destruct (sextets alphabet s) as [l|]; [|done].
  change ((String c s) +:+ pads) with (String c (s +:+ pads)). cbn [unpad]. rewrite (IH _ eq_refl).
  destruct (Ascii.eqb_spec c "="%char) as [->|Hne]; [|done].
  apply andb_prop in Ha as [_ Ha]. apply bool_decide_eq_true in Ha. congruence.
Qed.

Lemma length_append s t : String.length (s +:+ t) = (String.length s + String.length t)%nat.
Proof. induction s as [|c s IH]; [done|]. change ((String c s) +:+ t) with (String c (s +:+ t)). cbn. by rewrite IH. Qed.

Lemma b64_decode_encode l : b64_decode (b64_encode l) = inr l.
Proof.
  unfold b64_decode, b64_encode. set (pads := match (length l mod 3)%nat with 1%nat => "==" | 2%nat => "=" | _ => "" end).
  assert (Hu : exists n, unpad pads = ("", n) /\ (n <= 2)%nat /\ String.length pads = n /\
    ((String.length (b64_text std_alphabet l) + n) mod 4 = 0)%nat).
  { pose proof (length_b64_text std_alphabet l std_alphabet_ok) as Hlen. unfold fill in Hlen.
    assert (length l mod 3 < 3)%nat by (apply Nat.mod_upper_bound; lia).
    assert (H3 : (length l = 3 * (length l / 3) + length l mod 3)%nat) by (apply Nat.div_mod_eq).
    set (q := (length l / 3)%nat) in *.
    assert (H8 : (8 * length l = 8 * (length l mod 3) + (4 * q) * 6)%nat) by lia.
    rewrite H8, Nat.Div0.mod_add in Hlen. clear H3 H8. subst pads.
    generalize dependent (String.length (b64_text std_alphabet l)). generalize dependent q.
    intros q len Hlen. destruct (length l mod 3)%nat as [|[|[|]]]; [| | |lia].
    all: match type of Hlen with _ = (?x + ?y)%nat =>
        match y with ((6 - ?r mod 6) mod 6)%nat =>
          let v := eval vm_compute in y in change y with v in Hlen end end.
    - exists 0%nat. split_and!; try done; [lia|]. replace (len + 0)%nat with (q * 4)%nat by lia.
      apply Nat.Div0.mod_mul.
    - exists 2%nat. split_and!; try done. replace (len + 2)%nat with ((q + 1) * 4)%nat by lia.
      apply Nat.Div0.mod_mul.
    - exists 1%nat. split_and!; try done; [lia|]. replace (len + 1)%nat with ((q + 1) * 4)%nat by lia.
      apply Nat.Div0.mod_mul. }
  destruct Hu as (n & Hu & Hn & Hpl & Hmod).
  destruct (sextets_write std_alphabet (2 * length l) (bytes_bits l) std_alphabet_ok) as [Hs _].
  { rewrite length_bytes_bits. lia. }
  fold (b64_text std_alphabet l) in Hs.
  rewrite (unpad_app _ _ _ _ _ std_alphabet_ok Hs Hu), decide_True.
  - by rewrite b64_bytes_text by apply std_alphabet_ok.
  - split; [|done]. by rewrite length_append, Hpl.
Qed.

(** ** Keccak-256 *)

Lemma length_keccak_round a rc : length a = 25%nat -> length (keccak_round a rc) = 25%nat.
Proof. done. Qed.

Lemma length_keccak_f a : length a = 25%nat -> length (keccak_f a) = 25%nat.
Proof.
  unfold keccak_f. revert a. induction round_constants as [|rc l IH]; intros a Ha; [done|].
  cbn [foldl]. apply IH. by apply length_keccak_round.
Qed.

Lemma length_absorb fuel a l : length a = 25%nat -> length (absorb fuel a l) = 25%nat.
Proof.
  revert a l. induction fuel as [|fuel IH]; intros a l Ha; [done|].
  destruct l as [|b l]; [done|]. cbn [absorb]. apply IH, length_keccak_f. by rewrite length_imap.
Qed.

Lemma length_le_bytes n v : length (le_bytes n v) = n.
Proof. revert v. induction n as [|n IH]; intros v; [done|]. cbn. by rewrite IH. Qed.

Lemma length_keccak l : length (keccak l) = 32%nat.
Proof.
  unfold keccak. rewrite length_take.
  assert (Hl : forall a, length (concat (map (le_bytes 8) a)) = (8 * length a)%nat).
  { induction a as [|x a IH]; [done|]. cbn [map concat length]. rewrite length_app, IH, length_le_bytes. lia. }
  rewrite Hl, length_absorb by done. done.
Qed.

#[export] Instance ton_codec_laws : @CodecLaws ton_codec.
Proof.
  split; cbn [hex_encode hex_decode base64_encode base64_decode keccak256 ton_codec].
  - done.
  - intros l. unfold hex_read_res. by rewrite hex_read_lower.
  - apply b64_decode_encode.
  - apply length_keccak.
Qed.

(** ** Addresses *)

(** The text of an address is read back. *)
Lemma address_base64_roundtrip a : address_of_base64 url_alphabet (address_to_base64 a) = inr a.
Proof.
  destruct a as [wc h]. unfold address_of_base64, address_to_base64. cbn [fst snd].
  set (body := byte_of 17 :: wc :: vec_to_list h).
  assert (Hb : length body = 34%nat) by (subst body; cbn [length]; by rewrite length_vec_to_list).
  set (l := body ++ bytes_be16 (crc16 body)).
  assert (Hl : length l = 36%nat) by (subst l; rewrite length_app, Hb; done).
  pose proof (length_b64_text url_alphabet l url_alphabet_ok) as Hlen. rewrite Hl in Hlen.
  change (fill (8 * 36)) with 0%nat in Hlen. rewrite decide_True by lia.
  rewrite b64_bytes_text by apply url_alphabet_ok. subst l.
  rewrite take_app_length', drop_app_length' by done. rewrite decide_True by done.
  subst body. cbn iota. by rewrite vec_of_to_list.
Qed.

Lemma address_text_inj (a b : TonAddress) : TonAddress_to_string a = TonAddress_to_string b -> a = b.
Proof.
  cbn [TonAddress_to_string ton_address_lib]. intros H.
  pose proof (address_base64_roundtrip a) as Ha. rewrite H, address_base64_roundtrip in Ha. congruence.
Qed.

(** ** Values in cells *)

Lemma byte_len_bound v : (v < 2 ^ N.of_nat (8 * byte_len v))%N.
Proof.
  unfold byte_len. destruct (N.eqb_spec v 0) as [->|Hv]; [done|].
  apply N.log2_lt_pow2; [lia|]. pose proof (Nat.div_mod_eq (N.to_nat (N.log2 v)) 8).
  pose proof (Nat.mod_upper_bound (N.to_nat (N.log2 v)) 8). lia.
Qed.

Lemma byte_len_short v : (v < 2 ^ 120)%N -> (byte_len v <= 15)%nat.
Proof.
  intros Hv. unfold byte_len. destruct (N.eqb_spec v 0) as [->|H0]; [lia|].
  apply N.log2_lt_pow2 in Hv; [|lia].
  pose proof (Nat.div_lt_upper_bound (N.to_nat (N.log2 v)) 8 15). lia.
Qed.

Lemma read_coins_ok v rest refs :
  (v < 2 ^ 120)%N -> read_coins (coins_bits_of v ++ rest, refs) = (inr v, (rest, refs)).
Proof.
  intros Hv. unfold read_coins, coins_bits_of. rewrite <- app_assoc.
  pose proof (byte_len_short v Hv) as Hn.
  assert (H4 : N_of_bits (bits_of_N 4 (N.of_nat (byte_len v))) = N.of_nat (byte_len v)).
  { apply N_of_bits_of_N. change (2 ^ N.of_nat 4)%N with 16%N. lia. }
  unfold take_bits at 1. cbn [fst snd]. rewrite decide_True by (rewrite length_app, length_bits_of_N; lia).
  rewrite take_app_length', drop_app_length' by (by rewrite length_bits_of_N). rewrite H4, Nat2N.id.
  unfold take_bits. cbn [fst snd]. rewrite decide_True by (rewrite length_app, length_bits_of_N; lia).
  rewrite take_app_length', drop_app_length' by (by rewrite length_bits_of_N).
  by rewrite N_of_bits_of_N by apply byte_len_bound.
Qed.

Lemma read_ref_address a rest refs :
  read_address (ref_address_bits a ++ rest, refs) = (inr a, (rest, refs)).
Proof.
  destruct (take_bits_reads 267 bits_address (ref_address_bits a ++ rest, refs) _ rest eq_refl
    (length_ref_address_bits a)) as ([bits refs'] & H & H1 & H2). cbn [fst snd] in H1, H2. subst.
  rewrite bits_address_of in H. exact H.
Qed.

Lemma read_address_ok a rest refs :
  read_address (address_bits_of a ++ rest, refs) = (inr a, (rest, refs)).
Proof. unfold address_bits_of. case_decide as Ha; [by subst|]. apply read_ref_address. Qed.

#[export] Instance ton_parser_laws : @CellParserLaws ton_address_lib ton_cell_lib ton_cell_view.
Proof.
  split; unfold reads; cbn [parser_bits parser_refs cell_bits cell_refs builder_bits builder_refs
    address_bits coins_bits ton_cell_view load_uint load_bits load_address load_coins
    load_tonhash next_reference Cell_parser Cell_depth ton_cell_lib TonHash_to_bytes ton_address_lib].
  - done.
  - done.
  - intros n p bits rest Hp Hn. by apply take_bits_reads.
  - intros n p Hp. unfold take_bits, short. rewrite decide_False by lia. eauto.
  - intros p l rest Hp.
    destruct (take_bits_reads (8 * length l) (fun b => bytes_of_bits (8 * length l / 8) b)
      p (bytes_bits l) rest Hp (length_bytes_bits l)) as (p' & H & ?).
    exists p'. split; [|done]. rewrite H. do 2 f_equal.
    rewrite Nat.mul_comm, Nat.div_mul by lia.
    rewrite <- (app_nil_r (bytes_bits l)). apply bytes_of_bytes_bits.
  - intros [bits refs] a rest Hp. cbn [fst snd] in *. subst. eexists. by rewrite read_address_ok.
  - intros [bits refs] v rest Hv Hp. cbn [fst snd] in *. subst. eexists. by rewrite read_coins_ok.
  - intros p h rest Hp.
    destruct (take_bits_reads 256 (fun l => vec_of 32 (bytes_of_bits 32 l)) p _ rest Hp
      (length_vec_bits h)) as (p' & H & ?).
    exists p'. split; [|done]. rewrite H. do 2 f_equal.
    rewrite <- (app_nil_r (bytes_bits _)). apply bits_hash.
  - intros p c refs Hp. rewrite Hp. eauto.
  - intros p Hp. rewrite Hp. eauto.
  - intros p c p' H. destruct (snd p); simplify_eq. by left.
  - apply tcell_depth_ref.
  - intros n p r p' H. unfold take_bits, short in H. case_decide; by simplify_eq.
Qed.

#[export] Instance ton_builder_laws : @CellBuilderLaws ton_address_lib ton_cell_lib ton_cell_view.
Proof.
  split; unfold writes; cbn [parser_bits parser_refs cell_bits cell_refs builder_bits builder_refs
    address_bits coins_bits ton_cell_view CellBuilder_new store_uint
    store_address store_coins store_tonhash store_reference build ton_cell_lib
    TonHash_to_bytes ton_address_lib].
  - done.
  - done.
  - intros n v b Hv _. unfold store_fits.
    rewrite (proj2 (N.ltb_lt _ _)) by done. by eexists.
  - intros a b _. by eexists.
  - intros v b Hv _. unfold store_fits. rewrite (proj2 (N.ltb_lt _ _)) by done. by eexists.
  - intros h b _. by eexists.
  - intros c b _. by eexists.
  - intros b H1 H2. rewrite decide_True by done. by eexists.
  - intros a. unfold address_bits_of. case_decide; [cbn; lia|]. by rewrite length_ref_address_bits.
  - intros v Hv. unfold coins_bits_of. rewrite length_app, !length_bits_of_N.
    pose proof (byte_len_short v Hv). lia.
  - intros h. apply length_vec_to_list.
Qed.

#[export] Instance ton_wallet_laws : @WalletLaws ton_address_lib ton_cell_lib ton_cell_view.
Proof.
  split; unfold writes; cbn [store_u32 store_u64 store_u8 store_int store_number ton_cell_lib
    builder_bits builder_refs ton_cell_view]; intros n v b Hv _.
  1-3,5: rewrite store_fits_u by done; by eexists.
  rewrite store_fits_s by done. by eexists.
Qed.

(** ** Bags of cells *)

(** Within the limits of a cell, all the way down. *)
Inductive fits : tcell -> Prop :=
| fits_cell bits refs :
    (length bits <= 1023)%nat -> (length refs <= 4)%nat -> Forall fits refs -> fits (TCell bits refs).

Lemma take_bytes_app a l : take_bytes (length a) (a ++ l) = Some (a, l).
Proof.
  unfold take_bytes. rewrite decide_True by (rewrite length_app; lia).
  by rewrite take_app_length, drop_app_length.
Qed.

Lemma take_bytes_at n a l : length a = n -> take_bytes n (a ++ l) = Some (a, l).
Proof. intros <-. apply take_bytes_app. Qed.

Lemma be_value_byte z : 0 <= z < 256 -> be_value [byte_of z] = Z.to_N z.
Proof. intros Hz. unfold be_value, from_be_bytes. cbn [foldl]. rewrite byte_val_of, Z.mod_small by done. done. Qed.

Lemma be_value_be16 v : (v < 65536)%N -> be_value (bytes_be16 v) = v.
Proof.
  intros Hv. unfold be_value, from_be_bytes, bytes_be16. cbn [foldl]. rewrite !byte_val_of.
  assert (v / 256 < 256)%N by (apply N.Div0.div_lt_upper_bound; lia).
  assert (v mod 256 < 256)%N by (apply N.mod_lt; lia).
  pose proof (N.div_mod v 256 ltac:(done)).
  generalize dependent (v / 256)%N. generalize dependent (v mod 256)%N. intros r Hr q Hq Hqr.
  rewrite !Z.mod_small by lia. lia.
Qed.

Lemma read_refs_write (rs : list nat) l :
  Forall (fun r => (N.of_nat r < 65536)%N) rs ->
  read_refs (length rs) 2 (concat (map (fun r => bytes_be16 (N.of_nat r)) rs) ++ l) = Some (rs, l).
Proof.
  induction 1 as [|r rs Hr _ IH]; [done|]. cbn [map concat length read_refs]. rewrite <- app_assoc.
  rewrite take_bytes_at by done. cbn [mbind option_bind]. rewrite IH. cbn [mbind option_bind].
  rewrite be_value_be16 by done. by rewrite Nat2N.id.
Qed.

(** The completion tag. *)
Lemma untag_tag bits n : untag (bits ++ [true] ++ replicate n false) = bits.
Proof.
  unfold untag. rewrite !rev_app_distr. cbn [rev app]. rewrite <- app_assoc.
  assert (Hs : forall m l, (fix skip l := match l with false :: l' => skip l' | true :: l' => l' | [] => [] end)
    (replicate m false ++ l) = (fix skip l := match l with false :: l' => skip l' | true :: l' => l' | [] => [] end) l).
  { induction m as [|m IH]; intros l; [done|]. apply IH. }
  replace (rev (replicate n false)) with (replicate n false).
  - rewrite Hs. cbn. apply rev_involutive.
  - induction n as [|n IH]; [done|]. cbn [replicate rev]. rewrite <- IH.
    by rewrite <- replicate_S_end.
Qed.

Lemma bytes_bits_of_bits k l : length l = (8 * k)%nat -> bytes_bits (bytes_of_bits k l) = l.
Proof.
  revert l. induction k as [|k IH]; intros l Hl; [by destruct l|]. cbn [bytes_of_bits].
  unfold bytes_bits in *. cbn [map concat]. rewrite IH by (rewrite length_drop; lia).
  unfold byte_bits.
  assert (H8 : length (take 8 l) = 8%nat) by (rewrite length_take; lia).
  pose proof (N_of_bits_bound (take 8 l)) as Hb. rewrite H8 in Hb. change (2 ^ N.of_nat 8)%N with 256%N in Hb.
  pose proof (byte_val_of (Z.of_N (N_of_bits (take 8 l)))) as Hv. rewrite Z.mod_small in Hv by lia.
  unfold byte_val in Hv.
  replace (Byte.to_N (byte_of (Z.of_N (N_of_bits (take 8 l))))) with (N_of_bits (take 8 l)) by lia.
  rewrite <- H8 at 1. rewrite bits_of_N_of_bits. apply take_drop.
Qed.

Lemma length_bytes_of_bits k l : length (bytes_of_bits k l) = k.
Proof. revert l. induction k as [|k IH]; intros l; [done|]. cbn. by rewrite IH. Qed.

(** A cell of the list, with numbers of two bytes. *)
Definition cell_ok (c : list bool * list nat) : Prop :=
  (length (fst c) <= 1023)%nat /\ (length (snd c) <= 4)%nat /\
  Forall (fun r => (N.of_nat r < 65536)%N) (snd c).

(** The data bytes of a cell: their number, whether the last one is tagged,
    and the bits they give back. *)
Lemma tag_bits_data bits :
  let tagged := tag_bits bits in
  let full := (length bits / 8)%nat in
  let k := (length tagged / 8)%nat in
  length tagged = (8 * k)%nat /\ ((full + k + 1) / 2 = k)%nat /\ (k <= full + 1)%nat /\
  (if Nat.even (full + k) then tagged else untag tagged) = bits.
Proof.
  cbv zeta. pose proof (Nat.div_mod_eq (length bits) 8) as Hd.
  pose proof (Nat.mod_upper_bound (length bits) 8 ltac:(done)) as Hm.
  set (full := (length bits / 8)%nat) in *. unfold tag_bits.
  destruct (Nat.eqb_spec (length bits mod 8) 0) as [H0|H0].
  - fold full. replace (full + full)%nat with (2 * full)%nat by lia.
    rewrite Nat.even_even, (Nat.mul_comm 2). rewrite Nat.div_add_l by done.
    change (1 / 2)%nat with 0%nat. split_and!; try lia. done.
  - assert (Hlen : length (bits ++ [true] ++ replicate (7 - length bits mod 8) false) = (8 * (full + 1))%nat).
    { rewrite !length_app, length_replicate. cbn [length]. lia. }
    rewrite Hlen. rewrite (Nat.mul_comm 8), Nat.div_mul by done.
    replace (full + (full + 1))%nat with (2 * full + 1)%nat by lia. rewrite Nat.even_odd.
    replace (2 * full + 1 + 1)%nat with ((full + 1) * 2)%nat by lia. rewrite Nat.div_mul by done.
    split_and!; try lia. apply untag_tag.
Qed.

Lemma read_cell_write c n l :
  cell_ok c ->
  read_cells (Datatypes.S n) 2 (write_cell c ++ l) = cells ← read_cells n 2 l; Some (c :: cells).
Proof.
  destruct c as [bits nums]. intros (Hb & Hn & Hnums). cbn [fst snd] in *.
  destruct (tag_bits_data bits) as (Ht & Hk & Hle & Hbits). cbv zeta in *.
  assert (Hfull : (length bits / 8 <= 127)%nat).
  { apply Nat.lt_succ_r, Nat.Div0.div_lt_upper_bound. lia. }
  unfold write_cell. set (full := (length bits / 8)%nat) in *.
  set (k := (length (tag_bits bits) / 8)%nat) in *.
  rewrite <- !app_assoc. cbn [read_cells]. rewrite take_bytes_at by done.
  cbn [mbind option_bind take drop]. rewrite !be_value_byte by lia.
  rewrite !Z_N_nat, !Nat2Z.id, Hk. rewrite take_bytes_at by apply length_bytes_of_bits.
  cbn [mbind option_bind]. rewrite bytes_bits_of_bits by done. rewrite Hbits.
  rewrite Nat.mod_small by lia. rewrite read_refs_write by done. done.
Qed.

Lemma read_cells_write cells l :
  Forall cell_ok cells ->
  read_cells (length cells) 2 (concat (map write_cell cells) ++ l) = Some cells.
Proof.
  induction 1 as [|c cells Hc _ IH]; [done|]. cbn [map concat length]. rewrite <- app_assoc.
  rewrite read_cell_write by done. by rewrite IH.
Qed.

(** *** The order of the cells *)

(** The cells below a cell whose first child has number [j], and the numbers of
    the children. *)
Fixpoint walk (f : tcell -> nat -> list (list bool * list nat)) (refs : list tcell) (j : nat)
    : list (list bool * list nat) * list nat :=
  match refs with
  | [] => ([], [])
  | r :: refs' =>
      let cells := f r j in
      let '(below, nums) := walk f refs' (j + length cells)%nat in
      (cells ++ below, j :: nums)
  end.

Lemma list_cells_walk bits refs i :
  list_cells (TCell bits refs) i =
    let '(below, nums) := walk list_cells refs (Datatypes.S i) in (bits, nums) :: below.
Proof.
  cbn [list_cells].
  assert (H : forall refs b0 n0 j,
    let '(below, nums, _) := foldl (fun '(below, nums, j) below_r =>
      (below ++ below_r j, nums ++ [j], (j + length (below_r j))%nat)) (b0, n0, j) (map list_cells refs) in
    let '(below', nums') := walk list_cells refs j in
    below = b0 ++ below' /\ nums = n0 ++ nums').
  { clear. induction refs as [|r refs IH]; intros b0 n0 j; cbn [map foldl walk]; [by rewrite !app_nil_r|].
    specialize (IH (b0 ++ list_cells r j) (n0 ++ [j]) (j + length (list_cells r j))%nat).
    destruct (foldl _ _ _) as [[below nums] ?]. destruct (walk _ _ _) as [below' nums'].
    destruct IH as [-> ->]. by rewrite <- !app_assoc. }
  specialize (H refs [] [] (Datatypes.S i)). destruct (foldl _ _ _) as [[below nums] ?].
  destruct (walk _ _ _) as [below' nums']. by destruct H as [-> ->].
Qed.

(** The cells of a tree in the same order. *)
Fixpoint subcells (c : tcell) : list tcell :=
  let 'TCell _ refs := c in c :: concat (map subcells refs).

Lemma tcell_ind' (P : tcell -> Prop) :
  (forall bits refs, Forall P refs -> P (TCell bits refs)) -> forall c, P c.
Proof.
  intros H. fix IH 1. intros [bits refs]. apply H. induction refs as [|r refs IHr]; constructor; [apply IH|done].
Qed.

Lemma length_list_cells c i : length (list_cells c i) = length (subcells c).
Proof.
  revert i. induction c as [bits refs IH] using tcell_ind'. intros i. rewrite list_cells_walk.
  assert (H : forall j, length (fst (walk list_cells refs j)) = length (concat (map subcells refs))).
  { induction IH as [|r refs Hr _ IHr]; intros j; [done|]. cbn [walk map concat].
    specialize (IHr (j + length (list_cells r j))%nat). destruct (walk _ _ _) as [below nums].
    cbn [fst] in *. by rewrite !length_app, IHr, Hr. }
  specialize (H (Datatypes.S i)). destruct (walk _ _ _) as [below nums]. cbn [fst length subcells] in *. by rewrite H.
Qed.

Lemma walk_cons r refs j :
  walk list_cells (r :: refs) j =
    (list_cells r j ++ fst (walk list_cells refs (j + length (subcells r))%nat),
     j :: snd (walk list_cells refs (j + length (subcells r))%nat)).
Proof. cbn [walk]. rewrite length_list_cells. by destruct (walk _ _ _). Qed.

Lemma length_walk refs j : length (fst (walk list_cells refs j)) = length (concat (map subcells refs)).
Proof.
  revert j. induction refs as [|r refs IH]; intros j; [done|]. rewrite walk_cons. cbn [fst map concat].
  by rewrite !length_app, IH, length_list_cells.
Qed.

Lemma length_walk_nums refs j : length (snd (walk list_cells refs j)) = length refs.
Proof. revert j. induction refs as [|r refs IH]; intros j; [done|]. rewrite walk_cons. cbn. by rewrite IH. Qed.

Lemma subcells_head c : exists l, subcells c = c :: l.
Proof. destruct c. by eexists. Qed.

(** The numbers lead to the children. *)
Lemma walk_children refs i pre post :
  mapM (fun r => if decide (i < r)%nat
      then (pre ++ concat (map subcells refs) ++ post) !! (r - Datatypes.S i)%nat else None)
    (snd (walk list_cells refs (Datatypes.S i + length pre)%nat)) = Some refs.
Proof.
  revert pre. induction refs as [|r refs IH]; intros pre; [done|].
  rewrite walk_cons. cbn [snd mapM]. rewrite decide_True by lia.
  destruct (subcells_head r) as [l Hl].
  replace (Datatypes.S i + length pre - Datatypes.S i)%nat with (length pre) by lia.
  rewrite lookup_app_r, Nat.sub_diag by done. cbn [map concat]. rewrite Hl at 1. cbn [app lookup list_lookup mbind option_bind].
  specialize (IH (pre ++ subcells r)). rewrite length_app, <- !app_assoc in IH.
  rewrite Nat.add_assoc in IH. rewrite <- !app_assoc. by rewrite IH.
Qed.

Lemma link_list_cells c i rest trest :
  link_cells (i + length (subcells c)) rest = Some trest ->
  link_cells i (list_cells c i ++ rest) = Some (subcells c ++ trest).
Proof.
  revert i rest trest. induction c as [bits refs IH] using tcell_ind'. intros i rest trest Hrest.
  rewrite list_cells_walk. rewrite (surjective_pairing (walk _ _ _)). cbn [app link_cells].
  assert (H : forall j, link_cells (j + length (concat (map subcells refs))) rest = Some trest ->
    link_cells j (fst (walk list_cells refs j) ++ rest) = Some (concat (map subcells refs) ++ trest)).
  { clear Hrest. induction IH as [|r refs Hr _ IHr]; intros j Hj.
    - cbn in Hj |- *. by rewrite Nat.add_0_r in Hj.
    - rewrite walk_cons. cbn [fst map concat]. rewrite <- !app_assoc. apply Hr, IHr.
      rewrite <- Hj. cbn [map concat]. rewrite length_app. f_equal. lia. }
  rewrite H by (rewrite <- Hrest; cbn [subcells length]; f_equal; lia).
  cbn [mbind option_bind]. pose proof (walk_children refs i [] trest) as Hc.
  cbn [app length] in Hc. rewrite Nat.add_0_r in Hc. rewrite Hc. done.
Qed.

(** Every cell of a small tree can be written. *)
Lemma list_cells_ok c i :
  fits c -> (N.of_nat (i + length (subcells c)) <= 65536)%N -> Forall cell_ok (list_cells c i).
Proof.
  intros Hf. revert i. induction c as [bits refs IH] using tcell_ind'. intros i Hi. inversion_clear Hf as [? ? Hb Hn Hr].
  rewrite list_cells_walk, (surjective_pairing (walk _ _ _)). cbn [subcells length] in Hi.
  assert (H : forall j, (N.of_nat (j + length (concat (map subcells refs))) <= 65536)%N ->
    Forall cell_ok (fst (walk list_cells refs j)) /\
    Forall (fun r => (N.of_nat r < 65536)%N) (snd (walk list_cells refs j))).
  { clear Hi Hn. induction refs as [|r refs IHr]; intros j Hj; [done|].
    apply Forall_cons in IH as [Hr1 IH], Hr as [Hr2 Hr]. rewrite walk_cons. cbn [fst snd].
    cbn [map concat] in Hj. rewrite length_app in Hj.
    destruct (subcells_head r) as [l Hl]. assert (1 <= length (subcells r))%nat by (rewrite Hl; cbn; lia).
    destruct (IHr IH Hr (j + length (subcells r))%nat) as [H1 H2]; [lia|].
    split; [apply Forall_app; split; [apply Hr1; [done|lia]|done]|]. constructor; [lia|done]. }
  destruct (H (Datatypes.S i) ltac:(lia)) as [H1 H2]. constructor; [|done].
  split_and!; cbn [fst snd]; [done|by rewrite length_walk_nums|done].
Qed.

(** A bag of cells gives back its root, up to 65536 cells. *)
Lemma parse_write_boc c :
  fits c -> (N.of_nat (length (subcells c)) < 65536)%N -> parse_boc (write_boc c) = Some c.
Proof.
  intros Hf Hn. unfold parse_boc, write_boc.
  rewrite take_bytes_at by done. cbn [mbind option_bind]. rewrite decide_True by done.
  rewrite take_bytes_at by done. cbn [mbind option_bind take drop]. rewrite !be_value_byte by done.
  change (N.to_nat (Z.to_N 2 mod 8)) with 2%nat. change (N.to_nat (Z.to_N 2)) with 2%nat.
  do 4 (rewrite take_bytes_at by done; cbn [mbind option_bind]).
  rewrite (be_value_be16 1) by done. change (2 * N.to_nat 1)%nat with 2%nat.
  rewrite take_bytes_at by done. cbn [mbind option_bind].
  change (N.testbit (Z.to_N 2) 7) with false. cbn iota. unfold take_bytes at 1. cbn [Nat.leb].
  rewrite decide_True by lia. cbn [mbind option_bind take drop].
  rewrite (be_value_be16 (N.of_nat _)) by (by rewrite length_list_cells). rewrite Nat2N.id.
  rewrite drop_0, <- (app_nil_r (concat (map write_cell (list_cells c 0)))), read_cells_write by (apply list_cells_ok; [done|lia]).
  cbn [mbind option_bind].
  pose proof (link_list_cells c 0 [] [] eq_refl) as Hl. rewrite !app_nil_r in Hl. rewrite Hl.
  cbn [mbind option_bind]. change (N.to_nat (be_value (take 2 (bytes_be16 0)))) with 0%nat. by destruct (subcells_head c) as [l ->].
Qed.

Lemma boc_b64_roundtrip c :
  fits c -> (N.of_nat (length (subcells c)) < 65536)%N ->
  Cell_from_boc_b64 (base64_encode (write_boc c)) = inr c.
Proof.
  intros Hf Hn. cbn [Cell_from_boc_b64 ton_cell_lib base64_encode ton_codec]. unfold boc_of_b64.
  by rewrite b64_decode_encode, parse_write_boc.
Qed.

Lemma boc_hex_roundtrip c text :
  fits c -> (N.of_nat (length (subcells c)) < 65536)%N ->
  Cell_to_boc_hex c = inr text -> Cell_from_boc_hex text = inr c.
Proof.
  cbn [Cell_to_boc_hex Cell_from_boc_hex ton_cell_lib]. intros Hf Hn H. assert (text = hex_lower (write_boc c)) as -> by congruence. unfold boc_of_hex.
  rewrite hex_read_lower. by rewrite parse_write_boc.
Qed.
End FormatLaws.
