(* ===== verification/RecordedTraces.v ===== *)
(** * Recorded traces

    The traces of [tests/data/v3_traces.json], the fixture of the unit tests,
    with the fields that the models read: of a transaction the account, the
    hash, the times, the fees, the exit code, the result code and the messages;
    of a message its ends, value, fee, op code and body.  The other fields are
    blank. *)

From Stdlib Require Import ZArith Lia Strings.Byte Strings.Ascii.
From stdpp Require Import base strings gmap list.
From S2P Require Import Prelude RustStd Foreign Types TonFormat.
Import TonFormat.

Module RecordedTraces.

(** [DisplayFromStr] of an address. *)
Definition addr (s : string) : TonAddress :=
  match TonAddress_from_str s with inr a => a | inl _ => TonAddress_NULL end.

Definition m (source destination value fwd_fee opcode : option string) (body : string)
    : TransactionMessage := {|
  msg_hash := ""; source := source; destination := option_map addr destination; value := value;
  value_extra_currencies := None; fwd_fee := fwd_fee; ihr_fee := None; created_lt := None;
  created_at := None;
  opcode := match deserialize_hex_u32 (option_map JString opcode) with Ok o => o | _ => None end;
  ihr_disabled := None; bounce := None; bounced := None; import_fee := None;
  message_content := {| mc_hash := ""; body := body; decoded := None |};
  init_state := None |}.

Definition blank_state : AccountStateBalance := {|
  asb_hash := ""; asb_balance := None; asb_extra_currencies := None; account_status := None;
  frozen_hash := None; data_hash := None; code_hash := None |}.

Definition tx (account hash : string) (lt tx_now total_fees : Z) (exit : option (option Z))
    (result : option Z) (in_msg : option TransactionMessage) (out_msgs : list TransactionMessage)
    : Transaction := {|
  account := addr account; hash := hash; lt := lt; tx_now := tx_now; mc_block_seqno := 0;
  tx_trace_id := ""; prev_trans_hash := ""; prev_trans_lt := ""; orig_status := "";
  end_status := ""; total_fees := total_fees; total_fees_extra_currencies := {| ec_map := ∅ |};
  description := {| tx_type := "ord"; aborted := false; destroyed := false; credit_first := false;
    storage_ph := {| storage_fees_collected := ""; storage_status_change := "" |};
    credit_ph := None;
    compute_ph := option_map (fun code => {|
      skipped := false; compute_success := None; msg_state_used := None;
      account_activated := None; gas_fees := None; gas_used_str := None; gas_limit := None;
      mode := None; exit_code := code; vm_steps := None; vm_init_state_hash := None;
      vm_final_state_hash := None |}) exit;
    action := option_map (fun code => {|
      action_success := None; valid := true; no_funds := false; action_status_change := "";
      total_fwd_fees := None; total_action_fees := None; result_code := code; tot_actions := 0;
      spec_actions := 0; skipped_actions := 0; msgs_created := 0; action_list_hash := "";
      tot_msg_size := {| cells := ""; bits := "" |} |}) result |};
  block_ref := {| workchain := 0; shard := ""; seqno := 0 |};
  in_msg := in_msg; out_msgs := out_msgs; account_state_before := blank_state;
  account_state_after := blank_state; emulated := false |}.

Definition recorded (id : string) (incomplete : bool) (start_lt end_lt : Z)
    (txs : list (string * Transaction)) (order : list string) : TraceRest := {|
  rest_is_incomplete := incomplete; rest_start_lt := start_lt; rest_end_lt := end_lt;
  rest_trace_id := id; rest_transactions := list_to_map txs; transactions_order := order |}.

(** ** The accounts *)

Definition acc_0 : string := "0:9DE6C406D12C33E69C8D3197E1D5AFC9EC653290F403AF4A05314AB8A047DEB3".
Definition acc_1 : string := "0:F5FAF699034EFCC55938D18666E4E2534F906DD98352A3E784FB737E0F5F962D".
Definition acc_2 : string := "0:903D58430732C1C0896DF0CB4384FC08AC035F347D994275F4712BE1083E0395".
Definition acc_3 : string := "0:EED3B9515F856ADB7091F15EF3C78E40CDCF8EEA0AB2919D5F665A26D43BFF48".
Definition acc_4 : string := "0:B87A4A0F644B7A186EE71A1454634F70C22A62ACA1A6BA676B5175C21D7FD930".
Definition acc_5 : string := "0:00194AAD8E422BEDF43FEE746D6D929D369DBAB25468A69D513706EA6978B63A".
Definition acc_6 : string := "0:E1E633EB701B118B44297716CEE7069EE847B56DB88C497EFEA681ED14B2D2C7".
Definition acc_7 : string := "0:5C7CE881E1217BDEF1059B589CB9FDE8A9A1478F56CD420C6FC072A4C408888F".
Definition acc_8 : string := "0:FAE4EFD8F4E5B86146D57A2C3B24DEC526C1D863BA77C6DA8EE1BB7A04448C2D".
Definition acc_9 : string := "0:842831118FCF314BE803EE7A27FD321337EE748B8408F2532E90D92A927017DB".
Definition acc_10 : string := "0:A44FB14762F093863066D169BD8FB52FE22ED8818F852A55F95CB70B93B71E47".
Definition acc_11 : string := "0:9683B63583FD9B02F6AC11A9D1374127EAE75FD66C065C6780BC5BA0F2C353FB".
Definition acc_12 : string := "0:BA95191C3E6E286B931730D4E640C309AF0BC320DB2FA8429CAF28D8940EB1E0".
Definition acc_13 : string := "0:10522B11B496C0FD76B7B88D86FFE928DBD379A00F0B2F0F5D3DB6B9B1EB6402".
Definition acc_14 : string := "0:8D57262F45924B144AE12C1AF7C7B92C3D0A0D33A8D8F7628C6FE469B34DEBB2".
Definition acc_15 : string := "0:ED22DF34219AE26039FD977D8E419AE14D78B192E9DB5DCFA3597899096470D1".
Definition acc_16 : string := "0:2030B05C19C1498D4637160020A85781C8B8980D422A8646328014AC55FA6D56".
Definition acc_17 : string := "0:5863597FB6C34ED30043AED4AD318BFD85BEC60A00022E8D61AEB6206F9AF211".
Definition acc_18 : string := "0:AA5C2EC2CA11459826100C45EC56F91572190E7739161A89BE5A65D4010CF628".
Definition acc_19 : string := "0:9BC611C3E5DF41A9BBBC68896F1CBE912C9B95145DD833F92DF683BCC3DF3400".
Definition acc_20 : string := "0:4B00189CC15DCB24DD3B4951C79C2E070757002A47ABACD3831F3AF3C199AC2A".
Definition acc_21 : string := "0:6BD799455A88D882C2BC09093B6D0A2BFF92E61FB5F6DEEBF266C257B18F7347".
Definition acc_22 : string := "0:2C56D0BD1C2FD5B89EB1796690F2A5D9566AC156BD9FE36436E0BC7C027DB460".
Definition acc_23 : string := "0:687EA87FD1879B8825C7CD0CA739C1FFC039E9CD60D0296CB1CB13FAFD64C3F7".
Definition acc_24 : string := "0:752D111F42EB1217BB58F517C3D66DC02F6B4BE62C8AD60B3858D281288E8184".
Definition acc_25 : string := "0:DD53A319657FD060EE113D331A3C9F64154757DB8EF8CF6CB146F0EE8675D9BF".
Definition acc_26 : string := "0:294D72EC421B930C60854F413478C162FDCEEC65746084EBACE25227182979A2".
Definition acc_27 : string := "0:5A08F0AE12A5483FFE2FBE37FFB70DBE03A47704F60BCBBF4F62FE21DDB11B30".
Definition acc_28 : string := "0:7DD014B7C4B5E5EA239103DEED009C4F644B31F42C2412E696C80CBEF0A02B0B".
Definition acc_29 : string := "0:898AD13C059F2A3A69576A010C41AF239B487BC555EABEB9A5894DEB11299330".
Definition acc_30 : string := "0:6E4F26BDC514E280A4D885A266B7C5F1679D18BFCB137094230F05DFAFD40C94".
Definition acc_31 : string := "0:8911FD903AA2BA762CF4A2F43F3F619A739EEC16370BDDCCB8B70EA05AC61B0A".
Definition acc_32 : string := "0:33FBF0F3187B96CDE8B2E80E230F4BEBC75883B43535D017B146D651DBA2BC65".
Definition acc_33 : string := "0:72FE6110F4237BB81A06F1E2F04145CFB417F59BEB7CDA9968ED274A760B9808".
Definition acc_34 : string := "0:7743CD7DE914FC0C9164C979EE2C3BD6AADDE62A1DD6A749D653481C50A85013".
Definition acc_35 : string := "0:90A6E6BC231AACA83E3CBA6DE8E93107E3B942F8CFBE9EE8FFF0148B29025783".
Definition acc_36 : string := "0:1FE0FA0E78288928CA05908C617FB90BDC7EDDE429E146CA048BDCD31C890E76".
Definition acc_37 : string := "0:2841CAADA5778C22F7882C0C5A867BC0842CF38973F6F6366141F31E7FC72587".
Definition acc_38 : string := "0:3F6DCFB6BBF39318B2E9320007FE1AD560904DBB3D3DC191DE830EF52D3890EC".
Definition acc_39 : string := "0:E00D16AF84AA189ED2DF1DAE3421CAD67DE24B96D9138C5A587DCCCE5BE151FA".
Definition acc_40 : string := "0:26BBBE43666524956D79C56E534CC10C4FDFAFEBCF3A235DE1C6163387BEE9B2".

(** ** The traces *)

Definition rest_0 : TraceRest :=
  recorded "abcd" false 3 4 [
    ("aa1", tx acc_0 "aa1" 36300947000011 1751291309 6250131 (Some (Some 0)) (Some 0)
      (Some (m (Some acc_1) (Some acc_0) (Some "145723200") (Some "969341") (Some "0x0000000d")
       "te6cckEBCAEA/QABSwAAAA2AEgerCGDmWDgRLb4ZaHCfgRWAa+aPsyhOvo4lfCEHwHKwAQQAAgMEBQCIMHhmMzhkMmE2NDZlNGI2MGUzN2JjMTZkNTRiYjkxNjM3MzkzNzI1OTRkYzk2YmFiOTU0YTg1YjRhMTcwZjQ5ZTU4LTEAHGF2YWxhbmNoZS1mdWppAFQweGQ3MDY3QWUzQzM1OWU4Mzc4OTBiMjhCN0JEMGQyMDg0Q2ZEZjQ5YjUCQJ4BxCPKRAxewr7sydChUrVPyOekFskxtwieryIWBa8XBgcAQLh6Sg9kS3oYbucaFFRjT3DCKmKsoaa6Z2tRdcIdf9kwAAh0b24ynK4M8w=="))
      [m (Some acc_0) None None None None
       "te6cckEBBwEA1AAEAAECAwQAiDB4ZjM4ZDJhNjQ2ZTRiNjBlMzdiYzE2ZDU0YmI5MTYzNzM5MzcyNTk0ZGM5NmJhYjk1NGE4NWI0YTE3MGY0OWU1OC0xABxhdmFsYW5jaGUtZnVqaQBUMHhkNzA2N0FlM0MzNTllODM3ODkwYjI4QjdCRDBkMjA4NENmRGY0OWI1AkCeAcQjykQMXsK+7MnQoVK1T8jnpBbJMbcInq8iFgWvFwUGAEC4ekoPZEt6GG7nGhRUY09wwipirKGmumdrUXXCHX/ZMAAIdG9uMs9py6Y=";
       m (Some acc_0) (Some acc_2) (Some "140465600") (Some "301869") (Some "0x00000018")
       "te6cckEBAQEABgAACAAAABhDnyiV"]);
    ("aa2", tx acc_0 "aa2" 36300947000009 1751291309 1061200 (Some (Some 0)) (Some 0)
      (Some (m (Some acc_1) (Some acc_0) (Some "4603600") (Some "293336") None
       "te6cckEBAQEAAgAAAEysuc0="))
      []);
    ("aa3", tx acc_0 "aa3" 36300947000005 1751291309 17688692 (Some (Some 0)) (Some 0)
      (Some (m (Some acc_2) (Some acc_0) (Some "2000000000") (Some "1350944") (Some "0x00000028")
       "te6cckECDAEAAYsAAggAAAAoAQIBYYAAAAAAAAAAAAAAAAAAAACAAAAAAAAAAAAAAAAAAAAAAAAAAAAAAAAAAAAAADf5gkADAQHABADi0LAAUYmshNOh1nWEdwB3eJHd51H6EH1kg3v2M30y32eQAAAAAAAAAAAAAAAAAAAAAcHen82Xabi1hL6vbDjjlhxKNr/kjBB1JqoQqA6V9Av4UV/9vsdVqusA1llsfvNCaPEnVYgd/MyQ7CQj9ivt5w4BAtAFBECeAcQjykQMXsK+7MnQoVK1T8jnpBbJMbcInq8iFgWvFwYHCAkAiDB4ZjM4ZDJhNjQ2ZTRiNjBlMzdiYzE2ZDU0YmI5MTYzNzM5MzcyNTk0ZGM5NmJhYjk1NGE4NWI0YTE3MGY0OWU1OC0xABxhdmFsYW5jaGUtZnVqaQBUMHhkNzA2N0FlM0MzNTllODM3ODkwYjI4QjdCRDBkMjA4NENmRGY0OWI1AgAKCwBAuHpKD2RLehhu5xoUVGNPcMIqYqyhprpna1F1wh1/2TAACHRvbjIHS1po"))
      [m (Some acc_0) (Some acc_1) (Some "6993600") (Some "2004282") (Some "0x00000000")
       "te6cckEBAQEABgAACAAAAADjAK8P";
       m (Some acc_0) (Some acc_1) (Some "149440400") (Some "373070") (Some "0x00000007")
       "te6cckEBAQEAKAAASwAAAAeAEgerCGDmWDgRLb4ZaHCfgRWAa+aPsyhOvo4lfCEHwHKwzaV6Gg==";
       m (Some acc_0) (Some acc_2) (Some "1699547200") (Some "301869") (Some "0x00000018")
       "te6cckEBAQEABgAACAAAABhDnyiV"]);
    ("aa4", tx acc_0 "aa4" 36445232000009 1751640758 8384923 (Some (Some 0)) (Some 0)
      (Some (m (Some acc_3) (Some acc_0) (Some "1844464400") (Some "1174143") (Some "0x00000005")
       "te6cckECCAEAAV0ABIsAAAAFgBIHqwhg5lg4ES2+GWhwn4EVgGvmj7MoTr6OJXwhB8Byr9KMj8CFtEqwFmUtJVgVpEqk3ftJTCRWAx2zya/xlWvwAQIDBACIMHhmMmI3NDFmYjBiMmMyZmNmOTJhY2E4MjM5NWJjNjVkYWI0ZGQ4MjM5YTEyZjM2NmQ2MDQ1NzU1ZTBiMDJjMmEyLTEAHGF2YWxhbmNoZS1mdWppAFQweGQ3MDY3QWUzQzM1OWU4Mzc4OTBiMjhCN0JEMGQyMDg0Q2ZEZjQ5YjUDAAUGBwDAAAAAAAAAAAAAAAAAAAAAAAAAAAAAAAAAAAAAAAAAACAAAAAAAAAAAAAAAAAAAAAAAAAAAAAAAAAAAAAAAAAAD0hlbGxvIGZyb20gdG9uIQAAAAAAAAAAAAAAAAAAAAAAAEC4ekoPZEt6GG7nGhRUY09wwipirKGmumdrUXXCHX/ZMAAIdG9uMtlN//0="))
      [m (Some acc_0) (Some acc_4) (Some "98540800") (Some "972808") (Some "0x0000000c")
       "te6cckECBgEAAREAAQgAAAAMAQRAfpRkfgQtolWAsylpKsCtIlUm79pKYSKwGO2eTX+Mq18CAwQFAIgweGYyYjc0MWZiMGIyYzJmY2Y5MmFjYTgyMzk1YmM2NWRhYjRkZDgyMzlhMTJmMzY2ZDYwNDU3NTVlMGIwMmMyYTItMQAcYXZhbGFuY2hlLWZ1amkAVDB4ZDcwNjdBZTNDMzU5ZTgzNzg5MGIyOEI3QkQwZDIwODRDZkRmNDliNQDAAAAAAAAAAAAAAAAAAAAAAAAAAAAAAAAAAAAAAAAAACAAAAAAAAAAAAAAAAAAAAAAAAAAAAAAAAAAAAAAAAAAD0hlbGxvIGZyb20gdG9uIQAAAAAAAAAAAAAAAAAAAAAAzRpUBQ==";
       m (Some acc_0) None None None (Some "0x30786632")
       "te6cckEBAQEARgAAiDB4ZjJiNzQxZmIwYjJjMmZjZjkyYWNhODIzOTViYzY1ZGFiNGRkODIzOWExMmYzNjZkNjA0NTc1NWUwYjAyYzJhMi0xdh/6Ig==";
       m (Some acc_0) (Some acc_2) (Some "1836921600") (Some "301869") (Some "0x00000018")
       "te6cckEBAQEABgAACAAAABhDnyiV"]);
    ("aa5", tx acc_5 "aa5" 36552848000003 1751900692 6553549 (Some (Some 0)) (Some 0)
      (Some (m (Some acc_6) (Some acc_5) (Some "98993600") (Some "670939") (Some "0x00000009")
       "te6cckEBBAEApwADCAAAAAkBAgMAHGF2YWxhbmNoZS1mdWppAFQweGQ3MDY3QWUzQzM1OWU4Mzc4OTBiMjhCN0JEMGQyMDg0Q2ZEZjQ5YjUAwAAAAAAAAAAAAAAAAAAAAAAAAAAAAAAAAAAAAAAAAAAgAAAAAAAAAAAAAAAAAAAAAAAAAAAAAAAAAAAAAAAAABNIZWxsbyBmcm9tIFJlbGF5ZXIhAAAAAAAAAAAAAAAAAGu4UHQ="))
      [m (Some acc_5) None None None (Some "0x801c3cc6")
       "te6cckEBBAEA5QADg4AcPMZ9bgNiMWiFLuLZ3ODT3Qj2rbcRiS/f1NA9opZaWPXUykhs4AH2lBVEFjqex7VaPbPTvuLH5GEs5sIeXm+pcAECAwAcYXZhbGFuY2hlLWZ1amkAVDB4ZDcwNjdBZTNDMzU5ZTgzNzg5MGIyOEI3QkQwZDIwODRDZkRmNDliNQDAAAAAAAAAAAAAAAAAAAAAAAAAAAAAAAAAAAAAAAAAACAAAAAAAAAAAAAAAAAAAAAAAAAAAAAAAAAAAAAAAAAAE0hlbGxvIGZyb20gUmVsYXllciEAAAAAAAAAAAAAAAAAne0F4Q==";
       m (Some acc_5) (Some acc_6) (Some "93402800") (Some "301869") (Some "0x00000018")
       "te6cckEBAQEABgAACAAAABhDnyiV"]);
    ("aa6", tx acc_7 "aa6" 36758111000004 1752401743 4946027 (Some (Some 0)) (Some 0)
      (Some (m (Some acc_6) (Some acc_7) (Some "28846800") (Some "768806") (Some "0x0000001f")
       "te6cckEBBQEA7gAESwAAAB+AHDzGfW4DYjFohS7i2dzg090I9q23EYkv39TQPaKWWljwAQIDBAAcYXZhbGFuY2hlLWZ1amkAVDB4ZDcwNjdBZTNDMzU5ZTgzNzg5MGIyOEI3QkQwZDIwODRDZkRmNDliNQDAAAAAAAAAAAAAAAAAAAAAAAAAAAAAAAAAAAAAAAAAACAAAAAAAAAAAAAAAAAAAAAAAAAAAAAAAAAAAAAAAAAAE0hlbGxvIGZyb20gUmVsYXllciEAAAAAAAAAAAAAAAAAAEOAHDzGfW4DYjFohS7i2dzg090I9q23EYkv39TQPaKWWljw2q7yaw=="))
      [m (Some acc_7) None None None (Some "0x801c3cc6")
       "te6cckEBBAEAxwADw4AcPMZ9bgNiMWiFLuLZ3ODT3Qj2rbcRiS/f1NA9opZaWPXUykhs4AH2lBVEFjqex7VaPbPTvuLH5GEs5sIeXm+pYAAAAAAAAAAAAAAAAAAAAAAAAAAAAAAAAAAAAAA3BVoQAQIDAEOAHDzGfW4DYjFohS7i2dzg090I9q23EYkv39TQPaKWWljwABxhdmFsYW5jaGUtZnVqaQBUMHhkNzA2N0FlM0MzNTllODM3ODkwYjI4QjdCRDBkMjA4NENmRGY0OWI1+B8bUw=="])]
    ["aa1"; "aa2"; "aa3"; "aa4"; "aa5"; "aa6"].

Definition rest_1 : TraceRest :=
  recorded "HgpDv8z9uKb4vgtsFVGjyClfNcWzVJofXVk4+7FZHU4=" false 36732085000001 36732085000006 [
    ("1gzNp2NZGxr1oXcfCROmhRF07xYdoh7X51CgJA2x/QM=", tx acc_5 "1gzNp2NZGxr1oXcfCROmhRF07xYdoh7X51CgJA2x/QM=" 36732085000003 1752338069 6545178 (Some (Some 0)) (Some 0)
      (Some (m (Some acc_6) (Some acc_5) (Some "98993600") (Some "670939") (Some "0x00000009")
       "te6cckEBBAEApwADCAAAAAkBAgMAHGF2YWxhbmNoZS1mdWppAFQweGQ3MDY3QWUzQzM1OWU4Mzc4OTBiMjhCN0JEMGQyMDg0Q2ZEZjQ5YjUAwAAAAAAAAAAAAAAAAAAAAAAAAAAAAAAAAAAAAAAAAAAgAAAAAAAAAAAAAAAAAAAAAAAAAAAAAAAAAAAAAAAAABNIZWxsbyBmcm9tIFJlbGF5ZXIhAAAAAAAAAAAAAAAAAGu4UHQ="))
      [m (Some acc_5) None None None (Some "0x801c3cc6")
       "te6cckEBBAEA5QADg4AcPMZ9bgNiMWiFLuLZ3ODT3Qj2rbcRiS/f1NA9opZaWPXUykhs4AH2lBVEFjqex7VaPbPTvuLH5GEs5sIeXm+pcAECAwAcYXZhbGFuY2hlLWZ1amkAVDB4ZDcwNjdBZTNDMzU5ZTgzNzg5MGIyOEI3QkQwZDIwODRDZkRmNDliNQDAAAAAAAAAAAAAAAAAAAAAAAAAAAAAAAAAAAAAAAAAACAAAAAAAAAAAAAAAAAAAAAAAAAAAAAAAAAAAAAAAAAAE0hlbGxvIGZyb20gUmVsYXllciEAAAAAAAAAAAAAAAAAne0F4Q==";
       m (Some acc_5) (Some acc_6) (Some "93402800") (Some "301869") (Some "0x00000018")
       "te6cckEBAQEABgAACAAAABhDnyiV"]);
    ("HgpDv8z9uKb4vgtsFVGjyClfNcWzVJofXVk4+7FZHU4=", tx acc_6 "HgpDv8z9uKb4vgtsFVGjyClfNcWzVJofXVk4+7FZHU4=" 36732085000001 1752338069 3632818 (Some (Some 0)) (Some 0)
      (Some (m None (Some acc_6) None None (Some "0x7369676e")
       "te6cckECBwEAAToAAaFzaWduf///EWhyjs8AAACfpdJkMeqiyJaHclbE4ubfspT7W7g3R9/nsst7I4gLXL3ZOHP33HpWgn1SjH3Kd2zV8BlJTMzHDGXPwb60ePqtQeABAgoOw8htAgIDAAADcGIAAAylVschFfb6H/c6NrbJTptO3VkqNFNOqJuDdTS8Wx0gL68IAAAAAAAAAAAAAAAAAAAAAAAJBAUGABxhdmFsYW5jaGUtZnVqaQBUMHhkNzA2N0FlM0MzNTllODM3ODkwYjI4QjdCRDBkMjA4NENmRGY0OWI1AMAAAAAAAAAAAAAAAAAAAAAAAAAAAAAAAAAAAAAAAAAAIAAAAAAAAAAAAAAAAAAAAAAAAAAAAAAAAAAAAAAAAAATSGVsbG8gZnJvbSBSZWxheWVyIQAAAAAAAAAAAAAAAAABTx+O"))
      [m (Some acc_6) (Some acc_5) (Some "98993600") (Some "670939") (Some "0x00000009")
       "te6cckEBBAEApwADCAAAAAkBAgMAHGF2YWxhbmNoZS1mdWppAFQweGQ3MDY3QWUzQzM1OWU4Mzc4OTBiMjhCN0JEMGQyMDg0Q2ZEZjQ5YjUAwAAAAAAAAAAAAAAAAAAAAAAAAAAAAAAAAAAAAAAAAAAgAAAAAAAAAAAAAAAAAAAAAAAAAAAAAAAAAAAAAAAAABNIZWxsbyBmcm9tIFJlbGF5ZXIhAAAAAAAAAAAAAAAAAGu4UHQ="]);
    ("vyArBJUbUF/adPAhQ+pWUnHrdjmH0cwUB3xdLYs2CTU=", tx acc_6 "vyArBJUbUF/adPAhQ+pWUnHrdjmH0cwUB3xdLYs2CTU=" 36732085000006 1752338069 311200 (Some (Some 0)) (Some 0)
      (Some (m (Some acc_5) (Some acc_6) (Some "93402800") (Some "301869") (Some "0x00000018")
       "te6cckEBAQEABgAACAAAABhDnyiV"))
      [])]
    ["HgpDv8z9uKb4vgtsFVGjyClfNcWzVJofXVk4+7FZHU4="; "1gzNp2NZGxr1oXcfCROmhRF07xYdoh7X51CgJA2x/QM="; "vyArBJUbUF/adPAhQ+pWUnHrdjmH0cwUB3xdLYs2CTU="].

Definition rest_2 : TraceRest :=
  recorded "bBZ9Uj9KHO7Nz6y0d/Oab7Yi4hdOf3D0MIAJtuUc9m8=" false 36911097000001 36911114000001 [
    ("8eC9fP1Tt28eB0eIwz1w90//mPt+Q1BbCYhwia0GcZM=", tx acc_2 "8eC9fP1Tt28eB0eIwz1w90//mPt+Q1BbCYhwia0GcZM=" 36911110000001 1752777300 230809 (Some (Some 0)) (Some 0)
      (Some (m (Some acc_5) (Some acc_2) (Some "1981237200") (Some "301869") (Some "0x00000018")
       "te6cckEBAQEABgAACAAAABhDnyiV"))
      []);
    ("9vwb+hsEQUyg69us4k/aRYptMEYart+ycHSrPE0052I=", tx acc_5 "9vwb+hsEQUyg69us4k/aRYptMEYart+ycHSrPE0052I=" 36911101000001 1752777277 17639352 (Some (Some 0)) (Some 0)
      (Some (m (Some acc_2) (Some acc_5) (Some "1997988000") (Some "1341344") (Some "0x00000028")
       "te6cckECCwEAAZEAAggAAAAoAQIBYYAAAAAAAAAAAAAAAAAAAACAAAAAAAAAAAAAAAAAAAAAAAAAAAAAAAAAAAAAADf5gkADAQHABADi0LAAUYmshNOh1nWEdwB3eJHd51H6EH1kg3v2M30y32eQAAAAAAAAAAAAAAAAAAAAAUpJdu7qqkuHa3LsRaa5CRn9fDJDIDzbdxOicwkwq5zuziLdV9E0qCGdEjz+cgONI+AFI+B0iXA5mQlcOE8fSQ0BAtAFBECuplJDZwAPtKCqILHU9j2q0e2enfcWPyMJZzYQ8vN9SwYKBwgAhDB4NTI0MjMxMmIwODNjYWQ3ODRiMmNlMWE5NDVkY2M4MzE0YzUxZjUxZmYwN2VkM2Y0M2JhOTJjNjQyNDRlOGMwZgCEMDplMWU2MzNlYjcwMWIxMThiNDQyOTc3MTZjZWU3MDY5ZWU4NDdiNTZkYjg4YzQ5N2VmZWE2ODFlZDE0YjJkMmM3AgAJCgBA7SLfNCGa4mA5/Zd9jkGa4U14sZLp213Po1l4mQlkcNEACHRvbjJ4oRnE"))
      [m (Some acc_5) (Some acc_8) (Some "6988800") (Some "2007482") (Some "0x00000000")
       "te6cckEBAQEABgAACAAAAADjAK8P";
       m (Some acc_5) (Some acc_8) (Some "9440400") (Some "373070") (Some "0x00000007")
       "te6cckEBAQEAKAAASwAAAAeAEgerCGDmWDgRLb4ZaHCfgRWAa+aPsyhOvo4lfCEHwHKwzaV6Gg==";
       m (Some acc_5) (Some acc_2) (Some "1981237200") (Some "301869") (Some "0x00000018")
       "te6cckEBAQEABgAACAAAABhDnyiV"]);
    ("SXPaJBqZMIMzdKbk07qesieO+z0XcauKmrOqyAG1kbo=", tx acc_2 "SXPaJBqZMIMzdKbk07qesieO+z0XcauKmrOqyAG1kbo=" 36911097000003 1752777266 1373056 (Some (Some 0)) (Some 0)
      (Some (m (Some acc_2) (Some acc_2) (Some "997607200") (Some "1595213") (Some "0xae42e5a4")
       "te6cckECDwEAAeIAARiuQuWkAAAAAAAAAAABAgoOw8htAgIDAAABaCIAAAylVschFfb6H/c6NrbJTptO3VkqNFNOqJuDdTS8Wx0juaygAAAAAAAAAAAAAAAAAAEEAggAAAAoBQYBYYAAAAAAAAAAAAAAAAAAAACAAAAAAAAAAAAAAAAAAAAAAAAAAAAAAAAAAAAAADf5gkAHAQHACADi0LAAUYmshNOh1nWEdwB3eJHd51H6EH1kg3v2M30y32eQAAAAAAAAAAAAAAAAAAAAAUpJdu7qqkuHa3LsRaa5CRn9fDJDIDzbdxOicwkwq5zuziLdV9E0qCGdEjz+cgONI+AFI+B0iXA5mQlcOE8fSQ0BAtAJBECuplJDZwAPtKCqILHU9j2q0e2enfcWPyMJZzYQ8vN9SwoOCwwAhDB4NTI0MjMxMmIwODNjYWQ3ODRiMmNlMWE5NDVkY2M4MzE0YzUxZjUxZmYwN2VkM2Y0M2JhOTJjNjQyNDRlOGMwZgCEMDplMWU2MzNlYjcwMWIxMThiNDQyOTc3MTZjZWU3MDY5ZWU4NDdiNTZkYjg4YzQ5N2VmZWE2ODFlZDE0YjJkMmM3AgANDgBA7SLfNCGa4mA5/Zd9jkGa4U14sZLp213Po1l4mQlkcNEACHRvbjIcdRcP"))
      [m (Some acc_2) (Some acc_5) (Some "1997988000") (Some "1341344") (Some "0x00000028")
       "te6cckECCwEAAZEAAggAAAAoAQIBYYAAAAAAAAAAAAAAAAAAAACAAAAAAAAAAAAAAAAAAAAAAAAAAAAAAAAAAAAAADf5gkADAQHABADi0LAAUYmshNOh1nWEdwB3eJHd51H6EH1kg3v2M30y32eQAAAAAAAAAAAAAAAAAAAAAUpJdu7qqkuHa3LsRaa5CRn9fDJDIDzbdxOicwkwq5zuziLdV9E0qCGdEjz+cgONI+AFI+B0iXA5mQlcOE8fSQ0BAtAFBECuplJDZwAPtKCqILHU9j2q0e2enfcWPyMJZzYQ8vN9SwYKBwgAhDB4NTI0MjMxMmIwODNjYWQ3ODRiMmNlMWE5NDVkY2M4MzE0YzUxZjUxZmYwN2VkM2Y0M2JhOTJjNjQyNDRlOGMwZgCEMDplMWU2MzNlYjcwMWIxMThiNDQyOTc3MTZjZWU3MDY5ZWU4NDdiNTZkYjg4YzQ5N2VmZWE2ODFlZDE0YjJkMmM3AgAJCgBA7SLfNCGa4mA5/Zd9jkGa4U14sZLp213Po1l4mQlkcNEACHRvbjJ4oRnE"]);
    ("VE9hXJL0QfScSNs/XdcuEuwJlQErv13jJDjgQrlH+zY=", tx acc_2 "VE9hXJL0QfScSNs/XdcuEuwJlQErv13jJDjgQrlH+zY=" 36911114000001 1752777312 230803 (Some (Some 0)) (Some 0)
      (Some (m (Some acc_5) (Some acc_2) (Some "273600") (Some "301869") (Some "0x00000018")
       "te6cckEBAQEABgAACAAAABhDnyiV"))
      []);
    ("bBZ9Uj9KHO7Nz6y0d/Oab7Yi4hdOf3D0MIAJtuUc9m8=", tx acc_2 "bBZ9Uj9KHO7Nz6y0d/Oab7Yi4hdOf3D0MIAJtuUc9m8=" 36911097000001 1752777266 5995732 (Some (Some 0)) (Some 0)
      (Some (m None (Some acc_2) None None (Some "0x40d72bd3")
       "te6cckECEgEAAnIAAYBA1yvTFeljkVVpkOJ07jmCtEeXoHY7IadvFkkZ8r4pphSdzgN/sz8b9qDHDu1X3NS4J0GGAu11YgymjfJ7HKkFAQElAAAQrQIAAAAAAAAA0PKD4gBwhAIBaCIASB6sIYOZYOBEtvhlocJ+BFYBr5o+zKE6+jiV8IQfAcqh3NZQAAAAAAAAAAAAAAAAAAEDARiuQuWkAAAAAAAAAAAEAgoOw8htAgUGAAABaCIAAAylVschFfb6H/c6NrbJTptO3VkqNFNOqJuDdTS8Wx0juaygAAAAAAAAAAAAAAAAAAEHAggAAAAoCAkBYYAAAAAAAAAAAAAAAAAAAACAAAAAAAAAAAAAAAAAAAAAAAAAAAAAAAAAAAAAADf5gkAKAQHACwDi0LAAUYmshNOh1nWEdwB3eJHd51H6EH1kg3v2M30y32eQAAAAAAAAAAAAAAAAAAAAAUpJdu7qqkuHa3LsRaa5CRn9fDJDIDzbdxOicwkwq5zuziLdV9E0qCGdEjz+cgONI+AFI+B0iXA5mQlcOE8fSQ0BAtAMBECuplJDZwAPtKCqILHU9j2q0e2enfcWPyMJZzYQ8vN9Sw0RDg8AhDB4NTI0MjMxMmIwODNjYWQ3ODRiMmNlMWE5NDVkY2M4MzE0YzUxZjUxZmYwN2VkM2Y0M2JhOTJjNjQyNDRlOGMwZgCEMDplMWU2MzNlYjcwMWIxMThiNDQyOTc3MTZjZWU3MDY5ZWU4NDdiNTZkYjg4YzQ5N2VmZWE2ODFlZDE0YjJkMmM3AgAQEQBA7SLfNCGa4mA5/Zd9jkGa4U14sZLp213Po1l4mQlkcNEACHRvbjLNLAQg"))
      [m (Some acc_2) (Some acc_2) (Some "997607200") (Some "1595213") (Some "0xae42e5a4")
       "te6cckECDwEAAeIAARiuQuWkAAAAAAAAAAABAgoOw8htAgIDAAABaCIAAAylVschFfb6H/c6NrbJTptO3VkqNFNOqJuDdTS8Wx0juaygAAAAAAAAAAAAAAAAAAEEAggAAAAoBQYBYYAAAAAAAAAAAAAAAAAAAACAAAAAAAAAAAAAAAAAAAAAAAAAAAAAAAAAAAAAADf5gkAHAQHACADi0LAAUYmshNOh1nWEdwB3eJHd51H6EH1kg3v2M30y32eQAAAAAAAAAAAAAAAAAAAAAUpJdu7qqkuHa3LsRaa5CRn9fDJDIDzbdxOicwkwq5zuziLdV9E0qCGdEjz+cgONI+AFI+B0iXA5mQlcOE8fSQ0BAtAJBECuplJDZwAPtKCqILHU9j2q0e2enfcWPyMJZzYQ8vN9SwoOCwwAhDB4NTI0MjMxMmIwODNjYWQ3ODRiMmNlMWE5NDVkY2M4MzE0YzUxZjUxZmYwN2VkM2Y0M2JhOTJjNjQyNDRlOGMwZgCEMDplMWU2MzNlYjcwMWIxMThiNDQyOTc3MTZjZWU3MDY5ZWU4NDdiNTZkYjg4YzQ5N2VmZWE2ODFlZDE0YjJkMmM3AgANDgBA7SLfNCGa4mA5/Zd9jkGa4U14sZLp213Po1l4mQlkcNEACHRvbjIcdRcP"]);
    ("nSkwPWFT+wvaaCDSZo7GGbdqvyKczd69+2i+g968aPQ=", tx acc_8 "nSkwPWFT+wvaaCDSZo7GGbdqvyKczd69+2i+g968aPQ=" 36911106000001 1752777292 994400 (Some (Some 0)) (Some 0)
      (Some (m (Some acc_5) (Some acc_8) (Some "6988800") (Some "2007482") (Some "0x00000000")
       "te6cckEBAQEABgAACAAAAADjAK8P"))
      []);
    ("o991Tiip5kMUWf6dVKauLq0vA4tih6CYjVLu2OIhDMw=", tx acc_5 "o991Tiip5kMUWf6dVKauLq0vA4tih6CYjVLu2OIhDMw=" 36911110000001 1752777299 6588154 (Some (Some 0)) (Some 0)
      (Some (m (Some acc_8) (Some acc_5) (Some "5883600") (Some "959741") (Some "0x0000000d")
       "te6cckECBwEAAQMAAUsAAAANgBIHqwhg5lg4ES2+GWhwn4EVgGvmj7MoTr6OJXwhB8BysAEEAAIGAwQAhDB4NTI0MjMxMmIwODNjYWQ3ODRiMmNlMWE5NDVkY2M4MzE0YzUxZjUxZmYwN2VkM2Y0M2JhOTJjNjQyNDRlOGMwZgCEMDplMWU2MzNlYjcwMWIxMThiNDQyOTc3MTZjZWU3MDY5ZWU4NDdiNTZkYjg4YzQ5N2VmZWE2ODFlZDE0YjJkMmM3AkCuplJDZwAPtKCqILHU9j2q0e2enfcWPyMJZzYQ8vN9SwUGAEDtIt80IZriYDn9l32OQZrhTXixkunbXc+jWXiZCWRw0QAIdG9uMvoeVJY="))
      [m (Some acc_5) None None None None
       "te6cckEBBgEA2gAEAAEFAgMAhDB4NTI0MjMxMmIwODNjYWQ3ODRiMmNlMWE5NDVkY2M4MzE0YzUxZjUxZmYwN2VkM2Y0M2JhOTJjNjQyNDRlOGMwZgCEMDplMWU2MzNlYjcwMWIxMThiNDQyOTc3MTZjZWU3MDY5ZWU4NDdiNTZkYjg4YzQ5N2VmZWE2ODFlZDE0YjJkMmM3AkCuplJDZwAPtKCqILHU9j2q0e2enfcWPyMJZzYQ8vN9SwQFAEDtIt80IZriYDn9l32OQZrhTXixkunbXc+jWXiZCWRw0QAIdG9uMrAl3EY=";
       m (Some acc_5) (Some acc_2) (Some "273600") (Some "301869") (Some "0x00000018")
       "te6cckEBAQEABgAACAAAABhDnyiV"]);
    ("ygOAfQPMKkzmDRshe9aQh680TiYe4P+sJlWmg18gWsQ=", tx acc_8 "ygOAfQPMKkzmDRshe9aQh680TiYe4P+sJlWmg18gWsQ=" 36911106000002 1752777292 2597059 (Some (Some 0)) (Some 0)
      (Some (m (Some acc_5) (Some acc_8) (Some "9440400") (Some "373070") (Some "0x00000007")
       "te6cckEBAQEAKAAASwAAAAeAEgerCGDmWDgRLb4ZaHCfgRWAa+aPsyhOvo4lfCEHwHKwzaV6Gg=="))
      [m (Some acc_8) (Some acc_5) (Some "5883600") (Some "959741") (Some "0x0000000d")
       "te6cckECBwEAAQMAAUsAAAANgBIHqwhg5lg4ES2+GWhwn4EVgGvmj7MoTr6OJXwhB8BysAEEAAIGAwQAhDB4NTI0MjMxMmIwODNjYWQ3ODRiMmNlMWE5NDVkY2M4MzE0YzUxZjUxZmYwN2VkM2Y0M2JhOTJjNjQyNDRlOGMwZgCEMDplMWU2MzNlYjcwMWIxMThiNDQyOTc3MTZjZWU3MDY5ZWU4NDdiNTZkYjg4YzQ5N2VmZWE2ODFlZDE0YjJkMmM3AkCuplJDZwAPtKCqILHU9j2q0e2enfcWPyMJZzYQ8vN9SwUGAEDtIt80IZriYDn9l32OQZrhTXixkunbXc+jWXiZCWRw0QAIdG9uMvoeVJY="])]
    ["bBZ9Uj9KHO7Nz6y0d/Oab7Yi4hdOf3D0MIAJtuUc9m8="; "SXPaJBqZMIMzdKbk07qesieO+z0XcauKmrOqyAG1kbo="; "9vwb+hsEQUyg69us4k/aRYptMEYart+ycHSrPE0052I="; "nSkwPWFT+wvaaCDSZo7GGbdqvyKczd69+2i+g968aPQ="; "ygOAfQPMKkzmDRshe9aQh680TiYe4P+sJlWmg18gWsQ="; "o991Tiip5kMUWf6dVKauLq0vA4tih6CYjVLu2OIhDMw="; "8eC9fP1Tt28eB0eIwz1w90//mPt+Q1BbCYhwia0GcZM="; "VE9hXJL0QfScSNs/XdcuEuwJlQErv13jJDjgQrlH+zY="].

Definition rest_3 : TraceRest :=
  recorded "LjoKx3YzvuxkeXgHY5M5Q0P3XMICcbCmNyV1dG8kEBs=" false 36731778000001 36731778000006 [
    ("LjoKx3YzvuxkeXgHY5M5Q0P3XMICcbCmNyV1dG8kEBs=", tx acc_6 "LjoKx3YzvuxkeXgHY5M5Q0P3XMICcbCmNyV1dG8kEBs=" 36731778000001 1752337322 3632980 (Some (Some 0)) (Some 0)
      (Some (m None (Some acc_6) None None (Some "0x7369676e")
       "te6cckECBwEAAToAAaFzaWduf///EWhyi+YAAACdtLuCKt7n88oEaeI10fiPz5GcpCoH0O+aqiLk8pk04s8rhcRlFSyTskjg8raz+QmOYkEx5iGSlO6X10VdYHcyg+ABAgoOw8htAgIDAAADcGIAAAylVschFfb6H/c6NrbJTptO3VkqNFNOqJuDdTS8Wx0gL68IAAAAAAAAAAAAAAAAAAAAAAAJBAUGABxhdmFsYW5jaGUtZnVqaQBUMHhkNzA2N0FlM0MzNTllODM3ODkwYjI4QjdCRDBkMjA4NENmRGY0OWI1AMAAAAAAAAAAAAAAAAAAAAAAAAAAAAAAAAAAAAAAAAAAIAAAAAAAAAAAAAAAAAAAAAAAAAAAAAAAAAAAAAAAAAATSGVsbG8gZnJvbSBSZWxheWVyIQAAAAAAAAAAAAAAAAAAW66a"))
      [m (Some acc_6) (Some acc_5) (Some "98993600") (Some "670939") (Some "0x00000009")
       "te6cckEBBAEApwADCAAAAAkBAgMAHGF2YWxhbmNoZS1mdWppAFQweGQ3MDY3QWUzQzM1OWU4Mzc4OTBiMjhCN0JEMGQyMDg0Q2ZEZjQ5YjUAwAAAAAAAAAAAAAAAAAAAAAAAAAAAAAAAAAAAAAAAAAAgAAAAAAAAAAAAAAAAAAAAAAAAAAAAAAAAAAAAAAAAABNIZWxsbyBmcm9tIFJlbGF5ZXIhAAAAAAAAAAAAAAAAAGu4UHQ="]);
    ("hfq/ES2XaaRTqciH0MoGBPk0GLaP4xO0YX0DzcqGISc=", tx acc_5 "hfq/ES2XaaRTqciH0MoGBPk0GLaP4xO0YX0DzcqGISc=" 36731778000003 1752337322 6545846 (Some (Some 0)) (Some 0)
      (Some (m (Some acc_6) (Some acc_5) (Some "98993600") (Some "670939") (Some "0x00000009")
       "te6cckEBBAEApwADCAAAAAkBAgMAHGF2YWxhbmNoZS1mdWppAFQweGQ3MDY3QWUzQzM1OWU4Mzc4OTBiMjhCN0JEMGQyMDg0Q2ZEZjQ5YjUAwAAAAAAAAAAAAAAAAAAAAAAAAAAAAAAAAAAAAAAAAAAgAAAAAAAAAAAAAAAAAAAAAAAAAAAAAAAAAAAAAAAAABNIZWxsbyBmcm9tIFJlbGF5ZXIhAAAAAAAAAAAAAAAAAGu4UHQ="))
      [m (Some acc_5) None None None (Some "0x801c3cc6")
       "te6cckEBBAEA5QADg4AcPMZ9bgNiMWiFLuLZ3ODT3Qj2rbcRiS/f1NA9opZaWPXUykhs4AH2lBVEFjqex7VaPbPTvuLH5GEs5sIeXm+pcAECAwAcYXZhbGFuY2hlLWZ1amkAVDB4ZDcwNjdBZTNDMzU5ZTgzNzg5MGIyOEI3QkQwZDIwODRDZkRmNDliNQDAAAAAAAAAAAAAAAAAAAAAAAAAAAAAAAAAAAAAAAAAACAAAAAAAAAAAAAAAAAAAAAAAAAAAAAAAAAAAAAAAAAAE0hlbGxvIGZyb20gUmVsYXllciEAAAAAAAAAAAAAAAAAne0F4Q==";
       m (Some acc_5) (Some acc_6) (Some "93402800") (Some "301869") (Some "0x00000018")
       "te6cckEBAQEABgAACAAAABhDnyiV"]);
    ("vdR7elG1GpBbF7gkHsX72jjB77U05COYCY1GeZwKCKg=", tx acc_6 "vdR7elG1GpBbF7gkHsX72jjB77U05COYCY1GeZwKCKg=" 36731778000006 1752337322 311200 (Some (Some 0)) (Some 0)
      (Some (m (Some acc_5) (Some acc_6) (Some "93402800") (Some "301869") (Some "0x00000018")
       "te6cckEBAQEABgAACAAAABhDnyiV"))
      [])]
    ["LjoKx3YzvuxkeXgHY5M5Q0P3XMICcbCmNyV1dG8kEBs="; "hfq/ES2XaaRTqciH0MoGBPk0GLaP4xO0YX0DzcqGISc="; "vdR7elG1GpBbF7gkHsX72jjB77U05COYCY1GeZwKCKg="].

Definition rest_4 : TraceRest :=
  recorded "BYj9wl/+JT4vdVzVsWI/XS04AKl/1SbQgsaF9CED1Mw=" false 36758111000001 36758111000006 [
    ("BYj9wl/+JT4vdVzVsWI/XS04AKl/1SbQgsaF9CED1Mw=", tx acc_6 "BYj9wl/+JT4vdVzVsWI/XS04AKl/1SbQgsaF9CED1Mw=" 36758111000001 1752401743 4832821 (Some (Some 0)) (Some 0)
      (Some (m None (Some acc_6) None None (Some "0x7369676e")
       "te6cckECCgEAAccAAaFzaWduf///EWhzh4YAAACjqqJEF5DQHzJBspFXfJaYNnXVgDsXPRiT3ZoPXjQqxIFIaxeNDb8+Gx8jZMEhdMrtjW53mQ8Z+A9rEY5F/U46wyABAgoOw8htAgIDAgoOw8htAgQFBLNiAC4+dEDwkL3veILNrE5c/vRU0KPHq2ahBjfgOVJiBERHoA5OHAAAAAAAAAAAAAAAAAAAAAAAH4AcPMZ9bgNiMWiFLuLZ3ODT3Qj2rbcRiS/f1NA9opZaWPAGBwgJAAADcGIAAAylVschFfb6H/c6NrbJTptO3VkqNFNOqJuDdTS8Wx0gL68IAAAAAAAAAAAAAAAAAAAAAAAJBgcIABxhdmFsYW5jaGUtZnVqaQBUMHhkNzA2N0FlM0MzNTllODM3ODkwYjI4QjdCRDBkMjA4NENmRGY0OWI1AMAAAAAAAAAAAAAAAAAAAAAAAAAAAAAAAAAAAAAAAAAAIAAAAAAAAAAAAAAAAAAAAAAAAAAAAAAAAAAAAAAAAAATSGVsbG8gZnJvbSBSZWxheWVyIQAAAAAAAAAAAAAAAAAAQ4AcPMZ9bgNiMWiFLuLZ3ODT3Qj2rbcRiS/f1NA9opZaWPBOMtVG"))
      [m (Some acc_6) (Some acc_5) (Some "98993600") (Some "670939") (Some "0x00000009")
       "te6cckEBBAEApwADCAAAAAkBAgMAHGF2YWxhbmNoZS1mdWppAFQweGQ3MDY3QWUzQzM1OWU4Mzc4OTBiMjhCN0JEMGQyMDg0Q2ZEZjQ5YjUAwAAAAAAAAAAAAAAAAAAAAAAAAAAAAAAAAAAAAAAAAAAgAAAAAAAAAAAAAAAAAAAAAAAAAAAAAAAAAAAAAAAAABNIZWxsbyBmcm9tIFJlbGF5ZXIhAAAAAAAAAAAAAAAAAGu4UHQ=";
       m (Some acc_6) (Some acc_7) (Some "28846800") (Some "768806") (Some "0x0000001f")
       "te6cckEBBQEA7gAESwAAAB+AHDzGfW4DYjFohS7i2dzg090I9q23EYkv39TQPaKWWljwAQIDBAAcYXZhbGFuY2hlLWZ1amkAVDB4ZDcwNjdBZTNDMzU5ZTgzNzg5MGIyOEI3QkQwZDIwODRDZkRmNDliNQDAAAAAAAAAAAAAAAAAAAAAAAAAAAAAAAAAAAAAAAAAACAAAAAAAAAAAAAAAAAAAAAAAAAAAAAAAAAAAAAAAAAAE0hlbGxvIGZyb20gUmVsYXllciEAAAAAAAAAAAAAAAAAAEOAHDzGfW4DYjFohS7i2dzg090I9q23EYkv39TQPaKWWljw2q7yaw=="]);
    ("Ptv+ldOh9sTQOvwx23nPD8t6iGmm2RZVgUBXBk/jyrU=", tx acc_7 "Ptv+ldOh9sTQOvwx23nPD8t6iGmm2RZVgUBXBk/jyrU=" 36758111000004 1752401743 4946027 (Some (Some 0)) (Some 0)
      (Some (m (Some acc_6) (Some acc_7) (Some "28846800") (Some "768806") (Some "0x0000001f")
       "te6cckEBBQEA7gAESwAAAB+AHDzGfW4DYjFohS7i2dzg090I9q23EYkv39TQPaKWWljwAQIDBAAcYXZhbGFuY2hlLWZ1amkAVDB4ZDcwNjdBZTNDMzU5ZTgzNzg5MGIyOEI3QkQwZDIwODRDZkRmNDliNQDAAAAAAAAAAAAAAAAAAAAAAAAAAAAAAAAAAAAAAAAAACAAAAAAAAAAAAAAAAAAAAAAAAAAAAAAAAAAAAAAAAAAE0hlbGxvIGZyb20gUmVsYXllciEAAAAAAAAAAAAAAAAAAEOAHDzGfW4DYjFohS7i2dzg090I9q23EYkv39TQPaKWWljw2q7yaw=="))
      [m (Some acc_7) None None None (Some "0x801c3cc6")
       "te6cckEBBAEAxwADw4AcPMZ9bgNiMWiFLuLZ3ODT3Qj2rbcRiS/f1NA9opZaWPXUykhs4AH2lBVEFjqex7VaPbPTvuLH5GEs5sIeXm+pYAAAAAAAAAAAAAAAAAAAAAAAAAAAAAAAAAAAAAA3BVoQAQIDAEOAHDzGfW4DYjFohS7i2dzg090I9q23EYkv39TQPaKWWljwABxhdmFsYW5jaGUtZnVqaQBUMHhkNzA2N0FlM0MzNTllODM3ODkwYjI4QjdCRDBkMjA4NENmRGY0OWI1+B8bUw=="]);
    ("gponY1DmlS2avfaEMmL3vhyQIeWNyLK3+Y0UeQoao8A=", tx acc_6 "gponY1DmlS2avfaEMmL3vhyQIeWNyLK3+Y0UeQoao8A=" 36758111000006 1752401743 311200 (Some (Some 0)) (Some 0)
      (Some (m (Some acc_5) (Some acc_6) (Some "93402800") (Some "301869") (Some "0x00000018")
       "te6cckEBAQEABgAACAAAABhDnyiV"))
      []);
    ("yu5aLA6sDj3WZtRAk0hxx04hwtVr44qfy4x5BcRJFys=", tx acc_5 "yu5aLA6sDj3WZtRAk0hxx04hwtVr44qfy4x5BcRJFys=" 36758111000003 1752401743 6545213 (Some (Some 0)) (Some 0)
      (Some (m (Some acc_6) (Some acc_5) (Some "98993600") (Some "670939") (Some "0x00000009")
       "te6cckEBBAEApwADCAAAAAkBAgMAHGF2YWxhbmNoZS1mdWppAFQweGQ3MDY3QWUzQzM1OWU4Mzc4OTBiMjhCN0JEMGQyMDg0Q2ZEZjQ5YjUAwAAAAAAAAAAAAAAAAAAAAAAAAAAAAAAAAAAAAAAAAAAgAAAAAAAAAAAAAAAAAAAAAAAAAAAAAAAAAAAAAAAAABNIZWxsbyBmcm9tIFJlbGF5ZXIhAAAAAAAAAAAAAAAAAGu4UHQ="))
      [m (Some acc_5) None None None (Some "0x801c3cc6")
       "te6cckEBBAEA5QADg4AcPMZ9bgNiMWiFLuLZ3ODT3Qj2rbcRiS/f1NA9opZaWPXUykhs4AH2lBVEFjqex7VaPbPTvuLH5GEs5sIeXm+pcAECAwAcYXZhbGFuY2hlLWZ1amkAVDB4ZDcwNjdBZTNDMzU5ZTgzNzg5MGIyOEI3QkQwZDIwODRDZkRmNDliNQDAAAAAAAAAAAAAAAAAAAAAAAAAAAAAAAAAAAAAAAAAACAAAAAAAAAAAAAAAAAAAAAAAAAAAAAAAAAAAAAAAAAAE0hlbGxvIGZyb20gUmVsYXllciEAAAAAAAAAAAAAAAAAne0F4Q==";
       m (Some acc_5) (Some acc_6) (Some "93402800") (Some "301869") (Some "0x00000018")
       "te6cckEBAQEABgAACAAAABhDnyiV"])]
    ["BYj9wl/+JT4vdVzVsWI/XS04AKl/1SbQgsaF9CED1Mw="; "yu5aLA6sDj3WZtRAk0hxx04hwtVr44qfy4x5BcRJFys="; "Ptv+ldOh9sTQOvwx23nPD8t6iGmm2RZVgUBXBk/jyrU="; "gponY1DmlS2avfaEMmL3vhyQIeWNyLK3+Y0UeQoao8A="].

Definition rest_5 : TraceRest :=
  recorded "SjK/Dc7sl24UqFLCgfcEI7swVtdg6oiMqo3mnJC6wok=" false 36768406000001 36768406000003 [
    ("SjK/Dc7sl24UqFLCgfcEI7swVtdg6oiMqo3mnJC6wok=", tx acc_6 "SjK/Dc7sl24UqFLCgfcEI7swVtdg6oiMqo3mnJC6wok=" 36768406000001 1752426914 3121869 (Some (Some 0)) (Some 0)
      (Some (m None (Some acc_6) None None (Some "0x7369676e")
       "te6cckEBBAEA2wABoXNpZ25///8RaHPp3QAAAKmBt96JIjrvSorce1tOPgWqq4piEB+sZ395xCZQLs1hUwaqweiMMj3+ZTN6dI1Hfh1MsnWini8oFHHQjOzXKy0DIAECCg7DyG0CAgMAAADzYgAuPnRA8JC973iCzaxOXP70VNCjx6tmoQY34DlSYgRER6CPDRgAAAAAAAAAAAAAAAAAAAAAADYOb3WfaO25cswcWsKK5EoCZWfDnQpn1x3pCXihIQamuoAcPMZ9bgNiMWiFLuLZ3ODT3Qj2rbcRiS/f1NA9opZaWPCJQc6q"))
      [m (Some acc_6) (Some acc_7) (Some "299338000") (Some "441337") (Some "0x00000036")
       "te6cckEBAQEASAAAiwAAADYOb3WfaO25cswcWsKK5EoCZWfDnQpn1x3pCXihIQamuoAcPMZ9bgNiMWiFLuLZ3ODT3Qj2rbcRiS/f1NA9opZaWPCdyKUf"]);
    ("hlbJSt6b0kkNh0We16gyIxE5WyDRDltaKIYOmfEZtAs=", tx acc_7 "hlbJSt6b0kkNh0We16gyIxE5WyDRDltaKIYOmfEZtAs=" 36768406000003 1752426914 3353682 (Some (Some 0)) (Some 0)
      (Some (m (Some acc_6) (Some acc_7) (Some "299338000") (Some "441337") (Some "0x00000036")
       "te6cckEBAQEASAAAiwAAADYOb3WfaO25cswcWsKK5EoCZWfDnQpn1x3pCXihIQamuoAcPMZ9bgNiMWiFLuLZ3ODT3Qj2rbcRiS/f1NA9opZaWPCdyKUf"))
      [m (Some acc_7) None None None (Some "0x0e6f759f")
       "te6cckEBAQEAZAAAww5vdZ9o7blyzBxaworkSgJlZ8OdCmfXHekJeKEhBqa6gBw8xn1uA2IxaIUu4tnc4NPdCPattxGJL9/U0D2illpY4AAAAAAAAAAAAAAAAAAAAAAAAAAAAAAAAAAAAAI68SIQfPwIyg=="])]
    ["SjK/Dc7sl24UqFLCgfcEI7swVtdg6oiMqo3mnJC6wok="; "hlbJSt6b0kkNh0We16gyIxE5WyDRDltaKIYOmfEZtAs="].

Definition rest_6 : TraceRest :=
  recorded "H5U7Xa/84KzWb/gxQ66WJWIEW0JyI1WB1Ih4peM0G90=" false 36300947000001 36300947000014 [
    ("H5U7Xa/84KzWb/gxQ66WJWIEW0JyI1WB1Ih4peM0G90=", tx acc_2 "H5U7Xa/84KzWb/gxQ66WJWIEW0JyI1WB1Ih4peM0G90=" 36300947000001 1751291309 5992453 (Some (Some 0)) (Some 0)
      (Some (m None (Some acc_2) None None (Some "0x7c74750e")
       "te6cckECEwEAAmwAAYB8dHUOQCTSk8YaGTW4v7h93FT5DCk+ZDugkQVaZxL8HqOmsAb270Q3M0zXIpoklxY6ZQw6f7zbbeu/X3tHOekDAQElAAAQrQEAAAgAAAAA0MUq3ABwhAIBaCIASB6sIYOZYOBEtvhlocJ+BFYBr5o+zKE6+jiV8IQfAcqh3NZQAAAAAAAAAAAAAAAAAAEDARiuQuWkAAAAAAAAAAQEAgoOw8htAQUGAAABaCIATvNiA2iWGfNORpjL8OrX5PYymUh6AdelApilXFAj71mjuaygAAAAAAAAAAAAAAAAAAEHAggAAAAoCAkBYYAAAAAAAAAAAAAAAAAAAACAAAAAAAAAAAAAAAAAAAAAAAAAAAAAAAAAAAAAADf5gkAKAQHACwDi0LAAUYmshNOh1nWEdwB3eJHd51H6EH1kg3v2M30y32eQAAAAAAAAAAAAAAAAAAAAAcHen82Xabi1hL6vbDjjlhxKNr/kjBB1JqoQqA6V9Av4UV/9vsdVqusA1llsfvNCaPEnVYgd/MyQ7CQj9ivt5w4BAtAMBECeAcQjykQMXsK+7MnQoVK1T8jnpBbJMbcInq8iFgWvFw0ODxAAiDB4ZjM4ZDJhNjQ2ZTRiNjBlMzdiYzE2ZDU0YmI5MTYzNzM5MzcyNTk0ZGM5NmJhYjk1NGE4NWI0YTE3MGY0OWU1OC0xABxhdmFsYW5jaGUtZnVqaQBUMHhkNzA2N0FlM0MzNTllODM3ODkwYjI4QjdCRDBkMjA4NENmRGY0OWI1AgAREgBAuHpKD2RLehhu5xoUVGNPcMIqYqyhprpna1F1wh1/2TAACHRvbjJ6mtyU"))
      [m (Some acc_2) (Some acc_2) (Some "1000000000") (Some "1604813") (Some "0xae42e5a4")
       "te6cckECEAEAAdwAARiuQuWkAAAAAAAAAAQBAgoOw8htAQIDAAABaCIATvNiA2iWGfNORpjL8OrX5PYymUh6AdelApilXFAj71mjuaygAAAAAAAAAAAAAAAAAAEEAggAAAAoBQYBYYAAAAAAAAAAAAAAAAAAAACAAAAAAAAAAAAAAAAAAAAAAAAAAAAAAAAAAAAAADf5gkAHAQHACADi0LAAUYmshNOh1nWEdwB3eJHd51H6EH1kg3v2M30y32eQAAAAAAAAAAAAAAAAAAAAAcHen82Xabi1hL6vbDjjlhxKNr/kjBB1JqoQqA6V9Av4UV/9vsdVqusA1llsfvNCaPEnVYgd/MyQ7CQj9ivt5w4BAtAJBECeAcQjykQMXsK+7MnQoVK1T8jnpBbJMbcInq8iFgWvFwoLDA0AiDB4ZjM4ZDJhNjQ2ZTRiNjBlMzdiYzE2ZDU0YmI5MTYzNzM5MzcyNTk0ZGM5NmJhYjk1NGE4NWI0YTE3MGY0OWU1OC0xABxhdmFsYW5jaGUtZnVqaQBUMHhkNzA2N0FlM0MzNTllODM3ODkwYjI4QjdCRDBkMjA4NENmRGY0OWI1AgAODwBAuHpKD2RLehhu5xoUVGNPcMIqYqyhprpna1F1wh1/2TAACHRvbjLORP2C"]);
    ("HNX6ypfWCjya32+S4OkwxuK1Uc7J43hdyTlF9ymlNls=", tx acc_2 "HNX6ypfWCjya32+S4OkwxuK1Uc7J43hdyTlF9ymlNls=" 36300947000014 1751291309 230800 (Some (Some 0)) (Some 0)
      (Some (m (Some acc_0) (Some acc_2) (Some "140465600") (Some "301869") (Some "0x00000018")
       "te6cckEBAQEABgAACAAAABhDnyiV"))
      []);
    ("PdyMOJS4/CJHtmvpJgvORRVmajd01fVMLBapVVdtPD0=", tx acc_1 "PdyMOJS4/CJHtmvpJgvORRVmajd01fVMLBapVVdtPD0=" 36300947000007 1751291309 2096664 (Some (Some 0)) (Some 0)
      (Some (m (Some acc_0) (Some acc_1) (Some "6993600") (Some "2004282") (Some "0x00000000")
       "te6cckEBAQEABgAACAAAAADjAK8P"))
      [m (Some acc_1) (Some acc_0) (Some "4603600") (Some "293336") None
       "te6cckEBAQEAAgAAAEysuc0="]);
    ("PeTd9srW35ANcxXl0Vksa0Twm3Sxu5Gy1J4rzIGIyu0=", tx acc_2 "PeTd9srW35ANcxXl0Vksa0Twm3Sxu5Gy1J4rzIGIyu0=" 36300947000003 1751291309 1377856 (Some (Some 0)) (Some 0)
      (Some (m (Some acc_2) (Some acc_2) (Some "1000000000") (Some "1604813") (Some "0xae42e5a4")
       "te6cckECEAEAAdwAARiuQuWkAAAAAAAAAAQBAgoOw8htAQIDAAABaCIATvNiA2iWGfNORpjL8OrX5PYymUh6AdelApilXFAj71mjuaygAAAAAAAAAAAAAAAAAAEEAggAAAAoBQYBYYAAAAAAAAAAAAAAAAAAAACAAAAAAAAAAAAAAAAAAAAAAAAAAAAAAAAAAAAAADf5gkAHAQHACADi0LAAUYmshNOh1nWEdwB3eJHd51H6EH1kg3v2M30y32eQAAAAAAAAAAAAAAAAAAAAAcHen82Xabi1hL6vbDjjlhxKNr/kjBB1JqoQqA6V9Av4UV/9vsdVqusA1llsfvNCaPEnVYgd/MyQ7CQj9ivt5w4BAtAJBECeAcQjykQMXsK+7MnQoVK1T8jnpBbJMbcInq8iFgWvFwoLDA0AiDB4ZjM4ZDJhNjQ2ZTRiNjBlMzdiYzE2ZDU0YmI5MTYzNzM5MzcyNTk0ZGM5NmJhYjk1NGE4NWI0YTE3MGY0OWU1OC0xABxhdmFsYW5jaGUtZnVqaQBUMHhkNzA2N0FlM0MzNTllODM3ODkwYjI4QjdCRDBkMjA4NENmRGY0OWI1AgAODwBAuHpKD2RLehhu5xoUVGNPcMIqYqyhprpna1F1wh1/2TAACHRvbjLORP2C"))
      [m (Some acc_2) (Some acc_0) (Some "2000000000") (Some "1350944") (Some "0x00000028")
       "te6cckECDAEAAYsAAggAAAAoAQIBYYAAAAAAAAAAAAAAAAAAAACAAAAAAAAAAAAAAAAAAAAAAAAAAAAAAAAAAAAAADf5gkADAQHABADi0LAAUYmshNOh1nWEdwB3eJHd51H6EH1kg3v2M30y32eQAAAAAAAAAAAAAAAAAAAAAcHen82Xabi1hL6vbDjjlhxKNr/kjBB1JqoQqA6V9Av4UV/9vsdVqusA1llsfvNCaPEnVYgd/MyQ7CQj9ivt5w4BAtAFBECeAcQjykQMXsK+7MnQoVK1T8jnpBbJMbcInq8iFgWvFwYHCAkAiDB4ZjM4ZDJhNjQ2ZTRiNjBlMzdiYzE2ZDU0YmI5MTYzNzM5MzcyNTk0ZGM5NmJhYjk1NGE4NWI0YTE3MGY0OWU1OC0xABxhdmFsYW5jaGUtZnVqaQBUMHhkNzA2N0FlM0MzNTllODM3ODkwYjI4QjdCRDBkMjA4NENmRGY0OWI1AgAKCwBAuHpKD2RLehhu5xoUVGNPcMIqYqyhprpna1F1wh1/2TAACHRvbjIHS1po"]);
    ("QtrgJ6bXID62GMImKknexiFQFGL/bk+K27KStElTBvk=", tx acc_0 "QtrgJ6bXID62GMImKknexiFQFGL/bk+K27KStElTBvk=" 36300947000005 1751291309 17688692 (Some (Some 0)) (Some 0)
      (Some (m (Some acc_2) (Some acc_0) (Some "2000000000") (Some "1350944") (Some "0x00000028")
       "te6cckECDAEAAYsAAggAAAAoAQIBYYAAAAAAAAAAAAAAAAAAAACAAAAAAAAAAAAAAAAAAAAAAAAAAAAAAAAAAAAAADf5gkADAQHABADi0LAAUYmshNOh1nWEdwB3eJHd51H6EH1kg3v2M30y32eQAAAAAAAAAAAAAAAAAAAAAcHen82Xabi1hL6vbDjjlhxKNr/kjBB1JqoQqA6V9Av4UV/9vsdVqusA1llsfvNCaPEnVYgd/MyQ7CQj9ivt5w4BAtAFBECeAcQjykQMXsK+7MnQoVK1T8jnpBbJMbcInq8iFgWvFwYHCAkAiDB4ZjM4ZDJhNjQ2ZTRiNjBlMzdiYzE2ZDU0YmI5MTYzNzM5MzcyNTk0ZGM5NmJhYjk1NGE4NWI0YTE3MGY0OWU1OC0xABxhdmFsYW5jaGUtZnVqaQBUMHhkNzA2N0FlM0MzNTllODM3ODkwYjI4QjdCRDBkMjA4NENmRGY0OWI1AgAKCwBAuHpKD2RLehhu5xoUVGNPcMIqYqyhprpna1F1wh1/2TAACHRvbjIHS1po"))
      [m (Some acc_0) (Some acc_1) (Some "6993600") (Some "2004282") (Some "0x00000000")
       "te6cckEBAQEABgAACAAAAADjAK8P";
       m (Some acc_0) (Some acc_1) (Some "149440400") (Some "373070") (Some "0x00000007")
       "te6cckEBAQEAKAAASwAAAAeAEgerCGDmWDgRLb4ZaHCfgRWAa+aPsyhOvo4lfCEHwHKwzaV6Gg==";
       m (Some acc_0) (Some acc_2) (Some "1699547200") (Some "301869") (Some "0x00000018")
       "te6cckEBAQEABgAACAAAABhDnyiV"]);
    ("RwUVL9in7fSCxZmVThP0eKM8Qvh3fJpVZQTPxU1mD8I=", tx acc_0 "RwUVL9in7fSCxZmVThP0eKM8Qvh3fJpVZQTPxU1mD8I=" 36300947000011 1751291309 6250131 (Some (Some 0)) (Some 0)
      (Some (m (Some acc_1) (Some acc_0) (Some "145723200") (Some "969341") (Some "0x0000000d")
       "te6cckEBCAEA/QABSwAAAA2AEgerCGDmWDgRLb4ZaHCfgRWAa+aPsyhOvo4lfCEHwHKwAQQAAgMEBQCIMHhmMzhkMmE2NDZlNGI2MGUzN2JjMTZkNTRiYjkxNjM3MzkzNzI1OTRkYzk2YmFiOTU0YTg1YjRhMTcwZjQ5ZTU4LTEAHGF2YWxhbmNoZS1mdWppAFQweGQ3MDY3QWUzQzM1OWU4Mzc4OTBiMjhCN0JEMGQyMDg0Q2ZEZjQ5YjUCQJ4BxCPKRAxewr7sydChUrVPyOekFskxtwieryIWBa8XBgcAQLh6Sg9kS3oYbucaFFRjT3DCKmKsoaa6Z2tRdcIdf9kwAAh0b24ynK4M8w=="))
      [m (Some acc_0) None None None None
       "te6cckEBBwEA1AAEAAECAwQAiDB4ZjM4ZDJhNjQ2ZTRiNjBlMzdiYzE2ZDU0YmI5MTYzNzM5MzcyNTk0ZGM5NmJhYjk1NGE4NWI0YTE3MGY0OWU1OC0xABxhdmFsYW5jaGUtZnVqaQBUMHhkNzA2N0FlM0MzNTllODM3ODkwYjI4QjdCRDBkMjA4NENmRGY0OWI1AkCeAcQjykQMXsK+7MnQoVK1T8jnpBbJMbcInq8iFgWvFwUGAEC4ekoPZEt6GG7nGhRUY09wwipirKGmumdrUXXCHX/ZMAAIdG9uMs9py6Y=";
       m (Some acc_0) (Some acc_2) (Some "140465600") (Some "301869") (Some "0x00000018")
       "te6cckEBAQEABgAACAAAABhDnyiV"]);
    ("ZxmiwtDUmQrXWm5JV2Wu/MBuPTxkXY4H67b13z1EsvM=", tx acc_2 "ZxmiwtDUmQrXWm5JV2Wu/MBuPTxkXY4H67b13z1EsvM=" 36300947000009 1751291309 230800 (Some (Some 0)) (Some 0)
      (Some (m (Some acc_0) (Some acc_2) (Some "1699547200") (Some "301869") (Some "0x00000018")
       "te6cckEBAQEABgAACAAAABhDnyiV"))
      []);
    ("dq93NwyOs30JQhc22SdnfFWOowffd9Yy4ac1VJD9e0Y=", tx acc_1 "dq93NwyOs30JQhc22SdnfFWOowffd9Yy4ac1VJD9e0Y=" 36300947000009 1751291309 2747859 (Some (Some 0)) (Some 0)
      (Some (m (Some acc_0) (Some acc_1) (Some "149440400") (Some "373070") (Some "0x00000007")
       "te6cckEBAQEAKAAASwAAAAeAEgerCGDmWDgRLb4ZaHCfgRWAa+aPsyhOvo4lfCEHwHKwzaV6Gg=="))
      [m (Some acc_1) (Some acc_0) (Some "145723200") (Some "969341") (Some "0x0000000d")
       "te6cckEBCAEA/QABSwAAAA2AEgerCGDmWDgRLb4ZaHCfgRWAa+aPsyhOvo4lfCEHwHKwAQQAAgMEBQCIMHhmMzhkMmE2NDZlNGI2MGUzN2JjMTZkNTRiYjkxNjM3MzkzNzI1OTRkYzk2YmFiOTU0YTg1YjRhMTcwZjQ5ZTU4LTEAHGF2YWxhbmNoZS1mdWppAFQweGQ3MDY3QWUzQzM1OWU4Mzc4OTBiMjhCN0JEMGQyMDg0Q2ZEZjQ5YjUCQJ4BxCPKRAxewr7sydChUrVPyOekFskxtwieryIWBa8XBgcAQLh6Sg9kS3oYbucaFFRjT3DCKmKsoaa6Z2tRdcIdf9kwAAh0b24ynK4M8w=="]);
    ("yHX6Vj4zC+yx8szif0HkKdErkFCuarWN7RtzXUT3ZZA=", tx acc_0 "yHX6Vj4zC+yx8szif0HkKdErkFCuarWN7RtzXUT3ZZA=" 36300947000009 1751291309 1061200 (Some (Some 0)) (Some 0)
      (Some (m (Some acc_1) (Some acc_0) (Some "4603600") (Some "293336") None
       "te6cckEBAQEAAgAAAEysuc0="))
      [])]
    ["H5U7Xa/84KzWb/gxQ66WJWIEW0JyI1WB1Ih4peM0G90="; "PeTd9srW35ANcxXl0Vksa0Twm3Sxu5Gy1J4rzIGIyu0="; "QtrgJ6bXID62GMImKknexiFQFGL/bk+K27KStElTBvk="; "PdyMOJS4/CJHtmvpJgvORRVmajd01fVMLBapVVdtPD0="; "ZxmiwtDUmQrXWm5JV2Wu/MBuPTxkXY4H67b13z1EsvM="; "yHX6Vj4zC+yx8szif0HkKdErkFCuarWN7RtzXUT3ZZA="; "dq93NwyOs30JQhc22SdnfFWOowffd9Yy4ac1VJD9e0Y="; "RwUVL9in7fSCxZmVThP0eKM8Qvh3fJpVZQTPxU1mD8I="; "HNX6ypfWCjya32+S4OkwxuK1Uc7J43hdyTlF9ymlNls="].

Definition rest_7 : TraceRest :=
  recorded "PGxOdsJAsHxFNs9L4MnzAI9h+3H5c7+YA6+VDf6bbv4=" false 36872022000001 36872022000007 [
    ("HbFekh+vKZKeNQkTBanWSiipy2/v0ynpQ4fiafFls3s=", tx acc_9 "HbFekh+vKZKeNQkTBanWSiipy2/v0ynpQ4fiafFls3s=" 36872022000005 1752680876 4297832 (Some (Some 0)) (Some 0)
      (Some (m (Some acc_2) (Some acc_9) (Some "10000000") (Some "450937") (Some "0x00000046")
       "te6cckEBAQEATAAAkwAAAEbrBl2dkwNJ0GQ7lG2WHsYA+A1eXzCrAd9vE2JD7lA1woAcPMZ9bgNiMWiFLuLZ3ODT3Qj2rbcRiS/f1NA9opZaWOgf0V+fVsQuQQ=="))
      [m (Some acc_9) (Some acc_6) (Some "266454799") (Some "301869") (Some "0x00000018")
       "te6cckEBAQEABgAACAAAABhDnyiV";
       m (Some acc_9) None None None (Some "0xeb065d9d")
       "te6cckEBAQEASAAAi+sGXZ2TA0nQZDuUbZYexgD4DV5fMKsB328TYkPuUDXCgBw8xn1uA2IxaIUu4tnc4NPdCPattxGJL9/U0D2illpY6B/RX5+w1u5M"]);
    ("IslKJHqdvYkB8h1cM86/qK/L86fS2GJ6dIzqaGiFNII=", tx acc_6 "IslKJHqdvYkB8h1cM86/qK/L86fS2GJ6dIzqaGiFNII=" 36872022000007 1752680876 311220 (Some (Some 0)) (Some 0)
      (Some (m (Some acc_9) (Some acc_6) (Some "266454799") (Some "301869") (Some "0x00000018")
       "te6cckEBAQEABgAACAAAABhDnyiV"))
      []);
    ("PGxOdsJAsHxFNs9L4MnzAI9h+3H5c7+YA6+VDf6bbv4=", tx acc_2 "PGxOdsJAsHxFNs9L4MnzAI9h+3H5c7+YA6+VDf6bbv4=" 36872022000001 1752680876 4227730 (Some (Some 0)) (Some 0)
      (Some (m None (Some acc_2) None None (Some "0xd884019d")
       "te6cckECCAEAASwAAYDYhAGdUDwbxrEqiRPYG6EbeMqValqPFRuzGuvQhgFm2wL4QqXvjM/UD0MRE8l2NU1LCtkdrwy8gn4pDSkimgADAQElAAAQrQEACAYAAAAA0O+S3gBwhAIBaCIASB6sIYOZYOBEtvhlocJ+BFYBr5o+zKE6+jiV8IQfAcqh3NZQAAAAAAAAAAAAAAAAAAEDARiuQuWkAAAAAAAABAMEAgoOw8htAQUGAAABZiIAQhQYiMfnmKX0Afc9E/6ZCZv3OkXCBHkpl0hslUk4C+2cxLQAAAAAAAAAAAAAAAAAAQcAkwAAAEbrBl2dkwNJ0GQ7lG2WHsYA+A1eXzCrAd9vE2JD7lA1woAcPMZ9bgNiMWiFLuLZ3ODT3Qj2rbcRiS/f1NA9opZaWOgf0V+fgZTfTQ=="))
      [m (Some acc_2) (Some acc_2) (Some "1000000000") (Some "702673") (Some "0xae42e5a4")
       "te6cckEBBQEAnAABGK5C5aQAAAAAAAAEAwECCg7DyG0BAgMAAAFmIgBCFBiIx+eYpfQB9z0T/pkJm/c6RcIEeSmXSGyVSTgL7ZzEtAAAAAAAAAAAAAAAAAABBACTAAAARusGXZ2TA0nQZDuUbZYexgD4DV5fMKsB328TYkPuUDXCgBw8xn1uA2IxaIUu4tnc4NPdCPattxGJL9/U0D2illpY6B/RX59mLIpf"]);
    ("SW4EVZlTLWi1OhOY0RJrMCHVtfAAyoy9sorQ80emm8U=", tx acc_2 "SW4EVZlTLWi1OhOY0RJrMCHVtfAAyoy9sorQ80emm8U=" 36872022000003 1752680876 927863 (Some (Some 0)) (Some 0)
      (Some (m (Some acc_2) (Some acc_2) (Some "1000000000") (Some "702673") (Some "0xae42e5a4")
       "te6cckEBBQEAnAABGK5C5aQAAAAAAAAEAwECCg7DyG0BAgMAAAFmIgBCFBiIx+eYpfQB9z0T/pkJm/c6RcIEeSmXSGyVSTgL7ZzEtAAAAAAAAAAAAAAAAAABBACTAAAARusGXZ2TA0nQZDuUbZYexgD4DV5fMKsB328TYkPuUDXCgBw8xn1uA2IxaIUu4tnc4NPdCPattxGJL9/U0D2illpY6B/RX59mLIpf"))
      [m (Some acc_2) (Some acc_9) (Some "10000000") (Some "450937") (Some "0x00000046")
       "te6cckEBAQEATAAAkwAAAEbrBl2dkwNJ0GQ7lG2WHsYA+A1eXzCrAd9vE2JD7lA1woAcPMZ9bgNiMWiFLuLZ3ODT3Qj2rbcRiS/f1NA9opZaWOgf0V+fVsQuQQ=="])]
    ["PGxOdsJAsHxFNs9L4MnzAI9h+3H5c7+YA6+VDf6bbv4="; "SW4EVZlTLWi1OhOY0RJrMCHVtfAAyoy9sorQ80emm8U="; "HbFekh+vKZKeNQkTBanWSiipy2/v0ynpQ4fiafFls3s="; "IslKJHqdvYkB8h1cM86/qK/L86fS2GJ6dIzqaGiFNII="].

Definition rest_8 : TraceRest :=
  recorded "niMA/bZ+8FUDHB8SUMDsdqWwGBaS1Bo4Ottd+JD69cw=" false 36911474000001 36911479000001 [
    ("5j2HnkzID8TcXpZkTm+qxX2S4rR06GwT8YY/3emQuS4=", tx acc_6 "5j2HnkzID8TcXpZkTm+qxX2S4rR06GwT8YY/3emQuS4=" 36911479000001 1752778274 311289 (Some (Some 0)) (Some 0)
      (Some (m (Some acc_9) (Some acc_6) (Some "257421103") (Some "301869") (Some "0x00000018")
       "te6cckEBAQEABgAACAAAABhDnyiV"))
      []);
    ("hT2A2EPfd4vZGp7H4yk8tXgeEGWBDjeICo/uc1f4ixY=", tx acc_2 "hT2A2EPfd4vZGp7H4yk8tXgeEGWBDjeICo/uc1f4ixY=" 36911475000001 1752778263 927865 (Some (Some 0)) (Some 0)
      (Some (m (Some acc_2) (Some acc_2) (Some "998946000") (Some "702673") (Some "0xae42e5a4")
       "te6cckEBBQEAnAABGK5C5aQAAAAAAAAABQECCg7DyG0CAgMAAAFmIgBCFBiIx+eYpfQB9z0T/pkJm/c6RcIEeSmXSGyVSTgL7ZzEtAAAAAAAAAAAAAAAAAABBACTAAAARtKoMX5WBiCwSRDL+1t1yc27hb88OndGCmDIdIPg1HXWgBw8xn1uA2IxaIUu4tnc4NPdCPattxGJL9/U0D2illpY6B69r9+ZIuJN"))
      [m (Some acc_2) (Some acc_9) (Some "9323600") (Some "450937") (Some "0x00000046")
       "te6cckEBAQEATAAAkwAAAEbSqDF+VgYgsEkQy/tbdcnNu4W/PDp3RgpgyHSD4NR11oAcPMZ9bgNiMWiFLuLZ3ODT3Qj2rbcRiS/f1NA9opZaWOgeva/flYQLYg=="]);
    ("kzO+B9MMaIFCEVlnnC9WQ5Z/489seqMb4G+RjoBWeFs=", tx acc_9 "kzO+B9MMaIFCEVlnnC9WQ5Z/489seqMb4G+RjoBWeFs=" 36911475000003 1752778263 4298184 (Some (Some 0)) (Some 0)
      (Some (m (Some acc_2) (Some acc_9) (Some "9323600") (Some "450937") (Some "0x00000046")
       "te6cckEBAQEATAAAkwAAAEbSqDF+VgYgsEkQy/tbdcnNu4W/PDp3RgpgyHSD4NR11oAcPMZ9bgNiMWiFLuLZ3ODT3Qj2rbcRiS/f1NA9opZaWOgeva/flYQLYg=="))
      [m (Some acc_9) (Some acc_6) (Some "257421103") (Some "301869") (Some "0x00000018")
       "te6cckEBAQEABgAACAAAABhDnyiV";
       m (Some acc_9) None None None (Some "0xd2a8317e")
       "te6cckEBAQEASAAAi9KoMX5WBiCwSRDL+1t1yc27hb88OndGCmDIdIPg1HXWgBw8xn1uA2IxaIUu4tnc4NPdCPattxGJL9/U0D2illpY6B69r99zlstv"]);
    ("niMA/bZ+8FUDHB8SUMDsdqWwGBaS1Bo4Ottd+JD69cw=", tx acc_2 "niMA/bZ+8FUDHB8SUMDsdqWwGBaS1Bo4Ottd+JD69cw=" 36911474000001 1752778255 4187751 (Some (Some 0)) (Some 0)
      (Some (m None (Some acc_2) None None (Some "0xd56b72cd")
       "te6cckECCAEAASwAAYDVa3LNSL6hn2bEs5UrOD54Xzlyu4QXsrgNHjsHtU8oocbc4CqCM5+87EcMmoq/jzLUWQbZ8T/tgBTP2t5b1ZYIAQElAAAQrQIAAAoAAAAA0PKLkgBwhAIBaCIASB6sIYOZYOBEtvhlocJ+BFYBr5o+zKE6+jiV8IQfAcqh3NZQAAAAAAAAAAAAAAAAAAEDARiuQuWkAAAAAAAAAAUEAgoOw8htAgUGAAABZiIAQhQYiMfnmKX0Afc9E/6ZCZv3OkXCBHkpl0hslUk4C+2cxLQAAAAAAAAAAAAAAAAAAQcAkwAAAEbSqDF+VgYgsEkQy/tbdcnNu4W/PDp3RgpgyHSD4NR11oAcPMZ9bgNiMWiFLuLZ3ODT3Qj2rbcRiS/f1NA9opZaWOgeva/fKmM9ow=="))
      [m (Some acc_2) (Some acc_2) (Some "998946000") (Some "702673") (Some "0xae42e5a4")
       "te6cckEBBQEAnAABGK5C5aQAAAAAAAAABQECCg7DyG0CAgMAAAFmIgBCFBiIx+eYpfQB9z0T/pkJm/c6RcIEeSmXSGyVSTgL7ZzEtAAAAAAAAAAAAAAAAAABBACTAAAARtKoMX5WBiCwSRDL+1t1yc27hb88OndGCmDIdIPg1HXWgBw8xn1uA2IxaIUu4tnc4NPdCPattxGJL9/U0D2illpY6B69r9+ZIuJN"])]
    ["niMA/bZ+8FUDHB8SUMDsdqWwGBaS1Bo4Ottd+JD69cw="; "hT2A2EPfd4vZGp7H4yk8tXgeEGWBDjeICo/uc1f4ixY="; "kzO+B9MMaIFCEVlnnC9WQ5Z/489seqMb4G+RjoBWeFs="; "5j2HnkzID8TcXpZkTm+qxX2S4rR06GwT8YY/3emQuS4="].

Definition rest_9 : TraceRest :=
  recorded "hrUNAJbIprg3fahrr2Hcs1GchGoJqWk2mDAJ2cwWVP8=" false 36935463000001 36935470000001 [
    ("/OxewvVQHSEhT6pz1L/et2BKJC7avRCYEx0FbUWPEuo=", tx acc_10 "/OxewvVQHSEhT6pz1L/et2BKJC7avRCYEx0FbUWPEuo=" 36935465000005 1752841428 5866931 (Some (Some 0)) (Some 0)
      (Some (m (Some acc_11) (Some acc_10) (Some "338451600") (Some "954674") (Some "0x7362d09c")
       "te6cckECBgEAAQsAAhEAAAAkMPQkAAgBAgCFgAMsXG67nvHy8QHTfYnsfDX80HaVe7EKumzAKYC/4iwdMAOHmM+twGxGLRCl3Fs7nBp7oR7VtuIxJfv6mge0UstLHgSJgAMsXG67nvHy8QHTfYnsfDX80HaVe7EKumzAKYC/4iwdJh6EgV1MpIbOAB9pQVRBY6nse1Wj2z077ix+RhLObCHl5vqXBQMEBQAIdG9uMgCEMDplZDIyZGYzNDIxOWFlMjYwMzlmZDk3N2Q4ZTQxOWFlMTRkNzhiMTkyZTlkYjVkY2ZhMzU5Nzg5OTA5NjQ3MGQxAEOAHDzGfW4DYjFohS7i2dzg090I9q23EYkv39TQPaKWWljwB1EwIw=="))
      [m (Some acc_10) None None None (Some "0x80032c5c")
       "te6cckEBBAEAuQAEiYADLFxuu57x8vEB032J7Hw1/NB2lXuxCrpswCmAv+IsHSYehIFdTKSGzgAfaUFUQWOp7HtVo9s9O+4sfkYSzmwh5eb6lwMBAgMACHRvbjIAhDA6ZWQyMmRmMzQyMTlhZTI2MDM5ZmQ5NzdkOGU0MTlhZTE0ZDc4YjE5MmU5ZGI1ZGNmYTM1OTc4OTkwOTY0NzBkMQBDgBw8xn1uA2IxaIUu4tnc4NPdCPattxGJL9/U0D2illpY8JdJDvc=";
       m (Some acc_10) (Some acc_6) (Some "333394000") (Some "301869") (Some "0x00000018")
       "te6cckEBAQEABgAACAAAABhDnyiV"]);
    ("1ZAU/Vhe7YvuUZxA2TviOpkf231opB63rWeNxAUQ5l0=", tx acc_5 "1ZAU/Vhe7YvuUZxA2TviOpkf231opB63rWeNxAUQ5l0=" 36935467000001 1752841429 6589462 (Some (Some 0)) (Some 0)
      (Some (m (Some acc_6) (Some acc_5) (Some "98948800") (Some "700806") (Some "0x00000009")
       "te6cckEBBAEAtQADCAAAAAkBAgMACHRvbjIAhDA6ZWQyMmRmMzQyMTlhZTI2MDM5ZmQ5NzdkOGU0MTlhZTE0ZDc4YjE5MmU5ZGI1ZGNmYTM1OTc4OTkwOTY0NzBkMQDAAAAAAAAAAAAAAAAAAAAAAAAAAAAAAAAAAAAAAAAAACAAAAAAAAAAAAAAAAAAAAAAAAAAAAAAAAAAAAAAAAAAE0hlbGxvIGZyb20gUmVsYXllciEAAAAAAAAAAAAAAAAAg10M7Q=="))
      [m (Some acc_5) None None None (Some "0x801c3cc6")
       "te6cckEBBAEA8wADg4AcPMZ9bgNiMWiFLuLZ3ODT3Qj2rbcRiS/f1NA9opZaWPXUykhs4AH2lBVEFjqex7VaPbPTvuLH5GEs5sIeXm+pcAECAwAIdG9uMgCEMDplZDIyZGYzNDIxOWFlMjYwMzlmZDk3N2Q4ZTQxOWFlMTRkNzhiMTkyZTlkYjVkY2ZhMzU5Nzg5OTA5NjQ3MGQxAMAAAAAAAAAAAAAAAAAAAAAAAAAAAAAAAAAAAAAAAAAAIAAAAAAAAAAAAAAAAAAAAAAAAAAAAAAAAAAAAAAAAAATSGVsbG8gZnJvbSBSZWxheWVyIQAAAAAAAAAAAAAAAAC4yejI";
       m (Some acc_5) (Some acc_6) (Some "93358000") (Some "301869") (Some "0x00000018")
       "te6cckEBAQEABgAACAAAABhDnyiV"]);
    ("AB6R3TZlPG8kP22eNhHYZatzOJP933G9zAbNnmykq1Y=", tx acc_10 "AB6R3TZlPG8kP22eNhHYZatzOJP933G9zAbNnmykq1Y=" 36935465000001 1752841428 5662528 (Some (Some 0)) (Some 0)
      (Some (m (Some acc_6) (Some acc_10) (Some "348524400") (Some "983741") (Some "0x00000027")
       "te6cckECBQEAASAABFEAAAAngAMsXG67nvHy8QHTfYnsfDX80HaVe7EKumzAKYC/4iwdJh6EgQECAwQACHRvbjIAhDA6ZWQyMmRmMzQyMTlhZTI2MDM5ZmQ5NzdkOGU0MTlhZTE0ZDc4YjE5MmU5ZGI1ZGNmYTM1OTc4OTkwOTY0NzBkMQDAAAAAAAAAAAAAAAAAAAAAAAAAAAAAAAAAAAAAAAAAACAAAAAAAAAAAAAAAAAAAAAAAAAAAAAAAAAAAAAAAAAAE0hlbGxvIGZyb20gUmVsYXllciEAAAAAAAAAAAAAAAAAAIWAHDzGfW4DYjFohS7i2dzg090I9q23EYkv39TQPaKWWljwA4eYz63AbEYtEKXcWzucGnuhHtW24jEl+/qaB7RSy0sezFtHqw=="))
      [m (Some acc_10) (Some acc_11) (Some "342076400") (Some "785606") (Some "0x00000023")
       "te6cckEBBQEAxQABEQAAACMw9CQACAEEiYADLFxuu57x8vEB032J7Hw1/NB2lXuxCrpswCmAv+IsHSYehIFdTKSGzgAfaUFUQWOp7HtVo9s9O+4sfkYSzmwh5eb6lwQCAwQACHRvbjIAhDA6ZWQyMmRmMzQyMTlhZTI2MDM5ZmQ5NzdkOGU0MTlhZTE0ZDc4YjE5MmU5ZGI1ZGNmYTM1OTc4OTkwOTY0NzBkMQBDgBw8xn1uA2IxaIUu4tnc4NPdCPattxGJL9/U0D2illpY8DNy88o="]);
    ("AdjiZf9CQoshs6s/hlaO+UJ6oJ1uhkbpdi62khJQe4k=", tx acc_6 "AdjiZf9CQoshs6s/hlaO+UJ6oJ1uhkbpdi62khJQe4k=" 36935469000001 1752841435 311204 (Some (Some 0)) (Some 0)
      (Some (m (Some acc_10) (Some acc_6) (Some "333394000") (Some "301869") (Some "0x00000018")
       "te6cckEBAQEABgAACAAAABhDnyiV"))
      []);
    ("hrUNAJbIprg3fahrr2Hcs1GchGoJqWk2mDAJ2cwWVP8=", tx acc_6 "hrUNAJbIprg3fahrr2Hcs1GchGoJqWk2mDAJ2cwWVP8=" 36935463000001 1752841421 5117856 (Some (Some 0)) (Some 0)
      (Some (m None (Some acc_6) None None (Some "0x7369676e")
       "te6cckECCgEAAfkAAaFzaWduf///EWh6PQQAAADmu3XyjhhKYK/f7MI2BBt4j1sYkC/32giTTXYe1cBVXelMq26QH268e4GzxNaN3vYWRHv1puF0QAC9tjo/sS4ZAuABAgoOw8htAgIDAgoOw8htAgQFBLliAFIn2KOxeEnDGDNotN7H2pfxF2xAx8KVKvyuW4XJ248joKbknAAAAAAAAAAAAAAAAAAAAAAAJ4ADLFxuu57x8vEB032J7Hw1/NB2lXuxCrpswCmAv+IsHSYehIEGBwgJAAADcGIAAAylVschFfb6H/c6NrbJTptO3VkqNFNOqJuDdTS8Wx0gL68IAAAAAAAAAAAAAAAAAAAAAAAJBgcIAAh0b24yAIQwOmVkMjJkZjM0MjE5YWUyNjAzOWZkOTc3ZDhlNDE5YWUxNGQ3OGIxOTJlOWRiNWRjZmEzNTk3ODk5MDk2NDcwZDEAwAAAAAAAAAAAAAAAAAAAAAAAAAAAAAAAAAAAAAAAAAAgAAAAAAAAAAAAAAAAAAAAAAAAAAAAAAAAAAAAAAAAABNIZWxsbyBmcm9tIFJlbGF5ZXIhAAAAAAAAAAAAAAAAAACFgBw8xn1uA2IxaIUu4tnc4NPdCPattxGJL9/U0D2illpY8AOHmM+twGxGLRCl3Fs7nBp7oR7VtuIxJfv6mge0UstLHoCxOVM="))
      [m (Some acc_6) (Some acc_5) (Some "98948800") (Some "700806") (Some "0x00000009")
       "te6cckEBBAEAtQADCAAAAAkBAgMACHRvbjIAhDA6ZWQyMmRmMzQyMTlhZTI2MDM5ZmQ5NzdkOGU0MTlhZTE0ZDc4YjE5MmU5ZGI1ZGNmYTM1OTc4OTkwOTY0NzBkMQDAAAAAAAAAAAAAAAAAAAAAAAAAAAAAAAAAAAAAAAAAACAAAAAAAAAAAAAAAAAAAAAAAAAAAAAAAAAAAAAAAAAAE0hlbGxvIGZyb20gUmVsYXllciEAAAAAAAAAAAAAAAAAg10M7Q==";
       m (Some acc_6) (Some acc_10) (Some "348524400") (Some "983741") (Some "0x00000027")
       "te6cckECBQEAASAABFEAAAAngAMsXG67nvHy8QHTfYnsfDX80HaVe7EKumzAKYC/4iwdJh6EgQECAwQACHRvbjIAhDA6ZWQyMmRmMzQyMTlhZTI2MDM5ZmQ5NzdkOGU0MTlhZTE0ZDc4YjE5MmU5ZGI1ZGNmYTM1OTc4OTkwOTY0NzBkMQDAAAAAAAAAAAAAAAAAAAAAAAAAAAAAAAAAAAAAAAAAACAAAAAAAAAAAAAAAAAAAAAAAAAAAAAAAAAAAAAAAAAAE0hlbGxvIGZyb20gUmVsYXllciEAAAAAAAAAAAAAAAAAAIWAHDzGfW4DYjFohS7i2dzg090I9q23EYkv39TQPaKWWljwA4eYz63AbEYtEKXcWzucGnuhHtW24jEl+/qaB7RSy0sezFtHqw=="]);
    ("rbEJh7wgeiRG5gZZYO/rAQzxyv8Nb2vyAZHrm//QbqE=", tx acc_11 "rbEJh7wgeiRG5gZZYO/rAQzxyv8Nb2vyAZHrm//QbqE=" 36935465000003 1752841428 2670165 (Some (Some 0)) (Some 0)
      (Some (m (Some acc_10) (Some acc_11) (Some "342076400") (Some "785606") (Some "0x00000023")
       "te6cckEBBQEAxQABEQAAACMw9CQACAEEiYADLFxuu57x8vEB032J7Hw1/NB2lXuxCrpswCmAv+IsHSYehIFdTKSGzgAfaUFUQWOp7HtVo9s9O+4sfkYSzmwh5eb6lwQCAwQACHRvbjIAhDA6ZWQyMmRmMzQyMTlhZTI2MDM5ZmQ5NzdkOGU0MTlhZTE0ZDc4YjE5MmU5ZGI1ZGNmYTM1OTc4OTkwOTY0NzBkMQBDgBw8xn1uA2IxaIUu4tnc4NPdCPattxGJL9/U0D2illpY8DNy88o="))
      [m (Some acc_11) (Some acc_10) (Some "338451600") (Some "954674") (Some "0x7362d09c")
       "te6cckECBgEAAQsAAhEAAAAkMPQkAAgBAgCFgAMsXG67nvHy8QHTfYnsfDX80HaVe7EKumzAKYC/4iwdMAOHmM+twGxGLRCl3Fs7nBp7oR7VtuIxJfv6mge0UstLHgSJgAMsXG67nvHy8QHTfYnsfDX80HaVe7EKumzAKYC/4iwdJh6EgV1MpIbOAB9pQVRBY6nse1Wj2z077ix+RhLObCHl5vqXBQMEBQAIdG9uMgCEMDplZDIyZGYzNDIxOWFlMjYwMzlmZDk3N2Q4ZTQxOWFlMTRkNzhiMTkyZTlkYjVkY2ZhMzU5Nzg5OTA5NjQ3MGQxAEOAHDzGfW4DYjFohS7i2dzg090I9q23EYkv39TQPaKWWljwB1EwIw=="]);
    ("wOpSWfi0alblGJGNXE7M+ptHbVwqqYzllaK/4AhZQsg=", tx acc_6 "wOpSWfi0alblGJGNXE7M+ptHbVwqqYzllaK/4AhZQsg=" 36935470000001 1752841438 311201 (Some (Some 0)) (Some 0)
      (Some (m (Some acc_5) (Some acc_6) (Some "93358000") (Some "301869") (Some "0x00000018")
       "te6cckEBAQEABgAACAAAABhDnyiV"))
      [])]
    ["hrUNAJbIprg3fahrr2Hcs1GchGoJqWk2mDAJ2cwWVP8="; "AB6R3TZlPG8kP22eNhHYZatzOJP933G9zAbNnmykq1Y="; "rbEJh7wgeiRG5gZZYO/rAQzxyv8Nb2vyAZHrm//QbqE="; "/OxewvVQHSEhT6pz1L/et2BKJC7avRCYEx0FbUWPEuo="; "1ZAU/Vhe7YvuUZxA2TviOpkf231opB63rWeNxAUQ5l0="; "AdjiZf9CQoshs6s/hlaO+UJ6oJ1uhkbpdi62khJQe4k="; "wOpSWfi0alblGJGNXE7M+ptHbVwqqYzllaK/4AhZQsg="].

Definition rest_10 : TraceRest :=
  recorded "BP0OuIwXW5Roq170ihANdptHCfGCbCPHe5DTDeZYNR0=" false 37954295000001 37954309000003 [
    ("BP0OuIwXW5Roq170ihANdptHCfGCbCPHe5DTDeZYNR0=", tx acc_6 "BP0OuIwXW5Roq170ihANdptHCfGCbCPHe5DTDeZYNR0=" 37954295000001 1755272199 3987885 (Some (Some 0)) (Some 0)
      (Some (m None (Some acc_6) None None (Some "0x7369676e")
       "te6cckECCAEAAYIAAaFzaWduf///EWifVEAAAAHyk11xmwQOXDmh6azNtwFnHyszos8vXPHaC9Cn0UXRVJQQjppo7KP1wQGVy4Rc6oZbc5fiSsLqlct3kEucGmeKgKABAgoOw8htAwQCAWhiAF1KjI4fNxQ1yYuYanMgYYTXheGQbZfUIU5XlGxKB1jwIDk4cAAAAAAAAAAAAAAAAAABAwKqD4p+pQAAAAAAAAAAEBgBGq5MXoskliiVwlg1749yWHoUGmdRse7FGN/I02ab12UAI1XJi9FkksUSuEsGvfHuSw9Cg0zqNj3Yoxv5GmzTeuyoCYloAQQFAAABQ4ADLFxuu57x8vEB032J7Hw1/NB2lXuxCrpswCmAv+IsHTAGAY0AAAA3Vmh1M4fdYXBTNaadE8YSFmJOJ890l88pY1WBxXPTHPiAAyxcbrue8fLxAdN9iex8NfzQdpV7sQq6bMApgL/iLB0iAwcAQ4AdpFvmhDNcTAc/su+xyDNcKa8WMl07a7n0ay8TISyOGjCGtYLf"))
      [m (Some acc_6) (Some acc_12) (Some "120000000") (Some "874941") (Some "0x0f8a7ea5")
       "te6cckEBBQEA7gACqg+KfqUAAAAAAAAAABAYARquTF6LJJYolcJYNe+Pclh6FBpnUbHuxRjfyNNmm9dlACNVyYvRZJLFErhLBr3x7ksPQoNM6jY92KMb+Rps03rsqAmJaAEBAgAAAUOAAyxcbrue8fLxAdN9iex8NfzQdpV7sQq6bMApgL/iLB0wAwGNAAAAN1ZodTOH3WFwUzWmnRPGEhZiTifPdJfPKWNVgcVz0xz4gAMsXG67nvHy8QHTfYnsfDX80HaVe7EKumzAKYC/4iwdIgMEAEOAHaRb5oQzXEwHP7LvscgzXCmvFjJdO2u59GsvEyEsjhowBbtyxw=="]);
    ("IkM/zUvFgepsZ3uQFkSPL1t3fDswnsNUx2D2zXgj1dY=", tx acc_12 "IkM/zUvFgepsZ3uQFkSPL1t3fDswnsNUx2D2zXgj1dY=" 37954300000001 1755272208 5028002 (Some (Some 0)) (Some 0)
      (Some (m (Some acc_6) (Some acc_12) (Some "120000000") (Some "874941") (Some "0x0f8a7ea5")
       "te6cckEBBQEA7gACqg+KfqUAAAAAAAAAABAYARquTF6LJJYolcJYNe+Pclh6FBpnUbHuxRjfyNNmm9dlACNVyYvRZJLFErhLBr3x7ksPQoNM6jY92KMb+Rps03rsqAmJaAEBAgAAAUOAAyxcbrue8fLxAdN9iex8NfzQdpV7sQq6bMApgL/iLB0wAwGNAAAAN1ZodTOH3WFwUzWmnRPGEhZiTifPdJfPKWNVgcVz0xz4gAMsXG67nvHy8QHTfYnsfDX80HaVe7EKumzAKYC/4iwdIgMEAEOAHaRb5oQzXEwHP7LvscgzXCmvFjJdO2u59GsvEyEsjhowBbtyxw=="))
      [m (Some acc_12) (Some acc_13) (Some "111880800") (Some "3091224") (Some "0x178d4519")
       "te6cckEBBAEA6wABqReNRRkAAAAAAAAAABAYAcPMZ9bgNiMWiFLuLZ3ODT3Qj2rbcRiS/f1NA9opZaWPACNVyYvRZJLFErhLBr3x7ksPQoNM6jY92KMb+Rps03rskBMS0AMBAUOAAyxcbrue8fLxAdN9iex8NfzQdpV7sQq6bMApgL/iLB0wAgGNAAAAN1ZodTOH3WFwUzWmnRPGEhZiTifPdJfPKWNVgcVz0xz4gAMsXG67nvHy8QHTfYnsfDX80HaVe7EKumzAKYC/4iwdIgMDAEOAHaRb5oQzXEwHP7LvscgzXCmvFjJdO2u59GsvEyEsjhowv2PaMQ=="]);
    ("MXrtaXu9g36EJkQCHI+LNJGLpX7F8rNyiXZDKwu2h6E=", tx acc_13 "MXrtaXu9g36EJkQCHI+LNJGLpX7F8rNyiXZDKwu2h6E=" 37954303000001 1755272219 4526551 (Some (Some 0)) (Some 0)
      (Some (m (Some acc_12) (Some acc_13) (Some "111880800") (Some "3091224") (Some "0x178d4519")
       "te6cckEBBAEA6wABqReNRRkAAAAAAAAAABAYAcPMZ9bgNiMWiFLuLZ3ODT3Qj2rbcRiS/f1NA9opZaWPACNVyYvRZJLFErhLBr3x7ksPQoNM6jY92KMb+Rps03rskBMS0AMBAUOAAyxcbrue8fLxAdN9iex8NfzQdpV7sQq6bMApgL/iLB0wAgGNAAAAN1ZodTOH3WFwUzWmnRPGEhZiTifPdJfPKWNVgcVz0xz4gAMsXG67nvHy8QHTfYnsfDX80HaVe7EKumzAKYC/4iwdIgMDAEOAHaRb5oQzXEwHP7LvscgzXCmvFjJdO2u59GsvEyEsjhowv2PaMQ=="))
      [m (Some acc_13) (Some acc_14) (Some "80000000") (Some "767206") (Some "0x7362d09c")
       "te6cckEBBAEAxQABXnNi0JwAAAAAAAAAABAYAcPMZ9bgNiMWiFLuLZ3ODT3Qj2rbcRiS/f1NA9opZaWPAQFDgAMsXG67nvHy8QHTfYnsfDX80HaVe7EKumzAKYC/4iwdMAIBjQAAADdWaHUzh91hcFM1pp0TxhIWYk4nz3SXzyljVYHFc9Mc+IADLFxuu57x8vEB032J7Hw1/NB2lXuxCrpswCmAv+IsHSIDAwBDgB2kW+aEM1xMBz+y77HIM1wprxYyXTtrufRrLxMhLI4aMKcXh18=";
       m (Some acc_13) (Some acc_14) (Some "16843964") (Some "266669") (Some "0xd53276db")
       "te6cckEBAQEADgAAGNUydtsAAAAAAAAAAPfBmNw="]);
    ("Q8/seyucvSxphAZD6ofUT67u+M3Hovy3cwkYv8NnMds=", tx acc_14 "Q8/seyucvSxphAZD6ofUT67u+M3Hovy3cwkYv8NnMds=" 37954309000003 1755272229 1434800 (Some (Some 0)) (Some 0)
      (Some (m (Some acc_13) (Some acc_14) (Some "16843964") (Some "266669") (Some "0xd53276db")
       "te6cckEBAQEADgAAGNUydtsAAAAAAAAAAPfBmNw="))
      []);
    ("etlBvJ9Oca6e9KYCUM5OJWVVkTJhoOK2AEbQEV1knZ8=", tx acc_14 "etlBvJ9Oca6e9KYCUM5OJWVVkTJhoOK2AEbQEV1knZ8=" 37954309000001 1755272229 5150902 (Some (Some 0)) (Some 0)
      (Some (m (Some acc_13) (Some acc_14) (Some "80000000") (Some "767206") (Some "0x7362d09c")
       "te6cckEBBAEAxQABXnNi0JwAAAAAAAAAABAYAcPMZ9bgNiMWiFLuLZ3ODT3Qj2rbcRiS/f1NA9opZaWPAQFDgAMsXG67nvHy8QHTfYnsfDX80HaVe7EKumzAKYC/4iwdMAIBjQAAADdWaHUzh91hcFM1pp0TxhIWYk4nz3SXzyljVYHFc9Mc+IADLFxuu57x8vEB032J7Hw1/NB2lXuxCrpswCmAv+IsHSIDAwBDgB2kW+aEM1xMBz+y77HIM1wprxYyXTtrufRrLxMhLI4aMKcXh18="))
      [m (Some acc_14) None None None (Some "0x80032c5c")
       "te6cckEBAgEAjAAByYADLFxuu57x8vEB032J7Hw1/NB2lXuxCrpswCmAv+IsHTADh5jPrcBsRi0QpdxbO5wae6Ee1bbiMSX7+poHtFLLSxxAVZodTOH3WFwUzWmnRPGEhZiTifPdJfPKWNVgcVz0xz4gAQBDgB2kW+aEM1xMBz+y77HIM1wprxYyXTtrufRrLxMhLI4aMKcX7Ck="])]
    ["BP0OuIwXW5Roq170ihANdptHCfGCbCPHe5DTDeZYNR0="; "IkM/zUvFgepsZ3uQFkSPL1t3fDswnsNUx2D2zXgj1dY="; "MXrtaXu9g36EJkQCHI+LNJGLpX7F8rNyiXZDKwu2h6E="; "etlBvJ9Oca6e9KYCUM5OJWVVkTJhoOK2AEbQEV1knZ8="; "Q8/seyucvSxphAZD6ofUT67u+M3Hovy3cwkYv8NnMds="].

Definition rest_11 : TraceRest :=
  recorded "NZRSLR8LTsaUVYU44fS3Aayun3ye4oL1xzsIyhjLMiw=" false 36975349000001 36975355000001 [
    ("/2lEQwXnbVl+uUZrLCPUOYdfi0kgxz1Uh/M6MP1/t6k=", tx acc_15 "/2lEQwXnbVl+uUZrLCPUOYdfi0kgxz1Uh/M6MP1/t6k=" 36975354000005 1752937744 311600 (Some (Some 0)) (Some 0)
      (Some (m (Some acc_15) (Some acc_15) (Some "8101200") (Some "266669") (Some "0xffffffff")
       "te6cckEBAQEACgAAEP////8AAAAAA8ROzA=="))
      []);
    ("CxJ33z4cRirrNpaPojuSGWSD6LGTAUojkmpUJmVqSHk=", tx acc_5 "CxJ33z4cRirrNpaPojuSGWSD6LGTAUojkmpUJmVqSHk=" 36975351000001 1752937735 6135621 (Some (Some 0)) (Some 0)
      (Some (m (Some acc_2) (Some acc_5) (Some "308110800") (Some "1259477") (Some "0x00000008")
       "te6cckECCAEAAYYAAUsAAAAIgBIHqwhg5lg4ES2+GWhwn4EVgGvmj7MoTr6OJXwhB8BysAEEAAIHAwQAhDB4NTg0ZGVmY2RjOTBmMmRmNjU3YjNhY2ZlNDg0ZjhlOWExODc5NDVhY2JlYjQ5MjgzN2E0MjkxOGM2ZWEyZTAwOQCEMDplMWU2MzNlYjcwMWIxMThiNDQyOTc3MTZjZWU3MDY5ZWU4NDdiNTZkYjg4YzQ5N2VmZWE2ODFlZDE0YjJkMmM3A4CuplJDZwAPtKCqILHU9j2q0e2enfcWPyMJZzYQ8vN9SwAAAAAAAAAAAAAAAAAAAAAAAAAAAAAAAAAAAAAAmJaABQYHAMAAAAAAAAAAAAAAAAAAAAAAAAAAAAAAAAAAAAAAAAAAIAAAAAAAAAAAAAAAAAAAAAAAAAAAAAAAAAAAAAAAAAATSGVsbG8gZnJvbSBSZWxheWVyIQAAAAAAAAAAAAAAAAAAQO0i3zQhmuJgOf2XfY5BmuFNeLGS6dtdz6NZeJkJZHDRAAh0b24yIG6F4g=="))
      [m (Some acc_5) (Some acc_16) (Some "301302400") (Some "672806") (Some "0x00000004")
       "te6cckEBAgEAqwABiwAAAASAEgerCGDmWDgRLb4ZaHCfgRWAa+aPsyhOvo4lfCEHwHKgAAAAAAAAAAAAAAAAAAAAAAAAAAAAAAAAAAAAABMS0BABAMAAAAAAAAAAAAAAAAAAAAAAAAAAAAAAAAAAAAAAAAAAIAAAAAAAAAAAAAAAAAAAAAAAAAAAAAAAAAAAAAAAAAATSGVsbG8gZnJvbSBSZWxheWVyIQAAAAAAAAAAAAAAAAAa94Vh"]);
    ("NZRSLR8LTsaUVYU44fS3Aayun3ye4oL1xzsIyhjLMiw=", tx acc_2 "NZRSLR8LTsaUVYU44fS3Aayun3ye4oL1xzsIyhjLMiw=" 36975349000001 1752937729 5809058 (Some (Some 0)) (Some 0)
      (Some (m None (Some acc_2) None None (Some "0xc5e9707b")
       "te6cckECDwEAAmcAAYDF6XB7CRYpDCcIrEV3UIQZ91jq8tX60CDJb0W8WHgTYegHlwBLSgpxFHy3TpGlMNimzxGwJAISNn+OXr1jT74JAQElAAAQrQIAAAIAAAAA0PdpgABwhAIBaCIASB6sIYOZYOBEtvhlocJ+BFYBr5o+zKE6+jiV8IQfAcqh3NZQAAAAAAAAAAAAAAAAAAEDARiuQuWkAAAAAAAAAAEEAgoOw8htAgUGAAABaCIAAAylVschFfb6H/c6NrbJTptO3VkqNFNOqJuDdTS8Wx0gk9HMAAAAAAAAAAAAAAAAAAEHAUsAAAAIgBIHqwhg5lg4ES2+GWhwn4EVgGvmj7MoTr6OJXwhB8BysAgEAAkOCgsAhDB4NTg0ZGVmY2RjOTBmMmRmNjU3YjNhY2ZlNDg0ZjhlOWExODc5NDVhY2JlYjQ5MjgzN2E0MjkxOGM2ZWEyZTAwOQCEMDplMWU2MzNlYjcwMWIxMThiNDQyOTc3MTZjZWU3MDY5ZWU4NDdiNTZkYjg4YzQ5N2VmZWE2ODFlZDE0YjJkMmM3A4CuplJDZwAPtKCqILHU9j2q0e2enfcWPyMJZzYQ8vN9SwAAAAAAAAAAAAAAAAAAAAAAAAAAAAAAAAAAAAAAmJaADA0OAMAAAAAAAAAAAAAAAAAAAAAAAAAAAAAAAAAAAAAAAAAAIAAAAAAAAAAAAAAAAAAAAAAAAAAAAAAAAAAAAAAAAAATSGVsbG8gZnJvbSBSZWxheWVyIQAAAAAAAAAAAAAAAAAAQO0i3zQhmuJgOf2XfY5BmuFNeLGS6dtdz6NZeJkJZHDRAAh0b24yBv8kIA=="))
      [m (Some acc_2) (Some acc_2) (Some "997730000") (Some "1513345") (Some "0xae42e5a4")
       "te6cckECDAEAAdcAARiuQuWkAAAAAAAAAAEBAgoOw8htAgIDAAABaCIAAAylVschFfb6H/c6NrbJTptO3VkqNFNOqJuDdTS8Wx0gk9HMAAAAAAAAAAAAAAAAAAEEAUsAAAAIgBIHqwhg5lg4ES2+GWhwn4EVgGvmj7MoTr6OJXwhB8BysAUEAAYLBwgAhDB4NTg0ZGVmY2RjOTBmMmRmNjU3YjNhY2ZlNDg0ZjhlOWExODc5NDVhY2JlYjQ5MjgzN2E0MjkxOGM2ZWEyZTAwOQCEMDplMWU2MzNlYjcwMWIxMThiNDQyOTc3MTZjZWU3MDY5ZWU4NDdiNTZkYjg4YzQ5N2VmZWE2ODFlZDE0YjJkMmM3A4CuplJDZwAPtKCqILHU9j2q0e2enfcWPyMJZzYQ8vN9SwAAAAAAAAAAAAAAAAAAAAAAAAAAAAAAAAAAAAAAmJaACQoLAMAAAAAAAAAAAAAAAAAAAAAAAAAAAAAAAAAAAAAAAAAAIAAAAAAAAAAAAAAAAAAAAAAAAAAAAAAAAAAAAAAAAAATSGVsbG8gZnJvbSBSZWxheWVyIQAAAAAAAAAAAAAAAAAAQO0i3zQhmuJgOf2XfY5BmuFNeLGS6dtdz6NZeJkJZHDRAAh0b24yL0nVVw=="]);
    ("Nw9NwGbJcNMTZCwYqM+IsHrnGWGnuF6j5kx7cT7JdmU=", tx acc_15 "Nw9NwGbJcNMTZCwYqM+IsHrnGWGnuF6j5kx7cT7JdmU=" 36975354000001 1752937744 2553698 (Some (Some 0)) (Some 0)
      (Some (m (Some acc_5) (Some acc_15) (Some "8502400") (Some "998408") (Some "0x0000000c")
       "te6cckECBgEAAR0AAQgAAAAMAQRArqZSQ2cAD7SgqiCx1PY9qtHtnp33Fj8jCWc2EPLzfUsCAwQFAIQweDU4NGRlZmNkYzkwZjJkZjY1N2IzYWNmZTQ4NGY4ZTlhMTg3OTQ1YWNiZWI0OTI4MzdhNDI5MThjNmVhMmUwMDkACHRvbjIAhDA6ZTFlNjMzZWI3MDFiMTE4YjQ0Mjk3NzE2Y2VlNzA2OWVlODQ3YjU2ZGI4OGM0OTdlZmVhNjgxZWQxNGIyZDJjNwDAAAAAAAAAAAAAAAAAAAAAAAAAAAAAAAAAAAAAAAAAACAAAAAAAAAAAAAAAAAAAAAAAAAAAAAAAAAAAAAAAAAAE0hlbGxvIGZyb20gUmVsYXllciEAAAAAAAAAAAAAAAAAqMyAPg=="))
      [m (Some acc_15) (Some acc_15) (Some "9200000") (Some "533338") (Some "0x00000000")
       "te6cckEBAgEAaQABCAAAAAABAMAAAAAAAAAAAAAAAAAAAAAAAAAAAAAAAAAAAAAAAAAAIAAAAAAAAAAAAAAAAAAAAAAAAAAAAAAAAAAAAAAAAAATSGVsbG8gZnJvbSBSZWxheWVyIQAAAAAAAAAAAAAAAADS94Er"]);
    ("QTM6KZtxi8IsryLADPNlkgh0P4QWVJI74BjloRgqxw4=", tx acc_2 "QTM6KZtxi8IsryLADPNlkgh0P4QWVJI74BjloRgqxw4=" 36975355000001 1752937743 230804 (Some (Some 0)) (Some 0)
      (Some (m (Some acc_5) (Some acc_2) (Some "276216400") (Some "301869") (Some "0x00000018")
       "te6cckEBAQEABgAACAAAABhDnyiV"))
      []);
    ("kB9L9agfceOmnI9TyKcBZRaoQNS6sPAVxImKTH1SoRo=", tx acc_2 "kB9L9agfceOmnI9TyKcBZRaoQNS6sPAVxImKTH1SoRo=" 36975349000003 1752937729 1332123 (Some (Some 0)) (Some 0)
      (Some (m (Some acc_2) (Some acc_2) (Some "997730000") (Some "1513345") (Some "0xae42e5a4")
       "te6cckECDAEAAdcAARiuQuWkAAAAAAAAAAEBAgoOw8htAgIDAAABaCIAAAylVschFfb6H/c6NrbJTptO3VkqNFNOqJuDdTS8Wx0gk9HMAAAAAAAAAAAAAAAAAAEEAUsAAAAIgBIHqwhg5lg4ES2+GWhwn4EVgGvmj7MoTr6OJXwhB8BysAUEAAYLBwgAhDB4NTg0ZGVmY2RjOTBmMmRmNjU3YjNhY2ZlNDg0ZjhlOWExODc5NDVhY2JlYjQ5MjgzN2E0MjkxOGM2ZWEyZTAwOQCEMDplMWU2MzNlYjcwMWIxMThiNDQyOTc3MTZjZWU3MDY5ZWU4NDdiNTZkYjg4YzQ5N2VmZWE2ODFlZDE0YjJkMmM3A4CuplJDZwAPtKCqILHU9j2q0e2enfcWPyMJZzYQ8vN9SwAAAAAAAAAAAAAAAAAAAAAAAAAAAAAAAAAAAAAAmJaACQoLAMAAAAAAAAAAAAAAAAAAAAAAAAAAAAAAAAAAAAAAAAAAIAAAAAAAAAAAAAAAAAAAAAAAAAAAAAAAAAAAAAAAAAATSGVsbG8gZnJvbSBSZWxheWVyIQAAAAAAAAAAAAAAAAAAQO0i3zQhmuJgOf2XfY5BmuFNeLGS6dtdz6NZeJkJZHDRAAh0b24yL0nVVw=="))
      [m (Some acc_2) (Some acc_5) (Some "308110800") (Some "1259477") (Some "0x00000008")
       "te6cckECCAEAAYYAAUsAAAAIgBIHqwhg5lg4ES2+GWhwn4EVgGvmj7MoTr6OJXwhB8BysAEEAAIHAwQAhDB4NTg0ZGVmY2RjOTBmMmRmNjU3YjNhY2ZlNDg0ZjhlOWExODc5NDVhY2JlYjQ5MjgzN2E0MjkxOGM2ZWEyZTAwOQCEMDplMWU2MzNlYjcwMWIxMThiNDQyOTc3MTZjZWU3MDY5ZWU4NDdiNTZkYjg4YzQ5N2VmZWE2ODFlZDE0YjJkMmM3A4CuplJDZwAPtKCqILHU9j2q0e2enfcWPyMJZzYQ8vN9SwAAAAAAAAAAAAAAAAAAAAAAAAAAAAAAAAAAAAAAmJaABQYHAMAAAAAAAAAAAAAAAAAAAAAAAAAAAAAAAAAAAAAAAAAAIAAAAAAAAAAAAAAAAAAAAAAAAAAAAAAAAAAAAAAAAAATSGVsbG8gZnJvbSBSZWxheWVyIQAAAAAAAAAAAAAAAAAAQO0i3zQhmuJgOf2XfY5BmuFNeLGS6dtdz6NZeJkJZHDRAAh0b24yIG6F4g=="]);
    ("lx8e350/GIl5bTGULSGwnGhqoOZmndKjgW3aX7nkg+w=", tx acc_5 "lx8e350/GIl5bTGULSGwnGhqoOZmndKjgW3aX7nkg+w=" 36975351000005 1752937735 9538923 (Some (Some 0)) (Some 0)
      (Some (m (Some acc_16) (Some acc_5) (Some "296669200") (Some "1232810") (Some "0x00000005")
       "te6cckECBwEAAYMABMsAAAAFgBIHqwhg5lg4ES2+GWhwn4EVgGvmj7MoTr6OJXwhB8BytdTKSGzgAfaUFUQWOp7HtVo9s9O+4sfkYSzmwh5eb6lgAAAAAAAAAAAAAAAAAAAAAAAAAAAAAAAAAAAAABMS0BABBgIDAIQweDU4NGRlZmNkYzkwZjJkZjY1N2IzYWNmZTQ4NGY4ZTlhMTg3OTQ1YWNiZWI0OTI4MzdhNDI5MThjNmVhMmUwMDkAhDA6ZTFlNjMzZWI3MDFiMTE4YjQ0Mjk3NzE2Y2VlNzA2OWVlODQ3YjU2ZGI4OGM0OTdlZmVhNjgxZWQxNGIyZDJjNwMABAUGAMAAAAAAAAAAAAAAAAAAAAAAAAAAAAAAAAAAAAAAAAAAIAAAAAAAAAAAAAAAAAAAAAAAAAAAAAAAAAAAAAAAAAATSGVsbG8gZnJvbSBSZWxheWVyIQAAAAAAAAAAAAAAAAAAQO0i3zQhmuJgOf2XfY5BmuFNeLGS6dtdz6NZeJkJZHDRAAh0b24ye1Ve+g=="))
      [m (Some acc_5) (Some acc_15) (Some "8502400") (Some "998408") (Some "0x0000000c")
       "te6cckECBgEAAR0AAQgAAAAMAQRArqZSQ2cAD7SgqiCx1PY9qtHtnp33Fj8jCWc2EPLzfUsCAwQFAIQweDU4NGRlZmNkYzkwZjJkZjY1N2IzYWNmZTQ4NGY4ZTlhMTg3OTQ1YWNiZWI0OTI4MzdhNDI5MThjNmVhMmUwMDkACHRvbjIAhDA6ZTFlNjMzZWI3MDFiMTE4YjQ0Mjk3NzE2Y2VlNzA2OWVlODQ3YjU2ZGI4OGM0OTdlZmVhNjgxZWQxNGIyZDJjNwDAAAAAAAAAAAAAAAAAAAAAAAAAAAAAAAAAAAAAAAAAACAAAAAAAAAAAAAAAAAAAAAAAAAAAAAAAAAAAAAAAAAAE0hlbGxvIGZyb20gUmVsYXllciEAAAAAAAAAAAAAAAAAqMyAPg==";
       m (Some acc_5) None None None (Some "0xaea65243")
       "te6cckECBQEAARYABECuplJDZwAPtKCqILHU9j2q0e2enfcWPyMJZzYQ8vN9SwECAwQAhDB4NTg0ZGVmY2RjOTBmMmRmNjU3YjNhY2ZlNDg0ZjhlOWExODc5NDVhY2JlYjQ5MjgzN2E0MjkxOGM2ZWEyZTAwOQAIdG9uMgCEMDplMWU2MzNlYjcwMWIxMThiNDQyOTc3MTZjZWU3MDY5ZWU4NDdiNTZkYjg4YzQ5N2VmZWE2ODFlZDE0YjJkMmM3AMAAAAAAAAAAAAAAAAAAAAAAAAAAAAAAAAAAAAAAAAAAIAAAAAAAAAAAAAAAAAAAAAAAAAAAAAAAAAAAAAAAAAATSGVsbG8gZnJvbSBSZWxheWVyIQAAAAAAAAAAAAAAAAAkL4Pr";
       m (Some acc_5) (Some acc_2) (Some "276216400") (Some "301869") (Some "0x00000018")
       "te6cckEBAQEABgAACAAAABhDnyiV"]);
    ("pwLLJ6tPZhliUgvoeDixMKIbJzU4Gbc1oS2QAj3TS0U=", tx acc_16 "pwLLJ6tPZhliUgvoeDixMKIbJzU4Gbc1oS2QAj3TS0U=" 36975351000003 1752937735 3400397 (Some (Some 0)) (Some 0)
      (Some (m (Some acc_5) (Some acc_16) (Some "301302400") (Some "672806") (Some "0x00000004")
       "te6cckEBAgEAqwABiwAAAASAEgerCGDmWDgRLb4ZaHCfgRWAa+aPsyhOvo4lfCEHwHKgAAAAAAAAAAAAAAAAAAAAAAAAAAAAAAAAAAAAABMS0BABAMAAAAAAAAAAAAAAAAAAAAAAAAAAAAAAAAAAAAAAAAAAIAAAAAAAAAAAAAAAAAAAAAAAAAAAAAAAAAAAAAAAAAATSGVsbG8gZnJvbSBSZWxheWVyIQAAAAAAAAAAAAAAAAAa94Vh"))
      [m (Some acc_16) (Some acc_5) (Some "296669200") (Some "1232810") (Some "0x00000005")
       "te6cckECBwEAAYMABMsAAAAFgBIHqwhg5lg4ES2+GWhwn4EVgGvmj7MoTr6OJXwhB8BytdTKSGzgAfaUFUQWOp7HtVo9s9O+4sfkYSzmwh5eb6lgAAAAAAAAAAAAAAAAAAAAAAAAAAAAAAAAAAAAABMS0BABBgIDAIQweDU4NGRlZmNkYzkwZjJkZjY1N2IzYWNmZTQ4NGY4ZTlhMTg3OTQ1YWNiZWI0OTI4MzdhNDI5MThjNmVhMmUwMDkAhDA6ZTFlNjMzZWI3MDFiMTE4YjQ0Mjk3NzE2Y2VlNzA2OWVlODQ3YjU2ZGI4OGM0OTdlZmVhNjgxZWQxNGIyZDJjNwMABAUGAMAAAAAAAAAAAAAAAAAAAAAAAAAAAAAAAAAAAAAAAAAAIAAAAAAAAAAAAAAAAAAAAAAAAAAAAAAAAAAAAAAAAAATSGVsbG8gZnJvbSBSZWxheWVyIQAAAAAAAAAAAAAAAAAAQO0i3zQhmuJgOf2XfY5BmuFNeLGS6dtdz6NZeJkJZHDRAAh0b24ye1Ve+g=="]);
    ("vHQA8Wn35bF6BcnCNTJ8iCnXPEYnXVYh2dn4T4Rghhs=", tx acc_15 "vHQA8Wn35bF6BcnCNTJ8iCnXPEYnXVYh2dn4T4Rghhs=" 36975354000003 1752937744 832131 (Some (Some 131)) None
      (Some (m (Some acc_15) (Some acc_15) (Some "9200000") (Some "533338") (Some "0x00000000")
       "te6cckEBAgEAaQABCAAAAAABAMAAAAAAAAAAAAAAAAAAAAAAAAAAAAAAAAAAAAAAAAAAIAAAAAAAAAAAAAAAAAAAAAAAAAAAAAAAAAAAAAAAAAATSGVsbG8gZnJvbSBSZWxheWVyIQAAAAAAAAAAAAAAAADS94Er"))
      [m (Some acc_15) (Some acc_15) (Some "8101200") (Some "266669") (Some "0xffffffff")
       "te6cckEBAQEACgAAEP////8AAAAAA8ROzA=="])]
    ["NZRSLR8LTsaUVYU44fS3Aayun3ye4oL1xzsIyhjLMiw="; "kB9L9agfceOmnI9TyKcBZRaoQNS6sPAVxImKTH1SoRo="; "CxJ33z4cRirrNpaPojuSGWSD6LGTAUojkmpUJmVqSHk="; "pwLLJ6tPZhliUgvoeDixMKIbJzU4Gbc1oS2QAj3TS0U="; "lx8e350/GIl5bTGULSGwnGhqoOZmndKjgW3aX7nkg+w="; "Nw9NwGbJcNMTZCwYqM+IsHrnGWGnuF6j5kx7cT7JdmU="; "vHQA8Wn35bF6BcnCNTJ8iCnXPEYnXVYh2dn4T4Rghhs="; "/2lEQwXnbVl+uUZrLCPUOYdfi0kgxz1Uh/M6MP1/t6k="; "QTM6KZtxi8IsryLADPNlkgh0P4QWVJI74BjloRgqxw4="].

Definition rest_12 : TraceRest :=
  recorded "lDV5zdXZqHzhSaKwiwGf2tF0f7wHxgWPCzyL+yOb6A4=" false 37005812000001 37005825000001 [
    ("28WZzxkSHgKvhsNvHv02PCy4z4F5i+3ws16k3H/b3Rc=", tx acc_2 "28WZzxkSHgKvhsNvHv02PCy4z4F5i+3ws16k3H/b3Rc=" 37005825000001 1753010634 230805 (Some (Some 0)) (Some 0)
      (Some (m (Some acc_5) (Some acc_2) (Some "259200") (Some "301869") (Some "0x00000018")
       "te6cckEBAQEABgAACAAAABhDnyiV"))
      []);
    ("79lhhADkSf7Bii1SOujLcKHYWafYkk72mBpbZUvARok=", tx acc_2 "79lhhADkSf7Bii1SOujLcKHYWafYkk72mBpbZUvARok=" 37005819000001 1753010618 230805 (Some (Some 0)) (Some 0)
      (Some (m (Some acc_5) (Some acc_2) (Some "62927314") (Some "301869") (Some "0x00000018")
       "te6cckEBAQEABgAACAAAABhDnyiV"))
      []);
    ("H11oV1PNboO4fFlmT6E2+29dAYYPc01gAwAHXI6nI1I=", tx acc_2 "H11oV1PNboO4fFlmT6E2+29dAYYPc01gAwAHXI6nI1I=" 37005812000003 1753010601 1377856 (Some (Some 0)) (Some 0)
      (Some (m (Some acc_2) (Some acc_2) (Some "997592800") (Some "1604813") (Some "0xae42e5a4")
       "te6cckECEAEAAdwAARiuQuWkAAAAAAAAABkBAgoOw8htAgIDAAABaCIAAAylVschFfb6H/c6NrbJTptO3VkqNFNOqJuDdTS8Wx0gJvlPEAAAAAAAAAAAAAAAAAEEAggAAAAoBQYBYYAAAAAAAAAAAAAAAAAAAACAAAAAAAAAAAAAAAAAAAAAAAAAAAAAAAAAAAAAADf5gkAHAQHACADi0LAAUYmshNOh1nWEdwB3eJHd51H6EH1kg3v2M30y32eQAAAAAAAAAAAAAAAAAAAAAaToQ7MXlqJN85bWH6W4QX1wbby22eIpfbly2HWo+Y4EMP/fX/Jb6qbDMIRIVPtZnXsux78uZdbSlFjNUh6qCwMBAtAJBECIsmyAnqYuP9QkpkQ/rH/UulMugyeDeOANdz4XWXr/xQoLDA0AiDB4NzFhZTVkODk1ODg3ODkzMTY4MTQwODMzNzE4YTM3ZDI1YjEwZDg2MTBhMGJlYWFlZDRmMzg3NTRkYTJkYTk2ZC0xABxhdmFsYW5jaGUtZnVqaQBUMHhkNzA2N0FlM0MzNTllODM3ODkwYjI4QjdCRDBkMjA4NENmRGY0OWI1AgAODwBA7SLfNCGa4mA5/Zd9jkGa4U14sZLp213Po1l4mQlkcNEACHRvbjJ0V1tQ"))
      [m (Some acc_2) (Some acc_5) (Some "79707714") (Some "1350944") (Some "0x00000028")
       "te6cckECDAEAAYsAAggAAAAoAQIBYYAAAAAAAAAAAAAAAAAAAACAAAAAAAAAAAAAAAAAAAAAAAAAAAAAAAAAAAAAADf5gkADAQHABADi0LAAUYmshNOh1nWEdwB3eJHd51H6EH1kg3v2M30y32eQAAAAAAAAAAAAAAAAAAAAAaToQ7MXlqJN85bWH6W4QX1wbby22eIpfbly2HWo+Y4EMP/fX/Jb6qbDMIRIVPtZnXsux78uZdbSlFjNUh6qCwMBAtAFBECIsmyAnqYuP9QkpkQ/rH/UulMugyeDeOANdz4XWXr/xQYHCAkAiDB4NzFhZTVkODk1ODg3ODkzMTY4MTQwODMzNzE4YTM3ZDI1YjEwZDg2MTBhMGJlYWFlZDRmMzg3NTRkYTJkYTk2ZC0xABxhdmFsYW5jaGUtZnVqaQBUMHhkNzA2N0FlM0MzNTllODM3ODkwYjI4QjdCRDBkMjA4NENmRGY0OWI1AgAKCwBA7SLfNCGa4mA5/Zd9jkGa4U14sZLp213Po1l4mQlkcNEACHRvbjKuSBLZ"]);
    ("SBoKiEJGdzKSmQsD9OFbHTimmaFIryNlryLkFRgZIUE=", tx acc_17 "SBoKiEJGdzKSmQsD9OFbHTimmaFIryNlryLkFRgZIUE=" 37005819000002 1753010619 2601859 (Some (Some 0)) (Some 0)
      (Some (m (Some acc_5) (Some acc_17) (Some "9440400") (Some "373070") (Some "0x00000007")
       "te6cckEBAQEAKAAASwAAAAeAEgerCGDmWDgRLb4ZaHCfgRWAa+aPsyhOvo4lfCEHwHKwzaV6Gg=="))
      [m (Some acc_17) (Some acc_5) (Some "5869200") (Some "969341") (Some "0x0000000d")
       "te6cckEBCAEA/QABSwAAAA2AEgerCGDmWDgRLb4ZaHCfgRWAa+aPsyhOvo4lfCEHwHKwAQQAAgMEBQCIMHg3MWFlNWQ4OTU4ODc4OTMxNjgxNDA4MzM3MThhMzdkMjViMTBkODYxMGEwYmVhYWVkNGYzODc1NGRhMmRhOTZkLTEAHGF2YWxhbmNoZS1mdWppAFQweGQ3MDY3QWUzQzM1OWU4Mzc4OTBiMjhCN0JEMGQyMDg0Q2ZEZjQ5YjUCQIiybICepi4/1CSmRD+sf9S6Uy6DJ4N44A13PhdZev/FBgcAQO0i3zQhmuJgOf2XfY5BmuFNeLGS6dtdz6NZeJkJZHDRAAh0b24yfaOyyg=="]);
    ("ak8f4AWoKlMl+OLKda1bhcFjvfp19TD1UNxFrhCloT4=", tx acc_5 "ak8f4AWoKlMl+OLKda1bhcFjvfp19TD1UNxFrhCloT4=" 37005822000001 1753010626 6602547 (Some (Some 0)) (Some 0)
      (Some (m (Some acc_17) (Some acc_5) (Some "5869200") (Some "969341") (Some "0x0000000d")
       "te6cckEBCAEA/QABSwAAAA2AEgerCGDmWDgRLb4ZaHCfgRWAa+aPsyhOvo4lfCEHwHKwAQQAAgMEBQCIMHg3MWFlNWQ4OTU4ODc4OTMxNjgxNDA4MzM3MThhMzdkMjViMTBkODYxMGEwYmVhYWVkNGYzODc1NGRhMmRhOTZkLTEAHGF2YWxhbmNoZS1mdWppAFQweGQ3MDY3QWUzQzM1OWU4Mzc4OTBiMjhCN0JEMGQyMDg0Q2ZEZjQ5YjUCQIiybICepi4/1CSmRD+sf9S6Uy6DJ4N44A13PhdZev/FBgcAQO0i3zQhmuJgOf2XfY5BmuFNeLGS6dtdz6NZeJkJZHDRAAh0b24yfaOyyg=="))
      [m (Some acc_5) None None None None
       "te6cckEBBwEA1AAEAAECAwQAiDB4NzFhZTVkODk1ODg3ODkzMTY4MTQwODMzNzE4YTM3ZDI1YjEwZDg2MTBhMGJlYWFlZDRmMzg3NTRkYTJkYTk2ZC0xABxhdmFsYW5jaGUtZnVqaQBUMHhkNzA2N0FlM0MzNTllODM3ODkwYjI4QjdCRDBkMjA4NENmRGY0OWI1AkCIsmyAnqYuP9QkpkQ/rH/UulMugyeDeOANdz4XWXr/xQUGAEDtIt80IZriYDn9l32OQZrhTXixkunbXc+jWXiZCWRw0QAIdG9uMi5kdZ8=";
       m (Some acc_5) (Some acc_2) (Some "259200") (Some "301869") (Some "0x00000018")
       "te6cckEBAQEABgAACAAAABhDnyiV"]);
    ("kgGfo5tSROCyMAMubvcssJAg34XnT4cnPAMckKTsTak=", tx acc_17 "kgGfo5tSROCyMAMubvcssJAg34XnT4cnPAMckKTsTak=" 37005819000001 1753010619 994400 (Some (Some 0)) (Some 0)
      (Some (m (Some acc_5) (Some acc_17) (Some "6974400") (Some "2017083") (Some "0x00000000")
       "te6cckEBAQEABgAACAAAAADjAK8P"))
      []);
    ("lDV5zdXZqHzhSaKwiwGf2tF0f7wHxgWPCzyL+yOb6A4=", tx acc_2 "lDV5zdXZqHzhSaKwiwGf2tF0f7wHxgWPCzyL+yOb6A4=" 37005812000001 1753010601 6113669 (Some (Some 0)) (Some 0)
      (Some (m None (Some acc_2) None None (Some "0xfa4a2995")
       "te6cckECEwEAAmwAAYD6SimVAMc5aS202qeJTn3g+JZyEo4hHfGaQnU+Lk/Ek1ZscTzQu/EpsMKhl2mGXptCbXp6+HzJKBVDznAAFSoDAQElAAAQrQIAADIAAAAA0Pmi1ABwhAIBaCIASB6sIYOZYOBEtvhlocJ+BFYBr5o+zKE6+jiV8IQfAcqh3NZQAAAAAAAAAAAAAAAAAAEDARiuQuWkAAAAAAAAABkEAgoOw8htAgUGAAABaCIAAAylVschFfb6H/c6NrbJTptO3VkqNFNOqJuDdTS8Wx0gJvlPEAAAAAAAAAAAAAAAAAEHAggAAAAoCAkBYYAAAAAAAAAAAAAAAAAAAACAAAAAAAAAAAAAAAAAAAAAAAAAAAAAAAAAAAAAADf5gkAKAQHACwDi0LAAUYmshNOh1nWEdwB3eJHd51H6EH1kg3v2M30y32eQAAAAAAAAAAAAAAAAAAAAAaToQ7MXlqJN85bWH6W4QX1wbby22eIpfbly2HWo+Y4EMP/fX/Jb6qbDMIRIVPtZnXsux78uZdbSlFjNUh6qCwMBAtAMBECIsmyAnqYuP9QkpkQ/rH/UulMugyeDeOANdz4XWXr/xQ0ODxAAiDB4NzFhZTVkODk1ODg3ODkzMTY4MTQwODMzNzE4YTM3ZDI1YjEwZDg2MTBhMGJlYWFlZDRmMzg3NTRkYTJkYTk2ZC0xABxhdmFsYW5jaGUtZnVqaQBUMHhkNzA2N0FlM0MzNTllODM3ODkwYjI4QjdCRDBkMjA4NENmRGY0OWI1AgAREgBA7SLfNCGa4mA5/Zd9jkGa4U14sZLp213Po1l4mQlkcNEACHRvbjKYgk/J"))
      [m (Some acc_2) (Some acc_2) (Some "997592800") (Some "1604813") (Some "0xae42e5a4")
       "te6cckECEAEAAdwAARiuQuWkAAAAAAAAABkBAgoOw8htAgIDAAABaCIAAAylVschFfb6H/c6NrbJTptO3VkqNFNOqJuDdTS8Wx0gJvlPEAAAAAAAAAAAAAAAAAEEAggAAAAoBQYBYYAAAAAAAAAAAAAAAAAAAACAAAAAAAAAAAAAAAAAAAAAAAAAAAAAAAAAAAAAADf5gkAHAQHACADi0LAAUYmshNOh1nWEdwB3eJHd51H6EH1kg3v2M30y32eQAAAAAAAAAAAAAAAAAAAAAaToQ7MXlqJN85bWH6W4QX1wbby22eIpfbly2HWo+Y4EMP/fX/Jb6qbDMIRIVPtZnXsux78uZdbSlFjNUh6qCwMBAtAJBECIsmyAnqYuP9QkpkQ/rH/UulMugyeDeOANdz4XWXr/xQoLDA0AiDB4NzFhZTVkODk1ODg3ODkzMTY4MTQwODMzNzE4YTM3ZDI1YjEwZDg2MTBhMGJlYWFlZDRmMzg3NTRkYTJkYTk2ZC0xABxhdmFsYW5jaGUtZnVqaQBUMHhkNzA2N0FlM0MzNTllODM3ODkwYjI4QjdCRDBkMjA4NENmRGY0OWI1AgAODwBA7SLfNCGa4mA5/Zd9jkGa4U14sZLp213Po1l4mQlkcNEACHRvbjJ0V1tQ"]);
    ("rdBJS6dac/Dr5fs5+bLLavN1NDVALysHj7SZbZlhxtc=", tx acc_5 "rdBJS6dac/Dr5fs5+bLLavN1NDVALysHj7SZbZlhxtc=" 37005815000001 1753010611 17673900 (Some (Some 0)) (Some 0)
      (Some (m (Some acc_2) (Some acc_5) (Some "79707714") (Some "1350944") (Some "0x00000028")
       "te6cckECDAEAAYsAAggAAAAoAQIBYYAAAAAAAAAAAAAAAAAAAACAAAAAAAAAAAAAAAAAAAAAAAAAAAAAAAAAAAAAADf5gkADAQHABADi0LAAUYmshNOh1nWEdwB3eJHd51H6EH1kg3v2M30y32eQAAAAAAAAAAAAAAAAAAAAAaToQ7MXlqJN85bWH6W4QX1wbby22eIpfbly2HWo+Y4EMP/fX/Jb6qbDMIRIVPtZnXsux78uZdbSlFjNUh6qCwMBAtAFBECIsmyAnqYuP9QkpkQ/rH/UulMugyeDeOANdz4XWXr/xQYHCAkAiDB4NzFhZTVkODk1ODg3ODkzMTY4MTQwODMzNzE4YTM3ZDI1YjEwZDg2MTBhMGJlYWFlZDRmMzg3NTRkYTJkYTk2ZC0xABxhdmFsYW5jaGUtZnVqaQBUMHhkNzA2N0FlM0MzNTllODM3ODkwYjI4QjdCRDBkMjA4NENmRGY0OWI1AgAKCwBA7SLfNCGa4mA5/Zd9jkGa4U14sZLp213Po1l4mQlkcNEACHRvbjKuSBLZ"))
      [m (Some acc_5) (Some acc_17) (Some "6974400") (Some "2017083") (Some "0x00000000")
       "te6cckEBAQEABgAACAAAAADjAK8P";
       m (Some acc_5) (Some acc_17) (Some "9440400") (Some "373070") (Some "0x00000007")
       "te6cckEBAQEAKAAASwAAAAeAEgerCGDmWDgRLb4ZaHCfgRWAa+aPsyhOvo4lfCEHwHKwzaV6Gg==";
       m (Some acc_5) (Some acc_2) (Some "62927314") (Some "301869") (Some "0x00000018")
       "te6cckEBAQEABgAACAAAABhDnyiV"])]
    ["lDV5zdXZqHzhSaKwiwGf2tF0f7wHxgWPCzyL+yOb6A4="; "H11oV1PNboO4fFlmT6E2+29dAYYPc01gAwAHXI6nI1I="; "rdBJS6dac/Dr5fs5+bLLavN1NDVALysHj7SZbZlhxtc="; "kgGfo5tSROCyMAMubvcssJAg34XnT4cnPAMckKTsTak="; "79lhhADkSf7Bii1SOujLcKHYWafYkk72mBpbZUvARok="; "SBoKiEJGdzKSmQsD9OFbHTimmaFIryNlryLkFRgZIUE="; "ak8f4AWoKlMl+OLKda1bhcFjvfp19TD1UNxFrhCloT4="; "28WZzxkSHgKvhsNvHv02PCy4z4F5i+3ws16k3H/b3Rc="].

Definition rest_13 : TraceRest :=
  recorded "j7WsQWlV7fVrpHA+tpydIVBNRPHee4l+XymHXyNP+z8=" false 37004734000001 37004748000001 [
    ("D439BkveE39lmjUl8bZK2OACZLCUIa/MC6MQ/7CUlCg=", tx acc_2 "D439BkveE39lmjUl8bZK2OACZLCUIa/MC6MQ/7CUlCg=" 37004734000003 1753007991 1373056 (Some (Some 0)) (Some 0)
      (Some (m (Some acc_2) (Some acc_2) (Some "997607200") (Some "1595213") (Some "0xae42e5a4")
       "te6cckECDwEAAeIAARiuQuWkAAAAAAAAAAQBAgoOw8htAgIDAAABaCIAAAylVschFfb6H/c6NrbJTptO3VkqNFNOqJuDdTS8Wx0gJvlPEAAAAAAAAAAAAAAAAAEEAggAAAAoBQYBYYAAAAAAAAAAAAAAAAAAAACAAAAAAAAAAAAAAAAAAAAAAAAAAAAAAAAAAAAAADf5gkAHAQHACADi0LAAUYmshNOh1nWEdwB3eJHd51H6EH1kg3v2M30y32eQAAAAAAAAAAAAAAAAAAAAAYDUNGxI7mBlfUVhRLvO2bohliX/YcNwPjKv9tZtM+y401Q868QKxBTg1qQENDOKgplB0/S9kGQ+fKL4QQSxRQMBAtAJBEDF0kYBhvcjPJJ+fbLcxwPA5QC2U8qCJzt7+tgEXYWkcAoOCwwAhDB4YTI2Y2M4NWQyNzU5MTRmNDVkOTBlODIyNGQxMjlhMThmZTk5ZmIxOTlmNGNjZmQwZjE5YjZiZDY3MDU4ZTg4MgCEMDplMWU2MzNlYjcwMWIxMThiNDQyOTc3MTZjZWU3MDY5ZWU4NDdiNTZkYjg4YzQ5N2VmZWE2ODFlZDE0YjJkMmM3AgANDgBA7SLfNCGa4mA5/Zd9jkGa4U14sZLp213Po1l4mQlkcNEACHRvbjJZnB/K"))
      [m (Some acc_2) (Some acc_5) (Some "79722114") (Some "1341344") (Some "0x00000028")
       "te6cckECCwEAAZEAAggAAAAoAQIBYYAAAAAAAAAAAAAAAAAAAACAAAAAAAAAAAAAAAAAAAAAAAAAAAAAAAAAAAAAADf5gkADAQHABADi0LAAUYmshNOh1nWEdwB3eJHd51H6EH1kg3v2M30y32eQAAAAAAAAAAAAAAAAAAAAAYDUNGxI7mBlfUVhRLvO2bohliX/YcNwPjKv9tZtM+y401Q868QKxBTg1qQENDOKgplB0/S9kGQ+fKL4QQSxRQMBAtAFBEDF0kYBhvcjPJJ+fbLcxwPA5QC2U8qCJzt7+tgEXYWkcAYKBwgAhDB4YTI2Y2M4NWQyNzU5MTRmNDVkOTBlODIyNGQxMjlhMThmZTk5ZmIxOTlmNGNjZmQwZjE5YjZiZDY3MDU4ZTg4MgCEMDplMWU2MzNlYjcwMWIxMThiNDQyOTc3MTZjZWU3MDY5ZWU4NDdiNTZkYjg4YzQ5N2VmZWE2ODFlZDE0YjJkMmM3AgAJCgBA7SLfNCGa4mA5/Zd9jkGa4U14sZLp213Po1l4mQlkcNEACHRvbjLw8N4l"]);
    ("DO54H5yBaq8N1ohR+jbAmwDpzYOIjwZM4axnnN4CI8w=", tx acc_5 "DO54H5yBaq8N1ohR+jbAmwDpzYOIjwZM4axnnN4CI8w=" 37004739000001 1753008008 17639258 (Some (Some 0)) (Some 0)
      (Some (m (Some acc_2) (Some acc_5) (Some "79722114") (Some "1341344") (Some "0x00000028")
       "te6cckECCwEAAZEAAggAAAAoAQIBYYAAAAAAAAAAAAAAAAAAAACAAAAAAAAAAAAAAAAAAAAAAAAAAAAAAAAAAAAAADf5gkADAQHABADi0LAAUYmshNOh1nWEdwB3eJHd51H6EH1kg3v2M30y32eQAAAAAAAAAAAAAAAAAAAAAYDUNGxI7mBlfUVhRLvO2bohliX/YcNwPjKv9tZtM+y401Q868QKxBTg1qQENDOKgplB0/S9kGQ+fKL4QQSxRQMBAtAFBEDF0kYBhvcjPJJ+fbLcxwPA5QC2U8qCJzt7+tgEXYWkcAYKBwgAhDB4YTI2Y2M4NWQyNzU5MTRmNDVkOTBlODIyNGQxMjlhMThmZTk5ZmIxOTlmNGNjZmQwZjE5YjZiZDY3MDU4ZTg4MgCEMDplMWU2MzNlYjcwMWIxMThiNDQyOTc3MTZjZWU3MDY5ZWU4NDdiNTZkYjg4YzQ5N2VmZWE2ODFlZDE0YjJkMmM3AgAJCgBA7SLfNCGa4mA5/Zd9jkGa4U14sZLp213Po1l4mQlkcNEACHRvbjLw8N4l"))
      [m (Some acc_5) (Some acc_18) (Some "6988800") (Some "2007482") (Some "0x00000000")
       "te6cckEBAQEABgAACAAAAADjAK8P";
       m (Some acc_5) (Some acc_18) (Some "9440400") (Some "373070") (Some "0x00000007")
       "te6cckEBAQEAKAAASwAAAAeAEgerCGDmWDgRLb4ZaHCfgRWAa+aPsyhOvo4lfCEHwHKwzaV6Gg==";
       m (Some acc_5) (Some acc_2) (Some "62971314") (Some "301869") (Some "0x00000018")
       "te6cckEBAQEABgAACAAAABhDnyiV"]);
    ("DUtNclIazkvNSRDUEuMlQFQQbCPyLzp3Ag5vHrR2x8w=", tx acc_5 "DUtNclIazkvNSRDUEuMlQFQQbCPyLzp3Ag5vHrR2x8w=" 37004745000001 1753008022 6588146 (Some (Some 0)) (Some 0)
      (Some (m (Some acc_18) (Some acc_5) (Some "5883600") (Some "959741") (Some "0x0000000d")
       "te6cckECBwEAAQMAAUsAAAANgBIHqwhg5lg4ES2+GWhwn4EVgGvmj7MoTr6OJXwhB8BysAEEAAIGAwQAhDB4YTI2Y2M4NWQyNzU5MTRmNDVkOTBlODIyNGQxMjlhMThmZTk5ZmIxOTlmNGNjZmQwZjE5YjZiZDY3MDU4ZTg4MgCEMDplMWU2MzNlYjcwMWIxMThiNDQyOTc3MTZjZWU3MDY5ZWU4NDdiNTZkYjg4YzQ5N2VmZWE2ODFlZDE0YjJkMmM3AkDF0kYBhvcjPJJ+fbLcxwPA5QC2U8qCJzt7+tgEXYWkcAUGAEDtIt80IZriYDn9l32OQZrhTXixkunbXc+jWXiZCWRw0QAIdG9uMi03Ttw="))
      [m (Some acc_5) None None None None
       "te6cckEBBgEA2gAEAAEFAgMAhDB4YTI2Y2M4NWQyNzU5MTRmNDVkOTBlODIyNGQxMjlhMThmZTk5ZmIxOTlmNGNjZmQwZjE5YjZiZDY3MDU4ZTg4MgCEMDplMWU2MzNlYjcwMWIxMThiNDQyOTc3MTZjZWU3MDY5ZWU4NDdiNTZkYjg4YzQ5N2VmZWE2ODFlZDE0YjJkMmM3AkDF0kYBhvcjPJJ+fbLcxwPA5QC2U8qCJzt7+tgEXYWkcAQFAEDtIt80IZriYDn9l32OQZrhTXixkunbXc+jWXiZCWRw0QAIdG9uMmcMxgw=";
       m (Some acc_5) (Some acc_2) (Some "273600") (Some "301869") (Some "0x00000018")
       "te6cckEBAQEABgAACAAAABhDnyiV"]);
    ("NjjSRJU2ednr64Pq+PnSdGEkzbeQeHfv2yV5ZZjL/7Y=", tx acc_18 "NjjSRJU2ednr64Pq+PnSdGEkzbeQeHfv2yV5ZZjL/7Y=" 37004742000002 1753008015 2597059 (Some (Some 0)) (Some 0)
      (Some (m (Some acc_5) (Some acc_18) (Some "9440400") (Some "373070") (Some "0x00000007")
       "te6cckEBAQEAKAAASwAAAAeAEgerCGDmWDgRLb4ZaHCfgRWAa+aPsyhOvo4lfCEHwHKwzaV6Gg=="))
      [m (Some acc_18) (Some acc_5) (Some "5883600") (Some "959741") (Some "0x0000000d")
       "te6cckECBwEAAQMAAUsAAAANgBIHqwhg5lg4ES2+GWhwn4EVgGvmj7MoTr6OJXwhB8BysAEEAAIGAwQAhDB4YTI2Y2M4NWQyNzU5MTRmNDVkOTBlODIyNGQxMjlhMThmZTk5ZmIxOTlmNGNjZmQwZjE5YjZiZDY3MDU4ZTg4MgCEMDplMWU2MzNlYjcwMWIxMThiNDQyOTc3MTZjZWU3MDY5ZWU4NDdiNTZkYjg4YzQ5N2VmZWE2ODFlZDE0YjJkMmM3AkDF0kYBhvcjPJJ+fbLcxwPA5QC2U8qCJzt7+tgEXYWkcAUGAEDtIt80IZriYDn9l32OQZrhTXixkunbXc+jWXiZCWRw0QAIdG9uMi03Ttw="]);
    ("TaR8reU6HwDZb31BfbLU8XRXLDfaHLDJNrS+dZa3F+I=", tx acc_18 "TaR8reU6HwDZb31BfbLU8XRXLDfaHLDJNrS+dZa3F+I=" 37004742000001 1753008015 994400 (Some (Some 0)) (Some 0)
      (Some (m (Some acc_5) (Some acc_18) (Some "6988800") (Some "2007482") (Some "0x00000000")
       "te6cckEBAQEABgAACAAAAADjAK8P"))
      []);
    ("j7WsQWlV7fVrpHA+tpydIVBNRPHee4l+XymHXyNP+z8=", tx acc_2 "j7WsQWlV7fVrpHA+tpydIVBNRPHee4l+XymHXyNP+z8=" 37004734000001 1753007991 6094456 (Some (Some 0)) (Some 0)
      (Some (m None (Some acc_2) None None (Some "0xc51c2cc4")
       "te6cckECEgEAAnIAAYDFHCzEbQSxO6zoO7GxiVNKjP/oxNKVJsurt8SAoJglueCFOo1nz4oesTONCQCcKADBBWIsVK/OLclqXRua9xYLAQElAAAQrQIAAAgAAAAA0PmObgBwhAIBaCIASB6sIYOZYOBEtvhlocJ+BFYBr5o+zKE6+jiV8IQfAcqh3NZQAAAAAAAAAAAAAAAAAAEDARiuQuWkAAAAAAAAAAQEAgoOw8htAgUGAAABaCIAAAylVschFfb6H/c6NrbJTptO3VkqNFNOqJuDdTS8Wx0gJvlPEAAAAAAAAAAAAAAAAAEHAggAAAAoCAkBYYAAAAAAAAAAAAAAAAAAAACAAAAAAAAAAAAAAAAAAAAAAAAAAAAAAAAAAAAAADf5gkAKAQHACwDi0LAAUYmshNOh1nWEdwB3eJHd51H6EH1kg3v2M30y32eQAAAAAAAAAAAAAAAAAAAAAYDUNGxI7mBlfUVhRLvO2bohliX/YcNwPjKv9tZtM+y401Q868QKxBTg1qQENDOKgplB0/S9kGQ+fKL4QQSxRQMBAtAMBEDF0kYBhvcjPJJ+fbLcxwPA5QC2U8qCJzt7+tgEXYWkcA0RDg8AhDB4YTI2Y2M4NWQyNzU5MTRmNDVkOTBlODIyNGQxMjlhMThmZTk5ZmIxOTlmNGNjZmQwZjE5YjZiZDY3MDU4ZTg4MgCEMDplMWU2MzNlYjcwMWIxMThiNDQyOTc3MTZjZWU3MDY5ZWU4NDdiNTZkYjg4YzQ5N2VmZWE2ODFlZDE0YjJkMmM3AgAQEQBA7SLfNCGa4mA5/Zd9jkGa4U14sZLp213Po1l4mQlkcNEACHRvbjJmNM6D"))
      [m (Some acc_2) (Some acc_2) (Some "997607200") (Some "1595213") (Some "0xae42e5a4")
       "te6cckECDwEAAeIAARiuQuWkAAAAAAAAAAQBAgoOw8htAgIDAAABaCIAAAylVschFfb6H/c6NrbJTptO3VkqNFNOqJuDdTS8Wx0gJvlPEAAAAAAAAAAAAAAAAAEEAggAAAAoBQYBYYAAAAAAAAAAAAAAAAAAAACAAAAAAAAAAAAAAAAAAAAAAAAAAAAAAAAAAAAAADf5gkAHAQHACADi0LAAUYmshNOh1nWEdwB3eJHd51H6EH1kg3v2M30y32eQAAAAAAAAAAAAAAAAAAAAAYDUNGxI7mBlfUVhRLvO2bohliX/YcNwPjKv9tZtM+y401Q868QKxBTg1qQENDOKgplB0/S9kGQ+fKL4QQSxRQMBAtAJBEDF0kYBhvcjPJJ+fbLcxwPA5QC2U8qCJzt7+tgEXYWkcAoOCwwAhDB4YTI2Y2M4NWQyNzU5MTRmNDVkOTBlODIyNGQxMjlhMThmZTk5ZmIxOTlmNGNjZmQwZjE5YjZiZDY3MDU4ZTg4MgCEMDplMWU2MzNlYjcwMWIxMThiNDQyOTc3MTZjZWU3MDY5ZWU4NDdiNTZkYjg4YzQ5N2VmZWE2ODFlZDE0YjJkMmM3AgANDgBA7SLfNCGa4mA5/Zd9jkGa4U14sZLp213Po1l4mQlkcNEACHRvbjJZnB/K"]);
    ("sSeAKaXesJAQ1Q9oSrwh2YnTp+mF9TqSusihpxZzyEw=", tx acc_2 "sSeAKaXesJAQ1Q9oSrwh2YnTp+mF9TqSusihpxZzyEw=" 37004742000001 1753008015 230807 (Some (Some 0)) (Some 0)
      (Some (m (Some acc_5) (Some acc_2) (Some "62971314") (Some "301869") (Some "0x00000018")
       "te6cckEBAQEABgAACAAAABhDnyiV"))
      []);
    ("yrY49J5IsC85Xrox1lw/LTCeO8/7eiajoI5d//8eNJI=", tx acc_2 "yrY49J5IsC85Xrox1lw/LTCeO8/7eiajoI5d//8eNJI=" 37004748000001 1753008029 230804 (Some (Some 0)) (Some 0)
      (Some (m (Some acc_5) (Some acc_2) (Some "273600") (Some "301869") (Some "0x00000018")
       "te6cckEBAQEABgAACAAAABhDnyiV"))
      [])]
    ["j7WsQWlV7fVrpHA+tpydIVBNRPHee4l+XymHXyNP+z8="; "D439BkveE39lmjUl8bZK2OACZLCUIa/MC6MQ/7CUlCg="; "DO54H5yBaq8N1ohR+jbAmwDpzYOIjwZM4axnnN4CI8w="; "sSeAKaXesJAQ1Q9oSrwh2YnTp+mF9TqSusihpxZzyEw="; "TaR8reU6HwDZb31BfbLU8XRXLDfaHLDJNrS+dZa3F+I="; "NjjSRJU2ednr64Pq+PnSdGEkzbeQeHfv2yV5ZZjL/7Y="; "DUtNclIazkvNSRDUEuMlQFQQbCPyLzp3Ag5vHrR2x8w="; "yrY49J5IsC85Xrox1lw/LTCeO8/7eiajoI5d//8eNJI="].

Definition rest_14 : TraceRest :=
  recorded "HY7YP3yboKRyZuShGWVcND3o5zUh3ZtSyrYE4BxjJrQ=" false 37008723000001 37008729000001 [
    ("3n3iMHZ9h+4CHUbqZROvjGd5jjRdYBiN9wiIAxRgeLc=", tx acc_5 "3n3iMHZ9h+4CHUbqZROvjGd5jjRdYBiN9wiIAxRgeLc=" 37008726000001 1753017577 1842556 (Some (Some 106)) None
      (Some (m (Some acc_2) (Some acc_5) (Some "296408400") (Some "9061136") (Some "0x00000008")
       "te6cckECKgEADowAAUsAAAAIgBIHqwhg5lg4ES2+GWhwn4EVgGvmj7MoTr6OJXwhB8BysAEEAAIHAwQAhDB4ODlmMzI1MmZiOWFkNzAwM2MyNTQ3MTY4NWY0OGQxNGM4NDJhMjkxMGI5Mzg2ZDM1Zjg1OTY5NGJhYmY3YjFjZgCEMDplMWU2MzNlYjcwMWIxMThiNDQyOTc3MTZjZWU3MDY5ZWU4NDdiNTZkYjg4YzQ5N2VmZWE2ODFlZDE0YjJkMmM3A4CIsmyAnqYuP9QkpkQ/rH/UulMugyeDeOANdz4XWXr/xQAAAAAAAAAAAAAAAAAAAAAAAAAAAAAAAAAAAAAAmJaABQYHAcAAAAAAAAAAAAAAAAAAAAAAAAAAAAAAAAAAAAAAAAAAIAAAAAAAAAAAAAAAAAAAAAAAAAAAAAAAAAAAAAAAAAyuTG9yZW0gaXBzdW0gZG9sb3Igc2l0IGFtZXQsIGNvbnMIAEDtIt80IZriYDn9l32OQZrhTXixkunbXc+jWXiZCWRw0QAIdG9uMgHAZWN0ZXR1ciBhZGlwaXNjaW5nIGVsaXQuIEluIGJsYW5kaXQsIGFudGUgaW4gZGlnbmlzc2ltIHVsdHJpY2llcywgbGlndWxhIHB1cnVzIG1vbGVzdGllIHNhcGllbiwgCQHAZXVpc21vZCBzYWdpdHRpcyBuaXNpIGxlY3R1cyB1dCBhbnRlLiBJbnRlZ2VyIGltcGVyZGlldCBpcHN1bSBlcm9zLCBmZXVnaWF0IGNvbmRpbWVudHVtIGFudGUgZ3JhCgHAdmlkYSBldC4gU3VzcGVuZGlzc2UgdGVtcHVzIGxvcmVtIHNpdCBhbWV0IG1hc3NhIGVmZmljaXR1ciBzb2xsaWNpdHVkaW4uIE5hbSBvZGlvIGR1aSwgY29udmFsbGlzCwHAIHZpdGFlIG1hdXJpcyBxdWlzLCBmYXVjaWJ1cyB1bGxhbWNvcnBlciBzYXBpZW4uIERvbmVjIG1vbGVzdGllIGNvbnZhbGxpcyBlbGVtZW50dW0uIFF1aXNxdWUgdGluDAHAY2lkdW50IHRpbmNpZHVudCBuZXF1ZSwgbm9uIHBsYWNlcmF0IG5lcXVlIHBvc3VlcmUgYXQuIE51bGxhbSBjb25zZXF1YXQgdml2ZXJyYSBwb3J0YS4gRG9uZWMgZXQgDQHAbWFsZXN1YWRhIHF1YW0sIHNlZCBjb252YWxsaXMgdmVsaXQuICBVdCBuaXNsIHR1cnBpcywgdGluY2lkdW50IHZlbCBjb21tb2RvIHV0LCBzb2RhbGVzIGV1IG5pc2kuDgHAIE1hdXJpcyBwaGFyZXRyYSBkdWkgYSBzZW0gZmV1Z2lhdCBwb3N1ZXJlLiBQZWxsZW50ZXNxdWUgc2VkIHBvc3VlcmUgZHVpLiBQZWxsZW50ZXNxdWUgbGFjaW5pYSBmDwHAZWxpcyBldCBkaWFtIHZlbmVuYXRpcyBzYWdpdHRpcy4gTWF1cmlzIHZlbGl0IHB1cnVzLCBmaW5pYnVzIG5vbiBuaXNsIGF0LCBzdXNjaXBpdCBpYWN1bGlzIGFyY3UuEAHAIE1vcmJpIGNvbnNlY3RldHVyIHBlbGxlbnRlc3F1ZSBsYWN1cywgdmVsIGJpYmVuZHVtIGp1c3RvIGZyaW5naWxsYSB1dC4gU2VkIHNhZ2l0dGlzIGVsZWlmZW5kIG51EQHAbGxhLCBhYyBpYWN1bGlzIHR1cnBpcyB0cmlzdGlxdWUgZWdldC4gQWVuZWFuIHV0IHBvcnR0aXRvciBuaXNsLCBjb21tb2RvIGVsZWlmZW5kIGxvcmVtLiBJbnRlZ2VyEgHAIGVnZXQgcHVydXMgdmVuZW5hdGlzIG1pIGVmZmljaXR1ciBtb2xlc3RpZSBpZCBsb2JvcnRpcyBuZXF1ZS4gU2VkIHF1aXMgcmhvbmN1cyBwdXJ1cy4gVml2YW11cyB2EwHAaXZlcnJhIG51bGxhIHNlZCBkaWFtIGZyaW5naWxsYSwgdml0YWUgcnV0cnVtIGxpYmVybyB2ZXN0aWJ1bHVtLiBGdXNjZSBzZW0gZW5pbSwgcnV0cnVtIG5lYyBlbmltFAHAIHBlbGxlbnRlc3F1ZSwgZWxlbWVudHVtIG1hdHRpcyBzZW0uIE51bGxhbSB1bGxhbWNvcnBlciBhY2N1bXNhbiBpcHN1bSwgc2VkIG1vbGVzdGllIG5pYmggdmVoaWN1FQHAbGEgc2l0IGFtZXQuIE1hdXJpcyBmZXJtZW50dW0gYWMgZXN0IHZpdGFlIGF1Y3Rvci4gQWVuZWFuIGZlcm1lbnR1bSBjb252YWxsaXMgbmVxdWUsIHNlZCB2ZWhpY3VsFgHAYSBlc3QgZGlnbmlzc2ltIGEuICBJbiBsYWNpbmlhIG5pYmggbmlzaSwgZXUgZWdlc3RhcyBtYXVyaXMgdGVtcHVzIGEuIFBoYXNlbGx1cyBub24gZWxlbWVudHVtIGRvFwHAbG9yLiBJbnRlZ2VyIGdyYXZpZGEgcGhhcmV0cmEgZmF1Y2lidXMuIFBlbGxlbnRlc3F1ZSBtb2xsaXMgZG9sb3IgcXVpcyBhcmN1IHZpdmVycmEsIGF0IHBoYXJldHJhGAHAIGxlY3R1cyBzYWdpdHRpcy4gSW50ZXJkdW0gZXQgbWFsZXN1YWRhIGZhbWVzIGFjIGFudGUgaXBzdW0gcHJpbWlzIGluIGZhdWNpYnVzLiBQcmFlc2VudCBzdXNjaXBpGQHAdCBhdWd1ZSBhYyBtYWduYSBkYXBpYnVzIG9ybmFyZS4gRHVpcyBmcmluZ2lsbGEgaWFjdWxpcyBmZXJtZW50dW0uIEFlbmVhbiBpZCByaXN1cyBkdWkuIERvbmVjIHNlGgHAZCBtb2xlc3RpZSBkdWkuIE51bmMgc2VtIG1hc3NhLCBpbnRlcmR1bSB1dCBjb25ndWUgdmVsLCBoZW5kcmVyaXQgdmVzdGlidWx1bSBsaWJlcm8uIFN1c3BlbmRpc3NlGwHAIHN1c2NpcGl0IGF1Y3RvciBlZmZpY2l0dXIuICBQcmFlc2VudCB1dCBmYXVjaWJ1cyBudW5jLCBhdCB0aW5jaWR1bnQgZXJvcy4gTW9yYmkgZXN0IG1hc3NhLCBmZXJtHAHAZW50dW0gc2l0IGFtZXQgbmVxdWUgdmVsLCBpYWN1bGlzIHZvbHV0cGF0IHB1cnVzLiBJbnRlcmR1bSBldCBtYWxlc3VhZGEgZmFtZXMgYWMgYW50ZSBpcHN1bSBwcmltHQHAaXMgaW4gZmF1Y2lidXMuIERvbmVjIG5lcXVlIG1pLCBkaWN0dW0gZXUgaGVuZHJlcml0IHZpdGFlLCBhdWN0b3IgZXQgdGVsbHVzLiBOYW0gYXVjdG9yIGxpZ3VsYSBpHgHAbiBvcmNpIHNvbGxpY2l0dWRpbiBvcm5hcmUuIFNlZCBuZWMgbG9yZW0gZnJpbmdpbGxhLCBwb3J0dGl0b3IgbG9yZW0gdXQsIGNvbnNlcXVhdCBlbGl0LiBOdWxsYW0gHwHAc29sbGljaXR1ZGluIHB1cnVzIG1pLCBpbiB1bHRyaWNlcyBkdWkgbW9sbGlzIHNlZC4gSW50ZWdlciBsYWNpbmlhIG5pYmggZXQgZmluaWJ1cyBlZmZpY2l0dXIuIENyIAHAYXMgZmV1Z2lhdCB2ZXN0aWJ1bHVtIHNhcGllbiBmZXJtZW50dW0gY3Vyc3VzLiBQZWxsZW50ZXNxdWUgdXQgc2FwaWVuIGxpZ3VsYS4gQ3VyYWJpdHVyIGVsaXQgZW5pIQHAbSwgcG9ydGEgcXVpcyB1cm5hIGFjLCBwZWxsZW50ZXNxdWUgdGVtcHVzIG5pc2kuICBJbnRlZ2VyIGNvbnNlY3RldHVyIGxvYm9ydGlzIGZhdWNpYnVzLiBOdWxsYSBzIgHAZWQgZG9sb3IgbGVvLiBQcmFlc2VudCBhbGlxdWFtIGVyb3Mgdml0YWUgcG9ydGEgbGFjaW5pYS4gRG9uZWMgZXQgbG9yZW0gdGluY2lkdW50LCB2aXZlcnJhIG51bmMgIwHAaW4sIG1hbGVzdWFkYSBuaXNpLiBQZWxsZW50ZXNxdWUgbmVxdWUgbWF1cmlzLCBiaWJlbmR1bSBuZWMgcHVsdmluYXIgbm9uLCBldWlzbW9kIHV0IGxlY3R1cy4gVmVzJAHAdGlidWx1bSBxdWlzIGJpYmVuZHVtIHRlbGx1cy4gVXQgbHVjdHVzIG1hdXJpcyBmZXJtZW50dW0gcmhvbmN1cyBjb25kaW1lbnR1bS4gQWVuZWFuIHNlZCBsYWN1cyBxJQHAdWlzIGxlY3R1cyBwdWx2aW5hciBmaW5pYnVzLiBNYWVjZW5hcyBhIHBvcnR0aXRvciBsZW8sIHZlbCB0ZW1wb3IgdGVsbHVzLiBWaXZhbXVzIGxlY3R1cyB0ZWxsdXMsJgHAIHNvbGxpY2l0dWRpbiBhIG9kaW8gbW9sZXN0aWUsIHZlbmVuYXRpcyBpYWN1bGlzIG1ldHVzLiBTZWQgcXVpcyBsZWN0dXMgbnVsbGEuIFNlZCBqdXN0byBtYXNzYSwgJwHAc3VzY2lwaXQgdXQgZWxlaWZlbmQgbmVjLCBncmF2aWRhIHV0IG5pYmguIE1hdXJpcyBxdWlzIG1ldHVzIHVybmEuIE51bGxhbSBhdCBtYXVyaXMgc2VkIG1pIGltcGVyKAHAZGlldCBlbGVpZmVuZCB1bHRyaWNlcyBzZWQgb2Rpby4gTmFtIGxhb3JlZXQgbGVvIGluIGFyY3UgZ3JhdmlkYSwgZWdldCBtYXhpbXVzIGlwc3VtIGxhY2luaWEuIE1hKQCAZWNlbmFzIGNvbnNlcXVhdCBuZXF1ZSBhYyBwZWxsZW50ZXNxdWUgdGVtcG9yLgAAAAAAAAAAAAAAAAAAAAAAAD7js4k="))
      [m (Some acc_5) (Some acc_2) (Some "294299200") (Some "266669") (Some "0xffffffff")
       "te6cckEBAQEAJgAASP////8AAAAIgBIHqwhg5lg4ES2+GWhwn4EVgGvmj7MoTr6OJcgfsg4="]);
    ("HY7YP3yboKRyZuShGWVcND3o5zUh3ZtSyrYE4BxjJrQ=", tx acc_2 "HY7YP3yboKRyZuShGWVcND3o5zUh3ZtSyrYE4BxjJrQ=" 37008723000001 1753017570 21412198 (Some (Some 0)) (Some 0)
      (Some (m None (Some acc_2) None None (Some "0x00524a6b")
       "te6cckECMQEAD20AAYAAUkpr38xo63CgVc4cewF3xDCTwNKRV/bfgsY1xR2yoPV+5it5VWstoEEI6QHu5eK/GH0bw2LHDwMPlwQ3mS0OAQElAAAQrQIAAAoAAAAA0PnZSgBwhAIBaCIASB6sIYOZYOBEtvhlocJ+BFYBr5o+zKE6+jiV8IQfAcqh3NZQAAAAAAAAAAAAAAAAAAEDARiuQuWkAAAAAAAAAAUEAgoOw8htAgUGAAABaCIAAAylVschFfb6H/c6NrbJTptO3VkqNFNOqJuDdTS8Wx0gk9HMAAAAAAAAAAAAAAAAAAEHAUsAAAAIgBIHqwhg5lg4ES2+GWhwn4EVgGvmj7MoTr6OJXwhB8BysAgEAAkOCgsAhDB4ODlmMzI1MmZiOWFkNzAwM2MyNTQ3MTY4NWY0OGQxNGM4NDJhMjkxMGI5Mzg2ZDM1Zjg1OTY5NGJhYmY3YjFjZgCEMDplMWU2MzNlYjcwMWIxMThiNDQyOTc3MTZjZWU3MDY5ZWU4NDdiNTZkYjg4YzQ5N2VmZWE2ODFlZDE0YjJkMmM3A4CIsmyAnqYuP9QkpkQ/rH/UulMugyeDeOANdz4XWXr/xQAAAAAAAAAAAAAAAAAAAAAAAAAAAAAAAAAAAAAAmJaADA0OAcAAAAAAAAAAAAAAAAAAAAAAAAAAAAAAAAAAAAAAAAAAIAAAAAAAAAAAAAAAAAAAAAAAAAAAAAAAAAAAAAAAAAyuTG9yZW0gaXBzdW0gZG9sb3Igc2l0IGFtZXQsIGNvbnMPAEDtIt80IZriYDn9l32OQZrhTXixkunbXc+jWXiZCWRw0QAIdG9uMgHAZWN0ZXR1ciBhZGlwaXNjaW5nIGVsaXQuIEluIGJsYW5kaXQsIGFudGUgaW4gZGlnbmlzc2ltIHVsdHJpY2llcywgbGlndWxhIHB1cnVzIG1vbGVzdGllIHNhcGllbiwgEAHAZXVpc21vZCBzYWdpdHRpcyBuaXNpIGxlY3R1cyB1dCBhbnRlLiBJbnRlZ2VyIGltcGVyZGlldCBpcHN1bSBlcm9zLCBmZXVnaWF0IGNvbmRpbWVudHVtIGFudGUgZ3JhEQHAdmlkYSBldC4gU3VzcGVuZGlzc2UgdGVtcHVzIGxvcmVtIHNpdCBhbWV0IG1hc3NhIGVmZmljaXR1ciBzb2xsaWNpdHVkaW4uIE5hbSBvZGlvIGR1aSwgY29udmFsbGlzEgHAIHZpdGFlIG1hdXJpcyBxdWlzLCBmYXVjaWJ1cyB1bGxhbWNvcnBlciBzYXBpZW4uIERvbmVjIG1vbGVzdGllIGNvbnZhbGxpcyBlbGVtZW50dW0uIFF1aXNxdWUgdGluEwHAY2lkdW50IHRpbmNpZHVudCBuZXF1ZSwgbm9uIHBsYWNlcmF0IG5lcXVlIHBvc3VlcmUgYXQuIE51bGxhbSBjb25zZXF1YXQgdml2ZXJyYSBwb3J0YS4gRG9uZWMgZXQgFAHAbWFsZXN1YWRhIHF1YW0sIHNlZCBjb252YWxsaXMgdmVsaXQuICBVdCBuaXNsIHR1cnBpcywgdGluY2lkdW50IHZlbCBjb21tb2RvIHV0LCBzb2RhbGVzIGV1IG5pc2kuFQHAIE1hdXJpcyBwaGFyZXRyYSBkdWkgYSBzZW0gZmV1Z2lhdCBwb3N1ZXJlLiBQZWxsZW50ZXNxdWUgc2VkIHBvc3VlcmUgZHVpLiBQZWxsZW50ZXNxdWUgbGFjaW5pYSBmFgHAZWxpcyBldCBkaWFtIHZlbmVuYXRpcyBzYWdpdHRpcy4gTWF1cmlzIHZlbGl0IHB1cnVzLCBmaW5pYnVzIG5vbiBuaXNsIGF0LCBzdXNjaXBpdCBpYWN1bGlzIGFyY3UuFwHAIE1vcmJpIGNvbnNlY3RldHVyIHBlbGxlbnRlc3F1ZSBsYWN1cywgdmVsIGJpYmVuZHVtIGp1c3RvIGZyaW5naWxsYSB1dC4gU2VkIHNhZ2l0dGlzIGVsZWlmZW5kIG51GAHAbGxhLCBhYyBpYWN1bGlzIHR1cnBpcyB0cmlzdGlxdWUgZWdldC4gQWVuZWFuIHV0IHBvcnR0aXRvciBuaXNsLCBjb21tb2RvIGVsZWlmZW5kIGxvcmVtLiBJbnRlZ2VyGQHAIGVnZXQgcHVydXMgdmVuZW5hdGlzIG1pIGVmZmljaXR1ciBtb2xlc3RpZSBpZCBsb2JvcnRpcyBuZXF1ZS4gU2VkIHF1aXMgcmhvbmN1cyBwdXJ1cy4gVml2YW11cyB2GgHAaXZlcnJhIG51bGxhIHNlZCBkaWFtIGZyaW5naWxsYSwgdml0YWUgcnV0cnVtIGxpYmVybyB2ZXN0aWJ1bHVtLiBGdXNjZSBzZW0gZW5pbSwgcnV0cnVtIG5lYyBlbmltGwHAIHBlbGxlbnRlc3F1ZSwgZWxlbWVudHVtIG1hdHRpcyBzZW0uIE51bGxhbSB1bGxhbWNvcnBlciBhY2N1bXNhbiBpcHN1bSwgc2VkIG1vbGVzdGllIG5pYmggdmVoaWN1HAHAbGEgc2l0IGFtZXQuIE1hdXJpcyBmZXJtZW50dW0gYWMgZXN0IHZpdGFlIGF1Y3Rvci4gQWVuZWFuIGZlcm1lbnR1bSBjb252YWxsaXMgbmVxdWUsIHNlZCB2ZWhpY3VsHQHAYSBlc3QgZGlnbmlzc2ltIGEuICBJbiBsYWNpbmlhIG5pYmggbmlzaSwgZXUgZWdlc3RhcyBtYXVyaXMgdGVtcHVzIGEuIFBoYXNlbGx1cyBub24gZWxlbWVudHVtIGRvHgHAbG9yLiBJbnRlZ2VyIGdyYXZpZGEgcGhhcmV0cmEgZmF1Y2lidXMuIFBlbGxlbnRlc3F1ZSBtb2xsaXMgZG9sb3IgcXVpcyBhcmN1IHZpdmVycmEsIGF0IHBoYXJldHJhHwHAIGxlY3R1cyBzYWdpdHRpcy4gSW50ZXJkdW0gZXQgbWFsZXN1YWRhIGZhbWVzIGFjIGFudGUgaXBzdW0gcHJpbWlzIGluIGZhdWNpYnVzLiBQcmFlc2VudCBzdXNjaXBpIAHAdCBhdWd1ZSBhYyBtYWduYSBkYXBpYnVzIG9ybmFyZS4gRHVpcyBmcmluZ2lsbGEgaWFjdWxpcyBmZXJtZW50dW0uIEFlbmVhbiBpZCByaXN1cyBkdWkuIERvbmVjIHNlIQHAZCBtb2xlc3RpZSBkdWkuIE51bmMgc2VtIG1hc3NhLCBpbnRlcmR1bSB1dCBjb25ndWUgdmVsLCBoZW5kcmVyaXQgdmVzdGlidWx1bSBsaWJlcm8uIFN1c3BlbmRpc3NlIgHAIHN1c2NpcGl0IGF1Y3RvciBlZmZpY2l0dXIuICBQcmFlc2VudCB1dCBmYXVjaWJ1cyBudW5jLCBhdCB0aW5jaWR1bnQgZXJvcy4gTW9yYmkgZXN0IG1hc3NhLCBmZXJtIwHAZW50dW0gc2l0IGFtZXQgbmVxdWUgdmVsLCBpYWN1bGlzIHZvbHV0cGF0IHB1cnVzLiBJbnRlcmR1bSBldCBtYWxlc3VhZGEgZmFtZXMgYWMgYW50ZSBpcHN1bSBwcmltJAHAaXMgaW4gZmF1Y2lidXMuIERvbmVjIG5lcXVlIG1pLCBkaWN0dW0gZXUgaGVuZHJlcml0IHZpdGFlLCBhdWN0b3IgZXQgdGVsbHVzLiBOYW0gYXVjdG9yIGxpZ3VsYSBpJQHAbiBvcmNpIHNvbGxpY2l0dWRpbiBvcm5hcmUuIFNlZCBuZWMgbG9yZW0gZnJpbmdpbGxhLCBwb3J0dGl0b3IgbG9yZW0gdXQsIGNvbnNlcXVhdCBlbGl0LiBOdWxsYW0gJgHAc29sbGljaXR1ZGluIHB1cnVzIG1pLCBpbiB1bHRyaWNlcyBkdWkgbW9sbGlzIHNlZC4gSW50ZWdlciBsYWNpbmlhIG5pYmggZXQgZmluaWJ1cyBlZmZpY2l0dXIuIENyJwHAYXMgZmV1Z2lhdCB2ZXN0aWJ1bHVtIHNhcGllbiBmZXJtZW50dW0gY3Vyc3VzLiBQZWxsZW50ZXNxdWUgdXQgc2FwaWVuIGxpZ3VsYS4gQ3VyYWJpdHVyIGVsaXQgZW5pKAHAbSwgcG9ydGEgcXVpcyB1cm5hIGFjLCBwZWxsZW50ZXNxdWUgdGVtcHVzIG5pc2kuICBJbnRlZ2VyIGNvbnNlY3RldHVyIGxvYm9ydGlzIGZhdWNpYnVzLiBOdWxsYSBzKQHAZWQgZG9sb3IgbGVvLiBQcmFlc2VudCBhbGlxdWFtIGVyb3Mgdml0YWUgcG9ydGEgbGFjaW5pYS4gRG9uZWMgZXQgbG9yZW0gdGluY2lkdW50LCB2aXZlcnJhIG51bmMgKgHAaW4sIG1hbGVzdWFkYSBuaXNpLiBQZWxsZW50ZXNxdWUgbmVxdWUgbWF1cmlzLCBiaWJlbmR1bSBuZWMgcHVsdmluYXIgbm9uLCBldWlzbW9kIHV0IGxlY3R1cy4gVmVzKwHAdGlidWx1bSBxdWlzIGJpYmVuZHVtIHRlbGx1cy4gVXQgbHVjdHVzIG1hdXJpcyBmZXJtZW50dW0gcmhvbmN1cyBjb25kaW1lbnR1bS4gQWVuZWFuIHNlZCBsYWN1cyBxLAHAdWlzIGxlY3R1cyBwdWx2aW5hciBmaW5pYnVzLiBNYWVjZW5hcyBhIHBvcnR0aXRvciBsZW8sIHZlbCB0ZW1wb3IgdGVsbHVzLiBWaXZhbXVzIGxlY3R1cyB0ZWxsdXMsLQHAIHNvbGxpY2l0dWRpbiBhIG9kaW8gbW9sZXN0aWUsIHZlbmVuYXRpcyBpYWN1bGlzIG1ldHVzLiBTZWQgcXVpcyBsZWN0dXMgbnVsbGEuIFNlZCBqdXN0byBtYXNzYSwgLgHAc3VzY2lwaXQgdXQgZWxlaWZlbmQgbmVjLCBncmF2aWRhIHV0IG5pYmguIE1hdXJpcyBxdWlzIG1ldHVzIHVybmEuIE51bGxhbSBhdCBtYXVyaXMgc2VkIG1pIGltcGVyLwHAZGlldCBlbGVpZmVuZCB1bHRyaWNlcyBzZWQgb2Rpby4gTmFtIGxhb3JlZXQgbGVvIGluIGFyY3UgZ3JhdmlkYSwgZWdldCBtYXhpbXVzIGlwc3VtIGxhY2luaWEuIE1hMACAZWNlbmFzIGNvbnNlcXVhdCBuZXF1ZSBhYyBwZWxsZW50ZXNxdWUgdGVtcG9yLgAAAAAAAAAAAAAAAAAAAAAAALlzMyk="))
      [m (Some acc_2) (Some acc_2) (Some "986027600") (Some "9315005") (Some "0xae42e5a4")
       "te6cckECLgEADt0AARiuQuWkAAAAAAAAAAUBAgoOw8htAgIDAAABaCIAAAylVschFfb6H/c6NrbJTptO3VkqNFNOqJuDdTS8Wx0gk9HMAAAAAAAAAAAAAAAAAAEEAUsAAAAIgBIHqwhg5lg4ES2+GWhwn4EVgGvmj7MoTr6OJXwhB8BysAUEAAYLBwgAhDB4ODlmMzI1MmZiOWFkNzAwM2MyNTQ3MTY4NWY0OGQxNGM4NDJhMjkxMGI5Mzg2ZDM1Zjg1OTY5NGJhYmY3YjFjZgCEMDplMWU2MzNlYjcwMWIxMThiNDQyOTc3MTZjZWU3MDY5ZWU4NDdiNTZkYjg4YzQ5N2VmZWE2ODFlZDE0YjJkMmM3A4CIsmyAnqYuP9QkpkQ/rH/UulMugyeDeOANdz4XWXr/xQAAAAAAAAAAAAAAAAAAAAAAAAAAAAAAAAAAAAAAmJaACQoLAcAAAAAAAAAAAAAAAAAAAAAAAAAAAAAAAAAAAAAAAAAAIAAAAAAAAAAAAAAAAAAAAAAAAAAAAAAAAAAAAAAAAAyuTG9yZW0gaXBzdW0gZG9sb3Igc2l0IGFtZXQsIGNvbnMMAEDtIt80IZriYDn9l32OQZrhTXixkunbXc+jWXiZCWRw0QAIdG9uMgHAZWN0ZXR1ciBhZGlwaXNjaW5nIGVsaXQuIEluIGJsYW5kaXQsIGFudGUgaW4gZGlnbmlzc2ltIHVsdHJpY2llcywgbGlndWxhIHB1cnVzIG1vbGVzdGllIHNhcGllbiwgDQHAZXVpc21vZCBzYWdpdHRpcyBuaXNpIGxlY3R1cyB1dCBhbnRlLiBJbnRlZ2VyIGltcGVyZGlldCBpcHN1bSBlcm9zLCBmZXVnaWF0IGNvbmRpbWVudHVtIGFudGUgZ3JhDgHAdmlkYSBldC4gU3VzcGVuZGlzc2UgdGVtcHVzIGxvcmVtIHNpdCBhbWV0IG1hc3NhIGVmZmljaXR1ciBzb2xsaWNpdHVkaW4uIE5hbSBvZGlvIGR1aSwgY29udmFsbGlzDwHAIHZpdGFlIG1hdXJpcyBxdWlzLCBmYXVjaWJ1cyB1bGxhbWNvcnBlciBzYXBpZW4uIERvbmVjIG1vbGVzdGllIGNvbnZhbGxpcyBlbGVtZW50dW0uIFF1aXNxdWUgdGluEAHAY2lkdW50IHRpbmNpZHVudCBuZXF1ZSwgbm9uIHBsYWNlcmF0IG5lcXVlIHBvc3VlcmUgYXQuIE51bGxhbSBjb25zZXF1YXQgdml2ZXJyYSBwb3J0YS4gRG9uZWMgZXQgEQHAbWFsZXN1YWRhIHF1YW0sIHNlZCBjb252YWxsaXMgdmVsaXQuICBVdCBuaXNsIHR1cnBpcywgdGluY2lkdW50IHZlbCBjb21tb2RvIHV0LCBzb2RhbGVzIGV1IG5pc2kuEgHAIE1hdXJpcyBwaGFyZXRyYSBkdWkgYSBzZW0gZmV1Z2lhdCBwb3N1ZXJlLiBQZWxsZW50ZXNxdWUgc2VkIHBvc3VlcmUgZHVpLiBQZWxsZW50ZXNxdWUgbGFjaW5pYSBmEwHAZWxpcyBldCBkaWFtIHZlbmVuYXRpcyBzYWdpdHRpcy4gTWF1cmlzIHZlbGl0IHB1cnVzLCBmaW5pYnVzIG5vbiBuaXNsIGF0LCBzdXNjaXBpdCBpYWN1bGlzIGFyY3UuFAHAIE1vcmJpIGNvbnNlY3RldHVyIHBlbGxlbnRlc3F1ZSBsYWN1cywgdmVsIGJpYmVuZHVtIGp1c3RvIGZyaW5naWxsYSB1dC4gU2VkIHNhZ2l0dGlzIGVsZWlmZW5kIG51FQHAbGxhLCBhYyBpYWN1bGlzIHR1cnBpcyB0cmlzdGlxdWUgZWdldC4gQWVuZWFuIHV0IHBvcnR0aXRvciBuaXNsLCBjb21tb2RvIGVsZWlmZW5kIGxvcmVtLiBJbnRlZ2VyFgHAIGVnZXQgcHVydXMgdmVuZW5hdGlzIG1pIGVmZmljaXR1ciBtb2xlc3RpZSBpZCBsb2JvcnRpcyBuZXF1ZS4gU2VkIHF1aXMgcmhvbmN1cyBwdXJ1cy4gVml2YW11cyB2FwHAaXZlcnJhIG51bGxhIHNlZCBkaWFtIGZyaW5naWxsYSwgdml0YWUgcnV0cnVtIGxpYmVybyB2ZXN0aWJ1bHVtLiBGdXNjZSBzZW0gZW5pbSwgcnV0cnVtIG5lYyBlbmltGAHAIHBlbGxlbnRlc3F1ZSwgZWxlbWVudHVtIG1hdHRpcyBzZW0uIE51bGxhbSB1bGxhbWNvcnBlciBhY2N1bXNhbiBpcHN1bSwgc2VkIG1vbGVzdGllIG5pYmggdmVoaWN1GQHAbGEgc2l0IGFtZXQuIE1hdXJpcyBmZXJtZW50dW0gYWMgZXN0IHZpdGFlIGF1Y3Rvci4gQWVuZWFuIGZlcm1lbnR1bSBjb252YWxsaXMgbmVxdWUsIHNlZCB2ZWhpY3VsGgHAYSBlc3QgZGlnbmlzc2ltIGEuICBJbiBsYWNpbmlhIG5pYmggbmlzaSwgZXUgZWdlc3RhcyBtYXVyaXMgdGVtcHVzIGEuIFBoYXNlbGx1cyBub24gZWxlbWVudHVtIGRvGwHAbG9yLiBJbnRlZ2VyIGdyYXZpZGEgcGhhcmV0cmEgZmF1Y2lidXMuIFBlbGxlbnRlc3F1ZSBtb2xsaXMgZG9sb3IgcXVpcyBhcmN1IHZpdmVycmEsIGF0IHBoYXJldHJhHAHAIGxlY3R1cyBzYWdpdHRpcy4gSW50ZXJkdW0gZXQgbWFsZXN1YWRhIGZhbWVzIGFjIGFudGUgaXBzdW0gcHJpbWlzIGluIGZhdWNpYnVzLiBQcmFlc2VudCBzdXNjaXBpHQHAdCBhdWd1ZSBhYyBtYWduYSBkYXBpYnVzIG9ybmFyZS4gRHVpcyBmcmluZ2lsbGEgaWFjdWxpcyBmZXJtZW50dW0uIEFlbmVhbiBpZCByaXN1cyBkdWkuIERvbmVjIHNlHgHAZCBtb2xlc3RpZSBkdWkuIE51bmMgc2VtIG1hc3NhLCBpbnRlcmR1bSB1dCBjb25ndWUgdmVsLCBoZW5kcmVyaXQgdmVzdGlidWx1bSBsaWJlcm8uIFN1c3BlbmRpc3NlHwHAIHN1c2NpcGl0IGF1Y3RvciBlZmZpY2l0dXIuICBQcmFlc2VudCB1dCBmYXVjaWJ1cyBudW5jLCBhdCB0aW5jaWR1bnQgZXJvcy4gTW9yYmkgZXN0IG1hc3NhLCBmZXJtIAHAZW50dW0gc2l0IGFtZXQgbmVxdWUgdmVsLCBpYWN1bGlzIHZvbHV0cGF0IHB1cnVzLiBJbnRlcmR1bSBldCBtYWxlc3VhZGEgZmFtZXMgYWMgYW50ZSBpcHN1bSBwcmltIQHAaXMgaW4gZmF1Y2lidXMuIERvbmVjIG5lcXVlIG1pLCBkaWN0dW0gZXUgaGVuZHJlcml0IHZpdGFlLCBhdWN0b3IgZXQgdGVsbHVzLiBOYW0gYXVjdG9yIGxpZ3VsYSBpIgHAbiBvcmNpIHNvbGxpY2l0dWRpbiBvcm5hcmUuIFNlZCBuZWMgbG9yZW0gZnJpbmdpbGxhLCBwb3J0dGl0b3IgbG9yZW0gdXQsIGNvbnNlcXVhdCBlbGl0LiBOdWxsYW0gIwHAc29sbGljaXR1ZGluIHB1cnVzIG1pLCBpbiB1bHRyaWNlcyBkdWkgbW9sbGlzIHNlZC4gSW50ZWdlciBsYWNpbmlhIG5pYmggZXQgZmluaWJ1cyBlZmZpY2l0dXIuIENyJAHAYXMgZmV1Z2lhdCB2ZXN0aWJ1bHVtIHNhcGllbiBmZXJtZW50dW0gY3Vyc3VzLiBQZWxsZW50ZXNxdWUgdXQgc2FwaWVuIGxpZ3VsYS4gQ3VyYWJpdHVyIGVsaXQgZW5pJQHAbSwgcG9ydGEgcXVpcyB1cm5hIGFjLCBwZWxsZW50ZXNxdWUgdGVtcHVzIG5pc2kuICBJbnRlZ2VyIGNvbnNlY3RldHVyIGxvYm9ydGlzIGZhdWNpYnVzLiBOdWxsYSBzJgHAZWQgZG9sb3IgbGVvLiBQcmFlc2VudCBhbGlxdWFtIGVyb3Mgdml0YWUgcG9ydGEgbGFjaW5pYS4gRG9uZWMgZXQgbG9yZW0gdGluY2lkdW50LCB2aXZlcnJhIG51bmMgJwHAaW4sIG1hbGVzdWFkYSBuaXNpLiBQZWxsZW50ZXNxdWUgbmVxdWUgbWF1cmlzLCBiaWJlbmR1bSBuZWMgcHVsdmluYXIgbm9uLCBldWlzbW9kIHV0IGxlY3R1cy4gVmVzKAHAdGlidWx1bSBxdWlzIGJpYmVuZHVtIHRlbGx1cy4gVXQgbHVjdHVzIG1hdXJpcyBmZXJtZW50dW0gcmhvbmN1cyBjb25kaW1lbnR1bS4gQWVuZWFuIHNlZCBsYWN1cyBxKQHAdWlzIGxlY3R1cyBwdWx2aW5hciBmaW5pYnVzLiBNYWVjZW5hcyBhIHBvcnR0aXRvciBsZW8sIHZlbCB0ZW1wb3IgdGVsbHVzLiBWaXZhbXVzIGxlY3R1cyB0ZWxsdXMsKgHAIHNvbGxpY2l0dWRpbiBhIG9kaW8gbW9sZXN0aWUsIHZlbmVuYXRpcyBpYWN1bGlzIG1ldHVzLiBTZWQgcXVpcyBsZWN0dXMgbnVsbGEuIFNlZCBqdXN0byBtYXNzYSwgKwHAc3VzY2lwaXQgdXQgZWxlaWZlbmQgbmVjLCBncmF2aWRhIHV0IG5pYmguIE1hdXJpcyBxdWlzIG1ldHVzIHVybmEuIE51bGxhbSBhdCBtYXVyaXMgc2VkIG1pIGltcGVyLAHAZGlldCBlbGVpZmVuZCB1bHRyaWNlcyBzZWQgb2Rpby4gTmFtIGxhb3JlZXQgbGVvIGluIGFyY3UgZ3JhdmlkYSwgZWdldCBtYXhpbXVzIGlwc3VtIGxhY2luaWEuIE1hLQCAZWNlbmFzIGNvbnNlcXVhdCBuZXF1ZSBhYyBwZWxsZW50ZXNxdWUgdGVtcG9yLgAAAAAAAAAAAAAAAAAAAAAAAMZ+Rtk="]);
    ("g4h2iwGQ41rV8rHB70XW2lopxzpBefUDTR4KbeQofAU=", tx acc_2 "g4h2iwGQ41rV8rHB70XW2lopxzpBefUDTR4KbeQofAU=" 37008723000003 1753017570 5232864 (Some (Some 0)) (Some 0)
      (Some (m (Some acc_2) (Some acc_2) (Some "986027600") (Some "9315005") (Some "0xae42e5a4")
       "te6cckECLgEADt0AARiuQuWkAAAAAAAAAAUBAgoOw8htAgIDAAABaCIAAAylVschFfb6H/c6NrbJTptO3VkqNFNOqJuDdTS8Wx0gk9HMAAAAAAAAAAAAAAAAAAEEAUsAAAAIgBIHqwhg5lg4ES2+GWhwn4EVgGvmj7MoTr6OJXwhB8BysAUEAAYLBwgAhDB4ODlmMzI1MmZiOWFkNzAwM2MyNTQ3MTY4NWY0OGQxNGM4NDJhMjkxMGI5Mzg2ZDM1Zjg1OTY5NGJhYmY3YjFjZgCEMDplMWU2MzNlYjcwMWIxMThiNDQyOTc3MTZjZWU3MDY5ZWU4NDdiNTZkYjg4YzQ5N2VmZWE2ODFlZDE0YjJkMmM3A4CIsmyAnqYuP9QkpkQ/rH/UulMugyeDeOANdz4XWXr/xQAAAAAAAAAAAAAAAAAAAAAAAAAAAAAAAAAAAAAAmJaACQoLAcAAAAAAAAAAAAAAAAAAAAAAAAAAAAAAAAAAAAAAAAAAIAAAAAAAAAAAAAAAAAAAAAAAAAAAAAAAAAAAAAAAAAyuTG9yZW0gaXBzdW0gZG9sb3Igc2l0IGFtZXQsIGNvbnMMAEDtIt80IZriYDn9l32OQZrhTXixkunbXc+jWXiZCWRw0QAIdG9uMgHAZWN0ZXR1ciBhZGlwaXNjaW5nIGVsaXQuIEluIGJsYW5kaXQsIGFudGUgaW4gZGlnbmlzc2ltIHVsdHJpY2llcywgbGlndWxhIHB1cnVzIG1vbGVzdGllIHNhcGllbiwgDQHAZXVpc21vZCBzYWdpdHRpcyBuaXNpIGxlY3R1cyB1dCBhbnRlLiBJbnRlZ2VyIGltcGVyZGlldCBpcHN1bSBlcm9zLCBmZXVnaWF0IGNvbmRpbWVudHVtIGFudGUgZ3JhDgHAdmlkYSBldC4gU3VzcGVuZGlzc2UgdGVtcHVzIGxvcmVtIHNpdCBhbWV0IG1hc3NhIGVmZmljaXR1ciBzb2xsaWNpdHVkaW4uIE5hbSBvZGlvIGR1aSwgY29udmFsbGlzDwHAIHZpdGFlIG1hdXJpcyBxdWlzLCBmYXVjaWJ1cyB1bGxhbWNvcnBlciBzYXBpZW4uIERvbmVjIG1vbGVzdGllIGNvbnZhbGxpcyBlbGVtZW50dW0uIFF1aXNxdWUgdGluEAHAY2lkdW50IHRpbmNpZHVudCBuZXF1ZSwgbm9uIHBsYWNlcmF0IG5lcXVlIHBvc3VlcmUgYXQuIE51bGxhbSBjb25zZXF1YXQgdml2ZXJyYSBwb3J0YS4gRG9uZWMgZXQgEQHAbWFsZXN1YWRhIHF1YW0sIHNlZCBjb252YWxsaXMgdmVsaXQuICBVdCBuaXNsIHR1cnBpcywgdGluY2lkdW50IHZlbCBjb21tb2RvIHV0LCBzb2RhbGVzIGV1IG5pc2kuEgHAIE1hdXJpcyBwaGFyZXRyYSBkdWkgYSBzZW0gZmV1Z2lhdCBwb3N1ZXJlLiBQZWxsZW50ZXNxdWUgc2VkIHBvc3VlcmUgZHVpLiBQZWxsZW50ZXNxdWUgbGFjaW5pYSBmEwHAZWxpcyBldCBkaWFtIHZlbmVuYXRpcyBzYWdpdHRpcy4gTWF1cmlzIHZlbGl0IHB1cnVzLCBmaW5pYnVzIG5vbiBuaXNsIGF0LCBzdXNjaXBpdCBpYWN1bGlzIGFyY3UuFAHAIE1vcmJpIGNvbnNlY3RldHVyIHBlbGxlbnRlc3F1ZSBsYWN1cywgdmVsIGJpYmVuZHVtIGp1c3RvIGZyaW5naWxsYSB1dC4gU2VkIHNhZ2l0dGlzIGVsZWlmZW5kIG51FQHAbGxhLCBhYyBpYWN1bGlzIHR1cnBpcyB0cmlzdGlxdWUgZWdldC4gQWVuZWFuIHV0IHBvcnR0aXRvciBuaXNsLCBjb21tb2RvIGVsZWlmZW5kIGxvcmVtLiBJbnRlZ2VyFgHAIGVnZXQgcHVydXMgdmVuZW5hdGlzIG1pIGVmZmljaXR1ciBtb2xlc3RpZSBpZCBsb2JvcnRpcyBuZXF1ZS4gU2VkIHF1aXMgcmhvbmN1cyBwdXJ1cy4gVml2YW11cyB2FwHAaXZlcnJhIG51bGxhIHNlZCBkaWFtIGZyaW5naWxsYSwgdml0YWUgcnV0cnVtIGxpYmVybyB2ZXN0aWJ1bHVtLiBGdXNjZSBzZW0gZW5pbSwgcnV0cnVtIG5lYyBlbmltGAHAIHBlbGxlbnRlc3F1ZSwgZWxlbWVudHVtIG1hdHRpcyBzZW0uIE51bGxhbSB1bGxhbWNvcnBlciBhY2N1bXNhbiBpcHN1bSwgc2VkIG1vbGVzdGllIG5pYmggdmVoaWN1GQHAbGEgc2l0IGFtZXQuIE1hdXJpcyBmZXJtZW50dW0gYWMgZXN0IHZpdGFlIGF1Y3Rvci4gQWVuZWFuIGZlcm1lbnR1bSBjb252YWxsaXMgbmVxdWUsIHNlZCB2ZWhpY3VsGgHAYSBlc3QgZGlnbmlzc2ltIGEuICBJbiBsYWNpbmlhIG5pYmggbmlzaSwgZXUgZWdlc3RhcyBtYXVyaXMgdGVtcHVzIGEuIFBoYXNlbGx1cyBub24gZWxlbWVudHVtIGRvGwHAbG9yLiBJbnRlZ2VyIGdyYXZpZGEgcGhhcmV0cmEgZmF1Y2lidXMuIFBlbGxlbnRlc3F1ZSBtb2xsaXMgZG9sb3IgcXVpcyBhcmN1IHZpdmVycmEsIGF0IHBoYXJldHJhHAHAIGxlY3R1cyBzYWdpdHRpcy4gSW50ZXJkdW0gZXQgbWFsZXN1YWRhIGZhbWVzIGFjIGFudGUgaXBzdW0gcHJpbWlzIGluIGZhdWNpYnVzLiBQcmFlc2VudCBzdXNjaXBpHQHAdCBhdWd1ZSBhYyBtYWduYSBkYXBpYnVzIG9ybmFyZS4gRHVpcyBmcmluZ2lsbGEgaWFjdWxpcyBmZXJtZW50dW0uIEFlbmVhbiBpZCByaXN1cyBkdWkuIERvbmVjIHNlHgHAZCBtb2xlc3RpZSBkdWkuIE51bmMgc2VtIG1hc3NhLCBpbnRlcmR1bSB1dCBjb25ndWUgdmVsLCBoZW5kcmVyaXQgdmVzdGlidWx1bSBsaWJlcm8uIFN1c3BlbmRpc3NlHwHAIHN1c2NpcGl0IGF1Y3RvciBlZmZpY2l0dXIuICBQcmFlc2VudCB1dCBmYXVjaWJ1cyBudW5jLCBhdCB0aW5jaWR1bnQgZXJvcy4gTW9yYmkgZXN0IG1hc3NhLCBmZXJtIAHAZW50dW0gc2l0IGFtZXQgbmVxdWUgdmVsLCBpYWN1bGlzIHZvbHV0cGF0IHB1cnVzLiBJbnRlcmR1bSBldCBtYWxlc3VhZGEgZmFtZXMgYWMgYW50ZSBpcHN1bSBwcmltIQHAaXMgaW4gZmF1Y2lidXMuIERvbmVjIG5lcXVlIG1pLCBkaWN0dW0gZXUgaGVuZHJlcml0IHZpdGFlLCBhdWN0b3IgZXQgdGVsbHVzLiBOYW0gYXVjdG9yIGxpZ3VsYSBpIgHAbiBvcmNpIHNvbGxpY2l0dWRpbiBvcm5hcmUuIFNlZCBuZWMgbG9yZW0gZnJpbmdpbGxhLCBwb3J0dGl0b3IgbG9yZW0gdXQsIGNvbnNlcXVhdCBlbGl0LiBOdWxsYW0gIwHAc29sbGljaXR1ZGluIHB1cnVzIG1pLCBpbiB1bHRyaWNlcyBkdWkgbW9sbGlzIHNlZC4gSW50ZWdlciBsYWNpbmlhIG5pYmggZXQgZmluaWJ1cyBlZmZpY2l0dXIuIENyJAHAYXMgZmV1Z2lhdCB2ZXN0aWJ1bHVtIHNhcGllbiBmZXJtZW50dW0gY3Vyc3VzLiBQZWxsZW50ZXNxdWUgdXQgc2FwaWVuIGxpZ3VsYS4gQ3VyYWJpdHVyIGVsaXQgZW5pJQHAbSwgcG9ydGEgcXVpcyB1cm5hIGFjLCBwZWxsZW50ZXNxdWUgdGVtcHVzIG5pc2kuICBJbnRlZ2VyIGNvbnNlY3RldHVyIGxvYm9ydGlzIGZhdWNpYnVzLiBOdWxsYSBzJgHAZWQgZG9sb3IgbGVvLiBQcmFlc2VudCBhbGlxdWFtIGVyb3Mgdml0YWUgcG9ydGEgbGFjaW5pYS4gRG9uZWMgZXQgbG9yZW0gdGluY2lkdW50LCB2aXZlcnJhIG51bmMgJwHAaW4sIG1hbGVzdWFkYSBuaXNpLiBQZWxsZW50ZXNxdWUgbmVxdWUgbWF1cmlzLCBiaWJlbmR1bSBuZWMgcHVsdmluYXIgbm9uLCBldWlzbW9kIHV0IGxlY3R1cy4gVmVzKAHAdGlidWx1bSBxdWlzIGJpYmVuZHVtIHRlbGx1cy4gVXQgbHVjdHVzIG1hdXJpcyBmZXJtZW50dW0gcmhvbmN1cyBjb25kaW1lbnR1bS4gQWVuZWFuIHNlZCBsYWN1cyBxKQHAdWlzIGxlY3R1cyBwdWx2aW5hciBmaW5pYnVzLiBNYWVjZW5hcyBhIHBvcnR0aXRvciBsZW8sIHZlbCB0ZW1wb3IgdGVsbHVzLiBWaXZhbXVzIGxlY3R1cyB0ZWxsdXMsKgHAIHNvbGxpY2l0dWRpbiBhIG9kaW8gbW9sZXN0aWUsIHZlbmVuYXRpcyBpYWN1bGlzIG1ldHVzLiBTZWQgcXVpcyBsZWN0dXMgbnVsbGEuIFNlZCBqdXN0byBtYXNzYSwgKwHAc3VzY2lwaXQgdXQgZWxlaWZlbmQgbmVjLCBncmF2aWRhIHV0IG5pYmguIE1hdXJpcyBxdWlzIG1ldHVzIHVybmEuIE51bGxhbSBhdCBtYXVyaXMgc2VkIG1pIGltcGVyLAHAZGlldCBlbGVpZmVuZCB1bHRyaWNlcyBzZWQgb2Rpby4gTmFtIGxhb3JlZXQgbGVvIGluIGFyY3UgZ3JhdmlkYSwgZWdldCBtYXhpbXVzIGlwc3VtIGxhY2luaWEuIE1hLQCAZWNlbmFzIGNvbnNlcXVhdCBuZXF1ZSBhYyBwZWxsZW50ZXNxdWUgdGVtcG9yLgAAAAAAAAAAAAAAAAAAAAAAAMZ+Rtk="))
      [m (Some acc_2) (Some acc_5) (Some "296408400") (Some "9061136") (Some "0x00000008")
       "te6cckECKgEADowAAUsAAAAIgBIHqwhg5lg4ES2+GWhwn4EVgGvmj7MoTr6OJXwhB8BysAEEAAIHAwQAhDB4ODlmMzI1MmZiOWFkNzAwM2MyNTQ3MTY4NWY0OGQxNGM4NDJhMjkxMGI5Mzg2ZDM1Zjg1OTY5NGJhYmY3YjFjZgCEMDplMWU2MzNlYjcwMWIxMThiNDQyOTc3MTZjZWU3MDY5ZWU4NDdiNTZkYjg4YzQ5N2VmZWE2ODFlZDE0YjJkMmM3A4CIsmyAnqYuP9QkpkQ/rH/UulMugyeDeOANdz4XWXr/xQAAAAAAAAAAAAAAAAAAAAAAAAAAAAAAAAAAAAAAmJaABQYHAcAAAAAAAAAAAAAAAAAAAAAAAAAAAAAAAAAAAAAAAAAAIAAAAAAAAAAAAAAAAAAAAAAAAAAAAAAAAAAAAAAAAAyuTG9yZW0gaXBzdW0gZG9sb3Igc2l0IGFtZXQsIGNvbnMIAEDtIt80IZriYDn9l32OQZrhTXixkunbXc+jWXiZCWRw0QAIdG9uMgHAZWN0ZXR1ciBhZGlwaXNjaW5nIGVsaXQuIEluIGJsYW5kaXQsIGFudGUgaW4gZGlnbmlzc2ltIHVsdHJpY2llcywgbGlndWxhIHB1cnVzIG1vbGVzdGllIHNhcGllbiwgCQHAZXVpc21vZCBzYWdpdHRpcyBuaXNpIGxlY3R1cyB1dCBhbnRlLiBJbnRlZ2VyIGltcGVyZGlldCBpcHN1bSBlcm9zLCBmZXVnaWF0IGNvbmRpbWVudHVtIGFudGUgZ3JhCgHAdmlkYSBldC4gU3VzcGVuZGlzc2UgdGVtcHVzIGxvcmVtIHNpdCBhbWV0IG1hc3NhIGVmZmljaXR1ciBzb2xsaWNpdHVkaW4uIE5hbSBvZGlvIGR1aSwgY29udmFsbGlzCwHAIHZpdGFlIG1hdXJpcyBxdWlzLCBmYXVjaWJ1cyB1bGxhbWNvcnBlciBzYXBpZW4uIERvbmVjIG1vbGVzdGllIGNvbnZhbGxpcyBlbGVtZW50dW0uIFF1aXNxdWUgdGluDAHAY2lkdW50IHRpbmNpZHVudCBuZXF1ZSwgbm9uIHBsYWNlcmF0IG5lcXVlIHBvc3VlcmUgYXQuIE51bGxhbSBjb25zZXF1YXQgdml2ZXJyYSBwb3J0YS4gRG9uZWMgZXQgDQHAbWFsZXN1YWRhIHF1YW0sIHNlZCBjb252YWxsaXMgdmVsaXQuICBVdCBuaXNsIHR1cnBpcywgdGluY2lkdW50IHZlbCBjb21tb2RvIHV0LCBzb2RhbGVzIGV1IG5pc2kuDgHAIE1hdXJpcyBwaGFyZXRyYSBkdWkgYSBzZW0gZmV1Z2lhdCBwb3N1ZXJlLiBQZWxsZW50ZXNxdWUgc2VkIHBvc3VlcmUgZHVpLiBQZWxsZW50ZXNxdWUgbGFjaW5pYSBmDwHAZWxpcyBldCBkaWFtIHZlbmVuYXRpcyBzYWdpdHRpcy4gTWF1cmlzIHZlbGl0IHB1cnVzLCBmaW5pYnVzIG5vbiBuaXNsIGF0LCBzdXNjaXBpdCBpYWN1bGlzIGFyY3UuEAHAIE1vcmJpIGNvbnNlY3RldHVyIHBlbGxlbnRlc3F1ZSBsYWN1cywgdmVsIGJpYmVuZHVtIGp1c3RvIGZyaW5naWxsYSB1dC4gU2VkIHNhZ2l0dGlzIGVsZWlmZW5kIG51EQHAbGxhLCBhYyBpYWN1bGlzIHR1cnBpcyB0cmlzdGlxdWUgZWdldC4gQWVuZWFuIHV0IHBvcnR0aXRvciBuaXNsLCBjb21tb2RvIGVsZWlmZW5kIGxvcmVtLiBJbnRlZ2VyEgHAIGVnZXQgcHVydXMgdmVuZW5hdGlzIG1pIGVmZmljaXR1ciBtb2xlc3RpZSBpZCBsb2JvcnRpcyBuZXF1ZS4gU2VkIHF1aXMgcmhvbmN1cyBwdXJ1cy4gVml2YW11cyB2EwHAaXZlcnJhIG51bGxhIHNlZCBkaWFtIGZyaW5naWxsYSwgdml0YWUgcnV0cnVtIGxpYmVybyB2ZXN0aWJ1bHVtLiBGdXNjZSBzZW0gZW5pbSwgcnV0cnVtIG5lYyBlbmltFAHAIHBlbGxlbnRlc3F1ZSwgZWxlbWVudHVtIG1hdHRpcyBzZW0uIE51bGxhbSB1bGxhbWNvcnBlciBhY2N1bXNhbiBpcHN1bSwgc2VkIG1vbGVzdGllIG5pYmggdmVoaWN1FQHAbGEgc2l0IGFtZXQuIE1hdXJpcyBmZXJtZW50dW0gYWMgZXN0IHZpdGFlIGF1Y3Rvci4gQWVuZWFuIGZlcm1lbnR1bSBjb252YWxsaXMgbmVxdWUsIHNlZCB2ZWhpY3VsFgHAYSBlc3QgZGlnbmlzc2ltIGEuICBJbiBsYWNpbmlhIG5pYmggbmlzaSwgZXUgZWdlc3RhcyBtYXVyaXMgdGVtcHVzIGEuIFBoYXNlbGx1cyBub24gZWxlbWVudHVtIGRvFwHAbG9yLiBJbnRlZ2VyIGdyYXZpZGEgcGhhcmV0cmEgZmF1Y2lidXMuIFBlbGxlbnRlc3F1ZSBtb2xsaXMgZG9sb3IgcXVpcyBhcmN1IHZpdmVycmEsIGF0IHBoYXJldHJhGAHAIGxlY3R1cyBzYWdpdHRpcy4gSW50ZXJkdW0gZXQgbWFsZXN1YWRhIGZhbWVzIGFjIGFudGUgaXBzdW0gcHJpbWlzIGluIGZhdWNpYnVzLiBQcmFlc2VudCBzdXNjaXBpGQHAdCBhdWd1ZSBhYyBtYWduYSBkYXBpYnVzIG9ybmFyZS4gRHVpcyBmcmluZ2lsbGEgaWFjdWxpcyBmZXJtZW50dW0uIEFlbmVhbiBpZCByaXN1cyBkdWkuIERvbmVjIHNlGgHAZCBtb2xlc3RpZSBkdWkuIE51bmMgc2VtIG1hc3NhLCBpbnRlcmR1bSB1dCBjb25ndWUgdmVsLCBoZW5kcmVyaXQgdmVzdGlidWx1bSBsaWJlcm8uIFN1c3BlbmRpc3NlGwHAIHN1c2NpcGl0IGF1Y3RvciBlZmZpY2l0dXIuICBQcmFlc2VudCB1dCBmYXVjaWJ1cyBudW5jLCBhdCB0aW5jaWR1bnQgZXJvcy4gTW9yYmkgZXN0IG1hc3NhLCBmZXJtHAHAZW50dW0gc2l0IGFtZXQgbmVxdWUgdmVsLCBpYWN1bGlzIHZvbHV0cGF0IHB1cnVzLiBJbnRlcmR1bSBldCBtYWxlc3VhZGEgZmFtZXMgYWMgYW50ZSBpcHN1bSBwcmltHQHAaXMgaW4gZmF1Y2lidXMuIERvbmVjIG5lcXVlIG1pLCBkaWN0dW0gZXUgaGVuZHJlcml0IHZpdGFlLCBhdWN0b3IgZXQgdGVsbHVzLiBOYW0gYXVjdG9yIGxpZ3VsYSBpHgHAbiBvcmNpIHNvbGxpY2l0dWRpbiBvcm5hcmUuIFNlZCBuZWMgbG9yZW0gZnJpbmdpbGxhLCBwb3J0dGl0b3IgbG9yZW0gdXQsIGNvbnNlcXVhdCBlbGl0LiBOdWxsYW0gHwHAc29sbGljaXR1ZGluIHB1cnVzIG1pLCBpbiB1bHRyaWNlcyBkdWkgbW9sbGlzIHNlZC4gSW50ZWdlciBsYWNpbmlhIG5pYmggZXQgZmluaWJ1cyBlZmZpY2l0dXIuIENyIAHAYXMgZmV1Z2lhdCB2ZXN0aWJ1bHVtIHNhcGllbiBmZXJtZW50dW0gY3Vyc3VzLiBQZWxsZW50ZXNxdWUgdXQgc2FwaWVuIGxpZ3VsYS4gQ3VyYWJpdHVyIGVsaXQgZW5pIQHAbSwgcG9ydGEgcXVpcyB1cm5hIGFjLCBwZWxsZW50ZXNxdWUgdGVtcHVzIG5pc2kuICBJbnRlZ2VyIGNvbnNlY3RldHVyIGxvYm9ydGlzIGZhdWNpYnVzLiBOdWxsYSBzIgHAZWQgZG9sb3IgbGVvLiBQcmFlc2VudCBhbGlxdWFtIGVyb3Mgdml0YWUgcG9ydGEgbGFjaW5pYS4gRG9uZWMgZXQgbG9yZW0gdGluY2lkdW50LCB2aXZlcnJhIG51bmMgIwHAaW4sIG1hbGVzdWFkYSBuaXNpLiBQZWxsZW50ZXNxdWUgbmVxdWUgbWF1cmlzLCBiaWJlbmR1bSBuZWMgcHVsdmluYXIgbm9uLCBldWlzbW9kIHV0IGxlY3R1cy4gVmVzJAHAdGlidWx1bSBxdWlzIGJpYmVuZHVtIHRlbGx1cy4gVXQgbHVjdHVzIG1hdXJpcyBmZXJtZW50dW0gcmhvbmN1cyBjb25kaW1lbnR1bS4gQWVuZWFuIHNlZCBsYWN1cyBxJQHAdWlzIGxlY3R1cyBwdWx2aW5hciBmaW5pYnVzLiBNYWVjZW5hcyBhIHBvcnR0aXRvciBsZW8sIHZlbCB0ZW1wb3IgdGVsbHVzLiBWaXZhbXVzIGxlY3R1cyB0ZWxsdXMsJgHAIHNvbGxpY2l0dWRpbiBhIG9kaW8gbW9sZXN0aWUsIHZlbmVuYXRpcyBpYWN1bGlzIG1ldHVzLiBTZWQgcXVpcyBsZWN0dXMgbnVsbGEuIFNlZCBqdXN0byBtYXNzYSwgJwHAc3VzY2lwaXQgdXQgZWxlaWZlbmQgbmVjLCBncmF2aWRhIHV0IG5pYmguIE1hdXJpcyBxdWlzIG1ldHVzIHVybmEuIE51bGxhbSBhdCBtYXVyaXMgc2VkIG1pIGltcGVyKAHAZGlldCBlbGVpZmVuZCB1bHRyaWNlcyBzZWQgb2Rpby4gTmFtIGxhb3JlZXQgbGVvIGluIGFyY3UgZ3JhdmlkYSwgZWdldCBtYXhpbXVzIGlwc3VtIGxhY2luaWEuIE1hKQCAZWNlbmFzIGNvbnNlcXVhdCBuZXF1ZSBhYyBwZWxsZW50ZXNxdWUgdGVtcG9yLgAAAAAAAAAAAAAAAAAAAAAAAD7js4k="]);
    ("pz2ewMmyQo0LpCa4UQcJiiu4NZzv3qZyhKlS61GVtmw=", tx acc_2 "pz2ewMmyQo0LpCa4UQcJiiu4NZzv3qZyhKlS61GVtmw=" 37008729000001 1753017584 230804 (Some (Some 0)) (Some 0)
      (Some (m (Some acc_5) (Some acc_2) (Some "294299200") (Some "266669") (Some "0xffffffff")
       "te6cckEBAQEAJgAASP////8AAAAIgBIHqwhg5lg4ES2+GWhwn4EVgGvmj7MoTr6OJcgfsg4="))
      [])]
    ["HY7YP3yboKRyZuShGWVcND3o5zUh3ZtSyrYE4BxjJrQ="; "g4h2iwGQ41rV8rHB70XW2lopxzpBefUDTR4KbeQofAU="; "3n3iMHZ9h+4CHUbqZROvjGd5jjRdYBiN9wiIAxRgeLc="; "pz2ewMmyQo0LpCa4UQcJiiu4NZzv3qZyhKlS61GVtmw="].

Definition rest_15 : TraceRest :=
  recorded "32mGn2Mw02lca7SMSjyNF3r1oka+CEStCRqsqREfolg=" false 37011204000001 37011216000001 [
    ("+WO41SLGs97iYkEjiIfE+mZEkg45ET79Hs3Rb0eGtjg=", tx acc_19 "+WO41SLGs97iYkEjiIfE+mZEkg45ET79Hs3Rb0eGtjg=" 37011212000001 1753023508 7301168 (Some (Some 0)) (Some 0)
      (Some (m (Some acc_5) (Some acc_19) (Some "757049200") (Some "8474465") (Some "0x00000004")
       "te6cckECJAEADbEAAYsAAAAEgBIHqwhg5lg4ES2+GWhwn4EVgGvmj7MoTr6OJXwhB8ByoAAAAAAAAAAAAAAAAAAAAAAAAAAAAAAAAAAAAAATEtAQAQHAAAAAAAAAAAAAAAAAAAAAAAAAAAAAAAAAAAAAAAAAACAAAAAAAAAAAAAAAAAAAAAAAAAAAAAAAAAAAAAAAAAMrkxvcmVtIGlwc3VtIGRvbG9yIHNpdCBhbWV0LCBjb25zAgHAZWN0ZXR1ciBhZGlwaXNjaW5nIGVsaXQuIEluIGJsYW5kaXQsIGFudGUgaW4gZGlnbmlzc2ltIHVsdHJpY2llcywgbGlndWxhIHB1cnVzIG1vbGVzdGllIHNhcGllbiwgAwHAZXVpc21vZCBzYWdpdHRpcyBuaXNpIGxlY3R1cyB1dCBhbnRlLiBJbnRlZ2VyIGltcGVyZGlldCBpcHN1bSBlcm9zLCBmZXVnaWF0IGNvbmRpbWVudHVtIGFudGUgZ3JhBAHAdmlkYSBldC4gU3VzcGVuZGlzc2UgdGVtcHVzIGxvcmVtIHNpdCBhbWV0IG1hc3NhIGVmZmljaXR1ciBzb2xsaWNpdHVkaW4uIE5hbSBvZGlvIGR1aSwgY29udmFsbGlzBQHAIHZpdGFlIG1hdXJpcyBxdWlzLCBmYXVjaWJ1cyB1bGxhbWNvcnBlciBzYXBpZW4uIERvbmVjIG1vbGVzdGllIGNvbnZhbGxpcyBlbGVtZW50dW0uIFF1aXNxdWUgdGluBgHAY2lkdW50IHRpbmNpZHVudCBuZXF1ZSwgbm9uIHBsYWNlcmF0IG5lcXVlIHBvc3VlcmUgYXQuIE51bGxhbSBjb25zZXF1YXQgdml2ZXJyYSBwb3J0YS4gRG9uZWMgZXQgBwHAbWFsZXN1YWRhIHF1YW0sIHNlZCBjb252YWxsaXMgdmVsaXQuICBVdCBuaXNsIHR1cnBpcywgdGluY2lkdW50IHZlbCBjb21tb2RvIHV0LCBzb2RhbGVzIGV1IG5pc2kuCAHAIE1hdXJpcyBwaGFyZXRyYSBkdWkgYSBzZW0gZmV1Z2lhdCBwb3N1ZXJlLiBQZWxsZW50ZXNxdWUgc2VkIHBvc3VlcmUgZHVpLiBQZWxsZW50ZXNxdWUgbGFjaW5pYSBmCQHAZWxpcyBldCBkaWFtIHZlbmVuYXRpcyBzYWdpdHRpcy4gTWF1cmlzIHZlbGl0IHB1cnVzLCBmaW5pYnVzIG5vbiBuaXNsIGF0LCBzdXNjaXBpdCBpYWN1bGlzIGFyY3UuCgHAIE1vcmJpIGNvbnNlY3RldHVyIHBlbGxlbnRlc3F1ZSBsYWN1cywgdmVsIGJpYmVuZHVtIGp1c3RvIGZyaW5naWxsYSB1dC4gU2VkIHNhZ2l0dGlzIGVsZWlmZW5kIG51CwHAbGxhLCBhYyBpYWN1bGlzIHR1cnBpcyB0cmlzdGlxdWUgZWdldC4gQWVuZWFuIHV0IHBvcnR0aXRvciBuaXNsLCBjb21tb2RvIGVsZWlmZW5kIGxvcmVtLiBJbnRlZ2VyDAHAIGVnZXQgcHVydXMgdmVuZW5hdGlzIG1pIGVmZmljaXR1ciBtb2xlc3RpZSBpZCBsb2JvcnRpcyBuZXF1ZS4gU2VkIHF1aXMgcmhvbmN1cyBwdXJ1cy4gVml2YW11cyB2DQHAaXZlcnJhIG51bGxhIHNlZCBkaWFtIGZyaW5naWxsYSwgdml0YWUgcnV0cnVtIGxpYmVybyB2ZXN0aWJ1bHVtLiBGdXNjZSBzZW0gZW5pbSwgcnV0cnVtIG5lYyBlbmltDgHAIHBlbGxlbnRlc3F1ZSwgZWxlbWVudHVtIG1hdHRpcyBzZW0uIE51bGxhbSB1bGxhbWNvcnBlciBhY2N1bXNhbiBpcHN1bSwgc2VkIG1vbGVzdGllIG5pYmggdmVoaWN1DwHAbGEgc2l0IGFtZXQuIE1hdXJpcyBmZXJtZW50dW0gYWMgZXN0IHZpdGFlIGF1Y3Rvci4gQWVuZWFuIGZlcm1lbnR1bSBjb252YWxsaXMgbmVxdWUsIHNlZCB2ZWhpY3VsEAHAYSBlc3QgZGlnbmlzc2ltIGEuICBJbiBsYWNpbmlhIG5pYmggbmlzaSwgZXUgZWdlc3RhcyBtYXVyaXMgdGVtcHVzIGEuIFBoYXNlbGx1cyBub24gZWxlbWVudHVtIGRvEQHAbG9yLiBJbnRlZ2VyIGdyYXZpZGEgcGhhcmV0cmEgZmF1Y2lidXMuIFBlbGxlbnRlc3F1ZSBtb2xsaXMgZG9sb3IgcXVpcyBhcmN1IHZpdmVycmEsIGF0IHBoYXJldHJhEgHAIGxlY3R1cyBzYWdpdHRpcy4gSW50ZXJkdW0gZXQgbWFsZXN1YWRhIGZhbWVzIGFjIGFudGUgaXBzdW0gcHJpbWlzIGluIGZhdWNpYnVzLiBQcmFlc2VudCBzdXNjaXBpEwHAdCBhdWd1ZSBhYyBtYWduYSBkYXBpYnVzIG9ybmFyZS4gRHVpcyBmcmluZ2lsbGEgaWFjdWxpcyBmZXJtZW50dW0uIEFlbmVhbiBpZCByaXN1cyBkdWkuIERvbmVjIHNlFAHAZCBtb2xlc3RpZSBkdWkuIE51bmMgc2VtIG1hc3NhLCBpbnRlcmR1bSB1dCBjb25ndWUgdmVsLCBoZW5kcmVyaXQgdmVzdGlidWx1bSBsaWJlcm8uIFN1c3BlbmRpc3NlFQHAIHN1c2NpcGl0IGF1Y3RvciBlZmZpY2l0dXIuICBQcmFlc2VudCB1dCBmYXVjaWJ1cyBudW5jLCBhdCB0aW5jaWR1bnQgZXJvcy4gTW9yYmkgZXN0IG1hc3NhLCBmZXJtFgHAZW50dW0gc2l0IGFtZXQgbmVxdWUgdmVsLCBpYWN1bGlzIHZvbHV0cGF0IHB1cnVzLiBJbnRlcmR1bSBldCBtYWxlc3VhZGEgZmFtZXMgYWMgYW50ZSBpcHN1bSBwcmltFwHAaXMgaW4gZmF1Y2lidXMuIERvbmVjIG5lcXVlIG1pLCBkaWN0dW0gZXUgaGVuZHJlcml0IHZpdGFlLCBhdWN0b3IgZXQgdGVsbHVzLiBOYW0gYXVjdG9yIGxpZ3VsYSBpGAHAbiBvcmNpIHNvbGxpY2l0dWRpbiBvcm5hcmUuIFNlZCBuZWMgbG9yZW0gZnJpbmdpbGxhLCBwb3J0dGl0b3IgbG9yZW0gdXQsIGNvbnNlcXVhdCBlbGl0LiBOdWxsYW0gGQHAc29sbGljaXR1ZGluIHB1cnVzIG1pLCBpbiB1bHRyaWNlcyBkdWkgbW9sbGlzIHNlZC4gSW50ZWdlciBsYWNpbmlhIG5pYmggZXQgZmluaWJ1cyBlZmZpY2l0dXIuIENyGgHAYXMgZmV1Z2lhdCB2ZXN0aWJ1bHVtIHNhcGllbiBmZXJtZW50dW0gY3Vyc3VzLiBQZWxsZW50ZXNxdWUgdXQgc2FwaWVuIGxpZ3VsYS4gQ3VyYWJpdHVyIGVsaXQgZW5pGwHAbSwgcG9ydGEgcXVpcyB1cm5hIGFjLCBwZWxsZW50ZXNxdWUgdGVtcHVzIG5pc2kuICBJbnRlZ2VyIGNvbnNlY3RldHVyIGxvYm9ydGlzIGZhdWNpYnVzLiBOdWxsYSBzHAHAZWQgZG9sb3IgbGVvLiBQcmFlc2VudCBhbGlxdWFtIGVyb3Mgdml0YWUgcG9ydGEgbGFjaW5pYS4gRG9uZWMgZXQgbG9yZW0gdGluY2lkdW50LCB2aXZlcnJhIG51bmMgHQHAaW4sIG1hbGVzdWFkYSBuaXNpLiBQZWxsZW50ZXNxdWUgbmVxdWUgbWF1cmlzLCBiaWJlbmR1bSBuZWMgcHVsdmluYXIgbm9uLCBldWlzbW9kIHV0IGxlY3R1cy4gVmVzHgHAdGlidWx1bSBxdWlzIGJpYmVuZHVtIHRlbGx1cy4gVXQgbHVjdHVzIG1hdXJpcyBmZXJtZW50dW0gcmhvbmN1cyBjb25kaW1lbnR1bS4gQWVuZWFuIHNlZCBsYWN1cyBxHwHAdWlzIGxlY3R1cyBwdWx2aW5hciBmaW5pYnVzLiBNYWVjZW5hcyBhIHBvcnR0aXRvciBsZW8sIHZlbCB0ZW1wb3IgdGVsbHVzLiBWaXZhbXVzIGxlY3R1cyB0ZWxsdXMsIAHAIHNvbGxpY2l0dWRpbiBhIG9kaW8gbW9sZXN0aWUsIHZlbmVuYXRpcyBpYWN1bGlzIG1ldHVzLiBTZWQgcXVpcyBsZWN0dXMgbnVsbGEuIFNlZCBqdXN0byBtYXNzYSwgIQHAc3VzY2lwaXQgdXQgZWxlaWZlbmQgbmVjLCBncmF2aWRhIHV0IG5pYmguIE1hdXJpcyBxdWlzIG1ldHVzIHVybmEuIE51bGxhbSBhdCBtYXVyaXMgc2VkIG1pIGltcGVyIgHAZGlldCBlbGVpZmVuZCB1bHRyaWNlcyBzZWQgb2Rpby4gTmFtIGxhb3JlZXQgbGVvIGluIGFyY3UgZ3JhdmlkYSwgZWdldCBtYXhpbXVzIGlwc3VtIGxhY2luaWEuIE1hIwCAZWNlbmFzIGNvbnNlcXVhdCBuZXF1ZSBhYyBwZWxsZW50ZXNxdWUgdGVtcG9yLgAAAAAAAAAAAAAAAAAAAAAAANITZok="))
      [m (Some acc_19) (Some acc_5) (Some "740713600") (Some "9034469") (Some "0x00000005")
       "te6cckECKQEADokABMsAAAAFgBIHqwhg5lg4ES2+GWhwn4EVgGvmj7MoTr6OJXwhB8BysRZNkBPUxcf6hJTIh/WP+pdKZdBk8G8cAa7nwusvX/igAAAAAAAAAAAAAAAAAAAAAAAAAAAAAAAAAAAAABMS0BABBgIDAIQweGJiNjZjZTJjZTlmNWIxYTIxZDk2NzA0NjEwMWIzMDJiNjI2YmNiOGI1ODZlN2NmYTliOWFlYjFhNGVhMmY1Y2EAhDA6ZTFlNjMzZWI3MDFiMTE4YjQ0Mjk3NzE2Y2VlNzA2OWVlODQ3YjU2ZGI4OGM0OTdlZmVhNjgxZWQxNGIyZDJjNwMABAUGAcAAAAAAAAAAAAAAAAAAAAAAAAAAAAAAAAAAAAAAAAAAIAAAAAAAAAAAAAAAAAAAAAAAAAAAAAAAAAAAAAAAAAyuTG9yZW0gaXBzdW0gZG9sb3Igc2l0IGFtZXQsIGNvbnMHAEDtIt80IZriYDn9l32OQZrhTXixkunbXc+jWXiZCWRw0QAIdG9uMgHAZWN0ZXR1ciBhZGlwaXNjaW5nIGVsaXQuIEluIGJsYW5kaXQsIGFudGUgaW4gZGlnbmlzc2ltIHVsdHJpY2llcywgbGlndWxhIHB1cnVzIG1vbGVzdGllIHNhcGllbiwgCAHAZXVpc21vZCBzYWdpdHRpcyBuaXNpIGxlY3R1cyB1dCBhbnRlLiBJbnRlZ2VyIGltcGVyZGlldCBpcHN1bSBlcm9zLCBmZXVnaWF0IGNvbmRpbWVudHVtIGFudGUgZ3JhCQHAdmlkYSBldC4gU3VzcGVuZGlzc2UgdGVtcHVzIGxvcmVtIHNpdCBhbWV0IG1hc3NhIGVmZmljaXR1ciBzb2xsaWNpdHVkaW4uIE5hbSBvZGlvIGR1aSwgY29udmFsbGlzCgHAIHZpdGFlIG1hdXJpcyBxdWlzLCBmYXVjaWJ1cyB1bGxhbWNvcnBlciBzYXBpZW4uIERvbmVjIG1vbGVzdGllIGNvbnZhbGxpcyBlbGVtZW50dW0uIFF1aXNxdWUgdGluCwHAY2lkdW50IHRpbmNpZHVudCBuZXF1ZSwgbm9uIHBsYWNlcmF0IG5lcXVlIHBvc3VlcmUgYXQuIE51bGxhbSBjb25zZXF1YXQgdml2ZXJyYSBwb3J0YS4gRG9uZWMgZXQgDAHAbWFsZXN1YWRhIHF1YW0sIHNlZCBjb252YWxsaXMgdmVsaXQuICBVdCBuaXNsIHR1cnBpcywgdGluY2lkdW50IHZlbCBjb21tb2RvIHV0LCBzb2RhbGVzIGV1IG5pc2kuDQHAIE1hdXJpcyBwaGFyZXRyYSBkdWkgYSBzZW0gZmV1Z2lhdCBwb3N1ZXJlLiBQZWxsZW50ZXNxdWUgc2VkIHBvc3VlcmUgZHVpLiBQZWxsZW50ZXNxdWUgbGFjaW5pYSBmDgHAZWxpcyBldCBkaWFtIHZlbmVuYXRpcyBzYWdpdHRpcy4gTWF1cmlzIHZlbGl0IHB1cnVzLCBmaW5pYnVzIG5vbiBuaXNsIGF0LCBzdXNjaXBpdCBpYWN1bGlzIGFyY3UuDwHAIE1vcmJpIGNvbnNlY3RldHVyIHBlbGxlbnRlc3F1ZSBsYWN1cywgdmVsIGJpYmVuZHVtIGp1c3RvIGZyaW5naWxsYSB1dC4gU2VkIHNhZ2l0dGlzIGVsZWlmZW5kIG51EAHAbGxhLCBhYyBpYWN1bGlzIHR1cnBpcyB0cmlzdGlxdWUgZWdldC4gQWVuZWFuIHV0IHBvcnR0aXRvciBuaXNsLCBjb21tb2RvIGVsZWlmZW5kIGxvcmVtLiBJbnRlZ2VyEQHAIGVnZXQgcHVydXMgdmVuZW5hdGlzIG1pIGVmZmljaXR1ciBtb2xlc3RpZSBpZCBsb2JvcnRpcyBuZXF1ZS4gU2VkIHF1aXMgcmhvbmN1cyBwdXJ1cy4gVml2YW11cyB2EgHAaXZlcnJhIG51bGxhIHNlZCBkaWFtIGZyaW5naWxsYSwgdml0YWUgcnV0cnVtIGxpYmVybyB2ZXN0aWJ1bHVtLiBGdXNjZSBzZW0gZW5pbSwgcnV0cnVtIG5lYyBlbmltEwHAIHBlbGxlbnRlc3F1ZSwgZWxlbWVudHVtIG1hdHRpcyBzZW0uIE51bGxhbSB1bGxhbWNvcnBlciBhY2N1bXNhbiBpcHN1bSwgc2VkIG1vbGVzdGllIG5pYmggdmVoaWN1FAHAbGEgc2l0IGFtZXQuIE1hdXJpcyBmZXJtZW50dW0gYWMgZXN0IHZpdGFlIGF1Y3Rvci4gQWVuZWFuIGZlcm1lbnR1bSBjb252YWxsaXMgbmVxdWUsIHNlZCB2ZWhpY3VsFQHAYSBlc3QgZGlnbmlzc2ltIGEuICBJbiBsYWNpbmlhIG5pYmggbmlzaSwgZXUgZWdlc3RhcyBtYXVyaXMgdGVtcHVzIGEuIFBoYXNlbGx1cyBub24gZWxlbWVudHVtIGRvFgHAbG9yLiBJbnRlZ2VyIGdyYXZpZGEgcGhhcmV0cmEgZmF1Y2lidXMuIFBlbGxlbnRlc3F1ZSBtb2xsaXMgZG9sb3IgcXVpcyBhcmN1IHZpdmVycmEsIGF0IHBoYXJldHJhFwHAIGxlY3R1cyBzYWdpdHRpcy4gSW50ZXJkdW0gZXQgbWFsZXN1YWRhIGZhbWVzIGFjIGFudGUgaXBzdW0gcHJpbWlzIGluIGZhdWNpYnVzLiBQcmFlc2VudCBzdXNjaXBpGAHAdCBhdWd1ZSBhYyBtYWduYSBkYXBpYnVzIG9ybmFyZS4gRHVpcyBmcmluZ2lsbGEgaWFjdWxpcyBmZXJtZW50dW0uIEFlbmVhbiBpZCByaXN1cyBkdWkuIERvbmVjIHNlGQHAZCBtb2xlc3RpZSBkdWkuIE51bmMgc2VtIG1hc3NhLCBpbnRlcmR1bSB1dCBjb25ndWUgdmVsLCBoZW5kcmVyaXQgdmVzdGlidWx1bSBsaWJlcm8uIFN1c3BlbmRpc3NlGgHAIHN1c2NpcGl0IGF1Y3RvciBlZmZpY2l0dXIuICBQcmFlc2VudCB1dCBmYXVjaWJ1cyBudW5jLCBhdCB0aW5jaWR1bnQgZXJvcy4gTW9yYmkgZXN0IG1hc3NhLCBmZXJtGwHAZW50dW0gc2l0IGFtZXQgbmVxdWUgdmVsLCBpYWN1bGlzIHZvbHV0cGF0IHB1cnVzLiBJbnRlcmR1bSBldCBtYWxlc3VhZGEgZmFtZXMgYWMgYW50ZSBpcHN1bSBwcmltHAHAaXMgaW4gZmF1Y2lidXMuIERvbmVjIG5lcXVlIG1pLCBkaWN0dW0gZXUgaGVuZHJlcml0IHZpdGFlLCBhdWN0b3IgZXQgdGVsbHVzLiBOYW0gYXVjdG9yIGxpZ3VsYSBpHQHAbiBvcmNpIHNvbGxpY2l0dWRpbiBvcm5hcmUuIFNlZCBuZWMgbG9yZW0gZnJpbmdpbGxhLCBwb3J0dGl0b3IgbG9yZW0gdXQsIGNvbnNlcXVhdCBlbGl0LiBOdWxsYW0gHgHAc29sbGljaXR1ZGluIHB1cnVzIG1pLCBpbiB1bHRyaWNlcyBkdWkgbW9sbGlzIHNlZC4gSW50ZWdlciBsYWNpbmlhIG5pYmggZXQgZmluaWJ1cyBlZmZpY2l0dXIuIENyHwHAYXMgZmV1Z2lhdCB2ZXN0aWJ1bHVtIHNhcGllbiBmZXJtZW50dW0gY3Vyc3VzLiBQZWxsZW50ZXNxdWUgdXQgc2FwaWVuIGxpZ3VsYS4gQ3VyYWJpdHVyIGVsaXQgZW5pIAHAbSwgcG9ydGEgcXVpcyB1cm5hIGFjLCBwZWxsZW50ZXNxdWUgdGVtcHVzIG5pc2kuICBJbnRlZ2VyIGNvbnNlY3RldHVyIGxvYm9ydGlzIGZhdWNpYnVzLiBOdWxsYSBzIQHAZWQgZG9sb3IgbGVvLiBQcmFlc2VudCBhbGlxdWFtIGVyb3Mgdml0YWUgcG9ydGEgbGFjaW5pYS4gRG9uZWMgZXQgbG9yZW0gdGluY2lkdW50LCB2aXZlcnJhIG51bmMgIgHAaW4sIG1hbGVzdWFkYSBuaXNpLiBQZWxsZW50ZXNxdWUgbmVxdWUgbWF1cmlzLCBiaWJlbmR1bSBuZWMgcHVsdmluYXIgbm9uLCBldWlzbW9kIHV0IGxlY3R1cy4gVmVzIwHAdGlidWx1bSBxdWlzIGJpYmVuZHVtIHRlbGx1cy4gVXQgbHVjdHVzIG1hdXJpcyBmZXJtZW50dW0gcmhvbmN1cyBjb25kaW1lbnR1bS4gQWVuZWFuIHNlZCBsYWN1cyBxJAHAdWlzIGxlY3R1cyBwdWx2aW5hciBmaW5pYnVzLiBNYWVjZW5hcyBhIHBvcnR0aXRvciBsZW8sIHZlbCB0ZW1wb3IgdGVsbHVzLiBWaXZhbXVzIGxlY3R1cyB0ZWxsdXMsJQHAIHNvbGxpY2l0dWRpbiBhIG9kaW8gbW9sZXN0aWUsIHZlbmVuYXRpcyBpYWN1bGlzIG1ldHVzLiBTZWQgcXVpcyBsZWN0dXMgbnVsbGEuIFNlZCBqdXN0byBtYXNzYSwgJgHAc3VzY2lwaXQgdXQgZWxlaWZlbmQgbmVjLCBncmF2aWRhIHV0IG5pYmguIE1hdXJpcyBxdWlzIG1ldHVzIHVybmEuIE51bGxhbSBhdCBtYXVyaXMgc2VkIG1pIGltcGVyJwHAZGlldCBlbGVpZmVuZCB1bHRyaWNlcyBzZWQgb2Rpby4gTmFtIGxhb3JlZXQgbGVvIGluIGFyY3UgZ3JhdmlkYSwgZWdldCBtYXhpbXVzIGlwc3VtIGxhY2luaWEuIE1hKACAZWNlbmFzIGNvbnNlcXVhdCBuZXF1ZSBhYyBwZWxsZW50ZXNxdWUgdGVtcG9yLgAAAAAAAAAAAAAAAAAAAAAAAOmA7t8="]);
    ("32mGn2Mw02lca7SMSjyNF3r1oka+CEStCRqsqREfolg=", tx acc_2 "32mGn2Mw02lca7SMSjyNF3r1oka+CEStCRqsqREfolg=" 37011204000001 1753023484 21533826 (Some (Some 0)) (Some 0)
      (Some (m None (Some acc_2) None None (Some "0x99931812")
       "te6cckECMQEAD20AAYCZkxgS/9F8KhYxqlw+YFkeon6tLsvnXwfNuQvW8FLr9d5IHI7uRnum7f07BBwLOW0rbPtxaXeaJYICp7TDeaEOAQElAAAQrQIAABYAAAAA0PoHegBwhAIBaCIASB6sIYOZYOBEtvhlocJ+BFYBr5o+zKE6+jiV8IQfAcqh3NZQAAAAAAAAAAAAAAAAAAEDARiuQuWkAAAAAAAAAAsEAgoOw8htAgUGAAABaCIAAAylVschFfb6H/c6NrbJTptO3VkqNFNOqJuDdTS8Wx0hlU/EAAAAAAAAAAAAAAAAAAEHAUsAAAAIgBIHqwhg5lg4ES2+GWhwn4EVgGvmj7MoTr6OJXwhB8BysAgEAAkOCgsAhDB4YmI2NmNlMmNlOWY1YjFhMjFkOTY3MDQ2MTAxYjMwMmI2MjZiY2I4YjU4NmU3Y2ZhOWI5YWViMWE0ZWEyZjVjYQCEMDplMWU2MzNlYjcwMWIxMThiNDQyOTc3MTZjZWU3MDY5ZWU4NDdiNTZkYjg4YzQ5N2VmZWE2ODFlZDE0YjJkMmM3A4CIsmyAnqYuP9QkpkQ/rH/UulMugyeDeOANdz4XWXr/xQAAAAAAAAAAAAAAAAAAAAAAAAAAAAAAAAAAAAAAmJaADA0OAcAAAAAAAAAAAAAAAAAAAAAAAAAAAAAAAAAAAAAAAAAAIAAAAAAAAAAAAAAAAAAAAAAAAAAAAAAAAAAAAAAAAAyuTG9yZW0gaXBzdW0gZG9sb3Igc2l0IGFtZXQsIGNvbnMPAEDtIt80IZriYDn9l32OQZrhTXixkunbXc+jWXiZCWRw0QAIdG9uMgHAZWN0ZXR1ciBhZGlwaXNjaW5nIGVsaXQuIEluIGJsYW5kaXQsIGFudGUgaW4gZGlnbmlzc2ltIHVsdHJpY2llcywgbGlndWxhIHB1cnVzIG1vbGVzdGllIHNhcGllbiwgEAHAZXVpc21vZCBzYWdpdHRpcyBuaXNpIGxlY3R1cyB1dCBhbnRlLiBJbnRlZ2VyIGltcGVyZGlldCBpcHN1bSBlcm9zLCBmZXVnaWF0IGNvbmRpbWVudHVtIGFudGUgZ3JhEQHAdmlkYSBldC4gU3VzcGVuZGlzc2UgdGVtcHVzIGxvcmVtIHNpdCBhbWV0IG1hc3NhIGVmZmljaXR1ciBzb2xsaWNpdHVkaW4uIE5hbSBvZGlvIGR1aSwgY29udmFsbGlzEgHAIHZpdGFlIG1hdXJpcyBxdWlzLCBmYXVjaWJ1cyB1bGxhbWNvcnBlciBzYXBpZW4uIERvbmVjIG1vbGVzdGllIGNvbnZhbGxpcyBlbGVtZW50dW0uIFF1aXNxdWUgdGluEwHAY2lkdW50IHRpbmNpZHVudCBuZXF1ZSwgbm9uIHBsYWNlcmF0IG5lcXVlIHBvc3VlcmUgYXQuIE51bGxhbSBjb25zZXF1YXQgdml2ZXJyYSBwb3J0YS4gRG9uZWMgZXQgFAHAbWFsZXN1YWRhIHF1YW0sIHNlZCBjb252YWxsaXMgdmVsaXQuICBVdCBuaXNsIHR1cnBpcywgdGluY2lkdW50IHZlbCBjb21tb2RvIHV0LCBzb2RhbGVzIGV1IG5pc2kuFQHAIE1hdXJpcyBwaGFyZXRyYSBkdWkgYSBzZW0gZmV1Z2lhdCBwb3N1ZXJlLiBQZWxsZW50ZXNxdWUgc2VkIHBvc3VlcmUgZHVpLiBQZWxsZW50ZXNxdWUgbGFjaW5pYSBmFgHAZWxpcyBldCBkaWFtIHZlbmVuYXRpcyBzYWdpdHRpcy4gTWF1cmlzIHZlbGl0IHB1cnVzLCBmaW5pYnVzIG5vbiBuaXNsIGF0LCBzdXNjaXBpdCBpYWN1bGlzIGFyY3UuFwHAIE1vcmJpIGNvbnNlY3RldHVyIHBlbGxlbnRlc3F1ZSBsYWN1cywgdmVsIGJpYmVuZHVtIGp1c3RvIGZyaW5naWxsYSB1dC4gU2VkIHNhZ2l0dGlzIGVsZWlmZW5kIG51GAHAbGxhLCBhYyBpYWN1bGlzIHR1cnBpcyB0cmlzdGlxdWUgZWdldC4gQWVuZWFuIHV0IHBvcnR0aXRvciBuaXNsLCBjb21tb2RvIGVsZWlmZW5kIGxvcmVtLiBJbnRlZ2VyGQHAIGVnZXQgcHVydXMgdmVuZW5hdGlzIG1pIGVmZmljaXR1ciBtb2xlc3RpZSBpZCBsb2JvcnRpcyBuZXF1ZS4gU2VkIHF1aXMgcmhvbmN1cyBwdXJ1cy4gVml2YW11cyB2GgHAaXZlcnJhIG51bGxhIHNlZCBkaWFtIGZyaW5naWxsYSwgdml0YWUgcnV0cnVtIGxpYmVybyB2ZXN0aWJ1bHVtLiBGdXNjZSBzZW0gZW5pbSwgcnV0cnVtIG5lYyBlbmltGwHAIHBlbGxlbnRlc3F1ZSwgZWxlbWVudHVtIG1hdHRpcyBzZW0uIE51bGxhbSB1bGxhbWNvcnBlciBhY2N1bXNhbiBpcHN1bSwgc2VkIG1vbGVzdGllIG5pYmggdmVoaWN1HAHAbGEgc2l0IGFtZXQuIE1hdXJpcyBmZXJtZW50dW0gYWMgZXN0IHZpdGFlIGF1Y3Rvci4gQWVuZWFuIGZlcm1lbnR1bSBjb252YWxsaXMgbmVxdWUsIHNlZCB2ZWhpY3VsHQHAYSBlc3QgZGlnbmlzc2ltIGEuICBJbiBsYWNpbmlhIG5pYmggbmlzaSwgZXUgZWdlc3RhcyBtYXVyaXMgdGVtcHVzIGEuIFBoYXNlbGx1cyBub24gZWxlbWVudHVtIGRvHgHAbG9yLiBJbnRlZ2VyIGdyYXZpZGEgcGhhcmV0cmEgZmF1Y2lidXMuIFBlbGxlbnRlc3F1ZSBtb2xsaXMgZG9sb3IgcXVpcyBhcmN1IHZpdmVycmEsIGF0IHBoYXJldHJhHwHAIGxlY3R1cyBzYWdpdHRpcy4gSW50ZXJkdW0gZXQgbWFsZXN1YWRhIGZhbWVzIGFjIGFudGUgaXBzdW0gcHJpbWlzIGluIGZhdWNpYnVzLiBQcmFlc2VudCBzdXNjaXBpIAHAdCBhdWd1ZSBhYyBtYWduYSBkYXBpYnVzIG9ybmFyZS4gRHVpcyBmcmluZ2lsbGEgaWFjdWxpcyBmZXJtZW50dW0uIEFlbmVhbiBpZCByaXN1cyBkdWkuIERvbmVjIHNlIQHAZCBtb2xlc3RpZSBkdWkuIE51bmMgc2VtIG1hc3NhLCBpbnRlcmR1bSB1dCBjb25ndWUgdmVsLCBoZW5kcmVyaXQgdmVzdGlidWx1bSBsaWJlcm8uIFN1c3BlbmRpc3NlIgHAIHN1c2NpcGl0IGF1Y3RvciBlZmZpY2l0dXIuICBQcmFlc2VudCB1dCBmYXVjaWJ1cyBudW5jLCBhdCB0aW5jaWR1bnQgZXJvcy4gTW9yYmkgZXN0IG1hc3NhLCBmZXJtIwHAZW50dW0gc2l0IGFtZXQgbmVxdWUgdmVsLCBpYWN1bGlzIHZvbHV0cGF0IHB1cnVzLiBJbnRlcmR1bSBldCBtYWxlc3VhZGEgZmFtZXMgYWMgYW50ZSBpcHN1bSBwcmltJAHAaXMgaW4gZmF1Y2lidXMuIERvbmVjIG5lcXVlIG1pLCBkaWN0dW0gZXUgaGVuZHJlcml0IHZpdGFlLCBhdWN0b3IgZXQgdGVsbHVzLiBOYW0gYXVjdG9yIGxpZ3VsYSBpJQHAbiBvcmNpIHNvbGxpY2l0dWRpbiBvcm5hcmUuIFNlZCBuZWMgbG9yZW0gZnJpbmdpbGxhLCBwb3J0dGl0b3IgbG9yZW0gdXQsIGNvbnNlcXVhdCBlbGl0LiBOdWxsYW0gJgHAc29sbGljaXR1ZGluIHB1cnVzIG1pLCBpbiB1bHRyaWNlcyBkdWkgbW9sbGlzIHNlZC4gSW50ZWdlciBsYWNpbmlhIG5pYmggZXQgZmluaWJ1cyBlZmZpY2l0dXIuIENyJwHAYXMgZmV1Z2lhdCB2ZXN0aWJ1bHVtIHNhcGllbiBmZXJtZW50dW0gY3Vyc3VzLiBQZWxsZW50ZXNxdWUgdXQgc2FwaWVuIGxpZ3VsYS4gQ3VyYWJpdHVyIGVsaXQgZW5pKAHAbSwgcG9ydGEgcXVpcyB1cm5hIGFjLCBwZWxsZW50ZXNxdWUgdGVtcHVzIG5pc2kuICBJbnRlZ2VyIGNvbnNlY3RldHVyIGxvYm9ydGlzIGZhdWNpYnVzLiBOdWxsYSBzKQHAZWQgZG9sb3IgbGVvLiBQcmFlc2VudCBhbGlxdWFtIGVyb3Mgdml0YWUgcG9ydGEgbGFjaW5pYS4gRG9uZWMgZXQgbG9yZW0gdGluY2lkdW50LCB2aXZlcnJhIG51bmMgKgHAaW4sIG1hbGVzdWFkYSBuaXNpLiBQZWxsZW50ZXNxdWUgbmVxdWUgbWF1cmlzLCBiaWJlbmR1bSBuZWMgcHVsdmluYXIgbm9uLCBldWlzbW9kIHV0IGxlY3R1cy4gVmVzKwHAdGlidWx1bSBxdWlzIGJpYmVuZHVtIHRlbGx1cy4gVXQgbHVjdHVzIG1hdXJpcyBmZXJtZW50dW0gcmhvbmN1cyBjb25kaW1lbnR1bS4gQWVuZWFuIHNlZCBsYWN1cyBxLAHAdWlzIGxlY3R1cyBwdWx2aW5hciBmaW5pYnVzLiBNYWVjZW5hcyBhIHBvcnR0aXRvciBsZW8sIHZlbCB0ZW1wb3IgdGVsbHVzLiBWaXZhbXVzIGxlY3R1cyB0ZWxsdXMsLQHAIHNvbGxpY2l0dWRpbiBhIG9kaW8gbW9sZXN0aWUsIHZlbmVuYXRpcyBpYWN1bGlzIG1ldHVzLiBTZWQgcXVpcyBsZWN0dXMgbnVsbGEuIFNlZCBqdXN0byBtYXNzYSwgLgHAc3VzY2lwaXQgdXQgZWxlaWZlbmQgbmVjLCBncmF2aWRhIHV0IG5pYmguIE1hdXJpcyBxdWlzIG1ldHVzIHVybmEuIE51bGxhbSBhdCBtYXVyaXMgc2VkIG1pIGltcGVyLwHAZGlldCBlbGVpZmVuZCB1bHRyaWNlcyBzZWQgb2Rpby4gTmFtIGxhb3JlZXQgbGVvIGluIGFyY3UgZ3JhdmlkYSwgZWdldCBtYXhpbXVzIGlwc3VtIGxhY2luaWEuIE1hMACAZWNlbmFzIGNvbnNlcXVhdCBuZXF1ZSBhYyBwZWxsZW50ZXNxdWUgdGVtcG9yLgAAAAAAAAAAAAAAAAAAAAAAAOXYJSY="))
      [m (Some acc_2) (Some acc_2) (Some "986027600") (Some "9315005") (Some "0xae42e5a4")
       "te6cckECLgEADt0AARiuQuWkAAAAAAAAAAsBAgoOw8htAgIDAAABaCIAAAylVschFfb6H/c6NrbJTptO3VkqNFNOqJuDdTS8Wx0hlU/EAAAAAAAAAAAAAAAAAAEEAUsAAAAIgBIHqwhg5lg4ES2+GWhwn4EVgGvmj7MoTr6OJXwhB8BysAUEAAYLBwgAhDB4YmI2NmNlMmNlOWY1YjFhMjFkOTY3MDQ2MTAxYjMwMmI2MjZiY2I4YjU4NmU3Y2ZhOWI5YWViMWE0ZWEyZjVjYQCEMDplMWU2MzNlYjcwMWIxMThiNDQyOTc3MTZjZWU3MDY5ZWU4NDdiNTZkYjg4YzQ5N2VmZWE2ODFlZDE0YjJkMmM3A4CIsmyAnqYuP9QkpkQ/rH/UulMugyeDeOANdz4XWXr/xQAAAAAAAAAAAAAAAAAAAAAAAAAAAAAAAAAAAAAAmJaACQoLAcAAAAAAAAAAAAAAAAAAAAAAAAAAAAAAAAAAAAAAAAAAIAAAAAAAAAAAAAAAAAAAAAAAAAAAAAAAAAAAAAAAAAyuTG9yZW0gaXBzdW0gZG9sb3Igc2l0IGFtZXQsIGNvbnMMAEDtIt80IZriYDn9l32OQZrhTXixkunbXc+jWXiZCWRw0QAIdG9uMgHAZWN0ZXR1ciBhZGlwaXNjaW5nIGVsaXQuIEluIGJsYW5kaXQsIGFudGUgaW4gZGlnbmlzc2ltIHVsdHJpY2llcywgbGlndWxhIHB1cnVzIG1vbGVzdGllIHNhcGllbiwgDQHAZXVpc21vZCBzYWdpdHRpcyBuaXNpIGxlY3R1cyB1dCBhbnRlLiBJbnRlZ2VyIGltcGVyZGlldCBpcHN1bSBlcm9zLCBmZXVnaWF0IGNvbmRpbWVudHVtIGFudGUgZ3JhDgHAdmlkYSBldC4gU3VzcGVuZGlzc2UgdGVtcHVzIGxvcmVtIHNpdCBhbWV0IG1hc3NhIGVmZmljaXR1ciBzb2xsaWNpdHVkaW4uIE5hbSBvZGlvIGR1aSwgY29udmFsbGlzDwHAIHZpdGFlIG1hdXJpcyBxdWlzLCBmYXVjaWJ1cyB1bGxhbWNvcnBlciBzYXBpZW4uIERvbmVjIG1vbGVzdGllIGNvbnZhbGxpcyBlbGVtZW50dW0uIFF1aXNxdWUgdGluEAHAY2lkdW50IHRpbmNpZHVudCBuZXF1ZSwgbm9uIHBsYWNlcmF0IG5lcXVlIHBvc3VlcmUgYXQuIE51bGxhbSBjb25zZXF1YXQgdml2ZXJyYSBwb3J0YS4gRG9uZWMgZXQgEQHAbWFsZXN1YWRhIHF1YW0sIHNlZCBjb252YWxsaXMgdmVsaXQuICBVdCBuaXNsIHR1cnBpcywgdGluY2lkdW50IHZlbCBjb21tb2RvIHV0LCBzb2RhbGVzIGV1IG5pc2kuEgHAIE1hdXJpcyBwaGFyZXRyYSBkdWkgYSBzZW0gZmV1Z2lhdCBwb3N1ZXJlLiBQZWxsZW50ZXNxdWUgc2VkIHBvc3VlcmUgZHVpLiBQZWxsZW50ZXNxdWUgbGFjaW5pYSBmEwHAZWxpcyBldCBkaWFtIHZlbmVuYXRpcyBzYWdpdHRpcy4gTWF1cmlzIHZlbGl0IHB1cnVzLCBmaW5pYnVzIG5vbiBuaXNsIGF0LCBzdXNjaXBpdCBpYWN1bGlzIGFyY3UuFAHAIE1vcmJpIGNvbnNlY3RldHVyIHBlbGxlbnRlc3F1ZSBsYWN1cywgdmVsIGJpYmVuZHVtIGp1c3RvIGZyaW5naWxsYSB1dC4gU2VkIHNhZ2l0dGlzIGVsZWlmZW5kIG51FQHAbGxhLCBhYyBpYWN1bGlzIHR1cnBpcyB0cmlzdGlxdWUgZWdldC4gQWVuZWFuIHV0IHBvcnR0aXRvciBuaXNsLCBjb21tb2RvIGVsZWlmZW5kIGxvcmVtLiBJbnRlZ2VyFgHAIGVnZXQgcHVydXMgdmVuZW5hdGlzIG1pIGVmZmljaXR1ciBtb2xlc3RpZSBpZCBsb2JvcnRpcyBuZXF1ZS4gU2VkIHF1aXMgcmhvbmN1cyBwdXJ1cy4gVml2YW11cyB2FwHAaXZlcnJhIG51bGxhIHNlZCBkaWFtIGZyaW5naWxsYSwgdml0YWUgcnV0cnVtIGxpYmVybyB2ZXN0aWJ1bHVtLiBGdXNjZSBzZW0gZW5pbSwgcnV0cnVtIG5lYyBlbmltGAHAIHBlbGxlbnRlc3F1ZSwgZWxlbWVudHVtIG1hdHRpcyBzZW0uIE51bGxhbSB1bGxhbWNvcnBlciBhY2N1bXNhbiBpcHN1bSwgc2VkIG1vbGVzdGllIG5pYmggdmVoaWN1GQHAbGEgc2l0IGFtZXQuIE1hdXJpcyBmZXJtZW50dW0gYWMgZXN0IHZpdGFlIGF1Y3Rvci4gQWVuZWFuIGZlcm1lbnR1bSBjb252YWxsaXMgbmVxdWUsIHNlZCB2ZWhpY3VsGgHAYSBlc3QgZGlnbmlzc2ltIGEuICBJbiBsYWNpbmlhIG5pYmggbmlzaSwgZXUgZWdlc3RhcyBtYXVyaXMgdGVtcHVzIGEuIFBoYXNlbGx1cyBub24gZWxlbWVudHVtIGRvGwHAbG9yLiBJbnRlZ2VyIGdyYXZpZGEgcGhhcmV0cmEgZmF1Y2lidXMuIFBlbGxlbnRlc3F1ZSBtb2xsaXMgZG9sb3IgcXVpcyBhcmN1IHZpdmVycmEsIGF0IHBoYXJldHJhHAHAIGxlY3R1cyBzYWdpdHRpcy4gSW50ZXJkdW0gZXQgbWFsZXN1YWRhIGZhbWVzIGFjIGFudGUgaXBzdW0gcHJpbWlzIGluIGZhdWNpYnVzLiBQcmFlc2VudCBzdXNjaXBpHQHAdCBhdWd1ZSBhYyBtYWduYSBkYXBpYnVzIG9ybmFyZS4gRHVpcyBmcmluZ2lsbGEgaWFjdWxpcyBmZXJtZW50dW0uIEFlbmVhbiBpZCByaXN1cyBkdWkuIERvbmVjIHNlHgHAZCBtb2xlc3RpZSBkdWkuIE51bmMgc2VtIG1hc3NhLCBpbnRlcmR1bSB1dCBjb25ndWUgdmVsLCBoZW5kcmVyaXQgdmVzdGlidWx1bSBsaWJlcm8uIFN1c3BlbmRpc3NlHwHAIHN1c2NpcGl0IGF1Y3RvciBlZmZpY2l0dXIuICBQcmFlc2VudCB1dCBmYXVjaWJ1cyBudW5jLCBhdCB0aW5jaWR1bnQgZXJvcy4gTW9yYmkgZXN0IG1hc3NhLCBmZXJtIAHAZW50dW0gc2l0IGFtZXQgbmVxdWUgdmVsLCBpYWN1bGlzIHZvbHV0cGF0IHB1cnVzLiBJbnRlcmR1bSBldCBtYWxlc3VhZGEgZmFtZXMgYWMgYW50ZSBpcHN1bSBwcmltIQHAaXMgaW4gZmF1Y2lidXMuIERvbmVjIG5lcXVlIG1pLCBkaWN0dW0gZXUgaGVuZHJlcml0IHZpdGFlLCBhdWN0b3IgZXQgdGVsbHVzLiBOYW0gYXVjdG9yIGxpZ3VsYSBpIgHAbiBvcmNpIHNvbGxpY2l0dWRpbiBvcm5hcmUuIFNlZCBuZWMgbG9yZW0gZnJpbmdpbGxhLCBwb3J0dGl0b3IgbG9yZW0gdXQsIGNvbnNlcXVhdCBlbGl0LiBOdWxsYW0gIwHAc29sbGljaXR1ZGluIHB1cnVzIG1pLCBpbiB1bHRyaWNlcyBkdWkgbW9sbGlzIHNlZC4gSW50ZWdlciBsYWNpbmlhIG5pYmggZXQgZmluaWJ1cyBlZmZpY2l0dXIuIENyJAHAYXMgZmV1Z2lhdCB2ZXN0aWJ1bHVtIHNhcGllbiBmZXJtZW50dW0gY3Vyc3VzLiBQZWxsZW50ZXNxdWUgdXQgc2FwaWVuIGxpZ3VsYS4gQ3VyYWJpdHVyIGVsaXQgZW5pJQHAbSwgcG9ydGEgcXVpcyB1cm5hIGFjLCBwZWxsZW50ZXNxdWUgdGVtcHVzIG5pc2kuICBJbnRlZ2VyIGNvbnNlY3RldHVyIGxvYm9ydGlzIGZhdWNpYnVzLiBOdWxsYSBzJgHAZWQgZG9sb3IgbGVvLiBQcmFlc2VudCBhbGlxdWFtIGVyb3Mgdml0YWUgcG9ydGEgbGFjaW5pYS4gRG9uZWMgZXQgbG9yZW0gdGluY2lkdW50LCB2aXZlcnJhIG51bmMgJwHAaW4sIG1hbGVzdWFkYSBuaXNpLiBQZWxsZW50ZXNxdWUgbmVxdWUgbWF1cmlzLCBiaWJlbmR1bSBuZWMgcHVsdmluYXIgbm9uLCBldWlzbW9kIHV0IGxlY3R1cy4gVmVzKAHAdGlidWx1bSBxdWlzIGJpYmVuZHVtIHRlbGx1cy4gVXQgbHVjdHVzIG1hdXJpcyBmZXJtZW50dW0gcmhvbmN1cyBjb25kaW1lbnR1bS4gQWVuZWFuIHNlZCBsYWN1cyBxKQHAdWlzIGxlY3R1cyBwdWx2aW5hciBmaW5pYnVzLiBNYWVjZW5hcyBhIHBvcnR0aXRvciBsZW8sIHZlbCB0ZW1wb3IgdGVsbHVzLiBWaXZhbXVzIGxlY3R1cyB0ZWxsdXMsKgHAIHNvbGxpY2l0dWRpbiBhIG9kaW8gbW9sZXN0aWUsIHZlbmVuYXRpcyBpYWN1bGlzIG1ldHVzLiBTZWQgcXVpcyBsZWN0dXMgbnVsbGEuIFNlZCBqdXN0byBtYXNzYSwgKwHAc3VzY2lwaXQgdXQgZWxlaWZlbmQgbmVjLCBncmF2aWRhIHV0IG5pYmguIE1hdXJpcyBxdWlzIG1ldHVzIHVybmEuIE51bGxhbSBhdCBtYXVyaXMgc2VkIG1pIGltcGVyLAHAZGlldCBlbGVpZmVuZCB1bHRyaWNlcyBzZWQgb2Rpby4gTmFtIGxhb3JlZXQgbGVvIGluIGFyY3UgZ3JhdmlkYSwgZWdldCBtYXhpbXVzIGlwc3VtIGxhY2luaWEuIE1hLQCAZWNlbmFzIGNvbnNlcXVhdCBuZXF1ZSBhYyBwZWxsZW50ZXNxdWUgdGVtcG9yLgAAAAAAAAAAAAAAAAAAAAAAAIqBGpg="]);
    ("JeRF4GCSVmHmFWr5p68SPu9QBoV8D+by8KhRj+3tEu0=", tx acc_2 "JeRF4GCSVmHmFWr5p68SPu9QBoV8D+by8KhRj+3tEu0=" 37011204000003 1753023484 5232864 (Some (Some 0)) (Some 0)
      (Some (m (Some acc_2) (Some acc_2) (Some "986027600") (Some "9315005") (Some "0xae42e5a4")
       "te6cckECLgEADt0AARiuQuWkAAAAAAAAAAsBAgoOw8htAgIDAAABaCIAAAylVschFfb6H/c6NrbJTptO3VkqNFNOqJuDdTS8Wx0hlU/EAAAAAAAAAAAAAAAAAAEEAUsAAAAIgBIHqwhg5lg4ES2+GWhwn4EVgGvmj7MoTr6OJXwhB8BysAUEAAYLBwgAhDB4YmI2NmNlMmNlOWY1YjFhMjFkOTY3MDQ2MTAxYjMwMmI2MjZiY2I4YjU4NmU3Y2ZhOWI5YWViMWE0ZWEyZjVjYQCEMDplMWU2MzNlYjcwMWIxMThiNDQyOTc3MTZjZWU3MDY5ZWU4NDdiNTZkYjg4YzQ5N2VmZWE2ODFlZDE0YjJkMmM3A4CIsmyAnqYuP9QkpkQ/rH/UulMugyeDeOANdz4XWXr/xQAAAAAAAAAAAAAAAAAAAAAAAAAAAAAAAAAAAAAAmJaACQoLAcAAAAAAAAAAAAAAAAAAAAAAAAAAAAAAAAAAAAAAAAAAIAAAAAAAAAAAAAAAAAAAAAAAAAAAAAAAAAAAAAAAAAyuTG9yZW0gaXBzdW0gZG9sb3Igc2l0IGFtZXQsIGNvbnMMAEDtIt80IZriYDn9l32OQZrhTXixkunbXc+jWXiZCWRw0QAIdG9uMgHAZWN0ZXR1ciBhZGlwaXNjaW5nIGVsaXQuIEluIGJsYW5kaXQsIGFudGUgaW4gZGlnbmlzc2ltIHVsdHJpY2llcywgbGlndWxhIHB1cnVzIG1vbGVzdGllIHNhcGllbiwgDQHAZXVpc21vZCBzYWdpdHRpcyBuaXNpIGxlY3R1cyB1dCBhbnRlLiBJbnRlZ2VyIGltcGVyZGlldCBpcHN1bSBlcm9zLCBmZXVnaWF0IGNvbmRpbWVudHVtIGFudGUgZ3JhDgHAdmlkYSBldC4gU3VzcGVuZGlzc2UgdGVtcHVzIGxvcmVtIHNpdCBhbWV0IG1hc3NhIGVmZmljaXR1ciBzb2xsaWNpdHVkaW4uIE5hbSBvZGlvIGR1aSwgY29udmFsbGlzDwHAIHZpdGFlIG1hdXJpcyBxdWlzLCBmYXVjaWJ1cyB1bGxhbWNvcnBlciBzYXBpZW4uIERvbmVjIG1vbGVzdGllIGNvbnZhbGxpcyBlbGVtZW50dW0uIFF1aXNxdWUgdGluEAHAY2lkdW50IHRpbmNpZHVudCBuZXF1ZSwgbm9uIHBsYWNlcmF0IG5lcXVlIHBvc3VlcmUgYXQuIE51bGxhbSBjb25zZXF1YXQgdml2ZXJyYSBwb3J0YS4gRG9uZWMgZXQgEQHAbWFsZXN1YWRhIHF1YW0sIHNlZCBjb252YWxsaXMgdmVsaXQuICBVdCBuaXNsIHR1cnBpcywgdGluY2lkdW50IHZlbCBjb21tb2RvIHV0LCBzb2RhbGVzIGV1IG5pc2kuEgHAIE1hdXJpcyBwaGFyZXRyYSBkdWkgYSBzZW0gZmV1Z2lhdCBwb3N1ZXJlLiBQZWxsZW50ZXNxdWUgc2VkIHBvc3VlcmUgZHVpLiBQZWxsZW50ZXNxdWUgbGFjaW5pYSBmEwHAZWxpcyBldCBkaWFtIHZlbmVuYXRpcyBzYWdpdHRpcy4gTWF1cmlzIHZlbGl0IHB1cnVzLCBmaW5pYnVzIG5vbiBuaXNsIGF0LCBzdXNjaXBpdCBpYWN1bGlzIGFyY3UuFAHAIE1vcmJpIGNvbnNlY3RldHVyIHBlbGxlbnRlc3F1ZSBsYWN1cywgdmVsIGJpYmVuZHVtIGp1c3RvIGZyaW5naWxsYSB1dC4gU2VkIHNhZ2l0dGlzIGVsZWlmZW5kIG51FQHAbGxhLCBhYyBpYWN1bGlzIHR1cnBpcyB0cmlzdGlxdWUgZWdldC4gQWVuZWFuIHV0IHBvcnR0aXRvciBuaXNsLCBjb21tb2RvIGVsZWlmZW5kIGxvcmVtLiBJbnRlZ2VyFgHAIGVnZXQgcHVydXMgdmVuZW5hdGlzIG1pIGVmZmljaXR1ciBtb2xlc3RpZSBpZCBsb2JvcnRpcyBuZXF1ZS4gU2VkIHF1aXMgcmhvbmN1cyBwdXJ1cy4gVml2YW11cyB2FwHAaXZlcnJhIG51bGxhIHNlZCBkaWFtIGZyaW5naWxsYSwgdml0YWUgcnV0cnVtIGxpYmVybyB2ZXN0aWJ1bHVtLiBGdXNjZSBzZW0gZW5pbSwgcnV0cnVtIG5lYyBlbmltGAHAIHBlbGxlbnRlc3F1ZSwgZWxlbWVudHVtIG1hdHRpcyBzZW0uIE51bGxhbSB1bGxhbWNvcnBlciBhY2N1bXNhbiBpcHN1bSwgc2VkIG1vbGVzdGllIG5pYmggdmVoaWN1GQHAbGEgc2l0IGFtZXQuIE1hdXJpcyBmZXJtZW50dW0gYWMgZXN0IHZpdGFlIGF1Y3Rvci4gQWVuZWFuIGZlcm1lbnR1bSBjb252YWxsaXMgbmVxdWUsIHNlZCB2ZWhpY3VsGgHAYSBlc3QgZGlnbmlzc2ltIGEuICBJbiBsYWNpbmlhIG5pYmggbmlzaSwgZXUgZWdlc3RhcyBtYXVyaXMgdGVtcHVzIGEuIFBoYXNlbGx1cyBub24gZWxlbWVudHVtIGRvGwHAbG9yLiBJbnRlZ2VyIGdyYXZpZGEgcGhhcmV0cmEgZmF1Y2lidXMuIFBlbGxlbnRlc3F1ZSBtb2xsaXMgZG9sb3IgcXVpcyBhcmN1IHZpdmVycmEsIGF0IHBoYXJldHJhHAHAIGxlY3R1cyBzYWdpdHRpcy4gSW50ZXJkdW0gZXQgbWFsZXN1YWRhIGZhbWVzIGFjIGFudGUgaXBzdW0gcHJpbWlzIGluIGZhdWNpYnVzLiBQcmFlc2VudCBzdXNjaXBpHQHAdCBhdWd1ZSBhYyBtYWduYSBkYXBpYnVzIG9ybmFyZS4gRHVpcyBmcmluZ2lsbGEgaWFjdWxpcyBmZXJtZW50dW0uIEFlbmVhbiBpZCByaXN1cyBkdWkuIERvbmVjIHNlHgHAZCBtb2xlc3RpZSBkdWkuIE51bmMgc2VtIG1hc3NhLCBpbnRlcmR1bSB1dCBjb25ndWUgdmVsLCBoZW5kcmVyaXQgdmVzdGlidWx1bSBsaWJlcm8uIFN1c3BlbmRpc3NlHwHAIHN1c2NpcGl0IGF1Y3RvciBlZmZpY2l0dXIuICBQcmFlc2VudCB1dCBmYXVjaWJ1cyBudW5jLCBhdCB0aW5jaWR1bnQgZXJvcy4gTW9yYmkgZXN0IG1hc3NhLCBmZXJtIAHAZW50dW0gc2l0IGFtZXQgbmVxdWUgdmVsLCBpYWN1bGlzIHZvbHV0cGF0IHB1cnVzLiBJbnRlcmR1bSBldCBtYWxlc3VhZGEgZmFtZXMgYWMgYW50ZSBpcHN1bSBwcmltIQHAaXMgaW4gZmF1Y2lidXMuIERvbmVjIG5lcXVlIG1pLCBkaWN0dW0gZXUgaGVuZHJlcml0IHZpdGFlLCBhdWN0b3IgZXQgdGVsbHVzLiBOYW0gYXVjdG9yIGxpZ3VsYSBpIgHAbiBvcmNpIHNvbGxpY2l0dWRpbiBvcm5hcmUuIFNlZCBuZWMgbG9yZW0gZnJpbmdpbGxhLCBwb3J0dGl0b3IgbG9yZW0gdXQsIGNvbnNlcXVhdCBlbGl0LiBOdWxsYW0gIwHAc29sbGljaXR1ZGluIHB1cnVzIG1pLCBpbiB1bHRyaWNlcyBkdWkgbW9sbGlzIHNlZC4gSW50ZWdlciBsYWNpbmlhIG5pYmggZXQgZmluaWJ1cyBlZmZpY2l0dXIuIENyJAHAYXMgZmV1Z2lhdCB2ZXN0aWJ1bHVtIHNhcGllbiBmZXJtZW50dW0gY3Vyc3VzLiBQZWxsZW50ZXNxdWUgdXQgc2FwaWVuIGxpZ3VsYS4gQ3VyYWJpdHVyIGVsaXQgZW5pJQHAbSwgcG9ydGEgcXVpcyB1cm5hIGFjLCBwZWxsZW50ZXNxdWUgdGVtcHVzIG5pc2kuICBJbnRlZ2VyIGNvbnNlY3RldHVyIGxvYm9ydGlzIGZhdWNpYnVzLiBOdWxsYSBzJgHAZWQgZG9sb3IgbGVvLiBQcmFlc2VudCBhbGlxdWFtIGVyb3Mgdml0YWUgcG9ydGEgbGFjaW5pYS4gRG9uZWMgZXQgbG9yZW0gdGluY2lkdW50LCB2aXZlcnJhIG51bmMgJwHAaW4sIG1hbGVzdWFkYSBuaXNpLiBQZWxsZW50ZXNxdWUgbmVxdWUgbWF1cmlzLCBiaWJlbmR1bSBuZWMgcHVsdmluYXIgbm9uLCBldWlzbW9kIHV0IGxlY3R1cy4gVmVzKAHAdGlidWx1bSBxdWlzIGJpYmVuZHVtIHRlbGx1cy4gVXQgbHVjdHVzIG1hdXJpcyBmZXJtZW50dW0gcmhvbmN1cyBjb25kaW1lbnR1bS4gQWVuZWFuIHNlZCBsYWN1cyBxKQHAdWlzIGxlY3R1cyBwdWx2aW5hciBmaW5pYnVzLiBNYWVjZW5hcyBhIHBvcnR0aXRvciBsZW8sIHZlbCB0ZW1wb3IgdGVsbHVzLiBWaXZhbXVzIGxlY3R1cyB0ZWxsdXMsKgHAIHNvbGxpY2l0dWRpbiBhIG9kaW8gbW9sZXN0aWUsIHZlbmVuYXRpcyBpYWN1bGlzIG1ldHVzLiBTZWQgcXVpcyBsZWN0dXMgbnVsbGEuIFNlZCBqdXN0byBtYXNzYSwgKwHAc3VzY2lwaXQgdXQgZWxlaWZlbmQgbmVjLCBncmF2aWRhIHV0IG5pYmguIE1hdXJpcyBxdWlzIG1ldHVzIHVybmEuIE51bGxhbSBhdCBtYXVyaXMgc2VkIG1pIGltcGVyLAHAZGlldCBlbGVpZmVuZCB1bHRyaWNlcyBzZWQgb2Rpby4gTmFtIGxhb3JlZXQgbGVvIGluIGFyY3UgZ3JhdmlkYSwgZWdldCBtYXhpbXVzIGlwc3VtIGxhY2luaWEuIE1hLQCAZWNlbmFzIGNvbnNlcXVhdCBuZXF1ZSBhYyBwZWxsZW50ZXNxdWUgdGVtcG9yLgAAAAAAAAAAAAAAAAAAAAAAAIqBGpg="))
      [m (Some acc_2) (Some acc_5) (Some "836408400") (Some "9061136") (Some "0x00000008")
       "te6cckECKgEADowAAUsAAAAIgBIHqwhg5lg4ES2+GWhwn4EVgGvmj7MoTr6OJXwhB8BysAEEAAIHAwQAhDB4YmI2NmNlMmNlOWY1YjFhMjFkOTY3MDQ2MTAxYjMwMmI2MjZiY2I4YjU4NmU3Y2ZhOWI5YWViMWE0ZWEyZjVjYQCEMDplMWU2MzNlYjcwMWIxMThiNDQyOTc3MTZjZWU3MDY5ZWU4NDdiNTZkYjg4YzQ5N2VmZWE2ODFlZDE0YjJkMmM3A4CIsmyAnqYuP9QkpkQ/rH/UulMugyeDeOANdz4XWXr/xQAAAAAAAAAAAAAAAAAAAAAAAAAAAAAAAAAAAAAAmJaABQYHAcAAAAAAAAAAAAAAAAAAAAAAAAAAAAAAAAAAAAAAAAAAIAAAAAAAAAAAAAAAAAAAAAAAAAAAAAAAAAAAAAAAAAyuTG9yZW0gaXBzdW0gZG9sb3Igc2l0IGFtZXQsIGNvbnMIAEDtIt80IZriYDn9l32OQZrhTXixkunbXc+jWXiZCWRw0QAIdG9uMgHAZWN0ZXR1ciBhZGlwaXNjaW5nIGVsaXQuIEluIGJsYW5kaXQsIGFudGUgaW4gZGlnbmlzc2ltIHVsdHJpY2llcywgbGlndWxhIHB1cnVzIG1vbGVzdGllIHNhcGllbiwgCQHAZXVpc21vZCBzYWdpdHRpcyBuaXNpIGxlY3R1cyB1dCBhbnRlLiBJbnRlZ2VyIGltcGVyZGlldCBpcHN1bSBlcm9zLCBmZXVnaWF0IGNvbmRpbWVudHVtIGFudGUgZ3JhCgHAdmlkYSBldC4gU3VzcGVuZGlzc2UgdGVtcHVzIGxvcmVtIHNpdCBhbWV0IG1hc3NhIGVmZmljaXR1ciBzb2xsaWNpdHVkaW4uIE5hbSBvZGlvIGR1aSwgY29udmFsbGlzCwHAIHZpdGFlIG1hdXJpcyBxdWlzLCBmYXVjaWJ1cyB1bGxhbWNvcnBlciBzYXBpZW4uIERvbmVjIG1vbGVzdGllIGNvbnZhbGxpcyBlbGVtZW50dW0uIFF1aXNxdWUgdGluDAHAY2lkdW50IHRpbmNpZHVudCBuZXF1ZSwgbm9uIHBsYWNlcmF0IG5lcXVlIHBvc3VlcmUgYXQuIE51bGxhbSBjb25zZXF1YXQgdml2ZXJyYSBwb3J0YS4gRG9uZWMgZXQgDQHAbWFsZXN1YWRhIHF1YW0sIHNlZCBjb252YWxsaXMgdmVsaXQuICBVdCBuaXNsIHR1cnBpcywgdGluY2lkdW50IHZlbCBjb21tb2RvIHV0LCBzb2RhbGVzIGV1IG5pc2kuDgHAIE1hdXJpcyBwaGFyZXRyYSBkdWkgYSBzZW0gZmV1Z2lhdCBwb3N1ZXJlLiBQZWxsZW50ZXNxdWUgc2VkIHBvc3VlcmUgZHVpLiBQZWxsZW50ZXNxdWUgbGFjaW5pYSBmDwHAZWxpcyBldCBkaWFtIHZlbmVuYXRpcyBzYWdpdHRpcy4gTWF1cmlzIHZlbGl0IHB1cnVzLCBmaW5pYnVzIG5vbiBuaXNsIGF0LCBzdXNjaXBpdCBpYWN1bGlzIGFyY3UuEAHAIE1vcmJpIGNvbnNlY3RldHVyIHBlbGxlbnRlc3F1ZSBsYWN1cywgdmVsIGJpYmVuZHVtIGp1c3RvIGZyaW5naWxsYSB1dC4gU2VkIHNhZ2l0dGlzIGVsZWlmZW5kIG51EQHAbGxhLCBhYyBpYWN1bGlzIHR1cnBpcyB0cmlzdGlxdWUgZWdldC4gQWVuZWFuIHV0IHBvcnR0aXRvciBuaXNsLCBjb21tb2RvIGVsZWlmZW5kIGxvcmVtLiBJbnRlZ2VyEgHAIGVnZXQgcHVydXMgdmVuZW5hdGlzIG1pIGVmZmljaXR1ciBtb2xlc3RpZSBpZCBsb2JvcnRpcyBuZXF1ZS4gU2VkIHF1aXMgcmhvbmN1cyBwdXJ1cy4gVml2YW11cyB2EwHAaXZlcnJhIG51bGxhIHNlZCBkaWFtIGZyaW5naWxsYSwgdml0YWUgcnV0cnVtIGxpYmVybyB2ZXN0aWJ1bHVtLiBGdXNjZSBzZW0gZW5pbSwgcnV0cnVtIG5lYyBlbmltFAHAIHBlbGxlbnRlc3F1ZSwgZWxlbWVudHVtIG1hdHRpcyBzZW0uIE51bGxhbSB1bGxhbWNvcnBlciBhY2N1bXNhbiBpcHN1bSwgc2VkIG1vbGVzdGllIG5pYmggdmVoaWN1FQHAbGEgc2l0IGFtZXQuIE1hdXJpcyBmZXJtZW50dW0gYWMgZXN0IHZpdGFlIGF1Y3Rvci4gQWVuZWFuIGZlcm1lbnR1bSBjb252YWxsaXMgbmVxdWUsIHNlZCB2ZWhpY3VsFgHAYSBlc3QgZGlnbmlzc2ltIGEuICBJbiBsYWNpbmlhIG5pYmggbmlzaSwgZXUgZWdlc3RhcyBtYXVyaXMgdGVtcHVzIGEuIFBoYXNlbGx1cyBub24gZWxlbWVudHVtIGRvFwHAbG9yLiBJbnRlZ2VyIGdyYXZpZGEgcGhhcmV0cmEgZmF1Y2lidXMuIFBlbGxlbnRlc3F1ZSBtb2xsaXMgZG9sb3IgcXVpcyBhcmN1IHZpdmVycmEsIGF0IHBoYXJldHJhGAHAIGxlY3R1cyBzYWdpdHRpcy4gSW50ZXJkdW0gZXQgbWFsZXN1YWRhIGZhbWVzIGFjIGFudGUgaXBzdW0gcHJpbWlzIGluIGZhdWNpYnVzLiBQcmFlc2VudCBzdXNjaXBpGQHAdCBhdWd1ZSBhYyBtYWduYSBkYXBpYnVzIG9ybmFyZS4gRHVpcyBmcmluZ2lsbGEgaWFjdWxpcyBmZXJtZW50dW0uIEFlbmVhbiBpZCByaXN1cyBkdWkuIERvbmVjIHNlGgHAZCBtb2xlc3RpZSBkdWkuIE51bmMgc2VtIG1hc3NhLCBpbnRlcmR1bSB1dCBjb25ndWUgdmVsLCBoZW5kcmVyaXQgdmVzdGlidWx1bSBsaWJlcm8uIFN1c3BlbmRpc3NlGwHAIHN1c2NpcGl0IGF1Y3RvciBlZmZpY2l0dXIuICBQcmFlc2VudCB1dCBmYXVjaWJ1cyBudW5jLCBhdCB0aW5jaWR1bnQgZXJvcy4gTW9yYmkgZXN0IG1hc3NhLCBmZXJtHAHAZW50dW0gc2l0IGFtZXQgbmVxdWUgdmVsLCBpYWN1bGlzIHZvbHV0cGF0IHB1cnVzLiBJbnRlcmR1bSBldCBtYWxlc3VhZGEgZmFtZXMgYWMgYW50ZSBpcHN1bSBwcmltHQHAaXMgaW4gZmF1Y2lidXMuIERvbmVjIG5lcXVlIG1pLCBkaWN0dW0gZXUgaGVuZHJlcml0IHZpdGFlLCBhdWN0b3IgZXQgdGVsbHVzLiBOYW0gYXVjdG9yIGxpZ3VsYSBpHgHAbiBvcmNpIHNvbGxpY2l0dWRpbiBvcm5hcmUuIFNlZCBuZWMgbG9yZW0gZnJpbmdpbGxhLCBwb3J0dGl0b3IgbG9yZW0gdXQsIGNvbnNlcXVhdCBlbGl0LiBOdWxsYW0gHwHAc29sbGljaXR1ZGluIHB1cnVzIG1pLCBpbiB1bHRyaWNlcyBkdWkgbW9sbGlzIHNlZC4gSW50ZWdlciBsYWNpbmlhIG5pYmggZXQgZmluaWJ1cyBlZmZpY2l0dXIuIENyIAHAYXMgZmV1Z2lhdCB2ZXN0aWJ1bHVtIHNhcGllbiBmZXJtZW50dW0gY3Vyc3VzLiBQZWxsZW50ZXNxdWUgdXQgc2FwaWVuIGxpZ3VsYS4gQ3VyYWJpdHVyIGVsaXQgZW5pIQHAbSwgcG9ydGEgcXVpcyB1cm5hIGFjLCBwZWxsZW50ZXNxdWUgdGVtcHVzIG5pc2kuICBJbnRlZ2VyIGNvbnNlY3RldHVyIGxvYm9ydGlzIGZhdWNpYnVzLiBOdWxsYSBzIgHAZWQgZG9sb3IgbGVvLiBQcmFlc2VudCBhbGlxdWFtIGVyb3Mgdml0YWUgcG9ydGEgbGFjaW5pYS4gRG9uZWMgZXQgbG9yZW0gdGluY2lkdW50LCB2aXZlcnJhIG51bmMgIwHAaW4sIG1hbGVzdWFkYSBuaXNpLiBQZWxsZW50ZXNxdWUgbmVxdWUgbWF1cmlzLCBiaWJlbmR1bSBuZWMgcHVsdmluYXIgbm9uLCBldWlzbW9kIHV0IGxlY3R1cy4gVmVzJAHAdGlidWx1bSBxdWlzIGJpYmVuZHVtIHRlbGx1cy4gVXQgbHVjdHVzIG1hdXJpcyBmZXJtZW50dW0gcmhvbmN1cyBjb25kaW1lbnR1bS4gQWVuZWFuIHNlZCBsYWN1cyBxJQHAdWlzIGxlY3R1cyBwdWx2aW5hciBmaW5pYnVzLiBNYWVjZW5hcyBhIHBvcnR0aXRvciBsZW8sIHZlbCB0ZW1wb3IgdGVsbHVzLiBWaXZhbXVzIGxlY3R1cyB0ZWxsdXMsJgHAIHNvbGxpY2l0dWRpbiBhIG9kaW8gbW9sZXN0aWUsIHZlbmVuYXRpcyBpYWN1bGlzIG1ldHVzLiBTZWQgcXVpcyBsZWN0dXMgbnVsbGEuIFNlZCBqdXN0byBtYXNzYSwgJwHAc3VzY2lwaXQgdXQgZWxlaWZlbmQgbmVjLCBncmF2aWRhIHV0IG5pYmguIE1hdXJpcyBxdWlzIG1ldHVzIHVybmEuIE51bGxhbSBhdCBtYXVyaXMgc2VkIG1pIGltcGVyKAHAZGlldCBlbGVpZmVuZCB1bHRyaWNlcyBzZWQgb2Rpby4gTmFtIGxhb3JlZXQgbGVvIGluIGFyY3UgZ3JhdmlkYSwgZWdldCBtYXhpbXVzIGlwc3VtIGxhY2luaWEuIE1hKQCAZWNlbmFzIGNvbnNlcXVhdCBuZXF1ZSBhYyBwZWxsZW50ZXNxdWUgdGVtcG9yLgAAAAAAAAAAAAAAAAAAAAAAAGdvSdM="]);
    ("eKyrzMND+4kWdw2LieCdY2v6rHbtnW7UOlRKM/WsapM=", tx acc_5 "eKyrzMND+4kWdw2LieCdY2v6rHbtnW7UOlRKM/WsapM=" 37011207000001 1753023491 70884866 (Some (Some 0)) (Some 0)
      (Some (m (Some acc_2) (Some acc_5) (Some "836408400") (Some "9061136") (Some "0x00000008")
       "te6cckECKgEADowAAUsAAAAIgBIHqwhg5lg4ES2+GWhwn4EVgGvmj7MoTr6OJXwhB8BysAEEAAIHAwQAhDB4YmI2NmNlMmNlOWY1YjFhMjFkOTY3MDQ2MTAxYjMwMmI2MjZiY2I4YjU4NmU3Y2ZhOWI5YWViMWE0ZWEyZjVjYQCEMDplMWU2MzNlYjcwMWIxMThiNDQyOTc3MTZjZWU3MDY5ZWU4NDdiNTZkYjg4YzQ5N2VmZWE2ODFlZDE0YjJkMmM3A4CIsmyAnqYuP9QkpkQ/rH/UulMugyeDeOANdz4XWXr/xQAAAAAAAAAAAAAAAAAAAAAAAAAAAAAAAAAAAAAAmJaABQYHAcAAAAAAAAAAAAAAAAAAAAAAAAAAAAAAAAAAAAAAAAAAIAAAAAAAAAAAAAAAAAAAAAAAAAAAAAAAAAAAAAAAAAyuTG9yZW0gaXBzdW0gZG9sb3Igc2l0IGFtZXQsIGNvbnMIAEDtIt80IZriYDn9l32OQZrhTXixkunbXc+jWXiZCWRw0QAIdG9uMgHAZWN0ZXR1ciBhZGlwaXNjaW5nIGVsaXQuIEluIGJsYW5kaXQsIGFudGUgaW4gZGlnbmlzc2ltIHVsdHJpY2llcywgbGlndWxhIHB1cnVzIG1vbGVzdGllIHNhcGllbiwgCQHAZXVpc21vZCBzYWdpdHRpcyBuaXNpIGxlY3R1cyB1dCBhbnRlLiBJbnRlZ2VyIGltcGVyZGlldCBpcHN1bSBlcm9zLCBmZXVnaWF0IGNvbmRpbWVudHVtIGFudGUgZ3JhCgHAdmlkYSBldC4gU3VzcGVuZGlzc2UgdGVtcHVzIGxvcmVtIHNpdCBhbWV0IG1hc3NhIGVmZmljaXR1ciBzb2xsaWNpdHVkaW4uIE5hbSBvZGlvIGR1aSwgY29udmFsbGlzCwHAIHZpdGFlIG1hdXJpcyBxdWlzLCBmYXVjaWJ1cyB1bGxhbWNvcnBlciBzYXBpZW4uIERvbmVjIG1vbGVzdGllIGNvbnZhbGxpcyBlbGVtZW50dW0uIFF1aXNxdWUgdGluDAHAY2lkdW50IHRpbmNpZHVudCBuZXF1ZSwgbm9uIHBsYWNlcmF0IG5lcXVlIHBvc3VlcmUgYXQuIE51bGxhbSBjb25zZXF1YXQgdml2ZXJyYSBwb3J0YS4gRG9uZWMgZXQgDQHAbWFsZXN1YWRhIHF1YW0sIHNlZCBjb252YWxsaXMgdmVsaXQuICBVdCBuaXNsIHR1cnBpcywgdGluY2lkdW50IHZlbCBjb21tb2RvIHV0LCBzb2RhbGVzIGV1IG5pc2kuDgHAIE1hdXJpcyBwaGFyZXRyYSBkdWkgYSBzZW0gZmV1Z2lhdCBwb3N1ZXJlLiBQZWxsZW50ZXNxdWUgc2VkIHBvc3VlcmUgZHVpLiBQZWxsZW50ZXNxdWUgbGFjaW5pYSBmDwHAZWxpcyBldCBkaWFtIHZlbmVuYXRpcyBzYWdpdHRpcy4gTWF1cmlzIHZlbGl0IHB1cnVzLCBmaW5pYnVzIG5vbiBuaXNsIGF0LCBzdXNjaXBpdCBpYWN1bGlzIGFyY3UuEAHAIE1vcmJpIGNvbnNlY3RldHVyIHBlbGxlbnRlc3F1ZSBsYWN1cywgdmVsIGJpYmVuZHVtIGp1c3RvIGZyaW5naWxsYSB1dC4gU2VkIHNhZ2l0dGlzIGVsZWlmZW5kIG51EQHAbGxhLCBhYyBpYWN1bGlzIHR1cnBpcyB0cmlzdGlxdWUgZWdldC4gQWVuZWFuIHV0IHBvcnR0aXRvciBuaXNsLCBjb21tb2RvIGVsZWlmZW5kIGxvcmVtLiBJbnRlZ2VyEgHAIGVnZXQgcHVydXMgdmVuZW5hdGlzIG1pIGVmZmljaXR1ciBtb2xlc3RpZSBpZCBsb2JvcnRpcyBuZXF1ZS4gU2VkIHF1aXMgcmhvbmN1cyBwdXJ1cy4gVml2YW11cyB2EwHAaXZlcnJhIG51bGxhIHNlZCBkaWFtIGZyaW5naWxsYSwgdml0YWUgcnV0cnVtIGxpYmVybyB2ZXN0aWJ1bHVtLiBGdXNjZSBzZW0gZW5pbSwgcnV0cnVtIG5lYyBlbmltFAHAIHBlbGxlbnRlc3F1ZSwgZWxlbWVudHVtIG1hdHRpcyBzZW0uIE51bGxhbSB1bGxhbWNvcnBlciBhY2N1bXNhbiBpcHN1bSwgc2VkIG1vbGVzdGllIG5pYmggdmVoaWN1FQHAbGEgc2l0IGFtZXQuIE1hdXJpcyBmZXJtZW50dW0gYWMgZXN0IHZpdGFlIGF1Y3Rvci4gQWVuZWFuIGZlcm1lbnR1bSBjb252YWxsaXMgbmVxdWUsIHNlZCB2ZWhpY3VsFgHAYSBlc3QgZGlnbmlzc2ltIGEuICBJbiBsYWNpbmlhIG5pYmggbmlzaSwgZXUgZWdlc3RhcyBtYXVyaXMgdGVtcHVzIGEuIFBoYXNlbGx1cyBub24gZWxlbWVudHVtIGRvFwHAbG9yLiBJbnRlZ2VyIGdyYXZpZGEgcGhhcmV0cmEgZmF1Y2lidXMuIFBlbGxlbnRlc3F1ZSBtb2xsaXMgZG9sb3IgcXVpcyBhcmN1IHZpdmVycmEsIGF0IHBoYXJldHJhGAHAIGxlY3R1cyBzYWdpdHRpcy4gSW50ZXJkdW0gZXQgbWFsZXN1YWRhIGZhbWVzIGFjIGFudGUgaXBzdW0gcHJpbWlzIGluIGZhdWNpYnVzLiBQcmFlc2VudCBzdXNjaXBpGQHAdCBhdWd1ZSBhYyBtYWduYSBkYXBpYnVzIG9ybmFyZS4gRHVpcyBmcmluZ2lsbGEgaWFjdWxpcyBmZXJtZW50dW0uIEFlbmVhbiBpZCByaXN1cyBkdWkuIERvbmVjIHNlGgHAZCBtb2xlc3RpZSBkdWkuIE51bmMgc2VtIG1hc3NhLCBpbnRlcmR1bSB1dCBjb25ndWUgdmVsLCBoZW5kcmVyaXQgdmVzdGlidWx1bSBsaWJlcm8uIFN1c3BlbmRpc3NlGwHAIHN1c2NpcGl0IGF1Y3RvciBlZmZpY2l0dXIuICBQcmFlc2VudCB1dCBmYXVjaWJ1cyBudW5jLCBhdCB0aW5jaWR1bnQgZXJvcy4gTW9yYmkgZXN0IG1hc3NhLCBmZXJtHAHAZW50dW0gc2l0IGFtZXQgbmVxdWUgdmVsLCBpYWN1bGlzIHZvbHV0cGF0IHB1cnVzLiBJbnRlcmR1bSBldCBtYWxlc3VhZGEgZmFtZXMgYWMgYW50ZSBpcHN1bSBwcmltHQHAaXMgaW4gZmF1Y2lidXMuIERvbmVjIG5lcXVlIG1pLCBkaWN0dW0gZXUgaGVuZHJlcml0IHZpdGFlLCBhdWN0b3IgZXQgdGVsbHVzLiBOYW0gYXVjdG9yIGxpZ3VsYSBpHgHAbiBvcmNpIHNvbGxpY2l0dWRpbiBvcm5hcmUuIFNlZCBuZWMgbG9yZW0gZnJpbmdpbGxhLCBwb3J0dGl0b3IgbG9yZW0gdXQsIGNvbnNlcXVhdCBlbGl0LiBOdWxsYW0gHwHAc29sbGljaXR1ZGluIHB1cnVzIG1pLCBpbiB1bHRyaWNlcyBkdWkgbW9sbGlzIHNlZC4gSW50ZWdlciBsYWNpbmlhIG5pYmggZXQgZmluaWJ1cyBlZmZpY2l0dXIuIENyIAHAYXMgZmV1Z2lhdCB2ZXN0aWJ1bHVtIHNhcGllbiBmZXJtZW50dW0gY3Vyc3VzLiBQZWxsZW50ZXNxdWUgdXQgc2FwaWVuIGxpZ3VsYS4gQ3VyYWJpdHVyIGVsaXQgZW5pIQHAbSwgcG9ydGEgcXVpcyB1cm5hIGFjLCBwZWxsZW50ZXNxdWUgdGVtcHVzIG5pc2kuICBJbnRlZ2VyIGNvbnNlY3RldHVyIGxvYm9ydGlzIGZhdWNpYnVzLiBOdWxsYSBzIgHAZWQgZG9sb3IgbGVvLiBQcmFlc2VudCBhbGlxdWFtIGVyb3Mgdml0YWUgcG9ydGEgbGFjaW5pYS4gRG9uZWMgZXQgbG9yZW0gdGluY2lkdW50LCB2aXZlcnJhIG51bmMgIwHAaW4sIG1hbGVzdWFkYSBuaXNpLiBQZWxsZW50ZXNxdWUgbmVxdWUgbWF1cmlzLCBiaWJlbmR1bSBuZWMgcHVsdmluYXIgbm9uLCBldWlzbW9kIHV0IGxlY3R1cy4gVmVzJAHAdGlidWx1bSBxdWlzIGJpYmVuZHVtIHRlbGx1cy4gVXQgbHVjdHVzIG1hdXJpcyBmZXJtZW50dW0gcmhvbmN1cyBjb25kaW1lbnR1bS4gQWVuZWFuIHNlZCBsYWN1cyBxJQHAdWlzIGxlY3R1cyBwdWx2aW5hciBmaW5pYnVzLiBNYWVjZW5hcyBhIHBvcnR0aXRvciBsZW8sIHZlbCB0ZW1wb3IgdGVsbHVzLiBWaXZhbXVzIGxlY3R1cyB0ZWxsdXMsJgHAIHNvbGxpY2l0dWRpbiBhIG9kaW8gbW9sZXN0aWUsIHZlbmVuYXRpcyBpYWN1bGlzIG1ldHVzLiBTZWQgcXVpcyBsZWN0dXMgbnVsbGEuIFNlZCBqdXN0byBtYXNzYSwgJwHAc3VzY2lwaXQgdXQgZWxlaWZlbmQgbmVjLCBncmF2aWRhIHV0IG5pYmguIE1hdXJpcyBxdWlzIG1ldHVzIHVybmEuIE51bGxhbSBhdCBtYXVyaXMgc2VkIG1pIGltcGVyKAHAZGlldCBlbGVpZmVuZCB1bHRyaWNlcyBzZWQgb2Rpby4gTmFtIGxhb3JlZXQgbGVvIGluIGFyY3UgZ3JhdmlkYSwgZWdldCBtYXhpbXVzIGlwc3VtIGxhY2luaWEuIE1hKQCAZWNlbmFzIGNvbnNlcXVhdCBuZXF1ZSBhYyBwZWxsZW50ZXNxdWUgdGVtcG9yLgAAAAAAAAAAAAAAAAAAAAAAAGdvSdM="))
      [m (Some acc_5) (Some acc_19) (Some "757049200") (Some "8474465") (Some "0x00000004")
       "te6cckECJAEADbEAAYsAAAAEgBIHqwhg5lg4ES2+GWhwn4EVgGvmj7MoTr6OJXwhB8ByoAAAAAAAAAAAAAAAAAAAAAAAAAAAAAAAAAAAAAATEtAQAQHAAAAAAAAAAAAAAAAAAAAAAAAAAAAAAAAAAAAAAAAAACAAAAAAAAAAAAAAAAAAAAAAAAAAAAAAAAAAAAAAAAAMrkxvcmVtIGlwc3VtIGRvbG9yIHNpdCBhbWV0LCBjb25zAgHAZWN0ZXR1ciBhZGlwaXNjaW5nIGVsaXQuIEluIGJsYW5kaXQsIGFudGUgaW4gZGlnbmlzc2ltIHVsdHJpY2llcywgbGlndWxhIHB1cnVzIG1vbGVzdGllIHNhcGllbiwgAwHAZXVpc21vZCBzYWdpdHRpcyBuaXNpIGxlY3R1cyB1dCBhbnRlLiBJbnRlZ2VyIGltcGVyZGlldCBpcHN1bSBlcm9zLCBmZXVnaWF0IGNvbmRpbWVudHVtIGFudGUgZ3JhBAHAdmlkYSBldC4gU3VzcGVuZGlzc2UgdGVtcHVzIGxvcmVtIHNpdCBhbWV0IG1hc3NhIGVmZmljaXR1ciBzb2xsaWNpdHVkaW4uIE5hbSBvZGlvIGR1aSwgY29udmFsbGlzBQHAIHZpdGFlIG1hdXJpcyBxdWlzLCBmYXVjaWJ1cyB1bGxhbWNvcnBlciBzYXBpZW4uIERvbmVjIG1vbGVzdGllIGNvbnZhbGxpcyBlbGVtZW50dW0uIFF1aXNxdWUgdGluBgHAY2lkdW50IHRpbmNpZHVudCBuZXF1ZSwgbm9uIHBsYWNlcmF0IG5lcXVlIHBvc3VlcmUgYXQuIE51bGxhbSBjb25zZXF1YXQgdml2ZXJyYSBwb3J0YS4gRG9uZWMgZXQgBwHAbWFsZXN1YWRhIHF1YW0sIHNlZCBjb252YWxsaXMgdmVsaXQuICBVdCBuaXNsIHR1cnBpcywgdGluY2lkdW50IHZlbCBjb21tb2RvIHV0LCBzb2RhbGVzIGV1IG5pc2kuCAHAIE1hdXJpcyBwaGFyZXRyYSBkdWkgYSBzZW0gZmV1Z2lhdCBwb3N1ZXJlLiBQZWxsZW50ZXNxdWUgc2VkIHBvc3VlcmUgZHVpLiBQZWxsZW50ZXNxdWUgbGFjaW5pYSBmCQHAZWxpcyBldCBkaWFtIHZlbmVuYXRpcyBzYWdpdHRpcy4gTWF1cmlzIHZlbGl0IHB1cnVzLCBmaW5pYnVzIG5vbiBuaXNsIGF0LCBzdXNjaXBpdCBpYWN1bGlzIGFyY3UuCgHAIE1vcmJpIGNvbnNlY3RldHVyIHBlbGxlbnRlc3F1ZSBsYWN1cywgdmVsIGJpYmVuZHVtIGp1c3RvIGZyaW5naWxsYSB1dC4gU2VkIHNhZ2l0dGlzIGVsZWlmZW5kIG51CwHAbGxhLCBhYyBpYWN1bGlzIHR1cnBpcyB0cmlzdGlxdWUgZWdldC4gQWVuZWFuIHV0IHBvcnR0aXRvciBuaXNsLCBjb21tb2RvIGVsZWlmZW5kIGxvcmVtLiBJbnRlZ2VyDAHAIGVnZXQgcHVydXMgdmVuZW5hdGlzIG1pIGVmZmljaXR1ciBtb2xlc3RpZSBpZCBsb2JvcnRpcyBuZXF1ZS4gU2VkIHF1aXMgcmhvbmN1cyBwdXJ1cy4gVml2YW11cyB2DQHAaXZlcnJhIG51bGxhIHNlZCBkaWFtIGZyaW5naWxsYSwgdml0YWUgcnV0cnVtIGxpYmVybyB2ZXN0aWJ1bHVtLiBGdXNjZSBzZW0gZW5pbSwgcnV0cnVtIG5lYyBlbmltDgHAIHBlbGxlbnRlc3F1ZSwgZWxlbWVudHVtIG1hdHRpcyBzZW0uIE51bGxhbSB1bGxhbWNvcnBlciBhY2N1bXNhbiBpcHN1bSwgc2VkIG1vbGVzdGllIG5pYmggdmVoaWN1DwHAbGEgc2l0IGFtZXQuIE1hdXJpcyBmZXJtZW50dW0gYWMgZXN0IHZpdGFlIGF1Y3Rvci4gQWVuZWFuIGZlcm1lbnR1bSBjb252YWxsaXMgbmVxdWUsIHNlZCB2ZWhpY3VsEAHAYSBlc3QgZGlnbmlzc2ltIGEuICBJbiBsYWNpbmlhIG5pYmggbmlzaSwgZXUgZWdlc3RhcyBtYXVyaXMgdGVtcHVzIGEuIFBoYXNlbGx1cyBub24gZWxlbWVudHVtIGRvEQHAbG9yLiBJbnRlZ2VyIGdyYXZpZGEgcGhhcmV0cmEgZmF1Y2lidXMuIFBlbGxlbnRlc3F1ZSBtb2xsaXMgZG9sb3IgcXVpcyBhcmN1IHZpdmVycmEsIGF0IHBoYXJldHJhEgHAIGxlY3R1cyBzYWdpdHRpcy4gSW50ZXJkdW0gZXQgbWFsZXN1YWRhIGZhbWVzIGFjIGFudGUgaXBzdW0gcHJpbWlzIGluIGZhdWNpYnVzLiBQcmFlc2VudCBzdXNjaXBpEwHAdCBhdWd1ZSBhYyBtYWduYSBkYXBpYnVzIG9ybmFyZS4gRHVpcyBmcmluZ2lsbGEgaWFjdWxpcyBmZXJtZW50dW0uIEFlbmVhbiBpZCByaXN1cyBkdWkuIERvbmVjIHNlFAHAZCBtb2xlc3RpZSBkdWkuIE51bmMgc2VtIG1hc3NhLCBpbnRlcmR1bSB1dCBjb25ndWUgdmVsLCBoZW5kcmVyaXQgdmVzdGlidWx1bSBsaWJlcm8uIFN1c3BlbmRpc3NlFQHAIHN1c2NpcGl0IGF1Y3RvciBlZmZpY2l0dXIuICBQcmFlc2VudCB1dCBmYXVjaWJ1cyBudW5jLCBhdCB0aW5jaWR1bnQgZXJvcy4gTW9yYmkgZXN0IG1hc3NhLCBmZXJtFgHAZW50dW0gc2l0IGFtZXQgbmVxdWUgdmVsLCBpYWN1bGlzIHZvbHV0cGF0IHB1cnVzLiBJbnRlcmR1bSBldCBtYWxlc3VhZGEgZmFtZXMgYWMgYW50ZSBpcHN1bSBwcmltFwHAaXMgaW4gZmF1Y2lidXMuIERvbmVjIG5lcXVlIG1pLCBkaWN0dW0gZXUgaGVuZHJlcml0IHZpdGFlLCBhdWN0b3IgZXQgdGVsbHVzLiBOYW0gYXVjdG9yIGxpZ3VsYSBpGAHAbiBvcmNpIHNvbGxpY2l0dWRpbiBvcm5hcmUuIFNlZCBuZWMgbG9yZW0gZnJpbmdpbGxhLCBwb3J0dGl0b3IgbG9yZW0gdXQsIGNvbnNlcXVhdCBlbGl0LiBOdWxsYW0gGQHAc29sbGljaXR1ZGluIHB1cnVzIG1pLCBpbiB1bHRyaWNlcyBkdWkgbW9sbGlzIHNlZC4gSW50ZWdlciBsYWNpbmlhIG5pYmggZXQgZmluaWJ1cyBlZmZpY2l0dXIuIENyGgHAYXMgZmV1Z2lhdCB2ZXN0aWJ1bHVtIHNhcGllbiBmZXJtZW50dW0gY3Vyc3VzLiBQZWxsZW50ZXNxdWUgdXQgc2FwaWVuIGxpZ3VsYS4gQ3VyYWJpdHVyIGVsaXQgZW5pGwHAbSwgcG9ydGEgcXVpcyB1cm5hIGFjLCBwZWxsZW50ZXNxdWUgdGVtcHVzIG5pc2kuICBJbnRlZ2VyIGNvbnNlY3RldHVyIGxvYm9ydGlzIGZhdWNpYnVzLiBOdWxsYSBzHAHAZWQgZG9sb3IgbGVvLiBQcmFlc2VudCBhbGlxdWFtIGVyb3Mgdml0YWUgcG9ydGEgbGFjaW5pYS4gRG9uZWMgZXQgbG9yZW0gdGluY2lkdW50LCB2aXZlcnJhIG51bmMgHQHAaW4sIG1hbGVzdWFkYSBuaXNpLiBQZWxsZW50ZXNxdWUgbmVxdWUgbWF1cmlzLCBiaWJlbmR1bSBuZWMgcHVsdmluYXIgbm9uLCBldWlzbW9kIHV0IGxlY3R1cy4gVmVzHgHAdGlidWx1bSBxdWlzIGJpYmVuZHVtIHRlbGx1cy4gVXQgbHVjdHVzIG1hdXJpcyBmZXJtZW50dW0gcmhvbmN1cyBjb25kaW1lbnR1bS4gQWVuZWFuIHNlZCBsYWN1cyBxHwHAdWlzIGxlY3R1cyBwdWx2aW5hciBmaW5pYnVzLiBNYWVjZW5hcyBhIHBvcnR0aXRvciBsZW8sIHZlbCB0ZW1wb3IgdGVsbHVzLiBWaXZhbXVzIGxlY3R1cyB0ZWxsdXMsIAHAIHNvbGxpY2l0dWRpbiBhIG9kaW8gbW9sZXN0aWUsIHZlbmVuYXRpcyBpYWN1bGlzIG1ldHVzLiBTZWQgcXVpcyBsZWN0dXMgbnVsbGEuIFNlZCBqdXN0byBtYXNzYSwgIQHAc3VzY2lwaXQgdXQgZWxlaWZlbmQgbmVjLCBncmF2aWRhIHV0IG5pYmguIE1hdXJpcyBxdWlzIG1ldHVzIHVybmEuIE51bGxhbSBhdCBtYXVyaXMgc2VkIG1pIGltcGVyIgHAZGlldCBlbGVpZmVuZCB1bHRyaWNlcyBzZWQgb2Rpby4gTmFtIGxhb3JlZXQgbGVvIGluIGFyY3UgZ3JhdmlkYSwgZWdldCBtYXhpbXVzIGlwc3VtIGxhY2luaWEuIE1hIwCAZWNlbmFzIGNvbnNlcXVhdCBuZXF1ZSBhYyBwZWxsZW50ZXNxdWUgdGVtcG9yLgAAAAAAAAAAAAAAAAAAAAAAANITZok="]);
    ("yb9Hsvw2CoIYHLdzVIdKalt8AzFXzDQ6h9bxs/F/Yfo=", tx acc_5 "yb9Hsvw2CoIYHLdzVIdKalt8AzFXzDQ6h9bxs/F/Yfo=" 37011216000001 1753023519 7844029 (Some (Some 0)) (Some 37)
      (Some (m (Some acc_19) (Some acc_5) (Some "740713600") (Some "9034469") (Some "0x00000005")
       "te6cckECKQEADokABMsAAAAFgBIHqwhg5lg4ES2+GWhwn4EVgGvmj7MoTr6OJXwhB8BysRZNkBPUxcf6hJTIh/WP+pdKZdBk8G8cAa7nwusvX/igAAAAAAAAAAAAAAAAAAAAAAAAAAAAAAAAAAAAABMS0BABBgIDAIQweGJiNjZjZTJjZTlmNWIxYTIxZDk2NzA0NjEwMWIzMDJiNjI2YmNiOGI1ODZlN2NmYTliOWFlYjFhNGVhMmY1Y2EAhDA6ZTFlNjMzZWI3MDFiMTE4YjQ0Mjk3NzE2Y2VlNzA2OWVlODQ3YjU2ZGI4OGM0OTdlZmVhNjgxZWQxNGIyZDJjNwMABAUGAcAAAAAAAAAAAAAAAAAAAAAAAAAAAAAAAAAAAAAAAAAAIAAAAAAAAAAAAAAAAAAAAAAAAAAAAAAAAAAAAAAAAAyuTG9yZW0gaXBzdW0gZG9sb3Igc2l0IGFtZXQsIGNvbnMHAEDtIt80IZriYDn9l32OQZrhTXixkunbXc+jWXiZCWRw0QAIdG9uMgHAZWN0ZXR1ciBhZGlwaXNjaW5nIGVsaXQuIEluIGJsYW5kaXQsIGFudGUgaW4gZGlnbmlzc2ltIHVsdHJpY2llcywgbGlndWxhIHB1cnVzIG1vbGVzdGllIHNhcGllbiwgCAHAZXVpc21vZCBzYWdpdHRpcyBuaXNpIGxlY3R1cyB1dCBhbnRlLiBJbnRlZ2VyIGltcGVyZGlldCBpcHN1bSBlcm9zLCBmZXVnaWF0IGNvbmRpbWVudHVtIGFudGUgZ3JhCQHAdmlkYSBldC4gU3VzcGVuZGlzc2UgdGVtcHVzIGxvcmVtIHNpdCBhbWV0IG1hc3NhIGVmZmljaXR1ciBzb2xsaWNpdHVkaW4uIE5hbSBvZGlvIGR1aSwgY29udmFsbGlzCgHAIHZpdGFlIG1hdXJpcyBxdWlzLCBmYXVjaWJ1cyB1bGxhbWNvcnBlciBzYXBpZW4uIERvbmVjIG1vbGVzdGllIGNvbnZhbGxpcyBlbGVtZW50dW0uIFF1aXNxdWUgdGluCwHAY2lkdW50IHRpbmNpZHVudCBuZXF1ZSwgbm9uIHBsYWNlcmF0IG5lcXVlIHBvc3VlcmUgYXQuIE51bGxhbSBjb25zZXF1YXQgdml2ZXJyYSBwb3J0YS4gRG9uZWMgZXQgDAHAbWFsZXN1YWRhIHF1YW0sIHNlZCBjb252YWxsaXMgdmVsaXQuICBVdCBuaXNsIHR1cnBpcywgdGluY2lkdW50IHZlbCBjb21tb2RvIHV0LCBzb2RhbGVzIGV1IG5pc2kuDQHAIE1hdXJpcyBwaGFyZXRyYSBkdWkgYSBzZW0gZmV1Z2lhdCBwb3N1ZXJlLiBQZWxsZW50ZXNxdWUgc2VkIHBvc3VlcmUgZHVpLiBQZWxsZW50ZXNxdWUgbGFjaW5pYSBmDgHAZWxpcyBldCBkaWFtIHZlbmVuYXRpcyBzYWdpdHRpcy4gTWF1cmlzIHZlbGl0IHB1cnVzLCBmaW5pYnVzIG5vbiBuaXNsIGF0LCBzdXNjaXBpdCBpYWN1bGlzIGFyY3UuDwHAIE1vcmJpIGNvbnNlY3RldHVyIHBlbGxlbnRlc3F1ZSBsYWN1cywgdmVsIGJpYmVuZHVtIGp1c3RvIGZyaW5naWxsYSB1dC4gU2VkIHNhZ2l0dGlzIGVsZWlmZW5kIG51EAHAbGxhLCBhYyBpYWN1bGlzIHR1cnBpcyB0cmlzdGlxdWUgZWdldC4gQWVuZWFuIHV0IHBvcnR0aXRvciBuaXNsLCBjb21tb2RvIGVsZWlmZW5kIGxvcmVtLiBJbnRlZ2VyEQHAIGVnZXQgcHVydXMgdmVuZW5hdGlzIG1pIGVmZmljaXR1ciBtb2xlc3RpZSBpZCBsb2JvcnRpcyBuZXF1ZS4gU2VkIHF1aXMgcmhvbmN1cyBwdXJ1cy4gVml2YW11cyB2EgHAaXZlcnJhIG51bGxhIHNlZCBkaWFtIGZyaW5naWxsYSwgdml0YWUgcnV0cnVtIGxpYmVybyB2ZXN0aWJ1bHVtLiBGdXNjZSBzZW0gZW5pbSwgcnV0cnVtIG5lYyBlbmltEwHAIHBlbGxlbnRlc3F1ZSwgZWxlbWVudHVtIG1hdHRpcyBzZW0uIE51bGxhbSB1bGxhbWNvcnBlciBhY2N1bXNhbiBpcHN1bSwgc2VkIG1vbGVzdGllIG5pYmggdmVoaWN1FAHAbGEgc2l0IGFtZXQuIE1hdXJpcyBmZXJtZW50dW0gYWMgZXN0IHZpdGFlIGF1Y3Rvci4gQWVuZWFuIGZlcm1lbnR1bSBjb252YWxsaXMgbmVxdWUsIHNlZCB2ZWhpY3VsFQHAYSBlc3QgZGlnbmlzc2ltIGEuICBJbiBsYWNpbmlhIG5pYmggbmlzaSwgZXUgZWdlc3RhcyBtYXVyaXMgdGVtcHVzIGEuIFBoYXNlbGx1cyBub24gZWxlbWVudHVtIGRvFgHAbG9yLiBJbnRlZ2VyIGdyYXZpZGEgcGhhcmV0cmEgZmF1Y2lidXMuIFBlbGxlbnRlc3F1ZSBtb2xsaXMgZG9sb3IgcXVpcyBhcmN1IHZpdmVycmEsIGF0IHBoYXJldHJhFwHAIGxlY3R1cyBzYWdpdHRpcy4gSW50ZXJkdW0gZXQgbWFsZXN1YWRhIGZhbWVzIGFjIGFudGUgaXBzdW0gcHJpbWlzIGluIGZhdWNpYnVzLiBQcmFlc2VudCBzdXNjaXBpGAHAdCBhdWd1ZSBhYyBtYWduYSBkYXBpYnVzIG9ybmFyZS4gRHVpcyBmcmluZ2lsbGEgaWFjdWxpcyBmZXJtZW50dW0uIEFlbmVhbiBpZCByaXN1cyBkdWkuIERvbmVjIHNlGQHAZCBtb2xlc3RpZSBkdWkuIE51bmMgc2VtIG1hc3NhLCBpbnRlcmR1bSB1dCBjb25ndWUgdmVsLCBoZW5kcmVyaXQgdmVzdGlidWx1bSBsaWJlcm8uIFN1c3BlbmRpc3NlGgHAIHN1c2NpcGl0IGF1Y3RvciBlZmZpY2l0dXIuICBQcmFlc2VudCB1dCBmYXVjaWJ1cyBudW5jLCBhdCB0aW5jaWR1bnQgZXJvcy4gTW9yYmkgZXN0IG1hc3NhLCBmZXJtGwHAZW50dW0gc2l0IGFtZXQgbmVxdWUgdmVsLCBpYWN1bGlzIHZvbHV0cGF0IHB1cnVzLiBJbnRlcmR1bSBldCBtYWxlc3VhZGEgZmFtZXMgYWMgYW50ZSBpcHN1bSBwcmltHAHAaXMgaW4gZmF1Y2lidXMuIERvbmVjIG5lcXVlIG1pLCBkaWN0dW0gZXUgaGVuZHJlcml0IHZpdGFlLCBhdWN0b3IgZXQgdGVsbHVzLiBOYW0gYXVjdG9yIGxpZ3VsYSBpHQHAbiBvcmNpIHNvbGxpY2l0dWRpbiBvcm5hcmUuIFNlZCBuZWMgbG9yZW0gZnJpbmdpbGxhLCBwb3J0dGl0b3IgbG9yZW0gdXQsIGNvbnNlcXVhdCBlbGl0LiBOdWxsYW0gHgHAc29sbGljaXR1ZGluIHB1cnVzIG1pLCBpbiB1bHRyaWNlcyBkdWkgbW9sbGlzIHNlZC4gSW50ZWdlciBsYWNpbmlhIG5pYmggZXQgZmluaWJ1cyBlZmZpY2l0dXIuIENyHwHAYXMgZmV1Z2lhdCB2ZXN0aWJ1bHVtIHNhcGllbiBmZXJtZW50dW0gY3Vyc3VzLiBQZWxsZW50ZXNxdWUgdXQgc2FwaWVuIGxpZ3VsYS4gQ3VyYWJpdHVyIGVsaXQgZW5pIAHAbSwgcG9ydGEgcXVpcyB1cm5hIGFjLCBwZWxsZW50ZXNxdWUgdGVtcHVzIG5pc2kuICBJbnRlZ2VyIGNvbnNlY3RldHVyIGxvYm9ydGlzIGZhdWNpYnVzLiBOdWxsYSBzIQHAZWQgZG9sb3IgbGVvLiBQcmFlc2VudCBhbGlxdWFtIGVyb3Mgdml0YWUgcG9ydGEgbGFjaW5pYS4gRG9uZWMgZXQgbG9yZW0gdGluY2lkdW50LCB2aXZlcnJhIG51bmMgIgHAaW4sIG1hbGVzdWFkYSBuaXNpLiBQZWxsZW50ZXNxdWUgbmVxdWUgbWF1cmlzLCBiaWJlbmR1bSBuZWMgcHVsdmluYXIgbm9uLCBldWlzbW9kIHV0IGxlY3R1cy4gVmVzIwHAdGlidWx1bSBxdWlzIGJpYmVuZHVtIHRlbGx1cy4gVXQgbHVjdHVzIG1hdXJpcyBmZXJtZW50dW0gcmhvbmN1cyBjb25kaW1lbnR1bS4gQWVuZWFuIHNlZCBsYWN1cyBxJAHAdWlzIGxlY3R1cyBwdWx2aW5hciBmaW5pYnVzLiBNYWVjZW5hcyBhIHBvcnR0aXRvciBsZW8sIHZlbCB0ZW1wb3IgdGVsbHVzLiBWaXZhbXVzIGxlY3R1cyB0ZWxsdXMsJQHAIHNvbGxpY2l0dWRpbiBhIG9kaW8gbW9sZXN0aWUsIHZlbmVuYXRpcyBpYWN1bGlzIG1ldHVzLiBTZWQgcXVpcyBsZWN0dXMgbnVsbGEuIFNlZCBqdXN0byBtYXNzYSwgJgHAc3VzY2lwaXQgdXQgZWxlaWZlbmQgbmVjLCBncmF2aWRhIHV0IG5pYmguIE1hdXJpcyBxdWlzIG1ldHVzIHVybmEuIE51bGxhbSBhdCBtYXVyaXMgc2VkIG1pIGltcGVyJwHAZGlldCBlbGVpZmVuZCB1bHRyaWNlcyBzZWQgb2Rpby4gTmFtIGxhb3JlZXQgbGVvIGluIGFyY3UgZ3JhdmlkYSwgZWdldCBtYXhpbXVzIGlwc3VtIGxhY2luaWEuIE1hKACAZWNlbmFzIGNvbnNlcXVhdCBuZXF1ZSBhYyBwZWxsZW50ZXNxdWUgdGVtcG9yLgAAAAAAAAAAAAAAAAAAAAAAAOmA7t8="))
      [])]
    ["32mGn2Mw02lca7SMSjyNF3r1oka+CEStCRqsqREfolg="; "JeRF4GCSVmHmFWr5p68SPu9QBoV8D+by8KhRj+3tEu0="; "eKyrzMND+4kWdw2LieCdY2v6rHbtnW7UOlRKM/WsapM="; "+WO41SLGs97iYkEjiIfE+mZEkg45ET79Hs3Rb0eGtjg="; "yb9Hsvw2CoIYHLdzVIdKalt8AzFXzDQ6h9bxs/F/Yfo="].

Definition rest_16 : TraceRest :=
  recorded "ZNNmZv3pXEAi3dplLbIEfK3jN6uUI0ltcnqzJdM/0jA=" false 37074300000003 37074306000002 [
    ("1f7wSZJGix1ANf0iYoGZyxCV3wA+DjuBEdg4edMljoc=", tx acc_2 "1f7wSZJGix1ANf0iYoGZyxCV3wA+DjuBEdg4edMljoc=" 37074306000002 1753174827 230800 (Some (Some 0)) (Some 0)
      (Some (m (Some acc_20) (Some acc_2) (Some "260000") (Some "301869") (Some "0x00000018")
       "te6cckEBAQEABgAACAAAABhDnyiV"))
      []);
    ("9g+rTuKzJeeA/hvVpgGcjrxm07OXcdglB1seZiJzpCs=", tx acc_20 "9g+rTuKzJeeA/hvVpgGcjrxm07OXcdglB1seZiJzpCs=" 37074303000008 1753174820 6598531 (Some (Some 0)) (Some 0)
      (Some (m (Some acc_21) (Some acc_20) (Some "5880400") (Some "959741") (Some "0x0000000d")
       "te6cckECBwEAAQMAAUsAAAANgBIHqwhg5lg4ES2+GWhwn4EVgGvmj7MoTr6OJXwhB8BysAEEAAIGAwQAhDB4ZjdmMTJkNDUxM2ExMDcyOGU4M2YwODdhYmEzMWI3NWQ3MWU0MGUzMzJhOTg2ZmI4MGE0YzExZDhiYjllOTBlNQCEMDplMWU2MzNlYjcwMWIxMThiNDQyOTc3MTZjZWU3MDY5ZWU4NDdiNTZkYjg4YzQ5N2VmZWE2ODFlZDE0YjJkMmM3AkCtMii2dvfTzUKEpUQ/F/GWKzbkkbMKQLJAWEnll7pftQUGAEA99zB+dSXhRkgPyBNojC0R73ni4/xdgoad7Rrx0d1gwwAIdG9uMmg9en8="))
      [m (Some acc_20) None None None None
       "te6cckEBBgEA2gAEAAEFAgMAhDB4ZjdmMTJkNDUxM2ExMDcyOGU4M2YwODdhYmEzMWI3NWQ3MWU0MGUzMzJhOTg2ZmI4MGE0YzExZDhiYjllOTBlNQCEMDplMWU2MzNlYjcwMWIxMThiNDQyOTc3MTZjZWU3MDY5ZWU4NDdiNTZkYjg4YzQ5N2VmZWE2ODFlZDE0YjJkMmM3AkCtMii2dvfTzUKEpUQ/F/GWKzbkkbMKQLJAWEnll7pftQQFAEA99zB+dSXhRkgPyBNojC0R73ni4/xdgoad7Rrx0d1gwwAIdG9uMiIG8q8=";
       m (Some acc_20) (Some acc_2) (Some "260000") (Some "301869") (Some "0x00000018")
       "te6cckEBAQEABgAACAAAABhDnyiV"]);
    ("Og33FdjjS2b1pYGwZDkFxXUa+UJgBwOWsAkNpy/uV00=", tx acc_20 "Og33FdjjS2b1pYGwZDkFxXUa+UJgBwOWsAkNpy/uV00=" 37074303000003 1753174820 17884910 (Some (Some 0)) (Some 0)
      (Some (m (Some acc_2) (Some acc_20) (Some "79722114") (Some "1341344") (Some "0x00000028")
       "te6cckECCwEAAZEAAggAAAAoAQIBYYAAAAAAAAAAAAAAAAAAAACAAAAAAAAAAAAAAAAAAAAAAAAAAAAAAAAAAAAAADf5gkADAQHABADi0LAAUYmshNOh1nWEdwB3eJHd51H6EH1kg3v2M30y32eQAAAAAAAAAAAAAAAAAAAAAej5hL/dcm21SftBfzXMRohQtK+darHu6xiJJP5pAqTrl4ZJYaHiVN2wzPjs7fuD00yOWbSr+v12kiwFX4HiMgkBAtAFBECtMii2dvfTzUKEpUQ/F/GWKzbkkbMKQLJAWEnll7pftQYKBwgAhDB4ZjdmMTJkNDUxM2ExMDcyOGU4M2YwODdhYmEzMWI3NWQ3MWU0MGUzMzJhOTg2ZmI4MGE0YzExZDhiYjllOTBlNQCEMDplMWU2MzNlYjcwMWIxMThiNDQyOTc3MTZjZWU3MDY5ZWU4NDdiNTZkYjg4YzQ5N2VmZWE2ODFlZDE0YjJkMmM3AgAJCgBAPfcwfnUl4UZID8gTaIwtEe954uP8XYKGne0a8dHdYMMACHRvbjIpyKlZ"))
      [m (Some acc_20) (Some acc_21) (Some "6650000") (Some "2233351") (Some "0x00000000")
       "te6cckEBAQEABgAACAAAAADjAK8P";
       m (Some acc_20) (Some acc_21) (Some "9440400") (Some "373070") (Some "0x00000007")
       "te6cckEBAQEAKAAASwAAAAeAEgerCGDmWDgRLb4ZaHCfgRWAa+aPsyhOvo4lfCEHwHKwzaV6Gg==";
       m (Some acc_20) (Some acc_2) (Some "62838514") (Some "301869") (Some "0x00000018")
       "te6cckEBAQEABgAACAAAABhDnyiV"]);
    ("ZNNmZv3pXEAi3dplLbIEfK3jN6uUI0ltcnqzJdM/0jA=", tx acc_2 "ZNNmZv3pXEAi3dplLbIEfK3jN6uUI0ltcnqzJdM/0jA=" 37074300000003 1753174812 5972787 (Some (Some 0)) (Some 0)
      (Some (m None (Some acc_2) None None (Some "0x3c56e3aa")
       "te6cckECEgEAAnIAAYA8VuOqLfkpcqwTZifxTAZjjm/KPIIa43gr/S/yMPyGYs9KuN1QHOWafC4AVx9zDjKO6Qycbczp+KIis2pCCj4AAQElAAAQrQIAACoAAAAA0P6luABwhAIBaCIASB6sIYOZYOBEtvhlocJ+BFYBr5o+zKE6+jiV8IQfAcqh3NZQAAAAAAAAAAAAAAAAAAEDARiuQuWkAAAAAAAAABUEAgoOw8htAgUGAAABaCIAJYAMTmCu5ZJunaSo484XA4OrgBUj1dZpwY+deeDM1hUgJvlPEAAAAAAAAAAAAAAAAAEHAggAAAAoCAkBYYAAAAAAAAAAAAAAAAAAAACAAAAAAAAAAAAAAAAAAAAAAAAAAAAAAAAAAAAAADf5gkAKAQHACwDi0LAAUYmshNOh1nWEdwB3eJHd51H6EH1kg3v2M30y32eQAAAAAAAAAAAAAAAAAAAAAej5hL/dcm21SftBfzXMRohQtK+darHu6xiJJP5pAqTrl4ZJYaHiVN2wzPjs7fuD00yOWbSr+v12kiwFX4HiMgkBAtAMBECtMii2dvfTzUKEpUQ/F/GWKzbkkbMKQLJAWEnll7pftQ0RDg8AhDB4ZjdmMTJkNDUxM2ExMDcyOGU4M2YwODdhYmEzMWI3NWQ3MWU0MGUzMzJhOTg2ZmI4MGE0YzExZDhiYjllOTBlNQCEMDplMWU2MzNlYjcwMWIxMThiNDQyOTc3MTZjZWU3MDY5ZWU4NDdiNTZkYjg4YzQ5N2VmZWE2ODFlZDE0YjJkMmM3AgAQEQBAPfcwfnUl4UZID8gTaIwtEe954uP8XYKGne0a8dHdYMMACHRvbjIeJR5k"))
      [m (Some acc_2) (Some acc_2) (Some "997607200") (Some "1595213") (Some "0xae42e5a4")
       "te6cckECDwEAAeIAARiuQuWkAAAAAAAAABUBAgoOw8htAgIDAAABaCIAJYAMTmCu5ZJunaSo484XA4OrgBUj1dZpwY+deeDM1hUgJvlPEAAAAAAAAAAAAAAAAAEEAggAAAAoBQYBYYAAAAAAAAAAAAAAAAAAAACAAAAAAAAAAAAAAAAAAAAAAAAAAAAAAAAAAAAAADf5gkAHAQHACADi0LAAUYmshNOh1nWEdwB3eJHd51H6EH1kg3v2M30y32eQAAAAAAAAAAAAAAAAAAAAAej5hL/dcm21SftBfzXMRohQtK+darHu6xiJJP5pAqTrl4ZJYaHiVN2wzPjs7fuD00yOWbSr+v12kiwFX4HiMgkBAtAJBECtMii2dvfTzUKEpUQ/F/GWKzbkkbMKQLJAWEnll7pftQoOCwwAhDB4ZjdmMTJkNDUxM2ExMDcyOGU4M2YwODdhYmEzMWI3NWQ3MWU0MGUzMzJhOTg2ZmI4MGE0YzExZDhiYjllOTBlNQCEMDplMWU2MzNlYjcwMWIxMThiNDQyOTc3MTZjZWU3MDY5ZWU4NDdiNTZkYjg4YzQ5N2VmZWE2ODFlZDE0YjJkMmM3AgANDgBAPfcwfnUl4UZID8gTaIwtEe954uP8XYKGne0a8dHdYMMACHRvbjJmDtOI"]);
    ("ie0YtzjwPlkxSPAIJnbEDi0WIDlAbSOrvPupGJadZv4=", tx acc_2 "ie0YtzjwPlkxSPAIJnbEDi0WIDlAbSOrvPupGJadZv4=" 37074306000001 1753174827 230801 (Some (Some 0)) (Some 0)
      (Some (m (Some acc_20) (Some acc_2) (Some "62838514") (Some "301869") (Some "0x00000018")
       "te6cckEBAQEABgAACAAAABhDnyiV"))
      []);
    ("lJkKxzH9aOHe9lQuVNN7hcS5pnLw6zma7vLW4aNWrOM=", tx acc_21 "lJkKxzH9aOHe9lQuVNN7hcS5pnLw6zma7vLW4aNWrOM=" 37074303000006 1753174820 2600259 (Some (Some 0)) (Some 0)
      (Some (m (Some acc_20) (Some acc_21) (Some "9440400") (Some "373070") (Some "0x00000007")
       "te6cckEBAQEAKAAASwAAAAeAEgerCGDmWDgRLb4ZaHCfgRWAa+aPsyhOvo4lfCEHwHKwzaV6Gg=="))
      [m (Some acc_21) (Some acc_20) (Some "5880400") (Some "959741") (Some "0x0000000d")
       "te6cckECBwEAAQMAAUsAAAANgBIHqwhg5lg4ES2+GWhwn4EVgGvmj7MoTr6OJXwhB8BysAEEAAIGAwQAhDB4ZjdmMTJkNDUxM2ExMDcyOGU4M2YwODdhYmEzMWI3NWQ3MWU0MGUzMzJhOTg2ZmI4MGE0YzExZDhiYjllOTBlNQCEMDplMWU2MzNlYjcwMWIxMThiNDQyOTc3MTZjZWU3MDY5ZWU4NDdiNTZkYjg4YzQ5N2VmZWE2ODFlZDE0YjJkMmM3AkCtMii2dvfTzUKEpUQ/F/GWKzbkkbMKQLJAWEnll7pftQUGAEA99zB+dSXhRkgPyBNojC0R73ni4/xdgoad7Rrx0d1gwwAIdG9uMmg9en8="]);
    ("mRjAwOokWOGBJmihhrimpyQKyM6B/T2yzF8kPwy9mNY=", tx acc_21 "mRjAwOokWOGBJmihhrimpyQKyM6B/T2yzF8kPwy9mNY=" 37074303000005 1753174820 1029600 (Some (Some 0)) (Some 0)
      (Some (m (Some acc_20) (Some acc_21) (Some "6650000") (Some "2233351") (Some "0x00000000")
       "te6cckEBAQEABgAACAAAAADjAK8P"))
      []);
    ("x5gEfyxbYFzjtY4uRBzSu9Y9q7q/mSW/wgoYhNiz0XA=", tx acc_2 "x5gEfyxbYFzjtY4uRBzSu9Y9q7q/mSW/wgoYhNiz0XA=" 37074300000007 1753174812 1373056 (Some (Some 0)) (Some 0)
      (Some (m (Some acc_2) (Some acc_2) (Some "997607200") (Some "1595213") (Some "0xae42e5a4")
       "te6cckECDwEAAeIAARiuQuWkAAAAAAAAABUBAgoOw8htAgIDAAABaCIAJYAMTmCu5ZJunaSo484XA4OrgBUj1dZpwY+deeDM1hUgJvlPEAAAAAAAAAAAAAAAAAEEAggAAAAoBQYBYYAAAAAAAAAAAAAAAAAAAACAAAAAAAAAAAAAAAAAAAAAAAAAAAAAAAAAAAAAADf5gkAHAQHACADi0LAAUYmshNOh1nWEdwB3eJHd51H6EH1kg3v2M30y32eQAAAAAAAAAAAAAAAAAAAAAej5hL/dcm21SftBfzXMRohQtK+darHu6xiJJP5pAqTrl4ZJYaHiVN2wzPjs7fuD00yOWbSr+v12kiwFX4HiMgkBAtAJBECtMii2dvfTzUKEpUQ/F/GWKzbkkbMKQLJAWEnll7pftQoOCwwAhDB4ZjdmMTJkNDUxM2ExMDcyOGU4M2YwODdhYmEzMWI3NWQ3MWU0MGUzMzJhOTg2ZmI4MGE0YzExZDhiYjllOTBlNQCEMDplMWU2MzNlYjcwMWIxMThiNDQyOTc3MTZjZWU3MDY5ZWU4NDdiNTZkYjg4YzQ5N2VmZWE2ODFlZDE0YjJkMmM3AgANDgBAPfcwfnUl4UZID8gTaIwtEe954uP8XYKGne0a8dHdYMMACHRvbjJmDtOI"))
      [m (Some acc_2) (Some acc_20) (Some "79722114") (Some "1341344") (Some "0x00000028")
       "te6cckECCwEAAZEAAggAAAAoAQIBYYAAAAAAAAAAAAAAAAAAAACAAAAAAAAAAAAAAAAAAAAAAAAAAAAAAAAAAAAAADf5gkADAQHABADi0LAAUYmshNOh1nWEdwB3eJHd51H6EH1kg3v2M30y32eQAAAAAAAAAAAAAAAAAAAAAej5hL/dcm21SftBfzXMRohQtK+darHu6xiJJP5pAqTrl4ZJYaHiVN2wzPjs7fuD00yOWbSr+v12kiwFX4HiMgkBAtAFBECtMii2dvfTzUKEpUQ/F/GWKzbkkbMKQLJAWEnll7pftQYKBwgAhDB4ZjdmMTJkNDUxM2ExMDcyOGU4M2YwODdhYmEzMWI3NWQ3MWU0MGUzMzJhOTg2ZmI4MGE0YzExZDhiYjllOTBlNQCEMDplMWU2MzNlYjcwMWIxMThiNDQyOTc3MTZjZWU3MDY5ZWU4NDdiNTZkYjg4YzQ5N2VmZWE2ODFlZDE0YjJkMmM3AgAJCgBAPfcwfnUl4UZID8gTaIwtEe954uP8XYKGne0a8dHdYMMACHRvbjIpyKlZ"])]
    ["ZNNmZv3pXEAi3dplLbIEfK3jN6uUI0ltcnqzJdM/0jA="; "x5gEfyxbYFzjtY4uRBzSu9Y9q7q/mSW/wgoYhNiz0XA="; "Og33FdjjS2b1pYGwZDkFxXUa+UJgBwOWsAkNpy/uV00="; "mRjAwOokWOGBJmihhrimpyQKyM6B/T2yzF8kPwy9mNY="; "lJkKxzH9aOHe9lQuVNN7hcS5pnLw6zma7vLW4aNWrOM="; "9g+rTuKzJeeA/hvVpgGcjrxm07OXcdglB1seZiJzpCs="; "ie0YtzjwPlkxSPAIJnbEDi0WIDlAbSOrvPupGJadZv4="; "1f7wSZJGix1ANf0iYoGZyxCV3wA+DjuBEdg4edMljoc="].

Definition rest_17 : TraceRest :=
  recorded "y5wDtIsQULa6XJh7Gl4fNj2YCN7+3GipmK98WoY/lQk=" false 37111570000001 37111588000001 [
    ("6yp4hEyN3u7JNKkbeKFrdgJI/VJqG4hY/roRvT7RNPw=", tx acc_22 "6yp4hEyN3u7JNKkbeKFrdgJI/VJqG4hY/roRvT7RNPw=" 37111581000001 1753264726 9160807 (Some (Some 0)) (Some 0)
      (Some (m (Some acc_23) (Some acc_22) (Some "370908799") (Some "1174143") (Some "0x00000005")
       "te6cckECCAEAAV0ABIsAAAAFgBIHqwhg5lg4ES2+GWhwn4EVgGvmj7MoTr6OJXwhB8ByvJaoeaKHxkb0goOFBWUyn70jpOeqBMI//YKqZ3zP3qlQAQIDBACIMHg3OGU2YjUwNzU3MTk4ZGI1NzdjOGExZDFmOGMzM2VkMDM5NDE3YmU3ZWMxNzYwNzBhNjFmMmU3MjM4N2E4NjEwLTEAHGF2YWxhbmNoZS1mdWppAFQweGQ3MDY3QWUzQzM1OWU4Mzc4OTBiMjhCN0JEMGQyMDg0Q2ZEZjQ5YjUDAAUGBwDAAAAAAAAAAAAAAAAAAAAAAAAAAAAAAAAAAAAAAAAAACAAAAAAAAAAAAAAAAAAAAAAAAAAAAAAAAAAAAAAAAAAGkhlbGxvIGZyb20gQXZhbGFuY2hlIEZ1amkhAAAAAAAAAEB1LREfQusSF7tY9RfD1m3AL2tL5iyK1gs4WNKBKI6BhAAIdG9uMuP00ro="))
      [m (Some acc_22) None None None None
       "te6cckEBBwEA1AAEAAECAwQAiDB4NzhlNmI1MDc1NzE5OGRiNTc3YzhhMWQxZjhjMzNlZDAzOTQxN2JlN2VjMTc2MDcwYTYxZjJlNzIzODdhODYxMC0xABxhdmFsYW5jaGUtZnVqaQBUMHhkNzA2N0FlM0MzNTllODM3ODkwYjI4QjdCRDBkMjA4NENmRGY0OWI1AkDktUPNFD4yN6QUHCgrKZT96R0nPVAmEf/sFVM75n71SgUGAEB1LREfQusSF7tY9RfD1m3AL2tL5iyK1gs4WNKBKI6BhAAIdG9uMvQ7sXw=";
       m (Some acc_22) (Some acc_24) (Some "361841599") (Some "1200810") (Some "0x0000000c")
       "te6cckECCQEAAWAAAksAAAAMgBIHqwhg5lg4ES2+GWhwn4EVgGvmj7MoTr6OJXwhB8BysAECBAADBAUGAMAAAAAAAAAAAAAAAAAAAAAAAAAAAAAAAAAAAAAAAAAAIAAAAAAAAAAAAAAAAAAAAAAAAAAAAAAAAAAAAAAAAAAaSGVsbG8gZnJvbSBBdmFsYW5jaGUgRnVqaSEAAAAAAAAAiDB4NzhlNmI1MDc1NzE5OGRiNTc3YzhhMWQxZjhjMzNlZDAzOTQxN2JlN2VjMTc2MDcwYTYxZjJlNzIzODdhODYxMC0xABxhdmFsYW5jaGUtZnVqaQBUMHhkNzA2N0FlM0MzNTllODM3ODkwYjI4QjdCRDBkMjA4NENmRGY0OWI1AkDktUPNFD4yN6QUHCgrKZT96R0nPVAmEf/sFVM75n71SgcIAEB1LREfQusSF7tY9RfD1m3AL2tL5iyK1gs4WNKBKI6BhAAIdG9uMvPdUOk="]);
    ("CF1yH4EBHuwV+HqIG0zwbsveJhqNT39iNXagVEv4I28=", tx acc_23 "CF1yH4EBHuwV+HqIG0zwbsveJhqNT39iNXagVEv4I28=" 37111579000001 1753264719 3407871 (Some (Some 0)) (Some 0)
      (Some (m (Some acc_22) (Some acc_23) (Some "375490799") (Some "604538") (Some "0x00000004")
       "te6cckEBAgEAiwABSwAAAASAEgerCGDmWDgRLb4ZaHCfgRWAa+aPsyhOvo4lfCEHwHKwAQDAAAAAAAAAAAAAAAAAAAAAAAAAAAAAAAAAAAAAAAAAACAAAAAAAAAAAAAAAAAAAAAAAAAAAAAAAAAAAAAAAAAAGkhlbGxvIGZyb20gQXZhbGFuY2hlIEZ1amkhAAAAAAAAc4R14g=="))
      [m (Some acc_23) (Some acc_22) (Some "370908799") (Some "1174143") (Some "0x00000005")
       "te6cckECCAEAAV0ABIsAAAAFgBIHqwhg5lg4ES2+GWhwn4EVgGvmj7MoTr6OJXwhB8ByvJaoeaKHxkb0goOFBWUyn70jpOeqBMI//YKqZ3zP3qlQAQIDBACIMHg3OGU2YjUwNzU3MTk4ZGI1NzdjOGExZDFmOGMzM2VkMDM5NDE3YmU3ZWMxNzYwNzBhNjFmMmU3MjM4N2E4NjEwLTEAHGF2YWxhbmNoZS1mdWppAFQweGQ3MDY3QWUzQzM1OWU4Mzc4OTBiMjhCN0JEMGQyMDg0Q2ZEZjQ5YjUDAAUGBwDAAAAAAAAAAAAAAAAAAAAAAAAAAAAAAAAAAAAAAAAAACAAAAAAAAAAAAAAAAAAAAAAAAAAAAAAAAAAAAAAAAAAGkhlbGxvIGZyb20gQXZhbGFuY2hlIEZ1amkhAAAAAAAAAEB1LREfQusSF7tY9RfD1m3AL2tL5iyK1gs4WNKBKI6BhAAIdG9uMuP00ro="]);
    ("M94ZhYdhNEiVodPaQoKpFWAk3eBic1Ppn9mORlm9rz8=", tx acc_24 "M94ZhYdhNEiVodPaQoKpFWAk3eBic1Ppn9mORlm9rz8=" 37111585000004 1753264732 1001200 (Some (Some (-14))) None
      (Some (m (Some acc_24) (Some acc_24) (Some "1001201") (Some "533338") (Some "0x00000000")
       "te6cckEBAgEAaQABCAAAAAABAMAAAAAAAAAAAAAAAAAAAAAAAAAAAAAAAAAAAAAAAAAAIAAAAAAAAAAAAAAAAAAAAAAAAAAAAAAAAAAAAAAAAAAaSGVsbG8gZnJvbSBBdmFsYW5jaGUgRnVqaSEAAAAAAADczukc"))
      []);
    ("TiFS/ygZQt76EOfJf/xhq5GZWNNeIZyJSVjYoChXrhA=", tx acc_2 "TiFS/ygZQt76EOfJf/xhq5GZWNNeIZyJSVjYoChXrhA=" 37111588000001 1753264742 230810 (Some (Some 0)) (Some 0)
      (Some (m (Some acc_24) (Some acc_2) (Some "349587598") (Some "301869") (Some "0x00000018")
       "te6cckEBAQEABgAACAAAABhDnyiV"))
      []);
    ("aA7hLNrndF0gOnngfJa9hl7Cvs9/Fl1tR62qotfXYdg=", tx acc_24 "aA7hLNrndF0gOnngfJa9hl7Cvs9/Fl1tR62qotfXYdg=" 37111585000001 1753264732 4143216 (Some (Some 0)) (Some 0)
      (Some (m (Some acc_22) (Some acc_24) (Some "361841599") (Some "1200810") (Some "0x0000000c")
       "te6cckECCQEAAWAAAksAAAAMgBIHqwhg5lg4ES2+GWhwn4EVgGvmj7MoTr6OJXwhB8BysAECBAADBAUGAMAAAAAAAAAAAAAAAAAAAAAAAAAAAAAAAAAAAAAAAAAAIAAAAAAAAAAAAAAAAAAAAAAAAAAAAAAAAAAAAAAAAAAaSGVsbG8gZnJvbSBBdmFsYW5jaGUgRnVqaSEAAAAAAAAAiDB4NzhlNmI1MDc1NzE5OGRiNTc3YzhhMWQxZjhjMzNlZDAzOTQxN2JlN2VjMTc2MDcwYTYxZjJlNzIzODdhODYxMC0xABxhdmFsYW5jaGUtZnVqaQBUMHhkNzA2N0FlM0MzNTllODM3ODkwYjI4QjdCRDBkMjA4NENmRGY0OWI1AkDktUPNFD4yN6QUHCgrKZT96R0nPVAmEf/sFVM75n71SgcIAEB1LREfQusSF7tY9RfD1m3AL2tL5iyK1gs4WNKBKI6BhAAIdG9uMvPdUOk="))
      [m (Some acc_24) (Some acc_24) (Some "1001201") (Some "533338") (Some "0x00000000")
       "te6cckEBAgEAaQABCAAAAAABAMAAAAAAAAAAAAAAAAAAAAAAAAAAAAAAAAAAAAAAAAAAIAAAAAAAAAAAAAAAAAAAAAAAAAAAAAAAAAAAAAAAAAAaSGVsbG8gZnJvbSBBdmFsYW5jaGUgRnVqaSEAAAAAAADczukc";
       m (Some acc_24) (Some acc_2) (Some "349587598") (Some "301869") (Some "0x00000018")
       "te6cckEBAQEABgAACAAAABhDnyiV"]);
    ("n178cI8exL9ZfRMaFe5GPx+fYMnVHI4NTaPp6E2tjgI=", tx acc_22 "n178cI8exL9ZfRMaFe5GPx+fYMnVHI4NTaPp6E2tjgI=" 37111575000001 1753264712 6706697 (Some (Some 0)) (Some 0)
      (Some (m (Some acc_2) (Some acc_22) (Some "398198800") (Some "1200810") (Some "0x00000008")
       "te6cckECCQEAAWAAAUsAAAAIgBIHqwhg5lg4ES2+GWhwn4EVgGvmj7MoTr6OJXwhB8BysAEEAAIDBAUAiDB4NzhlNmI1MDc1NzE5OGRiNTc3YzhhMWQxZjhjMzNlZDAzOTQxN2JlN2VjMTc2MDcwYTYxZjJlNzIzODdhODYxMC0xABxhdmFsYW5jaGUtZnVqaQBUMHhkNzA2N0FlM0MzNTllODM3ODkwYjI4QjdCRDBkMjA4NENmRGY0OWI1A0DktUPNFD4yN6QUHCgrKZT96R0nPVAmEf/sFVM75n71SgYHCADAAAAAAAAAAAAAAAAAAAAAAAAAAAAAAAAAAAAAAAAAACAAAAAAAAAAAAAAAAAAAAAAAAAAAAAAAAAAAAAAAAAAGkhlbGxvIGZyb20gQXZhbGFuY2hlIEZ1amkhAAAAAAAAAEB1LREfQusSF7tY9RfD1m3AL2tL5iyK1gs4WNKBKI6BhAAIdG9uMuaj5Os="))
      [m (Some acc_22) (Some acc_23) (Some "375490799") (Some "604538") (Some "0x00000004")
       "te6cckEBAgEAiwABSwAAAASAEgerCGDmWDgRLb4ZaHCfgRWAa+aPsyhOvo4lfCEHwHKwAQDAAAAAAAAAAAAAAAAAAAAAAAAAAAAAAAAAAAAAAAAAACAAAAAAAAAAAAAAAAAAAAAAAAAAAAAAAAAAAAAAAAAAGkhlbGxvIGZyb20gQXZhbGFuY2hlIEZ1amkhAAAAAAAAc4R14g=="]);
    ("pwIkkd/th74p2rJap9Zrqz3D/Y9DpnmZGjbXE+90nEk=", tx acc_2 "pwIkkd/th74p2rJap9Zrqz3D/Y9DpnmZGjbXE+90nEk=" 37111570000003 1753264700 1302790 (Some (Some 0)) (Some 0)
      (Some (m (Some acc_2) (Some acc_2) (Some "997818000") (Some "1454678") (Some "0xae42e5a4")
       "te6cckECDQEAAbEAARiuQuWkAAAAAAAAAA8BAgoOw8htAgIDAAABaCIAFitoXo4X6txPWLyzSHlS7Ks1YKtez/GyG3BePgE+2jAgvrwgAAAAAAAAAAAAAAAAAAEEAUsAAAAIgBIHqwhg5lg4ES2+GWhwn4EVgGvmj7MoTr6OJXwhB8BysAUEAAYHCAkAiDB4NzhlNmI1MDc1NzE5OGRiNTc3YzhhMWQxZjhjMzNlZDAzOTQxN2JlN2VjMTc2MDcwYTYxZjJlNzIzODdhODYxMC0xABxhdmFsYW5jaGUtZnVqaQBUMHhkNzA2N0FlM0MzNTllODM3ODkwYjI4QjdCRDBkMjA4NENmRGY0OWI1A0DktUPNFD4yN6QUHCgrKZT96R0nPVAmEf/sFVM75n71SgoLDADAAAAAAAAAAAAAAAAAAAAAAAAAAAAAAAAAAAAAAAAAACAAAAAAAAAAAAAAAAAAAAAAAAAAAAAAAAAAAAAAAAAAGkhlbGxvIGZyb20gQXZhbGFuY2hlIEZ1amkhAAAAAAAAAEB1LREfQusSF7tY9RfD1m3AL2tL5iyK1gs4WNKBKI6BhAAIdG9uMvFNkxY="))
      [m (Some acc_2) (Some acc_22) (Some "398198800") (Some "1200810") (Some "0x00000008")
       "te6cckECCQEAAWAAAUsAAAAIgBIHqwhg5lg4ES2+GWhwn4EVgGvmj7MoTr6OJXwhB8BysAEEAAIDBAUAiDB4NzhlNmI1MDc1NzE5OGRiNTc3YzhhMWQxZjhjMzNlZDAzOTQxN2JlN2VjMTc2MDcwYTYxZjJlNzIzODdhODYxMC0xABxhdmFsYW5jaGUtZnVqaQBUMHhkNzA2N0FlM0MzNTllODM3ODkwYjI4QjdCRDBkMjA4NENmRGY0OWI1A0DktUPNFD4yN6QUHCgrKZT96R0nPVAmEf/sFVM75n71SgYHCADAAAAAAAAAAAAAAAAAAAAAAAAAAAAAAAAAAAAAAAAAACAAAAAAAAAAAAAAAAAAAAAAAAAAAAAAAAAAAAAAAAAAGkhlbGxvIGZyb20gQXZhbGFuY2hlIEZ1amkhAAAAAAAAAEB1LREfQusSF7tY9RfD1m3AL2tL5iyK1gs4WNKBKI6BhAAIdG9uMuaj5Os="]);
    ("y5wDtIsQULa6XJh7Gl4fNj2YCN7+3GipmK98WoY/lQk=", tx acc_2 "y5wDtIsQULa6XJh7Gl4fNj2YCN7+3GipmK98WoY/lQk=" 37111570000001 1753264700 5691724 (Some (Some 0)) (Some 0)
      (Some (m None (Some acc_2) None None (Some "0xf6be7fb0")
       "te6cckECEAEAAkEAAYD2vn+wXHv8YCFPMD7XmpiPt3MXug0/WIB0gkGiha8viRKBMBZzQg76v64BUBNRawfzTmb9dl3uay0r6wOVt+gKAQElAAAQrQIAAB4AAAAA0QFj+ABwhAIBaCIASB6sIYOZYOBEtvhlocJ+BFYBr5o+zKE6+jiV8IQfAcqh3NZQAAAAAAAAAAAAAAAAAAEDARiuQuWkAAAAAAAAAA8EAgoOw8htAgUGAAABaCIAFitoXo4X6txPWLyzSHlS7Ks1YKtez/GyG3BePgE+2jAgvrwgAAAAAAAAAAAAAAAAAAEHAUsAAAAIgBIHqwhg5lg4ES2+GWhwn4EVgGvmj7MoTr6OJXwhB8BysAgEAAkKCwwAiDB4NzhlNmI1MDc1NzE5OGRiNTc3YzhhMWQxZjhjMzNlZDAzOTQxN2JlN2VjMTc2MDcwYTYxZjJlNzIzODdhODYxMC0xABxhdmFsYW5jaGUtZnVqaQBUMHhkNzA2N0FlM0MzNTllODM3ODkwYjI4QjdCRDBkMjA4NENmRGY0OWI1A0DktUPNFD4yN6QUHCgrKZT96R0nPVAmEf/sFVM75n71Sg0ODwDAAAAAAAAAAAAAAAAAAAAAAAAAAAAAAAAAAAAAAAAAACAAAAAAAAAAAAAAAAAAAAAAAAAAAAAAAAAAAAAAAAAAGkhlbGxvIGZyb20gQXZhbGFuY2hlIEZ1amkhAAAAAAAAAEB1LREfQusSF7tY9RfD1m3AL2tL5iyK1gs4WNKBKI6BhAAIdG9uMlx8ZWE="))
      [m (Some acc_2) (Some acc_2) (Some "997818000") (Some "1454678") (Some "0xae42e5a4")
       "te6cckECDQEAAbEAARiuQuWkAAAAAAAAAA8BAgoOw8htAgIDAAABaCIAFitoXo4X6txPWLyzSHlS7Ks1YKtez/GyG3BePgE+2jAgvrwgAAAAAAAAAAAAAAAAAAEEAUsAAAAIgBIHqwhg5lg4ES2+GWhwn4EVgGvmj7MoTr6OJXwhB8BysAUEAAYHCAkAiDB4NzhlNmI1MDc1NzE5OGRiNTc3YzhhMWQxZjhjMzNlZDAzOTQxN2JlN2VjMTc2MDcwYTYxZjJlNzIzODdhODYxMC0xABxhdmFsYW5jaGUtZnVqaQBUMHhkNzA2N0FlM0MzNTllODM3ODkwYjI4QjdCRDBkMjA4NENmRGY0OWI1A0DktUPNFD4yN6QUHCgrKZT96R0nPVAmEf/sFVM75n71SgoLDADAAAAAAAAAAAAAAAAAAAAAAAAAAAAAAAAAAAAAAAAAACAAAAAAAAAAAAAAAAAAAAAAAAAAAAAAAAAAAAAAAAAAGkhlbGxvIGZyb20gQXZhbGFuY2hlIEZ1amkhAAAAAAAAAEB1LREfQusSF7tY9RfD1m3AL2tL5iyK1gs4WNKBKI6BhAAIdG9uMvFNkxY="])]
    ["y5wDtIsQULa6XJh7Gl4fNj2YCN7+3GipmK98WoY/lQk="; "pwIkkd/th74p2rJap9Zrqz3D/Y9DpnmZGjbXE+90nEk="; "n178cI8exL9ZfRMaFe5GPx+fYMnVHI4NTaPp6E2tjgI="; "CF1yH4EBHuwV+HqIG0zwbsveJhqNT39iNXagVEv4I28="; "6yp4hEyN3u7JNKkbeKFrdgJI/VJqG4hY/roRvT7RNPw="; "aA7hLNrndF0gOnngfJa9hl7Cvs9/Fl1tR62qotfXYdg="; "M94ZhYdhNEiVodPaQoKpFWAk3eBic1Ppn9mORlm9rz8="; "TiFS/ygZQt76EOfJf/xhq5GZWNNeIZyJSVjYoChXrhA="].

Definition rest_18 : TraceRest :=
  recorded "pX074mKfOYQ3BVW1QktPoraJPRqHvS8w4AEmSMpjBbc=" false 37190186000001 37190189000001 [
    ("PzeZlujUPePAMw0Fz/eYeCRz11/X/f5YzUjfYXomzS8=", tx acc_10 "PzeZlujUPePAMw0Fz/eYeCRz11/X/f5YzUjfYXomzS8=" 37190189000001 1753453879 5522905 (Some (Some 0)) (Some 0)
      (Some (m (Some acc_6) (Some acc_10) (Some "198639200") (Some "907207") (Some "0x00000045")
       "te6cckEBBQEA/QAEjQAAAEWAHDzGfW4DYjFohS7i2dzg090I9q23EYkv39TQPaKWWljgAAAAAAAAAAAAAAAAAAAAAAAAAAAAAAAAAAAAAAC+vCAQAQIDBAAIdG9uMgCEMDo2MzZiYTU0YTY4N2MwZjAxNTg1MWY3YjQzZDY2MzBkMWRhMGNkMzY1MGU1NmRmMjc2YTI5MTQ4OGIxYTMwZWE3AIAAAAAAAAAAAAAAAAAAAAAAAAAAAAAAAAAAAAAAAAAAAAAAAAAAAAAAAAAAAAAAAAAAAAAAAAAAAAAAAAAAAAAAAEOAHDzGfW4DYjFohS7i2dzg090I9q23EYkv39TQPaKWWljwbc7Guw=="))
      [m (Some acc_10) None None None (Some "0x801c3cc6")
       "te6cckEBBAEA1QADw4AcPMZ9bgNiMWiFLuLZ3ODT3Qj2rbcRiS/f1NA9opZaWPWmRRbO3vp5qFCUqIfi/jLFZtySNmFIFkgLCTyy90v2oAAAAAAAAAAAAAAAAAAAAAAAAAAAAAAAAAAAAAF638wQAQIDAEOAHDzGfW4DYjFohS7i2dzg090I9q23EYkv39TQPaKWWljwAAh0b24yAIQwOjYzNmJhNTRhNjg3YzBmMDE1ODUxZjdiNDNkNjYzMGQxZGEwY2QzNjUwZTU2ZGYyNzZhMjkxNDg4YjFhMzBlYTcTyJzY"]);
    ("pX074mKfOYQ3BVW1QktPoraJPRqHvS8w4AEmSMpjBbc=", tx acc_6 "pX074mKfOYQ3BVW1QktPoraJPRqHvS8w4AEmSMpjBbc=" 37190186000001 1753453872 4052411 (Some (Some 0)) (Some 0)
      (Some (m None (Some acc_6) None None (Some "0x7369676e")
       "te6cckECCAEAAZAAAaFzaWduf///EWiDlWoAAAF1hFpkiawJ8eaw0Bz8G1pUzB66TVosvdK9oEiVk7MfHycdRdj7JQIyxZppCQ4/NshnXPy4m3Pl6ahZhv3zkKyYgmABAgoOw8htAgIDAAAE9WIAUifYo7F4ScMYM2i03sfal/EXbEDHwpUq/K5bhcnbjyOgX14QAAAAAAAAAAAAAAAAAAAAAABFgBw8xn1uA2IxaIUu4tnc4NPdCPattxGJL9/U0D2illpY4AAAAAAAAAAAAAAAAAAAAAAAAAAAAAAAAAAAAAAAvrwgEAQFBgcACHRvbjIAhDA6NjM2YmE1NGE2ODdjMGYwMTU4NTFmN2I0M2Q2NjMwZDFkYTBjZDM2NTBlNTZkZjI3NmEyOTE0ODhiMWEzMGVhNwCAAAAAAAAAAAAAAAAAAAAAAAAAAAAAAAAAAAAAAAAAAAAAAAAAAAAAAAAAAAAAAAAAAAAAAAAAAAAAAAAAAAAAAABDgBw8xn1uA2IxaIUu4tnc4NPdCPattxGJL9/U0D2illpY8MDiqZI="))
      [m (Some acc_6) (Some acc_10) (Some "198639200") (Some "907207") (Some "0x00000045")
       "te6cckEBBQEA/QAEjQAAAEWAHDzGfW4DYjFohS7i2dzg090I9q23EYkv39TQPaKWWljgAAAAAAAAAAAAAAAAAAAAAAAAAAAAAAAAAAAAAAC+vCAQAQIDBAAIdG9uMgCEMDo2MzZiYTU0YTY4N2MwZjAxNTg1MWY3YjQzZDY2MzBkMWRhMGNkMzY1MGU1NmRmMjc2YTI5MTQ4OGIxYTMwZWE3AIAAAAAAAAAAAAAAAAAAAAAAAAAAAAAAAAAAAAAAAAAAAAAAAAAAAAAAAAAAAAAAAAAAAAAAAAAAAAAAAAAAAAAAAEOAHDzGfW4DYjFohS7i2dzg090I9q23EYkv39TQPaKWWljwbc7Guw=="])]
    ["pX074mKfOYQ3BVW1QktPoraJPRqHvS8w4AEmSMpjBbc="; "PzeZlujUPePAMw0Fz/eYeCRz11/X/f5YzUjfYXomzS8="].

Definition rest_19 : TraceRest :=
  recorded "rJuDg5P9aD18+qNMJQf1QHBsCKV3MIyDo/nza0fbXRI=" false 37869576000001 37869582000001 [
    ("GiUBBpb31F0r7LIXbB9ehO9EuPgYJqTujMs8obh+UgI=", tx acc_25 "GiUBBpb31F0r7LIXbB9ehO9EuPgYJqTujMs8obh+UgI=" 37869582000001 1755070336 2858040 (Some (Some (-14))) None
      (Some (m (Some acc_26) (Some acc_25) (Some "2858000") (Some "301869") (Some "0x00000018")
       "te6cckEBAQEABgAACAAAABhDnyiV"))
      []);
    ("fmi15xWaSKCu+gsavto75ZjRgPQzBkoAfNEJ+5Fvh4I=", tx acc_25 "fmi15xWaSKCu+gsavto75ZjRgPQzBkoAfNEJ+5Fvh4I=" 37869576000003 1755070322 16129043 (Some (Some 0)) (Some 0)
      (Some (m (Some acc_6) (Some acc_25) (Some "97572000") (Some "1618680") (Some "0x00000101")
       "te6cckECEQEAAg8AAUsAAAEBgAP8H0HPBRElGUCyEYwv9yF7j9u8hTwo2UCRe5pjkSHO0AEBAwDAAgIBIAMEAUO/8ILrZjtXoAGS9KasRnKI3y3+3bnaG+4o9lIci+vSHx7ABQIBIAcIAf4AaHR0cHM6Ly9pLmliYi5jby8wWXM3N255L2ZhdnBuZy1ibG9ja2luZy10ZWxlZ3JhbS1pbi1ydXNzaWEtZGlnaXRhbC10ZWxldmlzaW9uLWVsZWN0cmljYWwtcmVzaXN0YW5jZS1hbmQtY29uZHVjdGFuY2UtZGlnaXRhbC5wBgAEbmcCASAJCgIBIA0OAUG/RUam/+G3nP3Ya609uHQxPc3i+wXmp0qn81UtlhfHnRMLAUG/btT5QqeEjOLLBmt3oRKMah/4xD9Dii3OJGErqf+riwMMAB4AUmVzaXN0YW5jZSBEb2cACgBSRURPAUG/Ugje9G9aHU+dzmarMJ9KhRMF8Wb5Hvedkj71jjT5ogkPAUG/XQH6XjwGkBxFBGxrLdzqWvdk/qDu1yoQ1ATyMSzrJH0QAOgAUGF2ZWwgRHVyb3YgRm91bmRlciBPZiBUaGUgRGlnaXRhbCBSZXNpdGFuY2UgRG9nIC0gJFJFRE8gaXMgYSBtZW1lIGNvaW4gb24gdGhlIFRPTiBCbG9ja2NoYWluLiBodHRwczovL3QubWUvUmVkb1RPTgAEADkg+7/4"))
      [m (Some acc_25) None None None (Some "0x00000104")
       "te6cckEBAQEAKQAATQAAAQSAE8Gv5Obs3vWv/nwXHPbEvYTP0XH+WhNCBqP2z31FEZQhMELrLwg=";
       m (Some acc_25) (Some acc_26) (Some "8648000") (Some "901341") (Some "0x00000009")
       "te6cckEBBQEA+QADCAAAAAkBAgMADGF4ZWxhcgCCYXhlbGFyMTU3aGw3Z3B1a25qbWh0YWMycW5waHVhenYyeWVyZmFndmE3bHN1OXZ1ajJwZ24zMnoyMnFhMjZkazQBwAAAAAAAAAAAAAAAAAAAAAAAAAAAAAAAAAAAAAAAAAAGAAAAAAAAAAAAAAAAAAAAAAAAAAAAAAAAAAAAAAAAAGAAAAAAAAAAAAAAAAAAAAAAAAAAAAAAAAAAAAAAAAAACQQAgAAAAAAAAAAAAAAAAAAAAAAAAAAAAAAAAAAAAAAAAAAgng1/Jzdm961/8+C457Yl7CZ+i4/y0JoQNR+2e+oojKF62TbT"]);
    ("qIqCD4qpdQ0LBX7+ROfhZ5VlYVe3liUK/A+/TSPGSeE=", tx acc_26 "qIqCD4qpdQ0LBX7+ROfhZ5VlYVe3liUK/A+/TSPGSeE=" 37869578000001 1755070330 7089121 (Some (Some 0)) (Some 0)
      (Some (m (Some acc_25) (Some acc_26) (Some "8648000") (Some "901341") (Some "0x00000009")
       "te6cckEBBQEA+QADCAAAAAkBAgMADGF4ZWxhcgCCYXhlbGFyMTU3aGw3Z3B1a25qbWh0YWMycW5waHVhenYyeWVyZmFndmE3bHN1OXZ1ajJwZ24zMnoyMnFhMjZkazQBwAAAAAAAAAAAAAAAAAAAAAAAAAAAAAAAAAAAAAAAAAAGAAAAAAAAAAAAAAAAAAAAAAAAAAAAAAAAAAAAAAAAAGAAAAAAAAAAAAAAAAAAAAAAAAAAAAAAAAAAAAAAAAAACQQAgAAAAAAAAAAAAAAAAAAAAAAAAAAAAAAAAAAAAAAAAAAgng1/Jzdm961/8+C457Yl7CZ+i4/y0JoQNR+2e+oojKF62TbT"))
      [m (Some acc_26) None None None (Some "0x801baa74")
       "te6cckECBQEAATcAA4OAG6p0Yyyv+gwdwiemY0eT7IKo6vtx3xntlijeHdDOuzfkIA3U8V4uyu+aSrCuAqxe9gYNuDZ0YmFl7q7iECgGFvABAgMADGF4ZWxhcgCCYXhlbGFyMTU3aGw3Z3B1a25qbWh0YWMycW5waHVhenYyeWVyZmFndmE3bHN1OXZ1ajJwZ24zMnoyMnFhMjZkazQBwAAAAAAAAAAAAAAAAAAAAAAAAAAAAAAAAAAAAAAAAAAGAAAAAAAAAAAAAAAAAAAAAAAAAAAAAAAAAAAAAAAAAGAAAAAAAAAAAAAAAAAAAAAAAAAAAAAAAAAAAAAAAAAACQQAgAAAAAAAAAAAAAAAAAAAAAAAAAAAAAAAAAAAAAAAAAAgng1/Jzdm961/8+C457Yl7CZ+i4/y0JoQNR+2e+oojKFzX8QE";
       m (Some acc_26) (Some acc_25) (Some "2858000") (Some "301869") (Some "0x00000018")
       "te6cckEBAQEABgAACAAAABhDnyiV"]);
    ("rJuDg5P9aD18+qNMJQf1QHBsCKV3MIyDo/nza0fbXRI=", tx acc_6 "rJuDg5P9aD18+qNMJQf1QHBsCKV3MIyDo/nza0fbXRI=" 37869576000001 1755070322 5646158 (Some (Some 0)) (Some 0)
      (Some (m None (Some acc_6) None None (Some "0x7369676e")
       "te6cckECFAEAAqIAAaFzaWduf///EWicP6wAAAHNvEQoug1rPyH2VSza3h3Rjm7JrjwG5h6yV/c35Uf5cRlucdWC/EfQ4S1llrDyZajuvy40jU+mBJll4lLlKC4LgeABAgoOw8htAgIDAAABs2IAbqnRjLK/6DB3CJ6ZjR5Psgqjq+3HfGe2WKN4d0M67N+gL68IAAAAAAAAAAAAAAAAAAAAAAEBgAP8H0HPBRElGUCyEYwv9yF7j9u8hTwo2UCRe5pjkSHO0AQBAwDABQIBIAYHAUO/8ILrZjtXoAGS9KasRnKI3y3+3bnaG+4o9lIci+vSHx7ACAIBIAoLAf4AaHR0cHM6Ly9pLmliYi5jby8wWXM3N255L2ZhdnBuZy1ibG9ja2luZy10ZWxlZ3JhbS1pbi1ydXNzaWEtZGlnaXRhbC10ZWxldmlzaW9uLWVsZWN0cmljYWwtcmVzaXN0YW5jZS1hbmQtY29uZHVjdGFuY2UtZGlnaXRhbC5wCQAEbmcCASAMDQIBIBARAUG/RUam/+G3nP3Ya609uHQxPc3i+wXmp0qn81UtlhfHnRMOAUG/btT5QqeEjOLLBmt3oRKMah/4xD9Dii3OJGErqf+riwMPAB4AUmVzaXN0YW5jZSBEb2cACgBSRURPAUG/Ugje9G9aHU+dzmarMJ9KhRMF8Wb5Hvedkj71jjT5ogkSAUG/XQH6XjwGkBxFBGxrLdzqWvdk/qDu1yoQ1ATyMSzrJH0TAOgAUGF2ZWwgRHVyb3YgRm91bmRlciBPZiBUaGUgRGlnaXRhbCBSZXNpdGFuY2UgRG9nIC0gJFJFRE8gaXMgYSBtZW1lIGNvaW4gb24gdGhlIFRPTiBCbG9ja2NoYWluLiBodHRwczovL3QubWUvUmVkb1RPTgAEADncR6vE"))
      [m (Some acc_6) (Some acc_25) (Some "97572000") (Some "1618680") (Some "0x00000101")
       "te6cckECEQEAAg8AAUsAAAEBgAP8H0HPBRElGUCyEYwv9yF7j9u8hTwo2UCRe5pjkSHO0AEBAwDAAgIBIAMEAUO/8ILrZjtXoAGS9KasRnKI3y3+3bnaG+4o9lIci+vSHx7ABQIBIAcIAf4AaHR0cHM6Ly9pLmliYi5jby8wWXM3N255L2ZhdnBuZy1ibG9ja2luZy10ZWxlZ3JhbS1pbi1ydXNzaWEtZGlnaXRhbC10ZWxldmlzaW9uLWVsZWN0cmljYWwtcmVzaXN0YW5jZS1hbmQtY29uZHVjdGFuY2UtZGlnaXRhbC5wBgAEbmcCASAJCgIBIA0OAUG/RUam/+G3nP3Ya609uHQxPc3i+wXmp0qn81UtlhfHnRMLAUG/btT5QqeEjOLLBmt3oRKMah/4xD9Dii3OJGErqf+riwMMAB4AUmVzaXN0YW5jZSBEb2cACgBSRURPAUG/Ugje9G9aHU+dzmarMJ9KhRMF8Wb5Hvedkj71jjT5ogkPAUG/XQH6XjwGkBxFBGxrLdzqWvdk/qDu1yoQ1ATyMSzrJH0QAOgAUGF2ZWwgRHVyb3YgRm91bmRlciBPZiBUaGUgRGlnaXRhbCBSZXNpdGFuY2UgRG9nIC0gJFJFRE8gaXMgYSBtZW1lIGNvaW4gb24gdGhlIFRPTiBCbG9ja2NoYWluLiBodHRwczovL3QubWUvUmVkb1RPTgAEADkg+7/4"])]
    ["rJuDg5P9aD18+qNMJQf1QHBsCKV3MIyDo/nza0fbXRI="; "fmi15xWaSKCu+gsavto75ZjRgPQzBkoAfNEJ+5Fvh4I="; "qIqCD4qpdQ0LBX7+ROfhZ5VlYVe3liUK/A+/TSPGSeE="; "GiUBBpb31F0r7LIXbB9ehO9EuPgYJqTujMs8obh+UgI="].

Definition rest_20 : TraceRest :=
  recorded "8jY8oi5Ra5TF2zYo7tP+Z7TBcc15b62vitz8qK7SxsU=" false 37911431000001 37911441000001 [
    ("8jY8oi5Ra5TF2zYo7tP+Z7TBcc15b62vitz8qK7SxsU=", tx acc_6 "8jY8oi5Ra5TF2zYo7tP+Z7TBcc15b62vitz8qK7SxsU=" 37911431000001 1755169858 3053048 (Some (Some 0)) (Some 0)
      (Some (m None (Some acc_6) None None (Some "0x7369676e")
       "te6cckEBBQEAywABoXNpZ25///8RaJ3EfQAAAdasZH7Ir4OuWyzVB58SvpfAV1WSf5JGd4zhqyMhhpoaM82F86vmEQkPXrHw0h2/BcnWThiLZP+2a6Wma0HOzQiAoAECCg7DyG0CBAICsGIALQR4VwlSpB//F98b/9uG3wHSO4J7BeXfp7F/EO7YjZggL68IAAAAAAAAAAAAAAAAAAAAAABpAAAAAAAAAAAAAAAAAAAAAAAAAAAAAAAAAAAAAAAABNIDBAAcYXZhbGFuY2hlLWZ1amkAALuMJxs="))
      [m (Some acc_6) (Some acc_27) (Some "99475200") (Some "349870") (Some "0x00000069")
       "te6cckEBAwEAOgACSAAAAGkAAAAAAAAAAAAAAAAAAAAAAAAAAAAAAAAAAAAAAAAE0gECABxhdmFsYW5jaGUtZnVqaQAA+I0Vvw=="]);
    ("Det6b7Uh8FfP7N3e6pqb4guD71ZJj5WxN49Y/QezJQM=", tx acc_27 "Det6b7Uh8FfP7N3e6pqb4guD71ZJj5WxN49Y/QezJQM=" 37911435000005 1755169866 33171586 (Some (Some 0)) (Some 0)
      (Some (m (Some acc_28) (Some acc_27) (Some "83106400") (Some "545071") (Some "0x00000100")
       "te6cckEBBQEAUgAESgAAAQCoP4SReC9O3TOBA3OmvJWkL/SkYDgdXuT4b/M/ry37vAkBAgMEABxhdmFsYW5jaGUtZnVqaQAUVGVzdCB0b2tlbgAOVE9OVEVTVAAAPJl7eg=="))
      [m (Some acc_27) None None None (Some "0x00000107")
       "te6cckEBBQEAUgAESgAAAQeoP4SReC9O3TOBA3OmvJWkL/SkYDgdXuT4b/M/ry37vAkBAgMEABRUZXN0IHRva2VuAA5UT05URVNUAAAAHGF2YWxhbmNoZS1mdWppJ0b+vg==";
       m (Some acc_27) (Some acc_26) (Some "17259200") (Some "1827214") (Some "0x00000009")
       "te6cckECCQEAAoUAAwgAAAAJAQIDAAxheGVsYXIAgmF4ZWxhcjE1N2hsN2dwdWtuam1odGFjMnFucGh1YXp2MnllcmZhZ3ZhN2xzdTl2dWoycGduMzJ6MjJxYTI2ZGs0AcAAAAAAAAAAAAAAAAAAAAAAAAAAAAAAAAAAAAAAAAAAAwAAAAAAAAAAAAAAAAAAAAAAAAAAAAAAAAAAAAAAAABgAAAAAAAAAAAAAAAAAAAAAAAAAAAAAAAAAAAAAAAAAKAEAcAAAAAAAAAAAAAAAAAAAAAAAAAAAAAAAAAAAAAAAAAADmF2YWxhbmNoZS1mdWppAAAAAAAAAAAAAAAAAAAAAAAAAAAAAAAAAAAAAAAAAAAAAAAAAAAAAAAAAAAAAAAAAWAFAcAAAAAAAAAAAAAAAAAAAAAAAAAAAAAAAAAAAAAAAAAAAag/hJF4L07dM4EDc6a8laQv9KRgOB1e5Phv8z+vLfu8AAAAAAAAAAAAAAAAAAAAAAAAAAAAAAAAAAAAAAAAAMAGAcAAAAAAAAAAAAAAAAAAAAAAAAAAAAAAAAAAAAAAAAABAAAAAAAAAAAAAAAAAAAAAAAAAAAAAAAAAAAAAAAAAAAJAAAAAAAAAAAAAAAAAAAAAAAAAAAAAAAAAAAAAAAAAUAHAcAAAAAAAAAAAAAAAAAAAAAAAAAAAAAAAAAAAAAAAAAAClRlc3QgdG9rZW4AAAAAAAAAAAAAAAAAAAAAAAAAAAAAAAAAAAAAAAAAAAAAAAAAAAAAAAAAAAAAAAAAAAAAAAcIAIBUT05URVNUAAAAAAAAAAAAAAAAAAAAAAAAAAAAAAAAAAAAAAAAAAAAAAAAAAAAAAAAAAAAAAAAAAAAAAAAAAAAjo068Q=="]);
    ("Kj0jsy+1zUR+To4ZVntiGSWRXuvISM8DP9s7NW2RDtQ=", tx acc_27 "Kj0jsy+1zUR+To4ZVntiGSWRXuvISM8DP9s7NW2RDtQ=" 37911435000001 1755169866 10311620 (Some (Some 0)) (Some 0)
      (Some (m (Some acc_6) (Some acc_27) (Some "99475200") (Some "349870") (Some "0x00000069")
       "te6cckEBAwEAOgACSAAAAGkAAAAAAAAAAAAAAAAAAAAAAAAAAAAAAAAAAAAAAAAE0gECABxhdmFsYW5jaGUtZnVqaQAA+I0Vvw=="))
      [m (Some acc_27) (Some acc_28) (Some "88676800") (Some "488538") (Some "0x0000005b")
       "te6cckEBBAEAQQABCAAAAFsBAkgAAABpqD+EkXgvTt0zgQNzpryVpC/0pGA4HV7k+G/zP68t+7wCAwAcYXZhbGFuY2hlLWZ1amkAAJ2LEcE="]);
    ("YkL8f61/JvxC+eyHqTCjwD8jyoJG0ZxAfPom9Hw5reA=", tx acc_27 "YkL8f61/JvxC+eyHqTCjwD8jyoJG0ZxAfPom9Hw5reA=" 37911441000001 1755169880 3748420 (Some (Some 0)) (Some 0)
      (Some (m (Some acc_26) (Some acc_27) (Some "10785600") (Some "301869") (Some "0x00000018")
       "te6cckEBAQEABgAACAAAABhDnyiV"))
      []);
    ("ZBO6yPRaX3jF8XYtDUm//7zGvHiNv9/F/zQ2gFaau40=", tx acc_26 "ZBO6yPRaX3jF8XYtDUm//7zGvHiNv9/F/zQ2gFaau40=" 37911437000001 1755169872 9177393 (Some (Some 0)) (Some 0)
      (Some (m (Some acc_27) (Some acc_26) (Some "17259200") (Some "1827214") (Some "0x00000009")
       "te6cckECCQEAAoUAAwgAAAAJAQIDAAxheGVsYXIAgmF4ZWxhcjE1N2hsN2dwdWtuam1odGFjMnFucGh1YXp2MnllcmZhZ3ZhN2xzdTl2dWoycGduMzJ6MjJxYTI2ZGs0AcAAAAAAAAAAAAAAAAAAAAAAAAAAAAAAAAAAAAAAAAAAAwAAAAAAAAAAAAAAAAAAAAAAAAAAAAAAAAAAAAAAAABgAAAAAAAAAAAAAAAAAAAAAAAAAAAAAAAAAAAAAAAAAKAEAcAAAAAAAAAAAAAAAAAAAAAAAAAAAAAAAAAAAAAAAAAADmF2YWxhbmNoZS1mdWppAAAAAAAAAAAAAAAAAAAAAAAAAAAAAAAAAAAAAAAAAAAAAAAAAAAAAAAAAAAAAAAAAWAFAcAAAAAAAAAAAAAAAAAAAAAAAAAAAAAAAAAAAAAAAAAAAag/hJF4L07dM4EDc6a8laQv9KRgOB1e5Phv8z+vLfu8AAAAAAAAAAAAAAAAAAAAAAAAAAAAAAAAAAAAAAAAAMAGAcAAAAAAAAAAAAAAAAAAAAAAAAAAAAAAAAAAAAAAAAABAAAAAAAAAAAAAAAAAAAAAAAAAAAAAAAAAAAAAAAAAAAJAAAAAAAAAAAAAAAAAAAAAAAAAAAAAAAAAAAAAAAAAUAHAcAAAAAAAAAAAAAAAAAAAAAAAAAAAAAAAAAAAAAAAAAAClRlc3QgdG9rZW4AAAAAAAAAAAAAAAAAAAAAAAAAAAAAAAAAAAAAAAAAAAAAAAAAAAAAAAAAAAAAAAAAAAAAAAcIAIBUT05URVNUAAAAAAAAAAAAAAAAAAAAAAAAAAAAAAAAAAAAAAAAAAAAAAAAAAAAAAAAAAAAAAAAAAAAAAAAAAAAjo068Q=="))
      [m (Some acc_26) None None None (Some "0x800b411e")
       "te6cckECCQEAAsMAA4OAC0EeFcJUqQf/xffG//bht8B0juCewXl36exfxDu2I2YI2Z7OlA+WGXbnwK5yw90pEXS0Nn251yLQY3e5RbnexzABAgMADGF4ZWxhcgCCYXhlbGFyMTU3aGw3Z3B1a25qbWh0YWMycW5waHVhenYyeWVyZmFndmE3bHN1OXZ1ajJwZ24zMnoyMnFhMjZkazQBwAAAAAAAAAAAAAAAAAAAAAAAAAAAAAAAAAAAAAAAAAADAAAAAAAAAAAAAAAAAAAAAAAAAAAAAAAAAAAAAAAAAGAAAAAAAAAAAAAAAAAAAAAAAAAAAAAAAAAAAAAAAAAAoAQBwAAAAAAAAAAAAAAAAAAAAAAAAAAAAAAAAAAAAAAAAAAOYXZhbGFuY2hlLWZ1amkAAAAAAAAAAAAAAAAAAAAAAAAAAAAAAAAAAAAAAAAAAAAAAAAAAAAAAAAAAAAAAAABYAUBwAAAAAAAAAAAAAAAAAAAAAAAAAAAAAAAAAAAAAAAAAABqD+EkXgvTt0zgQNzpryVpC/0pGA4HV7k+G/zP68t+7wAAAAAAAAAAAAAAAAAAAAAAAAAAAAAAAAAAAAAAAAAwAYBwAAAAAAAAAAAAAAAAAAAAAAAAAAAAAAAAAAAAAAAAAEAAAAAAAAAAAAAAAAAAAAAAAAAAAAAAAAAAAAAAAAAAAkAAAAAAAAAAAAAAAAAAAAAAAAAAAAAAAAAAAAAAAABQAcBwAAAAAAAAAAAAAAAAAAAAAAAAAAAAAAAAAAAAAAAAAAKVGVzdCB0b2tlbgAAAAAAAAAAAAAAAAAAAAAAAAAAAAAAAAAAAAAAAAAAAAAAAAAAAAAAAAAAAAAAAAAAAAAABwgAgFRPTlRFU1QAAAAAAAAAAAAAAAAAAAAAAAAAAAAAAAAAAAAAAAAAAAAAAAAAAAAAAAAAAAAAAAAAAAAAAAAAAADXxbNw";
       m (Some acc_26) (Some acc_27) (Some "10785600") (Some "301869") (Some "0x00000018")
       "te6cckEBAQEABgAACAAAABhDnyiV"]);
    ("kwUPv5esr+RK560dXNkcGnI7vlANk9x7oojNsd4KsBE=", tx acc_28 "kwUPv5esr+RK560dXNkcGnI7vlANk9x7oojNsd4KsBE=" 37911435000003 1755169866 5026015 (Some (Some 0)) (Some 0)
      (Some (m (Some acc_27) (Some acc_28) (Some "88676800") (Some "488538") (Some "0x0000005b")
       "te6cckEBBAEAQQABCAAAAFsBAkgAAABpqD+EkXgvTt0zgQNzpryVpC/0pGA4HV7k+G/zP68t+7wCAwAcYXZhbGFuY2hlLWZ1amkAAJ2LEcE="))
      [m (Some acc_28) (Some acc_27) (Some "83106400") (Some "545071") (Some "0x00000100")
       "te6cckEBBQEAUgAESgAAAQCoP4SReC9O3TOBA3OmvJWkL/SkYDgdXuT4b/M/ry37vAkBAgMEABxhdmFsYW5jaGUtZnVqaQAUVGVzdCB0b2tlbgAOVE9OVEVTVAAAPJl7eg=="])]
    ["8jY8oi5Ra5TF2zYo7tP+Z7TBcc15b62vitz8qK7SxsU="; "Kj0jsy+1zUR+To4ZVntiGSWRXuvISM8DP9s7NW2RDtQ="; "kwUPv5esr+RK560dXNkcGnI7vlANk9x7oojNsd4KsBE="; "Det6b7Uh8FfP7N3e6pqb4guD71ZJj5WxN49Y/QezJQM="; "ZBO6yPRaX3jF8XYtDUm//7zGvHiNv9/F/zQ2gFaau40="; "YkL8f61/JvxC+eyHqTCjwD8jyoJG0ZxAfPom9Hw5reA="].

Definition rest_21 : TraceRest :=
  recorded "+d7hO4nUDD+fh1VtCo1LMIlBgK5yZPDDJ3OM0KwhqKk=" false 37919153000001 37919187000001 [
    ("+d7hO4nUDD+fh1VtCo1LMIlBgK5yZPDDJ3OM0KwhqKk=", tx acc_29 "+d7hO4nUDD+fh1VtCo1LMIlBgK5yZPDDJ3OM0KwhqKk=" 37919153000001 1755188718 3460413 (Some (Some 0)) (Some 0)
      (Some (m None (Some acc_29) None None (Some "0x7369676e")
       "te6cckECBgEAARcAAaFzaWduf///EWieDigAAAD1mcAFl+T/OfaLdEK9i7/tG3RY3LQX/W1fQ41ttrlvqiccBaSxqx7rlynywIs0p00N7OzjuTd1SQ0AGvwgxsXVgOABAgoOw8htAgIDAAAC8GIALQR4VwlSpB//F98b/9uG3wHSO4J7BeXfp7F/EO7YjZggL68IAAAAAAAAAAAAAAAAAAAAAABxEt4MLVPUBHPy+Gg/ldgl4vuzbDGcjN+V+N4w+TPbVpwAAAAAAAAAAAAAAAAAAAAAAAAAAAAAAAAAAAAAAAAACgQFABxhdmFsYW5jaGUtZnVqaQBUMHg3MkQ0ODlGQzkxZjMzMDExRUM0NkVmYTc4ZDM3RTAyZENDMzM1NDUz/JAPsw=="))
      [m (Some acc_29) (Some acc_27) (Some "99083200") (Some "611205") (Some "0x00000071")
       "te6cckEBAwEAhAACiAAAAHES3gwtU9QEc/L4aD+V2CXi+7NsMZyM35X43jD5M9tWnAAAAAAAAAAAAAAAAAAAAAAAAAAAAAAAAAAAAAAAAAAKAQIAHGF2YWxhbmNoZS1mdWppAFQweDcyRDQ4OUZDOTFmMzMwMTFFQzQ2RWZhNzhkMzdFMDJkQ0MzMzU0NTNx88EP"]);
    ("58hOOEqNIDtZZhuNUR/BAjhXAickZzbdlM+HeBv0IlY=", tx acc_30 "58hOOEqNIDtZZhuNUR/BAjhXAickZzbdlM+HeBv0IlY=" 37919170000001 1755188768 6751496 (Some (Some 0)) (Some 0)
      (Some (m (Some acc_31) (Some acc_30) (Some "74198400") (Some "1010142") (Some "0x7362d09c")
       "te6cckECBwEAARsAAg0AAAAkEKAoAQIAhYAGf34eYw9y2b0WXQHEYel9eOsQdoamugL2KNrKO3RXjLACJitE8BZ8qOmlXagEMQa8jm0h7xVXqvrmliU3rESmTMIExRLeDC1T1ARz8vhoP5XYJeL7s2wxnIzflfjeMPkz21acAIARMVongLPlR00q7UAhiDXkc2kPeKq9V9c0sSm9YiUyZgAAAAAAAAAAAAAAAAAAAAAAAAAAAAAAAAAAAAAAAAABUAMEBQYAHGF2YWxhbmNoZS1mdWppAFQweDcyRDQ4OUZDOTFmMzMwMTFFQzQ2RWZhNzhkMzdFMDJkQ0MzMzU0NTMAAABDgAZ/fh5jD3LZvRZdAcRh6X146xB2hqa6AvYo2so7dFeMsEDi4Uk="))
      [m (Some acc_30) (Some acc_27) (Some "66611200") (Some "835740") (Some "0x00000064")
       "te6cckEBBgEA0gABCAAAAGQBBMUS3gwtU9QEc/L4aD+V2CXi+7NsMZyM35X43jD5M9tWnACAETFaJ4Cz5UdNKu1AIYg15HNpD3iqvVfXNLEpvWIlMmYAAAAAAAAAAAAAAAAAAAAAAAAAAAAAAAAAAAAAAAAAAVACAwQFABxhdmFsYW5jaGUtZnVqaQBUMHg3MkQ0ODlGQzkxZjMzMDExRUM0NkVmYTc4ZDM3RTAyZENDMzM1NDUzAAAAQ4AGf34eYw9y2b0WXQHEYel9eOsQdoamugL2KNrKO3RXjLAKQCfH"]);
    ("6OX1TXo2cVXkZj04YsjU29BVopgGkR0lpWPf7asyiOQ=", tx acc_32 "6OX1TXo2cVXkZj04YsjU29BVopgGkR0lpWPf7asyiOQ=" 37919182000001 1755188805 2747028 (Some (Some 0)) (Some 0)
      (Some (m (Some acc_33) (Some acc_32) (Some "46476800") (Some "464537") (Some "0x7bdd97de")
       "te6cckEBAQEAUwAAoXvdl94AAAAAAAAAexCoALQR4VwlSpB//F98b/9uG3wHSO4J7BeXfp7F/EO7YjZhABaCPCuEqVIP/4vvjf/tw2+A6R3BPYLy79PYv4h3bEbMILciMBc="))
      [m (Some acc_32) (Some acc_27) (Some "43463200") (Some "266669") (Some "0xd53276db")
       "te6cckEBAQEADgAAGNUydtsAAAAAAAAAe8E+iTQ="]);
    ("A2M3Z53J7dBEfVe3pBtTVMIQ8RVVm7UgYM9ia97g1D4=", tx acc_30 "A2M3Z53J7dBEfVe3pBtTVMIQ8RVVm7UgYM9ia97g1D4=" 37919161000001 1755188743 8333828 (Some (Some 0)) (Some 0)
      (Some (m (Some acc_27) (Some acc_30) (Some "90936000") (Some "717606") (Some "0x0000005b")
       "te6cckEBBAEArQABCAAAAFsBAssAAAB2Et4MLVPUBHPy+Gg/ldgl4vuzbDGcjN+V+N4w+TPbVpyAETFaJ4Cz5UdNKu1AIYg15HNpD3iqvVfXNLEpvWIlMmYAAAAAAAAAAAAAAAAAAAAAAAAAAAAAAAAAAAAAAAAAAVACAwAcYXZhbGFuY2hlLWZ1amkAVDB4NzJENDg5RkM5MWYzMzAxMUVDNDZFZmE3OGQzN0UwMmRDQzMzNTQ1M9ftudI="))
      [m (Some acc_30) (Some acc_31) (Some "81694000") (Some "909341") (Some "0x00000023")
       "te6cckEBBgEA9QABTQAAACMQoCEt4MLVPUBHPy+Gg/ldgl4vuzbDGcjN+V+N4w+TPbVpyAEExRLeDC1T1ARz8vhoP5XYJeL7s2wxnIzflfjeMPkz21acAIARMVongLPlR00q7UAhiDXkc2kPeKq9V9c0sSm9YiUyZgAAAAAAAAAAAAAAAAAAAAAAAAAAAAAAAAAAAAAAAAABUAIDBAUAHGF2YWxhbmNoZS1mdWppAFQweDcyRDQ4OUZDOTFmMzMwMTFFQzQ2RWZhNzhkMzdFMDJkQ0MzMzU0NTMAAABDgAZ/fh5jD3LZvRZdAcRh6X146xB2hqa6AvYo2so7dFeMsFfl3kE="]);
    ("HJSzD3EWuqNgk39xBDWW5Y9DsjnHuxpwGAlRsCvorAw=", tx acc_33 "HJSzD3EWuqNgk39xBDWW5Y9DsjnHuxpwGAlRsCvorAw=" 37919178000001 1755188790 2468293 (Some (Some 0)) (Some 0)
      (Some (m (Some acc_27) (Some acc_33) (Some "49409600") (Some "393604") (Some "0x595f07bc")
       "te6cckEBAQEAMQAAXllfB7wAAAAAAAAAexCoALQR4VwlSpB//F98b/9uG3wHSO4J7BeXfp7F/EO7YjZgcyCPOA=="))
      [m (Some acc_33) (Some acc_32) (Some "46476800") (Some "464537") (Some "0x7bdd97de")
       "te6cckEBAQEAUwAAoXvdl94AAAAAAAAAexCoALQR4VwlSpB//F98b/9uG3wHSO4J7BeXfp7F/EO7YjZhABaCPCuEqVIP/4vvjf/tw2+A6R3BPYLy79PYv4h3bEbMILciMBc="]);
    ("OxjnPwTBthqMXD5uZPlPGBWb0fgJfN9qam8WiQLvtac=", tx acc_27 "OxjnPwTBthqMXD5uZPlPGBWb0fgJfN9qam8WiQLvtac=" 37919185000001 1755188815 3748531 (Some (Some 0)) (Some 0)
      (Some (m (Some acc_26) (Some acc_27) (Some "10682000") (Some "301869") (Some "0x00000018")
       "te6cckEBAQEABgAACAAAABhDnyiV"))
      []);
    ("XZ/U7E228DCOMy+xxM7RpEa7GZyA7Xf5j3cgFLprcZI=", tx acc_27 "XZ/U7E228DCOMy+xxM7RpEa7GZyA7Xf5j3cgFLprcZI=" 37919157000001 1755188729 7429769 (Some (Some 0)) (Some 0)
      (Some (m (Some acc_29) (Some acc_27) (Some "99083200") (Some "611205") (Some "0x00000071")
       "te6cckEBAwEAhAACiAAAAHES3gwtU9QEc/L4aD+V2CXi+7NsMZyM35X43jD5M9tWnAAAAAAAAAAAAAAAAAAAAAAAAAAAAAAAAAAAAAAAAAAKAQIAHGF2YWxhbmNoZS1mdWppAFQweDcyRDQ4OUZDOTFmMzMwMTFFQzQ2RWZhNzhkMzdFMDJkQ0MzMzU0NTNx88EP"))
      [m (Some acc_27) (Some acc_30) (Some "90936000") (Some "717606") (Some "0x0000005b")
       "te6cckEBBAEArQABCAAAAFsBAssAAAB2Et4MLVPUBHPy+Gg/ldgl4vuzbDGcjN+V+N4w+TPbVpyAETFaJ4Cz5UdNKu1AIYg15HNpD3iqvVfXNLEpvWIlMmYAAAAAAAAAAAAAAAAAAAAAAAAAAAAAAAAAAAAAAAAAAVACAwAcYXZhbGFuY2hlLWZ1amkAVDB4NzJENDg5RkM5MWYzMzAxMUVDNDZFZmE3OGQzN0UwMmRDQzMzNTQ1M9ftudI="]);
    ("c2iyZqlRDyUa7dOEizNOjIDmLxpKCxJmaqqkj/EhzcM=", tx acc_26 "c2iyZqlRDyUa7dOEizNOjIDmLxpKCxJmaqqkj/EhzcM=" 37919181000001 1755188802 9213514 (Some (Some 0)) (Some 0)
      (Some (m (Some acc_27) (Some acc_26) (Some "17156800") (Some "1895482") (Some "0x00000009")
       "te6cckECCQEAAqUAAwgAAAAJAQIDAAxheGVsYXIAgmF4ZWxhcjE1N2hsN2dwdWtuam1odGFjMnFucGh1YXp2MnllcmZhZ3ZhN2xzdTl2dWoycGduMzJ6MjJxYTI2ZGs0AcAAAAAAAAAAAAAAAAAAAAAAAAAAAAAAAAAAAAAAAAAAAwAAAAAAAAAAAAAAAAAAAAAAAAAAAAAAAAAAAAAAAABgAAAAAAAAAAAAAAAAAAAAAAAAAAAAAAAAAAAAAAAAAKAEAcAAAAAAAAAAAAAAAAAAAAAAAAAAAAAAAAAAAAAAAAAADmF2YWxhbmNoZS1mdWppAAAAAAAAAAAAAAAAAAAAAAAAAAAAAAAAAAAAAAAAAAAAAAAAAAAAAAAAAAAAAAAAAYAFAcAAAAAAAAAAAAAAAAAAAAAAAAAAAAAAAAAAAAAAAAAAABLeDC1T1ARz8vhoP5XYJeL7s2wxnIzflfjeMPkz21acAAAAAAAAAAAAAAAAAAAAAAAAAAAAAAAAAAAAAAAAAMAGAcAAAAAAAAAAAAAAAAAAAAAAAAAAAAAAAAAAAAAAAAABAAAAAAAAAAAAAAAAAAAAAAAAAAAAAAAAAAAAAAAAAAAKAAAAAAAAAAAAAAAAAAAAAAAAAAAAAAAAAAAAAAAAAWAHAcAAAAAAAAAAAAAAAAAAAAAAAAAAAAAAAAAAAAAAAAAAIImK0TwFnyo6aVdqAQxBryObSHvFVeq+uaWJTesRKZMwAAAAAAAAAAAAAAAAAAAAAAAAAAAAAAAAAAAAAAAAACoIAMAweDcyRDQ4OUZDOTFmMzMwMTFFQzQ2RWZhNzhkMzdFMDJkQ0MzMzU0NTMAAAAAAAAAAAAAAAAAAAAAAAAAAAAAAAAAAAAAAAAAAAAAAAAAAAAAAAAAAAAAAAAAAAAAAABNs+OC"))
      [m (Some acc_26) None None None (Some "0x800b411e")
       "te6cckECCQEAAuMAA4OAC0EeFcJUqQf/xffG//bht8B0juCewXl36exfxDu2I2YZyf4oO6leddBC8PQpsNIIuC4SBCDxUEgBryNlXht6yXABAgMADGF4ZWxhcgCCYXhlbGFyMTU3aGw3Z3B1a25qbWh0YWMycW5waHVhenYyeWVyZmFndmE3bHN1OXZ1ajJwZ24zMnoyMnFhMjZkazQBwAAAAAAAAAAAAAAAAAAAAAAAAAAAAAAAAAAAAAAAAAADAAAAAAAAAAAAAAAAAAAAAAAAAAAAAAAAAAAAAAAAAGAAAAAAAAAAAAAAAAAAAAAAAAAAAAAAAAAAAAAAAAAAoAQBwAAAAAAAAAAAAAAAAAAAAAAAAAAAAAAAAAAAAAAAAAAOYXZhbGFuY2hlLWZ1amkAAAAAAAAAAAAAAAAAAAAAAAAAAAAAAAAAAAAAAAAAAAAAAAAAAAAAAAAAAAAAAAABgAUBwAAAAAAAAAAAAAAAAAAAAAAAAAAAAAAAAAAAAAAAAAAAEt4MLVPUBHPy+Gg/ldgl4vuzbDGcjN+V+N4w+TPbVpwAAAAAAAAAAAAAAAAAAAAAAAAAAAAAAAAAAAAAAAAAwAYBwAAAAAAAAAAAAAAAAAAAAAAAAAAAAAAAAAAAAAAAAAEAAAAAAAAAAAAAAAAAAAAAAAAAAAAAAAAAAAAAAAAAAAoAAAAAAAAAAAAAAAAAAAAAAAAAAAAAAAAAAAAAAAABYAcBwAAAAAAAAAAAAAAAAAAAAAAAAAAAAAAAAAAAAAAAAAAgiYrRPAWfKjppV2oBDEGvI5tIe8VV6r65pYlN6xEpkzAAAAAAAAAAAAAAAAAAAAAAAAAAAAAAAAAAAAAAAAAAKggAwDB4NzJENDg5RkM5MWYzMzAxMUVDNDZFZmE3OGQzN0UwMmRDQzMzNTQ1MwAAAAAAAAAAAAAAAAAAAAAAAAAAAAAAAAAAAAAAAAAAAAAAAAAAAAAAAAAAAAAAAAAAAAAAAAeLxFM=";
       m (Some acc_26) (Some acc_27) (Some "10682000") (Some "301869") (Some "0x00000018")
       "te6cckEBAQEABgAACAAAABhDnyiV"]);
    ("g5UY1+5vE7gRsfMdxLu6zW6lW6FWym8P+YFFoZoK3ZY=", tx acc_27 "g5UY1+5vE7gRsfMdxLu6zW6lW6FWym8P+YFFoZoK3ZY=" 37919187000001 1755188819 3748416 (Some (Some 0)) (Some 0)
      (Some (m (Some acc_32) (Some acc_27) (Some "43463200") (Some "266669") (Some "0xd53276db")
       "te6cckEBAQEADgAAGNUydtsAAAAAAAAAe8E+iTQ="))
      []);
    ("gcqp/AT8Sb1xRPeK24KYJyvTP/Id1bv7AJMszx1p3Cw=", tx acc_31 "gcqp/AT8Sb1xRPeK24KYJyvTP/Id1bv7AJMszx1p3Cw=" 37919166000001 1755188754 6485535 (Some (Some 0)) (Some 0)
      (Some (m (Some acc_30) (Some acc_31) (Some "81694000") (Some "909341") (Some "0x00000023")
       "te6cckEBBgEA9QABTQAAACMQoCEt4MLVPUBHPy+Gg/ldgl4vuzbDGcjN+V+N4w+TPbVpyAEExRLeDC1T1ARz8vhoP5XYJeL7s2wxnIzflfjeMPkz21acAIARMVongLPlR00q7UAhiDXkc2kPeKq9V9c0sSm9YiUyZgAAAAAAAAAAAAAAAAAAAAAAAAAAAAAAAAAAAAAAAAABUAIDBAUAHGF2YWxhbmNoZS1mdWppAFQweDcyRDQ4OUZDOTFmMzMwMTFFQzQ2RWZhNzhkMzdFMDJkQ0MzMzU0NTMAAABDgAZ/fh5jD3LZvRZdAcRh6X146xB2hqa6AvYo2so7dFeMsFfl3kE="))
      [m (Some acc_31) (Some acc_30) (Some "74198400") (Some "1010142") (Some "0x7362d09c")
       "te6cckECBwEAARsAAg0AAAAkEKAoAQIAhYAGf34eYw9y2b0WXQHEYel9eOsQdoamugL2KNrKO3RXjLACJitE8BZ8qOmlXagEMQa8jm0h7xVXqvrmliU3rESmTMIExRLeDC1T1ARz8vhoP5XYJeL7s2wxnIzflfjeMPkz21acAIARMVongLPlR00q7UAhiDXkc2kPeKq9V9c0sSm9YiUyZgAAAAAAAAAAAAAAAAAAAAAAAAAAAAAAAAAAAAAAAAABUAMEBQYAHGF2YWxhbmNoZS1mdWppAFQweDcyRDQ4OUZDOTFmMzMwMTFFQzQ2RWZhNzhkMzdFMDJkQ0MzMzU0NTMAAABDgAZ/fh5jD3LZvRZdAcRh6X146xB2hqa6AvYo2so7dFeMsEDi4Uk="]);
    ("whzah8/IAGKVzmJNgD5/w9xygsneoYXrMtaluuPp1vs=", tx acc_27 "whzah8/IAGKVzmJNgD5/w9xygsneoYXrMtaluuPp1vs=" 37919174000001 1755188782 36939524 (Some (Some 0)) (Some 0)
      (Some (m (Some acc_30) (Some acc_27) (Some "66611200") (Some "835740") (Some "0x00000064")
       "te6cckEBBgEA0gABCAAAAGQBBMUS3gwtU9QEc/L4aD+V2CXi+7NsMZyM35X43jD5M9tWnACAETFaJ4Cz5UdNKu1AIYg15HNpD3iqvVfXNLEpvWIlMmYAAAAAAAAAAAAAAAAAAAAAAAAAAAAAAAAAAAAAAAAAAVACAwQFABxhdmFsYW5jaGUtZnVqaQBUMHg3MkQ0ODlGQzkxZjMzMDExRUM0NkVmYTc4ZDM3RTAyZENDMzM1NDUzAAAAQ4AGf34eYw9y2b0WXQHEYel9eOsQdoamugL2KNrKO3RXjLAKQCfH"))
      [m (Some acc_27) (Some acc_33) (Some "49409600") (Some "393604") (Some "0x595f07bc")
       "te6cckEBAQEAMQAAXllfB7wAAAAAAAAAexCoALQR4VwlSpB//F98b/9uG3wHSO4J7BeXfp7F/EO7YjZgcyCPOA==";
       m (Some acc_27) None None None (Some "0x00000110")
       "te6cckEBBQEAqgAEiAAAARAS3gwtU9QEc/L4aD+V2CXi+7NsMZyM35X43jD5M9tWnAAAAAAAAAAAAAAAAAAAAAAAAAAAAAAAAAAAAAAAAAAKAQIDBABAiYrRPAWfKjppV2oBDEGvI5tIe8VV6r65pYlN6xEpkzAAHGF2YWxhbmNoZS1mdWppAFQweDcyRDQ4OUZDOTFmMzMwMTFFQzQ2RWZhNzhkMzdFMDJkQ0MzMzU0NTMAAFf+L64=";
       m (Some acc_27) (Some acc_26) (Some "17156800") (Some "1895482") (Some "0x00000009")
       "te6cckECCQEAAqUAAwgAAAAJAQIDAAxheGVsYXIAgmF4ZWxhcjE1N2hsN2dwdWtuam1odGFjMnFucGh1YXp2MnllcmZhZ3ZhN2xzdTl2dWoycGduMzJ6MjJxYTI2ZGs0AcAAAAAAAAAAAAAAAAAAAAAAAAAAAAAAAAAAAAAAAAAAAwAAAAAAAAAAAAAAAAAAAAAAAAAAAAAAAAAAAAAAAABgAAAAAAAAAAAAAAAAAAAAAAAAAAAAAAAAAAAAAAAAAKAEAcAAAAAAAAAAAAAAAAAAAAAAAAAAAAAAAAAAAAAAAAAADmF2YWxhbmNoZS1mdWppAAAAAAAAAAAAAAAAAAAAAAAAAAAAAAAAAAAAAAAAAAAAAAAAAAAAAAAAAAAAAAAAAYAFAcAAAAAAAAAAAAAAAAAAAAAAAAAAAAAAAAAAAAAAAAAAABLeDC1T1ARz8vhoP5XYJeL7s2wxnIzflfjeMPkz21acAAAAAAAAAAAAAAAAAAAAAAAAAAAAAAAAAAAAAAAAAMAGAcAAAAAAAAAAAAAAAAAAAAAAAAAAAAAAAAAAAAAAAAABAAAAAAAAAAAAAAAAAAAAAAAAAAAAAAAAAAAAAAAAAAAKAAAAAAAAAAAAAAAAAAAAAAAAAAAAAAAAAAAAAAAAAWAHAcAAAAAAAAAAAAAAAAAAAAAAAAAAAAAAAAAAAAAAAAAAIImK0TwFnyo6aVdqAQxBryObSHvFVeq+uaWJTesRKZMwAAAAAAAAAAAAAAAAAAAAAAAAAAAAAAAAAAAAAAAAACoIAMAweDcyRDQ4OUZDOTFmMzMwMTFFQzQ2RWZhNzhkMzdFMDJkQ0MzMzU0NTMAAAAAAAAAAAAAAAAAAAAAAAAAAAAAAAAAAAAAAAAAAAAAAAAAAAAAAAAAAAAAAAAAAAAAAABNs+OC"])]
    ["+d7hO4nUDD+fh1VtCo1LMIlBgK5yZPDDJ3OM0KwhqKk="; "XZ/U7E228DCOMy+xxM7RpEa7GZyA7Xf5j3cgFLprcZI="; "A2M3Z53J7dBEfVe3pBtTVMIQ8RVVm7UgYM9ia97g1D4="; "gcqp/AT8Sb1xRPeK24KYJyvTP/Id1bv7AJMszx1p3Cw="; "58hOOEqNIDtZZhuNUR/BAjhXAickZzbdlM+HeBv0IlY="; "whzah8/IAGKVzmJNgD5/w9xygsneoYXrMtaluuPp1vs="; "HJSzD3EWuqNgk39xBDWW5Y9DsjnHuxpwGAlRsCvorAw="; "c2iyZqlRDyUa7dOEizNOjIDmLxpKCxJmaqqkj/EhzcM="; "6OX1TXo2cVXkZj04YsjU29BVopgGkR0lpWPf7asyiOQ="; "OxjnPwTBthqMXD5uZPlPGBWb0fgJfN9qam8WiQLvtac="; "g5UY1+5vE7gRsfMdxLu6zW6lW6FWym8P+YFFoZoK3ZY="].

Definition rest_22 : TraceRest :=
  recorded "cAcPNdHZSbmmKxtQNk+9P8WumaMR5Uu2F0nmK9Oh1dQ=" false 38165958000001 38165974000001 [
    ("2gTwnA6waevJZyHFOQHTMdMw7E5x+39aPbY1GDsyHbU=", tx acc_34 "2gTwnA6waevJZyHFOQHTMdMw7E5x+39aPbY1GDsyHbU=" 38165964000001 1755774515 4663230 (Some (Some 0)) (Some 0)
      (Some (m (Some acc_35) (Some acc_34) (Some "385781600") (Some "678139") (Some "0x0000005b")
       "te6cckEBBQEAkQABSwAAAFuAA/wfQc8FESUZQLIRjC/3IXuP27yFPCjZQJF7mmORIc7QAQNKAAAAc/ouBu/uyAAb79nRlsKAaKzdI5Nx3POP9NBaiTsmVjGDBAIDBAAcYXZhbGFuY2hlLWZ1amkAVDB4ZTgzNTU4YzcxNkYwOGIwOTVEMjFlM0YyMEMwMzE3MTNGNUZCODc5MQAAix7IiA=="))
      [m (Some acc_34) (Some acc_35) (Some "380097600") (Some "1021075") (Some "0x0000005c")
       "te6cckECCQEAAQ0AAksAAABcgAP8H0HPBRElGUCyEYwv9yF7j9u8hTwo2UCRe5pjkSHO0AECA4f6Lgbv7sgAG+/Z0ZbCgGis3SOTcdzzj/TQWok7JlYxgwQJgAftufbXfnJjFl0mQAD/w1qsEgm3Z6e4MjvQYd6lpxIdkAMEBQNKAAAAc/ouBu/uyAAb79nRlsKAaKzdI5Nx3POP9NBaiTsmVjGDBAYHCAAKQWlvdHgACkFJT1RYAEOABE3QGJf/UjW4I7Ww7g2qWacuCPglCK3aUM2gqTscVixwABxhdmFsYW5jaGUtZnVqaQBUMHhlODM1NThjNzE2RjA4YjA5NUQyMWUzRjIwQzAzMTcxM0Y1RkI4NzkxAACxchv4"]);
    ("9HqW2eJkz12EMfpHFZncY2FWqfKXKHrkBhGz1OGDrO0=", tx acc_26 "9HqW2eJkz12EMfpHFZncY2FWqfKXKHrkBhGz1OGDrO0=" 38165970000001 1755774528 9242892 (Some (Some 0)) (Some 0)
      (Some (m (Some acc_35) (Some acc_26) (Some "17156800") (Some "1895482") (Some "0x00000009")
       "te6cckECCQEAAqUAAwgAAAAJAQIDAAxheGVsYXIAgmF4ZWxhcjE1N2hsN2dwdWtuam1odGFjMnFucGh1YXp2MnllcmZhZ3ZhN2xzdTl2dWoycGduMzJ6MjJxYTI2ZGs0AcAAAAAAAAAAAAAAAAAAAAAAAAAAAAAAAAAAAAAAAAAAAwAAAAAAAAAAAAAAAAAAAAAAAAAAAAAAAAAAAAAAAABgAAAAAAAAAAAAAAAAAAAAAAAAAAAAAAAAAAAAAAAAAKAEAcAAAAAAAAAAAAAAAAAAAAAAAAAAAAAAAAAAAAAAAAAADmF2YWxhbmNoZS1mdWppAAAAAAAAAAAAAAAAAAAAAAAAAAAAAAAAAAAAAAAAAAAAAAAAAAAAAAAAAAAAAAAAAYAFAcAAAAAAAAAAAAAAAAAAAAAAAAAAAAAAAAAAAAAAAAAABfouBu/uyAAb79nRlsKAaKzdI5Nx3POP9NBaiTsmVjGDAAAAAAAAAAAAAAAAAAAAAAAAAAAAAAAAAAAAAAAAAAQGAcAAAAAAAAAAAAAAAAAAAAAAAAAAAAAAAAAAAAAAAAAAwAAAAAAAAAAAAAAAAAAAAAAAAAAAAAAAAAAAAAAAAAEAAAAAAAAAAAAAAAAAAAAAAAAAAAAAAAAAAAAAAAAAAWAHAcAAAAAAAAAAAAAAAAAAAAAAAAAAAAAAAAAAAAAAAAAAICJugMS/+pGtwR2th3BtUs05cEfBKEVu0oZtBUnY4rFjAAAAAAAAAAAAAAAAAAAAAAAAAAAAAAAAAAAAAAAAACoIAMAweGU4MzU1OGM3MTZGMDhiMDk1RDIxZTNGMjBDMDMxNzEzRjVGQjg3OTEAAAAAAAAAAAAAAAAAAAAAAAAAAAAAAAAAAAAAAAAAAAAAAAAAAAAAAAAAAAAAAAAAAAAAAADDyq1M"))
      [m (Some acc_26) None None None (Some "0x801214dc")
       "te6cckECCQEAAuMAA4OAEhTc14RjVZUHx5dNvR0mIPx3KF8Z99PdH/4CkWUgSvB4pudro/2qyKvflyWcANx0zBrWULrCZmH9M9mu4WVcf9ABAgMADGF4ZWxhcgCCYXhlbGFyMTU3aGw3Z3B1a25qbWh0YWMycW5waHVhenYyeWVyZmFndmE3bHN1OXZ1ajJwZ24zMnoyMnFhMjZkazQBwAAAAAAAAAAAAAAAAAAAAAAAAAAAAAAAAAAAAAAAAAADAAAAAAAAAAAAAAAAAAAAAAAAAAAAAAAAAAAAAAAAAGAAAAAAAAAAAAAAAAAAAAAAAAAAAAAAAAAAAAAAAAAAoAQBwAAAAAAAAAAAAAAAAAAAAAAAAAAAAAAAAAAAAAAAAAAOYXZhbGFuY2hlLWZ1amkAAAAAAAAAAAAAAAAAAAAAAAAAAAAAAAAAAAAAAAAAAAAAAAAAAAAAAAAAAAAAAAABgAUBwAAAAAAAAAAAAAAAAAAAAAAAAAAAAAAAAAAAAAAAAAAF+i4G7+7IABvv2dGWwoBorN0jk3Hc84/00FqJOyZWMYMAAAAAAAAAAAAAAAAAAAAAAAAAAAAAAAAAAAAAAAAABAYBwAAAAAAAAAAAAAAAAAAAAAAAAAAAAAAAAAAAAAAAAADAAAAAAAAAAAAAAAAAAAAAAAAAAAAAAAAAAAAAAAAAAQAAAAAAAAAAAAAAAAAAAAAAAAAAAAAAAAAAAAAAAAABYAcBwAAAAAAAAAAAAAAAAAAAAAAAAAAAAAAAAAAAAAAAAAAgIm6AxL/6ka3BHa2HcG1SzTlwR8EoRW7Shm0FSdjisWMAAAAAAAAAAAAAAAAAAAAAAAAAAAAAAAAAAAAAAAAAKggAwDB4ZTgzNTU4YzcxNkYwOGIwOTVEMjFlM0YyMEMwMzE3MTNGNUZCODc5MQAAAAAAAAAAAAAAAAAAAAAAAAAAAAAAAAAAAAAAAAAAAAAAAAAAAAAAAAAAAAAAAAAAAAAAAHxE7AE=";
       m (Some acc_26) (Some acc_35) (Some "10652000") (Some "301869") (Some "0x00000018")
       "te6cckEBAQEABgAACAAAABhDnyiV"]);
    ("Jfq+NTo1X/4gXQri4fUs4goCq4+zRoz4oHBq+rHI3KM=", tx acc_35 "Jfq+NTo1X/4gXQri4fUs4goCq4+zRoz4oHBq+rHI3KM=" 38165967000001 1755774521 38158702 (Some (Some 0)) (Some 0)
      (Some (m (Some acc_34) (Some acc_35) (Some "380097600") (Some "1021075") (Some "0x0000005c")
       "te6cckECCQEAAQ0AAksAAABcgAP8H0HPBRElGUCyEYwv9yF7j9u8hTwo2UCRe5pjkSHO0AECA4f6Lgbv7sgAG+/Z0ZbCgGis3SOTcdzzj/TQWok7JlYxgwQJgAftufbXfnJjFl0mQAD/w1qsEgm3Z6e4MjvQYd6lpxIdkAMEBQNKAAAAc/ouBu/uyAAb79nRlsKAaKzdI5Nx3POP9NBaiTsmVjGDBAYHCAAKQWlvdHgACkFJT1RYAEOABE3QGJf/UjW4I7Ww7g2qWacuCPglCK3aUM2gqTscVixwABxhdmFsYW5jaGUtZnVqaQBUMHhlODM1NThjNzE2RjA4YjA5NUQyMWUzRjIwQzAzMTcxM0Y1RkI4NzkxAACxchv4"))
      [m (Some acc_35) None None None (Some "0x00000074")
       "te6cckEBAwEAWgACSAAAAHT6Lgbv7sgAG+/Z0ZbCgGis3SOTcdzzj/TQWok7JlYxgwECABxhdmFsYW5jaGUtZnVqaQBAIm6AxL/6ka3BHa2HcG1SzTlwR8EoRW7Shm0FSdjisWOi/Eq5";
       m (Some acc_35) None None None (Some "0x00000105")
       "te6cckEBBQEAiwAESgAAAQU7aKPgEGHI4DOplpesxrI+eoKfjYFgNvZLEVdlNebutQIBAgMEABxhdmFsYW5jaGUtZnVqaQBAJpvjFkBMb4FOCuWz558aHSAQD3rVSr8Vfp3WxJ/8sFsAVDB4ODFlNjNlQThGNjRGRWRCOTg1OEVCNkUyMTc2QjQzMUZCZDEwZDFlQwAABJBC+Q==";
       m (Some acc_35) (Some acc_26) (Some "17156800") (Some "1895482") (Some "0x00000009")
       "te6cckECCQEAAqUAAwgAAAAJAQIDAAxheGVsYXIAgmF4ZWxhcjE1N2hsN2dwdWtuam1odGFjMnFucGh1YXp2MnllcmZhZ3ZhN2xzdTl2dWoycGduMzJ6MjJxYTI2ZGs0AcAAAAAAAAAAAAAAAAAAAAAAAAAAAAAAAAAAAAAAAAAAAwAAAAAAAAAAAAAAAAAAAAAAAAAAAAAAAAAAAAAAAABgAAAAAAAAAAAAAAAAAAAAAAAAAAAAAAAAAAAAAAAAAKAEAcAAAAAAAAAAAAAAAAAAAAAAAAAAAAAAAAAAAAAAAAAADmF2YWxhbmNoZS1mdWppAAAAAAAAAAAAAAAAAAAAAAAAAAAAAAAAAAAAAAAAAAAAAAAAAAAAAAAAAAAAAAAAAYAFAcAAAAAAAAAAAAAAAAAAAAAAAAAAAAAAAAAAAAAAAAAABfouBu/uyAAb79nRlsKAaKzdI5Nx3POP9NBaiTsmVjGDAAAAAAAAAAAAAAAAAAAAAAAAAAAAAAAAAAAAAAAAAAQGAcAAAAAAAAAAAAAAAAAAAAAAAAAAAAAAAAAAAAAAAAAAwAAAAAAAAAAAAAAAAAAAAAAAAAAAAAAAAAAAAAAAAAEAAAAAAAAAAAAAAAAAAAAAAAAAAAAAAAAAAAAAAAAAAWAHAcAAAAAAAAAAAAAAAAAAAAAAAAAAAAAAAAAAAAAAAAAAICJugMS/+pGtwR2th3BtUs05cEfBKEVu0oZtBUnY4rFjAAAAAAAAAAAAAAAAAAAAAAAAAAAAAAAAAAAAAAAAACoIAMAweGU4MzU1OGM3MTZGMDhiMDk1RDIxZTNGMjBDMDMxNzEzRjVGQjg3OTEAAAAAAAAAAAAAAAAAAAAAAAAAAAAAAAAAAAAAAAAAAAAAAAAAAAAAAAAAAAAAAAAAAAAAAADDyq1M";
       m (Some acc_35) (Some acc_36) (Some "296620000") (Some "301869") (Some "0x00000018")
       "te6cckEBAQEABgAACAAAABhDnyiV"]);
    ("cAcPNdHZSbmmKxtQNk+9P8WumaMR5Uu2F0nmK9Oh1dQ=", tx acc_36 "cAcPNdHZSbmmKxtQNk+9P8WumaMR5Uu2F0nmK9Oh1dQ=" 38165958000001 1755774495 3288731 (Some (Some 0)) (Some 0)
      (Some (m None (Some acc_36) None None (Some "0x7369676e")
       "te6cckEBBgEA+QABoXNpZ25///8RaKb+WAAAAYasqlFpphd0xua+RyOpcXX6TWQll6RqxDuxKyu0MgCeGldjGSSBFxBILajM9QaERN6sRSLX7MlpDESZnrAQir8C4AECCg7DyG0CBQIDsmIASFNzXhGNVlQfHl029HSYg/HcoXxn3090f/gKRZSBK8GgvrwgAAAAAAAAAAAAAAAAAAAAAABzAAAAAAAAAAAAAAAAAAAAAAAAAAAAAAAAAAAAAAAAAbwEAwQFABxhdmFsYW5jaGUtZnVqaQBUMHhlODM1NThjNzE2RjA4YjA5NUQyMWUzRjIwQzAzMTcxM0Y1RkI4NzkxAADXHVIN"))
      [m (Some acc_36) (Some acc_35) (Some "399300800") (Some "466137") (Some "0x00000073")
       "te6cckEBBAEAaAADSgAAAHMAAAAAAAAAAAAAAAAAAAAAAAAAAAAAAAAAAAAAAAABvAQBAgMAHGF2YWxhbmNoZS1mdWppAFQweGU4MzU1OGM3MTZGMDhiMDk1RDIxZTNGMjBDMDMxNzEzRjVGQjg3OTEAAOfO5Xo="]);
    ("dewHbL7BnX1mLT1aggSsz2hPrbgFG4b1Q3oyr8qMxLY=", tx acc_35 "dewHbL7BnX1mLT1aggSsz2hPrbgFG4b1Q3oyr8qMxLY=" 38165961000001 1755774508 12842199 (Some (Some 0)) (Some 0)
      (Some (m (Some acc_36) (Some acc_35) (Some "399300800") (Some "466137") (Some "0x00000073")
       "te6cckEBBAEAaAADSgAAAHMAAAAAAAAAAAAAAAAAAAAAAAAAAAAAAAAAAAAAAAABvAQBAgMAHGF2YWxhbmNoZS1mdWppAFQweGU4MzU1OGM3MTZGMDhiMDk1RDIxZTNGMjBDMDMxNzEzRjVGQjg3OTEAAOfO5Xo="))
      [m (Some acc_35) (Some acc_34) (Some "385781600") (Some "678139") (Some "0x0000005b")
       "te6cckEBBQEAkQABSwAAAFuAA/wfQc8FESUZQLIRjC/3IXuP27yFPCjZQJF7mmORIc7QAQNKAAAAc/ouBu/uyAAb79nRlsKAaKzdI5Nx3POP9NBaiTsmVjGDBAIDBAAcYXZhbGFuY2hlLWZ1amkAVDB4ZTgzNTU4YzcxNkYwOGIwOTVEMjFlM0YyMEMwMzE3MTNGNUZCODc5MQAAix7IiA=="]);
    ("vC1aQgOjeDOXYAx3CiN9GNzRG/l2CHscuZDfNy5BE/k=", tx acc_35 "vC1aQgOjeDOXYAx3CiN9GNzRG/l2CHscuZDfNy5BE/k=" 38165974000001 1755774537 4009665 (Some (Some 0)) (Some 0)
      (Some (m (Some acc_26) (Some acc_35) (Some "10652000") (Some "301869") (Some "0x00000018")
       "te6cckEBAQEABgAACAAAABhDnyiV"))
      []);
    ("zsqD7B+mE/SX6xolZ3xpJGyLCL9StC7/d9yEcWA5p9c=", tx acc_36 "zsqD7B+mE/SX6xolZ3xpJGyLCL9StC7/d9yEcWA5p9c=" 38165970000001 1755774528 311209 (Some (Some 0)) (Some 0)
      (Some (m (Some acc_35) (Some acc_36) (Some "296620000") (Some "301869") (Some "0x00000018")
       "te6cckEBAQEABgAACAAAABhDnyiV"))
      [])]
    ["cAcPNdHZSbmmKxtQNk+9P8WumaMR5Uu2F0nmK9Oh1dQ="; "dewHbL7BnX1mLT1aggSsz2hPrbgFG4b1Q3oyr8qMxLY="; "2gTwnA6waevJZyHFOQHTMdMw7E5x+39aPbY1GDsyHbU="; "Jfq+NTo1X/4gXQri4fUs4goCq4+zRoz4oHBq+rHI3KM="; "zsqD7B+mE/SX6xolZ3xpJGyLCL9StC7/d9yEcWA5p9c="; "9HqW2eJkz12EMfpHFZncY2FWqfKXKHrkBhGz1OGDrO0="; "vC1aQgOjeDOXYAx3CiN9GNzRG/l2CHscuZDfNy5BE/k="].

Definition rest_23 : TraceRest :=
  recorded "hPsKr1gX3tIId86HKUdy5X2+qJhMubDwU+2JVRCz0Aw=" false 38164191000001 38164207000001 [
    ("+PqJRrIoZ+UiDW7D89csYxkg0eh/i0o0mLPg/h+xUgM=", tx acc_37 "+PqJRrIoZ+UiDW7D89csYxkg0eh/i0o0mLPg/h+xUgM=" 38164191000004 1755770209 5077055 (Some (Some 0)) (Some 0)
      (Some (m (Some acc_36) (Some acc_37) (Some "98757200") (Some "828540") (Some "0x0f8a7ea5")
       "te6cckEBBgEAzgABqg+KfqUAAAAAAAAAABZIASFNzXhGNVlQfHl029HSYg/HcoXxn3090f/gKRZSBK8HAAf4PoOeCiJKMoFkIxhf7kL3H7d5CnhRsoEi9zTHIkOdiAe/pIEBAUOABE3QGJf/UjW4I7Ww7g2qWacuCPglCK3aUM2gqTscVixwAgJIAAAAcUSEFN4BvvV2LnNBt7zd3YBsMZic5cVSsgazFLrk64aFAwQAHGF2YWxhbmNoZS1mdWppAQAFAChRmQyDdVGRc2PnVjbW64fX9o3WyOEYuGw="))
      [m (Some acc_37) (Some acc_38) (Some "90667600") (Some "3071491") (Some "0x178d4519")
       "te6cckEBBgEAzgABqReNRRkAAAAAAAAAABZIAD/B9BzwURJRlAshGML/che4/bvIU8KNlAkXuaY5EhztAAf4PoOeCiJKMoFkIxhf7kL3H7d5CnhRsoEi9zTHIkOdkA9/SQMBAUOABE3QGJf/UjW4I7Ww7g2qWacuCPglCK3aUM2gqTscVixwAgJIAAAAcUSEFN4BvvV2LnNBt7zd3YBsMZic5cVSsgazFLrk64aFAwQAHGF2YWxhbmNoZS1mdWppAQAFAChRmQyDdVGRc2PnVjbW64fX9o3WyAQQYhU="]);
    ("+rzq0roTNGHBDmHs09pgaqgNYGpp5NsjBBhyOPbjhPE=", tx acc_35 "+rzq0roTNGHBDmHs09pgaqgNYGpp5NsjBBhyOPbjhPE=" 38164201000001 1755770232 34766582 (Some (Some 0)) (Some 0)
      (Some (m (Some acc_39) (Some acc_35) (Some "47766400") (Some "957874") (Some "0x00000064")
       "te6cckECBwEAAQIAAQgAAABkAQTFRIQU3gG+9XYuc0G3vN3dgGwxmJzlxVKyBrMUuuTrhoUCgAP8H0HPBRElGUCyEYwv9yF7j9u8hTwo2UCRe5pjkSHOwAAAAAAAAAAAAAAAAAAAAAAAAAAAAAAAAAAAAAAAAAyQAgMEBQAcYXZhbGFuY2hlLWZ1amkBAAYAAADJgARN0BiX/1I1uCO1sO4NqlmnLgj4JQit2lDNoKk7HFYscAB/g+g54KIkoygWQjGF/uQvcft3kKeFGygSL3NMciQ52gAftufbXfnJjFl0mQAD/w1qsEgm3Z6e4MjvQYd6lpxIdkAAKFGZDIN1UZFzY+dWNtbrh9f2jdbIsmEwSA=="))
      [m (Some acc_35) None None None (Some "0x00000110")
       "te6cckEBBgEAlwAEiAAAARBEhBTeAb71di5zQbe83d2AbDGYnOXFUrIGsxS65OuGhQAAAAAAAAAAAAAAAAAAAAAAAAAAAAAAAAAAAAAAAABkAQIDBABAH+D6DngoiSjKBZCMYX+5C9x+3eQp4UbKBIvc0xyJDnYAHGF2YWxhbmNoZS1mdWppAQAFAAAAKFGZDIN1UZFzY+dWNtbrh9f2jdbIXeB5oQ==";
       m (Some acc_35) (Some acc_26) (Some "17259200") (Some "1827214") (Some "0x00000009")
       "te6cckECCQEAAoUAAwgAAAAJAQIDAAxheGVsYXIAgmF4ZWxhcjE1N2hsN2dwdWtuam1odGFjMnFucGh1YXp2MnllcmZhZ3ZhN2xzdTl2dWoycGduMzJ6MjJxYTI2ZGs0AcAAAAAAAAAAAAAAAAAAAAAAAAAAAAAAAAAAAAAAAAAAAwAAAAAAAAAAAAAAAAAAAAAAAAAAAAAAAAAAAAAAAABgAAAAAAAAAAAAAAAAAAAAAAAAAAAAAAAAAAAAAAAAAKAEAcAAAAAAAAAAAAAAAAAAAAAAAAAAAAAAAAAAAAAAAAAADmF2YWxhbmNoZS1mdWppAAAAAAAAAAAAAAAAAAAAAAAAAAAAAAAAAAAAAAAAAAAAAAAAAAAAAAAAAAAAAAAAAWAFAcAAAAAAAAAAAAAAAAAAAAAAAAAAAAAAAAAAAAAAAAAAAESEFN4BvvV2LnNBt7zd3YBsMZic5cVSsgazFLrk64aFAAAAAAAAAAAAAAAAAAAAAAAAAAAAAAAAAAAAAAAAAMAGAcAAAAAAAAAAAAAAAAAAAAAAAAAAAAAAAAAAAAAAAAABAAAAAAAAAAAAAAAAAAAAAAAAAAAAAAAAAAAAAAAAAABkAAAAAAAAAAAAAAAAAAAAAAAAAAAAAAAAAAAAAAAAAUAHAcAAAAAAAAAAAAAAAAAAAAAAAAAAAAAAAAAAAAAAAAAAIB/g+g54KIkoygWQjGF/uQvcft3kKeFGygSL3NMciQ52AAAAAAAAAAAAAAAAAAAAAAAAAAAAAAAAAAAAAAAAABQIAIBRmQyDdVGRc2PnVjbW64fX9o3WyAAAAAAAAAAAAAAAAAAAAAAAAAAAAAAAAAAAAAAAAAAAAAAAAAAAAAAAAAAA8T3Epw==";
       m (Some acc_35) (Some acc_36) (Some "7031600") (Some "301869") (Some "0x00000018")
       "te6cckEBAQEABgAACAAAABhDnyiV"]);
    ("/svJlf3j1HUDKwOvF7SiVO0kKiSXI28vhpFeJaVp5cU=", tx acc_40 "/svJlf3j1HUDKwOvF7SiVO0kKiSXI28vhpFeJaVp5cU=" 38164191000003 1755770209 5365665 (Some (Some 0)) (Some 0)
      (Some (m (Some acc_36) (Some acc_40) (Some "47907600") (Some "1394944") (Some "0x0000001f")
       "te6cckECCAEAAfcABEsAAAAfgAP8H0HPBRElGUCyEYwv9yF7j9u8hTwo2UCRe5pjkSHO0AECAwQAHGF2YWxhbmNoZS1mdWppAFQweDUxOTkwQzgzNzU1MTkxNzM2M2U3NTYzNkQ2RWI4N2Q3RjY4REQ2YzgBwAAAAAAAAAAAAAAAAAAAAAAAAAAAAAAAAAAAAAAAAAAARIQU3gG+9XYuc0G3vN3dgGwxmJzlxVKyBrMUuuTrhoUAAAAAAAAAAAAAAAAAAAAAAAAAAAAAAAAAAAAAAAAAwAUAQ4AD/B9BzwURJRlAshGML/che4/bvIU8KNlAkXuaY5EhztABwAAAAAAAAAAAAAAAAAAAAAAAAAAAAAAAAAAAAAAAAAEAAAAAAAAAAAAAAAAAAAAAAAAAAAAAAAAAAAAAAAAAAGQAAAAAAAAAAAAAAAAAAAAAAAAAAAAAAAAAAAAAAAABQAYBwAAAAAAAAAAAAAAAAAAAAAAAAAAAAAAAAAAAAAAAAAAgH+D6DngoiSjKBZCMYX+5C9x+3eQp4UbKBIvc0xyJDnYAAAAAAAAAAAAAAAAAAAAAAAAAAAAAAAAAAAAAAAAAFAcAgFGZDIN1UZFzY+dWNtbrh9f2jdbIAAAAAAAAAAAAAAAAAAAAAAAAAAAAAAAAAAAAAAAAAAAAAAAAAAAAAAAAAAABu6FS"))
      [m (Some acc_40) None None None (Some "0x8003fc1f")
       "te6cckEBBAEAxwADw4AD/B9BzwURJRlAshGML/che4/bvIU8KNlAkXuaY5EhzsFdn/ek5SARC5QoYLV7KKmEp5u4U4lGnQhMuUeDEHuIAAAAAAAAAAAAAAAAAAAAAAAAAAAAAAAAAAAAAABbYGIQAQIDAEOAA/wfQc8FESUZQLIRjC/3IXuP27yFPCjZQJF7mmORIc7QABxhdmFsYW5jaGUtZnVqaQBUMHg1MTk5MEM4Mzc1NTE5MTczNjNlNzU2MzZENkViODdkN0Y2OERENmM4HNqokA=="]);
    ("5/E0TGcmv9ozcKScnIU18ctVRO4lCDROxyMM1+zDHz4=", tx acc_35 "5/E0TGcmv9ozcKScnIU18ctVRO4lCDROxyMM1+zDHz4=" 38164207000001 1755770246 4009657 (Some (Some 0)) (Some 0)
      (Some (m (Some acc_26) (Some acc_35) (Some "10755600") (Some "301869") (Some "0x00000018")
       "te6cckEBAQEABgAACAAAABhDnyiV"))
      []);
    ("5KMDHCmejwfbvX9hRg+jNiKpjfNNpJVscZ/+0cWZ5fw=", tx acc_36 "5KMDHCmejwfbvX9hRg+jNiKpjfNNpJVscZ/+0cWZ5fw=" 38164191000009 1755770209 311200 (Some (Some 0)) (Some 0)
      (Some (m (Some acc_38) (Some acc_36) (Some "660364") (Some "266669") (Some "0xd53276db")
       "te6cckEBAQEADgAAGNUydtsAAAAAAAAAAPfBmNw="))
      []);
    ("R2sK+Gy9sPdS5S+4ELlB4dV6iDDqD2/vw18vkRDsmfQ=", tx acc_38 "R2sK+Gy9sPdS5S+4ELlB4dV6iDDqD2/vw18vkRDsmfQ=" 38164191000006 1755770209 4516658 (Some (Some 0)) (Some 0)
      (Some (m (Some acc_37) (Some acc_38) (Some "90667600") (Some "3071491") (Some "0x178d4519")
       "te6cckEBBgEAzgABqReNRRkAAAAAAAAAABZIAD/B9BzwURJRlAshGML/che4/bvIU8KNlAkXuaY5EhztAAf4PoOeCiJKMoFkIxhf7kL3H7d5CnhRsoEi9zTHIkOdkA9/SQMBAUOABE3QGJf/UjW4I7Ww7g2qWacuCPglCK3aUM2gqTscVixwAgJIAAAAcUSEFN4BvvV2LnNBt7zd3YBsMZic5cVSsgazFLrk64aFAwQAHGF2YWxhbmNoZS1mdWppAQAFAChRmQyDdVGRc2PnVjbW64fX9o3WyAQQYhU="))
      [m (Some acc_38) (Some acc_35) (Some "65000000") (Some "747473") (Some "0x7362d09c")
       "te6cckEBBgEAqAABXnNi0JwAAAAAAAAAABZIAD/B9BzwURJRlAshGML/che4/bvIU8KNlAkXuaY5EhztAQFDgARN0BiX/1I1uCO1sO4NqlmnLgj4JQit2lDNoKk7HFYscAICSAAAAHFEhBTeAb71di5zQbe83d2AbDGYnOXFUrIGsxS65OuGhQMEABxhdmFsYW5jaGUtZnVqaQEABQAoUZkMg3VRkXNj51Y21uuH1/aN1sjqzbug";
       m (Some acc_38) (Some acc_36) (Some "660364") (Some "266669") (Some "0xd53276db")
       "te6cckEBAQEADgAAGNUydtsAAAAAAAAAAPfBmNw="]);
    ("fUMWBzkQ2q63UTyqj9Cg4/FnEBy4g25TYPeLZl0pcn4=", tx acc_36 "fUMWBzkQ2q63UTyqj9Cg4/FnEBy4g25TYPeLZl0pcn4=" 38164203000001 1755770238 311208 (Some (Some 0)) (Some 0)
      (Some (m (Some acc_35) (Some acc_36) (Some "7031600") (Some "301869") (Some "0x00000018")
       "te6cckEBAQEABgAACAAAABhDnyiV"))
      []);
    ("hPsKr1gX3tIId86HKUdy5X2+qJhMubDwU+2JVRCz0Aw=", tx acc_36 "hPsKr1gX3tIId86HKUdy5X2+qJhMubDwU+2JVRCz0Aw=" 38164191000001 1755770209 6908956 (Some (Some 0)) (Some 0)
      (Some (m None (Some acc_36) None None (Some "0x7369676e")
       "te6cckECEgEAA4gAAaFzaWduf///EWim7ZwAAAF7tf9+HBj+aiLiCMFNdI5dv7bNoqFJnkIpd88pq1Ngmyei/qSn4y1O/WxcfNQixA1TqjW2Cq0xWl//l88WvCmAQWABAgoOw8htAgIDAgoOw8htAgQFAWhiABQg5VbSu8YRe8QWBi1DPeBCFnnEuft7GzCg+Y8/45LDoC+vCAAAAAAAAAAAAAAAAAABDAAABLNiABNd3yGzMpJKtrzitymmYIYn79f1550RrvDjCxnD33TZIBfXhAAAAAAAAAAAAAAAAAAAAAAAH4AD/B9BzwURJRlAshGML/che4/bvIU8KNlAkXuaY5EhztAPBgcIAFQweDUxOTkwQzgzNzU1MTkxNzM2M2U3NTYzNkQ2RWI4N2Q3RjY4REQ2YzgBwAAAAAAAAAAAAAAAAAAAAAAAAAAAAAAAAAAAAAAAAAAARIQU3gG+9XYuc0G3vN3dgGwxmJzlxVKyBrMUuuTrhoUAAAAAAAAAAAAAAAAAAAAAAAAAAAAAAAAAAAAAAAAAwAkAQ4AD/B9BzwURJRlAshGML/che4/bvIU8KNlAkXuaY5EhztABwAAAAAAAAAAAAAAAAAAAAAAAAAAAAAAAAAAAAAAAAAEAAAAAAAAAAAAAAAAAAAAAAAAAAAAAAAAAAAAAAAAAAGQAAAAAAAAAAAAAAAAAAAAAAAAAAAAAAAAAAAAAAAABQAoBwAAAAAAAAAAAAAAAAAAAAAAAAAAAAAAAAAAAAAAAAAAgH+D6DngoiSjKBZCMYX+5C9x+3eQp4UbKBIvc0xyJDnYAAAAAAAAAAAAAAAAAAAAAAAAAAAAAAAAAAAAAAAAAFAsAgFGZDIN1UZFzY+dWNtbrh9f2jdbIAAAAAAAAAAAAAAAAAAAAAAAAAAAAAAAAAAAAAAAAAAAAAAAAAAAAAAAAAAABqg+KfqUAAAAAAAAAABZIASFNzXhGNVlQfHl029HSYg/HcoXxn3090f/gKRZSBK8HAAf4PoOeCiJKMoFkIxhf7kL3H7d5CnhRsoEi9zTHIkOdiAe/pIENAUOABE3QGJf/UjW4I7Ww7g2qWacuCPglCK3aUM2gqTscVixwDgJIAAAAcUSEFN4BvvV2LnNBt7zd3YBsMZic5cVSsgazFLrk64aFDxAAHGF2YWxhbmNoZS1mdWppAQARAChRmQyDdVGRc2PnVjbW64fX9o3WyN3WDbA="))
      [m (Some acc_36) (Some acc_40) (Some "47907600") (Some "1394944") (Some "0x0000001f")
       "te6cckECCAEAAfcABEsAAAAfgAP8H0HPBRElGUCyEYwv9yF7j9u8hTwo2UCRe5pjkSHO0AECAwQAHGF2YWxhbmNoZS1mdWppAFQweDUxOTkwQzgzNzU1MTkxNzM2M2U3NTYzNkQ2RWI4N2Q3RjY4REQ2YzgBwAAAAAAAAAAAAAAAAAAAAAAAAAAAAAAAAAAAAAAAAAAARIQU3gG+9XYuc0G3vN3dgGwxmJzlxVKyBrMUuuTrhoUAAAAAAAAAAAAAAAAAAAAAAAAAAAAAAAAAAAAAAAAAwAUAQ4AD/B9BzwURJRlAshGML/che4/bvIU8KNlAkXuaY5EhztABwAAAAAAAAAAAAAAAAAAAAAAAAAAAAAAAAAAAAAAAAAEAAAAAAAAAAAAAAAAAAAAAAAAAAAAAAAAAAAAAAAAAAGQAAAAAAAAAAAAAAAAAAAAAAAAAAAAAAAAAAAAAAAABQAYBwAAAAAAAAAAAAAAAAAAAAAAAAAAAAAAAAAAAAAAAAAAgH+D6DngoiSjKBZCMYX+5C9x+3eQp4UbKBIvc0xyJDnYAAAAAAAAAAAAAAAAAAAAAAAAAAAAAAAAAAAAAAAAAFAcAgFGZDIN1UZFzY+dWNtbrh9f2jdbIAAAAAAAAAAAAAAAAAAAAAAAAAAAAAAAAAAAAAAAAAAAAAAAAAAAAAAAAAAABu6FS";
       m (Some acc_36) (Some acc_37) (Some "98757200") (Some "828540") (Some "0x0f8a7ea5")
       "te6cckEBBgEAzgABqg+KfqUAAAAAAAAAABZIASFNzXhGNVlQfHl029HSYg/HcoXxn3090f/gKRZSBK8HAAf4PoOeCiJKMoFkIxhf7kL3H7d5CnhRsoEi9zTHIkOdiAe/pIEBAUOABE3QGJf/UjW4I7Ww7g2qWacuCPglCK3aUM2gqTscVixwAgJIAAAAcUSEFN4BvvV2LnNBt7zd3YBsMZic5cVSsgazFLrk64aFAwQAHGF2YWxhbmNoZS1mdWppAQAFAChRmQyDdVGRc2PnVjbW64fX9o3WyOEYuGw="]);
    ("oHbZeEN1HAckxXudpBBUsHFxLTBkaunUfl442fbHaOw=", tx acc_39 "oHbZeEN1HAckxXudpBBUsHFxLTBkaunUfl442fbHaOw=" 38164197000001 1755770224 6725915 (Some (Some 0)) (Some 0)
      (Some (m (Some acc_35) (Some acc_39) (Some "55450000") (Some "869340") (Some "0x0000005b")
       "te6cckEBBgEA4gABSwAAAFuAA/wfQc8FESUZQLIRjC/3IXuP27yFPCjZQJF7mmORIc7QAQPNAAAAdoAD/B9BzwURJRlAshGML/che4/bvIU8KNlAkXuaY5EhzsAAAAAAAAAAAAAAAAAAAAAAAAAAAAAAAAAAAAAAAAAMkAD9tz7a785MYsukyAAf+GtVgkE27PT3Bkd6DDvUtOJDsgIDBAAcYXZhbGFuY2hlLWZ1amkBAAUAQ4AETdAYl/9SNbgjtbDuDapZpy4I+CUIrdpQzaCpOxxWLHAAKFGZDIN1UZFzY+dWNtbrh9f2jdbIz9YNXA=="))
      [m (Some acc_39) (Some acc_35) (Some "47766400") (Some "957874") (Some "0x00000064")
       "te6cckECBwEAAQIAAQgAAABkAQTFRIQU3gG+9XYuc0G3vN3dgGwxmJzlxVKyBrMUuuTrhoUCgAP8H0HPBRElGUCyEYwv9yF7j9u8hTwo2UCRe5pjkSHOwAAAAAAAAAAAAAAAAAAAAAAAAAAAAAAAAAAAAAAAAAyQAgMEBQAcYXZhbGFuY2hlLWZ1amkBAAYAAADJgARN0BiX/1I1uCO1sO4NqlmnLgj4JQit2lDNoKk7HFYscAB/g+g54KIkoygWQjGF/uQvcft3kKeFGygSL3NMciQ52gAftufbXfnJjFl0mQAD/w1qsEgm3Z6e4MjvQYd6lpxIdkAAKFGZDIN1UZFzY+dWNtbrh9f2jdbIsmEwSA=="]);
    ("pUPeU1OBeanB458UvKbg2pkbZN6tKAIeA7E8m4wWohI=", tx acc_26 "pUPeU1OBeanB458UvKbg2pkbZN6tKAIeA7E8m4wWohI=" 38164203000001 1755770238 9139154 (Some (Some 0)) (Some 0)
      (Some (m (Some acc_35) (Some acc_26) (Some "17259200") (Some "1827214") (Some "0x00000009")
       "te6cckECCQEAAoUAAwgAAAAJAQIDAAxheGVsYXIAgmF4ZWxhcjE1N2hsN2dwdWtuam1odGFjMnFucGh1YXp2MnllcmZhZ3ZhN2xzdTl2dWoycGduMzJ6MjJxYTI2ZGs0AcAAAAAAAAAAAAAAAAAAAAAAAAAAAAAAAAAAAAAAAAAAAwAAAAAAAAAAAAAAAAAAAAAAAAAAAAAAAAAAAAAAAABgAAAAAAAAAAAAAAAAAAAAAAAAAAAAAAAAAAAAAAAAAKAEAcAAAAAAAAAAAAAAAAAAAAAAAAAAAAAAAAAAAAAAAAAADmF2YWxhbmNoZS1mdWppAAAAAAAAAAAAAAAAAAAAAAAAAAAAAAAAAAAAAAAAAAAAAAAAAAAAAAAAAAAAAAAAAWAFAcAAAAAAAAAAAAAAAAAAAAAAAAAAAAAAAAAAAAAAAAAAAESEFN4BvvV2LnNBt7zd3YBsMZic5cVSsgazFLrk64aFAAAAAAAAAAAAAAAAAAAAAAAAAAAAAAAAAAAAAAAAAMAGAcAAAAAAAAAAAAAAAAAAAAAAAAAAAAAAAAAAAAAAAAABAAAAAAAAAAAAAAAAAAAAAAAAAAAAAAAAAAAAAAAAAABkAAAAAAAAAAAAAAAAAAAAAAAAAAAAAAAAAAAAAAAAAUAHAcAAAAAAAAAAAAAAAAAAAAAAAAAAAAAAAAAAAAAAAAAAIB/g+g54KIkoygWQjGF/uQvcft3kKeFGygSL3NMciQ52AAAAAAAAAAAAAAAAAAAAAAAAAAAAAAAAAAAAAAAAABQIAIBRmQyDdVGRc2PnVjbW64fX9o3WyAAAAAAAAAAAAAAAAAAAAAAAAAAAAAAAAAAAAAAAAAAAAAAAAAAAAAAAAAAA8T3Epw=="))
      [m (Some acc_26) None None None (Some "0x801214dc")
       "te6cckECCQEAAsMAA4OAEhTc14RjVZUHx5dNvR0mIPx3KF8Z99PdH/4CkWUgSvB1jXCCEbCKh2qmqReav2xT33I6gkw9huhyvHxfDJAgm/ABAgMADGF4ZWxhcgCCYXhlbGFyMTU3aGw3Z3B1a25qbWh0YWMycW5waHVhenYyeWVyZmFndmE3bHN1OXZ1ajJwZ24zMnoyMnFhMjZkazQBwAAAAAAAAAAAAAAAAAAAAAAAAAAAAAAAAAAAAAAAAAADAAAAAAAAAAAAAAAAAAAAAAAAAAAAAAAAAAAAAAAAAGAAAAAAAAAAAAAAAAAAAAAAAAAAAAAAAAAAAAAAAAAAoAQBwAAAAAAAAAAAAAAAAAAAAAAAAAAAAAAAAAAAAAAAAAAOYXZhbGFuY2hlLWZ1amkAAAAAAAAAAAAAAAAAAAAAAAAAAAAAAAAAAAAAAAAAAAAAAAAAAAAAAAAAAAAAAAABYAUBwAAAAAAAAAAAAAAAAAAAAAAAAAAAAAAAAAAAAAAAAAAARIQU3gG+9XYuc0G3vN3dgGwxmJzlxVKyBrMUuuTrhoUAAAAAAAAAAAAAAAAAAAAAAAAAAAAAAAAAAAAAAAAAwAYBwAAAAAAAAAAAAAAAAAAAAAAAAAAAAAAAAAAAAAAAAAEAAAAAAAAAAAAAAAAAAAAAAAAAAAAAAAAAAAAAAAAAAGQAAAAAAAAAAAAAAAAAAAAAAAAAAAAAAAAAAAAAAAABQAcBwAAAAAAAAAAAAAAAAAAAAAAAAAAAAAAAAAAAAAAAAAAgH+D6DngoiSjKBZCMYX+5C9x+3eQp4UbKBIvc0xyJDnYAAAAAAAAAAAAAAAAAAAAAAAAAAAAAAAAAAAAAAAAAFAgAgFGZDIN1UZFzY+dWNtbrh9f2jdbIAAAAAAAAAAAAAAAAAAAAAAAAAAAAAAAAAAAAAAAAAAAAAAAAAAAAAAAAAACUZT7J";
       m (Some acc_26) (Some acc_35) (Some "10755600") (Some "301869") (Some "0x00000018")
       "te6cckEBAQEABgAACAAAABhDnyiV"]);
    ("saL/riUBxpQKl0IXphgK68GC5fnfxWRwzwRkFJyKQwQ=", tx acc_35 "saL/riUBxpQKl0IXphgK68GC5fnfxWRwzwRkFJyKQwQ=" 38164194000001 1755770216 8681320 (Some (Some 0)) (Some 0)
      (Some (m (Some acc_38) (Some acc_35) (Some "65000000") (Some "747473") (Some "0x7362d09c")
       "te6cckEBBgEAqAABXnNi0JwAAAAAAAAAABZIAD/B9BzwURJRlAshGML/che4/bvIU8KNlAkXuaY5EhztAQFDgARN0BiX/1I1uCO1sO4NqlmnLgj4JQit2lDNoKk7HFYscAICSAAAAHFEhBTeAb71di5zQbe83d2AbDGYnOXFUrIGsxS65OuGhQMEABxhdmFsYW5jaGUtZnVqaQEABQAoUZkMg3VRkXNj51Y21uuH1/aN1sjqzbug"))
      [m (Some acc_35) (Some acc_39) (Some "55450000") (Some "869340") (Some "0x0000005b")
       "te6cckEBBgEA4gABSwAAAFuAA/wfQc8FESUZQLIRjC/3IXuP27yFPCjZQJF7mmORIc7QAQPNAAAAdoAD/B9BzwURJRlAshGML/che4/bvIU8KNlAkXuaY5EhzsAAAAAAAAAAAAAAAAAAAAAAAAAAAAAAAAAAAAAAAAAMkAD9tz7a785MYsukyAAf+GtVgkE27PT3Bkd6DDvUtOJDsgIDBAAcYXZhbGFuY2hlLWZ1amkBAAUAQ4AETdAYl/9SNbgjtbDuDapZpy4I+CUIrdpQzaCpOxxWLHAAKFGZDIN1UZFzY+dWNtbrh9f2jdbIz9YNXA=="])]
    ["hPsKr1gX3tIId86HKUdy5X2+qJhMubDwU+2JVRCz0Aw="; "/svJlf3j1HUDKwOvF7SiVO0kKiSXI28vhpFeJaVp5cU="; "+PqJRrIoZ+UiDW7D89csYxkg0eh/i0o0mLPg/h+xUgM="; "R2sK+Gy9sPdS5S+4ELlB4dV6iDDqD2/vw18vkRDsmfQ="; "5KMDHCmejwfbvX9hRg+jNiKpjfNNpJVscZ/+0cWZ5fw="; "saL/riUBxpQKl0IXphgK68GC5fnfxWRwzwRkFJyKQwQ="; "oHbZeEN1HAckxXudpBBUsHFxLTBkaunUfl442fbHaOw="; "+rzq0roTNGHBDmHs09pgaqgNYGpp5NsjBBhyOPbjhPE="; "fUMWBzkQ2q63UTyqj9Cg4/FnEBy4g25TYPeLZl0pcn4="; "pUPeU1OBeanB458UvKbg2pkbZN6tKAIeA7E8m4wWohI="; "5/E0TGcmv9ozcKScnIU18ctVRO4lCDROxyMM1+zDHz4="].

Definition rest_24 : TraceRest :=
  recorded "G2BNxlnpptENbIhiUQ/VdsGfQXvU0ZkXGzUhEI6BVJM=" false 38320126000001 38320132000001 [
    ("/PUGEmcO7jSed3N7dCBAREDUs81ByxxLLjiL//NALxI=", tx acc_29 "/PUGEmcO7jSed3N7dCBAREDUs81ByxxLLjiL//NALxI=" 38320132000001 1756141241 311203 (Some (Some 0)) (Some 0)
      (Some (m (Some acc_26) (Some acc_29) (Some "47672800") (Some "301869") (Some "0x00000018")
       "te6cckEBAQEABgAACAAAABhDnyiV"))
      []);
    ("G2BNxlnpptENbIhiUQ/VdsGfQXvU0ZkXGzUhEI6BVJM=", tx acc_29 "G2BNxlnpptENbIhiUQ/VdsGfQXvU0ZkXGzUhEI6BVJM=" 38320126000001 1756141226 4204929 (Some (Some 0)) (Some 0)
      (Some (m None (Some acc_29) None None (Some "0x7369676e")
       "te6cckECCAEAAbkAAaFzaWduf///EWisluMAAAEsmqMtAeRncrzqvdRgaUGts9cY2PUtjArNmMRaKhG/iEm+Vm9Ge73J90V6Q0Ymbzxz2C9/d6ukmPAFBUpKzaodgGABAgoOw8htAgIDAAABcGIAFKa5diENyYYwQqegmjxgsX7ndjK6MEJ11nEpE4wUvNEgHJw4AAAAAAAAAAAAAAAAAAAAAAAVBAFhgAAAAAAAAAAAAAAAAAAAAQAAAAAAAAAAAAAAAAAAAAAAAAAAAAAAAAAAAAAAQhuYQAUCAs8GBwDhAeEF9T4pADrYxQRNtTUTBfCGrg8Teq9IRkjjmMQ25LEAAAAAAAAAAAAAAAAAAAAAQAAAAAAAAAAAAAAAAAAAAAAAAAAAAAAAAAAAAAAAAAAAAAAAAAAAAAAAAAAAAAAAAAAAAAAAAAAAAAAAAAAAACAA4SwAFGJrITTodZ1hHcAd3iR3edR+hB9ZIN79jN9Mt9nkAAAAAAAAAAAAAAAAAAAAAEAAAAAAAAAAAAAAAAAAAAAAAAAAAAAAAAAAAAAAAAAAAAAAAAAAAAAAAAAAAAAAAAAAAAAAAAAAAAAAAAAAAAAgSRJSTw=="))
      [m (Some acc_29) (Some acc_26) (Some "58564400") (Some "957074") (Some "0x00000015")
       "te6cckECBQEAASYAAQgAAAAVAQFhgAAAAAAAAAAAAAAAAAAAAQAAAAAAAAAAAAAAAAAAAAAAAAAAAAAAAAAAAAAAQhuYQAICAs8DBADhAeEF9T4pADrYxQRNtTUTBfCGrg8Teq9IRkjjmMQ25LEAAAAAAAAAAAAAAAAAAAAAQAAAAAAAAAAAAAAAAAAAAAAAAAAAAAAAAAAAAAAAAAAAAAAAAAAAAAAAAAAAAAAAAAAAAAAAAAAAAAAAAAAAACAA4SwAFGJrITTodZ1hHcAd3iR3edR+hB9ZIN79jN9Mt9nkAAAAAAAAAAAAAAAAAAAAAEAAAAAAAAAAAAAAAAAAAAAAAAAAAAAAAAAAAAAAAAAAAAAAAAAAAAAAAAAAAAAAAAAAAAAAAAAAAAAAAAAAAAAg3oFWEg=="]);
    ("QJZFsOFCQ+c0TbFdGxu8zRovdL3g3M/HsKd39MNA0C8=", tx acc_26 "QJZFsOFCQ+c0TbFdGxu8zRovdL3g3M/HsKd39MNA0C8=" 38320129000001 1756141233 12282941 (Some (Some 0)) (Some 0)
      (Some (m (Some acc_29) (Some acc_26) (Some "58564400") (Some "957074") (Some "0x00000015")
       "te6cckECBQEAASYAAQgAAAAVAQFhgAAAAAAAAAAAAAAAAAAAAQAAAAAAAAAAAAAAAAAAAAAAAAAAAAAAAAAAAAAAQhuYQAICAs8DBADhAeEF9T4pADrYxQRNtTUTBfCGrg8Teq9IRkjjmMQ25LEAAAAAAAAAAAAAAAAAAAAAQAAAAAAAAAAAAAAAAAAAAAAAAAAAAAAAAAAAAAAAAAAAAAAAAAAAAAAAAAAAAAAAAAAAAAAAAAAAAAAAAAAAACAA4SwAFGJrITTodZ1hHcAd3iR3edR+hB9ZIN79jN9Mt9nkAAAAAAAAAAAAAAAAAAAAAEAAAAAAAAAAAAAAAAAAAAAAAAAAAAAAAAAAAAAAAAAAAAAAAAAAAAAAAAAAAAAAAAAAAAAAAAAAAAAAAAAAAAAg3oFWEg=="))
      [m (Some acc_26) None None None (Some "0x0000002a")
       "te6cckECBQEAAWYAAYgAAAAqSxYxcRd87+m+cDIrYesL8UGSC7j2+uqceScaXDMarNUAAAAAAAAAAAAAAAAAAAAAAAAAAAAAAAAAAAAAAAAAAgEBYYAAAAAAAAAAAAAAAAAAAAEAAAAAAAAAAAAAAAAAAAAAAAAAAAAAAAAAAAAAAEIbmEACAgLPAwQA4QHhBfU+KQA62MUETbU1EwXwhq4PE3qvSEZI45jENuSxAAAAAAAAAAAAAAAAAAAAAEAAAAAAAAAAAAAAAAAAAAAAAAAAAAAAAAAAAAAAAAAAAAAAAAAAAAAAAAAAAAAAAAAAAAAAAAAAAAAAAAAAAAAgAOEsABRiayE06HWdYR3AHd4kd3nUfoQfWSDe/YzfTLfZ5AAAAAAAAAAAAAAAAAAAAABAAAAAAAAAAAAAAAAAAAAAAAAAAAAAAAAAAAAAAAAAAAAAAAAAAAAAAAAAAAAAAAAAAAAAAAAAAAAAAAAAAAAAIB7h3ZA=";
       m (Some acc_26) (Some acc_29) (Some "47672800") (Some "301869") (Some "0x00000018")
       "te6cckEBAQEABgAACAAAABhDnyiV"])]
    ["G2BNxlnpptENbIhiUQ/VdsGfQXvU0ZkXGzUhEI6BVJM="; "QJZFsOFCQ+c0TbFdGxu8zRovdL3g3M/HsKd39MNA0C8="; "/PUGEmcO7jSed3N7dCBAREDUs81ByxxLLjiL//NALxI="].

(** The response, and [fixture_traces]. *)
Definition rest_traces : list TraceRest :=
  [rest_0; rest_1; rest_2; rest_3; rest_4; rest_5; rest_6; rest_7; rest_8; rest_9; rest_10; rest_11; rest_12; rest_13; rest_14; rest_15; rest_16; rest_17; rest_18; rest_19; rest_20; rest_21; rest_22; rest_23; rest_24].

Definition fixture_traces : list Trace := traces_from_rest rest_traces.
End RecordedTraces.
