(* ===== verification/TestKit.v ===== *)
(** * Assertions for the replayed unit tests

    [assert!] and [assert_eq!] as booleans, and access to the recorded traces. *)

From Stdlib Require Import ZArith Lia Strings.Byte Strings.Ascii.
From stdpp Require Import base strings list.
From S2P Require Import Prelude RustStd Foreign Types TonFormat RecordedTraces.
Import TonFormat RecordedTraces.

Declare Scope test_scope.
Delimit Scope test_scope with test.

(** [assert_eq!(a, b)]. *)
Notation "a =! b" := (bool_decide (a = b)) (at level 70, no associativity) : test_scope.

(** The assertions on the value of a [Result]; [unwrap] fails the test. *)
Definition ok_and {E A} (m : res E A) (p : A -> bool) : bool :=
  match m with Ok a => p a | _ => false end.

Definition is_err {E A} (m : res E A) : bool :=
  match m with Err _ => true | _ => false end.

(** The same for a third-party result, an [Option], and a call that changes
    its object. *)
Definition got {A} (m : fres A) (p : A -> bool) : bool := ok_and (fr m) p.

Definition some_and {A} (o : option A) (p : A -> bool) : bool :=
  match o with Some a => p a | None => false end.

Definition then_ {S E A} (m : st S E A) (s : S) (p : A -> S -> bool) : bool :=
  match m s with (Ok a, s') => p a s' | _ => false end.

(** [traces[i]] and [traces[i].transactions[j]] of the fixture. *)
Definition with_trace (i : nat) (p : Trace -> bool) : bool := some_and (fixture_traces !! i) p.

Definition with_tx (i j : nat) (p : Transaction -> bool) : bool :=
  with_trace i (fun t => some_and (transactions t !! j) p).
