(* ===== verification/CodecTests.v ===== *)
(** * The test vectors of the codecs

    The unit tests of [boc/], [hashing.rs] and [out_action.rs], each as an
    executable definition over the models, with the formats of [TonFormat].
    An assertion on the text of a serialized bag of cells is one on the cell
    the text denotes. *)

From Stdlib Require Import ZArith Lia Strings.Byte Strings.Ascii.
From stdpp Require Import base strings list.
From S2P Require Import Prelude RustStd Foreign Types GmpTypes CellCodec Messages Wallet TonFormat TestKit.
Import TonFormat.

#[local] Open Scope test_scope.

(** [format!("{:?}", H256::from(hash))]. *)
Definition fmt_h256 (hash : list byte) : string := "0x" +:+ hex_lower hash.

(** [assert_eq!(cell.to_boc_b64(true).unwrap(), text)]. *)
Definition is_boc (c : Cell) (text : string) : bool :=
  match boc_of_b64 text with inr d => Instances.show_cell c =! Instances.show_cell d | inl _ => false end.

Definition bytes (l : list Z) : list byte := map byte_of l.

(** ** [cell_to.rs] *)

Fixpoint create_test_cell_from (data : list byte) (builder : CellBuilder) : fres Cell :=
  match data with
  | [] => build builder
  | byte :: data' =>
      match store_u8 8 (byte_val byte) builder with
      | inr builder => create_test_cell_from data' builder
      | inl e => inl e
      end
  end.

Definition create_test_cell (data : list byte) : fres Cell := create_test_cell_from data CellBuilder_new.

Definition cell_to_test_cell_to_buffer : bool :=
  let data := as_bytes "Test" in
  got (create_test_cell data) (fun cell => ok_and (cell_to_buffer cell) (fun result => result =! data)).

Definition cell_to_test_cell_to_string_success : bool :=
  let data := as_bytes "HelloWorld" in
  got (create_test_cell data) (fun cell =>
    ok_and (cell_to_string cell) (fun result => result =! "HelloWorld")).

Definition cell_to_test_cell_to_string_invalid_utf8 : bool :=
  let data := bytes [0xff; 0xfe; 0xfd] in
  got (create_test_cell data) (fun cell => is_err (cell_to_string cell)).

(** ** [op_code.rs] *)

Definition op_code_test_compare_op_code_matching : bool :=
  compare_op_code 0x12345678 (bytes [0x12; 0x34; 0x56; 0x78]).

Definition op_code_test_compare_op_code_not_matching : bool :=
  negb (compare_op_code 0x12345678 (bytes [0x87; 0x65; 0x43; 0x21])).

Definition op_code_test_compare_op_code_invalid_length : bool :=
  negb (compare_op_code 0x12345678 (bytes [0x12; 0x34; 0x56])) &&
  negb (compare_op_code 0x12345678 (bytes [0x12; 0x34; 0x56; 0x78; 0x90])) &&
  negb (compare_op_code 0x12345678 []).

(** ** [call_contract.rs] *)

Definition call_contract_test_from_boc_b64 : bool :=
  ok_and (CallContractMessage_from_boc_b64
    "te6cckEBBAEA5QADg4AcPMZ9bgNiMWiFLuLZ3ODT3Qj2rbcRiS/f1NA9opZaWPXUykhs4AH2lBVEFjqex7VaPbPTvuLH5GEs5sIeXm+pcAECAwAcYXZhbGFuY2hlLWZ1amkAVDB4ZDcwNjdBZTNDMzU5ZTgzNzg5MGIyOEI3QkQwZDIwODRDZkRmNDliNQDAAAAAAAAAAAAAAAAAAAAAAAAAAAAAAAAAAAAAAAAAACAAAAAAAAAAAAAAAAAAAAAAAAAAAAAAAAAAAAAAAAAAE0hlbGxvIGZyb20gUmVsYXllciEAAAAAAAAAAAAAAAAAne0F4Q==") (fun res =>
  (cc_destination_chain res =! "avalanche-fuji") &&
  (cc_destination_address res =! "0xd7067Ae3C359e837890b28B7BD0d2084CfDf49b5") &&
  got (TonAddress_from_str "EQDh5jPrcBsRi0QpdxbO5wae6Ee1bbiMSX7-poHtFLLSxyuC") (fun a =>
    cc_source_address res =! a) &&
  (cc_payload res =!
    "0000000000000000000000000000000000000000000000000000000000000020000000000000000000000000000000000000000000000000000000000000001348656c6c6f2066726f6d2052656c617965722100000000000000000000000000") &&
  (fmt_h256 (cc_payload_hash res) =!
    "0xaea6524367000fb4a0aa20b1d4f63daad1ed9e9df7163f2309673610f2f37d4b")).

(** ** [native_gas_paid.rs] *)

Definition native_gas_paid_test_from_boc_b64 : bool :=
  ok_and (NativeGasPaidMessage_from_boc_b64
    "te6cckEBBAEAxwADw4AcPMZ9bgNiMWiFLuLZ3ODT3Qj2rbcRiS/f1NA9opZaWPXUykhs4AH2lBVEFjqex7VaPbPTvuLH5GEs5sIeXm+pYAAAAAAAAAAAAAAAAAAAAAAAAAAAAAAAAAAAAAA3BVoQAQIDAEOAHDzGfW4DYjFohS7i2dzg090I9q23EYkv39TQPaKWWljwABxhdmFsYW5jaGUtZnVqaQBUMHhkNzA2N0FlM0MzNTllODM3ODkwYjI4QjdCRDBkMjA4NENmRGY0OWI1+B8bUw==") (fun log =>
  (fmt_h256 (ngp_payload_hash log) =!
    "0xaea6524367000fb4a0aa20b1d4f63daad1ed9e9df7163f2309673610f2f37d4b") &&
  got (TonAddress_from_base64_url "EQDh5jPrcBsRi0QpdxbO5wae6Ee1bbiMSX7-poHtFLLSxyuC") (fun a =>
    (ngp_refund_address log =! a) && (ngp_sender log =! a)) &&
  (ngp_destination_chain log =! "avalanche-fuji") &&
  (ngp_destination_address log =! "0xd7067Ae3C359e837890b28B7BD0d2084CfDf49b5")).

(** ** [approve_message.rs] *)

Definition approve_message_test_decode_approve_message : bool :=
  got (base64_decode "te6cckECDAEAAYsAAggAAAAoAQIBYYAAAAAAAAAAAAAAAAAAAACAAAAAAAAAAAAAAAAAAAAAAAAAAAAAAAAAAAAAADf5gkADAQHABADi0LAAUYmshNOh1nWEdwB3eJHd51H6EH1kg3v2M30y32eQAAAAAAAAAAAAAAAAAAAAASGIs1u/0XOSucVrtdkUCyCdtFVEh1Lza1vipAJyhYbSywcY60rdBpjT3ZipVjftz2pHY0znhNP8+FqIdPGpWwsBAtAFBECeAcQjykQMXsK+7MnQoVK1T8jnpBbJMbcInq8iFgWvFwYHCAkAiDB4ZjA0MzFkYThhNzdiYmVhYWNiNTMzYWIxZmZkMmI5MzhlY2I1MWM1MzAyOTllNDU2ZTA5ZTczNzlkOTlhMmYxZS0xABxhdmFsYW5jaGUtZnVqaQBUMHhkNzA2N0FlM0MzNTllODM3ODkwYjI4QjdCRDBkMjA4NENmRGY0OWI1AgAKCwBAuHpKD2RLehhu5xoUVGNPcMIqYqyhprpna1F1wh1/2TAACHRvbjJujf/t") (fun l =>
  let approve_message := hex_encode l in
  ok_and (ApproveMessages_from_boc_hex approve_message) (fun res =>
  (length (approve_messages res) =! 1%nat) &&
  match approve_messages res with
  | m :: _ =>
      (am_message_id m =!
        "0xf0431da8a77bbeaacb533ab1ffd2b938ecb51c530299e456e09e7379d99a2f1e-1") &&
      (am_source_chain m =! "avalanche-fuji") &&
      (am_source_address m =! "0xd7067Ae3C359e837890b28B7BD0d2084CfDf49b5") &&
      (am_destination_chain m =! "ton2") &&
      (am_destination_address m =! bytes [
        184; 122; 74; 15; 100; 75; 122; 24; 110; 231; 26; 20; 84; 99; 79; 112; 194; 42; 98;
        172; 161; 166; 186; 103; 107; 81; 117; 194; 29; 127; 217; 48]) &&
      got (BigUint_from_str
        "71468550630404048420691790219403539000788302635511547374558478410759778184983") (fun h =>
        am_payload_hash m =! h)
  | [] => false
  end)).

Definition approve_message_test_decode_malformed_message : bool :=
  got (base64_decode "abccckECDAEAAYsAAggAAAAoAQIBYYAAAAAAAAAAAAAAAAAAAACAAAAAAAAAAAAAAAAAAAAAAAAAAAAAAAAAAAAAADf5gkADAQHABADi0LAAUYmshNOh1nWEdwB3eJHd51H6EH1kg3v2M30y32eQAAAAAAAAAAAAAAAAAAAAAQ+j+g0KWjWTaPqB9qQHuWZQn7IPz7x3xzwbprT1a85sjh0UlPlFU84LDdRcD4GZ6n6GJlEKKTlRW5QtlzKGrAsBAtAFBECeAcQjykQMXsK+7MnQoVK1T8jnpBbJMbcInq8iFgWvFwYHCAkAiDB4MTdmZDdkYTNkODE5Y2ZiYzQ2ZmYyOGYzZDgwOTgwNzcwZWMxYjgwZmQ3ZDFiMjI5Y2VjMzI1MTkzOWI5YjIzZi0xABxhdmFsYW5jaGUtZnVqaQBUMHhkNzA2N0FlM0MzNTllODM3ODkwYjI4QjdCRDBkMjA4NENmRGY0OWI1AgAKCwBAuHpKD2RLehhu5xoUVGNPcMIqYqyhprpna1F1wh1/2TAACHRvbjJLddsV") (fun l =>
  is_err (ApproveMessages_from_boc_hex (hex_encode l))).

(** ** [cc_message.rs] *)

Definition cc_message_test_ton_log : bool :=
  ok_and (TonCCMessage_from_boc_b64 "te6cckEBBwEA1AAEAAECAwQAiDB4ZjM4ZDJhNjQ2ZTRiNjBlMzdiYzE2ZDU0YmI5MTYzNzM5MzcyNTk0ZGM5NmJhYjk1NGE4NWI0YTE3MGY0OWU1OC0xABxhdmFsYW5jaGUtZnVqaQBUMHhkNzA2N0FlM0MzNTllODM3ODkwYjI4QjdCRDBkMjA4NENmRGY0OWI1AkCeAcQjykQMXsK+7MnQoVK1T8jnpBbJMbcInq8iFgWvFwUGAEC4ekoPZEt6GG7nGhRUY09wwipirKGmumdrUXXCHX/ZMAAIdG9uMs9py6Y=") (fun log =>
  (ccm_message_id log =!
    "0xf38d2a646e4b60e37bc16d54bb9163739372594dc96bab954a85b4a170f49e58-1") &&
  (ccm_source_chain log =! "avalanche-fuji") &&
  (ccm_source_address log =! "0xd7067Ae3C359e837890b28B7BD0d2084CfDf49b5") &&
  (ccm_destination_chain log =! "ton2") &&
  (ccm_destination_address log =!
    "0:b87a4a0f644b7a186ee71a1454634f70c22a62aca1a6ba676b5175c21d7fd930") &&
  (fmt_h256 (ccm_payload_hash log) =!
    "0x9e01c423ca440c5ec2beecc9d0a152b54fc8e7a416c931b7089eaf221605af17")).

Definition cc_message_test_ton_log_invalid_boc : bool :=
  is_err (TonCCMessage_from_boc_b64 "this_is_not_a_valid_boc_string").

(** ** [jetton_gas_paid.rs] *)

Definition jetton_gas_paid_test_from_boc_b64 : bool :=
  ok_and (JettonGasPaidMessage_from_boc_b64 "te6cckEBBAEAqQAEhYADLFxuu57x8vEB032J7Hw1/NB2lXuxCrpswCmAv+IsHSIDxrkMawLoqk/1cMqYanWtVhOn7os7RcEnPV9WakXMg80DAQIDABxhdmFsYW5jaGUtZnVqaQBUMHhkNzA2N0FlM0MzNTllODM3ODkwYjI4QjdCRDBkMjA4NENmRGY0OWI1AEOAHDzGfW4DYjFohS7i2dzg090I9q23EYkv39TQPaKWWljwjMXfiA==") (fun log =>
  (fmt_h256 (jgp_payload_hash log) =!
    "0xe35c863581745527fab8654c353ad6ab09d3f7459da2e0939eafab3522e641e6") &&
  got (TonAddress_from_base64_url "EQDh5jPrcBsRi0QpdxbO5wae6Ee1bbiMSX7-poHtFLLSxyuC") (fun a =>
    jgp_refund_address log =! a) &&
  got (TonAddress_from_base64_url "EQAZYuN13PePl4gOm-xPY-Gv5oO0q92IVdNmAUwF_xFg6fqe") (fun a =>
    jgp_minter log =! a) &&
  (jgp_destination_chain log =! "avalanche-fuji") &&
  (jgp_destination_address log =! "0xd7067Ae3C359e837890b28B7BD0d2084CfDf49b5") &&
  (jgp_amount log =! 1%N)).

(** ** [jetton_gas_added.rs] *)

Definition jetton_gas_added_test_from_boc_b64 : bool :=
  ok_and (JettonGasAddedMessage_from_boc_b64 "te6cckEBAgEAjwABz4ADLFxuu57x8vEB032J7Hw1/NB2lXuxCrpswCmAv+IsHTADh5jPrcBsRi0QpdxbO5wae6Ee1bbiMSX7+poHtFLLSx0BfXhALmsHL51qWpxRqcd8b9fOsAGaO26C0MtTF++XVkWKs7XgAQBDgB2kW+aEM1xMBz+y77HIM1wprxYyXTtrufRrLxMhLI4aMM6GZMQ=") (fun log =>
  got (TonAddress_from_base64_url "EQDtIt80IZriYDn9l32OQZrhTXixkunbXc-jWXiZCWRw0TXB") (fun a =>
    jga_refund_address log =! a) &&
  got (TonAddress_from_base64_url "EQAZYuN13PePl4gOm-xPY-Gv5oO0q92IVdNmAUwF_xFg6fqe") (fun a =>
    jga_minter log =! a) &&
  got (TonAddress_from_base64_url "EQDh5jPrcBsRi0QpdxbO5wae6Ee1bbiMSX7-poHtFLLSxyuC") (fun a =>
    jga_sender log =! a) &&
  got (TonHash_from_hex "b9ac1cbe75a96a7146a71df1bf5f3ac00668edba0b432d4c5fbe5d59162aced7") (fun h =>
    jga_tx_hash log =! h) &&
  (jga_amount log =! 100000000%N)).

(** ** [its_link_token_started.rs] *)

Definition its_link_token_started_test_from_boc_b64 : bool :=
  ok_and (LogITSLinkTokenStartedMessage_from_boc_b64
    "te6cckEBBQEAdQAESgAAAQU5aO+Enn04pm2AGPEU51UMmn1nuKcaUkOfFXOz8LgyigQBAgMEABxhdmFsYW5jaGUtZnVqaQBA+DyL4Yz0ZcelnxPvEyWNQkVzHPnLINq2ie/m2TMUbjcAKBKHpvtekQHhBLrvQEwN7A0hIGuaAAB7CRi0") (fun log =>
  got (BigUint_from_str
    "25967237556763834250448421157752164845917487892249674121800212115404164182666") (fun v =>
    lts_token_id log =! v) &&
  (lts_destination_chain log =! "avalanche-fuji") &&
  got (TonAddress_from_str
    "0:f83c8be18cf465c7a59f13ef13258d4245731cf9cb20dab689efe6d933146e37") (fun a =>
    lts_source_token_address log =! a) &&
  match lts_token_manager_type log with MintBurn => true | _ => false end &&
  (lts_destination_token_address log =! "0x1287a6fb5e9101e104baef404c0dec0d21206b9a")).

(** ** [its_interchain_transfer.rs] *)

Definition its_interchain_transfer_test_from_boc_b64 : bool :=
  ok_and (LogITSInterchainTransferMessage_from_boc_b64
    "te6cckEBBgEAlwAEiAAAARAGqiTxVdSBp9+zVVBJQeRlDVIDh8DkrUzNRniAwuoJUwAAAAAAAAAAAAAAAAAAAAAAAAAAAAAAAAAAAAAAAAABAQIDBABAH+D6DngoiSjKBZCMYX+5C9x+3eQp4UbKBIvc0xyJDnYAHGF2YWxhbmNoZS1mdWppAQAFAAAAKBI0VniQEjRWeJASNFZ4kBI0VniQPA51Og==") (fun log =>
  (BigUint_to_str_radix16 (itm_token_id log) =!
    "6aa24f155d481a7dfb355504941e4650d520387c0e4ad4ccd467880c2ea0953") &&
  got (TonAddress_from_str "EQAf4PoOeCiJKMoFkIxhf7kL3H7d5CnhRsoEi9zTHIkOdh-4") (fun a =>
    itm_sender_address log =! a) &&
  (itm_destination_address log =! "0x1234567890123456789012345678901234567890") &&
  (itm_destination_chain log =! "avalanche-fuji") &&
  (length (itm_data log) =! 0%nat)).

(** ** [its_interchain_token_deployment_started.rs] *)

Definition its_interchain_token_deployment_started_test_from_boc_b64 : bool :=
  ok_and (LogITSInterchainTokenDeploymentStartedMessage_from_boc_b64
    "te6cckEBBQEAUgAESgAAAQeoP4SReC9O3TOBA3OmvJWkL/SkYDgdXuT4b/M/ry37vAkBAgMEABRUZXN0IHRva2VuAA5UT05URVNUAAAAHGF2YWxhbmNoZS1mdWppJ0b+vg==") (fun log =>
  (tds_destination_chain log =! "avalanche-fuji") &&
  got (BigUint_from_str
    "76100784879436770959190113963535317215282835248950831905149195120573357620156") (fun v =>
    tds_token_id log =! v) &&
  (tds_token_symbol log =! "TONTEST") &&
  (tds_token_name log =! "Test token") &&
  (tds_decimals log =! 9)).

(** ** [relayer_execute_message.rs] *)

Definition relayer_execute_message_test_to_cell : bool :=
  got (TonAddress_from_str "0QCQPVhDBzLBwIlt8MtDhPwIrANfNH2ZQnX0cSvhCD4Dld4b") (fun relayer_address =>
  got (TonAddress_from_str
    "0:b87a4a0f644b7a186ee71a1454634f70c22a62aca1a6ba676b5175c21d7fd930") (fun address =>
  let message := RelayerExecuteMessage_new
    "0x8ccca7622377b11ac745117784242dbae8694b4a84495dacffde08af738db9a0-1"
    "avalanche-fuji"
    "0xd7067Ae3C359e837890b28B7BD0d2084CfDf49b5"
    "ton2"
    address
    "0000000000000000000000000000000000000000000000000000000000000020000000000000000000000000000000000000000000000000000000000000001348656c6c6f2066726f6d2072656c617965722100000000000000000000000000"
    relayer_address in
  ok_and (RelayerExecuteMessage_to_cell message) (fun res =>
  is_boc res
    "te6cckECCQEAAWAAAUsAAAAIgBIHqwhg5lg4ES2+GWhwn4EVgGvmj7MoTr6OJXwhB8BysAEEAAIDBAUAiDB4OGNjY2E3NjIyMzc3YjExYWM3NDUxMTc3ODQyNDJkYmFlODY5NGI0YTg0NDk1ZGFjZmZkZTA4YWY3MzhkYjlhMC0xABxhdmFsYW5jaGUtZnVqaQBUMHhkNzA2N0FlM0MzNTllODM3ODkwYjI4QjdCRDBkMjA4NENmRGY0OWI1A0CeAcQjykQMXsK+7MnQoVK1T8jnpBbJMbcInq8iFgWvFwYHCADAAAAAAAAAAAAAAAAAAAAAAAAAAAAAAAAAAAAAAAAAACAAAAAAAAAAAAAAAAAAAAAAAAAAAAAAAAAAAAAAAAAAE0hlbGxvIGZyb20gcmVsYXllciEAAAAAAAAAAAAAAAAAAEC4ekoPZEt6GG7nGhRUY09wwipirKGmumdrUXXCHX/ZMAAIdG9uMgKZxA0="))).

(** ** [nullified_message.rs] *)

Definition nullified_message_test_from_boc_b64 : bool :=
  ok_and (NullifiedSuccessfullyMessage_from_boc_b64 "te6cckECCAEAAV0ABIsAAAAFgBIHqwhg5lg4ES2+GWhwn4EVgGvmj7MoTr6OJXwhB8Byr9KMj8CFtEqwFmUtJVgVpEqk3ftJTCRWAx2zya/xlWvwAQIDBACIMHhmMmI3NDFmYjBiMmMyZmNmOTJhY2E4MjM5NWJjNjVkYWI0ZGQ4MjM5YTEyZjM2NmQ2MDQ1NzU1ZTBiMDJjMmEyLTEAHGF2YWxhbmNoZS1mdWppAFQweGQ3MDY3QWUzQzM1OWU4Mzc4OTBiMjhCN0JEMGQyMDg0Q2ZEZjQ5YjUDAAUGBwDAAAAAAAAAAAAAAAAAAAAAAAAAAAAAAAAAAAAAAAAAACAAAAAAAAAAAAAAAAAAAAAAAAAAAAAAAAAAAAAAAAAAD0hlbGxvIGZyb20gdG9uIQAAAAAAAAAAAAAAAAAAAAAAAEC4ekoPZEt6GG7nGhRUY09wwipirKGmumdrUXXCHX/ZMAAIdG9uMtlN//0=") (fun res =>
  (nm_payload res =!
    "0000000000000000000000000000000000000000000000000000000000000020000000000000000000000000000000000000000000000000000000000000000f48656c6c6f2066726f6d20746f6e210000000000000000000000000000000000") &&
  (nm_message_id res =!
    "0xf2b741fb0b2c2fcf92aca82395bc65dab4dd8239a12f366d6045755e0b02c2a2-1") &&
  (nm_source_chain res =! "avalanche-fuji") &&
  (nm_source_address res =! "0xd7067Ae3C359e837890b28B7BD0d2084CfDf49b5") &&
  (nm_destination_chain res =! "ton2") &&
  (nm_destination_address res =! bytes [
    184; 122; 74; 15; 100; 75; 122; 24; 110; 231; 26; 20; 84; 99; 79; 112; 194; 42; 98;
    172; 161; 166; 186; 103; 107; 81; 117; 194; 29; 127; 217; 48])).

(** ** [native_gas_added.rs] *)

Definition native_gas_added_test_from_boc_b64 : bool :=
  ok_and (NativeGasAddedMessage_from_boc_b64 "te6cckEBAQEAZAAAww5vdZ9o7blyzBxaworkSgJlZ8OdCmfXHekJeKEhBqa6gBw8xn1uA2IxaIUu4tnc4NPdCPattxGJL9/U0D2illpY4AAAAAAAAAAAAAAAAAAAAAAAAAAAAAAAAAAAAAI68SIQfPwIyg==") (fun res =>
  got (TonHash_from_hex "0e6f759f68edb972cc1c5ac28ae44a026567c39d0a67d71de90978a12106a6ba") (fun h =>
    nga_tx_hash res =! h) &&
  got (TonAddress_from_str
    "0:e1e633eb701b118b44297716cee7069ee847b56db88c497efea681ed14b2d2c7") (fun a =>
    nga_refund_address res =! a) &&
  (nga_msg_value res =! 299338000%N)).

(** ** [its_token_metadata_registered.rs] *)

Definition its_token_metadata_registered_test_from_boc_b64 : bool :=
  ok_and (LogTokenMetadataRegisteredMessage_from_boc_b64
    "te6cckEBAQEAKQAATQAAAQSAE8Gv5Obs3vWv/nwXHPbEvYTP0XH+WhNCBqP2z31FEZQhMELrLwg=") (fun log =>
  (tmr_decimals log =! 9) &&
  got (TonAddress_from_base64_url "EQCeDX8nN2b3rX_z4LjntiXsJn6Lj_LQmhA1H7Z76iiMoe62") (fun a =>
    tmr_address log =! a)).

(** ** [native_refund.rs] *)

Definition native_refund_test_to_cell : bool :=
  got (TonAddress_from_str "EQBGhqLAZseEqRXz4ByFPTGV7SVMlI4hrbs-Sps_Xzx01x8G") (fun address =>
  got (TonHash_from_hex "2b54edee081fc7cde3855988d4d28d948b99e132b062f6a724812713ec533215") (fun tx_hash =>
  got (BigUint_from_str "4900000000") (fun amount =>
  let message := NativeRefundMessage_new tx_hash address amount in
  ok_and (NativeRefundMessage_to_cell message) (fun res =>
  is_boc res
    "te6cckEBAQEATQAAlQAAAEYrVO3uCB/HzeOFWYjU0o2Ui5nhMrBi9qckgScT7FMyFYAI0NRYDNjwlSK+fAOQp6YyvaSpkpHENbdnyVNn6+eOmuoCSCAiAVsrXmA=")))).

(** ** [native_gas_refunded.rs] *)

Definition native_gas_refunded_test_from_boc_b64 : bool :=
  ok_and (NativeGasRefundedMessage_from_boc_b64 "te6cckEBAQEASAAAi+sGXZ2TA0nQZDuUbZYexgD4DV5fMKsB328TYkPuUDXCgBw8xn1uA2IxaIUu4tnc4NPdCPattxGJL9/U0D2illpY6B/RX5+w1u5M") (fun response =>
  got (TonAddress_from_str "EQDh5jPrcBsRi0QpdxbO5wae6Ee1bbiMSX7-poHtFLLSxyuC") (fun a =>
    ngr_address response =! a) &&
  (ngr_amount response =! 266907599%N) &&
  got (TonHash_from_hex "eb065d9d930349d0643b946d961ec600f80d5e5f30ab01df6f136243ee5035c2") (fun h =>
    ngr_tx_hash response =! h)).

(** ** [signers_rotated.rs] *)

Definition signers_rotated_test_from_boc_b64 : bool :=
  ok_and (LogSignersRotatedMessage_from_boc_b64 "te6cckECBQEAAWYAAYgAAAAqSxYxcRd87+m+cDIrYesL8UGSC7j2+uqceScaXDMarNUAAAAAAAAAAAAAAAAAAAAAAAAAAAAAAAAAAAAAAAAAAgEBYYAAAAAAAAAAAAAAAAAAAAEAAAAAAAAAAAAAAAAAAAAAAAAAAAAAAAAAAAAAAEIbmEACAgLPAwQA4QHhBfU+KQA62MUETbU1EwXwhq4PE3qvSEZI45jENuSxAAAAAAAAAAAAAAAAAAAAAEAAAAAAAAAAAAAAAAAAAAAAAAAAAAAAAAAAAAAAAAAAAAAAAAAAAAAAAAAAAAAAAAAAAAAAAAAAAAAAAAAAAAAgAOEsABRiayE06HWdYR3AHd4kd3nUfoQfWSDe/YzfTLfZ5AAAAAAAAAAAAAAAAAAAAABAAAAAAAAAAAAAAAAAAAAAAAAAAAAAAAAAAAAAAAAAAAAAAAAAAAAAAAAAAAAAAAAAAAAAAAAAAAAAAAAAAAAAIB7h3ZA=") (fun log =>
  (srm_signers_hash log =!
    "0x4b163171177cefe9be70322b61eb0bf141920bb8f6faea9c79271a5c331aacd5") &&
  (srm_epoch log =! 2)).

(** ** [relayer_execute_wrapped.rs] *)

Definition relayer_execute_wrapped_test_from_boc_b64 : bool :=
  ok_and (RelayerExecuteWrappedMessage_from_boc_b64 "te6cckECLgEADt0AARiuQuWkAAAAAAAAAAUBAgoOw8htAgIDAAABaCIAAAylVschFfb6H/c6NrbJTptO3VkqNFNOqJuDdTS8Wx0gk9HMAAAAAAAAAAAAAAAAAAEEAUsAAAAIgBIHqwhg5lg4ES2+GWhwn4EVgGvmj7MoTr6OJXwhB8BysAUEAAYLBwgAhDB4ODlmMzI1MmZiOWFkNzAwM2MyNTQ3MTY4NWY0OGQxNGM4NDJhMjkxMGI5Mzg2ZDM1Zjg1OTY5NGJhYmY3YjFjZgCEMDplMWU2MzNlYjcwMWIxMThiNDQyOTc3MTZjZWU3MDY5ZWU4NDdiNTZkYjg4YzQ5N2VmZWE2ODFlZDE0YjJkMmM3A4CIsmyAnqYuP9QkpkQ/rH/UulMugyeDeOANdz4XWXr/xQAAAAAAAAAAAAAAAAAAAAAAAAAAAAAAAAAAAAAAmJaACQoLAcAAAAAAAAAAAAAAAAAAAAAAAAAAAAAAAAAAAAAAAAAAIAAAAAAAAAAAAAAAAAAAAAAAAAAAAAAAAAAAAAAAAAyuTG9yZW0gaXBzdW0gZG9sb3Igc2l0IGFtZXQsIGNvbnMMAEDtIt80IZriYDn9l32OQZrhTXixkunbXc+jWXiZCWRw0QAIdG9uMgHAZWN0ZXR1ciBhZGlwaXNjaW5nIGVsaXQuIEluIGJsYW5kaXQsIGFudGUgaW4gZGlnbmlzc2ltIHVsdHJpY2llcywgbGlndWxhIHB1cnVzIG1vbGVzdGllIHNhcGllbiwgDQHAZXVpc21vZCBzYWdpdHRpcyBuaXNpIGxlY3R1cyB1dCBhbnRlLiBJbnRlZ2VyIGltcGVyZGlldCBpcHN1bSBlcm9zLCBmZXVnaWF0IGNvbmRpbWVudHVtIGFudGUgZ3JhDgHAdmlkYSBldC4gU3VzcGVuZGlzc2UgdGVtcHVzIGxvcmVtIHNpdCBhbWV0IG1hc3NhIGVmZmljaXR1ciBzb2xsaWNpdHVkaW4uIE5hbSBvZGlvIGR1aSwgY29udmFsbGlzDwHAIHZpdGFlIG1hdXJpcyBxdWlzLCBmYXVjaWJ1cyB1bGxhbWNvcnBlciBzYXBpZW4uIERvbmVjIG1vbGVzdGllIGNvbnZhbGxpcyBlbGVtZW50dW0uIFF1aXNxdWUgdGluEAHAY2lkdW50IHRpbmNpZHVudCBuZXF1ZSwgbm9uIHBsYWNlcmF0IG5lcXVlIHBvc3VlcmUgYXQuIE51bGxhbSBjb25zZXF1YXQgdml2ZXJyYSBwb3J0YS4gRG9uZWMgZXQgEQHAbWFsZXN1YWRhIHF1YW0sIHNlZCBjb252YWxsaXMgdmVsaXQuICBVdCBuaXNsIHR1cnBpcywgdGluY2lkdW50IHZlbCBjb21tb2RvIHV0LCBzb2RhbGVzIGV1IG5pc2kuEgHAIE1hdXJpcyBwaGFyZXRyYSBkdWkgYSBzZW0gZmV1Z2lhdCBwb3N1ZXJlLiBQZWxsZW50ZXNxdWUgc2VkIHBvc3VlcmUgZHVpLiBQZWxsZW50ZXNxdWUgbGFjaW5pYSBmEwHAZWxpcyBldCBkaWFtIHZlbmVuYXRpcyBzYWdpdHRpcy4gTWF1cmlzIHZlbGl0IHB1cnVzLCBmaW5pYnVzIG5vbiBuaXNsIGF0LCBzdXNjaXBpdCBpYWN1bGlzIGFyY3UuFAHAIE1vcmJpIGNvbnNlY3RldHVyIHBlbGxlbnRlc3F1ZSBsYWN1cywgdmVsIGJpYmVuZHVtIGp1c3RvIGZyaW5naWxsYSB1dC4gU2VkIHNhZ2l0dGlzIGVsZWlmZW5kIG51FQHAbGxhLCBhYyBpYWN1bGlzIHR1cnBpcyB0cmlzdGlxdWUgZWdldC4gQWVuZWFuIHV0IHBvcnR0aXRvciBuaXNsLCBjb21tb2RvIGVsZWlmZW5kIGxvcmVtLiBJbnRlZ2VyFgHAIGVnZXQgcHVydXMgdmVuZW5hdGlzIG1pIGVmZmljaXR1ciBtb2xlc3RpZSBpZCBsb2JvcnRpcyBuZXF1ZS4gU2VkIHF1aXMgcmhvbmN1cyBwdXJ1cy4gVml2YW11cyB2FwHAaXZlcnJhIG51bGxhIHNlZCBkaWFtIGZyaW5naWxsYSwgdml0YWUgcnV0cnVtIGxpYmVybyB2ZXN0aWJ1bHVtLiBGdXNjZSBzZW0gZW5pbSwgcnV0cnVtIG5lYyBlbmltGAHAIHBlbGxlbnRlc3F1ZSwgZWxlbWVudHVtIG1hdHRpcyBzZW0uIE51bGxhbSB1bGxhbWNvcnBlciBhY2N1bXNhbiBpcHN1bSwgc2VkIG1vbGVzdGllIG5pYmggdmVoaWN1GQHAbGEgc2l0IGFtZXQuIE1hdXJpcyBmZXJtZW50dW0gYWMgZXN0IHZpdGFlIGF1Y3Rvci4gQWVuZWFuIGZlcm1lbnR1bSBjb252YWxsaXMgbmVxdWUsIHNlZCB2ZWhpY3VsGgHAYSBlc3QgZGlnbmlzc2ltIGEuICBJbiBsYWNpbmlhIG5pYmggbmlzaSwgZXUgZWdlc3RhcyBtYXVyaXMgdGVtcHVzIGEuIFBoYXNlbGx1cyBub24gZWxlbWVudHVtIGRvGwHAbG9yLiBJbnRlZ2VyIGdyYXZpZGEgcGhhcmV0cmEgZmF1Y2lidXMuIFBlbGxlbnRlc3F1ZSBtb2xsaXMgZG9sb3IgcXVpcyBhcmN1IHZpdmVycmEsIGF0IHBoYXJldHJhHAHAIGxlY3R1cyBzYWdpdHRpcy4gSW50ZXJkdW0gZXQgbWFsZXN1YWRhIGZhbWVzIGFjIGFudGUgaXBzdW0gcHJpbWlzIGluIGZhdWNpYnVzLiBQcmFlc2VudCBzdXNjaXBpHQHAdCBhdWd1ZSBhYyBtYWduYSBkYXBpYnVzIG9ybmFyZS4gRHVpcyBmcmluZ2lsbGEgaWFjdWxpcyBmZXJtZW50dW0uIEFlbmVhbiBpZCByaXN1cyBkdWkuIERvbmVjIHNlHgHAZCBtb2xlc3RpZSBkdWkuIE51bmMgc2VtIG1hc3NhLCBpbnRlcmR1bSB1dCBjb25ndWUgdmVsLCBoZW5kcmVyaXQgdmVzdGlidWx1bSBsaWJlcm8uIFN1c3BlbmRpc3NlHwHAIHN1c2NpcGl0IGF1Y3RvciBlZmZpY2l0dXIuICBQcmFlc2VudCB1dCBmYXVjaWJ1cyBudW5jLCBhdCB0aW5jaWR1bnQgZXJvcy4gTW9yYmkgZXN0IG1hc3NhLCBmZXJtIAHAZW50dW0gc2l0IGFtZXQgbmVxdWUgdmVsLCBpYWN1bGlzIHZvbHV0cGF0IHB1cnVzLiBJbnRlcmR1bSBldCBtYWxlc3VhZGEgZmFtZXMgYWMgYW50ZSBpcHN1bSBwcmltIQHAaXMgaW4gZmF1Y2lidXMuIERvbmVjIG5lcXVlIG1pLCBkaWN0dW0gZXUgaGVuZHJlcml0IHZpdGFlLCBhdWN0b3IgZXQgdGVsbHVzLiBOYW0gYXVjdG9yIGxpZ3VsYSBpIgHAbiBvcmNpIHNvbGxpY2l0dWRpbiBvcm5hcmUuIFNlZCBuZWMgbG9yZW0gZnJpbmdpbGxhLCBwb3J0dGl0b3IgbG9yZW0gdXQsIGNvbnNlcXVhdCBlbGl0LiBOdWxsYW0gIwHAc29sbGljaXR1ZGluIHB1cnVzIG1pLCBpbiB1bHRyaWNlcyBkdWkgbW9sbGlzIHNlZC4gSW50ZWdlciBsYWNpbmlhIG5pYmggZXQgZmluaWJ1cyBlZmZpY2l0dXIuIENyJAHAYXMgZmV1Z2lhdCB2ZXN0aWJ1bHVtIHNhcGllbiBmZXJtZW50dW0gY3Vyc3VzLiBQZWxsZW50ZXNxdWUgdXQgc2FwaWVuIGxpZ3VsYS4gQ3VyYWJpdHVyIGVsaXQgZW5pJQHAbSwgcG9ydGEgcXVpcyB1cm5hIGFjLCBwZWxsZW50ZXNxdWUgdGVtcHVzIG5pc2kuICBJbnRlZ2VyIGNvbnNlY3RldHVyIGxvYm9ydGlzIGZhdWNpYnVzLiBOdWxsYSBzJgHAZWQgZG9sb3IgbGVvLiBQcmFlc2VudCBhbGlxdWFtIGVyb3Mgdml0YWUgcG9ydGEgbGFjaW5pYS4gRG9uZWMgZXQgbG9yZW0gdGluY2lkdW50LCB2aXZlcnJhIG51bmMgJwHAaW4sIG1hbGVzdWFkYSBuaXNpLiBQZWxsZW50ZXNxdWUgbmVxdWUgbWF1cmlzLCBiaWJlbmR1bSBuZWMgcHVsdmluYXIgbm9uLCBldWlzbW9kIHV0IGxlY3R1cy4gVmVzKAHAdGlidWx1bSBxdWlzIGJpYmVuZHVtIHRlbGx1cy4gVXQgbHVjdHVzIG1hdXJpcyBmZXJtZW50dW0gcmhvbmN1cyBjb25kaW1lbnR1bS4gQWVuZWFuIHNlZCBsYWN1cyBxKQHAdWlzIGxlY3R1cyBwdWx2aW5hciBmaW5pYnVzLiBNYWVjZW5hcyBhIHBvcnR0aXRvciBsZW8sIHZlbCB0ZW1wb3IgdGVsbHVzLiBWaXZhbXVzIGxlY3R1cyB0ZWxsdXMsKgHAIHNvbGxpY2l0dWRpbiBhIG9kaW8gbW9sZXN0aWUsIHZlbmVuYXRpcyBpYWN1bGlzIG1ldHVzLiBTZWQgcXVpcyBsZWN0dXMgbnVsbGEuIFNlZCBqdXN0byBtYXNzYSwgKwHAc3VzY2lwaXQgdXQgZWxlaWZlbmQgbmVjLCBncmF2aWRhIHV0IG5pYmguIE1hdXJpcyBxdWlzIG1ldHVzIHVybmEuIE51bGxhbSBhdCBtYXVyaXMgc2VkIG1pIGltcGVyLAHAZGlldCBlbGVpZmVuZCB1bHRyaWNlcyBzZWQgb2Rpby4gTmFtIGxhb3JlZXQgbGVvIGluIGFyY3UgZ3JhdmlkYSwgZWdldCBtYXhpbXVzIGlwc3VtIGxhY2luaWEuIE1hLQCAZWNlbmFzIGNvbnNlcXVhdCBuZXF1ZSBhYyBwZWxsZW50ZXNxdWUgdGVtcG9yLgAAAAAAAAAAAAAAAAAAAAAAAMZ+Rtk=") (fun res =>
  (rew_message_id res =!
    "0x89f3252fb9ad7003c25471685f48d14c842a2910b9386d35f859694babf7b1cf") &&
  (rew_source_chain res =! "ton2")).

(** ** [hashing.rs] *)

Definition hashing_test_payload_hash : bool :=
  let payload := bytes [
    0; 0; 0; 0; 0; 0; 0; 0; 0; 0; 0; 0; 0; 0; 0; 0; 0; 0; 0; 0; 0; 0; 0; 0; 0; 0; 0; 0; 0;
    0; 0; 32; 0; 0; 0; 0; 0; 0; 0; 0; 0; 0; 0; 0; 0; 0; 0; 0; 0; 0; 0; 0; 0; 0; 0; 0; 0; 0;
    0; 0; 0; 0; 0; 19; 72; 101; 108; 108; 111; 32; 102; 114; 111; 109; 32; 114; 101; 108;
    97; 121; 101; 114; 33; 0; 0; 0; 0; 0; 0; 0; 0; 0; 0; 0; 0; 0] in
  got (BigUint_from_str
    "71468550630404048420691790219403539000788302635511547374558478410759778184983") (fun h =>
    payload_hash payload =! h).

(** ** All of them *)

Definition codec_tests : list bool := [
  cell_to_test_cell_to_buffer;
  cell_to_test_cell_to_string_success;
  cell_to_test_cell_to_string_invalid_utf8;
  op_code_test_compare_op_code_matching;
  op_code_test_compare_op_code_not_matching;
  op_code_test_compare_op_code_invalid_length;
  call_contract_test_from_boc_b64;
  native_gas_paid_test_from_boc_b64;
  approve_message_test_decode_approve_message;
  approve_message_test_decode_malformed_message;
  cc_message_test_ton_log;
  cc_message_test_ton_log_invalid_boc;
  jetton_gas_paid_test_from_boc_b64;
  jetton_gas_added_test_from_boc_b64;
  its_link_token_started_test_from_boc_b64;
  its_interchain_transfer_test_from_boc_b64;
  its_interchain_token_deployment_started_test_from_boc_b64;
  relayer_execute_message_test_to_cell;
  nullified_message_test_from_boc_b64;
  native_gas_added_test_from_boc_b64;
  its_token_metadata_registered_test_from_boc_b64;
  native_refund_test_to_cell;
  native_gas_refunded_test_from_boc_b64;
  signers_rotated_test_from_boc_b64;
  relayer_execute_wrapped_test_from_boc_b64;
  hashing_test_payload_hash].

(** The codecs agree with the test vectors of the crate: messages
    recorded from the chain decode to the fields the unit tests expect, the
    encoders build the expected cells, and malformed input is refused. *)
Theorem codec_vectors_pass : forallb id codec_tests = true.
Proof. by vm_compute. Qed.
