(* ===== verification/TraceTests.v ===== *)
(** * The parsers on recorded traces

    The unit tests of [gas_calculator.rs] and of [transaction_parser/], each as
    an executable definition: the models run on the traces of the fixture, read
    with the formats of [TonFormat], and must give the events and the costs that
    the tests of the crate expect. *)

From Stdlib Require Import ZArith Lia Strings.Byte Strings.Ascii.
From stdpp Require Import base strings gmap list.
From S2P Require Import Prelude RustStd Foreign Types GmpTypes CellCodec Messages Gas Parsers TraceParser TonFormat RecordedTraces TestKit.
Import TonFormat RecordedTraces.
#[local] Open Scope test_scope.

(** ** [gas_calculator.rs] *)

(** [GasCalculator::new] with two addresses, on a trace. *)
Definition calculates (a b : string) (i : nat)
    (calc : GasCalculator -> list Transaction -> res GasError Z) (amount : Z) : bool :=
  got (TonAddress_from_base64_url a) (fun a =>
  got (TonAddress_from_base64_url b) (fun b =>
  with_trace i (fun t =>
  ok_and (calc (GasCalculator_new [a; b]) (transactions t)) (fun v => v =! amount)))).

Definition gas_calculator_test_gas_approved : bool :=
  calculates "0QCQPVhDBzLBwIlt8MtDhPwIrANfNH2ZQnX0cSvhCD4Dld4b"
    "kQAAGUqtjkIr7fQ_7nRtbZKdNp26slRopp1RNwbqaXi2OnXH" 2 calc_message_gas 48524353.

Definition gas_calculator_test_gas_refund : bool :=
  calculates "EQCQPVhDBzLBwIlt8MtDhPwIrANfNH2ZQnX0cSvhCD4DlThU"
    "kQCEKDERj88xS-gD7non_TITN-50i4QI8lMukNkqknAX28OJ" 7
    calc_message_gas_native_gas_refunded 10908904.

Definition gas_calculator_test_gas_refund_regular : bool :=
  calculates "EQCQPVhDBzLBwIlt8MtDhPwIrANfNH2ZQnX0cSvhCD4DlThU"
    "kQCEKDERj88xS-gD7non_TITN-50i4QI8lMukNkqknAX28OJ" 8
    calc_message_gas_native_gas_refunded 10869279.

Definition gas_calculator_test_gas_approved_a : bool :=
  calculates "0QCQPVhDBzLBwIlt8MtDhPwIrANfNH2ZQnX0cSvhCD4Dld4b"
    "kQAAGUqtjkIr7fQ_7nRtbZKdNp26slRopp1RNwbqaXi2OnXH" 12 calc_message_gas 48724830.

Definition gas_calculator_test_gas_approved_b : bool :=
  calculates "0QCQPVhDBzLBwIlt8MtDhPwIrANfNH2ZQnX0cSvhCD4Dld4b"
    "kQAAGUqtjkIr7fQ_7nRtbZKdNp26slRopp1RNwbqaXi2OnXH" 13 calc_message_gas 48622974.

Definition gas_calculator_test_gas_executed : bool :=
  calculates "0QCQPVhDBzLBwIlt8MtDhPwIrANfNH2ZQnX0cSvhCD4Dld4b"
    "kQAAGUqtjkIr7fQ_7nRtbZKdNp26slRopp1RNwbqaXi2OnXH" 11 calc_message_gas 40928034.

Definition gas_calculator_test_gas_approved_c : bool :=
  calculates "0QCQPVhDBzLBwIlt8MtDhPwIrANfNH2ZQnX0cSvhCD4Dld4b"
    "kQBLABicwV3LJN07SVHHnC4HB1cAKkerrNODHzrzwZmsKqmO" 16 calc_message_gas 48647601.

(** ** The parsers *)

Definition now : string := "2025-07-01T00:00:00Z".

(** [assert!(parser.check_match().await.unwrap())] and its negation. *)
Definition matches {P} (m : res perror P) (check_match : st P perror bool) (k : P -> bool) : bool :=
  ok_and m (fun p => then_ check_match p (fun b p => b && k p)).

Definition no_match {P} (m : res perror P) (check_match : st P perror bool) : bool :=
  ok_and m (fun p => then_ check_match p (fun b _ => negb b)).

(** [parser.parse().await.unwrap()]. *)
Definition parsed {P} (parse : st P perror bool) (p : P) (k : P -> bool) : bool :=
  then_ parse p (fun _ p => k p).

Definition is_ok {E A} (m : res E A) : bool := ok_and m (fun _ => true).

(** [meta.tx_id.as_deref() == Some(id)], and the same under [common_meta]. *)
Definition meta_tx (common : CommonEventFields EventMetadata) (id : string) : bool :=
  some_and (meta common) (fun m => tx_id m =! Some id).

Definition zero_address : string :=
  "0:0000000000000000000000000000000000000000000000000000000000000000".
Definition gateway_hex : string :=
  "0:00194AAD8E422BEDF43FEE746D6D929D369DBAB25468A69D513706EA6978B63A".

(** *** [parser_call_contract.rs] *)

Definition parser_call_contract_test_parser : bool :=
  got (TonAddress_from_hex_str gateway_hex) (fun address =>
  with_tx 1 1 (fun tx =>
  matches (ParserCallContract.new tx address "ton2") ParserCallContract.check_match (fun parser =>
  ok_and (ParserCallContract.message_id parser) (fun id => some_and id (fun id =>
    id =! "0xd60ccda763591b1af5a1771f0913a6851174ef161da21ed7e750a0240db1fd03")) &&
  parsed ParserCallContract.parse parser (fun parser =>
  ok_and (ParserCallContract.event now parser None) (fun event =>
  match event with
  | Call common message destination_chain payload =>
      (destination_chain =! "avalanche-fuji") &&
      (payload =!
        "AAAAAAAAAAAAAAAAAAAAAAAAAAAAAAAAAAAAAAAAACAAAAAAAAAAAAAAAAAAAAAAAAAAAAAAAAAAAAAAAAAAE0hlbGxvIGZyb20gUmVsYXllciEAAAAAAAAAAAAAAAAA") &&
      (gm_message_id message =!
        "0xd60ccda763591b1af5a1771f0913a6851174ef161da21ed7e750a0240db1fd03") &&
      (gm_source_chain message =! "ton2") &&
      (gm_payload_hash message =! "rqZSQ2cAD7SgqiCx1PY9qtHtnp33Fj8jCWc2EPLzfUs=") &&
      (gm_source_address message =!
        "0:e1e633eb701b118b44297716cee7069ee847b56db88c497efea681ed14b2d2c7") &&
      meta_tx common "1gzNp2NZGxr1oXcfCROmhRF07xYdoh7X51CgJA2x/QM="
  | _ => false
  end))))).

Definition parser_call_contract_test_no_match : bool :=
  got (TonAddress_from_hex_str gateway_hex) (fun address =>
  with_tx 1 0 (fun tx =>
  no_match (ParserCallContract.new tx address "ton2") ParserCallContract.check_match)).

Definition parser_call_contract_test_wrong_address : bool :=
  got (TonAddress_from_hex_str zero_address) (fun address =>
  with_tx 1 1 (fun tx =>
  no_match (ParserCallContract.new tx address "ton2") ParserCallContract.check_match)).

(** *** [parser_message_approved.rs] *)

Definition parser_message_approved_test_parser : bool :=
  with_tx 0 0 (fun tx =>
  matches (ParserMessageApproved.new tx (account tx)) ParserMessageApproved.check_match (fun parser =>
  parsed ParserMessageApproved.parse parser (fun parser =>
  ok_and (ParserMessageApproved.event now parser None) (fun event =>
  match event with
  | MessageApproved common message cost =>
      (gm_message_id message =!
        "0xf38d2a646e4b60e37bc16d54bb9163739372594dc96bab954a85b4a170f49e58-1") &&
      (gm_source_chain message =! "avalanche-fuji") &&
      (gm_payload_hash message =!
        "9e01c423ca440c5ec2beecc9d0a152b54fc8e7a416c931b7089eaf221605af17") &&
      (amount cost =! "0") && (token_id cost =! None) &&
      some_and (meta common) (fun m => tx_id (ma_common_meta m) =! Some "aa1")
  | _ => false
  end)))).

Definition parser_message_approved_test_no_match : bool :=
  got (TonAddress_from_hex_str zero_address) (fun address =>
  with_tx 1 0 (fun tx =>
  no_match (ParserMessageApproved.new tx address) ParserMessageApproved.check_match)).

(** *** [parser_message_executed.rs] *)

(** The event of a message-executed transaction. *)
Definition message_executed (i j : nat) (id tx_hash : string) : bool :=
  with_tx i j (fun tx =>
  matches (ParserMessageExecuted.new tx (account tx)) ParserMessageExecuted.check_match (fun parser =>
  parsed ParserMessageExecuted.parse parser (fun parser =>
  ok_and (ParserMessageExecuted.event now parser None) (fun event =>
  match event with
  | MessageExecuted common message_id source_chain SUCCESSFUL cost =>
      (message_id =! id) && (source_chain =! "avalanche-fuji") &&
      (amount cost =! "0") && (token_id cost =! None) &&
      some_and (meta common) (fun m =>
        (tx_id (me_common_meta m) =! Some tx_hash) && (revert_reason m =! None))
  | _ => false
  end)))).

Definition parser_message_executed_test_parser : bool :=
  message_executed 0 3 "0xf2b741fb0b2c2fcf92aca82395bc65dab4dd8239a12f366d6045755e0b02c2a2-1" "aa4".

Definition parser_message_executed_test_parser_b : bool :=
  message_executed 17 4 "0x78e6b50757198db577c8a1d1f8c33ed039417be7ec176070a61f2e72387a8610-1"
    "6yp4hEyN3u7JNKkbeKFrdgJI/VJqG4hY/roRvT7RNPw=".

Definition parser_message_executed_test_no_match : bool :=
  got (TonAddress_from_hex_str zero_address) (fun address =>
  with_tx 1 0 (fun tx =>
  no_match (ParserMessageExecuted.new tx address) ParserMessageExecuted.check_match)).

(** *** The gas payments *)

(** The event of a gas payment. *)
Definition gas_credit (event : res perror Event) (id refund paid tx_hash : string) : bool :=
  ok_and event (fun event =>
  match event with
  | GasCredit common message_id refund_address payment =>
      (message_id =! id) && (refund_address =! refund) && (amount payment =! paid) &&
      meta_tx common tx_hash
  | _ => false
  end).

Definition native_gas_paid (i j : nat) (paid tx_hash : string) : bool :=
  with_tx i j (fun tx =>
  matches (ParserNativeGasPaid.new tx (account tx)) ParserNativeGasPaid.check_match (fun parser =>
  is_ok (ParserNativeGasPaid.message_id parser) &&
  parsed ParserNativeGasPaid.parse parser (fun parser =>
  gas_credit (ParserNativeGasPaid.event now parser (Some "foo")) "foo"
    "0:e1e633eb701b118b44297716cee7069ee847b56db88c497efea681ed14b2d2c7" paid tx_hash))).

Definition parser_native_gas_paid_test_parser_native_gas_paid_for_contract_call : bool :=
  native_gas_paid 4 2 "28846800" "Ptv+ldOh9sTQOvwx23nPD8t6iGmm2RZVgUBXBk/jyrU=".

Definition parser_native_gas_paid_test_parser_gas_paid : bool :=
  native_gas_paid 18 1 "198639200" "PzeZlujUPePAMw0Fz/eYeCRz11/X/f5YzUjfYXomzS8=".

Definition parser_native_gas_paid_test_no_match : bool :=
  got (TonAddress_from_hex_str zero_address) (fun address =>
  with_tx 1 0 (fun tx =>
  no_match (ParserNativeGasPaid.new tx address) ParserNativeGasPaid.check_match)).

Definition parser_native_gas_added_test_parser : bool :=
  with_tx 5 1 (fun tx =>
  matches (ParserNativeGasAdded.new tx (account tx)) ParserNativeGasAdded.check_match (fun parser =>
  parsed ParserNativeGasAdded.parse parser (fun parser =>
  ok_and (ParserNativeGasAdded.message_id parser) (fun id => some_and id (fun id =>
    id =! "0x0e6f759f68edb972cc1c5ac28ae44a026567c39d0a67d71de90978a12106a6ba")) &&
  gas_credit (ParserNativeGasAdded.event now parser None)
    "0x0e6f759f68edb972cc1c5ac28ae44a026567c39d0a67d71de90978a12106a6ba"
    "0:e1e633eb701b118b44297716cee7069ee847b56db88c497efea681ed14b2d2c7" "299338000"
    "hlbJSt6b0kkNh0We16gyIxE5WyDRDltaKIYOmfEZtAs="))).

Definition parser_native_gas_added_test_no_match : bool :=
  got (TonAddress_from_hex_str zero_address) (fun address =>
  with_tx 1 0 (fun tx =>
  no_match (ParserNativeGasAdded.new tx address) ParserNativeGasAdded.check_match)).

Definition parser_jetton_gas_added_test_parser : bool :=
  with_tx 10 3 (fun tx =>
  matches (ParserJettonGasAdded.new tx (account tx)) ParserJettonGasAdded.check_match (fun parser =>
  parsed ParserJettonGasAdded.parse parser (fun parser =>
  ok_and (ParserJettonGasAdded.message_id parser) (fun id => some_and id (fun id =>
    id =! "0x5668753387dd61705335a69d13c61216624e27cf7497cf29635581c573d31cf8")) &&
  gas_credit (ParserJettonGasAdded.event now parser None)
    "0x5668753387dd61705335a69d13c61216624e27cf7497cf29635581c573d31cf8"
    "0:ed22df34219ae26039fd977d8e419ae14d78b192e9db5dcfa3597899096470d1" "1"
    "etlBvJ9Oca6e9KYCUM5OJWVVkTJhoOK2AEbQEV1knZ8="))).

Definition parser_jetton_gas_added_test_no_match : bool :=
  got (TonAddress_from_hex_str zero_address) (fun address =>
  with_tx 1 0 (fun tx =>
  no_match (ParserJettonGasAdded.new tx address) ParserJettonGasAdded.check_match)).

Definition parser_jetton_gas_paid_test_parser : bool :=
  with_tx 9 3 (fun tx =>
  matches (ParserJettonGasPaid.new tx (account tx)) ParserJettonGasPaid.check_match (fun parser =>
  is_ok (ParserJettonGasPaid.message_id parser) &&
  parsed ParserJettonGasPaid.parse parser (fun parser =>
  gas_credit (ParserJettonGasPaid.event now parser (Some "foo")) "foo"
    "0:e1e633eb701b118b44297716cee7069ee847b56db88c497efea681ed14b2d2c7" "1000000"
    "/OxewvVQHSEhT6pz1L/et2BKJC7avRCYEx0FbUWPEuo="))).

Definition parser_jetton_gas_paid_test_no_match : bool :=
  got (TonAddress_from_hex_str zero_address) (fun address =>
  with_tx 10 3 (fun tx =>
  no_match (ParserJettonGasPaid.new tx address) ParserJettonGasPaid.check_match)).

Definition parser_native_gas_refunded_test_parser : bool :=
  with_tx 7 2 (fun tx =>
  matches (ParserNativeGasRefunded.new tx (account tx)) ParserNativeGasRefunded.check_match (fun parser =>
  parsed ParserNativeGasRefunded.parse parser (fun parser =>
  ok_and (ParserNativeGasRefunded.message_id parser) (fun id => some_and id (fun id =>
    id =! "0xeb065d9d930349d0643b946d961ec600f80d5e5f30ab01df6f136243ee5035c2")) &&
  ok_and (ParserNativeGasRefunded.event parser None) (fun event =>
  match event with
  | GasRefunded common message_id recipient_address refunded_amount cost =>
      (message_id =! "0xeb065d9d930349d0643b946d961ec600f80d5e5f30ab01df6f136243ee5035c2") &&
      (recipient_address =!
        "0:e1e633eb701b118b44297716cee7069ee847b56db88c497efea681ed14b2d2c7") &&
      (amount refunded_amount =! "266907599") && (amount cost =! "0") &&
      (token_id refunded_amount =! None) && (token_id cost =! None) &&
      match meta common with None => true | Some _ => false end
  | _ => false
  end)))).

Definition parser_native_gas_refunded_test_no_match : bool :=
  got (TonAddress_from_hex_str zero_address) (fun address =>
  with_tx 7 0 (fun tx =>
  no_match (ParserNativeGasRefunded.new tx address) ParserNativeGasRefunded.check_match)).

(** *** The token service *)

(** The event of an ITS log, with the id it is given. *)
Definition its_event {P} (m : res perror P) (check_match parse : st P perror bool)
    (message_id : P -> res perror (option string)) (event : P -> option string -> res perror Event)
    (k : Event -> bool) : bool :=
  matches m check_match (fun parser =>
  is_ok (message_id parser) &&
  parsed parse parser (fun parser => ok_and (event parser (Some "foo")) k)).

(** The ITS transfer of a transaction. *)
Definition its_transfer (i j : nat) (token spent from to tx_hash : string) : bool :=
  with_tx i j (fun tx =>
  its_event (ParserITSInterchainTransfer.new tx (account tx))
    ParserITSInterchainTransfer.check_match ParserITSInterchainTransfer.parse
    ParserITSInterchainTransfer.message_id (ParserITSInterchainTransfer.event now) (fun event =>
  match event with
  | ITSInterchainTransfer common message_id destination_chain token_spent source_address
      destination_address data_hash =>
      (message_id =! "foo") && (destination_chain =! "avalanche-fuji") &&
      (token_id token_spent =! Some token) && (amount token_spent =! spent) &&
      (source_address =! from) && (destination_address =! to) &&
      (data_hash =! "00000000000000000000000000000000") && meta_tx common tx_hash
  | _ => false
  end)).

Definition parser_its_interchain_transfer_test_parser : bool :=
  its_transfer 21 5 "0x12de0c2d53d40473f2f8683f95d825e2fbb36c319c8cdf95f8de30f933db569c" "10"
    "0:898ad13c059f2a3a69576a010c41af239b487bc555eabeb9a5894deb11299330"
    "0x307837324434383946433931663333303131454334364566613738643337453032644343333335343533"
    "whzah8/IAGKVzmJNgD5/w9xygsneoYXrMtaluuPp1vs=".

Definition parser_its_interchain_transfer_test_parser_different_position : bool :=
  its_transfer 23 7 "0x448414de01bef5762e7341b7bcdddd806c31989ce5c552b206b314bae4eb8685" "100"
    "0:1fe0fa0e78288928ca05908c617fb90bdc7edde429e146ca048bdcd31c890e76"
    "0x51990c837551917363e75636d6eb87d7f68dd6c8"
    "+rzq0roTNGHBDmHs09pgaqgNYGpp5NsjBBhyOPbjhPE=".

Definition parser_its_interchain_transfer_test_no_match : bool :=
  got (TonAddress_from_hex_str zero_address) (fun address =>
  with_tx 20 3 (fun tx =>
  no_match (ParserITSInterchainTransfer.new tx address) ParserITSInterchainTransfer.check_match)).

Definition parser_its_link_token_started_test_parser : bool :=
  with_tx 22 3 (fun tx =>
  its_event (ParserITSLinkTokenStarted.new tx (account tx))
    ParserITSLinkTokenStarted.check_match ParserITSLinkTokenStarted.parse
    ParserITSLinkTokenStarted.message_id (ParserITSLinkTokenStarted.event now) (fun event =>
  match event with
  | ITSLinkTokenStarted common message_id token_id destination_chain source_token_address
      destination_token_address LockUnlock =>
      (message_id =! "foo") && (destination_chain =! "avalanche-fuji") &&
      (token_id =! "0x3b68a3e01061c8e033a99697acc6b23e7a829f8d816036f64b11576535e6eeb5") &&
      (source_token_address =!
        "0x269be316404c6f814e0ae5b3e79f1a1d20100f7ad54abf157e9dd6c49ffcb05b") &&
      (destination_token_address =!
        "0x307838316536336541384636344645644239383538454236453231373642343331464264313064316543") &&
      meta_tx common "Jfq+NTo1X/4gXQri4fUs4goCq4+zRoz4oHBq+rHI3KM="
  | _ => false
  end)).

Definition parser_its_link_token_started_test_no_match : bool :=
  got (TonAddress_from_hex_str zero_address) (fun address =>
  with_tx 20 3 (fun tx =>
  no_match (ParserITSLinkTokenStarted.new tx address) ParserITSLinkTokenStarted.check_match)).

Definition parser_its_interchain_token_deployment_started_test_parser : bool :=
  with_tx 20 3 (fun tx =>
  its_event (ParserITSInterchainTokenDeploymentStarted.new tx (account tx))
    ParserITSInterchainTokenDeploymentStarted.check_match
    ParserITSInterchainTokenDeploymentStarted.parse
    ParserITSInterchainTokenDeploymentStarted.message_id
    (ParserITSInterchainTokenDeploymentStarted.event now) (fun event =>
  match event with
  | ITSInterchainTokenDeploymentStarted common message_id destination_chain token =>
      (message_id =! "foo") && (destination_chain =! "avalanche-fuji") &&
      (itd_id token =! "0xa83f8491782f4edd33810373a6bc95a42ff4a460381d5ee4f86ff33faf2dfbbc") &&
      (itd_symbol token =! "TONTEST") && (itd_name token =! "Test token") &&
      (itd_decimals token =! 9) &&
      meta_tx common "Det6b7Uh8FfP7N3e6pqb4guD71ZJj5WxN49Y/QezJQM="
  | _ => false
  end)).

Definition parser_its_interchain_token_deployment_started_test_no_match : bool :=
  got (TonAddress_from_hex_str zero_address) (fun address =>
  with_tx 20 1 (fun tx =>
  no_match (ParserITSInterchainTokenDeploymentStarted.new tx address)
    ParserITSInterchainTokenDeploymentStarted.check_match)).

Definition parser_its_token_metadata_registered_test_parser : bool :=
  with_tx 19 1 (fun tx =>
  its_event (ParserITSTokenMetadataRegistered.new tx (account tx))
    ParserITSTokenMetadataRegistered.check_match ParserITSTokenMetadataRegistered.parse
    ParserITSTokenMetadataRegistered.message_id (ParserITSTokenMetadataRegistered.event now) (fun event =>
  match event with
  | ITSTokenMetadataRegistered common message_id address decimals =>
      (message_id =! "foo") &&
      (address =! "0x9e0d7f273766f7ad7ff3e0b8e7b625ec267e8b8ff2d09a10351fb67bea288ca1") &&
      (decimals =! 9) && meta_tx common "fmi15xWaSKCu+gsavto75ZjRgPQzBkoAfNEJ+5Fvh4I="
  | _ => false
  end)).

Definition parser_its_token_metadata_registered_test_no_match : bool :=
  got (TonAddress_from_hex_str zero_address) (fun address =>
  with_tx 10 3 (fun tx =>
  no_match (ParserITSTokenMetadataRegistered.new tx address)
    ParserITSTokenMetadataRegistered.check_match)).

(** *** [parser_signers_rotated.rs] *)

Definition parser_signers_rotated_test_parser : bool :=
  with_tx 24 1 (fun tx =>
  its_event (ParserSignersRotated.new tx (account tx))
    ParserSignersRotated.check_match ParserSignersRotated.parse
    ParserSignersRotated.message_id (ParserSignersRotated.event now) (fun event =>
  match event with
  | SignersRotated common message_id =>
      (message_id =! "0x409645b0e14243e7344db15d1b1bbccd1a2f74bde0dccfc7b0a777f4c340d02f") &&
      some_and (meta common) (fun m =>
        (tx_id (sr_common_meta m) =! Some "QJZFsOFCQ+c0TbFdGxu8zRovdL3g3M/HsKd39MNA0C8=") &&
        (sr_epoch m =! Some 2) &&
        (sr_signers_hash m =!
          Some "0x4b163171177cefe9be70322b61eb0bf141920bb8f6faea9c79271a5c331aacd5"))
  | _ => false
  end)).

Definition parser_signers_rotated_test_no_match : bool :=
  got (TonAddress_from_hex_str zero_address) (fun address =>
  with_tx 20 1 (fun tx =>
  no_match (ParserSignersRotated.new tx address) ParserSignersRotated.check_match)).

(** *** [parser_execute_insufficient_gas.rs] *)

Definition cannot_execute (i : nat) (id : string) : bool :=
  got (TonAddress_from_hex_str gateway_hex) (fun address =>
  with_trace i (fun tr =>
  matches (ParserExecuteInsufficientGas.new tr address "ton2")
    ParserExecuteInsufficientGas.check_match (fun parser =>
  parsed ParserExecuteInsufficientGas.parse parser (fun parser =>
  ok_and (ParserExecuteInsufficientGas.event parser None) (fun event =>
  match event with
  | CannotExecuteMessageV2 _ message_id _ _ _ => message_id =! id
  | _ => false
  end))))).

Definition parser_execute_insufficient_gas_test_parser : bool :=
  cannot_execute 14 "0x89f3252fb9ad7003c25471685f48d14c842a2910b9386d35f859694babf7b1cf".

Definition parser_execute_insufficient_gas_test_no_match : bool :=
  got (TonAddress_from_hex_str gateway_hex) (fun address =>
  with_trace 12 (fun tr =>
  no_match (ParserExecuteInsufficientGas.new tr address "ton2")
    ParserExecuteInsufficientGas.check_match)).

Definition parser_execute_insufficient_gas_test_parser_result_code_37 : bool :=
  cannot_execute 15 "0xbb66ce2ce9f5b1a21d967046101b302b626bcb8b586e7cfa9b9aeb1a4ea2f5ca".

(** ** [parser.rs] *)

(** The prices of [mock_price_view]; a decimal is a fraction, rounded half to
    even. *)
Definition round_half_even (a b : Z) : Z :=
  let q := a / b in
  let r := 2 * (a mod b) in
  if decide (r < b) then q
  else if decide (b < r) then q + 1
  else if Z.even q then q else q + 1.

#[local] Instance mock_price_view : PriceLib := {|
  Decimal := Z * Z;
  Decimal_from_str s := match BigUint_from_str s with inl e => inl e | inr n => inr (Z.of_N n, 1) end;
  Decimal_mul a b := Some (fst a * fst b, snd a * snd b);
  Decimal_div a b := if decide (fst b = 0) then None else Some (fst a * snd b, snd a * fst b);
  Decimal_round a := (round_half_even (fst a) (snd a), 1);
  Decimal_to_string a := z_to_string (fst a);
  get_price pair :=
    if decide (pair = "0:1962e375dcf78f97880e9bec4f63e1afe683b4abdd8855d366014c05ff1160e9/USD")
    then inr (1, 2)
    else if decide (pair = "TON/USD") then inr (3, 1)
    else inl (Instances.ferr0 "no price");
|}.

(** [TraceParser::new], and [parse_trace] on a recorded trace. *)
Definition parses (gateway gas_service its : TonAddress) (our : list TonAddress) (t : Trace)
    (k : list Event -> bool) : bool :=
  ok_and (parse_trace now {| gateway_address := gateway; gas_service_address := gas_service;
    its_address := its; gas_calculator := GasCalculator_new our; TraceParser.chain_name := "ton2" |} t) k.

Definition parser_test_parser_converted_and_message_id_set : bool :=
  got (TonAddress_from_hex_str zero_address) (fun gateway =>
  got (TonAddress_from_hex_str
    "0:00000000000000000000000000000000000000000000000000000000000000ff") (fun gas_service =>
  got (TonAddress_from_hex_str
    "0:000000000000000000000000000000000000000000000000000000000000ffff") (fun its =>
  with_tx 9 4 (fun tx4 => with_tx 9 1 (fun tx1 => with_trace 9 (fun t =>
  parses (account tx4) (account tx1) its [gateway; gas_service] t (fun events =>
  match events with
  | [Call _ message destination_chain _; GasCredit _ message_id _ payment] =>
      (destination_chain =! "ton2") &&
      (gm_message_id message =!
        "0xd59014fd585eed8bee519c40d93be23a991fdb7d68a41eb7ad678dc40510e65d") &&
      (message_id =! "0xd59014fd585eed8bee519c40d93be23a991fdb7d68a41eb7ad678dc40510e65d") &&
      (amount payment =! "166667") && (token_id payment =! None)
  | _ => false
  end))))))).

Definition parser_test_gas_executed : bool :=
  got (TonAddress_from_base64_url "EQCQPVhDBzLBwIlt8MtDhPwIrANfNH2ZQnX0cSvhCD4DlThU") (fun gateway =>
  got (TonAddress_from_base64_url "EQBcfOiB4SF73vEFm1icuf3oqaFHj1bNQgxvwHKkxAiIjxLZ") (fun gas_service =>
  got (TonAddress_from_base64_url "kQD-xq9YjzE6cq10P801OkBA65abvxvID5pnfFjTszltjilk") (fun its =>
  with_tx 11 2 (fun tx2 => with_trace 11 (fun t =>
  parses (account tx2) gas_service its [gateway; gas_service; its] t (fun events =>
  match events with
  | [MessageExecuted _ _ _ _ cost] => (amount cost =! "42039207") && (token_id cost =! None)
  | _ => false
  end)))))).

Definition parser_test_its_call_contract_connection : bool :=
  got (TonAddress_from_base64_url "kQApTXLsQhuTDGCFT0E0eMFi_c7sZXRghOus4lInGCl5osD9") (fun gateway =>
  got (TonAddress_from_base64_url "EQBcfOiB4SF73vEFm1icuf3oqaFHj1bNQgxvwHKkxAiIjxLZ") (fun gas_service =>
  got (TonAddress_from_base64_url "kQDdU6MZZX_QYO4RPTMaPJ9kFUdX2474z2yxRvDuhnXZv-aH") (fun its =>
  with_trace 19 (fun t =>
  parses gateway gas_service its [gateway; gas_service; its] t (fun events =>
  match events with
  | [Call _ message destination_chain payload;
     ITSTokenMetadataRegistered _ message_id address decimals] =>
      (gm_message_id message =!
        "0xa88a820f8aa9750d0b057efe44e7e16795656157b796250afc0fbf4d23c649e1") &&
      (gm_source_chain message =! "ton2") &&
      (gm_source_address message =!
        "0:dd53a319657fd060ee113d331a3c9f64154757db8ef8cf6cb146f0ee8675d9bf") &&
      (gm_payload_hash message =! "IQBup4rxdld80lWFcBVi97AwbcGzoxMLL3V3EIFAMLc=") &&
      (gm_destination_address message =!
        "axelar157hl7gpuknjmhtac2qnphuazv2yerfagva7lsu9vuj2pgn32z22qa26dk4") &&
      (destination_chain =! "axelar") &&
      (payload =!
        "AAAAAAAAAAAAAAAAAAAAAAAAAAAAAAAAAAAAAAAAAAYAAAAAAAAAAAAAAAAAAAAAAAAAAAAAAAAAAAAAAAAAYAAAAAAAAAAAAAAAAAAAAAAAAAAAAAAAAAAAAAAAAAAJAAAAAAAAAAAAAAAAAAAAAAAAAAAAAAAAAAAAAAAAACCeDX8nN2b3rX/z4LjntiXsJn6Lj/LQmhA1H7Z76iiMoQ==") &&
      (message_id =! "0xa88a820f8aa9750d0b057efe44e7e16795656157b796250afc0fbf4d23c649e1") &&
      (decimals =! 9) &&
      (address =! "0x9e0d7f273766f7ad7ff3e0b8e7b625ec267e8b8ff2d09a10351fb67bea288ca1")
  | _ => false
  end))))).

Definition parser_test_gas_approved : bool :=
  got (TonAddress_from_base64_url "EQCQPVhDBzLBwIlt8MtDhPwIrANfNH2ZQnX0cSvhCD4DlThU") (fun gateway =>
  got (TonAddress_from_base64_url "EQBcfOiB4SF73vEFm1icuf3oqaFHj1bNQgxvwHKkxAiIjxLZ") (fun gas_service =>
  got (TonAddress_from_base64_url "kQD-xq9YjzE6cq10P801OkBA65abvxvID5pnfFjTszltjilk") (fun its =>
  with_tx 2 2 (fun tx2 => with_trace 2 (fun t =>
  parses (account tx2) gas_service its [gateway; gas_service] t (fun events =>
  match events with
  | [MessageApproved _ _ cost] => (amount cost =! "27244157") && (token_id cost =! None)
  | _ => false
  end)))))).

Definition parser_test_gas_refunded : bool :=
  got (TonAddress_from_base64_url "EQCQPVhDBzLBwIlt8MtDhPwIrANfNH2ZQnX0cSvhCD4DlThU") (fun gateway =>
  got (TonAddress_from_base64_url "kQCEKDERj88xS-gD7non_TITN-50i4QI8lMukNkqknAX28OJ") (fun gas_service =>
  got (TonAddress_from_base64_url "kQD-xq9YjzE6cq10P801OkBA65abvxvID5pnfFjTszltjilk") (fun its =>
  with_trace 8 (fun t =>
  parses gateway gas_service its [gateway; gas_service] t (fun events =>
  match events with
  | [GasRefunded _ _ _ _ cost] => (amount cost =! "10869279") && (token_id cost =! None)
  | _ => false
  end))))).

(** ** All of them *)

Definition trace_tests : list bool := [
  gas_calculator_test_gas_approved;
  gas_calculator_test_gas_refund;
  gas_calculator_test_gas_refund_regular;
  gas_calculator_test_gas_approved_a;
  gas_calculator_test_gas_approved_b;
  gas_calculator_test_gas_executed;
  gas_calculator_test_gas_approved_c;
  parser_call_contract_test_parser;
  parser_call_contract_test_no_match;
  parser_call_contract_test_wrong_address;
  parser_message_approved_test_parser;
  parser_message_approved_test_no_match;
  parser_message_executed_test_parser;
  parser_message_executed_test_parser_b;
  parser_message_executed_test_no_match;
  parser_native_gas_paid_test_parser_native_gas_paid_for_contract_call;
  parser_native_gas_paid_test_parser_gas_paid;
  parser_native_gas_paid_test_no_match;
  parser_native_gas_added_test_parser;
  parser_native_gas_added_test_no_match;
  parser_jetton_gas_added_test_parser;
  parser_jetton_gas_added_test_no_match;
  parser_jetton_gas_paid_test_parser;
  parser_jetton_gas_paid_test_no_match;
  parser_native_gas_refunded_test_parser;
  parser_native_gas_refunded_test_no_match;
  parser_its_interchain_transfer_test_parser;
  parser_its_interchain_transfer_test_parser_different_position;
  parser_its_interchain_transfer_test_no_match;
  parser_its_link_token_started_test_parser;
  parser_its_link_token_started_test_no_match;
  parser_its_interchain_token_deployment_started_test_parser;
  parser_its_interchain_token_deployment_started_test_no_match;
  parser_its_token_metadata_registered_test_parser;
  parser_its_token_metadata_registered_test_no_match;
  parser_signers_rotated_test_parser;
  parser_signers_rotated_test_no_match;
  parser_execute_insufficient_gas_test_parser;
  parser_execute_insufficient_gas_test_no_match;
  parser_execute_insufficient_gas_test_parser_result_code_37;
  parser_test_parser_converted_and_message_id_set;
  parser_test_gas_executed;
  parser_test_its_call_contract_connection;
  parser_test_gas_approved;
  parser_test_gas_refunded].

(** On the traces recorded from the chain the gas calculator gives the
    costs, each parser matches the transactions and gives the events, and the
    trace parser gives the paired and priced events, that the unit tests of the
    crate expect. *)
Theorem recorded_traces_parse : forallb id trace_tests = true.
Proof. by vm_compute. Qed.
