(* ===== verification/Locks.v ===== *)
(** * The locks of the wallets: proofs about [wallet_manager.rs] and
    [lock_manager.rs]

    Runs of the clients of one manager over Redis, as a step relation: mutual
    exclusion, recovery from a client that does not release, and the theft of
    a lock by a late release. *)

From Stdlib Require Import ZArith Lia Strings.Byte Strings.Ascii.
From stdpp Require Import base strings pretty countable gmap list.
From S2P Require Import Prelude RustStd Foreign Types CellCodec QueryId Wallet Instances.

(** ** The lock *)

(** Documented: [SET k true NX EX s] answers [true] when the key is absent or
    expired, and then the key is set for [s] seconds; a key that is set stays,
    and the answer, if any, is [false].  [DEL] removes the key.  Neither
    touches another key.  [redis_expiry] is the time at which a key
    disappears; a request may fail, executed or not. *)
Class RedisLaws (R : Type) `{RedisLib R} := {
  redis_now : R -> Z;
  redis_expiry : R -> string -> option Z;
  redis_set_now k s r : redis_now (snd (redis_set_nx_ex k s r)) = redis_now r;
  redis_set_free k s r :
    fst (redis_set_nx_ex k s r) = inr true ->
    redis_expiry (snd (redis_set_nx_ex k s r)) k = Some (redis_now r + s);
  redis_set_live k s r t :
    redis_expiry r k = Some t -> redis_now r < t ->
    fst (redis_set_nx_ex k s r) <> inr true /\
    redis_expiry (snd (redis_set_nx_ex k s r)) k = Some t;
  redis_set_other k s r k' :
    k' <> k -> redis_expiry (snd (redis_set_nx_ex k s r)) k' = redis_expiry r k';
  redis_set_absent k s r :
    redis_expiry r k = None \/ (exists t, redis_expiry r k = Some t /\ t <= redis_now r) ->
    fst (redis_set_nx_ex k s r) = inr true \/ exists e, fst (redis_set_nx_ex k s r) = inl e;
  redis_set_bound k s r t :
    redis_expiry (snd (redis_set_nx_ex k s r)) k = Some t ->
    redis_expiry r k = Some t \/ t = redis_now r + s;
  redis_del_now k r : redis_now (snd (redis_del k r)) = redis_now r;
  redis_del_other k r k' :
    k' <> k -> redis_expiry (snd (redis_del k r)) k' = redis_expiry r k';
  redis_del_bound k r t :
    redis_expiry (snd (redis_del k r)) k = Some t -> redis_expiry r k = Some t;
}.

Section Locks.
Context {TAL : TonAddressLib} {R : Type} {RL : RedisLib R} {RLA : RedisLaws R}.
Context (to_string_inj : forall a b, TonAddress_to_string a = TonAddress_to_string b -> a = b).

Definition wallet_key (a : TonAddress) : string := lock_key (TonAddress_to_string a).

Lemma wallet_key_inj a b : wallet_key a = wallet_key b -> a = b.
Proof.
  unfold wallet_key, lock_key. intros H. apply to_string_inj.
  assert (forall p s t : string, p +:+ s = p +:+ t -> s = t) as Hinj.
  { clear. induction p as [|c p IH]; intros s t H; [done|]. injection H as H. auto. }
  by eapply Hinj.
Qed.

(** The lock of [a] is held until [t]. *)
Definition held (r : R) (a : TonAddress) (t : Z) : Prop :=
  redis_expiry r (wallet_key a) = Some t /\ redis_now r < t.

Lemma lock_held r a t a' :
  held r a t ->
  held (snd (lock (TonAddress_to_string a') r)) a t /\
  (fst (lock (TonAddress_to_string a') r) = true -> a' <> a).
Proof.
  intros [He Hn]. cbn [lock redis_lock_manager].
  pose proof (redis_set_now (lock_key (TonAddress_to_string a')) 60 r) as Hnow.
  pose proof (redis_set_live (wallet_key a) 60 r t He Hn) as [Hfst Hlive].
  pose proof (redis_set_other (lock_key (TonAddress_to_string a')) 60 r (wallet_key a)) as Hother.
  destruct (decide (a' = a)) as [->|Hne].
  - unfold wallet_key in *. destruct (redis_set_nx_ex _ 60 r) as [x r'] eqn:E. cbn [fst snd] in *.
    split; [split; [done|lia]|]. destruct x as [e|[]]; done.
  - assert (wallet_key a <> lock_key (TonAddress_to_string a')) as Hk.
    { intros Heq. apply Hne. symmetry. by apply wallet_key_inj. }
    specialize (Hother Hk). destruct (redis_set_nx_ex _ 60 r) as [x r'] eqn:E. cbn [fst snd] in *.
    split; [split; [congruence|lia]|done].
Qed.

Lemma acquire_from_held l r a t :
  Forall (fun '(a, w) => wallet_address w = a) l -> held r a t ->
  held (snd (acquire_from l r)) a t /\
  (forall w, fst (acquire_from l r) = Ok w -> wallet_address w <> a).
Proof.
  intros Hwf. revert r. induction Hwf as [|[a' wa] l Ha Hwf IH]; intros r Hh; cbn [acquire_from]; [done|].
  destruct (lock_held r a t a' Hh) as [Hh' Hb].
  destruct (lock (TonAddress_to_string a') r) as [[] r1]; cbn [fst snd] in *.
  - split; [done|]. intros w [= <-]. rewrite Ha. by apply Hb.
  - by apply IH.
Qed.

Lemma acquire_from_now l r : redis_now (snd (acquire_from l r)) = redis_now r.
Proof.
  revert r. induction l as [|[a wa] l IH]; intros r; cbn [acquire_from]; [done|].
  cbn [lock redis_lock_manager].
  pose proof (redis_set_now (lock_key (TonAddress_to_string a)) 60 r) as Hnow.
  destruct (redis_set_nx_ex _ 60 r) as [[e|[]] r1]; cbn [snd] in *; rewrite ?IH; done.
Qed.

Lemma acquire_from_ok l r w :
  Forall (fun '(a, w) => wallet_address w = a) l -> fst (acquire_from l r) = Ok w ->
  redis_expiry (snd (acquire_from l r)) (wallet_key (wallet_address w)) = Some (redis_now r + 60).
Proof.
  intros Hwf. revert r. induction Hwf as [|[a wa] l Ha Hwf IH]; intros r; cbn [acquire_from]; [done|].
  cbn [lock redis_lock_manager].
  pose proof (redis_set_now (lock_key (TonAddress_to_string a)) 60 r) as Hnow.
  pose proof (redis_set_free (lock_key (TonAddress_to_string a)) 60 r) as Hfree.
  destruct (redis_set_nx_ex _ 60 r) as [[e|[]] r1]; cbn [fst snd] in *.
  - intros H. rewrite <- Hnow. by apply IH.
  - intros [= <-]. rewrite Ha. by apply Hfree.
  - intros H. rewrite <- Hnow. by apply IH.
Qed.

(** ** Runs of the clients of one manager *)

Inductive wm_label : Type :=
| LAcquire (w : TonWalletHighLoadV3)
| LNoWallet
| LRelease (w : TonWalletHighLoadV3)
| LTime.

Inductive wm_step (m : WalletManager) : R -> wm_label -> R -> Prop :=
| step_acquire r w : fst (acquire m r) = Ok w -> wm_step m r (LAcquire w) (snd (acquire m r))
| step_no_wallet r e : fst (acquire m r) = Err e -> wm_step m r LNoWallet (snd (acquire m r))
| step_release r w : wm_step m r (LRelease w) (release m w r)
| step_time r r' :
    redis_now r <= redis_now r' -> (forall k, redis_expiry r' k = redis_expiry r k) ->
    wm_step m r LTime r'.

Inductive wm_run (m : WalletManager) : R -> list wm_label -> R -> Prop :=
| run_nil r : wm_run m r [] r
| run_cons r l r1 ls r2 : wm_step m r l r1 -> wm_run m r1 ls r2 -> wm_run m r (l :: ls) r2.

Lemma release_now m w r : redis_now (release m w r) = redis_now r.
Proof. unfold release. cbn [unlock redis_lock_manager]. apply redis_del_now. Qed.

Lemma step_now m r l r' : wm_step m r l r' -> redis_now r <= redis_now r'.
Proof.
  intros Hs. destruct Hs as [r w _|r e _|r w|r r' Hr _]; [| |by rewrite release_now|done];
    unfold acquire; by rewrite acquire_from_now.
Qed.

Lemma step_keeps m r l r' a t :
  manager_wf m -> wm_step m r l r' -> redis_expiry r (wallet_key a) = Some t ->
  (forall w, l = LRelease w -> wallet_address w <> a) ->
  t <= redis_now r' \/ redis_expiry r' (wallet_key a) = Some t.
Proof.
  intros Hwf Hs He Hl. apply manager_wf_list in Hwf.
  destruct (decide (redis_now r < t)) as [Hlt|Hge].
  2:{ left. apply step_now in Hs. revert Hs Hge. clear. lia. }
  destruct Hs as [r w Hw|r e Hw|r w|r r' Hr Hk].
  - right. by destruct (acquire_from_held _ r a t Hwf (conj He Hlt)) as [[? _] _].
  - right. by destruct (acquire_from_held _ r a t Hwf (conj He Hlt)) as [[? _] _].
  - right. unfold release. cbn [unlock redis_lock_manager]. rewrite redis_del_other; [done|].
    intros Heq. apply (Hl w eq_refl). symmetry. by apply wallet_key_inj.
  - right. by rewrite Hk.
Qed.

Lemma run_now m r ls r' : wm_run m r ls r' -> redis_now r <= redis_now r'.
Proof. induction 1 as [|r l r1 ls r2 Hs Hr IH]; [lia|]. apply step_now in Hs. lia. Qed.

Lemma run_keeps m r ls r' a t :
  manager_wf m -> wm_run m r ls r' -> redis_expiry r (wallet_key a) = Some t ->
  (forall w, LRelease w ∈ ls -> wallet_address w <> a) ->
  t <= redis_now r' \/ redis_expiry r' (wallet_key a) = Some t.
Proof.
  intros Hwf Hr. induction Hr as [r|r l r1 ls r2 Hs Hr IH]; intros He Hl; [by right|].
  destruct (step_keeps m r l r1 a t Hwf Hs He) as [Hge|He1].
  - intros w ->. apply Hl. by left.
  - left. apply run_now in Hr. lia.
  - apply IH; [done|]. intros w Hw. apply Hl. by right.
Qed.

(** C15. Mutual exclusion: a wallet that was acquired and not released since
    is not acquired again, by any client, within the 60 seconds of the lock. *)
Theorem wallet_exclusive m r0 w r1 ls r2 w' r3 :
  manager_wf m ->
  wm_step m r0 (LAcquire w) r1 -> wm_run m r1 ls r2 -> wm_step m r2 (LAcquire w') r3 ->
  (forall w2, LRelease w2 ∈ ls -> wallet_address w2 <> wallet_address w) ->
  wallet_address w' = wallet_address w ->
  redis_now r0 + 60 <= redis_now r2.
Proof.
  intros Hwf H1 Hrun H2 Hrel Heq. inversion H1 as [? ? Ha1| | |]; subst.
  inversion H2 as [? ? Ha2| | |]; subst.
  pose proof (acquire_from_ok _ _ _ (manager_wf_list m Hwf) Ha1) as He.
  destruct (run_keeps m _ _ _ _ _ Hwf Hrun He Hrel) as [Hge|He2]; [done|].
  destruct (decide (redis_now r0 + 60 <= redis_now r2)) as [|Hlt]; [done|]. exfalso.
  assert (Hh : held r2 (wallet_address w) (redis_now r0 + 60)).
  { split; [done|]. by apply Z.lt_nge. }
  destruct (acquire_from_held _ r2 _ _ (manager_wf_list m Hwf) Hh) as [_ Hne].
  by apply (Hne w' Ha2).
Qed.
(** ** Recovery *)

(** No lock of a wallet lasts longer than 60 seconds from now. *)
Definition bounded (r : R) : Prop :=
  forall k t, redis_expiry r k = Some t -> t <= redis_now r + 60.

Lemma lock_bounded k r : bounded r -> bounded (snd (lock k r)).
Proof.
  intros Hb k' t. cbn [lock redis_lock_manager].
  pose proof (redis_set_now (lock_key k) 60 r) as Hnow.
  pose proof (redis_set_bound (lock_key k) 60 r) as Hset.
  pose proof (redis_set_other (lock_key k) 60 r k') as Hother.
  destruct (redis_set_nx_ex _ 60 r) as [x r']. cbn [snd] in *. rewrite Hnow. intros Ht.
  destruct (decide (k' = lock_key k)) as [->|Hne].
  - destruct (Hset t Ht) as [Ht'|Ht']; [by apply Hb in Ht'|lia].
  - rewrite Hother in Ht by done. by apply Hb in Ht.
Qed.

Lemma acquire_from_bounded l r : bounded r -> bounded (snd (acquire_from l r)).
Proof.
  revert r. induction l as [|[a w] l IH]; intros r Hb; cbn [acquire_from]; [done|].
  apply (lock_bounded (TonAddress_to_string a)) in Hb.
  destruct (lock _ r) as [[] r1]; cbn [snd] in *; [done|by apply IH].
Qed.

Lemma step_bounded m r l r' : wm_step m r l r' -> bounded r -> bounded r'.
Proof.
  intros Hs Hb. destruct Hs as [r w _|r e _|r w|r r' Hr Hk]; [by apply acquire_from_bounded..| |].
  - intros k t Ht. rewrite release_now. unfold release in Ht. cbn [unlock redis_lock_manager] in Ht.
    set (key := lock_key (TonAddress_to_string (wallet_address w))) in *.
    destruct (decide (k = key)) as [->|Hne]; [apply redis_del_bound in Ht|rewrite redis_del_other in Ht by done];
      by apply Hb in Ht.
  - intros k t. rewrite Hk. intros Ht. apply Hb in Ht. lia.
Qed.

Lemma run_bounded m r ls r' : wm_run m r ls r' -> bounded r -> bounded r'.
Proof. induction 1 as [|r l r1 ls r2 Hs Hr IH]; [done|]. intros Hb. by apply IH, (step_bounded m r l). Qed.

(** Recovery: whatever the clients of a manager did, crashes without a
    release included, once 60 seconds pass in which nobody acquires a wallet,
    the next [acquire] gets one, if Redis answers it. *)
Theorem wallet_recovers m r0 ls r1 r2 :
  bounded r0 -> wm_run m r0 ls r1 -> wm_step m r1 LTime r2 ->
  redis_now r1 + 60 <= redis_now r2 ->
  wallets m <> ∅ -> (forall k e, fst (redis_set_nx_ex k 60 r2) <> inl e) ->
  exists w, fst (acquire m r2) = Ok w.
Proof.
  intros Hb Hrun Hstep Hnow Hne Hup. apply (run_bounded _ _ _ _ Hrun) in Hb.
  inversion Hstep as [| | |? ? _ Hk]; subst. unfold acquire.
  destruct (map_to_list (wallets m)) as [|[a w] l] eqn:El; [by apply map_to_list_empty_iff in El|].
  cbn [acquire_from lock redis_lock_manager].
  destruct (redis_set_absent (lock_key (TonAddress_to_string a)) 60 r2) as [Hset|[e Hset]].
  - rewrite Hk. destruct (redis_expiry r1 _) as [t|] eqn:Et; [right|by left].
    exists t. split; [done|]. apply Hb in Et. lia.
  - exists w. by destruct (redis_set_nx_ex _ 60 r2) as [x r']; cbn [fst] in Hset; subst x.
  - by apply Hup in Hset.
Qed.
End Locks.

(** ** Applications at concrete inputs *)

(** Redis in memory: the time and the expiry of each key. *)
#[export] Instance ref_redis : RedisLib (Z * gmap string Z) := {|
  redis_set_nx_ex k s '(now, m) :=
    match m !! k with
    | Some t => if decide (now < t) then (inr false, (now, m)) else (inr true, (now, <[k := now + s]> m))
    | None => (inr true, (now, <[k := now + s]> m))
    end;
  redis_del k '(now, m) := (inr true, (now, delete k m));
|}.

#[export] Instance ref_redis_laws : RedisLaws (Z * gmap string Z).
Proof.
  apply (Build_RedisLaws _ _ (fun r => fst r) (fun r k => snd r !! k));
    cbn [redis_set_nx_ex redis_del ref_redis].
  - intros k s [now m]. destruct (m !! k); cbn; [case_decide|]; done.
  - intros k s [now m]. destruct (m !! k) as [t|]; cbn; [case_decide|]; cbn; intros He; simplify_eq;
      by rewrite lookup_insert_eq.
  - intros k s [now m] t. cbn. intros Hm Hlt. rewrite Hm, decide_True by done. cbn. by split.
  - intros k s [now m] k' Hk. destruct (m !! k) as [t|]; cbn; [case_decide|]; cbn; try done;
      by rewrite lookup_insert_ne.
  - intros k s [now m] H. cbn in *. destruct (m !! k) as [t|] eqn:E; [|by left].
    case_decide as Hd; [|by left]. exfalso. destruct H as [H|(t' & H & Ht)]; [done|].
    injection H as ->. lia.
  - intros k s [now m] t. cbn. destruct (m !! k) as [t0|] eqn:E; [case_decide|];
      cbn; rewrite ?lookup_insert_eq, ?E; naive_solver.
  - by intros k [now m].
  - intros k [now m] k' Hk. cbn. by rewrite lookup_delete_ne.
  - intros k [now m] t. cbn. by rewrite lookup_delete_eq.
Defined.

Definition ex_key : string := lock_key (TonAddress_to_string (ex_address 1)).

Lemma ex_acquire now m :
  (forall t, m !! ex_key = Some t -> t <= now) ->
  acquire ex_manager (now, m) = (Ok (ex_wallet 1), (now, <[ex_key := now + 60]> m)).
Proof.
  intros Hm. unfold acquire, ex_manager. cbn [wallets]. rewrite map_to_list_singleton.
  cbn [acquire_from lock redis_lock_manager redis_set_nx_ex ref_redis].
  fold ex_key. destruct (m !! ex_key) as [t|]; [|done].
  rewrite decide_False; [done|]. apply Z.le_ngt. by apply Hm.
Qed.

Lemma ex_step_acquire now m :
  (forall t, m !! ex_key = Some t -> t <= now) ->
  wm_step ex_manager (now, m) (LAcquire (ex_wallet 1)) (now, <[ex_key := now + 60]> m).
Proof.
  intros Hm. pose proof (step_acquire ex_manager (now, m) (ex_wallet 1)) as H.
  rewrite ex_acquire in H by done. by apply H.
Qed.

Lemma ex_step_time now now' (m : gmap string Z) :
  now <= now' -> wm_step ex_manager (now, m) LTime (now', m).
Proof. intros Hn. by apply step_time. Qed.

Lemma ex_free (now : Z) (t : Z) : (∅ : gmap string Z) !! ex_key = Some t -> t <= now.
Proof. rewrite lookup_empty. discriminate. Qed.

Lemma ex_old (now e : Z) (m : gmap string Z) (t : Z) :
  e <= now -> (<[ex_key := e]> m) !! ex_key = Some t -> t <= now.
Proof. rewrite lookup_insert_eq. intros He [= <-]. exact He. Qed.

Fixpoint no_colon (s : string) : bool :=
  match s with
  | EmptyString => true
  | String c s' => negb (Ascii.eqb c ":") && no_colon s'
  end.

Lemma colon_split p1 p2 s1 s2 :
  no_colon p1 = true -> no_colon p2 = true ->
  p1 +:+ ":" +:+ s1 = p2 +:+ ":" +:+ s2 -> p1 = p2 /\ s1 = s2.
Proof.
  revert p2; induction p1 as [|c p1 IH]; intros [|c2 p2] H1 H2 H.
  - by injection H.
  - injection H as <- _. discriminate H2.
  - injection H as -> _. discriminate H1.
  - injection H as <- H. apply andb_prop in H1 as [_ H1]. apply andb_prop in H2 as [_ H2].
    destruct (IH p2 H1 H2 H) as [-> ->]. done.
Qed.

Lemma no_colon_byte b : no_colon (pretty (byte_val b)) = true.
Proof. destruct b; reflexivity. Qed.

Lemma ref_to_hex_inj (a b : ref_address) : ref_to_hex a = ref_to_hex b -> a = b.
Proof.
  destruct a as [wa ha], b as [wb hb]. unfold ref_to_hex. cbn [fst snd]. intros H.
  apply colon_split in H as [Hw Hh]; [|apply no_colon_byte..].
  apply (inj pretty) in Hw. apply hex_lower_inj in Hh.
  rewrite <- (byte_of_val wa), <- (byte_of_val wb), Hw. f_equal.
  by rewrite <- (vec_of_to_list 32 ha), Hh, vec_of_to_list.
Qed.

Lemma wallet_exclusive_witness : 0 + 60 <= 61.
Proof.
  exact (wallet_exclusive ref_to_hex_inj ex_manager (0, ∅) (ex_wallet 1)
    (0, <[ex_key := 0 + 60]> ∅) [LTime] (61, <[ex_key := 0 + 60]> ∅)
    (ex_wallet 1) (61, <[ex_key := 61 + 60]> (<[ex_key := 0 + 60]> ∅)) ex_manager_wf
    (ex_step_acquire 0 ∅ (ex_free 0))
    (run_cons _ _ _ _ _ _ (ex_step_time 0 61 _ ltac:(done)) (run_nil _ _))
    (ex_step_acquire 61 _ (fun t => ex_old 61 60 ∅ t ltac:(done)))
    ltac:(intros w2 H; apply list_elem_of_singleton in H; discriminate) eq_refl).
Defined.

Lemma ex_bounded : bounded ((0, ∅) : Z * gmap string Z).
Proof. intros k t. cbn. rewrite lookup_empty. discriminate. Qed.

Lemma wallet_recovers_witness :
  exists w, fst (acquire ex_manager (60, <[ex_key := 0 + 60]> ∅)) = Ok w.
Proof.
  refine (wallet_recovers ex_manager (0, ∅) [LAcquire (ex_wallet 1)] (0, <[ex_key := 0 + 60]> ∅)
    (60, <[ex_key := 0 + 60]> ∅) ex_bounded
    (run_cons _ _ _ _ _ _ (ex_step_acquire 0 ∅ (ex_free 0)) (run_nil _ _))
    (ex_step_time 0 60 _ ltac:(done)) ltac:(done) _ _).
  - cbn [wallets ex_manager]. apply map_non_empty_singleton.
  - intros k e. cbn [redis_set_nx_ex ref_redis]. destruct (_ !! k); [case_decide|]; done.
Defined.

(** The lock has no owner: when the first client is slower than the 60
    seconds of its lock, its release removes the lock of the second client,
    and a third one acquires the wallet one second after the second did. *)
Theorem late_release_steals_lock :
  exists r1 r2 r3 : Z * gmap string Z,
    wm_run ex_manager (0, ∅) [LAcquire (ex_wallet 1); LTime; LAcquire (ex_wallet 1)] r1 /\
    fst r1 = 61 /\
    wm_run ex_manager r1 [LTime; LRelease (ex_wallet 1)] r2 /\
    wm_step ex_manager r2 (LAcquire (ex_wallet 1)) r3 /\ fst r3 = 62.
Proof.
  set (m1 := <[ex_key := 61 + 60]> (<[ex_key := 0 + 60]> ∅) : gmap string Z).
  exists (61, m1), (62, delete ex_key m1), (62, <[ex_key := 62 + 60]> (delete ex_key m1)).
  split_and!; [| done | | | done].
  - apply (run_cons _ _ _ _ _ _ (ex_step_acquire 0 ∅ (ex_free 0))).
    apply (run_cons _ _ _ _ _ _ (ex_step_time 0 61 _ ltac:(done))).
    apply (run_cons _ _ _ (61, m1)); [|constructor].
    apply ex_step_acquire. intros t. by apply ex_old.
  - apply (run_cons _ _ _ _ _ _ (ex_step_time 61 62 _ ltac:(done))).
    apply (run_cons _ _ _ _ _ _ (step_release ex_manager (62, m1) (ex_wallet 1))).
    constructor.
  - apply ex_step_acquire. intros t. rewrite lookup_delete_eq. discriminate.
Qed.
