(* ===== verification/Pool.v ===== *)
(** * The wallets as a pool

    What the locks promise a client that waits for a wallet: [acquire] finds a
    wallet exactly when one of them is not locked, and as long as fewer wallets
    are in use than the manager has, the next [acquire] gets one. *)

From Stdlib Require Import ZArith Lia Strings.Byte Strings.Ascii.
From stdpp Require Import base strings pretty countable gmap list.
From S2P Require Import Prelude RustStd Foreign Types CellCodec QueryId Wallet Locks Instances.

(** A Redis that answers every request, and whose [DEL] removes the key. *)
Class RedisUp (R : Type) `{RedisLaws R} := {
  redis_set_answers k s r e : fst (redis_set_nx_ex k s r) <> inl e;
  redis_del_gone k r : redis_expiry (snd (redis_del k r)) k = None;
}.

Section Pool.
Context {TAL : TonAddressLib} {R : Type} {RL : RedisLib R} {RLA : RedisLaws R} {RU : RedisUp R}.
Context (to_string_inj : forall a b, TonAddress_to_string a = TonAddress_to_string b -> a = b).

(** The lock of [a] is held. *)
Definition locked (r : R) (a : TonAddress) : Prop := exists t, held r a t.

Lemma locked_dec r a : {locked r a} + {~ locked r a}.
Proof.
  unfold locked, held. destruct (redis_expiry r (wallet_key a)) as [t|].
  - destruct (decide (redis_now r < t)) as [Hd|Hd]; [left; by exists t|].
    right. intros (t' & [= <-] & ?). done.
  - right. by intros (t & ? & _).
Qed.

(** The answer of the lock says whether the key was free, and no other key
    changes. *)
Lemma lock_answer a r :
  (fst (lock (TonAddress_to_string a) r) = true <-> ~ locked r a) /\
  forall b, (b <> a \/ fst (lock (TonAddress_to_string a) r) = false) ->
    (locked (snd (lock (TonAddress_to_string a) r)) b <-> locked r b).
Proof.
  cbn [lock redis_lock_manager]. fold (wallet_key a).
  pose proof (redis_set_now (wallet_key a) 60 r) as Hnow.
  pose proof (fun e => redis_set_answers (wallet_key a) 60 r e) as Hup.
  pose proof (fun k => redis_set_other (wallet_key a) 60 r k) as Hother.
  pose proof (redis_set_live (wallet_key a) 60 r) as Hlive.
  pose proof (redis_set_absent (wallet_key a) 60 r) as Habsent.
  destruct (redis_set_nx_ex (wallet_key a) 60 r) as [x r']. cbn [fst snd] in *.
  destruct x as [e|b]; [by destruct (Hup e)|]. split.
  - split.
    + intros -> (t & Ht & Hlt). by destruct (Hlive t Ht Hlt).
    + intros Hn. destruct Habsent as [[= ->]|[e [=]]]; [|done].
      destruct (redis_expiry r (wallet_key a)) as [t|] eqn:Et; [right|by left].
      exists t. split; [done|]. destruct (decide (redis_now r < t)); [|lia].
      destruct Hn. by exists t.
  - intros c Hc. unfold locked, held. rewrite Hnow. destruct (decide (c = a)) as [->|Hne].
    + destruct Hc as [?|Hb]; [done|]. assert (Hl : locked r a).
      { destruct (locked_dec r a) as [|Hn]; [done|].
        destruct Habsent as [Hx|[e Hx]]; [|congruence|done].
        destruct (redis_expiry r (wallet_key a)) as [t|] eqn:Et; [right|by left].
        exists t. split; [done|]. destruct (decide (redis_now r < t)); [|lia].
        destruct Hn. by exists t. }
      destruct Hl as (t & Ht & Hlt). destruct (Hlive t Ht Hlt) as [_ ->]. by rewrite Ht.
    + rewrite Hother; [done|]. intros Heq. apply Hne. by apply (wallet_key_inj to_string_inj).
Qed.

(** [acquire] locks the wallet it returns, and no other. *)
Lemma acquire_from_locked l r :
  Forall (fun '(a, w) => wallet_address w = a) l ->
  match fst (acquire_from l r) with
  | Ok w => (exists a, (a, w) ∈ l) /\ ~ locked r (wallet_address w) /\
      forall b, b <> wallet_address w -> (locked (snd (acquire_from l r)) b <-> locked r b)
  | _ => (forall a w, (a, w) ∈ l -> locked r a) /\
      forall b, locked (snd (acquire_from l r)) b <-> locked r b
  end.
Proof.
  intros Hwf. revert r. induction Hwf as [|[a w] l Ha Hwf IH]; intros r; cbn [acquire_from fst snd].
  { split; [|done]. intros a w Hin. by apply not_elem_of_nil in Hin. }
  destruct (lock_answer a r) as [Hb Ho]. destruct (lock _ r) as [[] r1]; cbn [fst snd] in *.
  - subst a. split; [exists (wallet_address w); by left|]. split; [by apply Hb|].
    intros b Hne. apply Ho. by left.
  - assert (Hla : locked r a).
    { destruct (locked_dec r a) as [|Hn]; [done|]. apply Hb in Hn. done. }
    specialize (IH r1). destruct (fst (acquire_from l r1)) as [w'|e|].
    1: destruct IH as ((a' & Hin) & Hl & Hf); split; [exists a'; by right|];
       split; [by rewrite <- Ho by (by right)|].
    1: intros b Hne; rewrite Hf by done; apply Ho; by right.
    1,2: destruct IH as [Hall Hf]; split;
      [intros b w' [[= -> ->]|Hin]%elem_of_cons; [done|]; rewrite <- Ho by (by right); by eapply Hall|].
    1,2: intros b; rewrite Hf; apply Ho; by right.
Qed.

(** The wallets that were acquired and not released, after a run. *)
Fixpoint in_use (used : gset TonAddress) (ls : list wm_label) : gset TonAddress :=
  match ls with
  | [] => used
  | LAcquire w :: ls' => in_use ({[wallet_address w]} ∪ used) ls'
  | LRelease w :: ls' => in_use (used ∖ {[wallet_address w]}) ls'
  | _ :: ls' => in_use used ls'
  end.

Lemma release_locked m w r b :
  locked (release m w r) b <-> locked r b /\ b <> wallet_address w.
Proof.
  unfold release. cbn [unlock redis_lock_manager]. fold (wallet_key (wallet_address w)).
  unfold locked, held. rewrite redis_del_now. destruct (decide (b = wallet_address w)) as [->|Hne].
  - rewrite redis_del_gone. split; [by intros (t & ? & _)|by intros [_ ?]].
  - rewrite redis_del_other; [tauto|]. intros Heq. apply Hne. by apply (wallet_key_inj to_string_inj).
Qed.

(** Only wallets in use are locked. *)
Lemma run_in_use m r ls r' used :
  manager_wf m -> wm_run m r ls r' -> (forall a, locked r a -> a ∈ used) ->
  forall a, locked r' a -> a ∈ in_use used ls.
Proof.
  intros Hwf Hr. pose proof (manager_wf_list m Hwf) as Hl. revert used.
  induction Hr as [r|r l r1 ls r2 Hs Hr IH]; intros used Hu; [done|].
  destruct Hs as [r w Hw|r e Hw|r w|r r' Hnow Hk]; cbn [in_use]; apply IH; intros a.
  - pose proof (acquire_from_locked _ r Hl) as H. unfold acquire in *. rewrite Hw in H.
    destruct H as (_ & _ & H). intros Ha. destruct (decide (a = wallet_address w)) as [->|Hne]; [set_solver|].
    apply H in Ha; [|done]. apply Hu in Ha. set_solver.
  - pose proof (acquire_from_locked _ r Hl) as H. unfold acquire in *. rewrite Hw in H.
    destruct H as [_ H]. rewrite H. apply Hu.
  - rewrite release_locked. intros [Ha Hne]. apply Hu in Ha. set_solver.
  - intros (t & Ht & Hlt). apply Hu. exists t. unfold held in *. rewrite Hk in Ht. split; [done|lia].
Qed.

Lemma acquire_gets m r :
  manager_wf m ->
  (exists w, fst (acquire m r) = Ok w) <-> exists a, is_Some (wallets m !! a) /\ ~ locked r a.
Proof.
  intros Hwf. pose proof (manager_wf_list m Hwf) as Hl.
  pose proof (acquire_from_locked _ r Hl) as H. unfold acquire.
  assert (Hmem : forall a w, (a, w) ∈ map_to_list (wallets m) <-> wallets m !! a = Some w).
  { intros a w. apply elem_of_map_to_list. }
  destruct (fst (acquire_from (map_to_list (wallets m)) r)) as [w|e|].
  - destruct H as ((a & Hin) & Hn & _). split; [|by eexists]. intros _. exists a.
    pose proof (proj1 (Forall_forall _ _) Hl _ Hin) as Ha. cbn in Ha. subst a.
    split; [|done]. exists w. by apply Hmem.
  - split; [by intros [w ?]|]. intros (a & [w Hw] & Hn). destruct Hn. destruct H as [H _].
    apply (H a w). by apply Hmem.
  - split; [by intros [w ?]|]. intros (a & [w Hw] & Hn). destruct Hn. destruct H as [H _].
    apply (H a w). by apply Hmem.
Qed.

(** C26. The pool serves its clients: from a state with no lock, after any run
    of the clients of a manager with a Redis that answers, when fewer wallets
    were acquired and not released than the manager has, the next [acquire]
    gets a wallet, and one that nobody has locked. *)
Theorem pool_serves m r0 ls r1 :
  manager_wf m -> (forall a, ~ locked r0 a) -> wm_run m r0 ls r1 ->
  (size (in_use ∅ ls) < size (wallets m))%nat ->
  exists w, fst (acquire m r1) = Ok w /\ ~ locked r1 (wallet_address w).
Proof.
  intros Hwf H0 Hr Hsize.
  pose proof (run_in_use m r0 ls r1 ∅ Hwf Hr) as Hin. destruct (proj2 (acquire_gets m r1 Hwf)) as [w Hw].
  - destruct (set_choose_or_empty (dom (wallets m) ∖ in_use ∅ ls)) as [[a Ha]|Hsub].
    + apply elem_of_difference in Ha as [Ha Hna]. exists a. apply elem_of_dom in Ha. split; [done|].
      intros Hl. apply Hna, Hin; [|done]. intros b Hb. by destruct (H0 b).
    + assert (Hs : dom (wallets m) ⊆ in_use ∅ ls) by set_solver.
      apply subseteq_size in Hs. rewrite size_dom in Hs. lia.
  - exists w. split; [done|]. pose proof (acquire_from_locked _ r1 (manager_wf_list m Hwf)) as H.
    unfold acquire in *. rewrite Hw in H. by destruct H as (_ & H & _).
Qed.
End Pool.

(** ** Applications at concrete inputs *)

#[export] Instance ref_redis_up : RedisUp (Z * gmap string Z).
Proof.
  split; cbn [redis_set_nx_ex redis_del ref_redis].
  - intros k s [now m] e. destruct (m !! k); [case_decide|]; done.
  - intros k [now m]. cbn. by rewrite lookup_delete_eq.
Defined.

(** A manager of two wallets, and a client that holds one of them. *)
Definition ex_pool : WalletManager :=
  {| wallets := <[ex_address 2 := ex_wallet 2]> {[ex_address 1 := ex_wallet 1]} |}.

Lemma ex_pool_wf : manager_wf ex_pool.
Proof. unfold manager_wf. cbn [wallets ex_pool]. apply map_Forall_insert_2; [done|]. by apply map_Forall_singleton. Qed.

Lemma ex_unlocked a : ~ locked (R := Z * gmap string Z) (0, ∅) a.
Proof. intros (t & Ht & _). cbn in Ht. by rewrite lookup_empty in Ht. Qed.

Lemma ex_pool_first : exists w r1,
  wm_run ex_pool (0, ∅ : gmap string Z) [LAcquire w] r1.
Proof.
  destruct (proj2 (acquire_gets (TAL := ref_address_lib) ref_to_hex_inj ex_pool (0, ∅) ex_pool_wf)) as [w Hw].
  - exists (ex_address 1). split; [|apply ex_unlocked]. exists (ex_wallet 1). reflexivity.
  - exists w. eexists. eapply run_cons; [by apply step_acquire|apply run_nil].
Qed.

Lemma ex_pool_size w : (size (in_use ∅ [LAcquire w]) < size (wallets ex_pool))%nat.
Proof.
  cbn [in_use wallets ex_pool]. rewrite union_empty_r_L, size_singleton, map_size_insert_None, map_size_singleton; [lia|].
  apply lookup_singleton_ne. intros H. apply (f_equal ref_to_hex) in H. vm_compute in H. discriminate.
Qed.

Lemma pool_serves_witness : exists w r1 w',
  wm_run ex_pool (0, ∅ : gmap string Z) [LAcquire w] r1 /\
  fst (acquire ex_pool r1) = Ok w' /\ ~ locked r1 (wallet_address w').
Proof.
  destruct ex_pool_first as (w & r1 & Hr). exists w, r1.
  destruct (pool_serves (TAL := ref_address_lib) ref_to_hex_inj ex_pool (0, ∅) [LAcquire w] r1
    ex_pool_wf ex_unlocked Hr (ex_pool_size w)) as (w' & Hw' & Hl).
  exists w'. exact (conj Hr (conj Hw' Hl)).
Defined.
