(* ===== verification/Clients.v ===== *)
(** * Several includers over one Redis and one database

    [wallet_manager.rs], [lock_manager.rs] and
    [high_load_query_id_db_wrapper.rs] together, as a step relation: any number
    of clients acquire wallets, read and write query ids as two separate
    queries, release their wallets or stop without doing so, interleaved at
    will.  The lock makes the two queries one: as long as every client is done
    with a wallet within the 60 seconds of its lock, the table and the ids
    handed out are those of calls of the wrapper one after the other
    ([run_calls]), so that what [QueryIdStore] and [WalletContract] show of
    them holds of all the clients together.  A client that takes longer breaks
    it: two clients then hand out the same id. *)

From Stdlib Require Import ZArith Lia Sorted Strings.Byte Strings.Ascii.
From stdpp Require Import base strings countable gmap sorting list functions relations.
From S2P Require Import Prelude RustStd Foreign Types CellCodec QueryId QueryIdStore WalletContract Wallet Instances Locks.

(** ** The two halves of a call *)

(** [next] up to the choice of the id: one query. *)
Definition next_read (c : wrapper_call) (tbl : query_table)
    : res HighLoadQueryIdWrapperError HighLoadQueryId.t :=
  fst ((let! (shift, bitnumber) :=
          st_map_err (fun _ => DatabaseError) (get_query_id (c_fault c) (c_get c) (c_address c)) in
        st_lift (choose_query_id (forced_shift (c_force c) shift) bitnumber)) tbl).

(** The rest of [next]: one more query. *)
Definition next_write (c : wrapper_call) (query_id : HighLoadQueryId.t)
    : st query_table HighLoadQueryIdWrapperError HighLoadQueryId.t :=
  do! st_map_err (fun _ => DatabaseError)
    (if decide (HighLoadQueryId.query_id query_id = 0) then
       upsert_query_id (c_fault c) (c_put c) (c_address c)
         (wrap_s 32 (HighLoadQueryId.shift query_id))
         (wrap_s 32 (HighLoadQueryId.bitnumber query_id))
         (wrap_s 32 (wrap_s 32 (c_timeout c) * TIMEOUT_BUFFER_MULTIPLIER))
     else
       update_query_id (c_fault c) (c_put c) (c_address c)
         (wrap_s 32 (HighLoadQueryId.shift query_id))
         (wrap_s 32 (HighLoadQueryId.bitnumber query_id))) in
  st_ret query_id.

Lemma run_call_halves c tbl :
  run_call c tbl =
  match next_read c tbl with
  | Ok q => next_write c q tbl
  | Err e => (Err e, tbl)
  | Panic => (Panic, tbl)
  end.
Proof.
  unfold run_call, wrapper_next, next_read, next_write, get_query_id, db_query, st_map_err, st_bind, st_lift.
  destruct (c_fault c GetQueryId); [done|]. cbn [map_err].
  destruct (match tbl !! c_address c with Some _ => _ | None => _ end) as [s b]. cbn [fst].
  by destruct (choose_query_id _ b).
Qed.

(** A read depends on the row of its address only. *)
Lemma next_read_row c tbl tbl' :
  tbl' !! c_address c = tbl !! c_address c -> next_read c tbl' = next_read c tbl.
Proof.
  intros Heq. unfold next_read, get_query_id, db_query, st_map_err, st_bind, st_lift.
  rewrite Heq. destruct (c_fault c GetQueryId); [done|]. cbn [map_err].
  by destruct (match tbl !! c_address c with Some _ => _ | None => _ end).
Qed.

(** ** The system *)

(** Where a client is: idle, in the loop of [acquire] with the wallets still to
    try, with a wallet it acquired at a time of Redis, or between the two queries
    of a call for that wallet. *)
Inductive client `{TonAddressLib} : Type :=
| Idle
| Trying (rest : list (TonAddress * TonWalletHighLoadV3))
| Holding (wallet : TonWalletHighLoadV3) (since : Z)
| Chosen (wallet : TonWalletHighLoadV3) (since : Z) (c : wrapper_call) (q : HighLoadQueryId.t).

Section Clients.
Context {TAL : TonAddressLib} {R : Type} {RL : RedisLib R} {RLA : RedisLaws R}.
Context (m : WalletManager).

Record system := {
  sy_redis : R;
  sy_table : query_table;
  sy_clients : nat -> client;
}.

Definition move (i : nat) (p : client) (s : system) : system :=
  {| sy_redis := sy_redis s; sy_table := sy_table s; sy_clients := <[i := p]> (sy_clients s) |}.

Definition set_redis (r : R) (s : system) : system :=
  {| sy_redis := r; sy_table := sy_table s; sy_clients := sy_clients s |}.

Definition set_table (tbl : query_table) (s : system) : system :=
  {| sy_redis := sy_redis s; sy_table := tbl; sy_clients := sy_clients s |}.

Notation answer := (wrapper_call * res HighLoadQueryIdWrapperError HighLoadQueryId.t)%type.

(** A client works with its wallet only before [deadline] seconds have passed
    since it acquired it. *)
Context (deadline : Z).

Definition in_time (since : Z) (s : system) : Prop := redis_now (sy_redis s) < since + deadline.

(** One step of one client, with the answers it gets from the wrapper. *)
Inductive step (s : system) : list answer -> system -> Prop :=
| step_acquire i :
    sy_clients s i = Idle -> step s [] (move i (Trying (map_to_list (wallets m))) s)
| step_locks i a w rest :
    sy_clients s i = Trying ((a, w) :: rest) ->
    fst (lock (TonAddress_to_string a) (sy_redis s)) = true ->
    step s [] (move i (Holding w (redis_now (sy_redis s)))
      (set_redis (snd (lock (TonAddress_to_string a) (sy_redis s))) s))
| step_refused i a w rest :
    sy_clients s i = Trying ((a, w) :: rest) ->
    fst (lock (TonAddress_to_string a) (sy_redis s)) = false ->
    step s [] (move i (Trying rest)
      (set_redis (snd (lock (TonAddress_to_string a) (sy_redis s))) s))
| step_no_wallet i :
    sy_clients s i = Trying [] -> step s [] (move i Idle s)
| step_read i w since c q :
    sy_clients s i = Holding w since -> in_time since s ->
    c_address c = TonAddress_to_string (wallet_address w) ->
    next_read c (sy_table s) = Ok q ->
    step s [] (move i (Chosen w since c q) s)
| step_read_fails i w since c e :
    sy_clients s i = Holding w since -> in_time since s ->
    c_address c = TonAddress_to_string (wallet_address w) ->
    next_read c (sy_table s) = Err e ->
    step s [(c, Err e)] s
| step_write i w since c q r tbl :
    sy_clients s i = Chosen w since c q -> in_time since s ->
    next_write c q (sy_table s) = (r, tbl) ->
    step s [(c, r)] (move i (Holding w since) (set_table tbl s))
| step_release i w since :
    sy_clients s i = Holding w since -> in_time since s ->
    step s [] (move i Idle (set_redis (release m w (sy_redis s)) s))
| step_crash i : step s [] (move i Idle s)
| step_time r :
    redis_now (sy_redis s) <= redis_now r ->
    (forall k, redis_expiry r k = redis_expiry (sy_redis s) k) ->
    step s [] (set_redis r s).

Inductive run : system -> list answer -> system -> Prop :=
| run_nil s : run s [] s
| run_step s out s1 out' s2 : step s out s1 -> run s1 out' s2 -> run s (out ++ out') s2.

(** A client whose [acquire] nobody interrupts runs the model's [acquire]. *)
Lemma acquire_from_run i l s x r :
  sy_clients s i = Trying l -> acquire_from l (sy_redis s) = (x, r) ->
  exists s', run s [] s' /\ sy_redis s' = r /\ sy_table s' = sy_table s /\
    (forall j, j <> i -> sy_clients s' j = sy_clients s j) /\
    sy_clients s' i =
      match x with Ok w => Holding w (redis_now (sy_redis s)) | _ => Idle end.
Proof.
  revert s. induction l as [|[a w] l IH]; intros s Hc Ha; cbn [acquire_from] in Ha.
  { injection Ha as <- <-. exists (move i Idle s). split_and!; [|done|done| |].
    - rewrite <- (app_nil_r []). eapply run_step; [by apply step_no_wallet|constructor].
    - intros j Hj. by apply fn_lookup_insert_ne.
    - apply fn_lookup_insert. }
  destruct (lock (TonAddress_to_string a) (sy_redis s)) as [b r1] eqn:El.
  assert (Hnow : redis_now r1 = redis_now (sy_redis s)).
  { pose proof (redis_set_now (lock_key (TonAddress_to_string a)) 60 (sy_redis s)) as Hn.
    cbn [lock redis_lock_manager] in El. destruct (redis_set_nx_ex _ 60 _); by simplify_eq/=. }
  destruct b.
  - injection Ha as <- <-. eexists. split.
    { rewrite <- (app_nil_r []). eapply run_step; [|constructor].
      apply (step_locks s i a w l); [done|by rewrite El]. }
    rewrite El. split_and!; [done..| |apply fn_lookup_insert].
    intros j Hj. by apply fn_lookup_insert_ne.
  - destruct (IH (move i (Trying l) (set_redis r1 s))) as (s' & Hr & H1 & H2 & H3 & H4);
      [apply fn_lookup_insert|done|].
    exists s'. split_and!; [|done|done| |].
    + rewrite <- (app_nil_r []). eapply run_step; [|exact Hr].
      pose proof (step_refused s i a w l Hc) as Hstep. rewrite El in Hstep. by apply Hstep.
    + intros j Hj. rewrite H3 by done. by apply fn_lookup_insert_ne.
    + rewrite H4. cbn [move set_redis sy_redis]. by rewrite Hnow.
Qed.

(** ** The invariant *)

(** The wallet a client works with, and since when. *)
Definition in_use (p : client) : option (TonAddress * Z) :=
  match p with
  | Idle | Trying _ => None
  | Holding w since | Chosen w since _ _ => Some (wallet_address w, since)
  end.

(** Every wallet still to try is under its address. *)
Definition tries_wallets (p : client) : Prop :=
  match p with
  | Trying rest => Forall (fun '(a, w) => wallet_address w = a) rest
  | _ => True
  end.

(** The lock taken at [since] still stands. *)
Definition fresh (since : Z) (s : system) : Prop := redis_now (sy_redis s) < since + 60.

Definition uses (s : system) (i : nat) (a : TonAddress) (since : Z) : Prop :=
  in_use (sy_clients s i) = Some (a, since) /\ fresh since s.

Record sys_inv (s : system) : Prop := {
  si_lock i a t : uses s i a t -> redis_expiry (sy_redis s) (wallet_key a) = Some (t + 60);
  si_alone i j a t t' : uses s i a t -> uses s j a t' -> i = j;
  si_read i w t c q :
    sy_clients s i = Chosen w t c q -> c_address c = TonAddress_to_string (wallet_address w) /\
      (fresh t s -> next_read c (sy_table s) = Ok q);
  si_tries i : tries_wallets (sy_clients s i);
  si_valid : table_valid (sy_table s);
}.

Lemma sys_inv_start s :
  (forall i, sy_clients s i = Idle) -> table_valid (sy_table s) -> sys_inv s.
Proof.
  intros Hi Hv. split; unfold uses; [| | | |done].
  - intros i a t [Hu _]. by rewrite Hi in Hu.
  - intros i j a t t' [Hu _]. by rewrite Hi in Hu.
  - intros i w t c q Hu. by rewrite Hi in Hu.
  - intros i. by rewrite Hi.
Qed.

(** Redis moves on: the keys of the wallets in use stay. *)
Lemma sys_inv_redis s r :
  sys_inv s -> redis_now (sy_redis s) <= redis_now r ->
  (forall i a t, uses s i a t -> redis_expiry r (wallet_key a) = Some (t + 60)) ->
  sys_inv (set_redis r s).
Proof.
  intros [H1 H2 H3 H4 H5] Hnow Hk.
  assert (Hu : forall i a t, uses (set_redis r s) i a t -> uses s i a t).
  { unfold uses, fresh. cbn. intros i a t [? ?]. split; [done|lia]. }
  split; cbn [sy_redis sy_table sy_clients set_redis]; [eauto..| |done|done].
  intros i w t c q Hc. destruct (H3 _ _ _ _ _ Hc) as [Ha Hr]. split; [done|].
  unfold fresh in *. cbn. intros. apply Hr. lia.
Qed.

(** One client moves: it keeps its wallet, or takes one that no other uses. *)
Lemma sys_inv_move s i p :
  sys_inv s ->
  (forall a t, in_use p = Some (a, t) -> fresh t s ->
     redis_expiry (sy_redis s) (wallet_key a) = Some (t + 60) /\
     forall j t', j <> i -> ~ uses s j a t') ->
  (forall w t c q, p = Chosen w t c q ->
     c_address c = TonAddress_to_string (wallet_address w) /\
     (fresh t s -> next_read c (sy_table s) = Ok q)) ->
  tries_wallets p ->
  sys_inv (move i p s).
Proof.
  intros [H1 H2 H3 H4 H5] Hp Hc Htries.
  assert (Hu : forall j a t, uses (move i p s) j a t ->
    (j = i /\ in_use p = Some (a, t) /\ fresh t s) \/ (j <> i /\ uses s j a t)).
  { unfold uses, fresh. cbn. intros j a t [Hj Ht]. destruct (decide (j = i)) as [->|Hne].
    - rewrite fn_lookup_insert in Hj. by left.
    - rewrite fn_lookup_insert_ne in Hj by done. by right. }
  split; cbn [sy_redis sy_table sy_clients move]; [| | | |done].
  - intros j a t [(-> & Hus & Hf)|[_ Hus]]%Hu; [by apply Hp|by eapply H1].
  - intros j k a t t' [(-> & Hj & Hf)|[Hnj Hj]]%Hu [(-> & Hk & Hf')|[Hnk Hk]]%Hu; [done| | |by eapply H2].
    + destruct (Hp a t Hj Hf) as [_ Hne]. by destruct (Hne k t' Hnk).
    + destruct (Hp a t' Hk Hf') as [_ Hne]. by destruct (Hne j t Hnj).
  - intros j w t c q Hj. destruct (decide (j = i)) as [->|Hne].
    + rewrite fn_lookup_insert in Hj. by apply Hc.
    + rewrite fn_lookup_insert_ne in Hj by done. by apply H3 in Hj.
  - intros j. destruct (decide (j = i)) as [->|Hne]; [by rewrite fn_lookup_insert|].
    by rewrite fn_lookup_insert_ne.
Qed.

(** A client without a wallet may go anywhere without one. *)
Lemma sys_inv_free s i p :
  sys_inv s -> in_use p = None -> tries_wallets p -> sys_inv (move i p s).
Proof.
  intros Hi Hp Ht. apply sys_inv_move; [done| | |done].
  - intros a t Hu. congruence.
  - by intros w t c q ->.
Qed.

(** A client that uses a wallet may go on with it. *)
Lemma sys_inv_stay s i a t :
  sys_inv s -> in_use (sy_clients s i) = Some (a, t) -> fresh t s ->
  redis_expiry (sy_redis s) (wallet_key a) = Some (t + 60) /\
  forall j t', j <> i -> ~ uses s j a t'.
Proof.
  intros [H1 H2 _ _ _] Hu Hf. assert (uses s i a t) as Hi by done. split; [by eapply H1|].
  intros j t' Hne Hj. apply Hne. by eapply H2.
Qed.

(** ** Every step refines the sequential wrapper *)

Context (to_string_inj : forall a b, TonAddress_to_string a = TonAddress_to_string b -> a = b).
Context (m_wf : manager_wf m) (deadline_ok : deadline <= 60).

Lemma in_time_fresh since s : in_time since s -> fresh since s.
Proof. unfold in_time, fresh. lia. Qed.

(** What a [SET] does to a wallet in use, whatever it answers. *)
Lemma lock_keeps s i a t k :
  sys_inv s -> uses s i a t ->
  redis_expiry (snd (lock (TonAddress_to_string k) (sy_redis s))) (wallet_key a) = Some (t + 60) /\
  (fst (lock (TonAddress_to_string k) (sy_redis s)) = true -> k <> a).
Proof.
  intros Hi Hu. pose proof (si_lock _ Hi _ _ _ Hu) as He. destruct Hu as [_ Hf].
  destruct (lock_held to_string_inj (sy_redis s) a (t + 60) k (conj He Hf)) as [[H1 _] H2].
  by split.
Qed.

Lemma lock_now k r : redis_now (snd (lock k r)) = redis_now r.
Proof.
  cbn [lock redis_lock_manager]. pose proof (redis_set_now (lock_key k) 60 r) as Hn.
  by destruct (redis_set_nx_ex _ 60 r).
Qed.

Lemma lock_taken k r :
  fst (lock k r) = true -> redis_expiry (snd (lock k r)) (lock_key k) = Some (redis_now r + 60).
Proof.
  cbn [lock redis_lock_manager]. pose proof (redis_set_free (lock_key k) 60 r) as Hf.
  destruct (redis_set_nx_ex _ 60 r) as [[e|[]] r']; cbn [fst snd] in *; [done|auto|done].
Qed.

Lemma sys_inv_lock s k :
  sys_inv s -> sys_inv (set_redis (snd (lock (TonAddress_to_string k) (sy_redis s))) s).
Proof.
  intros Hi. apply sys_inv_redis; [done|by rewrite lock_now|].
  intros i a t Hu. by apply (lock_keeps s i).
Qed.

Lemma sys_inv_taken s i k w rest :
  sys_inv s -> sy_clients s i = Trying ((k, w) :: rest) ->
  fst (lock (TonAddress_to_string k) (sy_redis s)) = true ->
  sys_inv (move i (Holding w (redis_now (sy_redis s)))
    (set_redis (snd (lock (TonAddress_to_string k) (sy_redis s))) s)).
Proof.
  intros Hi Hc Hl. pose proof (si_tries _ Hi i) as Ht. rewrite Hc in Ht.
  apply Forall_cons in Ht as [Hk _].
  apply sys_inv_move; [by apply sys_inv_lock| |done|done].
  cbn [in_use]. intros a t [= <- <-] _. rewrite Hk. cbn [set_redis sy_redis].
  split; [by apply lock_taken|]. intros j t' _ [Hu Hf].
  unfold fresh in Hf. cbn [set_redis sy_redis sy_clients] in *. rewrite lock_now in Hf.
  by destruct (lock_keeps s j _ _ k Hi (conj Hu Hf)) as [_ Hn]; destruct (Hn Hl).
Qed.

(** A write is the second half of a call of the wrapper. *)
Lemma write_call s i w t c q r tbl :
  sys_inv s -> sy_clients s i = Chosen w t c q -> fresh t s ->
  next_write c q (sy_table s) = (r, tbl) -> run_call c (sy_table s) = (r, tbl).
Proof.
  intros Hi Hc Hf Hw. destruct (si_read _ Hi _ _ _ _ _ Hc) as [_ Hr].
  by rewrite run_call_halves, Hr.
Qed.

Lemma sys_inv_write s i w t c q r tbl :
  sys_inv s -> sy_clients s i = Chosen w t c q -> fresh t s ->
  next_write c q (sy_table s) = (r, tbl) -> sys_inv (move i (Holding w t) (set_table tbl s)).
Proof.
  intros Hi Hc Hf Hw. pose proof (write_call _ _ _ _ _ _ _ _ Hi Hc Hf Hw) as Hcall.
  destruct (run_call_frame _ _ _ _ (si_valid _ Hi) Hcall) as [Hv Hframe].
  destruct (si_read _ Hi _ _ _ _ _ Hc) as [Ha _].
  assert (Hu : uses s i (wallet_address w) t) by (split; [by rewrite Hc|done]).
  destruct (sys_inv_stay s i _ _ Hi ltac:(by rewrite Hc) Hf) as [He Hne].
  destruct Hi as [H1 H2 H3 H4 _].
  assert (Hm : forall j a u, uses (move i (Holding w t) (set_table tbl s)) j a u -> uses s j a u).
  { unfold uses. cbn. intros j a u [Hj Hfu]. destruct (decide (j = i)) as [->|Hn].
    - rewrite fn_lookup_insert in Hj. by rewrite Hc.
    - by rewrite fn_lookup_insert_ne in Hj by done. }
  split; cbn [sy_redis sy_table sy_clients move set_table]; [eauto..| | |done].
  2:{ intros j. destruct (decide (j = i)) as [->|Hn]; [by rewrite fn_lookup_insert|].
      by rewrite fn_lookup_insert_ne. }
  intros j w' t' c' q' Hj. destruct (decide (j = i)) as [->|Hn];
    [by rewrite fn_lookup_insert in Hj|].
  rewrite fn_lookup_insert_ne in Hj by done. destruct (H3 _ _ _ _ _ Hj) as [Ha' Hr].
  split; [done|]. intros Hf'. rewrite <- (Hr Hf'). apply next_read_row, Hframe.
  rewrite Ha, Ha'. intros Heq%to_string_inj. apply (Hne j t' Hn).
  split; [|done]. rewrite Hj. cbn. by rewrite Heq.
Qed.

Lemma sys_inv_release s i w t :
  sys_inv s -> sy_clients s i = Holding w t -> fresh t s ->
  sys_inv (move i Idle (set_redis (release m w (sy_redis s)) s)).
Proof.
  intros Hi Hc Hf.
  destruct (sys_inv_stay s i (wallet_address w) t Hi ltac:(by rewrite Hc) Hf) as [_ Hne].
  assert (Hidle : sys_inv (move i Idle s)) by (by apply sys_inv_free).
  change (sys_inv (set_redis (release m w (sy_redis (move i Idle s))) (move i Idle s))).
  apply sys_inv_redis; [done|by rewrite release_now|].
  intros j a u Hu. pose proof (si_lock _ Hidle _ _ _ Hu) as He.
  unfold release. cbn [unlock redis_lock_manager]. rewrite redis_del_other; [done|].
  intros Heq. apply (wallet_key_inj to_string_inj a (wallet_address w)) in Heq as ->.
  destruct Hu as [Hu Hfu]. cbn [move sy_clients] in Hu.
  destruct (decide (j = i)) as [->|Hn]; [by rewrite fn_lookup_insert in Hu|].
  rewrite fn_lookup_insert_ne in Hu by done. by destruct (Hne j u Hn).
Qed.

Lemma step_refines s out s' :
  step s out s' -> sys_inv s ->
  sys_inv s' /\ run_calls (map fst out) (sy_table s) = (out, sy_table s').
Proof.
  intros Hs Hi. destruct Hs as [i Hc|i a w l Hc Hl|i a w l Hc Hl|i Hc|i w t c q Hc Ht Ha Hr
    |i w t c e Hc Ht Ha Hr|i w t c q r tbl Hc Ht Hw|i w t Hc Ht|i|r Hnow Hk];
    try apply in_time_fresh in Ht; (split; [|try done]).
  - apply sys_inv_free; [done|done|by apply manager_wf_list].
  - by eapply sys_inv_taken.
  - apply sys_inv_free; [by apply sys_inv_lock|done|].
    pose proof (si_tries _ Hi i) as Htr. rewrite Hc in Htr. by apply Forall_cons in Htr as [_ ?].
  - by apply sys_inv_free.
  - apply sys_inv_move; [done| | |done].
    + cbn [in_use]. intros a t' [= <- <-] Hf. apply sys_inv_stay; [done|by rewrite Hc|done].
    + by intros ???? [= -> -> -> ->].
  - done.
  - cbn [map fst run_calls]. by rewrite run_call_halves, Hr.
  - by eapply sys_inv_write.
  - cbn [map fst run_calls]. by rewrite (write_call _ _ _ _ _ _ _ _ Hi Hc Ht Hw).
  - by eapply sys_inv_release.
  - by apply sys_inv_free.
  - apply sys_inv_redis; [done..|].
    intros j a t Hu. rewrite Hk. by apply (si_lock _ Hi j).
Qed.

Lemma run_refines s out s' :
  run s out s' -> sys_inv s ->
  sys_inv s' /\ run_calls (map fst out) (sy_table s) = (out, sy_table s').
Proof.
  induction 1 as [s|s out s1 out' s2 Hs _ IH]; intros Hi; [by split|].
  destruct (step_refines _ _ _ Hs Hi) as [Hi1 Hr1]. destruct (IH Hi1) as [Hi2 Hr2].
  split; [done|]. rewrite map_app. by eapply run_calls_app.
Qed.

(** C14. Refinement: any number of clients, interleaved query by query and stopping
    anywhere, over one Redis and one database, get from the wrapper what one
    client after the other would get, and leave the table that it would leave, as
    long as each works with a wallet for less than the 60 seconds of its lock. *)
Theorem clients_refine_sequential s out s' :
  (forall i, sy_clients s i = Idle) -> table_valid (sy_table s) -> run s out s' ->
  run_calls (map fst out) (sy_table s) = (out, sy_table s') /\
  forall i j a t t', uses s' i a t -> uses s' j a t' -> i = j.
Proof.
  intros Hidle Hv Hr. destruct (run_refines _ _ _ Hr (sys_inv_start _ Hidle Hv)) as [Hi Hc].
  split; [done|]. intros i j a t t'. by apply (si_alone _ Hi).
Qed.

(** So no two clients get the same id of a wallet while its row lives. *)
Corollary clients_ids_increase s out s' a row :
  (forall i, sy_clients s i = Idle) -> table_valid (sy_table s) -> run s out s' ->
  sy_table s !! a = Some row ->
  (forall c r, (c, r) ∈ out -> c_address c = a -> c_get c <= expires_at row) ->
  StronglySorted Z.lt (HighLoadQueryId.query_id (row_id row) :: ids_of a out).
Proof.
  intros Hidle Hv Hr Hrow Hlive.
  destruct (run_refines _ _ _ Hr (sys_inv_start _ Hidle Hv)) as [_ Hc].
  eapply run_calls_increasing; [exact Hv|exact Hrow| |exact Hc].
  apply Forall_forall. intros c Hin. apply list_elem_of_fmap in Hin as ([c' r] & -> & Hin).
  by apply (Hlive c' r).
Qed.

(** And the contract of a wallet executes each message of any of the clients
    exactly once. *)
Corollary clients_executed_once timeout delay survives s out s' a ds :
  (forall i, sy_clients s i = Idle) -> table_valid (sy_table s) -> run s out s' ->
  StronglySorted Z.le (map fst (handed_out a out)) ->
  restarts_late timeout delay (handed_out a out) ->
  0 <= delay <= timeout ->
  StronglySorted Z.le (map fst ds) -> Forall (fun d => 0 <= fst d) ds ->
  Forall (fun d => snd d ∈ handed_out a out /\ on_time delay d) ds ->
  fst (receive_all timeout survives (map arrival ds) deployed) = first_only [] ds.
Proof.
  intros Hidle Hv Hr. destruct (run_refines _ _ _ Hr (sys_inv_start _ Hidle Hv)) as [_ Hc].
  by apply (executed_once _ _ _ _ _ _ _ _ _ Hv Hc).
Qed.
End Clients.

(** ** The deadline is sharp *)

Definition clients_row : QueryIdRow :=
  {| row_shift := 0; row_bitnumber := 7; expires_at := 100 * SECOND; updated_at := None |}.

Definition clients_wallet : string := TonAddress_to_string (ex_address 1).

Definition clients_start : system (R := Z * gmap string Z) := {|
  sy_redis := (0, ∅);
  sy_table := {[clients_wallet := clients_row]};
  sy_clients := fun _ => Idle;
|}.

Definition clients_call (t : Z) : wrapper_call := {|
  c_fault := no_fault; c_get := t * SECOND; c_put := t * SECOND; c_address := clients_wallet;
  c_timeout := 60; c_force := false |}.

Lemma clients_start_valid : table_valid (sy_table clients_start).
Proof. apply map_Forall_singleton. by vm_compute. Qed.

Lemma trying_one :
  Trying (map_to_list (wallets ex_manager)) = Trying [(ex_address 1, ex_wallet 1)].
Proof. done. Qed.

(** C39. One second of delay is enough: a client that may use its wallet at the
    60th second of the lock reads the id that a second client, which acquires the
    wallet in that second, reads too; both hand it out. *)
Theorem slow_clients_share_id deadline :
  60 < deadline ->
  exists out s',
    run ex_manager deadline clients_start out s' /\
    (forall c r, (c, r) ∈ out -> c_get c <= expires_at clients_row) /\
    ids_of clients_wallet out = [8; 8].
Proof.
  intros Hd.
  set (q := HighLoadQueryId.mk 0 8). set (w := ex_wallet 1).
  set (tbl0 := {[clients_wallet := clients_row]} : query_table).
  assert (Hr0 : next_read (clients_call 0) tbl0 = Ok q) by (by vm_compute).
  assert (Hr1 : next_read (clients_call 60) tbl0 = Ok q) by (by vm_compute).
  assert (Hw1 : next_write (clients_call 60) q tbl0 =
    (Ok q, snd (next_write (clients_call 60) q tbl0))) by done.
  set (tbl1 := snd (next_write (clients_call 60) q tbl0)) in Hw1.
  assert (Hw2 : next_write (clients_call 0) q tbl1 =
    (Ok q, snd (next_write (clients_call 0) q tbl1))) by done.
  set (tbl2 := snd (next_write (clients_call 0) q tbl1)) in Hw2.
  eexists _, _. split; [|split].
  - eapply run_step; [by apply (step_acquire _ _ _ 0)|].
    eapply run_step; [by apply (step_locks _ _ _ 0 (ex_address 1) w []); [by apply trying_one|]|].
    eapply run_step.
    { apply (step_read _ _ _ 0 w 0 (clients_call 0) q); [done| |done|exact Hr0].
      change (0 < 0 + deadline). lia. }
    eapply run_step; [by apply (step_time _ _ _ (60, <[ex_key := 0 + 60]> ∅))|].
    eapply run_step; [by apply (step_acquire _ _ _ 1)|].
    eapply run_step; [by apply (step_locks _ _ _ 1 (ex_address 1) w []); [by apply trying_one|]|].
    eapply run_step.
    { apply (step_read _ _ _ 1 w 60 (clients_call 60) q); [done| |done|exact Hr1].
      change (60 < 60 + deadline). lia. }
    eapply run_step.
    { apply (step_write _ _ _ 1 w 60 (clients_call 60) q (Ok q) tbl1); [done| |exact Hw1].
      change (60 < 60 + deadline). lia. }
    eapply run_step.
    { apply (step_write _ _ _ 0 w 0 (clients_call 0) q (Ok q) tbl2); [done| |exact Hw2].
      change (60 < 0 + deadline). lia. }
    apply run_nil.
  - intros c r Hin. apply list_elem_of_In in Hin. destruct Hin as [[= <- <-]|[[= <- <-]|[]]]; by vm_compute.
  - by vm_compute.
Qed.

(** ** Applications at concrete inputs *)

(** Two clients that share the wallet in time: the second reads while the first
    has released it. *)
Definition orderly_answers : list (wrapper_call * res HighLoadQueryIdWrapperError HighLoadQueryId.t) :=
  [(clients_call 0, Ok (HighLoadQueryId.mk 0 8)); (clients_call 1, Ok (HighLoadQueryId.mk 0 9))].

Lemma orderly_run : exists s', run ex_manager 60 clients_start orderly_answers s'.
Proof.
  set (w := ex_wallet 1). set (tbl0 := {[clients_wallet := clients_row]} : query_table).
  set (q0 := HighLoadQueryId.mk 0 8). set (q1 := HighLoadQueryId.mk 0 9).
  assert (Hr0 : next_read (clients_call 0) tbl0 = Ok q0) by (by vm_compute).
  assert (Hw0 : next_write (clients_call 0) q0 tbl0 =
    (Ok q0, snd (next_write (clients_call 0) q0 tbl0))) by done.
  set (tbl1 := snd (next_write (clients_call 0) q0 tbl0)) in Hw0.
  assert (Hr1 : next_read (clients_call 1) tbl1 = Ok q1) by (by vm_compute).
  assert (Hw1 : next_write (clients_call 1) q1 tbl1 =
    (Ok q1, snd (next_write (clients_call 1) q1 tbl1))) by done.
  set (tbl2 := snd (next_write (clients_call 1) q1 tbl1)) in Hw1.
  eexists. change orderly_answers with
    ([] ++ [] ++ [] ++ [(clients_call 0, Ok q0 : res HighLoadQueryIdWrapperError _)] ++
     [] ++ [] ++ [] ++ [] ++ [] ++
     [(clients_call 1, Ok q1 : res HighLoadQueryIdWrapperError _)] ++ []).
  eapply run_step; [by apply (step_acquire _ _ _ 0)|].
  eapply run_step; [by apply (step_locks _ _ _ 0 (ex_address 1) w []); [by apply trying_one|]|].
  eapply run_step.
  { apply (step_read _ _ _ 0 w 0 (clients_call 0) q0); [done|by unfold in_time|done|exact Hr0]. }
  eapply run_step.
  { apply (step_write _ _ _ 0 w 0 (clients_call 0) q0 (Ok q0) tbl1); [done|by unfold in_time|exact Hw0]. }
  eapply run_step; [by apply (step_release _ _ _ 0 w 0)|].
  eapply run_step; [by apply (step_time _ _ _ (1, delete ex_key (<[ex_key := 0 + 60]> ∅)))|].
  eapply run_step; [by apply (step_acquire _ _ _ 1)|].
  eapply run_step; [by apply (step_locks _ _ _ 1 (ex_address 1) w []); [by apply trying_one|]|].
  eapply run_step.
  { apply (step_read _ _ _ 1 w 1 (clients_call 1) q1); [done|by unfold in_time|done|exact Hr1]. }
  eapply run_step.
  { apply (step_write _ _ _ 1 w 1 (clients_call 1) q1 (Ok q1) tbl2); [done|by unfold in_time|exact Hw1]. }
  apply run_nil.
Qed.

Lemma clients_refine_sequential_witness :
  exists s', run_calls [clients_call 0; clients_call 1] {[clients_wallet := clients_row]} =
    (orderly_answers, sy_table (R := Z * gmap string Z) s').
Proof.
  destruct orderly_run as [s' Hr]. exists s'.
  exact (proj1 (clients_refine_sequential ex_manager 60 ref_to_hex_inj ex_manager_wf ltac:(done)
    clients_start orderly_answers s' (fun _ => eq_refl) clients_start_valid Hr)).
Defined.

Lemma slow_clients_share_id_witness :
  exists out s', run ex_manager 61 clients_start out s' /\
    (forall c r, (c, r) ∈ out -> c_get c <= expires_at clients_row) /\
    ids_of clients_wallet out = [8; 8].
Proof. exact (slow_clients_share_id 61 ltac:(done)). Defined.
