(* ===== verification/Broadcaster.v ===== *)
(** * The broadcaster: [broadcaster.rs]

    [TONBroadcaster] turns a task of the GMP API into one action of a
    high-load wallet and posts it.  It works on a world [W] that holds the
    locks, the query ids, the clock and the network, each known by its
    interface; the types of [relayer_core] are named by the constructors and
    fields used here. *)

From Stdlib Require Import ZArith Lia Strings.Byte Strings.Ascii.
From stdpp Require Import base strings countable gmap list.
From S2P Require Import Prelude RustStd Foreign Types GmpTypes CellCodec Messages QueryId QueryIdStore Client Gas Wallet.

(** [relayer_core::error::BroadcasterError], the constructors used here. *)
Inductive BroadcasterError : Set :=
| BroadcasterGenericError (s : string)
| RPCCallFailed (s : string)
| InsufficientGas (s : string).

(** [relayer_core::includer::BroadcastResult]; the transaction is a unit. *)
Record BroadcastResult := {
  br_tx_hash : string;
  br_message_id : option string;
  br_source_chain : option string;
  br_status : res BroadcasterError unit;
}.

(** [Display] of [ClientError], of [relayer_core]. *)
Class ClientErrorText := ClientError_to_string : ClientError -> string.

(** The trait [HighLoadQueryIdWrapper] and the clock of the wallet, over a
    world [W]. *)
Class HighLoadQueryIdWrapper (W : Type) :=
  hq_next : string -> Z -> bool -> st W HighLoadQueryIdWrapperError HighLoadQueryId.t.

Class TimeProvider (W : Type) := time_now : W -> Z.

(** [derive(Debug)]. *)
Definition HighLoadQueryIdWrapperError_debug (e : HighLoadQueryIdWrapperError) : string :=
  match e with
  | ConstructionError => "ConstructionError"
  | NoNextQueryId => "NoNextQueryId"
  | DatabaseError => "DatabaseError"
  end.

Definition WalletManagerError_debug (e : WalletManagerError) : string :=
  match e with
  | NoAvailableWallet => "NoAvailableWallet"
  | LockError s => "LockError(" +:+ fmt_debug_plain s +:+ ")"
  end.

Definition HIGHLOAD_WALLET_ALREADY_EXECUTED : string := "THROWIF 36".

Section Broadcaster.
Context {BU : BigUintLib} {TAL : TonAddressLib} {CL : CellLib} {CO : CodecLib} {WL : WalletLib}.
Context {JL : JsonLib} {CET : ClientErrorText}.
Context {W : Type} {LM : LockManager W} {HQ : HighLoadQueryIdWrapper W} {TP : TimeProvider W}.
Context {RC : RestClient W} {G : Type} {GE : GasEstimator G}.

Record TONBroadcaster := {
  wallet_manager : WalletManager;
  gateway_address : TonAddress;
  gas_service_address : TonAddress;
  chain_name : string;
  gas_estimator : G;
}.

Definition TONBroadcaster_new (wallet_manager : WalletManager)
    (gateway_address gas_service_address : TonAddress) (chain_name : string) (gas_estimator : G)
    : res BroadcasterError TONBroadcaster :=
  Ok {| wallet_manager := wallet_manager;
        gateway_address := gateway_address;
        gas_service_address := gas_service_address;
        chain_name := chain_name;
        gas_estimator := gas_estimator |}.

Definition generic_boc {A} (m : res BocError A) : res BroadcasterError A :=
  map_err (fun e => BroadcasterGenericError (BocError_to_string e)) m.

Definition generic_display {A} (m : res ferr A) : res BroadcasterError A :=
  map_err (fun e => BroadcasterGenericError (fe_display e)) m.

Definition generic_debug {A} (what : string) (m : res ferr A) : res BroadcasterError A :=
  map_err (fun e => BroadcasterGenericError (what +:+ ": " +:+ fe_debug e)) m.

Definition already_executed (e : ClientError) : bool :=
  str_contains HIGHLOAD_WALLET_ALREADY_EXECUTED (ClientError_to_string e).

(** One round of [send_to_chain]; [force] is [retries_left.is_some()], and
    [again] the recursive call, when [retries] is [Some]. *)
Definition send_attempt (self : TONBroadcaster) (wallet : TonWalletHighLoadV3)
    (actions : list OutAction) (force : bool)
    (again : option (st W BroadcasterError V3MessageResponse))
    : st W BroadcasterError V3MessageResponse :=
  let! query_id :=
    st_map_err (fun e => BroadcasterGenericError
        ("Query Id acquiring failed: " +:+ HighLoadQueryIdWrapperError_debug e))
      (hq_next (TonAddress_to_string (wallet_address wallet)) (wallet_timeout wallet) force) in
  let! w := st_get in
  let! outgoing := st_lift (generic_boc
    (outgoing_message wallet (time_now w) actions (HighLoadQueryId.query_id query_id)
       (Z.to_N (highload_wallet_send (gas_estimator self) (Z.of_nat (length actions)))))) in
  let! tx := st_lift (generic_display (fr (BagOfCells_serialize outgoing))) in
  let boc := base64_encode tx in
  let! result := st_try (post_v3_message boc) in
  match result with
  | Ok response => st_ret response
  | Err e =>
      match (if already_executed e then again else None) with
      | Some retry => retry
      | None => st_err (RPCCallFailed (ClientError_to_string e))
      end
  | Panic => st_lift Panic
  end.

(** [send_to_chain] with [retries_left = Some r]. *)
Fixpoint send_retry (self : TONBroadcaster) (wallet : TonWalletHighLoadV3)
    (actions : list OutAction) (r : nat) : st W BroadcasterError V3MessageResponse :=
  send_attempt self wallet actions true
    (match r with S r' => Some (send_retry self wallet actions r') | O => None end).

Definition send_to_chain (self : TONBroadcaster) (wallet : TonWalletHighLoadV3)
    (actions : list OutAction) (retries_left : option nat)
    : st W BroadcasterError V3MessageResponse :=
  match retries_left with
  | Some r => send_retry self wallet actions r
  | None => send_attempt self wallet actions false (Some (send_retry self wallet actions 10))
  end.

(** [match res { Ok(response) => (hash, Ok(())), Err(err) => ("", Err(err)) }]. *)
Definition hash_and_status (r : res BroadcasterError V3MessageResponse)
    : string * res BroadcasterError unit :=
  match r with
  | Ok response => (message_hash response, Ok tt)
  | Err err => ("", Err err)
  | Panic => ("", Panic)
  end.

(** [let result = async { body }.await; release(wallet).await; result]: a
    panic of the body unwinds past the release. *)
Definition then_release {A} (self : TONBroadcaster) (wallet : TonWalletHighLoadV3)
    (body : st W BroadcasterError A) : st W BroadcasterError A :=
  fun w =>
    match body w with
    | (Panic, w') => (Panic, w')
    | (r, w') => (r, release (wallet_manager self) wallet w')
    end.

Definition acquire_wallet (self : TONBroadcaster) : st W BroadcasterError TonWalletHighLoadV3 :=
  st_map_err (fun e => BroadcasterGenericError
      ("Wallet acquire failed: " +:+ WalletManagerError_debug e))
    (acquire (wallet_manager self)).

Definition send_actions (self : TONBroadcaster) (wallet : TonWalletHighLoadV3)
    (actions : list OutAction) : st W BroadcasterError (string * res BroadcasterError unit) :=
  let! res := st_try (send_to_chain self wallet actions None) in
  st_ret (hash_and_status res).

Definition broadcast_prover_message (self : TONBroadcaster) (tx_blob : string)
    : st W BroadcasterError BroadcastResult :=
  let! msgs := st_lift (generic_boc (ApproveMessages_from_boc_hex tx_blob)) in
  let! message := st_lift (ok_or (BroadcasterGenericError "Missing approved message")
    (head (approve_messages msgs))) in
  let approve_message_value :=
    Z.to_N (approve_send (gas_estimator self) (Z.of_nat (length (approve_messages msgs)))) in
  let! action := st_lift (generic_display
    (out_action tx_blob approve_message_value (gateway_address self))) in
  let! wallet := acquire_wallet self in
  then_release self wallet (
    let! (tx_hash, status) := send_actions self wallet [action] in
    st_ret {| br_tx_hash := tx_hash;
              br_message_id := Some (am_message_id message);
              br_source_chain := Some (am_source_chain message);
              br_status := status |}).

Definition broadcast_refund (self : TONBroadcaster) (_data : string)
    : st W BroadcasterError string := st_ret "".

(** [to_cell()?.to_boc_hex(true)?]. *)
Definition boc_hex_of (cell : res BocError Cell) : res BroadcasterError string :=
  let? c := generic_boc cell in
  generic_debug "Failed to serialize relayer execute message" (fr (Cell_to_boc_hex c)).

Definition broadcast_execute_message (self : TONBroadcaster) (message : ExecuteTaskFields)
    : st W BroadcasterError BroadcastResult :=
  let! destination_address := st_lift (generic_debug "TonAddressParseError"
    (fr (TonAddress_from_str (gm_destination_address (et_message message))))) in
  let! decoded_bytes := st_lift (generic_debug "Failed decoding payload"
    (fr (base64_decode (et_payload message)))) in
  let payload_len := Z.of_nat (length decoded_bytes) in
  let hex_payload := hex_encode decoded_bytes in
  let message_id := gm_message_id (et_message message) in
  let source_chain := gm_source_chain (et_message message) in
  let available_gas := unwrap_or 0 (u64_from_str (amount (et_available_gas_balance message))) in
  let required_gas := execute_estimate (gas_estimator self) payload_len in
  if decide (available_gas < required_gas) then
    st_ret {| br_tx_hash := "";
              br_message_id := Some message_id;
              br_source_chain := Some source_chain;
              br_status := Err (InsufficientGas "Cannot proceed to execute") |}
  else
    let! wallet := acquire_wallet self in
    then_release self wallet (
      let! boc := st_lift (boc_hex_of (RelayerExecuteMessage_to_cell (RelayerExecuteMessage_new
        message_id source_chain (gm_source_address (et_message message)) (chain_name self)
        destination_address hex_payload (wallet_address wallet)))) in
      let execute_message_value := Z.to_N (execute_send (gas_estimator self) payload_len) in
      let! action := st_lift (generic_display
        (out_action boc execute_message_value (gateway_address self))) in
      let! (tx_hash, status) := send_actions self wallet [action] in
      st_ret {| br_tx_hash := tx_hash;
                br_message_id := Some message_id;
                br_source_chain := Some source_chain;
                br_status := status |}).

(** The checks and the encoding before the wallet is acquired. *)
Definition refund_boc (self : TONBroadcaster) (refund_task : RefundTaskFields)
    : res BroadcasterError string :=
  if bool_decide (is_Some (token_id (rt_remaining_gas_balance refund_task))) then
    Err (BroadcasterGenericError "Refund task with token_id is not supported")
  else
    let message_id := gm_message_id (rt_message refund_task) in
    let cleaned_hash := default message_id (strip_prefix "0x" message_id) in
    let? tx_hash := generic_display (fr (TonHash_from_hex cleaned_hash)) in
    let? address := generic_display
      (fr (TonAddress_from_hex_str (rt_refund_recipient_address refund_task))) in
    let? original_amount := generic_display
      (fr (BigUint_from_str (amount (rt_remaining_gas_balance refund_task)))) in
    let gas_estimate := Z.to_N (native_gas_refund_estimate (gas_estimator self)) in
    if decide (original_amount < gas_estimate)%N then
      Err (InsufficientGas "Not enough balance to cover gas for refund")
    else
      let amount := (original_amount - gas_estimate)%N in
      boc_hex_of (NativeRefundMessage_to_cell
        (NativeRefundMessage_new tx_hash address amount)).

Definition broadcast_refund_message (self : TONBroadcaster) (refund_task : RefundTaskFields)
    : st W BroadcasterError string :=
  let! boc := st_lift (refund_boc self refund_task) in
  let! wallet := acquire_wallet self in
  then_release self wallet (
    let! action := st_lift (generic_display
      (out_action boc (Z.to_N REFUND_DUST) (gas_service_address self))) in
    let! (tx_hash, _) := send_actions self wallet [action] in
    st_ret tx_hash).
End Broadcaster.

(** ** [includer.rs] and [refund_manager.rs] *)

Section Includer.
Context {BU : BigUintLib} {TAL : TonAddressLib} {CL : CellLib} {CO : CodecLib} {CET : ClientErrorText}.

(** The broadcaster [TONIncluder::new] builds over its [client].  A wallet that
    cannot be loaded panics before the client is made. *)
Definition TONIncluder_broadcaster (client : res ClientError TONRpcClient) (config : TONConfig)
    : res BroadcasterError (TONBroadcaster (G:=TONGasEstimator)) :=
  let? manager := generic_display (WalletManager_new (config_wallets config)) in
  let? _ := map_err (fun e => BroadcasterGenericError (ClientError_to_string e)) client in
  let? gateway := generic_display (fr (TonAddress_from_base64_url (ton_gateway config))) in
  let? gas_service := generic_display (fr (TonAddress_from_base64_url (ton_gas_service config))) in
  TONBroadcaster_new manager gateway gas_service (config_chain_name (common_config config))
    (TONGasEstimator_new (gas_estimates config)).

(** The manager the includer works with is well-formed. *)
Lemma includer_manager_wf client config b :
  TONIncluder_broadcaster client config = Ok b -> manager_wf (wallet_manager b).
Proof.
  unfold TONIncluder_broadcaster, TONBroadcaster_new. intros H. unfold generic_display in *. res_inv. subst b. by eapply WalletManager_new_wf.
Qed.
End Includer.

Module RefundManager.
Section RefundManager.
(** [TONRefundManager] manages nothing: refunds go through the broadcaster. *)
Context {RefundManagerError RefundTask : Type}.

Definition new : res RefundManagerError unit := Ok tt.

Definition is_refund_manager_managed : bool := false.

Definition build_refund_tx (_recipient _amount _refund_id : string)
    : res RefundManagerError (option (string * string * string)) := Ok None.

Definition is_refund_processed (_refund_task : RefundTask) (_refund_id : string)
    : res RefundManagerError bool := Ok false.

Definition get_wallet_lock : res RefundManagerError unit := Ok tt.

Definition release_wallet_lock (_wallet : unit) : res RefundManagerError unit := Ok tt.
End RefundManager.
End RefundManager.
