(* ===== verification/BroadcasterProofs.v ===== *)
(** * Correctness of the broadcaster: requests, retries, locks

    The theorems hold for every world whose locks, query ids and network obey
    [CallLaws] (which requests were made and how they were answered) and, for
    the release of the wallets, [LockLaws] (what is locked).  [Posting] goes on
    with what is posted. *)

From Stdlib Require Import ZArith Lia Strings.Byte Strings.Ascii.
From stdpp Require Import base strings countable gmap list relations.
From S2P Require Import Prelude RustStd Foreign Types GmpTypes CellCodec Messages MessageProofs QueryId QueryIdStore Client Gas Wallet Broadcaster.

(** What the broadcaster asks of the world, and what it answers. *)
Inductive call : Type :=
| CNext (address : string) (force : bool)
    (result : res HighLoadQueryIdWrapperError HighLoadQueryId.t)
| CPost (boc : string) (result : res ClientError V3MessageResponse).

Class CallLaws (W : Type) {TAL : TonAddressLib} {JL : JsonLib} `{LockManager W}
    `{HighLoadQueryIdWrapper W} {RC : RestClient W} := {
  calls : W -> list call;
  lock_calls k w : calls (snd (lock k w)) = calls w;
  unlock_calls k w : calls (unlock k w) = calls w;
  next_calls a t f w :
    fst (hq_next a t f w) <> Panic /\
    calls (snd (hq_next a t f w)) = calls w ++ [CNext a f (fst (hq_next a t f w))];
  post_calls b w :
    fst (post_v3_message b w) <> Panic /\
    calls (snd (post_v3_message b w)) = calls w ++ [CPost b (fst (post_v3_message b w))];
}.

(** What the trait [LockManager] is meant to be: a set of locked names.  The
    Redis lock keeps these laws in [World], while Redis answers and no key
    expires; what it does otherwise is in [Locks]. *)
Class LockLaws (W : Type) {TAL : TonAddressLib} {JL : JsonLib} `{LockManager W}
    `{HighLoadQueryIdWrapper W} {RC : RestClient W} := {
  locks : W -> gset string;
  lock_taken k w w' : lock k w = (true, w') -> k ∉ locks w /\ locks w' = {[k]} ∪ locks w;
  lock_refused k w w' : lock k w = (false, w') -> locks w' = locks w;
  unlock_locks k w : locks (unlock k w) = locks w ∖ {[k]};
  next_locks a t f w : locks (snd (hq_next a t f w)) = locks w;
  post_locks b w : locks (snd (post_v3_message b w)) = locks w;
}.

(** The outcomes of the posts, and the flags of the requests for an id. *)
Definition posts (tr : list call) : list (res ClientError V3MessageResponse) :=
  omap (fun c => match c with CPost _ r => Some r | CNext _ _ _ => None end) tr.

Definition forces (tr : list call) : list bool :=
  omap (fun c => match c with CNext _ f _ => Some f | CPost _ _ => None end) tr.

Section BroadcasterProofs.
Context {BU : BigUintLib} {TAL : TonAddressLib} {CL : CellLib} {CO : CodecLib} {WL : WalletLib}.
Context {JL : JsonLib} {CET : ClientErrorText}.
Context {W : Type} {LM : LockManager W} {HQ : HighLoadQueryIdWrapper W} {TP : TimeProvider W}.
Context {RC : RestClient W} {G : Type} {GE : GasEstimator G} {CLA : CallLaws W}.
Context (self : TONBroadcaster (G:=G)).

(** ** The rounds of [send_to_chain] *)

(** A run for the wallet at [a] with at most [n] retries left, whose first id
    is asked with [force]: the requests it makes and its outcome.  A post
    follows the id it carries; [P] relates the two. *)
Inductive rounds (P : HighLoadQueryId.t -> string -> Prop) (a : string) :
    bool -> nat -> list call -> res BroadcasterError V3MessageResponse -> Prop :=
| rounds_no_post force n r s :
    rounds P a force n [CNext a force r] (Err (BroadcasterGenericError s))
| rounds_sent force n q b r :
    P q b -> rounds P a force n [CNext a force (Ok q); CPost b (Ok r)] (Ok r)
| rounds_failed force n q b e :
    P q b -> already_executed e = false \/ n = 0%nat ->
    rounds P a force n [CNext a force (Ok q); CPost b (Err e)]
      (Err (RPCCallFailed (ClientError_to_string e)))
| rounds_retry force n q b e tr out :
    P q b -> already_executed e = true -> rounds P a true n tr out ->
    rounds P a force (S n) (CNext a force (Ok q) :: CPost b (Err e) :: tr) out.

Definition sends (P : HighLoadQueryId.t -> string -> Prop) (a : string)
    (m : st W BroadcasterError V3MessageResponse) (force : bool) (n : nat) : Prop :=
  forall w, exists tr, calls (snd (m w)) = calls w ++ tr /\ rounds P a force n tr (fst (m w)).

Definition wallet_name (wallet : TonWalletHighLoadV3) : string :=
  TonAddress_to_string (wallet_address wallet).

Lemma outgoing_message_safe wallet now action q v :
  outgoing_message wallet now [action] q v <> Panic.
Proof. intros H. apply outgoing_message_panic_size in H. cbn in H. lia. Qed.

(** What is posted for [action] under the id [q] is a message of [wallet] that
    carries both. *)
Definition posted_by (wallet : TonWalletHighLoadV3) (action : OutAction)
    (q : HighLoadQueryId.t) (b : string) : Prop :=
  exists now cell tx,
    outgoing_message wallet now [action] (HighLoadQueryId.query_id q)
      (Z.to_N (highload_wallet_send (gas_estimator self) 1)) = Ok cell /\
    BagOfCells_serialize cell = inr tx /\ b = base64_encode tx.

(** What is built between the id and the post. *)
Lemma attempt_built wallet action q (k : string -> st W BroadcasterError V3MessageResponse) w :
  let m :=
    let! w := st_get in
    let! outgoing := st_lift (generic_boc
      (outgoing_message wallet (time_now w) [action] (HighLoadQueryId.query_id q)
         (Z.to_N (highload_wallet_send (gas_estimator self) (Z.of_nat (length [action])))))) in
    let! tx := st_lift (generic_display (fr (BagOfCells_serialize outgoing))) in
    k (base64_encode tx) in
  (exists s, m w = (Err (BroadcasterGenericError s), w)) \/
  (exists b, posted_by wallet action q b /\ m w = k b w).
Proof.
  intros m. subst m. unfold st_bind, st_get, st_lift. cbv beta iota.
  pose proof (outgoing_message_safe wallet (time_now w) action (HighLoadQueryId.query_id q)
    (Z.to_N (highload_wallet_send (gas_estimator self) (Z.of_nat (length [action]))))) as Hs.
  destruct (outgoing_message _ _ _ _ _) as [c|e|] eqn:Ho; [|left; by eexists|done].
  cbn [generic_boc map_err]. destruct (BagOfCells_serialize c) as [e|tx] eqn:Hs'; [left; by eexists|].
  right. exists (base64_encode tx). split; [|done]. by exists (time_now w), c, tx.
Qed.

Lemma send_attempt_rounds wallet action force n again :
  match again with
  | Some m => exists n', n = S n' /\ sends (posted_by wallet action) (wallet_name wallet) m true n'
  | None => n = 0%nat
  end ->
  sends (posted_by wallet action) (wallet_name wallet)
    (send_attempt self wallet [action] force again) force n.
Proof.
  intros Hagain w. unfold send_attempt. rewrite st_bind_run, st_map_err_run.
  fold (wallet_name wallet).
  pose proof (next_calls (wallet_name wallet) (wallet_timeout wallet) force w) as (Hp & Hc).
  destruct (hq_next _ _ force w) as [[q|e|] w1]; cbn [fst snd map_err] in *;
    [|eexists; split; [exact Hc|constructor]|done].
  match goal with |- context [st_bind st_get ?f w1] => set (m := f) end.
  destruct (attempt_built wallet action q
    (fun boc => let! result := st_try (post_v3_message boc) in
       match result with
       | Ok response => st_ret response
       | Err e =>
           match (if already_executed e then again else None) with
           | Some retry => retry
           | None => st_err (RPCCallFailed (ClientError_to_string e))
           end
       | Panic => st_lift Panic
       end) w1) as [[s Hs]|(b & HP & Hb)]; subst m.
  { rewrite Hs. eexists; split; [exact Hc|constructor]. }
  rewrite Hb. clear Hb. rewrite st_bind_run. unfold st_try.
  pose proof (post_calls b w1) as (Hp' & Hc'). rewrite Hc, <- app_assoc in Hc'. cbn [app] in Hc'.
  destruct (post_v3_message b w1) as [[r|e|] w2]; cbn [fst snd] in *; [| |done].
  { eexists. split; [exact Hc'|by constructor]. }
  destruct (already_executed e) eqn:He; [destruct again as [retry|]|].
  - destruct Hagain as (n' & -> & Hr). destruct (Hr w2) as (tr & Htr & Hout).
    rewrite Hc', <- app_assoc in Htr. eexists. split; [exact Htr|by constructor].
  - eexists. split; [exact Hc'|constructor; [done|by right]].
  - eexists. split; [exact Hc'|constructor; [done|by left]].
Qed.

Lemma send_retry_rounds wallet action n :
  sends (posted_by wallet action) (wallet_name wallet) (send_retry self wallet [action] n) true n.
Proof.
  induction n as [|n IH]; cbn [send_retry]; apply send_attempt_rounds; [done|]. by exists n.
Qed.

Lemma send_to_chain_rounds wallet action :
  sends (posted_by wallet action) (wallet_name wallet)
    (send_to_chain self wallet [action] None) false 11.
Proof. apply send_attempt_rounds. exists 10%nat. split; [done|]. apply send_retry_rounds. Qed.

Lemma rounds_posts P a force n tr out :
  rounds P a force n tr out ->
  exists pre fin, posts tr = map Err pre ++ fin /\
    Forall (fun e => already_executed e = true) pre /\
    (length pre <= n)%nat /\
    forces tr = force :: replicate (length pre) true /\
    match out with
    | Ok r => fin = [Ok r]
    | Err (RPCCallFailed s) =>
        exists e, fin = [Err e] /\ s = ClientError_to_string e /\
          (already_executed e = true -> length pre = n)
    | Err _ => fin = []
    | Panic => False
    end.
Proof.
  induction 1 as [force n r s|force n q b r HP|force n q b e HP He|force n q b e tr out HP He Hr IH].
  - exists [], []. by split_and!; [|constructor|cbn; lia|..].
  - exists [], [Ok r]. by split_and!; [|constructor|cbn; lia|..].
  - exists [], [Err e]. split_and!; [done|constructor|cbn; lia|done|]. exists e.
    split_and!; [done..|]. intros He'. destruct He as [He|He]; [congruence|done].
  - destruct IH as (pre & fin & Hp & Hf & Hl & Hn & Hout). exists (e :: pre), fin.
    change (posts (CNext a force (Ok q) :: CPost b (Err e) :: tr)) with (Err e :: posts tr).
    change (forces (CNext a force (Ok q) :: CPost b (Err e) :: tr)) with (force :: forces tr).
    split_and!.
    + by rewrite Hp.
    + by constructor.
    + cbn. lia.
    + by rewrite Hn.
    + destruct out as [r|[]|]; try done. destruct Hout as (e' & H1 & H2 & H3).
      exists e'. split_and!; [done..|]. intros He'. cbn. by rewrite H3.
Qed.

(** C12. [send_to_chain] posts at most twelve times: it posts again only
    after the wallet's "already executed" error, asks for an ordinary id first
    and for an id in a later shift on every retry, returns the response of the
    last post or its error, and gives up on "already executed" only after the
    twelfth post.  It never panics. *)
Theorem send_to_chain_retries wallet action w :
  let out := fst (send_to_chain self wallet [action] None w) in
  exists tr pre fin,
    calls (snd (send_to_chain self wallet [action] None w)) = calls w ++ tr /\
    posts tr = map Err pre ++ fin /\
    Forall (fun e => already_executed e = true) pre /\
    (length (posts tr) <= 12)%nat /\
    forces tr = false :: replicate (length pre) true /\
    match out with
    | Ok r => fin = [Ok r]
    | Err (RPCCallFailed s) =>
        exists e, fin = [Err e] /\ s = ClientError_to_string e /\
          (already_executed e = true -> length (posts tr) = 12%nat)
    | Err _ => fin = []
    | Panic => False
    end.
Proof.
  cbv zeta. destruct (send_to_chain_rounds wallet action w) as (tr & Hc & Hr).
  apply rounds_posts in Hr as (pre & fin & Hp & Hf & Hl & Hn & Hout).
  exists tr, pre, fin. rewrite Hp, length_app, length_map. split_and!; [done..| |done|].
  - assert (length fin <= 1)%nat; [|lia].
    destruct (fst _) as [r|[]|]; [subst fin|subst fin|destruct Hout as (e & -> & _)|subst fin|done];
      cbn; lia.
  - destruct (fst _) as [r|[]|]; try done. destruct Hout as (e & -> & H2 & H3).
    exists e. split_and!; [done..|]. intros He. rewrite H3 by done. done.
Qed.

(** ** The requests a broadcast makes

    A broadcast moves the world by requests only: for an id, for a post and,
    when [locking], for a lock or its release. *)
Inductive request (locking : bool) : W -> W -> Prop :=
| req_next a t f w : request locking w (snd (hq_next a t f w))
| req_post b w : request locking w (snd (post_v3_message b w))
| req_lock k w : locking = true -> request locking w (snd (lock k w))
| req_unlock k w : locking = true -> request locking w (unlock k w).

#[local] Instance next_moves l a t f : Moves (request l) (hq_next a t f).
Proof. intros w. apply rtc_once. constructor. Qed.
#[local] Instance post_moves l b : Moves (request l) (post_v3_message b).
Proof. intros w. apply rtc_once. constructor. Qed.

Lemma send_attempt_moves l wallet actions force again :
  match again with Some m => Moves (request l) m | None => True end ->
  Moves (request l) (send_attempt self wallet actions force again).
Proof.
  intros Ha. unfold send_attempt. apply st_bind_moves; [apply _|]. intros q.
  do 4 (apply st_bind_moves; [apply _|intros ?]).
  destruct a2 as [r|e|]; [apply _| |apply _].
  destruct (already_executed e), again; try apply _; done.
Qed.

#[global] Instance send_to_chain_moves l wallet actions retries :
  Moves (request l) (send_to_chain self wallet actions retries).
Proof.
  assert (Hr : forall r, Moves (request l) (send_retry self wallet actions r)).
  { induction r as [|r IH]; by apply send_attempt_moves. }
  destruct retries as [r|]; [apply Hr|]. apply send_attempt_moves. apply Hr.
Qed.

Lemma acquire_from_moves l : Moves (request true) (acquire_from (W:=W) l).
Proof.
  induction l as [|[a v] l IH]; [apply _|]. intros w. cbn [acquire_from].
  pose proof (req_lock true (TonAddress_to_string a) w eq_refl) as Hl.
  destruct (lock _ w) as [[] w1]; cbn [snd] in *; [by apply rtc_once|].
  eapply rtc_l; [exact Hl|apply IH].
Qed.

#[local] Instance wallet_moves {A} (body : TonWalletHighLoadV3 -> st W BroadcasterError A) :
  (forall v, Moves (request true) (body v)) ->
  Moves (request true)
    (let! wallet := acquire_wallet self in then_release self wallet (body wallet)).
Proof.
  intros Hb. apply st_bind_moves.
  { unfold acquire_wallet, acquire. pose proof acquire_from_moves. apply _. }
  intros v w. unfold then_release. specialize (Hb v w).
  destruct (body v w) as [[a|e|] w1]; cbn [snd] in *; [|  |done];
    (eapply rtc_r; [exact Hb|]); by apply req_unlock.
Qed.

(** Every broadcast makes requests only. *)
#[global] Instance prover_moves tx_blob :
  Moves (request true) (broadcast_prover_message self tx_blob).
Proof. unfold broadcast_prover_message, send_actions. apply _. Qed.
#[global] Instance execute_moves message :
  Moves (request true) (broadcast_execute_message self message).
Proof. unfold broadcast_execute_message, send_actions. apply _. Qed.
#[global] Instance refund_moves refund_task :
  Moves (request true) (broadcast_refund_message self refund_task).
Proof. unfold broadcast_refund_message, send_actions. apply _. Qed.

(** ** The lock of the wallet *)

Section Locks.
Context {LLA : LockLaws W}.

Lemma send_locks wallet actions retries w :
  locks (snd (send_to_chain self wallet actions retries w)) = locks w.
Proof.
  eapply (rtc_observe (request false)); [|apply send_to_chain_moves].
  intros w1 w2 [a t f w3|b w3|k w3 [=]|k w3 [=]]; [apply next_locks|apply post_locks].
Qed.

(** [m] does not panic and leaves the locks as they are. *)
Class Keeps {A} (m : st W BroadcasterError A) : Prop :=
  keeps w : fst (m w) <> Panic /\ locks (snd (m w)) = locks w.

#[local] Instance keeps_ret {A} (a : A) : Keeps (st_ret a).
Proof. by intros w. Qed.
#[local] Instance keeps_lift {A} (m : res BroadcasterError A) : ResSafe m -> Keeps (st_lift m).
Proof. intros Hm w. by split. Qed.
#[local] Instance keeps_bind {A B} (m : st W BroadcasterError A) (f : A -> st W BroadcasterError B) :
  Keeps m -> (forall a, Keeps (f a)) -> Keeps (st_bind m f).
Proof.
  intros Hm Hf w. rewrite st_bind_run. specialize (Hm w).
  destruct (m w) as [[a|e|] w1]; cbn [fst snd] in *; [|by split; [|apply Hm]|by destruct Hm].
  destruct (Hf a w1) as [H1 H2]. split; [done|]. rewrite H2. apply Hm.
Qed.
#[local] Instance keeps_decide {A} (P : Prop) (d : Decision P) (m1 m2 : st W BroadcasterError A) :
  Keeps m1 -> Keeps m2 -> Keeps (if decide P then m1 else m2).
Proof. unfold decide. by destruct d. Qed.

#[local] Instance keeps_pair {A B C} (x : A * B) (f : A -> B -> st W BroadcasterError C) :
  (forall a b, Keeps (f a b)) -> Keeps (let '(a, b) := x in f a b).
Proof. by destruct x. Qed.

#[local] Instance keeps_send wallet action : Keeps (send_actions self wallet [action]).
Proof.
  intros w. unfold send_actions. rewrite st_bind_run. unfold st_try.
  destruct (send_to_chain_rounds wallet action w) as (tr & _ & Hr).
  pose proof (send_locks wallet [action] None w) as Hl.
  apply rounds_posts in Hr as (pre & fin & _ & _ & _ & _ & Hout).
  by destruct (send_to_chain self wallet [action] None w) as [[r|e|] w1].
Qed.

Lemma acquire_from_locks l w :
  Forall (fun '(a, v) => wallet_address v = a) l ->
  match fst (acquire_from l w) with
  | Ok wallet =>
      let k := TonAddress_to_string (wallet_address wallet) in
      k ∉ locks w /\ locks (snd (acquire_from l w)) = {[k]} ∪ locks w
  | Err _ => locks (snd (acquire_from l w)) = locks w
  | Panic => False
  end.
Proof.
  intros Hwf. revert w. induction Hwf as [|[a v] l Ha Hwf IH]; intros w; cbn [acquire_from]; [done|].
  destruct (lock (TonAddress_to_string a) w) as [[] w1] eqn:E; cbn [fst snd].
  - apply lock_taken in E as [Hn Hl]. by rewrite Ha.
  - apply lock_refused in E as Hl. specialize (IH w1). rewrite Hl in IH. done.
Qed.

Lemma keeps_wallet {A} (body : TonWalletHighLoadV3 -> st W BroadcasterError A) :
  manager_wf (wallet_manager self) -> (forall v, Keeps (body v)) ->
  Keeps (let! wallet := acquire_wallet self in then_release self wallet (body wallet)).
Proof.
  intros Hwf Hb w. unfold acquire_wallet. rewrite st_bind_run, st_map_err_run.
  pose proof (acquire_from_locks (map_to_list (wallets (wallet_manager self))) w
    (manager_wf_list _ Hwf)) as Ha.
  unfold acquire. destruct (acquire_from _ w) as [[v|e|] w1]; cbn [fst snd map_err] in *; [|done..].
  destruct Ha as [Hn Hl]. unfold then_release. specialize (Hb v w1).
  destruct (body v w1) as [r w2]. cbn [fst snd] in Hb. destruct Hb as [Hp Hl2].
  assert (Hu : locks (release (wallet_manager self) v w2) = locks w).
  { unfold release. rewrite unlock_locks, Hl2, Hl. set_solver. }
  by destruct r.
Qed.

(** C9. Whatever happens in between (a query id refused, an encoding error,
    a failed post, retries), every broadcast ends without a panic and with the
    wallet it acquired released: the locks are those it found. *)
Theorem broadcast_releases :
  manager_wf (wallet_manager self) ->
  (forall tx_blob, Keeps (broadcast_prover_message self tx_blob)) /\
  (forall message, Keeps (broadcast_execute_message self message)) /\
  (forall refund_task, Keeps (broadcast_refund_message self refund_task)).
Proof.
  intros Hwf. pose proof (fun A body => keeps_wallet (A:=A) body Hwf) as Hk.
  split_and!; intros x.
  - unfold broadcast_prover_message, generic_boc, generic_display, out_action. apply _.
  - unfold broadcast_execute_message, boc_hex_of, generic_boc, generic_display, generic_debug, out_action.
    apply _.
  - unfold broadcast_refund_message, refund_boc, boc_hex_of, generic_boc, generic_display,
      generic_debug, out_action. apply _.
Qed.

End Locks.

End BroadcasterProofs.
