(* ===== verification/Posting.v ===== *)
(** * What the broadcaster posts

    Every post of a broadcast follows the query id it carries ([paired]); what
    it holds is stated for each kind of task, and what is reported of it. *)

From Stdlib Require Import ZArith Lia Strings.Byte Strings.Ascii.
From stdpp Require Import base strings countable gmap list relations.
From S2P Require Import Prelude RustStd Foreign Types GmpTypes CellCodec Messages MessageProofs QueryId QueryIdStore Client Gas Wallet Broadcaster BroadcasterProofs.

(** Each post comes right after the id it carries; [P] relates the name of the
    wallet, the id and what is posted. *)
Inductive paired (P : string -> HighLoadQueryId.t -> string -> Prop) : list call -> Prop :=
| paired_nil : paired P []
| paired_next a f r tr : paired P tr -> paired P (CNext a f r :: tr)
| paired_post a f q b r tr :
    P a q b -> paired P tr -> paired P (CNext a f (Ok q) :: CPost b r :: tr).

Lemma paired_app P tr tr' : paired P tr -> paired P tr' -> paired P (tr ++ tr').
Proof. intros H Ht. induction H; [done|by apply paired_next|by apply paired_post]. Qed.

Lemma paired_impl (P Q : string -> HighLoadQueryId.t -> string -> Prop) tr :
  (forall a q b, P a q b -> Q a q b) -> paired P tr -> paired Q tr.
Proof. intros HPQ. induction 1; [constructor|by apply paired_next|apply paired_post; auto]. Qed.

(** What is reported of the posts: the hash of one the network took, or no
    hash when it took none. *)
Definition reported (tr : list call) (tx_hash : string) (status : res BroadcasterError unit) : Prop :=
  match status with
  | Ok _ => exists response, Ok response ∈ posts tr /\ tx_hash = message_hash response
  | Err _ => tx_hash = "" /\ forall response, Ok response ∉ posts tr
  | Panic => False
  end.

Section Posting.
Context {BU : BigUintLib} {TAL : TonAddressLib} {CL : CellLib} {CO : CodecLib} {WL : WalletLib}.
Context {JL : JsonLib} {CET : ClientErrorText}.
Context {W : Type} {LM : LockManager W} {HQ : HighLoadQueryIdWrapper W} {TP : TimeProvider W}.
Context {RC : RestClient W} {G : Type} {GE : GasEstimator G} {CLA : CallLaws W}.
Context (self : TONBroadcaster (G:=G)).

(** Every post of [m] satisfies [P]. *)
Class Posts {A} (P : string -> HighLoadQueryId.t -> string -> Prop)
    (m : st W BroadcasterError A) : Prop :=
  posts_of w : exists tr, calls (snd (m w)) = calls w ++ tr /\ paired P tr.

Lemma posts_nothing {A} P (m : st W BroadcasterError A) :
  (forall w, calls (snd (m w)) = calls w) -> Posts P m.
Proof. intros Hm w. exists []. rewrite app_nil_r. split; [done|constructor]. Qed.

Lemma posts_ret {A} P (a : A) : Posts P (st_ret a).
Proof. by apply posts_nothing. Qed.

Lemma posts_bind {A B} P (m : st W BroadcasterError A) (f : A -> st W BroadcasterError B) :
  Posts P m -> (forall a, Posts P (f a)) -> Posts P (st_bind m f).
Proof.
  intros Hm Hf w. rewrite st_bind_run. destruct (Hm w) as (tr & Hc & Htr).
  destruct (m w) as [[a|e|] w1]; cbn [fst snd] in *; [|by exists tr..].
  destruct (Hf a w1) as (tr' & Hc' & Htr'). exists (tr ++ tr').
  rewrite Hc', Hc, <- app_assoc. split; [done|]. by apply paired_app.
Qed.

(** A pure step: what follows may use its result. *)
Lemma posts_lift {A B} P (m : res BroadcasterError A) (f : A -> st W BroadcasterError B) :
  (forall a, m = Ok a -> Posts P (f a)) -> Posts P (st_bind (st_lift m) f).
Proof.
  intros Hf w. rewrite st_bind_run. unfold st_lift.
  destruct m as [a|e|]; [by apply Hf|by apply (posts_nothing P (st_lift (Err e)))
    |by apply (posts_nothing (A:=A) P (st_lift Panic))].
Qed.

Lemma posts_impl {A} (P Q : string -> HighLoadQueryId.t -> string -> Prop) (m : st W BroadcasterError A) :
  (forall a q b, P a q b -> Q a q b) -> Posts P m -> Posts Q m.
Proof. intros HPQ Hm w. destruct (Hm w) as (tr & Hc & Hp). exists tr. split; [done|]. by eapply paired_impl. Qed.

Lemma rounds_paired (P : HighLoadQueryId.t -> string -> Prop)
    (Q : string -> HighLoadQueryId.t -> string -> Prop) a force n tr out :
  (forall q b, P q b -> Q a q b) -> rounds P a force n tr out -> paired Q tr.
Proof.
  intros HPQ. induction 1; [apply paired_next|apply paired_post..]; auto; constructor.
Qed.

Lemma posts_send (P : string -> HighLoadQueryId.t -> string -> Prop) wallet action :
  (forall q b, posted_by self wallet action q b -> P (wallet_name wallet) q b) ->
  Posts P (send_actions self wallet [action]).
Proof.
  intros HP w. unfold send_actions. rewrite st_bind_run. unfold st_try.
  destruct (send_to_chain_rounds self wallet action w) as (tr & Hc & Hr).
  exists tr. split; [|by eapply rounds_paired].
  by destruct (send_to_chain self wallet [action] None w) as [[r|e|] w1].
Qed.

(** What [send_actions] reports. *)
Lemma send_reports wallet action w hash status w' :
  send_actions self wallet [action] w = (Ok (hash, status), w') ->
  exists tr, calls w' = calls w ++ tr /\ reported tr hash status.
Proof.
  unfold send_actions. rewrite st_bind_run. unfold st_try.
  destruct (send_to_chain_rounds self wallet action w) as (tr & Hc & Hr).
  apply rounds_posts in Hr as (pre & fin & Hp & _ & _ & _ & Hout).
  destruct (send_to_chain self wallet [action] None w) as [[r|e|] w1]; cbn [fst snd] in *;
    cbn [hash_and_status st_ret]; intros [= <- <- <-]; exists tr; (split; [exact Hc|]).
  - exists r. split; [|done]. rewrite Hp, Hout. apply elem_of_app. right. by apply list_elem_of_singleton.
  - split; [done|]. intros r Hin. rewrite Hp in Hin. apply elem_of_app in Hin as [Hin|Hin].
    + apply list_elem_of_fmap in Hin as (e' & ? & _). done.
    + destruct e; [subst fin; by apply not_elem_of_nil in Hin|
        destruct Hout as (e' & -> & _); by apply list_elem_of_singleton in Hin|
        subst fin; by apply not_elem_of_nil in Hin].
Qed.

(** A wallet of the manager. *)
Definition managed (wallet : TonWalletHighLoadV3) : Prop :=
  exists a, wallets (wallet_manager self) !! a = Some wallet.

Lemma acquire_from_calls l w :
  calls (snd (acquire_from l w)) = calls w /\
  forall v, fst (acquire_from l w) = Ok v -> exists a, (a, v) ∈ l.
Proof.
  revert w. induction l as [|[a v] l IH]; intros w; cbn [acquire_from]; [done|].
  pose proof (lock_calls (TonAddress_to_string a) w) as Hl.
  destruct (lock (TonAddress_to_string a) w) as [[] w1]; cbn [fst snd] in *.
  - split; [done|]. intros v' [= <-]. exists a. by left.
  - destruct (IH w1) as [H1 H2]. split; [congruence|].
    intros v' Hv. destruct (H2 v' Hv) as [a' ?]. exists a'. by right.
Qed.

Lemma acquire_wallet_calls w :
  calls (snd (acquire_wallet self w)) = calls w /\
  forall v, fst (acquire_wallet self w) = Ok v -> managed v.
Proof.
  unfold acquire_wallet, acquire. rewrite st_map_err_run.
  destruct (acquire_from_calls (map_to_list (wallets (wallet_manager self))) w) as [H1 H2].
  destruct (acquire_from _ w) as [[v|e|] w1]; cbn [fst snd map_err] in *; (split; [done|]); [|done..].
  intros v' [= <-]. destruct (H2 v eq_refl) as [a Ha]. exists a. by apply elem_of_map_to_list.
Qed.

Lemma then_release_run {A} wallet (body : st W BroadcasterError A) w :
  fst (then_release self wallet body w) = fst (body w) /\
  calls (snd (then_release self wallet body w)) = calls (snd (body w)).
Proof.
  unfold then_release. destruct (body w) as [[r|e|] w1]; cbn [fst snd]; [|  |done];
    unfold release; by rewrite unlock_calls.
Qed.

Lemma posts_wallet {A} P (body : TonWalletHighLoadV3 -> st W BroadcasterError A) :
  (forall v, managed v -> Posts P (body v)) ->
  Posts P (let! wallet := acquire_wallet self in then_release self wallet (body wallet)).
Proof.
  intros Hb w. rewrite st_bind_run. destruct (acquire_wallet_calls w) as [Hc Hm].
  destruct (acquire_wallet self w) as [[v|e|] w1]; cbn [fst snd] in *;
    [|exists []; rewrite app_nil_r; split; [done|constructor]..].
  destruct (then_release_run v (body v) w1) as [_ ->]. rewrite <- Hc. by apply Hb, Hm.
Qed.
End Posting.

Section Posted.
Context {BU : BigUintLib} {TAL : TonAddressLib} {CL : CellLib} {CO : CodecLib} {WL : WalletLib}.
Context {JL : JsonLib} {CET : ClientErrorText}.
Context {CV : CellView} {BUL : BigUintLaws} {CPL : CellParserLaws} {CBL : CellBuilderLaws}.
Context {COL : CodecLaws}.
Context {W : Type} {LM : LockManager W} {HQ : HighLoadQueryIdWrapper W} {TP : TimeProvider W}.
Context {RC : RestClient W} {G : Type} {GE : GasEstimator G} {CLA : CallLaws W}.
Context (self : TONBroadcaster (G:=G)).

(** The execute message of a task, for the wallet [a]. *)
Definition execute_message (message : ExecuteTaskFields) (dest : TonAddress) (bytes : list byte)
    (a : TonAddress) : RelayerExecuteMessage := {|
  rem_message_id := gm_message_id (et_message message);
  rem_source_chain := gm_source_chain (et_message message);
  rem_source_address := gm_source_address (et_message message);
  rem_destination_chain := chain_name self;
  rem_destination_address := dest;
  rem_payload := hex_encode bytes;
  rem_relayer_address := a;
|}.

(** [b] is a message of one wallet of the manager, under the id [q], with one
    action: the value of the estimator, sent to the gateway, with the execute
    cell laid out over the bytes of the task's payload; the gas balance covers
    their estimate. *)
Definition execute_post (message : ExecuteTaskFields) (a : string) (q : HighLoadQueryId.t)
    (b : string) : Prop :=
  exists dest bytes wallet outer hex action,
    TonAddress_from_str (gm_destination_address (et_message message)) = inr dest /\
    base64_decode (et_payload message) = inr bytes /\
    execute_estimate (gas_estimator self) (Z.of_nat (length bytes)) <=
      unwrap_or 0 (u64_from_str (amount (et_available_gas_balance message))) /\
    relayer_layout (execute_message message dest bytes (wallet_address wallet)) bytes outer /\
    Cell_to_boc_hex outer = inr hex /\
    out_action hex (Z.to_N (execute_send (gas_estimator self) (Z.of_nat (length bytes))))
      (gateway_address self) = Ok action /\
    managed self wallet /\ a = wallet_name wallet /\ posted_by self wallet action q b.

(** [b] is a message of one wallet with one action: a refund, sent to the gas
    service, that the contract's reader gives back as the hash of the message
    id, the recipient, and an amount that adds up with the estimated cost to
    the balance. *)
Definition refund_post (refund_task : RefundTaskFields) (a : string) (q : HighLoadQueryId.t)
    (b : string) : Prop :=
  exists tx_hash recipient original refunded cell hex wallet action,
    token_id (rt_remaining_gas_balance refund_task) = None /\
    TonHash_from_hex (let id := gm_message_id (rt_message refund_task) in
      default id (strip_prefix "0x" id)) = inr tx_hash /\
    TonAddress_from_hex_str (rt_refund_recipient_address refund_task) = inr recipient /\
    BigUint_from_str (amount (rt_remaining_gas_balance refund_task)) = inr original /\
    (refunded + Z.to_N (native_gas_refund_estimate (gas_estimator self)) = original)%N /\
    ((original < 2 ^ 120)%N ->
     exists p op, load_uint 32 (Cell_parser cell) = (inr op, p) /\ op = Z.to_N OP_NATIVE_REFUND /\
     fst (NativeGasRefundedMessage_parse p) = Ok {|
       ngr_tx_hash := tx_hash; ngr_address := recipient; ngr_amount := refunded |}) /\
    NativeRefundMessage_to_cell (NativeRefundMessage_new tx_hash recipient refunded) = Ok cell /\
    Cell_to_boc_hex cell = inr hex /\
    out_action hex (Z.to_N REFUND_DUST) (gas_service_address self) = Ok action /\
    managed self wallet /\ a = wallet_name wallet /\ posted_by self wallet action q b.

(** [b] is a message of one wallet with one action: the blob of the task
    itself, which decodes to at least one approval, sent to the gateway with
    the value of the estimator for their number. *)
Definition prover_post (tx_blob : string) (a : string) (q : HighLoadQueryId.t) (b : string) : Prop :=
  exists msgs wallet action,
    ApproveMessages_from_boc_hex tx_blob = Ok msgs /\
    approve_messages msgs <> [] /\
    out_action tx_blob
      (Z.to_N (approve_send (gas_estimator self) (Z.of_nat (length (approve_messages msgs)))))
      (gateway_address self) = Ok action /\
    managed self wallet /\ a = wallet_name wallet /\ posted_by self wallet action q b.

(** Everything posted for an execute task is a message of one wallet
    with one action: the value of the estimator, sent to the gateway, with the
    execute cell laid out over the bytes of the task's Base64 payload; and it
    is posted only when the gas balance of the task covers the estimate for
    that payload. *)
Lemma execute_posts message :
  Posts (execute_post message) (broadcast_execute_message self message).
Proof.
  unfold broadcast_execute_message, boc_hex_of, generic_boc, generic_display, generic_debug.
  apply posts_lift. intros dest Hd. apply posts_lift. intros bytes Hb. res_inv.
  apply fr_Ok in Hd, Hb. cbv zeta. case_decide as Hgas; [apply posts_ret|].
  apply posts_wallet. intros wallet Hw. apply posts_lift. intros hex Hhex.
  apply posts_lift. intros action Ha. res_inv. apply fr_Ok in Hhex.
  apply posts_bind; [|intros [? ?]; apply posts_ret].
  apply posts_send. intros q b Hpost. rename a into outer.
  match goal with H : RelayerExecuteMessage_to_cell _ = Ok outer |- _ => rename H into Ho end.
  apply relayer_execute_layout_of in Ho as (payload & Hp & Hl).
  cbn [rem_payload RelayerExecuteMessage_new] in Hp. rewrite hex_decode_encode in Hp. injection Hp as <-.
  exists dest, bytes, wallet, outer, hex, action. split_and!; try done. by apply Z.nlt_ge.
Qed.

(** Everything posted for a refund task is a message of one wallet that
    sends the gas service the refund of the remaining balance less the
    estimated cost: with a balance below [2^120], the contract's reader gives
    back the hash of the message id, the recipient, and an amount that adds
    up with the estimate to the balance. *)
Lemma refund_posts refund_task :
  Posts (refund_post refund_task) (broadcast_refund_message self refund_task).
Proof.
  unfold broadcast_refund_message. apply posts_lift. intros hex Hboc.
  apply posts_wallet. intros wallet Hw. apply posts_lift. intros action Ha.
  apply posts_bind; [|intros [? ?]; apply posts_ret]. apply posts_send. intros q b Hpost.
  unfold refund_boc, boc_hex_of, generic_boc, generic_display, generic_debug in *.
  case_bool_decide as Htok; [done|]. cbv zeta in Hboc.
  apply res_bind_Ok in Hboc as (h & Hh & Hboc). apply res_bind_Ok in Hboc as (a & Haddr & Hboc).
  apply res_bind_Ok in Hboc as (original & Horig & Hboc). case_decide as Hgas; [done|].
  apply res_bind_Ok in Hboc as (cell & Hcell & Hhex).
  apply map_err_Ok in Hh, Haddr, Horig, Hcell, Hhex, Ha. apply fr_Ok in Hh, Haddr, Horig, Hhex.
  exists h, a, original, (original - Z.to_N (native_gas_refund_estimate (gas_estimator self)))%N,
    cell, hex, wallet, action.
  split_and!; try done.
  - by apply eq_None_not_Some.
  - lia.
  - intros Hmax. edestruct native_refund_reads as (c & Hc & _ & p & op & H1 & H2 & H3);
      [|rewrite Hcell in Hc; injection Hc as <-; by exists p, op]. cbn [nr_amount NativeRefundMessage_new]. lia.
Qed.

(** Everything posted for a prover message is a message of one wallet that
    sends the gateway the blob of the task, unchanged, with the value of the
    estimator for the number of approvals in it; a blob that does not decode,
    or holds no approval, posts nothing. *)
Lemma prover_posts tx_blob :
  Posts (prover_post tx_blob) (broadcast_prover_message self tx_blob).
Proof.
  unfold broadcast_prover_message, generic_boc, generic_display.
  apply posts_lift. intros msgs Hm. apply posts_lift. intros message Hh. cbv zeta.
  apply posts_lift. intros action Ha. res_inv.
  apply posts_wallet. intros wallet Hw.
  apply posts_bind; [|intros [? ?]; apply posts_ret].
  apply posts_send. intros q b Hpost. exists msgs, wallet, action.
  split_and!; try done. intros Hn. by rewrite Hn in Hh.
Qed.

(** The result of a task that names the message [id] of [chain]. *)
Definition reports (id chain : string) (tr : list call) (r : BroadcastResult) : Prop :=
  br_message_id r = Some id /\ br_source_chain r = Some chain /\
  reported tr (br_tx_hash r) (br_status r).

(** Every result of [m] is such a report on its posts. *)
Definition Reports (id chain : string) (m : st W BroadcasterError BroadcastResult) : Prop :=
  forall w r w', m w = (Ok r, w') ->
  exists tr, calls w' = calls w ++ tr /\ reports id chain tr r.

Lemma reports_lift {A} id chain (m : res BroadcasterError A)
    (f : A -> st W BroadcasterError BroadcastResult) :
  (forall a, m = Ok a -> Reports id chain (f a)) -> Reports id chain (st_bind (st_lift m) f).
Proof.
  intros Hf w r w' H. apply st_bind_Ok in H as (a & w1 & Hm & H). injection Hm as Hm <-.
  by eapply Hf.
Qed.

Lemma reports_wallet id chain (body : TonWalletHighLoadV3 -> st W BroadcasterError BroadcastResult) :
  (forall v, Reports id chain (body v)) ->
  Reports id chain (let! wallet := acquire_wallet self in then_release self wallet (body wallet)).
Proof.
  intros Hb w r w' H. apply st_bind_Ok in H as (v & w1 & Hv & H).
  pose proof (acquire_wallet_calls self w) as [Hc _]. rewrite Hv in Hc. cbn [snd] in Hc.
  destruct (then_release_run self v (body v) w1) as [H1 H2].
  rewrite H in H1, H2. cbn [fst snd] in H1, H2. rewrite H2, <- Hc.
  eapply Hb. rewrite H1. apply surjective_pairing.
Qed.

Lemma reports_send id chain wallet action :
  Reports id chain (
    let! (tx_hash, status) := send_actions self wallet [action] in
    st_ret {| br_tx_hash := tx_hash; br_message_id := Some id;
              br_source_chain := Some chain; br_status := status |}).
Proof.
  intros w r w' H. apply st_bind_Ok in H as ([hash status] & w1 & Hs & H). injection H as <- <-.
  apply send_reports in Hs as (tr & Htr & Hr). by exists tr.
Qed.

(** C23. What a broadcast reports: it names the message of its task, and
    reports success only with the hash of a post that the network took; with
    an error it reports no hash, and the network took none of its posts. *)
Theorem broadcast_reports w w' r :
  (forall message, broadcast_execute_message self message w = (Ok r, w') ->
     exists tr, calls w' = calls w ++ tr /\
       reports (gm_message_id (et_message message)) (gm_source_chain (et_message message)) tr r) /\
  (forall tx_blob, broadcast_prover_message self tx_blob w = (Ok r, w') ->
     exists tr msgs m, calls w' = calls w ++ tr /\
       ApproveMessages_from_boc_hex tx_blob = Ok msgs /\ head (approve_messages msgs) = Some m /\
       reports (am_message_id m) (am_source_chain m) tr r).
Proof.
  split.
  - intros message. unfold broadcast_execute_message. revert w r w'.
    apply reports_lift. intros dest _. apply reports_lift. intros bytes _. cbv zeta. case_decide.
    { intros w r w' [= <- <-]. exists []. rewrite app_nil_r. split; [done|]. split_and!; [done..|].
      split; [done|]. intros response. apply not_elem_of_nil. }
    apply reports_wallet. intros v. apply reports_lift. intros boc _.
    apply reports_lift. intros action _. apply reports_send.
  - intros tx_blob H. unfold broadcast_prover_message in H.
    apply st_bind_Ok in H as (msgs & w1 & Hm & H). injection Hm as Hm <-.
    apply st_bind_Ok in H as (m & w1 & Hh & H). injection Hh as Hh <-. cbv zeta in H.
    unfold generic_boc in Hm. res_inv.
    eassert (Reports (am_message_id m) (am_source_chain m) _) as HR;
      [|destruct (HR _ _ _ H) as (tr & Hc & Hr); by exists tr, msgs, m].
    apply reports_lift. intros action _. apply reports_wallet. intros v. apply reports_send.
Qed.
End Posted.
