(* ===== verification/Wire.v ===== *)
(** * What the chain reads from a post

    The text the broadcaster posts, read back with the formats of [TonFormat]
    the way the contracts read it: the wallet the signed message inside the
    external one, and each action the message to its destination.  The reader
    is written from the layouts of [block.tlb] and of the wallet, not from the
    code that writes them. *)

From Stdlib Require Import ZArith Lia Strings.Byte Strings.Ascii.
From stdpp Require Import base strings countable vector gmap list.
From S2P Require Import Prelude RustStd Foreign Types GmpTypes Instances CellCodec Messages MessageProofs QueryId QueryIdStore Client Gas Wallet TonFormat FormatLaws Broadcaster BroadcasterProofs Posting.
Import TonFormat FormatLaws.

Module Wire.

(** ** The reader *)

Definition rd {A} (m : CellParser -> fres A * CellParser) : st CellParser ferr A :=
  fun p => match m p with (r, p') => (fr r, p') end.

(** A number of [n] bits that has to be [v]. *)
Definition expect (n : nat) (v : N) : st CellParser ferr unit :=
  let! x := rd (load_uint n) in
  if decide (x = v) then st_ret tt else st_err (ferr0 "Unexpected tag").

Definition of_cell {A} (c : Cell) (m : st CellParser ferr A) : res ferr A := st_eval m (Cell_parser c).

(** An internal message without extra currencies or [init], its body in a
    reference: the destination, the value, the body. *)
Definition read_internal : st CellParser ferr (TonAddress * N * Cell) :=
  let! _ := expect 1 0 in
  let! _ihr_disabled := rd (load_uint 1) in
  let! _bounce := rd (load_uint 1) in
  let! _bounced := rd (load_uint 1) in
  let! _src := rd load_address in
  let! dest := rd load_address in
  let! value := rd load_coins in
  let! _ := expect 1 0 in
  let! _ihr_fee := rd load_coins in
  let! _fwd_fee := rd load_coins in
  let! _created_lt := rd (load_uint 64) in
  let! _created_at := rd (load_uint 32) in
  let! _ := expect 1 0 in
  let! _ := expect 1 1 in
  let! body := rd next_reference in
  st_ret (dest, value, body).

Record action_view := {
  av_mode : N; av_dest : TonAddress; av_value : N; av_body : Cell }.

(** [OutList]: the older actions in the first reference, then
    [action_send_msg]. *)
Fixpoint read_actions (fuel : nat) (c : Cell) : res ferr (list action_view) :=
  match fuel with
  | O => Err (ferr0 "Out of fuel")
  | Datatypes.S fuel' =>
      if decide (cell_bits c = [] /\ length (cell_refs c) = 0%nat) then Ok []
      else of_cell c (
        let! prev := rd next_reference in
        let! _ := expect 32 0x0ec3c86d in
        let! mode := rd (load_uint 8) in
        let! msg := rd next_reference in
        let! older := st_lift (read_actions fuel' prev) in
        let! (dest, value, body) := st_lift (of_cell msg read_internal) in
        st_ret (older ++ [{| av_mode := mode; av_dest := dest; av_value := value; av_body := body |}]))
  end.

Record post_view := {
  pv_wallet : TonAddress;
  pv_signature : list byte;
  pv_signed : Cell;
  pv_subwallet : N;
  pv_mode : N;
  pv_query_id : N;
  pv_created_at : N;
  pv_timeout : N;
  pv_to : TonAddress; (* of the internal transfer *)
  pv_value : N;
  pv_inner_query_id : N;
  pv_actions : list action_view;
}.

(** The signed message of the wallet. *)
Definition read_signed (wallet : TonAddress) (signature : list byte) (c : Cell) : res ferr post_view :=
  of_cell c (
    let! subwallet := rd (load_uint 32) in
    let! transfer := rd next_reference in
    let! mode := rd (load_uint 8) in
    let! query_id := rd (load_uint 23) in
    let! created_at := rd (load_uint 64) in
    let! timeout := rd (load_uint 22) in
    let! (to, value, body) := st_lift (of_cell transfer read_internal) in
    let! (inner_query_id, actions) := st_lift (of_cell body (
      let! _ := expect 32 0xae42e5a4 in
      let! inner_query_id := rd (load_uint 64) in
      let! actions := rd next_reference in
      st_ret (inner_query_id, actions))) in
    let! actions := st_lift (read_actions (Cell_depth actions) actions) in
    st_ret {| pv_wallet := wallet; pv_signature := signature; pv_signed := c; pv_subwallet := subwallet;
              pv_mode := mode; pv_query_id := query_id; pv_created_at := created_at;
              pv_timeout := timeout; pv_to := to; pv_value := value;
              pv_inner_query_id := inner_query_id; pv_actions := actions |}).

(** An external message to the wallet: the signature and the signed message in
    its body. *)
Definition read_post (text : string) : res ferr post_view :=
  let? ext := fr (Cell_from_boc_b64 text) in
  let? (wallet, signature, signed) := of_cell ext (
    let! _ := expect 2 2 in
    let! _ := expect 2 0 in
    let! wallet := rd load_address in
    let! _import_fee := rd load_coins in
    let! _ := expect 1 0 in
    let! _ := expect 1 0 in
    let! signature := rd (load_bits 512) in
    let! signed := rd next_reference in
    st_ret (wallet, signature, signed)) in
  read_signed wallet signature signed.

(** ** Reading back what was written *)

Lemma rd_bind {A B} (m : CellParser -> fres A * CellParser) p a p' (k : A -> st CellParser ferr B) :
  m p = (inr a, p') -> st_bind (rd m) k p = k a p'.
Proof. intros H. unfold st_bind, rd. by rewrite H. Qed.

Lemma load_uint_bits n v rest refs :
  (v < 2 ^ N.of_nat n)%N ->
  load_uint n (bits_of_N n v ++ rest, refs) = (inr v, (rest, refs)).
Proof.
  intros Hv. cbn [load_uint ton_cell_lib]. unfold take_bits. cbn [fst snd].
  rewrite decide_True by (rewrite length_app, length_bits_of_N; lia).
  rewrite take_app_length', drop_app_length' by (by rewrite length_bits_of_N).
  by rewrite N_of_bits_of_N.
Qed.

Lemma load_uint_bit (b : bool) rest refs :
  load_uint 1 (b :: rest, refs) = (inr (if b then 1 else 0)%N, (rest, refs)).
Proof. by destruct b. Qed.

Lemma expect_bind {B} n v p p' (k : unit -> st CellParser ferr B) :
  load_uint n p = (inr v, p') -> st_bind (expect n v) k p = k tt p'.
Proof.
  intros H. rewrite st_bind_run. unfold expect. rewrite (rd_bind _ _ _ _ _ H).
  by rewrite decide_True.
Qed.

Lemma lift_Ok_bind {A B} (m : res ferr A) a p (k : A -> st CellParser ferr B) :
  m = Ok a -> st_bind (st_lift m) k p = k a p.
Proof. by intros ->. Qed.

(** The next read of a parser over what was written. *)
Ltac read_step :=
  first
  [ rewrite (rd_bind load_address _ _ _ _ (read_address_ok _ _ _))
  | erewrite (rd_bind load_coins) by (apply read_coins_ok; first [done|assumption])
  | rewrite (rd_bind (load_uint 1) _ _ _ _ (load_uint_bit _ _ _))
  | rewrite (expect_bind 1 0 _ _ _ (load_uint_bit false _ _))
  | rewrite (expect_bind 1 1 _ _ _ (load_uint_bit true _ _))
  | erewrite rd_bind by (apply load_uint_bits; first [done|assumption])
  | erewrite expect_bind by (apply load_uint_bits; done)
  | erewrite (rd_bind next_reference) by reflexivity ].

Lemma read_internal_ok dest value body :
  (value < 2 ^ 120)%N ->
  of_cell (TCell (internal_info_bits (internal_message dest value) ++ [false; true]) [body])
    read_internal = Ok (dest, value, body).
Proof.
  intros Hv. unfold of_cell, st_eval. cbn [Cell_parser ton_cell_lib tcell_bits tcell_refs].
  unfold internal_info_bits, read_internal. cbn [internal_message im_ihr_disabled im_bounce im_bounced im_src
    im_dest im_value im_ihr_fee im_fwd_fee im_created_lt im_created_at].
  change (z_bits 64 0) with (bits_of_N 64 0). change (z_bits 32 0) with (bits_of_N 32 0).
  rewrite <- !app_assoc. cbn [app].
  repeat read_step. done.
Qed.

(** A single action in an [OutList]. *)
Lemma read_action_ok n mode dest value body msg :
  of_cell msg read_internal = Ok (dest, value, body) -> (mode < 2 ^ 8)%N ->
  read_actions (Datatypes.S (Datatypes.S n)) (TCell (bits_of_N 32 0x0ec3c86d ++ bits_of_N 8 mode) [TCell [] []; msg]) =
    Ok [{| av_mode := mode; av_dest := dest; av_value := value; av_body := body |}].
Proof.
  intros Hmsg Hm. cbn [read_actions]. rewrite decide_False by (by intros [_ ?]).
  unfold of_cell at 1, st_eval. cbn [Cell_parser ton_cell_lib tcell_bits tcell_refs].
  rewrite <- (app_nil_r (bits_of_N 8 mode)). repeat read_step.
  rewrite (lift_Ok_bind _ []) by done. by rewrite (lift_Ok_bind _ _ _ _ Hmsg).
Qed.

Lemma store_fits_inr ok l b b' :
  store_fits ok l b = inr b' -> ok = true /\ b' = (fst b ++ l, snd b).
Proof. unfold store_fits, append_bits. destruct ok; [|done]. by intros [= <-]. Qed.

Lemma inr_inj {A B} (x y : B) : @inr A B x = inr y -> y = x.
Proof. by intros [= ->]. Qed.

(** A number that could be stored is at its low bits. *)
Lemma store_u_inr n v b b' :
  store_fits (z_fits_u n v) (z_bits n v) b = inr b' ->
  0 <= v < 2 ^ Z.of_nat n /\ b' = (fst b ++ bits_of_N n (Z.to_N v), snd b).
Proof.
  intros H. pose proof H as Hs. apply store_fits_inr in H as [Hf _].
  unfold z_fits_u in Hf. apply andb_prop in Hf as [H0 H1].
  assert (0 <= v < 2 ^ Z.of_nat n) as Hv by lia. rewrite store_fits_u in Hs by done.
  split; [done|]. by injection Hs as <-.
Qed.

Lemma build_inr b c :
  build (CellLib := ton_cell_lib) b = inr c ->
  c = TCell (fst b) (snd b) /\ (length (fst b) <= 1023)%nat /\ (length (snd b) <= 4)%nat.
Proof. cbn [build ton_cell_lib]. case_decide as Hd; [|done]. intros [= <-]. by destruct Hd. Qed.

(** ** The message of the wallet *)

Section Message.
Context (signature : list byte -> list byte -> fres (list byte)).
(** Documented: a detached signature has 64 bytes. *)
Context (signature_length : forall hash key s, signature hash key = inr s -> length s = 64%nat).

#[local] Instance wire_wallet_lib : WalletLib := ton_wallet_lib signature.

(** The message an action sends. *)
Lemma out_action_sends boc_hex value dest action body :
  Cell_from_boc_hex boc_hex = inr body -> out_action boc_hex value dest = Ok action ->
  oa_mode action = SEND_MODE_IGNORE_ERRORS /\
  (fits body -> fits (oa_out_msg action)) /\
  length (subcells (oa_out_msg action)) = Datatypes.S (length (subcells body)) /\
  of_cell (oa_out_msg action) read_internal = Ok (dest, value, body).
Proof.
  intros Hb H. unfold out_action in H. rewrite Hb in H. cbn [fr res_bind] in H. res_inv. subst action.
  cbn [oa_mode oa_out_msg]. apply fr_Ok in H0. cbn [TransferMessage_build wire_wallet_lib ton_wallet_lib] in H0.
  unfold transfer_message in H0. case_decide as Hv; [|done]. apply build_inr in H0 as (-> & Hl & Hr).
  cbn [fst snd] in *. split; [done|]. split; [by constructor; [| |constructor]|]. split.
  - cbn [subcells map concat length]. by rewrite app_nil_r.
  - by apply read_internal_ok.
Qed.

(** The stores of a builder whose result is known. *)
Ltac stores_inv :=
  repeat match goal with
  | H : store_u32 _ _ _ = inr _ |- _ => apply store_u_inr in H as [? ->]
  | H : store_u64 _ _ _ = inr _ |- _ => apply store_u_inr in H as [? ->]
  | H : store_u8 _ _ _ = inr _ |- _ => apply store_u_inr in H as [? ->]
  | H : store_number _ _ _ = inr _ |- _ => apply store_u_inr in H as [? ->]
  | H : store_reference _ _ = inr _ |- _ =>
      cbn [store_reference ton_cell_lib] in H; apply inr_inj in H as ->
  | H : build _ = inr _ |- _ => apply build_inr in H as (-> & ? & ?)
  end;
  cbn [fst snd CellBuilder_new ton_cell_lib app] in *.

Lemma internal_transfer_body_is action qid body :
  internal_transfer_body [action] qid = Ok body -> oa_mode action = SEND_MODE_IGNORE_ERRORS ->
  0 <= qid < 2 ^ 64 /\
  body = TCell (bits_of_N 32 0xae42e5a4 ++ bits_of_N 64 (Z.to_N qid))
    [TCell (bits_of_N 32 0x0ec3c86d ++ bits_of_N 8 2) [TCell [] []; oa_out_msg action]].
Proof.
  intros H Hmode. unfold internal_transfer_body in H. rewrite decide_False in H by (cbn; lia).
  res_inv. rewrite ?fr_Ok in *.
  cbn [OutList_new_write wire_wallet_lib ton_wallet_lib write_out_list] in H0. change (cell_of _ _) with (inr (TCell [] []) : fres tcell) in H0.
  rewrite Hmode in H0. cbn [app fst snd CellBuilder_new ton_cell_lib] in H0. apply inr_inj in H0 as ->.
  stores_inv. split; [done|]. reflexivity.
Qed.

Lemma message_inner_is self message qid created timeout c :
  message_inner self message SEND_MODE_IGNORE_ERRORS qid created timeout = Ok c -> 0 <= qid ->
  0 <= subwallet_id self < 2 ^ 32 /\ qid < 2 ^ 22 /\ 0 <= created < 2 ^ 64 /\ 0 <= timeout < 2 ^ 22 /\
  c = TCell (bits_of_N 32 (Z.to_N (subwallet_id self)) ++ bits_of_N 8 2 ++
        bits_of_N 23 (Z.to_N qid) ++ bits_of_N 64 (Z.to_N created) ++ bits_of_N 22 (Z.to_N timeout))
        [message].
Proof.
  intros H Hq. unfold message_inner in H. res_inv. rewrite ?fr_Ok in *.
  assert (qid < 2 ^ 22) as Hq2.
  { cbn [store_int ton_cell_lib] in H3. apply store_fits_inr in H3 as [Hf _].
    unfold z_fits_s in Hf. apply andb_prop in Hf as [_ Hf]. change (2 ^ (Z.of_nat 23 - 1)) with (2 ^ 22) in Hf. lia. }
  cbn [store_int ton_cell_lib] in H3. rewrite store_fits_s in H3 by (change (2 ^ (Z.of_nat 23 - 1)) with (2 ^ 22); lia).
  apply inr_inj in H3 as ->. stores_inv. split_and!; try lia. by rewrite <- !app_assoc.
Qed.

(** The signed body, and the message that wraps it. *)
Lemma sign_external_body_is self inner c :
  sign_external_body self inner = Ok c ->
  exists s, signature (TonHash_to_bytes (Cell_hash inner)) (secret_key (key_pair self)) = inr s /\
    c = TCell (bytes_bits s) [inner].
Proof.
  intros H. unfold sign_external_body in H. res_inv. rewrite ?fr_Ok in *.
  cbn [store_slice ton_cell_lib] in H1. unfold append_bits in H1. apply inr_inj in H1 as ->.
  stores_inv. by eexists.
Qed.

Lemma wrap_signed_body_is self s inner c :
  wrap_signed_body self (TCell (bytes_bits s) [inner]) = Ok c -> length s = 64%nat ->
  c = TCell ([true; false; false; false] ++ ref_address_bits (wallet_address self) ++
    coins_bits_of 0 ++ [false; false] ++ bytes_bits s) [inner] /\
  (length (tcell_bits c) <= 1023)%nat.
Proof.
  intros H Hs. unfold wrap_signed_body in H. apply fr_Ok in H.
  cbn [ExtInMessage_to_cell wire_wallet_lib ton_wallet_lib] in H. unfold external_message in H.
  cbn [tcell_bits tcell_refs] in H.
  rewrite decide_True in H.
  - apply build_inr in H as (-> & Hl & _). cbn [fst snd tcell_bits] in *. split; [|done].
    by rewrite <- !app_assoc.
  - rewrite !length_app, length_ref_address_bits, length_bytes_bits, Hs. cbn. lia.
Qed.

(** [v] is the message of [wallet] under the id [q] with one action, that sends
    [body] and [value] to [dest]. *)
Definition carries (self : TonWalletHighLoadV3) (q : Z) (v : post_view) (dest : TonAddress)
    (value : N) (body : Cell) : Prop :=
  pv_wallet v = wallet_address self /\
  signature (TonHash_to_bytes (Cell_hash (pv_signed v))) (secret_key (key_pair self)) =
    inr (pv_signature v) /\
  Z.of_N (pv_subwallet v) = subwallet_id self /\ pv_mode v = Z.to_N SEND_MODE_IGNORE_ERRORS /\
  Z.of_N (pv_query_id v) = q /\ pv_inner_query_id v = pv_query_id v /\
  Z.of_N (pv_timeout v) = wallet_timeout self /\ pv_to v = wallet_address self /\
  pv_actions v = [{| av_mode := Z.to_N SEND_MODE_IGNORE_ERRORS; av_dest := dest;
                     av_value := value; av_body := body |}].

Lemma N_bound v n : 0 <= v < 2 ^ Z.of_nat n -> (Z.to_N v < 2 ^ N.of_nat n)%N.
Proof.
  intros Hv. apply N2Z.inj_lt. rewrite Z2N.id by lia. rewrite N2Z.inj_pow, nat_N_Z. lia.
Qed.

(** The wallet reads its message. *)
Lemma read_signed_ok wallet s sub qid created timeout to amount msg dest value body :
  let actions := TCell (bits_of_N 32 0x0ec3c86d ++ bits_of_N 8 2) [TCell [] []; msg] in
  let transfer := TCell (internal_info_bits (internal_message to amount) ++ [false; true])
    [TCell (bits_of_N 32 0xae42e5a4 ++ bits_of_N 64 qid) [actions]] in
  let signed := TCell (bits_of_N 32 sub ++ bits_of_N 8 2 ++ bits_of_N 23 qid ++ bits_of_N 64 created ++
    bits_of_N 22 timeout) [transfer] in
  (sub < 2 ^ N.of_nat 32)%N -> (qid < 2 ^ N.of_nat 22)%N -> (created < 2 ^ N.of_nat 64)%N ->
  (timeout < 2 ^ N.of_nat 22)%N -> (amount < 2 ^ 120)%N ->
  of_cell msg read_internal = Ok (dest, value, body) ->
  read_signed wallet s signed = Ok {|
    pv_wallet := wallet; pv_signature := s; pv_signed := signed; pv_subwallet := sub; pv_mode := 2;
    pv_query_id := qid; pv_created_at := created; pv_timeout := timeout; pv_to := to;
    pv_value := amount; pv_inner_query_id := qid;
    pv_actions := [{| av_mode := 2; av_dest := dest; av_value := value; av_body := body |}] |}.
Proof.
  intros actions transfer signed Hsub Hq Hcreated Htimeout Hamount Hmsg.
  assert (Hq23 : (qid < 2 ^ N.of_nat 23)%N).
  { etransitivity; [exact Hq|]. by apply N.pow_lt_mono_r. }
  assert (Hq64 : (qid < 2 ^ N.of_nat 64)%N).
  { etransitivity; [exact Hq|]. by apply N.pow_lt_mono_r. }
  unfold read_signed. unfold of_cell at 1, st_eval. subst signed.
  cbn [Cell_parser ton_cell_lib tcell_bits tcell_refs].
  rewrite <- (app_nil_r (bits_of_N 22 timeout)). repeat read_step.
  subst transfer. rewrite (lift_Ok_bind _ _ _ _ (read_internal_ok _ _ _ Hamount)). cbn iota beta.
  rewrite (lift_Ok_bind _ (qid, actions)).
  - cbn iota beta. rewrite (lift_Ok_bind _ [{| av_mode := 2; av_dest := dest; av_value := value; av_body := body |}]);
      [by rewrite app_nil_r|].
    assert (Hd : exists n, tcell_depth actions = Datatypes.S (Datatypes.S n)).
    { exists (pred (pred (tcell_depth actions))). subst actions.
      cbn [tcell_depth foldr]. lia. }
    cbn [Cell_depth ton_cell_lib]. destruct Hd as [n ->]. apply read_action_ok; [exact Hmsg|done].
  - unfold of_cell, st_eval. cbn [Cell_parser ton_cell_lib tcell_bits tcell_refs].
    rewrite <- (app_nil_r (bits_of_N 64 qid)). by repeat read_step.
Qed.

(** The text of an external message to a wallet. *)
Lemma read_post_ok wallet s signed :
  let ext := TCell ([true; false; false; false] ++ ref_address_bits wallet ++
    coins_bits_of 0 ++ [false; false] ++ bytes_bits s) [signed] in
  length s = 64%nat -> fits signed -> (length (tcell_bits ext) <= 1023)%nat ->
  (N.of_nat (length (subcells ext)) < 65536)%N ->
  read_post (base64_encode (write_boc ext)) = read_signed wallet s signed.
Proof.
  intros ext Hs Hfit Hlen Hsize. unfold read_post.
  rewrite boc_b64_roundtrip; [|constructor; [exact Hlen|cbn; lia|by constructor]|done].
  cbn [fr res_bind].
  assert (of_cell (ext : Cell) (
    let! _ := expect 2 2 in let! _ := expect 2 0 in let! wallet := rd load_address in
    let! _import_fee := rd load_coins in let! _ := expect 1 0 in let! _ := expect 1 0 in
    let! signature := rd (load_bits 512) in let! signed := rd next_reference in
    st_ret (wallet, signature, signed)) = Ok (wallet, s, signed)) as ->; [|done].
  unfold of_cell, st_eval. subst ext. cbn [Cell_parser ton_cell_lib tcell_bits tcell_refs].
  change ([true; false; false; false] ++ ?l) with (bits_of_N 2 2 ++ bits_of_N 2 0 ++ l).
  rewrite (expect_bind 2 2 _ _ _ (load_uint_bits 2 2 _ _ eq_refl)),
    (expect_bind 2 0 _ _ _ (load_uint_bits 2 0 _ _ eq_refl)).
  rewrite (rd_bind load_address _ _ _ _ (read_ref_address _ _ _)).
  cbn [app]. do 3 read_step. destruct (@load_bits_ok _ _ _ ton_parser_laws (bytes_bits s, [signed]) s []) as ([bits refs] & Hl & H1 & H2).
  { by rewrite app_nil_r. }
  rewrite Hs in Hl. cbn [parser_bits parser_refs ton_cell_view fst snd] in H1, H2. subst.
  rewrite (rd_bind _ _ _ _ _ Hl). by read_step.
Qed.

Lemma outgoing_read self now action qid amount c dest value body :
  outgoing_message self now [action] qid amount = Ok c ->
  oa_mode action = SEND_MODE_IGNORE_ERRORS -> fits (oa_out_msg action) ->
  of_cell (oa_out_msg action) read_internal = Ok (dest, value, body) ->
  (N.of_nat (6 + length (subcells (oa_out_msg action))) < 65536)%N ->
  exists v, read_post (base64_encode (write_boc c)) = Ok v /\
    carries self qid v dest value body /\ pv_value v = amount.
Proof.
  intros H Hmode Hfit Hread Hsize. unfold outgoing_message, boc_encoding in H. res_inv.
  destruct (internal_transfer_body_is _ _ _ H0 Hmode) as [Hq ->].
  unfold internal_transfer_message_cell in H1. apply fr_Ok in H1.
  cbn [TransferMessage_build wire_wallet_lib ton_wallet_lib] in H1. unfold transfer_message in H1.
  case_decide as Hamount; [|done]. apply build_inr in H1 as (-> & Hl1 & _). cbn [fst snd] in *.
  apply message_inner_is in H2 as (Hsub & Hq2 & Hcreated & Htimeout & ->); [|lia].
  apply sign_external_body_is in H3 as (s & Hs & ->).
  apply wrap_signed_body_is in H as [-> Hl]; [|by eapply signature_length].
  rewrite read_post_ok; [|by eapply signature_length| |exact Hl|].
  - rewrite (read_signed_ok _ _ _ _ _ _ _ _ _ dest value body); try done; try (apply (N_bound _ _); lia).
    eexists. split; [done|]. split; [|done]. unfold carries. cbn. split_and!; try done; lia.
  - constructor; [rewrite !length_app, !length_bits_of_N; cbn; lia|cbn; lia|constructor; [|constructor]].
    constructor; [exact Hl1|cbn; lia|constructor; [|constructor]].
    do 2 (constructor; [rewrite !length_app, !length_bits_of_N; cbn; lia|cbn; lia|constructor; [|repeat constructor]]).
    + constructor; [cbn; lia..|constructor].
    + done.
  - cbn [subcells map concat app]. rewrite !app_nil_r. cbn [length]. lia.
Qed.

(** ** The posts of the broadcaster *)

(** The execute message is small: a cell holds 96 bytes. *)
Lemma stores_small c l : stores c l -> fits c /\ (96 * length (subcells c) <= length l + 96)%nat.
Proof.
  induction 1 as [c l Hl Hb Hr|c l c' l' Hl Hb Hr Hs [Hf Hn]]; destruct c as [bits refs];
    cbn [cell_bits cell_refs ton_cell_view tcell_bits tcell_refs] in Hb, Hr; subst bits refs.
  - unfold BYTES_PER_CELL in Hl. split; [|cbn; lia].
    constructor; [rewrite length_bytes_bits; lia|cbn; lia|constructor].
  - unfold BYTES_PER_CELL in Hl. split.
    + constructor; [rewrite length_bytes_bits; lia|cbn; lia|by repeat constructor].
    + cbn [subcells map concat length]. rewrite app_nil_r, length_app. lia.
Qed.

(** The bytes an execute message carries. *)
Definition execute_size (m : RelayerExecuteMessage) (payload : list byte) : N :=
  N.of_nat (length (as_bytes (rem_message_id m)) + length (as_bytes (rem_source_chain m)) +
    length (as_bytes (rem_source_address m)) + length (as_bytes (rem_destination_chain m)) +
    length payload).

Lemma relayer_small m payload outer :
  relayer_layout m payload outer ->
  fits outer /\ (N.of_nat (96 * length (subcells outer)) <= execute_size m payload + 1000)%N.
Proof.
  intros [message inner mid sc sa pl da dc Hob Hor Hmb Hmr Hib Hir H1 H2 H3 H4 H5 H6].
  apply stores_small in H1 as [Hf1 Hn1], H2 as [Hf2 Hn2], H3 as [Hf3 Hn3], H4 as [Hf4 Hn4],
    H5 as [Hf5 Hn5], H6 as [Hf6 Hn6].
  destruct outer as [ob orefs], message as [mb mr], inner as [ib ir].
  cbn [cell_bits cell_refs ton_cell_view tcell_bits tcell_refs] in *. subst. split.
  - pose proof (address_bits_length (rem_relayer_address m)) as Ha.
    constructor; [rewrite length_app, length_bits_of_N; lia|cbn; lia|constructor; [|constructor]].
    constructor; [cbn; lia|cbn; lia|repeat (constructor; [done|])]. constructor; [|constructor].
    constructor; [by rewrite length_bits_of_N; lia|cbn; lia|by repeat constructor].
  - rewrite TonHash_to_bytes_length in Hn5. unfold execute_size.
    cbn [subcells map concat length]. rewrite !app_nil_r. cbn [length]. rewrite !length_app. cbn [length].
    rewrite !length_app. lia.
Qed.

Section Posts.
Context {JL : JsonLib} {CET : ClientErrorText}.
Context {W : Type} {LM : LockManager W} {HQ : HighLoadQueryIdWrapper W} {TP : TimeProvider W}.
Context {RC : RestClient W} {G : Type} {GE : GasEstimator G} {CLA : CallLaws W}.
Context (self : TONBroadcaster (G:=G)).

(** [b] reads as a message of [wallet] under the id [q] with the transfer value
    of the estimator and one action. *)
Definition reads_as (wallet : TonWalletHighLoadV3) (q : HighLoadQueryId.t) (b : string)
    (dest : TonAddress) (value : N) (body : Cell) : Prop :=
  exists v, read_post b = Ok v /\ carries wallet (HighLoadQueryId.query_id q) v dest value body /\
    pv_value v = Z.to_N (highload_wallet_send (gas_estimator self) 1).

Lemma posted_reads wallet hex value dest action body q b :
  Cell_from_boc_hex hex = inr body -> out_action hex value dest = Ok action -> fits body ->
  (N.of_nat (7 + length (subcells body)) < 65536)%N ->
  posted_by self wallet action q b -> reads_as wallet q b dest value body.
Proof.
  intros Hbody Ha Hf Hn (now & cell & tx & Ho & Hs & ->).
  destruct (out_action_sends _ _ _ _ _ Hbody Ha) as (Hmode & Hfit & Hlen & Hread).
  injection Hs as <-. eapply outgoing_read; [exact Ho|done|by apply Hfit|exact Hread|]. lia.
Qed.

(** A post of an execute task: a message of a managed wallet with one action,
    which sends the gateway the execute cell over the task's payload, if the
    gas balance covers the estimate. *)
Definition execute_on_wire (message : ExecuteTaskFields) (a : string) (q : HighLoadQueryId.t)
    (b : string) : Prop :=
  exists dest bytes wallet outer,
    TonAddress_from_str (gm_destination_address (et_message message)) = inr dest /\
    base64_decode (et_payload message) = inr bytes /\
    execute_estimate (gas_estimator self) (Z.of_nat (length bytes)) <=
      unwrap_or 0 (u64_from_str (amount (et_available_gas_balance message))) /\
    managed self wallet /\ a = wallet_name wallet /\
    let m := execute_message self message dest bytes (wallet_address wallet) in
    relayer_layout m bytes outer /\
    ((execute_size m bytes < 6000000)%N ->
     reads_as wallet q b (gateway_address self)
       (Z.to_N (execute_send (gas_estimator self) (Z.of_nat (length bytes)))) outer).

(** C5. What the chain reads from an execute task, with the real formats: each
    text posted reads back as an external message to a managed wallet that
    carries its signature over a message with the wallet's id, the query id and
    a transfer to itself, whose only action sends the gateway the estimator's
    value and the execute cell: the ids, chains, addresses and the bytes of the
    task's Base64 payload under their hash.  It is posted only when the gas
    balance covers the estimate for that payload.  The text is read back when
    the strings and the payload together are below six million bytes, the most
    that a bag of fewer than 65536 cells holds. *)
Theorem execute_wire message :
  Posts (execute_on_wire message) (broadcast_execute_message self message).
Proof.
  eapply posts_impl; [|apply execute_posts]. intros a q b
    (dest & bytes & wallet & outer & hex & action & Hd & Hb & Hgas & Hl & Hhex & Ha & Hm & -> & Hp).
  exists dest, bytes, wallet, outer. split_and!; try done. cbv zeta. split; [done|]. intros Hsize.
  destruct (relayer_small _ _ _ Hl) as [Hf Hn].
  assert (Hc : (N.of_nat (7 + length (subcells outer)) < 65536)%N) by lia.
  eapply posted_reads; [eapply boc_hex_roundtrip; [exact Hf|lia|exact Hhex]|exact Ha|exact Hf|exact Hc|exact Hp].
Qed.

Lemma refund_small m c : NativeRefundMessage_to_cell m = Ok c -> fits c /\ subcells c = [c].
Proof.
  intros H. unfold NativeRefundMessage_to_cell, enc in H. res_inv. rewrite ?fr_Ok in *.
  cbn [store_uint store_coins ton_cell_lib] in H0, H3.
  apply store_fits_inr in H0 as [_ ->], H3 as [_ ->].
  cbn [store_tonhash store_address ton_cell_lib] in H1, H2. unfold append_bits in H1, H2.
  apply inr_inj in H1 as ->. apply inr_inj in H2 as ->. apply build_inr in H as (-> & H1 & H2).
  split; [constructor; [done|done|constructor]|done].
Qed.

(** A post of a refund task. *)
Definition refund_on_wire (refund_task : RefundTaskFields) (a : string) (q : HighLoadQueryId.t)
    (b : string) : Prop :=
  exists tx_hash recipient original refunded cell wallet,
    token_id (rt_remaining_gas_balance refund_task) = None /\
    TonHash_from_hex (let id := gm_message_id (rt_message refund_task) in
      default id (strip_prefix "0x" id)) = inr tx_hash /\
    TonAddress_from_hex_str (rt_refund_recipient_address refund_task) = inr recipient /\
    BigUint_from_str (amount (rt_remaining_gas_balance refund_task)) = inr original /\
    (refunded + Z.to_N (native_gas_refund_estimate (gas_estimator self)) = original)%N /\
    ((original < 2 ^ 120)%N ->
     exists p op, load_uint 32 (Cell_parser cell) = (inr op, p) /\ op = Z.to_N OP_NATIVE_REFUND /\
     fst (NativeGasRefundedMessage_parse p) = Ok {|
       ngr_tx_hash := tx_hash; ngr_address := recipient; ngr_amount := refunded |}) /\
    managed self wallet /\ a = wallet_name wallet /\
    reads_as wallet q b (gas_service_address self) (Z.to_N REFUND_DUST) cell.

(** C6. What the chain reads from a refund task, with the real formats: each
    text posted reads back as a signed message of a managed wallet under its
    query id whose only action sends the gas service a cell in which its
    reader finds the hash of the message id, the recipient of the task, and an
    amount that adds up with the estimated cost to the remaining balance, when
    this balance is below [2 ^ 120], the bound of coins. *)
Theorem refund_wire refund_task :
  Posts (refund_on_wire refund_task) (broadcast_refund_message self refund_task).
Proof.
  eapply posts_impl; [|apply refund_posts]. intros a q b
    (h & r & o & v & cell & hex & wallet & action & H1 & H2 & H3 & H4 & H5 & H6 & Hc & Hhex & Ha & Hm & -> & Hp).
  exists h, r, o, v, cell, wallet. split_and!; try done.
  apply refund_small in Hc as [Hf Hs].
  assert (Hn : (N.of_nat (7 + length (subcells cell)) < 65536)%N) by by rewrite Hs.
  eapply posted_reads; [eapply boc_hex_roundtrip; [exact Hf|lia|exact Hhex]|exact Ha|exact Hf|exact Hn|exact Hp].
Qed.

(** A post of a prover message. *)
Definition prover_on_wire (tx_blob : string) (a : string) (q : HighLoadQueryId.t) (b : string) : Prop :=
  exists msgs wallet body,
    ApproveMessages_from_boc_hex tx_blob = Ok msgs /\ approve_messages msgs <> [] /\
    Cell_from_boc_hex tx_blob = inr body /\
    managed self wallet /\ a = wallet_name wallet /\
    (fits body -> (N.of_nat (7 + length (subcells body)) < 65536)%N ->
     reads_as wallet q b (gateway_address self)
       (Z.to_N (approve_send (gas_estimator self) (Z.of_nat (length (approve_messages msgs))))) body).

(** C22. What the chain reads from a prover message, with the real formats:
    each text is posted for a blob that reads as a cell with at least one
    approval; and when the cells of the blob are cells of the chain, of at most
    1023 bits and four references each, and with the seven cells around them are
    fewer than 65536, the text reads back as a signed message of a managed
    wallet under its query id whose only action sends the gateway the very cell
    of the blob, with the value of the estimator for the number of approvals. *)
Theorem prover_wire tx_blob :
  Posts (prover_on_wire tx_blob) (broadcast_prover_message self tx_blob).
Proof.
  eapply posts_impl; [|apply prover_posts].
  intros a q b (msgs & wallet & action & Hm & Hne & Ha & Hw & -> & Hp).
  destruct (Cell_from_boc_hex tx_blob) as [e|body] eqn:Hb.
  { unfold out_action in Ha. rewrite Hb in Ha. done. }
  exists msgs, wallet, body. split_and!; try done. intros Hf Hn.
  eapply posted_reads; [exact Hb|exact Ha|exact Hf|exact Hn|exact Hp].
Qed.
End Posts.
End Message.
End Wire.
