(* ===== verification/BroadcastDemo.v ===== *)
(** * A world for the broadcaster, and runs in it

    Locks in a set, query ids in a table, a network that answers from a
    script: the theorems of [BroadcasterProofs] and [Posting] applied at
    concrete tasks. *)

From Stdlib Require Import ZArith Lia Strings.Byte Strings.Ascii.
From stdpp Require Import base strings countable gmap list relations.
From S2P Require Import Prelude RustStd Foreign Types GmpTypes CellCodec Messages MessageProofs QueryId QueryIdStore Client Gas Wallet Broadcaster BroadcasterProofs Posting Instances.

(** A world: the locks, the table of query ids, the answers the network will
    give, and the calls made. *)
Record demo_world := {
  dw_locks : gset string;
  dw_ids : query_table;
  dw_rpc : list (ClientError + V3MessageResponse);
  dw_calls : list call;
}.

#[export] Instance demo_locks : LockManager demo_world := {|
  lock k w :=
    if decide (k ∈ dw_locks w) then (false, w)
    else (true, {| dw_locks := {[k]} ∪ dw_locks w; dw_ids := dw_ids w; dw_rpc := dw_rpc w;
                   dw_calls := dw_calls w |});
  unlock k w := {| dw_locks := dw_locks w ∖ {[k]}; dw_ids := dw_ids w; dw_rpc := dw_rpc w;
                   dw_calls := dw_calls w |};
|}.

#[export] Instance demo_query_ids : HighLoadQueryIdWrapper demo_world := fun a t force w =>
  let '(r, ids) := wrapper_next no_fault 0 0 a t force (dw_ids w) in
  (r, {| dw_locks := dw_locks w; dw_ids := ids; dw_rpc := dw_rpc w;
         dw_calls := dw_calls w ++ [CNext a force r] |}).

#[export] Instance demo_time : TimeProvider demo_world := fun _ => 1700000000.

Definition demo_post (b : string) (w : demo_world)
    : res ClientError V3MessageResponse * demo_world :=
  let '(r, rpc) := match dw_rpc w with
                   | [] => (Err (ConnectionFailed "closed"), [])
                   | inl e :: l => (Err e, l)
                   | inr x :: l => (Ok x, l)
                   end in
  (r, {| dw_locks := dw_locks w; dw_ids := dw_ids w; dw_rpc := rpc;
         dw_calls := dw_calls w ++ [CPost b r] |}).

#[export] Instance demo_rest_client : RestClient demo_world := {|
  post_v3_message := demo_post;
  get_traces_for_account _ _ _ := st_err (ConnectionFailed "closed");
  get_account_states _ := st_err (ConnectionFailed "closed");
|}.

#[export] Instance demo_error_text : ClientErrorText := fun e =>
  match e with BadRequest s => s | BadResponse s => s | ConnectionFailed s => s end.

#[export] Instance demo_call_laws : CallLaws demo_world.
Proof.
  apply (Build_CallLaws _ _ _ _ _ _ dw_calls); cbn [lock unlock demo_locks].
  - intros k w. by case_decide.
  - done.
  - intros a t f w. unfold hq_next, demo_query_ids.
    pose proof (wrapper_next_no_panic no_fault 0 0 a t f (dw_ids w)) as Hp.
    by destruct (wrapper_next _ _ _ _ _ _ _) as [r ids].
  - intros b w. cbn [post_v3_message demo_rest_client]. unfold demo_post.
    by destruct (dw_rpc w) as [|[e|x] l].
Defined.

#[export] Instance demo_lock_laws : LockLaws demo_world.
Proof.
  apply (Build_LockLaws _ _ _ _ _ _ dw_locks); cbn [lock unlock demo_locks].
  - intros k w w'. case_decide; [done|]. by intros [= <-].
  - intros k w w'. case_decide; [|done]. by intros [= <-].
  - done.
  - intros a t f w. unfold hq_next, demo_query_ids. by destruct (wrapper_next _ _ _ _ _ _ _).
  - intros b w. cbn [post_v3_message demo_rest_client]. unfold demo_post.
    by destruct (dw_rpc w) as [|[e|x] l].
Defined.

Definition demo_broadcaster : TONBroadcaster (G:=TONGasEstimator) := {|
  wallet_manager := ex_manager;
  gateway_address := ex_address 7;
  gas_service_address := ex_address 8;
  chain_name := "ton2";
  gas_estimator := ex_estimator;
|}.

Definition demo_start (rpc : list (ClientError + V3MessageResponse)) : demo_world := {|
  dw_locks := ∅; dw_ids := ∅; dw_rpc := rpc; dw_calls := [] |}.

Lemma demo_acquire : acquire (W:=demo_world) ex_manager = acquire_from [(ex_address 1, ex_wallet 1)].
Proof. unfold acquire, ex_manager. cbn [wallets]. by rewrite map_to_list_singleton. Qed.

Definition demo_refund : RefundTaskFields := {|
  rt_message := {| gm_message_id := "0x" +:+ hex_lower (repeat (byte_of 17) 32);
    gm_source_chain := "ton2"; gm_source_address := ""; gm_destination_address := "";
    gm_payload_hash := "" |};
  rt_refund_recipient_address := "0:" +:+ hex_lower (repeat (byte_of 2) 32);
  rt_remaining_gas_balance := {| token_id := None; amount := "5000" |} |}.

(** The error of a refund's post is dropped: when the network refuses
    the message, the refund task still ends in [Ok], with an empty hash. *)
Theorem refund_error_lost :
  let out := broadcast_refund_message demo_broadcaster demo_refund (demo_start []) in
  fst out = Ok "" /\
  posts (dw_calls (snd out)) = [Err (ConnectionFailed "closed")].
Proof.
  cbv zeta. unfold broadcast_refund_message, acquire_wallet. cbn [wallet_manager demo_broadcaster].
  rewrite demo_acquire. split_and!; by vm_compute.
Qed.

Lemma broadcast_releases_witness :
  (forall tx_blob, Keeps (broadcast_prover_message demo_broadcaster tx_blob)) /\
  (forall message, Keeps (broadcast_execute_message demo_broadcaster message)) /\
  (forall refund_task, Keeps (broadcast_refund_message demo_broadcaster refund_task)).
Proof. exact (broadcast_releases demo_broadcaster ex_manager_wf). Defined.

(** The posts of a run. *)
Definition posted (w : demo_world) : list string :=
  omap (fun c => match c with CPost b _ => Some b | CNext _ _ _ => None end) (dw_calls w).

Lemma posted_ok {A} P (m : st demo_world BroadcasterError A) rpc :
  Posts P m -> paired P (dw_calls (snd (m (demo_start rpc)))).
Proof. intros HP. by destruct (HP (demo_start rpc)) as (tr & Hc & Htr); rewrite (Hc : dw_calls _ = tr). Qed.

Definition demo_execute : ExecuteTaskFields := {|
  et_message := {| gm_message_id := "0xabc-1"; gm_source_chain := "avalanche";
    gm_source_address := "0x01"; gm_destination_address := "0:" +:+ hex_lower (repeat (byte_of 2) 32);
    gm_payload_hash := "" |};
  et_payload := "0a0b";
  et_available_gas_balance := {| token_id := None; amount := "5000" |} |}.

Definition demo_executed : demo_world :=
  snd (broadcast_execute_message demo_broadcaster demo_execute (demo_start [])).

Definition demo_refunded : demo_world :=
  snd (broadcast_refund_message demo_broadcaster demo_refund (demo_start [])).

(** The run posts once, and what it posts satisfies the theorem. *)
Example execute_posts_run :
  length (posted demo_executed) = 1%nat /\
  paired (execute_post demo_broadcaster demo_execute) (dw_calls demo_executed).
Proof.
  split.
  - unfold demo_executed, broadcast_execute_message, acquire_wallet.
    cbn [wallet_manager demo_broadcaster]. rewrite demo_acquire. by vm_compute.
  - exact (posted_ok _ _ [] (execute_posts demo_broadcaster demo_execute)).
Qed.

Example refund_posts_run :
  length (posted demo_refunded) = 1%nat /\
  paired (refund_post demo_broadcaster demo_refund) (dw_calls demo_refunded).
Proof.
  split.
  - unfold demo_refunded, broadcast_refund_message, acquire_wallet.
    cbn [wallet_manager demo_broadcaster]. rewrite demo_acquire. by vm_compute.
  - exact (posted_ok _ _ [] (refund_posts demo_broadcaster demo_refund)).
Qed.

(** Twelve posts when the wallet keeps answering "already executed". *)
Example twelve_posts :
  let e := BadRequest "exitcode=36, steps=20, THROWIF 36" in
  let out := send_to_chain demo_broadcaster (ex_wallet 1)
    [{| oa_mode := 2; oa_out_msg := TCell [] [] |}] None (demo_start (repeat (inl e) 20)) in
  fst out = Err (RPCCallFailed "exitcode=36, steps=20, THROWIF 36") /\
  length (posted (snd out)) = 12%nat.
Proof. cbv zeta. split; by vm_compute. Qed.

Definition demo_taken : res BroadcasterError BroadcastResult * demo_world :=
  broadcast_execute_message demo_broadcaster demo_execute
    (demo_start [inr {| message_hash := "hash"; message_hash_norm := "norm" |}]).

Definition reported_hash (r : res BroadcasterError BroadcastResult) : string :=
  match r with Ok r => br_tx_hash r | _ => "" end.

Lemma demo_taken_hash : reported_hash (fst demo_taken) = "hash".
Proof.
  unfold demo_taken, broadcast_execute_message, acquire_wallet.
  cbn [wallet_manager demo_broadcaster]. rewrite demo_acquire. by vm_compute.
Qed.

Lemma reported_hash_Ok r : reported_hash r = "hash" -> exists x, r = Ok x /\ br_tx_hash x = "hash".
Proof. destruct r as [r|e|]; [by exists r|done..]. Qed.

(** The network takes a message, and its hash is reported. *)
Lemma broadcast_reports_witness :
  exists r tr, fst demo_taken = Ok r /\ br_tx_hash r = "hash" /\
    calls (snd demo_taken) = [] ++ tr /\ reports "0xabc-1" "avalanche" tr r.
Proof.
  destruct (reported_hash_Ok _ demo_taken_hash) as (r & Hr & Hh).
  destruct (proj1 (broadcast_reports demo_broadcaster
    (demo_start [inr {| message_hash := "hash"; message_hash_norm := "norm" |}]) (snd demo_taken) r)
    demo_execute (eq_trans (surjective_pairing demo_taken) (f_equal (fun x => (x, snd demo_taken)) Hr)))
    as (tr & Htr & Hrep).
  exists r, tr. exact (conj Hr (conj Hh (conj Htr Hrep))).
Defined.
