(* ===== verification/World.v ===== *)
(** * The includer in its world

    [BroadcasterProofs] knows the world by its laws; here it is put together
    from the components: Redis for the locks, the table of query ids behind its
    wrapper, the RPC client, and an environment that decides when requests
    arrive and which queries fail.  Over any sequence of tasks, no query id is
    posted twice for a wallet while its row lives. *)

From Stdlib Require Import ZArith Lia Sorted Strings.Byte Strings.Ascii.
From stdpp Require Import base strings countable gmap sorting list relations.
From S2P Require Import Prelude RustStd Foreign Types GmpTypes CellCodec Messages QueryId QueryIdStore WalletContract Client Gas Wallet Broadcaster BroadcasterProofs Posting.

(** What happens to a request for a query id: which of its queries fail, and
    the times of the two. *)
Record wrapper_env := {
  we_fault : db_op -> option ferr;
  we_get : Z;
  we_put : Z;
}.

Class Environment (E : Type) := {
  draw : E -> wrapper_env * E;
  wall_clock : E -> Z;
}.

(** The log of the world, kept for the theorems only. *)
Inductive entry : Type :=
| ENext (c : wrapper_call) (r : res HighLoadQueryIdWrapperError HighLoadQueryId.t)
| EPost (b : string) (r : res ClientError V3MessageResponse).

Definition call_of (e : entry) : call :=
  match e with
  | ENext c r => CNext (c_address c) (c_force c) r
  | EPost b r => CPost b r
  end.

Definition entry_next (e : entry) : option wrapper_call :=
  match e with ENext c _ => Some c | EPost _ _ => None end.

Definition entry_answer (e : entry)
    : option (wrapper_call * res HighLoadQueryIdWrapperError HighLoadQueryId.t) :=
  match e with ENext c r => Some (c, r) | EPost _ _ => None end.

(** The ids under which messages were posted for the wallet named [a]. *)
Fixpoint posted_ids (a : string) (tr : list call) : list Z :=
  match tr with
  | [] => []
  | CNext b _ (Ok q) :: (CPost _ _ :: _) as tr' =>
      if decide (b = a) then HighLoadQueryId.query_id q :: posted_ids a tr' else posted_ids a tr'
  | _ :: tr' => posted_ids a tr'
  end.

(** The messages posted for it: the times at which their ids were written, and
    the ids. *)
Fixpoint posted_messages (a : string) (es : list entry) : list (Z * Z) :=
  match es with
  | [] => []
  | ENext c (Ok q) :: (EPost _ _ :: _) as es' =>
      if decide (c_address c = a) then
        (c_put c, HighLoadQueryId.query_id q) :: posted_messages a es'
      else posted_messages a es'
  | _ :: es' => posted_messages a es'
  end.

Lemma posted_messages_ids a es : map snd (posted_messages a es) = posted_ids a (map call_of es).
Proof.
  induction es as [|[c [q|e|]|b r] es IH]; [done| |exact IH..].
  destruct es as [|[c' r'|b' r'] es]; [done|exact IH|].
  cbn [map call_of posted_ids posted_messages]. case_decide; [|exact IH].
  cbn [map snd]. by f_equal.
Qed.

Lemma posted_messages_handed a es : posted_messages a es ⊆ handed_out a (omap entry_answer es).
Proof.
  induction es as [|[c r|b r] es IH]; [done| |exact IH].
  assert (Hskip : posted_messages a es ⊆ handed_out a (omap entry_answer (ENext c r :: es))).
  { cbn [omap list_omap entry_answer]. unfold handed_out. cbn [omap list_omap].
    fold (handed_out a (omap entry_answer es)). case_decide; [|exact IH].
    destruct r; cbn [res_ok fmap option_fmap option_map]; [|exact IH..]. intros m Hm. right. by apply IH. }
  destruct r as [q|e|]; [|exact Hskip..].
  destruct es as [|[c' r'|b r'] es]; [exact Hskip..|].
  cbn [posted_messages]. case_decide as Ha; [|exact Hskip].
  intros m [->|Hm]%elem_of_cons; [|by apply Hskip].
  cbn [omap list_omap entry_answer]. unfold handed_out. cbn [omap list_omap].
  rewrite decide_True by done. by left.
Qed.

Lemma posted_ids_sublist a es :
  posted_ids a (map call_of es) `sublist_of` ids_of a (omap entry_answer es).
Proof.
  induction es as [|[c r|b r] es IH]; [constructor| |exact IH].
  assert (Hskip : posted_ids a (map call_of es) `sublist_of`
    ids_of a (omap entry_answer (ENext c r :: es))).
  { cbn [omap list_omap entry_answer]. unfold ids_of. cbn [omap list_omap]. fold (ids_of a).
    case_decide; [|exact IH]. destruct r; [|exact IH..]. by constructor. }
  destruct r as [q|e|]; [|exact Hskip..].
  destruct es as [|[c' r'|b r'] es]; [exact Hskip..|].
  cbn [map call_of posted_ids omap list_omap entry_answer]. unfold ids_of. cbn [omap list_omap].
  case_decide; [|exact IH]. by constructor.
Qed.

Lemma StronglySorted_sublist {A} (R : A -> A -> Prop) l k :
  l `sublist_of` k -> StronglySorted R k -> StronglySorted R l.
Proof.
  induction 1 as [|x l k Hs IH|x l k Hs IH]; intros Hk; [done| |];
    apply StronglySorted_inv in Hk as [Hk Hf]; [|by apply IH].
  constructor; [by apply IH|]. rewrite Forall_forall in Hf |- *.
  intros y Hy. apply Hf. by eapply elem_of_submseteq, sublist_submseteq.
Qed.

Section World.
Context {BU : BigUintLib} {TAL : TonAddressLib} {CL : CellLib} {CO : CodecLib} {WL : WalletLib}.
Context {JL : JsonLib} {CET : ClientErrorText}.
Context {R : Type} {RL : RedisLib R} {N : Type} {RCN : RestClient N}.
Context {E : Type} {EN : Environment E} {G : Type} {GE : GasEstimator G}.

Record world := {
  w_redis : R;
  w_ids : query_table;
  w_net : N;
  w_env : E;
  w_log : list entry;
}.

#[global] Instance world_locks : LockManager world := {|
  lock k w :=
    let '(b, r) := lock k (w_redis w) in
    (b, {| w_redis := r; w_ids := w_ids w; w_net := w_net w; w_env := w_env w; w_log := w_log w |});
  unlock k w :=
    {| w_redis := unlock k (w_redis w); w_ids := w_ids w; w_net := w_net w; w_env := w_env w;
       w_log := w_log w |};
|}.

#[global] Instance world_query_ids : HighLoadQueryIdWrapper world := fun a timeout force w =>
  let '(env, e) := draw (w_env w) in
  let c := {| c_fault := we_fault env; c_get := we_get env; c_put := we_put env;
              c_address := a; c_timeout := timeout; c_force := force |} in
  let '(r, ids) := run_call c (w_ids w) in
  (r, {| w_redis := w_redis w; w_ids := ids; w_net := w_net w; w_env := e;
         w_log := w_log w ++ [ENext c r] |}).

#[global] Instance world_time : TimeProvider world := fun w => wall_clock (w_env w).

(** The client's operations act on the network; a post is logged. *)
Definition on_net {A} (m : st N ClientError A) : st world ClientError A := fun w =>
  let '(r, n) := m (w_net w) in
  (r, {| w_redis := w_redis w; w_ids := w_ids w; w_net := n; w_env := w_env w; w_log := w_log w |}).

#[global] Instance world_client : RestClient world := {|
  post_v3_message b w :=
    let '(r, w') := on_net (post_v3_message b) w in
    (r, {| w_redis := w_redis w'; w_ids := w_ids w'; w_net := w_net w'; w_env := w_env w';
           w_log := w_log w' ++ [EPost b r] |});
  get_traces_for_account account ids lt := on_net (get_traces_for_account account ids lt);
  get_account_states l := on_net (get_account_states l);
|}.

Context (post_no_panic : forall b n, fst (post_v3_message (N:=N) b n) <> Panic).

#[global] Instance world_laws : CallLaws world.
Proof.
  apply (Build_CallLaws _ _ _ _ _ _ (fun w => map call_of (w_log w))).
  - intros k w. cbn. by destruct (redis_set_nx_ex _ _ _) as [[] ?].
  - done.
  - intros a t f w. unfold hq_next, world_query_ids. destruct (draw (w_env w)) as [env e].
    set (c := Build_wrapper_call _ _ _ _ _ _).
    pose proof (wrapper_next_no_panic (c_fault c) (c_get c) (c_put c) a t f (w_ids w)) as Hp.
    change (wrapper_next _ _ _ _ _ _ (w_ids w)) with (run_call c (w_ids w)) in Hp.
    destruct (run_call c (w_ids w)) as [r ids]. cbn [fst snd w_log] in *. by rewrite map_app.
  - intros b w. cbn [post_v3_message world_client]. unfold on_net.
    specialize (post_no_panic b (w_net w)).
    destruct (post_v3_message b (w_net w)) as [r n]. cbn [fst snd w_log] in *. by rewrite map_app.
Defined.

(** Each request leaves the log and the table of ids in step. *)
Definition in_step (w w' : world) : Prop :=
  exists es, w_log w' = w_log w ++ es /\
    run_calls (omap entry_next es) (w_ids w) = (omap entry_answer es, w_ids w').

Lemma in_step_refl w w' : w_log w' = w_log w -> w_ids w' = w_ids w -> in_step w w'.
Proof. intros H1 H2. exists []. cbn. by rewrite H1, H2, app_nil_r. Qed.

Lemma in_step_trans w1 w2 w3 : in_step w1 w2 -> in_step w2 w3 -> in_step w1 w3.
Proof.
  intros (es1 & H1 & R1) (es2 & H2 & R2). exists (es1 ++ es2).
  rewrite H2, H1, app_assoc. split; [done|]. rewrite !omap_app. by eapply run_calls_app.
Qed.

Lemma request_in_step l w w' : request l w w' -> in_step w w'.
Proof.
  intros [a t f w1|b w1|k w1 _|k w1 _].
  - unfold hq_next, world_query_ids. destruct (draw (w_env w1)) as [env e].
    destruct (run_call _ (w_ids w1)) as [r ids] eqn:Er.
    eexists [ENext _ r]. split; [done|]. cbn [omap list_omap entry_next entry_answer run_calls snd w_ids].
    by rewrite Er.
  - cbn [post_v3_message world_client]. unfold on_net.
    destruct (post_v3_message b (w_net w1)) as [r n]. by exists [EPost b r].
  - apply in_step_refl; cbn; by destruct (redis_set_nx_ex _ _ _) as [[] ?].
  - by apply in_step_refl.
Qed.

Lemma requests_in_step l w w' : rtc (request l) w w' -> in_step w w'.
Proof.
  induction 1 as [w|w1 w2 w3 H _ IH]; [by apply in_step_refl|].
  eapply in_step_trans; [by eapply request_in_step|done].
Qed.

(** ** The tasks of an includer *)

Context (self : TONBroadcaster (G:=G)).

Inductive task : Type :=
| TProver (tx_blob : string)
| TExecute (message : ExecuteTaskFields)
| TRefund (refund_task : RefundTaskFields).

Definition run_task (w : world) (t : task) : world :=
  match t with
  | TProver tx_blob => snd (broadcast_prover_message self tx_blob w)
  | TExecute message => snd (broadcast_execute_message self message w)
  | TRefund refund_task => snd (broadcast_refund_message self refund_task w)
  end.

(** One task after the other, whatever they return. *)
Definition run_tasks (tasks : list task) (w : world) : world := foldl run_task w tasks.

Lemma run_tasks_in_step tasks w : in_step w (run_tasks tasks w).
Proof.
  revert w. induction tasks as [|t tasks IH]; intros w; [by apply in_step_refl|].
  eapply in_step_trans; [|apply IH]. apply (requests_in_step true).
  destruct t; cbn [run_task]; apply moves.
Qed.

(** [b] is a message of a wallet of the manager, and carries [q]. *)
Definition wallet_post (a : string) (q : HighLoadQueryId.t) (b : string) : Prop :=
  exists wallet action, managed self wallet /\ a = wallet_name wallet /\
    posted_by self wallet action q b.
End World.

Section Replay.
Context {BU : BigUintLib} {TAL : TonAddressLib} {CL : CellLib} {CO : CodecLib} {WL : WalletLib}.
Context {JL : JsonLib} {CET : ClientErrorText}.
Context {CV : CellView} {BUL : BigUintLaws} {CPL : CellParserLaws} {CBL : CellBuilderLaws}.
Context {COL : CodecLaws}.
Context {R : Type} {RL : RedisLib R} {N : Type} {RCN : RestClient N}.
Context {E : Type} {EN : Environment E} {G : Type} {GE : GasEstimator G}.
Context (post_no_panic : forall b n, fst (post_v3_message (N:=N) b n) <> Panic).
Context (self : TONBroadcaster (G:=G)).

#[local] Instance world_call_laws : CallLaws (world (R:=R) (N:=N) (E:=E)) := world_laws post_no_panic.

Lemma run_task_paired t w :
  exists tr, calls (run_task self w t) = calls w ++ tr /\ paired (wallet_post self) tr.
Proof.
  destruct t as [tx_blob|message|refund_task]; cbn [run_task].
  - destruct (prover_posts self tx_blob w) as (tr & Hc & Hp). exists tr. split; [done|].
    eapply paired_impl; [|exact Hp]. intros a q b (? & wallet & action & _ & _ & _ & H). by exists wallet, action.
  - destruct (execute_posts self message w) as (tr & Hc & Hp). exists tr. split; [done|].
    eapply paired_impl; [|exact Hp].
    intros a q b (? & ? & wallet & ? & ? & action & _ & _ & _ & _ & _ & _ & H). by exists wallet, action.
  - destruct (refund_posts self refund_task w) as (tr & Hc & Hp). exists tr. split; [done|].
    eapply paired_impl; [|exact Hp].
    intros a q b (? & ? & ? & ? & ? & ? & wallet & action & _ & _ & _ & _ & _ & _ & _ & _ & _ & H).
    by exists wallet, action.
Qed.

Lemma run_tasks_paired tasks w :
  exists tr, calls (run_tasks self tasks w) = calls w ++ tr /\ paired (wallet_post self) tr.
Proof.
  revert w. induction tasks as [|t tasks IH]; intros w.
  { exists []. rewrite app_nil_r. split; [done|constructor]. }
  destruct (run_task_paired t w) as (tr1 & Hc1 & Hp1).
  destruct (IH (run_task self w t)) as (tr2 & Hc2 & Hp2).
  exists (tr1 ++ tr2). rewrite app_assoc, <- Hc1. split; [done|by apply paired_app].
Qed.

(** What a run of tasks adds to the log: posts of wallets of the manager, each
    under the id of the call before it, and the calls as the wrapper's run. *)
Lemma run_tasks_log tasks w es :
  w_log (run_tasks self tasks w) = w_log w ++ es ->
  paired (wallet_post self) (map call_of es) /\
  run_calls (omap entry_next es) (w_ids w) =
    (omap entry_answer es, w_ids (run_tasks self tasks w)).
Proof.
  intros Hlog. split.
  - destruct (run_tasks_paired tasks w) as (tr & Hc & Hp).
    change (map call_of (w_log (run_tasks self tasks w)) = map call_of (w_log w) ++ tr) in Hc.
    rewrite Hlog, map_app in Hc. by apply app_inv_head in Hc as ->.
  - destruct (run_tasks_in_step self tasks w) as (es' & Hlog' & Hrun).
    rewrite Hlog in Hlog'. by apply app_inv_head in Hlog' as <-.
Qed.

(** C7. Replay safety of the includer: over any sequence of tasks, with any
    failures of Redis, the database and the network, every post is a message of
    a wallet of the manager under the query id handed out right before it, and
    as long as the row of a wallet lives the ids under which messages are
    posted for it strictly increase: none is posted twice. *)
Theorem posted_ids_increase tasks w es a row :
  w_log (run_tasks self tasks w) = w_log w ++ es ->
  table_valid (w_ids w) -> w_ids w !! a = Some row ->
  (forall c r, ENext c r ∈ es -> c_address c = a -> c_get c <= expires_at row) ->
  paired (wallet_post self) (map call_of es) /\
  StronglySorted Z.lt
    (HighLoadQueryId.query_id (row_id row) :: posted_ids a (map call_of es)).
Proof.
  intros Hlog Hv Hrow Hlive. destruct (run_tasks_log _ _ _ Hlog) as [Hp Hrun]. split; [done|].
  eapply StronglySorted_sublist; [apply sublist_skip, posted_ids_sublist|].
  eapply run_calls_increasing; [exact Hv|exact Hrow| |exact Hrun].
  apply Forall_forall. intros c Hc. apply list_elem_of_omap in Hc as ([c' r|b r] & Hin & He); [|done].
  injection He as ->. by apply (Hlive c r).
Qed.

(** C8. Exactly once: over any sequence of tasks, with any failures,
    the contract of a wallet executes each message that was posted for it when
    the message is first delivered, and refuses it every other time, however the
    network repeats and reorders the messages within the [delay] that the
    contract allows; if the ids of the wallet restart only long after its last
    message. *)
Theorem posts_executed_once timeout delay survives tasks w es a ds :
  w_log (run_tasks self tasks w) = w_log w ++ es ->
  table_valid (w_ids w) ->
  StronglySorted Z.le (map fst (handed_out a (omap entry_answer es))) ->
  restarts_late timeout delay (handed_out a (omap entry_answer es)) ->
  0 <= delay <= timeout ->
  StronglySorted Z.le (map fst ds) -> Forall (fun d => 0 <= fst d) ds ->
  Forall (fun d => snd d ∈ posted_messages a es /\ on_time delay d) ds ->
  paired (wallet_post self) (map call_of es) /\
  map snd (posted_messages a es) = posted_ids a (map call_of es) /\
  fst (receive_all timeout survives (map arrival ds) deployed) = first_only [] ds.
Proof.
  intros Hlog Hv Ht Hr Hd Hs Hge Hds. destruct (run_tasks_log _ _ _ Hlog) as [Hp Hrun].
  split; [done|]. split; [apply posted_messages_ids|].
  eapply executed_once; [exact Hv|exact Hrun|done..|].
  eapply Forall_impl; [exact Hds|]. intros d [Hm Hot]. split; [by apply posted_messages_handed|done].
Qed.
End Replay.

(** ** The Redis lock keeps the laws of the broadcaster *)

(** A Redis that answers, and in which no key expires meanwhile: [SET NX EX]
    takes a key that is not there, [DEL] removes it. *)
Class SteadyRedis (R : Type) `{RedisLib R} := {
  rs_keys : R -> gset string;
  rs_set_taken k r r' : redis_set_nx_ex k 60 r = (inr true, r') ->
    k ∉ rs_keys r /\ rs_keys r' = {[k]} ∪ rs_keys r;
  rs_set_refused k r b r' : redis_set_nx_ex k 60 r = (b, r') -> b <> inr true ->
    rs_keys r' = rs_keys r;
  rs_del k r : rs_keys (snd (redis_del k r)) = rs_keys r ∖ {[k]};
}.

(** The names whose lock is among the keys. *)
Definition locked_names (keys : gset string) : gset string :=
  list_to_set (omap (strip_prefix "wallet_lock_") (elements keys)).

Lemma elem_of_locked_names k keys : k ∈ locked_names keys <-> lock_key k ∈ keys.
Proof.
  unfold locked_names, lock_key. rewrite elem_of_list_to_set, list_elem_of_omap. split.
  - intros (s & Hs & ->%strip_prefix_Some). by apply elem_of_elements in Hs.
  - intros Hk. exists ("wallet_lock_" +:+ k). split; [by apply elem_of_elements|].
    by apply strip_prefix_Some.
Qed.

Lemma lock_key_inj k1 k2 : lock_key k1 = lock_key k2 -> k1 = k2.
Proof. unfold lock_key. intros H. by simplify_eq/=. Qed.

Lemma locked_names_add k keys : locked_names ({[lock_key k]} ∪ keys) = {[k]} ∪ locked_names keys.
Proof.
  apply set_eq. intros x. rewrite elem_of_locked_names, !elem_of_union, !elem_of_singleton,
    elem_of_locked_names. split; [intros [?%lock_key_inj|?]; auto|intros [->|?]; auto].
Qed.

Lemma locked_names_remove k keys : locked_names (keys ∖ {[lock_key k]}) = locked_names keys ∖ {[k]}.
Proof.
  apply set_eq. intros x. rewrite elem_of_locked_names, !elem_of_difference, !elem_of_singleton,
    elem_of_locked_names.
  split; (intros [H Hne]; split; [exact H|]); [by intros ->|by intros ?%lock_key_inj].
Qed.

Section SteadyLocks.
Context {BU : BigUintLib} {TAL : TonAddressLib} {CL : CellLib} {CO : CodecLib} {WL : WalletLib}.
Context {JL : JsonLib}.
Context {R : Type} {RL : RedisLib R} {SR : SteadyRedis R} {N : Type} {RCN : RestClient N}.
Context {E : Type} {EN : Environment E}.

(** In the composed world the Redis lock is the lock that [broadcast_releases]
    is about. *)
#[global] Instance world_lock_laws : LockLaws (world (R := R) (N := N) (E := E)).
Proof.
  apply (Build_LockLaws _ _ _ _ _ _ (fun w => locked_names (rs_keys (w_redis w)))).
  - intros k w w'. cbn [lock world_locks redis_lock_manager].
    destruct (redis_set_nx_ex (lock_key k) 60 (w_redis w)) as [[e|b] r] eqn:Hr; intros [= Hb <-].
    subst b. apply rs_set_taken in Hr as [Hn Hk]. cbn [w_redis].
    by rewrite elem_of_locked_names, Hk, locked_names_add.
  - intros k w w'. cbn [lock world_locks redis_lock_manager].
    destruct (redis_set_nx_ex (lock_key k) 60 (w_redis w)) as [b r] eqn:Hr; intros [= Hb <-].
    cbn [w_redis]. f_equal. eapply rs_set_refused; [exact Hr|]. by intros ->.
  - intros k w. cbn [unlock world_locks redis_lock_manager w_redis]. by rewrite rs_del, locked_names_remove.
  - intros a t f w. unfold hq_next, world_query_ids. destruct (draw (w_env w)) as [env e].
    by destruct (run_call _ (w_ids w)).
  - intros b w. cbn [post_v3_message world_client]. unfold on_net.
    by destruct (post_v3_message b (w_net w)).
Defined.
End SteadyLocks.

(** ** A run of two tasks *)

From S2P Require Import Instances BroadcastDemo Locks.

(** While its clock stands still, the Redis of the examples is steady. *)
#[export] Instance ref_steady : SteadyRedis (Z * gmap string Z).
Proof.
  apply (Build_SteadyRedis _ _ (fun r => dom (filter (fun kv => fst r < snd kv) (snd r))));
    cbn [redis_set_nx_ex redis_del ref_redis].
  - intros k [now m] r' H.
    assert (Hk : filter (fun kv => now < snd kv) m !! k = None /\ r' = (now, <[k := now + 60]> m)).
    { destruct (m !! k) as [t|] eqn:E; [case_decide as Hd; [done|]|]; injection H as <-;
        (split; [|done]); apply map_lookup_filter_None; [right|by left].
      intros t' Ht'. by simplify_eq. }
    destruct Hk as [Hk ->]. cbn [fst snd]. split; [by apply not_elem_of_dom|].
    rewrite map_filter_insert_True by (cbn; lia). apply dom_insert_L.
  - intros k [now m] b r' H Hb.
    destruct (m !! k); [case_decide|]; injection H as <- <-; done.
  - intros k [now m]. cbn [fst snd]. by rewrite map_filter_delete, dom_delete_L.
Defined.

(** Every request arrives at the given time; no query fails. *)
#[export] Instance steady_environment : Environment Z := {|
  draw t := ({| we_fault := no_fault; we_get := t; we_put := t |}, t);
  wall_clock t := t;
|}.

(** The network's answers, from a script. *)
#[export] Instance script_posts : RestClient (list (ClientError + V3MessageResponse)) := {|
  post_v3_message b l :=
    match l with
    | [] => (Err (ConnectionFailed "closed"), [])
    | inl e :: l => (Err e, l)
    | inr x :: l => (Ok x, l)
    end;
  get_traces_for_account _ _ _ := st_err (ConnectionFailed "closed");
  get_account_states _ := st_err (ConnectionFailed "closed");
|}.

Lemma script_no_panic b (n : list (ClientError + V3MessageResponse)) :
  fst (post_v3_message b n) <> Panic.
Proof. by destruct n as [|[]]. Qed.

Definition start_row : QueryIdRow :=
  {| row_shift := 0; row_bitnumber := 7; expires_at := 100; updated_at := None |}.

Definition start_world : world (R := Z * gmap string Z) (E := Z) := {|
  w_redis := (0, ∅);
  w_ids := {[wallet_name (ex_wallet 1) := start_row]};
  w_net := [inl (BadRequest "THROWIF 36"); inr {| message_hash := "h"; message_hash_norm := "h" |}];
  w_env := 50;
  w_log := [];
|}.

Definition two_tasks : world (R := Z * gmap string Z) (E := Z) :=
  run_tasks demo_broadcaster [TExecute demo_execute; TRefund demo_refund] start_world.

Lemma two_tasks_posted :
  posted_ids (wallet_name (ex_wallet 1)) (map call_of (w_log two_tasks)) = [8; 1033; 1034].
Proof. by vm_compute. Qed.

Lemma two_tasks_in_time c r : ENext c r ∈ w_log two_tasks -> c_get c <= 100.
Proof.
  intros Hin.
  assert (Hall : forallb (fun e => match e with ENext c _ => c_get c <=? 100 | _ => true end)
    (w_log two_tasks) = true) by (by vm_compute).
  rewrite forallb_forall in Hall. apply list_elem_of_In in Hin. apply Hall in Hin. lia.
Qed.

Lemma start_ids_valid : table_valid (w_ids start_world).
Proof. apply map_Forall_singleton. by vm_compute. Qed.

Lemma posted_ids_increase_witness :
  paired (wallet_post demo_broadcaster) (map call_of (w_log two_tasks)) /\
  StronglySorted Z.lt [7; 8; 1033; 1034].
Proof.
  rewrite <- two_tasks_posted.
  exact (posted_ids_increase script_no_panic demo_broadcaster
    [TExecute demo_execute; TRefund demo_refund] start_world (w_log two_tasks)
    (wallet_name (ex_wallet 1)) start_row eq_refl start_ids_valid
    (lookup_singleton_eq _ _) (fun c r Hin _ => two_tasks_in_time c r Hin)).
Defined.

Lemma two_tasks_messages :
  posted_messages (wallet_name (ex_wallet 1)) (w_log two_tasks) = [(50, 8); (50, 1033); (50, 1034)] /\
  handed_out (wallet_name (ex_wallet 1)) (omap entry_answer (w_log two_tasks)) =
    [(50, 8); (50, 1033); (50, 1034)].
Proof. by vm_compute. Qed.

Lemma posts_executed_once_witness :
  [true; true; false; true] = first_only [] [(1, (50, 8)); (2, (50, 1033)); (2, (50, 8)); (3, (50, 1034))].
Proof.
  rewrite <- (proj2 (proj2 (posts_executed_once script_no_panic demo_broadcaster 60 60 true
    [TExecute demo_execute; TRefund demo_refund] start_world (w_log two_tasks)
    (wallet_name (ex_wallet 1)) [(1, (50, 8)); (2, (50, 1033)); (2, (50, 8)); (3, (50, 1034))]
    eq_refl start_ids_valid
    ltac:(rewrite (proj2 two_tasks_messages); by repeat constructor)
    ltac:(rewrite (proj2 two_tasks_messages); by repeat constructor)
    ltac:(done) ltac:(by repeat constructor) ltac:(by repeat constructor)
    ltac:(rewrite (proj1 two_tasks_messages), !Forall_cons, Forall_nil; unfold on_time;
          cbn [fst snd]; rewrite !elem_of_cons; split_and!; auto; by vm_compute)))).
  by vm_compute.
Defined.
