(* ===== verification/Ingestor.v ===== *)
(** * The ingestor: [ingestor.rs], and the account checker: [check_accounts.rs]

    [TONIngestor] takes a trace from the queue, parses it into events and
    notes them on the trace's row.  [check_accounts] asks the client for the
    wallets' accounts and reports on each. *)

From Stdlib Require Import ZArith Lia Strings.Byte Strings.Ascii.
From stdpp Require Import base strings countable gmap list.
From S2P Require Import Prelude RustStd Foreign Types GmpTypes CellCodec Messages Gas Parsers TraceParser TraceStore Client.

(** [relayer_core::error::IngestorError], the constructor used here. *)
Inductive IngestorError : Set := IngestorGenericError (s : string).

(** [EventModel::from_event] of [relayer_core], by the fields read here. *)
Class EventModelLib := {
  EventModel : Type;
  EventModel_from_event : Event -> EventModel;
  em_event_id : EventModel -> string;
  em_message_id : EventModel -> option string;
  em_event_type : EventModel -> string;
}.

(** The traits [TraceParserTrait] and [UpdateEvents]. *)
Class TraceParserTrait {TAL : TonAddressLib} {JL : JsonLib} (TP : Type) :=
  trait_parse_trace : TP -> Trace -> res TransactionParsingError (list Event).

Class UpdateEvents (M : Type) :=
  trait_update_events : string -> list EventSummary -> st M ferr unit.

Section Ingestor.
Context {TAL : TonAddressLib} {JL : JsonLib} {EM : EventModelLib}.
Context {TP M : Type} {TPT : TraceParserTrait TP} {UE : UpdateEvents M}.

(** [serde_json::from_str::<Trace>]. *)
Context (json_Trace : string -> fres Trace).

Definition event_summary (model : EventModel) : EventSummary := {|
  es_event_id := em_event_id model;
  es_message_id := em_message_id model;
  es_event_type := em_event_type model;
|}.

Definition event_summaries (events : list Event) : list EventSummary :=
  map event_summary (map EventModel_from_event events).

(** [handle_transaction]; the state is the trace model. *)
Definition handle_transaction (trace_parser : TP) (trace : string)
    : st M IngestorError (list Event) :=
  let! trace := st_lift (match json_Trace trace with inr t => Ok t | inl _ => Panic end) in
  let! events := st_lift
    (map_err (fun e => IngestorGenericError (TransactionParsingError_to_string e))
       (trait_parse_trace trace_parser trace)) in
  let summaries := event_summaries events in
  do! (if bool_decide (summaries = []) then st_ret tt
       else st_map_err (fun e => IngestorGenericError (fe_display e))
              (trait_update_events (trace_id trace) summaries)) in
  st_ret events.

(** The handlers of the other tasks, whose types are [relayer_core]'s. *)
Context {VerifyTask ReactToWasmEventTask ConstructProofTask RetryTask : Type}.

Definition not_implemented : st M IngestorError unit :=
  st_err (IngestorGenericError "Still not implemented").

Definition handle_verify (_task : VerifyTask) : st M IngestorError unit := not_implemented.

Definition handle_wasm_event (_task : ReactToWasmEventTask) : st M IngestorError unit := not_implemented.

Definition handle_construct_proof (_task : ConstructProofTask) : st M IngestorError unit :=
  not_implemented.

Definition handle_retriable_task (_task : RetryTask) : st M IngestorError unit := not_implemented.

(** ** [check_accounts.rs] *)

Inductive AccountCheckStatus : Set :=
| Valid
| Inactive
| InsufficientBalance (balance required : Z)
| InvalidBalanceFormat.

Definition check_account_status (account : AccountState) (min_balance : Z) : AccountCheckStatus :=
  match u64_from_str (Types.balance account) with
  | Ok balance =>
      if bool_decide (status account <> "active") then Inactive
      else if decide (balance < min_balance) then InsufficientBalance balance min_balance
      else Valid
  | _ => InvalidBalanceFormat
  end.

Context {N : Type} {RC : RestClient N}.

(** One round of the loop of [check_accounts]: what is logged for each
    account, or the client's error. *)
Definition check_round (addresses : list TonAddress) (min_balance : Z)
    : st N ClientError (list (TonAddress * AccountCheckStatus)) :=
  let! accounts := get_account_states addresses in
  st_ret (map (fun a => (as_address a, check_account_status a min_balance)) accounts).

(** The loop: one round, or as many as it is given when [forever]; the log. *)
Fixpoint check_accounts (rounds : nat) (addresses : list TonAddress) (min_balance : Z)
    (forever : bool) (n : N)
    : list (res ClientError (list (TonAddress * AccountCheckStatus))) * N :=
  match rounds with
  | O => ([], n)
  | S rounds' =>
      let '(r, n) := check_round addresses min_balance n in
      if forever then
        let '(log, n) := check_accounts rounds' addresses min_balance forever n in (r :: log, n)
      else ([r], n)
  end.

(** An account is reported valid exactly when it is active and its
    balance is a [u64] of at least the minimum; a shortfall is reported with
    the balance itself and only for an active account. *)
Lemma account_valid_iff account min_balance :
  (check_account_status account min_balance = Valid <->
   exists b, u64_from_str (Types.balance account) = Ok b /\ status account = "active" /\
     min_balance <= b) /\
  (forall b r, check_account_status account min_balance = InsufficientBalance b r <->
   u64_from_str (Types.balance account) = Ok b /\ status account = "active" /\
     b < min_balance /\ r = min_balance).
Proof.
  unfold check_account_status.
  destruct (u64_from_str (Types.balance account)) as [b|e|]; [|naive_solver..].
  case_bool_decide as Hs; [naive_solver|]. case_decide as Hb.
  - split; [split; [done|]|]; [|naive_solver].
    intros (b' & [= <-] & _ & ?). lia.
  - split; [naive_solver lia|]. intros b' r. split; [done|]. intros ([= <-] & _ & ? & _). lia.
Qed.
End Ingestor.

(** ** The ingestor over the Postgres model and the trace parser *)

#[export] Instance trace_parser_trait {BU : BigUintLib} {TAL : TonAddressLib} {CL : CellLib}
    {CO : CodecLib} {JL : JsonLib} {PL : PriceLib} (now : string) : TraceParserTrait TraceParser :=
  parse_trace now.

Section Recording.
Context {TAL : TonAddressLib} {JL : JsonLib} {EM : EventModelLib}.
Context {TP : Type} {TPT : TraceParserTrait TP}.
Context (json_Trace : string -> fres Trace) (fault : trace_op -> option ferr) (now : Z).

#[local] Instance pg_update_events : UpdateEvents trace_table := update_events fault now.

(** C17. Ingesting a trace: what is returned are the events of the parser,
    and when there are any the row of the trace, if it has one, holds the
    summaries of exactly these events in this order, whatever it held before;
    no other row changes.  On an error nothing changes at all. *)
Theorem handle_transaction_records parser text (tbl tbl' : gmap string TONTrace) r :
  handle_transaction json_Trace parser text tbl = (r, tbl') -> r <> Panic ->
  exists trace, json_Trace text = inr trace /\
  match r with
  | Ok events =>
      trait_parse_trace parser trace = Ok events /\
      (forall i, i <> trace_id trace -> tbl' !! i = tbl !! i) /\
      (is_Some (tbl' !! trace_id trace) <-> is_Some (tbl !! trace_id trace)) /\
      (forall row row', tbl !! trace_id trace = Some row -> tbl' !! trace_id trace = Some row' ->
         content_of row' = content_of row /\
         tt_events row' = match events with [] => tt_events row
                          | _ => Some (event_summaries events) end)
  | _ => tbl' = tbl
  end.
Proof.
  unfold handle_transaction. rewrite st_bind_run. unfold st_lift.
  destruct (json_Trace text) as [e|trace]; [by intros [= <- <-] ?|]. intros H Hr.
  exists trace. split; [done|]. revert H. rewrite st_bind_run.
  destruct (trait_parse_trace parser trace) as [events|e|]; cbn [map_err];
    [|by intros [= <- <-]|by intros [= <- <-]]. cbv zeta. rewrite st_bind_run.
  destruct events as [|e events].
  { intros [= <- <-]. split_and!; [done..|]. intros row row' H1 H2. by simplify_eq. }
  rewrite bool_decide_eq_false_2 by done. rewrite st_map_err_run.
  change (trait_update_events (trace_id trace) (event_summaries (e :: events)))
    with (update_events fault now (trace_id trace) (event_summaries (e :: events))).
  unfold update_events, pg_query, pg_update.
  destruct (fault _) as [err|]; cbn [map_err]; intros [= <- <-]; [done|]. split; [done|].
  split; [|split].
  - intros i Hi. by apply lookup_alter_ne.
  - rewrite lookup_alter_eq. by rewrite fmap_is_Some.
  - intros row row' Hrow. rewrite lookup_alter_eq, Hrow. by intros [= <-].
Qed.
End Recording.

(** ** An application at a concrete input *)

From S2P Require Import Instances TraceProofs.

#[export] Instance ref_event_model : EventModelLib := {|
  EventModel := Event;
  EventModel_from_event e := e;
  em_event_id e := fst (ev_summary e);
  em_message_id e := Some (snd (ev_summary e));
  em_event_type e := "event";
|}.

Definition ex_json (_ : string) : fres Trace := inr ex_two.

Definition ex_traces : trace_table := {["trace" := TONTrace_from 5 ex_two]}.

Definition ex_ingest : res IngestorError (list Event) * trace_table :=
  handle_transaction (UE := pg_update_events (fun _ => None) 9)
    (TPT := trace_parser_trait "now") ex_json ex_parser "{}" ex_traces.

Lemma ex_ingest_ok : fst ex_ingest = Ok (ex_events ex_two).
Proof.
  unfold ex_ingest, handle_transaction. rewrite st_bind_run. unfold st_lift at 1, ex_json.
  rewrite st_bind_run. unfold st_lift, trait_parse_trace, trace_parser_trait. rewrite ex_two_ok.
  cbn [map_err]. cbv zeta. rewrite st_bind_run. by case_bool_decide.
Qed.

Lemma handle_transaction_records_witness :
  exists trace, ex_json "{}" = inr trace /\
  match fst ex_ingest with
  | Ok events =>
      trait_parse_trace (TraceParserTrait := trace_parser_trait "now") ex_parser trace = Ok events /\
      (forall i, i <> trace_id trace -> (snd ex_ingest : gmap string TONTrace) !! i =
         (ex_traces : gmap string TONTrace) !! i) /\
      (is_Some ((snd ex_ingest : gmap string TONTrace) !! trace_id trace) <->
       is_Some ((ex_traces : gmap string TONTrace) !! trace_id trace)) /\
      (forall row row', (ex_traces : gmap string TONTrace) !! trace_id trace = Some row ->
         (snd ex_ingest : gmap string TONTrace) !! trace_id trace = Some row' ->
         content_of row' = content_of row /\
         tt_events row' = match events with [] => tt_events row
                          | _ => Some (event_summaries events) end)
  | _ => snd ex_ingest = ex_traces
  end.
Proof.
  exact (handle_transaction_records (TPT := trace_parser_trait "now") ex_json (fun _ => None) 9
    ex_parser "{}" ex_traces (snd ex_ingest) (fst ex_ingest) (surjective_pairing ex_ingest)
    ltac:(rewrite ex_ingest_ok; discriminate)).
Defined.
