(* ===== verification/UnitTests.v ===== *)
(** * The unit tests of the stateful parts

    The unit tests of the query ids, the gas estimator, the wallets and their
    locks, the table of traces, the subscribers, the client, the ingestor, the
    account checker and the broadcaster, each as an executable definition over
    the models.  A mock becomes an instance of the class of its trait, a
    container the model of its service.  Left out are the tests whose outcome
    is the HTTP transport's (retries, timeouts), and one without assertions. *)

From Stdlib Require Import ZArith Lia Strings.Byte Strings.Ascii.
From stdpp Require Import base strings countable gmap list.
From S2P Require Import Prelude RustStd Foreign Types GmpTypes CellCodec Messages QueryId QueryIdStore TraceStore Client Subscriber Gas Wallet Locks Broadcaster Ingestor TonFormat RecordedTraces TestKit.
Import TonFormat RecordedTraces.
#[local] Open Scope test_scope.

(** [matches!(result, Err(e) if p(e))]. *)
Definition err_and {E A} (m : res E A) (p : E -> bool) : bool :=
  match m with Err e => p e | _ => false end.

(** ** [high_load_query_id.rs] *)

Module QueryIdTests.
Import HighLoadQueryId.

#[local] Instance HighLoadQueryIdError_eq_dec : EqDecision HighLoadQueryIdError.
Proof. solve_decision. Defined.

Definition query_id_test_new_valid : bool :=
  ok_and (from_shift_and_bitnumber 100 500) (fun id => (shift id =! 100) && (bitnumber id =! 500)).

Definition query_id_test_new_invalid_shift : bool :=
  err_and (from_shift_and_bitnumber (MAX_SHIFT + 1) 0) (fun e => e =! InvalidShift MAX_SHIFT).

Definition query_id_test_new_invalid_bitnumber : bool :=
  err_and (from_shift_and_bitnumber 0 (MAX_BITNUMBER + 1)) (fun e => e =! InvalidBitnumber MAX_BITNUMBER).

Definition query_id_test_next_normal : bool :=
  ok_and (from_shift_and_bitnumber 5 1000) (fun id =>
  ok_and (next id) (fun next => (shift next =! 5) && (bitnumber next =! 1001))).

Definition query_id_test_next_rollover_bitnumber : bool :=
  ok_and (from_shift_and_bitnumber 10 MAX_BITNUMBER) (fun id =>
  ok_and (next id) (fun next => (shift next =! 11) && (bitnumber next =! 0))).

Definition query_id_test_next_emergency_overload : bool :=
  ok_and (from_shift_and_bitnumber MAX_SHIFT (MAX_BITNUMBER - 2)) (fun id =>
  err_and (next id) (fun e => e =! EmergencyOverload)).

Definition query_id_test_next_shift_overflow : bool :=
  ok_and (from_shift_and_bitnumber MAX_SHIFT MAX_BITNUMBER) (fun id =>
  err_and (next id) (fun e => e =! ShiftOverflow)).

Definition query_id_test_has_next_true : bool :=
  ok_and (from_shift_and_bitnumber (MAX_SHIFT - 1) MAX_BITNUMBER) (fun id => has_next id).

Definition query_id_test_has_next_false : bool :=
  ok_and (from_shift_and_bitnumber MAX_SHIFT (MAX_BITNUMBER - 1)) (fun id => negb (has_next id)).

Definition query_id_test_query_id : bool :=
  ok_and (from_shift_and_bitnumber 2 3) (fun id =>
  query_id id =! Z.shiftl 2 BITNUMBER_SIZE + 3).
End QueryIdTests.
Import QueryIdTests.

(** ** [high_load_query_id_db_wrapper.rs] *)

(** [wrapper.next(address, timeout, force)] at a time, in microseconds, with a
    query to read and one to write; the id it gives. *)
Definition next_id (t : Z) (address : string) (timeout : Z) (force : bool)
    : st query_table HighLoadQueryIdWrapperError Z :=
  let! id := wrapper_next no_fault t (t + 1) address timeout force in
  st_ret (HighLoadQueryId.query_id id).

Definition db_wrapper_test_next : bool :=
  ok_and (st_eval (
    let! query_id_a := next_id 1000 "wallet1" 60 false in
    let! query_id_b := next_id 2000 "wallet2" 60 false in
    let! query_id_c := next_id 3000 "wallet1" 60 false in
    let! query_id_d := next_id 4000 "wallet3" 0 false in
    let! query_id_e := next_id 5000 "wallet3" 60 false in
    let! query_id_f := next_id 6000 "wallet3" 60 false in
    let! query_id_g := next_id 7000 "wallet3" 60 true in
    let! query_id_h := next_id 8000 "wallet3" 60 false in
    st_ret [query_id_a; query_id_b; query_id_c; query_id_d; query_id_e; query_id_f; query_id_g; query_id_h])
    (∅ : gmap string QueryIdRow))
  (fun ids => ids =! [0; 0; 1; 0; 0; 1; 1026; 1027]).

(** ** [gas_estimator.rs] *)

Definition estimator (refund refund_slippage send_min base payload slippage approve wallet its : Z)
    : TONGasEstimator :=
  TONGasEstimator_new {|
    native_gas_refund := refund; native_gas_refund_storage_slippage := refund_slippage;
    execute_send_min := send_min; execute_base := base; execute_payload := payload;
    execute_storage_slippage := slippage; cfg_approve_send := approve;
    cfg_highload_wallet_send := wallet; its_execute_minimum := its |}.

Definition gas_estimator_test_native_gas_refund_estimate : bool :=
  native_gas_refund_estimate (estimator 100 20 1 0 0 1 500000000 1 0) =! 120.

Definition gas_estimator_test_execute_estimate : bool :=
  let e := estimator 1 1 310000000 40000000 21000 0 500000000 1 100 in
  (execute_estimate e 3842 =! 120682000) && (execute_estimate e 8000 =! 208000000).

Definition gas_estimator_test_estimate_approve_messages : bool :=
  approve_send (estimator 1 1 1 0 0 1 500000000 1 0) 3 =! 500000000.

Definition gas_estimator_test_highload_wallet_send : bool :=
  highload_wallet_send (estimator 1 1 1 0 0 1 500000000 42 0) 3 =! 126.

Definition gas_estimator_test_zero_values : bool :=
  let e := estimator 0 0 0 0 0 0 0 0 0 in
  (native_gas_refund_estimate e =! 0) && (execute_estimate e 0 =! 0) &&
  (approve_send e 5 =! 0) && (highload_wallet_send e 5 =! 0).

Definition gas_estimator_test_execute_send : bool :=
  let e := estimator 0 0 100000 50000 1000 0 500000000 0 0 in
  (execute_send e 10 =! 100000) && (execute_send e 200 =! 250000).

(** ** [wallet_manager.rs] *)

(** [MockLockManager]: the set of the keys that are locked. *)
#[export] Instance MockLockManager : LockManager (gset string) := {|
  lock key locked := if decide (key ∈ locked) then (false, locked) else (true, {[key]} ∪ locked);
  unlock key locked := locked ∖ {[key]};
|}.

Definition load_wallets : res ferr WalletManager :=
  WalletManager_new (map (fun '(id, timeout, address) => {|
      wc_public_key := "0fff";
      wc_secret_key := "ffffffffffffffffffffffffffffffffffffffffffffffffffffffffffffffffffffffffffffffffffffffffffffffffffffffffffffffffffffffffffffffff";
      wc_subwallet_id := id; wc_timeout := timeout; wc_address := address |})
    [(1, 30, "EQAAAAAAAAAAAAAAAAAAAAAAAAAAAAAAAAAAAAAAAAAAAM9c");
     (2, 60, "EQAAAAAAAAAAAAAAAAAAAAAAAAAAAAAAAAAAAAAAAAAADz6z");
     (3, 90, "EQAAAAAAAAAAAAAAAAAAAAAAAAAAAAAAAAAAAAAAAAAA_9Gs")]).

Definition wallet_manager_test_load_wallets : bool :=
  ok_and load_wallets (fun m => length (map_to_list (wallets m)) =! 3%nat).

Definition wallet_manager_test_acquire_wallet : bool :=
  ok_and load_wallets (fun m =>
  let acquire := acquire (W := gset string) m in
  let release w locked := release (W := gset string) m w locked in
  then_ acquire ∅ (fun w1 s =>
  then_ acquire (release w1 s) (fun w2 s =>
  then_ acquire s (fun w3 s =>
  then_ acquire s (fun _ s =>
  then_ acquire (release w2 s) (fun _ s =>
  match acquire s with
  | (Err NoAvailableWallet, s) => then_ acquire (release w3 s) (fun _ _ => true)
  | _ => false
  end)))))).

(** ** [lock_manager.rs] *)

(** A Redis in a container that can be stopped. *)
#[local] Instance container_redis : RedisLib (option (Z * gmap string Z)) := {|
  redis_set_nx_ex k s r :=
    match r with
    | Some r => let '(x, r') := redis_set_nx_ex k s r in (x, Some r')
    | None => (inl (Instances.ferr0 "connection refused"), None)
    end;
  redis_del k r :=
    match r with
    | Some r => let '(x, r') := redis_del k r in (x, Some r')
    | None => (inl (Instances.ferr0 "connection refused"), None)
    end;
|}.

Definition lock_manager_test_lock : bool :=
  let lock k (r : option (Z * gmap string Z)) := lock k r in
  let '(first, r) := lock "wallet1" (Some (0, ∅)) in
  let '(different, r) := lock "wallet2" r in
  let '(second, r) := lock "wallet1" r in
  let r := unlock "wallet1" r in
  let '(different_f, r) := lock "wallet2" r in
  let '(third, r) := lock "wallet1" r in
  let '(locked, r) := lock "test_key" None in
  first && different && negb second && negb different_f && third && negb locked &&
  match unlock "test_key" r with None => true | Some _ => false end.

(** ** [models/ton_trace.rs] *)

Definition no_query_fault (op : trace_op) : option ferr := None.

Definition test_row (txs : list Transaction) (incomplete : bool) (updated_at : option Z) : TONTrace := {|
  tt_trace_id := "123"; tt_is_incomplete := incomplete; tt_start_lt := 123; tt_end_lt := 321;
  tt_retries := 5; tt_transactions := txs; tt_events := None; tt_created_at := 1000;
  tt_updated_at := updated_at |}.

(** The asserts on a stored or returned row. *)
Definition is_test_row (txs : list Transaction) (row : TONTrace) : bool :=
  (tt_trace_id row =! "123") &&
  match tt_transactions row with tx :: _ => hash tx =! "aa1" | [] => false end &&
  (length (tt_transactions row) =! length txs) &&
  (tt_start_lt row =! 123) && (tt_end_lt row =! 321) && negb (tt_is_incomplete row).

Definition ton_trace_test_crud : bool :=
  with_trace 0 (fun t =>
  let txs := transactions t in
  let upsert now := pg_upsert no_query_fault now in
  let find := model_find no_query_fault "123" in
  then_ (upsert 1 (test_row txs false (Some 1000))) ∅ (fun ret s => some_and ret (fun ret =>
  then_ find s (fun saved s => some_and saved (fun saved =>
  is_test_row txs saved && is_test_row txs ret &&
  then_ (upsert 2 (test_row txs false (Some 1000))) s (fun ret s =>
  match ret with None => true | Some _ => false end &&
  then_ (upsert 3 (test_row txs true (Some 1000))) s (fun ret s =>
  some_and ret tt_is_incomplete &&
  then_ (model_delete no_query_fault (test_row txs true (Some 1000))) s (fun _ s =>
  then_ find s (fun saved _ => match saved with None => true | Some _ => false end))))))))).

Definition ton_trace_test_update_events : bool :=
  with_trace 0 (fun t =>
  let events := [
    {| es_event_id := "event1"; es_message_id := Some "message1"; es_event_type := "GAS_REFUNDED" |};
    {| es_event_id := "event2"; es_message_id := Some "message2";
       es_event_type := "CANNOT_EXECUTE_MESSAGE_V2" |}] in
  then_ (model_upsert no_query_fault 1 (test_row (transactions t) false None)) ∅ (fun _ s =>
  then_ (update_events no_query_fault 2 "123" events) s (fun _ s =>
  then_ (model_find no_query_fault "123") s (fun updated_trace _ => some_and updated_trace (fun row =>
  some_and (tt_events row) (fun l =>
    match l with
    | [e1; e2] =>
        (es_event_id e1 =! "event1") && (es_message_id e1 =! Some "message1") &&
        (es_event_type e1 =! "GAS_REFUNDED") &&
        (es_event_id e2 =! "event2") && (es_message_id e2 =! Some "message2") &&
        (es_event_type e2 =! "CANNOT_EXECUTE_MESSAGE_V2")
    | _ => false
    end) &&
  match tt_updated_at row with Some _ => true | None => false end))))).

(** ** [subscriber.rs] and [retry_subscriber.rs] *)

(** [MockDatabase]: the height it answers, and the arguments it expects, if
    any. *)
#[local] Instance MockDatabase : Database (option (string * string) * option Z) := {|
  get_latest_height chain ctx d :=
    match fst d with
    | Some (chain', ctx') =>
        if decide (chain = chain' /\ ctx = ctx') then inr (snd d)
        else inl (Instances.ferr0 "no matching expectation")
    | None => inr (snd d)
    end;
  store_latest_height chain ctx h d := (inr tt, d);
|}.

(** [MockRestClient]: the traces and the accounts it answers. *)
#[local] Instance MockRestClient : RestClient (list Trace * list AccountState) := {|
  post_v3_message boc := st_lift Panic;
  get_traces_for_account account ids start_lt := fun n => (Ok (fst n), n);
  get_account_states addresses := fun n => (Ok (snd n), n);
|}.

(** [MockAtomicUpsert]: the trace that was seen before. *)
#[local] Instance MockAtomicUpsert : AtomicUpsert (option string) := {|
  upsert_and_return_if_changed now trace := fun seen =>
    (Ok (if decide (seen = Some (tt_trace_id trace)) then None else Some trace), seen);
  stored seen i := None;
|}.

Definition test_subscriber (db : option (string * string) * option Z) (traces : list Trace)
    (seen : option string) :=
  TONSubscriber_new (traces, [] : list AccountState) db "test-context" "test-chain" seen.

Definition subscriber_test_subscriber_no_init_height : bool :=
  ok_and (test_subscriber (Some ("test-chain", "test-context"), None) [] None) (fun subscriber =>
    latest_lt subscriber =! (-1)).

Definition subscriber_test_subscriber_with_init_height : bool :=
  ok_and (test_subscriber (Some ("test-chain", "test-context"), Some 12345) [] None) (fun subscriber =>
    latest_lt subscriber =! 12345).

Definition sample_trace (id : string) (start_lt end_lt : Z) : Trace := {|
  trace_id := id; is_incomplete := false; start_lt := start_lt; end_lt := end_lt;
  transactions := [] |}.

Definition subscriber_test_poll_account_trace_seen : bool :=
  let traces := [sample_trace "trace_1" 1 2; sample_trace "trace_2" 3 4; sample_trace "trace_3" 3 4] in
  ok_and (test_subscriber (None, Some 0) traces (Some "trace_2")) (fun subscriber =>
  got (TonAddress_from_base64_url "EQAAAAAAAAAAAAAAAAAAAAAAAAAAAAAAAAAAAAAAAAAAAM9c") (fun address =>
  then_ (poll_account 1000 address) subscriber (fun result _ =>
    (length result =! 2%nat) &&
    existsb (fun t => trace_id t =! "trace_1") result &&
    existsb (fun t => trace_id t =! "trace_3") result))).

Definition subscriber_test_transaction_id : bool :=
  transaction_id (sample_trace "test-trace-id" 1 2) =! Some "test-trace-id".

Definition subscriber_test_account_id : bool :=
  got (TonAddress_from_base64_url "EQAAAAAAAAAAAAAAAAAAAAAAAAAAAAAAAAAAAAAAAAAAAM9c") (fun address =>
  account_id address =! Some (TonAddress_to_hex address)).

Definition retry_subscriber_test_transaction_id : bool :=
  retry_transaction_id (sample_trace "test-trace-id" 1 2) =! Some "test-trace-id".

Definition retry_subscriber_test_account_id : bool :=
  got (TonAddress_from_base64_url "EQAAAAAAAAAAAAAAAAAAAAAAAAAAAAAAAAAAAAAAAAAAAM9c") (fun address =>
  retry_account_id address =! Some (TonAddress_to_hex address)).

(** ** [client.rs] *)

(** [MockServer]: a response for the requests it expects.  The texts of the
    JSON bodies are known to the readers of [serde_json]. *)
Definition json_hashes : string := "{message_hash: abc123, message_hash_norm: ABC123}".
Definition json_bad : string := "{code: 400, error: Invalid BOC format}".
Definition json_traces : string := "tests/data/v3_traces.json".
Definition json_accounts : string := "{accounts: [..]}".

Definition account_hex : string :=
  "0:294D72EC421B930C60854F413478C162FDCEEC65746084EBACE25227182979A2".

Definition respond (status : Z) (text : string) : fres Response :=
  inr {| r_status := status; r_text := inr text; r_bytes := inr (as_bytes text) |}.

#[local] Instance MockServer : HttpLib (string -> list (string * string) -> fres Response) := {|
  http_post url key boc when := (when url [("boc", boc)], when);
  http_get url key query when := (when url query, when);
  StatusCode_to_string := z_to_string;
  json_V3MessageResponse text :=
    if decide (text = json_hashes)
    then inr {| message_hash := "abc123"; message_hash_norm := "ABC123" |}
    else inl (Instances.ferr0 "expected value");
  json_V3ErrorResponse text :=
    if decide (text = json_bad) then inr {| v3_code := 400; v3_error := "Invalid BOC format" |}
    else inl (Instances.ferr0 "expected value");
  json_TracesResponseRest text :=
    if decide (text = json_traces) then inr rest_traces else inl (Instances.ferr0 "expected value");
  json_AccountStatesResponse text :=
    if decide (text = json_accounts) then
      match TonAddress_from_str account_hex with
      | inr a => inr [{| as_address := a;
          account_state_hash := "FeIPUrTpygkiYmgmMtcKR7waymJgT0rBFmvUZdSfK2A=";
          balance := "327063115"; status := "active" |}]
      | inl e => inl e
      end
    else inl (Instances.ferr0 "expected value");
|}.

Definition base_url : string := "http://127.0.0.1:5000".

Definition not_found : fres Response := respond 404 "not found".

Definition client_test_post_v3_message : bool :=
  let when url query :=
    if decide (url = base_url +:+ "/api/v3/message" /\ query = [("boc", "test")])
    then respond 200 json_hashes else not_found in
  ok_and (st_eval (rpc_post_v3_message base_url "test" "test") when) (fun response =>
    (message_hash response =! "abc123") && (message_hash_norm response =! "ABC123")).

Definition client_test_post_v3_message_bad_request : bool :=
  let when url query :=
    if decide (url = base_url +:+ "/api/v3/message" /\ query = [("boc", "bad")])
    then respond 400 json_bad else not_found in
  match st_eval (rpc_post_v3_message base_url "test" "bad") when with
  | Err (BadRequest msg) => msg =! "Invalid BOC format"
  | _ => false
  end.

Definition aa_address : string :=
  "0:AAAAAAAAAAAAAAAAAAAAAAAAAAAAAAAAAAAAAAAAAAAAAAAAAAAAAAAAAAAAAAAA".

Definition client_test_get_traces_with_start_lt : bool :=
  let when url (query : list (string * string)) :=
    if decide (url = base_url +:+ "/api/v3/traces" /\
      ("account", "EQCqqqqqqqqqqqqqqqqqqqqqqqqqqqqqqqqqqqqqqqqqqseb") ∈ query /\
      ("start_lt", "2") ∈ query /\ ("limit", "100") ∈ query)
    then respond 200 json_traces else not_found in
  got (TonAddress_from_str aa_address) (fun a =>
  ok_and (st_eval (rpc_get_traces_for_account base_url "test" (Some a) None (Some 1)) when) (fun traces =>
  (length traces =! 25%nat) &&
  match traces with
  | t :: _ =>
      let txs := transactions t in
      (length txs =! 6%nat) &&
      (take 5 (map hash txs) =! ["aa1"; "aa2"; "aa3"; "aa4"; "aa5"]) &&
      match txs with
      | tx0 :: _ =>
          (tx_now tx0 =! 1751291309) && (lt tx0 =! 36300947000011) &&
          match in_msg tx0 with Some _ => true | None => false end
      | [] => false
      end
  | [] => false
  end)).

Definition client_test_get_transactions_without_start_lt : bool :=
  let has key (query : list (string * string)) := existsb (fun kv => fst kv =! key) query in
  let when url query :=
    if decide (url = base_url +:+ "/api/v3/traces") then
      if has "account" query && negb (has "start_lt" query) && negb (has "offset" query) &&
         has "limit" query
      then respond 200 json_traces else not_found
    else not_found in
  got (TonAddress_from_str aa_address) (fun a =>
  ok_and (st_eval (rpc_get_traces_for_account base_url "test" (Some a) None None) when) (fun _ => true)).

Definition client_test_get_account_states : bool :=
  let when url (query : list (string * string)) :=
    if decide (url = base_url +:+ "/api/v3/accountStates") then respond 200 json_accounts else not_found in
  got (TonAddress_from_str account_hex) (fun a =>
  ok_and (st_eval (rpc_get_account_states base_url "test" [a]) when) (fun accounts =>
  match accounts with
  | [account] =>
      (as_address account =! a) && (Types.balance account =! "327063115") &&
      (status account =! "active")
  | _ => false
  end)).

(** ** [check_accounts.rs] *)

#[local] Instance AccountCheckStatus_eq_dec : EqDecision AccountCheckStatus.
Proof. solve_decision. Defined.

Definition make_account (address : TonAddress) (bal st : string) : AccountState := {|
  as_address := address; account_state_hash := "hash"; balance := bal; status := st |}.

Definition zero_address : string :=
  "0:0000000000000000000000000000000000000000000000000000000000000000".

Definition check_accounts_test_valid_account : bool :=
  got (TonAddress_from_str zero_address) (fun a =>
  check_account_status (make_account a "1000" "active") 500 =! Valid).

Definition check_accounts_test_inactive_account : bool :=
  got (TonAddress_from_str zero_address) (fun a =>
  check_account_status (make_account a "1000" "inactive") 500 =! Inactive).

Definition check_accounts_test_insufficient_balance : bool :=
  got (TonAddress_from_str zero_address) (fun a =>
  check_account_status (make_account a "100" "active") 500 =! InsufficientBalance 100 500).

Definition check_accounts_test_invalid_balance_format : bool :=
  got (TonAddress_from_str zero_address) (fun a =>
  check_account_status (make_account a "notanumber" "active") 500 =! InvalidBalanceFormat).

(** The log names the accounts by their text. *)
Definition check_accounts_test_check_accounts_integration_with_mock : bool :=
  got (TonAddress_from_str zero_address) (fun a0 =>
  got (TonAddress_from_str
    "0:00000000000000000000000000000000000000000000000000000000000000ff") (fun a1 =>
  got (TonAddress_from_str
    "0:000000000000000000000000000000000000000000000000000000000000ffff") (fun a2 =>
  let accounts := [make_account a0 "1000000" "active"; make_account a1 "50" "active";
                   make_account a2 "1000000" "inactive"] in
  match fst (check_accounts 1 [a0; a1; a2] 100 false (([] : list Trace), accounts)) with
  | [Ok log] =>
      map (fun '(a, s) => (TonAddress_to_string a, s)) log =! [
        ("EQAAAAAAAAAAAAAAAAAAAAAAAAAAAAAAAAAAAAAAAAAAAM9c", Valid);
        ("EQAAAAAAAAAAAAAAAAAAAAAAAAAAAAAAAAAAAAAAAAAA_9Gs", InsufficientBalance 50 100);
        ("EQAAAAAAAAAAAAAAAAAAAAAAAAAAAAAAAAAAAAAAAAD__9JT", Inactive)]
  | _ => false
  end))).

(** ** [ingestor.rs] *)

(** [MockTraceParserTrait] and [MockUpdateEvents]: the events to return, and
    the update that is expected. *)
#[local] Instance MockTraceParserTrait : TraceParserTrait (list Event) := fun events _ => Ok events.

#[local] Instance MockUpdateEvents : UpdateEvents (string * list EventSummary) :=
  fun id summaries expected =>
    (if bool_decide (id = fst expected) && (length summaries =? length (snd expected))%nat &&
        forallb (fun '(s, e) =>
          (es_event_id s =! es_event_id e) && (es_message_id s =! es_message_id e) &&
          (es_event_type s =! es_event_type e)) (combine summaries (snd expected))
     then Ok tt else Panic, expected).

(** [EventModel::from_event] on the two events of the test. *)
#[local] Instance test_event_model : EventModelLib := {|
  EventModel := string * option string * string;
  EventModel_from_event e :=
    match e with
    | GasRefunded common id _ _ _ => (event_id common, Some id, event_type common)
    | CannotExecuteMessageV2 common id _ _ _ => (event_id common, Some id, event_type common)
    | _ => ("", None, "")
    end;
  em_event_id m := fst (fst m);
  em_message_id m := snd (fst m);
  em_event_type m := snd m;
|}.

Definition still_not_implemented {A} (m : st (string * list EventSummary) IngestorError A) : bool :=
  err_and (st_eval m ("", [])) (fun '(IngestorGenericError msg) => str_contains "Still not implemented" msg).

Definition ingestor_test_handle_retriable_task_unimplemented : bool :=
  still_not_implemented (handle_retriable_task tt).

Definition ingestor_test_handle_construct_proof_unimplemented : bool :=
  still_not_implemented (handle_construct_proof tt).

Definition ingestor_test_handle_wasm_event_unimplemented : bool :=
  still_not_implemented (handle_wasm_event tt).

Definition ingestor_test_handle_verify_unimplemented : bool :=
  still_not_implemented (handle_verify tt).

Definition test_meta (tx : string) : EventMetadata := {|
  tx_id := Some tx; from_address := None; finalized := Some true; source_context := None;
  timestamp := "2023-01-01T00:00:00Z" |}.

Definition test_event1 : Event := GasRefunded
  {| event_type := "GAS_REFUNDED"; event_id := "event1"; meta := Some (test_meta "tx1") |}
  "message1" "recipient1" {| token_id := None; amount := "100" |} {| token_id := None; amount := "50" |}.

Definition test_event2 : Event := CannotExecuteMessageV2
  {| event_type := "CANNOT_EXECUTE_MESSAGE_V2"; event_id := "event2"; meta := Some (test_meta "tx2") |}
  "message2" "source2" InsufficientGasReason "details2".

Definition ingestor_test_handle_transaction : bool :=
  let expected := ("trace1", [
    {| es_event_id := "event1"; es_message_id := Some "message1"; es_event_type := "GAS_REFUNDED" |};
    {| es_event_id := "event2"; es_message_id := Some "message2";
       es_event_type := "CANNOT_EXECUTE_MESSAGE_V2" |}]) in
  let trace := sample_trace "trace1" 100 200 in
  let json_Trace (text : string) : fres Trace := inr trace in
  ok_and (st_eval (handle_transaction json_Trace [test_event1; test_event2] "trace1") expected)
    (fun returned_events =>
  match returned_events with
  | [GasRefunded common1 message_id1 _ _ _; CannotExecuteMessageV2 common2 message_id2 _ _ _] =>
      (event_id common1 =! "event1") && (event_type common1 =! "GAS_REFUNDED") &&
      (message_id1 =! "message1") &&
      (event_id common2 =! "event2") && (event_type common2 =! "CANNOT_EXECUTE_MESSAGE_V2") &&
      (message_id2 =! "message2")
  | _ => false
  end).

(** ** All of them *)

Definition unit_tests : list bool := [
  query_id_test_new_valid;
  query_id_test_new_invalid_shift;
  query_id_test_new_invalid_bitnumber;
  query_id_test_next_normal;
  query_id_test_next_rollover_bitnumber;
  query_id_test_next_emergency_overload;
  query_id_test_next_shift_overflow;
  query_id_test_has_next_true;
  query_id_test_has_next_false;
  query_id_test_query_id;
  db_wrapper_test_next;
  gas_estimator_test_native_gas_refund_estimate;
  gas_estimator_test_execute_estimate;
  gas_estimator_test_estimate_approve_messages;
  gas_estimator_test_highload_wallet_send;
  gas_estimator_test_zero_values;
  gas_estimator_test_execute_send;
  wallet_manager_test_load_wallets;
  wallet_manager_test_acquire_wallet;
  lock_manager_test_lock;
  ton_trace_test_crud;
  ton_trace_test_update_events;
  subscriber_test_subscriber_no_init_height;
  subscriber_test_subscriber_with_init_height;
  subscriber_test_poll_account_trace_seen;
  subscriber_test_transaction_id;
  subscriber_test_account_id;
  retry_subscriber_test_transaction_id;
  retry_subscriber_test_account_id;
  client_test_post_v3_message;
  client_test_post_v3_message_bad_request;
  client_test_get_traces_with_start_lt;
  client_test_get_transactions_without_start_lt;
  client_test_get_account_states;
  check_accounts_test_valid_account;
  check_accounts_test_inactive_account;
  check_accounts_test_insufficient_balance;
  check_accounts_test_invalid_balance_format;
  check_accounts_test_check_accounts_integration_with_mock;
  ingestor_test_handle_retriable_task_unimplemented;
  ingestor_test_handle_construct_proof_unimplemented;
  ingestor_test_handle_wasm_event_unimplemented;
  ingestor_test_handle_verify_unimplemented;
  ingestor_test_handle_transaction].
