(* ===== verification/BroadcastTests.v ===== *)
(** * The unit tests of the wallet and the broadcaster

    The unit tests of [out_action.rs], [ton_wallet_high_load_v3.rs] and
    [broadcaster.rs], each as an executable definition over the models, with
    the formats of [TonFormat].  The signature, a parameter of the wallet, is
    the one in the text a test expects, or zeros where none is expected. *)

From Stdlib Require Import ZArith Lia Strings.Byte Strings.Ascii.
From stdpp Require Import base strings countable gmap list.
From S2P Require Import Prelude RustStd Foreign Types GmpTypes CellCodec Messages QueryId QueryIdStore Client Gas Wallet Broadcaster TonFormat TestKit CodecTests UnitTests.
Import TonFormat.
#[local] Open Scope test_scope.

(** ** [out_action.rs] *)

(** The cell of an [OutAction]. *)
Definition out_action_cell {WL : WalletLib} (a : OutAction) : fres Cell :=
  cell_of (Instances.z_bits 32 0x0ec3c86d ++ Instances.z_bits 8 (oa_mode a)) [oa_out_msg a].

(** [hex::encode(BASE64_STANDARD.decode(text).unwrap())]. *)
Definition hex_of_b64 (text : string) (p : string -> bool) : bool :=
  got (base64_decode text) (fun l => p (hex_encode l)).

Definition bounce_address : string := "EQD__________________________________________0vo".

Definition approve_message_boc : string :=
  "te6cckECDAEAAYsAAggAAAAoAQIBYYAAAAAAAAAAAAAAAAAAAACAAAAAAAAAAAAAAAAAAAAAAAAAAAAAAAAAAAAAADf5gkADAQHABADi0LAAUYmshNOh1nWEdwB3eJHd51H6EH1kg3v2M30y32eQAAAAAAAAAAAAAAAAAAAAAQ+j+g0KWjWTaPqB9qQHuWZQn7IPz7x3xzwbprT1a85sjh0UlPlFU84LDdRcD4GZ6n6GJlEKKTlRW5QtlzKGrAsBAtAFBECeAcQjykQMXsK+7MnQoVK1T8jnpBbJMbcInq8iFgWvFwYHCAkAiDB4MTdmZDdkYTNkODE5Y2ZiYzQ2ZmYyOGYzZDgwOTgwNzcwZWMxYjgwZmQ3ZDFiMjI5Y2VjMzI1MTkzOWI5YjIzZi0xABxhdmFsYW5jaGUtZnVqaQBUMHhkNzA2N0FlM0MzNTllODM3ODkwYjI4QjdCRDBkMjA4NENmRGY0OWI1AgAKCwBAuHpKD2RLehhu5xoUVGNPcMIqYqyhprpna1F1wh1/2TAACHRvbjJLddsV".

#[local] Instance zero_signature : WalletLib :=
  ton_wallet_lib (fun _ _ => inr (repeat (byte_of 0) 64)).

Definition out_action_test_out_action : bool :=
  hex_of_b64 approve_message_boc (fun approve_message =>
  got (TonAddress_from_base64_url bounce_address) (fun destination =>
  ok_and (out_action approve_message 1000000 destination) (fun res =>
  got (out_action_cell res) (fun cell => is_boc cell
    "te6cckECDgEAAckAAQoOw8htAgEBZiIAf/////////////////////////////////////////+YehIAAAAAAAAAAAAAAAAAAQICCAAAACgDBAFhgAAAAAAAAAAAAAAAAAAAAIAAAAAAAAAAAAAAAAAAAAAAAAAAAAAAAAAAAAAAN/mCQAUBAcAGAOLQsABRiayE06HWdYR3AHd4kd3nUfoQfWSDe/YzfTLfZ5AAAAAAAAAAAAAAAAAAAAABD6P6DQpaNZNo+oH2pAe5ZlCfsg/PvHfHPBumtPVrzmyOHRSU+UVTzgsN1FwPgZnqfoYmUQopOVFblC2XMoasCwEC0AcEQJ4BxCPKRAxewr7sydChUrVPyOekFskxtwieryIWBa8XCAkKCwCIMHgxN2ZkN2RhM2Q4MTljZmJjNDZmZjI4ZjNkODA5ODA3NzBlYzFiODBmZDdkMWIyMjljZWMzMjUxOTM5YjliMjNmLTEAHGF2YWxhbmNoZS1mdWppAFQweGQ3MDY3QWUzQzM1OWU4Mzc4OTBiMjhCN0JEMGQyMDg0Q2ZEZjQ5YjUCAAwNAEC4ekoPZEt6GG7nGhRUY09wwipirKGmumdrUXXCHX/ZMAAIdG9uMpDtUgc=")))).

(** ** [ton_wallet_high_load_v3.rs] *)

Definition mock_keypair : KeyPair := {|
  public_key := repeat (byte_of 0) 32; secret_key := repeat (byte_of 1) 64 |}.

Definition mock_address : fres TonAddress := TonAddress_from_str
  "0:0000000000000000000000000000000000000000000000000000000000000000".

(** [CommonMsgInfo::new_default_internal], of [tonlib-core]: as recorded, the
    message is marked bounced. *)
Definition new_default_internal (dest : TonAddress) (value : N) : InternalMessage := {|
  im_ihr_disabled := false; im_bounce := true; im_bounced := true;
  im_src := TonAddress_NULL; im_dest := dest; im_value := value;
  im_ihr_fee := 0; im_fwd_fee := 0; im_created_lt := 0; im_created_at := 0 |}.

Definition mock_out_action : fres OutAction :=
  let unwrap {A B} (m : fres A) (k : A -> fres B) : fres B :=
    match m with inr a => k a | inl e => inl e end in
  unwrap (store_u32 32 0x00000028 CellBuilder_new) (fun builder =>
  unwrap (store_u8 8 42 CellBuilder_new) (fun builder_inner =>
  unwrap (build builder_inner) (fun inner =>
  unwrap (store_reference inner builder) (fun builder =>
  unwrap (build builder) (fun body =>
  unwrap (TonAddress_from_base64_url bounce_address) (fun destination =>
  unwrap (TransferMessage_build (new_default_internal destination 2000000000) body) (fun tm =>
  inr {| oa_mode := 1; oa_out_msg := tm |}))))))).

(** A test's wallet and action. *)
Definition with_wallet (subwallet_id timeout : Z)
    (p : TonWalletHighLoadV3 -> OutAction -> bool) : bool :=
  got mock_address (fun address => got mock_out_action (fun action =>
    p (TonWalletHighLoadV3_new address mock_keypair subwallet_id timeout) action)).

Definition wallet_test_internal_transfer_body_valid : bool :=
  with_wallet 698983 600 (fun wallet action =>
  ok_and (internal_transfer_body [action] 12345) (fun body => is_boc body
    "te6cckEBBgEAWwABGK5C5aQAAAAAAAAwOQECCg7DyG0BAgMAAAFoMgB//////////////////////////////////////////6O5rKAAAAAAAAAAAAAAAAAAAQQBCAAAACgFAAIqBhixuA==")).

Definition wallet_test_internal_transfer_body_too_many_actions : bool :=
  with_wallet 698983 600 (fun wallet action =>
  match internal_transfer_body (repeat action 255) 1 with Panic => true | _ => false end).

Definition wallet_test_internal_transfer_message_cell_builds : bool :=
  with_wallet 698983 600 (fun wallet action =>
  ok_and (internal_transfer_body [action] 42) (fun body =>
  ok_and (internal_transfer_message_cell wallet body 100) (fun internal => is_boc internal
    "te6cckEBBwEAbgABHyAWQAAAAAAAAAAAAAAAAAMBARiuQuWkAAAAAAAAACoCAgoOw8htAQMEAAABaDIAf/////////////////////////////////////////+juaygAAAAAAAAAAAAAAAAAAEFAQgAAAAoBgACKifI9bE="))).

Definition wallet_test_message_inner_structure : bool :=
  with_wallet 123456 555 (fun wallet _ =>
  got (build CellBuilder_new) (fun message =>
  ok_and (message_inner wallet message 170 777 1000 500) (fun result => is_boc result
    "te6cckEBAgEAGAABJQAB4kCqAAYSAAAAAAAAB9AAD6QBAACWEx7j"))).

Definition wallet_test_wrap_signed_body_builds : bool :=
  with_wallet 123 100 (fun wallet _ =>
  got (store_u8 8 55 CellBuilder_new) (fun b => got (build b) (fun cell =>
  ok_and (wrap_signed_body wallet cell) (fun result => is_boc result
    "te6cckEBAQEAJgAAR4gAAAAAAAAAAAAAAAAAAAAAAAAAAAAAAAAAAAAAAAAAAAABvAFKRlA=")))).

(** The signature in the first 512 bits of a signed body, and in a message
    whose body starts after a number of bits. *)
Definition signature_in (skip : nat) (text : string) : list byte :=
  match boc_of_b64 text with
  | inr c => Instances.bytes_of_bits 64 (take 512 (drop skip (Instances.tcell_bits c)))
  | inl _ => []
  end.

Definition signed_text : string :=
  "te6cckEBAgEARgABgLB92OjwqNwYG9CjDeue+0oYguCYmhkWizg+KFQCmWlDYbif4prV1S6MuFbfb1kDZ9DgjD3oePTm41w+83i7fggBAAIqbix/vA==".

Definition outgoing_text : string :=
  "te6cckEBCQEA6wABxYgAAAAAAAAAAAAAAAAAAAAAAAAAAAAAAAAAAAAAAAAAAAAA2yfwHuviGA2kiylZKUJynwaF0GS1SvjlC3unXxNyS7PWw2k6gOe0jA3Jzud9ccztHLk2jhJ1h9qRwU0LtrYgfAEBJQAAAUECAABUAAAAAAADDTAAD6QCASEgID5wAAAAAAAAAAAAAAAAAwMBGK5C5aQAAAAAAAAAKgQCCg7DyG0BBQYAAAFoMgB//////////////////////////////////////////6O5rKAAAAAAAAAAAAAAAAAAAQcBCAAAACgIAAIqFPptJQ==".

Definition wallet_test_sign_external_body : bool :=
  let lib := ton_wallet_lib (fun _ _ => inr (signature_in 0 signed_text)) in
  with_wallet 123 100 (fun wallet _ =>
  got (store_u8 8 42 CellBuilder_new) (fun b => got (build b) (fun cell =>
  ok_and (sign_external_body (WL := lib) wallet cell) (fun result => is_boc result signed_text)))).

Definition wallet_test_outgoing_message_success : bool :=
  let lib := ton_wallet_lib (fun _ _ => inr (signature_in 277 outgoing_text)) in
  with_wallet 321 500 (fun wallet action =>
  ok_and (outgoing_message (WL := lib) wallet 100000 [action] 42 999) (fun boc =>
    is_boc boc outgoing_text)).

(** ** [broadcaster.rs] *)

(** The locks, the posts and forced query ids so far, and how many posts fail
    before the first that succeeds. *)
Record test_world := {
  tw_locks : gset string; tw_posts : nat; tw_forced : nat; tw_failing : nat }.

#[local] Instance test_locks : LockManager test_world := {|
  lock key w := let '(b, l) := lock key (tw_locks w) in
    (b, {| tw_locks := l; tw_posts := tw_posts w; tw_forced := tw_forced w;
           tw_failing := tw_failing w |});
  unlock key w := {| tw_locks := unlock key (tw_locks w); tw_posts := tw_posts w;
    tw_forced := tw_forced w; tw_failing := tw_failing w |};
|}.

(** [MockQueryIdWrapper] and [TestQueryIdWrapper]. *)
#[local] Instance TestQueryIdWrapper : HighLoadQueryIdWrapper test_world :=
  fun _ _ force w =>
    (map_err (fun _ => ConstructionError) (HighLoadQueryId.from_shift_and_bitnumber 0 0),
     {| tw_locks := tw_locks w; tw_posts := tw_posts w;
        tw_forced := (if (force : bool) then 1 else 0) + tw_forced w; tw_failing := tw_failing w |})%nat.

#[local] Instance test_time : TimeProvider test_world := fun _ => 1700000000.

(** [expect_post_v3_message]: the text must be a bag of cells, unless the
    answer is to fail. *)
#[local] Instance TestRestClient : RestClient test_world := {|
  post_v3_message boc w :=
    let count := (1 + tw_posts w)%nat in
    let w' := {| tw_locks := tw_locks w; tw_posts := count; tw_forced := tw_forced w;
                 tw_failing := tw_failing w |} in
    if decide (count <= tw_failing w)%nat then (Err (BadResponse "THROWIF 36 error occurred"), w')
    else match boc_of_b64 boc with
         | inr _ => (Ok {| message_hash := "abc"; message_hash_norm := "ABC" |}, w')
         | inl _ => (Panic, w')
         end;
  get_traces_for_account _ _ _ := st_lift Panic;
  get_account_states _ := st_lift Panic;
|}.

#[local] Instance test_error_text : ClientErrorText := fun e =>
  match e with
  | BadRequest s => "Bad request: " +:+ s
  | BadResponse s => "Bad response: " +:+ s
  | ConnectionFailed s => "Connection failed: " +:+ s
  end.

(** [MockGasEstimator]: the constants it returns. *)
Record MockGasEstimator := {
  expect_native_gas_refund_estimate : Z; expect_execute_send : Z; expect_execute_estimate : Z;
  expect_approve_send : Z; expect_highload_wallet_send : Z }.

#[local] Instance mock_gas_estimator : GasEstimator MockGasEstimator := {|
  native_gas_refund_estimate e := expect_native_gas_refund_estimate e;
  execute_send e _ := expect_execute_send e;
  execute_estimate e _ := expect_execute_estimate e;
  approve_send e _ := expect_approve_send e;
  highload_wallet_send e _ := expect_highload_wallet_send e;
|}.

(** The broadcaster of the tests, and its world. *)
Definition with_broadcaster (refund send estimate approve wallet_send : Z)
    (p : TONBroadcaster (G := MockGasEstimator) -> bool) : bool :=
  ok_and load_wallets (fun manager =>
  got mock_address (fun gateway =>
  got (TonAddress_from_str
    "0:0000000000000000000000000000000000000000000000000000000000000fff") (fun gas_service =>
    p {| wallet_manager := manager; gateway_address := gateway; gas_service_address := gas_service;
         chain_name := "ton2";
         gas_estimator := {|
           expect_native_gas_refund_estimate := refund; expect_execute_send := send;
           expect_execute_estimate := estimate; expect_approve_send := approve;
           expect_highload_wallet_send := wallet_send |} |}))).

Definition test_start (failing : nat) : test_world := {|
  tw_locks := ∅; tw_posts := 0; tw_forced := 0; tw_failing := failing |}.

Definition broadcaster_test_broadcast_prover_message : bool :=
  with_broadcaster 0 0 0 42 1024 (fun broadcaster =>
  hex_of_b64 "te6cckECDAEAAYsAAggAAAAoAQIBYYAAAAAAAAAAAAAAAAAAAACAAAAAAAAAAAAAAAAAAAAAAAAAAAAAAAAAAAAAADf5gkADAQHABADi0LAAUYmshNOh1nWEdwB3eJHd51H6EH1kg3v2M30y32eQAAAAAAAAAAAAAAAAAAAAAQ+j+g0KWjWTaPqB9qQHuWZQn7IPz7x3xzwbprT1a85sjh0UlPlFU84LDdRcD4GZ6n6GJlEKKTlRW5QtlzKGrAsBAtAFBECeAcQjykQMXsK+7MnQoVK1T8jnpBbJMbcInq8iFgWvFwYHCAkAiDB4MTdmZDdkYTNkODE5Y2ZiYzQ2ZmYyOGYzZDgwOTgwNzcwZWMxYjgwZmQ3ZDFiMjI5Y2VjMzI1MTkzOWI5YjIzZi0xABxhdmFsYW5jaGUtZnVqaQBUMHhkNzA2N0FlM0MzNTllODM3ODkwYjI4QjdCRDBkMjA4NENmRGY0OWI1AgAKCwBAuHpKD2RLehhu5xoUVGNPcMIqYqyhprpna1F1wh1/2TAACHRvbjJLddsV" (fun approve_message =>
  ok_and (st_eval (broadcast_prover_message broadcaster approve_message) (test_start 0)) (fun res =>
    (br_tx_hash res =! "abc") &&
    (br_message_id res =!
      Some "0x17fd7da3d819cfbc46ff28f3d80980770ec1b80fd7d1b229cec3251939b9b23f-1") &&
    (br_source_chain res =! Some "avalanche-fuji")))).

Definition broadcaster_test_broadcast_prover_message_invalid_input : bool :=
  with_broadcaster 0 0 0 0 0 (fun broadcaster =>
  err_and (st_eval (broadcast_prover_message broadcaster "!!!invalid_base64_data###") (test_start 0))
    (fun e => match e with
      | BroadcasterGenericError e =>
          str_contains "BocParsingError" e || str_contains "BoC deserialization error" e
      | _ => false
      end)).

Definition test_message (message_id : string) : GatewayV2Message := {|
  gm_message_id := message_id; gm_source_chain := "avalanche-fuji"; gm_source_address := "ton2";
  gm_destination_address := "0:b87a4a0f644b7a186ee71a1454634f70c22a62aca1a6ba676b5175c21d7fd930";
  gm_payload_hash := "aea6524367000fb4a0aa20b1d4f63daad1ed9e9df70=" |}.

Definition execute_id : string :=
  "0xf38d2a646e4b60e37bc16d54bb9163739372594dc96bab954a85b4a170f49e58-1".

Definition execute_task (available : string) : ExecuteTaskFields := {|
  et_message := test_message execute_id;
  et_payload :=
    "AAAAAAAAAAAAAAAAAAAAAAAAAAAAAAAAAAAAAAAAACAAAAAAAAAAAAAAAAAAAAAAAAAAAAAAAAAAAAAAAAAAE0hlbGxvIGZyb20gcmVsYXllciEAAAAAAAAAAAAAAAAA";
  et_available_gas_balance := {| token_id := None; amount := available |} |}.

Definition broadcaster_test_broadcast_execute_message : bool :=
  with_broadcaster 0 42 42 0 1024 (fun broadcaster =>
  ok_and (st_eval (broadcast_execute_message broadcaster (execute_task "84")) (test_start 0)) (fun res =>
    match br_status res with Ok _ => true | _ => false end && (br_tx_hash res =! "abc") &&
    (br_message_id res =! Some execute_id) && (br_source_chain res =! Some "avalanche-fuji"))).

Definition broadcaster_test_broadcast_execute_message_not_enough_gas : bool :=
  with_broadcaster 0 0 42 0 1024 (fun broadcaster =>
  ok_and (st_eval (broadcast_execute_message broadcaster (execute_task "11")) (test_start 0)) (fun res =>
    err_and (br_status res) (fun e =>
      match e with InsufficientGas s => s =! "Cannot proceed to execute" | _ => false end))).

Definition refund_task : RefundTaskFields := {|
  rt_message := test_message "0xf38d2a646e4b60e37bc16d54bb9163739372594dc96bab954a85b4a170f49e58";
  rt_refund_recipient_address := "0:e1e633eb701b118b44297716cee7069ee847b56db88c497efea681ed14b2d2c7";
  rt_remaining_gas_balance := {| token_id := None; amount := "42" |} |}.

Definition broadcaster_test_broadcast_refund_message : bool :=
  with_broadcaster 42 0 0 0 1024 (fun broadcaster =>
  ok_and (st_eval (broadcast_refund_message broadcaster refund_task) (test_start 0)) (fun hash =>
    hash =! "abc")).

Definition broadcaster_test_broadcast_refund_message_refund_too_big : bool :=
  with_broadcaster 1000 0 0 0 1000 (fun broadcaster =>
  is_err (st_eval (broadcast_refund_message broadcaster refund_task) (test_start 0))).

Definition broadcaster_test_send_to_chain_retry_on_throwif_36 : bool :=
  with_broadcaster 0 0 0 0 1024 (fun broadcaster =>
  let wallet_manager := wallet_manager broadcaster in
  then_ (acquire wallet_manager) (test_start 5) (fun wallet w =>
  hex_of_b64 "te6cckECDAEAAYsAAggAAAAoAQIBYYAAAAAAAAAAAAAAAAAAAACAAAAAAAAAAAAAAAAAAAAAAAAAAAAAAAAAAAAAADf5gkADAQHABADi0LAAUYmshNOh1nWEdwB3eJHd51H6EH1kg3v2M30y32eQAAAAAAAAAAAAAAAAAAAAAQ+j+g0KWjWTaPqB9qQHuWZQn7IPz7x3xzwbprT1a85sjh0UlPlFU84LDdRcD4GZ6n6GJlEKKTlRW5QtlzKGrAsBAtAFBECeAcQjykQMXsK+7MnQoVK1T8jnpBbJMbcInq8iFgWvFwYHCAkAiDB4MTdmZDdkYTNkODE5Y2ZiYzQ2ZmYyOGYzZDgwOTgwNzcwZWMxYjgwZmQ3ZDFiMjI5Y2VjMzI1MTkzOWI5YjIzZi0xABxhdmFsYW5jaGUtZnVqaQBUMHhkNzA2N0FlM0MzNTllODM3ODkwYjI4QjdCRDBkMjA4NENmRGY0OWI1AgAKCwBAuHpKD2RLehhu5xoUVGNPcMIqYqyhprpna1F1wh1/2TAACHRvbjJLddsV" (fun approve_message =>
  ok_and (out_action approve_message 100 (gateway_address broadcaster)) (fun action =>
  then_ (send_to_chain broadcaster wallet [action] None) w (fun _ w =>
    let w := release wallet_manager wallet w in
    (tw_posts w =! 6%nat) && (tw_forced w =! 5%nat)))))).

(** ** All of them *)

Definition broadcast_tests : list bool := [
  out_action_test_out_action;
  wallet_test_internal_transfer_body_valid;
  wallet_test_internal_transfer_body_too_many_actions;
  wallet_test_internal_transfer_message_cell_builds;
  wallet_test_message_inner_structure;
  wallet_test_wrap_signed_body_builds;
  wallet_test_sign_external_body;
  wallet_test_outgoing_message_success;
  broadcaster_test_broadcast_prover_message;
  broadcaster_test_broadcast_prover_message_invalid_input;
  broadcaster_test_broadcast_execute_message;
  broadcaster_test_broadcast_execute_message_not_enough_gas;
  broadcaster_test_broadcast_refund_message;
  broadcaster_test_broadcast_refund_message_refund_too_big;
  broadcaster_test_send_to_chain_retry_on_throwif_36].

(** The models of the stateful parts agree with the unit tests of the
    crate, other than those of the codecs and parsers: query ids
    and their table, gas estimates, wallets, locks, actions, the table of
    traces, the subscribers, the client, the account checker, the ingestor and
    the broadcaster do, on the inputs of the tests, what the tests assert.  The
    messages of the wallet are, bit for bit, the ones the tests record, and a
    message that is refused five times as executed already is posted six times,
    under five forced query ids. *)
Theorem component_tests_pass : forallb id (unit_tests ++ broadcast_tests) = true.
Proof. by vm_compute. Qed.
