(* ===== verification/WireDemo.v ===== *)
(** * Posts read back

    The tasks of the broadcaster's unit tests run in the world of
    [BroadcastDemo] with the formats of [TonFormat]: the theorems of [Wire]
    applied to them, and what the reader finds in the texts, the recorded one
    of the wallet's unit test included. *)

From Stdlib Require Import ZArith Lia Strings.Byte Strings.Ascii.
From stdpp Require Import base strings countable gmap list.
From S2P Require Import Prelude RustStd Foreign Types GmpTypes Instances CellCodec Messages QueryId QueryIdStore Client Gas Wallet TonFormat FormatLaws Broadcaster BroadcasterProofs Posting Wire BroadcastDemo TestKit UnitTests BroadcastTests.
Import TonFormat FormatLaws Wire.
#[local] Open Scope test_scope.

#[local] Instance wire_client : RestClient demo_world := {|
  post_v3_message := demo_post;
  get_traces_for_account _ _ _ := st_err (ConnectionFailed "closed");
  get_account_states _ := st_err (ConnectionFailed "closed");
|}.

#[local] Instance wire_call_laws : CallLaws demo_world.
Proof.
  apply (Build_CallLaws _ _ _ _ _ _ dw_calls); cbn [lock unlock demo_locks].
  - intros k w. by case_decide.
  - done.
  - intros a t f w. unfold hq_next, demo_query_ids.
    pose proof (wrapper_next_no_panic no_fault 0 0 a t f (dw_ids w)) as Hp.
    by destruct (wrapper_next _ _ _ _ _ _ _) as [r ids].
  - intros b w. cbn [post_v3_message wire_client]. unfold demo_post.
    by destruct (dw_rpc w) as [|[e|x] l].
Defined.

(** A signature of zeros. *)
Definition no_signature (_hash _key : list byte) : fres (list byte) := inr (repeat (byte_of 0) 64).

Lemma no_signature_length hash key s : no_signature hash key = inr s -> length s = 64%nat.
Proof. by intros [= <-]. Qed.

#[local] Instance wire_lib : WalletLib := ton_wallet_lib no_signature.

Definition wire_wallet : TonWalletHighLoadV3 := TonWalletHighLoadV3_new
  (byte_of 0, vec_of 32 [byte_of 7]) mock_keypair 698983 3600.

Definition wire_broadcaster : TONBroadcaster (G := TONGasEstimator) := {|
  wallet_manager := {| wallets := {[wallet_address wire_wallet := wire_wallet]} |};
  gateway_address := (byte_of 0, vec_of 32 [byte_of 1]);
  gas_service_address := (byte_of 0, vec_of 32 [byte_of 2]);
  chain_name := "ton2";
  gas_estimator := estimator 20 1 84 40 1 1 50 60 0;
|}.

Definition taken : demo_world :=
  demo_start [inr {| message_hash := "abc"; message_hash_norm := "ABC" |}].

(** What is read from the posts of a run: the wallet, the ids and the transfer
    value, and of the actions the destination, the value and the op code. *)
Definition read_posts (w : demo_world) : list (option (string * N * N * list (string * N * N))) :=
  map (fun text =>
    match read_post text with
    | Ok v => Some (TonAddress_to_hex (pv_wallet v), pv_query_id v, pv_value v,
        map (fun a => (TonAddress_to_hex (av_dest a), av_value a,
          N_of_bits (take 32 (cell_bits (av_body a))))) (pv_actions v))
    | _ => None
    end) (posted w).

Lemma posted_wire {A} P (m : st demo_world BroadcasterError A) w :
  Posts P m -> dw_calls w = [] -> paired P (dw_calls (snd (m w))).
Proof.
  intros HP Hw. destruct (HP w) as (tr & Hc & Htr).
  change (dw_calls (snd (m w)) = dw_calls w ++ tr) in Hc. by rewrite Hc, Hw.
Qed.

Definition wire_executed : demo_world :=
  snd (broadcast_execute_message wire_broadcaster (execute_task "200") taken).
Definition wire_refunded : demo_world :=
  snd (broadcast_refund_message wire_broadcaster refund_task taken).

Definition approve_hex : string :=
  match base64_decode approve_message_boc with inr l => hex_encode l | inl _ => "" end.

Definition wire_approved : demo_world :=
  snd (broadcast_prover_message wire_broadcaster approve_hex taken).

(** The message of [wire_wallet] as read, with one action. *)
Definition one_action (dest : Z) (value op : N) :=
  [Some (TonAddress_to_hex (wallet_address wire_wallet), 0%N, 60%N,
     [(TonAddress_to_hex (byte_of 0, vec_of 32 [byte_of dest]), value, op)])].

Lemma execute_wire_witness :
  bool_decide (read_posts wire_executed = one_action 1 137 (Z.to_N OP_RELAYER_EXECUTE)) = true /\
  paired (execute_on_wire no_signature wire_broadcaster (execute_task "200")) (dw_calls wire_executed).
Proof.
  split; [by vm_compute|].
  exact (posted_wire _ _ taken
    (execute_wire no_signature no_signature_length wire_broadcaster (execute_task "200")) eq_refl).
Defined.

Lemma refund_wire_witness :
  bool_decide (read_posts wire_refunded = one_action 2 (Z.to_N REFUND_DUST) (Z.to_N OP_NATIVE_REFUND)) = true /\
  paired (refund_on_wire no_signature wire_broadcaster refund_task) (dw_calls wire_refunded).
Proof.
  split; [by vm_compute|].
  exact (posted_wire _ _ taken
    (refund_wire no_signature no_signature_length wire_broadcaster refund_task) eq_refl).
Defined.

Lemma prover_wire_witness :
  bool_decide (read_posts wire_approved = one_action 1 50 0x28) = true /\
  paired (prover_on_wire no_signature wire_broadcaster approve_hex) (dw_calls wire_approved).
Proof.
  split; [by vm_compute|].
  exact (posted_wire _ _ taken
    (prover_wire no_signature no_signature_length wire_broadcaster approve_hex) eq_refl).
Defined.

(** The text recorded from [tonlib-core] in the wallet's unit test reads as the
    message the test builds: the reader agrees with the real library. *)
Example recorded_reads :
  match read_post outgoing_text with
  | Ok v =>
      (pv_subwallet v =! 321%N) && (pv_mode v =! 2%N) && (pv_query_id v =! 42%N) &&
      (pv_created_at v =! 99992%N) && (pv_timeout v =! 500%N) && (pv_value v =! 999%N) &&
      (pv_inner_query_id v =! 42%N) &&
      (map (fun a => (av_mode a, TonAddress_to_string (av_dest a), av_value a)) (pv_actions v) =!
        [(1%N, bounce_address, 2000000000%N)])
  | _ => false
  end = true.
Proof. by vm_compute. Qed.
