(* ===== verification/Relay.v ===== *)
(** * The watching half of the relayer, put together

    Subscribers poll traces into the table and hand the complete ones on; the
    event queue carries them as JSON to the ingestor, which parses them into
    the events it publishes.  Here the parts run together, in any order, with
    any query or request failing: a step relation over the shared table, the
    queue and what was published.  [relayer_core] moves traces from a poll to
    the queue and from the queue to the ingestor; it may drop, delay or repeat
    them. *)

From Stdlib Require Import ZArith Lia Strings.Byte Strings.Ascii.
From stdpp Require Import base strings countable gmap list relations.
From S2P Require Import Prelude RustStd Foreign Types GmpTypes CellCodec Messages Gas Parsers TraceParser TraceProofs Pairing TraceStore Client Subscriber RetryProofs Ingestor.

(** ** The rows of the table *)

Section Table.
Context {TAL : TonAddressLib} {JL : JsonLib}.

(** The queries of [PgTONTraceModel] that write, each at any time and failing
    at will; [delete] only when [deletes]. *)
Inductive table_step (deletes : bool) : trace_table -> trace_table -> Prop :=
| ts_upsert fault now tx tbl : table_step deletes tbl (snd (pg_upsert fault now tx tbl))
| ts_decrease fault tx tbl : table_step deletes tbl (snd (pg_decrease_retry fault tx tbl))
| ts_events fault now id evs tbl : table_step deletes tbl (snd (update_events fault now id evs tbl))
| ts_delete fault tx tbl : deletes = true -> table_step deletes tbl (snd (model_delete fault tx tbl)).

(** A row is stored under its trace's id, has at most the ten retries of the
    schema, and has events only if it was updated. *)
Definition row_ok (i : string) (row : TONTrace) : Prop :=
  tt_trace_id row = i /\ tt_retries row <= 10 /\
  (tt_updated_at row = None -> tt_events row = None).

Definition table_ok (tbl : gmap string TONTrace) : Prop := map_Forall row_ok tbl.

Lemma table_ok_keyed tbl : table_ok tbl -> keyed tbl.
Proof. intros H i row Hi. by destruct (H i row Hi). Qed.

Lemma table_ok_alter i f (tbl : gmap string TONTrace) :
  (forall row, row_ok i row -> row_ok i (f row)) -> table_ok tbl -> table_ok (alter f i tbl).
Proof.
  intros Hf Ht j row Hj. destruct (decide (i = j)) as [<-|Hne].
  - rewrite lookup_alter_eq in Hj. apply fmap_Some in Hj as (old & Hold & ->). by apply Hf, Ht.
  - rewrite lookup_alter_ne in Hj by done. by apply Ht.
Qed.

Lemma table_step_ok d tbl tbl' : table_step d tbl tbl' -> table_ok tbl -> table_ok tbl'.
Proof.
  intros Hs Ht. destruct Hs as [fault now tx tbl|fault tx tbl|fault now id evs tbl|fault tx tbl _];
    unfold pg_upsert, pg_decrease_retry, update_events, model_delete; rewrite pg_query_cases;
    (destruct (fault _); [done|]); cbn [snd].
  - destruct ((tbl : gmap string TONTrace) !! tt_trace_id tx) as [old|] eqn:E;
      [case_decide; [|done]|]; cbn [snd]; apply map_Forall_insert_2; try done.
    destruct (Ht _ _ E) as (_ & H2 & _). by split_and!.
  - apply table_ok_alter; [|done]. intros row (H1 & H2 & H3). split_and!; cbn; [done|lia|done].
  - apply table_ok_alter; [|done]. by intros row (H1 & H2 & H3).
  - intros i row Hi. apply lookup_delete_Some in Hi as [_ Hi]. by apply Ht.
Qed.

Lemma table_step_dom tbl tbl' i :
  table_step false tbl tbl' -> is_Some ((tbl : gmap string TONTrace) !! i) ->
  is_Some ((tbl' : gmap string TONTrace) !! i).
Proof.
  intros Hs Hi. destruct Hs as [fault now tx tbl|fault tx tbl|fault now id evs tbl|fault tx tbl [=]];
    unfold pg_upsert, pg_decrease_retry, update_events; rewrite pg_query_cases;
    (destruct (fault _); [done|]); cbn [snd].
  - destruct ((tbl : gmap string TONTrace) !! tt_trace_id tx) as [old|]; [case_decide; [|done]|];
      cbn [snd]; destruct (decide (tt_trace_id tx = i)) as [<-|?];
      rewrite ?lookup_insert_eq, ?lookup_insert_ne by done; done.
  - unfold pg_update. destruct (decide (tt_trace_id tx = i)) as [<-|?];
      rewrite ?lookup_alter_eq, ?lookup_alter_ne, ?fmap_is_Some by done; done.
  - unfold pg_update. destruct (decide (id = i)) as [<-|?];
      rewrite ?lookup_alter_eq, ?lookup_alter_ne, ?fmap_is_Some by done; done.
Qed.

(** C27. The type of the table: whatever queries run on it, in any order, with
    any of them failing, every row stays under the id of its trace, never has
    more than ten retries, and has events only if it was updated. *)
Theorem table_typed tbl tbl' : rtc (table_step true) tbl tbl' -> table_ok tbl -> table_ok tbl'.
Proof. apply rtc_invariant. intros s s'. apply table_step_ok. Qed.

#[global] Instance upsert_moves d fault now tx : Moves (table_step d) (pg_upsert fault now tx).
Proof. intros tbl. apply rtc_once. constructor. Qed.
#[global] Instance decrease_moves d fault tx : Moves (table_step d) (pg_decrease_retry fault tx).
Proof. intros tbl. apply rtc_once. constructor. Qed.
#[global] Instance events_moves d fault now id evs : Moves (table_step d) (update_events fault now id evs).
Proof. intros tbl. apply rtc_once. constructor. Qed.

Lemma rtc_dom tbl tbl' i :
  rtc (table_step false) tbl tbl' -> is_Some ((tbl : gmap string TONTrace) !! i) ->
  is_Some ((tbl' : gmap string TONTrace) !! i).
Proof.
  apply (rtc_invariant (table_step false) (fun t => is_Some ((t : gmap string TONTrace) !! i))).
  intros s s'. apply table_step_dom.
Qed.
End Table.

(** ** What the polls hand on *)

Section Polls.
Context {TAL : TonAddressLib} {JL : JsonLib}.
Context {N D : Type} {RC : RestClient N} {DB : Database D}.
Context (fault : trace_op -> option ferr).

(** A poll over the table, some queries failing. *)
Definition pg_poll_account (now : Z) (account : TonAddress)
    : st (TONSubscriber N D trace_table) PollError (list Trace) :=
  poll_account (AU := pg_atomic_upsert fault) now account.

(** A loop over a response: it hands on complete traces of the response, and
    each has a row. *)
Definition hands_on (traces : list Trace) (m : st trace_table ferr (list Trace)) : Prop :=
  Moves (table_step false) m /\
  forall tbl out tbl', m tbl = (Ok out, tbl') ->
  forall t, t ∈ out -> t ∈ traces /\ is_incomplete t = false /\
    is_Some ((tbl' : gmap string TONTrace) !! trace_id t).

Lemma pg_store_hands_on now traces :
  hands_on traces (store_traces (AU := pg_atomic_upsert fault) now traces).
Proof.
  split; [induction traces; cbn [store_traces upsert_and_return_if_changed pg_atomic_upsert]; apply _|].
  induction traces as [|t traces IH]; intros tbl out tbl' H u Hu.
  { injection H as <- _. by apply not_elem_of_nil in Hu. }
  cbn [store_traces] in H. apply st_bind_Ok in H as (changed & tbl1 & Hup & H).
  apply st_bind_Ok in H as (unseen & tbl2 & H & Heq). injection Heq as <- <-.
  assert (Hu' : (u = t /\ is_incomplete t = false) \/ u ∈ unseen).
  { destruct (_ && _) eqn:Eb; [|by right]. apply andb_true_iff in Eb as [_ Eb%negb_true_iff].
    apply elem_of_cons in Hu as [->|Hu]; [by left|by right]. }
  destruct Hu' as [[-> Ht]|Hu']; [|destruct (IH _ _ _ H u Hu') as (H1 & H2 & H3); split; [by right|done]].
  split; [by left|]. split; [done|].
  apply pg_upsert_ok in Hup as ((row & Hrow & _) & _). cbn [tt_trace_id TONTrace_from] in Hrow.
  eapply (rtc_dom tbl1); [|by eexists].
  eassert (Hm : Moves (table_step false) (store_traces (AU := pg_atomic_upsert fault) now traces)) by
    (clear; induction traces; cbn [store_traces upsert_and_return_if_changed pg_atomic_upsert]; apply _).
  specialize (Hm tbl1). by rewrite H in Hm.
Qed.

Lemma pg_retry_moves now traces : Moves (table_step false) (pg_retry_traces fault now traces).
Proof.
  unfold pg_retry_traces. induction traces; [apply _|].
  cbn [retry_traces upsert_and_return_if_changed pg_atomic_upsert decrease_retry pg_retriable].
  destruct (tt_is_incomplete _); apply _.
Qed.

Lemma pg_retry_hands_on now traces : hands_on traces (pg_retry_traces fault now traces).
Proof.
  split; [apply pg_retry_moves|].
  induction traces as [|t traces IH]; intros tbl out tbl' H u Hu.
  { injection H as <- _. by apply not_elem_of_nil in Hu. }
  apply pg_retry_traces_cons in H as [(_ & x & tbl1 & _ & H)|(Ht & c & tbl1 & un & Hup & H & ->)].
  { destruct (IH _ _ _ H u Hu) as (H1 & H2). split; [by right|done]. }
  assert (Hu' : u = t \/ u ∈ un) by (destruct (bool_decide _); [by apply elem_of_cons in Hu|by right]).
  destruct Hu' as [->|Hu']; [|destruct (IH _ _ _ H u Hu') as (H1 & H2); split; [by right|done]].
  split; [by left|]. split; [done|].
  apply pg_upsert_ok in Hup as ((row & Hrow & _) & _). cbn [tt_trace_id TONTrace_from] in Hrow.
  eapply (rtc_dom tbl1); [|by eexists].
  pose proof (pg_retry_moves now traces tbl1) as Hm. by rewrite H in Hm.
Qed.

(** What a poll leaves: a table reached by queries, and traces to hand on that
    came from the client, are complete and have a row. *)
Definition poll_outcome (from_chain : Trace -> Prop) (tbl tbl' : trace_table)
    (r : res PollError (list Trace)) : Prop :=
  rtc (table_step false) tbl tbl' /\
  forall out t, r = Ok out -> t ∈ out ->
    from_chain t /\ is_incomplete t = false /\ is_Some ((tbl' : gmap string TONTrace) !! trace_id t).

Context (from_chain : Trace -> Prop).
Context (client_sound : forall account ids lt n traces n',
  get_traces_for_account (N := N) account ids lt n = (Ok traces, n') -> Forall from_chain traces).

Lemma hands_on_outcome traces m tbl :
  Forall from_chain traces -> hands_on traces m ->
  poll_outcome from_chain tbl (snd (m tbl)) (map_err PollModel (fst (m tbl))).
Proof.
  intros Hf [Hm Hout]. split; [apply Hm|]. intros out t Hr Ht. apply map_err_Ok in Hr.
  destruct (Hout tbl out (snd (m tbl))) with (t := t) as (H1 & H2 & H3); [|done|].
  - rewrite <- Hr. apply surjective_pairing.
  - by eapply Forall_forall in Hf.
Qed.

Lemma poll_account_outcome now account (self : TONSubscriber N D trace_table) :
  poll_outcome from_chain (ton_trace_model self)
    (ton_trace_model (snd (pg_poll_account now account self)))
    (fst (pg_poll_account now account self)).
Proof.
  unfold pg_poll_account.
  assert (Hnone : forall r tbl, (forall out, r <> Ok out) -> poll_outcome from_chain tbl tbl r).
  { intros r tbl Hr. split; [done|]. intros out t ->. by destruct (Hr out). }
  destruct (get_traces_for_account (Some account) None
    (if decide (latest_lt self = -1) then None else Some (latest_lt self)) (client self))
    as [[traces|e|] n] eqn:Hg.
  - pose proof (client_sound _ _ _ _ _ _ Hg) as Hf.
    pose proof (hands_on_outcome traces _ (ton_trace_model self) Hf (pg_store_hands_on now traces)) as Ho.
    destruct (max_end_lt traces) as [m|] eqn:Em.
    + destruct (poll_account_step (AU := pg_atomic_upsert fault) now account self traces n m Hg Em) as (d & ->).
      by destruct (store_traces now traces (ton_trace_model self)).
    + destruct traces; [|done]. unfold poll_account, st_get, st_bind, sub_client. rewrite Hg. cbn.
      split; [done|]. intros out t [= <-] Ht. by apply not_elem_of_nil in Ht.
  - unfold poll_account, st_get, st_bind, sub_client. rewrite Hg. by apply Hnone.
  - unfold poll_account, st_get, st_bind, sub_client. rewrite Hg. by apply Hnone.
Qed.

Lemma retry_poll_outcome now account (self : RetryTONSubscriber N trace_table) :
  poll_outcome from_chain (retry_model self)
    (retry_model (snd (pg_retry_poll fault now account self))) (fst (pg_retry_poll fault now account self)).
Proof.
  assert (Hnone : forall r tbl, (forall out t, r = Ok out -> t ∉ out) -> poll_outcome from_chain tbl tbl r).
  { intros r tbl Hr. split; [done|]. intros out t Hout Ht. by destruct (Hr out t). }
  unfold pg_retry_poll, retry_poll_account. cbn [fetch_retry pg_retriable].
  unfold pg_fetch_retry. rewrite pg_query_cases. destruct (fault OpFetchRetry); [by apply Hnone|].
  cbn [fst snd]. destruct (take _ _) as [|r rows]; cbn [fst snd retry_model].
  { apply Hnone. intros out t [= <-]. apply not_elem_of_nil. }
  destruct (get_traces_for_account _ _ _ _) as [[traces|e|] n] eqn:Hg; cbn [fst snd retry_model];
    [|by apply Hnone..].
  pose proof (client_sound _ _ _ _ _ _ Hg) as Hf.
  pose proof (hands_on_outcome traces _ (retry_model self) Hf (pg_retry_hands_on now traces)) as Ho.
  unfold pg_retry_traces in Ho. by destruct (retry_traces now traces (retry_model self)).
Qed.
End Polls.

(** ** The system *)

Section Relay.
Context {BU : BigUintLib} {TAL : TonAddressLib} {CL : CellLib} {CO : CodecLib}.
Context {JL : JsonLib} {PL : PriceLib} {EM : EventModelLib}.
Context {N D : Type} {RC : RestClient N} {DB : Database D}.

(** [serde_json::to_string] and [from_str] of a trace. *)
Context (json_of_trace : Trace -> fres string) (json_Trace : string -> fres Trace).
Context (parser : TraceParser).

(** The table, the subscribers with their accounts (their own field of the
    model is not used: they share the table), the client of the retrying
    subscriber, what the polls handed on, the events queue, and what the
    ingestor published. *)
Record relay := {
  r_table : trace_table;
  r_subs : list (TonAddress * TONSubscriber N D trace_table);
  r_retry : N;
  r_polled : list Trace;
  r_queue : list string;
  r_events : list Event;
}.

Definition handed {E A} (r : res E (list A)) : list A :=
  match r with Ok l => l | _ => [] end.

Definition ingest (fault : trace_op -> option ferr) (now : Z) (rfc3339 text : string)
    : st trace_table IngestorError (list Event) :=
  handle_transaction (UE := update_events fault now) (TPT := trace_parser_trait rfc3339)
    json_Trace parser text.

(** One step: a poll, a retry, a trace put on the queue, an item ingested.
    Items stay on the queue: they may be delivered again. *)
Inductive relay_step : relay -> relay -> Prop :=
| relay_poll fault now k account sub r out sub' :
    r_subs r !! k = Some (account, sub) ->
    pg_poll_account fault now account (set_model (r_table r) sub) = (out, sub') ->
    relay_step r {|
      r_table := ton_trace_model sub';
      r_subs := <[k := (account, sub')]> (r_subs r);
      r_retry := r_retry r;
      r_polled := r_polled r ++ handed out;
      r_queue := r_queue r;
      r_events := r_events r |}
| relay_retry fault now account r out sub' :
    pg_retry_poll fault now account {| retry_client := r_retry r; retry_model := r_table r |} = (out, sub') ->
    relay_step r {|
      r_table := retry_model sub';
      r_subs := r_subs r;
      r_retry := retry_client sub';
      r_polled := r_polled r ++ handed out;
      r_queue := r_queue r;
      r_events := r_events r |}
| relay_enqueue t text r :
    t ∈ r_polled r -> make_queue_item json_of_trace t = Ok text ->
    relay_step r {|
      r_table := r_table r;
      r_subs := r_subs r;
      r_retry := r_retry r;
      r_polled := r_polled r;
      r_queue := r_queue r ++ [text];
      r_events := r_events r |}
| relay_ingest fault now rfc3339 text r out tbl :
    text ∈ r_queue r -> ingest fault now rfc3339 text (r_table r) = (out, tbl) ->
    relay_step r {|
      r_table := tbl;
      r_subs := r_subs r;
      r_retry := r_retry r;
      r_polled := r_polled r;
      r_queue := r_queue r;
      r_events := r_events r ++ handed out |}.

(** ** The invariant *)

Context (from_chain : Trace -> Prop).
Context (client_sound : forall account ids lt n traces n',
  get_traces_for_account (N := N) account ids lt n = (Ok traces, n') -> Forall from_chain traces).
Context (json_roundtrip : forall t text,
  from_chain t -> json_of_trace t = inr text -> json_Trace text = inr t).

(** A trace that may be published: the client returned it, it is complete, and
    it has a row. *)
Definition publishable (tbl : gmap string TONTrace) (t : Trace) : Prop :=
  from_chain t /\ is_incomplete t = false /\ is_Some (tbl !! trace_id t).

Record relay_ok (r : relay) : Prop := {
  ok_table : table_ok (r_table r);
  ok_polled t : t ∈ r_polled r -> publishable (r_table r) t;
  ok_queue text : text ∈ r_queue r ->
    exists t, publishable (r_table r) t /\ json_of_trace t = inr text;
  ok_events e : e ∈ r_events r ->
    exists t rfc3339 events, publishable (r_table r) t /\
      parse_trace rfc3339 parser t = Ok events /\ e ∈ events;
}.

Lemma publishable_mono tbl tbl' t :
  rtc (table_step false) tbl tbl' -> publishable tbl t -> publishable tbl' t.
Proof. intros Hs (H1 & H2 & H3). split_and!; [done..|]. by eapply rtc_dom. Qed.

Lemma rtc_table_ok d tbl tbl' : rtc (table_step d) tbl tbl' -> table_ok tbl -> table_ok tbl'.
Proof. apply rtc_invariant. intros s s'. apply table_step_ok. Qed.

(** The invariant survives the queries of a step, for what was there before. *)
Lemma relay_ok_table r tbl :
  relay_ok r -> rtc (table_step false) (r_table r) tbl ->
  relay_ok {| r_table := tbl; r_subs := r_subs r; r_retry := r_retry r;
              r_polled := r_polled r; r_queue := r_queue r; r_events := r_events r |}.
Proof.
  intros [H1 H2 H3 H4] Hs. split; cbn [r_table r_polled r_queue r_events].
  - by eapply rtc_table_ok.
  - intros t Ht. eapply publishable_mono; [exact Hs|by apply H2].
  - intros text Ht. destruct (H3 text Ht) as (t & Hp & Hj). exists t.
    split; [by eapply publishable_mono|done].
  - intros e He. destruct (H4 e He) as (t & now & evs & Hp & Hr & Hin). exists t, now, evs.
    split_and!; [by eapply publishable_mono|done..].
Qed.

Lemma handed_outcome tbl tbl' r t :
  poll_outcome from_chain tbl tbl' r -> t ∈ handed r -> publishable tbl' t.
Proof.
  intros [_ H] Ht. destruct r as [out|e|]; cbn [handed] in Ht; [|by apply not_elem_of_nil in Ht..].
  by apply (H out t).
Qed.

(** A poll adds what it hands on. *)
Lemma relay_ok_polled r tbl subs retry out :
  relay_ok r -> poll_outcome from_chain (r_table r) tbl out ->
  relay_ok {| r_table := tbl; r_subs := subs; r_retry := retry;
              r_polled := r_polled r ++ handed out; r_queue := r_queue r; r_events := r_events r |}.
Proof.
  intros Hok Ho. destruct (relay_ok_table r tbl Hok (proj1 Ho)) as [H1 H2 H3 H4].
  split; [done| |done..]. cbn [r_polled r_table]. intros t [Ht|Ht]%elem_of_app; [by apply H2|].
  by eapply handed_outcome.
Qed.

Lemma ingest_moves fault now rfc3339 text : Moves (table_step false) (ingest fault now rfc3339 text).
Proof. unfold ingest, handle_transaction, trait_update_events. apply _. Qed.

Lemma ingest_Ok fault now rfc3339 text tbl events tbl' :
  ingest fault now rfc3339 text tbl = (Ok events, tbl') ->
  exists t, json_Trace text = inr t /\ parse_trace rfc3339 parser t = Ok events.
Proof.
  unfold ingest, handle_transaction. intros H.
  apply st_bind_Ok in H as (t & s1 & Ht & H). destruct (json_Trace text) as [e|t0]; [done|].
  injection Ht as <- <-. apply st_bind_Ok in H as (evs & s2 & He & H). injection He as He <-.
  apply map_err_Ok in He. cbv zeta in H. apply st_bind_Ok in H as (u & s3 & _ & H).
  injection H as <- _. by exists t0.
Qed.

Lemma relay_step_ok r r' : relay_step r r' -> relay_ok r -> relay_ok r'.
Proof.
  intros Hs Hok. destruct Hs as [fault now k account sub r out sub' Hk Hp
    |fault now account r out sub' Hp|t text r Ht Hj|fault now rfc3339 text r out tbl Ht Hi].
  - pose proof (poll_account_outcome fault from_chain client_sound now account
      (set_model (r_table r) sub)) as Ho. rewrite Hp in Ho. by apply relay_ok_polled.
  - pose proof (retry_poll_outcome fault from_chain client_sound now account
      {| retry_client := r_retry r; retry_model := r_table r |}) as Ho.
    rewrite Hp in Ho. by apply relay_ok_polled.
  - destruct Hok as [H1 H2 H3 H4]. split; [done..| |done]. cbn [r_queue r_table].
    intros text' [Ht'|Ht'%list_elem_of_singleton]%elem_of_app; [by apply H3|]. subst text'.
    exists t. split; [by apply H2|]. unfold make_queue_item in Hj.
    apply map_err_Ok in Hj. by apply fr_Ok in Hj.
  - pose proof (ingest_moves fault now rfc3339 text (r_table r)) as Hm. rewrite Hi in Hm.
    destruct (relay_ok_table r tbl Hok Hm) as [H1 H2 H3 H4]. split; [done..|].
    cbn [r_events r_table]. intros e [He|He]%elem_of_app; [by apply H4|].
    destruct out as [events|err|]; cbn [handed] in He; [|by apply not_elem_of_nil in He..].
    destruct (ingest_Ok _ _ _ _ _ _ _ Hi) as (t' & Hj & Hparse).
    destruct (H3 text Ht) as (t & Hpub & Htext).
    rewrite (json_roundtrip t text (proj1 Hpub) Htext) in Hj. injection Hj as <-.
    by exists t, rfc3339, events.
Qed.

(** C11. End to end: whatever the subscribers, the retries and the ingestor do,
    in any order and with any failures, every event published comes from a
    complete trace that the client returned and that has a row, and names a
    transaction of that trace on the contract it is about, except the report
    that a message cannot be executed, which names only the trace itself. *)
Theorem published_events r r' e :
  relay_ok r -> rtc relay_step r r' -> e ∈ r_events r' ->
  exists t, from_chain t /\ is_incomplete t = false /\
    is_Some ((r_table r' : gmap string TONTrace) !! trace_id t) /\
    event_names parser t e.
Proof.
  intros Hok Hrun He.
  assert (Hok' : relay_ok r').
  { revert Hok. apply (rtc_invariant relay_step relay_ok); [|exact Hrun].
    intros s s'. apply relay_step_ok. }
  destruct (ok_events _ Hok' e He) as (t & now & events & (H1 & H2 & H3) & Hparse & Hin).
  exists t. split_and!; [done..|]. by eapply parse_trace_event_names.
Qed.
End Relay.

(** ** Progress *)

Section Progress.
Context {BU : BigUintLib} {TAL : TonAddressLib} {CL : CellLib} {CO : CodecLib}.
Context {JL : JsonLib} {PL : PriceLib} {EM : EventModelLib}.
Context {N D : Type} {RC : RestClient N} {DB : Database D}.
Context (json_of_trace : Trace -> fres string) (json_Trace : string -> fres Trace).
Context (parser : TraceParser).

Lemma pg_store_succeeds now traces tbl : exists out tbl',
  store_traces (AU := pg_atomic_upsert pg_no_fault) now traces tbl = (Ok out, tbl').
Proof.
  revert tbl. induction traces as [|t traces IH]; intros tbl; [by do 2 eexists|].
  cbn [store_traces upsert_and_return_if_changed pg_atomic_upsert].
  assert (exists c tbl1, pg_upsert pg_no_fault now (TONTrace_from now t) tbl = (Ok c, tbl1)) as (c & tbl1 & Hu).
  { unfold pg_upsert. rewrite pg_query_cases. cbn [pg_no_fault]. by do 2 eexists. }
  destruct (IH tbl1) as (out & tbl' & Hs). do 2 eexists. rewrite st_bind_run, Hu, st_bind_run, Hs. done.
Qed.

(** A poll in which nothing fails hands on every fresh trace of the response,
    and each has a row. *)
Lemma poll_hands_on now account (self : TONSubscriber N D trace_table) traces n t :
  get_traces_for_account (Some account) None
    (if decide (latest_lt self = -1) then None else Some (latest_lt self)) (client self) =
    (Ok traces, n) ->
  NoDup (map trace_id traces) -> t ∈ traces ->
  fresh (AU := pg_atomic_upsert pg_no_fault) (ton_trace_model self) t ->
  exists out self', pg_poll_account pg_no_fault now account self = (Ok out, self') /\ t ∈ out /\
    is_Some ((ton_trace_model self' : gmap string TONTrace) !! trace_id t).
Proof.
  intros Hg Hnd Ht Hfresh.
  destruct (max_end_lt traces) as [m|] eqn:Em; [|by destruct traces; [apply not_elem_of_nil in Ht|]].
  destruct (pg_store_succeeds now traces (ton_trace_model self)) as (out & tbl & Hs).
  destruct (poll_account_step (AU := pg_atomic_upsert pg_no_fault) now account self traces n m Hg Em)
    as (d & Hp). rewrite Hs in Hp. cbn [map_err] in Hp.
  exists out. eexists. split; [exact Hp|].
  assert (Hin : t ∈ out).
  { destruct (store_traces_ok (AU := pg_atomic_upsert pg_no_fault) _ _ _ _ _ Hnd Hs) as (-> & _).
    by apply list_elem_of_filter. }
  split; [done|]. cbn [ton_trace_model].
  by destruct (proj2 (pg_store_hands_on pg_no_fault now traces) _ _ _ Hs t Hin) as (_ & _ & H).
Qed.

(** Ingesting a trace that parses notes its events on its row. *)
Lemma ingest_records now rfc3339 text t events tbl row :
  json_Trace text = inr t -> parse_trace rfc3339 parser t = Ok events -> events <> [] ->
  (tbl : gmap string TONTrace) !! trace_id t = Some row ->
  exists tbl' row', ingest json_Trace parser pg_no_fault now rfc3339 text tbl = (Ok events, tbl') /\
    (tbl' : gmap string TONTrace) !! trace_id t = Some row' /\
    tt_events row' = Some (event_summaries events).
Proof.
  intros Hj Hp Hne Hrow. unfold ingest, handle_transaction.
  rewrite st_bind_run. unfold st_lift at 1. rewrite Hj.
  rewrite st_bind_run. unfold st_lift, trait_parse_trace, trace_parser_trait. rewrite Hp.
  cbn [map_err]. cbv zeta. rewrite st_bind_run, bool_decide_eq_false_2, st_map_err_run by (by destruct events).
  unfold trait_update_events, update_events. rewrite pg_query_cases. cbn [pg_no_fault map_err].
  do 2 eexists. split; [done|]. split; [|].
  - unfold pg_update. cbn [snd]. by rewrite lookup_alter_eq, Hrow.
  - done.
Qed.

(** C20. Progress: when a poll gets a complete trace that is new, and it parses
    into events, the system can publish them and note them on the trace's row:
    nothing but a failure is in the way. *)
Theorem trace_gets_published (r : relay (N := N) (D := D)) k account sub traces n t text rfc3339 events :
  r_subs r !! k = Some (account, sub) ->
  get_traces_for_account (Some account) None
    (if decide (latest_lt sub = -1) then None else Some (latest_lt sub)) (client sub) = (Ok traces, n) ->
  NoDup (map trace_id traces) -> t ∈ traces ->
  fresh (AU := pg_atomic_upsert pg_no_fault) (r_table r) t ->
  json_of_trace t = inr text -> json_Trace text = inr t ->
  parse_trace rfc3339 parser t = Ok events -> events <> [] ->
  exists r' row, rtc (relay_step json_of_trace json_Trace parser) r r' /\ events ⊆ r_events r' /\
    (r_table r' : gmap string TONTrace) !! trace_id t = Some row /\
    tt_events row = Some (event_summaries events).
Proof.
  intros Hk Hg Hnd Ht Hfresh Hj Hj' Hp Hne.
  destruct (poll_hands_on 0 account (set_model (r_table r) sub) traces n t Hg Hnd Ht Hfresh)
    as (out & sub' & Hpoll & Hout & [row Hrow]).
  destruct (ingest_records 0 rfc3339 text t events (ton_trace_model sub') row Hj' Hp Hne Hrow)
    as (tbl & row' & Hi & Hrow' & Hev).
  eexists _, row'. split.
  - eapply rtc_l; [eapply relay_poll; [exact Hk|exact Hpoll]|].
    eapply rtc_l; [eapply (relay_enqueue _ _ _ t text)|].
    { cbn [r_polled handed]. apply elem_of_app. by right. }
    { unfold make_queue_item. by rewrite Hj. }
    eapply rtc_l; [eapply (relay_ingest _ _ _ pg_no_fault 0 rfc3339 text)|apply rtc_refl].
    { cbn [r_queue]. apply elem_of_app. right. by left. }
    exact Hi.
  - cbn [r_events r_table handed]. split_and!; [set_solver|exact Hrow'|exact Hev].
Qed.
End Progress.

(** ** Applications at concrete inputs *)

From S2P Require Import Instances.

(** A table after a trace was stored, had a retry, and its events noted. *)
Definition ex_empty : gmap string TONTrace := ∅.
Definition ex_stored : trace_table := snd (pg_upsert (fun _ => None) 5 (TONTrace_from 5 ex_two) ex_empty).
Definition ex_noted : trace_table := snd (update_events (fun _ => None) 6 "trace" [] ex_stored).

Lemma table_typed_witness : table_ok ex_noted.
Proof.
  apply (table_typed ex_empty ex_noted); [|apply map_Forall_empty].
  eapply rtc_l; [apply ts_upsert|]. eapply rtc_l; [apply ts_events|]. constructor.
Defined.

(** A client that knows one complete trace, of a call and its gas payment. *)
Inductive small_chain : Set := SmallChain.

#[export] Instance small_client : RestClient small_chain := {|
  post_v3_message boc := st_err (BadResponse "no message");
  get_traces_for_account account ids start n := (Ok [ex_two], n);
  get_account_states l := st_err (BadResponse "no states");
|}.

Definition ex_json_of (_ : Trace) : fres string := inr "{}".

Definition ex_subscriber : TONSubscriber small_chain (option Z) trace_table := {|
  client := SmallChain; latest_lt := -1; db := None; context := "ton2"; chain_name := "ton2";
  ton_trace_model := ex_empty |}.

Definition ex_relay : relay (N := small_chain) (D := option Z) := {|
  r_table := ex_empty; r_subs := [(ex_address 1, ex_subscriber)]; r_retry := SmallChain;
  r_polled := []; r_queue := []; r_events := [] |}.

Lemma ex_relay_ok : relay_ok ex_json_of ex_parser (eq ex_two) ex_relay.
Proof.
  split; cbn; [apply map_Forall_empty|..]; intros x Hx; by apply not_elem_of_nil in Hx.
Qed.

Lemma small_client_sound account ids lt (n : small_chain) traces n' :
  get_traces_for_account account ids lt n = (Ok traces, n') -> Forall (eq ex_two) traces.
Proof. intros [= <- <-]. by constructor. Qed.

Lemma ex_events_two : length (ex_events ex_two) = 2%nat.
Proof. by vm_compute. Qed.

Lemma ex_ingested fault now rfc3339 tbl :
  fault (OpUpdateEvents "trace") = None -> rfc3339 = "now" ->
  handed (fst (ingest ex_json ex_parser fault now rfc3339 "{}" tbl)) = ex_events ex_two.
Proof.
  intros Hf ->. unfold ingest, handle_transaction. rewrite st_bind_run. unfold st_lift at 1, ex_json.
  rewrite st_bind_run. unfold st_lift, trait_parse_trace, trace_parser_trait. rewrite ex_two_ok.
  cbn [map_err]. cbv zeta. rewrite st_bind_run.
  case_bool_decide; [done|]. rewrite st_map_err_run. unfold trait_update_events, update_events.
  rewrite pg_query_cases. change (trace_id ex_two) with "trace". rewrite Hf. done.
Qed.

(** Polling, queueing and ingesting that trace. *)
Lemma ex_relay_run : exists r, rtc (relay_step ex_json_of ex_json ex_parser) ex_relay r /\
  r_events r = ex_events ex_two /\ r_events r <> [].
Proof.
  assert (Hp : fst (pg_poll_account (fun _ => None) 5 (ex_address 1) ex_subscriber) = Ok [ex_two])
    by reflexivity.
  destruct (pg_poll_account (fun _ => None) 5 (ex_address 1) ex_subscriber) as [out sub] eqn:E.
  cbn [fst] in Hp. subst out. eexists. split.
  - eapply rtc_l; [eapply (relay_poll _ _ _ (fun _ => None) 5 0); [done|exact E]|].
    eapply rtc_l; [eapply (relay_enqueue _ _ _ ex_two "{}"); [by left|done]|].
    eapply rtc_l; [eapply (relay_ingest _ _ _ (fun _ => None) 6 "now" "{}"); [by left|]|constructor].
    apply surjective_pairing.
  - pose proof (ex_ingested (fun _ => None) 6 "now" (ton_trace_model sub) eq_refl eq_refl) as Hi.
    cbn [r_events r_table app]. split; [exact Hi|]. intros Hn.
    assert (He : ex_events ex_two = []) by (rewrite <- Hi; exact Hn).
    pose proof ex_events_two as Hlen. by rewrite He in Hlen.
Qed.

Lemma published_events_witness :
  exists r e, e ∈ r_events r /\
  exists t, ex_two = t /\ is_incomplete t = false /\
    is_Some ((r_table (N := small_chain) (D := option Z) r : gmap string TONTrace) !! trace_id t) /\
    event_names ex_parser t e.
Proof.
  destruct ex_relay_run as (r & Hrun & _ & Hne). exists r.
  destruct (r_events r) as [|e events] eqn:E; [done|]. exists e. split; [by left|].
  apply (published_events ex_json_of ex_json ex_parser (eq ex_two)
    small_client_sound
    (fun t text Ht _ => f_equal inr Ht) ex_relay r e ex_relay_ok Hrun).
  rewrite E. by left.
Defined.

Lemma ex_events_some : ex_events ex_two <> [].
Proof. intros Hn. pose proof ex_events_two as Hlen. by rewrite Hn in Hlen. Qed.

Lemma ex_fresh : fresh (AU := pg_atomic_upsert pg_no_fault) (r_table ex_relay) ex_two.
Proof. split; [|done]. cbn [stored pg_atomic_upsert r_table ex_relay]. unfold ex_empty. by rewrite lookup_empty. Qed.

Lemma trace_gets_published_witness :
  exists r' row, rtc (relay_step ex_json_of ex_json ex_parser) ex_relay r' /\
    ex_events ex_two ⊆ r_events r' /\
    (r_table r' : gmap string TONTrace) !! "trace" = Some row /\
    tt_events row = Some (event_summaries (ex_events ex_two)).
Proof.
  exact (trace_gets_published ex_json_of ex_json ex_parser ex_relay 0 (ex_address 1) ex_subscriber
    [ex_two] SmallChain ex_two "{}" "now" (ex_events ex_two) eq_refl eq_refl
    (NoDup_singleton "trace") (list_elem_of_here ex_two []) ex_fresh eq_refl eq_refl ex_two_ok
    ex_events_some).
Defined.
