(* ===== verification/Binaries.v ===== *)
(** * The binaries: [bin/], and [includer.rs]

    Each [main] reads the configuration, connects to the services, builds its
    part of the relayer and runs it until a signal.  A [main] is modelled by
    what it does, in order: a log of actions.  What the services answer, and
    when signals come, is up to the host it runs on. *)

From Stdlib Require Import ZArith Lia Strings.Byte Strings.Ascii.
From stdpp Require Import base strings countable gmap list relations.
From S2P Require Import Prelude RustStd Foreign Types GmpTypes CellCodec Messages Gas TraceParser Wallet Broadcaster Client TraceStore Subscriber.

Inductive unix_signal : Set := SIGINT | SIGTERM.

(** [relayer_core::gmp_api::gmp_types::TaskKind], the kinds named here. *)
Inductive TaskKind : Set := Refund | Execute | GatewayTx.

(** Errors under [anyhow::Error]. *)
Inductive MainError : Set :=
| MainForeign (e : ferr)
| MainSubscriber (e : SubscriberError).

(** The names of the queues. *)
Definition EVENTS : string := "events".
Definition INCLUDER_TASKS : string := "includer_tasks".
Definition INGESTOR_TASKS : string := "ingestor_tasks".
Definition CONSTRUCT_PROOF : string := "construct_proof".

Definition MIN_BALANCE : Z := 10000000000.

Section Binaries.
Context {BU : BigUintLib} {TAL : TonAddressLib} {CL : CellLib} {CO : CodecLib}.
Context {JL : JsonLib} {CET : ClientErrorText}.
Context {N D S : Type} {DB : Database D}.

(** [relayer_core]'s [Includer] over its [IncluderWorker]: what [TONIncluder]
    puts into them, apart from handles on services. *)
Record Includer := {
  includer_broadcaster : TONBroadcaster (G:=TONGasEstimator);
  includer_refund_manager : unit;
  includer_proof_queue : string;
}.

(** What a [main] does.  The [Spawn] actions start a task, the [Run] actions
    and [CheckAccounts] a loop that the main waits for. *)
Inductive action : Type :=
| SetupLogging
| NewQueue (address name : string) (workers : Z)
| CloseQueue (name : string)
| PostgresConnect (url : string)
| PoolConnect (url : string)
| ConstructGmpApi
| RedisOpen (server : string)
| RedisConnect
| SetupHeartbeat (name : string) (cancellable : bool)
| ListenFor (s : unix_signal)
| RpcClientNew (url api_key : string) (max_retries connect_timeout timeout : Z)
| SpawnSubscriber (account : TonAddress) (sub : TONSubscriber N D S)
| SpawnRetries (account : TonAddress) (sub : RetryTONSubscriber N S)
| SpawnIncluder (includer : Includer) (tasks : string)
| RunIngestor (parser : TraceParser) (ton_trace_model : S) (tasks events : string)
| RunDistributor (context : string) (refunds : bool) (kinds : list TaskKind) (includer ingestor : string)
| CheckAccounts (addresses : list TonAddress) (min_balance : Z) (forever : bool)
| RunHeartbeats
| Selected (s : option unix_signal) (* the branch of [select!]: a signal, or the task ended *)
| CancelToken
| AbortHandle (k : nat)
| AwaitHandle
| FlushLogs.

(** The host of a process: its environment and files, which actions fail,
    what the database holds, and how the [select!] of the main ends. *)
Record Host := {
  NETWORK : option string;
  config_from_yaml : string -> fres TONConfig;
  fails : list action -> action -> option ferr;
  (** the builder of the HTTP transport *)
  http_build : list action -> Z -> Z -> Z -> fres unit;
  rpc_client : N;
  postgres_db : list action -> D;
  ton_traces : S;
  received : list action -> unix_signal;
  selected : list action -> option unix_signal;
  (** polling a [JoinHandle] that was ready before *)
  poll_again : list action -> res MainError unit;
}.

Definition main_of (A : Type) : Type := st (list action) MainError A.

Definition note (a : action) : main_of unit := fun l => (Ok tt, l ++ [a]).

Definition expect {E A} (m : res E A) : res MainError A :=
  match m with Ok a => Ok a | _ => Panic end.

Definition foreign {A} (m : fres A) : res MainError A := map_err MainForeign (fr m).

Section Main.
Context (h : Host).

Definition attempt (a : action) : main_of unit := fun l =>
  (match fails h l a with Some e => Err (MainForeign e) | None => Ok tt end, l ++ [a]).

(** The first lines of every [main]. *)
Definition read_config : main_of TONConfig :=
  let! network := st_lift (expect (ok_or tt (NETWORK h))) in
  st_lift (foreign (config_from_yaml h ("config." +:+ network +:+ ".yaml"))).

Definition new_queue (config : TONConfig) (name : string) : main_of unit :=
  note (NewQueue (queue_address (common_config config)) name (num_workers (common_config config))).

Definition connect_redis (config : TONConfig) : main_of unit :=
  do! attempt (RedisOpen (redis_server (common_config config))) in
  attempt RedisConnect.

Definition listen : main_of unit :=
  do! attempt (ListenFor SIGINT) in
  attempt (ListenFor SIGTERM).

(** [TONRpcClient::new] with the arguments of the mains, and [expect]. *)
Definition new_client (config : TONConfig) : main_of TONRpcClient := fun l =>
  (expect (TONRpcClient_new (http_build h l) (ton_rpc config) (ton_api_key config) 5 5 30),
   l ++ [RpcClientNew (ton_rpc config) (ton_api_key config) 5 5 30]).

Definition flush_logs : main_of unit := fun l =>
  (expect (fst (attempt FlushLogs l)), l ++ [FlushLogs]).

Definition select : main_of (option unix_signal) := fun l =>
  (Ok (selected h l), l ++ [Selected (selected h l)]).

(** The addresses of the wallets, as the loops of the mains collect them. *)
Definition wallet_addresses (config : TONConfig) : res MainError (list TonAddress) :=
  res_mapM (fun w => foreign (TonAddress_from_str (wc_address w))) (config_wallets config).

(** ** [ton_subscriber.rs] *)

Fixpoint spawn_subscribers (config : TONConfig) (accounts : list TonAddress) : main_of unit :=
  match accounts with
  | [] => st_ret tt
  | acct :: accounts' =>
      let! l := st_get in
      let! ton_sub := st_lift (map_err MainSubscriber
        (TONSubscriber_new (rpc_client h) (postgres_db h l) (TonAddress_to_string acct)
           (config_chain_name (common_config config)) (ton_traces h))) in
      do! note (SpawnSubscriber acct ton_sub) in
      spawn_subscribers config accounts'
  end.

Fixpoint abort_handles (from count : nat) : main_of unit :=
  match count with
  | O => st_ret tt
  | Datatypes.S count' =>
      do! note (AbortHandle from) in
      abort_handles (Datatypes.S from) count'
  end.

Definition ton_subscriber_main : main_of unit :=
  let! config := read_config in
  do! note SetupLogging in
  do! new_queue config EVENTS in
  do! attempt (PostgresConnect (postgres_url (common_config config))) in
  let! gateway_account := st_lift (foreign (TonAddress_from_base64_url (ton_gateway config))) in
  let! gas_service_account := st_lift (foreign (TonAddress_from_base64_url (ton_gas_service config))) in
  let! its_account := st_lift (foreign (TonAddress_from_base64_url (ton_its config))) in
  do! listen in
  do! connect_redis config in
  do! note (SetupHeartbeat "heartbeat:subscriber" false) in
  do! attempt (PoolConnect (postgres_url (common_config config))) in
  let! client := new_client config in
  do! spawn_subscribers config [gateway_account; gas_service_account; its_account] in
  let! retry_subscriber := st_lift (map_err MainSubscriber
    (RetryTONSubscriber_new (rpc_client h) (ton_traces h))) in
  do! note (SpawnRetries gateway_account retry_subscriber) in
  let! l := st_get in
  do! note (Selected (Some (received h l))) in
  do! abort_handles 0 4 in
  do! note (CloseQueue EVENTS) in
  flush_logs.

(** ** [ton_ingestor.rs] *)

Definition ton_ingestor_main : main_of unit :=
  let! config := read_config in
  do! note SetupLogging in
  do! new_queue config INGESTOR_TASKS in
  do! new_queue config EVENTS in
  do! attempt (PostgresConnect (postgres_url (common_config config))) in
  do! attempt (PoolConnect (postgres_url (common_config config))) in
  do! attempt ConstructGmpApi in
  let! our_addresses := st_lift (wallet_addresses config) in
  let! gateway := st_lift (foreign (TonAddress_from_str (ton_gateway config))) in
  let! gas_service := st_lift (foreign (TonAddress_from_str (ton_gas_service config))) in
  let! its := st_lift (foreign (TonAddress_from_str (ton_its config))) in
  let our_addresses := our_addresses ++ [gateway; gas_service] in
  let gas_calculator := GasCalculator_new our_addresses in
  let parser := TraceParser_new gateway gas_service its gas_calculator
                  (config_chain_name (common_config config)) in
  do! connect_redis config in
  do! attempt (RunIngestor parser (ton_traces h) INGESTOR_TASKS EVENTS) in
  flush_logs.

(** ** [ton_account_checker.rs] *)

Definition ton_account_checker_main : main_of unit :=
  let! config := read_config in
  do! note SetupLogging in
  do! listen in
  do! connect_redis config in
  do! note (SetupHeartbeat "heartbeat:account_checker" false) in
  let! our_addresses := st_lift (wallet_addresses config) in
  let! gateway := st_lift (foreign (TonAddress_from_str (ton_gateway config))) in
  let! gas_service := st_lift (foreign (TonAddress_from_str (ton_gas_service config))) in
  let! its := st_lift (foreign (TonAddress_from_str (ton_its config))) in
  let our_addresses := our_addresses ++ [gateway; gas_service; its] in
  let! client := new_client config in
  do! note (CheckAccounts our_addresses MIN_BALANCE true) in
  let! _ := select in
  flush_logs.

(** ** [ton_distributor.rs] *)

Definition ton_distributor_main : main_of unit :=
  let! config := read_config in
  do! note SetupLogging in
  do! new_queue config INCLUDER_TASKS in
  do! new_queue config INGESTOR_TASKS in
  do! attempt (PostgresConnect (postgres_url (common_config config))) in
  do! attempt (PoolConnect (postgres_url (common_config config))) in
  do! attempt ConstructGmpApi in
  do! connect_redis config in
  do! note (SetupHeartbeat "heartbeat:distributor" false) in
  do! listen in
  do! note (RunDistributor "default" (refunds_enabled (common_config config))
              [Refund; Execute; GatewayTx] INCLUDER_TASKS INGESTOR_TASKS) in
  let! _ := select in
  do! note (CloseQueue INGESTOR_TASKS) in
  do! note (CloseQueue INCLUDER_TASKS) in
  flush_logs.

(** ** [ton_heartbeat_monitor.rs] *)

Definition ton_heartbeat_monitor_main : main_of unit :=
  let! config := read_config in
  attempt RunHeartbeats.

(** ** [includer.rs] and [ton_includer.rs] *)

(** [TONIncluder::new], over [TONIncluder_broadcaster]. *)
Definition TONIncluder_new (build : Z -> Z -> Z -> fres unit) (config : TONConfig)
    (construct_proof_queue : string) : res BroadcasterError Includer :=
  let? broadcaster := TONIncluder_broadcaster
    (TONRpcClient_new build (ton_rpc config) (ton_api_key config) 5 5 30) config in
  let? refund_manager := generic_display RefundManager.new in
  Ok {| includer_broadcaster := broadcaster;
        includer_refund_manager := refund_manager;
        includer_proof_queue := construct_proof_queue |}.

(** The [main] up to the start of the includer. *)
Definition includer_setup : main_of Includer :=
  let! config := read_config in
  do! note SetupLogging in
  do! new_queue config INCLUDER_TASKS in
  do! new_queue config CONSTRUCT_PROOF in
  do! connect_redis config in
  do! attempt (PostgresConnect (postgres_url (common_config config))) in
  do! attempt (PoolConnect (postgres_url (common_config config))) in
  do! attempt ConstructGmpApi in
  let! l := st_get in
  let! ton_includer := st_lift (expect (TONIncluder_new (http_build h l) config CONSTRUCT_PROOF)) in
  do! listen in
  do! note (SetupHeartbeat "heartbeat:includer" true) in
  st_ret ton_includer.

(** [handle.await]: after a [select!] that the handle ended, its second poll. *)
Definition await_handle (ended : option unix_signal) : main_of unit := fun l =>
  (match ended with Some _ => Ok tt | None => poll_again h l end, l ++ [AwaitHandle]).

Definition run_includer (ton_includer : Includer) : main_of unit :=
  do! note (SpawnIncluder ton_includer INCLUDER_TASKS) in
  let! ended := select in
  do! (match ended with
       | Some SIGINT => note CancelToken
       | Some SIGTERM => note CancelToken
       | None => note CancelToken
       end) in
  do! note (CloseQueue INCLUDER_TASKS) in
  do! note (CloseQueue CONSTRUCT_PROOF) in
  do! await_handle ended in
  flush_logs.

Definition ton_includer_main : main_of unit :=
  let! ton_includer := includer_setup in
  run_includer ton_includer.
End Main.
End Binaries.

(** ** What the mains do with one configuration *)

Section BinariesProofs.
Context {BU : BigUintLib} {TAL : TonAddressLib} {CL : CellLib} {CO : CodecLib}.
Context {JL : JsonLib} {CET : ClientErrorText}.
Context {N D S : Type} {DB : Database D}.

Notation action := (@action TAL N D S).
Notation Host := (@Host TAL N D S).

(** Doing one more action, with [P]. *)
Definition adds (P : action -> Prop) : relation (list action) :=
  fun l l' => exists a, P a /\ l' = l ++ [a].

Lemma adds_forall P {A} (m : main_of A) l : Moves (adds P) m -> Forall P l -> Forall P (snd (m l)).
Proof.
  intros Hm. apply (rtc_invariant (adds P) (Forall P)); [|apply Hm].
  intros l1 l2 (a & Ha & ->) Hl. apply Forall_app. by split; [|constructor].
Qed.

Lemma adds_one P a l : P a -> rtc (adds P) l (l ++ [a]).
Proof. intros Ha. apply rtc_once. by exists a. Qed.

Lemma note_adds (P : action -> Prop) a : P a -> Moves (adds P) (note a).
Proof. intros Ha l. by apply adds_one. Qed.

Lemma attempt_adds (P : action -> Prop) (h : Host) a : P a -> Moves (adds P) (attempt h a).
Proof. intros Ha l. by apply adds_one. Qed.

Lemma new_client_adds (P : action -> Prop) (h : Host) config :
  P (RpcClientNew (ton_rpc config) (ton_api_key config) 5 5 30) -> Moves (adds P) (new_client h config).
Proof. intros Ha l. by apply adds_one. Qed.

Lemma flush_adds (P : action -> Prop) (h : Host) : P FlushLogs -> Moves (adds P) (flush_logs h).
Proof. intros Ha l. by apply adds_one. Qed.

Lemma select_adds (P : action -> Prop) (h : Host) :
  (forall s, P (Selected s)) -> Moves (adds P) (select h).
Proof. intros Ha l. by apply adds_one. Qed.

Lemma await_adds (P : action -> Prop) (h : Host) ended :
  P AwaitHandle -> Moves (adds P) (await_handle h ended).
Proof. intros Ha l. by apply adds_one. Qed.

Lemma abort_adds (P : action -> Prop) from count :
  (forall k, P (AbortHandle k)) -> Moves (adds P) (abort_handles (N := N) (D := D) (S := S) from count).
Proof.
  intros Ha. revert from. induction count as [|n IH]; intros from; cbn [abort_handles]; [apply _|].
  apply st_bind_moves; [by apply note_adds|intros _; apply IH].
Qed.

(** The configuration a host has. *)
Definition reads (h : Host) (config : TONConfig) : Prop :=
  exists network, NETWORK h = Some network /\
    config_from_yaml h ("config." +:+ network +:+ ".yaml") = inr config.

Lemma read_config_moves R (h : Host) {A} config (f : TONConfig -> main_of (N := N) (D := D) (S := S) A) :
  reads h config -> Moves R (f config) -> Moves R (st_bind (read_config h) f).
Proof.
  intros (network & Hn & Hc) Hf l. unfold read_config. rewrite Hn. cbn [ok_or expect].
  rewrite !st_bind_run. cbn [st_lift fst snd]. rewrite Hc. apply Hf.
Qed.

(** Walks through a [main] to the actions it does, keeping what each value
    read on the way is; what is left are the actions [P] says something of. *)
Ltac walk :=
  repeat lazymatch goal with
  | |- Moves _ (spawn_subscribers _ _ _) => fail
  | |- Moves _ (st_bind (st_lift _) _) => apply st_lift_bind_moves; intros ? ?
  | |- Moves _ (st_bind _ _) => apply st_bind_moves; [|intros ?]
  | |- Moves _ (st_ret _) => apply st_ret_moves
  | |- Moves _ (st_lift _) => apply st_lift_moves
  | |- Moves _ st_get => apply st_get_moves
  | |- Moves _ (note _) => apply note_adds; try done
  | |- Moves _ (attempt _ _) => apply attempt_adds; try done
  | |- Moves _ (new_client _ _) => by apply new_client_adds
  | |- Moves _ (flush_logs _) => by apply flush_adds
  | |- Moves _ (select _) => by apply select_adds
  | |- Moves _ (await_handle _ _) => by apply await_adds
  | |- Moves _ (abort_handles _ _) => by apply abort_adds
  | |- Moves _ (new_queue _ _) => unfold new_queue
  | |- Moves _ (connect_redis _ _) => unfold connect_redis
  | |- Moves _ (listen _) => unfold listen
  end.

(** The three contracts of a configuration, as [from] reads addresses. *)
Definition contracts (from : string -> fres TonAddress) (config : TONConfig)
    (gateway gas_service its : TonAddress) : Prop :=
  from (ton_gateway config) = inr gateway /\ from (ton_gas_service config) = inr gas_service /\
  from (ton_its config) = inr its.

Lemma foreign_Ok {A} (m : fres A) a : foreign m = Ok a -> m = inr a.
Proof. unfold foreign. intros H%map_err_Ok. by apply fr_Ok. Qed.

(** What [ton_subscriber] starts. *)
Definition polls_contracts (config : TONConfig) (a : action) : Prop :=
  match a with
  | SpawnSubscriber account sub =>
      context sub = TonAddress_to_string account /\
      Subscriber.chain_name sub = config_chain_name (common_config config) /\
      exists gateway gas_service its,
        contracts TonAddress_from_base64_url config gateway gas_service its /\
        account ∈ [gateway; gas_service; its]
  | _ => True
  end.

Lemma spawn_subscribers_adds (h : Host) config accounts :
  (forall account, account ∈ accounts -> exists gateway gas_service its,
     contracts TonAddress_from_base64_url config gateway gas_service its /\
     account ∈ [gateway; gas_service; its]) ->
  Moves (adds (polls_contracts config)) (spawn_subscribers h config accounts).
Proof.
  induction accounts as [|a accounts IH]; intros Ha; cbn [spawn_subscribers]; [apply _|].
  walk; cbn beta; [|apply IH; intros b Hb; apply Ha; by right].
  match goal with H : map_err _ _ = Ok _ |- _ => apply map_err_Ok in H; unfold TONSubscriber_new in H;
    apply res_bind_Ok in H as (latest & _ & H); injection H as <- end.
  split_and!; [done..|]. apply Ha. by left.
Qed.

Lemma subscriber_polls (h : Host) config :
  reads h config -> Moves (adds (polls_contracts config)) (ton_subscriber_main h).
Proof.
  intros Hr. unfold ton_subscriber_main. eapply read_config_moves; [exact Hr|].
  walk. apply spawn_subscribers_adds. intros account Haccount.
  do 3 match goal with H : foreign _ = Ok _ |- _ => apply foreign_Ok in H end.
  by do 3 eexists.
Qed.

(** The addresses of the wallets of a configuration, as [from] reads them. *)
Definition wallets_from (from : string -> fres TonAddress) (config : TONConfig)
    (addresses : list TonAddress) : Prop :=
  Forall2 (fun w a => from (wc_address w) = inr a) (config_wallets config) addresses.

Lemma wallet_addresses_Ok config addresses :
  wallet_addresses config = Ok addresses -> wallets_from TonAddress_from_str config addresses.
Proof. intros H%res_mapM_Ok. eapply Forall2_impl; [exact H|]. intros w a. apply foreign_Ok. Qed.

(** What [ton_ingestor] parses with. *)
Definition parses_contracts (config : TONConfig) (a : action) : Prop :=
  match a with
  | RunIngestor parser _ _ _ =>
      contracts TonAddress_from_str config (TraceParser.gateway_address parser)
        (TraceParser.gas_service_address parser) (its_address parser) /\
      TraceParser.chain_name parser = config_chain_name (common_config config) /\
      exists own, wallets_from TonAddress_from_str config own /\
        our_addresses (gas_calculator parser) =
          own ++ [TraceParser.gateway_address parser; TraceParser.gas_service_address parser]
  | _ => True
  end.

Lemma ingestor_parses (h : Host) config :
  reads h config -> Moves (adds (parses_contracts config)) (ton_ingestor_main h).
Proof.
  intros Hr. unfold ton_ingestor_main. eapply read_config_moves; [exact Hr|]. walk.
  do 3 match goal with H : foreign _ = Ok _ |- _ => apply foreign_Ok in H end.
  split; [done|]. split; [done|]. eexists. by split; [apply wallet_addresses_Ok|].
Qed.

(** What [ton_account_checker] watches. *)
Definition watches_accounts (config : TONConfig) (a : action) : Prop :=
  match a with
  | CheckAccounts addresses _ _ =>
      exists own gateway gas_service its, wallets_from TonAddress_from_str config own /\
        contracts TonAddress_from_str config gateway gas_service its /\
        addresses = own ++ [gateway; gas_service; its]
  | _ => True
  end.

Lemma checker_watches (h : Host) config :
  reads h config -> Moves (adds (watches_accounts config)) (ton_account_checker_main h).
Proof.
  intros Hr. unfold ton_account_checker_main. eapply read_config_moves; [exact Hr|]. walk.
  do 3 match goal with H : foreign _ = Ok _ |- _ => apply foreign_Ok in H end.
  do 4 eexists. by split; [apply wallet_addresses_Ok|].
Qed.

(** What [ton_includer] sends with. *)
Definition sends_to_contracts (config : TONConfig) (a : action) : Prop :=
  match a with
  | SpawnIncluder includer _ =>
      let b := includer_broadcaster includer in
      TonAddress_from_base64_url (ton_gateway config) = inr (Broadcaster.gateway_address b) /\
      TonAddress_from_base64_url (ton_gas_service config) = inr (Broadcaster.gas_service_address b) /\
      Broadcaster.chain_name b = config_chain_name (common_config config) /\
      forall a, is_Some (wallets (wallet_manager b) !! a) ->
        exists w, w ∈ config_wallets config /\ TonAddress_from_base64_url (wc_address w) = inr a
  | _ => True
  end.

Lemma TONIncluder_new_contracts build config queue includer tasks :
  TONIncluder_new build config queue = Ok includer ->
  sends_to_contracts config (SpawnIncluder includer tasks).
Proof.
  unfold TONIncluder_new, TONIncluder_broadcaster, generic_display. intros H. res_inv.
  unfold TONBroadcaster_new in *. simplify_eq/=. repeat match goal with H : fr _ = Ok _ |- _ => apply fr_Ok in H end.
  split_and!; try done. intros a. by apply WalletManager_new_from.
Qed.

(** The actions of [ton_includer] before it starts the includer. *)
Definition prepares (a : action) : Prop :=
  match a with
  | SpawnIncluder _ _ | Selected _ | CancelToken | CloseQueue _ | AwaitHandle | FlushLogs => False
  | _ => True
  end.

Lemma includer_setup_prepares (h : Host) : Moves (adds prepares) (includer_setup h).
Proof. unfold includer_setup, read_config. walk. Qed.

Lemma includer_setup_Ok (h : Host) config l includer l' :
  reads h config -> includer_setup h l = (Ok includer, l') ->
  exists build, TONIncluder_new build config CONSTRUCT_PROOF = Ok includer.
Proof.
  intros (network & Hn & Hc) H. unfold includer_setup in H.
  apply st_bind_Ok in H as (config' & l1 & Hr & H).
  unfold read_config in Hr. rewrite Hn in Hr. rewrite st_bind_run in Hr. cbn [st_lift fst expect ok_or] in Hr.
  rewrite Hc in Hr. injection Hr as <- <-.
  do 8 (apply st_bind_Ok in H as (? & ? & ? & H)).
  apply st_bind_Ok in H as (includer' & ? & Hnew & H). injection Hnew as Hnew <-.
  do 2 (apply st_bind_Ok in H as (? & ? & ? & H)). injection H as <- _.
  unfold expect in Hnew. destruct (TONIncluder_new _ _ _) as [i|e|] eqn:E; [|done..].
  injection Hnew as ->. by eexists.
Qed.

(** The log of [run_includer], by how its [select!] ends. *)
Lemma run_includer_log (h : Host) includer l :
  let ended := selected h (l ++ [SpawnIncluder includer INCLUDER_TASKS]) in
  exists after,
    snd (run_includer h includer l) =
      l ++ [SpawnIncluder includer INCLUDER_TASKS; Selected ended; CancelToken;
            CloseQueue INCLUDER_TASKS; CloseQueue CONSTRUCT_PROOF; AwaitHandle] ++ after /\
    (after = [FlushLogs] \/ after = [] /\ ended = None) /\
    ((forall l, poll_again h l = Panic) -> ended = None ->
     fst (run_includer h includer l) = Panic /\ after = []).
Proof.
  cbv zeta. unfold run_includer, await_handle, select, note, st_bind, flush_logs. cbn [fst snd].
  destruct (selected h _) as [[]|] eqn:E; cbn [fst snd].
  1-2: exists [FlushLogs]; rewrite <- !app_assoc; split_and!; by auto.
  destruct (poll_again h _) as [[]|e|] eqn:Ep; cbn [fst snd].
  - exists [FlushLogs]. rewrite <- !app_assoc. split_and!; [by auto..|]. intros Hp. by rewrite Hp in Ep.
  - exists []. rewrite <- !app_assoc. split_and!; [by auto..|]. intros Hp. by rewrite Hp in Ep.
  - exists []. rewrite <- !app_assoc. split_and!; by auto.
Qed.

Lemma in_includer_log l includer ended after (a : action) :
  after = [FlushLogs] \/ after = [] /\ ended = None ->
  a ∈ l ++ [SpawnIncluder includer INCLUDER_TASKS; Selected ended; CancelToken;
            CloseQueue INCLUDER_TASKS; CloseQueue CONSTRUCT_PROOF; AwaitHandle] ++ after ->
  a ∈ l \/ a = SpawnIncluder includer INCLUDER_TASKS \/ a = Selected ended \/
  match a with CancelToken | CloseQueue _ | AwaitHandle | FlushLogs => True | _ => False end.
Proof.
  intros Ha. cbn [app]. rewrite elem_of_app, !elem_of_cons.
  intros [H|[->|[->|[->|[->|[->|[->|H]]]]]]]; auto.
  destruct Ha as [->|[-> _]]; [apply list_elem_of_singleton in H as ->; auto|by apply not_elem_of_nil in H].
Qed.

Lemma includer_main_runs (h : Host) :
  (exists includer l, includer_setup h [] = (Ok includer, l) /\ Forall prepares l /\
     ton_includer_main h [] = run_includer h includer l) \/
  Forall prepares (snd (ton_includer_main h [])).
Proof.
  pose proof (adds_forall prepares (includer_setup h) [] (includer_setup_prepares h)
    (List.Forall_nil _)) as Hp.
  unfold ton_includer_main. rewrite st_bind_run.
  destruct (includer_setup h []) as [[includer|e|] l] eqn:E; cbn [snd] in *; [|by right..].
  left. by exists includer, l.
Qed.

Lemma includer_sends (h : Host) config :
  reads h config -> Forall (sends_to_contracts config) (snd (ton_includer_main h [])).
Proof.
  intros Hr.
  assert (Hp : forall l, Forall prepares l -> Forall (sends_to_contracts config) l)
    by (intros l Hl; eapply Forall_impl; [exact Hl|]; by intros []).
  destruct (includer_main_runs h) as [(includer & l & Hs & Hl & ->)|Hl]; [|by apply Hp].
  destruct (includer_setup_Ok _ _ _ _ _ Hr Hs) as (build & Hnew).
  apply (adds_forall (sends_to_contracts config) (run_includer h includer)); [|by apply Hp].
  unfold run_includer. walk; [by eapply TONIncluder_new_contracts|].
  match goal with |- Moves _ (match ?e with _ => _ end) => destruct e as [[]|] end; by apply note_adds.
Qed.

Lemma done_in (P : action -> Prop) {A} (m : main_of A) a :
  Moves (adds P) m -> a ∈ snd (m []) -> P a.
Proof.
  intros Hm. apply Forall_forall. by apply adds_forall.
Qed.

(** The processes agree: with one configuration, on any hosts, the subscriber
    polls only the three contracts that the ingestor parses, under a cursor
    named by the contract and the chain; the includer sends to the same gateway
    and gas service, from wallets that the ingestor counts as its own; and the
    account checker watches those wallets and the three contracts. *)
Theorem one_configuration (h1 h2 h3 h4 : Host) config account sub parser model tasks events
    includer queue watched min_balance forever :
  (forall s a, TonAddress_from_base64_url s = inr a -> TonAddress_from_str s = inr a) ->
  reads h1 config -> reads h2 config -> reads h3 config -> reads h4 config ->
  SpawnSubscriber account sub ∈ snd (ton_subscriber_main h1 []) ->
  RunIngestor parser model tasks events ∈ snd (ton_ingestor_main h2 []) ->
  SpawnIncluder includer queue ∈ snd (ton_includer_main h3 []) ->
  CheckAccounts watched min_balance forever ∈ snd (ton_account_checker_main h4 []) ->
  let broadcaster := includer_broadcaster includer in
  account ∈ [TraceParser.gateway_address parser; TraceParser.gas_service_address parser;
             its_address parser] /\
  context sub = TonAddress_to_string account /\
  Subscriber.chain_name sub = TraceParser.chain_name parser /\
  Broadcaster.chain_name broadcaster = TraceParser.chain_name parser /\
  Broadcaster.gateway_address broadcaster = TraceParser.gateway_address parser /\
  Broadcaster.gas_service_address broadcaster = TraceParser.gas_service_address parser /\
  (forall a, is_Some (wallets (wallet_manager broadcaster) !! a) ->
     a ∈ our_addresses (gas_calculator parser)) /\
  watched = our_addresses (gas_calculator parser) ++ [its_address parser].
Proof.
  intros Hext H1 H2 H3 H4 Hs Hi Hn Hc.
  apply (done_in _ _ _ (subscriber_polls h1 config H1)) in Hs as (Hs1 & Hs2 & gw & gs & its & (E1 & E2 & E3) & Hin).
  apply (done_in _ _ _ (ingestor_parses h2 config H2)) in Hi as ((G1 & G2 & G3) & Hi2 & own & Hw & Ho).
  eapply Forall_forall in Hn; [|by apply includer_sends].
  destruct Hn as (B1 & B2 & B3 & B4).
  apply (done_in _ _ _ (checker_watches h4 config H4)) in Hc as (own' & gw' & gs' & its' & Hw' & (F1 & F2 & F3) & ->).
  apply Hext in E1, E2, E3, B1, B2. rewrite E1 in *. rewrite E2 in *. rewrite E3 in *.
  injection G1 as ->. injection G2 as ->. injection G3 as ->. injection F1 as <-.
  injection F2 as <-. injection F3 as <-. injection B1 as B1. injection B2 as B2. cbv zeta.
  split_and!; [done|done|congruence..|done|done| |].
  - intros a Ha. destruct (B4 a Ha) as (w & Hin' & Hwa). rewrite Ho. apply elem_of_app. left.
    apply list_elem_of_lookup in Hin' as (k & Hk).
    destruct (Forall2_lookup_l _ _ _ _ _ Hw Hk) as (a' & Ha' & Hwa'). apply Hext in Hwa.
    rewrite Hwa in Hwa'. injection Hwa' as ->. by eapply list_elem_of_lookup_2.
  - assert (own' = own) as ->.
    { eapply Forall2_unique; [exact Hw'|exact Hw|]. intros w a b Ha Hb. cbn beta in Ha, Hb.
      rewrite Ha in Hb. by injection Hb. }
    rewrite Ho, <- app_assoc. cbn [app]. congruence.
Qed.

(** C37. The includer stops in order: however its [main] goes after it started
    the includer, it cancels the token, then closes both queues, then waits for
    the includer, and does nothing else but write out the logs; unless the
    includer ended by itself, it does write them out. *)
Theorem includer_shutdown (h : Host) includer tasks :
  SpawnIncluder includer tasks ∈ snd (ton_includer_main h []) ->
  exists before ended after,
    snd (ton_includer_main h []) =
      before ++ [SpawnIncluder includer tasks; Selected ended; CancelToken;
                 CloseQueue INCLUDER_TASKS; CloseQueue CONSTRUCT_PROOF; AwaitHandle] ++ after /\
    Forall prepares before /\
    (after = [FlushLogs] \/ after = [] /\ ended = None).
Proof.
  intros Hin. destruct (includer_main_runs h) as [(i & l & Hs & Hl & Hrun)|Hl];
    [|by eapply Forall_forall in Hl; [|exact Hin]].
  rewrite Hrun in *. destruct (run_includer_log h i l) as (after & Hlog & Ha & _). rewrite Hlog in *.
  destruct (in_includer_log _ _ _ _ _ Ha Hin) as [Hl'|[[= -> ->]|[[=]|[]]]];
    [by eapply Forall_forall in Hl; [|exact Hl']|].
  by exists l, (selected h (l ++ [SpawnIncluder i INCLUDER_TASKS])), after.
Qed.

(** When the includer ends by itself its [main] panics: the handle was
    awaited by the [select!], and is awaited again.  A [JoinHandle] polled after
    it was ready panics; then the logs are not written out. *)
Theorem includer_own_stop_panics (h : Host) :
  (forall l, poll_again h l = Panic) -> Selected None ∈ snd (ton_includer_main h []) ->
  fst (ton_includer_main h []) = Panic /\ FlushLogs ∉ snd (ton_includer_main h []).
Proof.
  intros Hp Hin. destruct (includer_main_runs h) as [(i & l & Hs & Hl & Hrun)|Hl];
    [|by eapply Forall_forall in Hl; [|exact Hin]].
  rewrite Hrun in *. destruct (run_includer_log h i l) as (after & Hlog & Ha & Hstop).
  assert (Hno : forall a, a ∈ l -> prepares a) by (by apply Forall_forall).
  assert (He : selected h (l ++ [SpawnIncluder i INCLUDER_TASKS]) = None).
  { rewrite Hlog in Hin.
    destruct (in_includer_log _ _ _ _ _ Ha Hin) as [H|[[=]|[[= <-]|[]]]]; [by apply Hno in H|done]. }
  destruct (Hstop Hp He) as [Hr ->]. split; [done|]. rewrite Hlog, app_nil_r.
  rewrite elem_of_app, !elem_of_cons. intros [H|H]; [by apply Hno in H|].
  destruct H as [H|[H|[H|[H|[H|[H|H]]]]]]; [done..|by apply not_elem_of_nil in H].
Qed.

(** ** Starting up, when nothing fails *)

(** A host where no action fails, with a configuration that parses. *)
Record healthy (h : Host) (config : TONConfig) (gateway gas_service its : TonAddress)
    (own : list TonAddress) : Prop := {
  healthy_reads : reads h config;
  healthy_fails l a : fails h l a = None;
  healthy_client l a b c : http_build h l a b c = inr tt;
  healthy_db l context : exists lt,
    get_latest_height (config_chain_name (common_config config)) context (postgres_db h l) = inr lt;
  healthy_str : contracts TonAddress_from_str config gateway gas_service its;
  healthy_url : contracts TonAddress_from_base64_url config gateway gas_service its;
  healthy_own : wallets_from TonAddress_from_str config own;
  healthy_wallets : exists ws, WalletManager_new (config_wallets config) = Ok ws;
}.

Section Startup.
Context (h : Host) (config : TONConfig) (gateway gas_service its : TonAddress) (own : list TonAddress).
Context (Hh : healthy h config gateway gas_service its own).

Lemma bind_step {A B} (m : main_of A) (f : A -> main_of B) (l : list action) a l' :
  m l = (Ok a, l') -> st_bind m f l = f a l'.
Proof. intros Hm. by rewrite st_bind_run, Hm. Qed.

Lemma lift_step {A} (m : res MainError A) a (l : list action) :
  m = Ok a -> st_lift m l = (Ok a, l).
Proof. by intros ->. Qed.

Lemma attempt_step a l : attempt h a l = (Ok tt, l ++ [a]).
Proof. unfold attempt. by rewrite (healthy_fails _ _ _ _ _ _ Hh). Qed.

Lemma client_step l : exists c l', new_client h config l = (Ok c, l').
Proof. unfold new_client, TONRpcClient_new. rewrite (healthy_client _ _ _ _ _ _ Hh). by do 2 eexists. Qed.

Lemma redis_step l : exists l', connect_redis h config l = (Ok tt, l').
Proof.
  eexists. unfold connect_redis. rewrite (bind_step _ _ _ _ _ (attempt_step _ _)). apply attempt_step.
Qed.

Lemma listen_step l : exists l', listen h l = (Ok tt, l').
Proof. eexists. unfold listen. rewrite (bind_step _ _ _ _ _ (attempt_step _ _)). apply attempt_step. Qed.

Lemma config_step l : read_config h l = (Ok config, l).
Proof.
  destruct (healthy_reads _ _ _ _ _ _ Hh) as (network & Hn & Hc). unfold read_config.
  rewrite Hn, st_bind_run. cbn [ok_or expect st_lift fst snd]. by rewrite Hc.
Qed.

Lemma foreign_step {A} (m : fres A) a : m = inr a -> foreign m = Ok a.
Proof. by intros ->. Qed.

Lemma wallets_step : wallet_addresses config = Ok own.
Proof.
  apply res_mapM_Ok. eapply Forall2_impl; [exact (healthy_own _ _ _ _ _ _ Hh)|].
  intros w a. apply foreign_step.
Qed.

(** One step of a [main] that does not fail. *)
Ltac run_step :=
  lazymatch goal with
  | |- context [st_bind (read_config _) _ ?l] => rewrite (bind_step _ _ l _ _ (config_step l))
  | |- context [st_bind (note ?a) _ ?l] => rewrite (bind_step (note a) _ l tt _ eq_refl)
  | |- context [st_bind (new_queue _ _) _ _] => unfold new_queue
  | |- context [st_bind (attempt _ ?a) _ ?l] => rewrite (bind_step _ _ l _ _ (attempt_step a l))
  | |- context [st_bind (st_lift (foreign _)) _ ?l] =>
      erewrite (bind_step (st_lift (foreign _)) _ l);
      [|apply lift_step, foreign_step; first [apply (healthy_str _ _ _ _ _ _ Hh) | apply (healthy_url _ _ _ _ _ _ Hh)]]
  | |- context [st_bind (st_lift (wallet_addresses _)) _ ?l] =>
      rewrite (bind_step _ _ l _ _ (lift_step _ _ l wallets_step))
  | |- context [st_bind (connect_redis _ _) _ ?l] =>
      let l' := fresh "l" in let H := fresh in
      destruct (redis_step l) as [l' H]; rewrite (bind_step _ _ l _ _ H); clear H
  | |- context [st_bind (new_client _ _) _ ?l] =>
      let c := fresh in let l' := fresh "l" in let H := fresh in
      destruct (client_step l) as (c & l' & H); rewrite (bind_step _ _ l _ _ H); clear H
  | |- context [st_bind (listen _) _ ?l] =>
      let l' := fresh "l" in let H := fresh in
      destruct (listen_step l) as [l' H]; rewrite (bind_step _ _ l _ _ H); clear H
  | |- context [st_bind st_get _ ?l] => rewrite (bind_step st_get _ l l l eq_refl)
  end.

Lemma flush_in a l : a ∈ l -> a ∈ snd (flush_logs h l).
Proof. intros Ha. cbn [flush_logs snd]. apply elem_of_app. by left. Qed.

Lemma ingestor_runs : exists parser, RunIngestor parser (ton_traces h) INGESTOR_TASKS EVENTS
  ∈ snd (ton_ingestor_main h []).
Proof.
  unfold ton_ingestor_main. repeat run_step. cbv zeta. repeat run_step.
  eexists. apply flush_in, elem_of_app. right. by left.
Qed.

Lemma checker_runs : exists watched, CheckAccounts watched MIN_BALANCE true
  ∈ snd (ton_account_checker_main h []).
Proof.
  unfold ton_account_checker_main. repeat run_step. cbv zeta. repeat run_step.
  eexists. rewrite (bind_step (select h) _ _ _ _ eq_refl). apply flush_in.
  apply elem_of_app. left. apply elem_of_app. right. by left.
Qed.

Lemma spawn_step accounts l : exists l', spawn_subscribers h config accounts l = (Ok tt, l') /\
  (forall a, a ∈ l -> a ∈ l') /\
  forall account, account ∈ accounts -> exists sub, SpawnSubscriber account sub ∈ l'.
Proof.
  revert l. induction accounts as [|a accounts IH]; intros l.
  { exists l. split_and!; [done..|]. intros a Ha. by apply not_elem_of_nil in Ha. }
  destruct (healthy_db _ _ _ _ _ _ Hh l (TonAddress_to_string a)) as [lt Hlt].
  cbn [spawn_subscribers]. run_step. unfold TONSubscriber_new. rewrite Hlt. cbn [fr map_err res_bind].
  rewrite (bind_step _ _ _ _ _ (lift_step (Ok _) _ l eq_refl)). run_step.
  match goal with |- context [SpawnSubscriber a ?s] => set (sub := s) end.
  destruct (IH (l ++ [SpawnSubscriber a sub])) as (l' & -> & Hl & Hs). exists l'. split_and!; [done| |].
  - intros b Hb. apply Hl, elem_of_app. by left.
  - intros b [->|Hb]%elem_of_cons; [|by apply Hs]. exists sub. apply Hl, elem_of_app. right. by left.
Qed.

Lemma subscriber_runs account : account ∈ [gateway; gas_service; its] ->
  exists sub, SpawnSubscriber account sub ∈ snd (ton_subscriber_main h []).
Proof.
  intros Ha. unfold ton_subscriber_main. repeat run_step.
  match goal with |- context [st_bind (spawn_subscribers _ _ ?accounts) _ ?l] =>
    destruct (spawn_step accounts l) as (l' & Hl & _ & Hs); rewrite (bind_step _ _ _ _ _ Hl) end.
  destruct (Hs account Ha) as [sub Hsub]. exists sub. unfold RetryTONSubscriber_new. cbn [map_err].
  rewrite (bind_step _ _ _ _ _ (lift_step (Ok _) _ _ eq_refl)). repeat run_step.
  rewrite (bind_step (abort_handles 0 4) _ _ tt _ eq_refl). repeat run_step. apply flush_in.
  repeat (apply elem_of_app; left). done.
Qed.

Lemma includer_runs : exists includer l,
  SpawnIncluder includer INCLUDER_TASKS ∈ snd (ton_includer_main h []) /\
  Selected (selected h l) ∈ snd (ton_includer_main h []).
Proof.
  destruct (healthy_wallets _ _ _ _ _ _ Hh) as [ws Hws].
  destruct (healthy_url _ _ _ _ _ _ Hh) as (Hg & Hs & _).
  assert (Hnew : exists i, forall l, TONIncluder_new (http_build h l) config CONSTRUCT_PROOF = Ok i).
  { eexists. intros l. unfold TONIncluder_new, TONIncluder_broadcaster, TONRpcClient_new.
    by rewrite Hws, Hg, Hs, (healthy_client _ _ _ _ _ _ Hh). }
  destruct Hnew as [i Hi].
  assert (Hset : exists l, includer_setup h [] = (Ok i, l)).
  { unfold includer_setup. repeat run_step. rewrite Hi.
    rewrite (bind_step _ _ _ _ _ (lift_step (expect (Ok i)) i _ eq_refl)). repeat run_step. by eexists. }
  destruct Hset as [l Hl]. unfold ton_includer_main. rewrite (bind_step _ _ _ _ _ Hl).
  destruct (run_includer_log h i l) as (after & -> & _). do 2 eexists.
  split; (apply elem_of_app; right); [by left|by right; left].
Qed.
End Startup.
End BinariesProofs.

(** ** Applications at concrete inputs *)

From S2P Require Import Instances BroadcastDemo.

Definition ex_config : TONConfig := {|
  common_config := {| config_chain_name := "ton2"; queue_address := "amqp://localhost"; num_workers := 4;
    postgres_url := "postgres://localhost"; redis_server := "redis://localhost"; refunds_enabled := true |};
  config_wallets := [{| wc_public_key := "0a"; wc_secret_key := "0b"; wc_subwallet_id := 1;
    wc_timeout := 60; wc_address := TonAddress_to_string (ex_address 4) |}];
  ton_gateway := TonAddress_to_string (ex_address 7);
  ton_gas_service := TonAddress_to_string (ex_address 8);
  ton_its := TonAddress_to_string (ex_address 9);
  ton_rpc := "https://toncenter.com"; ton_api_key := "key";
  gas_estimates := est_config ex_estimator |}.

(** A host on which nothing fails; a second await of a handle panics. *)
Definition ex_host (ended : option unix_signal) : Host (N := unit) (D := option Z) (S := unit) := {|
  NETWORK := Some "testnet";
  config_from_yaml := fun _ => inr ex_config;
  fails := fun _ _ => None;
  http_build := fun _ _ _ _ => inr tt;
  rpc_client := tt;
  postgres_db := fun _ => None;
  ton_traces := tt;
  received := fun _ => SIGTERM;
  selected := fun _ => ended;
  poll_again := fun _ => Panic;
|}.

Lemma ex_reads ended : reads (ex_host ended) ex_config.
Proof. by exists "testnet". Qed.


Lemma ex_wallets : match WalletManager_new (config_wallets ex_config) with Ok _ => true | _ => false end = true.
Proof. by vm_compute. Qed.

Lemma ex_healthy ended :
  healthy (ex_host ended) ex_config (ex_address 7) (ex_address 8) (ex_address 9) [ex_address 4].
Proof.
  split; [apply ex_reads|done|done|by exists None|by split_and!; vm_compute|by split_and!; vm_compute| |].
  - constructor; [by vm_compute|constructor].
  - pose proof ex_wallets as Hw. destruct (WalletManager_new _) as [ws|e|]; [by exists ws|done..].
Qed.

Lemma one_configuration_witness :
  exists account sub parser includer watched,
  let broadcaster := includer_broadcaster includer in
  account ∈ [TraceParser.gateway_address parser; TraceParser.gas_service_address parser;
             its_address parser] /\
  context (N := unit) (D := option Z) (S := unit) sub = TonAddress_to_string account /\
  Subscriber.chain_name sub = TraceParser.chain_name parser /\
  Broadcaster.chain_name broadcaster = TraceParser.chain_name parser /\
  Broadcaster.gateway_address broadcaster = TraceParser.gateway_address parser /\
  Broadcaster.gas_service_address broadcaster = TraceParser.gas_service_address parser /\
  (forall a, is_Some (wallets (wallet_manager broadcaster) !! a) ->
     a ∈ our_addresses (gas_calculator parser)) /\
  watched = our_addresses (gas_calculator parser) ++ [its_address parser].
Proof.
  destruct (subscriber_runs _ _ _ _ _ _ (ex_healthy None) (ex_address 8)) as [sub Hs];
    [right; by left|].
  destruct (ingestor_runs _ _ _ _ _ _ (ex_healthy None)) as [parser Hi].
  destruct (includer_runs _ _ _ _ _ _ (ex_healthy None)) as (includer & ? & Hn & _).
  destruct (checker_runs _ _ _ _ _ _ (ex_healthy None)) as [watched Hc].
  exists (ex_address 8), sub, parser, includer, watched.
  exact (one_configuration (ex_host None) (ex_host None) (ex_host None) (ex_host None) ex_config
    (ex_address 8) sub parser tt INGESTOR_TASKS EVENTS includer INCLUDER_TASKS watched MIN_BALANCE true
    (fun _ _ H => H) (ex_reads None) (ex_reads None) (ex_reads None) (ex_reads None) Hs Hi Hn Hc).
Defined.

Lemma includer_shutdown_witness :
  exists includer before ended after,
    snd (ton_includer_main (ex_host (Some SIGTERM)) []) =
      before ++ [SpawnIncluder includer INCLUDER_TASKS; Selected ended; CancelToken;
                 CloseQueue INCLUDER_TASKS; CloseQueue CONSTRUCT_PROOF; AwaitHandle] ++ after /\
    Forall prepares before /\
    (after = [FlushLogs] \/ after = [] /\ ended = None).
Proof.
  destruct (includer_runs _ _ _ _ _ _ (ex_healthy (Some SIGTERM))) as (includer & ? & Hn & _). exists includer.
  exact (includer_shutdown (ex_host (Some SIGTERM)) includer INCLUDER_TASKS Hn).
Defined.

Lemma includer_own_stop_panics_witness :
  fst (ton_includer_main (ex_host None) []) = Panic /\
  FlushLogs ∉ snd (ton_includer_main (ex_host None) []).
Proof.
  destruct (includer_runs _ _ _ _ _ _ (ex_healthy None)) as (includer & l & _ & Hs).
  exact (includer_own_stop_panics (ex_host None) (fun _ => eq_refl) Hs).
Defined.
